(* ===== verification/_CoqProject ===== *)
-Q . S2P
Prelude.v
PyDecimal.v
Nano.v
PyText.v
OrderStatus.v
OrderSchema.v
OrderId.v
Twap.v
PositionMath.v
GatewayDb.v
OrderCas.v
FillOps.v
WebhookSecurity.v
Webhook.v
Redis.v
RedisClient.v
KillSwitch.v
Breaker.v
Reservation.v
RiskChecker.v
FatFinger.v
ReconState.v
PyDict.v
Liquidity.v
Recovery.v
Gateway.v
Access.v
PriceFeed.v
SliceExec.v
SliceRecovery.v
ReconHelpers.v
ReconFills.v
ReconOrders.v
ReconPositions.v
ReconOrphans.v
ReconMods.v
ReconService.v
OrderGates.v
OrderSubmit.v
OrderOutcome.v
OrderFaults.v
OrderExamples.v
OrderModify.v
ModifyRecords.v
ModifySafety.v
ModifyOutcome.v
ModifyExamples.v
OrderCancel.v
RateLimiter.v
Calendar.v
ManualText.v
Listings.v
Mfa.v
ManualBase.v
ManualCancel.v
ManualPositions.v
ManualPlace.v
ManualMoves.v
ManualAdjust.v
ManualFlatten.v
ManualLists.v
ManualOrders.v
ManualSafety.v
ManualRecords.v
ManualOutcome.v
ManualExamples.v
TwapSubmit.v
TaxLots.v
WashSale.v
WashLedger.v
Harvest.v
Formats.v
Form8949.v
ServiceAuth.v
Orchestrator.v
OrchestratorSafety.v
OrchestratorService.v
Alerts.v
AlertDelivery.v
AlertSystem.v
