(* ===== verification/Prelude.v ===== *)
(** * Trading platform: verification of the execution and risk core

    The platform trades equities through a broker (Alpaca).  Strategies and operators submit
    orders to the execution gateway (src/apps/execution_gateway), which validates them, checks them against
    the risk components (src/libs/trading/risk_management), sends them to the broker, and keeps
    orders, fills, trades and positions in PostgreSQL.  The broker reports back through a webhook, and a
    reconciliation service compares the database with the broker at start-up and periodically.  The risk
    components share their state through Redis.  This development models that core; every definition
    is executable, and the theorems hold for all inputs and all interleavings stated.

    ** How the parts interact, and the file that models each

    - Requests: [OrderSchema] is OrderRequest and its validators (schemas.py); [OrderId] hashes a request
      into its identifier (order_id_generator.py); [Twap] splits a TWAP request into slices
      (order_slicer.py), each with an identifier of its own.
    - The gateway at work: [Gateway] is the state its handlers share (database, switches, Redis, the startup
      gate, the scheduler's jobs, the requests the broker has received), the environment they run in, and
      the broker's client (app_context.py, alpaca_client.py).  [OrderGates] and [OrderSubmit] are the
      submission handler (routes/orders.py), [PriceFeed] and [Liquidity] the price and volume it checks
      an order against (services/order_helpers.py, liquidity_service.py), [SliceExec] and [SliceRecovery]
      the execution of TWAP slices and their recovery after a restart (slice_scheduler.py), [TwapSubmit] the TWAP
      endpoints (routes/slicing.py), [Recovery] the
      manager that holds the safety components (recovery_manager.py).  [OrderOutcome] and
      [OrderFaults] state what a submission leaves behind, [OrderExamples] has a concrete gateway.
      [Access] has the users and their strategies, [Gateway.Accounts] the rules for what a handler has sent;
      [OrderModify] is the modification handler, with [ModifyRecords], [ModifySafety], [ModifyOutcome] and
      [ModifyExamples], [OrderCancel] the cancellation handler (routes/orders.py).
    - Manual controls (api/manual_controls.py): [RateLimiter] is the limiter over Redis (rate_limiter.py), [Calendar]
      and [ManualText] the minute, the reason and the identifier of a request, [Listings] the queries
      (database.py), [Mfa] the second factor (api/dependencies.py).  [ManualBase] has what every action shares: audit log,
      permissions, limits and switches.  [ManualCancel] cancels one order or a symbol's, [ManualPositions] closes,
      adjusts and flattens positions, [ManualOrders] takes an operator's own orders, [ManualLists] lists.
      [ManualPlace], [ManualMoves], [ManualAdjust], [ManualFlatten], [ManualOutcome] state what they do when
      nobody interferes, [ManualSafety] and [ManualRecords] what they never do, [ManualExamples] has an operator at work.
    - Database: [GatewayDb] has the tables with the constraints of src/db, and the methods of
      DatabaseClient as transactions; [OrderStatus] the status ranks; [OrderCas] the conflict resolution of
      broker updates; [PositionMath] the position arithmetic; [FillOps] fill metadata, trades,
      positions and the replay of realised profit (database.py).
    - Webhook: [WebhookSecurity] (webhook_security.py) and [Webhook] (routes/webhooks.py), from the raw body to
      the database.
    - Risk: [KillSwitch], [Breaker], [Reservation] keep their state in Redis ([Redis] has the data
      structures, [RedisClient] the client with its retries); [RiskChecker] asks the three through
      interfaces (type classes) and decides; [FatFinger] has the order size limits of the gateway.
    - Reconciliation: [ReconState] is the startup gate, [ReconHelpers] (with the broker's answers),
      [ReconFills], [ReconOrders], [ReconPositions], [ReconOrphans], [ReconMods] the steps of a run, and
      [ReconService] the run, the startup run and the periodic loop (reconciliation/).
    - Taxes: [TaxLots] has the tables and the service that edits lots (tax_lot_service.py), [WashSale] the detector and its
      adjustments (wash_sale_detector.py) and [WashLedger] what they keep, [Harvest] the search for losses
      (tax_loss_harvesting.py), [Form8949] the tax form (form_8949.py, export.py) and [Formats] the CSV text it is written in.
    - Between services: [ServiceAuth] signs and verifies the requests one service sends another
      (clients.py, libs/core/common/api_auth_dependency.py), over the JSON texts of [Formats].
    - Orchestrator (apps/orchestrator): [Orchestrator] turns signals into priced, sized and submitted orders (orchestrator.py,
      clients.py), [OrchestratorSafety] states what a run guarantees, [OrchestratorService] has the endpoints and the
      tables of runs (main.py, database.py) with concrete runs.
    - Alerts (libs/platform/alerts, apps/alert_worker): [Alerts] has the tables, the manager that turns a triggered rule into
      deliveries and jobs, and the channels, [AlertDelivery] the executor of a job and the worker, [AlertSystem] the manager, the queue
      and the worker together.
    - Shared: [Prelude] (the error-and-state monad, its invariant rules, tactics and list lemmas), [PyDecimal]
      (Python decimals), [Nano] (quantities of at most nine decimals), [PyText] (strings, SHA-256, dates), [PyDict] (insertion-ordered dicts).

    ** State and operations

    A method that reads or writes shared state is a value of [M S A], a function from the state to a
    result (a value or a Python exception) and the state after it: an exception does not undo what was
    done before it.  [transaction] restores the database when its body raises, as [with conn.transaction()]
    does; a statement that violates a constraint raises IntegrityError inside it.  A database row is what the code
    reads back (OrderDetail); NULL is [None], NUMERIC is a decimal, a timestamp is a number of
    microseconds.  Redis scripts (Lua) are one step; WATCH/MULTI/EXEC transactions are step relations,
    one command at a time, over any number of clients.  The clock is an argument: one reading per operation,
    and in reconciliation one per part of the run that reads it.  In the handlers and the slice jobs every
    call outside the process is a step: before it other workers may change the shared state in any way
    ([others]), the call may fail, before or after it took effect ([fates]), and the broker answers the whole
    history of requests ([broker_api]); the orchestrator's services answer in the same way; a theorem names what it assumes of them.  Code outside src/ is a parameter: the
    JSON decoder of the webhook, the sampling of [random.Random], the broker's answers (fixed during a
    run), the network's fate of each command, and the iteration order of Python sets.

    ** What the theorems show

    - Orders converge: whatever the order and repetition of broker updates, the row ends with the newest one,
      ranks and quantities never go back at one timestamp, and every statement keeps the schema's
      constraints ([OrderCas]); reconciliation writes the broker's state into each open order and
      changes an order the broker did not list only for a stated reason ([ReconOrders]).
    - Fills are booked once: position, trades and metadata move by the increment of an accepted fill and
      exactly once ([Webhook], [FillOps], [ReconFills]); the position conserves cash up to the
      rounding of 28-digit decimals ([PositionMath]); the realised profit replay is idempotent.
    - Trading halts: the kill switch is engaged until disengaged and its audit trail is its history
      ([KillSwitch]); the circuit breaker is linearizable under lost commands and replies ([Breaker]);
      concurrent reservations never exceed the position limit ([Reservation]); an accepted order passed
      every check ([RiskChecker], [FatFinger]).
    - Submissions: a closed gate refuses every order; nothing is sent that the database does not have; an
      accepted order is recorded and keeps its shares reserved, a refused one says why and gives
      them back; a repeated order is not sent again ([OrderSubmit], [OrderOutcome], [OrderFaults]); while startup
      reconciliation runs only reductions pass ([OrderGates]).
    - Modifications: the replacement that is sent is recorded first, completed or failed with its reservation, and
      the reconciliation rebuilds the same request ([ModifyRecords], [ModifyOutcome], [ModifySafety]).
    - Operators: a close is on the other side and never larger than the position, an adjustment is the difference to the
      target, flattening sends one closing order per position; each order is written before it is sent, and the answer is
      the broker's verdict.  No manual order passes an engaged kill switch or a tripped breaker.  Cancelling a symbol asks
      for each order it found once.  The rate limiter keeps its window ([RateLimiter]).
    - Slices: a due slice is sent only past all guards, at most three times, and its row says what became
      of it ([SliceExec]); recovered slices run in a session, once ([SliceRecovery]).
    - TWAP orders: a stopped request is refused, a repeated one is answered from the table, cancelling touches the
      pending slices of its parent only, and no new TWAP order can be written: the statement for its parent order has
      a placeholder too few ([TwapSubmit]).
    - Taxes: a loss is matched with the purchases around the sale, oldest first and within what they can replace
      ([WashSale]); the losses disallowed and the costs of the lots are the sums of the adjustments, to the unit of the
      columns and across retries ([WashLedger]); shares sold from a lot stay sold ([TaxLots]); a harvested lot without a
      warning is no wash sale when it is sold in full ([Harvest]); the form adds up and its file reads back ([Form8949]).
    - Between services: a request is believed exactly when it is signed by an allowed service for this method, path,
      query, user and body, in time and with a new nonce; a token is accepted once; in enforce mode nothing unauthenticated
      passes ([ServiceAuth]).
    - The orchestrator: every order of a run is sized at a fresh published price within the position limit and the signal's
      share of the capital, every request it sends is in its report and recognised by the gateway ([OrchestratorSafety]); a run
      starts only while trading is active, and only a database failure can lose its report ([OrchestratorService]).
    - Alerts: a job sends its delivery at most three times and never again once a channel accepted it, whatever fails
      ([AlertDelivery]); while the database and Redis answer no delivery is lost: a pending one has exactly one job, the queue's
      depth is its number of jobs, and a delivered one was accepted exactly once ([AlertSystem]).
    - Recovery: no component is declared available without having answered; when Redis is
      back one attempt restores them all ([Recovery]).
    - Errors: a webhook either commits its fill or leaves the database unchanged ([Webhook]); a
      reconciliation run that raises leaves the high-water mark and the gate alone ([ReconService]); Redis
      outages close the quarantine check and end the loop ([ReconOrphans], [ReconService]).
    - Plans and identifiers: slices sum to the order, are in time order, planning succeeds exactly on
      well-formed arguments ([Twap]); the hashed text determines the order ([OrderId]).

    ** Fuel and bounds

    Recursion is structural.  [ndigits] counts digits with fuel log2 of the number plus one, enough by
    [ndigits_fuel_spec]; [Sha256.chunks] takes the length of the message as fuel; page reads
    take the code's own [max_pages]; retries the code's three attempts; the loop of an alert's
    delivery takes six, three attempts and three waits ([AlertDelivery.loop_terminates]).  Share counts in Lua scripts are
    integers below 2^53, exact in doubles; INTEGER and NUMERIC columns are range checked where a
    statement can overflow them.

    ** Not modelled, and why

    Metrics, logging and the performance cache (no effect on the modelled state); the connection pool
    and asyncio scheduling; FastAPI's request plumbing and the authentication of sessions; the broker and HTTP
    (their answers are parameters); the reading endpoints of the order routes; the allocator of multi-strategy runs and the decoding of JWTs
    (arguments); the PagerDuty channel (three regular expressions); the web console, the signal service, data pipelines, research and machine-learning
    code (data frames and floating point without a specification to prove against).  NaN and infinite
    decimals are left out: the modelled code builds its decimals from finite inputs. *)

From stdpp Require Export base gmap strings list list_numbers pretty sorting.
From Stdlib Require Export ZArith Lia.

Set Default Goal Selector "!".

(** ** Python exceptions and the effect monad

    [M S A] is a computation over a mutable state [S] (a database, a Redis
    instance) that returns a value or raises.  The state survives an
    exception, as a Python object or a Redis key does; a database transaction
    restores it explicitly ([transaction]). *)

Inductive exn : Type :=
| ValueError (msg : string)
| RuntimeError (msg : string)
| KeyError (key : string)
| IndexError
| InvalidOperation
| DivisionByZero
| IntegrityError (what : string)
| ProgrammingError (what : string)
| CircuitBreakerError (msg : string)
| RetryError
| RedisError
| HTTPException (status : Z) (error : string)
| ConnectionError (msg : string)
| OperationalError (msg : string)
| HttpxError (msg : string)
| AlpacaConnectionError (msg : string)
| AlpacaValidationError (msg : string)
| AlpacaRejectionError (msg : string)
| AlpacaClientError (msg : string)
| RiskViolation (msg : string)
| TypeError (msg : string)
| AttributeError (msg : string)
| PermissionError (msg : string)
| HttpxConnectTimeout (msg : string)
| HttpxTimeout (msg : string)
| HttpxConnectError (msg : string)
| HttpxNetworkError (msg : string)
| HTTPStatusError (status_code : Z) (msg : string)
| ValidationError (msg : string)
| PriceUnavailableError (symbol : string)
| QueueFullError (retry_after : Z)
| InternalError (msg : string).

#[export] Instance exn_eq_dec : EqDecision exn.
Proof. solve_decision. Defined.

Inductive result (A : Type) : Type :=
| Ok (a : A)
| Raise (e : exn).
Arguments Ok {A} a.
Arguments Raise {A} e.

#[export] Instance result_ret : MRet result := fun A a => Ok a.
#[export] Instance result_bind : MBind result := fun A B f m =>
  match m with Ok a => f a | Raise e => Raise e end.
#[export] Instance result_fmap : FMap result := fun A B f m =>
  match m with Ok a => Ok (f a) | Raise e => Raise e end.

#[export] Instance result_eq_dec `{EqDecision A} : EqDecision (result A).
Proof. solve_decision. Defined.

Definition M (S A : Type) : Type := S -> result A * S.

#[export] Instance M_ret S : MRet (M S) := fun A a s => (Ok a, s).
#[export] Instance M_bind S : MBind (M S) := fun A B f m s =>
  match m s with
  | (Ok a, s') => f a s'
  | (Raise e, s') => (Raise e, s')
  end.

Definition raise {S A} (e : exn) : M S A := fun s => (Raise e, s).
Definition get_state {S} : M S S := fun s => (Ok s, s).
Definition put_state {S} (s' : S) : M S unit := fun _ => (Ok tt, s').
Definition reads {S A} (f : S -> A) : M S A := fun s => (Ok (f s), s).
Definition lift {S A} (r : result A) : M S A := fun s => (r, s).

(** [with db.transaction()]: commit on success, restore the state on an
    exception and re-raise it. *)
Definition transaction {S A} (m : M S A) : M S A := fun s =>
  match m s with
  | (Ok a, s') => (Ok a, s')
  | (Raise e, _) => (Raise e, s)
  end.

(** [try: m except ...: h]: [h] chooses by the exception; [None] lets it through. *)
Definition try_except {S A} (m : M S A) (h : exn -> option (M S A)) : M S A := fun s =>
  match m s with
  | (Raise e, s') => match h e with Some c => c s' | None => (Raise e, s') end
  | out => out
  end.

(** A Python [for] loop over a list, threading an accumulator. *)
Fixpoint for_each {S A B} (f : B -> A -> M S B) (b : B) (xs : list A) : M S B :=
  match xs with
  | [] => mret b
  | x :: xs' => b' ← f b x; for_each f b' xs'
  end.

(** ** Monad laws, used to rewrite programs *)

Lemma M_bind_ret_l {S A B} (a : A) (f : A -> M S B) (s : S) :
  (mret a ≫= f) s = f a s.
Proof. reflexivity. Qed.

Lemma M_bind_assoc {S A B C} (m : M S A) (f : A -> M S B) (g : B -> M S C) (s : S) :
  ((m ≫= f) ≫= g) s = (m ≫= (fun a => f a ≫= g)) s.
Proof. unfold mbind, M_bind. by destruct (m s) as [[a|e] s']. Qed.

(** One step of a program. *)
Lemma M_bind_run {S A B} (m : M S A) (f : A -> M S B) s :
  (m ≫= f) s = match m s with (Ok a, s') => f a s' | (Raise e, s') => (Raise e, s') end.
Proof. reflexivity. Qed.

(** A step that ran: either it returned and the rest ran, or it raised. *)
Lemma M_bind_inv {S A B} (m : M S A) (f : A -> M S B) s r s' :
  (m ≫= f) s = (r, s') ->
  (exists a s1, m s = (Ok a, s1) /\ f a s1 = (r, s')) \/ (exists e, m s = (Raise e, s') /\ r = Raise e).
Proof.
  unfold mbind, M_bind. destruct (m s) as [[a|e] s1]; intros H; [left; by exists a, s1|].
  right. exists e. by injection H as <- <-.
Qed.

Lemma for_each_step {S A B} (f : B -> A -> M S B) b x xs s b' s' :
  f b x s = (Ok b', s') -> for_each f b (x :: xs) s = for_each f b' xs s'.
Proof. intros E. simpl. unfold mbind, M_bind. by rewrite E. Qed.

Lemma for_each_app {S A B} (f : B -> A -> M S B) xs ys : forall b (s : S),
  for_each f b (xs ++ ys) s =
  match for_each f b xs s with
  | (Ok b', s') => for_each f b' ys s'
  | (Raise e, s') => (Raise e, s')
  end.
Proof.
  induction xs as [|x xs IH]; intros b s; [done|]. simpl. unfold mbind, M_bind.
  destruct (f b x s) as [[b'|e] s']; [apply IH|done].
Qed.

Lemma transaction_raise {S A} (m : M S A) (s : S) e :
  fst (transaction m s) = Raise e -> snd (transaction m s) = s.
Proof. unfold transaction. by destruct (m s) as [[a|e'] s']. Qed.

(** A state property kept by a computation, whatever its outcome. *)
Definition preserves {S A} (P : S -> Prop) (m : M S A) : Prop :=
  forall s, P s -> P (snd (m s)).

Section preserves.
Context {S : Type} (P : S -> Prop).

Lemma preserves_ret {A} (a : A) : preserves P (mret a : M S A).
Proof. by intros s. Qed.

Lemma preserves_raise {A} e : preserves P (raise e : M S A).
Proof. by intros s. Qed.

Lemma preserves_get : preserves P get_state.
Proof. by intros s. Qed.

Lemma preserves_reads {A} (f : S -> A) : preserves P (reads f).
Proof. by intros s. Qed.

Lemma preserves_lift {A} (r : result A) : preserves P (lift r : M S A).
Proof. by intros s. Qed.

Lemma preserves_bind {A B} (m : M S A) (f : A -> M S B) :
  preserves P m -> (forall a, preserves P (f a)) -> preserves P (m ≫= f).
Proof.
  intros Hm Hf s Hs. unfold mbind, M_bind. specialize (Hm s Hs).
  destruct (m s) as [[a|e] s']; simpl in *; [by apply Hf | done].
Qed.

Lemma preserves_lift_bind {A B} (r : result A) (f : A -> M S B) :
  (forall a, r = Ok a -> preserves P (f a)) -> preserves P (lift r ≫= f).
Proof.
  intros Hf s Hs. unfold mbind, M_bind, lift. destruct r as [a|e]; [|done]. by apply (Hf a eq_refl).
Qed.

Lemma preserves_transaction {A} (m : M S A) :
  preserves P m -> preserves P (transaction m).
Proof.
  intros Hm s Hs. unfold transaction. specialize (Hm s Hs).
  by destruct (m s) as [[a|e] s'].
Qed.

Lemma preserves_try {A} (m : M S A) h :
  preserves P m -> (forall e c, h e = Some c -> preserves P c) -> preserves P (try_except m h).
Proof.
  intros Hm Hh s H. specialize (Hm s H). unfold try_except. destruct (m s) as [[a|e] s1]; [done|].
  destruct (h e) as [c|] eqn:E; [|done]. by apply (Hh e c E).
Qed.

Lemma preserves_for_each {A B} (f : B -> A -> M S B) xs :
  (forall b x, preserves P (f b x)) -> forall b, preserves P (for_each f b xs).
Proof.
  intros Hf. induction xs as [|x xs IH]; intros b; simpl.
  - apply preserves_ret.
  - apply preserves_bind; [apply Hf | apply IH].
Qed.
End preserves.

(** A postcondition on the outcome and the state, from states with [P]. *)
Definition ensures {S A} (P : S -> Prop) (m : M S A) (Q : result A -> S -> Prop) : Prop :=
  forall s, P s -> Q (fst (m s)) (snd (m s)).

(** A step that keeps [P], before a rest that ensures [Q]. *)
Lemma ensures_step {S A B} (P : S -> Prop) (m : M S A) (f : A -> M S B) Q :
  (forall e s, P s -> Q (Raise e) s) -> preserves P m -> (forall a, ensures P (f a) Q) ->
  ensures P (m ≫= f) Q.
Proof.
  intros He Hm Hf s Hs. unfold mbind, M_bind. specialize (Hm s Hs).
  destruct (m s) as [[a|e] s1]; [by apply Hf|by apply He].
Qed.

(** What a computation ensures, for the rest to start from. *)
Lemma ensures_bind {S A B} (P : S -> Prop) (R : A -> S -> Prop) (m : M S A) (f : A -> M S B) Q :
  ensures P m (fun r s => match r with Ok a => R a s | Raise e => Q (Raise e) s end) ->
  (forall a, ensures (R a) (f a) Q) -> ensures P (m ≫= f) Q.
Proof.
  intros Hm Hf s Hs. unfold mbind, M_bind. specialize (Hm s Hs).
  destruct (m s) as [[a|e] s1]; simpl in *; [by apply Hf|exact Hm].
Qed.

Lemma ensures_ret {S A} (P : S -> Prop) (a : A) (Q : result A -> S -> Prop) :
  (forall s, P s -> Q (Ok a) s) -> ensures P (mret a) Q.
Proof. intros H s Hs. by apply H. Qed.

Create HintDb pres.
#[export] Hint Resolve preserves_ret preserves_raise preserves_get preserves_reads
  preserves_lift preserves_bind preserves_transaction preserves_for_each : pres.

(** ** Tactics *)

(** Split every [if decide]/[match] of the goal or of a hypothesis, and clean up. *)
Ltac split_cases :=
  repeat (case_match || case_decide || case_bool_decide); simplify_eq/=.

(** Run a monadic program symbolically. *)
Ltac run_monad :=
  unfold mbind, M_bind, mret, M_ret, raise, get_state, put_state, reads, lift in *;
  simpl in *.

Ltac boolify :=
  repeat match goal with
  | H : andb _ _ = true |- _ => apply andb_true_iff in H as [? ?]
  | H : orb _ _ = false |- _ => apply orb_false_iff in H as [? ?]
  | H : negb _ = true |- _ => apply negb_true_iff in H
  | H : negb _ = false |- _ => apply negb_false_iff in H
  | H : Z.ltb _ _ = true |- _ => apply Z.ltb_lt in H
  | H : Z.ltb _ _ = false |- _ => apply Z.ltb_ge in H
  | H : Z.leb _ _ = true |- _ => apply Z.leb_le in H
  | H : Z.leb _ _ = false |- _ => apply Z.leb_gt in H
  | H : Z.eqb _ _ = true |- _ => apply Z.eqb_eq in H
  | H : Z.eqb _ _ = false |- _ => apply Z.eqb_neq in H
  | H : bool_decide _ = true |- _ => apply bool_decide_eq_true in H
  | H : bool_decide _ = false |- _ => apply bool_decide_eq_false in H
  end.

(** ** Lists and sums *)

Definition Zsum (l : list Z) : Z := foldr Z.add 0%Z l.

(** A decidable property of the first [k] integers, by enumeration. *)
Lemma enumerate_Z (P : Z -> bool) (k : nat) n :
  forallb P (Z.of_nat <$> seq 0 k) = true -> (0 <= n < Z.of_nat k)%Z -> P n = true.
Proof.
  intros H Hn. rewrite forallb_forall in H. apply H, list_elem_of_In, list_elem_of_fmap.
  exists (Z.to_nat n). rewrite elem_of_seq. lia.
Qed.

Lemma Zsum_app l k : Zsum (l ++ k) = (Zsum l + Zsum k)%Z.
Proof. induction l as [|x l IH]; simpl; lia. Qed.

Lemma Zsum_replicate n x : Zsum (replicate n x) = (Z.of_nat n * x)%Z.
Proof. induction n as [|n IH]; simpl; lia. Qed.

Lemma Zsum_cons x l : Zsum (x :: l) = (x + Zsum l)%Z.
Proof. reflexivity. Qed.

Lemma Zsum_nonneg l : Forall (fun x => 0 <= x)%Z l -> (0 <= Zsum l)%Z.
Proof. induction 1 as [|x l Hx _ IH]; [done|]. rewrite Zsum_cons. lia. Qed.

(** The last [n] elements of a list ([LTRIM key -n -1]). *)
Definition last_n {A} (n : nat) (l : list A) : list A := drop (length l - n) l.

Lemma length_last_n {A} n (l : list A) : length (last_n n l) = min n (length l).
Proof. unfold last_n. rewrite length_drop. lia. Qed.

Lemma last_n_suffix {A} n (l : list A) : last_n n l `suffix_of` l.
Proof. exists (take (length l - n) l). unfold last_n. by rewrite take_drop. Qed.
