(* ===== verification/PyDecimal.v ===== *)
(** * Python's [decimal.Decimal] under the default context

    Finite decimals [coef * 10^dexp] with the arithmetic of the default
    context: 28 significant digits, ROUND_HALF_EVEN.  Every operation of the
    trading code ([+], [-], [*], [/], [abs], comparison, [quantize], [int],
    [% 1], [str]) is executable here, and its error against exact rational
    arithmetic is bounded.  NaN, infinities, signed zeros and the exponent
    limits (Emin, Emax = 999999) are outside the model: no path of the modelled
    code produces them from finite inputs. *)

From S2P Require Import Prelude.
From Stdlib Require Import QArith Qabs Qpower Lqa.

Open Scope Z_scope.

Record decimal : Type := Dec { coef : Z; dexp : Z }.

#[export] Instance decimal_eq_dec : EqDecision decimal.
Proof. solve_decision. Defined.

Definition PREC : Z := 28.

(** ** Digits and rounding *)

Fixpoint ndigits_fuel (fuel : nat) (n : Z) : Z :=
  match fuel with
  | O => 1
  | S f => if n <? 10 then 1 else 1 + ndigits_fuel f (n / 10)
  end.

(** [len(str(abs(n)))] *)
Definition ndigits (n : Z) : Z := ndigits_fuel (S (Z.to_nat (Z.log2 (Z.abs n)))) (Z.abs n).

(** Drop [k] digits of [n >= 0], half to even. *)
Definition round_half_even (n k : Z) : Z :=
  let p := 10 ^ k in
  let q := n / p in
  let r := n mod p in
  if 2 * r <? p then q
  else if p <? 2 * r then q + 1
  else if Z.even q then q else q + 1.

(** Drop [k] digits of [n >= 0], half up. *)
Definition round_half_up (n k : Z) : Z :=
  let p := 10 ^ k in
  if p <=? 2 * (n mod p) then n / p + 1 else n / p.

Definition on_abs (f : Z -> Z) (n : Z) : Z := Z.sgn n * f (Z.abs n).

(** [Decimal._fix]: round the coefficient to [PREC] digits. *)
Definition fix_prec (d : decimal) : decimal :=
  let nd := ndigits (coef d) in
  if nd <=? PREC then d
  else
    let k := nd - PREC in
    let c := on_abs (fun n => round_half_even n k) (coef d) in
    if PREC <? ndigits c then Dec (Z.quot c 10) (dexp d + k + 1)
    else Dec c (dexp d + k).

(** ** Operations *)

Definition of_int (n : Z) : decimal := Dec n 0.

(** The coefficient of [d] at a smaller exponent [e]. *)
Definition scaled (d : decimal) (e : Z) : Z := coef d * 10 ^ (dexp d - e).

(** Exact sum (PostgreSQL's NUMERIC addition). *)
Definition num_add (a b : decimal) : decimal :=
  let e := Z.min (dexp a) (dexp b) in Dec (scaled a e + scaled b e) e.

Definition dneg_exact (a : decimal) : decimal := Dec (- coef a) (dexp a).

Definition dadd (a b : decimal) : decimal := fix_prec (num_add a b).
Definition dsub (a b : decimal) : decimal := dadd a (dneg_exact b).
Definition dmul (a b : decimal) : decimal := fix_prec (Dec (coef a * coef b) (dexp a + dexp b)).
Definition dneg (a : decimal) : decimal := fix_prec (dneg_exact a).
Definition dabs (a : decimal) : decimal := fix_prec (Dec (Z.abs (coef a)) (dexp a)).

(** Strip trailing zeros until the ideal exponent is reached. *)
Fixpoint strip_zeros (fuel : nat) (c e ideal : Z) : Z * Z :=
  match fuel with
  | O => (c, e)
  | S f => if (e <? ideal) && (c mod 10 =? 0) then strip_zeros f (c / 10) (e + 1) ideal
           else (c, e)
  end.

(** [Decimal.__truediv__] on the magnitudes [n / d], [d <> 0]. *)
Definition div_mag (n d e : Z) : decimal :=
  let shift := ndigits d - ndigits n + PREC + 1 in
  let num := if 0 <=? shift then n * 10 ^ shift else n in
  let den := if 0 <=? shift then d else d * 10 ^ (- shift) in
  let q := num / den in
  if num mod den =? 0 then
    let '(c, e') := strip_zeros (Z.to_nat shift) q (e - shift) e in Dec c e'
  else Dec (if q mod 5 =? 0 then q + 1 else q) (e - shift).

Definition ddiv (a b : decimal) : result decimal :=
  if coef b =? 0 then Raise (if coef a =? 0 then InvalidOperation else DivisionByZero)
  else if coef a =? 0 then Ok (Dec 0 (dexp a - dexp b))
  else
    let m := div_mag (Z.abs (coef a)) (Z.abs (coef b)) (dexp a - dexp b) in
    Ok (fix_prec (Dec (Z.sgn (coef a) * Z.sgn (coef b) * coef m) (dexp m))).

(** Comparisons are exact. *)
Definition dcmp (a b : decimal) : comparison :=
  let e := Z.min (dexp a) (dexp b) in scaled a e ?= scaled b e.
Definition dltb (a b : decimal) : bool := match dcmp a b with Lt => true | _ => false end.
Definition dleb (a b : decimal) : bool := match dcmp a b with Gt => false | _ => true end.
Definition deqb (a b : decimal) : bool := match dcmp a b with Eq => true | _ => false end.
Definition dzero : decimal := Dec 0 0.

(** [int(d)]: truncation toward zero. *)
Definition dint (d : decimal) : Z :=
  if 0 <=? dexp d then coef d * 10 ^ dexp d else Z.quot (coef d) (10 ^ (- dexp d)).

(** [d % 1 != 0]; a quotient of more than [PREC] digits raises. *)
Definition dfractional (d : decimal) : result bool :=
  if PREC <? ndigits (dint d) then Raise InvalidOperation
  else Ok (if 0 <=? dexp d then false else negb (Z.rem (coef d) (10 ^ (- dexp d)) =? 0)).

(** [d.quantize(Decimal(1).scaleb(e), rounding=ROUND_HALF_UP)] *)
Definition quantize_half_up (d : decimal) (e : Z) : result decimal :=
  let c := if e <=? dexp d then scaled d e
           else on_abs (fun n => round_half_up n (e - dexp d)) (coef d) in
  if PREC <? ndigits c then Raise InvalidOperation else Ok (Dec c e).

(** ** Values *)

Definition ten : Q := inject_Z 10.
Definition dval (d : decimal) : Q := inject_Z (coef d) * ten ^ dexp d.

#[export] Instance Qle_Transitive : Transitive Qle := Qle_trans.

(** Relative error of one rounding: half a unit in the 28th digit. *)
Definition ulp_rel : Q := 1 # (2 * 10 ^ 27).

(** ** Digit counting *)

Lemma pow10_pos k : 0 <= k -> 0 < 10 ^ k.
Proof. intros. apply Z.pow_pos_nonneg; lia. Qed.

Lemma pow10_split a b : 0 <= a -> 0 <= b -> 10 ^ (a + b) = 10 ^ a * 10 ^ b.
Proof. intros. by rewrite Z.pow_add_r by lia. Qed.

Lemma ndigits_fuel_spec f n :
  0 <= n < 2 ^ Z.of_nat f ->
  let d := ndigits_fuel f n in 1 <= d /\ n < 10 ^ d /\ (d = 1 \/ 10 ^ (d - 1) <= n).
Proof.
  revert n. induction f as [|f IH]; intros n Hn; simpl.
  - simpl in Hn. lia.
  - destruct (Z.ltb_spec n 10) as [Hlt|Hge]; simpl; [lia|].
    assert (Hdiv : 0 <= n / 10 < 2 ^ Z.of_nat f).
    { split; [apply Z.div_pos; lia|].
      rewrite Nat2Z.inj_succ, Z.pow_succ_r in Hn by lia.
      apply Z.div_lt_upper_bound; lia. }
    destruct (IH _ Hdiv) as (H1 & H2 & H3). cbv zeta in *.
    pose proof (Z.mod_pos_bound n 10 ltac:(lia)).
    pose proof (Z.div_mod n 10 ltac:(lia)).
    rewrite (Z.add_comm 1), Z.pow_add_r, Z.pow_1_r by lia.
    split; [lia|]. split; [nia|]. right.
    replace (ndigits_fuel f (n / 10) + 1 - 1) with (ndigits_fuel f (n / 10)) by lia.
    destruct H3 as [->|H3]; [lia|].
    replace (ndigits_fuel f (n / 10)) with (ndigits_fuel f (n / 10) - 1 + 1) at 1 by lia.
    rewrite Z.pow_add_r, Z.pow_1_r by lia. nia.
Qed.

Lemma ndigits_spec n :
  1 <= ndigits n /\ Z.abs n < 10 ^ ndigits n /\
  (ndigits n = 1 \/ 10 ^ (ndigits n - 1) <= Z.abs n).
Proof.
  unfold ndigits. apply ndigits_fuel_spec. split; [lia|].
  rewrite Nat2Z.inj_succ, Z2Nat.id by apply Z.log2_nonneg.
  destruct (Z.eq_dec (Z.abs n) 0) as [->|]; [done|].
  apply Z.log2_spec. lia.
Qed.

Lemma ndigits_le n k : 1 <= k -> Z.abs n < 10 ^ k -> ndigits n <= k.
Proof.
  intros Hk Hn. destruct (ndigits_spec n) as (H1 & _ & [H|H]); [lia|].
  destruct (Z.le_gt_cases (ndigits n) k) as [|Hgt]; [done|].
  assert (10 ^ k <= 10 ^ (ndigits n - 1)) by (apply Z.pow_le_mono_r; lia). lia.
Qed.

Lemma ndigits_gt_le n k : 1 <= k -> k < ndigits n -> 10 ^ k <= Z.abs n.
Proof.
  intros Hk Hn. destruct (Z.le_gt_cases (10 ^ k) (Z.abs n)) as [|Hlt]; [done|].
  pose proof (ndigits_le n k Hk Hlt). lia.
Qed.

(** ** Rounding error *)

Lemma round_half_even_error n k :
  0 <= n -> 0 <= k -> 2 * Z.abs (round_half_even n k * 10 ^ k - n) <= 10 ^ k.
Proof.
  intros Hn Hk. pose proof (pow10_pos k Hk) as Hp. unfold round_half_even.
  pose proof (Z.div_mod n (10 ^ k) ltac:(lia)).
  pose proof (Z.mod_pos_bound n (10 ^ k) Hp).
  destruct (Z.ltb_spec (2 * (n mod 10 ^ k)) (10 ^ k)); [nia|].
  destruct (Z.ltb_spec (10 ^ k) (2 * (n mod 10 ^ k))); [nia|].
  destruct (Z.even _); nia.
Qed.

Lemma round_half_even_bound n k m :
  0 <= k -> 0 <= n < m * 10 ^ k -> 0 <= round_half_even n k <= m.
Proof.
  intros Hk Hn. pose proof (pow10_pos k Hk) as Hp. unfold round_half_even.
  assert (0 <= n / 10 ^ k < m) by
    (split; [apply Z.div_pos; lia | apply Z.div_lt_upper_bound; lia]).
  destruct (_ <? _); [lia|]. destruct (_ <? _); [lia|]. destruct (Z.even _); lia.
Qed.

Lemma round_half_up_error n k :
  0 <= n -> 0 <= k -> 2 * Z.abs (round_half_up n k * 10 ^ k - n) <= 10 ^ k.
Proof.
  intros Hn Hk. pose proof (pow10_pos k Hk) as Hp. unfold round_half_up.
  pose proof (Z.div_mod n (10 ^ k) ltac:(lia)).
  pose proof (Z.mod_pos_bound n (10 ^ k) Hp).
  destruct (Z.leb_spec (10 ^ k) (2 * (n mod 10 ^ k))); nia.
Qed.

(** ** Values of scaled decimals *)

Lemma ten_nz : ~ (ten == 0)%Q.
Proof. discriminate. Qed.

Lemma ten_pow_pos e : (0 < ten ^ e)%Q.
Proof. apply Qpower_0_lt. reflexivity. Qed.

Lemma ten_pow_add a b : (ten ^ (a + b) == ten ^ a * ten ^ b)%Q.
Proof. apply Qpower_plus, ten_nz. Qed.

Lemma ten_pow_inject k : 0 <= k -> (ten ^ k == inject_Z (10 ^ k))%Q.
Proof. intros Hk. unfold ten. by rewrite (Zpower_Qpower 10 k Hk). Qed.

Lemma dval_shift c e k :
  0 <= k -> (inject_Z c * ten ^ (e + k) == inject_Z (c * 10 ^ k) * ten ^ e)%Q.
Proof.
  intros Hk. rewrite ten_pow_add, (ten_pow_inject k Hk), inject_Z_mult. ring.
Qed.

Lemma dval_scaled d e : e <= dexp d -> (dval d == inject_Z (scaled d e) * ten ^ e)%Q.
Proof.
  intros He. unfold dval, scaled. rewrite <- (dval_shift (coef d) e (dexp d - e) ltac:(lia)).
  by replace (e + (dexp d - e)) with (dexp d) by lia.
Qed.

Lemma num_add_val a b : (dval (num_add a b) == dval a + dval b)%Q.
Proof.
  unfold num_add. set (e := Z.min _ _).
  rewrite (dval_scaled a e ltac:(lia)), (dval_scaled b e ltac:(lia)).
  unfold dval; cbn [coef dexp]. rewrite inject_Z_plus. ring.
Qed.

Lemma dneg_exact_val a : (dval (dneg_exact a) == - dval a)%Q.
Proof. unfold dval, dneg_exact; cbn [coef dexp]. rewrite inject_Z_opp. ring. Qed.

Lemma of_int_val n : (dval (of_int n) == inject_Z n)%Q.
Proof. unfold dval, of_int; cbn [coef dexp]. ring. Qed.

Lemma mul_val a b :
  (dval (Dec (coef a * coef b) (dexp a + dexp b)) == dval a * dval b)%Q.
Proof. unfold dval; cbn [coef dexp]. rewrite ten_pow_add, inject_Z_mult. ring. Qed.

Lemma abs_val a : (dval (Dec (Z.abs (coef a)) (dexp a)) == Qabs (dval a))%Q.
Proof.
  unfold dval; cbn [coef dexp]. rewrite Qabs_Qmult.
  rewrite (Qabs_pos (ten ^ dexp a)) by (apply Qlt_le_weak, ten_pow_pos).
  apply Qmult_comp; [|reflexivity]. unfold inject_Z, Qabs. reflexivity.
Qed.

(** ** The rounding of [fix_prec] *)

Lemma on_abs_error f n p :
  (forall m, 0 <= m -> 2 * Z.abs (f m * p - m) <= p) -> n <> 0 ->
  2 * Z.abs (on_abs f n * p - n) <= p.
Proof.
  intros Hf Hn. unfold on_abs. pose proof (Hf (Z.abs n) ltac:(lia)).
  destruct (Z.lt_trichotomy n 0) as [|[|]]; [|lia|].
  - rewrite Z.sgn_neg by lia. lia.
  - rewrite Z.sgn_pos by lia. lia.
Qed.

Lemma fix_prec_small d : Z.abs (coef d) < 10 ^ 28 -> fix_prec d = d.
Proof.
  intros H. unfold fix_prec. pose proof (ndigits_le (coef d) 28 ltac:(lia) H).
  unfold PREC. by destruct (Z.leb_spec (ndigits (coef d)) 28); [|lia].
Qed.

Lemma fix_prec_int d :
  exists c, (dval (fix_prec d) == inject_Z c * ten ^ dexp d)%Q /\
            2 * 10 ^ 27 * Z.abs (c - coef d) <= Z.abs (coef d).
Proof.
  unfold fix_prec. destruct (Z.leb_spec (ndigits (coef d)) PREC) as [|Hbig].
  { exists (coef d). split; [reflexivity | lia]. }
  unfold PREC in *. set (k := ndigits (coef d) - 28).
  set (c := on_abs (fun n => round_half_even n k) (coef d)).
  assert (Hn : 10 ^ 27 * 10 ^ k <= Z.abs (coef d)).
  { rewrite <- pow10_split by (subst k; lia).
    apply ndigits_gt_le; subst k; lia. }
  pose proof (pow10_pos k ltac:(subst k; lia)) as Hp.
  assert (Herr : 2 * Z.abs (c * 10 ^ k - coef d) <= 10 ^ k).
  { apply on_abs_error; [|lia]. intros. apply round_half_even_error; subst k; lia. }
  exists (c * 10 ^ k). split; [|nia].
  destruct (Z.ltb_spec 28 (ndigits c)) as [Hc|Hc]; unfold dval; cbn [coef dexp].
  - assert (Habs : Z.abs c <= 10 ^ 28).
    { destruct (ndigits_spec (coef d)) as (_ & Hub & _).
      replace (ndigits (coef d)) with (28 + k) in Hub by (subst k; lia).
      rewrite pow10_split in Hub by (subst k; lia).
      pose proof (round_half_even_bound (Z.abs (coef d)) k (10 ^ 28)
                    ltac:(subst k; lia) ltac:(lia)) as Hr.
      subst c. unfold on_abs. destruct (Z.sgn_spec (coef d)) as [[? ->]|[[? ->]|[? ->]]]; lia. }
    pose proof (ndigits_gt_le c 28 ltac:(lia) Hc) as Hge.
    assert (Hq : c = Z.quot c 10 * 10).
    { assert (c = 10 ^ 28 \/ c = - 10 ^ 28) as [-> | ->] by lia; reflexivity. }
    replace (dexp d + k + 1) with (dexp d + (k + 1)) by lia.
    rewrite (dval_shift (Z.quot c 10) (dexp d) (k + 1) ltac:(lia)).
    rewrite pow10_split by lia.
    replace (c * 10 ^ k) with (Z.quot c 10 * (10 ^ k * 10 ^ 1)) by lia. reflexivity.
  - apply dval_shift. subst k; lia.
Qed.

Lemma Qabs_scale z e : (Qabs (inject_Z z * ten ^ e) == inject_Z (Z.abs z) * ten ^ e)%Q.
Proof.
  rewrite Qabs_Qmult, (Qabs_pos (ten ^ e)) by (apply Qlt_le_weak, ten_pow_pos).
  reflexivity.
Qed.

Lemma sub_scale a b t :
  (inject_Z a * t - inject_Z b * t == inject_Z (a - b) * t)%Q.
Proof. unfold Z.sub. rewrite inject_Z_plus, inject_Z_opp. ring. Qed.

(** One rounding is off by at most half a unit in the 28th digit. *)
Lemma fix_prec_error d :
  (Qabs (dval (fix_prec d) - dval d) <= ulp_rel * Qabs (dval d))%Q.
Proof.
  destruct (fix_prec_int d) as (c & Hc & Herr). rewrite Hc. unfold dval.
  rewrite sub_scale, !Qabs_scale, Qmult_assoc.
  apply Qmult_le_compat_r; [|apply Qlt_le_weak, ten_pow_pos].
  unfold ulp_rel, inject_Z, Qmult, Qle. cbn [Qnum Qden]. lia.
Qed.

(** ** Error of each operation *)

Lemma dadd_error a b :
  (Qabs (dval (dadd a b) - (dval a + dval b)) <= ulp_rel * Qabs (dval a + dval b))%Q.
Proof. unfold dadd. rewrite <- num_add_val. apply fix_prec_error. Qed.

Lemma dsub_error a b :
  (Qabs (dval (dsub a b) - (dval a - dval b)) <= ulp_rel * Qabs (dval a - dval b))%Q.
Proof.
  unfold dsub. pose proof (dadd_error a (dneg_exact b)) as H.
  rewrite dneg_exact_val in H. exact H.
Qed.

Lemma dmul_error a b :
  (Qabs (dval (dmul a b) - dval a * dval b) <= ulp_rel * Qabs (dval a * dval b))%Q.
Proof. unfold dmul. rewrite <- mul_val. apply fix_prec_error. Qed.

(** *** Exact cases *)

Lemma dadd_exact a b :
  Z.abs (coef (num_add a b)) < 10 ^ 28 -> (dval (dadd a b) == dval a + dval b)%Q.
Proof. intros H. unfold dadd. rewrite (fix_prec_small _ H). apply num_add_val. Qed.

Lemma dmul_exact a b :
  Z.abs (coef a * coef b) < 10 ^ 28 -> (dval (dmul a b) == dval a * dval b)%Q.
Proof.
  intros H. unfold dmul. rewrite (fix_prec_small (Dec _ _) H). apply mul_val.
Qed.

(** *** Division *)

Lemma strip_zeros_val fuel c e ideal c' e' :
  strip_zeros fuel c e ideal = (c', e') ->
  (inject_Z c' * ten ^ e' == inject_Z c * ten ^ e)%Q.
Proof.
  revert c e. induction fuel as [|f IH]; intros c e; simpl.
  - intros [= -> ->]. reflexivity.
  - destruct ((e <? ideal) && (c mod 10 =? 0)) eqn:E.
    + intros H. apply andb_true_iff in E as [_ E]. apply Z.eqb_eq in E.
      rewrite (IH _ _ H), (dval_shift (c / 10) e 1 ltac:(lia)).
      pose proof (Z.div_mod c 10 ltac:(lia)).
      replace (c / 10 * 10 ^ 1) with c by lia. reflexivity.
    + intros [= -> ->]. reflexivity.
Qed.

Lemma strip_zeros_pos fuel c e ideal c' e' :
  0 < c -> strip_zeros fuel c e ideal = (c', e') -> 0 < c'.
Proof.
  revert c e. induction fuel as [|f IH]; intros c e Hc; simpl.
  - by intros [= -> ->].
  - destruct ((e <? ideal) && (c mod 10 =? 0)) eqn:E; [|by intros [= -> ->]].
    apply IH. apply andb_true_iff in E as [_ E]. apply Z.eqb_eq in E.
    pose proof (Z.div_mod c 10 ltac:(lia)). lia.
Qed.

(** The scaled quotient has at least 29 digits. *)
Lemma div_mag_large n d :
  0 < n -> 0 < d ->
  let shift := ndigits d - ndigits n + PREC + 1 in
  let num := if 0 <=? shift then n * 10 ^ shift else n in
  let den := if 0 <=? shift then d else d * 10 ^ (- shift) in
  0 < den /\ 10 ^ 28 * den <= num.
Proof.
  intros Hn Hd shift num den.
  destruct (ndigits_spec n) as (Hn1 & Hn2 & Hn3).
  destruct (ndigits_spec d) as (Hd1 & Hd2 & Hd3).
  rewrite Z.abs_eq in Hn2, Hn3, Hd2, Hd3 by lia.
  assert (Hlow : 10 ^ (ndigits n - 1) <= n) by (destruct Hn3 as [->|]; simpl; lia).
  assert (Hden : 0 < den).
  { subst den. destruct (Z.leb_spec 0 shift); [lia|].
    pose proof (pow10_pos (- shift) ltac:(lia)). nia. }
  split; [done|]. subst num den. unfold PREC in *.
  destruct (Z.leb_spec 0 shift) as [Hs|Hs].
  - assert (E : 10 ^ 28 * 10 ^ ndigits d = 10 ^ (ndigits n - 1) * 10 ^ shift).
    { rewrite <- !pow10_split by lia. f_equal. lia. }
    pose proof (pow10_pos shift Hs). nia.
  - assert (E : 10 ^ (ndigits n - 1) = 10 ^ 28 * (10 ^ ndigits d * 10 ^ (- shift))).
    { rewrite <- !pow10_split by lia. f_equal. lia. }
    pose proof (pow10_pos (- shift) ltac:(lia)). nia.
Qed.

Lemma inject_Z_sub a b : (inject_Z (a - b) == inject_Z a - inject_Z b)%Q.
Proof. unfold Z.sub. rewrite inject_Z_plus, inject_Z_opp. ring. Qed.

Lemma inject_Z_pos a : 0 < a -> (0 < inject_Z a)%Q.
Proof. intros. by rewrite <- (Zlt_Qlt 0). Qed.

Lemma inject_Z_nonneg a : 0 <= a -> (0 <= inject_Z a)%Q.
Proof. intros. by rewrite <- (Zle_Qle 0). Qed.

(** An integer [c] within one of the quotient [num / den >= 10^28]. *)
Lemma quotient_close c num den (x y : Q) :
  0 < den -> 10 ^ 28 * den <= num -> Z.abs (c * den - num) <= den -> (0 <= y)%Q ->
  (y * inject_Z num == x * inject_Z den)%Q ->
  (Qabs (inject_Z c * y - x) <= (1 # 10 ^ 28) * x)%Q.
Proof.
  intros Hden Hbig Hc Hy Hfrac. pose proof (inject_Z_pos den Hden) as Hdq.
  apply (Qmult_le_r _ _ (inject_Z den) Hdq).
  assert (E : (Qabs (inject_Z c * y - x) * inject_Z den
               == inject_Z (Z.abs (c * den - num)) * y)%Q).
  { rewrite <- (Qabs_pos (inject_Z den)) at 1 by (apply Qlt_le_weak; done).
    rewrite <- (Qabs_pos y Hy) at 2.
    change (inject_Z (Z.abs (c * den - num))) with (Qabs (inject_Z (c * den - num))).
    rewrite <- !Qabs_Qmult. apply Qabs_wd. rewrite inject_Z_sub, inject_Z_mult.
    transitivity (inject_Z c * y * inject_Z den - x * inject_Z den)%Q; [ring|].
    rewrite <- Hfrac. ring. }
  rewrite E, <- Qmult_assoc, <- Hfrac, (Qmult_comm y), Qmult_assoc.
  apply Qmult_le_compat_r; [|done].
  unfold inject_Z, Qmult, Qle. cbn [Qnum Qden]. lia.
Qed.

Lemma div_mag_frac n d e shift :
  let num := if 0 <=? shift then n * 10 ^ shift else n in
  let den := if 0 <=? shift then d else d * 10 ^ (- shift) in
  (inject_Z d * ten ^ (e - shift) * inject_Z num == inject_Z n * ten ^ e * inject_Z den)%Q.
Proof.
  cbv zeta. destruct (Z.leb_spec 0 shift) as [Hs|Hs].
  - replace e with (e - shift + shift) at 2 by lia.
    rewrite (dval_shift n (e - shift) shift Hs). ring.
  - replace (e - shift) with (e + - shift) by lia.
    rewrite (dval_shift d e (- shift) ltac:(lia)). ring.
Qed.

(** The quotient of two magnitudes before the final rounding is off by less
    than one unit in the 29th digit, and is positive. *)
Lemma div_mag_error n d e :
  0 < n -> 0 < d ->
  (Qabs (dval (div_mag n d e) * inject_Z d - inject_Z n * ten ^ e)
     <= (1 # 10 ^ 28) * (inject_Z n * ten ^ e))%Q /\
  0 < coef (div_mag n d e).
Proof.
  intros Hn Hd. pose proof (div_mag_large n d Hn Hd) as Hlarge. cbv zeta in Hlarge.
  unfold div_mag. set (shift := ndigits d - ndigits n + PREC + 1) in *.
  pose proof (div_mag_frac n d e shift) as Hfrac. cbv zeta in Hfrac.
  set (num := if 0 <=? shift then _ else n) in *.
  set (den := if 0 <=? shift then d else _) in *.
  destruct Hlarge as [Hden Hlarge].
  assert (Hmul : forall c, Z.abs (c * den - num) <= den ->
    (Qabs (inject_Z c * ten ^ (e - shift) * inject_Z d - inject_Z n * ten ^ e)
       <= (1 # 10 ^ 28) * (inject_Z n * ten ^ e))%Q).
  { intros c Hc. rewrite <- Qmult_assoc, (Qmult_comm (ten ^ (e - shift))).
    apply (quotient_close c num den); [done..| |done].
    apply Qmult_le_0_compat; [apply inject_Z_nonneg; lia | apply Qlt_le_weak, ten_pow_pos]. }
  assert (Hq0 : 10 ^ 28 <= num / den) by (apply Z.div_le_lower_bound; lia).
  pose proof (Z.div_mod num den ltac:(lia)) as Hdm.
  pose proof (Z.mod_pos_bound num den Hden) as Hmb.
  destruct (Z.eqb_spec (num mod den) 0) as [Hz|Hnz].
  - destruct (strip_zeros _ _ _ _) as [c' e'] eqn:E.
    assert (0 < c') by (eapply strip_zeros_pos; [|exact E]; lia). apply strip_zeros_val in E.
    unfold dval; cbn [coef dexp]. rewrite E. split; [apply Hmul; nia | done].
  - unfold dval; cbn [coef dexp]. destruct (_ =? 0); (split; [apply Hmul; nia | lia]).
Qed.

Lemma Q_sgn_abs z : (inject_Z z == inject_Z (Z.sgn z) * inject_Z (Z.abs z))%Q.
Proof. rewrite <- inject_Z_mult, Z.mul_comm, Z.abs_sgn. reflexivity. Qed.

Lemma Qabs_sgn_le z x : (Qabs (inject_Z (Z.sgn z) * x) <= Qabs x)%Q.
Proof.
  rewrite Qabs_Qmult. rewrite <- (Qmult_1_l (Qabs x)) at 2.
  apply Qmult_le_compat_r; [|apply Qabs_nonneg].
  destruct z; unfold Qabs, inject_Z, Qle; simpl; lia.
Qed.

(** Composition of two relative errors. *)
Lemma rel_error_compose (x y z e1 e2 : Q) :
  (0 <= e1)%Q -> (0 <= e2)%Q ->
  (Qabs (y - x) <= e1 * Qabs x)%Q -> (Qabs (z - y) <= e2 * Qabs y)%Q ->
  (Qabs (z - x) <= (e1 + e2 + e1 * e2) * Qabs x)%Q.
Proof.
  intros H1 H2 Hy Hz.
  assert (Hyx : (Qabs y <= (1 + e1) * Qabs x)%Q).
  { setoid_replace y with (x + (y - x))%Q using relation Qeq by ring.
    pose proof (Qabs_triangle x (y - x)). lra. }
  setoid_replace (z - x)%Q with (z - y + (y - x))%Q using relation Qeq by ring.
  pose proof (Qabs_triangle (z - y) (y - x)).
  assert (e2 * Qabs y <= e2 * ((1 + e1) * Qabs x))%Q.
  { rewrite (Qmult_comm e2 (Qabs y)), (Qmult_comm e2). by apply Qmult_le_compat_r. }
  lra.
Qed.

Lemma sgn_sq z : z <> 0 -> (inject_Z (Z.sgn z) * inject_Z (Z.sgn z) == 1)%Q.
Proof.
  intros Hz. rewrite <- inject_Z_mult.
  by destruct (Z.sgn_spec z) as [[? ->]|[[? _]|[? ->]]]; [|lia|].
Qed.

(** The signed quotient before the final rounding. *)
Definition div_signed (a b : decimal) : decimal :=
  let m := div_mag (Z.abs (coef a)) (Z.abs (coef b)) (dexp a - dexp b) in
  Dec (Z.sgn (coef a) * Z.sgn (coef b) * coef m) (dexp m).

Lemma div_signed_residue a b :
  coef b <> 0 ->
  (dval (div_signed a b) * dval b - dval a ==
    inject_Z (Z.sgn (coef a)) *
      ((dval (div_mag (Z.abs (coef a)) (Z.abs (coef b)) (dexp a - dexp b))
          * inject_Z (Z.abs (coef b))
        - inject_Z (Z.abs (coef a)) * ten ^ (dexp a - dexp b)) * ten ^ dexp b))%Q.
Proof.
  intros Hb. unfold div_signed. set (m := div_mag _ _ _).
  assert (Et : (ten ^ dexp a == ten ^ (dexp a - dexp b) * ten ^ dexp b)%Q)
    by (rewrite <- ten_pow_add; by replace (dexp a - dexp b + dexp b) with (dexp a) by lia).
  unfold dval; cbn [coef dexp]. rewrite !inject_Z_mult, Et.
  rewrite (Q_sgn_abs (coef b)), (Q_sgn_abs (coef a)).
  transitivity (inject_Z (Z.sgn (coef b)) * inject_Z (Z.sgn (coef b)) *
    (inject_Z (Z.sgn (coef a)) * inject_Z (coef m) * ten ^ dexp m
     * inject_Z (Z.abs (coef b)) * ten ^ dexp b)
    - inject_Z (Z.sgn (coef a)) * inject_Z (Z.abs (coef a))
      * (ten ^ (dexp a - dexp b) * ten ^ dexp b))%Q; [ring|].
  rewrite (sgn_sq _ Hb). ring.
Qed.

Lemma div_signed_error a b :
  coef a <> 0 -> coef b <> 0 ->
  (Qabs (dval (div_signed a b) * dval b - dval a) <= (1 # 10 ^ 28) * Qabs (dval a))%Q.
Proof.
  intros Ha Hb. rewrite (div_signed_residue a b Hb).
  destruct (div_mag_error (Z.abs (coef a)) (Z.abs (coef b)) (dexp a - dexp b)
              ltac:(lia) ltac:(lia)) as [Hm _].
  etransitivity; [apply Qabs_sgn_le|].
  rewrite Qabs_Qmult, (Qabs_pos (ten ^ dexp b)) by apply Qlt_le_weak, ten_pow_pos.
  etransitivity; [apply Qmult_le_compat_r; [exact Hm | apply Qlt_le_weak, ten_pow_pos]|].
  rewrite <- !Qmult_assoc, <- ten_pow_add.
  replace (dexp a - dexp b + dexp b) with (dexp a) by lia.
  rewrite <- abs_val. apply Qle_refl.
Qed.

(** Division is off by less than two roundings. *)
Lemma ddiv_error a b d :
  ddiv a b = Ok d ->
  (Qabs (dval d * dval b - dval a) <= 2 * ulp_rel * Qabs (dval a))%Q.
Proof.
  unfold ddiv. destruct (Z.eqb_spec (coef b) 0) as [|Hb]; [done|].
  destruct (Z.eqb_spec (coef a) 0) as [Ha|Ha]; intros [= <-].
  { unfold dval; cbn [coef dexp]. rewrite Ha.
    setoid_replace (inject_Z 0 * ten ^ (dexp a - dexp b) * (inject_Z (coef b) * ten ^ dexp b)
      - inject_Z 0 * ten ^ dexp a)%Q with 0%Q using relation Qeq by ring.
    rewrite Qmult_0_l. discriminate. }
  pose proof (div_signed_error a b Ha Hb) as Hr. fold (div_signed a b). set (r := div_signed a b) in *.
  assert (Hf : (Qabs (dval (fix_prec r) * dval b - dval r * dval b)
                 <= ulp_rel * Qabs (dval r * dval b))%Q).
  { setoid_replace (dval (fix_prec r) * dval b - dval r * dval b)%Q
      with ((dval (fix_prec r) - dval r) * dval b)%Q using relation Qeq by ring.
    rewrite !Qabs_Qmult, Qmult_assoc.
    apply Qmult_le_compat_r; [apply fix_prec_error | apply Qabs_nonneg]. }
  etransitivity; [eapply rel_error_compose; [..|exact Hr|exact Hf]; vm_compute; discriminate|].
  apply Qmult_le_compat_r; [vm_compute; discriminate | apply Qabs_nonneg].
Qed.

Lemma ddiv_ok a b : coef b <> 0 -> exists d, ddiv a b = Ok d.
Proof.
  intros Hb. unfold ddiv. apply Z.eqb_neq in Hb as ->. destruct (_ =? 0); eauto.
Qed.

(** ** Comparisons decide the order of the values *)

Lemma dcmp_val a b : dcmp a b = (dval a ?= dval b)%Q.
Proof.
  unfold dcmp. set (e := Z.min _ _).
  rewrite (dval_scaled a e ltac:(lia)), (dval_scaled b e ltac:(lia)).
  symmetry. destruct (Z.compare_spec (scaled a e) (scaled b e)) as [E|E|E].
  - rewrite E. apply Qeq_alt. reflexivity.
  - apply Qlt_alt. apply Qmult_lt_compat_r; [apply ten_pow_pos | by rewrite <- Zlt_Qlt].
  - apply Qgt_alt. apply Qmult_lt_compat_r; [apply ten_pow_pos | by rewrite <- Zlt_Qlt].
Qed.

Lemma dltb_spec a b : reflect (dval a < dval b)%Q (dltb a b).
Proof.
  unfold dltb. rewrite dcmp_val. pose proof (Qlt_alt (dval a) (dval b)).
  destruct (_ ?= _)%Q; constructor; intuition congruence.
Qed.

Lemma dleb_spec a b : reflect (dval a <= dval b)%Q (dleb a b).
Proof.
  unfold dleb. rewrite dcmp_val. pose proof (Qle_alt (dval a) (dval b)).
  destruct (_ ?= _)%Q; constructor; intuition congruence.
Qed.

Lemma deqb_spec a b : reflect (dval a == dval b)%Q (deqb a b).
Proof.
  unfold deqb. rewrite dcmp_val. pose proof (Qeq_alt (dval a) (dval b)).
  destruct (_ ?= _)%Q; constructor; intuition congruence.
Qed.

Lemma dzero_val : (dval dzero == 0)%Q.
Proof. reflexivity. Qed.

Lemma coef_sign d : 0 < coef d <-> (0 < dval d)%Q.
Proof.
  unfold dval. rewrite (Zlt_Qlt 0). pose proof (ten_pow_pos (dexp d)) as Hp. split; intros H.
  - by apply Qmult_lt_0_compat.
  - apply (Qmult_lt_r _ _ _ Hp). by rewrite Qmult_0_l.
Qed.

(** A rounding keeps the sign. *)
Lemma rel_error_pos x y e :
  (e < 1)%Q -> (0 < x)%Q -> (Qabs (y - x) <= e * Qabs x)%Q -> (0 < y)%Q.
Proof.
  intros He Hx H. rewrite (Qabs_pos x) in H by lra.
  apply Qabs_Qle_condition in H as [H _].
  assert (e * x < 1 * x)%Q by (by apply Qmult_lt_compat_r). lra.
Qed.

(** Quantizing is off by at most half a unit of the target exponent. *)
Lemma quantize_half_up_error d e d' :
  quantize_half_up d e = Ok d' ->
  dexp d' = e /\ (2 * Qabs (dval d' - dval d) <= ten ^ e)%Q.
Proof.
  unfold quantize_half_up. destruct (Z.leb_spec e (dexp d)) as [He|He].
  - destruct (_ <? _); [done|]. intros [= <-]. split; [done|].
    rewrite (dval_scaled d e He). unfold dval; cbn [coef dexp].
    rewrite sub_scale, Z.sub_diag, Qabs_scale. change (inject_Z (Z.abs 0)) with 0%Q.
    rewrite Qmult_0_l, Qmult_0_r. apply Qlt_le_weak, ten_pow_pos.
  - destruct (_ <? _); [done|]. intros [= <-]. split; [done|].
    assert (exists k, 0 <= k /\ e = dexp d + k) as (k & Hk & ->)
      by (exists (e - dexp d); lia).
    replace (dexp d + k - dexp d) with k by lia.
    set (c := on_abs _ _).
    assert (Herr : 2 * Z.abs (c * 10 ^ k - coef d) <= 10 ^ k).
    { destruct (Z.eq_dec (coef d) 0) as [E|E].
      - subst c. unfold on_abs. rewrite E. pose proof (pow10_pos k Hk). simpl. lia.
      - apply on_abs_error; [|done]. intros. apply round_half_up_error; lia. }
    unfold dval; cbn [coef dexp]. rewrite (dval_shift c (dexp d) k Hk).
    rewrite sub_scale, Qabs_scale, Qmult_assoc, ten_pow_add, (Qmult_comm (ten ^ dexp d)).
    apply Qmult_le_compat_r; [|apply Qlt_le_weak, ten_pow_pos].
    rewrite (ten_pow_inject k Hk). change 2%Q with (inject_Z 2).
    rewrite <- inject_Z_mult, <- Zle_Qle. exact Herr.
Qed.

(** Quantizing depends on the number, not on how it is written. *)
Lemma round_half_up_shift n k j :
  0 <= k -> 0 <= j -> round_half_up (n * 10 ^ j) (k + j) = round_half_up n k.
Proof.
  intros Hk Hj. unfold round_half_up. rewrite (pow10_split k j Hk Hj).
  pose proof (pow10_pos j Hj). pose proof (pow10_pos k Hk).
  rewrite Z.mul_mod_distr_r, Z.div_mul_cancel_r by lia.
  destruct (Z.leb_spec (10 ^ k * 10 ^ j) (2 * (n mod 10 ^ k * 10 ^ j)));
    destruct (Z.leb_spec (10 ^ k) (2 * (n mod 10 ^ k))); nia || done.
Qed.

Lemma round_half_up_multiple n k : 0 <= k -> round_half_up (n * 10 ^ k) k = n.
Proof.
  intros Hk. pose proof (round_half_up_shift n 0 k ltac:(lia) Hk) as E.
  rewrite Z.add_0_l in E. rewrite E. unfold round_half_up. change (10 ^ 0) with 1. rewrite Z.mod_1_r, Z.div_1_r. done.
Qed.

Lemma on_abs_ext f g n m :
  Z.sgn n = Z.sgn m -> f (Z.abs n) = g (Z.abs m) -> on_abs f n = on_abs g m.
Proof. unfold on_abs. by intros -> ->. Qed.

Lemma quantize_half_up_shift c x j e :
  0 <= j -> quantize_half_up (Dec (c * 10 ^ j) x) e = quantize_half_up (Dec c (x + j)) e.
Proof.
  intros Hj. pose proof (pow10_pos j Hj) as Hp. unfold quantize_half_up. cbn [coef dexp].
  match goal with |- context [ndigits ?t] => set (t1 := t) end.
  match goal with |- _ = (if PREC <? ndigits ?t then _ else _) => set (t2 := t) end.
  assert (Hsgn : Z.sgn (c * 10 ^ j) = Z.sgn c) by (rewrite Z.sgn_mul, (Z.sgn_pos (10 ^ j)); lia).
  assert (Habs : Z.abs (c * 10 ^ j) = Z.abs c * 10 ^ j) by (rewrite Z.abs_mul, (Z.abs_eq (10 ^ j)); lia).
  enough (t1 = t2) as -> by done. subst t1 t2. unfold scaled; cbn [coef dexp].
  destruct (Z.leb_spec e x) as [H1|H1], (Z.leb_spec e (x + j)) as [H2|H2]; [|lia|..].
  - rewrite <- Z.mul_assoc, <- pow10_split by lia. f_equal. f_equal. lia.
  - replace (c * 10 ^ (x + j - e)) with (on_abs (fun n => n * 10 ^ (x + j - e)) c).
    + apply on_abs_ext; [done|]. rewrite Habs.
      replace j with ((x + j - e) + (e - x)) at 1 by lia.
      rewrite pow10_split, Z.mul_assoc by lia. apply round_half_up_multiple. lia.
    + unfold on_abs. rewrite Z.mul_assoc. f_equal. lia.
  - apply on_abs_ext; [done|]. rewrite Habs.
    replace (e - x) with ((e - (x + j)) + j) by lia. apply round_half_up_shift; lia.
Qed.

Lemma quantize_half_up_value a b e :
  (dval a == dval b)%Q -> quantize_half_up a e = quantize_half_up b e.
Proof.
  revert a b. assert (Hw : forall a b, dexp a <= dexp b -> (dval a == dval b)%Q ->
    quantize_half_up a e = quantize_half_up b e).
  { intros [ca xa] [cb xb] Hx H. cbn [dexp] in Hx.
    apply Z.le_exists_sub in Hx as (j & -> & Hj). rewrite (Z.add_comm j).
    rewrite <- quantize_half_up_shift by lia.
    pose proof (dval_shift cb xa j Hj) as Hs.
    unfold dval in H; cbn [coef dexp] in H. rewrite (Z.add_comm j), Hs in H.
    apply Qmult_inj_r in H; [|pose proof (ten_pow_pos xa); lra].
    by rewrite (proj1 (inject_Z_injective _ _) H). }
  intros a b H. destruct (Z.le_ge_cases (dexp a) (dexp b)); [by apply Hw|].
  symmetry. by apply Hw.
Qed.

(** [int(d)] is monotone. *)
Lemma dint_scaled d e : e <= 0 -> e <= dexp d -> dint d = Z.quot (scaled d e) (10 ^ (- e)).
Proof.
  intros He Hx. unfold dint, scaled. destruct (Z.leb_spec 0 (dexp d)) as [H|H].
  - replace (dexp d - e) with (dexp d + - e) by lia. rewrite pow10_split, Z.mul_assoc by lia.
    rewrite Z.quot_mul; [done|]. pose proof (pow10_pos (- e)). lia.
  - replace (- e) with (- dexp d + (dexp d - e)) at 1 by lia. rewrite pow10_split by lia.
    pose proof (pow10_pos (dexp d - e)). pose proof (pow10_pos (- dexp d)).
    rewrite Z.quot_mul_cancel_r by lia. done.
Qed.

Lemma dint_mono a b : (dval a <= dval b)%Q -> dint a <= dint b.
Proof.
  intros H. set (e := Z.min 0 (Z.min (dexp a) (dexp b))).
  rewrite (dint_scaled a e), (dint_scaled b e) by lia.
  apply Z.quot_le_mono; [pose proof (pow10_pos (- e)); lia|].
  rewrite (dval_scaled a e ltac:(lia)), (dval_scaled b e ltac:(lia)) in H.
  apply Qmult_lt_0_le_reg_r in H; [by rewrite <- Zle_Qle in H|apply ten_pow_pos].
Qed.

(** ** Equality of value: Python's [==] on decimals, coarser than equality of representation *)

Definition deq (a b : decimal) : Prop := (dval a == dval b)%Q.

#[export] Instance deq_equivalence : Equivalence deq.
Proof. split; unfold deq; [by intros a|by intros a b ->|by intros a b c -> ->]. Qed.

Lemma deqb_deq a b : deqb a b = true <-> deq a b.
Proof. unfold deq. by destruct (deqb_spec a b). Qed.

#[export] Instance dcmp_proper : Proper (deq ==> deq ==> eq) dcmp.
Proof. intros a a' Ha b b' Hb. rewrite !dcmp_val. unfold deq in *. by rewrite Ha, Hb. Qed.

#[export] Instance dltb_proper : Proper (deq ==> deq ==> eq) dltb.
Proof. intros a a' Ha b b' Hb. unfold dltb. by rewrite Ha, Hb. Qed.

#[export] Instance dleb_proper : Proper (deq ==> deq ==> eq) dleb.
Proof. intros a a' Ha b b' Hb. unfold dleb. by rewrite Ha, Hb. Qed.

#[export] Instance deqb_proper : Proper (deq ==> deq ==> eq) deqb.
Proof. intros a a' Ha b b' Hb. unfold deqb. by rewrite Ha, Hb. Qed.
