(* ===== verification/Nano.v ===== *)
(** * Quantities with at most nine decimals

    The broker's quantities have at most nine decimals: in billionths they are
    integers, and Decimal arithmetic on them is exact as long as 28
    digits are enough. *)

From S2P Require Import Prelude PyDecimal.
Open Scope Z_scope.

Definition is_nano (d : decimal) : Prop := -9 <= dexp d.
Definition nano (d : decimal) : Z := scaled d (-9).

Lemma scaled_shift d e e' : e <= e' -> e' <= dexp d -> scaled d e = scaled d e' * 10 ^ (e' - e).
Proof.
  intros H1 H2. unfold scaled. rewrite <- Z.mul_assoc, <- pow10_split by lia. do 2 f_equal. lia.
Qed.

Lemma pow10_ge_1 k : 0 <= k -> 1 <= 10 ^ k.
Proof. intros. pose proof (pow10_pos k). lia. Qed.

Lemma abs_le_scaled c k : 0 <= k -> Z.abs c <= Z.abs (c * 10 ^ k).
Proof. intros Hk. pose proof (pow10_ge_1 k Hk). rewrite Z.abs_mul. nia. Qed.

Lemma num_add_nano a b : is_nano a -> is_nano b ->
  is_nano (num_add a b) /\ nano (num_add a b) = nano a + nano b /\
  Z.abs (coef (num_add a b)) <= Z.abs (nano a + nano b).
Proof.
  unfold is_nano, nano. intros Ha Hb. set (e := Z.min (dexp a) (dexp b)).
  assert (Hc : nano (num_add a b) = nano a + nano b).
  { unfold nano, num_add. fold e. unfold scaled at 1. cbn [coef dexp].
    rewrite (scaled_shift a (-9) e), (scaled_shift b (-9) e) by lia. lia. }
  split_and!; [unfold num_add; simpl; lia | exact Hc |].
  unfold nano in Hc. rewrite <- Hc. unfold scaled at 1, num_add at 2 3. cbn [coef dexp].
  apply abs_le_scaled. fold e. lia.
Qed.

Lemma dadd_nano a b : is_nano a -> is_nano b -> Z.abs (nano a + nano b) < 10 ^ 28 ->
  is_nano (dadd a b) /\ nano (dadd a b) = nano a + nano b.
Proof.
  intros Ha Hb Hs. destruct (num_add_nano a b Ha Hb) as (H1 & H2 & H3).
  unfold dadd. rewrite fix_prec_small by lia. done.
Qed.

Lemma dneg_exact_nano a : is_nano a -> is_nano (dneg_exact a) /\ nano (dneg_exact a) = - nano a.
Proof. intros H. split; [done|]. unfold nano, scaled, dneg_exact. simpl. lia. Qed.

Lemma dsub_nano a b : is_nano a -> is_nano b -> Z.abs (nano a - nano b) < 10 ^ 28 ->
  is_nano (dsub a b) /\ nano (dsub a b) = nano a - nano b.
Proof.
  intros Ha Hb Hs. destruct (dneg_exact_nano b Hb) as [H1 H2]. unfold dsub.
  rewrite <- Z.add_opp_r, <- H2. apply dadd_nano; [done..|]. rewrite H2. lia.
Qed.

Lemma dcmp_nano a b : is_nano a -> is_nano b -> dcmp a b = (nano a ?= nano b).
Proof.
  unfold is_nano, nano, dcmp. intros Ha Hb. set (e := Z.min (dexp a) (dexp b)).
  rewrite (scaled_shift a (-9) e), (scaled_shift b (-9) e) by lia.
  apply Zmult_compare_compat_r, Z.lt_gt, pow10_pos. lia.
Qed.

Lemma dleb_nano a b : is_nano a -> is_nano b -> dleb a b = (nano a <=? nano b).
Proof.
  intros Ha Hb. unfold dleb. rewrite dcmp_nano by done. unfold Z.leb.
  by destruct (nano a ?= nano b).
Qed.

Lemma quot_abs_le a b : 0 < b -> Z.abs (Z.quot a b) <= Z.abs a.
Proof.
  intros Hb. rewrite <- Z.quot_abs, Z.quot_div_nonneg by lia. apply Z.div_le_upper_bound; nia.
Qed.

(** The value stored for a quantity: an integer when it is whole. *)
Lemma stored_qty_nano d : is_nano d -> Z.abs (nano d) < 10 ^ 28 ->
  exists fr, dfractional d = Ok fr /\
    nano (if (fr : bool) then d else of_int (dint d)) = nano d /\
    is_nano (if fr then d else of_int (dint d)).
Proof.
  intros Hd Hb. unfold dfractional.
  assert (Hint : Z.abs (dint d) < 10 ^ 28).
  { rewrite (dint_scaled d (-9)) by (done || lia). change (- -9) with 9. fold (nano d).
    pose proof (quot_abs_le (nano d) (10 ^ 9) ltac:(lia)). lia. }
  pose proof (ndigits_le (dint d) 28 ltac:(lia) Hint). unfold PREC.
  destruct (28 <? ndigits (dint d)) eqn:E; [apply Z.ltb_lt in E; lia|].
  eexists. split; [reflexivity|].
  destruct (0 <=? dexp d) eqn:Ex; boolify.
  - split; [|unfold is_nano; simpl; lia]. unfold nano, scaled, dint, of_int. cbn [coef dexp].
    destruct (0 <=? dexp d) eqn:E'; [|apply Z.leb_gt in E'; lia].
    rewrite <- Z.mul_assoc, <- pow10_split by lia. do 2 f_equal; lia.
  - destruct (Z.rem (coef d) (10 ^ (- dexp d)) =? 0) eqn:Er; simpl; [|done]. boolify.
    split; [|unfold is_nano; simpl; lia]. unfold nano, scaled, dint, of_int. cbn [coef dexp].
    destruct (0 <=? dexp d) eqn:E'; [apply Z.leb_le in E'; lia|].
    pose proof (Z.quot_rem' (coef d) (10 ^ (- dexp d))) as Hq. rewrite Er in Hq.
    unfold is_nano in Hd. replace (0 - -9) with (- dexp d + (dexp d - -9)) by lia.
    rewrite pow10_split by lia. rewrite Z.mul_assoc. f_equal. lia.
Qed.

Lemma dltb_nano a b : is_nano a -> is_nano b -> dltb a b = (nano a <? nano b).
Proof. intros Ha Hb. unfold dltb. rewrite dcmp_nano by done. unfold Z.ltb. by destruct (nano a ?= nano b). Qed.

Lemma deqb_nano a b : is_nano a -> is_nano b -> deqb a b = (nano a =? nano b).
Proof. intros Ha Hb. unfold deqb. rewrite dcmp_nano by done. by rewrite Z.eqb_compare. Qed.

Lemma dabs_nano a : is_nano a -> Z.abs (nano a) < 10 ^ 28 -> is_nano (dabs a) /\ nano (dabs a) = Z.abs (nano a).
Proof.
  unfold is_nano, nano, scaled. intros Ha Hs. unfold dabs.
  rewrite fix_prec_small by (simpl; pose proof (abs_le_scaled (coef a) (dexp a - -9)); lia).
  split; [exact Ha|]. cbn [coef dexp]. rewrite Z.abs_mul. f_equal. symmetry. apply Z.abs_eq, Z.pow_nonneg. lia.
Qed.

Lemma of_int_nano n : is_nano (of_int n) /\ nano (of_int n) = n * 10 ^ 9.
Proof. split; [unfold is_nano; simpl; lia|reflexivity]. Qed.

Lemma zero_nano : is_nano dzero.
Proof. apply (of_int_nano 0). Qed.

#[export] Hint Resolve zero_nano : core.
