(* ===== verification/PyText.v ===== *)
(** * Text: the string functions of Python's standard library the code uses

    Strings are sequences of bytes (the UTF-8 encoding of the Python string;
    every identifier the platform hashes is ASCII).  The file holds [str] of
    integers, decimals and dates, [hashlib.sha256], and [int(s, 16)], all
    executable, with the injectivity and length facts the order identifiers
    rest on. *)

From S2P Require Import Prelude PyDecimal.

Open Scope Z_scope.

(** ** Characters *)

Definition code (c : Ascii.ascii) : Z := Z.of_N (Ascii.N_of_ascii c).
Definition chr (n : Z) : Ascii.ascii := Ascii.ascii_of_N (Z.to_N n).

Fixpoint chars (s : string) : list Ascii.ascii :=
  match s with
  | EmptyString => []
  | String c s' => c :: chars s'
  end.

Fixpoint of_chars (l : list Ascii.ascii) : string :=
  match l with
  | [] => EmptyString
  | c :: l' => String c (of_chars l')
  end.

Definition slen (s : string) : nat := length (chars s).

(** [s[:n]] for [n >= 0]. *)
Definition sprefix (n : nat) (s : string) : string := of_chars (take n (chars s)).

Fixpoint srepeat (s : string) (n : nat) : string :=
  match n with O => EmptyString | S n' => s +:+ srepeat s n' end.

(** ** SHA-256 *)

Module Sha256.
Definition w32 (x : Z) : Z := x mod 2 ^ 32.
Definition rotr (x n : Z) : Z := Z.lor (Z.shiftr x n) (w32 (Z.shiftl x (32 - n))).
Definition xor3 (a b c : Z) : Z := Z.lxor a (Z.lxor b c).

(** The constants as FIPS 180-4 defines them: the first 32 bits of the fractional parts of the
    cube roots (K) and square roots (H0) of the first 64 and the first 8 primes. *)
Definition is_prime (n : nat) : bool :=
  forallb (fun d => negb (Nat.modulo n d =? 0)%nat) (seq 2 (n - 2)).
Definition primes : list Z := Z.of_nat <$> filter (fun n => is_prime n = true) (seq 2 310).

(** The greatest [r < 2 ^ bits] with [r ^ k <= x], found bit by bit from the top. *)
Fixpoint root (k : Z) (bits : nat) (r x : Z) : Z :=
  match bits with
  | O => r
  | S b => let r' := r + 2 ^ Z.of_nat b in root k b (if r' ^ k <=? x then r' else r) x
  end.
Definition root_fraction (k p : Z) : Z := w32 (root k 40 0 (p * 2 ^ (32 * k))).

Definition K : list Z := Eval vm_compute in root_fraction 3 <$> take 64 primes.
Definition H0 : list Z := Eval vm_compute in root_fraction 2 <$> take 8 primes.

Definition ssig0 (x : Z) : Z := xor3 (rotr x 7) (rotr x 18) (Z.shiftr x 3).
Definition ssig1 (x : Z) : Z := xor3 (rotr x 17) (rotr x 19) (Z.shiftr x 10).
Definition bsig0 (x : Z) : Z := xor3 (rotr x 2) (rotr x 13) (rotr x 22).
Definition bsig1 (x : Z) : Z := xor3 (rotr x 6) (rotr x 11) (rotr x 25).
Definition ch (e f g : Z) : Z := Z.lxor (Z.land e f) (Z.land (Z.lxor e 0xffffffff) g).
Definition maj (a b c : Z) : Z := xor3 (Z.land a b) (Z.land a c) (Z.land b c).

Definition be_word (bs : list Z) : Z := foldl (fun acc b => acc * 256 + b) 0 bs.

(** Split into blocks of [n]. *)
Fixpoint chunks (fuel n : nat) (l : list Z) : list (list Z) :=
  match fuel, l with
  | O, _ | _, [] => []
  | S f, _ => take n l :: chunks f n (drop n l)
  end.

(** The message schedule, newest word first. *)
Fixpoint extend (n : nat) (w : list Z) : list Z :=
  match n with
  | O => w
  | S n' =>
      let t := w32 (ssig1 (nth 1 w 0) + nth 6 w 0 + ssig0 (nth 14 w 0) + nth 15 w 0) in
      extend n' (t :: w)
  end.

Definition round (st : list Z) (kw : Z * Z) : list Z :=
  match st with
  | [a; b; c; d; e; f; g; h] =>
      let t1 := h + bsig1 e + ch e f g + kw.1 + kw.2 in
      let t2 := bsig0 a + maj a b c in
      [w32 (t1 + t2); a; b; c; w32 (d + t1); e; f; g]
  | _ => st
  end.

Definition compress (st : list Z) (block : list Z) : list Z :=
  let w := rev (extend 48 (rev (be_word <$> chunks 16 4 block))) in
  zip_with (fun x y => w32 (x + y)) st (foldl round st (zip K w)).

Definition be_bytes (n : nat) (x : Z) : list Z :=
  (fun i => Z.shiftr x (8 * Z.of_nat i) mod 256) <$> rev (seq 0 n).

Definition pad (msg : list Z) : list Z :=
  let len := Z.of_nat (length msg) in
  let zeros := Z.to_nat ((55 - len) mod 64) in
  msg ++ [128] ++ replicate zeros 0 ++ be_bytes 8 (8 * len).

(** [hashlib.sha256(msg).digest()], as 8 words and as 32 bytes. *)
Definition words (msg : list Z) : list Z :=
  let p := pad msg in
  let st := foldl compress H0 (chunks (length p) 64 p) in
  (fun i => nth i st 0) <$> seq 0 8.

Definition digest (msg : list Z) : list Z := w ← words msg; be_bytes 4 w.

Definition hex_digit (n : Z) : Ascii.ascii := if n <? 10 then chr (48 + n) else chr (87 + n).

Definition hexdigest (msg : list Z) : string :=
  of_chars (b ← digest msg; [hex_digit (b / 16); hex_digit (b mod 16)]).
End Sha256.

(** [s.encode("utf-8")] *)
Definition encode (s : string) : list Z := code <$> chars s.

(** ** Numbers and dates *)

(** [str(n)] *)
Definition str_int (n : Z) : string := pretty n.

(** [str(d)] of a decimal with a nonnegative or negative coefficient. *)
Definition str_decimal (d : decimal) : string :=
  let sign := if coef d <? 0 then "-" else "" in
  let digits := pretty (Z.to_N (Z.abs (coef d))) in
  let n := Z.of_nat (slen digits) in
  let left := dexp d + n in
  let dot := if (dexp d <=? 0) && (-6 <? left) then left else 1 in
  let body :=
    if dot <=? 0 then "0." +:+ srepeat "0" (Z.to_nat (- dot)) +:+ digits
    else if n <=? dot then digits +:+ srepeat "0" (Z.to_nat (dot - n))
    else sprefix (Z.to_nat dot) digits +:+ "." +:+ of_chars (drop (Z.to_nat dot) (chars digits)) in
  let e := left - dot in
  let exp := if e =? 0 then "" else "E" +:+ (if e <? 0 then "" else "+") +:+ pretty e in
  sign +:+ body +:+ exp.

(** [f"{d:.{p}f}"]: [p] decimals, half to even. *)
Definition dec_fixed (d : decimal) (p : Z) : string :=
  let c := if - p <=? dexp d then scaled d (- p)
           else on_abs (fun n => round_half_even n (- p - dexp d)) (coef d) in
  (if (coef d <? 0) && (c =? 0) then "-" else "") +:+ str_decimal (Dec c (- p)).

Record date : Type := Date { year : Z; month : Z; day : Z }.

#[export] Instance date_eq_dec : EqDecision date.
Proof. solve_decision. Defined.

(** Zero-padded digits, least significant first consumed: [f"{n:0{w}d}"] for [0 <= n < 10^w]. *)
Fixpoint digits_w (w : nat) (n : Z) : list Ascii.ascii :=
  match w with
  | O => []
  | S w' => digits_w w' (n / 10) ++ [chr (48 + n mod 10)]
  end.

Definition isoformat (d : date) : string :=
  of_chars (digits_w 4 (year d) ++ [chr 45] ++ digits_w 2 (month d) ++ [chr 45]
            ++ digits_w 2 (day d)).

(** Dates Python can represent. *)
Definition valid_date (d : date) : Prop :=
  1 <= year d <= 9999 /\ 1 <= month d <= 12 /\ 1 <= day d <= 31.

(** ** [int(s, 16)] on ASCII strings *)

Definition is_space (c : Ascii.ascii) : bool :=
  let n := code c in ((9 <=? n) && (n <=? 13)) || ((28 <=? n) && (n <=? 32)).

Definition is_hex (c : Ascii.ascii) : bool :=
  let n := code c in
  ((48 <=? n) && (n <=? 57)) || ((97 <=? n) && (n <=? 102)) || ((65 <=? n) && (n <=? 70)).

Definition is_char (n : Z) (c : Ascii.ascii) : bool := code c =? n.

Fixpoint skip_spaces (l : list Ascii.ascii) : list Ascii.ascii :=
  match l with
  | c :: l' => if is_space c then skip_spaces l' else l
  | [] => []
  end.

(** [str.upper] on ASCII text. *)
Definition upper_char (c : Ascii.ascii) : Ascii.ascii :=
  if (97 <=? code c) && (code c <=? 122) then chr (code c - 32) else c.
Definition upper (s : string) : string := of_chars (upper_char <$> chars s).

(** [str.lower] on ASCII text. *)
Definition lower_char (c : Ascii.ascii) : Ascii.ascii :=
  if (65 <=? code c) && (code c <=? 90) then chr (code c + 32) else c.
Definition lower (s : string) : string := of_chars (lower_char <$> chars s).

(** Digits separated by single underscores, then only spaces. *)
Fixpoint hex_tail (underscore : bool) (l : list Ascii.ascii) : bool :=
  match l with
  | [] => negb underscore
  | c :: l' =>
      if is_hex c then hex_tail false l'
      else if is_char 95 c then negb underscore && hex_tail true l'
      else negb underscore && forallb is_space l
  end.

Definition hex_start (l : list Ascii.ascii) : bool :=
  match l with c :: l' => is_hex c && hex_tail false l' | [] => false end.

(** Whether [int(s, 16)] succeeds (otherwise it raises ValueError). *)
Definition parses_base16 (s : string) : bool :=
  let l := skip_spaces (chars s) in
  let l := match l with
           | c :: l' => if is_char 43 c || is_char 45 c then l' else l
           | [] => l end in
  match l with
  | z :: x :: l' =>
      if is_char 48 z && (is_char 120 x || is_char 88 x) then
        hex_start (match l' with u :: l2 => if is_char 95 u then l2 else l' | [] => l' end)
      else hex_start l
  | _ => hex_start l
  end.

(** ** Characters of a string *)

Lemma chars_app a b : chars (a +:+ b) = chars a ++ chars b.
Proof. induction a as [|c a IH]; simpl; [done | by f_equal]. Qed.

Lemma chars_of_chars l : chars (of_chars l) = l.
Proof. induction l as [|c l IH]; simpl; [done | by f_equal]. Qed.

Lemma of_chars_chars s : of_chars (chars s) = s.
Proof. induction s as [|c s IH]; simpl; [done | by f_equal]. Qed.

#[export] Instance chars_inj : Inj (=) (=) chars.
Proof. intros a b H. by rewrite <- (of_chars_chars a), H, of_chars_chars. Qed.

Lemma slen_app a b : slen (a +:+ b) = (slen a + slen b)%nat.
Proof. unfold slen. by rewrite chars_app, length_app. Qed.

(** No character of [s] has code [n]. *)
Definition no_char (n : Z) (s : string) : Prop := Forall (fun c => code c <> n) (chars s).

#[export] Instance no_char_dec n s : Decision (no_char n s).
Proof. apply _. Defined.

Lemma no_char_app n a b : no_char n (a +:+ b) <-> no_char n a /\ no_char n b.
Proof. unfold no_char. by rewrite chars_app, Forall_app. Qed.

(** Splitting at the first separator is unambiguous. *)
Lemma split_sep n a b ra rb sep :
  no_char n a -> no_char n b -> code sep = n ->
  a +:+ String sep ra = b +:+ String sep rb -> a = b /\ ra = rb.
Proof.
  intros Ha Hb Hsep. revert b Hb. induction a as [|c a IH]; intros [|c' b] Hb H;
    simplify_eq/=; try done.
  - by apply Forall_cons in Hb as [? _].
  - by apply Forall_cons in Ha as [? _].
  - apply Forall_cons in Ha as [_ Ha]. apply Forall_cons in Hb as [_ Hb].
    by destruct (IH Ha b Hb) as [-> ->].
Qed.

(** Splitting off suffixes of one length is unambiguous. *)
Lemma split_suffix a b ra rb :
  slen ra = slen rb -> a +:+ ra = b +:+ rb -> a = b /\ ra = rb.
Proof.
  intros Hlen H. apply (f_equal chars) in H. rewrite !chars_app in H.
  apply app_inj_2 in H as [H1 H2]; [|exact Hlen]. by split; apply (inj chars).
Qed.

Lemma slen_sprefix n s : (n <= slen s)%nat -> slen (sprefix n s) = n.
Proof. unfold slen, sprefix. intros. rewrite chars_of_chars, length_take. lia. Qed.

(** ** Decimal digits *)

Definition is_digit (c : Ascii.ascii) : bool := (48 <=? code c) && (code c <=? 57).

(** The number a string spells once everything but its digits is dropped. *)
Definition digit_step (acc : Z) (c : Ascii.ascii) : Z :=
  if is_digit c then 10 * acc + (code c - 48) else acc.
Definition digit_value (s : string) : Z := foldl digit_step 0 (chars s).

Lemma pretty_N_char_code d : (d < 10)%N -> code (pretty_N_char d) = 48 + Z.of_N d.
Proof.
  intros H. apply Z.eqb_eq. rewrite <- (N2Z.id d) at 1.
  apply (enumerate_Z (fun z => code (pretty_N_char (Z.to_N z)) =? 48 + z) 10); [reflexivity|lia].
Qed.

Lemma pretty_N_go_chars x s :
  exists ds, chars (pretty_N_go x s) = ds ++ chars s /\ Forall (fun c => is_digit c = true) ds /\
    forall a, foldl digit_step a ds = a * 10 ^ Z.of_nat (length ds) + Z.of_N x.
Proof.
  revert s. induction (N.lt_wf_0 x) as [x _ IH]; intros s.
  assert (x = 0 \/ 0 < x)%N as [->|Hx] by lia.
  { exists []. rewrite pretty_N_go_0. split; [done|]. split; [done|]. intros a. simpl. lia. }
  rewrite pretty_N_go_step by done.
  assert (Hm : (x `mod` 10 < 10)%N) by (by apply N.mod_lt).
  pose proof (pretty_N_char_code _ Hm) as Hc.
  set (d := (x `mod` 10)%N) in *.
  destruct (IH (x `div` 10)%N ltac:(by apply N.div_lt)
              (String (pretty_N_char d) s)) as (ds & -> & Hd & Hv).
  assert (Hdig : is_digit (pretty_N_char d) = true).
  { unfold is_digit. rewrite Hc. apply andb_true_iff. split; apply Z.leb_le; lia. }
  exists (ds ++ [pretty_N_char d]). simpl. rewrite <- app_assoc. split; [done|].
  split; [by apply Forall_app; split; [|constructor]|].
  intros a. rewrite foldl_app. simpl. rewrite Hv. unfold digit_step. rewrite Hdig, Hc, length_app.
  simpl length. rewrite Nat2Z.inj_add, Z.pow_add_r by lia.
  pose proof (N.div_mod x 10 ltac:(done)) as Hdm. fold d in Hdm.
  change (10 ^ Z.of_nat 1) with 10. rewrite Hdm at 2. lia.
Qed.

Lemma pretty_N_chars n :
  Forall (fun c => is_digit c = true) (chars (pretty n)) /\
  forall a, foldl digit_step a (chars (pretty n))
            = a * 10 ^ Z.of_nat (slen (pretty n)) + Z.of_N n.
Proof.
  unfold slen, pretty, pretty_N. case_decide as Hn.
  - subst. split; [by constructor|]. intros a.
    change (10 * a + 0 = a * 10 ^ 1 + 0). lia.
  - destruct (pretty_N_go_chars n "") as (ds & H & Hd & Hv). simpl in H.
    rewrite app_nil_r in H. rewrite H. by split.
Qed.

Lemma digit_not n c : n < 48 \/ 57 < n -> is_digit c = true -> code c <> n.
Proof.
  unfold is_digit. intros Hn H. apply andb_true_iff in H as [H1 H2].
  apply Z.leb_le in H1, H2. lia.
Qed.

Lemma pretty_N_no_char n m : n < 48 \/ 57 < n -> no_char n (pretty (m : N)).
Proof.
  intros Hn. destruct (pretty_N_chars m) as [H _]. unfold no_char.
  eapply Forall_impl; [exact H|]. intros c. by apply digit_not.
Qed.

Lemma str_int_no_char n m : n < 45 \/ 57 < n -> no_char n (str_int m).
Proof.
  intros Hn. unfold str_int, pretty, pretty_Z. destruct m as [|p|p].
  - constructor; [|done]. vm_compute code. lia.
  - apply (pretty_N_no_char n (Npos p)). lia.
  - constructor; [vm_compute code; lia|]. apply (pretty_N_no_char n (Npos p)). lia.
Qed.

#[export] Instance str_int_inj : Inj (=) (=) str_int.
Proof. unfold str_int. apply _. Qed.

(** ** Hexadecimal digests *)

Definition is_lower_hex (c : Ascii.ascii) : bool :=
  is_digit c || ((97 <=? code c) && (code c <=? 102)).

Lemma lower_hex_is_hex c : is_lower_hex c = true -> is_hex c = true.
Proof.
  unfold is_lower_hex, is_digit, is_hex. intros [->|H]%orb_true_iff; [done|].
  rewrite H. by rewrite orb_true_r.
Qed.

Lemma hex_digit_lower n : 0 <= n < 16 -> is_lower_hex (Sha256.hex_digit n) = true.
Proof.
  exact (enumerate_Z (fun n => is_lower_hex (Sha256.hex_digit n)) 16 n eq_refl).
Qed.

Lemma length_be_bytes n x : length (Sha256.be_bytes n x) = n.
Proof. unfold Sha256.be_bytes. by rewrite length_fmap, length_rev, length_seq. Qed.

Lemma be_bytes_range n x : Forall (fun b => 0 <= b < 256) (Sha256.be_bytes n x).
Proof.
  unfold Sha256.be_bytes. apply Forall_fmap, Forall_forall. intros i _.
  apply Z.mod_pos_bound. lia.
Qed.

Lemma length_bind_const {A B} (f : A -> list B) n l :
  (forall a, length (f a) = n) -> length (l ≫= f) = (length l * n)%nat.
Proof.
  intros Hf. induction l as [|a l IH]; simpl; [done|].
  rewrite length_app, Hf. change (list_bind A B f l) with (l ≫= f). lia.
Qed.

Lemma Forall_bind_intro {A B} (P : B -> Prop) (f : A -> list B) l :
  Forall (fun a => Forall P (f a)) l -> Forall P (l ≫= f).
Proof.
  induction 1 as [|a l Ha Hl IH]; simpl; [done|]. by apply Forall_app.
Qed.

Lemma digest_length m : length (Sha256.digest m) = 32%nat.
Proof.
  unfold Sha256.digest. rewrite (length_bind_const _ 4); [|intros; apply length_be_bytes].
  unfold Sha256.words. by rewrite length_fmap, length_seq.
Qed.

Lemma digest_range m : Forall (fun b => 0 <= b < 256) (Sha256.digest m).
Proof. apply Forall_bind_intro, Forall_forall. intros. apply be_bytes_range. Qed.

Lemma hexdigest_length m : slen (Sha256.hexdigest m) = 64%nat.
Proof.
  unfold slen, Sha256.hexdigest. rewrite chars_of_chars, (length_bind_const _ 2); [|done].
  by rewrite digest_length.
Qed.

Lemma hexdigest_lower m : Forall (fun c => is_lower_hex c = true) (chars (Sha256.hexdigest m)).
Proof.
  unfold Sha256.hexdigest. rewrite chars_of_chars. apply Forall_bind_intro.
  eapply Forall_impl; [apply digest_range|]. intros b Hb. cbv beta in Hb.
  repeat constructor; apply hex_digit_lower.
  - split; [apply Z.div_pos; lia | apply Z.div_lt_upper_bound; lia].
  - apply Z.mod_pos_bound. lia.
Qed.

Lemma sprefix_Forall P n s : Forall P (chars s) -> Forall P (chars (sprefix n s)).
Proof. unfold sprefix. rewrite chars_of_chars. apply Forall_take. Qed.

(** *** Parsing hexadecimal digits *)

Lemma hex_not n c :
  (n < 48 \/ 102 < n \/ n = 95 \/ n = 88) -> is_hex c = true -> is_char n c = false.
Proof.
  unfold is_hex, is_char. cbv zeta. intros Hn H. apply Z.eqb_neq.
  repeat (apply orb_true_iff in H as [H|H]); apply andb_true_iff in H as [H1 H2];
    apply Z.leb_le in H1, H2; lia.
Qed.

Lemma hex_not_space c : is_hex c = true -> is_space c = false.
Proof.
  unfold is_hex, is_space. cbv zeta. intros H.
  apply orb_false_iff; split; apply andb_false_iff; right; apply Z.leb_gt;
  repeat (apply orb_true_iff in H as [H|H]); apply andb_true_iff in H as [H1 H2];
    apply Z.leb_le in H1, H2; lia.
Qed.

Lemma hex_tail_all l : Forall (fun c => is_hex c = true) l -> hex_tail false l = true.
Proof. induction 1 as [|c l Hc Hl IH]; simpl; [done | by rewrite Hc]. Qed.

Lemma parses_base16_hex s :
  (1 <= slen s)%nat -> Forall (fun c => is_hex c = true) (chars s) -> parses_base16 s = true.
Proof.
  unfold slen, parses_base16. destruct (chars s) as [|z l]; simpl; [lia|].
  intros _ [Hz Hl]%Forall_cons. rewrite (hex_not_space z Hz).
  rewrite (hex_not 43 z), (hex_not 45 z) by (done || lia). simpl.
  assert (Hs : hex_start (z :: l) = true) by (simpl; by rewrite Hz, hex_tail_all).
  destruct l as [|x l]; [done|]. apply Forall_cons in Hl as [Hx _].
  rewrite (hex_not 120 x), (hex_not 88 x) by (done || lia). by rewrite andb_false_r.
Qed.

(** ** Dates *)

Lemma chr_digit_code d : 0 <= d < 10 -> code (chr (48 + d)) = 48 + d.
Proof.
  intros H. apply Z.eqb_eq, (enumerate_Z (fun d => code (chr (48 + d)) =? 48 + d) 10); [reflexivity|exact H].
Qed.

Lemma length_digits_w w n : length (digits_w w n) = w.
Proof.
  revert n. induction w as [|w IH]; intros n; simpl; [done|].
  rewrite length_app, IH. simpl. lia.
Qed.

Lemma digits_w_value w n :
  0 <= n < 10 ^ Z.of_nat w -> foldl digit_step 0 (digits_w w n) = n.
Proof.
  revert n. induction w as [|w IH]; intros n Hn; [simpl in *; lia|].
  rewrite Nat2Z.inj_succ, Z.pow_succ_r in Hn by lia.
  pose proof (Z.mod_pos_bound n 10 ltac:(lia)). pose proof (Z.div_mod n 10 ltac:(lia)).
  simpl. rewrite foldl_app, IH.
  - simpl. unfold digit_step, is_digit. rewrite chr_digit_code by lia.
    replace ((48 <=? 48 + n mod 10) && (48 + n mod 10 <=? 57)) with true; [lia|].
    symmetry. apply andb_true_iff. split; apply Z.leb_le; lia.
  - split; [apply Z.div_pos; lia | apply Z.div_lt_upper_bound; lia].
Qed.

Lemma digits_w_inj w n m :
  0 <= n < 10 ^ Z.of_nat w -> 0 <= m < 10 ^ Z.of_nat w ->
  digits_w w n = digits_w w m -> n = m.
Proof. intros Hn Hm H. by rewrite <- (digits_w_value w n), H, digits_w_value. Qed.

Lemma isoformat_length d : slen (isoformat d) = 10%nat.
Proof.
  unfold slen, isoformat. rewrite chars_of_chars, !length_app, !length_digits_w. done.
Qed.

Lemma isoformat_inj d d' :
  valid_date d -> valid_date d' -> isoformat d = isoformat d' -> d = d'.
Proof.
  intros (Hy & Hm & Hd) (Hy' & Hm' & Hd') H. apply (f_equal chars) in H.
  unfold isoformat in H. rewrite !chars_of_chars in H.
  apply app_inj_1 in H as [E1 H]; [|by rewrite !length_digits_w].
  apply app_inj_1 in H as [_ H]; [|done].
  apply app_inj_1 in H as [E2 H]; [|by rewrite !length_digits_w].
  apply app_inj_1 in H as [_ E3]; [|done].
  apply digits_w_inj in E1, E2, E3; [|simpl; lia..].
  destruct d, d'. simpl in *. congruence.
Qed.

(** ** Two-decimal prices *)

Definition cents (c : Z) : string := str_decimal (Dec c (-2)).

Lemma foldl_zeros n : foldl digit_step 0 (chars (srepeat "0" n)) = 0.
Proof. induction n as [|n IH]; simpl; done. Qed.

Lemma srepeat_zero_digits n : Forall (fun c => is_digit c = true) (chars (srepeat "0" n)).
Proof. induction n as [|n IH]; simpl; constructor; done. Qed.

Lemma foldl_dot a : foldl digit_step a (chars ".") = a.
Proof. reflexivity. Qed.

(** The text of [c * 10^-2], [c >= 0]: digits and one dot. *)
Lemma cents_chars c :
  0 <= c ->
  foldl digit_step 0 (chars (cents c)) = c /\
  Forall (fun a => is_digit a = true \/ a = chr 46) (chars (cents c)).
Proof.
  intros Hc. unfold cents, str_decimal. cbn [coef dexp].
  destruct (Z.ltb_spec c 0); [lia|]. rewrite (Z.abs_eq c Hc). cbn [String.append].
  set (D := pretty (Z.to_N c)). destruct (pretty_N_chars (Z.to_N c)) as [Hd Hv].
  fold D in Hd, Hv. specialize (Hv 0). rewrite Z2N.id in Hv by lia. simpl in Hv.
  assert (Hd' : Forall (fun a => is_digit a = true \/ a = chr 46) (chars D))
    by (eapply Forall_impl; [exact Hd|]; auto).
  assert (Hn : 1 <= Z.of_nat (slen D)).
  { destruct (slen D) eqn:E; [|lia]. exfalso. apply length_zero_iff_nil in E.
    rewrite E in Hv. change (0 = c) in Hv.
    assert (HD : D = "0") by (unfold D; by rewrite <- Hv). by rewrite HD in E. }
  set (n := Z.of_nat (slen D)) in *.
  destruct (Z.ltb_spec (-6) (-2 + n)); [|lia]. rewrite andb_true_r. cbn [Z.leb Z.compare].
  rewrite Z.sub_diag. cbn [Z.eqb]. rewrite !chars_app. cbn [chars]. rewrite app_nil_r. change ([] ++ ?l) with l.
  destruct (Z.leb_spec (-2 + n) 0).
  - rewrite !chars_app. cbn [chars]. rewrite !foldl_app. split.
    + change (foldl digit_step 0 [chr 48; chr 46]) with 0. rewrite foldl_zeros. exact Hv.
    + repeat (apply Forall_app; split); [|..|done].
      * constructor; [by left|]. constructor; [by right|constructor].
      * eapply Forall_impl; [apply srepeat_zero_digits|]; auto.
  - destruct (Z.leb_spec n (-2 + n)); [lia|].
    unfold sprefix. rewrite !chars_app, !chars_of_chars. cbn [chars]. split.
    + pose proof foldl_dot as Hdot. cbn [chars] in Hdot. rewrite !foldl_app, Hdot.
      rewrite <- foldl_app, take_drop. exact Hv.
    + repeat (apply Forall_app; split).
      * by apply Forall_take.
      * constructor; [by right|constructor].
      * by apply Forall_drop.
Qed.
