(* ===== verification/OrderStatus.v ===== *)
(** * Order statuses (apps/execution_gateway/database.py, lines 34-77)

    The status vocabulary, the set of terminal statuses and the rank used by
    conflict resolution, with the facts that tie the two tables together. *)

From S2P Require Import Prelude.

Open Scope Z_scope.

Definition TERMINAL_STATUSES : gset string :=
  list_to_set ["filled"; "canceled"; "expired"; "failed"; "rejected"; "replaced";
               "done_for_day"; "blocked_kill_switch"; "blocked_circuit_breaker"].

Definition STATUS_RANKS : gmap string Z :=
  list_to_map [
    (* Rank 1: initial *)
    ("pending_new", 1); ("dry_run", 1);
    (* Rank 2: submitted *)
    ("submitted", 2); ("submitted_unconfirmed", 2); ("new", 2); ("accepted", 2);
    (* Rank 3: active *)
    ("pending_cancel", 3); ("pending_replace", 3); ("calculated", 3); ("stopped", 3);
    ("suspended", 3); ("partially_filled", 3);
    (* Rank 4: terminal (non-fill) *)
    ("canceled", 4); ("expired", 4); ("failed", 4); ("rejected", 4); ("replaced", 4);
    ("done_for_day", 4); ("blocked_kill_switch", 4); ("blocked_circuit_breaker", 4);
    (* Rank 5: terminal (fill) *)
    ("filled", 5)].

Definition status_rank_for (status : string) : Z := default 0 (STATUS_RANKS !! status).

Definition is_terminal_status (status : string) : bool :=
  bool_decide (status ∈ TERMINAL_STATUSES).

Definition PENDING_STATUSES : list string :=
  ["new"; "pending_new"; "submitted"; "submitted_unconfirmed"; "accepted";
   "pending_cancel"; "pending_replace"; "partially_filled"].

(** Which source an update comes from (reconciliation/orders.py). *)
Definition SOURCE_PRIORITY_MANUAL : Z := 1.
Definition SOURCE_PRIORITY_RECONCILIATION : Z := 2.
Definition SOURCE_PRIORITY_WEBHOOK : Z := 3.

(** ** The two tables agree *)

(** A predicate of a rank that fails for unknown statuses holds of a status only
    if the status is a key of the table. *)
Lemma rank_cases (P : string -> Z -> Prop) :
  map_Forall P STATUS_RANKS -> (forall s, STATUS_RANKS !! s = None -> P s 0) ->
  forall s, P s (status_rank_for s).
Proof.
  intros H Hnone s. unfold status_rank_for. destruct (STATUS_RANKS !! s) as [r|] eqn:E; simpl.
  - by apply (H s r).
  - by apply Hnone.
Qed.

Lemma rank_range s : 0 <= status_rank_for s <= 5.
Proof.
  apply (rank_cases (fun _ r => 0 <= r <= 5)); [|lia].
  apply (bool_decide_unpack _). vm_compute. exact I.
Qed.

(** C-helper: a status is terminal exactly when its rank is at least 4. *)
Lemma terminal_iff_rank s : s ∈ TERMINAL_STATUSES <-> 4 <= status_rank_for s.
Proof.
  apply (rank_cases (fun s r => s ∈ TERMINAL_STATUSES <-> 4 <= r)).
  - apply (bool_decide_unpack _). vm_compute. exact I.
  - intros s' H. split; [|lia]. intros Hs. exfalso.
    assert (Hall : set_Forall (fun t => is_Some (STATUS_RANKS !! t)) TERMINAL_STATUSES).
    { apply (bool_decide_unpack _). vm_compute. exact I. }
    destruct (Hall s' Hs) as [r Hr]. congruence.
Qed.

Lemma rank_filled s : status_rank_for s = 5 <-> s = "filled".
Proof.
  apply (rank_cases (fun s r => r = 5 <-> s = "filled")).
  - apply (bool_decide_unpack _). vm_compute. exact I.
  - intros s' H. split; [lia|]. intros ->. discriminate H.
Qed.

Lemma pending_not_terminal s : s ∈ PENDING_STATUSES -> s ∉ TERMINAL_STATUSES.
Proof.
  assert (H : Forall (fun s => s ∉ TERMINAL_STATUSES) PENDING_STATUSES).
  { apply (bool_decide_unpack _). vm_compute. exact I. }
  rewrite Forall_forall in H. apply H.
Qed.
