(* ===== verification/OrderSchema.v ===== *)
(** * Order requests (apps/execution_gateway/schemas.py, class OrderRequest)

    The request record and its pydantic validators.  A request is rejected with
    the first failing validator; pydantic collects all of them, which changes
    the message but not whether the request is accepted.  Timestamps are UTC
    microseconds. *)

From S2P Require Import Prelude PyDecimal PyText.

Open Scope Z_scope.

Definition TWAP_MIN_DURATION_MINUTES : Z := 5.
Definition TWAP_MAX_DURATION_MINUTES : Z := 480.
Definition TWAP_MIN_INTERVAL_SECONDS : Z := 30.
Definition TWAP_MAX_INTERVAL_SECONDS : Z := 300.
Definition TWAP_MIN_SLICES : Z := 2.
Definition TWAP_MIN_SLICE_QTY : Z := 10.

Definition second_us : Z := 1000000.
Definition minute_us : Z := 60 * second_us.
Definition day_us : Z := 24 * 60 * minute_us.

Record OrderRequest : Type := {
  req_symbol : string;
  req_side : string;
  req_qty : Z;
  req_order_type : string;
  req_limit_price : option decimal;
  req_stop_price : option decimal;
  req_time_in_force : string;
  req_execution_style : string;
  req_twap_duration_minutes : option Z;
  req_twap_interval_seconds : option Z;
  req_start_time : option Z;
  req_client_order_id : option string;
}.

#[export] Instance OrderRequest_eq_dec : EqDecision OrderRequest.
Proof. solve_decision. Defined.

(** [math.ceil(a / b)]: the float quotient is exact enough below 2^53. *)
Definition ceil_div (a b : Z) : Z := - ((- a) / b).

Definition one_of (s : string) (l : list string) : bool := bool_decide (s ∈ l).

(** The [Literal] types and the [gt=0] bound of the fields. *)
Definition field_types_ok (r : OrderRequest) : bool :=
  one_of (req_side r) ["buy"; "sell"] && (0 <? req_qty r) &&
  one_of (req_order_type r) ["market"; "limit"; "stop"; "stop_limit"] &&
  one_of (req_time_in_force r) ["day"; "gtc"; "ioc"; "fok"] &&
  one_of (req_execution_style r) ["instant"; "twap"].

Definition id_char (c : Ascii.ascii) : bool :=
  let n := code c in
  ((48 <=? n) && (n <=? 57)) || ((65 <=? n) && (n <=? 90)) || ((97 <=? n) && (n <=? 122))
  || (n =? 45) || (n =? 95).

Definition client_order_id_charset (v : option string) : bool :=
  match v with
  | None => true
  | Some s => (1 <=? Z.of_nat (slen s)) && (Z.of_nat (slen s) <=? 24) && forallb id_char (chars s)
  end.

Definition symbol_uppercase (r : OrderRequest) : OrderRequest :=
  {| req_symbol := upper (req_symbol r); req_side := req_side r; req_qty := req_qty r;
     req_order_type := req_order_type r; req_limit_price := req_limit_price r;
     req_stop_price := req_stop_price r; req_time_in_force := req_time_in_force r;
     req_execution_style := req_execution_style r;
     req_twap_duration_minutes := req_twap_duration_minutes r;
     req_twap_interval_seconds := req_twap_interval_seconds r;
     req_start_time := req_start_time r; req_client_order_id := req_client_order_id r |}.

Definition price_positive (v : option decimal) : bool :=
  match v with None => true | Some p => dltb dzero p end.

Definition validate_order_type_prices (r : OrderRequest) : result unit :=
  if one_of (req_order_type r) ["limit"; "stop_limit"] && bool_decide (req_limit_price r = None)
  then Raise (ValueError "limit_price required")
  else if one_of (req_order_type r) ["stop"; "stop_limit"] && bool_decide (req_stop_price r = None)
  then Raise (ValueError "stop_price required")
  else if one_of (req_order_type r) ["stop_limit"] then
    match req_limit_price r, req_stop_price r with
    | Some l, Some s =>
        if one_of (req_side r) ["buy"] && dltb l s
        then Raise (ValueError "Buy stop-limit requires limit_price >= stop_price")
        else if one_of (req_side r) ["sell"] && dltb s l
        then Raise (ValueError "Sell stop-limit requires limit_price <= stop_price")
        else Ok tt
    | _, _ => Ok tt
    end
  else Ok tt.

Definition num_slices_of (duration_minutes interval_seconds : Z) : Z :=
  Z.max 1 (ceil_div (duration_minutes * 60) interval_seconds).

Definition validate_start_time (now : Z) (start_time : option Z) : result unit :=
  match start_time with
  | None => Ok tt
  | Some t =>
      if t <? now - minute_us then Raise (ValueError "start_time cannot be in the past")
      else if now + 5 * day_us <? t
      then Raise (ValueError "start_time cannot be more than 5 days in the future")
      else Ok tt
  end.

Definition validate_twap_constraints (now : Z) (r : OrderRequest) : result unit :=
  if one_of (req_execution_style r) ["twap"] then
    if negb (one_of (req_order_type r) ["market"; "limit"])
    then Raise (ValueError "TWAP execution not supported for order_type")
    else if negb (one_of (req_time_in_force r) ["day"])
    then Raise (ValueError "TWAP execution not supported for time_in_force")
    else match req_twap_duration_minutes r, req_twap_interval_seconds r with
    | None, _ => Raise (ValueError "twap_duration_minutes required for TWAP orders")
    | Some _, None => Raise (ValueError "twap_interval_seconds required for TWAP orders")
    | Some d, Some i =>
        if negb ((TWAP_MIN_DURATION_MINUTES <=? d) && (d <=? TWAP_MAX_DURATION_MINUTES))
        then Raise (ValueError "twap_duration_minutes out of range")
        else if negb ((TWAP_MIN_INTERVAL_SECONDS <=? i) && (i <=? TWAP_MAX_INTERVAL_SECONDS))
        then Raise (ValueError "twap_interval_seconds out of range")
        else
          let num_slices := num_slices_of d i in
          if num_slices <? TWAP_MIN_SLICES then Raise (ValueError "TWAP requires at least 2 slices")
          else if req_qty r / num_slices <? TWAP_MIN_SLICE_QTY
          then Raise (ValueError "TWAP minimum slice size is 10 shares")
          else validate_start_time now (req_start_time r)
    end
  else Ok tt.

(** Construction of a request from its raw fields at time [now]. *)
Definition mk_order_request (now : Z) (raw : OrderRequest) : result OrderRequest :=
  if negb (field_types_ok raw) then Raise (ValueError "field type")
  else if negb (client_order_id_charset (req_client_order_id raw))
  then Raise (ValueError "client_order_id")
  else if negb (price_positive (req_limit_price raw) && price_positive (req_stop_price raw))
  then Raise (ValueError "Price must be positive")
  else
    let r := symbol_uppercase raw in
    _ ← validate_order_type_prices r;
    _ ← validate_twap_constraints now r;
    Ok r.

(** ** What an accepted request satisfies *)

Lemma ceil_div_spec a b : 0 < b -> b * (ceil_div a b - 1) < a <= b * ceil_div a b.
Proof.
  intros Hb. unfold ceil_div. pose proof (Z.div_mod (- a) b ltac:(lia)).
  pose proof (Z.mod_pos_bound (- a) b Hb). nia.
Qed.

Lemma ceil_div_pos a b : 0 < a -> 0 < b -> 1 <= ceil_div a b.
Proof. intros Ha Hb. pose proof (ceil_div_spec a b Hb). nia. Qed.

Lemma one_of_spec s l : one_of s l = true <-> s ∈ l.
Proof. unfold one_of. by rewrite bool_decide_eq_true. Qed.

Definition prices_wf (r : OrderRequest) : Prop :=
  (req_order_type r ∈ ["limit"; "stop_limit"] -> is_Some (req_limit_price r)) /\
  (req_order_type r ∈ ["stop"; "stop_limit"] -> is_Some (req_stop_price r)) /\
  (forall l s, req_order_type r = "stop_limit" ->
     req_limit_price r = Some l -> req_stop_price r = Some s ->
     (req_side r = "buy" -> dltb l s = false) /\ (req_side r = "sell" -> dltb s l = false)).

Definition twap_wf (now : Z) (r : OrderRequest) : Prop :=
  req_order_type r ∈ ["market"; "limit"] /\ req_time_in_force r = "day" /\
  exists d i, req_twap_duration_minutes r = Some d /\ req_twap_interval_seconds r = Some i /\
    5 <= d <= 480 /\ 30 <= i <= 300 /\ 2 <= num_slices_of d i /\
    10 <= req_qty r / num_slices_of d i /\
    (forall t, req_start_time r = Some t -> now - minute_us <= t <= now + 5 * day_us).

Lemma one_of_reflect s l : reflect (s ∈ l) (one_of s l).
Proof. apply bool_decide_reflect. Qed.

Lemma one_of_true s l : s ∈ l -> one_of s l = true.
Proof. apply one_of_spec. Qed.

Lemma one_of_false s l : s ∉ l -> one_of s l = false.
Proof. intros H. by destruct (one_of_reflect s l). Qed.

Lemma not_in_singleton (s x : string) : s ∉ [x] <-> s <> x.
Proof. by rewrite list_elem_of_singleton. Qed.

(** With both prices given, only the ordering of a stop-limit matters. *)
Lemma stop_limit_ordering r l s :
  req_limit_price r = Some l -> req_stop_price r = Some s ->
  validate_order_type_prices r = Ok tt <->
  (req_order_type r = "stop_limit" ->
     (req_side r = "buy" -> dltb l s = false) /\ (req_side r = "sell" -> dltb s l = false)).
Proof.
  intros El Es. unfold validate_order_type_prices. rewrite El, Es.
  rewrite !(bool_decide_eq_false_2 (Some _ = None)) by done. rewrite !andb_false_r.
  destruct (one_of_reflect (req_order_type r) ["stop_limit"]) as [E|E];
    rewrite list_elem_of_singleton in E; [|naive_solver].
  destruct (one_of_reflect (req_side r) ["buy"]) as [Eb|Eb];
    rewrite list_elem_of_singleton in Eb; [rewrite Eb; simpl|];
    [destruct (dltb l s); naive_solver congruence|].
  destruct (one_of_reflect (req_side r) ["sell"]) as [Ee|Ee];
    rewrite list_elem_of_singleton in Ee; [|naive_solver].
  simpl. destruct (dltb s l); naive_solver congruence.
Qed.

Lemma validate_order_type_prices_ok r :
  validate_order_type_prices r = Ok tt <-> prices_wf r.
Proof.
  unfold prices_wf.
  destruct (req_limit_price r) as [l|] eqn:El, (req_stop_price r) as [s|] eqn:Es.
  { rewrite (stop_limit_ordering r l s El Es). split.
    - intros H. split; [done|]. split; [done|]. intros l' s' E [= <-] [= <-]. by apply H.
    - intros (_ & _ & H) E. by apply H. }
  all: unfold validate_order_type_prices; rewrite ?El, ?Es.
  all: destruct (one_of_reflect (req_order_type r) ["limit"; "stop_limit"]) as [E1|E1],
         (one_of_reflect (req_order_type r) ["stop"; "stop_limit"]) as [E2|E2]; simpl.
  all: try (split; [done|]; intros (H1 & H2 & _);
            first [by destruct (H1 E1) | by destruct (H2 E2) | idtac]).
  all: try (destruct (one_of_reflect (req_order_type r) ["stop_limit"]); done).
  all: split; [intros _|by destruct (one_of _ _)].
  all: split; [done|split; [done|intros; congruence]].
Qed.

Lemma validate_start_time_ok now t :
  validate_start_time now t = Ok tt <->
  (forall u, t = Some u -> now - minute_us <= u <= now + 5 * day_us).
Proof.
  unfold validate_start_time. destruct t as [u|]; [|naive_solver].
  destruct (Z.ltb_spec u (now - minute_us)); [naive_solver lia|].
  destruct (Z.ltb_spec (now + 5 * day_us) u); naive_solver lia.
Qed.

Lemma negb_if {A} (b : bool) (x y : A) : (if negb b then x else y) = if b then y else x.
Proof. by destruct b. Qed.

Lemma validate_twap_constraints_ok now r :
  req_execution_style r = "twap" ->
  validate_twap_constraints now r = Ok tt <-> twap_wf now r.
Proof.
  intros E. unfold validate_twap_constraints, twap_wf. rewrite E.
  rewrite (one_of_true "twap") by (by apply list_elem_of_singleton). rewrite !negb_if.
  destruct (one_of_reflect (req_order_type r) ["market"; "limit"]) as [E1|E1]; [|naive_solver].
  destruct (one_of_reflect (req_time_in_force r) ["day"]) as [E2|E2];
    rewrite list_elem_of_singleton in E2; [|naive_solver].
  destruct (req_twap_duration_minutes r) as [d|]; [|naive_solver].
  destruct (req_twap_interval_seconds r) as [i|]; [|naive_solver].
  unfold TWAP_MIN_DURATION_MINUTES, TWAP_MAX_DURATION_MINUTES, TWAP_MIN_INTERVAL_SECONDS,
    TWAP_MAX_INTERVAL_SECONDS, TWAP_MIN_SLICES, TWAP_MIN_SLICE_QTY.
  destruct ((5 <=? d) && (d <=? 480)) eqn:Hd; [|split; [done|naive_solver lia]].
  destruct ((30 <=? i) && (i <=? 300)) eqn:Hi; [|split; [done|naive_solver lia]].
  boolify. cbv zeta. cbn [negb].
  destruct (Z.ltb_spec (num_slices_of d i) 2); [split; [done|naive_solver lia]|].
  destruct (Z.ltb_spec (req_qty r / num_slices_of d i) 10); [split; [done|naive_solver lia]|].
  pose proof (validate_start_time_ok now (req_start_time r)) as Hs. split.
  - intros H'. split; [done|]. split; [done|]. exists d, i. split_and!; try done; try lia.
    by apply Hs.
  - intros (_ & _ & d' & i' & [= <-] & [= <-] & _ & _ & _ & _ & H'). by apply Hs.
Qed.

Definition request_wf (now : Z) (r : OrderRequest) : Prop :=
  field_types_ok r = true /\ client_order_id_charset (req_client_order_id r) = true /\
  price_positive (req_limit_price r) = true /\ price_positive (req_stop_price r) = true /\
  prices_wf r /\ (req_execution_style r = "twap" -> twap_wf now r).

(** A request is only ever rejected with a [ValueError]. *)
Definition value_error {A} (r : result A) : Prop := forall e, r = Raise e -> exists m, e = ValueError m.

Lemma validators_value_error now r :
  value_error (validate_order_type_prices r) /\ value_error (validate_twap_constraints now r).
Proof.
  split; intros e; unfold validate_order_type_prices, validate_twap_constraints, validate_start_time; cbv zeta;
    repeat (case_match; try done); intros [= <-]; by eexists.
Qed.

Lemma mk_order_request_error now raw : value_error (mk_order_request now raw).
Proof.
  intros e. unfold mk_order_request. destruct (negb _); [intros [= <-]; by eexists|].
  destruct (negb _); [intros [= <-]; by eexists|]. destruct (negb _); [intros [= <-]; by eexists|].
  destruct (validators_value_error now (symbol_uppercase raw)) as [H1 H2]. cbv zeta. unfold mbind, result_bind.
  destruct (validate_order_type_prices _) as [u|e1]; [|intros [= <-]; by apply H1].
  destruct (validate_twap_constraints _ _) as [u'|e1]; [done|intros [= <-]; by apply H2].
Qed.

(** Pydantic accepts exactly the well-formed requests, up to the case of the symbol. *)
Lemma mk_order_request_ok now raw r :
  mk_order_request now raw = Ok r <-> r = symbol_uppercase raw /\ request_wf now raw.
Proof.
  unfold mk_order_request, request_wf. rewrite !negb_if.
  destruct (field_types_ok raw); [|naive_solver].
  destruct (client_order_id_charset _); [|naive_solver].
  destruct (price_positive (req_limit_price raw)); simpl; [|naive_solver].
  destruct (price_positive (req_stop_price raw)); simpl; [|naive_solver].
  pose proof (validate_order_type_prices_ok (symbol_uppercase raw)) as Hp.
  change (prices_wf (symbol_uppercase raw)) with (prices_wf raw) in Hp.
  destruct (validate_order_type_prices (symbol_uppercase raw)) as [[]|e]; simpl; [|naive_solver].
  destruct (decide (req_execution_style raw = "twap")) as [E|E].
  - pose proof (validate_twap_constraints_ok now (symbol_uppercase raw) E) as Ht.
    change (twap_wf now (symbol_uppercase raw)) with (twap_wf now raw) in Ht.
    destruct (validate_twap_constraints now (symbol_uppercase raw)) as [[]|e]; simpl; naive_solver.
  - unfold validate_twap_constraints. change (req_execution_style (symbol_uppercase raw))
      with (req_execution_style raw).
    rewrite (one_of_false _ _ (proj2 (not_in_singleton _ _) E)). simpl. naive_solver.
Qed.
