(* ===== verification/OrderId.v ===== *)
(** * Deterministic order identifiers (apps/execution_gateway/order_id_generator.py)

    [generate_client_order_id] and [reconstruct_order_params_hash] hash one
    text built from the order's parameters; the file models both down to the
    digest, and shows that the text determines the parameters. *)

From S2P Require Import Prelude PyDecimal PyText OrderSchema.
From Stdlib Require Import QArith.

Open Scope Z_scope.

Definition ORDER_ID_MAX_LENGTH : nat := 24.

(** [str(price.quantize(Decimal("0.01"), ROUND_HALF_UP))]; quantizing beyond the
    context precision raises InvalidOperation. *)
Definition _format_price_for_id (price : option decimal) : result string :=
  match price with
  | None => Ok "None"
  | Some p => q ← quantize_half_up p (-2); Ok (str_decimal q)
  end.

Definition raw_order_text (symbol side : string) (qty : Z) (limit_price_str stop_price_str
    order_type time_in_force strategy_id : string) (order_date : date) : string :=
  symbol +:+ "|" +:+ side +:+ "|" +:+ str_int qty +:+ "|" +:+ limit_price_str +:+ "|" +:+
  stop_price_str +:+ "|" +:+ order_type +:+ "|" +:+ time_in_force +:+ "|" +:+ strategy_id +:+
  "|" +:+ isoformat order_date.

Definition hash_id (raw : string) : string :=
  sprefix ORDER_ID_MAX_LENGTH (Sha256.hexdigest (encode raw)).

Definition reconstruct_order_params_hash (symbol side : string) (qty : Z)
    (limit_price stop_price : option decimal) (order_type time_in_force strategy_id : string)
    (order_date : date) : result string :=
  limit_price_str ← _format_price_for_id limit_price;
  stop_price_str ← _format_price_for_id stop_price;
  Ok (hash_id (raw_order_text symbol side qty limit_price_str stop_price_str order_type
                 time_in_force strategy_id order_date)).

(** [as_of_date or datetime.now(UTC).date()]: [today] is the current UTC date. *)
Definition generate_client_order_id (order : OrderRequest) (strategy_id : string)
    (as_of_date : option date) (today : date) : result string :=
  let order_date := default today as_of_date in
  limit_price_str ← _format_price_for_id (req_limit_price order);
  stop_price_str ← _format_price_for_id (req_stop_price order);
  Ok (hash_id (raw_order_text (req_symbol order) (req_side order) (req_qty order)
                 limit_price_str stop_price_str (req_order_type order)
                 (req_time_in_force order) strategy_id order_date)).

Definition validate_client_order_id (client_order_id : string) : bool :=
  (slen client_order_id =? ORDER_ID_MAX_LENGTH)%nat && parses_base16 client_order_id.

(** ** Lemmas *)

Lemma hash_id_hex raw :
  slen (hash_id raw) = ORDER_ID_MAX_LENGTH /\
  Forall (fun c => is_lower_hex c = true) (chars (hash_id raw)).
Proof.
  unfold hash_id. split.
  - apply slen_sprefix. rewrite hexdigest_length. unfold ORDER_ID_MAX_LENGTH. lia.
  - apply sprefix_Forall, hexdigest_lower.
Qed.

Lemma hash_id_valid raw : validate_client_order_id (hash_id raw) = true.
Proof.
  destruct (hash_id_hex raw) as [Hl Hh]. unfold validate_client_order_id.
  rewrite Hl, Nat.eqb_refl. apply parses_base16_hex; [rewrite Hl; unfold ORDER_ID_MAX_LENGTH; lia|].
  eapply Forall_impl; [exact Hh|]. apply lower_hex_is_hex.
Qed.

Definition order_id_raw (order : OrderRequest) (lp sp strategy_id : string) (d : date) : string :=
  raw_order_text (req_symbol order) (req_side order) (req_qty order) lp sp
    (req_order_type order) (req_time_in_force order) strategy_id d.

Lemma generate_inv order strategy_id d today id :
  generate_client_order_id order strategy_id (Some d) today = Ok id <->
  exists lp sp, _format_price_for_id (req_limit_price order) = Ok lp /\
    _format_price_for_id (req_stop_price order) = Ok sp /\
    id = hash_id (order_id_raw order lp sp strategy_id d).
Proof.
  unfold generate_client_order_id, order_id_raw. simpl.
  destruct (_format_price_for_id (req_limit_price order)); simpl; [|naive_solver].
  destruct (_format_price_for_id (req_stop_price order)); simpl; naive_solver.
Qed.

Definition bar_free (s : string) : Prop := no_char 124 s.

(** Fields without the separator can be read back from the text. *)
Lemma raw_order_text_split s1 a1 q1 l1 p1 o1 t1 g1 d1 s2 a2 q2 l2 p2 o2 t2 g2 d2 :
  Forall bar_free [s1; a1; l1; p1; o1; t1; s2; a2; l2; p2; o2; t2] ->
  valid_date d1 -> valid_date d2 ->
  raw_order_text s1 a1 q1 l1 p1 o1 t1 g1 d1 = raw_order_text s2 a2 q2 l2 p2 o2 t2 g2 d2 ->
  [s1; a1; l1; p1; o1; t1; g1] = [s2; a2; l2; p2; o2; t2; g2] /\ q1 = q2 /\ d1 = d2.
Proof.
  intros HF Hd1 Hd2 H. rewrite !Forall_cons in HF. destruct HF as
    (? & ? & ? & ? & ? & ? & ? & ? & ? & ? & ? & ? & _).
  assert (Hq : forall q, bar_free (str_int q)) by (intros q; apply str_int_no_char; lia).
  pose proof (Hq q1). pose proof (Hq q2). unfold raw_order_text in H.
  repeat match type of H with
  | ?a +:+ "|" +:+ ?ra = ?b +:+ "|" +:+ ?rb =>
      apply (split_sep 124 a b ra rb (chr 124)) in H as [? H]; [|by auto..|done]
  end.
  apply split_suffix in H as [-> Hd]; [|by rewrite !slen_app, !isoformat_length].
  apply (split_suffix "|" "|") in Hd as [_ Hd]; [|by rewrite !isoformat_length].
  apply isoformat_inj in Hd; [|done..]. match goal with E : str_int _ = str_int _ |- _ => apply (inj str_int) in E end.
  by subst.
Qed.

(** What the text keeps of a price: its value in cents. *)
Definition price_key (p : option decimal) : result (option decimal) :=
  match p with None => Ok None | Some p => Some <$> quantize_half_up p (-2) end.

Lemma quantize_nonneg p e q : 0 <= coef p -> quantize_half_up p e = Ok q -> 0 <= coef q /\ dexp q = e.
Proof.
  unfold quantize_half_up. intros Hp H. destruct (_ <? _); [done|]. injection H as <-. split; [|done].
  cbn [coef]. destruct (Z.leb_spec e (dexp p)).
  - unfold scaled. pose proof (pow10_pos (dexp p - e)). nia.
  - unfold on_abs, round_half_up. rewrite (Z.abs_eq (coef p)) by done.
    pose proof (pow10_pos (e - dexp p) ltac:(lia)).
    pose proof (Z.div_pos (coef p) (10 ^ (e - dexp p))).
    pose proof (Z.sgn_nonneg (coef p)). destruct (_ <=? _); nia.
Qed.

Lemma price_positive_coef p : price_positive (Some p) = true -> 0 < coef p.
Proof. simpl. destruct (dltb_spec dzero p) as [H|]; [|done]. intros _. by apply coef_sign. Qed.

(** The text of a price spells its value in cents, and has no separator. *)
Lemma format_price_text p s :
  price_positive p = true -> _format_price_for_id p = Ok s ->
  bar_free s /\ ((p = None /\ s = "None") \/
    exists c, 0 <= c /\ price_key p = Ok (Some (Dec c (-2))) /\ s = cents c).
Proof.
  destruct p as [p|]; simpl; intros Hp H; [|injection H as <-; split; [apply (bool_decide_unpack _); by vm_compute|by left]].
  apply price_positive_coef in Hp.
  destruct (quantize_half_up p (-2)) as [q|] eqn:E; [|done]. injection H as <-.
  apply quantize_nonneg in E as [Hc He]; [|lia]. destruct q as [c x]. simpl in Hc, He. subst x.
  split; [|right; by exists c]. destruct (cents_chars c Hc) as [_ Ht].
  eapply Forall_impl; [exact Ht|]. intros a [Ha| ->]; [|done].
  apply digit_not; [lia|done].
Qed.

Lemma cents_inj c c' : 0 <= c -> 0 <= c' -> cents c = cents c' -> c = c'.
Proof.
  intros H H' E. destruct (cents_chars c H) as [<- _], (cents_chars c' H') as [<- _]. by rewrite E.
Qed.

Lemma cents_not_none c : 0 <= c -> cents c <> "None".
Proof.
  intros Hc E. destruct (cents_chars c Hc) as [_ Ht]. rewrite E in Ht.
  apply Forall_cons in Ht as [[Ht|Ht] _]; done.
Qed.

Lemma format_price_inj p p' s :
  price_positive p = true -> price_positive p' = true ->
  _format_price_for_id p = Ok s -> _format_price_for_id p' = Ok s -> price_key p = price_key p'.
Proof.
  intros Hp Hp' E E'.
  destruct (format_price_text p s Hp E) as [_ [[-> ->]|(c & Hc & Hk & ->)]],
    (format_price_text p' _ Hp' E') as [_ [[-> H]|(c' & Hc' & Hk' & H)]]; [done|..].
  - by destruct (cents_not_none c' Hc').
  - by destruct (cents_not_none c Hc).
  - rewrite Hk, Hk', (cents_inj c c'); done.
Qed.

Lemma one_of_bar_free s l : Forall bar_free l -> one_of s l = true -> bar_free s.
Proof. rewrite one_of_spec, Forall_forall. auto. Qed.

Lemma field_types_bar_free r :
  field_types_ok r = true ->
  bar_free (req_side r) /\ bar_free (req_order_type r) /\ bar_free (req_time_in_force r).
Proof.
  unfold field_types_ok. intros H. boolify.
  split_and!; (eapply one_of_bar_free; [|eassumption]);
    apply (bool_decide_unpack _); vm_compute; exact I.
Qed.

Lemma lower_hex_id_char c : is_lower_hex c = true -> id_char c = true.
Proof.
  unfold is_lower_hex, is_digit, id_char. cbv zeta. intros H.
  apply orb_true_iff in H as [H|H]; apply andb_true_iff in H as [H1 H2];
    apply Z.leb_le in H1, H2; rewrite !orb_true_iff, !andb_true_iff, !Z.leb_le; lia.
Qed.

Definition set_prices (l s : option decimal) (r : OrderRequest) : OrderRequest :=
  {| req_symbol := req_symbol r; req_side := req_side r; req_qty := req_qty r;
     req_order_type := req_order_type r; req_limit_price := l; req_stop_price := s;
     req_time_in_force := req_time_in_force r; req_execution_style := req_execution_style r;
     req_twap_duration_minutes := req_twap_duration_minutes r;
     req_twap_interval_seconds := req_twap_interval_seconds r;
     req_start_time := req_start_time r; req_client_order_id := req_client_order_id r |}.

(** The parameters an identifier is meant to determine. *)
Definition order_params (r : OrderRequest) (strategy_id : string) (d : date) :=
  (req_symbol r, req_side r, req_qty r, price_key (req_limit_price r), price_key (req_stop_price r),
   req_order_type r, req_time_in_force r, strategy_id, d).

(** ** Properties *)

(** Whatever the order, a generated identifier has the documented form: 24
    lower-case hexadecimal digits, so [validate_client_order_id] accepts it, as
    does the request schema's identifier validator; and generation succeeds exactly when
    [reconstruct_order_params_hash], which the recovery of modified orders uses,
    does, with the same identifier. *)
Theorem generated_id_valid order strategy_id as_of today id :
  generate_client_order_id order strategy_id as_of today = Ok id ->
  slen id = 24%nat /\ Forall (fun c => is_lower_hex c = true) (chars id) /\
  validate_client_order_id id = true /\ client_order_id_charset (Some id) = true /\
  reconstruct_order_params_hash (req_symbol order) (req_side order) (req_qty order)
    (req_limit_price order) (req_stop_price order) (req_order_type order)
    (req_time_in_force order) strategy_id (default today as_of) = Ok id.
Proof.
  intros H. pose proof H as H'.
  change (generate_client_order_id order strategy_id (Some (default today as_of)) today = Ok id) in H.
  apply generate_inv in H as (lp & sp & _ & _ & ->).
  destruct (hash_id_hex (order_id_raw order lp sp strategy_id (default today as_of))) as [Hl Hh].
  split; [exact Hl|]. split; [exact Hh|]. split; [apply hash_id_valid|]. split; [|exact H'].
  unfold client_order_id_charset. rewrite Hl. change (1 <=? Z.of_nat ORDER_ID_MAX_LENGTH) with true.
  change (Z.of_nat ORDER_ID_MAX_LENGTH <=? 24) with true. rewrite !andb_true_l. apply forallb_forall. intros c Hc.
  rewrite Forall_forall in Hh. by apply lower_hex_id_char, Hh, list_elem_of_In.
Qed.

(** C32. Two accepted orders whose symbols have no ['|'], hashed to one text, have the same
    parameters: symbol, side, quantity, both prices to the cent, order type, time in force,
    strategy and date.  So two different orders get one identifier only where
    the truncated SHA-256 digests of two different texts collide. *)
Theorem order_text_determines_order now r1 r2 g1 g2 d1 d2 lp1 sp1 lp2 sp2 :
  request_wf now r1 -> request_wf now r2 ->
  bar_free (req_symbol r1) -> bar_free (req_symbol r2) -> valid_date d1 -> valid_date d2 ->
  _format_price_for_id (req_limit_price r1) = Ok lp1 ->
  _format_price_for_id (req_stop_price r1) = Ok sp1 ->
  _format_price_for_id (req_limit_price r2) = Ok lp2 ->
  _format_price_for_id (req_stop_price r2) = Ok sp2 ->
  order_id_raw r1 lp1 sp1 g1 d1 = order_id_raw r2 lp2 sp2 g2 d2 ->
  order_params r1 g1 d1 = order_params r2 g2 d2.
Proof.
  intros (Ht1 & _ & Hl1 & Hs1 & _) (Ht2 & _ & Hl2 & Hs2 & _) Hb1 Hb2 Hd1 Hd2 Fl1 Fs1 Fl2 Fs2 H.
  destruct (field_types_bar_free r1 Ht1) as (? & ? & ?), (field_types_bar_free r2 Ht2) as (? & ? & ?).
  pose proof (format_price_text _ _ Hl1 Fl1) as [? _]. pose proof (format_price_text _ _ Hs1 Fs1) as [? _].
  pose proof (format_price_text _ _ Hl2 Fl2) as [? _]. pose proof (format_price_text _ _ Hs2 Fs2) as [? _].
  apply raw_order_text_split in H as ([= E1 E2 <- <- E3 E4 E5] & Eq & Ed);
    [|repeat constructor; assumption|assumption..].
  unfold order_params. rewrite (format_price_inj _ _ _ Hl1 Hl2 Fl1 Fl2), (format_price_inj _ _ _ Hs1 Hs2 Fs1 Fs2).
  congruence.
Qed.

(** The identifier depends on the prices' values, not on how they are
    written ([150.0] or [150.00]): replacing the prices of an order by
    numerically equal ones gives the same identifier or the same error. *)
Theorem id_price_normalised order order' strategy_id as_of today p p' s s' :
  req_limit_price order = Some p -> req_stop_price order = Some s ->
  order' = set_prices (Some p') (Some s') order ->
  (dval p == dval p')%Q -> (dval s == dval s')%Q ->
  generate_client_order_id order' strategy_id as_of today =
  generate_client_order_id order strategy_id as_of today.
Proof.
  intros El Es -> Hp Hs. unfold generate_client_order_id, set_prices. cbn.
  rewrite El, Es. unfold _format_price_for_id.
  by rewrite (quantize_half_up_value p p' _ Hp), (quantize_half_up_value s s' _ Hs).
Qed.

(** ** Witnesses *)

Definition sample_order : OrderRequest :=
  {| req_symbol := "AAPL"; req_side := "buy"; req_qty := 10; req_order_type := "stop_limit";
     req_limit_price := Some (Dec 15012 (-2)); req_stop_price := Some (Dec 1500 (-1));
     req_time_in_force := "day"; req_execution_style := "instant";
     req_twap_duration_minutes := None; req_twap_interval_seconds := None;
     req_start_time := None; req_client_order_id := None |}.

Definition sample_date : date := {| year := 2024; month := 10; day := 17 |}.

Lemma sample_order_wf : request_wf 0 sample_order.
Proof.
  split_and!; [reflexivity..| |intros; discriminate].
  apply validate_order_type_prices_ok. reflexivity.
Qed.

Lemma generated_id_valid_witness :
  validate_client_order_id "0bfa3dc8efadd78eddd55349" = true.
Proof.
  assert (H : generate_client_order_id sample_order "alpha" (Some sample_date) sample_date =
              Ok "0bfa3dc8efadd78eddd55349") by (vm_compute; reflexivity).
  exact (proj1 (proj2 (proj2 (generated_id_valid _ _ _ _ _ H)))).
Defined.

Lemma order_text_determines_order_witness :
  order_params sample_order "alpha" sample_date =
  order_params (set_prices (Some (Dec 150115 (-3))) (Some (Dec 150 0)) sample_order) "alpha" sample_date.
Proof.
  apply (order_text_determines_order 0 _ _ _ _ _ _ "150.12" "150.00" "150.12" "150.00");
    [exact sample_order_wf| |by apply (bool_decide_unpack _)..|reflexivity|reflexivity|reflexivity|reflexivity|reflexivity].
  split_and!; [reflexivity..| |intros; discriminate].
  apply validate_order_type_prices_ok. reflexivity.
Defined.

Lemma id_price_normalised_witness :
  generate_client_order_id (set_prices (Some (Dec 1501200 (-4))) (Some (Dec 150 0)) sample_order)
    "alpha" None sample_date =
  generate_client_order_id sample_order "alpha" None sample_date.
Proof.
  exact (id_price_normalised sample_order _ "alpha" None sample_date (Dec 15012 (-2)) (Dec 1501200 (-4))
    (Dec 1500 (-1)) (Dec 150 0) eq_refl eq_refl eq_refl eq_refl eq_refl).
Defined.
