(* ===== verification/Twap.v ===== *)
(** * TWAP order slicing (apps/execution_gateway/order_slicer.py, TWAPSlicer.plan)

    [plan] splits a parent order into child slices over a duration.
    [random.Random(seed).sample(range(n), k)] is the parameter [sample]: it is
    assumed to return [k] distinct elements of the range, as documented, and
    to be a function of the seed. *)

From S2P Require Import Prelude PyDecimal PyText OrderSchema OrderId.

Open Scope Z_scope.

Record SliceDetail : Type := {
  sd_slice_num : Z;
  sd_qty : Z;
  sd_scheduled_time : Z;
  sd_client_order_id : string;
  sd_strategy_id : string;
  sd_status : string;
}.

Record SlicingPlan : Type := {
  sp_parent_order_id : string;
  sp_parent_strategy_id : string;
  sp_symbol : string;
  sp_side : string;
  sp_total_qty : Z;
  sp_total_slices : Z;
  sp_duration_minutes : Z;
  sp_interval_seconds : Z;
  sp_slices : list SliceDetail;
}.

(** The arguments of [plan]. *)
Record PlanArgs : Type := {
  pa_symbol : string;
  pa_side : string;
  pa_qty : Z;
  pa_duration_minutes : Z;
  pa_order_type : string;
  pa_interval_seconds : Z;
  pa_max_slice_qty : option Z;
  pa_limit_price : option decimal;
  pa_stop_price : option decimal;
  pa_time_in_force : string;
  pa_trade_date : option date;
}.

(** Slice count and effective interval, with the checks that precede them. *)
Definition slice_schedule (qty duration_minutes interval_seconds : Z) (max_slice_qty : option Z)
    : result (Z * Z) :=
  if qty <? 1 then Raise (ValueError "qty must be at least 1")
  else if duration_minutes <? 1 then Raise (ValueError "duration_minutes must be at least 1")
  else if interval_seconds <? 1 then Raise (ValueError "interval_seconds must be at least 1")
  else
    let total_duration_seconds := duration_minutes * 60 in
    let base_slices := num_slices_of duration_minutes interval_seconds in
    match max_slice_qty with
    | None => Ok (base_slices, interval_seconds)
    | Some m =>
        if m <? 1 then Raise (ValueError "max_slice_qty must be at least 1")
        else
          let liquidity_slices := Z.max 1 (ceil_div qty m) in
          let num_slices := if base_slices <? liquidity_slices then liquidity_slices else base_slices in
          if base_slices <? num_slices then
            if num_slices =? 1 then Ok (num_slices, interval_seconds)
            else
              let max_interval := total_duration_seconds / (num_slices - 1) in
              if max_interval <? 1 then Raise (ValueError "Liquidity constraint")
              else Ok (num_slices, max_interval)
          else Ok (num_slices, interval_seconds)
    end.

Definition check_prices (order_type : string) (limit_price stop_price : option decimal)
    : result unit :=
  if one_of order_type ["limit"; "stop_limit"] && bool_decide (limit_price = None)
  then Raise (ValueError "orders require limit_price")
  else if one_of order_type ["stop"; "stop_limit"] && bool_decide (stop_price = None)
  then Raise (ValueError "orders require stop_price")
  else Ok tt.

Definition seed_string (a : PlanArgs) (interval_seconds : Z) : string :=
  let s := pa_symbol a +:+ "_" +:+ pa_side a +:+ "_" +:+ str_int (pa_qty a) +:+ "_" +:+
           str_int (pa_duration_minutes a) +:+ "_" +:+ str_int interval_seconds in
  match pa_trade_date a with
  | Some d => s +:+ "_" +:+ isoformat d
  | None => s
  end.

(** [int.from_bytes(bytes, "big")] *)
Definition from_bytes_big (bytes : list Z) : Z := foldl (fun acc b => 256 * acc + b) 0 bytes.

Definition seed_of (s : string) : Z := from_bytes_big (take 4 (Sha256.digest (encode s))).

(** [slice_qtys[idx] += 1]: negative indices do not arise from a range. *)
Definition bump (slice_qtys : list Z) (idx : Z) : result (list Z) :=
  match slice_qtys !! Z.to_nat idx with
  | Some q => Ok (<[Z.to_nat idx := q + 1]> slice_qtys)
  | None => Raise IndexError
  end.

Fixpoint bump_all (slice_qtys : list Z) (idxs : list Z) : result (list Z) :=
  match idxs with
  | [] => Ok slice_qtys
  | idx :: idxs' => l ← bump slice_qtys idx; bump_all l idxs'
  end.

Section Twap.
(** [random.Random(seed).sample(range(n), k)] *)
Context (sample : Z -> Z -> Z -> list Z).

Definition slice_quantities (a : PlanArgs) (num_slices interval_seconds : Z)
    : result (list Z) :=
  let base_qty := pa_qty a / num_slices in
  let remainder := pa_qty a mod num_slices in
  let slice_qtys := replicate (Z.to_nat num_slices) base_qty in
  if 0 <? remainder then
    let seed := seed_of (seed_string a interval_seconds) in
    bump_all slice_qtys (sample seed num_slices remainder)
  else Ok slice_qtys.

Definition parent_strategy_id (a : PlanArgs) (interval_seconds : Z) : string :=
  "twap_parent_" +:+ str_int (pa_duration_minutes a) +:+ "m_" +:+ str_int interval_seconds +:+ "s".

Definition slice_strategy_id (parent_order_id : string) (i : Z) : string :=
  "twap_slice_" +:+ parent_order_id +:+ "_" +:+ str_int i.

Definition order_id_of (a : PlanArgs) (qty : Z) (strategy : string) (d : date) : result string :=
  reconstruct_order_params_hash (pa_symbol a) (pa_side a) qty (pa_limit_price a)
    (pa_stop_price a) (pa_order_type a) (pa_time_in_force a) strategy d.

(** The [enumerate] loop that builds the slices, from index [i]. *)
Fixpoint make_slices (a : PlanArgs) (parent_order_id : string) (now interval_seconds : Z)
    (d : date) (i : Z) (slice_qtys : list Z) : result (list SliceDetail) :=
  match slice_qtys with
  | [] => Ok []
  | slice_qty :: rest =>
      let strategy := slice_strategy_id parent_order_id i in
      child_order_id ← order_id_of a slice_qty strategy d;
      slices ← make_slices a parent_order_id now interval_seconds d (i + 1) rest;
      Ok ({| sd_slice_num := i; sd_qty := slice_qty;
             sd_scheduled_time := now + i * interval_seconds * second_us;
             sd_client_order_id := child_order_id; sd_strategy_id := strategy;
             sd_status := "pending_new" |} :: slices)
  end.

(** [now] is the current UTC time and [today] its date. *)
Definition plan (a : PlanArgs) (now : Z) (today : date) : result SlicingPlan :=
  '(num_slices, interval_seconds) ←
    slice_schedule (pa_qty a) (pa_duration_minutes a) (pa_interval_seconds a) (pa_max_slice_qty a);
  if pa_qty a <? num_slices then Raise (ValueError "qty must be >= number of slices")
  else
    _ ← check_prices (pa_order_type a) (pa_limit_price a) (pa_stop_price a);
    slice_qtys ← slice_quantities a num_slices interval_seconds;
    let trade_date := default today (pa_trade_date a) in
    let parent_strategy := parent_strategy_id a interval_seconds in
    parent_order_id ← order_id_of a (pa_qty a) parent_strategy trade_date;
    slices ← make_slices a parent_order_id now interval_seconds trade_date 0 slice_qtys;
    Ok {| sp_parent_order_id := parent_order_id; sp_parent_strategy_id := parent_strategy;
          sp_symbol := pa_symbol a; sp_side := pa_side a; sp_total_qty := pa_qty a;
          sp_total_slices := num_slices; sp_duration_minutes := pa_duration_minutes a;
          sp_interval_seconds := interval_seconds; sp_slices := slices |}.
End Twap.

(** ** The schedule *)

(** Slice count the arguments ask for: duration over interval, or what the liquidity
    limit needs when that is more. *)
Definition wanted_slices (qty duration_minutes interval_seconds : Z) (max_slice_qty : option Z) : Z :=
  let base := num_slices_of duration_minutes interval_seconds in
  match max_slice_qty with None => base | Some m => Z.max base (ceil_div qty m) end.

Definition schedule_wf (qty duration_minutes interval_seconds : Z) (max_slice_qty : option Z) : Prop :=
  1 <= qty /\ 1 <= duration_minutes /\ 1 <= interval_seconds /\
  forall m, max_slice_qty = Some m -> 1 <= m /\
    (num_slices_of duration_minutes interval_seconds < ceil_div qty m ->
     ceil_div qty m - 1 <= duration_minutes * 60).

Lemma num_slices_of_spec d i : 0 < i -> 1 <= d ->
  1 <= num_slices_of d i /\ (num_slices_of d i - 1) * i <= d * 60 /\ d * 60 <= num_slices_of d i * i.
Proof.
  intros Hi Hd. unfold num_slices_of. pose proof (ceil_div_spec (d * 60) i Hi).
  pose proof (ceil_div_pos (d * 60) i ltac:(lia) Hi). rewrite Z.max_r by lia. lia.
Qed.

Lemma slice_schedule_spec q d i m n j :
  slice_schedule q d i m = Ok (n, j) ->
  schedule_wf q d i m /\ n = wanted_slices q d i m /\
  j = (if num_slices_of d i <? n then d * 60 / (n - 1) else i).
Proof.
  unfold slice_schedule, schedule_wf, wanted_slices. cbv zeta.
  destruct (Z.ltb_spec q 1); [done|]. destruct (Z.ltb_spec d 1); [done|].
  destruct (Z.ltb_spec i 1); [done|].
  pose proof (num_slices_of_spec d i ltac:(lia) ltac:(lia)).
  destruct m as [m|]; [|intros [= <- <-]; rewrite Z.ltb_irrefl; naive_solver lia].
  destruct (Z.ltb_spec m 1); [done|]. pose proof (ceil_div_pos q m ltac:(lia) ltac:(lia)).
  rewrite (Z.max_r 1) by lia.
  destruct (Z.ltb_spec (num_slices_of d i) (ceil_div q m)).
  - destruct (Z.ltb_spec (num_slices_of d i) (ceil_div q m)); [|lia].
    destruct (Z.eqb_spec (ceil_div q m) 1); [lia|].
    destruct (Z.ltb_spec (d * 60 / (ceil_div q m - 1)) 1) as [|Hj]; [done|]. intros [= <- <-].
    assert (ceil_div q m - 1 <= d * 60).
    { destruct (Z.le_gt_cases (ceil_div q m - 1) (d * 60)); [done|].
      rewrite Z.div_small in Hj by lia. lia. }
    rewrite (Z.max_r (num_slices_of d i)) by lia.
    destruct (Z.ltb_spec (num_slices_of d i) (ceil_div q m)); [|lia]. naive_solver lia.
  - rewrite Z.ltb_irrefl. intros [= <- <-]. rewrite Z.max_l, Z.ltb_irrefl by lia. naive_solver lia.
Qed.

Lemma slice_schedule_ok q d i m :
  schedule_wf q d i m -> exists j, slice_schedule q d i m = Ok (wanted_slices q d i m, j).
Proof.
  unfold slice_schedule, schedule_wf, wanted_slices. cbv zeta. intros (Hq & Hd & Hi & Hm).
  destruct (Z.ltb_spec q 1); [lia|]. destruct (Z.ltb_spec d 1); [lia|].
  destruct (Z.ltb_spec i 1); [lia|].
  pose proof (num_slices_of_spec d i ltac:(lia) ltac:(lia)).
  destruct m as [m|]; [|by eexists]. destruct (Hm m eq_refl) as [Hm1 Hm2].
  destruct (Z.ltb_spec m 1); [lia|]. pose proof (ceil_div_pos q m ltac:(lia) ltac:(lia)).
  rewrite (Z.max_r 1) by lia.
  destruct (Z.ltb_spec (num_slices_of d i) (ceil_div q m)) as [Hlt|].
  - rewrite (Z.max_r (num_slices_of d i)) by lia.
    destruct (Z.ltb_spec (num_slices_of d i) (ceil_div q m)); [|lia].
    destruct (Z.eqb_spec (ceil_div q m) 1); [lia|].
    destruct (Z.ltb_spec (d * 60 / (ceil_div q m - 1)) 1) as [Hj|]; [|by eexists].
    pose proof (Z.div_le_lower_bound (d * 60) (ceil_div q m - 1) 1 ltac:(lia) ltac:(lia)). lia.
  - rewrite Z.ltb_irrefl, Z.max_l by lia. by eexists.
Qed.

(** The slices fit in the duration, and are at least a second apart. *)
Lemma slice_schedule_fits q d i m n j :
  slice_schedule q d i m = Ok (n, j) ->
  1 <= n /\ 1 <= j /\ (n - 1) * j <= d * 60 /\
  (forall l, m = Some l -> 1 <= l /\ q <= n * l).
Proof.
  intros H. apply slice_schedule_spec in H as ((Hq & Hd & Hi & Hm) & -> & ->).
  pose proof (num_slices_of_spec d i ltac:(lia) ltac:(lia)) as (Hn & Hn1 & _).
  unfold wanted_slices. cbv zeta. destruct m as [m|]; [|rewrite Z.ltb_irrefl; naive_solver lia].
  destruct (Hm m eq_refl) as [Hm1 Hm2]. pose proof (ceil_div_spec q m ltac:(lia)).
  destruct (Z.ltb_spec (num_slices_of d i) (Z.max (num_slices_of d i) (ceil_div q m))) as [Hlt|Hge].
  - rewrite Z.max_r in * by lia. specialize (Hm2 Hlt). set (k := ceil_div q m) in *.
    pose proof (Z.mul_div_le (d * 60) (k - 1) ltac:(lia)).
    pose proof (Z.div_le_lower_bound (d * 60) (k - 1) 1 ltac:(lia) ltac:(lia)).
    split_and!; [lia..|intros l [= <-]; lia].
  - rewrite Z.max_l by lia. split_and!; [lia..|intros l [= <-]].
    pose proof (Z.mul_le_mono_nonneg_r (ceil_div q m) (num_slices_of d i) m ltac:(lia) ltac:(lia)). lia.
Qed.

(** ** The quantities *)

Definition sample_ok (sample : Z -> Z -> Z -> list Z) : Prop :=
  forall seed n k, 0 <= k <= n ->
    Z.of_nat (length (sample seed n k)) = k /\ NoDup (sample seed n k) /\
    Forall (fun i => 0 <= i < n) (sample seed n k).

Lemma Zsum_insert l i q :
  l !! i = Some q -> forall q', Zsum (<[i := q']> l) = Zsum l + q' - q.
Proof.
  revert i. induction l as [|x l IH]; intros [|i] H q'; simplify_eq/=; [lia|].
  rewrite (IH _ H). lia.
Qed.

(** Bumping distinct valid indices adds one at each of them. *)
Lemma bump_all_spec idxs : forall l,
  NoDup idxs -> Forall (fun i => 0 <= i < Z.of_nat (length l)) idxs ->
  exists l', bump_all l idxs = Ok l' /\ length l' = length l /\
    Zsum l' = Zsum l + Z.of_nat (length idxs) /\
    (forall k x, l' !! k = Some x ->
       l !! k = Some (if bool_decide (Z.of_nat k ∈ idxs) then x - 1 else x)).
Proof.
  induction idxs as [|i idxs IH]; intros l Hnd HF; simpl.
  - exists l. split_and!; [done|done|lia|done].
  - apply NoDup_cons in Hnd as [Hni Hnd]. apply Forall_cons in HF as [Hi HF].
    destruct (lookup_lt_is_Some_2 l (Z.to_nat i)) as [q Hq]; [lia|].
    unfold bump. rewrite Hq. cbn [mbind result_bind].
    destruct (IH (<[Z.to_nat i := q + 1]> l) Hnd) as (l' & -> & Hlen & Hsum & Hk).
    { by rewrite length_insert. }
    exists l'. rewrite length_insert in Hlen. rewrite (Zsum_insert _ _ _ Hq) in Hsum.
    split_and!; [done|done|lia|]. intros k x Hx. specialize (Hk k x Hx).
    destruct (decide (k = Z.to_nat i)) as [->|Hne].
    + rewrite Z2Nat.id in * by lia. rewrite bool_decide_eq_false_2 in Hk by done.
      rewrite list_lookup_insert_eq in Hk by lia. injection Hk as <-.
      rewrite bool_decide_eq_true_2 by (by left). rewrite Hq. f_equal. lia.
    + rewrite list_lookup_insert_ne in Hk by done. rewrite Hk.
      rewrite (bool_decide_ext (Z.of_nat k ∈ i :: idxs) (Z.of_nat k ∈ idxs)); [done|].
      rewrite elem_of_cons. split; [intros [E|]; [lia|done]|by right].
Qed.

Section quantities.
Context (sample : Z -> Z -> Z -> list Z) (Hsample : sample_ok sample).

Lemma slice_quantities_spec a n j :
  1 <= n -> 0 <= pa_qty a ->
  exists l, slice_quantities sample a n j = Ok l /\ Z.of_nat (length l) = n /\
    Zsum l = pa_qty a /\
    Forall (fun x => x = pa_qty a / n \/ (x = pa_qty a / n + 1 /\ 0 < pa_qty a mod n)) l.
Proof.
  intros Hn Hq. unfold slice_quantities. cbv zeta. set (b := pa_qty a / n).
  pose proof (Z.div_mod (pa_qty a) n ltac:(lia)). pose proof (Z.mod_pos_bound (pa_qty a) n ltac:(lia)).
  destruct (Z.ltb_spec 0 (pa_qty a mod n)) as [Hr|Hr].
  - destruct (Hsample (seed_of (seed_string a j)) n (pa_qty a mod n) ltac:(lia)) as (Hl & Hnd & HF).
    destruct (bump_all_spec _ (replicate (Z.to_nat n) b) Hnd) as (l & -> & Hlen & Hsum & Hk).
    { rewrite length_replicate. by rewrite Z2Nat.id by lia. }
    rewrite length_replicate in Hlen. rewrite Zsum_replicate in Hsum.
    exists l. split_and!; [done|lia|lia|].
    apply Forall_lookup. intros k x Hx. specialize (Hk k x Hx).
    apply lookup_replicate in Hk as [Hk _]. case_bool_decide; [right|left]; lia.
  - exists (replicate (Z.to_nat n) b). rewrite length_replicate, Zsum_replicate.
    split_and!; [done|lia|lia|]. apply Forall_replicate. by left.
Qed.
End quantities.

(** ** The slices *)

Definition prices_ok (a : PlanArgs) : Prop :=
  (exists lp, _format_price_for_id (pa_limit_price a) = Ok lp) /\
  (exists sp, _format_price_for_id (pa_stop_price a) = Ok sp).

Lemma order_id_of_ok a q s d : prices_ok a <-> exists id, order_id_of a q s d = Ok id.
Proof.
  unfold prices_ok, order_id_of, reconstruct_order_params_hash.
  destruct (_format_price_for_id (pa_limit_price a)) as [lp|]; simpl; [|naive_solver].
  destruct (_format_price_for_id (pa_stop_price a)) as [sp|]; simpl; naive_solver.
Qed.

Lemma order_id_of_length a q s d id : order_id_of a q s d = Ok id -> slen id = 24%nat.
Proof.
  unfold order_id_of, reconstruct_order_params_hash.
  destruct (_format_price_for_id (pa_limit_price a)) as [lp|]; simpl; [|done].
  destruct (_format_price_for_id (pa_stop_price a)) as [sp|]; simpl; [|done].
  intros [= <-]. apply (hash_id_hex _).
Qed.

(** What the [k]-th slice of a plan is. *)
Definition slice_at (a : PlanArgs) (pid : string) (now j : Z) (d : date) (i q : Z)
    (s : SliceDetail) : Prop :=
  sd_slice_num s = i /\ sd_qty s = q /\ sd_scheduled_time s = now + i * j * second_us /\
  sd_status s = "pending_new" /\ sd_strategy_id s = slice_strategy_id pid i /\
  order_id_of a q (slice_strategy_id pid i) d = Ok (sd_client_order_id s).

Lemma make_slices_spec a pid now j d qs : forall i slices,
  make_slices a pid now j d i qs = Ok slices ->
  length slices = length qs /\ sd_qty <$> slices = qs /\
  (forall k s, slices !! k = Some s -> slice_at a pid now j d (i + Z.of_nat k) (sd_qty s) s).
Proof.
  induction qs as [|q qs IH]; intros i slices; simpl.
  - intros [= <-]. split_and!; [done..|]. by intros k s H.
  - destruct (order_id_of a q (slice_strategy_id pid i) d) as [cid|] eqn:E; simpl; [|done].
    destruct (make_slices a pid now j d (i + 1) qs) as [rest|] eqn:Er; simpl; [|done].
    intros [= <-]. destruct (IH _ _ Er) as (Hl & Hq & Hs). split_and!; [by simpl; f_equal|by apply (f_equal (cons q)) in Hq|].
    intros [|k] s H; simplify_eq/=.
    + rewrite Z.add_0_r. by split_and!.
    + replace (i + Z.of_nat (S k)) with (i + 1 + Z.of_nat k) by lia. by apply Hs.
Qed.

Lemma make_slices_ok a pid now j d qs : prices_ok a ->
  forall i, exists slices, make_slices a pid now j d i qs = Ok slices.
Proof.
  intros Hp. induction qs as [|q qs IH]; intros i; simpl; [by eexists|].
  destruct (proj1 (order_id_of_ok a q (slice_strategy_id pid i) d) Hp) as [id ->]. simpl.
  destruct (IH (i + 1)) as [rest ->]. by eexists.
Qed.

Definition shift_slice (t : Z) (s : SliceDetail) : SliceDetail :=
  {| sd_slice_num := sd_slice_num s; sd_qty := sd_qty s;
     sd_scheduled_time := sd_scheduled_time s + t;
     sd_client_order_id := sd_client_order_id s; sd_strategy_id := sd_strategy_id s;
     sd_status := sd_status s |}.

Definition shift_plan (t : Z) (p : SlicingPlan) : SlicingPlan :=
  {| sp_parent_order_id := sp_parent_order_id p; sp_parent_strategy_id := sp_parent_strategy_id p;
     sp_symbol := sp_symbol p; sp_side := sp_side p; sp_total_qty := sp_total_qty p;
     sp_total_slices := sp_total_slices p; sp_duration_minutes := sp_duration_minutes p;
     sp_interval_seconds := sp_interval_seconds p; sp_slices := shift_slice t <$> sp_slices p |}.

Lemma make_slices_shift a pid now t j d qs : forall i,
  make_slices a pid (now + t) j d i qs =
  (fun l : list SliceDetail => shift_slice t <$> l) <$> make_slices a pid now j d i qs.
Proof.
  induction qs as [|q qs IH]; intros i; simpl; [done|].
  destruct (order_id_of a q (slice_strategy_id pid i) d) as [cid|]; simpl; [|done].
  rewrite IH. destruct (make_slices a pid now j d (i + 1) qs) as [rest|]; simpl; [|done].
  do 3 f_equal. unfold shift_slice. cbn. f_equal. lia.
Qed.

Lemma plan_inv sample a now today p :
  plan sample a now today = Ok p ->
  exists n j qs pid slices,
    slice_schedule (pa_qty a) (pa_duration_minutes a) (pa_interval_seconds a)
      (pa_max_slice_qty a) = Ok (n, j) /\
    n <= pa_qty a /\ slice_quantities sample a n j = Ok qs /\
    order_id_of a (pa_qty a) (parent_strategy_id a j) (default today (pa_trade_date a)) = Ok pid /\
    make_slices a pid now j (default today (pa_trade_date a)) 0 qs = Ok slices /\
    p = {| sp_parent_order_id := pid; sp_parent_strategy_id := parent_strategy_id a j;
           sp_symbol := pa_symbol a; sp_side := pa_side a; sp_total_qty := pa_qty a;
           sp_total_slices := n; sp_duration_minutes := pa_duration_minutes a;
           sp_interval_seconds := j; sp_slices := slices |}.
Proof.
  unfold plan. destruct (slice_schedule _ _ _ _) as [[n j]|] eqn:Es; simpl; [|done].
  destruct (Z.ltb_spec (pa_qty a) n); [done|].
  destruct (check_prices _ _ _) as [[]|]; simpl; [|done].
  destruct (slice_quantities _ _ _ _) as [qs|] eqn:Eq; simpl; [|done].
  destruct (order_id_of _ _ _ _) as [pid|] eqn:Ep; simpl; [|done].
  destruct (make_slices _ _ _ _ _ _ _) as [sl|] eqn:Em; simpl; [|done].
  intros [= <-]. by exists n, j, qs, pid, sl.
Qed.

Definition plan_args_wf (a : PlanArgs) : Prop :=
  schedule_wf (pa_qty a) (pa_duration_minutes a) (pa_interval_seconds a) (pa_max_slice_qty a) /\
  wanted_slices (pa_qty a) (pa_duration_minutes a) (pa_interval_seconds a) (pa_max_slice_qty a)
    <= pa_qty a /\
  (pa_order_type a ∈ ["limit"; "stop_limit"] -> pa_limit_price a <> None) /\
  (pa_order_type a ∈ ["stop"; "stop_limit"] -> pa_stop_price a <> None) /\
  prices_ok a.

Lemma check_prices_ok t lp sp :
  check_prices t lp sp = Ok tt <->
  (t ∈ ["limit"; "stop_limit"] -> lp <> None) /\ (t ∈ ["stop"; "stop_limit"] -> sp <> None).
Proof.
  unfold check_prices.
  destruct (one_of_reflect t ["limit"; "stop_limit"]), (one_of_reflect t ["stop"; "stop_limit"]);
    destruct lp, sp; simpl; naive_solver.
Qed.

Lemma plan_total sample a now today :
  sample_ok sample -> plan_args_wf a -> exists p, plan sample a now today = Ok p.
Proof.
  intros Hsample (Hs & Hn & Hl & Hst & Hp). unfold plan.
  destruct (slice_schedule_ok _ _ _ _ Hs) as [j Ej]. rewrite Ej. cbn [mbind result_bind].
  destruct (slice_schedule_fits _ _ _ _ _ _ Ej) as (Hn1 & _).
  set (n := wanted_slices _ _ _ _) in *.
  destruct (Z.ltb_spec (pa_qty a) n); [lia|].
  rewrite (proj2 (check_prices_ok _ _ _) (conj Hl Hst)). cbn [mbind result_bind].
  destruct (slice_quantities_spec sample Hsample a n j Hn1 ltac:(lia)) as (qs & -> & _).
  cbn [mbind result_bind]. set (d := default today (pa_trade_date a)).
  destruct (proj1 (order_id_of_ok a (pa_qty a) (parent_strategy_id a j) d) Hp) as [pid ->].
  cbn [mbind result_bind].
  destruct (make_slices_ok a pid now j d qs Hp 0) as [sl ->]. by eexists.
Qed.

Lemma plan_wf sample a now today p : plan sample a now today = Ok p -> plan_args_wf a.
Proof.
  intros H. pose proof H as H'.
  apply plan_inv in H as (n & j & qs & pid & slices & Hs & Hn & _ & Hid & _).
  pose proof Hs as Hs'. apply slice_schedule_spec in Hs as (Hwf & -> & _).
  assert (Hp : prices_ok a) by (eapply order_id_of_ok; eexists; exact Hid).
  enough (check_prices (pa_order_type a) (pa_limit_price a) (pa_stop_price a) = Ok tt) as Hc.
  { apply check_prices_ok in Hc as [Hc1 Hc2]. exact (conj Hwf (conj Hn (conj Hc1 (conj Hc2 Hp)))). }
  unfold plan in H'. rewrite Hs' in H'. cbn [mbind result_bind] in H'.
  set (n := wanted_slices _ _ _ _) in *. destruct (Z.ltb_spec (pa_qty a) n); [lia|].
  by destruct (check_prices _ _ _) as [[]|].
Qed.

(** ** Properties *)

(** C9. A plan sells or buys exactly the order: the slice quantities add up to
    the total, each is at least one share and within one share of the others, each respects the
    liquidity limit; the slices are numbered in order, evenly spaced by at
    least a second, and the last one is due before the duration is over. *)
Theorem plan_correct sample a now today p :
  sample_ok sample -> plan sample a now today = Ok p ->
  Zsum (sd_qty <$> sp_slices p) = pa_qty a /\
  Z.of_nat (length (sp_slices p)) = sp_total_slices p /\
  1 <= sp_interval_seconds p /\
  (forall k s, sp_slices p !! k = Some s ->
     sd_slice_num s = Z.of_nat k /\ 1 <= sd_qty s /\
     pa_qty a / sp_total_slices p <= sd_qty s <= pa_qty a / sp_total_slices p + 1 /\
     (forall m, pa_max_slice_qty a = Some m -> sd_qty s <= m) /\
     sd_scheduled_time s = now + Z.of_nat k * sp_interval_seconds p * second_us /\
     sd_scheduled_time s <= now + pa_duration_minutes a * minute_us).
Proof.
  intros Hsample H. apply plan_inv in H as (n & j & qs & pid & slices & Hs & Hn & Hq & _ & Hm & ->).
  cbn [sp_slices sp_total_slices sp_interval_seconds].
  destruct (slice_schedule_fits _ _ _ _ _ _ Hs) as (Hn1 & Hj & Hfit & Hmax).
  destruct (slice_quantities_spec sample Hsample a n j Hn1 ltac:(lia)) as (qs' & E & Hlen & Hsum & HF).
  rewrite Hq in E. injection E as <-.
  destruct (make_slices_spec _ _ _ _ _ _ _ _ Hm) as (Hl & Hqs & Hk).
  split_and!; [by rewrite Hqs|lia|done|]. intros k s Hks.
  destruct (Hk k s Hks) as (Enum & _ & Et & _). rewrite Z.add_0_l in Enum, Et.
  pose proof (lookup_lt_Some _ _ _ Hks) as Hkl.
  assert (Hin : qs !! k = Some (sd_qty s)) by (rewrite <- Hqs, list_lookup_fmap, Hks; done).
  rewrite Forall_lookup in HF. specialize (HF k _ Hin).
  pose proof (Z.div_mod (pa_qty a) n ltac:(lia)) as Hdm.
  pose proof (Z.div_le_lower_bound (pa_qty a) n 1 ltac:(lia) ltac:(lia)).
  split_and!; [done|lia..| |done|].
  - intros m Em. destruct (Hmax m Em) as [Hm1 Hm2].
    destruct HF as [->|[-> Hr]]; [apply Z.div_le_upper_bound; lia|]. nia.
  - rewrite Et. unfold minute_us, second_us. nia.
Qed.

(** C39. [plan] succeeds exactly on the arguments the documentation asks for:
    positive quantity, duration and interval, a positive liquidity limit whose
    slice count fits the duration at one-second spacing, no more slices than
    shares, and the prices the order type needs. *)
Theorem plan_succeeds_iff sample a now today :
  sample_ok sample ->
  (exists p, plan sample a now today = Ok p) <-> plan_args_wf a.
Proof.
  intros Hsample. split; [intros [p H]; by eapply plan_wf | by apply plan_total].
Qed.

(** With an explicit trade date a retry is idempotent: planning again at another time, on another
    day, gives the same result (or error) with the same quantities, the same parent and
    child identifiers; only the schedule moves with the clock. *)
Theorem plan_retry_idempotent sample a d now t today today' :
  pa_trade_date a = Some d ->
  plan sample a (now + t) today' = shift_plan (t) <$> plan sample a now today.
Proof.
  intros Hd. unfold plan. rewrite Hd. simpl.
  destruct (slice_schedule _ _ _ _) as [[n j]|]; simpl; [|done].
  destruct (pa_qty a <? n); [done|]. destruct (check_prices _ _ _); simpl; [|done].
  destruct (slice_quantities _ _ _ _) as [qs|]; simpl; [|done].
  destruct (order_id_of _ _ _ _) as [pid|]; simpl; [|done].
  rewrite make_slices_shift. by destruct (make_slices _ _ _ _ _ _ _).
Qed.

(** The call of [ctx.twap_slicer.plan] for a manual TWAP order. *)
Definition args_of_request (r : OrderRequest) (trade_date : date) : PlanArgs :=
  {| pa_symbol := req_symbol r; pa_side := req_side r; pa_qty := req_qty r;
     pa_duration_minutes := default 0 (req_twap_duration_minutes r);
     pa_order_type := req_order_type r;
     pa_interval_seconds := default 0 (req_twap_interval_seconds r);
     pa_max_slice_qty := None; pa_limit_price := req_limit_price r;
     pa_stop_price := req_stop_price r; pa_time_in_force := req_time_in_force r;
     pa_trade_date := Some trade_date |}.

(** The request validators and the slicer agree: a TWAP request that
    validation accepts can always be planned (when its prices have a cent
    representation), into at least two slices of at least ten shares. *)
Theorem accepted_twap_request_plans sample raw now r d today :
  sample_ok sample -> mk_order_request now raw = Ok r -> req_execution_style r = "twap" ->
  prices_ok (args_of_request r d) ->
  exists p, plan sample (args_of_request r d) now today = Ok p /\
    TWAP_MIN_SLICES <= sp_total_slices p /\
    TWAP_MIN_SLICE_QTY <= pa_qty (args_of_request r d) / sp_total_slices p.
Proof.
  intros Hsample Hr Hstyle Hp. apply mk_order_request_ok in Hr as [-> Hwf].
  destruct Hwf as (Ht & _ & _ & _ & Hprices & Htw).
  destruct (Htw Hstyle) as (Hot & _ & dm & i & Ed & Ei & Hdm & Hi & Hn & Hsl & _).
  set (a := args_of_request (symbol_uppercase raw) d) in *.
  assert (Ha : pa_duration_minutes a = dm /\ pa_interval_seconds a = i /\ pa_qty a = req_qty raw)
    by (simpl; by rewrite Ed, Ei). destruct Ha as (Had & Hai & Haq).
  unfold field_types_ok in Ht. boolify.
  pose proof (Z.mul_div_le (req_qty raw) (num_slices_of dm i) ltac:(lia)).
  assert (Hargs : plan_args_wf a).
  { unfold plan_args_wf, schedule_wf, wanted_slices. cbv zeta. rewrite Had, Hai, Haq.
    destruct Hprices as (Hl & Hs & _). refine (conj _ (conj _ (conj _ (conj _ Hp)))).
    - split_and!; [lia..|done].
    - simpl. nia.
    - intros Hin. destruct (Hl Hin) as [l E]. simpl. congruence.
    - intros Hin. destruct (Hs Hin) as [l E]. simpl. congruence. }
  destruct (plan_total sample a now today Hsample Hargs) as [p Hplan]. exists p. split; [done|].
  apply plan_inv in Hplan as (n & j & qs & pid & slices & Hs & _ & _ & _ & _ & ->).
  apply slice_schedule_spec in Hs as (_ & -> & _). cbn [sp_total_slices].
  rewrite Had, Hai, Haq. unfold wanted_slices, TWAP_MIN_SLICES, TWAP_MIN_SLICE_QTY. simpl. lia.
Qed.

(** ** Witnesses *)

(** The first [k] elements of the range: a sampler that meets the contract. *)
Definition first_k (seed n k : Z) : list Z := Z.of_nat <$> seq 0 (Z.to_nat k).

Lemma first_k_ok : sample_ok first_k.
Proof.
  intros seed n k Hk. unfold first_k. split_and!.
  - rewrite length_fmap, length_seq. lia.
  - apply NoDup_fmap_2; [apply _|apply NoDup_seq].
  - apply Forall_fmap, Forall_forall. intros i Hi%elem_of_seq. simpl. lia.
Qed.

Definition sample_args (m : option Z) : PlanArgs :=
  {| pa_symbol := "AAPL"; pa_side := "buy"; pa_qty := 103; pa_duration_minutes := 5;
     pa_order_type := "limit"; pa_interval_seconds := 60; pa_max_slice_qty := m;
     pa_limit_price := Some (Dec 15012 (-2)); pa_stop_price := None; pa_time_in_force := "day";
     pa_trade_date := Some sample_date |}.

Lemma sample_args_wf m : m = None \/ m = Some 7 -> plan_args_wf (sample_args m).
Proof.
  intros Hm. unfold plan_args_wf, schedule_wf, prices_ok.
  split_and!; try (simpl; lia); try (by eexists).
  - intros m' E. destruct Hm as [-> | ->]; simplify_eq/=. split; [lia|]. vm_compute. intros _ ?; discriminate.
  - destruct Hm as [-> | ->]; vm_compute; discriminate.
  - done.
  - intros H. exfalso. revert H. apply (bool_decide_unpack _). vm_compute. exact I.
Qed.

Lemma plan_correct_witness :
  exists p, plan first_k (sample_args (Some 7)) 0 sample_date = Ok p /\
    Zsum (sd_qty <$> sp_slices p) = 103.
Proof.
  destruct (plan_total first_k (sample_args (Some 7)) 0 sample_date first_k_ok
    (sample_args_wf _ (or_intror eq_refl))) as [p Hp].
  exists p. exact (conj Hp (proj1 (plan_correct _ _ _ _ _ first_k_ok Hp))).
Defined.

Lemma plan_succeeds_iff_witness : exists p, plan first_k (sample_args None) 0 sample_date = Ok p.
Proof.
  exact (proj2 (plan_succeeds_iff first_k (sample_args None) 0 sample_date first_k_ok)
    (sample_args_wf _ (or_introl eq_refl))).
Defined.

Lemma plan_retry_idempotent_witness :
  plan first_k (sample_args None) (5 + 7) sample_date =
  shift_plan 7 <$> plan first_k (sample_args None) 5 sample_date.
Proof. exact (plan_retry_idempotent first_k (sample_args None) sample_date 5 7 _ _ eq_refl). Defined.

Definition sample_twap : OrderRequest :=
  {| req_symbol := "aapl"; req_side := "sell"; req_qty := 100; req_order_type := "limit";
     req_limit_price := Some (Dec 15012 (-2)); req_stop_price := None;
     req_time_in_force := "day"; req_execution_style := "twap";
     req_twap_duration_minutes := Some 5; req_twap_interval_seconds := Some 60;
     req_start_time := None; req_client_order_id := None |}.

Lemma accepted_twap_request_plans_witness :
  exists p, plan first_k (args_of_request (symbol_uppercase sample_twap) sample_date) 0 sample_date = Ok p.
Proof.
  assert (Hr : mk_order_request 0 sample_twap = Ok (symbol_uppercase sample_twap)) by reflexivity.
  destruct (accepted_twap_request_plans first_k sample_twap 0 _ sample_date sample_date first_k_ok Hr eq_refl)
    as [p [Hp _]]; [split; by eexists|]. exists p. exact Hp.
Defined.
