(* ===== verification/PositionMath.v ===== *)
(** * Position arithmetic (apps/execution_gateway/database.py)

    [calculate_position_update] and [calculate_position_update_decimal]: the
    new quantity, average entry price and realised profit after a fill.  The
    theorems compare them with exact rational accounting. *)

From S2P Require Import Prelude PyDecimal.
From Stdlib Require Import QArith Qabs Lqa.

Open Scope Z_scope.

(** [_get_realized_pnl(qty_closed)] *)
Definition _get_realized_pnl (side : string) (old_qty : Z) (old_avg_price fill_price : decimal)
    (qty_closed : Z) : decimal :=
  if bool_decide (side = "sell") && (0 <? old_qty)
  then dmul (dsub fill_price old_avg_price) (of_int qty_closed)
  else if bool_decide (side = "buy") && (old_qty <? 0)
  then dmul (dsub old_avg_price fill_price) (of_int qty_closed)
  else dzero.

Definition signed_fill (side : string) (fill_qty : Z) : Z :=
  if bool_decide (side = "buy") then fill_qty else - fill_qty.

Definition calculate_position_update (old_qty : Z) (old_avg_price old_realized_pl : decimal)
    (fill_qty : Z) (fill_price : decimal) (side : string) : result (Z * decimal * decimal) :=
  let signed_fill_qty := signed_fill side fill_qty in
  let new_qty := old_qty + signed_fill_qty in
  let is_adding_to_position :=
    ((0 <? old_qty) && bool_decide (side = "buy")) || ((old_qty <? 0) && bool_decide (side = "sell")) in
  let pnl := _get_realized_pnl side old_qty old_avg_price fill_price in
  if new_qty =? 0 then
    Ok (new_qty, dzero, dadd old_realized_pl (pnl (Z.abs signed_fill_qty)))
  else if old_qty =? 0 then Ok (new_qty, fill_price, old_realized_pl)
  else if is_adding_to_position then
    let total_cost := dadd (dmul old_avg_price (of_int (Z.abs old_qty)))
                           (dmul fill_price (of_int (Z.abs signed_fill_qty))) in
    new_avg_price ← ddiv total_cost (of_int (Z.abs new_qty));
    Ok (new_qty, new_avg_price, old_realized_pl)
  else if old_qty * new_qty <? 0 then
    Ok (new_qty, fill_price, dadd old_realized_pl (pnl (Z.abs old_qty)))
  else Ok (new_qty, old_avg_price, dadd old_realized_pl (pnl (Z.abs signed_fill_qty))).

Definition _get_realized_pnl_decimal (side : string) (old_qty old_avg_price fill_price qty_closed : decimal)
    : decimal :=
  if bool_decide (side = "sell") && dltb dzero old_qty
  then dmul (dsub fill_price old_avg_price) qty_closed
  else if bool_decide (side = "buy") && dltb old_qty dzero
  then dmul (dsub old_avg_price fill_price) qty_closed
  else dzero.

Definition calculate_position_update_decimal (old_qty old_avg_price fill_qty fill_price : decimal)
    (side : string) : result (decimal * decimal * decimal) :=
  let signed_fill_qty := if bool_decide (side = "buy") then fill_qty else dneg fill_qty in
  let new_qty := dadd old_qty signed_fill_qty in
  let is_adding_to_position :=
    (dltb dzero old_qty && bool_decide (side = "buy"))
    || (dltb old_qty dzero && bool_decide (side = "sell")) in
  let pnl := _get_realized_pnl_decimal side old_qty old_avg_price fill_price in
  if deqb new_qty dzero then Ok (new_qty, dzero, pnl (dabs signed_fill_qty))
  else if deqb old_qty dzero then Ok (new_qty, fill_price, dzero)
  else if is_adding_to_position then
    let total_cost := dadd (dmul old_avg_price (dabs old_qty))
                           (dmul fill_price (dabs signed_fill_qty)) in
    new_avg_price ← ddiv total_cost (dabs new_qty);
    Ok (new_qty, new_avg_price, dzero)
  else if dltb (dmul old_qty new_qty) dzero then
    Ok (new_qty, fill_price, pnl (dabs old_qty))
  else Ok (new_qty, old_avg_price, pnl (dabs signed_fill_qty)).

Example update_examples :
  calculate_position_update 0 dzero dzero 100 (of_int 150) "buy" = Ok (100, of_int 150, dzero) /\
  calculate_position_update 100 (of_int 100) dzero 50 (of_int 120) "sell"
    = Ok (50, of_int 100, of_int 1000) /\
  calculate_position_update 50 (of_int 100) dzero 100 (of_int 120) "sell"
    = Ok (-50, of_int 120, of_int 1000).
Proof. split_and!; vm_compute; reflexivity. Qed.

(** ** Rounding of the two computations *)

(** Linear arithmetic with the rounding unit as a number. *)
Ltac ulp_lra :=
  change ulp_rel with (1 # 2000000000000000000000000000) in *; lra.

Definition qz (n : Z) : Q := inject_Z n.

Lemma Qabs_mul_z x n : 0 <= n -> (Qabs (x * qz n) == Qabs x * qz n)%Q.
Proof. intros Hn. rewrite Qabs_Qmult, (Qabs_pos (qz n)); [reflexivity|]. by apply inject_Z_nonneg. Qed.

(** Absolute errors: one more rounding after an error of [e]. *)
Lemma abs_error_step (x y z e u : Q) :
  (0 <= u)%Q -> (Qabs (y - x) <= e)%Q -> (Qabs (z - y) <= u * Qabs y)%Q ->
  (Qabs (z - x) <= e + u * (Qabs x + e))%Q.
Proof.
  intros Hu Hy Hz.
  assert (Qabs y <= Qabs x + e)%Q.
  { setoid_replace y with (x + (y - x))%Q using relation Qeq by ring.
    pose proof (Qabs_triangle x (y - x)). lra. }
  setoid_replace (z - x)%Q with (z - y + (y - x))%Q using relation Qeq by ring.
  pose proof (Qabs_triangle (z - y) (y - x)).
  assert (u * Qabs y <= u * (Qabs x + e))%Q by (rewrite !(Qmult_comm u); by apply Qmult_le_compat_r).
  lra.
Qed.

Lemma Qabs_sub_le x y : (Qabs (x - y) <= Qabs x + Qabs y)%Q.
Proof.
  setoid_replace (x - y)%Q with (x + - y)%Q using relation Qeq by ring.
  pose proof (Qabs_triangle x (- y)). rewrite Qabs_opp in H. exact H.
Qed.

Lemma dmul_int_error x n : 0 <= n ->
  (Qabs (dval (dmul x (of_int n)) - dval x * qz n) <= ulp_rel * (Qabs (dval x) * qz n))%Q.
Proof.
  intros Hn. pose proof (dmul_error x (of_int n)) as H. rewrite of_int_val in H.
  fold (qz n) in H. by rewrite Qabs_mul_z in H.
Qed.

(** The realised profit of [n] shares, up to two roundings. *)
Lemma pnl_error a b n : 0 <= n ->
  (Qabs (dval (dmul (dsub a b) (of_int n)) - (dval a - dval b) * qz n)
    <= 3 * ulp_rel * ((Qabs (dval a) + Qabs (dval b)) * qz n))%Q.
Proof.
  intros Hn. pose proof (dsub_error a b) as H1. pose proof (dmul_int_error (dsub a b) n Hn) as H2.
  set (s := dval (dsub a b)) in *. set (m := dval (dmul _ _)) in *.
  assert (Hnn : (0 <= qz n)%Q) by (by apply inject_Z_nonneg).
  assert (H1' : (Qabs (s * qz n - (dval a - dval b) * qz n)
                  <= ulp_rel * Qabs ((dval a - dval b) * qz n))%Q).
  { setoid_replace (s * qz n - (dval a - dval b) * qz n)%Q with ((s - (dval a - dval b)) * qz n)%Q
      using relation Qeq by ring.
    rewrite !(Qabs_mul_z _ n Hn), Qmult_assoc. by apply Qmult_le_compat_r. }
  rewrite <- (Qabs_mul_z s n Hn) in H2.
  pose proof (rel_error_compose _ _ _ ulp_rel ulp_rel ltac:(vm_compute; discriminate)
    ltac:(vm_compute; discriminate) H1' H2) as H. rewrite (Qabs_mul_z _ n Hn) in H.
  pose proof (Qabs_sub_le (dval a) (dval b)) as Ht.
  assert (Ht' : (Qabs (dval a - dval b) * qz n <= (Qabs (dval a) + Qabs (dval b)) * qz n)%Q)
    by (by apply Qmult_le_compat_r).
  assert (0 <= Qabs (dval a - dval b) * qz n)%Q
    by (apply Qmult_le_0_compat; [apply Qabs_nonneg|done]).
  ulp_lra.
Qed.

(** Booking a realised profit: [old_realized_pl + (a - b) * n]. *)
Lemma realise_error pl a b n : 0 <= n ->
  (Qabs (dval (dadd pl (dmul (dsub a b) (of_int n))) - (dval pl + (dval a - dval b) * qz n))
    <= 5 * ulp_rel * (Qabs (dval pl) + (Qabs (dval a) + Qabs (dval b)) * qz n))%Q.
Proof.
  intros Hn. pose proof (pnl_error a b n Hn) as H1.
  pose proof (dadd_error pl (dmul (dsub a b) (of_int n))) as H2.
  set (m := dval (dmul _ _)) in *. set (r := dval (dadd _ _)) in *.
  set (x := ((dval a - dval b) * qz n)%Q) in *.
  set (g := ((Qabs (dval a) + Qabs (dval b)) * qz n)%Q) in *.
  assert (Hnn : (0 <= qz n)%Q) by (by apply inject_Z_nonneg).
  assert (Hg : (0 <= g)%Q).
  { apply Qmult_le_0_compat; [|done]. pose proof (Qabs_nonneg (dval a)). pose proof (Qabs_nonneg (dval b)). lra. }
  assert (Hx : (Qabs x <= g)%Q).
  { unfold x, g. rewrite (Qabs_mul_z _ n Hn). apply Qmult_le_compat_r; [apply Qabs_sub_le|done]. }
  assert (H1' : (Qabs (dval pl + m - (dval pl + x)) <= 3 * ulp_rel * g)%Q)
    by (setoid_replace (dval pl + m - (dval pl + x))%Q with (m - x)%Q using relation Qeq by ring; exact H1).
  pose proof (abs_error_step _ _ _ _ ulp_rel ltac:(vm_compute; discriminate) H1' H2) as H.
  pose proof (Qabs_triangle (dval pl) x). pose proof (Qabs_nonneg (dval pl)).
  ulp_lra.
Qed.

(** The weighted average of an enlarged position, times its size. *)
Lemma average_error avg p q n d : 0 <= q -> 0 <= n ->
  ddiv (dadd (dmul avg (of_int q)) (dmul p (of_int n))) (of_int (q + n)) = Ok d ->
  (Qabs (dval d * qz (q + n) - (dval avg * qz q + dval p * qz n))
    <= 5 * ulp_rel * (Qabs (dval avg) * qz q + Qabs (dval p) * qz n))%Q.
Proof.
  intros Hq Hn Hd. apply ddiv_error in Hd. rewrite of_int_val in Hd. fold (qz (q + n)) in Hd.
  pose proof (dmul_int_error avg q Hq) as H1. pose proof (dmul_int_error p n Hn) as H2.
  pose proof (dadd_error (dmul avg (of_int q)) (dmul p (of_int n))) as H3.
  set (m1 := dval (dmul avg _)) in *. set (m2 := dval (dmul p _)) in *.
  set (t := dval (dadd _ _)) in *.
  set (x1 := (dval avg * qz q)%Q) in *. set (x2 := (dval p * qz n)%Q) in *.
  rewrite <- (Qabs_mul_z (dval avg) q Hq) in *. rewrite <- (Qabs_mul_z (dval p) n Hn) in *.
  fold x1 in H1 |- *. fold x2 in H2 |- *.
  assert (H12 : (Qabs (m1 + m2 - (x1 + x2)) <= ulp_rel * (Qabs x1 + Qabs x2))%Q).
  { setoid_replace (m1 + m2 - (x1 + x2))%Q with (m1 - x1 + (m2 - x2))%Q using relation Qeq by ring.
    pose proof (Qabs_triangle (m1 - x1) (m2 - x2)). lra. }
  pose proof (Qabs_triangle x1 x2). pose proof (Qabs_nonneg x1). pose proof (Qabs_nonneg x2).
  pose proof (abs_error_step _ _ _ _ ulp_rel ltac:(vm_compute; discriminate) H12 H3) as Hs4.
  pose proof (abs_error_step _ _ _ _ (2 * ulp_rel) ltac:(vm_compute; discriminate) Hs4 Hd) as Hs5.
  ulp_lra.
Qed.

(** ** The cash invariant *)

(** Cash equivalent of a position: what its fills have brought in. *)
Definition cash (st : Z * decimal * decimal) : Q :=
  let '(qty, avg, pl) := st in (dval pl - dval avg * qz qty)%Q.

(** The size of the numbers an update adds up. *)
Definition gross (st : Z * decimal * decimal) (fill_qty : Z) (fill_price : decimal) : Q :=
  let '(qty, avg, pl) := st in
  (Qabs (dval pl) + Qabs (dval avg) * qz (Z.abs qty) + Qabs (dval fill_price) * qz fill_qty)%Q.

Definition is_side (side : string) : Prop := side = "buy" \/ side = "sell".

Lemma side_cases side (P : Prop) :
  is_side side -> (side = "buy" -> P) -> (side = "sell" -> P) -> P.
Proof. intros [->| ->]; auto. Qed.

Lemma qz_add a b : (qz (a + b) == qz a + qz b)%Q.
Proof. unfold qz. rewrite inject_Z_plus. reflexivity. Qed.
Lemma qz_opp a : (qz (- a) == - qz a)%Q.
Proof. unfold qz. rewrite inject_Z_opp. reflexivity. Qed.
Lemma qz_nonneg a : 0 <= a -> (0 <= qz a)%Q.
Proof. apply inject_Z_nonneg. Qed.
Lemma qz_le a b : a <= b -> (qz a <= qz b)%Q.
Proof. unfold qz. by rewrite <- Zle_Qle. Qed.

(** Closing [c] of a position of [s * q] shares ([s] its sign): what [_get_realized_pnl] pays. *)
Lemma pnl_long avg p q c : 0 < q -> _get_realized_pnl "sell" q avg p c = dmul (dsub p avg) (of_int c).
Proof. intros Hq. unfold _get_realized_pnl. by destruct (Z.ltb_spec 0 q); [|lia]. Qed.

Lemma pnl_short avg p q c : q < 0 -> _get_realized_pnl "buy" q avg p c = dmul (dsub avg p) (of_int c).
Proof. intros Hq. unfold _get_realized_pnl. by destruct (Z.ltb_spec q 0); [|lia]. Qed.

Lemma pnl_flat avg p side q c : q = 0 -> _get_realized_pnl side q avg p c = dzero.
Proof. intros ->. unfold _get_realized_pnl. by rewrite !andb_false_r. Qed.

(** Closing [c] shares and trading the rest keeps the cash, up to rounding.
    [k] is the sign of the position, [q] its size. *)
Lemma close_error k q c n a b avg p pl q' avg' :
  0 <= c <= n -> c <= q -> k = 1 /\ a = p /\ b = avg \/ k = - 1 /\ a = avg /\ b = p ->
  (dval avg' * qz q' == qz k * (dval avg * qz (q - c) - dval p * qz (n - c)))%Q ->
  let st := (k * q, avg, pl) in
  (Qabs (cash (q', avg', dadd pl (dmul (dsub a b) (of_int c))) - (cash st - dval p * qz (- k * n)))
    <= 5 * ulp_rel * gross st n p)%Q.
Proof.
  intros Hc Hcq Hk Hv. pose proof (realise_error pl a b c ltac:(lia)) as H.
  unfold cash, gross. set (r := dval (dadd _ _)) in *. cbv zeta. rewrite Hv.
  replace (Z.abs (k * q)) with q by (destruct Hk as [(-> & _)|(-> & _)]; lia).
  assert (E : (r - qz k * (dval avg * qz (q - c) - dval p * qz (n - c))
     - (dval pl - dval avg * qz (k * q) - dval p * qz (- k * n))
     == r - (dval pl + (dval a - dval b) * qz c))%Q).
  { unfold Z.sub. destruct Hk as [(-> & -> & ->)|(-> & -> & ->)]; simpl Z.opp.
    - rewrite !Z.mul_1_l. replace (-1 * n) with (- n) by lia. rewrite !qz_add, !qz_opp.
      change (qz 1) with 1%Q. ring.
    - rewrite Z.mul_1_l. replace (-1 * q) with (- q) by lia. rewrite !qz_add, !qz_opp.
      change (qz (-1)) with (-1)%Q. ring. }
  rewrite E. clear E Hv. etransitivity; [exact H|]. clear H.
  assert (Hq : (Qabs (dval avg) * qz c <= Qabs (dval avg) * qz q)%Q).
  { rewrite !(Qmult_comm (Qabs _)). apply Qmult_le_compat_r; [by apply qz_le|apply Qabs_nonneg]. }
  assert (Hn : (Qabs (dval p) * qz c <= Qabs (dval p) * qz n)%Q).
  { rewrite !(Qmult_comm (Qabs _)). apply Qmult_le_compat_r; [apply qz_le; lia|apply Qabs_nonneg]. }
  assert ((Qabs (dval a) + Qabs (dval b)) * qz c == Qabs (dval avg) * qz c + Qabs (dval p) * qz c)%Q as E
    by (destruct Hk as [(_ & -> & ->)|(_ & -> & ->)]; ring).
  rewrite E. ulp_lra.
Qed.

(** Adding to a position of sign [k]. *)
Lemma add_error k q n avg p pl d :
  k = 1 \/ k = - 1 -> 0 <= q -> 0 <= n ->
  ddiv (dadd (dmul avg (of_int q)) (dmul p (of_int n))) (of_int (q + n)) = Ok d ->
  let st := (k * q, avg, pl) in
  (Qabs (cash ((k * (q + n))%Z, d, pl) - (cash st - dval p * qz (k * n))) <= 5 * ulp_rel * gross st n p)%Q.
Proof.
  intros Hk Hq Hn Hd. pose proof (average_error _ _ _ _ _ Hq Hn Hd) as H.
  unfold cash, gross. replace (Z.abs (k * q)) with q by (destruct Hk as [-> | ->]; lia).
  pose proof (Qabs_nonneg (dval pl)).
  set (x := (dval d * qz (q + n) - (dval avg * qz q + dval p * qz n))%Q) in *.
  assert (E : (Qabs (dval pl - dval d * qz (k * (q + n)) - (dval pl - dval avg * qz (k * q) - dval p * qz (k * n)))
     == Qabs x)%Q).
  { destruct Hk as [-> | ->].
    - rewrite !Z.mul_1_l. rewrite <- (Qabs_opp x). apply Qabs_wd. unfold x. ring.
    - apply Qabs_wd. unfold x. replace (-1 * (q + n)) with (- (q + n)) by lia.
      replace (-1 * q) with (- q) by lia. replace (-1 * n) with (- n) by lia. rewrite !qz_opp. ring. }
  rewrite E. ulp_lra.
Qed.

Lemma mul_sign_pos k m n : k = 1 \/ k = - 1 -> 0 < m -> 0 < n -> (k * m * (k * n) <? 0) = false.
Proof. intros [-> | ->] ??; apply Z.ltb_ge; nia. Qed.

Lemma mul_sign_neg k m n : k = 1 \/ k = - 1 -> 0 < m -> n < 0 -> (k * m * (k * n) <? 0) = true.
Proof. intros [-> | ->] ??; apply Z.ltb_lt; nia. Qed.

(** *** The branches, in terms of sign and size *)

(** The side that adds to a position of sign [k], and the one that closes it. *)
Definition adding_side (k : Z) : string := if k =? 1 then "buy" else "sell".
Definition closing_side (k : Z) : string := if k =? 1 then "sell" else "buy".

Definition gain (k : Z) (avg p : decimal) : decimal := if k =? 1 then dsub p avg else dsub avg p.

Lemma update_flat avg pl n p side :
  calculate_position_update 0 avg pl n p side =
  (if signed_fill side n =? 0 then Ok (0, dzero, dadd pl dzero)
   else Ok (signed_fill side n, p, pl)).
Proof.
  unfold calculate_position_update. cbv zeta. rewrite Z.add_0_l.
  destruct (Z.eqb_spec (signed_fill side n) 0) as [E|E]; [|done].
  by rewrite E, (pnl_flat _ _ _ _ _ eq_refl).
Qed.

Lemma update_add k m avg pl n p :
  k = 1 \/ k = - 1 -> 0 < m -> 0 <= n ->
  calculate_position_update (k * m) avg pl n p (adding_side k) =
  (d ← ddiv (dadd (dmul avg (of_int m)) (dmul p (of_int n))) (of_int (m + n));
   Ok (k * (m + n), d, pl)).
Proof.
  intros Hk Hm Hn. unfold calculate_position_update. cbv zeta.
  assert (Hs : signed_fill (adding_side k) n = k * n) by (destruct Hk as [-> | ->]; unfold signed_fill; simpl; lia).
  rewrite Hs, <- Z.mul_add_distr_l.
  rewrite (proj2 (Z.eqb_neq (k * (m + n)) 0)) by (destruct Hk as [-> | ->]; lia).
  rewrite (proj2 (Z.eqb_neq (k * m) 0)) by (destruct Hk as [-> | ->]; lia).
  replace (Z.abs (k * m)) with m by (destruct Hk as [-> | ->]; lia).
  replace (Z.abs (k * n)) with n by (destruct Hk as [-> | ->]; lia).
  replace (Z.abs (k * (m + n))) with (m + n) by (destruct Hk as [-> | ->]; lia).
  destruct Hk as [-> | ->]; unfold adding_side.
  - rewrite (proj2 (Z.ltb_lt 0 (1 * m))) by lia. done.
  - rewrite (proj2 (Z.ltb_lt (-1 * m) 0)) by lia. rewrite (proj2 (Z.ltb_ge 0 (-1 * m))) by lia. done.
Qed.

Lemma update_close k m avg pl n p :
  k = 1 \/ k = - 1 -> 0 < m -> 0 <= n ->
  calculate_position_update (k * m) avg pl n p (closing_side k) =
  Ok (k * (m - n), (if n =? m then dzero else if m <? n then p else avg),
      dadd pl (dmul (gain k avg p) (of_int (Z.min m n)))).
Proof.
  intros Hk Hm Hn. unfold calculate_position_update. cbv zeta.
  assert (Hs : signed_fill (closing_side k) n = - (k * n)) by (destruct Hk as [-> | ->]; unfold signed_fill; simpl; lia).
  rewrite Hs. replace (k * m + - (k * n)) with (k * (m - n)) by lia.
  assert (Hp : forall c, _get_realized_pnl (closing_side k) (k * m) avg p c = dmul (gain k avg p) (of_int c)).
  { intros c. destruct Hk as [-> | ->]; [apply pnl_long|apply pnl_short]; lia. }
  rewrite !Hp. replace (Z.abs (k * m)) with m by (destruct Hk as [-> | ->]; lia).
  replace (Z.abs (- (k * n))) with n by (destruct Hk as [-> | ->]; lia).
  rewrite (proj2 (Z.eqb_neq (k * m) 0)) by (destruct Hk as [-> | ->]; lia).
  assert (Ha : (0 <? k * m) && bool_decide (closing_side k = "buy")
               || (k * m <? 0) && bool_decide (closing_side k = "sell") = false).
  { destruct Hk as [-> | ->]; unfold closing_side; simpl; rewrite andb_false_r.
    - rewrite (proj2 (Z.ltb_ge _ _)) by lia. done.
    - rewrite (proj2 (Z.ltb_ge _ _)) by lia. done. }
  rewrite Ha.
  destruct (Z.eqb_spec n m) as [->|Hne].
  - rewrite (proj2 (Z.eqb_eq _ _)) by lia. by rewrite Z.min_id.
  - rewrite (proj2 (Z.eqb_neq (k * (m - n)) 0)) by (destruct Hk as [-> | ->]; lia).
    destruct (Z.ltb_spec m n).
    + rewrite mul_sign_neg by (done || lia). by rewrite Z.min_l by lia.
    + rewrite mul_sign_pos by (done || lia). by rewrite Z.min_r by lia.
Qed.

(** ** One fill *)

Lemma split_position q side :
  q <> 0 -> is_side side ->
  exists k m, (k = 1 \/ k = - 1) /\ 0 < m /\ q = k * m /\
    (side = adding_side k \/ side = closing_side k).
Proof.
  intros Hq Hs. exists (Z.sgn q), (Z.abs q).
  destruct (Z.lt_trichotomy q 0) as [H|[H|H]]; [|done|].
  - rewrite (Z.sgn_neg q H). split_and!; [by right|lia|lia|destruct Hs as [-> | ->]; auto].
  - rewrite (Z.sgn_pos q H). split_and!; [by left|lia|lia|destruct Hs as [-> | ->]; auto].
Qed.

Lemma adding_signed k n : k = 1 \/ k = - 1 -> signed_fill (adding_side k) n = k * n.
Proof. intros [-> | ->]; unfold signed_fill; simpl; lia. Qed.
Lemma closing_signed k n : k = 1 \/ k = - 1 -> signed_fill (closing_side k) n = - k * n.
Proof. intros [-> | ->]; unfold signed_fill; simpl; lia. Qed.

(** An average price is there exactly when there is a position. *)
Definition position_ok (st : Z * decimal * decimal) : Prop :=
  let '(qty, avg, _) := st in
  (qty = 0 /\ (dval avg == 0)%Q) \/ (qty <> 0 /\ (0 < dval avg)%Q).

Lemma average_pos avg p m n d :
  (0 < dval avg)%Q -> (0 < dval p)%Q -> 0 < m -> 0 <= n ->
  ddiv (dadd (dmul avg (of_int m)) (dmul p (of_int n))) (of_int (m + n)) = Ok d ->
  (0 < dval d)%Q.
Proof.
  intros Ha Hp Hm Hn Hd. pose proof (average_error avg p m n d ltac:(lia) Hn Hd) as H.
  rewrite (Qabs_pos (dval avg)), (Qabs_pos (dval p)) in H by lra.
  set (x := (dval avg * qz m + dval p * qz n)%Q) in *.
  assert (Hx : (0 < x)%Q).
  { unfold x. pose proof (Qmult_lt_0_compat (dval avg) (qz m) Ha (inject_Z_pos m Hm)).
    pose proof (Qmult_le_0_compat (dval p) (qz n) (Qlt_le_weak _ _ Hp) (qz_nonneg n Hn)). lra. }
  rewrite <- (Qabs_pos x) in H at 2 by lra.
  apply (rel_error_pos _ _ (5 * ulp_rel) ltac:(vm_compute; reflexivity) Hx) in H.
  pose proof (inject_Z_pos (m + n) ltac:(lia)) as HN. fold (qz (m + n)) in HN.
  apply (Qmult_lt_r _ _ _ HN). rewrite Qmult_0_l. exact H.
Qed.

Definition qty_of (st : Z * decimal * decimal) : Z := st.1.1.

Lemma flat_step side n p avg pl :
  0 <= n ->
  exists st', calculate_position_update 0 avg pl n p side = Ok st' /\
    qty_of st' = signed_fill side n /\
    (Qabs (cash st' - (cash (0%Z, avg, pl) - dval p * qz (signed_fill side n)))
      <= 5 * ulp_rel * gross (0%Z, avg, pl) n p)%Q /\
    ((0 < dval p)%Q -> position_ok st').
Proof.
  intros Hn. rewrite update_flat. unfold qty_of. pose proof (Qabs_nonneg (dval pl)).
  assert (0 <= Qabs (dval p) * qz n)%Q
    by (apply Qmult_le_0_compat; [apply Qabs_nonneg|by apply qz_nonneg]).
  destruct (Z.eqb_spec (signed_fill side n) 0) as [E|E]; eexists; (split; [reflexivity|]).
  - rewrite E. split; [done|]. split; [|intros _; by left].
    pose proof (dadd_error pl dzero) as Hd. rewrite dzero_val, Qplus_0_r in Hd.
    unfold cash, gross. rewrite dzero_val. change (qz 0) with 0%Q. change (qz (Z.abs 0)) with 0%Q.
    set (r := dval (dadd _ _)) in *.
    setoid_replace (r - 0 * 0 - (dval pl - dval avg * 0 - dval p * 0))%Q with (r - dval pl)%Q
      using relation Qeq by ring. ulp_lra.
  - split; [done|]. split; [|intros Hp; by right].
    unfold cash, gross. change (qz 0) with 0%Q. change (qz (Z.abs 0)) with 0%Q.
    setoid_replace (dval pl - dval p * qz (signed_fill side n)
      - (dval pl - dval avg * 0 - dval p * qz (signed_fill side n)))%Q with 0%Q using relation Qeq by ring.
    change (Qabs 0) with 0%Q. ulp_lra.
Qed.

(** A fill always succeeds; it moves the quantity by the signed fill, the cash by its
    price up to rounding, and keeps the average price well formed. *)
Lemma update_step st n p side :
  is_side side -> 0 <= n ->
  exists st', calculate_position_update st.1.1 st.1.2 st.2 n p side = Ok st' /\
    qty_of st' = qty_of st + signed_fill side n /\
    (Qabs (cash st' - (cash st - dval p * qz (signed_fill side n)))
      <= 5 * ulp_rel * gross st n p)%Q /\
    (position_ok st -> (0 < dval p)%Q -> position_ok st').
Proof.
  destruct st as [[q avg] pl]. cbn [fst snd]. intros Hs Hn. unfold qty_of. cbn [fst snd].
  destruct (Z.eq_dec q 0) as [->|Hq].
  { destruct (flat_step side n p avg pl Hn) as (st' & H1 & H2 & H3 & H4).
    exists st'. split; [done|]. split; [by rewrite Z.add_0_l|]. by split; [|auto]. }
  destruct (split_position q side Hq Hs) as (k & m & Hk & Hm & -> & [->| ->]).
  - rewrite update_add, adding_signed by done.
    destruct (ddiv_ok (dadd (dmul avg (of_int m)) (dmul p (of_int n))) (of_int (m + n))) as [d Hd];
      [simpl; lia|].
    rewrite Hd. eexists. split; [reflexivity|]. split; [simpl; lia|].
    split; [apply (add_error k m n avg p pl d Hk ltac:(lia) Hn Hd)|].
    intros [[? _]|[_ Ha]] Hp; [lia|]. right. split; [destruct Hk as [-> | ->]; lia|].
    exact (average_pos avg p m n d Ha Hp Hm Hn Hd).
  - rewrite update_close, closing_signed by done. eexists. split; [reflexivity|].
    split; [simpl; lia|]. split.
    + unfold gain. destruct (Z.eqb_spec k 1) as [->|Hk1];
        (apply close_error; [lia|lia|first [left; done|right; split; [lia|done]]|]).
      all: destruct (Z.eqb_spec n m) as [->|]; [rewrite Z.min_id, !Z.sub_diag, Z.mul_0_r, dzero_val; change (qz 0) with 0%Q; ring|].
      all: destruct (Z.ltb_spec m n).
      all: (rewrite Z.min_l by lia) || (rewrite Z.min_r by lia); rewrite Z.sub_diag; change (qz 0) with 0%Q.
      all: unfold Z.sub; rewrite ?Z.mul_1_l.
      all: try replace k with (-1) by lia.
      all: try replace (-1 * (m + - n)) with (- (m + - n)) by lia.
      all: rewrite ?qz_add, ?qz_opp, ?qz_add, ?qz_opp; change (qz 1) with 1%Q; change (qz (-1)) with (-1)%Q; ring.
    + intros [[? _]|[_ Ha]] Hp; [lia|]. destruct (Z.eqb_spec n m) as [->|Hne].
      * left. split; [lia|reflexivity].
      * right. split; [destruct Hk as [-> | ->]; lia|]. by destruct (m <? n).
Qed.

(** ** Sequences of fills *)

Definition fill : Type := Z * decimal * string.

Definition fill_wf (f : fill) : Prop := let '(n, p, side) := f in is_side side /\ 0 <= n.

(** The position after the fills, starting from [st]. *)
Fixpoint apply_fills (st : Z * decimal * decimal) (fills : list fill) : result (Z * decimal * decimal) :=
  match fills with
  | [] => Ok st
  | (n, p, side) :: fills' =>
      st' ← calculate_position_update st.1.1 st.1.2 st.2 n p side; apply_fills st' fills'
  end.

(** Exact net quantity and net payment of the fills. *)
Definition net_qty (fills : list fill) : Z :=
  Zsum ((fun '(n, _, side) => signed_fill side n) <$> fills).
Fixpoint net_payment (fills : list fill) : Q :=
  match fills with
  | [] => 0
  | (n, p, side) :: fills' => dval p * qz (signed_fill side n) + net_payment fills'
  end.

(** The magnitudes the updates go through. *)
Fixpoint total_gross (st : Z * decimal * decimal) (fills : list fill) : Q :=
  match fills with
  | [] => 0
  | (n, p, side) :: fills' =>
      gross st n p +
      match calculate_position_update st.1.1 st.1.2 st.2 n p side with
      | Ok st' => total_gross st' fills'
      | Raise _ => 0
      end
  end.

(** ** Quantities as decimals *)

Lemma fix_prec_sign d : dltb (fix_prec d) dzero = (coef d <? 0).
Proof.
  pose proof (fix_prec_error d) as H.
  destruct (dltb_spec (fix_prec d) dzero) as [Hl|Hl], (Z.ltb_spec (coef d) 0) as [Hc|Hc]; [done|..|done].
  - exfalso. assert (0 <= dval d)%Q.
    { unfold dval. apply Qmult_le_0_compat; [by apply inject_Z_nonneg|apply Qlt_le_weak, ten_pow_pos]. }
    rewrite (Qabs_pos (dval d)) in H by done. apply Qabs_Qle_condition in H as [H _].
    rewrite dzero_val in Hl. ulp_lra.
  - exfalso. assert (dval d < 0)%Q.
    { pose proof (coef_sign (dneg_exact d)) as [Hs _]. cbn [coef dneg_exact] in Hs.
      specialize (Hs ltac:(lia)). rewrite dneg_exact_val in Hs. lra. }
    rewrite (Qabs_neg (dval d)) in H by lra. apply Qabs_Qle_condition in H as [_ H].
    rewrite dzero_val in Hl. ulp_lra.
Qed.

Lemma dneg_int n : Z.abs n < 10 ^ 28 -> dneg (of_int n) = of_int (- n).
Proof. intros H. apply (fix_prec_small (Dec (- n) 0)). simpl. lia. Qed.

Lemma dabs_int n : Z.abs n < 10 ^ 28 -> dabs (of_int n) = of_int (Z.abs n).
Proof. intros H. apply (fix_prec_small (Dec (Z.abs n) 0)). simpl. lia. Qed.

Lemma dadd_int a b : Z.abs (a + b) < 10 ^ 28 -> dadd (of_int a) (of_int b) = of_int (a + b).
Proof.
  intros H. unfold dadd, num_add, scaled, of_int. cbn [coef dexp]. rewrite Z.min_id, Z.sub_diag, !Z.mul_1_r.
  by apply fix_prec_small.
Qed.

Lemma dcmp_int a b : dcmp (of_int a) (of_int b) = (a ?= b).
Proof.
  unfold dcmp, scaled, of_int. cbn [coef dexp]. by rewrite Z.min_id, Z.sub_diag, !Z.mul_1_r.
Qed.

Lemma deqb_int a : deqb (of_int a) dzero = (a =? 0).
Proof. unfold deqb. change dzero with (of_int 0). rewrite dcmp_int. symmetry. apply Z.eqb_compare. Qed.

Lemma dpos_int a : dltb dzero (of_int a) = (0 <? a).
Proof. unfold dltb. change dzero with (of_int 0). rewrite dcmp_int. symmetry. apply Z.ltb_compare. Qed.

Lemma dneg_int_b a : dltb (of_int a) dzero = (a <? 0).
Proof. unfold dltb. change dzero with (of_int 0). rewrite dcmp_int. symmetry. apply Z.ltb_compare. Qed.

Lemma dmul_int_neg a b : dltb (dmul (of_int a) (of_int b)) dzero = (a * b <? 0).
Proof. unfold dmul. apply fix_prec_sign. Qed.

(** How [calculate_position_update] books the realised delta. *)
Definition book (q q' : Z) (side : string) (pl delta : decimal) : decimal :=
  if q' =? 0 then dadd pl delta
  else if q =? 0 then pl
  else if ((0 <? q) && bool_decide (side = "buy")) || ((q <? 0) && bool_decide (side = "sell")) then pl
  else dadd pl delta.

Lemma net_qty_cons n p side fills : net_qty ((n, p, side) :: fills) = signed_fill side n + net_qty fills.
Proof. reflexivity. Qed.

(** ** Properties *)

(** C20. Accounting is conserved over any sequence of buys and sells: no update fails, the final
    quantity is the exact net of the fills, and realised profit minus the cost
    of the open position differs from the exact cash flow by at most five
    roundings of the amounts involved per fill. An average price is kept
    exactly while a position is open (and positive), which the table's
    constraints ask for. *)
Theorem fills_conserve_cash fills : forall st,
  Forall fill_wf fills ->
  exists st', apply_fills st fills = Ok st' /\
    qty_of st' = qty_of st + net_qty fills /\
    (Qabs (cash st' - (cash st - net_payment fills)) <= 5 * ulp_rel * total_gross st fills)%Q /\
    (position_ok st -> Forall (fun f => (0 < dval f.1.2)%Q) fills -> position_ok st').
Proof.
  induction fills as [|[[n p] side] fills IH]; intros st Hwf.
  - exists st. split; [done|]. split; [unfold net_qty; simpl; lia|]. split; [|done].
    cbn [net_payment total_gross].
    setoid_replace (cash st - (cash st - 0))%Q with 0%Q using relation Qeq by ring.
    rewrite Qmult_0_r. discriminate.
  - apply Forall_cons in Hwf as [[Hs Hn] Hwf].
    destruct (update_step st n p side Hs Hn) as (st1 & E & Hq & Hc & Hok).
    destruct (IH st1 Hwf) as (st' & E' & Hq' & Hc' & Hok').
    exists st'. cbn [apply_fills net_payment total_gross]. rewrite E. split; [exact E'|].
    split; [rewrite Hq', Hq, net_qty_cons; lia|]. split.
    + setoid_replace (cash st' - (cash st - (dval p * qz (signed_fill side n) + net_payment fills)))%Q
        with ((cash st' - (cash st1 - net_payment fills)) +
              (cash st1 - (cash st - dval p * qz (signed_fill side n))))%Q using relation Qeq by ring.
      etransitivity; [apply Qabs_triangle|]. lra.
    + intros H [Hp HF]%Forall_cons. apply Hok'; [apply Hok|]; done.
Qed.

(** The decimal variant that rebuilds trades computes the same thing: on whole quantities
    within the decimal precision it gives the same quantity and average price,
    and the realised delta that the integer version books. *)
Theorem decimal_update_agrees q avg pl n p side :
  0 <= n -> Z.abs q + n < 10 ^ 28 ->
  exists q' avg' delta,
    calculate_position_update_decimal (of_int q) avg (of_int n) p side = Ok (of_int q', avg', delta) /\
    calculate_position_update q avg pl n p side = Ok (q', avg', book q q' side pl delta).
Proof.
  intros Hn Hb. unfold calculate_position_update_decimal, calculate_position_update, book. cbv zeta.
  assert (Es : (if bool_decide (side = "buy") then of_int n else dneg (of_int n))
               = of_int (signed_fill side n)).
  { unfold signed_fill. case_bool_decide; [done|]. apply dneg_int. lia. }
  assert (Hsn : Z.abs (signed_fill side n) = n) by (unfold signed_fill; case_bool_decide; lia).
  rewrite Es. set (s := signed_fill side n) in *.
  rewrite (dadd_int q s) by lia. rewrite !dabs_int by lia.
  rewrite !deqb_int, dpos_int, dneg_int_b, dmul_int_neg.
  assert (Hpnl : forall c, _get_realized_pnl_decimal side (of_int q) avg p (of_int c)
                           = _get_realized_pnl side q avg p c).
  { intros c. unfold _get_realized_pnl_decimal. by rewrite dpos_int, dneg_int_b. }
  rewrite !Hpnl. destruct (q + s =? 0) eqn:E0; [do 3 eexists; split; [reflexivity|]; by rewrite E0|].
  destruct (q =? 0) eqn:E1; [do 3 eexists; split; [reflexivity|]; by rewrite E0|].
  destruct ((0 <? q) && bool_decide (side = "buy") || (q <? 0) && bool_decide (side = "sell")) eqn:E2.
  - destruct (ddiv_ok (dadd (dmul avg (of_int (Z.abs q))) (dmul p (of_int (Z.abs s)))) (of_int (Z.abs (q + s))))
      as [d Hd]; [apply Z.eqb_neq in E0; simpl; lia|].
    rewrite Hd. do 3 eexists. split; [reflexivity|]. by rewrite E0.
  - destruct (q * (q + s) <? 0); do 3 eexists; (split; [reflexivity|]; by rewrite E0).
Qed.

(** ** Witnesses *)

Definition sample_fills : list fill :=
  [(100, of_int 150, "buy"); (50, Dec 15550 (-2), "buy"); (70, of_int 160, "sell"); (200, Dec 1495 (-1), "sell")].

Lemma fills_conserve_cash_witness :
  exists st', apply_fills (0, dzero, dzero) sample_fills = Ok st' /\ qty_of st' = -120.
Proof.
  destruct (fills_conserve_cash sample_fills (0, dzero, dzero)) as (st' & E & Hq & _).
  { repeat constructor; (by left) || (by right) || lia. }
  exists st'. split; [exact E|]. rewrite Hq. reflexivity.
Defined.

Lemma decimal_update_agrees_witness :
  exists q' avg' delta,
    calculate_position_update_decimal (of_int 50) (of_int 100) (of_int 100) (of_int 120) "sell"
      = Ok (of_int q', avg', delta).
Proof.
  destruct (decimal_update_agrees 50 (of_int 100) dzero 100 (of_int 120) "sell" ltac:(lia) ltac:(lia))
    as (q' & avg' & delta & H & _). exists q', avg', delta. exact H.
Defined.
