(* ===== verification/GatewayDb.v ===== *)
(** * The execution gateway's database (apps/execution_gateway/database.py)

    The tables as finite maps, with the constraints of db/migrations, and one
    definition per method of [DatabaseClient] that the order life cycle uses.
    A statement that violates a constraint raises and changes nothing; a
    method with its own connection runs as a transaction.  [NOW()] is the
    argument [now], a timestamp in UTC microseconds.  A row is what the code
    gets back as an [OrderDetail]; NULL is [None]. *)

From S2P Require Import Prelude PyDecimal PyText OrderStatus OrderSchema.

Open Scope Z_scope.

(** ** Rows *)

Record order_core : Type := {
  o_strategy_id : string;
  o_symbol : string;
  o_side : string;
  o_qty : Z;
  o_order_type : string;
  o_limit_price : option decimal;
  o_stop_price : option decimal;
  o_time_in_force : string;
}.

Record order_exec : Type := {
  o_status : string;
  o_broker_order_id : option string;
  o_error_message : option string;
  o_submitted_at : option Z;
  o_filled_at : option Z;
  o_filled_qty : option decimal;
  o_filled_avg_price : option decimal;
  o_last_updated_at : option Z;
  o_is_terminal : bool;
  o_source_priority : Z;
  o_status_rank : option Z;
  o_broker_event_id : option string;
}.

Record order_links : Type := {
  o_parent_order_id : option string;
  o_slice_num : option Z;
  o_total_slices : option Z;
  o_scheduled_time : option Z;
  o_replaced_order_id : option string;
}.

(** One element of [metadata->'fills']. *)
Record fill_rec : Type := {
  f_fill_id : string;
  f_fill_qty : decimal;
  f_fill_price : decimal;
  f_realized_pl : option decimal;
  f_timestamp : option Z;
  f_source : option string;
  f_synthetic : bool;
  f_superseded : bool;
}.

(** The order's JSON metadata: the keys the code reads, and the rest. *)
Record order_meta : Type := {
  m_fills : option (list fill_rec);
  m_total_realized_pl : option decimal;
  m_other : list (string * string);
}.

Definition empty_meta : order_meta :=
  {| m_fills := None; m_total_realized_pl := None; m_other := [] |}.

Record order_row : Type := {
  o_core : order_core;
  o_exec : order_exec;
  o_links : order_links;
  o_metadata : option order_meta;
  o_created_at : Z;
  o_updated_at : Z;
}.

Record position_row : Type := {
  p_qty : decimal;
  p_avg_entry_price : decimal;
  p_current_price : option decimal;
  p_realized_pl : decimal;
  p_updated_at : Z;
  p_last_trade_at : option Z;
}.

Record trade_row : Type := {
  t_client_order_id : string;
  t_broker_order_id : option string;
  t_strategy_id : string;
  t_symbol : string;
  t_side : string;
  t_qty : decimal;
  t_price : decimal;
  t_executed_at : Z;
  t_realized_pnl : decimal;
  t_source : option string;
  t_synthetic : bool;
  t_superseded : bool;
}.

Record slice_row : Type := {
  ss_scheduled_at : Z;
  ss_qty : Z;
  ss_status : string;
}.

Record orphan_row : Type := {
  orphan_client_order_id : option string;
  orphan_symbol : string;
  orphan_strategy_id : string;
  orphan_side : string;
  orphan_qty : Z;
  orphan_estimated_notional : decimal;
  orphan_status : string;
  orphan_detected_at : Z;
  orphan_resolved_at : option Z;
}.

(** The JSON object [{"field": [old, new]}] of a modification. *)
Record modification_changes : Type := {
  ch_qty : option (Z * Z);
  ch_limit_price : option (option decimal * decimal);
  ch_stop_price : option (option decimal * decimal);
  ch_time_in_force : option (string * string);
}.

Record modification_row : Type := {
  mod_original_client_order_id : string;
  mod_new_client_order_id : string;
  mod_original_broker_order_id : option string;
  mod_new_broker_order_id : option string;
  mod_seq : Z;
  mod_idempotency_key : string;
  mod_status : string;
  mod_error_message : option string;
  mod_modified_at : Z;
  mod_modified_by : string;
  mod_reason : option string;
  mod_changes : modification_changes;
}.

Record db : Type := {
  db_orders : gmap string order_row;
  db_positions : gmap string position_row;
  db_trades : gmap string trade_row;
  db_slice_schedules : gmap (string * Z) slice_row;
  db_high_water_marks : gmap string Z;
  db_orphan_orders : gmap string orphan_row;
  db_modifications : gmap string modification_row;
}.

Definition empty_db : db :=
  {| db_orders := ∅; db_positions := ∅; db_trades := ∅; db_slice_schedules := ∅;
     db_high_water_marks := ∅; db_orphan_orders := ∅; db_modifications := ∅ |}.

Definition set_orders (f : gmap string order_row -> gmap string order_row) (s : db) : db :=
  {| db_orders := f (db_orders s); db_positions := db_positions s; db_trades := db_trades s;
     db_slice_schedules := db_slice_schedules s; db_high_water_marks := db_high_water_marks s;
     db_orphan_orders := db_orphan_orders s; db_modifications := db_modifications s |}.
Definition set_positions (f : gmap string position_row -> gmap string position_row) (s : db) : db :=
  {| db_orders := db_orders s; db_positions := f (db_positions s); db_trades := db_trades s;
     db_slice_schedules := db_slice_schedules s; db_high_water_marks := db_high_water_marks s;
     db_orphan_orders := db_orphan_orders s; db_modifications := db_modifications s |}.
Definition set_trades (f : gmap string trade_row -> gmap string trade_row) (s : db) : db :=
  {| db_orders := db_orders s; db_positions := db_positions s; db_trades := f (db_trades s);
     db_slice_schedules := db_slice_schedules s; db_high_water_marks := db_high_water_marks s;
     db_orphan_orders := db_orphan_orders s; db_modifications := db_modifications s |}.
Definition set_slice_schedules (f : gmap (string * Z) slice_row -> gmap (string * Z) slice_row)
    (s : db) : db :=
  {| db_orders := db_orders s; db_positions := db_positions s; db_trades := db_trades s;
     db_slice_schedules := f (db_slice_schedules s); db_high_water_marks := db_high_water_marks s;
     db_orphan_orders := db_orphan_orders s; db_modifications := db_modifications s |}.
Definition set_high_water_marks (f : gmap string Z -> gmap string Z) (s : db) : db :=
  {| db_orders := db_orders s; db_positions := db_positions s; db_trades := db_trades s;
     db_slice_schedules := db_slice_schedules s; db_high_water_marks := f (db_high_water_marks s);
     db_orphan_orders := db_orphan_orders s; db_modifications := db_modifications s |}.
Definition set_orphan_orders (f : gmap string orphan_row -> gmap string orphan_row) (s : db) : db :=
  {| db_orders := db_orders s; db_positions := db_positions s; db_trades := db_trades s;
     db_slice_schedules := db_slice_schedules s; db_high_water_marks := db_high_water_marks s;
     db_orphan_orders := f (db_orphan_orders s); db_modifications := db_modifications s |}.
Definition set_modifications (f : gmap string modification_row -> gmap string modification_row)
    (s : db) : db :=
  {| db_orders := db_orders s; db_positions := db_positions s; db_trades := db_trades s;
     db_slice_schedules := db_slice_schedules s; db_high_water_marks := db_high_water_marks s;
     db_orphan_orders := db_orphan_orders s; db_modifications := f (db_modifications s) |}.

Definition modify {S} (f : S -> S) : M S unit := fun s => (Ok tt, f s).

(** ** Constraints *)

Definition opt_check {A} (f : A -> bool) (o : option A) : bool :=
  match o with None => true | Some a => f a end.

Definition dpositive (d : decimal) : bool := dltb dzero d.

(** The CHECK constraints of [orders]. *)
Definition order_checks (r : order_row) : bool :=
  let c := o_core r in let e := o_exec r in let l := o_links r in
  one_of (o_side c) ["buy"; "sell"] && (0 <? o_qty c) &&
  one_of (o_order_type c) ["market"; "limit"; "stop"; "stop_limit"] &&
  opt_check dpositive (o_limit_price c) && opt_check dpositive (o_stop_price c) &&
  one_of (o_time_in_force c) ["day"; "gtc"; "ioc"; "fok"] &&
  opt_check (dleb dzero) (o_filled_qty e) && opt_check dpositive (o_filled_avg_price e) &&
  opt_check (Z.leb 0) (o_slice_num l) && opt_check (Z.ltb 0) (o_total_slices l).

Definition position_checks (r : position_row) : bool :=
  (dpositive (p_avg_entry_price r) || deqb (p_qty r) dzero) && opt_check dpositive (p_current_price r).

Definition trade_checks (r : trade_row) : bool :=
  one_of (t_side r) ["buy"; "sell"] && dpositive (t_qty r) && dpositive (t_price r).

(** Two rows clash when a unique index would reject them. *)
Definition same_some (a b : option string) : bool :=
  match a, b with Some x, Some y => bool_decide (x = y) | _, _ => false end.
Definition rows_clash (r1 r2 : order_row) : bool :=
  same_some (o_broker_order_id (o_exec r1)) (o_broker_order_id (o_exec r2)) ||
  (same_some (o_parent_order_id (o_links r1)) (o_parent_order_id (o_links r2)) &&
   bool_decide (is_Some (o_slice_num (o_links r1))) &&
   bool_decide (o_slice_num (o_links r1) = o_slice_num (o_links r2))).

(** No other row of the table clashes with [r] under key [id]. *)
Definition unique_in (orders : gmap string order_row) (id : string) (r : order_row) : bool :=
  bool_decide (map_Forall (fun id' r' => id' = id \/ rows_clash r r' = false) orders).

Definition ref_ok (orders : gmap string order_row) (id : string) (o : option string) : bool :=
  opt_check (fun p => bool_decide (p = id) || bool_decide (is_Some (orders !! p))) o.

Definition refs_ok (orders : gmap string order_row) (id : string) (r : order_row) : bool :=
  ref_ok orders id (o_parent_order_id (o_links r)) && ref_ok orders id (o_replaced_order_id (o_links r)).

Definition order_valid (orders : gmap string order_row) (id : string) (r : order_row) : bool :=
  order_checks r && unique_in orders id r && refs_ok orders id r.

(** The constraint an invalid row violates: checks first, then unique indexes, foreign keys last. *)
Definition violation (orders : gmap string order_row) (id : string) (r : order_row) : string :=
  if negb (order_checks r) then "orders_check"
  else if bool_decide (is_Some (orders !! id)) then "orders_pkey"
  else if negb (unique_in orders id r) then "orders_unique" else "orders_fkey".

(** psycopg's [UniqueViolation], a subclass of [IntegrityError]. *)
Definition UniqueViolation (e : exn) : bool :=
  match e with IntegrityError c => one_of c ["orders_pkey"; "orders_unique"] | _ => false end.

(** [INSERT INTO orders]: returns the inserted row. *)
Definition insert_order (id : string) (r : order_row) : M db order_row :=
  s ← get_state;
  match db_orders s !! id with
  | Some _ => raise (IntegrityError (violation (db_orders s) id r))
  | None =>
      if order_valid (db_orders s) id r
      then _ ← put_state (set_orders (insert id r) s); mret r
      else raise (IntegrityError (violation (db_orders s) id r))
  end.

(** [UPDATE orders SET ... WHERE client_order_id = id AND cond RETURNING *]. *)
Definition update_order (id : string) (cond : order_row -> bool) (f : order_row -> order_row)
    : M db (option order_row) :=
  s ← get_state;
  match db_orders s !! id with
  | None => mret None
  | Some r =>
      if cond r then
        let r' := f r in
        if order_valid (db_orders s) id r'
        then _ ← put_state (set_orders (insert id r') s); mret (Some r')
        else raise (IntegrityError "orders")
      else mret None
  end.

(** ** Creating orders *)

Definition core_of (strategy_id : string) (r : OrderRequest) : order_core :=
  {| o_strategy_id := strategy_id; o_symbol := req_symbol r; o_side := req_side r; o_qty := req_qty r;
     o_order_type := req_order_type r; o_limit_price := req_limit_price r;
     o_stop_price := req_stop_price r; o_time_in_force := req_time_in_force r |}.

(** The columns an INSERT leaves to their defaults. *)
Definition new_exec (status : string) (broker_order_id error_message : option string)
    (submitted_at : option Z) : order_exec :=
  {| o_status := status; o_broker_order_id := broker_order_id; o_error_message := error_message;
     o_submitted_at := submitted_at; o_filled_at := None; o_filled_qty := Some dzero;
     o_filled_avg_price := None; o_last_updated_at := None; o_is_terminal := false;
     o_source_priority := 2; o_status_rank := None; o_broker_event_id := None |}.

Definition no_links : order_links :=
  {| o_parent_order_id := None; o_slice_num := None; o_total_slices := None;
     o_scheduled_time := None; o_replaced_order_id := None |}.

Definition create_order (now : Z) (client_order_id strategy_id : string) (order_request : OrderRequest)
    (status : string) (broker_order_id error_message : option string) : M db order_row :=
  let submitted_at := if bool_decide (status = "dry_run") then None else Some now in
  transaction (insert_order client_order_id
    {| o_core := core_of strategy_id order_request;
       o_exec := new_exec status broker_order_id error_message submitted_at;
       o_links := no_links; o_metadata := Some empty_meta; o_created_at := now; o_updated_at := now |}).

(** psycopg binds parameters to [%s] placeholders on the client; a query with
    another number of placeholders than parameters raises ProgrammingError. *)
Definition bind_params {S} (placeholders params : nat) : M S unit :=
  if (placeholders =? params)%nat then mret tt
  else raise (ProgrammingError "the query has a different number of placeholders").

(** The INSERT names fifteen columns; its VALUES list has eleven [%s], one NULL and two NOW(),
    and twelve parameters are passed. *)
Definition create_parent_order_placeholders : nat := 11.
Definition create_parent_order_params : nat := 12.

Definition create_parent_order (now : Z) (client_order_id strategy_id : string)
    (order_request : OrderRequest) (total_slices : Z) (status : string) (metadata : option order_meta)
    : M db order_row :=
  _ ← bind_params create_parent_order_placeholders create_parent_order_params;
  insert_order client_order_id
    {| o_core := core_of strategy_id order_request; o_exec := new_exec status None None None;
       o_links := {| o_parent_order_id := None; o_slice_num := None; o_total_slices := Some total_slices;
                     o_scheduled_time := None; o_replaced_order_id := None |};
       o_metadata := metadata; o_created_at := now; o_updated_at := now |}.

Definition create_child_slice (now : Z) (client_order_id parent_order_id : string) (slice_num : Z)
    (strategy_id : string) (order_request : OrderRequest) (scheduled_time : Z) (status : string)
    : M db order_row :=
  insert_order client_order_id
    {| o_core := core_of strategy_id order_request; o_exec := new_exec status None None None;
       o_links := {| o_parent_order_id := Some parent_order_id; o_slice_num := Some slice_num;
                     o_total_slices := None; o_scheduled_time := Some scheduled_time;
                     o_replaced_order_id := None |};
       o_metadata := Some empty_meta; o_created_at := now; o_updated_at := now |}.

Definition create_slice_schedule (parent_order_id : string) (slice_index scheduled_at qty : Z)
    (status : string) : M db unit :=
  s ← get_state;
  if bool_decide (is_Some (db_slice_schedules s !! (parent_order_id, slice_index)))
     || negb ((0 <=? slice_index) && (0 <? qty) && bool_decide (is_Some (db_orders s !! parent_order_id)))
  then raise (IntegrityError "slice_schedules")
  else modify (set_slice_schedules (insert (parent_order_id, slice_index)
         {| ss_scheduled_at := scheduled_at; ss_qty := qty; ss_status := status |})).

Definition insert_replacement_order (now : Z) (client_order_id replaced_order_id strategy_id : string)
    (order_request : OrderRequest) (status : string) (broker_order_id : option string)
    : M db order_row :=
  insert_order client_order_id
    {| o_core := core_of strategy_id order_request;
       o_exec := new_exec status broker_order_id None (Some now);
       o_links := {| o_parent_order_id := None; o_slice_num := None; o_total_slices := None;
                     o_scheduled_time := None; o_replaced_order_id := Some replaced_order_id |};
       o_metadata := Some empty_meta; o_created_at := now; o_updated_at := now |}.

(** ** Reading orders *)

Definition OrderDetail : Type := string * order_row.

Definition select_orders (cond : order_row -> bool) (s : db) : list OrderDetail :=
  map_to_list (filter (fun p : OrderDetail => cond p.2 = true) (db_orders s)).

Definition is_child_of (parent_order_id : string) (r : order_row) : bool :=
  bool_decide (o_parent_order_id (o_links r) = Some parent_order_id).

(** [ORDER BY] on nullable integers: NULLS LAST. *)
Definition null_last_le (a b : option Z) : bool :=
  match a, b with
  | Some x, Some y => x <=? y
  | Some _, None => true
  | None, Some _ => false
  | None, None => true
  end.

Definition slice_le (a b : OrderDetail) : Prop :=
  null_last_le (o_slice_num (o_links a.2)) (o_slice_num (o_links b.2)) = true.
#[export] Instance slice_le_dec : RelDecision slice_le.
Proof. intros a b. unfold slice_le. apply _. Defined.

Definition get_slices_by_parent_id (parent_order_id : string) : M db (list OrderDetail) :=
  reads (fun s => merge_sort slice_le (select_orders (is_child_of parent_order_id) s)).

Definition scheduled_le (a b : OrderDetail) : Prop :=
  let ta := o_scheduled_time (o_links a.2) in let tb := o_scheduled_time (o_links b.2) in
  if bool_decide (ta = tb) then slice_le a b else null_last_le ta tb = true.
#[export] Instance scheduled_le_dec : RelDecision scheduled_le.
Proof. intros a b. unfold scheduled_le. case_bool_decide; apply _. Defined.

Definition get_pending_child_slices : M db (list OrderDetail) :=
  reads (fun s => merge_sort scheduled_le
    (select_orders (fun r => bool_decide (is_Some (o_parent_order_id (o_links r)))
                             && bool_decide (o_status (o_exec r) = "pending_new")) s)).

Definition count_non_terminal_children (parent_order_id : string) : M db nat :=
  reads (fun s => length (select_orders
    (fun r => is_child_of parent_order_id r && negb (o_is_terminal (o_exec r))) s)).

Definition get_order_by_client_id (client_order_id : string) : M db (option order_row) :=
  reads (fun s => db_orders s !! client_order_id).

Definition created_le (a b : OrderDetail) : Prop := o_created_at a.2 <= o_created_at b.2.
#[export] Instance created_le_dec : RelDecision created_le.
Proof. intros a b. unfold created_le. apply _. Defined.

Definition get_non_terminal_orders (created_before : option Z) : M db (list OrderDetail) :=
  reads (fun s => merge_sort created_le
    (select_orders (fun r => negb (o_is_terminal (o_exec r))
       && opt_check (fun t => o_created_at r <=? t) created_before) s)).

(** [status IN ('filled', 'partially_filled') AND filled_qty > 0 AND ...]: no fill in the metadata. *)
Definition missing_fills (r : order_row) : bool :=
  one_of (o_status (o_exec r)) ["filled"; "partially_filled"] &&
  match o_filled_qty (o_exec r) with Some q => dpositive q | None => false end &&
  bool_decide (is_Some (o_filled_avg_price (o_exec r))) &&
  match o_metadata r with
  | None => true
  | Some m => match m_fills m with None | Some [] => true | Some _ => false end
  end.

Definition updated_ge (a b : OrderDetail) : Prop := o_updated_at b.2 <= o_updated_at a.2.
#[export] Instance updated_ge_dec : RelDecision updated_ge.
Proof. intros a b. unfold updated_ge. apply _. Defined.

Definition get_filled_orders_missing_fills (limit : Z) : M db (list OrderDetail) :=
  reads (fun s => take (Z.to_nat (Z.max 1 (Z.min limit 500)))
                    (merge_sort updated_ge (select_orders missing_fills s))).

Definition get_order_ids_by_client_ids (client_order_ids : list string) : M db (list string) :=
  reads (fun s => filter (fun id => id <> "" /\ is_Some (db_orders s !! id)) client_order_ids).

Definition has_broker_id (broker_order_id : string) (r : order_row) : bool :=
  bool_decide (o_broker_order_id (o_exec r) = Some broker_order_id).

(** The row of one broker id of the dict [get_orders_by_broker_ids] returns. *)
Definition order_by_broker_id (broker_order_id : string) (s : db) : option OrderDetail :=
  if bool_decide (broker_order_id = "") then None
  else head (select_orders (has_broker_id broker_order_id) s).

Definition get_orders_by_broker_ids (broker_order_ids : list string)
    : M db (list (string * OrderDetail)) :=
  reads (fun s => omap (fun id => pair id <$> order_by_broker_id id s) broker_order_ids).

(** [SELECT * FROM positions WHERE qty != 0] *)
Definition get_all_positions : M db (list (string * position_row)) :=
  reads (fun s => map_to_list (filter (fun p : string * position_row => deqb (p_qty p.2) dzero = false)
                                      (db_positions s))).

(** ** Updating orders *)

Definition set_exec (now : Z) (f : order_exec -> order_exec) (r : order_row) : order_row :=
  {| o_core := o_core r; o_exec := f (o_exec r); o_links := o_links r; o_metadata := o_metadata r;
     o_created_at := o_created_at r; o_updated_at := now |}.

Definition set_links (now : Z) (f : order_links -> order_links) (r : order_row) : order_row :=
  {| o_core := o_core r; o_exec := o_exec r; o_links := f (o_links r); o_metadata := o_metadata r;
     o_created_at := o_created_at r; o_updated_at := now |}.

Definition set_metadata (now : Z) (f : option order_meta -> option order_meta) (r : order_row)
    : order_row :=
  {| o_core := o_core r; o_exec := o_exec r; o_links := o_links r; o_metadata := f (o_metadata r);
     o_created_at := o_created_at r; o_updated_at := now |}.

Definition always (r : order_row) : bool := true.

Definition update_order_scheduled_time (now : Z) (client_order_id : string) (scheduled_time : Z)
    : M db (option order_row) :=
  transaction (update_order client_order_id always (set_links now (fun l =>
    {| o_parent_order_id := o_parent_order_id l; o_slice_num := o_slice_num l;
       o_total_slices := o_total_slices l; o_scheduled_time := Some scheduled_time;
       o_replaced_order_id := o_replaced_order_id l |}))).

(** [COALESCE(new, old)] *)
Definition coalesce {A} (new old : option A) : option A :=
  match new with Some a => Some a | None => old end.

(** Only the status column changes. *)
Definition set_status (status : string) (e : order_exec) : order_exec :=
  {| o_status := status; o_broker_order_id := o_broker_order_id e;
     o_error_message := o_error_message e; o_submitted_at := o_submitted_at e;
     o_filled_at := o_filled_at e; o_filled_qty := o_filled_qty e;
     o_filled_avg_price := o_filled_avg_price e; o_last_updated_at := o_last_updated_at e;
     o_is_terminal := o_is_terminal e; o_source_priority := o_source_priority e;
     o_status_rank := o_status_rank e; o_broker_event_id := o_broker_event_id e |}.

Definition pending_child (parent_order_id : string) (r : order_row) : bool :=
  is_child_of parent_order_id r && bool_decide (o_status (o_exec r) = "pending_new").

(** One UPDATE over all pending children; its row count. *)
Definition cancel_pending_slices (now : Z) (parent_order_id : string) : M db nat :=
  s ← get_state;
  _ ← put_state (set_orders (fmap (fun r =>
        if pending_child parent_order_id r then set_exec now (set_status "canceled") r else r)) s);
  mret (length (select_orders (pending_child parent_order_id) s)).

Definition update_order_status (now : Z) (client_order_id status : string)
    (broker_order_id : option string) (filled_qty filled_avg_price : option decimal)
    (error_message : option string) : M db (option order_row) :=
  let status_rank := status_rank_for status in
  let is_terminal := is_terminal_status status in
  let filled_at := if bool_decide (status = "filled") && bool_decide (is_Some filled_qty)
                   then Some now else None in
  transaction (update_order client_order_id always (set_exec now (fun e =>
    {| o_status := status; o_broker_order_id := coalesce broker_order_id (o_broker_order_id e);
       o_error_message := error_message; o_submitted_at := o_submitted_at e;
       o_filled_at := coalesce filled_at (o_filled_at e);
       o_filled_qty := coalesce filled_qty (o_filled_qty e);
       o_filled_avg_price := coalesce filled_avg_price (o_filled_avg_price e);
       o_last_updated_at := Some now; o_is_terminal := is_terminal;
       o_source_priority := o_source_priority e; o_status_rank := Some status_rank;
       o_broker_event_id := o_broker_event_id e |}))).

(** *** Conflict resolution *)

(** A broker update: the arguments of [update_order_status_cas]. *)
Record cas_update : Type := {
  u_status : string;
  u_broker_updated_at : Z;
  u_status_rank : Z;
  u_source_priority : Z;
  u_filled_qty : option decimal;
  u_filled_avg_price : option decimal;
  u_filled_at : option Z;
  u_broker_order_id : option string;
  u_broker_event_id : option string;
  u_error_message : option string;
}.

Definition new_filled_qty (u : cas_update) : decimal := default dzero (u_filled_qty u).

(** [GREATEST] ignores NULL. *)
Definition greatest (a : option decimal) (b : decimal) : decimal :=
  match a with Some x => if dltb x b then b else x | None => b end.

(** Comparisons with a NULL column are not true. *)
Definition sql_cmp {A} (f : A -> bool) (o : option A) : bool :=
  match o with Some a => f a | None => false end.

Definition cas_unlocked (e : order_exec) : bool :=
  negb (o_is_terminal e) || bool_decide (o_status e = "filled").

(** The timestamp, rank, quantity and priority part of the WHERE clause. *)
Definition cas_newer (u : cas_update) (e : order_exec) : bool :=
  let same_time := sql_cmp (Z.eqb (u_broker_updated_at u)) (o_last_updated_at e) in
  let same_rank := sql_cmp (Z.eqb (u_status_rank u)) (o_status_rank e) in
  bool_decide (o_last_updated_at e = None)
  || sql_cmp (fun t => t <? u_broker_updated_at u) (o_last_updated_at e)
  || (same_time && sql_cmp (fun r => r <? u_status_rank u) (o_status_rank e))
  || (same_time && same_rank && sql_cmp (fun q => dltb q (new_filled_qty u)) (o_filled_qty e))
  || (same_time && same_rank && sql_cmp (fun q => deqb q (new_filled_qty u)) (o_filled_qty e)
      && (u_source_priority u <? o_source_priority e)).

Definition cas_apply (u : cas_update) (e : order_exec) : order_exec :=
  {| o_status := u_status u;
     o_broker_order_id := coalesce (u_broker_order_id u) (o_broker_order_id e);
     o_error_message := u_error_message u; o_submitted_at := o_submitted_at e;
     o_filled_at := coalesce (u_filled_at u) (o_filled_at e);
     o_filled_qty := Some (greatest (o_filled_qty e) (new_filled_qty u));
     o_filled_avg_price := coalesce (u_filled_avg_price u) (o_filled_avg_price e);
     o_last_updated_at := Some (u_broker_updated_at u);
     o_is_terminal := is_terminal_status (u_status u);
     o_source_priority := u_source_priority u; o_status_rank := Some (u_status_rank u);
     o_broker_event_id := coalesce (u_broker_event_id u) (o_broker_event_id e) |}.

Definition update_order_status_cas (now : Z) (client_order_id : string) (u : cas_update)
    : M db (option order_row) :=
  update_order client_order_id (fun r => cas_unlocked (o_exec r) && cas_newer u (o_exec r))
    (set_exec now (cas_apply u)).

Definition get_order_for_update (client_order_id : string) : M db (option order_row) :=
  get_order_by_client_id client_order_id.

Definition update_order_status_with_conn (now : Z) (client_order_id status : string)
    (filled_qty : option decimal) (filled_avg_price : decimal) (filled_at : option Z)
    (broker_order_id : option string) (broker_updated_at status_rank source_priority : option Z)
    (broker_event_id : option string) : M db (option order_row) :=
  match broker_updated_at, status_rank, source_priority with
  | Some t, Some k, Some p =>
      update_order_status_cas now client_order_id
        {| u_status := status; u_broker_updated_at := t; u_status_rank := k; u_source_priority := p;
           u_filled_qty := filled_qty; u_filled_avg_price := Some filled_avg_price;
           u_filled_at := filled_at; u_broker_order_id := broker_order_id;
           u_broker_event_id := broker_event_id; u_error_message := None |}
  | _, _, _ =>
      update_order client_order_id always (set_exec now (fun e =>
        {| o_status := status; o_broker_order_id := coalesce broker_order_id (o_broker_order_id e);
           o_error_message := o_error_message e; o_submitted_at := o_submitted_at e;
           o_filled_at := coalesce filled_at (o_filled_at e); o_filled_qty := filled_qty;
           o_filled_avg_price := Some filled_avg_price; o_last_updated_at := o_last_updated_at e;
           o_is_terminal := o_is_terminal e; o_source_priority := o_source_priority e;
           o_status_rank := o_status_rank e; o_broker_event_id := o_broker_event_id e |}))
  end.

Definition update_order_status_simple_with_conn (now : Z) (client_order_id status : string)
    : M db (option order_row) :=
  update_order client_order_id always (set_exec now (fun e =>
    {| o_status := status; o_broker_order_id := o_broker_order_id e;
       o_error_message := o_error_message e; o_submitted_at := o_submitted_at e;
       o_filled_at := o_filled_at e; o_filled_qty := o_filled_qty e;
       o_filled_avg_price := o_filled_avg_price e; o_last_updated_at := o_last_updated_at e;
       o_is_terminal := is_terminal_status status; o_source_priority := o_source_priority e;
       o_status_rank := Some (status_rank_for status); o_broker_event_id := o_broker_event_id e |})).

(** ** Order modifications *)

Definition get_modification_by_idempotency_key (original_client_order_id idempotency_key : string)
    : M db (option (string * modification_row)) :=
  reads (fun s => head (map_to_list (filter (fun p : string * modification_row =>
    mod_original_client_order_id p.2 = original_client_order_id /\
    mod_idempotency_key p.2 = idempotency_key) (db_modifications s)))).

(** Sequence numbers used for an order. *)
Definition modification_seqs (client_order_id : string) (s : db) : list Z :=
  (fun p : string * modification_row => mod_seq p.2) <$>
    map_to_list (filter (fun p : string * modification_row =>
      mod_original_client_order_id p.2 = client_order_id) (db_modifications s)).

(** [COALESCE(MAX(modification_seq), 0) + 1] *)
Definition get_next_modification_seq (client_order_id : string) : M db Z :=
  reads (fun s => match modification_seqs client_order_id s with
                  | [] => 1
                  | x :: l => foldr Z.max x l + 1
                  end).

(** [modification_id] stands for [gen_random_uuid()]. *)
Definition insert_pending_modification (now : Z) (modification_id original_client_order_id
    new_client_order_id : string) (original_broker_order_id : option string) (modification_seq : Z)
    (idempotency_key status modified_by : string) (reason : option string)
    (changes : modification_changes)
    : M db string :=
  s ← get_state;
  if bool_decide (is_Some (db_modifications s !! modification_id))
     || negb (bool_decide (is_Some (db_orders s !! original_client_order_id)))
     || bool_decide (map_Exists (fun _ m => mod_original_client_order_id m = original_client_order_id /\
          (mod_seq m = modification_seq \/ mod_idempotency_key m = idempotency_key)) (db_modifications s))
  then raise (IntegrityError "order_modifications")
  else
    _ ← modify (set_modifications (insert modification_id
      {| mod_original_client_order_id := original_client_order_id;
         mod_new_client_order_id := new_client_order_id;
         mod_original_broker_order_id := original_broker_order_id; mod_new_broker_order_id := None;
         mod_seq := modification_seq; mod_idempotency_key := idempotency_key; mod_status := status;
         mod_error_message := None; mod_modified_at := now; mod_modified_by := modified_by;
         mod_reason := reason; mod_changes := changes |}));
    mret modification_id.

Definition modified_le (a b : string * modification_row) : Prop := mod_modified_at a.2 <= mod_modified_at b.2.
#[export] Instance modified_le_dec : RelDecision modified_le.
Proof. intros a b. unfold modified_le. apply _. Defined.

Definition get_pending_modifications_older_than (cutoff : Z) : M db (list (string * modification_row)) :=
  reads (fun s => merge_sort modified_le (map_to_list (filter (fun p : string * modification_row =>
    mod_status p.2 = "pending" /\ mod_modified_at p.2 < cutoff) (db_modifications s)))).

Definition set_mod_status (now : Z) (status : string) (error_message : option string)
    (new_broker_order_id : option string) (new_client_order_id : string) (m : modification_row)
    : modification_row :=
  {| mod_original_client_order_id := mod_original_client_order_id m;
     mod_new_client_order_id := new_client_order_id;
     mod_original_broker_order_id := mod_original_broker_order_id m;
     mod_new_broker_order_id := new_broker_order_id; mod_seq := mod_seq m;
     mod_idempotency_key := mod_idempotency_key m; mod_status := status;
     mod_error_message := error_message; mod_modified_at := now; mod_modified_by := mod_modified_by m;
     mod_reason := mod_reason m; mod_changes := mod_changes m |}.

Definition finalize_modification (now : Z) (modification_id : string)
    (new_broker_order_id : option string) (status : string) (new_client_order_id : option string)
    : M db unit :=
  modify (set_modifications (alter (fun m => set_mod_status now status None new_broker_order_id
    (default (mod_new_client_order_id m) new_client_order_id) m) modification_id)).

Definition update_modification_status (now : Z) (modification_id status : string)
    (error_message : option string) : M db unit :=
  modify (set_modifications (alter (fun m => set_mod_status now status error_message
    (mod_new_broker_order_id m) (mod_new_client_order_id m) m) modification_id)).

(** ** Reconciliation state *)

Definition get_reconciliation_high_water_mark (name : string) : M db (option Z) :=
  reads (fun s => db_high_water_marks s !! name).

Definition set_reconciliation_high_water_mark (last_check_time : Z) (name : string) : M db unit :=
  modify (set_high_water_marks (insert name last_check_time)).

(** An INTEGER column holds 32 bits. *)
Definition int4 (n : Z) : result Z :=
  if (- 2 ^ 31 <=? n) && (n <? 2 ^ 31) then Ok n else Raise (ProgrammingError "integer out of range").

(** [estimated_notional] is DECIMAL(18,2): the stored value is rounded to
    cents, and a value of more than 18 digits raises. *)
Definition numeric_18_2 (d : decimal) : result decimal :=
  let c := if -2 <=? dexp d then scaled d (-2)
           else on_abs (fun n => round_half_up n (-2 - dexp d)) (coef d) in
  if 10 ^ 18 <=? Z.abs c then Raise (ProgrammingError "numeric field overflow") else Ok (Dec c (-2)).

Definition create_orphan_order (now : Z) (broker_order_id : string) (client_order_id : option string)
    (symbol strategy_id side : string) (qty : Z) (estimated_notional : decimal) (status : string)
    : M db unit :=
  qty ← lift (int4 qty);
  notional ← lift (numeric_18_2 estimated_notional);
  s ← get_state;
  match db_orphan_orders s !! broker_order_id with
  | Some _ => mret tt
  | None => modify (set_orphan_orders (insert broker_order_id
      {| orphan_client_order_id := client_order_id; orphan_symbol := symbol;
         orphan_strategy_id := strategy_id; orphan_side := side; orphan_qty := qty;
         orphan_estimated_notional := notional; orphan_status := status;
         orphan_detected_at := now; orphan_resolved_at := None |}))
  end.

Definition update_orphan_order_status (broker_order_id status : string) (resolved_at : option Z)
    : M db unit :=
  modify (set_orphan_orders (alter (fun o =>
    {| orphan_client_order_id := orphan_client_order_id o; orphan_symbol := orphan_symbol o;
       orphan_strategy_id := orphan_strategy_id o; orphan_side := orphan_side o;
       orphan_qty := orphan_qty o; orphan_estimated_notional := orphan_estimated_notional o;
       orphan_status := status; orphan_detected_at := orphan_detected_at o;
       orphan_resolved_at := coalesce resolved_at (orphan_resolved_at o) |}) broker_order_id)).

Definition orphan_exposed (symbol strategy_id : string) (o : orphan_row) : bool :=
  bool_decide (orphan_resolved_at o = None) && bool_decide (orphan_symbol o = symbol)
  && one_of (orphan_strategy_id o) [strategy_id; "external"].

(** [COALESCE(SUM(estimated_notional), 0)]: NUMERIC addition is exact. *)
Definition get_orphan_exposure (symbol strategy_id : string) : M db decimal :=
  reads (fun s => foldr num_add dzero
    ((fun p : string * orphan_row => orphan_estimated_notional p.2) <$>
       map_to_list (filter (fun p : string * orphan_row => orphan_exposed symbol strategy_id p.2 = true)
                           (db_orphan_orders s)))).

(** A row that satisfies the constraints is inserted. *)
Lemma insert_order_run id r s :
  db_orders s !! id = None -> order_valid (db_orders s) id r = true ->
  insert_order id r s = (Ok r, set_orders (insert id r) s).
Proof. intros H1 H2. unfold insert_order, mbind, M_bind, get_state. by rewrite H1, H2. Qed.
