(* ===== verification/OrderCas.v ===== *)
(** * Conflict resolution of broker updates (update_order_status_cas)

    The constraints of the [orders] table as an invariant, the WHERE clause of
    [update_order_status_cas] as an order on updates, and what sequences of
    updates (webhooks and reconciliation, in any order, repeated) lead to. *)

From S2P Require Import Prelude PyDecimal PyText OrderStatus OrderSchema GatewayDb.
From Stdlib Require Import QArith.

Open Scope Z_scope.

(** ** The constraints as an invariant *)

Definition orders_wf (orders : gmap string order_row) : Prop :=
  map_Forall (fun id r => order_valid orders id r = true) orders.

Definition positions_wf (s : db) : Prop := map_Forall (fun _ p => position_checks p = true) (db_positions s).

Definition trades_wf (s : db) : Prop :=
  map_Forall (fun _ t => trade_checks t = true /\ is_Some (db_orders s !! t_client_order_id t)) (db_trades s).

Definition slices_wf (s : db) : Prop :=
  map_Forall (fun k r => 0 <= k.2 /\ 0 < ss_qty r /\ is_Some (db_orders s !! k.1)) (db_slice_schedules s).

Definition db_wf (s : db) : Prop :=
  orders_wf (db_orders s) /\ positions_wf s /\ trades_wf s /\ slices_wf s.

Lemma same_some_sym a b : same_some a b = same_some b a.
Proof. destruct a, b; simpl; try done. apply bool_decide_ext. naive_solver. Qed.

Lemma rows_clash_sym r1 r2 : rows_clash r1 r2 = rows_clash r2 r1.
Proof.
  unfold rows_clash. rewrite (same_some_sym (o_broker_order_id _)), (same_some_sym (o_parent_order_id _)).
  f_equal. destruct (o_slice_num (o_links r1)) as [a|], (o_slice_num (o_links r2)) as [b|]; simpl;
    rewrite ?andb_false_r, ?andb_true_r; try done.
  all: destruct (same_some _ _); simpl; try done.
  all: try (apply bool_decide_ext; naive_solver).
Qed.

Lemma order_valid_spec orders id r :
  order_valid orders id r = true <->
  order_checks r = true /\
  (forall id' r', orders !! id' = Some r' -> id' = id \/ rows_clash r r' = false) /\
  refs_ok orders id r = true.
Proof.
  unfold order_valid, unique_in. rewrite !andb_true_iff, bool_decide_eq_true.
  unfold map_Forall. tauto.
Qed.

Lemma ref_ok_mono (o1 o2 : gmap string order_row) id o :
  (forall k, is_Some (o1 !! k) -> is_Some (o2 !! k)) -> ref_ok o1 id o = true -> ref_ok o2 id o = true.
Proof.
  intros Hm. unfold ref_ok. destruct o as [p|]; simpl; [|done].
  rewrite !orb_true_iff, !bool_decide_eq_true. naive_solver.
Qed.

Lemma refs_ok_mono (o1 o2 : gmap string order_row) id r :
  (forall k, is_Some (o1 !! k) -> is_Some (o2 !! k)) -> refs_ok o1 id r = true -> refs_ok o2 id r = true.
Proof.
  intros Hm. unfold refs_ok. rewrite !andb_true_iff. intros [H1 H2].
  split; by eapply ref_ok_mono.
Qed.

Lemma is_Some_insert {A} (m : gmap string A) id r k : is_Some (m !! k) -> is_Some (<[id := r]> m !! k).
Proof. intros H. destruct (decide (id = k)) as [->|]; [rewrite lookup_insert_eq; eauto|by rewrite lookup_insert_ne]. Qed.

(** Writing a valid row, new or in place of an old one, keeps the table valid. *)
Lemma orders_wf_insert orders id r :
  orders_wf orders -> order_valid orders id r = true -> orders_wf (<[id := r]> orders).
Proof.
  intros Hwf Hr. apply order_valid_spec in Hr as (Hc & Hu & Href).
  intros id1 r1 H1. apply order_valid_spec.
  destruct (decide (id1 = id)) as [->|Hne].
  - rewrite lookup_insert_eq in H1. injection H1 as <-. split; [done|]. split.
    + intros id' r' H'. destruct (decide (id' = id)) as [->|Hn]; [by left|right].
      rewrite lookup_insert_ne in H' by done. by destruct (Hu _ _ H').
    + eapply refs_ok_mono; [|exact Href]. intros. by apply is_Some_insert.
  - rewrite lookup_insert_ne in H1 by done.
    destruct (proj1 (order_valid_spec _ _ _) (Hwf _ _ H1)) as (Hc1 & Hu1 & Href1).
    split; [done|]. split.
    + intros id' r' H'. destruct (decide (id' = id)) as [->|Hn].
      * rewrite lookup_insert_eq in H'. injection H' as <-. right.
        rewrite rows_clash_sym. destruct (Hu _ _ H1); [done|done].
      * rewrite lookup_insert_ne in H' by done. by apply Hu1.
    + eapply refs_ok_mono; [|exact Href1]. intros. by apply is_Some_insert.
Qed.

Lemma db_wf_set_orders s id r :
  db_wf s -> order_valid (db_orders s) id r = true -> db_wf (set_orders (insert id r) s).
Proof.
  intros (Ho & Hp & Ht & Hs) Hr. split; [by apply orders_wf_insert|]. split; [exact Hp|]. split.
  - intros k t Hk. destruct (Ht k t Hk). split; [done|]. by apply is_Some_insert.
  - intros k t Hk. destruct (Hs k t Hk) as (? & ? & ?). split_and!; [done..|]. by apply is_Some_insert.
Qed.

Lemma insert_order_preserves id r : preserves db_wf (insert_order id r).
Proof.
  intros s Hs. unfold insert_order. run_monad.
  destruct (db_orders s !! id); [done|]. destruct (order_valid _ _ _) eqn:E; [|done].
  by apply db_wf_set_orders.
Qed.

Lemma update_order_preserves id cond f : preserves db_wf (update_order id cond f).
Proof.
  intros s Hs. unfold update_order. run_monad.
  destruct (db_orders s !! id) as [r|]; [|done]. destruct (cond r); [|done].
  destruct (order_valid _ _ _) eqn:E; [|done]. by apply db_wf_set_orders.
Qed.

#[export] Hint Resolve insert_order_preserves update_order_preserves : pres.

(** Rows that differ in their status only are interchangeable for the constraints. *)
Lemma order_valid_status orders now st id r :
  order_valid orders id (set_exec now (set_status st) r) = order_valid orders id r.
Proof. done. Qed.

Lemma orders_wf_fmap (orders : gmap string order_row) f :
  (forall r, order_checks (f r) = order_checks r) ->
  (forall r1 r2, rows_clash (f r1) (f r2) = rows_clash r1 r2) ->
  (forall o id r, refs_ok o id (f r) = refs_ok o id r) ->
  orders_wf orders -> orders_wf (f <$> orders).
Proof.
  intros H1 H2 H3 Hwf id r Hr. rewrite lookup_fmap in Hr.
  destruct (orders !! id) as [r0|] eqn:E; [|done]. injection Hr as <-.
  destruct (proj1 (order_valid_spec _ _ _) (Hwf _ _ E)) as (Hc & Hu & Href).
  apply order_valid_spec. split; [by rewrite H1|]. split.
  - intros id' r' H'. rewrite lookup_fmap in H'. destruct (orders !! id') as [r1|] eqn:E'; [|done].
    injection H' as <-. rewrite H2. by apply Hu.
  - rewrite H3. eapply refs_ok_mono; [|exact Href]. intros k. rewrite lookup_fmap. by destruct (orders !! k); [eexists|intros [? ?]].
Qed.

Lemma cancel_pending_slices_preserves now p : preserves db_wf (cancel_pending_slices now p).
Proof.
  intros s (Ho & Hp & Ht & Hs). unfold cancel_pending_slices. run_monad.
  assert (Hk : forall f k, is_Some (db_orders s !! k) -> is_Some ((f <$> db_orders s : gmap string order_row) !! k))
    by (intros f k; rewrite lookup_fmap; by intros [? ->]; eexists).
  split; [|split; [exact Hp|split]].
  - apply orders_wf_fmap; [..|exact Ho]; intros; by repeat destruct (pending_child p _).
  - intros k t H. destruct (Ht k t H). split; [done|]. by apply Hk.
  - intros k t H. destruct (Hs k t H) as (? & ? & ?). split_and!; [done..|]. by apply Hk.
Qed.

Lemma create_slice_schedule_preserves p i t q st : preserves db_wf (create_slice_schedule p i t q st).
Proof.
  intros s Hwf. unfold create_slice_schedule. run_monad.
  destruct (bool_decide _ || negb _) eqn:E; [done|]. simpl. boolify.
  destruct Hwf as (Ho & Hp & Ht & Hs). split_and!; [done|exact Hp|exact Ht|].
  intros k r Hk. simpl in Hk. destruct (decide (k = (p, i))) as [->|Hn].
  - rewrite lookup_insert_eq in Hk. injection Hk as <-. simpl. split_and!; [lia|lia|done].
  - rewrite lookup_insert_ne in Hk by done. by apply Hs.
Qed.

#[export] Hint Resolve cancel_pending_slices_preserves create_slice_schedule_preserves : pres.

(** ** The WHERE clause as an order *)

(** Timestamp, status rank, quantity, then source: a lower priority number wins ties. *)
Definition older (t k : Z) (q : decimal) (p : Z) (u : cas_update) : Prop :=
  t < u_broker_updated_at u \/
  (t = u_broker_updated_at u /\
    (k < u_status_rank u \/
     (k = u_status_rank u /\
       ((dval q < dval (new_filled_qty u))%Q \/
        ((dval q == dval (new_filled_qty u))%Q /\ u_source_priority u < p))))).

Lemma cas_newer_older u e t k q :
  o_last_updated_at e = Some t -> o_status_rank e = Some k -> o_filled_qty e = Some q ->
  cas_newer u e = true <-> older t k q (o_source_priority e) u.
Proof.
  intros Et Ek Eq. unfold cas_newer, older. cbv zeta. rewrite Et, Ek, Eq. cbn [sql_cmp].
  rewrite (bool_decide_eq_false_2 (Some t = None)) by done. rewrite orb_false_l.
  destruct (Z.ltb_spec t (u_broker_updated_at u)); [naive_solver|].
  destruct (Z.eqb_spec (u_broker_updated_at u) t) as [->|]; [|simpl; naive_solver lia].
  destruct (Z.ltb_spec k (u_status_rank u)); [naive_solver|].
  destruct (Z.eqb_spec (u_status_rank u) k) as [->|]; [|simpl; naive_solver lia].
  destruct (dltb_spec q (new_filled_qty u)); [naive_solver|].
  destruct (deqb_spec q (new_filled_qty u)); [|simpl; naive_solver lia].
  destruct (Z.ltb_spec (u_source_priority u) (o_source_priority e)); simpl; naive_solver lia.
Qed.

Lemma greatest_ge q d : (dval d <= dval (greatest q d))%Q.
Proof.
  unfold greatest. destruct q as [x|]; [|apply Qle_refl].
  destruct (dltb_spec x d) as [H|H]; [apply Qle_refl|by apply Qnot_lt_le].
Qed.

Lemma greatest_old q d : (dval q <= dval (greatest (Some q) d))%Q.
Proof. simpl. destruct (dltb_spec q d) as [H|H]; [by apply Qlt_le_weak|apply Qle_refl]. Qed.

Lemma cas_apply_not_newer u e : cas_newer u (cas_apply u e) = false.
Proof.
  apply not_true_iff_false. intros H. apply (proj1 (cas_newer_older _ (cas_apply u e) _ _ _ eq_refl eq_refl eq_refl)) in H.
  simpl in H. pose proof (greatest_ge (o_filled_qty e) (new_filled_qty u)) as Hg.
  destruct H as [|[_ [|[_ [H|[_ H]]]]]]; [lia|lia|by apply Qlt_not_le in H|lia].
Qed.

(** ** Running updates *)

Definition cas_row (now : Z) (u : cas_update) (r : order_row) : order_row :=
  if cas_unlocked (o_exec r) && cas_newer u (o_exec r) then set_exec now (cas_apply u) r else r.

Lemma cas_run now id u s r :
  db_orders s !! id = Some r ->
  update_order_status_cas now id u s =
  (if cas_unlocked (o_exec r) && cas_newer u (o_exec r) then
     if order_valid (db_orders s) id (set_exec now (cas_apply u) r)
     then (Ok (Some (set_exec now (cas_apply u) r)), set_orders (insert id (set_exec now (cas_apply u) r)) s)
     else (Raise (IntegrityError "orders"), s)
   else (Ok None, s)).
Proof.
  intros Hr. unfold update_order_status_cas, update_order. run_monad. rewrite Hr.
  destruct (_ && _); [|done]. by destruct (order_valid _ _ _).
Qed.

(** The broker's updates of one order, delivered one after the other. *)
Definition deliver (id : string) (us : list (Z * cas_update)) (s : db) : db :=
  foldl (fun s p => snd (update_order_status_cas p.1 id p.2 s)) s us.

(** An update that no constraint rejects on this row. *)
Definition fits (r : order_row) (u : cas_update) : Prop :=
  coalesce (u_broker_order_id u) (o_broker_order_id (o_exec r)) = o_broker_order_id (o_exec r) /\
  opt_check dpositive (u_filled_avg_price u) = true /\ opt_check (dleb dzero) (u_filled_qty u) = true.

Lemma greatest_nonneg q d :
  opt_check (dleb dzero) q = true -> dleb dzero d = true -> dleb dzero (greatest q d) = true.
Proof. unfold greatest. destruct q as [x|]; simpl; [|done]. by destruct (dltb x d). Qed.

Lemma cas_valid orders now id r u :
  orders_wf orders -> orders !! id = Some r -> fits r u ->
  order_valid orders id (set_exec now (cas_apply u) r) = true.
Proof.
  intros Hwf Hr (Hb & Hp & Hq). destruct (proj1 (order_valid_spec _ _ _) (Hwf _ _ Hr)) as (Hc & Hu & Href).
  apply order_valid_spec. split; [|split].
  - unfold order_checks in *. cbn -[one_of opt_check greatest dpositive] in *. boolify.
    repeat (apply andb_true_iff; split); try done; try (by apply Z.ltb_lt).
    + simpl. apply greatest_nonneg; [done|]. unfold new_filled_qty. by destruct (u_filled_qty u).
    + unfold coalesce. by destruct (u_filled_avg_price u).
  - intros id' r' H'. destruct (Hu _ _ H') as [|Hcl]; [by left|right].
    unfold rows_clash in *. cbn [set_exec o_exec o_links cas_apply o_broker_order_id]. by rewrite Hb.
  - done.
Qed.

Lemma fits_cas_row now u v r : fits r u -> fits r v -> fits (cas_row now u r) v.
Proof.
  intros (Hb & _) (Hb' & Hp & Hq). unfold cas_row. destruct (_ && _); [|done].
  split; [|done]. cbn [set_exec o_exec cas_apply o_broker_order_id]. by rewrite Hb.
Qed.

Lemma deliver_cons id now u us s : deliver id ((now, u) :: us) s =
  deliver id us (snd (update_order_status_cas now id u s)).
Proof. done. Qed.

Lemma set_orders_id s id r : db_orders s !! id = Some r -> set_orders (insert id r) s = s.
Proof. intros H. destruct s; unfold set_orders; simpl in *. by rewrite insert_id. Qed.

(** Delivery acts on the order's row only, by [cas_row]. *)
Lemma deliver_rows id us : forall s r,
  db_wf s -> db_orders s !! id = Some r -> Forall (fun p => fits r p.2) us ->
  let r' := foldl (fun r p => cas_row p.1 p.2 r) r us in
  deliver id us s = set_orders (insert id r') s /\ db_wf (deliver id us s).
Proof.
  induction us as [|[now u] us IH]; intros s r Hwf Hr Hfit.
  - simpl. by rewrite set_orders_id.
  - apply Forall_cons in Hfit as [Hu Hus]. cbn [foldl fst snd] in *. rewrite deliver_cons.
    assert (E : snd (update_order_status_cas now id u s) = set_orders (insert id (cas_row now u r)) s
                /\ db_wf (set_orders (insert id (cas_row now u r)) s)).
    { rewrite (cas_run now id u s r Hr). unfold cas_row. destruct (_ && _).
      - rewrite (cas_valid _ _ _ _ _ (proj1 Hwf) Hr Hu). simpl. split; [done|].
        apply db_wf_set_orders; [done|]. by apply cas_valid; [apply Hwf|..].
      - simpl. by rewrite set_orders_id. }
    destruct E as [-> Hwf'].
    destruct (IH (set_orders (insert id (cas_row now u r)) s) (cas_row now u r) Hwf') as [E' Hwf''].
    { simpl. by rewrite lookup_insert_eq. }
    { eapply Forall_impl; [exact Hus|]. intros p Hp. by apply fits_cas_row. }
    split; [|done]. rewrite E'. unfold set_orders; simpl. by rewrite insert_insert_eq.
Qed.

Definition rows_after (r : order_row) (us : list (Z * cas_update)) : order_row :=
  foldl (fun r p => cas_row p.1 p.2 r) r us.

(** What one update can do to a row. *)
Lemma cas_row_step now u r :
  let r' := cas_row now u r in
  o_core r' = o_core r /\ o_links r' = o_links r /\ o_metadata r' = o_metadata r /\
  (forall t, o_last_updated_at (o_exec r) = Some t ->
     exists t', o_last_updated_at (o_exec r') = Some t' /\ t <= t') /\
  (forall q, o_filled_qty (o_exec r) = Some q ->
     exists q', o_filled_qty (o_exec r') = Some q' /\ (dval q <= dval q')%Q).
Proof.
  cbv zeta. unfold cas_row. destruct (_ && _) eqn:E;
    [|split_and!; [done..| |]; intros x Hx; exists x; (split; [done|]); [lia|apply Qle_refl]].
  split_and!; [done..| |].
  - intros t Ht. exists (u_broker_updated_at u). split; [done|].
    apply andb_true_iff in E as [_ E]. unfold cas_newer in E. rewrite Ht in E. cbn [sql_cmp] in E.
    rewrite (bool_decide_eq_false_2 (Some t = None)) in E by done. rewrite orb_false_l in E.
    destruct (Z.ltb_spec t (u_broker_updated_at u)); [lia|].
    destruct (Z.eqb_spec (u_broker_updated_at u) t); [lia|done].
  - intros q Hq. eexists. split; [reflexivity|]. rewrite Hq. apply greatest_old.
Qed.

Lemma rows_after_app r us vs : rows_after r (us ++ vs) = rows_after (rows_after r us) vs.
Proof. apply foldl_app. Qed.

Lemma rows_after_lookup id us s r :
  db_wf s -> db_orders s !! id = Some r -> Forall (fun p => fits r p.2) us ->
  db_orders (deliver id us s) !! id = Some (rows_after r us).
Proof. intros Hwf Hr Hf. destruct (deliver_rows id us s r Hwf Hr Hf) as [-> _]. apply lookup_insert_eq. Qed.

(** Rows that no update can touch, and rows that an update has overtaken. *)
Lemma cas_row_locked now u r : cas_unlocked (o_exec r) = false -> cas_row now u r = r.
Proof. intros H. unfold cas_row. by rewrite H. Qed.

Lemma cas_row_late now u r t :
  o_last_updated_at (o_exec r) = Some t -> u_broker_updated_at u < t -> cas_row now u r = r.
Proof.
  intros Ht Hlt. unfold cas_row, cas_newer. rewrite Ht. cbn [sql_cmp].
  rewrite (bool_decide_eq_false_2 (Some t = None)) by done.
  destruct (Z.ltb_spec t (u_broker_updated_at u)); [lia|].
  destruct (Z.eqb_spec (u_broker_updated_at u) t); [lia|]. simpl. by rewrite andb_false_r.
Qed.

Definition before (t : Z) (o : option Z) : Prop := match o with None => True | Some t' => t' < t end.

Lemma cas_row_early now u r :
  cas_unlocked (o_exec r) = true -> before (u_broker_updated_at u) (o_last_updated_at (o_exec r)) ->
  cas_row now u r = set_exec now (cas_apply u) r.
Proof.
  intros Hl Hb. unfold cas_row, cas_newer. rewrite Hl. destruct (o_last_updated_at (o_exec r)) as [t|].
  - cbn [sql_cmp before] in *. rewrite (bool_decide_eq_false_2 (Some t = None)) by done.
    by destruct (Z.ltb_spec t (u_broker_updated_at u)); [|lia].
  - by rewrite bool_decide_eq_true_2.
Qed.

(** A status after which the row stays open for updates. *)
Definition leaves_open (u : cas_update) : Prop :=
  u_status u = "filled" \/ is_terminal_status (u_status u) = false.

Lemma cas_row_open now u r :
  leaves_open u -> cas_unlocked (o_exec r) = true -> cas_unlocked (o_exec (cas_row now u r)) = true.
Proof.
  intros Hu Hr. unfold cas_row. rewrite Hr. destruct (cas_newer _ _); simpl; [|done].
  unfold cas_unlocked. simpl. destruct Hu as [-> | ->]; [|done].
  by rewrite bool_decide_eq_true_2, orb_true_r.
Qed.

Lemma cas_row_before now u r t :
  u_broker_updated_at u < t -> before t (o_last_updated_at (o_exec r)) ->
  before t (o_last_updated_at (o_exec (cas_row now u r))).
Proof. intros Hu Hb. unfold cas_row. by destruct (_ && _). Qed.

Lemma rows_after_late r t us :
  o_last_updated_at (o_exec r) = Some t -> Forall (fun p => u_broker_updated_at p.2 < t) us ->
  rows_after r us = r.
Proof.
  intros Ht. induction 1 as [|[now u] us Hu _ IH]; [done|]. unfold rows_after in *. simpl in *.
  by rewrite (cas_row_late now u r t).
Qed.

Lemma rows_after_early us t : forall r,
  cas_unlocked (o_exec r) = true -> before t (o_last_updated_at (o_exec r)) ->
  Forall (fun p => u_broker_updated_at p.2 < t /\ leaves_open p.2) us ->
  cas_unlocked (o_exec (rows_after r us)) = true /\
  before t (o_last_updated_at (o_exec (rows_after r us))).
Proof.
  induction us as [|[now u] us IH]; intros r Hl Hb HF; [done|].
  apply Forall_cons in HF as [[Ht Ho] HF]. apply IH; [by apply cas_row_open|by apply cas_row_before|done].
Qed.

(** ** Properties *)


(** Progress is never lost: over any deliveries the broker timestamp and the
    filled quantity of an order only grow, its parameters, links and fills are untouched,
    and no other row, position or trade changes. *)
Theorem deliver_monotone id us s r :
  db_wf s -> db_orders s !! id = Some r -> Forall (fun p => fits r p.2) us ->
  exists r', deliver id us s = set_orders (insert id r') s /\
    o_core r' = o_core r /\ o_links r' = o_links r /\ o_metadata r' = o_metadata r /\
    (forall t, o_last_updated_at (o_exec r) = Some t ->
       exists t', o_last_updated_at (o_exec r') = Some t' /\ t <= t') /\
    (forall q, o_filled_qty (o_exec r) = Some q ->
       exists q', o_filled_qty (o_exec r') = Some q' /\ (dval q <= dval q')%Q).
Proof.
  intros Hwf Hr Hf. exists (rows_after r us). split; [by apply deliver_rows|]. clear Hf Hr.
  revert r. induction us as [|[now u] us IH]; intros r.
  { split_and!; [done..| |]; intros x Hx; exists x; (split; [done|]); [lia|apply Qle_refl]. }
  change (rows_after r ((now, u) :: us)) with (rows_after (cas_row now u r) us).
  destruct (IH (cas_row now u r)) as (E1 & E2 & E3 & Ht & Hq).
  destruct (cas_row_step now u r) as (F1 & F2 & F3 & Ht' & Hq').
  split_and!; [by rewrite E1|by rewrite E2|by rewrite E3| |].
  - intros t H. destruct (Ht' t H) as (t1 & H1 & L1). destruct (Ht t1 H1) as (t2 & H2 & L2).
    exists t2. split; [done|lia].
  - intros q H. destruct (Hq' q H) as (q1 & H1 & L1). destruct (Hq q1 H1) as (q2 & H2 & L2).
    exists q2. split; [done|]. by etransitivity.
Qed.

(** Redelivery is harmless: delivering an update again, right away, is skipped. *)
Theorem redelivery_skipped now now' id u s r :
  db_wf s -> db_orders s !! id = Some r -> fits r u ->
  let s' := deliver id [(now, u)] s in
  cas_unlocked (o_exec r) && cas_newer u (o_exec r) = true ->
  update_order_status_cas now' id u s' = (Ok None, s').
Proof.
  intros Hwf Hr Hf s' Hn.
  assert (Hr' : db_orders s' !! id = Some (set_exec now (cas_apply u) r)).
  { unfold s'. rewrite (rows_after_lookup id [(now, u)] s r Hwf Hr) by (constructor; [exact Hf|constructor]).
    unfold rows_after. simpl. unfold cas_row. by rewrite Hn. }
  rewrite (cas_run _ _ _ _ _ Hr'). cbn [set_exec o_exec]. rewrite cas_apply_not_newer. by rewrite andb_false_r.
Qed.

(** Terminal lock: once an order is canceled, expired, rejected (any
    terminal status but 'filled'), no update ever changes it again. *)
Theorem terminal_lock id us s r :
  db_orders s !! id = Some r -> o_is_terminal (o_exec r) = true -> o_status (o_exec r) <> "filled" ->
  deliver id us s = s /\
  Forall (fun p => update_order_status_cas p.1 id p.2 s = (Ok None, s)) us.
Proof.
  intros Hr Ht Hs.
  assert (Hl : cas_unlocked (o_exec r) = false)
    by (unfold cas_unlocked; rewrite Ht; by rewrite bool_decide_eq_false_2).
  assert (Hstep : forall now u, update_order_status_cas now id u s = (Ok None, s))
    by (intros now u; rewrite (cas_run now id u s r Hr); by rewrite Hl).
  split; [|by apply Forall_true].
  induction us as [|[now u] us IH]; [done|]. rewrite deliver_cons, Hstep. exact IH.
Qed.

(** The lock does not cover 'filled': a filled order goes back to an active
    status when an update with a newer timestamp says so, although the
    documentation of [update_order_status_cas] says a terminal order cannot be reverted to an
    active state. *)
Theorem filled_can_reopen now id u s r :
  db_wf s -> db_orders s !! id = Some r -> fits r u ->
  o_status (o_exec r) = "filled" -> o_is_terminal (o_exec r) = true ->
  before (u_broker_updated_at u) (o_last_updated_at (o_exec r)) ->
  is_terminal_status (u_status u) = false ->
  exists r', update_order_status_cas now id u s = (Ok (Some r'), set_orders (insert id r') s) /\
    o_status (o_exec r') = u_status u /\ o_is_terminal (o_exec r') = false.
Proof.
  intros Hwf Hr Hf Hs _ Hb Ht. exists (set_exec now (cas_apply u) r).
  assert (Hl : cas_unlocked (o_exec r) = true)
    by (unfold cas_unlocked; rewrite Hs; by rewrite bool_decide_eq_true_2, orb_true_r).
  rewrite (cas_run now id u s r Hr), Hl, (cas_valid _ _ _ _ _ (proj1 Hwf) Hr Hf).
  pose proof (cas_row_early now u r Hl Hb) as He. unfold cas_row in He. rewrite Hl in He.
  split; [|by split]. destruct (cas_newer u (o_exec r)) eqn:E; [done|]. simpl in He.
  exfalso. apply (f_equal (fun r => o_last_updated_at (o_exec r))) in He. simpl in He.
  rewrite He in Hb. simpl in Hb. lia.
Qed.

(** The tie-breaking of the WHERE clause is the lexicographic order of broker time,
    status rank, filled quantity and source: on a row without NULLs it
    accepts exactly the updates that are newer in that order. *)
Theorem cas_where_lexicographic u e t k q :
  o_last_updated_at e = Some t -> o_status_rank e = Some k -> o_filled_qty e = Some q ->
  cas_newer u e = true <-> older t k q (o_source_priority e) u.
Proof. intros. by apply cas_newer_older. Qed.


(** [create_parent_order] cannot succeed: its query has one placeholder fewer than
    it passes parameters (fifteen columns, fourteen values), so every TWAP parent order fails with a
    programming error before the database is touched. *)
Theorem create_parent_order_always_fails now id g r n st m s :
  exists msg, create_parent_order now id g r n st m s = (Raise (ProgrammingError msg), s).
Proof. eexists. reflexivity. Qed.

Lemma select_fmap (cond cond' : order_row -> bool) (f : order_row -> order_row) (s : db) :
  (forall r, cond (f r) = cond' r) ->
  length (select_orders cond (set_orders (fmap f) s)) = length (select_orders cond' s).
Proof.
  intros H. unfold select_orders, OrderDetail. simpl. rewrite !length_map_to_list.
  assert (E : filter (fun p : string * order_row => cond p.2 = true) (f <$> db_orders s)
              = f <$> filter (fun p : string * order_row => cond' p.2 = true) (db_orders s)).
  { apply map_eq. intros id. apply option_eq. intros r.
    rewrite lookup_fmap, fmap_Some. setoid_rewrite map_lookup_filter_Some. rewrite lookup_fmap.
    split.
    - intros [E Hc]. destruct (db_orders s !! id) as [r0|]; [|done]. injection E as <-.
      exists r0. simpl in *. by rewrite H in Hc.
    - intros (r0 & [E Hc] & ->). rewrite E. simpl in *. by rewrite H. }
  by rewrite E, map_size_fmap.
Qed.

(** Canceling the pending slices of a parent leaves none of them pending, cancels as many as it
    reports, and cannot touch other orders; but it does not set [is_terminal],
    so [count_non_terminal_children] counts the canceled slices as live, as
    many as before. *)
Theorem cancel_pending_slices_effect now p s :
  exists n s', cancel_pending_slices now p s = (Ok n, s') /\
    n = length (select_orders (pending_child p) s) /\
    select_orders (pending_child p) s' = [] /\
    (forall id r, db_orders s !! id = Some r -> pending_child p r = false -> db_orders s' !! id = Some r) /\
    (forall id r, db_orders s !! id = Some r -> pending_child p r = true ->
       exists r', db_orders s' !! id = Some r' /\ o_status (o_exec r') = "canceled") /\
    fst (count_non_terminal_children p s') = fst (count_non_terminal_children p s).
Proof.
  set (f := fun r => if pending_child p r then set_exec now (set_status "canceled") r else r).
  exists (length (select_orders (pending_child p) s)), (set_orders (fmap f) s).
  split; [done|]. split; [done|].
  assert (Hl : forall id r, db_orders s !! id = Some r -> db_orders (set_orders (fmap f) s) !! id = Some (f r))
    by (intros id r H; simpl; by rewrite lookup_fmap, H).
  split_and!.
  - apply length_zero_iff_nil. rewrite (select_fmap _ (fun _ => false)).
    + unfold select_orders, OrderDetail. rewrite length_map_to_list. apply map_size_empty_iff, map_empty_filter_2.
      by intros id r _.
    + intros r. unfold f. destruct (pending_child p r) eqn:E; [|done].
      unfold pending_child. simpl. by rewrite andb_false_r.
  - intros id r H E. rewrite (Hl _ _ H). unfold f. by rewrite E.
  - intros id r H E. eexists. split; [by apply Hl|]. unfold f. by rewrite E.
  - unfold count_non_terminal_children, reads. simpl. f_equal. apply select_fmap.
    intros r. unfold f. by destruct (pending_child p r).
Qed.

(** ** Witnesses *)

Definition sample_request : OrderRequest :=
  {| req_symbol := "AAPL"; req_side := "buy"; req_qty := 10; req_order_type := "market";
     req_limit_price := None; req_stop_price := None; req_time_in_force := "day";
     req_execution_style := "instant"; req_twap_duration_minutes := None;
     req_twap_interval_seconds := None; req_start_time := None; req_client_order_id := None |}.

Definition sample_row (status : string) (terminal : bool) (last : option Z) : order_row :=
  {| o_core := core_of "alpha" sample_request;
     o_exec := {| o_status := status; o_broker_order_id := Some "b1"; o_error_message := None;
                  o_submitted_at := Some 1; o_filled_at := None; o_filled_qty := Some dzero;
                  o_filled_avg_price := None; o_last_updated_at := last; o_is_terminal := terminal;
                  o_source_priority := 2; o_status_rank := Some 2; o_broker_event_id := None |};
     o_links := no_links; o_metadata := Some empty_meta; o_created_at := 1; o_updated_at := 1 |}.

Definition sample_db (r : order_row) : db := set_orders (fun _ => {[ "o1" := r ]}) empty_db.

Lemma sample_db_wf r : order_valid {[ "o1" := r ]} "o1" r = true -> db_wf (sample_db r).
Proof.
  intros H. split_and!; [|intros ? ? Hk; by destruct (lookup_empty_Some _ _ Hk)..].
  intros id r' Hr. simpl in *. apply lookup_singleton_Some in Hr as [<- <-]. exact H.
Qed.

Definition sample_update (status : string) (t : Z) (q : Z) : cas_update :=
  {| u_status := status; u_broker_updated_at := t; u_status_rank := status_rank_for status;
     u_source_priority := 3; u_filled_qty := Some (of_int q); u_filled_avg_price := Some (of_int 150);
     u_filled_at := None; u_broker_order_id := Some "b1"; u_broker_event_id := None;
     u_error_message := None |}.

Lemma sample_fits st b l st' t q : 0 <= q -> fits (sample_row st b l) (sample_update st' t q).
Proof.
  intros Hq. split; [done|]. split; [done|]. cbn [opt_check u_filled_qty sample_update].
  destruct (dleb_spec dzero (of_int q)) as [|H]; [done|]. exfalso. apply H.
  rewrite dzero_val, of_int_val. by apply inject_Z_nonneg.
Qed.


Lemma deliver_monotone_witness :
  exists r', deliver "o1" [(5, sample_update "filled" 30 10)] (sample_db (sample_row "accepted" false (Some 10)))
    = set_orders (insert "o1" r') (sample_db (sample_row "accepted" false (Some 10))).
Proof.
  destruct (deliver_monotone "o1" [(5, sample_update "filled" 30 10)]
    (sample_db (sample_row "accepted" false (Some 10))) (sample_row "accepted" false (Some 10)))
    as (r' & H & _).
  - apply sample_db_wf. reflexivity.
  - reflexivity.
  - constructor; [apply sample_fits; lia|constructor].
  - exists r'. exact H.
Defined.

Lemma redelivery_skipped_witness :
  let s' := deliver "o1" [(5, sample_update "filled" 30 10)] (sample_db (sample_row "accepted" false (Some 10))) in
  update_order_status_cas 6 "o1" (sample_update "filled" 30 10) s' = (Ok None, s').
Proof.
  apply (redelivery_skipped 5 6 "o1" (sample_update "filled" 30 10) _ (sample_row "accepted" false (Some 10)));
    [apply sample_db_wf; reflexivity|reflexivity|apply sample_fits; lia|reflexivity].
Defined.

Lemma terminal_lock_witness :
  deliver "o1" [(5, sample_update "filled" 30 10)] (sample_db (sample_row "canceled" true (Some 10)))
  = sample_db (sample_row "canceled" true (Some 10)).
Proof.
  exact (proj1 (terminal_lock "o1" [(5, sample_update "filled" 30 10)]
    (sample_db (sample_row "canceled" true (Some 10))) (sample_row "canceled" true (Some 10))
    eq_refl eq_refl ltac:(discriminate))).
Defined.

Lemma filled_can_reopen_witness :
  exists r', update_order_status_cas 6 "o1" (sample_update "accepted" 30 4) (sample_db (sample_row "filled" true (Some 10)))
    = (Ok (Some r'), set_orders (insert "o1" r') (sample_db (sample_row "filled" true (Some 10)))).
Proof.
  destruct (filled_can_reopen 6 "o1" (sample_update "accepted" 30 4)
    (sample_db (sample_row "filled" true (Some 10))) (sample_row "filled" true (Some 10)))
    as (r' & H & _); [apply sample_db_wf; reflexivity|reflexivity|apply sample_fits; lia|reflexivity..|].
  exists r'. exact H.
Defined.

Lemma cas_where_lexicographic_witness :
  cas_newer (sample_update "filled" 10 10) (o_exec (sample_row "accepted" false (Some 10))) = true.
Proof.
  apply (cas_where_lexicographic _ (o_exec (sample_row "accepted" false (Some 10))) 10 2 dzero eq_refl eq_refl eq_refl).
  right. split; [reflexivity|]. left. reflexivity.
Defined.
