(* ===== verification/FillOps.v ===== *)
(** * Fills, trades and positions (apps/execution_gateway/database.py)

    The methods of [DatabaseClient] that book a fill: the fill list in the
    order's metadata, the trades table, the position, and the recalculation of
    realised profit from the trades. *)

From S2P Require Import Prelude PyDecimal PyText OrderStatus OrderSchema PositionMath GatewayDb OrderCas.
From Stdlib Require Import QArith.

Open Scope Z_scope.

(** ** Text helpers *)

(** [str.strip] *)
Definition strip (s : string) : string :=
  of_chars (reverse (skip_spaces (reverse (skip_spaces (chars s))))).

(** SQL [LIKE]: ['%'] stands for any text, ['_'] for any one character. *)
Fixpoint like_chars (p : list Ascii.ascii) : list Ascii.ascii -> bool :=
  match p with
  | [] => fun s => bool_decide (s = [])
  | c :: p' =>
      if is_char 37 c then
        fix any (s : list Ascii.ascii) : bool :=
          like_chars p' s || match s with [] => false | _ :: s' => any s' end
      else if is_char 95 c then
        fun s => match s with [] => false | _ :: s' => like_chars p' s' end
      else
        fun s => match s with [] => false | x :: s' => bool_decide (x = c) && like_chars p' s' end
  end.
Definition like (s pattern : string) : bool := like_chars (chars pattern) (chars s).

Example like_examples :
  like "ab_recon_7" "%_recon_%" = true /\ like "recon_7" "%_recon_%" = false /\
  like "x-recon-y" "%_recon_%" = true /\ like "uuid-1" "%_recon_%" = false.
Proof. split_and!; reflexivity. Qed.

(** ** Fills in the order's metadata *)

Definition fills_of (r : order_row) : list fill_rec :=
  match o_metadata r with Some m => default [] (m_fills m) | None => [] end.

Definition has_fill (fill_id : string) (r : order_row) : bool :=
  bool_decide (fill_id ∈ f_fill_id <$> fills_of r).

Definition has_synthetic (r : order_row) : bool := existsb f_synthetic (fills_of r).

Definition opt_dec (o : option decimal) : decimal := default dzero o.

(** The two nested [jsonb_set]. *)
Definition append_fill (fill : fill_rec) (meta : option order_meta) : option order_meta :=
  let m := default empty_meta meta in
  Some {| m_fills := Some (default [] (m_fills m) ++ [fill]);
          m_total_realized_pl :=
            Some (num_add (opt_dec (m_total_realized_pl m)) (opt_dec (f_realized_pl fill)));
          m_other := m_other m |}.

Definition supersede (f : fill_rec) : fill_rec :=
  {| f_fill_id := f_fill_id f; f_fill_qty := f_fill_qty f; f_fill_price := f_fill_price f;
     f_realized_pl := f_realized_pl f; f_timestamp := f_timestamp f; f_source := f_source f;
     f_synthetic := f_synthetic f; f_superseded := true |}.

Definition mark_superseded (meta : option order_meta) : option order_meta :=
  (fun m => {| m_fills := Some ((fun f => if f_synthetic f then supersede f else f) <$> default [] (m_fills m));
               m_total_realized_pl := m_total_realized_pl m; m_other := m_other m |}) <$> meta.

(** *** Trades *)

Definition supersede_trade (t : trade_row) : trade_row :=
  {| t_client_order_id := t_client_order_id t; t_broker_order_id := t_broker_order_id t;
     t_strategy_id := t_strategy_id t; t_symbol := t_symbol t; t_side := t_side t; t_qty := t_qty t;
     t_price := t_price t; t_executed_at := t_executed_at t; t_realized_pnl := t_realized_pnl t;
     t_source := t_source t; t_synthetic := t_synthetic t; t_superseded := true |}.

Definition recon_trade (client_order_id trade_id : string) (t : trade_row) : bool :=
  bool_decide (t_client_order_id t = client_order_id) && negb (t_superseded t) &&
  (t_synthetic t || like trade_id "%_recon_%" || like trade_id "%_recon_db_%").

(** [INSERT INTO trades ... ON CONFLICT (trade_id) DO NOTHING] *)
Definition insert_trade (trade_id : string) (t : trade_row) : M db unit :=
  s ← get_state;
  match db_trades s !! trade_id with
  | Some _ => mret tt
  | None =>
      if trade_checks t && bool_decide (is_Some (db_orders s !! t_client_order_id t))
      then modify (set_trades (insert trade_id t))
      else raise (IntegrityError "trades")
  end.

Definition _insert_trade_from_fill (client_order_id : string) (order : order_row) (fill : fill_rec)
    : M db unit :=
  let fill_id := strip (f_fill_id fill) in
  let qty := f_fill_qty fill in
  let price := f_fill_price fill in
  if bool_decide (fill_id = "") then mret tt
  else if dleb qty dzero || dleb price dzero then mret tt
  else
    let executed_at := default (default (o_updated_at order) (o_filled_at (o_exec order))) (f_timestamp fill) in
    _ ← insert_trade fill_id
      {| t_client_order_id := client_order_id; t_broker_order_id := o_broker_order_id (o_exec order);
         t_strategy_id := o_strategy_id (o_core order); t_symbol := o_symbol (o_core order);
         t_side := o_side (o_core order); t_qty := qty; t_price := price; t_executed_at := executed_at;
         t_realized_pnl := opt_dec (f_realized_pl fill); t_source := f_source fill;
         t_synthetic := f_synthetic fill; t_superseded := f_superseded fill |};
    if f_synthetic fill then mret tt
    else modify (set_trades (map_imap (fun id t =>
           Some (if recon_trade client_order_id id t then supersede_trade t else t)))).

Definition append_fill_to_order_metadata (now : Z) (client_order_id : string) (fill : fill_rec)
    : M db (option order_row) :=
  if bool_decide (f_fill_id fill = "") then mret None
  else
    s ← get_state;
    match db_orders s !! client_order_id with
    | None => mret None
    | Some _ =>
        row ← update_order client_order_id (fun r => negb (has_fill (f_fill_id fill) r))
                (set_metadata now (append_fill fill));
        match row with
        | None => mret None
        | Some row =>
            superseded_row ←
              (if f_synthetic fill then mret None
               else update_order client_order_id has_synthetic (set_metadata now mark_superseded));
            let row := default row superseded_row in
            _ ← _insert_trade_from_fill client_order_id row fill;
            mret (Some row)
        end
    end.

(** ** Positions *)

Definition get_position_for_update (symbol : string) : M db (option position_row) :=
  reads (fun s => db_positions s !! symbol).

(** [INSERT ... ON CONFLICT (symbol) DO UPDATE ... RETURNING *]: a row that violates a
    check raises. *)
Definition upsert_position (symbol : string) (f : option position_row -> position_row)
    : M db position_row :=
  s ← get_state;
  let row := f (db_positions s !! symbol) in
  if position_checks row
  then _ ← put_state (set_positions (insert symbol row) s); mret row
  else raise (IntegrityError "positions").

(** The numbers of a position that an update starts from. *)
Definition position_state (cur : option position_row) : Z * decimal * decimal :=
  match cur with
  | Some p => (dint (p_qty p), p_avg_entry_price p, p_realized_pl p)
  | None => (0, dzero, dzero)
  end.

Definition update_position_on_fill_with_conn (now : Z) (symbol : string) (fill_qty : Z)
    (fill_price : decimal) (side : string) : M db position_row :=
  s ← get_state;
  let '(old_qty, old_avg_price, old_realized_pl) := position_state (db_positions s !! symbol) in
  new ← lift (calculate_position_update old_qty old_avg_price old_realized_pl fill_qty fill_price side);
  let '(new_qty, new_avg_price, new_realized_pl) := new in
  upsert_position symbol (fun cur =>
    {| p_qty := of_int new_qty; p_avg_entry_price := new_avg_price;
       p_current_price := p ← cur; p_current_price p; p_realized_pl := new_realized_pl;
       p_updated_at := now; p_last_trade_at := Some now |}).

Definition update_position_on_fill (now : Z) (symbol : string) (qty : Z) (price : decimal)
    (side : string) : M db position_row :=
  transaction (update_position_on_fill_with_conn now symbol qty price side).

Definition upsert_position_snapshot (symbol : string) (qty avg_entry_price : decimal)
    (current_price : option decimal) (updated_at : Z) : M db position_row :=
  transaction (upsert_position symbol (fun cur =>
    {| p_qty := qty; p_avg_entry_price := avg_entry_price; p_current_price := current_price;
       p_realized_pl := match cur with Some p => p_realized_pl p | None => dzero end;
       p_updated_at := updated_at; p_last_trade_at := Some updated_at |})).

Definition get_position_by_symbol (symbol : string) : M db Z :=
  reads (fun s => match db_positions s !! symbol with Some p => dint (p_qty p) | None => 0 end).

(** ** Recalculating realised profit from the trades *)

Definition trade : Type := string * trade_row.

(** [ORDER BY executed_at ASC, trade_id ASC], identifiers by code point. *)
Fixpoint codes_le (a b : list Z) : bool :=
  match a, b with
  | [], _ => true
  | _ :: _, [] => false
  | x :: a', y :: b' => (x <? y) || ((x =? y) && codes_le a' b')
  end.
Definition string_le (a b : string) : bool := codes_le (encode a) (encode b).

Definition trade_le (a b : trade) : Prop :=
  t_executed_at a.2 < t_executed_at b.2 \/
  (t_executed_at a.2 = t_executed_at b.2 /\ string_le a.1 b.1 = true).
#[export] Instance trade_le_dec : RelDecision trade_le.
Proof. intros a b. unfold trade_le. apply _. Defined.

Definition live_trade (strategy_id symbol : string) (t : trade_row) : bool :=
  bool_decide (t_strategy_id t = strategy_id) && bool_decide (t_symbol t = symbol) && negb (t_superseded t).

Definition trades_for (strategy_id symbol : string) (s : db) : list trade :=
  merge_sort trade_le
    (map_to_list (filter (fun p : trade => live_trade strategy_id symbol p.2 = true) (db_trades s))).

Definition default_update_sources : list string :=
  ["alpaca_activity"; "reconciliation_backfill"; "reconciliation_db_backfill"].

Definition should_update (update_all : bool) (update_sources : list string) (t : trade_row) : bool :=
  update_all || t_synthetic t || opt_check (fun x => one_of x update_sources) (t_source t)
    && bool_decide (is_Some (t_source t)).

(** [str.lower] on ASCII text. *)
Definition lower_char (c : Ascii.ascii) : Ascii.ascii :=
  if (65 <=? code c) && (code c <=? 90) then chr (code c + 32) else c.
Definition lower (s : string) : string := of_chars (lower_char <$> chars s).

(** The replay loop: position, average price, and the updates collected. *)
Fixpoint replay_trades (update_all : bool) (update_sources : list string)
    (position_qty avg_price : decimal) (rows : list trade) : result (list (decimal * string)) :=
  match rows with
  | [] => Ok []
  | (trade_id, t) :: rows' =>
      let side := lower (t_side t) in
      if negb (one_of side ["buy"; "sell"]) || dleb (t_qty t) dzero || dleb (t_price t) dzero
      then replay_trades update_all update_sources position_qty avg_price rows'
      else
        '(q, a, realized_delta) ←
          calculate_position_update_decimal position_qty avg_price (t_qty t) (t_price t) side;
        updates ← replay_trades update_all update_sources q a rows';
        Ok (if should_update update_all update_sources t
            then (realized_delta, trade_id) :: updates else updates)
  end.

Definition set_realized_pnl (d : decimal) (t : trade_row) : trade_row :=
  {| t_client_order_id := t_client_order_id t; t_broker_order_id := t_broker_order_id t;
     t_strategy_id := t_strategy_id t; t_symbol := t_symbol t; t_side := t_side t; t_qty := t_qty t;
     t_price := t_price t; t_executed_at := t_executed_at t; t_realized_pnl := d;
     t_source := t_source t; t_synthetic := t_synthetic t; t_superseded := t_superseded t |}.

(** The [executemany] of UPDATE statements. *)
Definition pnl_update (trades : gmap string trade_row) (p : decimal * string) : gmap string trade_row :=
  alter (set_realized_pnl p.1) p.2 trades.
Definition apply_pnl_updates (updates : list (decimal * string)) (trades : gmap string trade_row)
    : gmap string trade_row :=
  foldl pnl_update trades updates.

Definition recalculate_trade_realized_pnl (strategy_id symbol : string) (update_all : bool)
    (update_sources : option (list string)) : M db (nat * nat) :=
  s ← get_state;
  let rows := trades_for strategy_id symbol s in
  updates ← lift (replay_trades update_all (default default_update_sources update_sources) dzero dzero rows);
  _ ← modify (set_trades (apply_pnl_updates updates));
  mret (length rows, length updates).

(** ** Booking a fill *)

Lemma set_metadata_valid orders now id f r :
  order_valid orders id (set_metadata now f r) = order_valid orders id r.
Proof. done. Qed.

Lemma update_metadata_run now id cond f s r :
  db_wf s -> db_orders s !! id = Some r -> cond r = true ->
  update_order id cond (set_metadata now f) s =
    (Ok (Some (set_metadata now f r)), set_orders (insert id (set_metadata now f r)) s).
Proof.
  intros Hwf Hr Hc. unfold update_order. run_monad. rewrite Hr, Hc, set_metadata_valid.
  by rewrite (proj1 Hwf id r Hr).
Qed.

Lemma update_metadata_wf now id f s r :
  db_wf s -> db_orders s !! id = Some r -> db_wf (set_orders (insert id (set_metadata now f r)) s).
Proof.
  intros Hwf Hr. apply db_wf_set_orders; [done|]. rewrite set_metadata_valid. exact (proj1 Hwf id r Hr).
Qed.

Lemma update_order_skip id cond f s r :
  db_orders s !! id = Some r -> cond r = false -> update_order id cond f s = (Ok None, s).
Proof. intros Hr Hc. unfold update_order. run_monad. by rewrite Hr, Hc. Qed.

Lemma existsb_mark (l : list fill_rec) :
  Forall (fun f => f_synthetic f = true -> f_superseded f = true)
    ((fun f => if f_synthetic f then supersede f else f) <$> l).
Proof.
  apply Forall_fmap, Forall_forall. intros f _ H. simpl in *.
  destruct (f_synthetic f) eqn:E; [done|congruence].
Qed.

Lemma no_synthetic l :
  existsb f_synthetic l = false -> Forall (fun f => f_synthetic f = true -> f_superseded f = true) l.
Proof.
  intros H. apply Forall_forall. intros f Hf Hs. exfalso.
  assert (existsb f_synthetic l = true); [|congruence].
  apply existsb_exists. exists f. split; [by apply list_elem_of_In|done].
Qed.

(** Realised profit of a list of fills, exactly. *)
Fixpoint fills_pl (l : list fill_rec) : Q :=
  match l with [] => 0 | f :: l' => dval (opt_dec (f_realized_pl f)) + fills_pl l' end.

Lemma fills_pl_app l k : (fills_pl (l ++ k) == fills_pl l + fills_pl k)%Q.
Proof. induction l as [|f l IH]; simpl; [ring|rewrite IH; ring]. Qed.

Lemma fills_pl_mark (l : list fill_rec) :
  fills_pl ((fun f => if f_synthetic f then supersede f else f) <$> l) = fills_pl l.
Proof.
  induction l as [|f l IH]; [done|]. rewrite fmap_cons. cbn [fills_pl]. rewrite IH.
  by destruct (f_synthetic f).
Qed.

Lemma ids_mark (l : list fill_rec) :
  f_fill_id <$> ((fun f => if f_synthetic f then supersede f else f) <$> l) = f_fill_id <$> l.
Proof. rewrite <- list_fmap_compose. apply list_fmap_ext. intros i f _. simpl. by destruct (f_synthetic f). Qed.

Definition total_pl (r : order_row) : decimal :=
  match o_metadata r with Some m => opt_dec (m_total_realized_pl m) | None => dzero end.

(** Every fill is recorded once, and the total is the sum over the fills. *)
Definition ledger_ok (r : order_row) : Prop :=
  NoDup (f_fill_id <$> fills_of r) /\ (dval (total_pl r) == fills_pl (fills_of r))%Q.

Lemma fills_of_append now fill r :
  fills_of (set_metadata now (append_fill fill) r) = fills_of r ++ [fill].
Proof. unfold fills_of, append_fill. simpl. by destruct (o_metadata r) as [[fs tot oth]|]. Qed.

Lemma total_pl_append now fill r :
  total_pl (set_metadata now (append_fill fill) r) = num_add (total_pl r) (opt_dec (f_realized_pl fill)).
Proof. unfold total_pl, append_fill. simpl. by destruct (o_metadata r) as [[fs tot oth]|]. Qed.

Lemma fills_of_mark now r :
  o_metadata r <> None ->
  fills_of (set_metadata now mark_superseded r)
    = (fun f => if f_synthetic f then supersede f else f) <$> fills_of r.
Proof. unfold fills_of. simpl. by destruct (o_metadata r) as [[fs tot oth]|]. Qed.

Lemma ledger_append now fill r :
  has_fill (f_fill_id fill) r = false -> ledger_ok r -> ledger_ok (set_metadata now (append_fill fill) r).
Proof.
  unfold has_fill. intros Hn [Hd Ht]. boolify. unfold ledger_ok.
  rewrite fills_of_append, total_pl_append, fmap_app, num_add_val, fills_pl_app, Ht. simpl. split; [|ring].
  apply NoDup_app. split_and!; [done| |apply NoDup_singleton].
  intros x Hx. rewrite list_elem_of_singleton. by intros ->.
Qed.

Lemma ledger_mark now r : o_metadata r <> None -> ledger_ok r -> ledger_ok (set_metadata now mark_superseded r).
Proof.
  intros Hm [Hd Ht]. unfold ledger_ok. rewrite fills_of_mark, ids_mark, fills_pl_mark by done. split; [done|].
  rewrite <- Ht. unfold total_pl. simpl. by destruct (o_metadata r).
Qed.

(** *** The trade of a fill *)

Lemma set_trades_wf s f :
  db_wf s -> trades_wf (set_trades f s) -> db_wf (set_trades f s).
Proof. intros (Ho & Hp & _ & Hs) Ht. by split_and!. Qed.

Lemma insert_trade_ok tid t s :
  db_wf s -> trade_checks t = true -> is_Some (db_orders s !! t_client_order_id t) ->
  exists s', insert_trade tid t s = (Ok tt, s') /\ db_wf s' /\ db_orders s' = db_orders s /\
    db_positions s' = db_positions s /\ is_Some (db_trades s' !! tid).
Proof.
  intros Hwf Hc Ho. unfold insert_trade. run_monad. destruct (db_trades s !! tid) eqn:E.
  { exists s. split_and!; [done..|by eexists]. }
  rewrite Hc, bool_decide_eq_true_2 by done. simpl. eexists. split; [reflexivity|].
  split; [|split; [done|split; [done|simpl; rewrite lookup_insert_eq; by eexists]]].
  apply set_trades_wf; [done|]. destruct Hwf as (_ & _ & Ht & _).
  intros k t' Hk. simpl in Hk. destruct (decide (k = tid)) as [->|Hn].
  - rewrite lookup_insert_eq in Hk. by injection Hk as <-.
  - rewrite lookup_insert_ne in Hk by done. by apply Ht in Hk.
Qed.

Lemma mark_trades_ok id s :
  db_wf s ->
  db_wf (set_trades (map_imap (fun k t => Some (if recon_trade id k t then supersede_trade t else t))) s).
Proof.
  intros Hwf. apply set_trades_wf; [done|]. destruct Hwf as (_ & _ & Ht & _).
  intros k t Hk. simpl in Hk. rewrite map_lookup_imap in Hk.
  destruct (db_trades s !! k) as [t0|] eqn:E; [|done]. simpl in Hk. injection Hk as <-.
  destruct (Ht k t0 E). by destruct (recon_trade id k t0).
Qed.

Lemma insert_trade_from_fill_ok id r fill s :
  db_wf s -> db_orders s !! id = Some r ->
  exists s', _insert_trade_from_fill id r fill s = (Ok tt, s') /\ db_wf s' /\
    db_orders s' = db_orders s /\ db_positions s' = db_positions s /\
    (strip (f_fill_id fill) <> "" -> dleb (f_fill_qty fill) dzero = false ->
     dleb (f_fill_price fill) dzero = false -> is_Some (db_trades s' !! strip (f_fill_id fill))).
Proof.
  intros Hwf Hr. unfold _insert_trade_from_fill. cbv zeta.
  destruct (bool_decide (strip (f_fill_id fill) = "")) eqn:Eid; boolify.
  { exists s. by split_and!. }
  destruct (dleb (f_fill_qty fill) dzero || dleb (f_fill_price fill) dzero) eqn:E.
  { exists s. split_and!; [done..|]. intros _ H1 H2. by rewrite H1, H2 in E. }
  apply orb_false_iff in E as [Eq Ep].
  match goal with |- context [insert_trade ?k ?t] => destruct (insert_trade_ok k t s Hwf) as (s1 & E1 & Hwf1 & Ho1 & Hp1 & Ht1) end.
  - unfold trade_checks, dpositive. simpl.
    pose proof (proj1 Hwf id r Hr) as Hv. apply order_valid_spec in Hv as (Hc & _).
    unfold order_checks in Hc. cbv zeta in Hc. boolify. apply andb_true_iff. split; [apply andb_true_iff; split; [done|]|].
    + destruct (dltb_spec dzero (f_fill_qty fill)) as [|H']; [done|].
      destruct (dleb_spec (f_fill_qty fill) dzero) as [|H'']; [done|]. by apply Qnot_lt_le in H'.
    + destruct (dltb_spec dzero (f_fill_price fill)) as [|H']; [done|].
      destruct (dleb_spec (f_fill_price fill) dzero) as [|H'']; [done|]. by apply Qnot_lt_le in H'.
  - simpl. by eexists.
  - unfold mbind, M_bind. rewrite E1. destruct (f_synthetic fill).
    + exists s1. by split_and!.
    + eexists. split; [reflexivity|]. split; [by apply mark_trades_ok|]. split; [done|]. split; [done|].
      intros _ _ _. simpl. rewrite map_lookup_imap. destruct Ht1 as [t ->]. by eexists.
Qed.

Definition synthetic_superseded (r : order_row) : Prop :=
  Forall (fun f => f_synthetic f = true -> f_superseded f = true) (fills_of r).

(** The order row after a fill is appended. *)
Definition booked_row (now : Z) (fill : fill_rec) (r : order_row) : order_row :=
  let r1 := set_metadata now (append_fill fill) r in
  if f_synthetic fill then r1
  else if has_synthetic r1 then set_metadata now mark_superseded r1 else r1.

Lemma append_steps now id fill s r :
  db_wf s -> db_orders s !! id = Some r -> f_fill_id fill <> "" -> has_fill (f_fill_id fill) r = false ->
  append_fill_to_order_metadata now id fill s =
    (_ ← _insert_trade_from_fill id (booked_row now fill r) fill; mret (Some (booked_row now fill r)))
      (set_orders (insert id (booked_row now fill r)) s) /\
  db_wf (set_orders (insert id (booked_row now fill r)) s).
Proof.
  intros Hwf Hr Hid Hn. set (r1 := set_metadata now (append_fill fill) r).
  assert (Hwf1 : db_wf (set_orders (insert id r1) s)) by (by apply update_metadata_wf).
  assert (Hr1 : db_orders (set_orders (insert id r1) s) !! id = Some r1) by (simpl; by rewrite lookup_insert_eq).
  unfold append_fill_to_order_metadata. rewrite bool_decide_eq_false_2 by done.
  unfold mbind at 1, M_bind at 1, get_state at 1. rewrite Hr.
  unfold mbind at 1, M_bind at 1. rewrite (update_metadata_run now id _ _ s r Hwf Hr) by (by rewrite Hn).
  fold r1. unfold booked_row. fold r1. cbv zeta. destruct (f_synthetic fill); [done|].
  unfold mbind at 1, M_bind at 1. destruct (has_synthetic r1) eqn:Es.
  - rewrite (update_metadata_run now id _ mark_superseded _ r1 Hwf1 Hr1 Es). simpl default. split.
    + f_equal. unfold set_orders; simpl. by rewrite insert_insert_eq.
    + pose proof (update_metadata_wf now id mark_superseded _ r1 Hwf1 Hr1) as H.
      unfold set_orders in H |- *. simpl in *. by rewrite insert_insert_eq in H.
  - by rewrite (update_order_skip id has_synthetic _ _ r1 Hr1 Es).
Qed.

Lemma booked_ids now fill r :
  f_fill_id <$> fills_of (booked_row now fill r) = (f_fill_id <$> fills_of r) ++ [f_fill_id fill].
Proof.
  unfold booked_row. cbv zeta. destruct (f_synthetic fill); [by rewrite fills_of_append, fmap_app|].
  destruct (has_synthetic _); [|by rewrite fills_of_append, fmap_app].
  rewrite fills_of_mark by done. by rewrite ids_mark, fills_of_append, fmap_app.
Qed.

Lemma booked_ledger now fill r :
  has_fill (f_fill_id fill) r = false -> ledger_ok r -> ledger_ok (booked_row now fill r).
Proof.
  intros Hn Hl. unfold booked_row. cbv zeta. pose proof (ledger_append now fill r Hn Hl).
  destruct (f_synthetic fill); [done|]. destruct (has_synthetic _); [|done]. by apply ledger_mark.
Qed.

Lemma booked_superseded now fill r :
  f_synthetic fill = false -> synthetic_superseded (booked_row now fill r).
Proof.
  intros Hf. unfold synthetic_superseded, booked_row. cbv zeta. rewrite Hf.
  destruct (has_synthetic (set_metadata now (append_fill fill) r)) eqn:E.
  - rewrite fills_of_mark by done. apply existsb_mark.
  - by apply no_synthetic.
Qed.

Lemma booked_exec now fill r :
  o_exec (booked_row now fill r) = o_exec r /\ o_core (booked_row now fill r) = o_core r.
Proof. unfold booked_row. cbv zeta. by repeat case_match. Qed.

(** Booking a new fill succeeds. *)
Lemma append_new now id fill s r :
  db_wf s -> db_orders s !! id = Some r -> f_fill_id fill <> "" -> has_fill (f_fill_id fill) r = false ->
  exists s', append_fill_to_order_metadata now id fill s = (Ok (Some (booked_row now fill r)), s') /\
    db_wf s' /\ db_orders s' = <[id := booked_row now fill r]> (db_orders s) /\
    db_positions s' = db_positions s /\
    (strip (f_fill_id fill) <> "" -> dleb (f_fill_qty fill) dzero = false ->
     dleb (f_fill_price fill) dzero = false -> is_Some (db_trades s' !! strip (f_fill_id fill))).
Proof.
  intros Hwf Hr Hid Hn. destruct (append_steps now id fill s r Hwf Hr Hid Hn) as [-> Hwf'].
  destruct (insert_trade_from_fill_ok id (booked_row now fill r) fill _ Hwf' (lookup_insert_eq _ _ _))
    as (s' & E & Hw & Ho & Hp & Ht).
  exists s'. unfold mbind, M_bind. rewrite E. by split_and!.
Qed.

(** A known fill changes nothing. *)
Lemma append_known now id fill s r :
  db_orders s !! id = Some r -> has_fill (f_fill_id fill) r = true ->
  append_fill_to_order_metadata now id fill s = (Ok None, s).
Proof.
  intros Hr Hn. unfold append_fill_to_order_metadata. case_bool_decide; [done|].
  unfold mbind, M_bind, get_state. rewrite Hr.
  rewrite (update_order_skip id _ _ s r Hr) by (by rewrite Hn). done.
Qed.

(** ** Positions and the pure update *)

Definition whole_position (p : position_row) : Prop := p_qty p = of_int (dint (p_qty p)).

(** The stored positions come from fills: whole quantities, and a price while open. *)
Definition position_sound (s : db) (symbol : string) : Prop :=
  position_ok (position_state (db_positions s !! symbol)).

Lemma dint_of_int n : dint (of_int n) = n.
Proof. unfold dint, of_int. simpl. lia. Qed.

Lemma position_checks_ok n avg pl cur now :
  position_ok (n, avg, pl) -> opt_check dpositive cur = true ->
  position_checks {| p_qty := of_int n; p_avg_entry_price := avg; p_current_price := cur;
    p_realized_pl := pl; p_updated_at := now; p_last_trade_at := Some now |} = true.
Proof.
  intros H Hc. unfold position_checks. cbn [p_avg_entry_price p_qty p_current_price]. rewrite Hc, andb_true_r.
  rewrite deqb_int. unfold dpositive. destruct H as [[-> _]|[_ Ha]]; [by rewrite orb_true_r|].
  by destruct (dltb_spec dzero avg).
Qed.

Lemma upsert_position_ok symbol f s :
  db_wf s -> position_checks (f (db_positions s !! symbol)) = true ->
  upsert_position symbol f s =
    (Ok (f (db_positions s !! symbol)), set_positions (insert symbol (f (db_positions s !! symbol))) s) /\
  db_wf (set_positions (insert symbol (f (db_positions s !! symbol))) s).
Proof.
  intros (Ho & Hp & Ht & Hs) Hc. unfold upsert_position. run_monad. rewrite Hc. split; [done|].
  split_and!; [exact Ho| |exact Ht|exact Hs]. intros k p Hk. simpl in Hk.
  destruct (decide (k = symbol)) as [->|Hn].
  - rewrite lookup_insert_eq in Hk. by injection Hk as <-.
  - rewrite lookup_insert_ne in Hk by done. by apply Hp in Hk.
Qed.

Lemma current_price_ok s symbol :
  db_wf s -> opt_check dpositive (p ← db_positions s !! symbol; p_current_price p) = true.
Proof.
  intros (_ & Hp & _). destruct (db_positions s !! symbol) as [p|] eqn:E; [|done].
  pose proof (Hp _ _ E) as H. unfold position_checks in H. by boolify.
Qed.

(** One fill: the stored position becomes the pure update of the stored position. *)
Lemma update_position_step now symbol n p side s :
  db_wf s -> position_sound s symbol -> is_side side -> 0 <= n -> (0 < dval p)%Q ->
  exists st' row s',
    calculate_position_update (position_state (db_positions s !! symbol)).1.1
      (position_state (db_positions s !! symbol)).1.2 (position_state (db_positions s !! symbol)).2 n p side
      = Ok st' /\
    update_position_on_fill_with_conn now symbol n p side s = (Ok row, s') /\
    db_wf s' /\ position_sound s' symbol /\
    db_positions s' = <[symbol := row]> (db_positions s) /\ position_state (Some row) = st' /\
    db_orders s' = db_orders s.
Proof.
  intros Hwf Hsound Hside Hn Hp. unfold position_sound in Hsound.
  set (st := position_state (db_positions s !! symbol)) in *.
  destruct (update_step st n p side Hside Hn) as (st' & E & _ & _ & Hok).
  specialize (Hok Hsound Hp). destruct st' as [[n' a'] pl'].
  unfold update_position_on_fill_with_conn.
  set (f := fun cur : option position_row =>
    {| p_qty := of_int n'; p_avg_entry_price := a'; p_current_price := p ← cur; p_current_price p;
       p_realized_pl := pl'; p_updated_at := now; p_last_trade_at := Some now |}).
  assert (Hc : position_checks (f (db_positions s !! symbol)) = true)
    by (apply (position_checks_ok n' a' pl'); [exact Hok|by apply current_price_ok]).
  destruct (upsert_position_ok symbol f s Hwf Hc) as [Eu Hwf'].
  exists (n', a', pl'), (f (db_positions s !! symbol)),
    (set_positions (insert symbol (f (db_positions s !! symbol))) s).
  assert (Est : position_state (Some (f (db_positions s !! symbol))) = (n', a', pl'))
    by (simpl; by rewrite dint_of_int).
  split; [exact E|]. split.
  { unfold mbind at 1, M_bind at 1, get_state at 1. fold st. destruct st as [[q a] pl]. cbn [fst snd] in E.
    unfold mbind at 1, M_bind at 1, lift. rewrite E. exact Eu. }
  split; [exact Hwf'|]. split; [|by split_and!].
  unfold position_sound. simpl. rewrite lookup_insert_eq. by rewrite Est.
Qed.

(** ** Recalculation *)

Definition strip_pnl (p : trade) : trade := (p.1, set_realized_pnl dzero p.2).

(** The replay does not look at the profits it recalculates. *)
Lemma replay_ignores_pnl all srcs rows rows' :
  strip_pnl <$> rows = strip_pnl <$> rows' ->
  forall q a, replay_trades all srcs q a rows = replay_trades all srcs q a rows'.
Proof.
  revert rows'. induction rows as [|[i t] rows IH]; intros [|[i' t'] rows'] H q a; try done.
  rewrite !fmap_cons in H. assert (Hrest : strip_pnl <$> rows = strip_pnl <$> rows') by congruence.
  assert (Hp : strip_pnl (i, t) = strip_pnl (i', t')) by congruence. clear H.
  destruct t, t'. unfold strip_pnl, set_realized_pnl in Hp. simpl in Hp. injection Hp; intros; subst.
  simpl. destruct (_ || _); [by apply IH|].
  destruct (calculate_position_update_decimal _ _ _ _ _) as [[[q' a'] d]|]; simpl; [|done].
  by rewrite (IH rows' Hrest).
Qed.

(** The profit an update list leaves on a trade. *)
Fixpoint final_pnl (updates : list (decimal * string)) (id : string) : option decimal :=
  match updates with
  | [] => None
  | (d, i) :: us =>
      match final_pnl us id with
      | Some d' => Some d'
      | None => if bool_decide (i = id) then Some d else None
      end
  end.

Definition with_pnl (d : option decimal) (t : trade_row) : trade_row :=
  match d with Some d => set_realized_pnl d t | None => t end.

Lemma lookup_apply_pnl updates (m : gmap string trade_row) id :
  apply_pnl_updates updates m !! id = with_pnl (final_pnl updates id) <$> m !! id.
Proof.
  revert m. induction updates as [|[d i] us IH]; intros m.
  - simpl. by destruct (m !! id).
  - unfold apply_pnl_updates in *. simpl. rewrite IH. unfold pnl_update. simpl. rewrite lookup_alter.
    case_decide as E.
    + subst i. rewrite bool_decide_eq_true_2 by done. destruct (m !! id); simpl; [|done].
      by destruct (final_pnl us id).
    + rewrite bool_decide_eq_false_2 by done. by destruct (final_pnl us id).
Qed.

Lemma apply_pnl_idem updates (m : gmap string trade_row) :
  NoDup updates.*2 -> apply_pnl_updates updates (apply_pnl_updates updates m) = apply_pnl_updates updates m.
Proof.
  revert m. induction updates as [|[d i] us IH]; intros m Hnd; [done|].
  rewrite fmap_cons in Hnd. apply NoDup_cons in Hnd as [Hi Hnd]. simpl in Hi.
  unfold apply_pnl_updates in *. simpl.
  assert (Hc : forall m', foldl pnl_update (pnl_update m' (d, i)) us = pnl_update (foldl pnl_update m' us) (d, i)).
  { clear IH Hnd m. induction us as [|[d' i'] us IH]; intros m'; [done|]. simpl.
    rewrite fmap_cons, not_elem_of_cons in Hi. destruct Hi as [Hne Hi]. simpl in Hne.
    rewrite <- IH by done. f_equal. unfold pnl_update. simpl. apply map_eq. intros k.
    rewrite !lookup_alter. repeat case_decide; by subst. }
  rewrite !Hc, IH by done. unfold pnl_update. simpl. apply map_eq. intros k.
  rewrite !lookup_alter. repeat case_decide; try done. change (fun (trades : gmap string trade_row) (p : decimal * string) => alter (set_realized_pnl p.1) p.2 trades) with pnl_update.
  subst. by destruct (foldl pnl_update m us !! _).
Qed.

Lemma replay_ids all srcs rows : forall q a updates,
  replay_trades all srcs q a rows = Ok updates -> updates.*2 `sublist_of` rows.*1.
Proof.
  induction rows as [|[i t] rows IH]; intros q a updates; simpl.
  - intros [= <-]. constructor.
  - destruct (_ || _); [intros H; constructor; by eapply IH|].
    destruct (calculate_position_update_decimal _ _ _ _ _) as [[[q' a'] d]|]; simpl; [|done].
    destruct (replay_trades _ _ _ _ rows) as [us|] eqn:E; simpl; [|done]. intros [= <-].
    destruct (should_update _ _ t); [rewrite fmap_cons|]; constructor; by eapply IH.
Qed.

(** *** The order of the rows *)

Lemma codes_le_refl a : codes_le a a = true.
Proof. induction a as [|x a IH]; simpl; [done|]. by rewrite Z.eqb_refl, IH, orb_true_r. Qed.

Lemma codes_le_total a b : codes_le a b = true \/ codes_le b a = true.
Proof.
  revert b. induction a as [|x a IH]; intros [|y b]; simpl; auto.
  destruct (Z.ltb_spec x y), (Z.ltb_spec y x); simpl; auto.
  replace y with x by lia. rewrite Z.eqb_refl. apply IH.
Qed.

Lemma codes_le_antisym a b : codes_le a b = true -> codes_le b a = true -> a = b.
Proof.
  revert b. induction a as [|x a IH]; intros [|y b]; simpl; try done.
  destruct (Z.ltb_spec x y), (Z.ltb_spec y x), (Z.eqb_spec x y), (Z.eqb_spec y x); simpl; try done; try lia.
  intros H1 H2. subst. f_equal. by apply IH.
Qed.

Lemma codes_le_trans a b c : codes_le a b = true -> codes_le b c = true -> codes_le a c = true.
Proof.
  revert b c. induction a as [|x a IH]; intros [|y b] [|z c]; simpl; try done.
  destruct (Z.ltb_spec x y), (Z.ltb_spec y z), (Z.ltb_spec x z), (Z.eqb_spec x y), (Z.eqb_spec y z),
    (Z.eqb_spec x z); simpl; try done; try lia. apply IH.
Qed.

Lemma encode_inj a b : encode a = encode b -> a = b.
Proof.
  unfold encode. intros H. apply (inj chars). revert H. generalize (chars a), (chars b).
  intros l k. revert k. induction l as [|x l IH]; intros [|y k] H; try done.
  rewrite !fmap_cons in H. injection H as Hx Hl. f_equal; [|by apply IH].
  unfold code in Hx. apply N2Z.inj in Hx. rewrite <- (Ascii.ascii_N_embedding x), Hx. apply Ascii.ascii_N_embedding.
Qed.

#[export] Instance trade_le_total : Total trade_le.
Proof.
  intros [i t] [j u]. unfold trade_le. simpl.
  destruct (Z.lt_trichotomy (t_executed_at t) (t_executed_at u)) as [|[E|]]; [by left; left| |by right; left].
  destruct (codes_le_total (encode i) (encode j)); [left|right]; right; split; auto.
Qed.

#[export] Instance trade_le_trans : Transitive trade_le.
Proof.
  intros [i t] [j u] [k v]. unfold trade_le. simpl. intros [|[? ?]] [|[? ?]]; try (left; lia).
  right. split; [lia|]. by eapply codes_le_trans.
Qed.

Lemma trade_le_key a b : trade_le a b -> trade_le b a -> a.1 = b.1.
Proof.
  intros [|[? H]] [|[? H']]; try lia. apply encode_inj. exact (codes_le_antisym _ _ H H').
Qed.

Lemma trades_for_spec g y s :
  StronglySorted trade_le (trades_for g y s) /\ NoDup (trades_for g y s).*1 /\
  (forall p, p ∈ trades_for g y s <-> db_trades s !! p.1 = Some p.2 /\ live_trade g y p.2 = true).
Proof.
  unfold trades_for. set (l := map_to_list _).
  assert (Hp : merge_sort trade_le l ≡ₚ l) by apply merge_sort_Permutation.
  split; [apply StronglySorted_merge_sort; apply _|]. split.
  - rewrite Hp. apply NoDup_fst_map_to_list.
  - intros [i t]. rewrite Hp. subst l. rewrite elem_of_map_to_list, map_lookup_filter_Some. done.
Qed.

Lemma StronglySorted_fmap_trades (g : trade -> trade) l :
  (forall p, (g p).1 = p.1 /\ t_executed_at (g p).2 = t_executed_at p.2) ->
  StronglySorted trade_le l -> StronglySorted trade_le (g <$> l).
Proof.
  intros Hg. induction 1 as [|p l _ IH HF]; [constructor|]. rewrite fmap_cons. constructor; [done|].
  apply Forall_fmap. eapply Forall_impl; [exact HF|]. intros q Hq. unfold trade_le in *. simpl.
  destruct (Hg p) as [-> ->], (Hg q) as [-> ->]. exact Hq.
Qed.

Lemma live_with_pnl g y d t : live_trade g y (with_pnl d t) = live_trade g y t.
Proof. by destruct d. Qed.

(** Recalculating keeps the rows and their order. *)
Lemma trades_for_updated g y s updates :
  trades_for g y (set_trades (apply_pnl_updates updates) s)
    = (fun p : trade => (p.1, with_pnl (final_pnl updates p.1) p.2)) <$> trades_for g y s.
Proof.
  set (h := fun p : trade => (p.1, with_pnl (final_pnl updates p.1) p.2)).
  set (s' := set_trades (apply_pnl_updates updates) s).
  destruct (trades_for_spec g y s) as (Hs & Hn & He), (trades_for_spec g y s') as (Hs' & Hn' & He').
  assert (Hel : forall p, p ∈ trades_for g y s' <-> p ∈ h <$> trades_for g y s).
  { intros [i t]. rewrite He', list_elem_of_fmap. simpl. rewrite lookup_apply_pnl. split.
    - intros [H Hl]. destruct (db_trades s !! i) as [t0|] eqn:E; [|done]. injection H as <-.
      exists (i, t0). split; [done|]. apply He. simpl. by rewrite live_with_pnl in Hl.
    - intros ([j t0] & [= -> ->] & H%He). simpl in *. destruct H as [-> Hl]. by rewrite live_with_pnl. }
  assert (Hnh : NoDup (h <$> trades_for g y s).*1).
  { rewrite <- list_fmap_compose. by erewrite list_fmap_ext; [exact Hn|]. }
  apply (StronglySorted_unique_strong trade_le); [|exact Hs'| |].
  - intros [i t] [j u] H1 H2 L1 L2. pose proof (trade_le_key _ _ L1 L2) as E. simpl in E. subst j.
    apply Hel, He' in H2. apply He' in H1. simpl in *. destruct H1 as [H1 _], H2 as [H2 _]. congruence.
  - apply StronglySorted_fmap_trades; [|done]. intros [i t]. simpl. by destruct (final_pnl updates i).
  - apply NoDup_Permutation; [by eapply NoDup_fmap_1|by eapply NoDup_fmap_1|exact Hel].
Qed.

Lemma replay_updated all srcs g y s updates :
  replay_trades all srcs dzero dzero (trades_for g y (set_trades (apply_pnl_updates updates) s))
    = replay_trades all srcs dzero dzero (trades_for g y s).
Proof.
  rewrite trades_for_updated. apply replay_ignores_pnl. rewrite <- list_fmap_compose.
  apply list_fmap_ext. intros k [i t] _. unfold strip_pnl. simpl. by destruct (final_pnl updates i).
Qed.

(** ** Properties *)

(** Booking a sequence of fills of one symbol. *)
Fixpoint book_fills (now : Z) (symbol : string) (fills : list fill) : M db unit :=
  match fills with
  | [] => mret tt
  | (n, p, side) :: fills' =>
      _ ← update_position_on_fill_with_conn now symbol n p side; book_fills now symbol fills'
  end.

(** C12. The stored position refines the pure accounting: booking buys and sells at positive
    prices never violates a constraint, leaves exactly the position that
    [calculate_position_update] gives for the sequence, and touches no other symbol. *)
Theorem book_fills_refines now symbol fills : forall s,
  db_wf s -> position_sound s symbol ->
  Forall (fun f => fill_wf f /\ (0 < dval f.1.2)%Q) fills ->
  exists s', book_fills now symbol fills s = (Ok tt, s') /\ db_wf s' /\ position_sound s' symbol /\
    apply_fills (position_state (db_positions s !! symbol)) fills
      = Ok (position_state (db_positions s' !! symbol)) /\
    (forall other, other <> symbol -> db_positions s' !! other = db_positions s !! other).
Proof.
  induction fills as [|[[n p] side] fills IH]; intros s Hwf Hsound HF.
  - exists s. by split_and!.
  - apply Forall_cons in HF as [[[Hside Hn] Hp] HF]. simpl in Hp.
    destruct (update_position_step now symbol n p side s Hwf Hsound Hside Hn Hp)
      as (st' & row & s1 & E & Eu & Hwf1 & Hsound1 & Hpos & Est & _).
    destruct (IH s1 Hwf1 Hsound1 HF) as (s' & Eb & Hwf' & Hsound' & Ea & Hother).
    exists s'. split; [unfold book_fills; fold book_fills; unfold mbind, M_bind; by rewrite Eu|].
    split; [done|]. split; [done|]. split.
    + simpl. rewrite E. simpl. rewrite <- Ea, Hpos, lookup_insert_eq. by rewrite Est.
    + intros other Hne. rewrite Hother, Hpos by done. by rewrite lookup_insert_ne.
Qed.

(** Booking a fill in the order's metadata and the trades: a new fill is appended
    once, the order's total realised profit stays the exact sum over its fills, a real fill supersedes every
    synthetic one, a trade is on record for it, and the constraints hold;
    booking a fill that is already there changes nothing. *)
Theorem append_fill_correct now id fill s r :
  db_wf s -> db_orders s !! id = Some r -> f_fill_id fill <> "" ->
  (has_fill (f_fill_id fill) r = true -> append_fill_to_order_metadata now id fill s = (Ok None, s)) /\
  (has_fill (f_fill_id fill) r = false ->
   exists r' s', append_fill_to_order_metadata now id fill s = (Ok (Some r'), s') /\
     db_wf s' /\ db_orders s' = <[id := r']> (db_orders s) /\
     o_exec r' = o_exec r /\ o_core r' = o_core r /\
     f_fill_id <$> fills_of r' = (f_fill_id <$> fills_of r) ++ [f_fill_id fill] /\
     (ledger_ok r -> ledger_ok r') /\ (f_synthetic fill = false -> synthetic_superseded r') /\
     (strip (f_fill_id fill) <> "" -> dleb (f_fill_qty fill) dzero = false ->
      dleb (f_fill_price fill) dzero = false -> is_Some (db_trades s' !! strip (f_fill_id fill)))).
Proof.
  intros Hwf Hr Hid. split; [by apply append_known|]. intros Hn.
  destruct (append_new now id fill s r Hwf Hr Hid Hn) as (s' & E & Hw & Ho & _ & Ht).
  exists (booked_row now fill r), s'. destruct (booked_exec now fill r).
  split_and!; [done..|apply booked_ids|by apply booked_ledger|apply booked_superseded|done].
Qed.

(** Recalculation is idempotent: running it again with the same arguments gives the same
    counts and leaves every trade as it is. *)
Theorem recalculate_idempotent g y all srcs s n s' :
  recalculate_trade_realized_pnl g y all srcs s = (Ok n, s') ->
  recalculate_trade_realized_pnl g y all srcs s' = (Ok n, s').
Proof.
  unfold recalculate_trade_realized_pnl. run_monad.
  destruct (replay_trades all (default default_update_sources srcs) dzero dzero (trades_for g y s))
    as [us|] eqn:E; [|done]. unfold modify. simpl. intros [= <- <-].
  assert (Hi : apply_pnl_updates us (apply_pnl_updates us (db_trades s)) = apply_pnl_updates us (db_trades s)).
  { apply apply_pnl_idem. eapply sublist_NoDup; [|by eapply replay_ids]. apply trades_for_spec. }
  rewrite replay_updated, E, trades_for_updated, length_fmap. unfold set_trades. simpl. by rewrite Hi.
Qed.

(** ** Witnesses *)

Lemma empty_db_wf : db_wf empty_db.
Proof.
  split; [|split; [|split]]; intros i x Hx; exfalso; exact (lookup_empty_Some (M := gmap _) i x Hx).
Qed.

Lemma book_fills_refines_witness :
  exists s', book_fills 7 "AAPL" sample_fills empty_db = (Ok tt, s') /\
    qty_of (position_state (db_positions s' !! "AAPL")) = -120.
Proof.
  destruct (book_fills_refines 7 "AAPL" sample_fills empty_db) as (s' & E & _ & _ & Ea & _).
  - exact empty_db_wf.
  - by left.
  - repeat (apply Forall_cons; split;
      [split; [split; [first [left; reflexivity|right; reflexivity]|lia]|vm_compute; reflexivity]|]).
    apply Forall_nil. exact I.
  - exists s'. split; [exact E|].
    change (position_state (db_positions empty_db !! "AAPL")) with (0, dzero, dzero) in Ea.
    assert (Hv : match apply_fills (0, dzero, dzero) sample_fills with Ok st => qty_of st | Raise _ => 0 end = -120)
      by (vm_compute; reflexivity).
    rewrite Ea in Hv. exact Hv.
Defined.

Definition sample_fill : fill_rec :=
  {| f_fill_id := "e1"; f_fill_qty := of_int 4; f_fill_price := of_int 150; f_realized_pl := Some dzero;
     f_timestamp := Some 9; f_source := None; f_synthetic := false; f_superseded := false |}.

Lemma append_fill_correct_witness :
  exists r' s', append_fill_to_order_metadata 9 "o1" sample_fill (sample_db (sample_row "accepted" false None))
    = (Ok (Some r'), s') /\ f_fill_id <$> fills_of r' = ["e1"].
Proof.
  destruct (append_fill_correct 9 "o1" sample_fill (sample_db (sample_row "accepted" false None))
    (sample_row "accepted" false None)) as [_ H]; [by apply sample_db_wf|done|done|].
  destruct (H eq_refl) as (r' & s' & E & _ & _ & _ & _ & Hids & _). exists r', s'. exact (conj E Hids).
Defined.

Lemma recalculate_idempotent_witness :
  recalculate_trade_realized_pnl "alpha" "AAPL" true None empty_db = (Ok (0%nat, 0%nat), empty_db).
Proof.
  apply (recalculate_idempotent "alpha" "AAPL" true None empty_db). reflexivity.
Defined.
