(* ===== verification/WebhookSecurity.v ===== *)
(** * Webhook signatures (apps/execution_gateway/webhook_security.py)

    HMAC-SHA256 over the raw body, as [hmac.new(secret, payload, sha256)].
    [hmac.compare_digest] is equality: its timing is not modelled. *)

From S2P Require Import Prelude PyText FillOps.

Open Scope Z_scope.

(** [hmac.new(key, msg, hashlib.sha256).digest()] (RFC 2104, block size 64). *)
Definition xor_pad (b : Z) (key : list Z) : list Z := Z.lxor b <$> key.
Definition hmac_key (key : list Z) : list Z :=
  let k := if (64 <? length key)%nat then Sha256.digest key else key in
  k ++ replicate (64 - length k) 0.
Definition hmac_sha256 (key msg : list Z) : list Z :=
  let k := hmac_key key in
  Sha256.digest (xor_pad 92 k ++ Sha256.digest (xor_pad 54 k ++ msg)).
Definition hex_of (bytes : list Z) : string :=
  of_chars (b ← bytes; [Sha256.hex_digit (b / 16); Sha256.hex_digit (b mod 16)]).

Definition generate_webhook_signature (payload : list Z) (secret : string) : string :=
  hex_of (hmac_sha256 (encode secret) payload).

Definition verify_webhook_signature (payload : list Z) (signature secret : string) : bool :=
  if bool_decide (payload = []) || bool_decide (signature = "") || bool_decide (secret = "") then false
  else bool_decide (generate_webhook_signature payload secret = lower signature).

Definition extract_signature_from_header (header_value : option string) : option string :=
  match header_value with
  | None => None
  | Some h =>
      if bool_decide (h = "") then None
      else if bool_decide (sprefix 7 h = "sha256=") then Some (of_chars (drop 7 (chars h)))
      else Some h
  end.

(** RFC 4231, test case 2. *)
Example hmac_rfc4231 :
  generate_webhook_signature (encode "what do ya want for nothing?") "Jefe"
  = "5bdcc146bf60754e6a042426089575c75a003f089d2739839dec58b964ec3843".
Proof. vm_compute. reflexivity. Qed.

(** ** Lemmas *)

Lemma lower_hex_fixed c : is_lower_hex c = true -> lower_char c = c.
Proof.
  unfold is_lower_hex, is_digit, lower_char. intros H.
  destruct (Z.leb_spec 65 (code c)), (Z.leb_spec (code c) 90); simpl; try done.
  apply orb_true_iff in H as [H|H]; apply andb_true_iff in H as [Ha Hb];
    apply Z.leb_le in Ha, Hb; lia.
Qed.

Lemma lower_fixed s : Forall (fun c => is_lower_hex c = true) (chars s) -> lower s = s.
Proof.
  intros H. unfold lower. apply (inj chars). rewrite chars_of_chars.
  induction H as [|c l Hc _ IH]; [done|]. rewrite fmap_cons, (lower_hex_fixed c Hc). by f_equal.
Qed.

Lemma hex_of_lower bytes :
  Forall (fun b => 0 <= b < 256) bytes -> Forall (fun c => is_lower_hex c = true) (chars (hex_of bytes)).
Proof.
  intros H. unfold hex_of. rewrite chars_of_chars. apply Forall_bind_intro.
  eapply Forall_impl; [exact H|]. intros b Hb. cbv beta in Hb.
  repeat constructor; apply hex_digit_lower.
  - split; [apply Z.div_pos; lia | apply Z.div_lt_upper_bound; lia].
  - apply Z.mod_pos_bound. lia.
Qed.

Lemma signature_lower payload secret :
  Forall (fun c => is_lower_hex c = true) (chars (generate_webhook_signature payload secret)).
Proof. apply hex_of_lower. unfold hmac_sha256. apply digest_range. Qed.

Lemma signature_length payload secret : slen (generate_webhook_signature payload secret) = 64%nat.
Proof.
  unfold generate_webhook_signature, hex_of, slen. rewrite chars_of_chars.
  rewrite (length_bind_const _ 2) by done. unfold hmac_sha256. by rewrite digest_length.
Qed.

Lemma no_prefix_hex s :
  Forall (fun c => is_lower_hex c = true) (chars s) -> sprefix 7 s <> "sha256=".
Proof.
  intros H E. pose proof (sprefix_Forall _ 7 s H) as H'. rewrite E in H'.
  apply Forall_cons in H' as [H' _]. discriminate.
Qed.

(** ** Properties *)

(** Round trip with the header formats: the signature of a body, sent as is, with the
    [sha256=] prefix or in upper case, is extracted and verified; and a
    signature verifies only when its lower-case form is the HMAC of the body under a
    non-empty secret. *)
Theorem signature_roundtrip payload secret signature :
  payload <> [] -> secret <> "" ->
  let sig := generate_webhook_signature payload secret in
  extract_signature_from_header (Some sig) = Some sig /\
  extract_signature_from_header (Some ("sha256=" +:+ sig)) = Some sig /\
  verify_webhook_signature payload sig secret = true /\
  (verify_webhook_signature payload signature secret = true <-> lower signature = sig).
Proof.
  intros Hp Hs sig. pose proof (signature_lower payload secret) as Hl. fold sig in Hl.
  pose proof (signature_length payload secret) as Hlen. fold sig in Hlen.
  assert (Hne : sig <> "") by (intros E; rewrite E in Hlen; discriminate).
  assert (Hv : forall x, verify_webhook_signature payload x secret = true <-> lower x = sig).
  { intros x. unfold verify_webhook_signature. rewrite (bool_decide_eq_false_2 _ Hp), (bool_decide_eq_false_2 _ Hs).
    rewrite orb_false_l, orb_false_r. case_bool_decide as E.
    - subst x. split; [done|]. intros E'. by destruct Hne.
    - rewrite bool_decide_eq_true. fold sig. split; congruence. }
  split; [|split; [|split; [|apply Hv]]].
  - unfold extract_signature_from_header.
    rewrite (bool_decide_eq_false_2 _ Hne), (bool_decide_eq_false_2 _ (no_prefix_hex sig Hl)). reflexivity.
  - unfold extract_signature_from_header. rewrite bool_decide_eq_false_2 by (intros E; discriminate).
    rewrite bool_decide_eq_true_2.
    + exact (f_equal Some (of_chars_chars sig)).
    + unfold sprefix. rewrite chars_app. reflexivity.
  - apply Hv. by apply lower_fixed.
Qed.

Lemma signature_roundtrip_witness :
  verify_webhook_signature (encode "{}") (generate_webhook_signature (encode "{}") "k") "k" = true.
Proof.
  exact (proj1 (proj2 (proj2 (signature_roundtrip (encode "{}") "k" "" ltac:(discriminate) ltac:(discriminate))))).
Defined.
