(* ===== verification/Webhook.v ===== *)
(** * The order webhook (apps/execution_gateway/routes/webhooks.py)

    [handle_order_webhook] from the raw body to the database: signature, fast
    path for status updates, transactional path for fills.  The payload is the
    parsed JSON: a missing, empty or unparsable field is a constructor or
    [None]; timestamps are microseconds, [None] when absent or unparsable.  Metrics and
    the performance cache are left out: they do not touch the database. *)

From S2P Require Import Prelude PyDecimal PyText OrderStatus OrderSchema.
From S2P Require Import PositionMath GatewayDb OrderCas FillOps WebhookSecurity.
From Stdlib Require Import QArith.

Open Scope Z_scope.


(** A JSON value read with [Decimal(str(x))]. *)
Inductive num_field : Type :=
| NumAbsent
| NumEmpty
| NumBad
| Num (d : decimal).

(** [Decimal(str(x))] on a field that is present. *)
Definition to_decimal (f : num_field) : result decimal :=
  match f with Num d => Ok d | _ => Raise InvalidOperation end.

(** The [if x] of a number or a numeric string; ["0"] and [0] both read as zero. *)
Definition truthy (f : num_field) : bool :=
  match f with NumAbsent | NumEmpty => false | _ => true end.

Record webhook_payload : Type := {
  w_event : option string;
  w_execution_id : option string;
  w_timestamp : option Z;
  w_filled_at : option Z;
  w_price : num_field;
  w_client_order_id : option string;
  w_broker_order_id : option string;
  w_status : string;
  w_filled_qty : num_field;
  w_filled_avg_price : num_field;
  w_order_updated_at : option Z;
  w_order_created_at : option Z;
  w_order_filled_at : option Z;
}.

(** The request body after [request.json()]. *)
Inductive webhook_body : Type :=
| NotJson
| NotObject
| Payload (p : webhook_payload).

Inductive webhook_response : Type :=
| Processed (client_order_id : string)
| Ignored (reason : string)
| HttpError (status_code : Z).

Definition parse_webhook_timestamp (timestamps : list (option Z)) (dflt : Z) : Z :=
  default dflt (head (omap id timestamps)).

Definition is_fill_event (p : webhook_payload) : bool :=
  match w_event p with Some e => one_of e ["fill"; "partial_fill"] | None => false end.

Definition present (f : num_field) : bool := match f with NumAbsent => false | _ => true end.

(** Lines 168-209: status updates. *)
Definition handle_status_update (now : Z) (p : webhook_payload) (client_order_id : string)
    : M db webhook_response :=
  existing_order ← get_order_by_client_id client_order_id;
  if match existing_order with Some o => bool_decide (o_status (o_exec o) = "replaced") | None => false end
  then mret (Ignored "order_replaced")
  else
    let broker_updated_at := parse_webhook_timestamp
      [w_order_updated_at p; w_timestamp p; w_order_created_at p] now in
    filled_qty ← lift (if truthy (w_filled_qty p) then to_decimal (w_filled_qty p) else Ok dzero);
    filled_avg_price ← lift (if truthy (w_filled_avg_price p)
                             then Some <$> to_decimal (w_filled_avg_price p) else Ok None);
    updated_order ← transaction (update_order_status_cas now client_order_id
      {| u_status := w_status p; u_broker_updated_at := broker_updated_at;
         u_status_rank := status_rank_for (w_status p);
         u_source_priority := SOURCE_PRIORITY_WEBHOOK; u_filled_qty := Some filled_qty;
         u_filled_avg_price := filled_avg_price; u_filled_at := None;
         u_broker_order_id := w_broker_order_id p; u_broker_event_id := w_execution_id p;
         u_error_message := None |});
    match updated_order with
    | None => mret (Ignored "order_not_found")
    | Some _ => mret (Processed client_order_id)
    end.

(** The per-fill price falls back to the average price. *)
Definition per_fill_price (price : num_field) (filled_avg_price : decimal) : decimal :=
  match price with Num d => d | _ => filled_avg_price end.

Definition fill_data (client_order_id : string) (filled_qty : decimal) (incremental : Z)
    (price realized_delta : decimal) (fill_timestamp : Z) : fill_rec :=
  {| f_fill_id := client_order_id +:+ "_" +:+ str_int (dint filled_qty);
     f_fill_qty := of_int incremental; f_fill_price := price; f_realized_pl := Some realized_delta;
     f_timestamp := Some fill_timestamp; f_source := None; f_synthetic := false; f_superseded := false |}.

(** The parsed arguments of a fill: lines 211-245. *)
Record fill_event : Type := {
  e_client_order_id : string;
  e_broker_order_id : option string;
  e_status : string;
  e_filled_qty : decimal;
  e_filled_avg_price : decimal;
  e_price : decimal;
  e_fill_timestamp : Z;
  e_broker_updated_at : Z;
  e_execution_id : option string;
}.

Definition parse_fill (now : Z) (p : webhook_payload) (client_order_id : string) : result fill_event :=
  filled_qty ← to_decimal (w_filled_qty p);
  filled_avg_price ← to_decimal (w_filled_avg_price p);
  let fill_timestamp := parse_webhook_timestamp [w_timestamp p; w_filled_at p; w_order_filled_at p] now in
  Ok {| e_client_order_id := client_order_id; e_broker_order_id := w_broker_order_id p;
        e_status := w_status p; e_filled_qty := filled_qty; e_filled_avg_price := filled_avg_price;
        e_price := per_fill_price (w_price p) filled_avg_price; e_fill_timestamp := fill_timestamp;
        e_broker_updated_at := parse_webhook_timestamp
          [w_order_updated_at p; w_timestamp p; w_order_filled_at p] fill_timestamp;
        e_execution_id := w_execution_id p |}.

Definition incremental_fill (e : fill_event) (order : order_row) : Z :=
  dint (e_filled_qty e) - dint (opt_dec (o_filled_qty (o_exec order))).

(** Lines 286-311: position, then fill metadata. *)
Definition book_fill (now : Z) (e : fill_event) (order : order_row) : M db unit :=
  let symbol := o_symbol (o_core order) in
  position_locked ← get_position_for_update symbol;
  let old_realized := match position_locked with Some p => p_realized_pl p | None => dzero end in
  position ← update_position_on_fill_with_conn now symbol (incremental_fill e order) (e_price e)
               (o_side (o_core order));
  let realized_delta := dsub (p_realized_pl position) old_realized in
  _ ← append_fill_to_order_metadata now (e_client_order_id e)
        (fill_data (e_client_order_id e) (e_filled_qty e) (incremental_fill e order) (e_price e)
           realized_delta (e_fill_timestamp e));
  mret tt.

Definition fill_update (e : fill_event) : cas_update :=
  {| u_status := e_status e; u_broker_updated_at := e_broker_updated_at e;
     u_status_rank := status_rank_for (e_status e); u_source_priority := SOURCE_PRIORITY_WEBHOOK;
     u_filled_qty := Some (e_filled_qty e); u_filled_avg_price := Some (e_filled_avg_price e);
     u_filled_at := if bool_decide (e_status e = "filled") then Some (e_fill_timestamp e) else None;
     u_broker_order_id := e_broker_order_id e; u_broker_event_id := e_execution_id e;
     u_error_message := None |}.

(** Lines 247-337: the body of the transaction. *)
Definition process_fill (now : Z) (e : fill_event) : M db webhook_response :=
  order ← get_order_for_update (e_client_order_id e);
  match order with
  | None => mret (Ignored "order_not_found")
  | Some order =>
      if bool_decide (o_status (o_exec order) = "replaced") then mret (Ignored "order_replaced")
      else
        _ ← lift (dfractional (e_filled_qty e));
        _ ← lift (dfractional (opt_dec (o_filled_qty (o_exec order))));
        _ ← (if 0 <? incremental_fill e order then book_fill now e order else mret tt);
        _ ← update_order_status_with_conn now (e_client_order_id e) (e_status e) (Some (e_filled_qty e))
              (e_filled_avg_price e)
              (if bool_decide (e_status e = "filled") then Some (e_fill_timestamp e) else None)
              (e_broker_order_id e) (Some (e_broker_updated_at e))
              (Some (status_rank_for (e_status e))) (Some SOURCE_PRIORITY_WEBHOOK) (e_execution_id e);
        mret (Processed (e_client_order_id e))
  end.

Definition handle_payload (now : Z) (p : webhook_payload) : M db webhook_response :=
  match w_client_order_id p with
  | None => mret (Ignored "missing_client_order_id")
  | Some client_order_id =>
      if bool_decide (client_order_id = "") then mret (Ignored "missing_client_order_id")
      else if negb (is_fill_event p) || negb (present (w_filled_qty p))
              || negb (present (w_filled_avg_price p))
      then handle_status_update now p client_order_id
      else
        e ← lift (parse_fill now p client_order_id);
        transaction (process_fill now e)
  end.

(** The [except] clauses: parsing errors are answered with 400, a lost database
    with 500, the rest propagates. *)
Definition catch_errors (m : M db webhook_response) : M db webhook_response := fun s =>
  match m s with
  | (Raise (KeyError _), s') | (Raise (TypeError _), s') | (Raise (ValueError _), s')
  | (Raise InvalidOperation, s') =>
      (Ok (HttpError 400), s')
  | (Raise (OperationalError _), s') => (Ok (HttpError 500), s')
  | r => r
  end.

(** Lines 92-131: [None] when the request is authentic, the error answer otherwise. *)
Definition authenticate (secret environment : string) (signature_header : option string)
    (body : list Z) : option webhook_response :=
  if negb (bool_decide (secret = "")) then
    match extract_signature_from_header signature_header with
    | None => Some (HttpError 401)
    | Some signature =>
        if bool_decide (signature = "") then Some (HttpError 401)
        else if verify_webhook_signature body signature secret then None else Some (HttpError 401)
    end
  else if one_of environment ["dev"; "test"] then None else Some (HttpError 503).

Section handler.
(** [request.json()]: the JSON decoder of the web framework. *)
Context (parse_json : list Z -> webhook_body).

Definition handle_order_webhook (now : Z) (secret environment : string)
    (signature_header : option string) (body : list Z) : M db webhook_response :=
  match authenticate secret environment signature_header body with
  | Some err => mret err
  | None =>
      match parse_json body with
      | NotJson => mret (HttpError 400)
      | NotObject => mret (HttpError 400)
      | Payload p => catch_errors (handle_payload now p)
      end
  end.
End handler.

(** ** Booking *)

Lemma book_fill_run now e s r :
  db_wf s -> db_orders s !! e_client_order_id e = Some r -> e_client_order_id e <> "" ->
  position_sound s (o_symbol (o_core r)) -> (0 < dval (e_price e))%Q -> 0 <= incremental_fill e r ->
  exists r1 s1, book_fill now e r s = (Ok tt, s1) /\ db_wf s1 /\
    position_sound s1 (o_symbol (o_core r)) /\
    qty_of (position_state (db_positions s1 !! o_symbol (o_core r))) =
      qty_of (position_state (db_positions s !! o_symbol (o_core r)))
      + signed_fill (o_side (o_core r)) (incremental_fill e r) /\
    db_orders s1 = <[e_client_order_id e := r1]> (db_orders s) /\
    o_exec r1 = o_exec r /\ o_core r1 = o_core r /\
    has_fill (e_client_order_id e +:+ "_" +:+ str_int (dint (e_filled_qty e))) r1 = true.
Proof.
  intros Hwf Hr Hid Hsound Hp Hn. set (sym := o_symbol (o_core r)) in *.
  assert (Hside : is_side (o_side (o_core r))).
  { pose proof (proj1 Hwf _ r Hr) as Hv. apply order_valid_spec in Hv as (Hc & _).
    unfold order_checks in Hc. cbv zeta in Hc. boolify.
    match goal with H : one_of (o_side _) _ = true |- _ => apply one_of_spec in H; revert H end.
    unfold is_side. rewrite !elem_of_cons. intros [|[|H]]; [auto|auto|by apply elem_of_nil in H]. }
  destruct (update_position_step now sym (incremental_fill e r) (e_price e) (o_side (o_core r)) s
    Hwf Hsound Hside Hn Hp) as (st' & row & s0 & Ec & Eu & Hwf0 & Hs0 & Hpos & Est & Ho).
  unfold book_fill. fold sym. unfold mbind at 1, M_bind at 1, get_position_for_update, reads.
  unfold mbind at 1, M_bind at 1. rewrite Eu. cbv zeta.
  set (fd := fill_data _ _ _ _ _ _).
  assert (Hr0 : db_orders s0 !! e_client_order_id e = Some r) by (by rewrite Ho).
  assert (Hfid : f_fill_id fd = e_client_order_id e +:+ "_" +:+ str_int (dint (e_filled_qty e))) by done.
  assert (Hne : f_fill_id fd <> "") by (rewrite Hfid; by destruct (e_client_order_id e)).
  assert (Hq : qty_of (position_state (db_positions s0 !! sym)) =
    qty_of (position_state (db_positions s !! sym)) + signed_fill (o_side (o_core r)) (incremental_fill e r)).
  { destruct (update_step (position_state (db_positions s !! sym)) (incremental_fill e r) (e_price e) _ Hside Hn)
      as (st'' & Ec' & Hq & _). rewrite Ec in Ec'. injection Ec' as <-.
    by rewrite Hpos, lookup_insert_eq, Est. }
  destruct (has_fill (f_fill_id fd) r) eqn:Ef.
  - exists r, s0. unfold mbind, M_bind. rewrite (append_known now _ fd s0 r Hr0 Ef).
    rewrite Hfid in Ef. split_and!; try done. by rewrite insert_id.
  - destruct (append_new now _ fd s0 r Hwf0 Hr0 Hne Ef) as (s1 & E1 & Hwf1 & Ho1 & Hp1 & _).
    exists (booked_row now fd r), s1. unfold mbind, M_bind. rewrite E1.
    destruct (booked_exec now fd r) as [Ex Eco].
    split_and!; try done.
    + unfold position_sound. by rewrite Hp1.
    + by rewrite Hp1.
    + by rewrite Ho1, Ho.
    + unfold has_fill. rewrite booked_ids, <- Hfid. apply bool_decide_eq_true_2, elem_of_app. right. by left.
Qed.

Lemma fits_exec r r1 u : o_exec r1 = o_exec r -> fits r u -> fits r1 u.
Proof. unfold fits. by intros ->. Qed.

(** The preconditions of a fill: a live order, a sane price, an increment. *)
Definition fill_ready (e : fill_event) (s : db) (r : order_row) : Prop :=
  db_wf s /\ db_orders s !! e_client_order_id e = Some r /\ e_client_order_id e <> "" /\
  o_status (o_exec r) <> "replaced" /\ position_sound s (o_symbol (o_core r)) /\
  (0 < dval (e_price e))%Q /\ fits r (fill_update e) /\
  (exists b, dfractional (e_filled_qty e) = Ok b) /\
  (exists b, dfractional (opt_dec (o_filled_qty (o_exec r))) = Ok b) /\
  0 < incremental_fill e r.

Definition cas_accepts (e : fill_event) (r : order_row) : bool :=
  cas_unlocked (o_exec r) && cas_newer (fill_update e) (o_exec r).

Definition position_qty (s : db) (symbol : string) : Z :=
  qty_of (position_state (db_positions s !! symbol)).

Definition fill_id_of (e : fill_event) : string :=
  e_client_order_id e +:+ "_" +:+ str_int (dint (e_filled_qty e)).

(** A ready fill is processed: the position moves by the increment, the fill is
    recorded, and the order row is updated when the conflict resolution accepts it. *)
Lemma process_fill_run now e s r :
  fill_ready e s r ->
  exists r1 s2, process_fill now e s = (Ok (Processed (e_client_order_id e)), s2) /\
    o_exec r1 = o_exec r /\ o_core r1 = o_core r /\ has_fill (fill_id_of e) r1 = true /\
    db_orders s2 !! e_client_order_id e =
      Some (if cas_accepts e r then set_exec now (cas_apply (fill_update e)) r1 else r1) /\
    db_wf s2 /\ position_sound s2 (o_symbol (o_core r)) /\
    position_qty s2 (o_symbol (o_core r)) =
      position_qty s (o_symbol (o_core r)) + signed_fill (o_side (o_core r)) (incremental_fill e r).
Proof.
  intros (Hwf & Hr & Hid & Hst & Hsound & Hp & Hfit & [b1 Hf1] & [b2 Hf2] & Hinc).
  destruct (book_fill_run now e s r Hwf Hr Hid Hsound Hp ltac:(lia))
    as (r1 & s1 & Eb & Hwf1 & Hs1 & Hq & Ho & Hex & Hco & Hfill).
  assert (Hr1 : db_orders s1 !! e_client_order_id e = Some r1) by (by rewrite Ho, lookup_insert_eq).
  pose proof (cas_run now (e_client_order_id e) (fill_update e) s1 r1 Hr1) as Hcas. rewrite Hex in Hcas.
  fold (cas_accepts e r) in Hcas.
  assert (Hproc : process_fill now e s =
    (_ ← update_order_status_cas now (e_client_order_id e) (fill_update e);
     mret (Processed (e_client_order_id e))) s1).
  { unfold process_fill, get_order_for_update, get_order_by_client_id, reads. unfold mbind at 1, M_bind at 1.
    rewrite Hr, bool_decide_eq_false_2 by done. unfold lift. unfold mbind at 1, M_bind at 1. rewrite Hf1.
    unfold mbind at 1, M_bind at 1. rewrite Hf2. unfold mbind at 1, M_bind at 1.
    destruct (Z.ltb_spec 0 (incremental_fill e r)); [|lia]. by rewrite Eb. }
  rewrite Hproc. unfold mbind, M_bind. rewrite Hcas.
  destruct (cas_accepts e r).
  - rewrite (cas_valid _ _ _ _ _ (proj1 Hwf1) Hr1 (fits_exec _ _ _ Hex Hfit)).
    eexists r1, _. split; [reflexivity|]. split_and!; try done.
    + simpl. by rewrite lookup_insert_eq.
    + apply db_wf_set_orders; [done|]. apply cas_valid; [apply Hwf1|done|by eapply fits_exec].
  - exists r1, s1. by split_and!.
Qed.

(** What a rejected or fully applied event does: nothing. *)
Lemma process_fill_noop now e s r :
  db_orders s !! e_client_order_id e = Some r -> incremental_fill e r <= 0 -> cas_accepts e r = false ->
  snd (process_fill now e s) = s.
Proof.
  intros Hr Hinc Hc. unfold process_fill, get_order_for_update, get_order_by_client_id, reads, lift.
  unfold mbind at 1, M_bind at 1. rewrite Hr. case_bool_decide; [done|].
  unfold mbind at 1, M_bind at 1. destruct (dfractional (e_filled_qty e)); [|done].
  unfold mbind at 1, M_bind at 1. destruct (dfractional (opt_dec (o_filled_qty (o_exec r)))); [|done].
  unfold mbind at 1, M_bind at 1. destruct (Z.ltb_spec 0 (incremental_fill e r)); [lia|].
  pose proof (cas_run now (e_client_order_id e) (fill_update e) s r Hr) as Hcas.
  fold (cas_accepts e r) in Hcas. rewrite Hc in Hcas.
  change (snd ((_ ← update_order_status_cas now (e_client_order_id e) (fill_update e);
     mret (Processed (e_client_order_id e))) s) = s).
  unfold mbind, M_bind. by rewrite Hcas.
Qed.

Lemma cas_row_no_increment now e r1 :
  incremental_fill e (set_exec now (cas_apply (fill_update e)) r1) <= 0.
Proof.
  change (dint (e_filled_qty e) - dint (greatest (o_filled_qty (o_exec r1)) (e_filled_qty e)) <= 0).
  pose proof (dint_mono _ _ (greatest_ge (o_filled_qty (o_exec r1)) (e_filled_qty e))). lia.
Qed.

(** ** Properties *)

(** C2. Exactly once, in order: when the conflict resolution accepts a fill event,
    the position moves by exactly the newly filled whole shares, the fill is recorded and the
    order's filled quantity advances; delivering the same event again changes nothing. *)
Theorem accepted_fill_exactly_once now now' e s r :
  fill_ready e s r -> cas_accepts e r = true ->
  exists r' s', process_fill now e s = (Ok (Processed (e_client_order_id e)), s') /\
    db_orders s' !! e_client_order_id e = Some r' /\ has_fill (fill_id_of e) r' = true /\
    o_status (o_exec r') = e_status e /\
    o_filled_qty (o_exec r') = Some (greatest (o_filled_qty (o_exec r)) (e_filled_qty e)) /\
    position_qty s' (o_symbol (o_core r)) =
      position_qty s (o_symbol (o_core r)) + signed_fill (o_side (o_core r)) (incremental_fill e r) /\
    snd (process_fill now' e s') = s'.
Proof.
  intros Hready Hacc.
  destruct (process_fill_run now e s r Hready) as (r1 & s' & E & Hex & Hco & Hf & Hr' & Hwf & _ & Hq).
  rewrite Hacc in Hr'. exists (set_exec now (cas_apply (fill_update e)) r1), s'.
  split_and!; try done; [by simpl; rewrite Hex|].
  apply (process_fill_noop now' e s' _ Hr'); [apply cas_row_no_increment|].
  unfold cas_accepts. cbn [set_exec o_exec]. by rewrite cas_apply_not_newer, andb_false_r.
Qed.

(** When the conflict resolution rejects a fill event (it arrives late, or the
    order is locked), the handler still moves the position while the order's
    filled quantity stays: each redelivery moves the position again, although
    the fill is recorded only once and every delivery is answered with success. *)
Theorem rejected_fill_counted_again now now' e s r :
  fill_ready e s r -> cas_accepts e r = false ->
  exists s1 s2, process_fill now e s = (Ok (Processed (e_client_order_id e)), s1) /\
    process_fill now' e s1 = (Ok (Processed (e_client_order_id e)), s2) /\
    position_qty s2 (o_symbol (o_core r)) =
      position_qty s (o_symbol (o_core r)) + 2 * signed_fill (o_side (o_core r)) (incremental_fill e r) /\
    (exists r2, db_orders s2 !! e_client_order_id e = Some r2 /\ o_exec r2 = o_exec r).
Proof.
  intros Hready Hrej.
  destruct (process_fill_run now e s r Hready) as (r1 & s1 & E & Hex & Hco & Hf & Hr1 & Hwf & Hs & Hq).
  rewrite Hrej in Hr1.
  assert (Hready1 : fill_ready e s1 r1).
  { destruct Hready as (_ & _ & Hid & Hst & _ & Hp & Hfit & Hf1 & Hf2 & Hinc).
    unfold fill_ready, incremental_fill in *. rewrite Hex, Hco. split_and!; try done. by eapply fits_exec. }
  destruct (process_fill_run now' e s1 r1 Hready1) as (r2 & s2 & E2 & Hex2 & _ & _ & Hr2 & _ & _ & Hq2).
  assert (Hrej1 : cas_accepts e r1 = false) by (unfold cas_accepts; by rewrite Hex).
  rewrite Hrej1 in Hr2. exists s1, s2. split_and!; try done.
  - rewrite Hco in Hq2. rewrite Hq2, Hq. unfold incremental_fill. rewrite Hex. lia.
  - exists r2. split; [done|]. by rewrite Hex2.
Qed.

Definition processed (r : result webhook_response) : Prop :=
  match r with Ok (Processed _) => True | _ => False end.

Lemma update_order_none id cond f s s' : update_order id cond f s = (Ok None, s') -> s' = s.
Proof.
  unfold update_order. run_monad. destruct (db_orders s !! id) as [r|]; [|by intros [= <-]].
  destruct (cond r); [|by intros [= <-]]. by destruct (order_valid _ _ _).
Qed.

Lemma lift_inv {S A} (x : result A) (s : S) r s' : lift x s = (r, s') -> r = x /\ s' = s.
Proof. unfold lift. by intros [= <- <-]. Qed.

Ltac inv_bind H a s1 H1 :=
  apply M_bind_inv in H as [(a & s1 & H1 & H)|(? & H1 & ?)].

Lemma status_update_unchanged now p cid s r s' :
  handle_status_update now p cid s = (r, s') -> ~ processed r -> s' = s.
Proof.
  intros H Hn. unfold handle_status_update in H.
  inv_bind H o s1 H1; [|discriminate]. injection H1 as <- <-.
  case_match; [by injection H as <- <-|]. cbv zeta in H.
  inv_bind H q s1 H1; apply lift_inv in H1 as [_ ->]; [|done].
  inv_bind H a s1 H1; apply lift_inv in H1 as [_ ->]; [|done].
  inv_bind H u s1 H1; unfold transaction in H1;
    destruct (update_order_status_cas _ _ _ s) as [[o2|x2] s2] eqn:E; simplify_eq; [|done].
  destruct u as [r'|]; injection H as <- <-; [by destruct (Hn I)|]. by apply update_order_none in E.
Qed.

(** The answers that leave [process_fill] without a change. *)
Lemma process_fill_answer now e s r s' :
  process_fill now e s = (Ok r, s') -> (exists c, r = Processed c) \/ ((exists why, r = Ignored why) /\ s' = s).
Proof.
  intros H. unfold process_fill in H. inv_bind H o s1 H1; [|done]. injection H1 as <- <-.
  destruct (db_orders s !! _) as [o|]; [|injection H as <- <-; right; eauto].
  case_bool_decide; [injection H as <- <-; right; eauto|].
  do 4 (apply M_bind_inv in H as [(? & ? & _ & H)|(? & _ & ?)]; [|done]).
  injection H as <- <-. left. eauto.
Qed.

Lemma handle_payload_unchanged now p s r s' :
  handle_payload now p s = (r, s') -> ~ processed r -> s' = s.
Proof.
  unfold handle_payload. destruct (w_client_order_id p) as [cid|]; [|by intros [= <- <-]].
  case_bool_decide; [by intros [= <- <-]|]. case_match; [apply status_update_unchanged|].
  unfold lift. unfold mbind at 1, M_bind at 1. destruct (parse_fill now p cid) as [e|x]; [|by intros [= <- <-]].
  unfold transaction. destruct (process_fill now e s) as [[[c|reason|c]|x] s1] eqn:E; intros [= <- <-]; try done.
  - intros _. by apply process_fill_answer in E as [[c [=]]|[_ ->]].
  - by apply process_fill_answer in E as [[c' [=]]|[[why [=]] _]].
Qed.


(** Nobody without the secret gets through: with a secret configured, a request
    whose signature is missing or is not the HMAC of the body is answered 401; without
    one, only the dev and test environments are served. In both cases the
    payload is not parsed and the database is unchanged. *)
Theorem webhook_authenticated parse_json now secret env header body s :
  match authenticate secret env header body with
  | Some err =>
      (err = HttpError 401 \/ err = HttpError 503) /\
      handle_order_webhook parse_json now secret env header body s = (Ok err, s)
  | None =>
      (secret = "" /\ env ∈ ["dev"; "test"]) \/
      exists signature, extract_signature_from_header header = Some signature /\
        lower signature = generate_webhook_signature body secret
  end.
Proof.
  unfold handle_order_webhook. destruct (authenticate secret env header body) as [err|] eqn:E.
  - split; [|done]. unfold authenticate in E. repeat case_match; simplify_eq; auto.
  - unfold authenticate in E. rewrite negb_if in E. case_bool_decide as Hs.
    + left. split; [done|]. apply one_of_spec. by destruct (one_of env ["dev"; "test"]).
    + right. destruct (extract_signature_from_header header) as [signature|]; [|done].
      exists signature. split; [done|]. case_bool_decide; [done|].
      destruct (verify_webhook_signature body signature secret) eqn:Ev; [|done].
      unfold verify_webhook_signature in Ev. case_match; [done|]. by apply bool_decide_eq_true in Ev.
Qed.

(** ** Witnesses *)

Definition sample_event (t : Z) : fill_event :=
  {| e_client_order_id := "o1"; e_broker_order_id := Some "b1"; e_status := "partially_filled";
     e_filled_qty := of_int 4; e_filled_avg_price := of_int 150; e_price := of_int 150;
     e_fill_timestamp := t; e_broker_updated_at := t; e_execution_id := None |}.

Lemma sample_ready t :
  fill_ready (sample_event t) (sample_db (sample_row "accepted" false (Some 10)))
    (sample_row "accepted" false (Some 10)).
Proof.
  split; [apply sample_db_wf; reflexivity|]. split; [reflexivity|]. split; [discriminate|].
  split; [discriminate|]. split; [left; split; reflexivity|]. split; [reflexivity|].
  split; [split; [reflexivity|split; reflexivity]|].
  split; [eexists; reflexivity|]. split; [eexists; reflexivity|]. reflexivity.
Qed.

Lemma accepted_fill_exactly_once_witness :
  exists r' s', process_fill 50 (sample_event 20) (sample_db (sample_row "accepted" false (Some 10)))
    = (Ok (Processed "o1"), s') /\ db_orders s' !! "o1" = Some r' /\ position_qty s' "AAPL" = 4.
Proof.
  destruct (accepted_fill_exactly_once 50 51 _ _ _ (sample_ready 20) eq_refl)
    as (r' & s' & E & Hr & _ & _ & _ & Hq & _).
  exists r', s'. exact (conj E (conj Hr Hq)).
Defined.

Lemma rejected_fill_counted_again_witness :
  exists s1 s2, process_fill 50 (sample_event 5) (sample_db (sample_row "accepted" false (Some 10)))
    = (Ok (Processed "o1"), s1) /\
    process_fill 51 (sample_event 5) s1 = (Ok (Processed "o1"), s2) /\ position_qty s2 "AAPL" = 8.
Proof.
  destruct (rejected_fill_counted_again 50 51 _ _ _ (sample_ready 5) eq_refl)
    as (s1 & s2 & E1 & E2 & Hq & _).
  exists s1, s2. exact (conj E1 (conj E2 Hq)).
Defined.
