(* ===== verification/Redis.v ===== *)
(** * Redis data structures the risk components keep their state in

    Lists ([LRANGE], [LTRIM]) with Redis' signed indices, and sorted sets
    ([ZADD], [ZREM], [ZREVRANGE], [ZREMRANGEBYRANK]) as lists ordered by
    score.  A key that holds a JSON object is an [option] of a record; a JSON
    key that may be absent from the object is an [option] of an [option]. *)

From S2P Require Import Prelude.
Open Scope Z_scope.

(** A flat JSON object. *)
Definition json_dict : Type := gmap string string.

(** A Redis index: negative ones count from the end. *)
Definition redis_index (len i : Z) : Z := if i <? 0 then len + i else i.

(** [LRANGE key start stop] (inclusive ends, out of range is clipped). *)
Definition lrange {A} (l : list A) (start stop : Z) : list A :=
  let len := Z.of_nat (length l) in
  let s := Z.max 0 (redis_index len start) in
  let e := redis_index len stop in
  take (Z.to_nat (e + 1 - s)) (drop (Z.to_nat s) l).

(** [LTRIM key start stop] keeps what [LRANGE] would return. *)
Definition ltrim {A} (l : list A) (start stop : Z) : list A := lrange l start stop.

Lemma lrange_all {A} (l : list A) : lrange l 0 (-1) = l.
Proof.
  unfold lrange, redis_index. simpl. apply take_ge. lia.
Qed.

Lemma lrange_last {A} (n : nat) (l : list A) :
  (0 < n)%nat -> lrange l (- Z.of_nat n) (-1) = last_n n l.
Proof.
  intros Hn. unfold lrange, last_n, redis_index.
  destruct (- Z.of_nat n <? 0) eqn:E; [|apply Z.ltb_ge in E; lia].
  replace (Z.to_nat (Z.max 0 (Z.of_nat (length l) + - Z.of_nat n))) with (length l - n)%nat by lia.
  apply take_ge. rewrite length_drop. simpl. lia.
Qed.

Lemma lrange_first {A} (n : nat) (l : list A) :
  (0 < n)%nat -> lrange l 0 (Z.of_nat n - 1) = take n l.
Proof.
  intros Hn. unfold lrange, redis_index. simpl.
  destruct (Z.of_nat n - 1 <? 0) eqn:E; [apply Z.ltb_lt in E; lia|]. f_equal. lia.
Qed.

Lemma last_n_app {A} (n : nat) (l k : list A) :
  last_n n (last_n n l ++ k) = last_n n (l ++ k).
Proof.
  unfold last_n. rewrite !length_app, length_drop.
  destruct (decide (n <= length l)%nat) as [Hle|Hgt].
  - rewrite !drop_app, drop_drop, length_drop.
    replace (length l - n + (length l - (length l - n) + length k - n))%nat
      with (length l + length k - n)%nat by lia.
    f_equal. f_equal. lia.
  - replace (length l - n)%nat with 0%nat by lia. simpl.
    by replace (length l - 0 + length k - n)%nat with (length l + length k - n)%nat by lia.
Qed.

Lemma last_n_all {A} (n : nat) (l : list A) : (length l <= n)%nat -> last_n n l = l.
Proof. intros H. unfold last_n. by replace (length l - n)%nat with 0%nat by lia. Qed.

(** ** Sorted sets: ascending by score; [before] orders members of equal score *)
Section sorted_set.
Context {A : Type} `{EqDecision A} (before : A -> A -> bool).

Abbreviation zset := (list (Z * A)).

Definition z_before (x y : Z * A) : bool :=
  (x.1 <? y.1) || ((x.1 =? y.1) && before x.2 y.2).

Fixpoint zinsert (x : Z * A) (z : zset) : zset :=
  match z with
  | [] => [x]
  | y :: z' => if z_before x y then x :: y :: z' else y :: zinsert x z'
  end.

Definition zrem (m : A) (z : zset) : zset := filter (fun x => x.2 <> m) z.
Definition zadd (m : A) (score : Z) (z : zset) : zset := zinsert (score, m) (zrem m z).
Definition zcard (z : zset) : Z := Z.of_nat (length z).
(** [ZREVRANGE key start stop WITHSCORES] *)
Definition zrevrange (z : zset) (start stop : Z) : zset := lrange (reverse z) start stop.
(** [ZREMRANGEBYRANK key 0 stop] for [stop >= 0] *)
Definition zremrangebyrank (z : zset) (stop : Z) : zset := drop (Z.to_nat (stop + 1)) z.

Lemma zinsert_perm x z : zinsert x z ≡ₚ x :: z.
Proof.
  induction z as [|y z IH]; simpl; [done|]. destruct (z_before x y); [done|].
  rewrite IH. constructor.
Qed.

Lemma zadd_perm m s z : zadd m s z ≡ₚ (s, m) :: zrem m z.
Proof. apply zinsert_perm. Qed.

Lemma zrem_notin m z : m ∉ z.*2 -> zrem m z = z.
Proof.
  intros Hm. unfold zrem. induction z as [|y z IH]; [done|].
  rewrite filter_cons, decide_True.
  - rewrite IH; [done|]. intros H. apply Hm. simpl. by right.
  - intros E. apply Hm. rewrite <- E. simpl. by left.
Qed.

(** A member above every score goes last. *)
Lemma zinsert_last x z : Forall (fun y => y.1 < x.1) z -> zinsert x z = z ++ [x].
Proof.
  induction 1 as [|y z Hy _ IH]; simpl; [done|].
  destruct (z_before x y) eqn:E; [|by rewrite IH].
  unfold z_before in E. apply orb_true_iff in E as [E|E]; boolify; lia.
Qed.

Lemma zrem_sub m z P : Forall P z -> Forall P (zrem m z).
Proof.
  intros H. apply Forall_forall. intros x Hx. unfold zrem in Hx.
  apply list_elem_of_filter in Hx as [_ Hx]. by eapply Forall_forall.
Qed.
End sorted_set.

Abbreviation zset A := (list (Z * A)).
