(* ===== verification/RedisClient.v ===== *)
(** * The Redis client (libs/core/redis_client/client.py)

    The string commands with the retry decorator around them: a command whose
    connection is lost or times out is sent again, three times at most, and a
    lost command may or may not have been executed; another Redis error is
    re-raised at once.  When the attempts are used up, tenacity raises its own
    [RetryError], which is not a [RedisError].  The network is an argument: the
    fate of every attempt, in the order they are made. *)

From S2P Require Import Prelude PyDecimal OrderSchema.
Open Scope Z_scope.

Inductive attempt :=
| Served
| Lost (executed : bool)
| Refused.

(** A value and the time it expires at, in microseconds. *)
Abbreviation keyspace := (gmap string (string * option Z)).

Record redis_state := { rs_keys : keyspace; rs_attempts : nat }.

Definition network : Type := nat -> attempt.

Definition next_attempt (f : keyspace -> keyspace) (s : redis_state) : redis_state :=
  {| rs_keys := f (rs_keys s); rs_attempts := S (rs_attempts s) |}.

(** [stop_after_attempt(3)] *)
Definition MAX_ATTEMPTS : nat := 3.

(** [@retry(retry=retry_if_exception_type((ConnectionError, TimeoutError)))] around one command. *)
Fixpoint attempts {A} (net : network) (left : nat) (op : keyspace -> A * keyspace) : M redis_state A :=
  match left with
  | O => raise RetryError
  | S left' => fun s =>
      match net (rs_attempts s) with
      | Served => (Ok (fst (op (rs_keys s))), next_attempt (fun k => snd (op k)) s)
      | Lost executed =>
          attempts net left' op (next_attempt (fun k => if executed then snd (op k) else k) s)
      | Refused => (Raise RedisError, next_attempt (fun k => k) s)
      end
  end.

Definition with_retry {A} (net : network) (op : keyspace -> A * keyspace) : M redis_state A :=
  attempts net MAX_ATTEMPTS op.

(** ** Commands *)

Definition lookup_live (now : Z) (key : string) (k : keyspace) : option string :=
  match k !! key with
  | Some (v, None) => Some v
  | Some (v, Some t) => if now <? t then Some v else None
  | None => None
  end.

Definition get (net : network) (now : Z) (key : string) : M redis_state (option string) :=
  with_retry net (fun k => (lookup_live now key k, k)).

Definition mget (net : network) (now : Z) (keys : list string) : M redis_state (list (option string)) :=
  match keys with
  | [] => mret []
  | _ => with_retry net (fun k => ((fun key => lookup_live now key k) <$> keys, k))
  end.

(** [SETEX] refuses a time that is not positive. *)
Definition valid_expiry (seconds : option Z) : bool := match seconds with Some n => 0 <? n | None => true end.


Definition expires_at (now : Z) (seconds : option Z) : option Z := n ← seconds; Some (now + n * second_us).

Definition set_command (now : Z) (key value : string) (expiry : option Z) (k : keyspace) : unit * keyspace :=
  (tt, <[key := (value, expires_at now expiry)]> k).

(** [ex if ex is not None else ttl], and zero is no expiry. *)
Definition set (net : network) (now : Z) (key value : string) (ttl ex : option Z) : M redis_state unit :=
  let expiry := match ex with Some n => Some n | None => ttl end in
  let expiry := match expiry with Some 0 => None | e => e end in
  if valid_expiry expiry then with_retry net (set_command now key value expiry) else raise RedisError.

Definition setnx_command (now : Z) (key value : string) (ex : option Z) (k : keyspace) : bool * keyspace :=
  match lookup_live now key k with
  | Some _ => (false, k)
  | None => (true, <[key := (value, expires_at now ex)]> k)
  end.

Definition set_if_not_exists (net : network) (now : Z) (key value : string) (ex : option Z) : M redis_state bool :=
  if valid_expiry ex then with_retry net (setnx_command now key value ex) else raise RedisError.

Definition setnx (net : network) (now : Z) (key value : string) (ex : option Z) : M redis_state bool :=
  set_if_not_exists net now key value ex.

(** The number of keys that were there, and the keyspace without them. *)
Definition delete_command (now : Z) (keys : list string) (k : keyspace) : Z * keyspace :=
  foldl (fun x key => (x.1 + (match lookup_live now key x.2 with Some _ => 1 | None => 0 end), delete key x.2)) (0, k) keys.

Definition delete (net : network) (now : Z) (keys : list string) : M redis_state Z :=
  match keys with
  | [] => mret 0
  | _ => with_retry net (delete_command now keys)
  end.

(** ** Lemmas *)

(** Executing the command again changes nothing, and answers the same. *)
Definition repeatable {A} (op : keyspace -> A * keyspace) : Prop := forall k, op (snd (op k)) = op k.

Lemma attempts_repeatable {A} (op : keyspace -> A * keyspace) net left : repeatable op ->
  forall s, match attempts net left op s with
            | (Ok a, s') => a = fst (op (rs_keys s)) /\ rs_keys s' = snd (op (rs_keys s))
            | (Raise _, s') => rs_keys s' = rs_keys s \/ rs_keys s' = snd (op (rs_keys s))
            end.
Proof.
  intros Hop. induction left as [|left IH]; intros s; simpl; [by left|].
  destruct (net (rs_attempts s)) as [|[]|]; [done| | |by left].
  - specialize (IH (next_attempt (fun k => snd (op k)) s)). simpl in IH. rewrite !Hop in IH.
    destruct (attempts _ _ _ _) as [[a|e] s']; [done|]. right. by destruct IH.
  - exact (IH (next_attempt (fun k => k) s)).
Qed.

Lemma read_repeatable {A} (f : keyspace -> A) : repeatable (fun k => (f k, k)).
Proof. done. Qed.

Lemma set_repeatable now key value expiry : repeatable (set_command now key value expiry).
Proof. intros k. unfold set_command. simpl. by rewrite insert_insert_eq. Qed.

Lemma with_retry_served {A} (op : keyspace -> A * keyspace) net s :
  net (rs_attempts s) = Served ->
  with_retry net op s = (Ok (fst (op (rs_keys s))), next_attempt (fun k => snd (op k)) s).
Proof. intros H. unfold with_retry, MAX_ATTEMPTS. simpl. by rewrite H. Qed.

(** The next three attempts are lost. *)
Definition outage (net : network) (s : redis_state) : Prop :=
  forall i, (i < MAX_ATTEMPTS)%nat -> exists executed, net (rs_attempts s + i)%nat = Lost executed.

Lemma attempts_outage {A} (op : keyspace -> A * keyspace) net left : forall s,
  (forall i, (i < left)%nat -> exists executed, net (rs_attempts s + i)%nat = Lost executed) ->
  fst (attempts net left op s) = Raise RetryError.
Proof.
  induction left as [|left IH]; intros s H; [done|]. simpl.
  destruct (H 0%nat) as [b Hb]; [lia|]. rewrite Nat.add_0_r in Hb. rewrite Hb.
  apply IH. intros i Hi. destruct (H (S i)) as [b' Hb']; [lia|]. exists b'. simpl. rewrite <- Hb'. f_equal. lia.
Qed.

(** One of the next attempts is served, after lost ones only. *)
Definition answered (net : network) (left : nat) (s : redis_state) : Prop :=
  exists i, (i < left)%nat /\ net (rs_attempts s + i)%nat = Served /\
    forall j, (j < i)%nat -> exists e, net (rs_attempts s + j)%nat = Lost e.

Lemma answered_lost net left s s1 b :
  net (rs_attempts s) = Lost b -> rs_attempts s1 = S (rs_attempts s) ->
  answered net left s1 <-> answered net (S left) s.
Proof.
  intros E Es. unfold answered. rewrite Es. simpl. split.
  - intros (i & Hi & H1 & H2). exists (S i). split; [lia|]. split; [by rewrite Nat.add_succ_r|].
    intros [|j] Hj; [rewrite Nat.add_0_r; by exists b|]. rewrite Nat.add_succ_r. apply H2. lia.
  - intros ([|i] & Hi & H1 & H2); [rewrite Nat.add_0_r in H1; congruence|].
    rewrite Nat.add_succ_r in H1. exists i. split; [lia|]. split; [done|].
    intros j Hj. specialize (H2 (S j)). rewrite Nat.add_succ_r in H2. apply H2. lia.
Qed.

(** A read returns what is stored exactly when it is answered, and raises otherwise. *)
Lemma attempts_read {A} (f : keyspace -> A) net left : forall s,
  (exists s', attempts net left (fun k => (f k, k)) s = (Ok (f (rs_keys s)), s')) /\ answered net left s \/
  (exists e s', attempts net left (fun k => (f k, k)) s = (Raise e, s')) /\ ~ answered net left s.
Proof.
  induction left as [|left IH]; intros s; simpl.
  { right. split; [by eexists _, _|]. intros (i & Hi & _). lia. }
  destruct (net (rs_attempts s)) as [|b|] eqn:E.
  - left. split; [by eexists|]. exists 0%nat. rewrite Nat.add_0_r. split; [lia|]. split; [done|]. lia.
  - set (s1 := next_attempt (fun k => if b then k else k) s).
    assert (Ek : rs_keys s1 = rs_keys s) by (simpl; by destruct b).
    pose proof (answered_lost net left s s1 b E eq_refl) as Ha.
    destruct (IH s1) as [[[s' H1] H2]|[H1 H2]]; [left|right].
    + split; [|by apply Ha]. rewrite Ek in H1. by exists s'.
    + split; [done|]. by rewrite <- Ha.
  - right. split; [by eexists _, _|]. intros ([|i] & Hi & H1 & H2).
    + rewrite Nat.add_0_r in H1. congruence.
    + destruct (H2 0%nat) as [e He]; [lia|]. rewrite Nat.add_0_r in He. congruence.
Qed.

(** A command is never sent more than three times. *)
Lemma attempts_bound {A} (op : keyspace -> A * keyspace) net left : forall s,
  (rs_attempts (snd (attempts net left op s)) <= rs_attempts s + left)%nat.
Proof.
  induction left as [|left IH]; intros s; simpl; [lia|].
  destruct (net (rs_attempts s)) as [|b|]; simpl; [lia| |lia].
  specialize (IH (next_attempt (fun k => if b then snd (op k) else k) s)). simpl in IH. lia.
Qed.

(** ** Properties *)

(** SET survives lost replies: whatever happens to the attempts, a SET that returns has stored
    the value exactly once, one that raises has stored it or left the key as it was,
    no other key changes, and at most three commands were sent. *)
Theorem set_stores_or_raises net now key value ttl s :
  valid_expiry ttl = true -> ttl <> Some 0 ->
  let out := set net now key value ttl None s in
  let stored := <[key := (value, expires_at now ttl)]> (rs_keys s) in
  (fst out = Ok tt -> rs_keys (snd out) = stored /\ 
     (valid_expiry ttl = true -> lookup_live now key (rs_keys (snd out)) = Some value)) /\
  (rs_keys (snd out) = rs_keys s \/ rs_keys (snd out) = stored) /\
  (rs_attempts (snd out) <= rs_attempts s + 3)%nat.
Proof.
  intros Hv Hz out stored. unfold out, set. cbv zeta.
  replace (match ttl with Some 0 => None | e => e end) with ttl by (by destruct ttl as [[]|]). rewrite Hv.
  pose proof (attempts_repeatable (set_command now key value ttl) net MAX_ATTEMPTS
    (set_repeatable now key value ttl) s) as H.
  pose proof (attempts_bound (set_command now key value ttl) net MAX_ATTEMPTS s) as Hb.
  unfold with_retry. destruct (attempts _ _ _ _) as [[[]|e] s']; simpl in *.
  - destruct H as [_ H]. split; [|split; [by right|exact Hb]]. intros _. split; [done|]. intros _.
    rewrite H. unfold lookup_live. rewrite lookup_insert_eq. destruct ttl as [n|]; [|done].
    unfold expires_at. simpl in *. apply Z.ltb_lt in Hv.
    destruct (Z.ltb_spec now (now + n * second_us)); [done|]. unfold second_us in *. lia.
  - split; [done|]. split; [done|exact Hb].
Qed.

(** SET NX is not safe to send again: when the first attempt executes but its reply is lost, the
    second one finds the key the call itself has set and returns False, the answer that
    means another caller holds the key. *)
Theorem setnx_lost_reply_reports_failure net now key value ex s :
  lookup_live now key (rs_keys s) = None -> valid_expiry ex = true ->
  net (rs_attempts s) = Lost true -> net (S (rs_attempts s)) = Served ->
  exists s', set_if_not_exists net now key value ex s = (Ok false, s') /\
    lookup_live now key (rs_keys s') = Some value.
Proof.
  intros Hk Hv H0 H1. unfold set_if_not_exists. rewrite Hv.
  assert (Hl : lookup_live now key (<[key := (value, expires_at now ex)]> (rs_keys s)) = Some value).
  { unfold lookup_live. rewrite lookup_insert_eq. destruct ex as [n|]; [|done].
    unfold expires_at. simpl in *. apply Z.ltb_lt in Hv.
    destruct (Z.ltb_spec now (now + n * second_us)); [done|]. unfold second_us in *. lia. }
  unfold with_retry, MAX_ATTEMPTS. simpl. rewrite H0. simpl. rewrite H1.
  assert (E : setnx_command now key value ex (rs_keys s)
              = (true, <[key := (value, expires_at now ex)]> (rs_keys s)))
    by (unfold setnx_command; by rewrite Hk).
  assert (E2 : setnx_command now key value ex (<[key := (value, expires_at now ex)]> (rs_keys s))
               = (false, <[key := (value, expires_at now ex)]> (rs_keys s)))
    by (unfold setnx_command; by rewrite Hl).
  cbn [next_attempt rs_keys rs_attempts]. rewrite E. cbn [fst snd]. rewrite E2.
  eexists. split; [reflexivity|]. cbn [next_attempt rs_keys]. rewrite E. cbn [fst snd]. by rewrite E2.
Qed.

(** ** Witnesses *)

Definition ex_keys : redis_state := {| rs_keys := ∅; rs_attempts := 0 |}.

Lemma set_stores_or_raises_witness :
  rs_keys (snd (set (fun n => match n with O => Lost true | _ => Served end) 5 "k" "v" None None ex_keys))
  = {[ "k" := ("v", None) ]}.
Proof.
  destruct (set_stores_or_raises (fun n => match n with O => Lost true | _ => Served end) 5 "k" "v" None ex_keys)
    as [H _]; [reflexivity|discriminate|]. exact (proj1 (H eq_refl)).
Defined.

Lemma setnx_lost_reply_reports_failure_witness :
  exists s', set_if_not_exists (fun n => match n with O => Lost true | _ => Served end) 5 "k" "v" (Some 60) ex_keys
      = (Ok false, s') /\ lookup_live 5 "k" (rs_keys s') = Some "v".
Proof. apply setnx_lost_reply_reports_failure; reflexivity. Defined.
