(* ===== verification/KillSwitch.v ===== *)
(** * Kill switch (libs/trading/risk_management/kill_switch.py)

    The state key holds a JSON object or is missing; the history key is a list
    trimmed to its last 1000 entries.  [engage] and [disengage] run a Lua
    script (one atomic step, [engage_script], [disengage_script]) and then log
    to the history.  [now] is the time the operation read, as ISO text. *)

From S2P Require Import Prelude Redis.
Open Scope Z_scope.

Inductive KillSwitchState := ACTIVE | ENGAGED.

#[export] Instance KillSwitchState_eq_dec : EqDecision KillSwitchState.
Proof. solve_decision. Defined.

(** The enum's values, and [KillSwitchState(value)]. *)
Definition ks_value (s : KillSwitchState) : string :=
  match s with ACTIVE => "ACTIVE" | ENGAGED => "ENGAGED" end.

Definition ks_parse (v : string) : result KillSwitchState :=
  if decide (v = "ACTIVE") then Ok ACTIVE
  else if decide (v = "ENGAGED") then Ok ENGAGED
  else Raise (ValueError "not a valid KillSwitchState").

Record ks_data := {
  state : string;
  engaged_at : option string;
  engaged_by : option string;
  engagement_reason : option string;
  engagement_details : option (option json_dict);
  disengaged_at : option string;
  disengaged_by : option string;
  disengagement_notes : option (option string);
  engagement_count_today : Z
}.

Inductive ks_event :=
| EngagedEvent (timestamp operator reason : string) (details : option json_dict)
| DisengagedEvent (timestamp operator : string) (notes : option string).

Record ks_store := { state_key : option ks_data; history_key : list ks_event }.

Definition max_history_entries : nat := 1000.

(** [_initialize_state] *)
Definition default_state : ks_data := {|
  state := ks_value ACTIVE; engaged_at := None; engaged_by := None; engagement_reason := None;
  engagement_details := None; disengaged_at := None; disengaged_by := None;
  disengagement_notes := None; engagement_count_today := 0 |}.

Definition set_state_key (d : ks_data) (s : ks_store) : ks_store :=
  {| state_key := Some d; history_key := history_key s |}.

Definition _initialize_state : M ks_store unit := fun s => (Ok tt, set_state_key default_state s).

(** [__init__] *)
Definition kill_switch_init : M ks_store unit :=
  d ← reads state_key;
  match d with None => _initialize_state | Some _ => mret tt end.

Definition state_missing : exn := RuntimeError "Kill-switch state missing from Redis".

(** [get_state] *)
Definition get_state : M ks_store KillSwitchState :=
  d ← reads state_key;
  match d with
  | None => raise state_missing
  | Some d => lift (ks_parse (state d))
  end.

Definition is_engaged : M ks_store bool :=
  st ← get_state; mret (bool_decide (st = ENGAGED)).

(** The Lua scripts: the new value of the state key, or an error reply. *)
Definition engage_script (now operator reason : string) (details : option json_dict)
    (key : option ks_data) : string + ks_data :=
  match key with
  | None => inl "Kill-switch state missing"
  | Some d =>
      if decide (state d = ks_value ENGAGED) then inl "Kill-switch already engaged"
      else inr {| state := ks_value ENGAGED; engaged_at := Some now; engaged_by := Some operator;
                  engagement_reason := Some reason; engagement_details := Some details;
                  disengaged_at := None; disengaged_by := None;
                  disengagement_notes := disengagement_notes d;
                  engagement_count_today := engagement_count_today d + 1 |}
  end.

Definition disengage_script (now operator : string) (notes : option string)
    (key : option ks_data) : string + ks_data :=
  match key with
  | None => inl "Kill-switch state missing"
  | Some d =>
      if decide (state d = ks_value ACTIVE) then inl "Kill-switch not engaged"
      else inr {| state := ks_value ACTIVE; engaged_at := engaged_at d; engaged_by := engaged_by d;
                  engagement_reason := engagement_reason d;
                  engagement_details := engagement_details d;
                  disengaged_at := Some now; disengaged_by := Some operator;
                  disengagement_notes := Some notes;
                  engagement_count_today := engagement_count_today d |}
  end.

(** [redis.eval] and the [except] clause that maps its error replies. *)
Definition eval_script (script : option ks_data -> string + ks_data) : M ks_store unit := fun s =>
  match script (state_key s) with
  | inr d => (Ok tt, set_state_key d s)
  | inl err =>
      (Raise (if decide (err = "Kill-switch state missing") then state_missing else ValueError err), s)
  end.

(** [rpush] and [ltrim] *)
Definition log_history (e : ks_event) : M ks_store unit := fun s =>
  (Ok tt, {| state_key := state_key s;
             history_key := ltrim (history_key s ++ [e]) (- Z.of_nat max_history_entries) (-1) |}).

(** [json.dumps(x) if x else "null"]: an empty dict or string is stored as null. *)
Definition dict_or_null (d : option json_dict) : option json_dict :=
  d ≫= fun m => if decide (m = ∅) then None else Some m.
Definition notes_or_null (n : option string) : option string :=
  n ≫= fun t => if decide (t = "") then None else Some t.

Definition engage (now reason operator : string) (details : option json_dict) : M ks_store unit :=
  _ ← eval_script (engage_script now operator reason (dict_or_null details));
  log_history (EngagedEvent now operator reason details).

Definition disengage (now operator : string) (notes : option string) : M ks_store unit :=
  _ ← eval_script (disengage_script now operator (notes_or_null notes));
  log_history (DisengagedEvent now operator notes).

Definition get_status : M ks_store ks_data :=
  d ← reads state_key;
  match d with None => raise state_missing | Some d => mret d end.

(** [list(reversed(lrange(key, -limit, -1)))] *)
Definition get_history (limit : Z) : M ks_store (list ks_event) :=
  reads (fun s => reverse (lrange (history_key s) (- limit) (-1))).

(** ** Runs of operations by any number of clients *)

Inductive ks_op :=
| OpInit
| OpGetState
| OpIsEngaged
| OpEngage (now reason operator : string) (details : option json_dict)
| OpDisengage (now operator : string) (notes : option string)
| OpStatus
| OpHistory (limit : Z).

Definition ks_run (op : ks_op) (s : ks_store) : ks_store :=
  match op with
  | OpInit => (kill_switch_init s).2
  | OpGetState => (get_state s).2
  | OpIsEngaged => (is_engaged s).2
  | OpEngage now reason operator details => (engage now reason operator details s).2
  | OpDisengage now operator notes => (disengage now operator notes s).2
  | OpStatus => (get_status s).2
  | OpHistory limit => (get_history limit s).2
  end.

Definition ks_runs (ops : list ks_op) (s : ks_store) : ks_store := foldl (fun s op => ks_run op s) s ops.

(** The event an operation that succeeds logs. *)
Definition ks_event_of (op : ks_op) (s : ks_store) : list ks_event :=
  match op with
  | OpEngage now reason operator details =>
      match (engage now reason operator details s).1 with
      | Ok _ => [EngagedEvent now operator reason details] | Raise _ => [] end
  | OpDisengage now operator notes =>
      match (disengage now operator notes s).1 with
      | Ok _ => [DisengagedEvent now operator notes] | Raise _ => [] end
  | _ => []
  end.

(** Every transition of a run, in order. *)
Fixpoint ks_events (ops : list ks_op) (s : ks_store) : list ks_event :=
  match ops with
  | [] => []
  | op :: ops' => ks_event_of op s ++ ks_events ops' (ks_run op s)
  end.

Definition is_engage (e : ks_event) : bool :=
  match e with EngagedEvent _ _ _ _ => true | DisengagedEvent _ _ _ => false end.

(** Transitions alternate, the first one from a switch that is [on]. *)
Fixpoint alternates (on : bool) (es : list ks_event) : bool :=
  match es with
  | [] => true
  | e :: es' => Bool.eqb (is_engage e) (negb on) && alternates (is_engage e) es'
  end.

(** Whether the switch is on after the transitions [es]. *)
Definition on_after (es : list ks_event) : bool :=
  match last es with Some e => is_engage e | None => false end.

Definition is_disengage_op (op : ks_op) : bool :=
  match op with OpDisengage _ _ _ => true | _ => false end.

(** A flush or restart of the Redis server. *)
Definition flush (_ : ks_store) : ks_store := {| state_key := None; history_key := [] |}.
Definition ks_fresh : ks_store := {| state_key := None; history_key := [] |}.

(** ** Lemmas *)

Lemma log_history_run e s :
  log_history e s =
  (Ok tt, {| state_key := state_key s;
             history_key := last_n max_history_entries (history_key s ++ [e]) |}).
Proof.
  unfold log_history, ltrim. rewrite lrange_last; [done|]. unfold max_history_entries. lia.
Qed.

Lemma engage_run now reason operator details s :
  engage now reason operator details s =
  match engage_script now operator reason (dict_or_null details) (state_key s) with
  | inr d => (Ok tt, {| state_key := Some d;
                history_key := last_n max_history_entries
                  (history_key s ++ [EngagedEvent now operator reason details]) |})
  | inl err =>
      (Raise (if decide (err = "Kill-switch state missing") then state_missing else ValueError err), s)
  end.
Proof.
  unfold engage, mbind at 1, M_bind at 1, eval_script at 1.
  destruct (engage_script _ _ _ _ _); [done|]. by rewrite log_history_run.
Qed.

Lemma disengage_run now operator notes s :
  disengage now operator notes s =
  match disengage_script now operator (notes_or_null notes) (state_key s) with
  | inr d => (Ok tt, {| state_key := Some d;
                history_key := last_n max_history_entries
                  (history_key s ++ [DisengagedEvent now operator notes]) |})
  | inl err =>
      (Raise (if decide (err = "Kill-switch state missing") then state_missing else ValueError err), s)
  end.
Proof.
  unfold disengage, mbind at 1, M_bind at 1, eval_script at 1.
  destruct (disengage_script _ _ _ _); [done|]. by rewrite log_history_run.
Qed.

(** What a store reads like after the transitions [es] since the switch was created. *)
Record ks_tracks (es : list ks_event) (s : ks_store) : Prop := {
  tracks_state : exists d, state_key s = Some d /\
    state d = ks_value (if on_after es then ENGAGED else ACTIVE) /\
    engagement_count_today d = Z.of_nat (length (filter (fun e => is_engage e = true) es));
  tracks_history : history_key s = last_n max_history_entries es;
  tracks_alternates : alternates false es = true
}.

Lemma alternates_app on es e :
  alternates on (es ++ [e]) =
  alternates on es && Bool.eqb (is_engage e) (negb (default on (is_engage <$> last es))).
Proof.
  revert on. induction es as [|e' es IH]; intros on; simpl.
  - by rewrite andb_true_r.
  - rewrite IH, andb_assoc. f_equal. f_equal. f_equal. destruct es as [|x es]; [done|].
    rewrite last_cons_cons. destruct (last (x :: es)) eqn:E; [done|].
    apply last_None in E. discriminate.
Qed.

Lemma on_after_alt es : on_after es = default false (is_engage <$> last es).
Proof. unfold on_after. by destruct (last es). Qed.

Lemma on_after_snoc es e : on_after (es ++ [e]) = is_engage e.
Proof. unfold on_after. by rewrite last_snoc. Qed.

Lemma ks_tracks_step es s op :
  ks_tracks es s -> ks_tracks (es ++ ks_event_of op s) (ks_run op s).
Proof.
  intros [(d & Hk & Hst & Hn) Hh Ha].
  assert (Hsame : ks_tracks (es ++ []) s) by (rewrite app_nil_r; split; eauto).
  assert (Hgs : (get_state s).2 = s)
    by (unfold get_state, mbind, M_bind, reads; rewrite Hk; reflexivity).
  destruct op as [| | |now reason operator details|now operator notes| |]; simpl.
  - unfold kill_switch_init, mbind, M_bind, reads. by rewrite Hk.
  - by rewrite Hgs.
  - unfold is_engaged, mbind, M_bind. destruct (get_state s) as [[a|e] s'] eqn:E; simpl in *; by subst s'.
  - rewrite engage_run. unfold engage_script. rewrite Hk. case_decide as Hd; [done|].
    assert (Hon : on_after es = false)
      by (destruct (on_after es); [by rewrite Hst in Hd | done]).
    split; simpl.
    + eexists; split; [done|]. rewrite on_after_snoc, filter_app, length_app. simpl.
      split; [done|]. lia.
    + by rewrite Hh, last_n_app.
    + rewrite alternates_app, Ha, <- on_after_alt, Hon. done.
  - rewrite disengage_run. unfold disengage_script. rewrite Hk. case_decide as Hd; [done|].
    assert (Hon : on_after es = true)
      by (destruct (on_after es); [done | by rewrite Hst in Hd]).
    split; simpl.
    + eexists; split; [done|]. rewrite on_after_snoc, filter_app, length_app. simpl.
      split; [done|]. lia.
    + by rewrite Hh, last_n_app.
    + rewrite alternates_app, Ha, <- on_after_alt, Hon. done.
  - unfold get_status, mbind, M_bind, reads. by rewrite Hk.
  - done.
Qed.

Lemma ks_tracks_runs ops es s :
  ks_tracks es s -> ks_tracks (es ++ ks_events ops s) (ks_runs ops s).
Proof.
  revert es s. induction ops as [|op ops IH]; intros es s H; simpl.
  - by rewrite app_nil_r.
  - rewrite app_assoc. by apply IH, ks_tracks_step.
Qed.

Lemma ks_tracks_init : ks_tracks [] (kill_switch_init ks_fresh).2.
Proof. split; [by eexists | done | done]. Qed.

(** ** Properties *)

(** C24. Once the switch is engaged, no run of operations by any clients that
    contains no [disengage] changes its state: [is_engaged] stays True, the
    recorded engagement is the same, and engaging again is refused with
    ValueError. *)
Theorem engaged_until_disengaged (s : ks_store) (d : ks_data) (ops : list ks_op)
    (Hkey : state_key s = Some d) (Hon : state d = ks_value ENGAGED)
    (Hops : Forall (fun op => is_disengage_op op = false) ops) :
  let s' := ks_runs ops s in
  (is_engaged s').1 = Ok true /\ state_key s' = Some d /\ history_key s' = history_key s /\
  forall now reason operator details,
    (engage now reason operator details s').1 = Raise (ValueError "Kill-switch already engaged").
Proof.
  assert (Hstep : forall op, is_disengage_op op = false -> ks_run op s = s).
  { intros op Hop.
    assert (Hg : get_state s = (Ok ENGAGED, s)).
    { unfold get_state, mbind, M_bind, reads, lift. rewrite Hkey, Hon. reflexivity. }
    destruct op as [| | |now reason operator details|now operator notes| |]; simpl in *; try done.
    - unfold kill_switch_init, mbind, M_bind, reads. by rewrite Hkey.
    - by rewrite Hg.
    - unfold is_engaged, mbind, M_bind. by rewrite Hg.
    - rewrite engage_run. unfold engage_script. rewrite Hkey, decide_True by done. done.
    - unfold get_status, mbind, M_bind, reads. by rewrite Hkey. }
  assert (Hs : ks_runs ops s = s).
  { induction Hops as [|op ops Hop Hops IH]; [done|]. simpl. by rewrite Hstep. }
  simpl. rewrite Hs. split_and!; try done.
  - unfold is_engaged, get_state, mbind, M_bind, reads, lift. rewrite Hkey, Hon. reflexivity.
  - intros now reason operator details. rewrite engage_run. unfold engage_script.
    rewrite Hkey, decide_True by done. done.
Qed.

(** The audit trail: after any run of operations since the switch was
    created, the transitions that succeeded alternate ENGAGED, DISENGAGED,
    ...; the switch is engaged exactly when the last one is ENGAGED; the count
    is the number of ENGAGED ones; the history holds the last 1000 of them;
    and [get_history limit] returns the last [limit] of those, newest first. *)
Theorem kill_switch_audit_trail (ops : list ks_op) (limit : nat) (Hlimit : (0 < limit <= 1000)%nat) :
  let s0 := (kill_switch_init ks_fresh).2 in
  let s := ks_runs ops s0 in
  let es := ks_events ops s0 in
  alternates false es = true /\
  (is_engaged s).1 = Ok (on_after es) /\
  (exists d, state_key s = Some d /\
     engagement_count_today d = Z.of_nat (length (filter (fun e => is_engage e = true) es))) /\
  history_key s = last_n 1000 es /\
  (get_history (Z.of_nat limit) s).1 = Ok (reverse (last_n limit es)).
Proof.
  pose proof (ks_tracks_runs ops [] _ ks_tracks_init) as [(d & Hk & Hst & Hn) Hh Ha].
  simpl in *. split_and!.
  - done.
  - unfold is_engaged, get_state, mbind, M_bind, reads, lift. rewrite Hk, Hst. simpl.
    by destruct (on_after _).
  - by exists d.
  - done.
  - unfold get_history, reads. simpl. f_equal. f_equal.
    rewrite lrange_last, Hh by lia. unfold last_n, max_history_entries.
    rewrite drop_drop, length_drop. f_equal. lia.
Qed.

(** After the state key is lost, every read and transition of a running
    client raises RuntimeError and changes nothing (fail closed), but creating
    a new [KillSwitch] object restores ACTIVE, whatever the state was: the
    switch re-opens without an operator. *)
Theorem lost_state_fails_closed_until_constructed (s : ks_store) :
  let lost := flush s in
  (forall now reason operator details, engage now reason operator details lost = (Raise state_missing, lost)) /\
  (forall now operator notes, disengage now operator notes lost = (Raise state_missing, lost)) /\
  get_state lost = (Raise state_missing, lost) /\ get_status lost = (Raise state_missing, lost) /\
  (is_engaged (kill_switch_init lost).2).1 = Ok false.
Proof. split_and!; intros; reflexivity. Qed.

(** ** Witnesses *)

Definition ex_engaged : ks_store := (engage "t0" "halt" "ops" None (kill_switch_init ks_fresh).2).2.

Lemma engaged_until_disengaged_witness :
  (is_engaged (ks_runs [OpInit; OpEngage "t1" "again" "ops2" None; OpHistory 5] ex_engaged)).1 = Ok true.
Proof.
  refine (proj1 (engaged_until_disengaged ex_engaged
    {| state := "ENGAGED"; engaged_at := Some "t0"; engaged_by := Some "ops";
       engagement_reason := Some "halt"; engagement_details := Some None; disengaged_at := None;
       disengaged_by := None; disengagement_notes := None; engagement_count_today := 1 |}
    [OpInit; OpEngage "t1" "again" "ops2" None; OpHistory 5] _ _ _)).
  - vm_compute. reflexivity.
  - reflexivity.
  - repeat constructor.
Defined.

Lemma kill_switch_audit_trail_witness :
  let ops := [OpEngage "t1" "r" "a" None; OpEngage "t2" "r" "b" None; OpDisengage "t3" "a" None] in
  (is_engaged (ks_runs ops (kill_switch_init ks_fresh).2)).1 = Ok false.
Proof.
  intros ops.
  refine (eq_trans (proj1 (proj2 (kill_switch_audit_trail ops 1 _))) _).
  - lia.
  - vm_compute. reflexivity.
Defined.
