(* ===== verification/Breaker.v ===== *)
(** * Circuit breaker (libs/trading/risk_management/breaker.py)

    The state key holds a JSON object or is missing; the history key is a
    sorted set of trip entries scored by time.  [trip], [reset],
    [_transition_to_open] are WATCH/GET/MULTI/EXEC loops: [trip_body],
    [reset_body] and [open_body] say what one of them does with the value it
    read, [transact] runs one without interference, and Section [clients]
    interleaves any number of them, one Redis command at a time, with lost
    commands, lost replies and the three attempts of the [retry] decorator.
    Times are integers (microseconds). *)

From S2P Require Import Prelude PyText Redis.
Open Scope Z_scope.

Inductive CircuitBreakerState := OPEN | TRIPPED | QUIET_PERIOD.

#[export] Instance CircuitBreakerState_eq_dec : EqDecision CircuitBreakerState.
Proof. solve_decision. Defined.

Definition cb_value (s : CircuitBreakerState) : string :=
  match s with OPEN => "OPEN" | TRIPPED => "TRIPPED" | QUIET_PERIOD => "QUIET_PERIOD" end.

(** [CircuitBreakerState(value)] *)
Definition cb_parse (v : string) : result CircuitBreakerState :=
  if decide (v = "OPEN") then Ok OPEN
  else if decide (v = "TRIPPED") then Ok TRIPPED
  else if decide (v = "QUIET_PERIOD") then Ok QUIET_PERIOD
  else Raise (ValueError "not a valid CircuitBreakerState").

Record cb_data := {
  state : string;
  tripped_at : option Z;
  trip_reason : option string;
  trip_details : option json_dict;
  reset_at : option Z;
  reset_by : option string;
  trip_count_today : Z
}.

Record trip_entry := {
  te_tripped_at : Z;
  te_reason : string;
  te_details : option json_dict;
  te_reset_at : option Z;
  te_reset_by : option string;
  te_reset_reason : option string
}.

#[export] Instance cb_data_eq_dec : EqDecision cb_data.
Proof. solve_decision. Defined.
#[export] Instance trip_entry_eq_dec : EqDecision trip_entry.
Proof. solve_decision. Defined.

(** [version] counts the writes to the state key: WATCH compares it. *)
Record cb_store := {
  state_key : option cb_data;
  version : nat;
  history_key : zset trip_entry
}.

Definition max_history_entries : Z := 1000.

Definition set_state (d : cb_data) (s : cb_store) : cb_store :=
  {| state_key := Some d; version := S (version s); history_key := history_key s |}.
Definition set_history (h : zset trip_entry) (s : cb_store) : cb_store :=
  {| state_key := state_key s; version := version s; history_key := h |}.
Definition redis_set (d : cb_data) : M cb_store unit := fun s => (Ok tt, set_state d s).

(** [_initialize_state] *)
Definition default_state : cb_data := {|
  state := cb_value OPEN; tripped_at := None; trip_reason := None; trip_details := None;
  reset_at := None; reset_by := None; trip_count_today := 0 |}.

Definition _initialize_state : M cb_store unit := redis_set default_state.

(** [__init__] *)
Definition circuit_breaker_init (auto_initialize : bool) : M cb_store unit :=
  d ← reads state_key;
  if auto_initialize && bool_decide (d = None) then _initialize_state else mret tt.

Definition with_state (v : CircuitBreakerState) (d : cb_data) : cb_data :=
  {| state := cb_value v; tripped_at := tripped_at d; trip_reason := trip_reason d;
     trip_details := trip_details d; reset_at := reset_at d; reset_by := reset_by d;
     trip_count_today := trip_count_today d |}.

(** [migrate_legacy_quiet_period_state]: what it writes, if anything. *)
Definition migrate_write (key : option cb_data) : option cb_data :=
  d ← key;
  if decide (state d = cb_value QUIET_PERIOD) then Some (with_state OPEN d) else None.

Definition migrate_legacy_quiet_period_state : M cb_store bool :=
  key ← reads state_key;
  match migrate_write key with
  | Some d => _ ← redis_set d; mret true
  | None => mret false
  end.

Definition initialize_state (force : bool) : M cb_store bool :=
  key ← reads state_key;
  if negb force && bool_decide (key <> None) then mret false
  else _ ← _initialize_state; mret true.

Definition state_missing : exn := RuntimeError "Circuit breaker state missing from Redis".

Definition get_state : M cb_store CircuitBreakerState :=
  key ← reads state_key;
  match key with
  | None => raise state_missing
  | Some d => if decide (state d = cb_value QUIET_PERIOD) then mret OPEN else lift (cb_parse (state d))
  end.

Definition is_tripped : M cb_store bool :=
  st ← get_state; mret (bool_decide (st = TRIPPED)).

(** One pass of a WATCH loop over the value it read: raise, return without
    writing, or queue a SET (and, for a trip, log an entry afterwards). *)
Inductive tx :=
| TxRaise (e : exn)
| TxReturn
| TxWrite (d : cb_data) (log : option trip_entry).

Definition trip_body (reason : string) (details : option json_dict) (now : Z)
    (key : option cb_data) : tx :=
  match key with
  | None => TxRaise state_missing
  | Some d =>
      if decide (state d = cb_value TRIPPED) then TxReturn
      else TxWrite {| state := cb_value TRIPPED; tripped_at := Some now; trip_reason := Some reason;
                      trip_details := details; reset_at := reset_at d; reset_by := reset_by d;
                      trip_count_today := trip_count_today d + 1 |}
             (Some {| te_tripped_at := now; te_reason := reason; te_details := details;
                      te_reset_at := None; te_reset_by := None; te_reset_reason := None |})
  end.

Definition reset_body (by_ : string) (now : Z) (key : option cb_data) : tx :=
  match key with
  | None => TxRaise state_missing
  | Some d =>
      match cb_parse (state d) with
      | Raise e => TxRaise e
      | Ok st =>
          if decide (st = TRIPPED) then
            TxWrite {| state := cb_value OPEN; tripped_at := None; trip_reason := None;
                       trip_details := None; reset_at := Some now; reset_by := Some by_;
                       trip_count_today := trip_count_today d |} None
          else TxRaise (CircuitBreakerError
                 ("Cannot reset circuit breaker: current state is " +:+ cb_value st +:+ ", must be TRIPPED"))
      end
  end.

(** [_transition_to_open] *)
Definition open_body (now : Z) (key : option cb_data) : tx :=
  match key with
  | None => TxRaise state_missing
  | Some d =>
      TxWrite {| state := cb_value OPEN; tripped_at := None; trip_reason := None; trip_details := None;
                 reset_at := reset_at d; reset_by := reset_by d;
                 trip_count_today := trip_count_today d |} None
  end.

Definition get_trip_reason : M cb_store (option string) :=
  reads (fun s => state_key s ≫= trip_reason).
Definition get_trip_details : M cb_store (option json_dict) :=
  reads (fun s => state_key s ≫= trip_details).

Definition get_status : M cb_store cb_data :=
  key ← reads state_key;
  match key with
  | None => raise state_missing
  | Some d =>
      let raw := upper (state d) in
      let shown :=
        if decide (raw = cb_value QUIET_PERIOD) then cb_value OPEN
        else if decide (raw = cb_value OPEN \/ raw = cb_value TRIPPED) then raw
        else "UNKNOWN" in
      mret {| state := shown; tripped_at := tripped_at d; trip_reason := trip_reason d;
              trip_details := trip_details d; reset_at := reset_at d; reset_by := reset_by d;
              trip_count_today := trip_count_today d |}
  end.

Section history.
(** Redis' order on members of equal score. *)
Context (before : trip_entry -> trip_entry -> bool).

(** The three commands of [_append_to_history]. *)
Definition append_zadd (e : trip_entry) (score : Z) (s : cb_store) : cb_store :=
  set_history (zadd before e score (history_key s)) s.
Definition append_excess (s : cb_store) : Z := zcard (history_key s) - max_history_entries.
Definition append_trim (n : Z) (s : cb_store) : cb_store :=
  set_history (zremrangebyrank (history_key s) (n - 1)) s.

Definition _append_to_history (e : trip_entry) (score : Z) : M cb_store unit := fun s =>
  let s1 := append_zadd e score s in
  (Ok tt, if 0 <? append_excess s1 then append_trim (append_excess s1) s1 else s1).

(** A WATCH loop that no other client disturbs. *)
Definition transact (body : option cb_data -> tx) (score : Z) : M cb_store unit :=
  key ← reads state_key;
  match body key with
  | TxRaise e => raise e
  | TxReturn => mret tt
  | TxWrite d log =>
      _ ← redis_set d;
      match log with Some e => _append_to_history e score | None => mret tt end
  end.

Definition trip (now score : Z) (reason : string) (details : option json_dict) : M cb_store unit :=
  transact (trip_body reason details now) score.
Definition reset (now : Z) (by_ : string) : M cb_store unit := transact (reset_body by_ now) now.
Definition _transition_to_open (now : Z) : M cb_store unit := transact (open_body now) now.

(** [get_history] *)
Definition get_history (limit : Z) : M cb_store (list trip_entry) :=
  reads (fun s => (zrevrange (history_key s) 0 (limit - 1)).*2).

Definition reset_reason_or_absent (reason : option string) : option string :=
  reason ≫= fun r => if decide (r = "") then None else Some r.

Definition update_history_with_reset (at_ : Z) (by_ : string) (reason : option string) :
    M cb_store unit := fun s =>
  match zrevrange (history_key s) 0 0 with
  | [] => (Ok tt, s)
  | (score, entry) :: _ =>
      match te_reset_at entry with
      | Some _ => (Ok tt, s)
      | None =>
          let entry' := {| te_tripped_at := te_tripped_at entry; te_reason := te_reason entry;
                           te_details := te_details entry; te_reset_at := Some at_;
                           te_reset_by := Some by_;
                           te_reset_reason := match reset_reason_or_absent reason with
                                              | Some r => Some r
                                              | None => te_reset_reason entry end |} in
          (Ok tt, set_history (zadd before entry' score (zrem entry (history_key s))) s)
      end
  end.
End history.

(** ** Clients: the WATCH loops, one Redis command at a time *)

Inductive request :=
| ReqTrip (reason : string) (details : option json_dict)
| ReqReset (by_ : string)
| ReqOpen.

Definition body_of (r : request) (now : Z) : option cb_data -> tx :=
  match r with
  | ReqTrip reason details => trip_body reason details now
  | ReqReset by_ => reset_body by_ now
  | ReqOpen => open_body now
  end.

(** Where a client is: before WATCH, before GET, before EXEC (with the version
    it watched, the time it read, the value it queued and the entry it will
    log), in the three commands of [_append_to_history], or finished. *)
Inductive pc :=
| Start
| Watched (v : nat)
| Queued (v : nat) (now : Z) (d : cb_data) (log : option trip_entry)
| LogZadd (e : trip_entry)
| LogCard
| LogTrim (n : Z)
| Done (r : result unit).

Record client := { cl_req : request; cl_pc : pc; cl_attempt : nat }.

(** What the network does to a command: run and answered, never run, or run
    and the answer lost. *)
Inductive delivery := Delivered | CommandLost | ReplyLost.

Record cb_event := { ev_client : nat; ev_req : request; ev_now : Z }.

Record cluster := { cl_store : cb_store; cl_clients : list client; cl_trace : list cb_event }.

(** What one request does to the state key when it runs in one piece. *)
Definition atomic (r : request) (now : Z) (key : option cb_data) : result unit * option cb_data :=
  match body_of r now key with
  | TxRaise e => (Raise e, key)
  | TxReturn => (Ok tt, key)
  | TxWrite d _ => (Ok tt, Some d)
  end.

Definition atomic_run (key : option cb_data) (es : list cb_event) : option cb_data :=
  foldl (fun k e => (atomic (ev_req e) (ev_now e) k).2) key es.

Section clients.
Context (before : trip_entry -> trip_entry -> bool).

(** The next command of a client: where it goes, the store after the
    command, and whether the command took effect for good ([Some now]). *)
Definition command (r : request) (p : pc) (now : Z) (s : cb_store) : pc * cb_store * option Z :=
  match p with
  | Start => (Watched (version s), s, None)
  | Watched v =>
      match body_of r now (state_key s) with
      | TxRaise e => (Done (Raise e), s, None)
      | TxReturn => (Done (Ok tt), s, None)
      | TxWrite d log => (Queued v now d log, s, None)
      end
  | Queued v t d log =>
      if decide (v = version s) then
        (match log with Some e => LogZadd e | None => Done (Ok tt) end, set_state d s, Some t)
      else (Start, s, None)
  | LogZadd e => (LogCard, append_zadd before e now s, None)
  | LogCard => (if 0 <? append_excess s then LogTrim (append_excess s) else Done (Ok tt), s, None)
  | LogTrim n => (Done (Ok tt), append_trim n s, None)
  | Done _ => (p, s, None)
  end.

(** [@retry(stop_after_attempt(3), retry_if_exception_type(ConnectionError, TimeoutError))] *)
Definition after_connection_error (c : client) : client :=
  if (cl_attempt c <? 3)%nat
  then {| cl_req := cl_req c; cl_pc := Start; cl_attempt := S (cl_attempt c) |}
  else {| cl_req := cl_req c; cl_pc := Done (Raise RetryError); cl_attempt := cl_attempt c |}.

Definition is_done (p : pc) : bool := match p with Done _ => true | _ => false end.

Definition at_pc (c : client) (p : pc) : client :=
  {| cl_req := cl_req c; cl_pc := p; cl_attempt := cl_attempt c |}.

(** A GET that ends the call is its linearization point. *)
Definition ends_at_get (p p' : pc) (now : Z) : option Z :=
  match p, p' with Watched _, Done _ => Some now | _, _ => None end.

(** One step: client [i] sends its next command at time [now]. *)
Definition cluster_step (x : nat * Z * delivery) (g : cluster) : cluster :=
  let '(i, now, how) := x in
  match cl_clients g !! i with
  | None => g
  | Some c =>
      if is_done (cl_pc c) then g
      else
        let '(p', s', eff) := command (cl_req c) (cl_pc c) now (cl_store g) in
        let event t := {| ev_client := i; ev_req := cl_req c; ev_now := t |} in
        match how with
        | Delivered =>
            {| cl_store := s'; cl_clients := <[i := at_pc c p']> (cl_clients g);
               cl_trace := cl_trace g ++
                 match eff, ends_at_get (cl_pc c) p' now with
                 | Some t, _ | None, Some t => [event t]
                 | None, None => [] end |}
        | CommandLost =>
            {| cl_store := cl_store g; cl_clients := <[i := after_connection_error c]> (cl_clients g);
               cl_trace := cl_trace g |}
        | ReplyLost =>
            {| cl_store := s'; cl_clients := <[i := after_connection_error c]> (cl_clients g);
               cl_trace := cl_trace g ++ match eff with Some t => [event t] | None => [] end |}
        end
  end.

Definition cluster_run (xs : list (nat * Z * delivery)) (g : cluster) : cluster :=
  foldl (fun g x => cluster_step x g) g xs.

(** One client alone, every command answered. *)
Fixpoint alone (r : request) (clock : list Z) (p : pc) (s : cb_store) : pc * cb_store :=
  match clock with
  | [] => (p, s)
  | now :: clock' => let '(p', s', _) := command r p now s in alone r clock' p' s'
  end.
End clients.

Definition new_client (r : request) : client := {| cl_req := r; cl_pc := Start; cl_attempt := 1 |}.

Definition new_cluster (s : cb_store) (rs : list request) : cluster :=
  {| cl_store := s; cl_clients := new_client <$> rs; cl_trace := [] |}.

(** Client [i] was answered [r] by one of its requests in the trace. *)
Definition answered (key : option cb_data) (tr : list cb_event) (i : nat) (req : request)
    (r : result unit) : Prop :=
  exists tr1 ev tr2, tr = tr1 ++ ev :: tr2 /\ ev_client ev = i /\ ev_req ev = req /\
    (atomic req (ev_now ev) (atomic_run key tr1)).1 = r.

(** The invariant of a cluster: every client's position is justified. *)
Definition pc_ok (key : option cb_data) (s : cb_store) (tr : list cb_event) (i : nat)
    (c : client) : Prop :=
  match cl_pc c with
  | Start => True
  | Watched v => (v <= version s)%nat
  | Queued v now d log =>
      (v <= version s)%nat /\ (v = version s -> body_of (cl_req c) now (state_key s) = TxWrite d log)
  | LogZadd _ | LogCard | LogTrim _ => answered key tr i (cl_req c) (Ok tt)
  | Done r => answered key tr i (cl_req c) r \/ (r = Raise RetryError /\ cl_attempt c = 3%nat)
  end.

Record cluster_ok (key : option cb_data) (rs : list request) (g : cluster) : Prop := {
  ok_key : state_key (cl_store g) = atomic_run key (cl_trace g);
  ok_reqs : cl_req <$> cl_clients g = rs;
  ok_attempts : forall i c, cl_clients g !! i = Some c -> (1 <= cl_attempt c <= 3)%nat;
  ok_pc : forall i c, cl_clients g !! i = Some c -> pc_ok key (cl_store g) (cl_trace g) i c
}.

(** ** Lemmas: linearizability *)

(** A later store: no version goes back, and an unchanged version is an unchanged key. *)
Definition store_le (s s' : cb_store) : Prop :=
  (version s <= version s')%nat /\ (version s' = version s -> state_key s' = state_key s).

Lemma store_le_refl s : store_le s s.
Proof. done. Qed.

Lemma answered_app key tr es i req r :
  answered key tr i req r -> answered key (tr ++ es) i req r.
Proof.
  intros (tr1 & ev & tr2 & -> & H). exists tr1, ev, (tr2 ++ es).
  by rewrite <- app_assoc.
Qed.

Lemma answered_last key tr i req now r :
  (atomic req now (atomic_run key tr)).1 = r ->
  answered key (tr ++ [{| ev_client := i; ev_req := req; ev_now := now |}]) i req r.
Proof. intros H. by exists tr, {| ev_client := i; ev_req := req; ev_now := now |}, []. Qed.

Lemma atomic_run_snoc key tr ev :
  atomic_run key (tr ++ [ev]) = (atomic (ev_req ev) (ev_now ev) (atomic_run key tr)).2.
Proof. unfold atomic_run. by rewrite foldl_app. Qed.

Lemma pc_ok_later key s s' tr es i c :
  store_le s s' -> pc_ok key s tr i c -> pc_ok key s' (tr ++ es) i c.
Proof.
  intros [Hv Hk]. unfold pc_ok. destruct (cl_pc c); [done| | | | | |].
  - lia.
  - intros [Hle Hb]. split; [lia|]. intros ->. rewrite Hk by lia. apply Hb. lia.
  - apply answered_app.
  - apply answered_app.
  - apply answered_app.
  - intros [H|H]; [left; by apply answered_app | by right].
Qed.

Section clients.
Context (before : trip_entry -> trip_entry -> bool).

(** Only EXEC on the watched version writes the state key. *)
Lemma command_effect r p now s p' s' eff :
  command before r p now s = (p', s', eff) ->
  match eff with
  | None => state_key s' = state_key s /\ version s' = version s
  | Some t => exists d log, p = Queued (version s) t d log /\ s' = set_state d s /\
               p' = match log with Some e => LogZadd e | None => Done (Ok tt) end
  end.
Proof.
  intros H. destruct p as [|v|v t d log|e| |n|x]; simpl in H; simplify_eq/=; try done.
  - destruct (body_of r now (state_key s)); by simplify_eq/=.
  - case_decide; simplify_eq/=; [|done]. by exists d, log.
Qed.

Lemma command_store_le r p now s p' s' eff :
  command before r p now s = (p', s', eff) -> store_le s s'.
Proof.
  intros H. apply command_effect in H. destruct eff as [t|].
  - destruct H as (d & log & _ & -> & _). split; simpl; [lia|]. intros; lia.
  - destruct H as [Hk Hv]. split; [lia|]. done.
Qed.

(** The trace grows by the events the command's effect calls for. *)
Definition new_events (i : nat) (c : client) (now : Z) (p' : pc) (eff : option Z) : list cb_event :=
  match eff, ends_at_get (cl_pc c) p' now with
  | Some t, _ | None, Some t => [{| ev_client := i; ev_req := cl_req c; ev_now := t |}]
  | None, None => []
  end.

(** A command that ran: the key follows the trace, and the client's new
    position is justified by it. *)
Lemma command_delivered key tr i c now s p' s' eff :
  state_key s = atomic_run key tr ->
  pc_ok key s tr i c -> is_done (cl_pc c) = false ->
  command before (cl_req c) (cl_pc c) now s = (p', s', eff) ->
  state_key s' = atomic_run key (tr ++ new_events i c now p' eff) /\
  pc_ok key s' (tr ++ new_events i c now p' eff) i (at_pc c p').
Proof.
  intros Hkey Hpc Hnd Hcmd. unfold new_events, pc_ok in *. simpl.
  destruct (cl_pc c) as [|v|v t d log|e| |n|x] eqn:Epc; simpl in *; simplify_eq/=.
  - rewrite app_nil_r. by split; [|lia].
  - destruct (body_of (cl_req c) now (state_key s)) as [e| |d log] eqn:Eb; simplify_eq/=.
    + rewrite atomic_run_snoc. simpl. unfold atomic. rewrite <- Hkey, Eb. split; [done|].
      left. apply answered_last. unfold atomic. by rewrite <- Hkey, Eb.
    + rewrite atomic_run_snoc. simpl. unfold atomic. rewrite <- Hkey, Eb. split; [done|].
      left. apply answered_last. unfold atomic. by rewrite <- Hkey, Eb.
    + rewrite app_nil_r. split; [done|]. by split; [|intros _].
  - destruct Hpc as [Hle Hb]. case_decide as Hv; simplify_eq/=.
    + specialize (Hb eq_refl). rewrite atomic_run_snoc. simpl. unfold atomic at 1.
      rewrite <- Hkey, Hb. split; [done|].
      assert (answered key (tr ++ [{| ev_client := i; ev_req := cl_req c; ev_now := t |}]) i
                (cl_req c) (Ok tt)).
      { apply answered_last. unfold atomic. by rewrite <- Hkey, Hb. }
      destruct log; [done | by left].
    + rewrite app_nil_r. done.
  - rewrite app_nil_r. done.
  - destruct (0 <? append_excess s'); simplify_eq/=; rewrite app_nil_r; [done|]. split; [done|by left].
  - rewrite app_nil_r. split; [done|by left].
Qed.

Lemma retry_pc_ok key s tr i c :
  (1 <= cl_attempt c <= 3)%nat -> pc_ok key s tr i (after_connection_error c).
Proof.
  intros Ha. unfold after_connection_error, pc_ok.
  destruct (cl_attempt c <? 3)%nat eqn:E; simpl; [done|].
  right. split; [done|]. apply Nat.ltb_ge in E. lia.
Qed.

Lemma retry_attempts c :
  (1 <= cl_attempt c <= 3)%nat -> (1 <= cl_attempt (after_connection_error c) <= 3)%nat.
Proof.
  intros Ha. unfold after_connection_error.
  destruct (cl_attempt c <? 3)%nat eqn:E; simpl; [|lia]. apply Nat.ltb_lt in E. lia.
Qed.

(** Replacing client [i], the others carried along. *)
Lemma cluster_ok_update key rs g i c c' s' es :
  cluster_ok key rs g -> cl_clients g !! i = Some c ->
  store_le (cl_store g) s' -> cl_req c' = cl_req c -> (1 <= cl_attempt c' <= 3)%nat ->
  state_key s' = atomic_run key (cl_trace g ++ es) ->
  pc_ok key s' (cl_trace g ++ es) i c' ->
  cluster_ok key rs {| cl_store := s'; cl_clients := <[i := c']> (cl_clients g);
                       cl_trace := cl_trace g ++ es |}.
Proof.
  intros [Hk Hr Ha Hp] Hi Hle Hreq Hatt Hk' Hp'. split; simpl.
  - done.
  - rewrite list_fmap_insert, Hreq, <- Hr. apply list_insert_id.
    rewrite list_lookup_fmap, Hi. done.
  - intros j cj Hj. destruct (decide (j = i)) as [->|Hne].
    + rewrite list_lookup_insert_eq in Hj by (by eapply lookup_lt_Some). by simplify_eq.
    + rewrite list_lookup_insert_ne in Hj by done. by eapply Ha.
  - intros j cj Hj. destruct (decide (j = i)) as [->|Hne].
    + rewrite list_lookup_insert_eq in Hj by (by eapply lookup_lt_Some). by simplify_eq.
    + rewrite list_lookup_insert_ne in Hj by done. eapply pc_ok_later; [done|]. by apply Hp.
Qed.

Lemma cluster_step_ok key rs x g :
  cluster_ok key rs g -> cluster_ok key rs (cluster_step before x g).
Proof.
  intros Hok. destruct x as [[i now] how]. simpl.
  destruct (cl_clients g !! i) as [c|] eqn:Hi; [|done].
  destruct (is_done (cl_pc c)) eqn:Hd; [done|].
  destruct (command before (cl_req c) (cl_pc c) now (cl_store g)) as [[p' s'] eff] eqn:Hc.
  pose proof (ok_attempts _ _ _ Hok _ _ Hi) as Ha.
  destruct (command_delivered key (cl_trace g) i c now _ _ _ _
              (ok_key _ _ _ Hok) (ok_pc _ _ _ Hok _ _ Hi) Hd Hc) as [Hk Hp].
  destruct how.
  - apply (cluster_ok_update _ _ _ _ c); try done. by eapply command_store_le.
  - rewrite <- (app_nil_r (cl_trace g)).
    apply (cluster_ok_update _ _ _ _ c); try done.
    + unfold after_connection_error. by destruct (_ <? _)%nat.
    + by apply retry_attempts.
    + rewrite app_nil_r. apply Hok.
    + by apply retry_pc_ok.
  - apply (cluster_ok_update _ _ _ _ c); try done.
    + by eapply command_store_le.
    + unfold after_connection_error. by destruct (_ <? _)%nat.
    + by apply retry_attempts.
    + apply command_effect in Hc. destruct eff as [t|]; [done|].
      rewrite app_nil_r. destruct Hc as [-> _]. apply Hok.
    + by apply retry_pc_ok.
Qed.

Lemma cluster_run_ok key rs xs g :
  cluster_ok key rs g -> cluster_ok key rs (cluster_run before xs g).
Proof.
  revert g. induction xs as [|x xs IH]; intros g H; [done|]. apply IH. by apply cluster_step_ok.
Qed.

Lemma new_cluster_ok s rs : cluster_ok (state_key s) rs (new_cluster s rs).
Proof.
  split; simpl.
  - done.
  - rewrite <- list_fmap_compose. apply list_fmap_id.
  - intros i c Hi. apply list_lookup_fmap_Some in Hi as (r & -> & _). simpl. lia.
  - intros i c Hi. apply list_lookup_fmap_Some in Hi as (r & -> & _). done.
Qed.
End clients.

(** ** Lemmas: one client alone, the history *)

Lemma alone_app before r xs ys p s :
  alone before r (xs ++ ys) p s = let '(p', s') := alone before r xs p s in alone before r ys p' s'.
Proof.
  revert p s. induction xs as [|x xs IH]; intros p s; simpl; [done|].
  destruct (command before r p x s) as [[p' s'] eff]. apply IH.
Qed.

Lemma alone_cons before r now xs p s :
  alone before r (now :: xs) p s =
  let '(p', s', _) := command before r p now s in alone before r xs p' s'.
Proof. reflexivity. Qed.

Lemma alone_done before r xs x s : alone before r xs (Done x) s = (Done x, s).
Proof. induction xs as [|y xs IH]; simpl; [done|apply IH]. Qed.

(** A trip alone runs as [trip]: WATCH, GET, EXEC, ZADD, ZCARD, ZREMRANGEBYRANK. *)
Lemma alone_transact before r t1 now t3 score t5 t6 s :
  alone before r [t1; now; t3; score; t5; t6] Start s =
  let '(res, s') := transact before (body_of r now) score s in (Done res, s').
Proof.
  cbn [alone command]. unfold transact, mbind at 1, M_bind at 1, reads.
  destruct (body_of r now (state_key s)) as [e| |d log] eqn:Eb; [done|done|].
  simpl. rewrite decide_True by done. destruct log as [e|]; [|done].
  simpl. unfold _append_to_history. simpl.
  destruct (0 <? _) eqn:E; simpl; rewrite ?E; done.
Qed.

Section history.
Context (before : trip_entry -> trip_entry -> bool).

Lemma zcard_append (z : zset trip_entry) x : zcard (z ++ [x]) = zcard z + 1.
Proof. unfold zcard. rewrite length_app. simpl. lia. Qed.

(** Logging an entry newer than the others: it is the newest of at most
    1000, and the older ones are kept in order. *)
Lemma append_newest e score s :
  Forall (fun x => x.1 < score) (history_key s) -> e ∉ (history_key s).*2 ->
  _append_to_history before e score s =
  (Ok tt, set_history (last_n 1000 (history_key s ++ [(score, e)])) s).
Proof.
  intros Hs He. unfold _append_to_history, append_zadd, zadd.
  rewrite zrem_notin, zinsert_last by done.
  unfold append_excess, append_trim, zremrangebyrank. simpl.
  set (h := history_key s ++ [(score, e)]). f_equal.
  destruct (0 <? zcard h - max_history_entries) eqn:E; boolify.
  - unfold set_history. simpl. f_equal. unfold last_n. f_equal.
    unfold zcard, max_history_entries in *. lia.
  - unfold set_history. f_equal. rewrite last_n_all; [done|].
    unfold zcard, max_history_entries in *. lia.
Qed.

Lemma last_n_snoc {A} n (l : list A) x : (0 < n)%nat -> last_n n (l ++ [x]) = last_n (n - 1) l ++ [x].
Proof.
  intros Hn. unfold last_n. rewrite length_app. simpl.
  rewrite drop_app_le by lia. f_equal. f_equal. lia.
Qed.

Lemma zrevrange_newest (z : zset trip_entry) x : zrevrange (z ++ [x]) 0 0 = [x].
Proof.
  unfold zrevrange. rewrite reverse_app, reverse_singleton. simpl.
  change 0 with (Z.of_nat 1 - 1). by rewrite lrange_first by lia.
Qed.
End history.

(** A clock and a history that have not seen a trip at [now] logged at [score]. *)
Definition history_before (now score : Z) (s : cb_store) : Prop :=
  Forall (fun x => x.1 < score /\ te_tripped_at x.2 < now) (history_key s).

Definition new_entry (now : Z) (reason : string) (details : option json_dict) : trip_entry :=
  {| te_tripped_at := now; te_reason := reason; te_details := details;
     te_reset_at := None; te_reset_by := None; te_reset_reason := None |}.

Definition reset_entry (e : trip_entry) (at_ : Z) (by_ : string) (why : option string) : trip_entry :=
  {| te_tripped_at := te_tripped_at e; te_reason := te_reason e; te_details := te_details e;
     te_reset_at := Some at_; te_reset_by := Some by_;
     te_reset_reason := match reset_reason_or_absent why with
                        | Some r => Some r | None => te_reset_reason e end |}.

Definition tripped_data (d : cb_data) (now : Z) (reason : string) (details : option json_dict) : cb_data :=
  {| state := cb_value TRIPPED; tripped_at := Some now; trip_reason := Some reason;
     trip_details := details; reset_at := reset_at d; reset_by := reset_by d;
     trip_count_today := trip_count_today d + 1 |}.

Definition reset_data (d : cb_data) (now : Z) (by_ : string) : cb_data :=
  {| state := cb_value OPEN; tripped_at := None; trip_reason := None; trip_details := None;
     reset_at := Some now; reset_by := Some by_; trip_count_today := trip_count_today d |}.

Lemma history_before_notin now score s e :
  history_before now score s -> te_tripped_at e = now -> e ∉ (history_key s).*2.
Proof.
  intros H He Hin. apply list_elem_of_fmap in Hin as (x & -> & Hx).
  eapply Forall_forall in H as [_ H]; [|done]. lia.
Qed.

Lemma history_before_last_n n now score s P :
  (forall x : Z * trip_entry, x.1 < score /\ te_tripped_at x.2 < now -> P x) ->
  history_before now score s -> Forall P (last_n n (history_key s)).
Proof. intros HP H. apply Forall_drop. eapply Forall_impl; [exact H | exact HP]. Qed.

Section sequential.
Context (before : trip_entry -> trip_entry -> bool).

Lemma trip_runs s d now score reason details :
  state_key s = Some d -> state d <> cb_value TRIPPED -> history_before now score s ->
  trip before now score reason details s =
  (Ok tt, {| state_key := Some (tripped_data d now reason details); version := S (version s);
             history_key := last_n 999 (history_key s) ++ [(score, new_entry now reason details)] |}).
Proof.
  intros Hk Hn Hh. unfold trip, transact, mbind at 1, M_bind at 1, reads, trip_body.
  rewrite Hk, decide_False by done. unfold mbind at 1, M_bind at 1, redis_set.
  rewrite append_newest.
  - rewrite last_n_snoc by lia. done.
  - simpl. eapply Forall_impl; [exact Hh|]. by intros x [? _].
  - simpl. by eapply history_before_notin.
Qed.

Lemma trip_again s d now score reason details :
  state_key s = Some d -> state d = cb_value TRIPPED ->
  trip before now score reason details s = (Ok tt, s).
Proof.
  intros Hk Hs. unfold trip, transact, mbind at 1, M_bind at 1, reads, trip_body.
  by rewrite Hk, decide_True.
Qed.

Lemma reset_runs s d now by_ :
  state_key s = Some d -> state d = cb_value TRIPPED ->
  reset before now by_ s = (Ok tt, set_state (reset_data d now by_) s).
Proof.
  intros Hk Hs. unfold reset, transact, mbind at 1, M_bind at 1, reads, reset_body.
  by rewrite Hk, Hs.
Qed.

Lemma reset_refused s d now by_ :
  state_key s = Some d -> state d = cb_value OPEN ->
  reset before now by_ s =
  (Raise (CircuitBreakerError "Cannot reset circuit breaker: current state is OPEN, must be TRIPPED"), s).
Proof.
  intros Hk Hs. unfold reset, transact, mbind at 1, M_bind at 1, reads, reset_body.
  by rewrite Hk, Hs.
Qed.

Lemma update_history_runs s z score e at_ by_ why :
  history_key s = z ++ [(score, e)] -> Forall (fun x => x.1 < score) z ->
  e ∉ z.*2 -> reset_entry e at_ by_ why ∉ z.*2 -> te_reset_at e = None ->
  update_history_with_reset before at_ by_ why s =
  (Ok tt, set_history (z ++ [(score, reset_entry e at_ by_ why)]) s).
Proof.
  intros Hh Hz He He' Hr. unfold update_history_with_reset. rewrite Hh, zrevrange_newest, Hr.
  change {| te_tripped_at := te_tripped_at e |} with (reset_entry e at_ by_ why).
  unfold zadd.
  assert (Hrem : zrem e (z ++ [(score, e)]) = z).
  { unfold zrem. rewrite filter_app. fold (zrem e z). rewrite zrem_notin by done.
    rewrite filter_cons_False by auto. apply app_nil_r. }
  rewrite Hrem, zrem_notin, zinsert_last by done. done.
Qed.
End sequential.

(** ** Lemmas: trips of a TRIPPED breaker *)

Definition is_queued (p : pc) : bool := match p with Queued _ _ _ _ => true | _ => false end.

Record only_trips (d : cb_data) (g : cluster) : Prop := {
  ot_key : state_key (cl_store g) = Some d;
  ot_clients : Forall (fun c => (exists reason details, cl_req c = ReqTrip reason details) /\
                                is_queued (cl_pc c) = false) (cl_clients g)
}.

Lemma command_trip_tripped before reason details p now s d p' s' eff :
  state_key s = Some d -> state d = cb_value TRIPPED -> is_queued p = false ->
  command before (ReqTrip reason details) p now s = (p', s', eff) ->
  state_key s' = Some d /\ is_queued p' = false.
Proof.
  intros Hk Hd Hq Hc. pose proof (command_effect _ _ _ _ _ _ _ _ Hc) as He.
  split.
  - destruct eff as [t|]; [|by rewrite (proj1 He)].
    destruct He as (d' & log & -> & _). discriminate.
  - destruct p as [|v|v t d' log|e| |n|x]; simpl in Hc; simplify_eq/=; try done.
    + unfold trip_body in Hc. rewrite Hk, decide_True in Hc by done. by simplify_eq/=.
    + by destruct (0 <? _).
Qed.

Lemma after_connection_error_req c : cl_req (after_connection_error c) = cl_req c.
Proof. unfold after_connection_error. by destruct (_ <? _)%nat. Qed.

Lemma after_connection_error_queued c : is_queued (cl_pc (after_connection_error c)) = false.
Proof. unfold after_connection_error. by destruct (_ <? _)%nat. Qed.

Lemma only_trips_step before d x g :
  state d = cb_value TRIPPED -> only_trips d g -> only_trips d (cluster_step before x g).
Proof.
  intros Hd [Hk Hcs]. destruct x as [[i now] how]. simpl.
  destruct (cl_clients g !! i) as [c|] eqn:Hi; [|done].
  destruct (is_done (cl_pc c)); [done|].
  destruct (command before (cl_req c) (cl_pc c) now (cl_store g)) as [[p' s'] eff] eqn:Hc.
  pose proof (Forall_lookup_1 _ _ _ _ Hcs Hi) as [(reason & details & Hreq) Hq].
  rewrite Hreq in Hc. destruct (command_trip_tripped _ _ _ _ _ _ _ _ _ _ Hk Hd Hq Hc) as [Hk' Hq'].
  assert (Hretry : (exists reason details, cl_req (after_connection_error c) = ReqTrip reason details) /\
                   is_queued (cl_pc (after_connection_error c)) = false)
    by (rewrite after_connection_error_req, after_connection_error_queued; eauto).
  destruct how; split; simpl; try done; apply Forall_insert; try done; split; eauto.
Qed.

Lemma only_trips_run before d xs g :
  state d = cb_value TRIPPED -> only_trips d g -> only_trips d (cluster_run before xs g).
Proof.
  intros Hd. revert g. induction xs as [|x xs IH]; intros g H; [done|].
  apply IH. by apply only_trips_step.
Qed.

(** ** Lemmas: a cluster of one client *)

Definition solo (s : cb_store) (r : request) (p : pc) (a : nat) (tr : list cb_event) : cluster :=
  {| cl_store := s; cl_clients := [{| cl_req := r; cl_pc := p; cl_attempt := a |}]; cl_trace := tr |}.

Lemma solo_delivered before s r p a tr now xs p' s' eff :
  is_done p = false -> command before r p now s = (p', s', eff) ->
  exists tr', cluster_run before ((0%nat, now, Delivered) :: xs) (solo s r p a tr) =
              cluster_run before xs (solo s' r p' a tr').
Proof. intros Hd Hc. simpl. rewrite Hd, Hc. by eexists. Qed.

Lemma solo_reply_lost before s r p a tr now xs p' s' eff :
  is_done p = false -> command before r p now s = (p', s', eff) -> (a < 3)%nat ->
  exists tr', cluster_run before ((0%nat, now, ReplyLost) :: xs) (solo s r p a tr) =
              cluster_run before xs (solo s' r Start (S a) tr').
Proof.
  intros Hd Hc Ha. simpl. rewrite Hd, Hc. unfold after_connection_error. simpl.
  apply Nat.ltb_lt in Ha. rewrite Ha. by eexists.
Qed.

Lemma solo_command_lost before s r p a tr now xs :
  is_done p = false -> (a < 3)%nat ->
  cluster_run before ((0%nat, now, CommandLost) :: xs) (solo s r p a tr) =
  cluster_run before xs (solo s r Start (S a) tr).
Proof.
  intros Hd Ha. simpl. rewrite Hd. destruct (command _ _ _ _ _) as [[p' s'] eff].
  unfold after_connection_error. simpl. apply Nat.ltb_lt in Ha. by rewrite Ha.
Qed.

(** Run the next command of a lone client, its effect computed by [tac]. *)
Ltac solo_step lem tac :=
  match goal with
  | |- context [cluster_run ?b ((_, ?now, _) :: ?xs) (solo ?s ?r ?p ?a ?tr)] =>
      let tr' := fresh "tr" in let E := fresh "E" in
      edestruct (lem b s r p a tr now xs) as [tr' E];
      [reflexivity | cbn [command body_of]; tac; reflexivity | try lia .. | rewrite E; clear E]
  end.

(** ** Properties *)

(** C3. Linearizability: any number of clients trip, reset and reopen the
    breaker concurrently, their Redis commands interleaved in any order, with
    commands and replies lost and the calls retried.  The state key always
    holds what running the requests of the trace one after the other, each in
    one piece, gives; and every call that finished was answered what its
    request gave at its place in that order, unless its three attempts all
    met a connection error. *)
Theorem breaker_linearizable (before : trip_entry -> trip_entry -> bool) (s : cb_store)
    (rs : list request) (xs : list (nat * Z * delivery)) :
  let g := cluster_run before xs (new_cluster s rs) in
  state_key (cl_store g) = atomic_run (state_key s) (cl_trace g) /\
  cl_req <$> cl_clients g = rs /\
  forall i c r, cl_clients g !! i = Some c -> cl_pc c = Done r ->
    answered (state_key s) (cl_trace g) i (cl_req c) r \/
    (r = Raise RetryError /\ cl_attempt c = 3%nat).
Proof.
  intros g. pose proof (cluster_run_ok before _ _ xs _ (new_cluster_ok s rs)) as Hok.
  split_and!; [apply Hok | apply Hok |]. intros i c r Hi Hd.
  pose proof (ok_pc _ _ _ Hok _ _ Hi) as Hp. unfold pc_ok in Hp. by rewrite Hd in Hp.
Qed.

(** While the breaker is TRIPPED and no client resets or reopens it,
    concurrent trips change nothing: it stays TRIPPED with the reason, time
    and count of the first trip. *)
Theorem tripped_until_reset (before : trip_entry -> trip_entry -> bool) (s : cb_store) (d : cb_data)
    (rs : list request) (xs : list (nat * Z * delivery))
    (Hkey : state_key s = Some d) (Htripped : state d = cb_value TRIPPED)
    (Htrips : Forall (fun r => exists reason details, r = ReqTrip reason details) rs) :
  let s' := cl_store (cluster_run before xs (new_cluster s rs)) in
  state_key s' = Some d /\ (is_tripped s').1 = Ok true.
Proof.
  intros s'. assert (Hk : state_key s' = Some d).
  { apply only_trips_run; [done|]. split; [done|]. apply Forall_fmap.
    eapply Forall_impl; [exact Htrips|]. by intros r Hr. }
  split; [done|]. unfold is_tripped, get_state, mbind, M_bind, reads. by rewrite Hk, Htripped.
Qed.

(** The life of a trip, nobody interfering: it makes the breaker TRIPPED,
    counts one trip and logs it as the newest of at most 1000 entries; a
    second trip is a no-op; reset reopens the breaker, keeps the count and
    leaves the history alone; a second reset raises; and
    [update_history_with_reset] then records the reset in the newest entry
    and in no other. *)
Theorem trip_reset_cycle (before : trip_entry -> trip_entry -> bool) (s : cb_store) (d : cb_data)
    (now score t at_ : Z) (reason by_ : string) (details : option json_dict) (why : option string)
    (Hkey : state_key s = Some d) (Hopen : state d <> cb_value TRIPPED)
    (Hclock : history_before now score s) :
  let e := new_entry now reason details in
  let older := last_n 999 (history_key s) in
  exists s1 s2 s3,
    trip before now score reason details s = (Ok tt, s1) /\
    (is_tripped s1).1 = Ok true /\ (get_trip_reason s1).1 = Ok (Some reason) /\
    state_key s1 = Some (tripped_data d now reason details) /\
    (get_history 1 s1).1 = Ok [e] /\ history_key s1 = older ++ [(score, e)] /\
    trip before t t reason details s1 = (Ok tt, s1) /\
    reset before t by_ s1 = (Ok tt, s2) /\
    (get_state s2).1 = Ok OPEN /\ history_key s2 = history_key s1 /\
    trip_count_today <$> state_key s2 = Some (trip_count_today d + 1) /\
    (exists m, reset before t by_ s2 = (Raise (CircuitBreakerError m), s2)) /\
    update_history_with_reset before at_ by_ why s2 = (Ok tt, s3) /\
    history_key s3 = older ++ [(score, reset_entry e at_ by_ why)] /\ state_key s3 = state_key s2.
Proof.
  intros e older.
  set (s1 := {| state_key := Some (tripped_data d now reason details); version := S (version s);
                history_key := older ++ [(score, e)] |}).
  set (s2 := set_state (reset_data (tripped_data d now reason details) t by_) s1).
  exists s1, s2, (set_history (older ++ [(score, reset_entry e at_ by_ why)]) s2).
  assert (Hold : forall e', te_tripped_at e' = now -> e' ∉ older.*2).
  { intros e' He' Hin. apply (history_before_notin now score s e' Hclock He').
    unfold older, last_n in Hin. rewrite fmap_drop in Hin.
    rewrite <- (take_drop (length (history_key s) - 999) (history_key s).*2).
    apply elem_of_app. by right. }
  split_and!; try done.
  - by apply trip_runs.
  - unfold get_history, reads, zrevrange. simpl. rewrite reverse_app, reverse_singleton. done.
  - eexists. by eapply reset_refused.
  - apply update_history_runs; try done; [|by apply Hold..].
    eapply history_before_last_n; [|exact Hclock]. by intros x [? _].
Qed.

(** A WATCH loop terminates as soon as the other clients pause: from any
    position, with any store and clock, eight further commands finish the
    call. *)
Theorem client_alone_finishes (before : trip_entry -> trip_entry -> bool) (r : request) (p : pc)
    (s : cb_store) (clock : list Z) (Hclock : (8 <= length clock)%nat) :
  is_done (alone before r clock p s).1 = true.
Proof.
  assert (Hlog : forall e xs s', (3 <= length xs)%nat -> is_done (alone before r xs (LogZadd e) s').1 = true).
  { intros e [|x [|y [|z xs]]] s' Hl; simpl in *; try lia.
    destruct (0 <? _); simpl; by rewrite alone_done. }
  assert (Hstart : forall xs s', (6 <= length xs)%nat -> is_done (alone before r xs Start s').1 = true).
  { intros [|x [|y [|z xs]]] s' Hl; simpl in *; try lia.
    destruct (body_of r y (state_key s')) as [e| |d [e|]]; simpl;
      rewrite ?decide_True by done; rewrite ?alone_done; try done. apply Hlog. lia. }
  destruct clock as [|x [|y ys]]; simpl in Hclock; try lia.
  assert (Hqueued : forall v t d log xs s', (7 <= length xs)%nat ->
            is_done (alone before r xs (Queued v t d log) s').1 = true).
  { intros v t d log [|x' xs] s' Hl; simpl in Hl; [lia|]. rewrite alone_cons. cbn [command].
    case_decide; [destruct log; [apply Hlog; lia | by rewrite alone_done] | apply Hstart; lia]. }
  destruct p as [|v|v t d log|e| |n|a].
  - apply Hstart. simpl. lia.
  - rewrite alone_cons. cbn [command].
    destruct (body_of r x (state_key s)) as [e| |d log]; rewrite ?alone_done; try done.
    apply Hqueued. simpl. lia.
  - apply Hqueued. simpl. lia.
  - apply Hlog. simpl. lia.
  - simpl. destruct (0 <? append_excess s); simpl; by rewrite !alone_done.
  - simpl. by rewrite alone_done.
  - by rewrite alone_done.
Qed.

(** A reply lost at the wrong moment makes the retried call misreport:
    when the EXEC of a reset ran but its reply was lost, the second attempt
    finds the breaker OPEN and the call raises CircuitBreakerError although it
    did reset the breaker; when the ZADD of a trip is lost, the second attempt
    finds it TRIPPED and the call returns, the trip never logged. *)
Theorem retry_after_lost_reply (before : trip_entry -> trip_entry -> bool) (s : cb_store) (d : cb_data)
    (t : Z) (by_ reason : string) (details : option json_dict) (Hkey : state_key s = Some d) :
  (state d = cb_value TRIPPED ->
   let g := cluster_run before
     [(0%nat, t, Delivered); (0%nat, t, Delivered); (0%nat, t, ReplyLost);
      (0%nat, t, Delivered); (0%nat, t, Delivered)] (new_cluster s [ReqReset by_]) in
   (get_state (cl_store g)).1 = Ok OPEN /\
   exists c m, cl_clients g !! 0%nat = Some c /\ cl_pc c = Done (Raise (CircuitBreakerError m))) /\
  (state d <> cb_value TRIPPED ->
   let g := cluster_run before
     [(0%nat, t, Delivered); (0%nat, t, Delivered); (0%nat, t, Delivered); (0%nat, t, CommandLost);
      (0%nat, t, Delivered); (0%nat, t, Delivered)] (new_cluster s [ReqTrip reason details]) in
   (is_tripped (cl_store g)).1 = Ok true /\ history_key (cl_store g) = history_key s /\
   exists c, cl_clients g !! 0%nat = Some c /\ cl_pc c = Done (Ok tt)).
Proof.
  split; intros Hd g; subst g.
  - change (new_cluster s [ReqReset by_]) with (solo s (ReqReset by_) Start 1 []).
    solo_step solo_delivered idtac.
    solo_step solo_delivered ltac:(unfold reset_body; rewrite Hkey, Hd).
    solo_step solo_reply_lost ltac:(rewrite decide_True by done).
    solo_step solo_delivered idtac. solo_step solo_delivered idtac.
    split; [done|]. by eexists _, _.
  - change (new_cluster s [ReqTrip reason details]) with (solo s (ReqTrip reason details) Start 1 []).
    solo_step solo_delivered idtac.
    solo_step solo_delivered ltac:(unfold trip_body; rewrite Hkey, decide_False by done).
    solo_step solo_delivered ltac:(rewrite decide_True by done).
    rewrite solo_command_lost by (done || lia).
    solo_step solo_delivered idtac. solo_step solo_delivered idtac.
    split; [done|]. split; [done|]. by eexists.
Qed.

(** [migrate_legacy_quiet_period_state] is a GET followed by a SET, not a
    transaction: a trip that runs between the two is lost, and the breaker is
    OPEN although the trip returned. *)
Theorem migrate_race_undoes_trip (before : trip_entry -> trip_entry -> bool) (s : cb_store) (d : cb_data)
    (now score : Z) (reason : string) (details : option json_dict)
    (Hkey : state_key s = Some d) (Hlegacy : state d = cb_value QUIET_PERIOD) :
  exists d' s1,
    migrate_write (state_key s) = Some d' /\
    trip before now score reason details s = (Ok tt, s1) /\ (is_tripped s1).1 = Ok true /\
    (is_tripped (redis_set d' s1).2).1 = Ok false /\
    trip_count_today d' = trip_count_today d.
Proof.
  exists (with_state OPEN d). unfold migrate_write. rewrite Hkey. simpl. rewrite decide_True by done.
  unfold trip, transact, mbind at 1, M_bind at 1, reads, trip_body.
  rewrite Hkey, decide_False by (by rewrite Hlegacy). unfold mbind at 1, M_bind at 1, redis_set at 1.
  unfold _append_to_history. eexists. split_and!; [done|done| |done|done].
  by destruct (0 <? _).
Qed.

(** Fail closed: with the state key missing, every read and transition
    raises RuntimeError and changes nothing, a breaker constructed without
    [auto_initialize] leaves it missing, and only [initialize_state] brings
    back an OPEN breaker; once there is a state, [initialize_state(False)]
    refuses to touch it. *)
Theorem breaker_fails_closed (before : trip_entry -> trip_entry -> bool) (s : cb_store)
    (Hkey : state_key s = None) :
  get_state s = (Raise state_missing, s) /\ get_status s = (Raise state_missing, s) /\
  is_tripped s = (Raise state_missing, s) /\
  (forall now score reason details, trip before now score reason details s = (Raise state_missing, s)) /\
  (forall now by_, reset before now by_ s = (Raise state_missing, s)) /\
  (forall now, _transition_to_open before now s = (Raise state_missing, s)) /\
  circuit_breaker_init false s = (Ok tt, s) /\ migrate_legacy_quiet_period_state s = (Ok false, s) /\
  (initialize_state false s).1 = Ok true /\ (is_tripped (initialize_state false s).2).1 = Ok false /\
  (forall s' d, state_key s' = Some d -> initialize_state false s' = (Ok false, s')).
Proof.
  split_and!; intros;
    unfold is_tripped, get_state, get_status, trip, reset, _transition_to_open, transact,
      circuit_breaker_init, migrate_legacy_quiet_period_state, initialize_state,
      mbind, M_bind, reads, raise;
    rewrite ?Hkey; try done.
  by rewrite H.
Qed.

(** [get_status] and [get_state] agree: whenever [get_state] returns a
    state, the status payload shows that state. *)
Theorem status_shows_state (s : cb_store) (st : CircuitBreakerState)
    (Hst : (get_state s).1 = Ok st) :
  exists d, (get_status s).1 = Ok d /\ state d = cb_value st.
Proof.
  unfold get_state, get_status, mbind, M_bind, reads in *.
  destruct (state_key s) as [d|]; [|done]. simpl in Hst. unfold cb_parse, lift in Hst.
  destruct (decide (state d = "QUIET_PERIOD")) as [Hd|Hq];
    [|destruct (decide (state d = "OPEN")) as [Hd|_];
      [|destruct (decide (state d = "TRIPPED")) as [Hd|_];
        [|done]]];
    simplify_eq/=; rewrite Hd; eexists; (split; [reflexivity|]); reflexivity.
Qed.

(** ** Witnesses *)

Definition ex_before (_ _ : trip_entry) : bool := true.
Definition ex_open : cb_store := (initialize_state true {| state_key := None; version := 0; history_key := [] |}).2.
Definition ex_tripped : cb_store := (trip ex_before 10 11 "MANUAL" None ex_open).2.
Definition ex_legacy : cb_store := set_state (with_state QUIET_PERIOD default_state) ex_open.

Lemma tripped_until_reset_witness :
  (is_tripped (cl_store (cluster_run ex_before [(0%nat, 20, Delivered); (1%nat, 21, Delivered); (0%nat, 22, Delivered)]
     (new_cluster ex_tripped [ReqTrip "a" None; ReqTrip "b" None])))).1 = Ok true.
Proof.
  refine (proj2 (tripped_until_reset ex_before ex_tripped (tripped_data default_state 10 "MANUAL" None)
    _ _ _ _ _)).
  - reflexivity.
  - reflexivity.
  - repeat constructor; eexists _, _; reflexivity.
Defined.

Lemma trip_reset_cycle_witness : exists s1, trip ex_before 10 11 "MANUAL" None ex_open = (Ok tt, s1).
Proof.
  destruct (trip_reset_cycle ex_before ex_open default_state 10 11 12 13 "MANUAL" "ops" None None)
    as (s1 & s2 & s3 & H & _).
  - reflexivity.
  - discriminate.
  - constructor.
  - exists s1. exact H.
Defined.

Lemma client_alone_finishes_witness :
  is_done (alone ex_before (ReqReset "ops") [1; 2; 3; 4; 5; 6; 7; 8] (Queued 7 0 default_state None) ex_tripped).1 = true.
Proof. apply client_alone_finishes. simpl. lia. Defined.

Lemma retry_after_lost_reply_witness :
  exists s, (get_state s).1 = Ok OPEN.
Proof.
  destruct (retry_after_lost_reply ex_before ex_tripped (tripped_data default_state 10 "MANUAL" None) 20 "ops" "r" None)
    as [H _]; [reflexivity|].
  eexists. exact (proj1 (H eq_refl)).
Defined.

Lemma migrate_race_undoes_trip_witness :
  exists d' s1, migrate_write (state_key ex_legacy) = Some d' /\
    trip ex_before 10 11 "MANUAL" None ex_legacy = (Ok tt, s1) /\ (is_tripped (redis_set d' s1).2).1 = Ok false.
Proof.
  destruct (migrate_race_undoes_trip ex_before ex_legacy (with_state QUIET_PERIOD default_state) 10 11 "MANUAL" None)
    as (d' & s1 & H1 & H2 & _ & H3 & _); [reflexivity|reflexivity|].
  exists d', s1. split; [exact H1|]. split; [exact H2|exact H3].
Defined.

Lemma breaker_fails_closed_witness :
  get_state {| state_key := None; version := 3; history_key := [] |} =
  (Raise state_missing, {| state_key := None; version := 3; history_key := [] |}).
Proof. apply (breaker_fails_closed ex_before). reflexivity. Defined.

Lemma status_shows_state_witness :
  exists d, (get_status ex_legacy).1 = Ok d /\ state d = "OPEN".
Proof. apply (status_shows_state ex_legacy OPEN). reflexivity. Defined.
