(* ===== verification/Reservation.v ===== *)
(** * Position reservation (libs/trading/risk_management/position_reservation.py)

    The reserved position of a symbol and the reservation tokens live in Redis
    under string keys; token keys expire, the aggregate key never does.
    [reserve], [release] and [confirm] are Lua scripts, one atomic step each.
    Lua computes in doubles, exact on the share counts this models (integers
    below 2^53).  [now] is the server's time in seconds and the token of a
    reservation ([secrets.token_hex(8)]) is an argument. *)

From S2P Require Import Prelude PyText Redis.
Open Scope Z_scope.

(** A Redis string key: a number and the time it expires, if it does. *)
Record rvalue := { rv_num : Z; rv_expires : option Z }.
Abbreviation rstore := (gmap string rvalue).

Definition rlive (now : Z) (v : rvalue) : bool :=
  match rv_expires v with Some t => now <? t | None => true end.

Definition redis_get (now : Z) (k : string) (s : rstore) : option Z :=
  v ← s !! k; if rlive now v then Some (rv_num v) else None.
Definition redis_set (k : string) (n : Z) (s : rstore) : rstore :=
  <[k := {| rv_num := n; rv_expires := None |}]> s.
Definition redis_expire (now ttl : Z) (k : string) (s : rstore) : rstore :=
  alter (fun v => {| rv_num := rv_num v; rv_expires := Some (now + ttl) |}) k s.

(** [_get_key] and the token keys of the scripts *)
Definition _get_key (symbol : string) : string := "position_reservation:" +:+ symbol.
Definition token_key (symbol token : string) : string := _get_key symbol +:+ ":token:" +:+ token.

Definition DEFAULT_RESERVATION_TTL : Z := 60.

Record ReservationResult := {
  rr_success : bool;
  rr_token : option string;
  rr_reason : string;
  rr_previous : Z;
  rr_new : Z
}.

Record ReleaseResult := {
  rl_success : bool;
  rl_reason : string;
  rl_previous : option Z;
  rl_new : option Z
}.

(** RESERVE_POSITION_LUA *)
Definition reserve_script (now : Z) (symbol : string) (delta max_limit : Z) (token : string)
    (ttl fallback : Z) (s : rstore) : (bool * Z * Z) * rstore :=
  let current := default fallback (redis_get now (_get_key symbol) s) in
  let new_position := current + delta in
  if max_limit <? Z.abs new_position then ((false, current, new_position), s)
  else ((true, current, new_position),
        redis_expire now ttl (token_key symbol token)
          (redis_set (token_key symbol token) delta (redis_set (_get_key symbol) new_position s))).

(** RELEASE_RESERVATION_LUA *)
Definition release_script (now : Z) (symbol token : string) (s : rstore) : option (Z * Z) * rstore :=
  match redis_get now (token_key symbol token) s with
  | None => (None, s)
  | Some delta =>
      let current := default 0 (redis_get now (_get_key symbol) s) in
      (Some (current, current - delta),
       delete (token_key symbol token) (redis_set (_get_key symbol) (current - delta) s))
  end.

(** CONFIRM_RESERVATION_LUA *)
Definition confirm_script (now : Z) (symbol token : string) (s : rstore) : bool * rstore :=
  match redis_get now (token_key symbol token) s with
  | None => (false, s)
  | Some _ => (true, delete (token_key symbol token) s)
  end.

(** [reserve]: every side but "buy" counts as a sale. *)
Definition reserve_delta (side : string) (qty : Z) : Z := if decide (side = "buy") then qty else - qty.

Definition reserve (now : Z) (token symbol side : string) (qty max_limit current_position ttl : Z) :
    M rstore ReservationResult := fun s =>
  let '((ok, prev, new), s') :=
    reserve_script now symbol (reserve_delta side qty) max_limit token ttl current_position s in
  (Ok (if ok : bool then
         {| rr_success := true; rr_token := Some token; rr_reason := ""; rr_previous := prev; rr_new := new |}
       else
         {| rr_success := false; rr_token := None;
            rr_reason := "Position limit exceeded: " +:+ str_int (Z.abs new) +:+ " > " +:+ str_int max_limit;
            rr_previous := prev; rr_new := new |}), s').

Definition release (now : Z) (symbol token : string) : M rstore ReleaseResult := fun s =>
  match release_script now symbol token s with
  | (Some (prev, new), s') =>
      (Ok {| rl_success := true; rl_reason := "RELEASED"; rl_previous := Some prev; rl_new := Some new |}, s')
  | (None, s') =>
      (Ok {| rl_success := false; rl_reason := "TOKEN_NOT_FOUND"; rl_previous := None; rl_new := None |}, s')
  end.

Definition confirm (now : Z) (symbol token : string) : M rstore ReleaseResult := fun s =>
  match confirm_script now symbol token s with
  | (true, s') =>
      (Ok {| rl_success := true; rl_reason := "CONFIRMED"; rl_previous := None; rl_new := None |}, s')
  | (false, s') =>
      (Ok {| rl_success := false; rl_reason := "TOKEN_NOT_FOUND"; rl_previous := None; rl_new := None |}, s')
  end.

Definition get_reserved_position (now : Z) (symbol : string) : M rstore Z :=
  reads (fun s => default 0 (redis_get now (_get_key symbol) s)).

Definition sync_position (symbol : string) (actual_position : Z) : M rstore unit := fun s =>
  (Ok tt, redis_set (_get_key symbol) actual_position s).

Definition clear_all (symbol : string) : M rstore unit := fun s => (Ok tt, delete (_get_key symbol) s).

(** ** Runs of operations on one symbol, and their ledger *)

Inductive reservation_op :=
| OpReserve (now : Z) (token side : string) (qty max_limit current_position ttl : Z)
| OpRelease (now : Z) (token : string)
| OpConfirm (now : Z) (token : string)
| OpGet (now : Z).

Inductive status := Outstanding | Confirmed | Released.

#[export] Instance status_eq_dec : EqDecision status.
Proof. solve_decision. Defined.

Record ledger_entry := { le_token : string; le_delta : Z; le_status : status }.
Abbreviation ledger := (list ledger_entry).

(** What the successful reservations that were not released add up to. *)
Definition net (l : ledger) : Z :=
  Zsum ((fun e => if decide (le_status e = Released) then 0 else le_delta e) <$> l).

Definition settle (token : string) (st : status) (l : ledger) : ledger :=
  (fun e => if decide (le_token e = token)
            then {| le_token := le_token e; le_delta := le_delta e; le_status := st |} else e) <$> l.

Definition rop_run (symbol : string) (op : reservation_op) (x : rstore * ledger) : rstore * ledger :=
  let '(s, l) := x in
  match op with
  | OpReserve now token side qty max_limit current_position ttl =>
      match reserve now token symbol side qty max_limit current_position ttl s with
      | (Ok r, s') => (s', if rr_success r
                           then l ++ [{| le_token := token; le_delta := reserve_delta side qty;
                                         le_status := Outstanding |}] else l)
      | (Raise _, s') => (s', l)
      end
  | OpRelease now token =>
      match release now symbol token s with
      | (Ok r, s') => (s', if rl_success r then settle token Released l else l)
      | (Raise _, s') => (s', l)
      end
  | OpConfirm now token =>
      match confirm now symbol token s with
      | (Ok r, s') => (s', if rl_success r then settle token Confirmed l else l)
      | (Raise _, s') => (s', l)
      end
  | OpGet now => ((get_reserved_position now symbol s).2, l)
  end.

Definition rop_runs (symbol : string) (ops : list reservation_op) (x : rstore * ledger) : rstore * ledger :=
  foldl (fun x op => rop_run symbol op x) x ops.

(** The tokens the reservations of a run use. *)
Definition reserve_tokens (ops : list reservation_op) : list string :=
  omap (fun op => match op with OpReserve _ token _ _ _ _ _ => Some token | _ => None end) ops.

(** ** Lemmas *)

Lemma get_key_inj a b : _get_key a = _get_key b -> a = b.
Proof. unfold _get_key. intros H. by apply (inj (String.append _)) in H. Qed.

Lemma token_key_inj symbol a b : token_key symbol a = token_key symbol b -> a = b.
Proof.
  unfold token_key. intros H. apply (inj (String.append _)) in H. by apply (inj (String.append _)) in H.
Qed.

Lemma token_key_ne symbol token : token_key symbol token <> _get_key symbol.
Proof.
  unfold token_key. intros H. apply (f_equal slen) in H.
  rewrite !slen_app in H. change (slen ":token:") with 7%nat in H. lia.
Qed.

Lemma token_key_app symbol token :
  token_key symbol token = "position_reservation:" +:+ (symbol +:+ ":token:" +:+ token).
Proof. reflexivity. Qed.

(** Symbols without a colon do not share keys. *)
Lemma keys_independent a b token :
  no_char 58 a -> no_char 58 b -> a <> b ->
  token_key a token <> _get_key b /\ forall token', token_key a token <> token_key b token'.
Proof.
  intros Ha Hb Hab. rewrite token_key_app. unfold _get_key. split; [intros H|intros token' H].
  - apply (inj (String.append _)) in H.
    assert (Hn : no_char 58 (a +:+ ":token:" +:+ token)) by (by rewrite H).
    apply no_char_app in Hn as [_ Hn]. apply Forall_cons in Hn as [Hn _]. by apply Hn.
  - rewrite token_key_app in H. apply (inj (String.append _)) in H.
    apply (split_sep 58) in H as [H _]; [done..].
Qed.

Lemma settle_tokens token st l : le_token <$> settle token st l = le_token <$> l.
Proof.
  unfold settle. rewrite <- list_fmap_compose. apply list_fmap_ext. intros i e _. simpl. by case_decide.
Qed.

Lemma settle_notin token st l : token ∉ (le_token <$> l) -> settle token st l = l.
Proof.
  intros H. unfold settle. induction l as [|e l IH]; [done|]. rewrite fmap_cons in H.
  apply not_elem_of_cons in H as [H1 H2]. rewrite fmap_cons, decide_False by done.
  f_equal. by apply IH.
Qed.

Lemma net_app l k : net (l ++ k) = net l + net k.
Proof. unfold net. by rewrite fmap_app, Zsum_app. Qed.

Lemma net_cons e l : net (e :: l) = (if decide (le_status e = Released) then 0 else le_delta e) + net l.
Proof. reflexivity. Qed.

(** Settling the one outstanding entry of a token. *)
Lemma net_settle token delta st l :
  NoDup (le_token <$> l) -> {| le_token := token; le_delta := delta; le_status := Outstanding |} ∈ l ->
  net (settle token st l) = net l - (if decide (st = Released) then delta else 0).
Proof.
  intros Hnd Hin. apply list_elem_of_split in Hin as (l1 & l2 & ->).
  rewrite fmap_app, fmap_cons in Hnd. simpl in Hnd.
  apply NoDup_app in Hnd as (_ & Hd & Hnd). apply NoDup_cons in Hnd as [Hn2 _].
  assert (Hn1 : token ∉ (le_token <$> l1)) by (intros Hx; apply (Hd token Hx); by left).
  unfold settle. rewrite fmap_app, fmap_cons. fold (settle token st l1) (settle token st l2).
  rewrite !settle_notin by done. rewrite decide_True by done.
  rewrite !net_app, !net_cons. cbn [le_status le_delta].
  rewrite (decide_False (P := Outstanding = Released)) by done.
  destruct (decide (st = Released)); lia.
Qed.

Section symbol.
Context (symbol : string) (base : Z).

(** The store of a symbol agrees with the ledger of its reservations. *)
Record reservation_ok (x : rstore * ledger) : Prop := {
  ro_tokens : NoDup (le_token <$> x.2);
  ro_aggregate : x.1 !! _get_key symbol = Some {| rv_num := base + net x.2; rv_expires := None |};
  ro_outstanding : forall token v, x.1 !! token_key symbol token = Some v ->
    {| le_token := token; le_delta := rv_num v; le_status := Outstanding |} ∈ x.2
}.

Lemma aggregate_read now x : reservation_ok x ->
  redis_get now (_get_key symbol) x.1 = Some (base + net x.2).
Proof. intros H. unfold redis_get. by rewrite (ro_aggregate _ H). Qed.

Lemma token_read now x token delta : reservation_ok x ->
  redis_get now (token_key symbol token) x.1 = Some delta ->
  {| le_token := token; le_delta := delta; le_status := Outstanding |} ∈ x.2.
Proof.
  intros H. unfold redis_get. destruct (x.1 !! token_key symbol token) as [v|] eqn:E; simpl; [|done].
  destruct (rlive now v); [|done]. intros [= <-]. by apply (ro_outstanding _ H).
Qed.

(** Deleting the token key of a settled entry. *)
Lemma settle_ok x token delta st s' :
  reservation_ok x -> {| le_token := token; le_delta := delta; le_status := Outstanding |} ∈ x.2 ->
  s' !! _get_key symbol =
    Some {| rv_num := base + net x.2 - (if decide (st = Released) then delta else 0); rv_expires := None |} ->
  (forall t, s' !! token_key symbol t = if decide (t = token) then None else x.1 !! token_key symbol t) ->
  reservation_ok (s', settle token st x.2).
Proof.
  intros [Hnd Ha Ho] Hin Hagg Htok. split; simpl.
  - by rewrite settle_tokens.
  - rewrite Hagg. rewrite (net_settle _ delta) by done. by rewrite Z.add_sub_assoc.
  - intros t v Hv. rewrite Htok in Hv. case_decide as Ht; [done|].
    apply Ho in Hv. unfold settle. apply list_elem_of_fmap. eexists. split; [|exact Hv].
    simpl. by rewrite decide_False.
Qed.
End symbol.

Section steps.
Context (symbol : string) (base : Z).

Lemma reserve_run now token side qty max_limit current ttl x :
  reservation_ok symbol base x ->
  let held := base + net x.2 in
  let new := held + reserve_delta side qty in
  exists r, (reserve now token symbol side qty max_limit current ttl x.1).1 = Ok r /\
    rr_previous r = held /\ rr_new r = new /\
    (rr_success r = true <-> Z.abs new <= max_limit) /\
    (rr_success r = true ->
     (reserve now token symbol side qty max_limit current ttl x.1).2 =
       <[token_key symbol token := {| rv_num := reserve_delta side qty; rv_expires := Some (now + ttl) |}]>
         (<[_get_key symbol := {| rv_num := new; rv_expires := None |}]> x.1)) /\
    (rr_success r = false -> (reserve now token symbol side qty max_limit current ttl x.1).2 = x.1).
Proof.
  intros Hok held new. unfold reserve, reserve_script.
  rewrite (aggregate_read _ _ now _ Hok). simpl. fold held. fold new.
  destruct (max_limit <? Z.abs new) eqn:E; boolify; eexists; (split; [reflexivity|]); simpl; split_and!; try done.
  - split; [done|lia].
  - intros _. unfold redis_expire, redis_set. by rewrite alter_insert_eq.
Qed.

Lemma rop_run_ok op x :
  reservation_ok symbol base x ->
  match op with OpReserve _ token _ _ _ _ _ => token ∉ (le_token <$> x.2) | _ => True end ->
  reservation_ok symbol base (rop_run symbol op x).
Proof.
  intros Hok Hfresh. destruct x as [s l].
  destruct op as [now token side qty max_limit current ttl|now token|now token|now]; simpl.
  - destruct (reserve_run now token side qty max_limit current ttl _ Hok) as (r & Hr & _ & _ & _ & Hs & Hf).
    simpl in *. destruct (reserve _ _ _ _ _ _ _ _ _) as [r' s']. simpl in *. subst r'.
    destruct (rr_success r); [|by rewrite Hf]. rewrite Hs by done. split; simpl.
    + rewrite fmap_app. apply NoDup_app. split_and!; [apply Hok| |apply NoDup_singleton].
      intros t Ht [->|H]%elem_of_cons; [done|by apply elem_of_nil in H].
    + rewrite lookup_insert_ne by apply token_key_ne. rewrite lookup_insert_eq, net_app. f_equal. f_equal.
      unfold net at 3. simpl. lia.
    + intros t v. destruct (decide (t = token)) as [->|Hne].
      * rewrite lookup_insert_eq. intros [= <-]. apply elem_of_app. right. by left.
      * rewrite lookup_insert_ne by (intros H; by apply token_key_inj in H).
        rewrite lookup_insert_ne by (intros H; by apply (token_key_ne symbol t)).
        intros Hv. apply elem_of_app. left. by apply (ro_outstanding _ _ _ Hok).
  - unfold release, release_script.
    destruct (redis_get now (token_key symbol token) s) as [delta|] eqn:E; [|done].
    pose proof (aggregate_read _ _ now _ Hok) as Hagg. cbn [fst] in Hagg. rewrite Hagg. simpl.
    apply (settle_ok symbol base (s, l) token delta); [done|by eapply token_read| |]; simpl.
    + rewrite lookup_delete_ne by apply token_key_ne. unfold redis_set. by rewrite lookup_insert_eq.
    + intros t. case_decide as Ht; [subst; apply lookup_delete_eq|].
      rewrite lookup_delete_ne by (intros H; by apply token_key_inj in H).
      unfold redis_set. by rewrite lookup_insert_ne by (intros H; by apply (token_key_ne symbol t)).
  - unfold confirm, confirm_script.
    destruct (redis_get now (token_key symbol token) s) as [delta|] eqn:E; [|done]. simpl.
    apply (settle_ok symbol base (s, l) token delta); [done|by eapply token_read| |]; simpl.
    + rewrite lookup_delete_ne by apply token_key_ne. rewrite Z.sub_0_r. apply Hok.
    + intros t. case_decide as Ht; [subst; apply lookup_delete_eq|].
      by rewrite lookup_delete_ne by (intros H; by apply token_key_inj in H).
  - done.
Qed.

Lemma rop_run_tokens op x :
  le_token <$> (rop_run symbol op x).2 = le_token <$> x.2 \/
  exists now token side qty max_limit current ttl,
    op = OpReserve now token side qty max_limit current ttl /\
    le_token <$> (rop_run symbol op x).2 = (le_token <$> x.2) ++ [token].
Proof.
  destruct x as [s l]. destruct op as [now token side qty max_limit current ttl|now token|now token|now]; simpl.
  - destruct (reserve _ _ _ _ _ _ _ _ _) as [[r|e] s']; [|by left]. destruct (rr_success r); [|by left].
    right. eexists _, _, _, _, _, _, _. split; [done|]. simpl. by rewrite fmap_app.
  - destruct (release _ _ _ _) as [[r|e] s']; [|by left]. left. destruct (rl_success r); [|done].
    apply settle_tokens.
  - destruct (confirm _ _ _ _) as [[r|e] s']; [|by left]. left. destruct (rl_success r); [|done].
    apply settle_tokens.
  - by left.
Qed.

(** The tokens of the operations to come are fresh, step by step. *)
Lemma distinct_fresh op ops (x : rstore * ledger) :
  NoDup ((le_token <$> x.2) ++ reserve_tokens (op :: ops)) ->
  match op with OpReserve _ token _ _ _ _ _ => token ∉ (le_token <$> x.2) | _ => True end.
Proof.
  destruct op; try done. simpl. intros Hnd. apply NoDup_app in Hnd as (_ & Hd & _).
  intros Hin. apply (Hd _ Hin). by left.
Qed.

Lemma distinct_step op ops (x : rstore * ledger) :
  NoDup ((le_token <$> x.2) ++ reserve_tokens (op :: ops)) ->
  NoDup ((le_token <$> (rop_run symbol op x).2) ++ reserve_tokens ops).
Proof.
  intros Hnd. destruct (rop_run_tokens op x) as [->|(now & t & side & qty & m & c & ttl & -> & ->)].
  - destruct op; try done. simpl in Hnd.
    apply NoDup_app in Hnd as (H1 & Hd & H2). apply NoDup_cons in H2 as [_ H2].
    apply NoDup_app. split_and!; try done. intros t Ht Hin. apply (Hd t Ht). by right.
  - by rewrite <- app_assoc.
Qed.

Lemma rop_runs_ok ops x :
  reservation_ok symbol base x -> NoDup ((le_token <$> x.2) ++ reserve_tokens ops) ->
  reservation_ok symbol base (rop_runs symbol ops x).
Proof.
  revert x. induction ops as [|op ops IH]; intros x Hok Hnd; [done|]. simpl. apply IH.
  - apply rop_run_ok; [done|]. by eapply distinct_fresh.
  - by apply distinct_step.
Qed.

Lemma synced_ok s :
  s !! _get_key symbol = Some {| rv_num := base; rv_expires := None |} ->
  (forall token, s !! token_key symbol token = None) -> reservation_ok symbol base (s, []).
Proof.
  intros Hk Ht. split; simpl; [apply NoDup_nil_2| |].
  - rewrite Hk. unfold net. simpl. by rewrite Z.add_0_r.
  - intros token v Hv. by rewrite Ht in Hv.
Qed.
End steps.

(** The store after a reservation, and its reads. *)
Definition reserved_store (now : Z) (token symbol : string) (delta ttl new : Z) (s : rstore) : rstore :=
  <[token_key symbol token := {| rv_num := delta; rv_expires := Some (now + ttl) |}]>
    (redis_set (_get_key symbol) new s).

Lemma redis_get_ne now k k' v (m : rstore) : k <> k' -> redis_get now k (<[k' := v]> m) = redis_get now k m.
Proof. intros H. unfold redis_get. by rewrite lookup_insert_ne. Qed.

Lemma redis_get_alter_ne now k k' f (m : rstore) :
  k <> k' -> redis_get now k (alter f k' m) = redis_get now k m.
Proof. intros H. unfold redis_get. by rewrite lookup_alter_ne. Qed.

Lemma redis_get_delete_ne now k k' (m : rstore) : k <> k' -> redis_get now k (delete k' m) = redis_get now k m.
Proof. intros H. unfold redis_get. by rewrite lookup_delete_ne. Qed.

Lemma redis_get_set now k n m : redis_get now k (redis_set k n m) = Some n.
Proof. unfold redis_get, redis_set. by rewrite lookup_insert_eq. Qed.

Lemma reserved_aggregate now now' token symbol delta ttl new s :
  redis_get now (_get_key symbol) (reserved_store now' token symbol delta ttl new s) = Some new.
Proof.
  unfold reserved_store. rewrite redis_get_ne by (intros H; by apply (token_key_ne symbol token)).
  apply redis_get_set.
Qed.

Lemma reserved_token now now' token symbol delta ttl new s :
  redis_get now (token_key symbol token) (reserved_store now' token symbol delta ttl new s) =
  if now <? now' + ttl then Some delta else None.
Proof. unfold reserved_store, redis_get. by rewrite lookup_insert_eq. Qed.

Lemma reserved_other now now' k token symbol delta ttl new s :
  k <> token_key symbol token -> k <> _get_key symbol ->
  redis_get now k (reserved_store now' token symbol delta ttl new s) = redis_get now k s.
Proof. intros H1 H2. unfold reserved_store, redis_set. by rewrite !redis_get_ne. Qed.

Lemma reserve_known now token symbol side qty max_limit current ttl s held :
  redis_get now (_get_key symbol) s = Some held ->
  Z.abs (held + reserve_delta side qty) <= max_limit ->
  exists r, reserve now token symbol side qty max_limit current ttl s =
      (Ok r, reserved_store now token symbol (reserve_delta side qty) ttl (held + reserve_delta side qty) s) /\
    rr_success r = true.
Proof.
  intros Hg Hl. unfold reserve, reserve_script. rewrite Hg. cbn [default from_option id].
  destruct (max_limit <? _) eqn:E; [apply Z.ltb_lt in E; lia|].
  unfold redis_expire, redis_set at 1. rewrite alter_insert_eq. by eexists.
Qed.

Lemma release_known now symbol token s delta :
  redis_get now (token_key symbol token) s = Some delta ->
  exists r, release now symbol token s =
    (Ok r, delete (token_key symbol token)
             (redis_set (_get_key symbol) (default 0 (redis_get now (_get_key symbol) s) - delta) s)).
Proof. intros Hg. unfold release, release_script. rewrite Hg. by eexists. Qed.

(** ** Properties *)

(** Accounting: starting from a synced position, after any sequence of
    reservations (each with its own token), releases and confirmations at any
    times, the reserved position is the synced one plus the deltas of the
    reservations that succeeded and were not released; a further reservation
    succeeds exactly when it keeps the absolute position within its limit,
    and then moves the position by its delta; and a token can be released or
    confirmed only while it is outstanding, so at most once. *)
Theorem reservation_accounting (symbol : string) (base : Z) (s : rstore) (ops : list reservation_op)
    (Hbase : s !! _get_key symbol = Some {| rv_num := base; rv_expires := None |})
    (Hno_tokens : forall token, s !! token_key symbol token = None)
    (Hdistinct : NoDup (reserve_tokens ops)) :
  let '(s', l) := rop_runs symbol ops (s, []) in
  let held := base + net l in
  (forall now, (get_reserved_position now symbol s').1 = Ok held) /\
  (forall now token side qty max_limit current ttl, exists r,
     (reserve now token symbol side qty max_limit current ttl s').1 = Ok r /\
     (rr_success r = true <-> Z.abs (held + reserve_delta side qty) <= max_limit) /\
     rr_previous r = held /\ rr_new r = held + reserve_delta side qty) /\
  (forall now token r, (release now symbol token s').1 = Ok r -> rl_success r = true ->
     exists e, e ∈ l /\ le_token e = token /\ le_status e = Outstanding /\
               rl_previous r = Some held /\ rl_new r = Some (held - le_delta e)) /\
  (forall now token r, (confirm now symbol token s').1 = Ok r -> rl_success r = true ->
     exists e, e ∈ l /\ le_token e = token /\ le_status e = Outstanding) /\
  NoDup (le_token <$> l).
Proof.
  assert (Hok : reservation_ok symbol base (rop_runs symbol ops (s, []))).
  { apply rop_runs_ok; [by apply synced_ok | done]. }
  destruct (rop_runs symbol ops (s, [])) as [s' l]. intros held. split_and!.
  - intros now. unfold get_reserved_position, reads.
    pose proof (aggregate_read _ _ now _ Hok) as E. cbn [fst snd] in *. by rewrite E.
  - intros now token side qty max_limit current ttl.
    destruct (reserve_run symbol base now token side qty max_limit current ttl _ Hok)
      as (r & Hr & Hp & Hn & Hs & _). by exists r.
  - intros now token r Hr Hsucc. unfold release, release_script in Hr.
    pose proof (aggregate_read _ _ now _ Hok) as E. cbn [fst snd] in *. rewrite E in Hr.
    destruct (redis_get now (token_key symbol token) s') as [delta|] eqn:Ed; simpl in Hr; simplify_eq/=.
    eexists. split; [by eapply (token_read symbol base now (s', l))|]. done.
  - intros now token r Hr Hsucc. unfold confirm, confirm_script in Hr.
    destruct (redis_get now (token_key symbol token) s') as [delta|] eqn:Ed; simpl in Hr; simplify_eq/=.
    eexists. split; [by eapply (token_read symbol base now (s', l))|]. done.
  - apply Hok.
Qed.

(** Buys of one limit, in any order with releases and confirmations. *)
Definition is_buy (limit : Z) (op : reservation_op) : Prop :=
  match op with
  | OpReserve _ _ side qty max_limit _ _ => side = "buy" /\ 0 <= qty /\ max_limit = limit
  | _ => True
  end.

Lemma settle_nonneg token st l :
  Forall (fun e => 0 <= le_delta e) l -> Forall (fun e => 0 <= le_delta e) (settle token st l).
Proof.
  intros H. apply Forall_fmap. eapply Forall_impl; [exact H|]. intros e He. simpl. by case_decide.
Qed.

Lemma net_nonneg l : Forall (fun e => 0 <= le_delta e) l -> 0 <= net l.
Proof. induction 1 as [|e l He _ IH]; [done|]. rewrite net_cons. case_decide; lia. Qed.

Lemma buy_step symbol base limit op x :
  - limit <= base -> reservation_ok symbol base x ->
  match op with OpReserve _ token _ _ _ _ _ => token ∉ (le_token <$> x.2) | _ => True end ->
  is_buy limit op -> Forall (fun e => 0 <= le_delta e) x.2 -> base + net x.2 <= limit ->
  Forall (fun e => 0 <= le_delta e) (rop_run symbol op x).2 /\ base + net (rop_run symbol op x).2 <= limit.
Proof.
  intros Hb Hok Hfresh Hbuy Hpos Hle. destruct x as [s l].
  destruct op as [now token side qty max_limit current ttl|now token|now token|now]; simpl in *.
  - destruct Hbuy as (-> & Hq & ->).
    destruct (reserve_run symbol base now token "buy" qty limit current ttl _ Hok) as (r & Hr & _ & _ & Hs & _).
    simpl in *. destruct (reserve _ _ _ _ _ _ _ _ _) as [r' s']. simpl in *. subst r'.
    destruct (rr_success r); [|done]. simpl. rewrite net_app. unfold net at 2. simpl.
    destruct Hs as [Hs _]. specialize (Hs eq_refl). change (reserve_delta "buy" qty) with qty in *.
    split; [apply Forall_app; split; [done|by repeat constructor]|]. lia.
  - unfold release, release_script.
    destruct (redis_get now (token_key symbol token) s) as [delta|] eqn:E; simpl; [|done].
    pose proof (token_read symbol base now (s, l) token delta Hok E) as Hin. simpl in Hin.
    split; [by apply settle_nonneg|]. rewrite (net_settle _ delta) by (apply Hok || done).
    eapply Forall_forall in Hpos; [|exact Hin]. simpl in Hpos. case_decide; lia.
  - unfold confirm, confirm_script.
    destruct (redis_get now (token_key symbol token) s) as [delta|] eqn:E; simpl; [|done].
    pose proof (token_read symbol base now (s, l) token delta Hok E) as Hin. simpl in Hin.
    split; [by apply settle_nonneg|]. rewrite (net_settle _ delta) by (apply Hok || done).
    eapply Forall_forall in Hpos; [|exact Hin]. simpl in Hpos. case_decide; lia.
  - done.
Qed.

(** C8. Concurrent buys under one limit never push the reserved position
    past it, whatever is released or confirmed in between: the position stays
    between the synced one and the limit. *)
Theorem concurrent_buys_within_limit (symbol : string) (base limit : Z) (s : rstore)
    (ops : list reservation_op)
    (Hbase : s !! _get_key symbol = Some {| rv_num := base; rv_expires := None |})
    (Hno_tokens : forall token, s !! token_key symbol token = None)
    (Hdistinct : NoDup (reserve_tokens ops)) (Hrange : - limit <= base <= limit)
    (Hbuys : Forall (is_buy limit) ops) (now : Z) :
  exists p, (get_reserved_position now symbol (rop_runs symbol ops (s, [])).1).1 = Ok p /\
            base <= p <= limit.
Proof.
  assert (Hgen : forall x, reservation_ok symbol base x ->
    NoDup ((le_token <$> x.2) ++ reserve_tokens ops) ->
    Forall (fun e => 0 <= le_delta e) x.2 -> base + net x.2 <= limit ->
    let x' := rop_runs symbol ops x in
    reservation_ok symbol base x' /\ Forall (fun e => 0 <= le_delta e) x'.2 /\ base + net x'.2 <= limit).
  { clear Hbase Hdistinct. induction Hbuys as [|op ops Hop Hops IH]; intros x Hok Hnd Hpos Hle; [done|].
    pose proof (distinct_fresh _ _ _ Hnd) as Hfresh.
    destruct (buy_step symbol base limit op x) as [Hpos' Hle']; try done; [lia|].
    apply IH; try done; [by apply rop_run_ok | by apply distinct_step]. }
  destruct (Hgen (s, [])) as (Hok & Hpos & Hle).
  - by apply synced_ok.
  - done.
  - constructor.
  - unfold net. simpl. lia.
  - eexists. split.
    + unfold get_reserved_position, reads. rewrite (aggregate_read _ _ now _ Hok). reflexivity.
    + simpl. pose proof (net_nonneg _ Hpos). lia.
Qed.

(** What the TTL does not do: the token of a reservation expires, its
    shares stay reserved.  From the expiry on, neither release nor confirm
    finds the token, and the reserved position still counts the delta. *)
Theorem expired_reservation_stays_reserved (symbol token side : string)
    (qty max_limit current ttl t0 t : Z) (s : rstore) (r : ReservationResult)
    (Hok : (reserve t0 token symbol side qty max_limit current ttl s).1 = Ok r)
    (Hsucc : rr_success r = true) (Hexpired : t0 + ttl <= t) :
  let s' := (reserve t0 token symbol side qty max_limit current ttl s).2 in
  (get_reserved_position t symbol s').1 = Ok (rr_previous r + reserve_delta side qty) /\
  (exists x, release t symbol token s' = (Ok x, s') /\ rl_success x = false) /\
  (exists x, confirm t symbol token s' = (Ok x, s') /\ rl_success x = false).
Proof.
  intros s'. set (delta := reserve_delta side qty).
  assert (Hs : s' = reserved_store t0 token symbol delta ttl (rr_previous r + delta) s).
  { unfold s'. unfold reserve, reserve_script in *. fold delta in Hok |- *.
    destruct (max_limit <? _); simpl in *; simplify_eq/=.
    unfold redis_expire, redis_set at 1. by rewrite alter_insert_eq. }
  assert (Hdead : redis_get t (token_key symbol token) s' = None).
  { rewrite Hs, reserved_token. destruct (t <? t0 + ttl) eqn:E; [apply Z.ltb_lt in E; lia|done]. }
  split_and!.
  - unfold get_reserved_position, reads. by rewrite Hs, reserved_aggregate.
  - unfold release, release_script. rewrite Hdead. by eexists.
  - unfold confirm, confirm_script. rewrite Hdead. by eexists.
Qed.

(** The limit is checked when reserving, not when releasing: with a sale
    of [q] and a buy of [2q] reserved within the limit [q], releasing the sale
    leaves [2q] reserved; and after [clear_all] an outstanding token can still
    be released, which makes the reserved position the opposite of its delta. *)
Theorem release_is_not_limited (symbol : string) (q t ttl : Z) (a b : string) (s : rstore)
    (Hq : 0 < q) (Hab : a <> b) (Httl : 0 < ttl)
    (Hflat : s !! _get_key symbol = Some {| rv_num := 0; rv_expires := None |}) :
  exists r1 s1 r2 s2 r3 s3 r4 s4,
    reserve t a symbol "sell" q q 0 ttl s = (Ok r1, s1) /\ rr_success r1 = true /\
    reserve t b symbol "buy" (2 * q) q 0 ttl s1 = (Ok r2, s2) /\ rr_success r2 = true /\
    release t symbol a s2 = (Ok r3, s3) /\ (get_reserved_position t symbol s3).1 = Ok (2 * q) /\
    release t symbol b (clear_all symbol s2).2 = (Ok r4, s4) /\
    (get_reserved_position t symbol s4).1 = Ok (- (2 * q)).
Proof.
  assert (Hka : token_key symbol a <> token_key symbol b) by (intros H; by apply token_key_inj in H).
  pose proof (token_key_ne symbol a) as Hna. pose proof (token_key_ne symbol b) as Hnb.
  assert (Hlt : (t <? t + ttl) = true) by (apply Z.ltb_lt; lia).
  assert (H0 : redis_get t (_get_key symbol) s = Some 0) by (unfold redis_get; by rewrite Hflat).
  destruct (reserve_known t a symbol "sell" q q 0 ttl s 0 H0) as (r1 & E1 & O1);
    [change (reserve_delta "sell" q) with (- q); lia|].
  change (reserve_delta "sell" q) with (- q) in E1.
  set (s1 := reserved_store t a symbol (- q) ttl (0 + - q) s) in *.
  assert (G1 : redis_get t (_get_key symbol) s1 = Some (0 + - q)) by (unfold s1; by rewrite reserved_aggregate).
  destruct (reserve_known t b symbol "buy" (2 * q) q 0 ttl s1 _ G1) as (r2 & E2 & O2);
    [change (reserve_delta "buy" (2 * q)) with (2 * q); lia|].
  change (reserve_delta "buy" (2 * q)) with (2 * q) in E2.
  set (s2 := reserved_store t b symbol (2 * q) ttl (0 + - q + 2 * q) s1) in *.
  assert (G2 : redis_get t (_get_key symbol) s2 = Some (0 + - q + 2 * q)) by (unfold s2; by rewrite reserved_aggregate).
  assert (Ta : redis_get t (token_key symbol a) s2 = Some (- q)).
  { unfold s2. rewrite reserved_other by done. unfold s1. rewrite reserved_token. by rewrite Hlt. }
  assert (Tb : redis_get t (token_key symbol b) (clear_all symbol s2).2 = Some (2 * q)).
  { simpl. rewrite redis_get_delete_ne by done. unfold s2. rewrite reserved_token. by rewrite Hlt. }
  destruct (release_known t symbol a s2 _ Ta) as (r3 & E3).
  destruct (release_known t symbol b _ _ Tb) as (r4 & E4).
  do 8 eexists. split_and!; [exact E1 | exact O1 | exact E2 | exact O2 | exact E3 | | exact E4 |].
  - unfold get_reserved_position, reads. simpl.
    rewrite redis_get_delete_ne, redis_get_set by done. rewrite G2. simpl. f_equal. lia.
  - unfold get_reserved_position, reads. simpl.
    rewrite redis_get_delete_ne, redis_get_set by done.
    unfold redis_get. rewrite lookup_delete_eq. simpl. reflexivity.
Qed.

(** ** Witnesses *)

Definition ex_synced : rstore := (sync_position "AAPL" 10 ∅).2.

Lemma ex_synced_no_tokens token : ex_synced !! token_key "AAPL" token = None.
Proof.
  unfold ex_synced, sync_position, redis_set. simpl.
  rewrite lookup_insert_ne by (intros H; by apply (token_key_ne "AAPL" token)). apply lookup_empty.
Qed.

Lemma reservation_accounting_witness :
  (get_reserved_position 5 "AAPL" (rop_runs "AAPL" [OpReserve 1 "t1" "buy" 50 100 0 60; OpReserve 2 "t2" "buy" 60 100 0 60;
     OpReserve 3 "t3" "sell" 20 100 0 60; OpRelease 4 "t1"; OpConfirm 4 "t3"] (ex_synced, [])).1).1 = Ok (-10).
Proof.
  pose proof (reservation_accounting "AAPL" 10 ex_synced
    [OpReserve 1 "t1" "buy" 50 100 0 60; OpReserve 2 "t2" "buy" 60 100 0 60;
     OpReserve 3 "t3" "sell" 20 100 0 60; OpRelease 4 "t1"; OpConfirm 4 "t3"] eq_refl ex_synced_no_tokens) as H.
  refine (eq_trans (proj1 (H _) 5) _).
  - apply (bool_decide_unpack (NoDup (A := string) _)). vm_compute. exact I.
  - vm_compute. reflexivity.
Defined.

Lemma concurrent_buys_within_limit_witness :
  exists p, (get_reserved_position 5 "AAPL" (rop_runs "AAPL" [OpReserve 1 "t1" "buy" 50 100 0 60;
     OpReserve 2 "t2" "buy" 60 100 0 60] (ex_synced, [])).1).1 = Ok p /\ 10 <= p <= 100.
Proof.
  apply (concurrent_buys_within_limit "AAPL" 10 100 ex_synced).
  - reflexivity.
  - exact ex_synced_no_tokens.
  - apply (bool_decide_unpack (NoDup (A := string) _)). vm_compute. exact I.
  - lia.
  - repeat constructor; lia.
Defined.

Definition ex_reserved : ReservationResult :=
  {| rr_success := true; rr_token := Some "t1"; rr_reason := ""; rr_previous := 10; rr_new := 60 |}.

Lemma expired_reservation_stays_reserved_witness :
  (get_reserved_position 61 "AAPL" (reserve 1 "t1" "AAPL" "buy" 50 100 0 60 ex_synced).2).1 = Ok 60.
Proof.
  refine (proj1 (expired_reservation_stays_reserved "AAPL" "t1" "buy" 50 100 0 60 1 61 ex_synced ex_reserved _ _ _)).
  - vm_compute. reflexivity.
  - reflexivity.
  - lia.
Defined.

Lemma release_is_not_limited_witness :
  exists r s, reserve 1 "t1" "AAPL" "sell" 100 100 0 60 (sync_position "AAPL" 0 ∅).2 = (Ok r, s) /\ rr_success r = true.
Proof.
  destruct (release_is_not_limited "AAPL" 100 1 60 "t1" "t2" (sync_position "AAPL" 0 ∅).2)
    as (r & s & _ & _ & _ & _ & _ & _ & H & O & _); [lia|discriminate|lia|reflexivity|].
  exists r, s. split; [exact H|exact O].
Defined.
