(* ===== verification/RiskChecker.v ===== *)
(** * Pre-trade risk checks (libs/trading/risk_management/checker.py, config.py)

    [RiskChecker] asks the kill switch, the circuit breaker and the position
    reservation.  What it needs of them is stated by three interfaces
    ([HaltSwitch], [TripReason], [PositionLimiter]); the client's theorems are
    proved against these, and the components discharge them at the end of the
    file. *)

From S2P Require Import Prelude PyDecimal PyText Redis.
From S2P Require KillSwitch Breaker Reservation.
From Stdlib Require Import QArith Qabs.
Open Scope Z_scope.

(** ** Configuration (config.py) *)

Record PositionLimits := { max_position_size : Z; max_position_pct : decimal }.
Record PortfolioLimits := {
  max_total_notional : decimal; max_long_exposure : decimal; max_short_exposure : decimal }.
Record LossLimits := { daily_loss_limit : decimal; max_drawdown_pct : decimal }.
Record RiskConfig := {
  position_limits : PositionLimits;
  portfolio_limits : PortfolioLimits;
  loss_limits : LossLimits;
  blacklist : list string
}.

(** The [ge]/[le] constraints of the fields. *)
Definition position_limits_ok (l : PositionLimits) : bool :=
  (1 <=? max_position_size l) && dleb (Dec 1 (-2)) (max_position_pct l) && dleb (max_position_pct l) (Dec 100 (-2)).
Definition portfolio_limits_ok (l : PortfolioLimits) : bool :=
  dleb (Dec 100000 (-2)) (max_total_notional l) && dleb (Dec 0 (-2)) (max_long_exposure l) &&
  dleb (Dec 0 (-2)) (max_short_exposure l).
Definition loss_limits_ok (l : LossLimits) : bool :=
  dleb (Dec 0 (-2)) (daily_loss_limit l) && dleb (Dec 1 (-2)) (max_drawdown_pct l) &&
  dleb (max_drawdown_pct l) (Dec 50 (-2)).
Definition risk_config_ok (c : RiskConfig) : bool :=
  position_limits_ok (position_limits c) && portfolio_limits_ok (portfolio_limits c) && loss_limits_ok (loss_limits c).

Definition default_risk_config : RiskConfig := {|
  position_limits := {| max_position_size := 1000; max_position_pct := Dec 20 (-2) |};
  portfolio_limits := {| max_total_notional := Dec 10000000 (-2); max_long_exposure := Dec 8000000 (-2);
                         max_short_exposure := Dec 2000000 (-2) |};
  loss_limits := {| daily_loss_limit := Dec 500000 (-2); max_drawdown_pct := Dec 10 (-2) |};
  blacklist := [] |}.

(** ** What the checker needs of the other components *)

(** A switch that can halt trading; asking does not change it. *)
Class HaltSwitch (S : Type) := {
  halted : M S bool;
  halted_reads : forall s, (halted s).2 = s
}.

(** Why the breaker tripped, for the reason text. *)
Class TripReason (S : Type) := {
  trip_reason : M S (option string);
  trip_reason_reads : forall s, exists r, trip_reason s = (Ok r, s)
}.

(** A ledger of positions that grants a change only within a limit. *)
Class PositionLimiter (S : Type) := {
  reserve_position : Z -> string -> string -> string -> Z -> Z -> Z -> M S Reservation.ReservationResult;
  reserved : Z -> string -> Z -> S -> Z;
  reserve_answers : forall now token symbol side qty limit current s,
    exists r, (reserve_position now token symbol side qty limit current s).1 = Ok r /\
      Reservation.rr_new r = reserved now symbol current s + Reservation.reserve_delta side qty /\
      (Reservation.rr_success r = true <-> Z.abs (Reservation.rr_new r) <= limit);
  reserve_grants : forall now token symbol side qty limit current s r,
    (reserve_position now token symbol side qty limit current s).1 = Ok r ->
    let s' := (reserve_position now token symbol side qty limit current s).2 in
    if Reservation.rr_success r then forall now' current', reserved now' symbol current' s' = Reservation.rr_new r
    else s' = s
}.

(** ** The checker *)

Definition show_reason (r : option string) : string := default "None" r.

(** [_calculate_new_position] *)
Definition _calculate_new_position (current_position : Z) (side : string) (qty : Z) : result Z :=
  if decide (side = "buy") then Ok (current_position + qty)
  else if decide (side = "sell") then Ok (current_position - qty)
  else Raise (ValueError ("Invalid side: " +:+ side +:+ " (must be 'buy' or 'sell')")).

Section checker.
Context {K B R : Type} `{HaltSwitch K, HaltSwitch B, TripReason B, PositionLimiter R}.

Record risk_state := { rs_kill : K; rs_breaker : B; rs_reserved : R }.

(** The constructor's arguments: the kill switch and the reservation are optional. *)
Record RiskChecker := { config : RiskConfig; has_kill_switch : bool; has_reservation : bool }.

Definition on_kill {A} (m : M K A) : M risk_state A := fun s =>
  let '(r, k) := m (rs_kill s) in
  (r, {| rs_kill := k; rs_breaker := rs_breaker s; rs_reserved := rs_reserved s |}).
Definition on_breaker {A} (m : M B A) : M risk_state A := fun s =>
  let '(r, b) := m (rs_breaker s) in
  (r, {| rs_kill := rs_kill s; rs_breaker := b; rs_reserved := rs_reserved s |}).
Definition on_reserved {A} (m : M R A) : M risk_state A := fun s =>
  let '(r, x) := m (rs_reserved s) in
  (r, {| rs_kill := rs_kill s; rs_breaker := rs_breaker s; rs_reserved := x |}).

(** Steps 2 to 4: blacklist, position size, share of the portfolio. *)
Definition position_checks (c : RiskConfig) (symbol side : string) (qty current_position : Z)
    (current_price portfolio_value : option decimal) (skip : bool) : result (bool * string) :=
  if decide (symbol ∈ blacklist c) then Ok (false, "Symbol " +:+ symbol +:+ " is blacklisted") else
  new_position ← _calculate_new_position current_position side qty;
  let max_size := max_position_size (position_limits c) in
  if negb skip && (max_size <? Z.abs new_position) then
    Ok (false, "Position limit exceeded: " +:+ str_int (Z.abs new_position) +:+ " shares > "
               +:+ str_int max_size +:+ " max")
  else
    match current_price, portfolio_value with
    | Some price, Some value =>
        let pct := max_position_pct (position_limits c) in
        let position_notional := dmul (of_int (Z.abs new_position)) price in
        let max_notional := dmul value pct in
        if dltb max_notional position_notional then
          Ok (false, "Position would exceed " +:+ dec_fixed (dmul pct (of_int 100)) 1 +:+ "% of portfolio ($"
                     +:+ dec_fixed position_notional 2 +:+ " > $" +:+ dec_fixed max_notional 2 +:+ ")")
        else Ok (true, "")
    | _, _ => Ok (true, "")
    end.

(** Steps 1 to 4, once the kill switch lets the order through. *)
Definition validate_past_kill_switch (ck : RiskChecker) (symbol side : string) (qty current_position : Z)
    (current_price portfolio_value : option decimal) (skip : bool) : M risk_state (bool * string) :=
  tripped ← on_breaker halted;
  if (tripped : bool) then
    why ← on_breaker trip_reason;
    mret (false, "Circuit breaker TRIPPED: " +:+ show_reason why)
  else lift (position_checks (config ck) symbol side qty current_position current_price portfolio_value skip).

Definition validate_order (ck : RiskChecker) (symbol side : string) (qty current_position : Z)
    (current_price portfolio_value : option decimal) (skip : bool) : M risk_state (bool * string) :=
  engaged ← (if has_kill_switch ck then on_kill halted else mret false : M risk_state bool);
  if (engaged : bool) then mret (false, "Kill switch ENGAGED: All trading halted by operator")
  else validate_past_kill_switch ck symbol side qty current_position current_price portfolio_value skip.

Definition validate_order_with_reservation (ck : RiskChecker) (now : Z) (token symbol side : string)
    (qty current_position : Z) (current_price portfolio_value : option decimal) :
    M risk_state (bool * string * option Reservation.ReservationResult) :=
  v ← validate_order ck symbol side qty current_position current_price portfolio_value (has_reservation ck);
  if negb (v.1 : bool) then mret (false, v.2, None)
  else if negb (has_reservation ck) then mret (true, "", None)
  else
    r ← on_reserved (reserve_position now token symbol side qty
                       (max_position_size (position_limits (config ck))) current_position);
    if negb (Reservation.rr_success r) then mret (false, Reservation.rr_reason r, Some r)
    else mret (true, "", Some r).
End checker.
Arguments risk_state : clear implicits.

(** ** [check_portfolio_exposure] *)

Record exposure := { ex_total : decimal; ex_long : decimal; ex_short : decimal }.

Definition add_position (x : exposure) (p : string * Z * decimal) : exposure :=
  let '(_, qty, price) := p in
  let notional := dmul (of_int (Z.abs qty)) price in
  {| ex_long := if 0 <? qty then dadd (ex_long x) notional else ex_long x;
     ex_short := if qty <? 0 then dadd (ex_short x) notional else ex_short x;
     ex_total := dadd (ex_total x) notional |}.

Definition exposures (positions : list (string * Z * decimal)) : exposure :=
  foldl add_position {| ex_total := Dec 0 (-2); ex_long := Dec 0 (-2); ex_short := Dec 0 (-2) |} positions.

Definition check_portfolio_exposure (c : RiskConfig) (positions : list (string * Z * decimal)) : bool * string :=
  let x := exposures positions in
  let l := portfolio_limits c in
  let over what limit := what +:+ " > $" +:+ dec_fixed limit 2 in
  if dltb (max_total_notional l) (ex_total x) then
    (false, over ("Total exposure exceeds limit: $" +:+ dec_fixed (ex_total x) 2) (max_total_notional l))
  else if dltb (max_long_exposure l) (ex_long x) then
    (false, over ("Long exposure exceeds limit: $" +:+ dec_fixed (ex_long x) 2) (max_long_exposure l))
  else if dltb (max_short_exposure l) (ex_short x) then
    (false, over ("Short exposure exceeds limit: $" +:+ dec_fixed (ex_short x) 2) (max_short_exposure l))
  else (true, "").

(** ** Lemmas *)

Definition side_ok (side : string) : Prop := side = "buy" \/ side = "sell".

Lemma new_position_delta current side qty :
  side_ok side -> _calculate_new_position current side qty = Ok (current + Reservation.reserve_delta side qty).
Proof. intros [-> | ->]; reflexivity. Qed.

Lemma new_position_bad current side qty :
  ~ side_ok side -> exists m, _calculate_new_position current side qty = Raise (ValueError m).
Proof.
  intros H. unfold _calculate_new_position. repeat case_decide; [| |by eexists].
  - exfalso. apply H. by left.
  - exfalso. apply H. by right.
Qed.

(** The share-of-portfolio check, when both numbers are given. *)
Definition within_share (c : RiskConfig) (new_position : Z) (price value : option decimal) : bool :=
  match price, value with
  | Some p, Some v => dleb (dmul (of_int (Z.abs new_position)) p) (dmul v (max_position_pct (position_limits c)))
  | _, _ => true
  end.

Lemma dltb_dleb a b : dltb a b = negb (dleb b a).
Proof.
  destruct (dltb_spec a b) as [H|H], (dleb_spec b a) as [H'|H']; try done; exfalso.
  - by apply (Qlt_not_le _ _ H).
  - apply H. apply Qnot_le_lt. intros Hle. by apply H'.
Qed.

Lemma position_checks_accept c symbol side qty current price value skip :
  position_checks c symbol side qty current price value skip = Ok (true, "") <->
  (symbol ∉ blacklist c) /\ side_ok side /\
  (skip = true \/ Z.abs (current + Reservation.reserve_delta side qty) <= max_position_size (position_limits c)) /\
  within_share c (current + Reservation.reserve_delta side qty) price value = true.
Proof.
  unfold position_checks. case_decide as Hb; [naive_solver|].
  destruct (decide (side = "buy" \/ side = "sell")) as [Hs|Hs].
  - rewrite (new_position_delta _ _ _ Hs). cbn [mbind result_bind].
    set (new := current + Reservation.reserve_delta side qty).
    destruct (negb skip && (max_position_size (position_limits c) <? Z.abs new)) eqn:E.
    + apply andb_true_iff in E as [E1 E2]. apply negb_true_iff in E1. boolify.
      split; [done|]. intros (_ & _ & [?|?] & _); [congruence|lia].
    + assert (Hlim : skip = true \/ Z.abs new <= max_position_size (position_limits c)).
      { apply andb_false_iff in E as [E|E]; [left; by destruct skip | right; boolify; lia]. }
      unfold within_share. destruct price as [p|], value as [v|]; try (by split; [intros _ | intros _]).
      rewrite dltb_dleb. destruct (dleb _ _); simpl; [by split|]. split; [done|]. by intros (_ & _ & _ & ?).
  - split; [|naive_solver]. destruct (new_position_bad current side qty Hs) as [m Hm].
    rewrite Hm. done.
Qed.

(** Whatever the checks answer, it is a verdict or the ValueError of a bad side. *)
Lemma position_checks_total c symbol side qty current price value skip :
  (exists b reason, position_checks c symbol side qty current price value skip = Ok (b, reason)
     /\ (b = true -> reason = "")) \/
  (~ side_ok side /\ exists m, position_checks c symbol side qty current price value skip = Raise (ValueError m)).
Proof.
  unfold position_checks. case_decide as Hb; [left; by eexists _, _|].
  destruct (decide (side = "buy" \/ side = "sell")) as [Hs|Hs].
  - left. rewrite (new_position_delta _ _ _ Hs). cbn [mbind result_bind].
    destruct (negb skip && _); [by eexists _, _|].
    destruct price as [p|], value as [v|]; try by eexists _, _.
    destruct (dltb _ _); by eexists _, _.
  - right. split; [exact Hs|]. destruct (new_position_bad current side qty Hs) as [m Hm].
    rewrite Hm. by exists m.
Qed.

Section checker_lemmas.
Context {K B R : Type} `{HaltSwitch K, HaltSwitch B, TripReason B, PositionLimiter R}.

Definition allows_trading (ck : RiskChecker) (s : risk_state K B R) : Prop :=
  (has_kill_switch ck = true -> (halted (rs_kill s)).1 = Ok false) /\
  (halted (rs_breaker s)).1 = Ok false.

Lemma on_kill_halted (s : risk_state K B R) :
  on_kill halted s = ((halted (rs_kill s)).1, s).
Proof.
  unfold on_kill. pose proof (halted_reads (rs_kill s)) as E.
  destruct (halted (rs_kill s)) as [r k]. simpl in *. subst k. by destruct s.
Qed.

Lemma on_breaker_halted (s : risk_state K B R) :
  on_breaker halted s = ((halted (rs_breaker s)).1, s).
Proof.
  unfold on_breaker. pose proof (halted_reads (rs_breaker s)) as E.
  destruct (halted (rs_breaker s)) as [r b]. simpl in *. subst b. by destruct s.
Qed.

(** The breaker and the position checks, the state given back. *)
Lemma validate_past_kill_switch_run ck symbol side qty current price value skip (s : risk_state K B R) :
  exists r, validate_past_kill_switch ck symbol side qty current price value skip s = (r, s) /\
    (r = Ok (true, "") <-> (halted (rs_breaker s)).1 = Ok false /\
     position_checks (config ck) symbol side qty current price value skip = Ok (true, "")) /\
    (forall reason, r = Ok (true, reason) -> reason = "").
Proof.
  unfold validate_past_kill_switch, mbind at 1, M_bind at 1. rewrite on_breaker_halted.
  destruct ((halted (rs_breaker s)).1) as [[|]|e].
  - unfold mbind, M_bind, on_breaker. destruct (trip_reason_reads (rs_breaker s)) as [why ->].
    destruct s. eexists. split; [reflexivity|]. split; [|done]. by split; [|intros [? _]].
  - eexists. split; [reflexivity|]. split; [by split; [|intros [_ ?]]|]. intros reason E.
    destruct (position_checks_total (config ck) symbol side qty current price value skip)
      as [(b & rs & E' & Hb)|(_ & m & E')]; rewrite E' in E; [|done].
    injection E as -> ->. by apply Hb.
  - eexists. split; [reflexivity|]. split; [by split; [|intros [? _]]|done].
Qed.

Lemma validate_order_run ck symbol side qty current price value skip (s : risk_state K B R) :
  exists r, validate_order ck symbol side qty current price value skip s = (r, s) /\
    (r = Ok (true, "") <->
     allows_trading ck s /\ position_checks (config ck) symbol side qty current price value skip = Ok (true, "")) /\
    (forall reason, r = Ok (true, reason) -> reason = "").
Proof.
  destruct (validate_past_kill_switch_run ck symbol side qty current price value skip s) as (r & Hr & Hiff & Ht).
  unfold validate_order, allows_trading. unfold mbind at 1, M_bind at 1.
  destruct (has_kill_switch ck).
  - rewrite on_kill_halted. destruct ((halted (rs_kill s)).1) as [[|]|e] eqn:Eh.
    + eexists. split; [reflexivity|]. split; [|done]. split; [done|]. intros [[Hk _] _].
      by specialize (Hk eq_refl).
    + exists r. split; [exact Hr|]. rewrite Hiff. naive_solver.
    + eexists. split; [reflexivity|]. split; [|done]. split; [done|]. intros [[Hk _] _].
      by specialize (Hk eq_refl).
  - exists r. split; [exact Hr|]. rewrite Hiff. naive_solver.
Qed.
End checker_lemmas.

(** *** Exposure sums of prices in cents *)

Definition cents (d : decimal) : Prop := dexp d = -2 /\ 0 <= coef d.

(** A position's value in cents. *)
Definition value_cents (p : string * Z * decimal) : Z := Z.abs p.1.2 * coef p.2.

Definition total_cents (ps : list (string * Z * decimal)) : Z := Zsum (value_cents <$> ps).
Definition long_cents (ps : list (string * Z * decimal)) : Z :=
  Zsum ((fun p => if 0 <? p.1.2 then value_cents p else 0) <$> ps).
Definition short_cents (ps : list (string * Z * decimal)) : Z :=
  Zsum ((fun p => if p.1.2 <? 0 then value_cents p else 0) <$> ps).

Lemma dmul_cents n c : Z.abs (n * c) < 10 ^ 28 -> dmul (of_int n) (Dec c (-2)) = Dec (n * c) (-2).
Proof. intros H. unfold dmul, of_int. simpl. by rewrite fix_prec_small. Qed.

Lemma dadd_cents a b : Z.abs (a + b) < 10 ^ 28 -> dadd (Dec a (-2)) (Dec b (-2)) = Dec (a + b) (-2).
Proof.
  intros H. unfold dadd, num_add, scaled. simpl. rewrite !Z.mul_1_r. by rewrite fix_prec_small.
Qed.

Lemma value_cents_nonneg p : cents p.2 -> 0 <= value_cents p.
Proof. intros [_ H]. unfold value_cents. nia. Qed.

Lemma total_cents_nonneg ps : Forall (fun p => cents p.2) ps -> 0 <= total_cents ps.
Proof.
  intros H. apply Zsum_nonneg, Forall_fmap. eapply Forall_impl; [exact H|]. apply value_cents_nonneg.
Qed.

Lemma exposures_cents_from ps t l s :
  Forall (fun p => cents p.2) ps -> 0 <= l <= t -> 0 <= s <= t -> t + total_cents ps < 10 ^ 28 ->
  foldl add_position {| ex_total := Dec t (-2); ex_long := Dec l (-2); ex_short := Dec s (-2) |} ps =
  {| ex_total := Dec (t + total_cents ps) (-2); ex_long := Dec (l + long_cents ps) (-2);
     ex_short := Dec (s + short_cents ps) (-2) |}.
Proof.
  intros Hps. revert t l s. induction Hps as [|p ps Hp Hps IH]; intros t l s Hl Hs Hb.
  - unfold total_cents, long_cents, short_cents. simpl. by rewrite !Z.add_0_r.
  - pose proof (value_cents_nonneg p Hp) as Hv.
    pose proof (total_cents_nonneg ps Hps) as Ht.
    change (total_cents (p :: ps)) with (value_cents p + total_cents ps) in *.
    destruct p as [[sym qty] price]. destruct price as [c e]. destruct Hp as [He Hc]. simpl in He, Hc. subst e.
    unfold value_cents in Hv, Hb. simpl in Hv, Hb.
    cbn [foldl]. unfold add_position at 2. cbn [ex_total ex_long ex_short].
    rewrite dmul_cents by lia. rewrite (dadd_cents t) by lia.
    assert (El : (if 0 <? qty then dadd (Dec l (-2)) (Dec (Z.abs qty * c) (-2)) else Dec l (-2))
               = Dec (l + (if 0 <? qty then Z.abs qty * c else 0)) (-2)).
    { destruct (0 <? qty); [by rewrite dadd_cents by lia | by rewrite Z.add_0_r]. }
    assert (Es : (if qty <? 0 then dadd (Dec s (-2)) (Dec (Z.abs qty * c) (-2)) else Dec s (-2))
               = Dec (s + (if qty <? 0 then Z.abs qty * c else 0)) (-2)).
    { destruct (qty <? 0); [by rewrite dadd_cents by lia | by rewrite Z.add_0_r]. }
    rewrite El, Es, IH by (repeat case_match; lia).
    unfold long_cents, short_cents, value_cents. simpl. by rewrite !Z.add_assoc.
Qed.

Lemma exposures_cents ps :
  Forall (fun p => cents p.2) ps -> total_cents ps < 10 ^ 28 ->
  exposures ps = {| ex_total := Dec (total_cents ps) (-2); ex_long := Dec (long_cents ps) (-2);
                    ex_short := Dec (short_cents ps) (-2) |}.
Proof. intros Hps Hb. apply (exposures_cents_from ps 0 0 0); [done|lia..]. Qed.

Lemma total_is_long_plus_short ps : total_cents ps = long_cents ps + short_cents ps.
Proof.
  unfold total_cents, long_cents, short_cents. induction ps as [|p ps IH]; [done|].
  rewrite !fmap_cons, !Zsum_cons. destruct (0 <? p.1.2) eqn:E1, (p.1.2 <? 0) eqn:E2; boolify; try lia.
  assert (Hz : value_cents p = 0) by (unfold value_cents; replace p.1.2 with 0 by lia; done). lia.
Qed.

(** ** Properties *)

Section properties.
Context {K B R : Type} `{HaltSwitch K, HaltSwitch B, TripReason B, PositionLimiter R}.

(** C11. An order is accepted exactly when the kill switch (if there is one)
    and the breaker both answer that trading is allowed, the symbol is not
    blacklisted, the side is buy or sell, the new position is within the
    share limit (unless the caller reserves it) and, when price and portfolio
    value are given, its value is within the configured share of the
    portfolio; whatever the answer, nothing changes. *)
Theorem validate_order_accepts_iff (ck : RiskChecker) (symbol side : string)
    (qty current : Z) (price value : option decimal) (skip : bool) (s : risk_state K B R) :
  let new := current + Reservation.reserve_delta side qty in
  ((validate_order ck symbol side qty current price value skip s).1 = Ok (true, "") <->
   allows_trading ck s /\ (symbol ∉ blacklist (config ck)) /\ (side = "buy" \/ side = "sell") /\
   (skip = true \/ Z.abs new <= max_position_size (position_limits (config ck))) /\
   within_share (config ck) new price value = true) /\
  (validate_order ck symbol side qty current price value skip s).2 = s.
Proof.
  intros new. destruct (validate_order_run ck symbol side qty current price value skip s)
    as (r & Hr & Hiff & _). rewrite Hr. split; [|done]. simpl. rewrite Hiff.
  rewrite position_checks_accept. done.
Qed.

(** With the reservation configured, validation accepts only with a
    reservation that was granted: the reserved position, not the caller's
    possibly stale [current_position], moves by the order and stays within
    the share limit; every rejected order leaves all the state alone. *)
Theorem reservation_guards_orders (ck : RiskChecker) (now : Z) (token symbol side : string)
    (qty current : Z) (price value : option decimal) (s : risk_state K B R)
    (Hres : has_reservation ck = true) :
  let run := validate_order_with_reservation ck now token symbol side qty current price value s in
  let limit := max_position_size (position_limits (config ck)) in
  (forall reason r, run.1 = Ok (true, reason, r) ->
     exists x, r = Some x /\ reason = "" /\ Reservation.rr_success x = true /\ allows_trading ck s /\
       (symbol ∉ blacklist (config ck)) /\
       Reservation.rr_new x = reserved now symbol current (rs_reserved s) + Reservation.reserve_delta side qty /\
       Z.abs (Reservation.rr_new x) <= limit /\
       (forall now' current', reserved now' symbol current' (rs_reserved run.2) = Reservation.rr_new x)) /\
  ((forall reason r, run.1 <> Ok (true, reason, r)) -> run.2 = s).
Proof.
  intros run limit. subst run. unfold validate_order_with_reservation. rewrite Hres.
  destruct (validate_order_run ck symbol side qty current price value true s) as (v & Hv & Hiff & Htrue).
  unfold mbind, M_bind. rewrite Hv.
  destruct v as [[ok reason0]|e]; [|by split].
  destruct ok; [|by split].
  rewrite (Htrue reason0 eq_refl) in *. cbn [fst snd negb].
  destruct (proj1 Hiff eq_refl) as [Hallow Hpc].
  apply position_checks_accept in Hpc as (Hbl & Hside & _ & _).
  unfold mbind, M_bind, on_reserved.
  destruct (reserve_answers now token symbol side qty limit current (rs_reserved s)) as (x & Hx & Hn & Hl).
  pose proof (reserve_grants now token symbol side qty limit current (rs_reserved s) x Hx) as Hg.
  fold limit. destruct (reserve_position now token symbol side qty limit current (rs_reserved s)) as [rx sx].
  simpl in Hx, Hg. subst rx.
  destruct (Reservation.rr_success x) eqn:Es; simpl.
  - split; [|naive_solver]. intros reason r [= <- <-]. exists x. split_and!; try done. by apply Hl.
  - rewrite Hg. split; [done|]. intros _. by destruct s.
Qed.
End properties.

(** With prices in cents and fewer than 10^28 cents at stake, the exposure
    check is exact: it passes exactly when the total, long and short exposures
    are within their limits, as rational numbers, and the total is the sum of
    the other two. *)
Theorem exposure_limits_exact (c : RiskConfig) (ps : list (string * Z * decimal))
    (Hcents : Forall (fun p => cents p.2) ps) (Hbound : total_cents ps < 10 ^ 28) :
  let dollars n := (inject_Z n * ten ^ (-2))%Q in
  ((check_portfolio_exposure c ps).1 = true <->
   (dollars (total_cents ps) <= dval (max_total_notional (portfolio_limits c)))%Q /\
   (dollars (long_cents ps) <= dval (max_long_exposure (portfolio_limits c)))%Q /\
   (dollars (short_cents ps) <= dval (max_short_exposure (portfolio_limits c)))%Q) /\
  total_cents ps = long_cents ps + short_cents ps.
Proof.
  intros dollars. split; [|apply total_is_long_plus_short].
  unfold check_portfolio_exposure. rewrite exposures_cents by done. cbn [ex_total ex_long ex_short].
  change (dollars (total_cents ps)) with (dval (Dec (total_cents ps) (-2))).
  change (dollars (long_cents ps)) with (dval (Dec (long_cents ps) (-2))).
  change (dollars (short_cents ps)) with (dval (Dec (short_cents ps) (-2))).
  repeat match goal with |- context [dltb ?a ?b] => destruct (dltb_spec a b) end; simpl;
    (split; [try done; intros _; split_and!; by apply Qnot_lt_le | intros (H1 & H2 & H3); try done]);
    exfalso; eapply Qlt_not_le; eassumption.
Qed.

(** ** The components behind the interfaces *)

Lemma kill_switch_reads s : (KillSwitch.is_engaged s).2 = s.
Proof.
  unfold KillSwitch.is_engaged, KillSwitch.get_state, mbind, M_bind, reads.
  destruct (KillSwitch.state_key s) as [d|]; [|done]. unfold lift. by destruct (KillSwitch.ks_parse _).
Qed.

#[export] Instance kill_switch_halt : HaltSwitch KillSwitch.ks_store := {|
  halted := KillSwitch.is_engaged; halted_reads := kill_switch_reads |}.

Lemma breaker_reads s : (Breaker.is_tripped s).2 = s.
Proof.
  unfold Breaker.is_tripped, Breaker.get_state, mbind, M_bind, reads.
  destruct (Breaker.state_key s) as [d|]; [|done]. case_decide; [done|].
  unfold lift. by destruct (Breaker.cb_parse _).
Qed.

#[export] Instance breaker_halt : HaltSwitch Breaker.cb_store := {|
  halted := Breaker.is_tripped; halted_reads := breaker_reads |}.

#[export] Program Instance breaker_reason : TripReason Breaker.cb_store := {|
  trip_reason := Breaker.get_trip_reason |}.
Next Obligation. by eexists. Qed.

Definition reservation_reserve (now : Z) (token symbol side : string) (qty limit current : Z) :
    M Reservation.rstore Reservation.ReservationResult :=
  Reservation.reserve now token symbol side qty limit current Reservation.DEFAULT_RESERVATION_TTL.

Definition reservation_held (now : Z) (symbol : string) (current : Z) (s : Reservation.rstore) : Z :=
  default current (Reservation.redis_get now (Reservation._get_key symbol) s).

Lemma reservation_answers now token symbol side qty limit current s :
  exists r, (reservation_reserve now token symbol side qty limit current s).1 = Ok r /\
    Reservation.rr_new r = reservation_held now symbol current s + Reservation.reserve_delta side qty /\
    (Reservation.rr_success r = true <-> Z.abs (Reservation.rr_new r) <= limit).
Proof.
  unfold reservation_reserve, Reservation.reserve, Reservation.reserve_script, reservation_held.
  destruct (limit <? _) eqn:E; eexists; (split; [reflexivity|]); simpl; boolify; (split; [done|]).
  - split; [done|lia].
  - by split.
Qed.

Lemma reservation_grants now token symbol side qty limit current s r :
  (reservation_reserve now token symbol side qty limit current s).1 = Ok r ->
  let s' := (reservation_reserve now token symbol side qty limit current s).2 in
  if Reservation.rr_success r
  then forall now' current', reservation_held now' symbol current' s' = Reservation.rr_new r
  else s' = s.
Proof.
  unfold reservation_reserve, Reservation.reserve, Reservation.reserve_script, reservation_held.
  destruct (limit <? _) eqn:E; intros [= <-]; simpl; [done|]. intros now' current'.
  unfold Reservation.redis_expire. rewrite Reservation.redis_get_alter_ne by
    (intros H; by apply (Reservation.token_key_ne symbol token)).
  unfold Reservation.redis_set at 1. rewrite Reservation.redis_get_ne by
    (intros H; by apply (Reservation.token_key_ne symbol token)).
  by rewrite Reservation.redis_get_set.
Qed.

#[export] Instance reservation_limiter : PositionLimiter Reservation.rstore := {|
  reserve_position := reservation_reserve; reserved := reservation_held;
  reserve_answers := reservation_answers; reserve_grants := reservation_grants |}.

(** ** Witnesses *)

Abbreviation live_state := (risk_state KillSwitch.ks_store Breaker.cb_store Reservation.rstore).

Definition ex_live : live_state := {|
  rs_kill := (KillSwitch.kill_switch_init KillSwitch.ks_fresh).2;
  rs_breaker := Breaker.ex_open;
  rs_reserved := Reservation.ex_synced |}.

Definition ex_checker : RiskChecker := {|
  config := default_risk_config; has_kill_switch := true; has_reservation := true |}.

Lemma reservation_guards_orders_witness :
  exists x, (validate_order_with_reservation ex_checker 1 "t1" "AAPL" "buy" 990 0 None None ex_live).1
    = Ok (true, "", Some x) /\ Reservation.rr_new x = 1000.
Proof.
  destruct (reservation_guards_orders ex_checker 1 "t1" "AAPL" "buy" 990 0 None None ex_live eq_refl) as [H _].
  destruct (H "" (Some {| Reservation.rr_success := true; Reservation.rr_token := Some "t1";
     Reservation.rr_reason := ""; Reservation.rr_previous := 10; Reservation.rr_new := 1000 |}))
    as (x & Hx & _ & _ & _ & _ & Hn & _).
  - vm_compute. reflexivity.
  - exists x. injection Hx as <-. split; [vm_compute; reflexivity|reflexivity].
Defined.

Lemma exposure_limits_exact_witness :
  (check_portfolio_exposure default_risk_config [("AAPL", 100, Dec 20000 (-2)); ("TSLA", -50, Dec 30000 (-2))]).1 = true.
Proof.
  apply exposure_limits_exact.
  - repeat constructor; simpl; lia.
  - vm_compute. reflexivity.
  - vm_compute. repeat split; discriminate.
Defined.
