(* ===== verification/FatFinger.v ===== *)
(** * Fat-finger validation (apps/execution_gateway/fat_finger_validator.py)

    Thresholds on an order's notional, quantity and share of the average daily
    volume, with defaults and per-symbol overrides.  Every method of the
    validator holds its lock for the whole access, so each is one step on the
    state; thresholds are copied in and out, so they are values here. *)

From S2P Require Import Prelude PyDecimal PyText.
From Stdlib Require Import QArith Qabs Lqa.
Open Scope Z_scope.

Record FatFingerThresholds := {
  max_notional : option decimal;
  max_qty : option Z;
  max_adv_pct : option decimal
}.

#[export] Instance FatFingerThresholds_eq_dec : EqDecision FatFingerThresholds.
Proof. solve_decision. Defined.

(** The field constraints of the schema ([gt=0], [le=1]). *)
Definition thresholds_ok (t : FatFingerThresholds) : bool :=
  match max_notional t with Some m => dltb dzero m | None => true end &&
  match max_qty t with Some q => 0 <? q | None => true end &&
  match max_adv_pct t with Some p => dltb dzero p && dleb p (Dec 1 0) | None => true end.

Definition no_thresholds : FatFingerThresholds :=
  {| max_notional := None; max_qty := None; max_adv_pct := None |}.

Inductive FatFingerBreach :=
| NotionalBreach (limit actual price : decimal) (qty : Z)
| QtyBreach (limit actual : Z)
| AdvBreach (limit actual : decimal) (adv qty : Z)
| DataUnavailable (missing : list string).

Record FatFingerResult := {
  breached : bool;
  breaches : list FatFingerBreach;
  thresholds : FatFingerThresholds;
  notional : option decimal;
  ff_adv : option Z;
  adv_pct : option decimal;
  ff_price : option decimal
}.

(** [override.x if override.x is not None else defaults.x] *)
Definition or_else {A} (a b : option A) : option A := match a with Some x => Some x | None => b end.

Definition _merge_thresholds (defaults override : FatFingerThresholds) : FatFingerThresholds := {|
  max_notional := or_else (max_notional override) (max_notional defaults);
  max_qty := or_else (max_qty override) (max_qty defaults);
  max_adv_pct := or_else (max_adv_pct override) (max_adv_pct defaults) |}.

Definition _patch_thresholds (base patch : FatFingerThresholds) : FatFingerThresholds := {|
  max_notional := or_else (max_notional patch) (max_notional base);
  max_qty := or_else (max_qty patch) (max_qty base);
  max_adv_pct := or_else (max_adv_pct patch) (max_adv_pct base) |}.

(** ** The validator's state *)

Record FatFingerValidator := {
  default_thresholds : FatFingerThresholds;
  symbol_overrides : gmap string FatFingerThresholds
}.

Definition fat_finger_init (defaults : FatFingerThresholds)
    (overrides : list (string * FatFingerThresholds)) : FatFingerValidator := {|
  default_thresholds := defaults;
  symbol_overrides := foldl (fun m x => <[upper x.1 := x.2]> m) ∅ overrides |}.

Definition update_defaults (d : FatFingerThresholds) (v : FatFingerValidator) : FatFingerValidator :=
  {| default_thresholds := d; symbol_overrides := symbol_overrides v |}.

Definition patch_override (m : gmap string FatFingerThresholds) (x : string * option FatFingerThresholds) :
    gmap string FatFingerThresholds :=
  match x.2 with
  | None => delete (upper x.1) m
  | Some t => <[upper x.1 := _patch_thresholds (default no_thresholds (m !! upper x.1)) t]> m
  end.

Definition update_symbol_overrides (overrides : list (string * option FatFingerThresholds))
    (v : FatFingerValidator) : FatFingerValidator :=
  {| default_thresholds := default_thresholds v;
     symbol_overrides := foldl patch_override (symbol_overrides v) overrides |}.

Definition get_effective_thresholds (v : FatFingerValidator) (symbol : string) : FatFingerThresholds :=
  match symbol_overrides v !! upper symbol with
  | None => default_thresholds v
  | Some override => _merge_thresholds (default_thresholds v) override
  end.

(** ** Validation *)

Definition check_notional (t : FatFingerThresholds) (qty : Z) (price : option decimal) :
    option decimal * list FatFingerBreach * list string :=
  match max_notional t with
  | None => (None, [], [])
  | Some m =>
      match price with
      | None => (None, [], ["price"])
      | Some p =>
          let n := dmul p (of_int qty) in
          (Some n, if dltb m n then [NotionalBreach m n p qty] else [], [])
      end
  end.

Definition check_qty (t : FatFingerThresholds) (qty : Z) : list FatFingerBreach :=
  match max_qty t with
  | Some m => if m <? qty then [QtyBreach m qty] else []
  | None => []
  end.

Definition check_adv (t : FatFingerThresholds) (qty : Z) (adv : option Z) :
    result (option decimal * list FatFingerBreach * list string) :=
  match max_adv_pct t with
  | None => Ok (None, [], [])
  | Some m =>
      match adv with
      | None => Ok (None, [], ["adv"])
      | Some a =>
          if a <=? 0 then Ok (None, [], ["adv"])
          else
            pct ← ddiv (of_int qty) (of_int a);
            Ok (Some pct, if dltb m pct then [AdvBreach m pct a qty] else [], [])
      end
  end.

Definition validate (v : FatFingerValidator) (symbol : string) (qty : Z) (price : option decimal)
    (adv : option Z) (resolved : option FatFingerThresholds) : result FatFingerResult :=
  let effective := match resolved with Some t => t | None => get_effective_thresholds v symbol end in
  let '(n, b1, m1) := check_notional effective qty price in
  let b2 := check_qty effective qty in
  r ← check_adv effective qty adv;
  let '(pct, b3, m3) := r in
  let missing := m1 ++ m3 in
  let bs := b1 ++ b2 ++ b3 ++ match missing with [] => [] | _ => [DataUnavailable missing] end in
  Ok {| breached := negb (bool_decide (length bs = 0%nat)); breaches := bs; thresholds := effective;
        notional := n; ff_adv := adv; adv_pct := pct; ff_price := price |}.

Definition breach_type (b : FatFingerBreach) : string :=
  match b with
  | NotionalBreach _ _ _ _ => "notional"
  | QtyBreach _ _ => "qty"
  | AdvBreach _ _ _ _ => "adv_pct"
  | DataUnavailable _ => "data_unavailable"
  end.

Definition iter_breach_types (bs : list FatFingerBreach) : list string := breach_type <$> bs.

(** ** Lemmas *)

(** What each check lets through. *)
Definition notional_ok (t : FatFingerThresholds) (qty : Z) (price : option decimal) : Prop :=
  forall m, max_notional t = Some m ->
    exists p, price = Some p /\ (dval p * inject_Z qty <= dval m)%Q.
Definition qty_ok (t : FatFingerThresholds) (qty : Z) : Prop := forall m, max_qty t = Some m -> qty <= m.
(** The share of the volume, up to a relative error [slack] of the quotient. *)
Definition adv_ok (slack : Q) (t : FatFingerThresholds) (qty : Z) (adv : option Z) : Prop :=
  forall m, max_adv_pct t = Some m ->
    exists a, adv = Some a /\ 0 < a /\ (inject_Z qty * (1 + slack) <= dval m * inject_Z a)%Q.

Lemma check_notional_spec t qty price n b m :
  (forall p, price = Some p -> Z.abs (coef p * qty) < 10 ^ 28) ->
  check_notional t qty price = (n, b, m) -> (b = [] /\ m = [] <-> notional_ok t qty price).
Proof.
  intros Hb. unfold check_notional, notional_ok.
  destruct (max_notional t) as [lim|]; [|intros [= <- <- <-]; by split; [intros _ m [=]|]].
  destruct price as [p|].
  - assert (Hv : (dval (dmul p (of_int qty)) == dval p * inject_Z qty)%Q).
    { rewrite dmul_exact, of_int_val by (apply Hb; done). reflexivity. }
    destruct (dltb_spec lim (dmul p (of_int qty))) as [Hlt|Hlt]; intros [= <- <- <-].
    + split; [naive_solver|]. intros H. destruct (H lim eq_refl) as (p' & [= <-] & Hle).
      exfalso. rewrite Hv in Hlt. by apply (Qlt_not_le _ _ Hlt).
    + split; [|done]. intros _ m [= <-]. exists p. split; [done|].
      apply Qnot_lt_le in Hlt. by rewrite Hv in Hlt.
  - intros [= <- <- <-]. split; [naive_solver|]. intros H. by destruct (H lim eq_refl) as (p' & [=] & _).
Qed.

Lemma check_qty_spec t qty : check_qty t qty = [] <-> qty_ok t qty.
Proof.
  unfold check_qty, qty_ok. destruct (max_qty t) as [m|]; [|by split; [intros _ m [=]|]].
  destruct (m <? qty) eqn:E; boolify; split; try done.
  - intros H. specialize (H m eq_refl). lia.
  - intros _ m' [= <-]. lia.
Qed.

Definition adv_slack : Q := 2 * ulp_rel.

(** The quotient is within [adv_slack] of the exact share. *)
Lemma adv_quotient qty a pct : 0 < qty -> 0 < a -> ddiv (of_int qty) (of_int a) = Ok pct ->
  (inject_Z qty * (1 + - adv_slack) <= dval pct * inject_Z a)%Q /\
  (dval pct * inject_Z a <= inject_Z qty * (1 + adv_slack))%Q.
Proof.
  intros Hq Ha Hd. pose proof (ddiv_error _ _ _ Hd) as He. rewrite !of_int_val in He.
  fold adv_slack in He. rewrite (Qabs_pos (inject_Z qty)) in He by (apply inject_Z_nonneg; lia).
  apply Qabs_Qle_condition in He as [H1 H2].
  split; [setoid_replace (inject_Z qty * (1 + - adv_slack))%Q
            with (inject_Z qty - adv_slack * inject_Z qty)%Q using relation Qeq by ring
         |setoid_replace (inject_Z qty * (1 + adv_slack))%Q
            with (inject_Z qty + adv_slack * inject_Z qty)%Q using relation Qeq by ring]; lra.
Qed.

(** The ADV check never raises; what it lets through is the exact share, up to the rounding. *)
Lemma check_adv_spec t qty adv : 0 < qty ->
  exists pct b m, check_adv t qty adv = Ok (pct, b, m) /\
    (b = [] /\ m = [] -> adv_ok (- adv_slack) t qty adv) /\
    (adv_ok adv_slack t qty adv -> b = [] /\ m = []).
Proof.
  intros Hq. unfold check_adv, adv_ok.
  destruct (max_adv_pct t) as [lim|]; [|eexists _, _, _; split; [reflexivity|]; split; [intros _ m [=]|done]].
  destruct adv as [a|];
    [|eexists _, _, _; split; [reflexivity|]; split; [naive_solver|intros H; destruct (H lim eq_refl) as (x & [=] & _)]].
  destruct (a <=? 0) eqn:Ea; boolify.
  { eexists _, _, _. split; [reflexivity|]. split; [naive_solver|]. intros H.
    destruct (H lim eq_refl) as (x & [= <-] & Hx & _). lia. }
  destruct (ddiv_ok (of_int qty) (of_int a)) as [pct Hpct]; [simpl; lia|]. rewrite Hpct. simpl.
  destruct (adv_quotient qty a pct Hq ltac:(lia) Hpct) as [Hlo Hhi].
  assert (Ha : (0 < inject_Z a)%Q) by (apply inject_Z_pos; lia).
  eexists _, _, _. split; [reflexivity|]. destruct (dltb_spec lim pct) as [Hlt|Hlt].
  - split; [naive_solver|]. intros H. destruct (H lim eq_refl) as (x & [= <-] & _ & Hx). exfalso.
    assert (Hle : (dval pct * inject_Z a <= dval lim * inject_Z a)%Q) by (etransitivity; eassumption).
    apply Qmult_le_r in Hle; [|done]. by apply (Qlt_not_le _ _ Hlt).
  - split; [|done]. intros _ m [= <-]. exists a. split; [done|]. split; [lia|].
    etransitivity; [exact Hlo|]. apply Qmult_le_compat_r; [by apply Qnot_lt_le|by apply Qlt_le_weak].
Qed.

(** [_patch_thresholds] and [_merge_thresholds] agree: the later value wins. *)
Lemma merge_is_patch a b : _merge_thresholds a b = _patch_thresholds a b.
Proof. reflexivity. Qed.

Lemma or_else_assoc {A} (a b c : option A) : or_else a (or_else b c) = or_else (or_else a b) c.
Proof. by destruct a. Qed.

(** ** Properties *)

(** Fat-finger validation never raises on a positive quantity, and its
    verdict is about the exact order: an order that is let through has its
    price known and its exact notional within the limit, its quantity within
    the limit, and a positive average volume of which it takes at most the
    allowed share, up to the rounding of one division; conversely an order
    that satisfies the limits (with the rounding to spare) is let through.
    Missing data is a breach, not a pass. *)
Theorem fat_finger_verdict (v : FatFingerValidator) (symbol : string) (qty : Z) (price : option decimal)
    (adv : option Z) (resolved : option FatFingerThresholds)
    (Hqty : 0 < qty) (Hprice : forall p, price = Some p -> Z.abs (coef p * qty) < 10 ^ 28) :
  let t := default (get_effective_thresholds v symbol) resolved in
  exists r, validate v symbol qty price adv resolved = Ok r /\ thresholds r = t /\
    (breached r = true <-> breaches r <> []) /\
    (breached r = false -> notional_ok t qty price /\ qty_ok t qty /\ adv_ok (- adv_slack) t qty adv) /\
    (notional_ok t qty price -> qty_ok t qty -> adv_ok adv_slack t qty adv -> breached r = false).
Proof.
  intros t. unfold validate.
  replace (match resolved with Some t => t | None => get_effective_thresholds v symbol end) with t
    by (unfold t; by destruct resolved).
  destruct (check_notional t qty price) as [[n b1] m1] eqn:En.
  pose proof (check_notional_spec _ _ _ _ _ _ Hprice En) as Hn.
  destruct (check_adv_spec t qty adv Hqty) as (pct & b3 & m3 & Ea & Ha1 & Ha2). rewrite Ea. simpl.
  pose proof (check_qty_spec t qty) as Hq.
  eexists. split; [reflexivity|]. simpl. split; [done|].
  set (bs := b1 ++ check_qty t qty ++ b3 ++ match m1 ++ m3 with [] => [] | _ => [DataUnavailable (m1 ++ m3)] end).
  assert (Hbs : bs = [] <-> (b1 = [] /\ m1 = []) /\ check_qty t qty = [] /\ b3 = [] /\ m3 = []).
  { unfold bs. split.
    - intros H. apply app_eq_nil in H as [-> H]. apply app_eq_nil in H as [-> H].
      apply app_eq_nil in H as [-> H]. destruct m1; [|done]. by destruct m3.
    - intros ([-> ->] & -> & -> & ->). done. }
  assert (Hf : negb (bool_decide (length bs = 0%nat)) = false <-> bs = []).
  { rewrite negb_false_iff, bool_decide_eq_true. split; [apply nil_length_inv | by intros ->]. }
  split_and!.
  - rewrite <- Hf. by destruct (negb _).
  - rewrite Hf, Hbs. naive_solver.
  - intros H1 H2 H3. apply Hf, Hbs. split_and!; try (by apply Hn); try (by apply Hq); by apply Ha2.
Qed.

(** Overrides: field by field, a symbol's threshold is the one its
    override sets and the default otherwise; patching a symbol (written in any
    case) makes the patched fields win and keeps its others; removing the
    override restores the defaults; other symbols and the defaults are not
    touched. *)
Theorem overrides_merge (v : FatFingerValidator) (symbol other : string) (patch : FatFingerThresholds)
    (Hother : upper other <> upper symbol) :
  let set := update_symbol_overrides [(symbol, Some patch)] v in
  let removed := update_symbol_overrides [(symbol, None)] v in
  get_effective_thresholds set symbol = _merge_thresholds (get_effective_thresholds v symbol) patch /\
  get_effective_thresholds removed symbol = default_thresholds v /\
  get_effective_thresholds set other = get_effective_thresholds v other /\
  get_effective_thresholds removed other = get_effective_thresholds v other /\
  (forall d, get_effective_thresholds (update_defaults d set) symbol =
             _merge_thresholds d (default no_thresholds (symbol_overrides set !! upper symbol))).
Proof.
  unfold get_effective_thresholds. simpl. unfold patch_override. simpl.
  rewrite lookup_insert_eq, lookup_delete_eq, lookup_insert_ne, lookup_delete_ne by done.
  split_and!; try done.
  destruct (symbol_overrides v !! upper symbol) as [o|]; simpl; unfold _merge_thresholds, _patch_thresholds;
    simpl; f_equal; by rewrite ?or_else_assoc; destruct (_ patch).
Qed.

(** ** Witnesses *)

Definition ex_thresholds : FatFingerThresholds :=
  {| max_notional := Some (Dec 100000 0); max_qty := Some 10000; max_adv_pct := Some (Dec 5 (-2)) |}.
Definition ex_validator : FatFingerValidator := fat_finger_init ex_thresholds [].

Lemma fat_finger_verdict_witness :
  exists r, validate ex_validator "AAPL" 500 (Some (Dec 15025 (-2))) (Some 20000) None = Ok r /\ breached r = false.
Proof.
  destruct (fat_finger_verdict ex_validator "AAPL" 500 (Some (Dec 15025 (-2))) (Some 20000) None)
    as (r & Hr & _ & _ & _ & H).
  - reflexivity.
  - intros p [= <-]. reflexivity.
  - exists r. split; [exact Hr|]. apply H.
    + intros m [= <-]. exists (Dec 15025 (-2)). split; [reflexivity|]. vm_compute. discriminate.
    + intros m [= <-]. discriminate.
    + intros m [= <-]. exists 20000. split; [reflexivity|]. split; [reflexivity|]. vm_compute. discriminate.
Defined.

Lemma overrides_merge_witness :
  get_effective_thresholds (update_symbol_overrides [("aapl", None)] ex_validator) "MSFT" = ex_thresholds.
Proof.
  refine (proj1 (proj2 (proj2 (proj2 (overrides_merge ex_validator "aapl" "MSFT" no_thresholds _))))).
  vm_compute. discriminate.
Defined.
