(* ===== verification/ReconState.v ===== *)
(** * The startup gate (apps/execution_gateway/reconciliation/state.py)

    [ReconciliationState] blocks trading until a reconciliation succeeds, or an
    operator forces it open.  Each method takes the lock for each access; the
    forced bypass takes it three times, so its three critical sections are
    separate steps here ([force_read], [force_override], [open_gate]) and the
    whole method their sequence. *)

From S2P Require Import Prelude.
Open Scope Z_scope.

(** The result dict of a run. *)
Record recon_result := {
  rr_status : string;
  rr_mode : string;
  rr_timestamp : Z;
  rr_error : option string
}.

Record override_ctx := {
  ov_user_id : string;
  ov_reason : string;
  ov_timestamp : Z;
  ov_last_result : recon_result
}.

Record ReconciliationState := {
  dry_run : bool;
  timeout_seconds : Z;
  startup_complete : bool;
  startup_started_at : Z;
  override_active : bool;
  override_context : option override_ctx;
  last_reconciliation_result : option recon_result
}.

#[export] Instance recon_result_eq_dec : EqDecision recon_result.
Proof. solve_decision. Defined.

(** [__init__] *)
Definition recon_state_init (now : Z) (dry : bool) (timeout : Z) : ReconciliationState := {|
  dry_run := dry; timeout_seconds := timeout; startup_complete := dry; startup_started_at := now;
  override_active := false; override_context := None; last_reconciliation_result := None |}.

Definition is_startup_complete (s : ReconciliationState) : bool := dry_run s || startup_complete s.

(** Elapsed time in microseconds; the timeout is in seconds. *)
Definition startup_elapsed (now : Z) (s : ReconciliationState) : Z := now - startup_started_at s.
Definition startup_timed_out (now : Z) (s : ReconciliationState) : bool :=
  timeout_seconds s * 1000000 <? startup_elapsed now s.

Definition open_gate (s : ReconciliationState) : ReconciliationState := {|
  dry_run := dry_run s; timeout_seconds := timeout_seconds s; startup_complete := true;
  startup_started_at := startup_started_at s; override_active := override_active s;
  override_context := override_context s; last_reconciliation_result := last_reconciliation_result s |}.

(** The three critical sections of a forced [mark_startup_complete]. *)
Definition force_read (s : ReconciliationState) : option recon_result := last_reconciliation_result s.

Definition nonempty (o : option string) : option string :=
  match o with Some "" => None | x => x end.

Definition force_checks (last : option recon_result) (user_id reason : option string)
    : result (recon_result * string * string) :=
  match last with
  | None => Raise (ValueError "Cannot force startup complete without running reconciliation first.")
  | Some r =>
      match nonempty user_id, nonempty reason with
      | Some u, Some w => Ok (r, u, w)
      | _, _ => Raise (ValueError "Both user_id and reason are required for forced startup bypass")
      end
  end.

Definition force_override (now : Z) (last : recon_result) (user_id reason : string)
    (s : ReconciliationState) : ReconciliationState := {|
  dry_run := dry_run s; timeout_seconds := timeout_seconds s; startup_complete := startup_complete s;
  startup_started_at := startup_started_at s; override_active := true;
  override_context := Some {| ov_user_id := user_id; ov_reason := reason; ov_timestamp := now;
                              ov_last_result := last |};
  last_reconciliation_result := last_reconciliation_result s |}.

Definition mark_startup_complete (now : Z) (forced : bool) (user_id reason : option string)
    : M ReconciliationState unit :=
  if forced then
    last ← reads force_read;
    x ← lift (force_checks last user_id reason);
    let '(r, u, w) := x in
    s ← get_state;
    _ ← put_state (force_override now r u w s);
    s ← get_state;
    put_state (open_gate s)
  else
    s ← get_state; put_state (open_gate s).

Definition record_reconciliation_result (r : recon_result) : M ReconciliationState unit := fun s =>
  (Ok tt, {| dry_run := dry_run s; timeout_seconds := timeout_seconds s;
             startup_complete := startup_complete s; startup_started_at := startup_started_at s;
             override_active := override_active s; override_context := override_context s;
             last_reconciliation_result := Some r |}).

Definition get_last_reconciliation_result : M ReconciliationState (option recon_result) :=
  reads last_reconciliation_result.

Definition open_gate_after_successful_run : M ReconciliationState bool := fun s =>
  if startup_complete s then (Ok false, s) else (Ok true, open_gate s).

(** ** Runs of the state machine *)

Inductive gate_op :=
| GMark (now : Z) (forced : bool) (user_id reason : option string)
| GRecord (r : recon_result)
| GSuccess
| GQuery.

Definition gate_run (op : gate_op) (s : ReconciliationState) : ReconciliationState :=
  match op with
  | GMark now forced user_id reason => (mark_startup_complete now forced user_id reason s).2
  | GRecord r => (record_reconciliation_result r s).2
  | GSuccess => (open_gate_after_successful_run s).2
  | GQuery => (get_last_reconciliation_result s).2
  end.

Definition gate_runs (ops : list gate_op) (s : ReconciliationState) : ReconciliationState :=
  foldl (fun s op => gate_run op s) s ops.

(** The operations that may open the gate after [recorded] results were recorded. *)
Definition opens (recorded : bool) (op : gate_op) : bool :=
  match op with
  | GMark _ false _ _ => true
  | GMark _ true u w => recorded && bool_decide (is_Some (nonempty u)) && bool_decide (is_Some (nonempty w))
  | GSuccess => true
  | _ => false
  end.

Definition records (op : gate_op) : bool := match op with GRecord _ => true | _ => false end.

(** Does a run contain an operation that opens the gate? *)
Fixpoint opened (recorded : bool) (ops : list gate_op) : bool :=
  match ops with
  | [] => false
  | op :: ops' => opens recorded op || opened (recorded || records op) ops'
  end.

(** ** Lemmas *)

Lemma mark_run now forced user_id reason s :
  mark_startup_complete now forced user_id reason s =
  if forced then
    match force_checks (last_reconciliation_result s) user_id reason with
    | Ok (r, u, w) => (Ok tt, open_gate (force_override now r u w s))
    | Raise e => (Raise e, s)
    end
  else (Ok tt, open_gate s).
Proof.
  unfold mark_startup_complete. destruct forced; [|done].
  unfold mbind, M_bind, reads, force_read, lift.
  by destruct (force_checks _ _ _) as [[[r u] w]|e].
Qed.

Lemma force_checks_ok last user_id reason :
  (exists r u w, force_checks last user_id reason = Ok (r, u, w) /\ last = Some r /\
     nonempty user_id = Some u /\ nonempty reason = Some w) \/
  (exists m, force_checks last user_id reason = Raise (ValueError m) /\
     (last = None \/ nonempty user_id = None \/ nonempty reason = None)).
Proof.
  unfold force_checks. destruct last as [r|]; [|right; eexists; by eauto].
  destruct (nonempty user_id) as [u|], (nonempty reason) as [w|].
  - left. by exists r, u, w.
  - right. eexists. by eauto.
  - right. eexists. by eauto.
  - right. eexists. by eauto.
Qed.

(** What a state must show for its gate to be as it is. *)
Record gate_ok (recorded open : bool) (s : ReconciliationState) : Prop := {
  gk_recorded : bool_decide (is_Some (last_reconciliation_result s)) = recorded;
  gk_open : startup_complete s = open;
  gk_live : dry_run s = false;
  gk_override : override_active s = bool_decide (is_Some (override_context s));
  gk_forced : override_active s = true -> startup_complete s = true /\ recorded = true
}.

Lemma gate_step recorded open op s :
  gate_ok recorded open s ->
  gate_ok (recorded || records op) (open || opens recorded op) (gate_run op s).
Proof.
  intros [Hr Ho Hl Hov Hf]. destruct op as [now forced u w|r| |]; simpl; rewrite ?orb_false_r.
  - rewrite mark_run. destruct forced.
    + destruct (force_checks_ok (last_reconciliation_result s) u w)
        as [(r & u' & w' & -> & Hlast & -> & ->)|(m & -> & Hm)]; simpl.
      * rewrite Hlast in Hr. simpl in Hr. subst recorded. rewrite orb_true_r.
        split; simpl; try done. by rewrite Hlast.
      * assert (E : recorded && bool_decide (is_Some (nonempty u)) && bool_decide (is_Some (nonempty w)) = false).
        { destruct Hm as [E|[E|E]]; rewrite E in *; simpl in *; [by subst recorded|by rewrite andb_false_r..]. }
        rewrite E, orb_false_r. by split.
    + rewrite orb_true_r. split; simpl; try done. intros Hov'. split; [done|]. by apply Hf.
  - split; simpl; try done; [by rewrite orb_true_r|]. intros Hov'. split; [by apply Hf|]. by rewrite orb_true_r.
  - unfold open_gate_after_successful_run. rewrite Ho, orb_true_r. destruct open; simpl.
    + by split.
    + split; simpl; try done. intros Hov'. split; [done|by apply Hf].
  - by split.
Qed.

Lemma gate_steps recorded open ops s :
  gate_ok recorded open s ->
  exists recorded', gate_ok recorded' (open || opened recorded ops) (gate_runs ops s).
Proof.
  revert recorded open s. induction ops as [|op ops IH]; intros recorded open s H; simpl.
  - exists recorded. by rewrite orb_false_r.
  - apply (gate_step _ _ op) in H. apply IH in H as [recorded' H]. exists recorded'.
    by rewrite orb_assoc.
Qed.

(** ** Properties *)

(** The gate of a live service is open exactly when some operation since
    startup was a successful run, an unforced completion, or a forced bypass
    with a user and a reason after at least one reconciliation result was
    recorded; a forced bypass without these raises ValueError and changes
    nothing; and whenever an override is active its context names who, why and
    the result it overrode. *)
Theorem gate_opens_only_when_allowed (now0 timeout : Z) (ops : list gate_op) :
  let s := gate_runs ops (recon_state_init now0 false timeout) in
  is_startup_complete s = opened false ops /\
  (override_active s = true -> exists c, override_context s = Some c) /\
  (forall now user_id reason,
     last_reconciliation_result s = None \/ nonempty user_id = None \/ nonempty reason = None ->
     exists m, mark_startup_complete now true user_id reason s = (Raise (ValueError m), s)) /\
  (forall now user_id reason r u w,
     last_reconciliation_result s = Some r -> nonempty user_id = Some u -> nonempty reason = Some w ->
     exists s', mark_startup_complete now true user_id reason s = (Ok tt, s') /\
       is_startup_complete s' = true /\
       override_context s' = Some {| ov_user_id := u; ov_reason := w; ov_timestamp := now; ov_last_result := r |}).
Proof.
  intros s.
  assert (H0 : gate_ok false false (recon_state_init now0 false timeout)) by (split; try done).
  destruct (gate_steps _ _ ops _ H0) as [recorded [Hr Ho Hl Hov Hf]]. fold s in Hr, Ho, Hl, Hov, Hf.
  split_and!.
  - unfold is_startup_complete. by rewrite Hl, Ho.
  - intros Ha. rewrite Hov in Ha. apply bool_decide_eq_true in Ha as [c Hc]. by exists c.
  - intros now u w Hm. rewrite mark_run.
    destruct (force_checks_ok (last_reconciliation_result s) u w)
      as [(r & u' & w' & _ & E1 & E2 & E3)|(m & -> & _)]; [|by exists m].
    destruct Hm as [E|[E|E]]; congruence.
  - intros now ui re r u w E1 E2 E3. rewrite mark_run. unfold force_checks. rewrite E1, E2, E3.
    eexists. split; [reflexivity|]. split; [|done]. unfold is_startup_complete. simpl. apply orb_true_r.
Qed.
