(* ===== verification/PyDict.v ===== *)
(** * Python dicts with string keys, in insertion order

    [dict_set] replaces the value of a key in place or appends a new key, as
    assignment to a Python dict does; iteration follows the list. *)

From S2P Require Import Prelude.

Abbreviation dict A := (list (string * A)).

Fixpoint dict_get {A} (k : string) (d : dict A) : option A :=
  match d with
  | [] => None
  | (k', a) :: d' => if decide (k = k') then Some a else dict_get k d'
  end.

Fixpoint dict_set {A} (k : string) (a : A) (d : dict A) : dict A :=
  match d with
  | [] => [(k, a)]
  | (k', a') :: d' => if decide (k = k') then (k, a) :: d' else (k', a') :: dict_set k a d'
  end.

(** [{key(x): x for x in l}]: the last element of a key wins, at the place of the first. *)
Definition dict_of_list {A} (key : A -> string) (l : list A) : dict A :=
  foldl (fun d x => dict_set (key x) x d) [] l.

Section dict.
Context {A : Type}.
Implicit Types d : dict A.

Lemma dict_get_set_eq k a d : dict_get k (dict_set k a d) = Some a.
Proof.
  induction d as [|[k' a'] d IH]; simpl; [by rewrite decide_True|].
  case_decide; simpl; [by rewrite decide_True | by rewrite decide_False].
Qed.

Lemma dict_get_set_ne k k' a d : k <> k' -> dict_get k (dict_set k' a d) = dict_get k d.
Proof.
  intros Hk. induction d as [|[k2 a2] d IH]; simpl; [by rewrite decide_False|].
  destruct (decide (k' = k2)) as [->|]; simpl; [by rewrite !decide_False|]. by rewrite IH.
Qed.

Lemma dict_get_set k k' a d :
  dict_get k (dict_set k' a d) = if decide (k = k') then Some a else dict_get k d.
Proof. case_decide as E; [subst; apply dict_get_set_eq | by apply dict_get_set_ne]. Qed.

Lemma dict_get_in k a d : dict_get k d = Some a -> (k, a) ∈ d.
Proof.
  induction d as [|[k' a'] d IH]; simpl; [done|]. case_decide as E.
  - intros [= <-]. subst. by left.
  - intros H. right. by apply IH.
Qed.

Lemma dict_get_none k d : dict_get k d = None <-> k ∉ d.*1.
Proof.
  induction d as [|[k' a'] d IH]; simpl; [by split; [intros _ H; apply elem_of_nil in H|]|].
  rewrite not_elem_of_cons. case_decide as E; [by split; [|intros [? _]] | rewrite IH; naive_solver].
Qed.

Lemma dict_set_keys k a d : (dict_set k a d).*1 = if decide (k ∈ d.*1) then d.*1 else d.*1 ++ [k].
Proof.
  destruct (decide (k ∈ d.*1)) as [H|H]; induction d as [|[k' a'] d IH]; simpl.
  - by apply elem_of_nil in H.
  - case_decide as E; [by subst|]. rewrite fmap_cons in *. simpl. f_equal. apply IH.
    apply elem_of_cons in H as [H|H]; [done|done].
  - done.
  - rewrite fmap_cons, not_elem_of_cons in H. destruct H as [H1 H2]. simpl in H1.
    rewrite decide_False by done. rewrite fmap_cons. simpl. f_equal. by apply IH.
Qed.

Lemma dict_set_nodup k a d : NoDup d.*1 -> NoDup (dict_set k a d).*1.
Proof.
  intros Hd. rewrite dict_set_keys. case_decide as H; [done|].
  apply NoDup_app. split_and!; [done| |apply NoDup_singleton].
  intros x Hx Hk. apply list_elem_of_singleton in Hk. by subst.
Qed.

(** With unique keys, membership is lookup. *)
Lemma dict_in_get k a d : NoDup d.*1 -> (k, a) ∈ d -> dict_get k d = Some a.
Proof.
  induction d as [|[k' a'] d IH]; simpl; [by intros _ H%elem_of_nil|].
  intros [Hk Hd]%NoDup_cons [E|Hin]%elem_of_cons.
  - injection E as -> ->. by rewrite decide_True.
  - rewrite decide_False; [by apply IH|]. intros ->. apply Hk. apply list_elem_of_fmap. by exists (k', a).
Qed.

Lemma dict_of_list_snoc (key : A -> string) l x :
  dict_of_list key (l ++ [x]) = dict_set (key x) x (dict_of_list key l).
Proof. unfold dict_of_list. by rewrite foldl_app. Qed.

Lemma dict_of_list_nodup (key : A -> string) l : NoDup (dict_of_list key l).*1.
Proof.
  induction l as [|x l IH] using rev_ind; [apply NoDup_nil_2|].
  rewrite dict_of_list_snoc. by apply dict_set_nodup.
Qed.

(** The value of a key is the last element that has it. *)
Lemma dict_of_list_get (key : A -> string) l k a :
  dict_get k (dict_of_list key l) = Some a -> a ∈ l /\ key a = k.
Proof.
  induction l as [|x l IH] using rev_ind; [done|].
  rewrite dict_of_list_snoc, dict_get_set. case_decide as E.
  - intros [= <-]. split; [apply elem_of_app; right; by left|done].
  - intros H. apply IH in H as [H1 H2]. split; [|done]. apply elem_of_app. by left.
Qed.

Lemma dict_of_list_keys (key : A -> string) l k :
  is_Some (dict_get k (dict_of_list key l)) <-> k ∈ key <$> l.
Proof.
  induction l as [|x l IH] using rev_ind.
  - simpl. split; [by intros []|by intros H%elem_of_nil].
  - rewrite dict_of_list_snoc, dict_get_set, fmap_app, elem_of_app, <- IH. simpl.
    rewrite list_elem_of_singleton. case_decide as E; [split; [by right|by eexists]|].
    split; [by left|by intros [?|?]].
Qed.
End dict.
