(* ===== verification/Liquidity.v ===== *)
(** * Average daily volume (apps/execution_gateway/liquidity_service.py)

    [get_adv] answers from a cache for [ttl] seconds, then asks the market-data
    service, and falls back to the stale entry for at most [max_stale] seconds.
    The answer of the HTTP request is an argument.  Times are microseconds.
    [int(sum / len)] divides in doubles, exact on volumes that add up to less
    than 2^52. *)

From S2P Require Import Prelude PyText OrderSchema.
Open Scope Z_scope.

(** The cached volume and when it was fetched, by symbol. *)
Abbreviation adv_cache := (gmap string (Z * Z)).

Record LiquidityService := {
  ls_credentials : bool;
  ls_ttl_seconds : Z;
  ls_max_stale_seconds : option Z
}.

(** What comes of the request: [Bars] has the volume of every bar, [None] where it is
    missing or not a number; another JSON value than an object raises AttributeError. *)
Inductive bars_reply :=
| RequestError
| BadStatus
| BadJson
| NotAnObject
| Bars (volumes : list (option Z)).

Definition _maybe_use_stale_cache (ls : LiquidityService) (now : Z) (cached : option (Z * Z)) : option Z :=
  match cached with
  | None => None
  | Some (adv, cached_at) =>
      match ls_max_stale_seconds ls with
      | Some max_stale => if max_stale * second_us <? now - cached_at then None else Some adv
      | None => Some adv
      end
  end.

(** [int(sum(volumes) / len(volumes))]; the float quotient truncates to the exact one as long as the sum is
    below 2^53. *)
Definition mean_volume (volumes : list Z) : Z := Zsum volumes ÷ Z.of_nat (length volumes).

(** The cached entry is too old or missing. *)
Definition fetch_adv (ls : LiquidityService) (now : Z) (reply : string -> bars_reply) (symbol : string)
    (cached : option (Z * Z)) : M adv_cache (option Z) :=
  let stale := _maybe_use_stale_cache ls now cached in
  if negb (ls_credentials ls) then mret stale
  else
    match reply symbol with
    | RequestError | BadStatus | BadJson => mret stale
    | NotAnObject => raise (AttributeError "get")
    | Bars bars =>
        match omap id bars with
        | [] => mret stale
        | volumes =>
            c ← get_state;
            _ ← put_state (<[symbol := (mean_volume volumes, now)]> c);
            mret (Some (mean_volume volumes))
        end
    end.

Definition get_adv (ls : LiquidityService) (now : Z) (reply : string -> bars_reply) (symbol : string)
    : M adv_cache (option Z) :=
  let symbol := upper symbol in
  cached ← reads (fun c : adv_cache => c !! symbol);
  match cached with
  | Some (adv, cached_at) =>
      if now - cached_at <=? ls_ttl_seconds ls * second_us then mret (Some adv)
      else fetch_adv ls now reply symbol cached
  | None => fetch_adv ls now reply symbol cached
  end.

(** ** What an answer is worth *)

(** A volume the service reported at [t], or one of its answers. *)
Definition reported (reply : string -> bars_reply) (symbol : string) (adv : Z) : Prop := exists bars,
  reply symbol = Bars bars /\ omap id bars <> [] /\ adv = mean_volume (omap id bars).

(** The cached volume at [t] is within the longer of the two limits. *)
Definition within_limits (ls : LiquidityService) (now t : Z) : Prop :=
  forall m, ls_max_stale_seconds ls = Some m -> now - t <= Z.max m (ls_ttl_seconds ls) * second_us.

(** Where an answer and the cache after it come from. *)
Definition recent (ls : LiquidityService) (now : Z) (reply : string -> bars_reply) (symbol : string)
    (c : adv_cache) (adv : Z) (c' : adv_cache) : Prop :=
  (reported reply symbol adv /\ c' = <[symbol := (adv, now)]> c) \/
  (exists t, c !! symbol = Some (adv, t) /\ c' = c /\ within_limits ls now t).

Lemma stale_within ls now cached adv :
  _maybe_use_stale_cache ls now cached = Some adv -> exists t, cached = Some (adv, t) /\ within_limits ls now t.
Proof.
  unfold _maybe_use_stale_cache, within_limits. destruct cached as [[a t]|]; [|done].
  destruct (ls_max_stale_seconds ls) as [m|]; [|intros [= ->]; by exists t].
  destruct (Z.ltb_spec (m * second_us) (now - t)) as [|Hle]; [done|]. intros [= ->]. exists t. split; [done|].
  intros m' [= <-]. unfold second_us in *. lia.
Qed.

Lemma fetch_recent ls now reply symbol c adv c' :
  fetch_adv ls now reply symbol (c !! symbol) c = (Ok (Some adv), c') -> recent ls now reply symbol c adv c'.
Proof.
  assert (Hold : (Ok (_maybe_use_stale_cache ls now (c !! symbol)), c) = (Ok (Some adv), c') ->
    recent ls now reply symbol c adv c').
  { intros [= H <-]. apply stale_within in H as (t & H1 & H2). right. by exists t. }
  unfold fetch_adv. destruct (negb (ls_credentials ls)); [exact Hold|].
  destruct (reply symbol) as [| | | |bars] eqn:Er; try done; try exact Hold.
  destruct (omap id bars) as [|v vs] eqn:Ev; [exact Hold|]. run_monad. intros [= <- <-]. left.
  split; [exists bars; split_and!; [done|by rewrite Ev|by rewrite Ev]|done].
Qed.

(** An answer is the mean of the volumes just fetched, which is then cached, or it is the cached volume
    and not older than the longer of the two limits; nothing else in the cache changes. *)
Theorem adv_is_recent ls now reply symbol c adv c' :
  get_adv ls now reply symbol c = (Ok (Some adv), c') -> recent ls now reply (upper symbol) c adv c'.
Proof.
  unfold get_adv. rewrite M_bind_run. unfold reads. cbv beta iota zeta.
  destruct (c !! upper symbol) as [[a t]|] eqn:Hc; [|rewrite <- Hc; apply fetch_recent].
  destruct (Z.leb_spec (now - t) (ls_ttl_seconds ls * second_us)) as [Hle|];
    [|rewrite <- Hc; apply fetch_recent].
  intros [= <- <-]. right. exists t. split_and!; [done|done|]. intros m _. unfold second_us in *. lia.
Qed.

(** The mean is between the smallest and the largest volume. *)
Lemma mean_volume_bounds lo hi volumes :
  volumes <> [] -> 0 <= lo -> Forall (fun v => lo <= v <= hi) volumes -> lo <= mean_volume volumes <= hi.
Proof.
  intros Hne Hlo H. unfold mean_volume. set (n := Z.of_nat (length volumes)).
  assert (Hn : 0 < n) by (unfold n; destruct volumes; [done|simpl; lia]).
  assert (Hs : n * lo <= Zsum volumes <= n * hi).
  { subst n. clear Hne Hn. induction H as [|v l Hv _ IH]; simpl Zsum; [simpl; lia|]. simpl length. lia. }
  rewrite Z.quot_div_nonneg by nia. split; [apply Z.div_le_lower_bound; nia|apply Z.div_le_upper_bound; nia].
Qed.

Definition ex_service : LiquidityService :=
  {| ls_credentials := true; ls_ttl_seconds := 86400; ls_max_stale_seconds := Some 604800 |}.

Lemma adv_is_recent_witness :
  recent ex_service 5 (fun _ => Bars [Some 10; None; Some 21]) "AAPL" ∅ 15 (<["AAPL" := (15, 5)]> ∅).
Proof. apply (adv_is_recent ex_service 5 (fun _ => Bars [Some 10; None; Some 21]) "aapl"). reflexivity. Defined.
