(* ===== verification/Recovery.v ===== *)
(** * Fail-closed recovery of the safety components (apps/execution_gateway/recovery_manager.py)

    The manager holds the kill switch, the circuit breaker, the position
    reservation and the slice scheduler, and a flag per safety component that
    says it is unavailable; the routes refuse orders while a flag is set.  The
    state is the manager's own ([RecoveryState]) beside whatever the components
    keep ([W]); what they do when they are built and checked is an argument. *)

From S2P Require Import Prelude.

(** Whether an instance is held, and the flags; a scheduler that is held runs or not. *)
Record RecoveryState := {
  kill_switch : bool;
  circuit_breaker : bool;
  position_reservation : bool;
  slice_scheduler : option bool;
  kill_switch_unavailable : bool;
  circuit_breaker_unavailable : bool;
  position_reservation_unavailable : bool
}.

Definition recovery_init : RecoveryState := {|
  kill_switch := false; circuit_breaker := false; position_reservation := false; slice_scheduler := None;
  kill_switch_unavailable := true; circuit_breaker_unavailable := true; position_reservation_unavailable := true |}.

Definition set_kill_switch (b : bool) (s : RecoveryState) : RecoveryState := {|
  kill_switch := b; circuit_breaker := circuit_breaker s; position_reservation := position_reservation s;
  slice_scheduler := slice_scheduler s; kill_switch_unavailable := kill_switch_unavailable s;
  circuit_breaker_unavailable := circuit_breaker_unavailable s;
  position_reservation_unavailable := position_reservation_unavailable s |}.
Definition set_circuit_breaker (b : bool) (s : RecoveryState) : RecoveryState := {|
  kill_switch := kill_switch s; circuit_breaker := b; position_reservation := position_reservation s;
  slice_scheduler := slice_scheduler s; kill_switch_unavailable := kill_switch_unavailable s;
  circuit_breaker_unavailable := circuit_breaker_unavailable s;
  position_reservation_unavailable := position_reservation_unavailable s |}.
Definition set_position_reservation (b : bool) (s : RecoveryState) : RecoveryState := {|
  kill_switch := kill_switch s; circuit_breaker := circuit_breaker s; position_reservation := b;
  slice_scheduler := slice_scheduler s; kill_switch_unavailable := kill_switch_unavailable s;
  circuit_breaker_unavailable := circuit_breaker_unavailable s;
  position_reservation_unavailable := position_reservation_unavailable s |}.
Definition set_slice_scheduler (b : option bool) (s : RecoveryState) : RecoveryState := {|
  kill_switch := kill_switch s; circuit_breaker := circuit_breaker s; position_reservation := position_reservation s;
  slice_scheduler := b; kill_switch_unavailable := kill_switch_unavailable s;
  circuit_breaker_unavailable := circuit_breaker_unavailable s;
  position_reservation_unavailable := position_reservation_unavailable s |}.
Definition set_kill_switch_unavailable (b : bool) (s : RecoveryState) : RecoveryState := {|
  kill_switch := kill_switch s; circuit_breaker := circuit_breaker s; position_reservation := position_reservation s;
  slice_scheduler := slice_scheduler s; kill_switch_unavailable := b;
  circuit_breaker_unavailable := circuit_breaker_unavailable s;
  position_reservation_unavailable := position_reservation_unavailable s |}.
Definition set_circuit_breaker_unavailable (b : bool) (s : RecoveryState) : RecoveryState := {|
  kill_switch := kill_switch s; circuit_breaker := circuit_breaker s; position_reservation := position_reservation s;
  slice_scheduler := slice_scheduler s; kill_switch_unavailable := kill_switch_unavailable s;
  circuit_breaker_unavailable := b; position_reservation_unavailable := position_reservation_unavailable s |}.
Definition set_position_reservation_unavailable (b : bool) (s : RecoveryState) : RecoveryState := {|
  kill_switch := kill_switch s; circuit_breaker := circuit_breaker s; position_reservation := position_reservation s;
  slice_scheduler := slice_scheduler s; kill_switch_unavailable := kill_switch_unavailable s;
  circuit_breaker_unavailable := circuit_breaker_unavailable s; position_reservation_unavailable := b |}.

Definition needs_recovery (s : RecoveryState) : bool :=
  kill_switch_unavailable s || circuit_breaker_unavailable s || position_reservation_unavailable s
  || negb (kill_switch s) || negb (circuit_breaker s) || negb (position_reservation s).

Definition _should_recover_slice_scheduler (s : RecoveryState) : bool :=
  if kill_switch_unavailable s || circuit_breaker_unavailable s || negb (kill_switch s) || negb (circuit_breaker s)
  then false
  else match slice_scheduler s with None => true | Some running => negb running end.

Record recovery_result := {
  kill_switch_recovered : bool;
  circuit_breaker_recovered : bool;
  position_reservation_recovered : bool;
  slice_scheduler_recovered : bool;
  all_recovered : bool
}.

(** What the components do: the client's [health_check] ([None] without a client), the checks,
    and [start()] with whether the scheduler runs afterwards. *)
Record components (W : Type) := {
  redis_client : option (M W bool);
  is_engaged : M W bool;
  is_tripped : M W bool;
  start_scheduler : M W bool
}.
Arguments redis_client {W} c.
Arguments is_engaged {W} c.
Arguments is_tripped {W} c.
Arguments start_scheduler {W} c.

(** The factories; a new scheduler may run already. *)
Record factories (W : Type) := {
  new_kill_switch : option (M W unit);
  new_circuit_breaker : option (M W unit);
  new_position_reservation : option (M W unit);
  new_slice_scheduler : option (M W bool)
}.
Arguments new_kill_switch {W} f.
Arguments new_circuit_breaker {W} f.
Arguments new_position_reservation {W} f.
Arguments new_slice_scheduler {W} f.

(** [except (RedisError, TimeoutError, RuntimeError, OSError)] *)
Definition recovery_error (e : exn) : bool :=
  match e with RedisError | RuntimeError _ | ConnectionError _ => true | _ => false end.

(** [except (RuntimeError, AttributeError, OSError)] *)
Definition scheduler_error (e : exn) : bool :=
  match e with RuntimeError _ | AttributeError _ | ConnectionError _ => true | _ => false end.

Section manager.
Context {W : Type} (c : components W).

Abbreviation manager := (RecoveryState * W)%type.

Definition own {A} (f : RecoveryState -> A) : M manager A := reads (fun x => f x.1).
Definition update (f : RecoveryState -> RecoveryState) : M manager unit := fun x => (Ok tt, (f x.1, x.2)).
Definition outside {A} (m : M W A) : M manager A := fun x => let '(r, w) := m x.2 in (r, (x.1, w)).

(** The handler of the recovery methods: the flag is set, and the answer is [False]. *)
Definition or_unavailable (set : bool -> RecoveryState -> RecoveryState) (m : M manager bool) : M manager bool :=
  try_except m (fun e => if recovery_error e then Some (_ ← update (set true); mret false) else None).

Definition can_recover : M manager bool :=
  match redis_client c with
  | None => mret false
  | Some health_check => try_except (outside health_check) (fun _ => Some (mret false))
  end.

(** [if self._state.x is None and factory is not None: self._state.x = factory()] *)
Definition build (held : RecoveryState -> bool) (set : bool -> RecoveryState -> RecoveryState)
    (factory : option (M W unit)) : M manager unit :=
  has ← own held;
  if has : bool then mret tt
  else match factory with
       | Some f => _ ← outside f; update (set true)
       | None => mret tt
       end.

Definition _recover_kill_switch (factory : option (M W unit)) : M manager bool :=
  or_unavailable set_kill_switch_unavailable (
    _ ← build kill_switch set_kill_switch factory;
    has ← own kill_switch;
    if has : bool then
      _ ← outside (is_engaged c);
      _ ← update (set_kill_switch_unavailable false);
      mret true
    else _ ← update (set_kill_switch_unavailable true); mret false).

(** The inner [except RuntimeError] does what the outer one does. *)
Definition _recover_circuit_breaker (factory : option (M W unit)) : M manager bool :=
  or_unavailable set_circuit_breaker_unavailable (
    _ ← build circuit_breaker set_circuit_breaker factory;
    has ← own circuit_breaker;
    if has : bool then
      _ ← outside (is_tripped c);
      _ ← update (set_circuit_breaker_unavailable false);
      mret true
    else _ ← update (set_circuit_breaker_unavailable true); mret false).

Definition _recover_position_reservation (factory : option (M W unit)) : M manager bool :=
  or_unavailable set_position_reservation_unavailable (
    _ ← build position_reservation set_position_reservation factory;
    has ← own position_reservation;
    if has : bool then
      healthy ← match redis_client c with None => mret false | Some health_check => outside health_check end;
      if healthy : bool then _ ← update (set_position_reservation_unavailable false); mret true
      else _ ← update (set_position_reservation_unavailable true); mret false
    else _ ← update (set_position_reservation_unavailable true); mret false).

(** [start()], and whether the scheduler runs then. *)
Definition start : M manager bool :=
  running ← outside (start_scheduler c);
  _ ← update (set_slice_scheduler (Some running));
  mret running.

Definition _recover_slice_scheduler (factory : option (M W bool)) : M manager bool :=
  try_except (
    held ← own slice_scheduler;
    match held with
    | Some running => if running : bool then mret true else start
    | None =>
        match factory with
        | None => mret false
        | Some f =>
            running ← outside f;
            _ ← update (set_slice_scheduler (Some running));
            if running : bool then mret true else start
        end
    end)
    (fun e => if scheduler_error e then Some (mret false) else None).

Definition nothing_to_recover : recovery_result := {|
  kill_switch_recovered := false; circuit_breaker_recovered := false; position_reservation_recovered := false;
  slice_scheduler_recovered := false; all_recovered := true |}.

Definition recovery_needed : M manager bool := own (fun s => needs_recovery s || _should_recover_slice_scheduler s).

(** [when] decides by the state at that moment. *)
Definition recover_when (when : RecoveryState -> bool) (m : M manager bool) : M manager bool :=
  b ← own when; if b : bool then m else mret false.

Definition attempt_recovery (f : factories W) : M manager recovery_result :=
  needed ← recovery_needed;
  if negb needed then mret nothing_to_recover
  else
    can_recover_safety ← can_recover;
    needed ← recovery_needed;
    if negb needed then mret nothing_to_recover
    else
      k ← recover_when (fun s => can_recover_safety && (kill_switch_unavailable s || negb (kill_switch s)))
            (_recover_kill_switch (new_kill_switch f));
      b ← recover_when (fun s => can_recover_safety && (circuit_breaker_unavailable s || negb (circuit_breaker s)))
            (_recover_circuit_breaker (new_circuit_breaker f));
      p ← recover_when (fun s => can_recover_safety && (position_reservation_unavailable s || negb (position_reservation s)))
            (_recover_position_reservation (new_position_reservation f));
      r ← recover_when _should_recover_slice_scheduler (_recover_slice_scheduler (new_slice_scheduler f));
      needed ← own needs_recovery;
      mret {| kill_switch_recovered := k; circuit_breaker_recovered := b; position_reservation_recovered := p;
              slice_scheduler_recovered := r; all_recovered := negb needed |}.

(** ** Startup: the factory may return None; the check's errors keep the instance for later *)

Definition checked (m : M manager unit) : M manager bool :=
  try_except (_ ← m; mret true) (fun e => if recovery_error e then Some (mret false) else None).

Definition initialize (held : bool -> RecoveryState -> RecoveryState) (flag : bool -> RecoveryState -> RecoveryState)
    (factory : M W bool) (check : M manager bool) : M manager bool :=
  match redis_client c with
  | None => _ ← update (flag true); mret false
  | Some _ =>
      or_unavailable flag (
        built ← outside factory;
        if negb built then _ ← update (flag true); mret false
        else
          ok ← check;
          _ ← update (held true);
          if ok : bool then _ ← update (flag false); mret true
          else _ ← update (flag true); mret false)
  end.

Definition initialize_kill_switch (factory : M W bool) : M manager bool :=
  initialize set_kill_switch set_kill_switch_unavailable factory (checked (_ ← outside (is_engaged c); mret tt)).

Definition initialize_circuit_breaker (factory : M W bool) : M manager bool :=
  initialize set_circuit_breaker set_circuit_breaker_unavailable factory (checked (_ ← outside (is_tripped c); mret tt)).

(** The health check's errors are the outer handler's: the instance is not kept. *)
Definition initialize_position_reservation (factory : M W bool) : M manager bool :=
  initialize set_position_reservation set_position_reservation_unavailable factory
    match redis_client c with None => mret false | Some health_check => outside health_check end.
End manager.

(** ** Fail closed *)

Lemma own_run {W A} (f : RecoveryState -> A) s (w : W) : own f (s, w) = (Ok (f s), (s, w)).
Proof. done. Qed.

(** A component is available only while it is held, and [K], [B], [P] hold of it. *)
Definition safe {W} (K B P : Prop) (x : RecoveryState * W) : Prop :=
  (kill_switch_unavailable x.1 = false -> kill_switch x.1 = true /\ K) /\
  (circuit_breaker_unavailable x.1 = false -> circuit_breaker x.1 = true /\ B) /\
  (position_reservation_unavailable x.1 = false -> position_reservation x.1 = true /\ P).

(** The check was answered somewhere. *)
Definition answers {W A} (m : M W A) : Prop := exists w a, fst (m w) = Ok a.

Section fail_closed.
Context {W : Type} (c : components W) (K B P : Prop).
Hypothesis HK : answers (is_engaged c) -> K.
Hypothesis HB : answers (is_tripped c) -> B.
Hypothesis HP : (exists health, redis_client c = Some health /\ exists w, fst (health w) = Ok true) -> P.

Let kept {A} : M (RecoveryState * W) A -> Prop := preserves (safe (W:=W) K B P).

Lemma kept_outside {A} (m : M W A) : kept (outside m).
Proof. intros [s w] H. unfold outside. simpl. by destruct (m w). Qed.

Lemma kept_own {A} (f : RecoveryState -> A) : kept (own f).
Proof. intros x H. exact H. Qed.

Lemma kept_update (f : RecoveryState -> RecoveryState) :
  (forall s w, safe (W:=W) K B P (s, w) -> safe (W:=W) K B P (f s, w)) -> kept (update f).
Proof. intros Hf [s w] H. by apply Hf. Qed.

Lemma kept_or_unavailable set m :
  (forall s w, safe (W:=W) K B P (s, w) -> safe (W:=W) K B P (set true s, w)) -> kept m -> kept (or_unavailable set m).
Proof.
  intros Hs Hm. apply preserves_try; [exact Hm|]. intros e k. destruct (recovery_error e); [|done]. intros [= <-].
  apply preserves_bind; [by apply kept_update|]. intros _. apply preserves_ret.
Qed.

Lemma kept_build held set f :
  (forall s w, safe (W:=W) K B P (s, w) -> safe (W:=W) K B P (set true s, w)) -> kept (build held set f).
Proof.
  intros Hs. apply preserves_bind; [apply kept_own|]. intros [|]; [apply preserves_ret|].
  destruct f as [f|]; [|apply preserves_ret]. apply preserves_bind; [apply kept_outside|]. intros _. by apply kept_update.
Qed.

Ltac by_field := intros; unfold safe in *; simpl in *; destruct_and!; split_and!; naive_solver.

(** The end of a recovery: the flag is cleared after a check that was answered. *)
Lemma kept_clear {A} (held : RecoveryState -> bool) set (m : M W A) (Q : Prop) :
  (answers m -> Q) -> (forall s w, held s = true -> Q -> safe (W:=W) K B P (s, w) -> safe (W:=W) K B P (set false s, w)) ->
  (forall s w, safe (W:=W) K B P (s, w) -> safe (W:=W) K B P (set true s, w)) ->
  kept (has ← own held; if has : bool then _ ← outside m; _ ← update (set false); mret true
        else _ ← update (set true); mret false).
Proof.
  intros HQ Hf Ht [s w] H. rewrite M_bind_run. unfold own, reads. simpl. destruct (held s) eqn:Eh.
  - rewrite M_bind_run. unfold outside. simpl. destruct (m w) as [[a|e] w'] eqn:Em; simpl; [|exact H].
    apply Hf; [done| |exact H]. apply HQ. exists w, a. by rewrite Em.
  - by apply Ht.
Qed.

Lemma kept_recover_kill_switch f : kept (_recover_kill_switch c f).
Proof.
  apply kept_or_unavailable; [by_field|]. apply preserves_bind; [apply kept_build; by_field|]. intros _.
  apply (kept_clear _ _ _ K); [exact HK| |]; by_field.
Qed.

Lemma kept_recover_circuit_breaker f : kept (_recover_circuit_breaker c f).
Proof.
  apply kept_or_unavailable; [by_field|]. apply preserves_bind; [apply kept_build; by_field|]. intros _.
  apply (kept_clear _ _ _ B); [exact HB| |]; by_field.
Qed.

Lemma kept_recover_position_reservation f : kept (_recover_position_reservation c f).
Proof.
  apply kept_or_unavailable; [by_field|]. apply preserves_bind; [apply kept_build; by_field|]. intros _ [s w] H.
  rewrite M_bind_run. unfold own, reads. simpl. destruct (position_reservation s) eqn:Eh; [|by_field].
  rewrite M_bind_run. destruct (redis_client c) as [health|] eqn:Ec; [|by_field].
  unfold outside. simpl. destruct (health w) as [[[]|e] w'] eqn:Em; simpl; [|by_field|exact H].
  assert (P) by (apply HP; exists health; split; [done|]; exists w; by rewrite Em). by_field.
Qed.

Lemma kept_start : kept (start c).
Proof.
  apply preserves_bind; [apply kept_outside|]. intros r. apply preserves_bind; [apply kept_update; by_field|].
  intros _. apply preserves_ret.
Qed.

Lemma kept_recover_slice_scheduler f : kept (_recover_slice_scheduler c f).
Proof.
  apply preserves_try; [|intros e k; destruct (scheduler_error e); [|done]; intros [= <-]; apply preserves_ret].
  apply preserves_bind; [apply kept_own|]. intros [[|]|]; [apply preserves_ret|apply kept_start|].
  destruct f as [f|]; [|apply preserves_ret]. apply preserves_bind; [apply kept_outside|]. intros r.
  apply preserves_bind; [apply kept_update; by_field|]. intros _. destruct r; [apply preserves_ret|apply kept_start].
Qed.

Lemma kept_when b m : kept m -> kept (recover_when b m).
Proof. intros Hm. apply preserves_bind; [apply kept_own|]. intros [|]; [exact Hm|apply preserves_ret]. Qed.

Lemma kept_can_recover : kept (can_recover c).
Proof.
  unfold can_recover. destruct (redis_client c); [|apply preserves_ret].
  apply preserves_try; [apply kept_outside|]. intros e k [= <-]. apply preserves_ret.
Qed.

Lemma kept_attempt f : kept (attempt_recovery c f).
Proof.
  apply preserves_bind; [apply kept_own|]. intros [|]; [|apply preserves_ret].
  apply preserves_bind; [apply kept_can_recover|]. intros ok.
  apply preserves_bind; [apply kept_own|]. intros [|]; [|apply preserves_ret].
  apply preserves_bind; [apply kept_when, kept_recover_kill_switch|]. intros k.
  apply preserves_bind; [apply kept_when, kept_recover_circuit_breaker|]. intros b.
  apply preserves_bind; [apply kept_when, kept_recover_position_reservation|]. intros p.
  apply preserves_bind; [apply kept_when, kept_recover_slice_scheduler|]. intros r.
  apply preserves_bind; [apply kept_own|]. intros n. apply preserves_ret.
Qed.
Lemma kept_initialize held flag factory (check : M (RecoveryState * W) bool) (Q : Prop) :
  kept check -> (forall x y, check x = (Ok true, y) -> Q) ->
  (forall s w, safe (W:=W) K B P (s, w) -> safe (W:=W) K B P (held true s, w)) ->
  (forall s w, safe (W:=W) K B P (s, w) -> safe (W:=W) K B P (flag true s, w)) ->
  (forall s w, Q -> safe (W:=W) K B P (s, w) -> safe (W:=W) K B P (flag false (held true s), w)) ->
  kept (initialize c held flag factory check).
Proof.
  intros Hc HQ Hh Ht Hf.
  assert (Hu : kept (_ ← update (flag true); mret false)).
  { apply preserves_bind; [by apply kept_update|intros; apply preserves_ret]. }
  unfold initialize. destruct (redis_client c); [|exact Hu]. apply kept_or_unavailable; [exact Ht|].
  apply preserves_bind; [apply kept_outside|]. intros [|]; simpl; [|exact Hu].
  intros [s w] H. rewrite M_bind_run. specialize (Hc _ H). specialize (HQ (s, w)).
  destruct (check (s, w)) as [[[]|e] [s1 w1]]; simpl in Hc; [| |exact Hc].
  - by apply Hf; [eapply HQ|].
  - by apply Ht, Hh.
Qed.

Lemma kept_checked {A} (m : M W A) : kept (checked (_ ← outside m; mret tt)).
Proof.
  apply preserves_try.
  - apply preserves_bind; [|intros; apply preserves_ret].
    apply preserves_bind; [apply kept_outside|intros; apply preserves_ret].
  - intros e k. destruct (recovery_error e); [|done]. intros [= <-]. apply preserves_ret.
Qed.

Lemma checked_answers {A} (m : M W A) x y : checked (_ ← outside m; mret tt) x = (Ok true, y) -> answers m.
Proof.
  destruct x as [s w]. unfold checked, try_except. rewrite !M_bind_run. unfold outside. simpl.
  destruct (m w) as [[a|e] w'] eqn:E; simpl.
  - intros _. exists w, a. by rewrite E.
  - by destruct (recovery_error e).
Qed.

Lemma kept_initialize_kill_switch factory : kept (initialize_kill_switch c factory).
Proof.
  apply (kept_initialize _ _ _ _ K); [apply kept_checked| |by_field..].
  intros x y E. by apply HK, (checked_answers _ _ _ E).
Qed.

Lemma kept_initialize_circuit_breaker factory : kept (initialize_circuit_breaker c factory).
Proof.
  apply (kept_initialize _ _ _ _ B); [apply kept_checked| |by_field..].
  intros x y E. by apply HB, (checked_answers _ _ _ E).
Qed.

Lemma kept_initialize_position_reservation factory : kept (initialize_position_reservation c factory).
Proof.
  apply (kept_initialize _ _ _ _ P); [destruct (redis_client c); [apply kept_outside|apply preserves_ret]| |by_field..].
  intros [s w] y. destruct (redis_client c) as [health|] eqn:Ec; [|done]. unfold outside. simpl.
  destruct (health w) as [r w'] eqn:E. intros [= -> _]. apply HP. exists health. split; [done|]. exists w. by rewrite E.
Qed.
End fail_closed.

(** ** Runs of the manager *)

(** One step: an operation of the manager with what the components do in it, a route that sets a
    flag, or anything that happens outside. *)
Inductive manager_step {W} : option (components W) -> RecoveryState * W -> RecoveryState * W -> Prop :=
| step_attempt c f x : manager_step (Some c) x (snd (attempt_recovery c f x))
| step_kill_switch c factory x : manager_step (Some c) x (snd (initialize_kill_switch c factory x))
| step_circuit_breaker c factory x : manager_step (Some c) x (snd (initialize_circuit_breaker c factory x))
| step_position_reservation c factory x : manager_step (Some c) x (snd (initialize_position_reservation c factory x))
| step_flag set s w : set ∈ [set_kill_switch_unavailable; set_circuit_breaker_unavailable; set_position_reservation_unavailable] ->
    manager_step None (s, w) (set true s, w)
| step_outside s w w' : manager_step None (s, w) (s, w').

Lemma step_safe {W} oc (K B P : Prop) (x y : RecoveryState * W) :
  (forall c, oc = Some c -> (answers (is_engaged c) -> K) /\ (answers (is_tripped c) -> B) /\
     ((exists health, redis_client c = Some health /\ exists w, fst (health w) = Ok true) -> P)) ->
  manager_step oc x y -> safe K B P x -> safe K B P y.
Proof.
  intros Hc Hstep. revert Hc. destruct Hstep; intros Hc Hx; try (destruct (Hc _ eq_refl) as (HK & HB & HP)).
  - by apply (kept_attempt c K B P HK HB HP).
  - by apply (kept_initialize_kill_switch c K B P HK).
  - by apply (kept_initialize_circuit_breaker c K B P HB).
  - by apply (kept_initialize_position_reservation c K B P HP).
  - destruct Hx as (H1 & H2 & H3). unfold safe in *. simpl in *.
    repeat match goal with H : _ ∈ _ :: _ |- _ => apply elem_of_cons in H as [->|H] end; [naive_solver..|].
    by apply elem_of_nil in H.
  - exact Hx.
Qed.

(** C22. The manager fails closed: in every reachable state an available component is held; and a
    step clears a flag only when the component's check was answered in that step (for the
    reservation, when Redis said it is healthy), whatever the factories and checks do. *)
Theorem recovery_fails_closed {W} (w0 : W) x :
  rtc (fun x y => exists oc, manager_step oc x y) (recovery_init, w0) x ->
  safe True True True x /\
  forall c y, manager_step (Some c) x y ->
    safe (kill_switch_unavailable x.1 = false \/ answers (is_engaged c))
         (circuit_breaker_unavailable x.1 = false \/ answers (is_tripped c))
         (position_reservation_unavailable x.1 = false \/
            exists health, redis_client c = Some health /\ exists w, fst (health w) = Ok true) y.
Proof.
  intros Hr. assert (Hs : safe True True True x).
  { remember (recovery_init, w0) as x0 eqn:E0.
    assert (H0 : safe True True True x0) by (subst; by split_and!). clear E0.
    induction Hr as [|x y z [oc Hxy] _ IH]; [done|]. apply IH. by eapply step_safe; [|exact Hxy|exact H0]. }
  split; [done|]. intros c y Hy. eapply step_safe; [|exact Hy|].
  - intros c' [= <-]. naive_solver.
  - destruct Hs as (H1 & H2 & H3). unfold safe. naive_solver.
Qed.

(** ** Recovery completes *)

Definition total {W A} (m : M W A) : Prop := forall w, exists a w', m w = (Ok a, w').

(** Every component can be built, and every check is answered. *)
Record responsive {W} (c : components W) (f : factories W) : Prop := {
  rsp_health : exists health, redis_client c = Some health /\ forall w, exists w', health w = (Ok true, w');
  rsp_is_engaged : total (is_engaged c);
  rsp_is_tripped : total (is_tripped c);
  rsp_start : total (start_scheduler c);
  rsp_kill_switch : exists m, new_kill_switch f = Some m /\ total m;
  rsp_circuit_breaker : exists m, new_circuit_breaker f = Some m /\ total m;
  rsp_position_reservation : exists m, new_position_reservation f = Some m /\ total m;
  rsp_slice_scheduler : exists m, new_slice_scheduler f = Some m /\ total m
}.

Section completes.
Context {W : Type} (c : components W) (f : factories W).
Hypothesis Hr : responsive c f.

Lemma outside_run {A} (m : M W A) s w : total m -> exists a w', outside m (s, w) = (Ok a, (s, w')).
Proof. intros H. destruct (H w) as (a & w' & E). exists a, w'. unfold outside. simpl. by rewrite E. Qed.

Lemma build_run held set (m : M W unit) s w : total m -> exists w',
  build held set (Some m) (s, w) = (Ok tt, (if held s then s else set true s, w')).
Proof.
  intros H. unfold build. rewrite M_bind_run. unfold own, reads. simpl. destruct (held s); [by exists w|].
  destruct (outside_run m s w H) as (a & w' & E). exists w'. rewrite M_bind_run, E. done.
Qed.

Lemma recover_kill_switch_run s w : exists w',
  _recover_kill_switch c (new_kill_switch f) (s, w) =
  (Ok true, (set_kill_switch_unavailable false (if kill_switch s then s else set_kill_switch true s), w')).
Proof.
  destruct (rsp_kill_switch _ _ Hr) as (m & -> & Hm). destruct (build_run kill_switch set_kill_switch m s w Hm) as [w1 E1].
  unfold _recover_kill_switch, or_unavailable, try_except. rewrite M_bind_run, E1, M_bind_run. unfold own, reads. simpl.
  destruct (outside_run (is_engaged c) (if kill_switch s then s else set_kill_switch true s) w1 (rsp_is_engaged _ _ Hr))
    as (a & w2 & E2). exists w2. destruct (kill_switch s) eqn:Ek; simpl; rewrite ?Ek, M_bind_run, E2; done.
Qed.

Lemma recover_circuit_breaker_run s w : exists w',
  _recover_circuit_breaker c (new_circuit_breaker f) (s, w) =
  (Ok true, (set_circuit_breaker_unavailable false (if circuit_breaker s then s else set_circuit_breaker true s), w')).
Proof.
  destruct (rsp_circuit_breaker _ _ Hr) as (m & -> & Hm).
  destruct (build_run circuit_breaker set_circuit_breaker m s w Hm) as [w1 E1].
  unfold _recover_circuit_breaker, or_unavailable, try_except. rewrite M_bind_run, E1, M_bind_run. unfold own, reads. simpl.
  destruct (outside_run (is_tripped c) (if circuit_breaker s then s else set_circuit_breaker true s) w1 (rsp_is_tripped _ _ Hr))
    as (a & w2 & E2). exists w2. destruct (circuit_breaker s) eqn:Ek; simpl; rewrite ?Ek, M_bind_run, E2; done.
Qed.

Lemma recover_position_reservation_run s w : exists w',
  _recover_position_reservation c (new_position_reservation f) (s, w) =
  (Ok true, (set_position_reservation_unavailable false
               (if position_reservation s then s else set_position_reservation true s), w')).
Proof.
  destruct (rsp_position_reservation _ _ Hr) as (m & -> & Hm). destruct (rsp_health _ _ Hr) as (health & Eh & Hh).
  destruct (build_run position_reservation set_position_reservation m s w Hm) as [w1 E1].
  unfold _recover_position_reservation, or_unavailable, try_except. rewrite M_bind_run, E1, M_bind_run, Eh.
  destruct (Hh w1) as [w2 E2]. exists w2. unfold own, reads. simpl.
  destruct (position_reservation s) eqn:Ek; simpl; rewrite ?Ek, M_bind_run; unfold outside; simpl; by rewrite E2.
Qed.

Lemma recover_scheduler_run s w : exists r o w',
  _recover_slice_scheduler c (new_slice_scheduler f) (s, w) = (Ok r, (set_slice_scheduler o s, w')).
Proof.
  assert (Hstart : forall s' w', exists r o w2, start c (s', w') = (Ok r, (set_slice_scheduler o s', w2))).
  { intros s' w'. destruct (outside_run (start_scheduler c) s' w' (rsp_start _ _ Hr)) as (r & w2 & E).
    exists r, (Some r), w2. unfold start. by rewrite M_bind_run, E. }
  assert (Hsame : forall s', set_slice_scheduler (slice_scheduler s') s' = s') by (by intros []).
  destruct (rsp_slice_scheduler _ _ Hr) as (m & -> & Hm).
  unfold _recover_slice_scheduler, try_except. rewrite M_bind_run. unfold own, reads. simpl.
  destruct (slice_scheduler s) as [[]|] eqn:Es.
  - exists true, (Some true), w. rewrite <- Es. by rewrite Hsame.
  - destruct (Hstart s w) as (r & o & w2 & E). exists r, o, w2. by rewrite E.
  - destruct (outside_run m s w Hm) as (r & w2 & E). rewrite M_bind_run, E, M_bind_run. simpl.
    destruct r; [by exists true, (Some true), w2|].
    destruct (Hstart (set_slice_scheduler (Some false) s) w2) as (r & o & w3 & E3). exists r, o, w3. by rewrite E3.
Qed.

Lemma can_recover_run s w : exists w', can_recover c (s, w) = (Ok true, (s, w')).
Proof.
  destruct (rsp_health _ _ Hr) as (health & Eh & Hh). destruct (Hh w) as [w' E]. exists w'.
  unfold can_recover. rewrite Eh. unfold try_except, outside. simpl. by rewrite E.
Qed.

(** What a successful recovery makes of a component. *)
Definition repaired (held flag : RecoveryState -> bool) (set set_flag : bool -> RecoveryState -> RecoveryState)
    (s : RecoveryState) : RecoveryState :=
  if flag s || negb (held s) then set_flag false (if held s then s else set true s) else s.

Lemma stage_run (held flag : RecoveryState -> bool) (set set_flag : bool -> RecoveryState -> RecoveryState) (m : M (RecoveryState * W) bool) s w :
  (forall (s : RecoveryState) (w : W), exists w', m (s, w) = (Ok true, (set_flag false (if held s then s else set true s), w'))) ->
  exists k w', recover_when (fun s => true && (flag s || negb (held s))) m (s, w)
    = (Ok k, (repaired held flag set set_flag s, w')).
Proof.
  intros Hm. unfold recover_when, repaired. rewrite M_bind_run. unfold own, reads. simpl.
  destruct (flag s || negb (held s)); [|by exists false, w]. destruct (Hm s w) as [w' E]. by exists true, w'.
Qed.

Lemma scheduler_stage_run s w : exists r o w',
  recover_when _should_recover_slice_scheduler (_recover_slice_scheduler c (new_slice_scheduler f)) (s, w)
    = (Ok r, (set_slice_scheduler o s, w')).
Proof.
  unfold recover_when. rewrite M_bind_run. unfold own, reads. simpl.
  destruct (_should_recover_slice_scheduler s); [apply recover_scheduler_run|].
  exists false, (slice_scheduler s), w. by destruct s.
Qed.

Lemma stages_repair s o : needs_recovery (set_slice_scheduler o
  (repaired position_reservation position_reservation_unavailable set_position_reservation set_position_reservation_unavailable
    (repaired circuit_breaker circuit_breaker_unavailable set_circuit_breaker set_circuit_breaker_unavailable
      (repaired kill_switch kill_switch_unavailable set_kill_switch set_kill_switch_unavailable s)))) = false.
Proof. by destruct s as [[] [] [] sch [] [] []]. Qed.
End completes.

(** C37. Recovery completes: when every component can be built and every check is answered, one attempt
    ends with all safety components held and available, and says so. *)
Theorem recovery_completes {W} (c : components W) (f : factories W) s w : responsive c f ->
  exists r s' w', attempt_recovery c f (s, w) = (Ok r, (s', w')) /\ all_recovered r = true /\ needs_recovery s' = false.
Proof.
  intros Hr. unfold attempt_recovery, recovery_needed. rewrite M_bind_run, own_run.
  destruct (needs_recovery s || _should_recover_slice_scheduler s) eqn:En; cbn [negb].
  2:{ exists nothing_to_recover, s, w. apply orb_false_elim in En as [En _]. done. }
  destruct (can_recover_run c f Hr s w) as [w1 E1]. rewrite M_bind_run, E1, M_bind_run, own_run, En. cbn [negb].
  set (s1 := repaired kill_switch kill_switch_unavailable set_kill_switch set_kill_switch_unavailable s).
  set (s2 := repaired circuit_breaker circuit_breaker_unavailable set_circuit_breaker set_circuit_breaker_unavailable s1).
  set (s3 := repaired position_reservation position_reservation_unavailable set_position_reservation
               set_position_reservation_unavailable s2).
  destruct (stage_run kill_switch kill_switch_unavailable _ _ _ s w1 (recover_kill_switch_run c f Hr)) as (k & w2 & E2).
  destruct (stage_run circuit_breaker circuit_breaker_unavailable _ _ _ s1 w2 (recover_circuit_breaker_run c f Hr))
    as (b & w3 & E3).
  destruct (stage_run position_reservation position_reservation_unavailable _ _ _ s2 w3
    (recover_position_reservation_run c f Hr)) as (p & w4 & E4).
  destruct (scheduler_stage_run c f Hr s3 w4) as (r & o & w5 & E5).
  fold s1 in E2. fold s2 in E3. fold s3 in E4.
  eexists _, _, _. split; [|split; [|exact (stages_repair s o)]].
  - rewrite M_bind_run, E2, M_bind_run, E3, M_bind_run, E4, M_bind_run, E5, M_bind_run. reflexivity.
  - cbn [all_recovered]. apply negb_true_iff, stages_repair.
Qed.

(** "Isolate each component recovery to prevent one failure from aborting others" does not hold for
    the error the Redis client raises after its retries: when the kill switch's check ends in
    tenacity's RetryError, the attempt raises it, and the breaker and the reservation are not tried. *)
Theorem retry_error_aborts_recovery {W} (c : components W) (f : factories W) s w w1 w2 health :
  kill_switch s = true -> kill_switch_unavailable s = true ->
  redis_client c = Some health -> health w = (Ok true, w1) -> is_engaged c w1 = (Raise RetryError, w2) ->
  attempt_recovery c f (s, w) = (Raise RetryError, (s, w2)).
Proof.
  intros Hk Hu Hc Hh He.
  assert (En : needs_recovery s || _should_recover_slice_scheduler s = true) by (unfold needs_recovery; by rewrite Hu).
  unfold attempt_recovery, recovery_needed. rewrite M_bind_run, own_run, En. cbn [negb].
  rewrite M_bind_run. unfold can_recover. rewrite Hc. unfold try_except, outside at 1. cbn [snd].
  rewrite Hh. cbn [fst]. rewrite M_bind_run, own_run, En. cbn [negb].
  rewrite M_bind_run. unfold recover_when at 1. rewrite M_bind_run, own_run, Hu. cbn [orb andb].
  unfold _recover_kill_switch, or_unavailable, try_except, build. rewrite !M_bind_run, own_run, Hk.
  unfold mret, M_ret. cbv beta iota. rewrite M_bind_run, own_run, Hk, M_bind_run. unfold outside. simpl snd. by rewrite He.
Qed.

(** ** Examples *)

(** A world that is Redis up or down; a check of a component that is down ends in RetryError. *)
Definition ex_check : M bool bool := fun up => (if up then Ok false else Raise RetryError, up).
Definition ex_components : components bool := {|
  redis_client := Some (fun up => (Ok true, up)); is_engaged := ex_check; is_tripped := ex_check;
  start_scheduler := fun up => (Ok true, up) |}.
Definition ex_factories : factories bool := {|
  new_kill_switch := Some (mret tt); new_circuit_breaker := Some (mret tt);
  new_position_reservation := Some (mret tt); new_slice_scheduler := Some (mret false) |}.

Definition ex_up : components bool := {|
  redis_client := Some (fun up => (Ok true, up)); is_engaged := mret false; is_tripped := mret false;
  start_scheduler := mret true |}.

Lemma recovery_fails_closed_witness :
  safe True True True (recovery_init, false) /\
  kill_switch_unavailable (snd (attempt_recovery ex_components ex_factories (recovery_init, false))).1 = true.
Proof.
  destruct (recovery_fails_closed false (recovery_init, false)) as [H1 H2]; [constructor|].
  split; [exact H1|]. specialize (H2 _ _ (step_attempt ex_components ex_factories _)).
  destruct (kill_switch_unavailable _) eqn:E; [reflexivity|].
  destruct H2 as [H2 _]. destruct (H2 E) as [_ [H|H]]; [discriminate|]. vm_compute in E. discriminate.
Defined.

Lemma recovery_completes_witness : exists r s' w',
  attempt_recovery ex_up ex_factories (recovery_init, false) = (Ok r, (s', w')) /\
  all_recovered r = true /\ needs_recovery s' = false.
Proof.
  apply recovery_completes. split.
  - eexists. split; [reflexivity|]. intros w. by exists w.
  - intros w. by exists false, w.
  - intros w. by exists false, w.
  - intros w. by exists true, w.
  - eexists. split; [reflexivity|]. intros w. by exists tt, w.
  - eexists. split; [reflexivity|]. intros w. by exists tt, w.
  - eexists. split; [reflexivity|]. intros w. by exists tt, w.
  - eexists. split; [reflexivity|]. intros w. by exists false, w.
Defined.

Lemma retry_error_aborts_recovery_witness :
  attempt_recovery ex_components ex_factories (set_kill_switch true recovery_init, false)
    = (Raise RetryError, (set_kill_switch true recovery_init, false)).
Proof.
  apply (retry_error_aborts_recovery _ _ _ _ false false (fun up => (Ok true, up))); reflexivity.
Defined.
