(* ===== verification/Gateway.v ===== *)
(** * The effects of a gateway request (apps/execution_gateway: app_context.py, alpaca_client.py)

    A handler of the gateway runs while other workers use the same database and
    Redis, and any of its calls may fail.  Its state is what it shares with the
    others ([shared]) and what it sent to the broker so far.  An [environment] says,
    for the n-th call, what the others did just before it, whether it succeeds, is
    not executed, or is executed without its answer coming back, and what the
    clock shows; the fate of each attempt of a Redis command; what the market-data service answers;
    and what the broker answers, given every request it was sent. *)

From S2P Require Import Prelude PyDecimal PyText OrderStatus OrderSchema Twap GatewayDb RedisClient PyDict.
From S2P Require KillSwitch Breaker Reservation Liquidity Recovery ReconState FatFinger.
Open Scope Z_scope.

Record shared := {
  sh_db : db;
  sh_kill : KillSwitch.ks_store;
  sh_breaker : Breaker.cb_store;
  sh_reserved : Reservation.rstore;
  sh_redis : redis_state;
  sh_adv : Liquidity.adv_cache;
  sh_recovery : Recovery.RecoveryState;
  sh_recon : option ReconState.ReconciliationState;
  sh_fat_finger : FatFinger.FatFingerValidator
}.

Definition set_db (s : db) (x : shared) : shared := {|
  sh_db := s; sh_kill := sh_kill x; sh_breaker := sh_breaker x; sh_reserved := sh_reserved x;
  sh_redis := sh_redis x; sh_adv := sh_adv x; sh_recovery := sh_recovery x;
  sh_recon := sh_recon x; sh_fat_finger := sh_fat_finger x |}.
Definition set_kill (s : KillSwitch.ks_store) (x : shared) : shared := {|
  sh_db := sh_db x; sh_kill := s; sh_breaker := sh_breaker x; sh_reserved := sh_reserved x;
  sh_redis := sh_redis x; sh_adv := sh_adv x; sh_recovery := sh_recovery x;
  sh_recon := sh_recon x; sh_fat_finger := sh_fat_finger x |}.
Definition set_breaker (s : Breaker.cb_store) (x : shared) : shared := {|
  sh_db := sh_db x; sh_kill := sh_kill x; sh_breaker := s; sh_reserved := sh_reserved x;
  sh_redis := sh_redis x; sh_adv := sh_adv x; sh_recovery := sh_recovery x;
  sh_recon := sh_recon x; sh_fat_finger := sh_fat_finger x |}.
Definition set_reserved (s : Reservation.rstore) (x : shared) : shared := {|
  sh_db := sh_db x; sh_kill := sh_kill x; sh_breaker := sh_breaker x; sh_reserved := s;
  sh_redis := sh_redis x; sh_adv := sh_adv x; sh_recovery := sh_recovery x;
  sh_recon := sh_recon x; sh_fat_finger := sh_fat_finger x |}.
Definition set_redis (s : redis_state) (x : shared) : shared := {|
  sh_db := sh_db x; sh_kill := sh_kill x; sh_breaker := sh_breaker x; sh_reserved := sh_reserved x;
  sh_redis := s; sh_adv := sh_adv x; sh_recovery := sh_recovery x;
  sh_recon := sh_recon x; sh_fat_finger := sh_fat_finger x |}.
Definition set_adv (s : Liquidity.adv_cache) (x : shared) : shared := {|
  sh_db := sh_db x; sh_kill := sh_kill x; sh_breaker := sh_breaker x; sh_reserved := sh_reserved x;
  sh_redis := sh_redis x; sh_adv := s; sh_recovery := sh_recovery x;
  sh_recon := sh_recon x; sh_fat_finger := sh_fat_finger x |}.

(** A computation on a part of a state. *)
Definition zoom {S T A} (part : T -> S) (put : S -> T -> T) (m : M S A) : M T A := fun t =>
  let '(r, s) := m (part t) in (r, put s t).

Definition in_db {A} : M db A -> M shared A := zoom sh_db set_db.
Definition in_kill {A} : M KillSwitch.ks_store A -> M shared A := zoom sh_kill set_kill.
Definition in_breaker {A} : M Breaker.cb_store A -> M shared A := zoom sh_breaker set_breaker.
Definition in_reserved {A} : M Reservation.rstore A -> M shared A := zoom sh_reserved set_reserved.
Definition in_redis {A} : M redis_state A -> M shared A := zoom sh_redis set_redis.
Definition in_adv {A} : M Liquidity.adv_cache A -> M shared A := zoom sh_adv set_adv.

(** ** The broker *)

(** The request objects of the alpaca-py SDK.  Prices are passed as [float(price)]; the
    decimal itself stands for it here. *)
Inductive alpaca_request :=
| MarketOrderRequest (symbol : string) (qty : Z) (side time_in_force client_order_id : string)
| LimitOrderRequest (symbol : string) (qty : Z) (side time_in_force : string) (limit_price : decimal)
    (client_order_id : string)
| StopOrderRequest (symbol : string) (qty : Z) (side time_in_force : string) (stop_price : decimal)
    (client_order_id : string)
| StopLimitOrderRequest (symbol : string) (qty : Z) (side time_in_force : string)
    (limit_price stop_price : decimal) (client_order_id : string).

Record replace_fields := {
  rp_qty : option Z;
  rp_limit_price : option decimal;
  rp_stop_price : option decimal;
  rp_time_in_force : option string;
  rp_client_order_id : option string
}.

Inductive broker_request :=
| Submit (r : alpaca_request)
| Replace (broker_order_id : string) (fields : replace_fields)
| Cancel (broker_order_id : string)
| GetPosition (symbol : string)
| GetOpenOrders (symbol : string)
| GetClock.

(** The fields of an order object the gateway reads. *)
Record order_dict := {
  od_id : string;
  od_client_order_id : option string;
  od_status : option string
}.

(** An open order and an open position, as the reduce-only check reads them. *)
Record open_order := { oo_side : option string; oo_qty : decimal; oo_filled_qty : decimal }.

(** What comes back from an SDK call: an object, or one of the exceptions it raises. *)
Inductive broker_reply :=
| OrderObject (o : order_dict)
| Position (qty : decimal)
| Orders (l : list open_order)
| Clock (is_open : bool) (next_open : option Z)
| NoContent
| ApiError (status_code : option Z) (message : string)
| NetworkError (message : string)
| BadData (message : string)
| OtherObject (type_name : string).

(** ** The environment *)

Inductive fate :=
| Up
| Down (e : exn)
| ReplyLost (e : exn).

Record environment := {
  fates : nat -> fate;
  others : nat -> shared -> shared;
  clock : nat -> Z;
  broker_api : list broker_request -> broker_reply;
  redis_net : network;
  bars_api : nat -> string -> Liquidity.bars_reply
}.

(** A job of the in-process scheduler: the arguments of [_execute_slice] and when to run it. *)
Record slice_job := {
  job_run_date : Z;
  job_parent_order_id : string;
  job_slice : SliceDetail;
  job_symbol : string;
  job_side : string;
  job_order_type : string;
  job_limit_price : option decimal;
  job_stop_price : option decimal;
  job_time_in_force : string
}.

Record gw := {
  g_shared : shared;
  g_jobs : dict slice_job;
  g_sent : list broker_request;
  g_calls : nat
}.

Definition after_call (sh : shared) (s : gw) : gw :=
  {| g_shared := sh; g_jobs := g_jobs s; g_sent := g_sent s; g_calls := S (g_calls s) |}.
Definition set_jobs (j : dict slice_job) (s : gw) : gw :=
  {| g_shared := g_shared s; g_jobs := j; g_sent := g_sent s; g_calls := g_calls s |}.

(** A call to the database or to Redis. *)
Definition call {A} (env : environment) (m : Z -> M shared A) : M gw A := fun s =>
  let n := g_calls s in
  let sh := others env n (g_shared s) in
  match fates env n with
  | Up => let '(r, sh') := m (clock env n) sh in (r, after_call sh' s)
  | Down e => (Raise e, after_call sh s)
  | ReplyLost e => (Raise e, after_call (snd (m (clock env n) sh)) s)
  end.

(** A step whose failures the step itself describes: a Redis command with its network, or an access
    to an object of this process. *)
Definition local {A} (env : environment) (m : Z -> M shared A) : M gw A := fun s =>
  let n := g_calls s in
  let '(r, sh') := m (clock env n) (others env n (g_shared s)) in (r, after_call sh' s).

(** [datetime.now(UTC)] *)
Definition read_clock (env : environment) : M gw Z := fun s => (Ok (clock env (g_calls s)), s).

(** A call to the broker: the request, and the answer to the history it ends. *)
Definition ask_broker (env : environment) (r : broker_request) : M gw broker_reply := fun s =>
  let sent := g_sent s ++ [r] in
  (Ok (broker_api env sent),
   {| g_shared := others env (g_calls s) (g_shared s); g_jobs := g_jobs s; g_sent := sent;
      g_calls := S (g_calls s) |}).

(** ** AlpacaExecutor (alpaca_client.py) *)

(** [str(e)] *)
Definition str_exn (e : exn) : string :=
  match e with
  | ValueError m | RuntimeError m | IntegrityError m | ProgrammingError m | OperationalError m | HttpxError m
  | CircuitBreakerError m | HTTPException _ m | ConnectionError m | AlpacaConnectionError m
  | AlpacaValidationError m | AlpacaRejectionError m | AlpacaClientError m | RiskViolation m | TypeError m
  | AttributeError m | PermissionError m | HttpxConnectTimeout m | HttpxTimeout m | HttpxConnectError m
  | HttpxNetworkError m | HTTPStatusError _ m | ValidationError m | InternalError m => m
  | PriceUnavailableError symbol => "Price unavailable for " +:+ symbol
  | KeyError k => "'" +:+ k +:+ "'"
  | QueueFullError retry_after => "Queue full. Retry after " +:+ str_int retry_after +:+ "s"
  | IndexError | InvalidOperation | DivisionByZero | RetryError | RedisError => ""
  end.

Definition client_id_of (r : alpaca_request) : string :=
  match r with
  | MarketOrderRequest _ _ _ _ c | LimitOrderRequest _ _ _ _ _ c | StopOrderRequest _ _ _ _ _ c
  | StopLimitOrderRequest _ _ _ _ _ _ c => c
  end.

Definition tif_known (time_in_force : string) : bool := one_of time_in_force ["day"; "gtc"; "ioc"; "fok"].

Definition _build_alpaca_request (order : OrderRequest) (client_order_id : string) : result alpaca_request :=
  let side := if bool_decide (req_side order = "buy") then "buy" else "sell" in
  let tif := req_time_in_force order in
  if negb (tif_known tif) then Raise (KeyError tif) else
  let symbol := req_symbol order in
  let qty := req_qty order in
  if bool_decide (req_order_type order = "market") then
    Ok (MarketOrderRequest symbol qty side tif client_order_id)
  else if bool_decide (req_order_type order = "limit") then
    match req_limit_price order with
    | Some p => Ok (LimitOrderRequest symbol qty side tif p client_order_id)
    | None => Raise (ValueError "limit_price is required for limit orders")
    end
  else if bool_decide (req_order_type order = "stop") then
    match req_stop_price order with
    | Some p => Ok (StopOrderRequest symbol qty side tif p client_order_id)
    | None => Raise (ValueError "stop_price is required for stop orders")
    end
  else if bool_decide (req_order_type order = "stop_limit") then
    match req_limit_price order, req_stop_price order with
    | Some l, Some p => Ok (StopLimitOrderRequest symbol qty side tif l p client_order_id)
    | _, _ => Raise (ValueError "Both limit_price and stop_price are required for stop_limit orders")
    end
  else Raise (ValueError ("Unsupported order type: " +:+ req_order_type order)).

(** [type(reply).__name__] *)
Definition type_name (reply : broker_reply) : string :=
  match reply with
  | OtherObject t => t
  | OrderObject _ => "Order"
  | Position _ => "Position"
  | Orders _ => "list"
  | Clock _ _ => "Clock"
  | NoContent => "NoneType"
  | ApiError _ _ | NetworkError _ | BadData _ => ""
  end.

Definition unexpected_type (reply : broker_reply) (expected : string) : exn :=
  AlpacaClientError ("Unexpected response type from Alpaca API: " +:+ type_name reply +:+ ". Expected " +:+ expected +:+ ".").

(** The [except] clauses of [submit_order] and [replace_order]: their messages, and the
    status codes that mean a rejection. *)
Definition order_of_reply (invalid refused : string) (rejections : list Z) (reply : broker_reply) : result order_dict :=
  match reply with
  | OrderObject o => Ok o
  | ApiError (Some 400) m => Raise (AlpacaValidationError (invalid +:+ m))
  | ApiError code m =>
      if bool_decide (code ∈ Some <$> rejections) then Raise (AlpacaRejectionError (refused +:+ m))
      else Raise (AlpacaConnectionError ("Alpaca API connection error: " +:+ m))
  | NetworkError m => Raise (AlpacaConnectionError ("Network error: " +:+ m))
  | BadData m => Raise (AlpacaValidationError ("Data validation error: " +:+ m))
  | Position _ | Orders _ | Clock _ _ | NoContent | OtherObject _ => Raise (unexpected_type reply "Order object")
  end.

Definition submit_reply : broker_reply -> result order_dict :=
  order_of_reply "Invalid order: " "Order rejected: " [422; 403].

Definition replace_reply : broker_reply -> result order_dict :=
  order_of_reply "Invalid modification: " "Order replacement rejected: " [403; 404; 422].

(** [@retry(stop_after_attempt(3), retry_if_exception_type(AlpacaConnectionError), reraise=True)],
    with [more] attempts allowed after the first. *)
Fixpoint retry_connection {S A} (more : nat) (m : M S A) : M S A := fun s =>
  match m s with
  | (Raise (AlpacaConnectionError e), s') =>
      match more with
      | O => (Raise (AlpacaConnectionError e), s')
      | S more' => retry_connection more' m s'
      end
  | out => out
  end.

Definition RETRIES : nat := 2.

(** One attempt: a request that cannot be built is a data validation error. *)
Definition submit_attempt (env : environment) (order : OrderRequest) (client_order_id : string) : M gw order_dict :=
  match _build_alpaca_request order client_order_id with
  | Ok r => reply ← ask_broker env (Submit r); lift (submit_reply reply)
  | Raise e => raise (AlpacaValidationError ("Data validation error: " +:+ str_exn e))
  end.

Definition submit_order (env : environment) (order : OrderRequest) (client_order_id : string) : M gw order_dict :=
  retry_connection RETRIES (submit_attempt env order client_order_id).

(** The SDK knows [day] and [gtc] for a replacement; another value is dropped. *)
Definition replace_tif (time_in_force : option string) : option string :=
  t ← time_in_force; if one_of t ["day"; "gtc"] then Some t else None.

Definition replace_order (env : environment) (broker_order_id : string) (qty : option Z)
    (limit_price stop_price : option decimal) (time_in_force new_client_order_id : option string) : M gw order_dict :=
  retry_connection RETRIES (
    reply ← ask_broker env (Replace broker_order_id
      {| rp_qty := qty; rp_limit_price := limit_price; rp_stop_price := stop_price;
         rp_time_in_force := replace_tif time_in_force; rp_client_order_id := new_client_order_id |});
    lift (replace_reply reply)).

(** Any answer that is not an API error counts as canceled; a network error is not
    translated and goes through as it is. *)
Definition cancel_reply (reply : broker_reply) : result bool :=
  match reply with
  | ApiError (Some 422) m => Raise (AlpacaRejectionError ("Order cannot be cancelled: " +:+ m))
  | ApiError _ m => Raise (AlpacaConnectionError ("Error cancelling order: " +:+ m))
  | NetworkError m => Raise (HttpxError m)
  | BadData m => Raise (ValueError m)
  | _ => Ok true
  end.

Definition cancel_order (env : environment) (order_id : string) : M gw bool :=
  reply ← ask_broker env (Cancel order_id); lift (cancel_reply reply).

Definition get_open_position (env : environment) (symbol : string) : M gw (option decimal) :=
  reply ← ask_broker env (GetPosition symbol);
  match reply with
  | Position q => mret (Some q)
  | NoContent | ApiError (Some 404) _ => mret None
  | ApiError _ m => raise (AlpacaConnectionError ("Error fetching position: " +:+ m))
  | NetworkError m => raise (HttpxError m)
  | BadData m => raise (ValueError m)
  | _ => raise (unexpected_type reply "Position object")
  end.

(** [get_orders(status="open", symbols=[symbol])]: the pages it reads count as one call. *)
Definition get_open_orders (env : environment) (symbol : string) : M gw (list open_order) :=
  reply ← ask_broker env (GetOpenOrders symbol);
  match reply with
  | Orders l => mret l
  | ApiError _ m => raise (AlpacaConnectionError ("Error fetching orders: " +:+ m))
  | NetworkError m => raise (HttpxError m)
  | BadData m => raise (ValueError m)
  | _ => raise (unexpected_type reply "Order object")
  end.

Definition get_market_clock (env : environment) : M gw (bool * option Z) :=
  reply ← ask_broker env GetClock;
  match reply with
  | Clock is_open next_open => mret (is_open, next_open)
  | ApiError _ m => raise (AlpacaConnectionError ("Error fetching market clock: " +:+ m))
  | NetworkError m => raise (HttpxError m)
  | BadData m => raise (ValueError m)
  | _ => raise (AttributeError "is_open")
  end.

(** ** Environments *)

(** Nothing fails and nobody interferes. *)
Definition quiet (env : environment) : Prop :=
  (forall n, fates env n = Up) /\ (forall n sh, others env n sh = sh).

(** The others do not end the condition [P]. *)
Definition stable (env : environment) (P : shared -> Prop) : Prop := forall n sh, P sh -> P (others env n sh).

Definition broker_error (e : exn) : bool :=
  match e with
  | AlpacaConnectionError _ | AlpacaValidationError _ | AlpacaRejectionError _ | AlpacaClientError _ => true
  | _ => false
  end.

(** Failures of the database and of Redis are not the broker's. *)
Definition infra_faults (env : environment) : Prop :=
  forall n e, fates env n = Down e \/ fates env n = ReplyLost e -> broker_error e = false.

Lemma call_quiet {A} env (m : Z -> M shared A) s :
  quiet env -> call env m s =
  (fst (m (clock env (g_calls s)) (g_shared s)), after_call (snd (m (clock env (g_calls s)) (g_shared s))) s).
Proof.
  intros [Hf Ho]. unfold call. rewrite Hf, Ho. by destruct (m _ _) as [r sh].
Qed.

Lemma zoom_run {S T A} (part : T -> S) put (m : M S A) t :
  zoom part put m t = (fst (m (part t)), put (snd (m (part t))) t).
Proof. unfold zoom. by destruct (m (part t)). Qed.

(** ** What a program sends to the broker *)

(** At most [k] requests, all with [P]. *)
Definition sends {A} (k : nat) (P : broker_request -> Prop) (m : M gw A) : Prop := forall s,
  exists rs, g_sent (snd (m s)) = g_sent s ++ rs /\ (length rs <= k)%nat /\ Forall P rs.

Section sends.
Context (P : broker_request -> Prop).

Lemma sends_pure {A} (r : result A) : sends 0 P (lift r : M gw A).
Proof. intros s. exists []. rewrite app_nil_r. by split_and!. Qed.

Lemma sends_call {A} env (m : Z -> M shared A) : sends 0 P (call env m).
Proof.
  intros s. exists []. rewrite app_nil_r. split_and!; [|done|done].
  unfold call. destruct (fates env (g_calls s)); [by destruct (m _ _)|done|done].
Qed.

Lemma sends_ask env r : P r -> sends 1 P (ask_broker env r).
Proof. intros H s. exists [r]. split_and!; [done|done|by constructor]. Qed.

Lemma sends_bind {A B} k1 k2 (m : M gw A) (f : A -> M gw B) :
  sends k1 P m -> (forall a, sends k2 P (f a)) -> sends (k1 + k2) P (m ≫= f).
Proof.
  intros Hm Hf s. destruct (Hm s) as (rs & E & L & F). unfold mbind, M_bind.
  destruct (m s) as [[a|e] s1]; simpl in E |- *.
  - destruct (Hf a s1) as (rs' & E' & L' & F'). exists (rs ++ rs').
    split; [by rewrite E', E, app_assoc|]. split; [rewrite length_app; lia|by apply Forall_app].
  - exists rs. split; [done|]. split; [lia|done].
Qed.

Lemma sends_weaken {A} k k' (m : M gw A) : (k <= k')%nat -> sends k P m -> sends k' P m.
Proof. intros H Hm s. destruct (Hm s) as (rs & E & L & F). exists rs. split_and!; [done|lia|done]. Qed.

Lemma sends_try {A} k1 k2 (m : M gw A) h :
  sends k1 P m -> (forall e c, h e = Some c -> sends k2 P c) -> sends (k1 + k2) P (try_except m h).
Proof.
  intros Hm Hh s. destruct (Hm s) as (rs & E & L & F). unfold try_except.
  destruct (m s) as [[a|e] s1]; simpl in E |- *; [exists rs; split_and!; [done|lia|done]|].
  destruct (h e) as [c|] eqn:Eh; [|exists rs; split_and!; [done|lia|done]].
  destruct (Hh e c Eh s1) as (rs' & E' & L' & F'). exists (rs ++ rs').
  split; [by rewrite E', E, app_assoc|]. split; [rewrite length_app; lia|by apply Forall_app].
Qed.

Lemma sends_retry {A} n k (m : M gw A) : sends k P m -> sends (S n * k) P (retry_connection n m).
Proof.
  intros Hm. induction n as [|n IH]; intros s; destruct (Hm s) as (rs & E & L & F); simpl;
    destruct (m s) as [[a|[]] s1]; simpl in E; try (exists rs; split_and!; [done|lia|done]).
  destruct (IH s1) as (rs' & E' & L' & F'). exists (rs ++ rs').
  split; [by rewrite E', E, app_assoc|]. split; [rewrite length_app; simpl in L'; lia|by apply Forall_app].
Qed.
End sends.

(** ** Blocked programs: nothing has been sent since [k], and the condition [P] holds *)

Definition held (k : list broker_request) (P : shared -> Prop) (s : gw) : Prop :=
  g_sent s = k /\ P (g_shared s).

(** A call under a stable condition that its own effect keeps: what it returns under the
    condition, or an error of the infrastructure. *)
Lemma ensures_call {A} env (P : shared -> Prop) k (m : Z -> M shared A) (Q : result A -> Prop) :
  infra_faults env -> stable env P ->
  (forall now sh, P sh -> Q (fst (m now sh)) /\ P (snd (m now sh))) ->
  (forall e, broker_error e = false -> Q (Raise e)) ->
  ensures (held k P) (call env m) (fun r s => Q r /\ held k P s).
Proof.
  intros Hf Hs Hm He s [Hk HP]. unfold call. specialize (Hs (g_calls s) _ HP).
  specialize (Hf (g_calls s)). destruct (fates env (g_calls s)) as [|e|e].
  - destruct (Hm (clock env (g_calls s)) _ Hs) as [H1 H2]. destruct (m _ _) as [r sh]. by split.
  - split; [apply He, Hf; by left|by split].
  - split; [apply He, Hf; by right|]. split; [done|]. by apply Hm.
Qed.

(** ** Retried requests, as a function of the broker's answers *)

Section retried.
Context (env : environment) (read : broker_reply -> result order_dict) (q : broker_request).

(** The answer to a request that is sent up to [S more] times. *)
Fixpoint retried (sent : list broker_request) (more : nat) : result order_dict :=
  match read (broker_api env (sent ++ [q])) with
  | Raise (AlpacaConnectionError m) =>
      match more with
      | O => Raise (AlpacaConnectionError m)
      | S more' => retried (sent ++ [q]) more'
      end
  | v => v
  end.

Lemma retried_unfold sent more : retried sent more =
  match read (broker_api env (sent ++ [q])) with
  | Raise (AlpacaConnectionError m) =>
      match more with
      | O => Raise (AlpacaConnectionError m)
      | S more' => retried (sent ++ [q]) more'
      end
  | v => v
  end.
Proof. by destruct more. Qed.

Lemma retried_split n n' : forall sent,
  retried sent (n + S n') =
  match retried sent n with
  | Raise (AlpacaConnectionError _) => retried (sent ++ replicate (S n) q) n'
  | v => v
  end.
Proof.
  induction n as [|n IH]; intros sent; simpl.
  - by destruct (read _) as [o|[]].
  - destruct (read _) as [o|[]]; try done. rewrite IH. simpl. by rewrite <- app_assoc.
Qed.

(** The effect of retried requests when nobody interferes: only requests are sent. *)
Definition asked (k : nat) (s s' : gw) : Prop :=
  g_shared s' = g_shared s /\ g_jobs s' = g_jobs s /\
  exists n, (n <= k)%nat /\ g_sent s' = g_sent s ++ replicate n q.

Lemma retry_run more : quiet env -> forall s,
  exists s', retry_connection more (reply ← ask_broker env q; lift (read reply)) s = (retried (g_sent s) more, s') /\
    asked (S more) s s' /\
    ((exists m, retried (g_sent s) more = Raise (AlpacaConnectionError m)) ->
     g_sent s' = g_sent s ++ replicate (S more) q).
Proof.
  intros [_ Ho]. induction more as [|more IH]; intros s; cbn [retry_connection retried]; rewrite M_bind_run;
    unfold ask_broker, lift; rewrite Ho; set (s1 := {| g_shared := g_shared s |}).
  - exists s1. split; [by destruct (read _) as [o|[]]|]. split; [|done].
    split_and!; [done|done|]. exists 1%nat. by split.
  - assert (Hs1 : asked 1 s s1) by (split_and!; [done|done|exists 1%nat; by split]).
    destruct (read _) as [o|e] eqn:E.
    { exists s1. split; [done|]. split; [|by intros [m Hm]]. destruct Hs1 as (H1 & H2 & n & Hn & H3).
      split_and!; [done|done|exists n; split; [lia|done]]. }
    destruct (IH s1) as (s' & E' & (H1 & H2 & n & Hn & H3) & H4).
    assert (Hs' : asked (S (S more)) s s').
    { split_and!; [by rewrite H1|by rewrite H2|]. exists (S n). split; [lia|]. rewrite H3. simpl. by rewrite <- app_assoc. }
    destruct e; try (exists s1; split; [done|split; [|by intros [m' Hm]]]; destruct Hs1 as (K1 & K2 & n' & Hn' & K3);
      split_and!; [done|done|exists n'; split; [lia|done]]).
    exists s'. split; [exact E'|]. split; [done|]. intros Hm. rewrite (H4 Hm). simpl. by rewrite <- app_assoc.
Qed.

(** The broker's errors are the only ones. *)
Lemma retried_error : (forall reply e, read reply = Raise e -> broker_error e = true) ->
  forall more sent e, retried sent more = Raise e -> broker_error e = true.
Proof.
  intros Hr more. induction more as [|more IH]; intros sent e; rewrite retried_unfold;
    destruct (read _) as [o|e'] eqn:E; try done; pose proof (Hr _ _ E) as He.
  - destruct e'; by intros [= <-].
  - destruct e'; try (by intros [= <-]). apply IH.
Qed.
End retried.

#[global] Arguments retried : simpl never.

(** A submission. *)
Abbreviation verdict env sent r more := (retried env submit_reply (Submit r) sent more).

Lemma submit_order_run env g id r more : quiet env -> _build_alpaca_request g id = Ok r -> forall s,
  exists s', retry_connection more (submit_attempt env g id) s = (verdict env (g_sent s) r more, s') /\
    asked (Submit r) (S more) s s' /\
    ((exists m, verdict env (g_sent s) r more = Raise (AlpacaConnectionError m)) ->
     g_sent s' = g_sent s ++ replicate (S more) (Submit r)).
Proof. intros Hq Hr s. unfold submit_attempt. rewrite Hr. by apply retry_run. Qed.

Lemma order_of_reply_error invalid refused codes reply e :
  order_of_reply invalid refused codes reply = Raise e -> broker_error e = true.
Proof. unfold order_of_reply. repeat case_match; by intros [= <-]. Qed.

(** ** Accounts: what a handler has sent to the broker

    A handler keeps an account when every request it sent is backed by the
    shared state, whatever fails and whatever the others do: an invariant of
    its steps, with the rules that establish it. *)

Module Accounts.
Lemma preserves_retry {S A} (P : S -> Prop) (m : M S A) n : preserves P m -> preserves P (retry_connection n m).
Proof.
  intros Hm. induction n as [|n IH]; intros s H; specialize (Hm s H); simpl; destruct (m s) as [[a|[]] s1]; try done.
  by apply IH.
Qed.

(** The rules of a program's steps; [call_step] is the one for calls. *)
Ltac accounts_with call_step :=
  repeat first
    [ apply preserves_ret | apply preserves_raise | apply preserves_lift
    | call_step tt
    | apply preserves_bind; [|intros ?]
    | apply preserves_try; [|intros ? ? ?; repeat case_match; simplify_eq]
    | case_match ].

(** Since [k], every request sent is [backed]. *)
Definition accounted (k : list broker_request) (backed : broker_request -> shared -> Prop) (s : gw) : Prop :=
  exists rs, g_sent s = k ++ rs /\ forall r, r ∈ rs -> backed r (g_shared s).

(** And [C] holds now. *)
Definition covered (C : shared -> Prop) (k : list broker_request) (backed : broker_request -> shared -> Prop) (s : gw) : Prop :=
  C (g_shared s) /\ accounted k backed s.

Section accounts.
Context (env : environment) (k : list broker_request) (backed : broker_request -> shared -> Prop).
Hypothesis Hs : forall r, stable env (backed r).

(** A step of the shared state that ends no backing. *)
Definition keeps {A} (m : M shared A) : Prop := forall r, preserves (backed r) m.

Lemma accounted_start s : k = g_sent s -> accounted k backed s.
Proof. intros ->. exists []. split; [by rewrite app_nil_r|]. by intros r Hr%elem_of_nil. Qed.

Lemma accounted_mono s sh n : accounted k backed s -> (forall r, backed r (g_shared s) -> backed r sh) ->
  accounted k backed {| g_shared := sh; g_jobs := g_jobs s; g_sent := g_sent s; g_calls := n |}.
Proof. intros (rs & E & H) Hsh. exists rs. split; [done|]. intros r Hr. by apply Hsh, H. Qed.

Lemma accounted_local {A} (m : Z -> M shared A) : (forall now, keeps (m now)) -> preserves (accounted k backed) (local env m).
Proof.
  intros Hm s H. unfold local.
  pose proof (fun r => Hm (clock env (g_calls s)) r (others env (g_calls s) (g_shared s))) as Hm'.
  destruct (m _ _) as [x sh]. apply accounted_mono; [done|]. intros r Hr. by apply (Hm' r), Hs.
Qed.

Lemma accounted_call {A} (m : Z -> M shared A) : (forall now, keeps (m now)) -> preserves (accounted k backed) (call env m).
Proof.
  intros Hm s H. unfold call. destruct (fates env (g_calls s)).
  - pose proof (accounted_local m Hm s H) as Hl. unfold local in Hl. exact Hl.
  - apply accounted_mono; [done|]. intros r. apply Hs.
  - apply accounted_mono; [done|]. intros r Hr. by apply Hm, Hs.
Qed.

Lemma accounted_ask r : (forall sh, backed r sh) -> preserves (accounted k backed) (ask_broker env r).
Proof.
  intros Hr s (rs & E & H). exists (rs ++ [r]). simpl. rewrite E, app_assoc. split; [done|].
  intros q [Hq|Hq]%elem_of_app; [by apply Hs, H|]. apply list_elem_of_singleton in Hq as ->. apply Hr.
Qed.

Section covered.
Context (C : shared -> Prop).
Hypothesis HC : stable env C.

Lemma covered_call {A} (m : Z -> M shared A) : (forall now, keeps (m now)) -> (forall now, preserves C (m now)) ->
  preserves (covered C k backed) (call env m).
Proof.
  intros Hm Hm' s [Hc H]. split; [|by apply accounted_call]. specialize (HC (g_calls s) _ Hc). unfold call.
  destruct (fates env (g_calls s)); [|exact HC|by apply Hm'].
  pose proof (Hm' (clock env (g_calls s)) _ HC) as Hc'. by destruct (m _ _).
Qed.

Lemma covered_local {A} (m : Z -> M shared A) : (forall now, keeps (m now)) -> (forall now, preserves C (m now)) ->
  preserves (covered C k backed) (local env m).
Proof.
  intros Hm Hm' s [Hc H]. split; [|by apply accounted_local]. unfold local.
  pose proof (Hm' (clock env (g_calls s)) _ (HC (g_calls s) _ Hc)) as Hc'. by destruct (m _ _).
Qed.

Lemma covered_ask r : (forall sh, C sh -> backed r sh) -> preserves (covered C k backed) (ask_broker env r).
Proof.
  intros Hr s [Hc (rs & E & H)]. specialize (HC (g_calls s) _ Hc). split; [exact HC|].
  exists (rs ++ [r]). simpl. rewrite E, app_assoc. split; [done|].
  intros q [Hq|Hq]%elem_of_app; [by apply Hs, H|]. apply list_elem_of_singleton in Hq as ->. by apply Hr.
Qed.
End covered.
End accounts.
End Accounts.
