(* ===== verification/Access.v ===== *)
(** * Who may touch an order (libs/platform/web_console_auth/permissions.py, routes/orders.py)

    The endpoints that read, cancel or modify an order check that its strategy
    is one of the user's.  A value of the user's strategy list that is not a
    string is [None]; a list that is not a list is [None]. *)

From S2P Require Import Prelude PyText.
Open Scope Z_scope.

Record AuthenticatedUser := {
  user_id : string;
  user_strategies : option (list (option string))
}.

Record AuthContext := {
  auth_user : option AuthenticatedUser;
  auth_type : string;
  is_authenticated : bool
}.

(** [s.strip()] *)
Definition strip (s : string) : string := of_chars (rev (skip_spaces (rev (skip_spaces (chars s))))).

(** One value of the list: seen strings, in the order of their first occurrence. *)
Definition add_strategy (seen : list string) (x : option string) : list string :=
  match x with
  | None => seen
  | Some s =>
      let s := strip s in
      if bool_decide (s = "") || bool_decide (s ∈ seen) then seen else seen ++ [s]
  end.

Definition get_authorized_strategies (user : option AuthenticatedUser) : list string :=
  match user with
  | None => []
  | Some u => match user_strategies u with None => [] | Some l => foldl add_strategy [] l end
  end.

Definition not_authorized : exn := HTTPException 403 "Not authorized".

Definition _ensure_strategy_access (strategy_id : string) (auth : AuthContext) : result unit :=
  if bool_decide (auth_type auth = "internal_token") then Ok tt
  else if negb (is_authenticated auth) then Ok tt
  else
    let authorized_strategies := lower <$> get_authorized_strategies (auth_user auth) in
    if negb (bool_decide (lower strategy_id ∈ authorized_strategies)) then Raise not_authorized
    else Ok tt.

(** [_extract_user_id_from_auth] *)
Definition _extract_user_id_from_auth (user : option AuthenticatedUser) : string :=
  match user with None => "unknown" | Some u => user_id u end.

(** ** What the check lets through *)

(** The strategy is on the user's list, up to case and surrounding spaces. *)
Definition lists_strategy (user : option AuthenticatedUser) (strategy_id : string) : Prop :=
  exists u l s, user = Some u /\ user_strategies u = Some l /\ Some s ∈ l /\ strip s <> "" /\
    lower (strip s) = lower strategy_id.

Lemma add_strategies l : forall seen, NoDup seen -> NoDup (foldl add_strategy seen l) /\
  forall x, x ∈ foldl add_strategy seen l <-> x ∈ seen \/ exists s, Some s ∈ l /\ strip s <> "" /\ strip s = x.
Proof.
  induction l as [|y l IH]; intros seen Hn; simpl.
  { split; [done|]. intros x. split; [by left|]. intros [H|(s & H%elem_of_nil & _)]; done. }
  assert (Hstep : NoDup (add_strategy seen y) /\ forall x, x ∈ add_strategy seen y <->
    x ∈ seen \/ exists s, y = Some s /\ strip s <> "" /\ strip s = x).
  { destruct y as [s|]; simpl; [|split; [done|]; intros x; naive_solver].
    destruct (decide (strip s = "")) as [E|E]; [rewrite bool_decide_true by done; split; [done|naive_solver]|].
    rewrite bool_decide_false by done. simpl. case_bool_decide as Hs; [split; [done|naive_solver]|].
    split; [apply NoDup_app; split_and!; [done| |apply NoDup_singleton]; set_solver|].
    intros x. rewrite elem_of_app, list_elem_of_singleton. naive_solver. }
  destruct Hstep as [H1 H2]. destruct (IH _ H1) as [H3 H4]. split; [exact H3|]. intros x.
  rewrite H4, H2. setoid_rewrite elem_of_cons. naive_solver.
Qed.

(** Access is granted exactly to internal services, to callers that are not authenticated (which the
    enforcement of authentication lets through only in its log-only mode), and to users on whose list
    the strategy is. *)
Theorem access_granted_iff strategy_id auth :
  _ensure_strategy_access strategy_id auth = Ok tt <->
  auth_type auth = "internal_token" \/ is_authenticated auth = false \/ lists_strategy (auth_user auth) strategy_id.
Proof.
  unfold _ensure_strategy_access. case_bool_decide as Ht; [naive_solver|].
  destruct (is_authenticated auth); cbn [negb]; [|naive_solver].
  assert (Hl : lower strategy_id ∈ lower <$> get_authorized_strategies (auth_user auth) <->
    lists_strategy (auth_user auth) strategy_id).
  { unfold lists_strategy, get_authorized_strategies. destruct (auth_user auth) as [u|];
      [|split; [by intros H%elem_of_nil|by intros (u & l & s & ? & _)]].
    destruct (user_strategies u) as [l|] eqn:El;
      [|split; [by intros H%elem_of_nil|intros (u' & l & s & [= <-] & E & _); congruence]].
    rewrite list_elem_of_fmap. destruct (add_strategies l [] (NoDup_nil_2)) as [_ H].
    setoid_rewrite H. setoid_rewrite elem_of_nil. split.
    - intros (x & Hx & [[]|(s & H1 & H2 & H3)]). exists u, l, s. subst x. by split_and!.
    - intros (u' & l' & s & [= <-] & E & H1 & H2 & H3). rewrite El in E. injection E as <-.
      exists (strip s). split; [done|]. right. by exists s. }
  rewrite <- Hl. case_bool_decide; simpl; naive_solver.
Qed.
