(* ===== verification/PriceFeed.v ===== *)
(** * Prices for the fat-finger check (services/order_helpers.py, libs/data/market_data/types.py)

    The price and the average daily volume an order is checked against.  A
    market order takes the mid price that the market-data service cached in
    Redis as JSON; the decoder of the JSON text is an argument.  Times are
    microseconds. *)

From S2P Require Import Prelude PyDecimal PyText OrderSchema RedisClient Gateway.
From S2P Require Webhook Liquidity FatFinger.
Open Scope Z_scope.

(** A timestamp of the payload: missing, not a time, or a time. *)
Inductive ts_field := TsAbsent | TsBad | Ts (t : Z).

(** The fields read of a JSON object; the symbol is [None] when it is missing or not a string. *)
Record price_data := {
  pd_symbol : option string;
  pd_timestamp : ts_field;
  pd_mid : Webhook.num_field
}.

Record ParsedPrice := { mid : decimal; timestamp : Z }.

Definition price_key (symbol : string) : string := "price:" +:+ symbol.

(** The clock may run five seconds behind the publisher's. *)
Definition MAX_FUTURE_SECONDS : Z := 5.

Definition too_old (max_price_age_seconds : option Z) (age : Z) : bool :=
  match max_price_age_seconds with Some m => m * second_us <? age | None => false end.

Section feed.
(** [json.loads], [None] when the text is not a JSON object. *)
Context (json_loads : string -> option price_data).

Definition parse_redis_price_json (now : Z) (raw expected_symbol : string) (max_price_age_seconds : option Z)
    : option ParsedPrice :=
  match json_loads raw with
  | None => None
  | Some price_data =>
      if negb (bool_decide (pd_symbol price_data = Some expected_symbol)) then None
      else
        match pd_timestamp price_data with
        | TsAbsent | TsBad => None
        | Ts price_ts =>
            let age := now - price_ts in
            if age <? - (MAX_FUTURE_SECONDS * second_us) then None
            else if too_old max_price_age_seconds age then None
            else
              match pd_mid price_data with
              | Webhook.Num m => if dleb m dzero then None else Some {| mid := m; timestamp := price_ts |}
              | _ => None
              end
        end
  end.

Definition fromkeys (symbols : list string) : gmap string (option ParsedPrice) :=
  list_to_map ((fun symbol => (symbol, None)) <$> symbols).

Definition store_price (now : Z) (result : gmap string (option ParsedPrice)) (x : string * option string)
    : gmap string (option ParsedPrice) :=
  match x.2 with
  | None | Some "" => result
  | Some price_json =>
      match parse_redis_price_json now price_json x.1 None with
      | Some parsed => <[x.1 := Some parsed]> result
      | None => result
      end
  end.

Definition batch_fetch_realtime_prices_from_redis (redis_client : option network) (now : Z) (symbols : list string)
    : M redis_state (gmap string (option ParsedPrice)) :=
  match redis_client, symbols with
  | None, _ | _, [] => mret (fromkeys symbols)
  | Some net, _ =>
      try_except
        (price_values ← mget net now (price_key <$> symbols);
         mret (foldl (store_price now) (fromkeys symbols) (zip symbols price_values)))
        (fun e => match e with RedisError => Some (mret (fromkeys symbols)) | _ => None end)
  end.

(** Lines 203-242: the price, when a notional limit asks for one. *)
Definition resolve_price (env : environment) (redis_client : bool) (max_price_age_seconds : Z) (order : OrderRequest)
    (thresholds : FatFinger.FatFingerThresholds) : M gw (option decimal) :=
  match FatFinger.max_notional thresholds with
  | None => mret None
  | Some _ =>
      match req_limit_price order, req_stop_price order with
      | Some p, _ => mret (Some p)
      | None, Some p => mret (Some p)
      | None, None =>
          realtime_prices ← local env (fun now => in_redis (batch_fetch_realtime_prices_from_redis
            (if redis_client then Some (redis_net env) else None) now [req_symbol order]));
          match default None (realtime_prices !! req_symbol order) with
          | None => mret None
          | Some p =>
              now ← read_clock env;
              if max_price_age_seconds * second_us <? now - timestamp p then mret None else mret (Some (mid p))
          end
      end
  end.

(** Lines 244-246 *)
Definition resolve_adv (env : environment) (liquidity_service : option Liquidity.LiquidityService) (order : OrderRequest)
    (thresholds : FatFinger.FatFingerThresholds) : M gw (option Z) :=
  match FatFinger.max_adv_pct thresholds, liquidity_service with
  | Some _, Some ls => fun s =>
      local env (fun now => in_adv (Liquidity.get_adv ls now (bars_api env (g_calls s)) (req_symbol order))) s
  | _, _ => mret None
  end.

Definition resolve_fat_finger_context (env : environment) (redis_client : bool)
    (liquidity_service : option Liquidity.LiquidityService) (max_price_age_seconds : Z) (order : OrderRequest)
    (thresholds : FatFinger.FatFingerThresholds) : M gw (option decimal * option Z) :=
  price ← resolve_price env redis_client max_price_age_seconds order thresholds;
  adv ← resolve_adv env liquidity_service order thresholds;
  mret (price, adv).

(** ** What a price is worth *)

Lemma parsed_price now raw symbol m p : parse_redis_price_json now raw symbol m = Some p ->
  exists d, json_loads raw = Some d /\ pd_symbol d = Some symbol /\ pd_timestamp d = Ts (timestamp p) /\
    pd_mid d = Webhook.Num (mid p) /\ dleb (mid p) dzero = false /\
    timestamp p <= now + MAX_FUTURE_SECONDS * second_us.
Proof.
  unfold parse_redis_price_json. destruct (json_loads raw) as [d|]; [|done]. intros H. exists d.
  destruct (bool_decide _) eqn:Es; [|done]. apply bool_decide_eq_true in Es.
  destruct (pd_timestamp d) as [| |t]; [done..|]. destruct (Z.ltb_spec (now - t) (- (MAX_FUTURE_SECONDS * second_us))); [done|].
  destruct (too_old m _); [done|].
  destruct (pd_mid d) as [| | |v]; try done. destruct (dleb v dzero) eqn:Ev; [done|].
  cbn [negb] in H. injection H as <-. simpl. split_and!; try done. unfold second_us in *. lia.
Qed.

Lemma fromkeys_one symbol : fromkeys [symbol] !! symbol = Some None.
Proof. unfold fromkeys. simpl. by rewrite lookup_insert_eq. Qed.

(** The price of the batch for one symbol. *)
Lemma batch_one net now symbol r p r' prices :
  batch_fetch_realtime_prices_from_redis (Some net) now [symbol] r = (Ok prices, r') ->
  prices !! symbol = Some (Some p) ->
  exists raw, lookup_live now (price_key symbol) (rs_keys r) = Some raw /\
    parse_redis_price_json now raw symbol None = Some p.
Proof.
  pose proof (fromkeys_one symbol) as Hnone.
  unfold batch_fetch_realtime_prices_from_redis, try_except. rewrite M_bind_run. unfold mget. cbn [fmap list_fmap].
  pose proof (attempts_repeatable _ net MAX_ATTEMPTS
    (read_repeatable (fun k => (fun key => lookup_live now key k) <$> [price_key symbol])) r) as Ha.
  unfold with_retry. cbn [fmap list_fmap] in Ha.
  destruct (attempts net MAX_ATTEMPTS _ r) as [[values|e] r1].
  - destruct Ha as [-> _]. simpl. intros [= <- _]. unfold store_price. simpl.
    destruct (lookup_live now (price_key symbol) (rs_keys r)) as [[|c raw]|]; try (by rewrite Hnone).
    destruct (parse_redis_price_json now _ symbol None) as [p'|] eqn:Ep; [|by rewrite Hnone].
    rewrite lookup_insert_eq. intros [= ->]. by eexists.
  - destruct e; try done. intros [= <- _]. by rewrite Hnone.
Qed.

(** The price an order is checked against is its own limit or stop price, or a positive mid price that
    Redis has for its symbol now, at most the configured age old and at most five seconds ahead. *)
Theorem price_is_own_or_fresh env redis_client ls max_age order t p adv s s' :
  resolve_fat_finger_context env redis_client ls max_age order t s = (Ok (Some p, adv), s') ->
  req_limit_price order = Some p \/ (req_limit_price order = None /\ req_stop_price order = Some p) \/
  exists raw d price_ts, redis_client = true /\
    lookup_live (clock env (g_calls s)) (price_key (req_symbol order))
      (rs_keys (sh_redis (others env (g_calls s) (g_shared s)))) = Some raw /\
    json_loads raw = Some d /\ pd_symbol d = Some (req_symbol order) /\ pd_mid d = Webhook.Num p /\
    dleb p dzero = false /\ pd_timestamp d = Ts price_ts /\
    price_ts <= clock env (g_calls s) + MAX_FUTURE_SECONDS * second_us /\
    clock env (S (g_calls s)) - price_ts <= max_age * second_us.
Proof.
  unfold resolve_fat_finger_context. rewrite M_bind_run. intros H.
  destruct (resolve_price env redis_client max_age order t s) as [[price|e] s1] eqn:Ep; [|done].
  assert (price = Some p) as ->.
  { rewrite M_bind_run in H. destruct (resolve_adv env ls order t s1) as [[a|e] s2] eqn:Ea; [by injection H|done]. }
  clear H. unfold resolve_price in Ep. destruct (FatFinger.max_notional t) as [limit|]; [|done].
  destruct (req_limit_price order) as [lp|] eqn:El; [injection Ep as -> _; by left|].
  destruct (req_stop_price order) as [sp|] eqn:Esp; [injection Ep as -> _; right; by left|].
  right. right. rewrite M_bind_run in Ep. unfold local, in_redis in Ep. rewrite zoom_run in Ep.
  set (sh := others env (g_calls s) (g_shared s)) in *.
  destruct redis_client; [|by simpl in Ep; rewrite fromkeys_one in Ep].
  destruct (batch_fetch_realtime_prices_from_redis _ _ _ (sh_redis sh)) as [[prices|e] r'] eqn:Eb; [|done].
  simpl in Ep. destruct (prices !! req_symbol order) as [[q|]|] eqn:Eq; simpl in Ep; [|done..].
  destruct (batch_one _ _ _ _ _ _ _ Eb Eq) as (raw & Hraw & Hp).
  destruct (parsed_price _ _ _ _ _ Hp) as (d & H1 & H2 & H3 & H4 & H5 & H6).
  run_monad. unfold read_clock in Ep. simpl in Ep.
  destruct (Z.ltb_spec (max_age * second_us) (clock env (S (g_calls s)) - timestamp q)); [done|].
  injection Ep as <- _. exists raw, d, (timestamp q). by split_and!.
Qed.
End feed.
