(* ===== verification/SliceExec.v ===== *)
(** * Execution of TWAP slices (apps/execution_gateway/slice_scheduler.py)

    The job of a slice: the guards before the submission, the submission with its
    retries, and the status written for every outcome.  The order's row, the kill
    switch and the circuit breaker are shared with the other workers; [executor] is
    false in a dry run.  [time.sleep] and the waits of the retries are not modelled. *)

From S2P Require Import Prelude PyDecimal PyText OrderStatus OrderSchema Twap GatewayDb OrderCas RedisClient.
From S2P Require Import PyDict Gateway.
From S2P Require KillSwitch Breaker RiskChecker Liquidity Recovery FatFinger.
Open Scope Z_scope.


(** The arguments of the scheduler's calls of [update_order_status_cas]. *)
Definition manual_update (now : Z) (status : string) (broker_order_id error_message : option string) : cas_update := {|
  u_status := status; u_broker_updated_at := now; u_status_rank := status_rank_for status;
  u_source_priority := SOURCE_PRIORITY_MANUAL; u_filled_qty := None; u_filled_avg_price := None;
  u_filled_at := None; u_broker_order_id := broker_order_id; u_broker_event_id := None;
  u_error_message := error_message |}.

Definition mark (env : environment) (id status : string) (broker_order_id error_message : option string)
    : M gw (option order_row) :=
  call env (fun now => in_db (update_order_status_cas now id (manual_update now status broker_order_id error_message))).

Definition job_id_of (j : slice_job) : string := sd_client_order_id (job_slice j).

(** [current_order and current_order.status == "canceled"] *)
Definition is_canceled (o : option order_row) : bool :=
  match o with Some r => bool_decide (o_status (o_exec r) = "canceled") | None => false end.

(** [except (psycopg.OperationalError, psycopg.DatabaseError, redis ConnectionError, RedisError)] *)
Definition infra_error (e : exn) : bool :=
  match e with
  | OperationalError _ | IntegrityError _ | ProgrammingError _ | RedisError => true
  | _ => false
  end.

(** The [except] clause around the checks: the slice is marked failed (another failure
    of the infrastructure is logged), and the first error is raised again. *)
Definition fail_on_infra {A} (env : environment) (id label : string) (m : M gw A) : M gw A :=
  try_except m (fun infra_error_1 =>
    if infra_error infra_error_1 then Some (
      _ ← try_except (_ ← mark env id "failed" None (Some ("Infrastructure failure " +:+ label +:+ str_exn infra_error_1));
                      mret tt)
            (fun db_error => if infra_error db_error then Some (mret tt) else None);
      raise infra_error_1)
    else None).

(** Lines 798-861: [false] when the slice must not be submitted. *)
Definition pre_checks (env : environment) (j : slice_job) : M gw bool :=
  current_order ← call env (fun _ => in_db (get_order_by_client_id (job_id_of j)));
  if is_canceled current_order then mret false else
  engaged ← call env (fun _ => in_kill KillSwitch.is_engaged);
  if engaged : bool then
    _ ← mark env (job_id_of j) "blocked_kill_switch" None (Some "Kill switch is engaged - all new orders blocked");
    mret false
  else
    tripped ← call env (fun _ => in_breaker Breaker.is_tripped);
    if tripped : bool then
      reason ← call env (fun _ => in_breaker Breaker.get_trip_reason);
      _ ← mark env (job_id_of j) "blocked_circuit_breaker" None
            (Some ("Circuit breaker is tripped - reason: " +:+ default "None" reason));
      mret false
    else mret true.

(** Lines 927-940: the order may have been canceled since. *)
Definition pre_submit_guard (env : environment) (j : slice_job) : M gw bool :=
  current_order ← call env (fun _ => in_db (get_order_by_client_id (job_id_of j)));
  mret (negb (is_canceled current_order)).

Definition slice_request (now : Z) (j : slice_job) : result OrderRequest :=
  mk_order_request now {|
    req_symbol := job_symbol j; req_side := job_side j; req_qty := sd_qty (job_slice j);
    req_order_type := job_order_type j; req_limit_price := job_limit_price j;
    req_stop_price := job_stop_price j; req_time_in_force := job_time_in_force j;
    req_execution_style := "instant"; req_twap_duration_minutes := None;
    req_twap_interval_seconds := None; req_start_time := None; req_client_order_id := None |}.

(** Lines 1023-1133: the status is written up to [S left] times; when all fail, once more as
    submitted_unconfirmed, and the error of that last write is raised. *)
Fixpoint record_submission (env : environment) (id broker_order_id : string) (left : nat) : M gw unit :=
  try_except (_ ← mark env id "submitted" (Some broker_order_id) (Some ""); mret tt) (fun db_error => Some (
    match left with
    | O => _ ← mark env id "submitted_unconfirmed" (Some broker_order_id)
                 (Some ("DB update failed after broker submission: " +:+ str_exn db_error));
           mret tt
    | S left' => record_submission env id broker_order_id left'
    end)).

Definition MAX_DB_RETRIES : nat := 3.

(** Lines 988-1173 *)
Definition submit_slice (env : environment) (executor : bool) (j : slice_job) (order_request : OrderRequest)
    : M gw unit :=
  let id := job_id_of j in
  try_except
    (if executor then
       broker_response ← submit_order env order_request id;
       record_submission env id (od_id broker_response) (pred MAX_DB_RETRIES)
     else _ ← mark env id "dry_run" None None; mret tt)
    (fun e =>
       match e with
       | AlpacaValidationError m | AlpacaRejectionError m => Some (_ ← mark env id "rejected" None (Some m); mret tt)
       | _ => None
       end).

(** One attempt of [_execute_slice]. *)
Definition execute_slice_attempt (env : environment) (executor : bool) (j : slice_job) : M gw unit :=
  go ← fail_on_infra env (job_id_of j) "during pre-submission checks: " (pre_checks env j);
  if negb go then mret tt else
  order_request ← (fun s => (slice_request (clock env (g_calls s)) j, s) : result OrderRequest * gw);
  go ← fail_on_infra env (job_id_of j) "at pre-submit guard: " (pre_submit_guard env j);
  if negb go then mret tt else submit_slice env executor j order_request.

Definition _execute_slice (env : environment) (executor : bool) (j : slice_job) : M gw unit :=
  retry_connection RETRIES (execute_slice_attempt env executor j).

Definition _execute_slice_job_wrapper (env : environment) (executor : bool) (j : slice_job) : M gw unit :=
  try_except (_execute_slice env executor j) (fun e =>
    match e with
    | AlpacaConnectionError m =>
        Some (_ ← mark env (job_id_of j) "failed" None (Some ("Retry exhausted: " +:+ m)); mret tt)
    | _ => None
    end).

(** ** Reads *)

Lemma in_db_read {A} (f : db -> A) sh : in_db (reads f) sh = (Ok (f (sh_db sh)), sh).
Proof. by destruct sh. Qed.

Lemma in_kill_read sh : in_kill KillSwitch.is_engaged sh = (fst (KillSwitch.is_engaged (sh_kill sh)), sh).
Proof.
  unfold in_kill. rewrite zoom_run, RiskChecker.kill_switch_reads. by destruct sh.
Qed.

Lemma in_breaker_read sh : in_breaker Breaker.is_tripped sh = (fst (Breaker.is_tripped (sh_breaker sh)), sh).
Proof.
  unfold in_breaker. rewrite zoom_run, RiskChecker.breaker_reads. by destruct sh.
Qed.

Lemma in_breaker_reason sh :
  in_breaker Breaker.get_trip_reason sh = (fst (Breaker.get_trip_reason (sh_breaker sh)), sh).
Proof. by destruct sh. Qed.

(** Neither switch raises one of the broker's errors. *)
Lemma is_engaged_error s e : fst (KillSwitch.is_engaged s) = Raise e -> broker_error e = false.
Proof.
  unfold KillSwitch.is_engaged, KillSwitch.get_state, mbind, M_bind, reads, lift, raise.
  destruct (KillSwitch.state_key s) as [d|]; [|by intros [= <-]].
  unfold KillSwitch.ks_parse. repeat case_decide; simpl; by try intros [= <-].
Qed.

Lemma is_tripped_error s e : fst (Breaker.is_tripped s) = Raise e -> broker_error e = false.
Proof.
  unfold Breaker.is_tripped, Breaker.get_state, mbind, M_bind, reads, lift, raise, mret, M_ret.
  destruct (Breaker.state_key s) as [d|]; [|by intros [= <-]].
  case_decide; [done|]. unfold Breaker.cb_parse. repeat case_decide; simpl; by try intros [= <-].
Qed.

(** ** A blocked slice *)

Inductive block := CanceledRow | KillSwitchOn | BreakerOn.

(** What stops the slice [id]: its row is canceled, or a safety switch is on or its state is lost. *)
Definition blocked (b : block) (id : string) (sh : shared) : Prop :=
  match b with
  | CanceledRow => is_canceled (db_orders (sh_db sh) !! id) = true
  | KillSwitchOn => fst (KillSwitch.is_engaged (sh_kill sh)) <> Ok false
  | BreakerOn => fst (Breaker.is_tripped (sh_breaker sh)) <> Ok false
  end.

Definition no_broker_error {A} (r : result A) : Prop := forall e, r = Raise e -> broker_error e = false.

(** Nothing sent since [k]. *)
Definition unsent (k : list broker_request) : gw -> Prop := held k (fun _ => True).

Lemma mark_unsent env id st b m k :
  infra_faults env -> ensures (unsent k) (mark env id st b m) (fun r s => no_broker_error r /\ unsent k s).
Proof.
  intros Hf. apply ensures_call; [done|done| |by intros e He e' [= <-]].
  intros now sh _. split; [|done]. unfold in_db. rewrite zoom_run. simpl. intros e.
  unfold update_order_status_cas, update_order. run_monad. repeat (case_match; simplify_eq/=; try done).
  by intros [= <-].
Qed.

Lemma mark_then_unsent {A} env id st b m k (f : option order_row -> M gw A) :
  infra_faults env -> (forall o, ensures (unsent k) (f o) (fun r s => no_broker_error r /\ unsent k s)) ->
  ensures (unsent k) (o ← mark env id st b m; f o) (fun r s => no_broker_error r /\ unsent k s).
Proof.
  intros Hf H. eapply ensures_bind; [|exact H]. intros s Hs. simpl.
  destruct (mark_unsent env id st b m k Hf s Hs) as [H1 H2].
  destruct (mark env id st b m s) as [[o|e] s']; simpl in *; [done|]. split; [|done].
  intros e' [= <-]. by apply H1.
Qed.

Lemma ret_unsent {A} k (a : A) : ensures (unsent k) (mret a) (fun r s => no_broker_error r /\ unsent k s).
Proof. intros s Hs. by split. Qed.

Lemma held_unsent k P s : held k P s -> unsent k s.
Proof. intros [H _]. by split. Qed.

(** The program did not say [go], raised nothing of the broker's and sent nothing. *)
Definition stopped {A} (go : A) (k : list broker_request) (r : result A) (s : gw) : Prop :=
  r <> Ok go /\ no_broker_error r /\ unsent k s.

(** A read under a stable condition gives what some state with the condition holds. *)
Lemma read_step {A B} env (P : shared -> Prop) k (m : M shared A) (f : shared -> result A) (g : A -> M gw B) go :
  infra_faults env -> stable env P -> (forall sh, m sh = (f sh, sh)) -> (forall sh, no_broker_error (f sh)) ->
  (forall a sh, P sh -> f sh = Ok a -> ensures (held k P) (g a) (stopped go k)) ->
  ensures (held k P) (a ← call env (fun _ => m); g a) (stopped go k).
Proof.
  intros Hf Hs Hm He Hg s Hk.
  destruct (ensures_call env P k (fun _ => m) (fun r => no_broker_error r /\
    forall a, r = Ok a -> exists sh, P sh /\ f sh = Ok a) Hf Hs) with (s := s) as [[H1 H2] H3]; [| |exact Hk|].
  - intros _ sh HP. rewrite Hm. split; [|done]. split; [apply He|]. intros a Ha. by exists sh.
  - intros e Hb. split; [by intros e' [= <-]|done].
  - unfold mbind, M_bind. destruct (call env (fun _ => m) s) as [[a|e] s']; simpl in *.
    + destruct (H2 a eq_refl) as (sh & HP & E). by apply (Hg a sh).
    + split; [done|]. split; [by intros e' [= <-]; apply H1|by eapply held_unsent].
Qed.

Lemma mark_stops {A} env id st b m k (go d : A) P :
  infra_faults env -> d <> go -> ensures (held k P) (_ ← mark env id st b m; mret d) (stopped go k).
Proof.
  intros Hf Hd s Hs.
  pose proof (mark_then_unsent env id st b m k (fun _ => mret d) Hf (fun _ => ret_unsent k d) s (held_unsent _ _ _ Hs)) as [H1 H2].
  split; [|by split]. intros E. revert E. unfold mbind, M_bind. destruct (mark _ _ _ _ _ s) as [[o|e] s']; simpl; congruence.
Qed.

Lemma ret_stops {A} k (go d : A) P : d <> go -> ensures (held k P) (mret d) (stopped go k).
Proof. intros Hd s Hs. split; [intros [= E]; done|]. split; [done|by eapply held_unsent]. Qed.

Lemma pre_checks_blocked env b j k :
  infra_faults env -> stable env (blocked b (job_id_of j)) ->
  ensures (held k (blocked b (job_id_of j))) (pre_checks env j) (stopped true k).
Proof.
  intros Hf Hs. unfold pre_checks, get_order_by_client_id. apply (read_step env _ k _ _ _ _ Hf Hs (fun sh => in_db_read _ sh)); [done|].
  intros o sh HP [= <-]. destruct (is_canceled _) eqn:Eo; [by apply ret_stops|].
  apply (read_step env _ k _ _ _ _ Hf Hs in_kill_read); [intros sh' e; apply is_engaged_error|].
  intros [|] sh' HP' Ek; [by apply mark_stops|].
  apply (read_step env _ k _ _ _ _ Hf Hs in_breaker_read); [intros sh2 e; apply is_tripped_error|].
  intros [|] sh2 HP2 Eb.
  - apply (read_step env _ k _ _ _ _ Hf Hs in_breaker_reason); [done|]. intros r sh3 _ _. by apply mark_stops.
  - exfalso. destruct b; simpl in *; congruence.
Qed.

Lemma try_unsent {A} k (m : M gw A) h s :
  no_broker_error (fst (m s)) /\ unsent k (snd (m s)) ->
  (forall e c, h e = Some c -> ensures (unsent k) c (fun r s => no_broker_error r /\ unsent k s)) ->
  no_broker_error (fst (try_except m h s)) /\ unsent k (snd (try_except m h s)).
Proof.
  intros Hm Hh. unfold try_except. destruct (m s) as [[a|e] s1]; simpl in *; [done|].
  destruct (h e) as [c|] eqn:E; [|done]. by apply (Hh e c E), Hm.
Qed.

Lemma fail_on_infra_stops {A} env id label (m : M gw A) k (go : A) s :
  infra_faults env -> stopped go k (fst (m s)) (snd (m s)) ->
  stopped go k (fst (fail_on_infra env id label m s)) (snd (fail_on_infra env id label m s)).
Proof.
  intros Hf (Hg & He & Hk). split.
  - unfold fail_on_infra, try_except at 1. destruct (m s) as [[a|e] s1]; [done|]. destruct (infra_error e); [|done].
    rewrite M_bind_run. by destruct (try_except _ _ s1) as [[[]|e'] s2].
  - assert (Hb : forall e s', m s = (Raise e, s') -> broker_error e = false) by (intros e s' E; apply He; by rewrite E).
    unfold fail_on_infra, try_except at 1 3. destruct (m s) as [[a|e] s1]; [by split|]. specialize (Hb e s1 eq_refl).
    destruct (infra_error e); [|by split]. rewrite !M_bind_run.
    match goal with |- context [try_except ?m' ?h' s1] => pose proof (try_unsent k m' h' s1) as [H1 H2] end.
    + by apply (mark_then_unsent env id "failed" None _ k (fun _ => mret tt) Hf (fun _ => ret_unsent k tt)).
    + intros e' c Hc. destruct (infra_error e'); [|done]. injection Hc as <-. apply ret_unsent.
    + destruct (try_except _ _ s1) as [[[]|e'] s2]; simpl in *; (split; [|done]); [by intros e' [= <-]|].
      intros e2 [= <-]. by apply H1.
Qed.

Lemma attempt_blocked env executor j b s :
  infra_faults env -> stable env (blocked b (job_id_of j)) -> blocked b (job_id_of j) (g_shared s) ->
  no_broker_error (fst (execute_slice_attempt env executor j s)) /\
  unsent (g_sent s) (snd (execute_slice_attempt env executor j s)).
Proof.
  intros Hf Hs Hb. unfold execute_slice_attempt. rewrite !M_bind_run.
  pose proof (fail_on_infra_stops env (job_id_of j) "during pre-submission checks: " (pre_checks env j) (g_sent s) true s Hf
    (pre_checks_blocked env b j (g_sent s) Hf Hs s (conj eq_refl Hb))) as (H1 & H2 & H3).
  destruct (fail_on_infra _ _ _ _ s) as [[[]|e] s1]; simpl in *; [by destruct H1|by split|].
  split; [intros e' [= <-]; by apply H2|done].
Qed.

(** An attempt that ends with no error of the broker's ends the job. *)
Lemma wrapper_attempt env executor j s :
  no_broker_error (fst (execute_slice_attempt env executor j s)) ->
  _execute_slice_job_wrapper env executor j s = execute_slice_attempt env executor j s.
Proof.
  unfold _execute_slice_job_wrapper, try_except, _execute_slice, RETRIES. cbn [retry_connection].
  destruct (execute_slice_attempt env executor j s) as [[[]|e] s']; [done|]. intros Hb. specialize (Hb e eq_refl). by destruct e.
Qed.

(** A blocked slice is never submitted: while its order is canceled, or the kill switch is engaged or
    its state is lost, or the circuit breaker is tripped or its state is lost, the job of the slice sends
    nothing to the broker, whatever else the other workers do and whichever calls fail. *)
Theorem blocked_slice_never_submitted env executor j b s :
  infra_faults env -> stable env (blocked b (job_id_of j)) -> blocked b (job_id_of j) (g_shared s) ->
  g_sent (snd (_execute_slice_job_wrapper env executor j s)) = g_sent s.
Proof.
  intros Hf Hs Hb. destruct (attempt_blocked env executor j b s Hf Hs Hb) as [Ha Hk].
  rewrite wrapper_attempt by exact Ha. apply Hk.
Qed.

(** ** How often a slice is submitted *)

(** The request a job sends, if it sends one. *)
Definition is_submission (j : slice_job) (rq : broker_request) : Prop := exists g r,
  slice_request 0 j = Ok g /\ _build_alpaca_request g (job_id_of j) = Ok r /\ rq = Submit r.

Lemma slice_request_now now j : slice_request now j = slice_request 0 j.
Proof. done. Qed.

Lemma sends_submit_order env j g : slice_request 0 j = Ok g -> sends 3 (is_submission j) (submit_order env g (job_id_of j)).
Proof.
  intros Hg. unfold submit_order, RETRIES. apply (sends_retry _ 2 1). unfold submit_attempt.
  destruct (_build_alpaca_request g (job_id_of j)) as [r|e] eqn:Er.
  - apply (sends_bind _ 1 0); [|intros; apply sends_pure]. apply sends_ask. by exists g, r.
  - apply (sends_weaken _ 0); [lia|]. exact (sends_pure _ (Raise _)).
Qed.

Lemma sends_mark_done P env id st b m : sends 0 P (_ ← mark env id st b m; mret tt).
Proof. apply (sends_bind P 0 0); [apply sends_call|]. intros _. exact (sends_pure P (Ok tt)). Qed.

Lemma sends_record P env id bid n : sends 0 P (record_submission env id bid n).
Proof.
  induction n as [|n IH]; apply (sends_try P 0 0 _ _ (sends_mark_done _ _ _ _ _ _)); intros e c [= <-];
    [apply sends_mark_done|exact IH].
Qed.

Lemma sends_guarded {A} P k env id label (m : M gw A) : sends k P m -> sends k P (fail_on_infra env id label m).
Proof.
  intros Hm. unfold fail_on_infra. rewrite <- (Nat.add_0_r k). apply (sends_try P k 0 _ _ Hm).
  intros e c. destruct (infra_error e); [|done]. intros [= <-]. apply (sends_bind P 0 0); [|intros; exact (sends_pure P (Raise e))].
  apply (sends_try P 0 0 _ _ (sends_mark_done _ _ _ _ _ _)). intros e' c. destruct (infra_error e'); [|done].
  intros [= <-]. exact (sends_pure P (Ok tt)).
Qed.

Lemma sends_pre_checks P env j : sends 0 P (pre_checks env j).
Proof.
  apply (sends_bind P 0 0); [apply sends_call|]. intros o. destruct (is_canceled o); [exact (sends_pure P (Ok false))|].
  assert (Hm : forall st m, sends 0 P (_ ← mark env (job_id_of j) st None m; mret false)).
  { intros st m. apply (sends_bind P 0 0); [apply sends_call|]. intros _. exact (sends_pure P (Ok false)). }
  apply (sends_bind P 0 0); [apply sends_call|]. intros [|]; [apply Hm|].
  apply (sends_bind P 0 0); [apply sends_call|]. intros [|]; [|exact (sends_pure P (Ok true))].
  apply (sends_bind P 0 0); [apply sends_call|]. intros r. apply Hm.
Qed.

Lemma sends_submit_slice env executor j g :
  slice_request 0 j = Ok g -> sends 3 (is_submission j) (submit_slice env executor j g).
Proof.
  intros Hg. apply (sends_try _ 3 0).
  - destruct executor; [|apply (sends_weaken _ 0), sends_mark_done; lia].
    apply (sends_bind _ 3 0); [by apply sends_submit_order|]. intros. apply sends_record.
  - intros [] c [= <-]; apply sends_mark_done.
Qed.

(** A job submits its slice at most nine times (three attempts of the job, each with three of the
    broker client), always with the same request under the slice's own identifier, whatever fails. *)
Theorem slice_submissions_bounded env executor j s : exists rs,
  g_sent (snd (_execute_slice_job_wrapper env executor j s)) = g_sent s ++ rs /\ (length rs <= 9)%nat /\
  Forall (is_submission j) rs /\ forall r, Submit r ∈ rs -> client_id_of r = sd_client_order_id (job_slice j).
Proof.
  assert (Ha : sends 3 (is_submission j) (execute_slice_attempt env executor j)).
  { apply (sends_bind _ 0 3); [apply sends_guarded, sends_pre_checks|]. intros [|]; simpl;
      [|apply (sends_weaken _ 0); [lia|exact (sends_pure _ (Ok tt))]].
    intros s0. rewrite M_bind_run, slice_request_now. destruct (slice_request 0 j) as [g|e] eqn:Eg;
      [|exact (sends_weaken _ 0 3 _ ltac:(lia) (sends_pure _ (Raise e)) s0)].
    apply (sends_bind _ 0 3); [apply sends_guarded|intros [|]; simpl; [by apply sends_submit_slice|]].
    - apply (sends_bind _ 0 0); [apply sends_call|]. intros o. exact (sends_pure _ (Ok _)).
    - apply (sends_weaken _ 0); [lia|exact (sends_pure _ (Ok tt))]. }
  destruct (sends_try _ 9 0 _ (fun e => match e with AlpacaConnectionError m =>
      Some (_ ← mark env (job_id_of j) "failed" None (Some ("Retry exhausted: " +:+ m)); mret tt) | _ => None end)
    (sends_retry _ 2 3 _ Ha)) with (s := s) as (rs & E & L & F); [intros [] c [= <-]; apply sends_mark_done|].
  exists rs. split_and!; [exact E|exact L|exact F|].
  intros r Hr. rewrite Forall_forall in F. destruct (F _ Hr) as (g & r' & _ & Er & [= ->]).
  revert Er. unfold _build_alpaca_request. repeat case_match; by intros [= <-].
Qed.

(** ** The outcome of an undisturbed job *)

(** The status, broker identifier and error text the job writes, [None] when it writes
    nothing.  Three attempts of three submissions each come to nine submissions. *)
Definition outcome (env : environment) (executor : bool) (j : slice_job) (sh : shared) (sent : list broker_request)
    : result (option (string * option string * option string)) :=
  if is_canceled (db_orders (sh_db sh) !! job_id_of j) then Ok None else
  engaged ← fst (KillSwitch.is_engaged (sh_kill sh));
  if engaged : bool then
    Ok (Some ("blocked_kill_switch", None, Some "Kill switch is engaged - all new orders blocked"))
  else
    tripped ← fst (Breaker.is_tripped (sh_breaker sh));
    reason ← fst (Breaker.get_trip_reason (sh_breaker sh));
    if tripped : bool then
      Ok (Some ("blocked_circuit_breaker", None, Some ("Circuit breaker is tripped - reason: " +:+ default "None" reason)))
    else
      g ← slice_request 0 j;
      if negb executor then Ok (Some ("dry_run", None, None))
      else
        match r ← _build_alpaca_request g (job_id_of j); Ok (verdict env sent r 8) with
        | Raise e => Ok (Some ("rejected", None, Some ("Data validation error: " +:+ str_exn e)))
        | Ok (Ok o) => Ok (Some ("submitted", Some (od_id o), Some ""))
        | Ok (Raise (AlpacaValidationError m)) | Ok (Raise (AlpacaRejectionError m)) => Ok (Some ("rejected", None, Some m))
        | Ok (Raise (AlpacaConnectionError m)) => Ok (Some ("failed", None, Some ("Retry exhausted: " +:+ m)))
        | Ok (Raise e) => Raise e
        end.

Definition tick (s : gw) : gw := after_call (g_shared s) s.

Lemma call_read {A} env (m : M shared A) (f : shared -> result A) s :
  quiet env -> (forall sh, m sh = (f sh, sh)) -> call env (fun _ => m) s = (f (g_shared s), tick s).
Proof. intros Hq Hm. by rewrite (call_quiet env (fun _ => m) s Hq), Hm. Qed.

(** A row no update has touched yet, so that the first one applies. *)
Definition fresh (r : order_row) : Prop := cas_unlocked (o_exec r) = true /\ o_last_updated_at (o_exec r) = None.

Definition marked (now : Z) (x : string * option string * option string) (row : order_row) : order_row :=
  set_exec now (cas_apply (manual_update now x.1.1 x.1.2 x.2)) row.

(** The database accepts the row the update gives. *)
Definition mark_valid (sh : shared) (id : string) (x : string * option string * option string) (row : order_row) : Prop :=
  forall now, order_valid (db_orders (sh_db sh)) id (marked now x row) = true.

Definition with_row (id : string) (row : order_row) (sh : shared) : shared :=
  set_db (set_orders (insert id row) (sh_db sh)) sh.

Lemma mark_slice_run env id x row s :
  quiet env -> db_orders (sh_db (g_shared s)) !! id = Some row -> fresh row -> mark_valid (g_shared s) id x row ->
  let now := clock env (g_calls s) in
  mark env id x.1.1 x.1.2 x.2 s = (Ok (Some (marked now x row)), after_call (with_row id (marked now x row) (g_shared s)) s).
Proof.
  intros Hq Hr [Hu Hl] Hv now. unfold mark. rewrite call_quiet by done.
  assert (Hn : forall u, cas_newer u (o_exec row) = true)
    by (intros u; unfold cas_newer; by rewrite Hl, bool_decide_eq_true_2).
  unfold in_db. rewrite zoom_run, (cas_run _ _ _ _ _ Hr), Hu, Hn. cbn [andb].
  specialize (Hv now). unfold marked in Hv. subst now. by rewrite Hv.
Qed.

(** What a job that was not disturbed leaves behind. *)
Definition lands (id : string) (row : order_row) (x : string * option string * option string) (s : gw)
    (out : result unit * gw) : Prop :=
  exists now s', out = (Ok tt, s') /\ g_shared s' = with_row id (marked now x row) (g_shared s).

Lemma mark_lands env id x row s s1 :
  quiet env -> db_orders (sh_db (g_shared s)) !! id = Some row -> fresh row -> mark_valid (g_shared s) id x row ->
  g_shared s1 = g_shared s -> lands id row x s ((_ ← mark env id x.1.1 x.1.2 x.2; mret tt) s1).
Proof.
  intros Hq Hr Hf Hv E. rewrite M_bind_run, (mark_slice_run env id x row s1); rewrite ?E; try done.
  by eexists _, _.
Qed.

(** ** Undisturbed attempts *)

Definition unblocked (id : string) (sh : shared) : Prop :=
  is_canceled (db_orders (sh_db sh) !! id) = false /\ fst (KillSwitch.is_engaged (sh_kill sh)) = Ok false /\
  fst (Breaker.is_tripped (sh_breaker sh)) = Ok false.

Lemma guarded_ok {A} env id label (m : M gw A) s a s' : m s = (Ok a, s') -> fail_on_infra env id label m s = (Ok a, s').
Proof. intros H. unfold fail_on_infra, try_except. by rewrite H. Qed.

Lemma guarded_raise {A} env id label (m : M gw A) s e s' :
  m s = (Raise e, s') -> infra_error e = false -> fail_on_infra env id label m s = (Raise e, s').
Proof. intros H He. unfold fail_on_infra, try_except. by rewrite H, He. Qed.

Lemma pre_checks_run env j s :
  quiet env -> unblocked (job_id_of j) (g_shared s) -> pre_checks env j s = (Ok true, tick (tick (tick s))).
Proof.
  intros Hq (H1 & H2 & H3). unfold pre_checks, get_order_by_client_id.
  rewrite M_bind_run, (call_read env _ _ _ Hq (fun sh => in_db_read _ sh)), H1.
  rewrite M_bind_run, (call_read env _ _ _ Hq in_kill_read). simpl g_shared. rewrite H2.
  rewrite M_bind_run, (call_read env _ _ _ Hq in_breaker_read). simpl g_shared. by rewrite H3.
Qed.

Lemma attempt_unblocked env executor j g s :
  quiet env -> unblocked (job_id_of j) (g_shared s) -> slice_request 0 j = Ok g ->
  execute_slice_attempt env executor j s = submit_slice env executor j g (tick (tick (tick (tick s)))).
Proof.
  intros Hq Hu Hg. unfold execute_slice_attempt.
  rewrite M_bind_run, (guarded_ok _ _ _ _ _ _ _ (pre_checks_run env j s Hq Hu)). cbn [negb].
  rewrite M_bind_run, slice_request_now, Hg.
  rewrite M_bind_run, (guarded_ok env (job_id_of j) _ (pre_submit_guard env j) _ true (tick (tick (tick (tick s))))); [done|].
  unfold pre_submit_guard, get_order_by_client_id. rewrite M_bind_run, (call_read env _ _ _ Hq (fun sh => in_db_read _ sh)).
  simpl g_shared. by destruct Hu as [-> _].
Qed.

Lemma attempt_no_request env executor j e s :
  quiet env -> unblocked (job_id_of j) (g_shared s) -> slice_request 0 j = Raise e ->
  execute_slice_attempt env executor j s = (Raise e, tick (tick (tick s))).
Proof.
  intros Hq Hu Hg. unfold execute_slice_attempt.
  rewrite M_bind_run, (guarded_ok _ _ _ _ _ _ _ (pre_checks_run env j s Hq Hu)). cbn [negb].
  by rewrite M_bind_run, slice_request_now, Hg.
Qed.

Definition rejected (m : string) : string * option string * option string := ("rejected", None, Some m).
Definition submitted (o : order_dict) : string * option string * option string := ("submitted", Some (od_id o), Some "").

(** What an attempt or a job makes of the broker's answer [v]. *)
Definition answered (id : string) (row : order_row) (sh : shared) (v : result order_dict) (s : gw)
    (out : result unit * gw) : Prop :=
  match v with
  | Ok o => mark_valid sh id (submitted o) row -> lands id row (submitted o) s out
  | Raise (AlpacaValidationError m) | Raise (AlpacaRejectionError m) =>
      mark_valid sh id (rejected m) row -> lands id row (rejected m) s out
  | Raise e => exists s', out = (Raise e, s') /\ g_shared s' = sh
  end.

Section job.
Context (env : environment) (j : slice_job) (g : OrderRequest) (r : alpaca_request) (row : order_row).
Context (Hq : quiet env) (Hg : slice_request 0 j = Ok g) (Hb : _build_alpaca_request g (job_id_of j) = Ok r).
Context (Hf : fresh row).

Lemma attempt_answered s :
  db_orders (sh_db (g_shared s)) !! job_id_of j = Some row -> unblocked (job_id_of j) (g_shared s) ->
  let v := verdict env (g_sent s) r RETRIES in
  answered (job_id_of j) row (g_shared s) v s (execute_slice_attempt env true j s) /\
  ((exists m, v = Raise (AlpacaConnectionError m)) ->
   g_sent (snd (execute_slice_attempt env true j s)) = g_sent s ++ replicate 3 (Submit r)).
Proof.
  intros Hr Hu v. rewrite (attempt_unblocked env true j g s Hq Hu Hg).
  set (s0 := tick (tick (tick (tick s)))). unfold submit_slice, try_except. rewrite M_bind_run.
  destruct (submit_order_run env g (job_id_of j) r RETRIES Hq Hb s0) as (s1 & E & (Es & _) & Hsent).
  change (g_sent s0) with (g_sent s) in E, Hsent. change (g_shared s0) with (g_shared s) in Es.
  unfold submit_order. rewrite E. fold v in Hsent |- *.
  assert (Hm : forall x, mark_valid (g_shared s) (job_id_of j) x row ->
    lands (job_id_of j) row x s ((_ ← mark env (job_id_of j) x.1.1 x.1.2 x.2; mret tt) s1))
    by (intros x Hx; by apply mark_lands).
  unfold answered. destruct v as [o|e].
  - split; [|by intros [m Hv]]. intros Hv. cbn [pred record_submission MAX_DB_RETRIES]. unfold try_except.
    destruct (Hm (submitted o) Hv) as (now & s' & E1 & E2). exists now, s'. split; [|done].
    change ("submitted", Some (od_id o), Some "") with (submitted o) in *. cbn [submitted fst snd] in E1. by rewrite E1.
  - destruct e; try (split; [by exists s1|by intros [m' Hv]]).
    + split; [by exists s1|exact Hsent].
    + split; [exact (Hm (rejected _))|by intros [m' Hv]].
    + split; [exact (Hm (rejected _))|by intros [m' Hv]].
Qed.

Lemma retries_answered n : forall s,
  db_orders (sh_db (g_shared s)) !! job_id_of j = Some row -> unblocked (job_id_of j) (g_shared s) ->
  answered (job_id_of j) row (g_shared s) (verdict env (g_sent s) r (3 * n + RETRIES)) s
    (retry_connection n (execute_slice_attempt env true j) s).
Proof.
  induction n as [|n IH]; intros s Hr Hu; destruct (attempt_answered s Hr Hu) as [Ha Hs]; cbn [retry_connection].
  - simpl (3 * 0 + RETRIES)%nat. destruct (verdict env (g_sent s) r RETRIES) as [o|e].
    + intros Hv. destruct (Ha Hv) as (now & s' & -> & E). by exists now, s'.
    + destruct e; try (by destruct Ha as (s' & -> & E); exists s');
        intros Hv; destruct (Ha Hv) as (now & s' & -> & E); by exists now, s'.
  - replace (3 * S n + RETRIES)%nat with (RETRIES + S (3 * n + RETRIES))%nat by (unfold RETRIES; lia).
    rewrite retried_split. destruct (verdict env (g_sent s) r RETRIES) as [o|e].
    + intros Hv. destruct (Ha Hv) as (now & s' & -> & E). by exists now, s'.
    + destruct e; try (by destruct Ha as (s' & -> & E); exists s');
        try (intros Hv; destruct (Ha Hv) as (now & s' & -> & E); by exists now, s').
      destruct Ha as (s' & Ea & E). rewrite Ea in Hs |- *. specialize (Hs ltac:(by eexists)). cbn [snd] in Hs.
      change (S RETRIES) with 3%nat. rewrite <- Hs, <- E. rewrite <- E in Hr, Hu. specialize (IH s' Hr Hu).
      unfold answered, lands in *. destruct (verdict env (g_sent s') r (3 * n + RETRIES)) as [o|[]]; rewrite <- ?E; exact IH.
Qed.
End job.

Lemma wrapper_ends env executor j s out :
  execute_slice_attempt env executor j s = out -> no_broker_error (fst out) ->
  _execute_slice_job_wrapper env executor j s = out.
Proof. intros <- Hb. by apply wrapper_attempt. Qed.

Lemma checks_lands env executor j row x s s1 :
  quiet env -> db_orders (sh_db (g_shared s)) !! job_id_of j = Some row -> fresh row ->
  pre_checks env j s = (_ ← mark env (job_id_of j) x.1.1 x.1.2 x.2; mret false) s1 -> g_shared s1 = g_shared s ->
  mark_valid (g_shared s) (job_id_of j) x row ->
  lands (job_id_of j) row x s (_execute_slice_job_wrapper env executor j s).
Proof.
  intros Hq Hr Hf E Es Hv. rewrite <- Es in Hr, Hv.
  rewrite M_bind_run, (mark_slice_run env _ x row s1 Hq Hr Hf Hv) in E.
  set (now := clock env (g_calls s1)) in E.
  exists now, (after_call (with_row (job_id_of j) (marked now x row) (g_shared s1)) s1).
  split; [|by rewrite <- Es]. apply wrapper_ends; [|done].
  unfold execute_slice_attempt. by rewrite M_bind_run, (guarded_ok _ _ _ _ _ _ _ E).
Qed.

Lemma checks_raise env executor j s e s1 :
  pre_checks env j s = (Raise e, s1) -> infra_error e = false -> broker_error e = false ->
  _execute_slice_job_wrapper env executor j s = (Raise e, s1).
Proof.
  intros E He Hb. apply wrapper_ends; [|by intros e' [= <-]].
  unfold execute_slice_attempt. by rewrite M_bind_run, (guarded_raise _ _ _ _ _ _ _ E He).
Qed.

Lemma is_engaged_infra s e : fst (KillSwitch.is_engaged s) = Raise e -> infra_error e = false.
Proof.
  unfold KillSwitch.is_engaged, KillSwitch.get_state, mbind, M_bind, reads, lift, raise.
  destruct (KillSwitch.state_key s) as [d|]; [|by intros [= <-]].
  unfold KillSwitch.ks_parse. repeat case_decide; simpl; by try intros [= <-].
Qed.

Lemma is_tripped_infra s e : fst (Breaker.is_tripped s) = Raise e -> infra_error e = false.
Proof.
  unfold Breaker.is_tripped, Breaker.get_state, mbind, M_bind, reads, lift, raise, mret, M_ret.
  destruct (Breaker.state_key s) as [d|]; [|by intros [= <-]].
  case_decide; [done|]. unfold Breaker.cb_parse. repeat case_decide; simpl; by try intros [= <-].
Qed.

(** C21. Undisturbed, a job does what [outcome] says: it writes exactly one status into the slice's row and
    touches no other row, or, when the slice was canceled or a check raises, changes nothing. *)
Theorem slice_job_outcome env executor j s row :
  quiet env -> db_orders (sh_db (g_shared s)) !! job_id_of j = Some row -> fresh row ->
  match outcome env executor j (g_shared s) (g_sent s) with
  | Ok (Some x) => mark_valid (g_shared s) (job_id_of j) x row ->
      lands (job_id_of j) row x s (_execute_slice_job_wrapper env executor j s)
  | Ok None => exists s', _execute_slice_job_wrapper env executor j s = (Ok tt, s') /\ g_shared s' = g_shared s
  | Raise e => exists s', _execute_slice_job_wrapper env executor j s = (Raise e, s') /\ g_shared s' = g_shared s
  end.
Proof.
  intros Hq Hr Hf. unfold outcome.
  assert (E1 : pre_checks env j s = _) by
    (unfold pre_checks, get_order_by_client_id; rewrite M_bind_run, (call_read env _ _ _ Hq (fun sh => in_db_read _ sh)); reflexivity).
  destruct (is_canceled (db_orders (sh_db (g_shared s)) !! job_id_of j)) eqn:Ec.
  { exists (tick s). split; [|done]. apply wrapper_ends; [|done]. unfold execute_slice_attempt.
    by rewrite M_bind_run, (guarded_ok _ _ _ _ _ false (tick s) E1). }
  rewrite M_bind_run, (call_read env _ _ _ Hq in_kill_read) in E1. simpl g_shared in E1.
  destruct (fst (KillSwitch.is_engaged (sh_kill (g_shared s)))) as [[]|e] eqn:Ek; simpl.
  { intros Hv. eapply (checks_lands env executor j row (_, _, _) s); [done..|exact E1|done|exact Hv]. }
  2:{ eexists. split; [eapply checks_raise; [exact E1|by eapply is_engaged_infra|by eapply is_engaged_error]|done]. }
  rewrite M_bind_run, (call_read env _ _ _ Hq in_breaker_read) in E1. simpl g_shared in E1.
  destruct (fst (Breaker.is_tripped (sh_breaker (g_shared s)))) as [[]|e] eqn:Eb; simpl.
  { rewrite M_bind_run, (call_read env _ _ _ Hq in_breaker_reason) in E1. simpl g_shared in E1.
    intros Hv. eapply (checks_lands env executor j row (_, _, _) s); [done..|exact E1|done|exact Hv]. }
  2:{ eexists. split; [eapply checks_raise; [exact E1|by eapply is_tripped_infra|by eapply is_tripped_error]|done]. }
  assert (Hu : unblocked (job_id_of j) (g_shared s)) by done.
  destruct (slice_request 0 j) as [g|e] eqn:Eg; simpl.
  2:{ eexists. split; [apply wrapper_ends; [by apply attempt_no_request|]|done].
      intros e' [= <-]. by destruct (mk_order_request_error _ _ _ Eg) as [m ->]. }
  destruct executor; cbn [negb].
  2:{ intros Hv.
      destruct (mark_lands env _ (_, _, _) row s (tick (tick (tick (tick s)))) Hq Hr Hf Hv eq_refl) as (now & s' & E & Es).
      exists now, s'. split; [|exact Es]. apply wrapper_ends; [|done].
      rewrite (attempt_unblocked env false j g s Hq Hu Eg). unfold submit_slice, try_except. cbn [fst snd] in E. by rewrite E. }
  destruct (_build_alpaca_request g (job_id_of j)) as [r|e] eqn:Er; cbn [mbind result_bind].
  - pose proof (retries_answered env j g r row Hq Eg Er Hf 2 s Hr Hu) as Ha. change (3 * 2 + RETRIES)%nat with 8%nat in Ha.
    unfold _execute_slice_job_wrapper, try_except, _execute_slice, RETRIES.
    destruct (verdict env (g_sent s) r 8) as [o|e].
    + intros Hv. destruct (Ha Hv) as (now & s' & -> & Es). by exists now, s'.
    + destruct e; try (destruct Ha as (s' & -> & Es); by exists s');
        try (intros Hv; destruct (Ha Hv) as (now & s' & -> & Es); by exists now, s').
      destruct Ha as (s' & -> & Es). intros Hv. by apply (mark_lands env _ (_, _, _) row s s').
  - intros Hv.
    destruct (mark_lands env _ (_, _, _) row s (tick (tick (tick (tick s)))) Hq Hr Hf Hv eq_refl) as (now & s' & E & Es).
    exists now, s'. split; [|exact Es]. apply wrapper_ends; [|done].
    rewrite (attempt_unblocked env true j g s Hq Hu Eg). unfold submit_slice, submit_order, RETRIES. cbn [retry_connection].
    unfold submit_attempt. rewrite Er. unfold try_except. rewrite M_bind_run. unfold raise. cbn [fst snd] in E. by rewrite E.
Qed.

(** ** Jobs that go wrong *)

(** The broker refuses a second order with an identifier it already has, and the answer to
    the first one was lost: the retry is told 422, the live order is recorded as rejected, and
    no later update from the broker (its fills included) ever changes the row. *)
Theorem lost_reply_rejects_live_order env j g r row s lost refused :
  quiet env -> db_orders (sh_db (g_shared s)) !! job_id_of j = Some row -> fresh row ->
  unblocked (job_id_of j) (g_shared s) -> slice_request 0 j = Ok g -> _build_alpaca_request g (job_id_of j) = Ok r ->
  broker_api env (g_sent s ++ [Submit r]) = NetworkError lost ->
  broker_api env (g_sent s ++ [Submit r; Submit r]) = ApiError (Some 422) refused ->
  mark_valid (g_shared s) (job_id_of j) (rejected ("Order rejected: " +:+ refused)) row ->
  exists s' row', _execute_slice_job_wrapper env true j s = (Ok tt, s') /\
    db_orders (sh_db (g_shared s')) !! job_id_of j = Some row' /\ o_status (o_exec row') = "rejected" /\
    forall us, deliver (job_id_of j) us (sh_db (g_shared s')) = sh_db (g_shared s').
Proof.
  intros Hq Hr Hf Hu Hg Hb H1 H2 Hv.
  pose proof (retries_answered env j g r row Hq Hg Hb Hf 2 s Hr Hu) as Ha.
  assert (E : verdict env (g_sent s) r (3 * 2 + RETRIES) = Raise (AlpacaRejectionError ("Order rejected: " +:+ refused))).
  { change (3 * 2 + RETRIES)%nat with 8%nat. rewrite retried_unfold, H1. cbn [submit_reply].
    rewrite retried_unfold, <- app_assoc. cbn [app]. by rewrite H2. }
  rewrite E in Ha. destruct (Ha Hv) as (now & s' & Ew & Es).
  assert (Hr' : db_orders (sh_db (g_shared s')) !! job_id_of j = Some (marked now (rejected ("Order rejected: " +:+ refused)) row))
    by (rewrite Es; simpl; apply lookup_insert_eq).
  eexists s', _. split; [|split; [exact Hr'|split; [done|]]].
  - unfold _execute_slice_job_wrapper, try_except, _execute_slice, RETRIES. by rewrite Ew.
  - intros us. by apply (terminal_lock _ us _ _ Hr').
Qed.

(** A safety switch whose state is lost drops the slice: the job ends with a RuntimeError that
    nothing handles, and the slice stays pending. *)
Theorem lost_switch_state_drops_slice env executor j s :
  quiet env -> is_canceled (db_orders (sh_db (g_shared s)) !! job_id_of j) = false ->
  KillSwitch.state_key (sh_kill (g_shared s)) = None ->
  exists s', _execute_slice_job_wrapper env executor j s = (Raise KillSwitch.state_missing, s') /\ g_shared s' = g_shared s.
Proof.
  intros Hq Hc Hk. exists (tick (tick s)). split; [|done]. apply checks_raise; [|done..].
  unfold pre_checks, get_order_by_client_id. rewrite M_bind_run, (call_read env _ _ _ Hq (fun sh => in_db_read _ sh)), Hc.
  rewrite M_bind_run, (call_read env _ _ _ Hq in_kill_read). simpl g_shared.
  unfold KillSwitch.is_engaged, KillSwitch.get_state. rewrite !M_bind_run. unfold reads. by rewrite Hk.
Qed.

(** ** Examples *)

Definition ex_row : order_row := {|
  o_core := {| o_strategy_id := "twap_slice"; o_symbol := "AAPL"; o_side := "buy"; o_qty := 10;
               o_order_type := "market"; o_limit_price := None; o_stop_price := None; o_time_in_force := "day" |};
  o_exec := new_exec "pending_new" None None None;
  o_links := no_links; o_metadata := Some empty_meta; o_created_at := 1; o_updated_at := 1 |}.

Definition ex_job : slice_job := {|
  job_run_date := 5; job_parent_order_id := "p1";
  job_slice := {| sd_slice_num := 0; sd_qty := 10; sd_scheduled_time := 5; sd_client_order_id := "o1";
                  sd_strategy_id := "twap_slice"; sd_status := "pending_new" |};
  job_symbol := "AAPL"; job_side := "buy"; job_order_type := "market"; job_limit_price := None;
  job_stop_price := None; job_time_in_force := "day" |}.

(** All safety components are held and available. *)
Definition ex_recovery : Recovery.RecoveryState := {|
  Recovery.kill_switch := true; Recovery.circuit_breaker := true; Recovery.position_reservation := true;
  Recovery.slice_scheduler := Some true; Recovery.kill_switch_unavailable := false;
  Recovery.circuit_breaker_unavailable := false; Recovery.position_reservation_unavailable := false |}.

Definition ex_shared (row : order_row) (kill : KillSwitch.ks_store) : shared := {|
  sh_db := sample_db row; sh_kill := kill; sh_breaker := (Breaker.initialize_state true
    {| Breaker.state_key := None; Breaker.version := 0; Breaker.history_key := [] |}).2;
  sh_reserved := ∅; sh_redis := {| rs_keys := ∅; rs_attempts := 0 |}; sh_adv := ∅; sh_recovery := ex_recovery;
  sh_recon := None; sh_fat_finger := FatFinger.fat_finger_init FatFinger.no_thresholds [] |}.

Definition ex_kill (engaged : bool) : KillSwitch.ks_store :=
  let s := (KillSwitch.kill_switch_init {| KillSwitch.state_key := None; KillSwitch.history_key := [] |}).2 in
  if engaged then (KillSwitch.engage "t" "halt" "ops" None s).2 else s.

Definition ex_gw (row : order_row) (kill : KillSwitch.ks_store) : gw := {|
  g_shared := ex_shared row kill; g_jobs := []; g_sent := []; g_calls := 0 |}.

(** Nothing fails; the broker answers with [api]. *)
Definition ex_env (api : list broker_request -> broker_reply) : environment := {|
  fates := fun _ => Up; others := fun _ sh => sh; clock := fun n => 100 + Z.of_nat n; broker_api := api;
  redis_net := fun _ => Served; bars_api := fun _ _ => Liquidity.RequestError |}.

Definition ex_accepts (h : list broker_request) : broker_reply :=
  OrderObject {| od_id := "b1"; od_client_order_id := Some "o1"; od_status := Some "accepted" |}.

Lemma ex_quiet api : quiet (ex_env api).
Proof. by split. Qed.

Lemma blocked_slice_never_submitted_witness :
  g_sent (snd (_execute_slice_job_wrapper (ex_env ex_accepts) true ex_job (ex_gw ex_row (ex_kill true)))) = [].
Proof.
  apply (blocked_slice_never_submitted (ex_env ex_accepts) true ex_job KillSwitchOn (ex_gw ex_row (ex_kill true))).
  - intros n e [H|H]; discriminate H.
  - intros n sh H. exact H.
  - discriminate.
Defined.

Lemma slice_job_outcome_witness :
  lands "o1" ex_row ("submitted", Some "b1", Some "") (ex_gw ex_row (ex_kill false))
    (_execute_slice_job_wrapper (ex_env ex_accepts) true ex_job (ex_gw ex_row (ex_kill false))).
Proof.
  pose proof (slice_job_outcome (ex_env ex_accepts) true ex_job (ex_gw ex_row (ex_kill false)) ex_row
    (ex_quiet _) eq_refl (conj eq_refl eq_refl)) as H.
  assert (E : outcome (ex_env ex_accepts) true ex_job (g_shared (ex_gw ex_row (ex_kill false)))
    (g_sent (ex_gw ex_row (ex_kill false))) = Ok (Some ("submitted", Some "b1", Some ""))) by (vm_compute; reflexivity).
  rewrite E in H. apply H. intros now. reflexivity.
Defined.

(** The first answer is lost, and the second order is refused as a duplicate. *)
Definition ex_loses (h : list broker_request) : broker_reply :=
  match h with [_] => NetworkError "read timeout" | _ => ApiError (Some 422) "client_order_id must be unique" end.

Definition ex_order : OrderRequest := {|
  req_symbol := "AAPL"; req_side := "buy"; req_qty := 10; req_order_type := "market"; req_limit_price := None;
  req_stop_price := None; req_time_in_force := "day"; req_execution_style := "instant";
  req_twap_duration_minutes := None; req_twap_interval_seconds := None; req_start_time := None;
  req_client_order_id := None |}.

Lemma lost_reply_rejects_live_order_witness :
  exists s' row', _execute_slice_job_wrapper (ex_env ex_loses) true ex_job (ex_gw ex_row (ex_kill false)) = (Ok tt, s') /\
    db_orders (sh_db (g_shared s')) !! "o1" = Some row' /\ o_status (o_exec row') = "rejected" /\
    forall us, deliver "o1" us (sh_db (g_shared s')) = sh_db (g_shared s').
Proof.
  apply (lost_reply_rejects_live_order (ex_env ex_loses) ex_job ex_order (MarketOrderRequest "AAPL" 10 "buy" "day" "o1") ex_row
    (ex_gw ex_row (ex_kill false)) "read timeout" "client_order_id must be unique").
  - apply ex_quiet.
  - reflexivity.
  - split; reflexivity.
  - split_and!; reflexivity.
  - reflexivity.
  - reflexivity.
  - reflexivity.
  - reflexivity.
  - intros now. reflexivity.
Defined.

Lemma lost_switch_state_drops_slice_witness :
  exists s', _execute_slice_job_wrapper (ex_env ex_accepts) true ex_job
      (ex_gw ex_row {| KillSwitch.state_key := None; KillSwitch.history_key := [] |})
      = (Raise KillSwitch.state_missing, s') /\
    g_shared s' = ex_shared ex_row {| KillSwitch.state_key := None; KillSwitch.history_key := [] |}.
Proof.
  apply (lost_switch_state_drops_slice (ex_env ex_accepts) true ex_job
    (ex_gw ex_row {| KillSwitch.state_key := None; KillSwitch.history_key := [] |})).
  - apply ex_quiet.
  - reflexivity.
  - reflexivity.
Defined.
