(* ===== verification/SliceRecovery.v ===== *)
(** * Scheduling, recovery and cancellation of TWAP slices (slice_scheduler.py)

    [schedule_slices] adds one job per slice of a plan, [recover_zombie_slices] rebuilds the jobs of
    the slices a restart left pending, and [cancel_remaining_slices] cancels the pending slices
    of a parent order and removes their jobs.  The in-process scheduler (APScheduler) is a dict of
    jobs by identifier: adding a job under a known identifier raises ConflictingIdError, a KeyError. *)

From S2P Require Import Prelude PyDecimal PyText OrderStatus OrderSchema Twap GatewayDb OrderCas RedisClient.
From S2P Require Import PyDict Gateway SliceExec.
From S2P Require KillSwitch Breaker.
Open Scope Z_scope.

Record MarketClockSnapshot := { mc_is_open : bool; mc_next_open : option Z }.

Record SliceScheduler := {
  sch_executor : bool;
  sch_market_clock_provider : option MarketClockSnapshot;
  sch_misfire_grace_seconds : Z;
  sch_stale_slice_expiry_seconds : Z
}.

Definition _is_slice_stale (sch : SliceScheduler) (slice_order : order_row) (now : Z) : bool :=
  if sch_stale_slice_expiry_seconds sch <=? 0 then false
  else match o_scheduled_time (o_links slice_order) with
       | None => false
       | Some scheduled_time =>
           let age := now - scheduled_time in
           if age <? 0 then false else sch_stale_slice_expiry_seconds sch * second_us <? age
       end.

(** ** The scheduler's jobs *)

Definition job_id (parent_order_id : string) (slice_num : Z) : string :=
  parent_order_id +:+ "_slice_" +:+ str_int slice_num.

Definition add_job (id : string) (j : slice_job) : M gw unit := fun s =>
  match dict_get id (g_jobs s) with
  | Some _ => (Raise (KeyError id), s)
  | None => (Ok tt, set_jobs (dict_set id j (g_jobs s)) s)
  end.

Definition schedule_slice (parent_order_id symbol side order_type : string)
    (limit_price stop_price : option decimal) (time_in_force : string) (job_ids : list string) (d : SliceDetail)
    : M gw (list string) :=
  let id := job_id parent_order_id (sd_slice_num d) in
  _ ← add_job id {| job_run_date := sd_scheduled_time d; job_parent_order_id := parent_order_id; job_slice := d;
                    job_symbol := symbol; job_side := side; job_order_type := order_type;
                    job_limit_price := limit_price; job_stop_price := stop_price;
                    job_time_in_force := time_in_force |};
  mret (job_ids ++ [id]).

Definition schedule_slices (parent_order_id : string) (slices : list SliceDetail) (symbol side order_type : string)
    (limit_price stop_price : option decimal) (time_in_force : string) : M gw (list string) :=
  for_each (schedule_slice parent_order_id symbol side order_type limit_price stop_price time_in_force) [] slices.

(** ** Recovery after a restart *)

Definition _get_market_clock_snapshot (env : environment) (sch : SliceScheduler) : M gw MarketClockSnapshot :=
  match sch_market_clock_provider sch with
  | Some c => mret c
  | None =>
      if negb (sch_executor sch) then mret {| mc_is_open := true; mc_next_open := None |}
      else try_except
        (clock ← get_market_clock env; mret {| mc_is_open := clock.1; mc_next_open := clock.2 |})
        (fun e => match e with
                  | AlpacaConnectionError _ | AlpacaRejectionError _ =>
                      Some (mret {| mc_is_open := false; mc_next_open := None |})
                  | _ => None
                  end)
  end.

Record recovery_counts := {
  rc_pending : nat; rc_scheduled : nat; rc_blocked : nat; rc_failed : nat; rc_canceled : nat;
  rc_expired : nat; rc_parents_expired : nat
}.

Definition no_counts (pending : nat) : recovery_counts := {|
  rc_pending := pending; rc_scheduled := 0; rc_blocked := 0; rc_failed := 0; rc_canceled := 0;
  rc_expired := 0; rc_parents_expired := 0 |}.

(** The locals of the loop. *)
Record recovery := {
  r_counts : recovery_counts;
  r_canceled_parents : gset string;
  r_expired_parents : gset string
}.

Definition add_counts (scheduled blocked failed canceled expired parents_expired : nat) (c : recovery_counts) : recovery_counts := {|
  rc_pending := rc_pending c; rc_scheduled := rc_scheduled c + scheduled; rc_blocked := rc_blocked c + blocked;
  rc_failed := rc_failed c + failed; rc_canceled := rc_canceled c + canceled; rc_expired := rc_expired c + expired;
  rc_parents_expired := rc_parents_expired c + parents_expired |}.

Definition counting (f : recovery_counts -> recovery_counts) (l : recovery) : recovery := {|
  r_counts := f (r_counts l); r_canceled_parents := r_canceled_parents l; r_expired_parents := r_expired_parents l |}.

(** A status written with the recovery's time. *)
Definition mark_at (env : environment) (recovery_now : Z) (id status message : string) : M gw (option order_row) :=
  call env (fun now => in_db (update_order_status_cas now id (manual_update recovery_now status None (Some message)))).

Definition fail_slice (env : environment) (recovery_now : Z) (id message : string) (l : recovery) : M gw recovery :=
  _ ← mark_at env recovery_now id "failed" message; mret (counting (add_counts 0 0 1 0 0 0) l).

(** Lines 515-579: when to run the slice, or the reason it cannot run. *)
Definition run_time_of (env : environment) (sch : SliceScheduler) (recovery_now scheduled_time : Z)
    : M gw (string + Z) :=
  if scheduled_time <? recovery_now then
    let within_grace := recovery_now - scheduled_time <=? sch_misfire_grace_seconds sch * second_us in
    market_clock ← _get_market_clock_snapshot env sch;
    if mc_is_open market_clock then mret (inr recovery_now)
    else match mc_next_open market_clock with
         | None => mret (inl (if within_grace then "Market closed and next open unavailable during recovery"
                              else "Slice missed grace period and next open unavailable"))
         | Some next_open => mret (inr next_open)
         end
  else mret (inr scheduled_time).

(** The job of a recovered slice. *)
Definition job_of (x : OrderDetail) (parent_order_id : string) (slice_num run_time : Z) : slice_job :=
  let c := o_core x.2 in {|
  job_run_date := run_time; job_parent_order_id := parent_order_id;
  job_slice := {| sd_slice_num := slice_num; sd_qty := o_qty c; sd_scheduled_time := run_time;
                  sd_client_order_id := x.1; sd_strategy_id := o_strategy_id c; sd_status := o_status (o_exec x.2) |};
  job_symbol := o_symbol c; job_side := o_side c; job_order_type := o_order_type c;
  job_limit_price := o_limit_price c; job_stop_price := o_stop_price c; job_time_in_force := o_time_in_force c |}.

(** Lines 581-622 *)
Definition reschedule (env : environment) (x : OrderDetail) (parent_order_id : string) (slice_num scheduled_time run_time : Z)
    (l : recovery) : M gw recovery :=
  _ ← (if negb (run_time =? scheduled_time) then
         _ ← call env (fun now => in_db (update_order_scheduled_time now x.1 run_time)); mret tt
       else mret tt);
  let id := job_id parent_order_id slice_num in
  jobs ← reads g_jobs;
  match dict_get id jobs with
  | Some _ => mret l
  | None =>
      _ ← add_job id (job_of x parent_order_id slice_num run_time);
      mret (counting (add_counts 1 0 0 0 0 0) l)
  end.

(** Lines 465-622: a slice of an active parent that is not stale. *)
Definition recover_live_slice (env : environment) (sch : SliceScheduler) (recovery_now : Z) (x : OrderDetail)
    (parent_order_id : string) (l : recovery) : M gw recovery :=
  tripped ← call env (fun _ => in_breaker Breaker.is_tripped);
  if tripped : bool then
    reason ← call env (fun _ => in_breaker Breaker.get_trip_reason);
    _ ← mark_at env recovery_now x.1 "blocked_circuit_breaker"
          ("Circuit breaker is tripped - reason: " +:+ default "None" reason);
    mret (counting (add_counts 0 1 0 0 0 0) l)
  else
    match o_scheduled_time (o_links x.2) with
    | None => fail_slice env recovery_now x.1 "Pending slice missing scheduled_time" l
    | Some scheduled_time =>
        match o_slice_num (o_links x.2) with
        | None => fail_slice env recovery_now x.1 "Pending slice missing slice_num" l
        | Some slice_num =>
            run_time ← run_time_of env sch recovery_now scheduled_time;
            match run_time with
            | inl message => fail_slice env recovery_now x.1 message l
            | inr run_time => reschedule env x parent_order_id slice_num scheduled_time run_time l
            end
        end
    end.

Definition allowed_parent_statuses : list string := ["accepted"; "submitted"; "submitted_unconfirmed"].
Definition terminal_parent_statuses : list string := ["canceled"; "expired"; "failed"].

(** One pass of the loop. *)
Definition recover_slice (env : environment) (sch : SliceScheduler) (recovery_now : Z) (l : recovery) (x : OrderDetail)
    : M gw recovery :=
  match o_parent_order_id (o_links x.2) with
  | None | Some "" => fail_slice env recovery_now x.1 "Pending slice missing parent_order_id" l
  | Some parent_order_id =>
      parent ← call env (fun _ => in_db (get_order_by_client_id parent_order_id));
      match parent with
      | None => fail_slice env recovery_now x.1 "Parent order missing for pending slice recovery" l
      | Some parent =>
          let parent_status := o_status (o_exec parent) in
          if one_of parent_status terminal_parent_statuses then
            if bool_decide (parent_order_id ∈ r_canceled_parents l) then mret l
            else
              canceled ← call env (fun now => in_db (cancel_pending_slices now parent_order_id));
              mret {| r_counts := add_counts 0 0 0 canceled 0 0 (r_counts l);
                      r_canceled_parents := {[ parent_order_id ]} ∪ r_canceled_parents l;
                      r_expired_parents := r_expired_parents l |}
          else if negb (one_of parent_status allowed_parent_statuses) then mret l
          else if _is_slice_stale sch x.2 recovery_now then
            _ ← mark_at env recovery_now x.1 "expired"
                  ("Slice expired: age exceeded " +:+ str_int (sch_stale_slice_expiry_seconds sch) +:+ "s threshold");
            mret {| r_counts := add_counts 0 0 0 0 1 0 (r_counts l); r_canceled_parents := r_canceled_parents l;
                    r_expired_parents := {[ parent_order_id ]} ∪ r_expired_parents l |}
          else recover_live_slice env sch recovery_now x parent_order_id l
      end
  end.

(** Lines 637-660: a parent whose children have all ended is expired with them. *)
Definition expire_parent (env : environment) (recovery_now : Z) (canceled_parents : gset string)
    (c : recovery_counts) (parent_id : string) : M gw recovery_counts :=
  if bool_decide (parent_id ∈ canceled_parents) then mret c
  else
    non_terminal_count ← call env (fun _ => in_db (count_non_terminal_children parent_id));
    if (non_terminal_count =? 0)%nat then
      _ ← mark_at env recovery_now parent_id "expired" "Parent expired: all child slices are in terminal state";
      mret (add_counts 0 0 0 0 0 1 c)
    else mret c.

(** The set of expired parents is walked in the order [set_order] gives. *)
Definition recover_zombie_slices (env : environment) (sch : SliceScheduler) (set_order : list string -> list string)
    (recovery_now : Z) : M gw recovery_counts :=
  pending_slices ← call env (fun _ => in_db get_pending_child_slices);
  match pending_slices with
  | [] => mret (no_counts 0)
  | _ =>
      l ← for_each (recover_slice env sch recovery_now)
            {| r_counts := no_counts (length pending_slices); r_canceled_parents := ∅; r_expired_parents := ∅ |}
            pending_slices;
      for_each (expire_parent env recovery_now (r_canceled_parents l)) (r_counts l)
        (set_order (elements (r_expired_parents l)))
  end.

(** ** Cancellation *)

Definition belongs_to (parent_order_id : string) (id : string) : bool :=
  String.prefix (parent_order_id +:+ "_slice_") id.

(** Removes the parent's jobs; how many there were. *)
Definition remove_jobs (parent_order_id : string) : M gw nat := fun s =>
  (Ok (length (filter (fun p : string * slice_job => belongs_to parent_order_id p.1 = true) (g_jobs s))),
   set_jobs (filter (fun p : string * slice_job => belongs_to parent_order_id p.1 = false) (g_jobs s)) s).

Definition cancel_remaining_slices (env : environment) (parent_order_id : string) : M gw (nat * nat) :=
  db_canceled ← call env (fun now => in_db (cancel_pending_slices now parent_order_id));
  canceled_count ← remove_jobs parent_order_id;
  mret (canceled_count, db_canceled).

(** ** What recovery schedules *)

(** The jobs a program adds to the ones that were there, all with [P]. *)
Definition adds {A} (P : string -> slice_job -> Prop) (m : M gw A) : Prop := forall s,
  exists new, g_jobs (snd (m s)) = g_jobs s ++ new /\ Forall (fun p => P p.1 p.2) new /\
    Forall (fun p => dict_get p.1 (g_jobs s) = None) new /\ NoDup new.*1.

Section adds.
Context (P : string -> slice_job -> Prop).

Lemma adds_none {A} (m : M gw A) : (forall s, g_jobs (snd (m s)) = g_jobs s) -> adds P m.
Proof. intros H s. exists []. rewrite app_nil_r. split_and!; [apply H|done|done|constructor]. Qed.

Lemma dict_get_app {A} k (d d' : dict A) : dict_get k (d ++ d') = match dict_get k d with Some a => Some a | None => dict_get k d' end.
Proof. induction d as [|[k' a] d IH]; simpl; [done|]. by case_decide. Qed.

Lemma dict_set_new {A} k (a : A) d : dict_get k d = None -> dict_set k a d = d ++ [(k, a)].
Proof. induction d as [|[k' a'] d IH]; simpl; [done|]. case_decide; [done|]. intros Hn. by rewrite IH. Qed.

Lemma adds_bind {A B} (m : M gw A) (f : A -> M gw B) : adds P m -> (forall a, adds P (f a)) -> adds P (m ≫= f).
Proof.
  intros Hm Hf s. destruct (Hm s) as (n1 & E1 & P1 & F1 & D1). rewrite M_bind_run.
  destruct (m s) as [[a|e] s1]; simpl in E1; [|by exists n1].
  destruct (Hf a s1) as (n2 & E2 & P2 & F2 & D2). exists (n1 ++ n2). rewrite E1 in F2.
  rewrite E2, E1, app_assoc, fmap_app. split_and!; [done|by apply Forall_app| |].
  - apply Forall_app. split; [done|]. eapply Forall_impl; [exact F2|]. intros x Hx. cbv beta in Hx. rewrite dict_get_app in Hx.
    by destruct (dict_get x.1 (g_jobs s)).
  - apply NoDup_app. split; [done|]. split; [|done]. intros k Hk1 Hk2.
    apply list_elem_of_fmap in Hk2 as (x & -> & Hx). rewrite Forall_forall in F2. specialize (F2 _ Hx). cbv beta in F2.
    rewrite dict_get_app in F2. destruct (dict_get x.1 (g_jobs s)); [done|]. by apply dict_get_none in F2.
Qed.

Lemma adds_job id j : P id j -> adds P (add_job id j).
Proof.
  intros Hj s. unfold add_job. destruct (dict_get id (g_jobs s)) eqn:E.
  - exists []. rewrite app_nil_r. split_and!; [done|done|done|constructor].
  - exists [(id, j)]. simpl. rewrite dict_set_new by done. split_and!; [done|by constructor|by constructor|apply NoDup_singleton].
Qed.

Lemma adds_for_each {A B} (f : B -> A -> M gw B) xs : (forall b x, adds P (f b x)) -> forall b, adds P (for_each f b xs).
Proof.
  intros Hf. induction xs as [|x xs IH]; intros b; [by apply adds_none|]. apply adds_bind; [apply Hf|apply IH].
Qed.
End adds.

Lemma jobs_call {A} env (m : Z -> M shared A) s : g_jobs (snd (call env m s)) = g_jobs s.
Proof. unfold call. destruct (fates env (g_calls s)); [by destruct (m _ _)|done..]. Qed.

Lemma adds_call {A} P env (m : Z -> M shared A) : adds P (call env m).
Proof. apply adds_none, jobs_call. Qed.

Lemma adds_ret {A} P (a : A) : adds P (mret a).
Proof. by apply adds_none. Qed.

(** The times recovery may choose: not in the past, or the next opening of a closed market. *)
Definition in_session (env : environment) (sch : SliceScheduler) (recovery_now t : Z) : Prop :=
  recovery_now <= t \/
  sch_market_clock_provider sch = Some {| mc_is_open := false; mc_next_open := Some t |} \/
  exists h, broker_api env h = Clock false (Some t).

Definition recovered_job (env : environment) (sch : SliceScheduler) (recovery_now : Z) (id : string) (j : slice_job) : Prop :=
  exists x parent n t, id = job_id parent n /\ j = job_of x parent n t /\
    o_status (o_exec x.2) = "pending_new" /\ o_parent_order_id (o_links x.2) = Some parent /\
    o_slice_num (o_links x.2) = Some n /\ _is_slice_stale sch x.2 recovery_now = false /\
    in_session env sch recovery_now t.

Section recovery.
Context (env : environment) (sch : SliceScheduler) (now : Z).
Let added {A} : M gw A -> Prop := adds (recovered_job env sch now).

Lemma snapshot_jobs s : g_jobs (snd (_get_market_clock_snapshot env sch s)) = g_jobs s.
Proof.
  unfold _get_market_clock_snapshot. destruct (sch_market_clock_provider sch); [done|].
  destruct (negb _); [done|]. unfold try_except. rewrite M_bind_run. unfold get_market_clock. rewrite M_bind_run.
  unfold ask_broker. destruct (broker_api env _); try done.
Qed.

(** A snapshot that is closed with a next opening was reported. *)
Lemma snapshot_reported s c t s' :
  _get_market_clock_snapshot env sch s = (Ok c, s') -> mc_is_open c = false -> mc_next_open c = Some t ->
  in_session env sch now t.
Proof.
  unfold _get_market_clock_snapshot. destruct (sch_market_clock_provider sch) as [p|] eqn:Ep.
  { intros [= -> _] H1 H2. right. left. rewrite Ep. by destruct c; simpl in *; subst. }
  destruct (negb _); [by intros [= <- _]|]. unfold try_except. rewrite M_bind_run. unfold get_market_clock.
  rewrite M_bind_run. unfold ask_broker.
  destruct (broker_api env (g_sent s ++ [GetClock])) eqn:E; try (by intros [= <- _]); try done.
  intros [= <- _] H1 H2. simpl in *. subst. right. right. by eexists.
Qed.

Lemma run_time_session t s r s' : run_time_of env sch now t s = (Ok (inr r), s') -> in_session env sch now r.
Proof.
  unfold run_time_of. destruct (Z.ltb_spec t now); [|intros [= <- _]; by left]. rewrite M_bind_run.
  destruct (_get_market_clock_snapshot env sch s) as [[c|e] s1] eqn:Es; [|done].
  destruct (mc_is_open c) eqn:Eo; [intros [= <- _]; by left|].
  destruct (mc_next_open c) as [n|] eqn:En; [|done]. intros [= <- _]. by eapply snapshot_reported.
Qed.

Lemma run_time_jobs t s : g_jobs (snd (run_time_of env sch now t s)) = g_jobs s.
Proof.
  unfold run_time_of. destruct (t <? now); [|done]. rewrite M_bind_run. pose proof (snapshot_jobs s) as H.
  destruct (_get_market_clock_snapshot env sch s) as [[c|e] s1]; [|done]. simpl in H |- *.
  destruct (mc_is_open c); [done|]. by destruct (mc_next_open c).
Qed.

Lemma adds_fail id m l : added (fail_slice env now id m l).
Proof. apply adds_bind; [apply adds_call|intros; apply adds_ret]. Qed.

Lemma adds_reschedule x parent n t r l :
  recovered_job env sch now (job_id parent n) (job_of x parent n r) -> added (reschedule env x parent n t r l).
Proof.
  intros H. apply adds_bind.
  { destruct (negb _); [|apply adds_ret]. apply adds_bind; [apply adds_call|intros; apply adds_ret]. }
  intros _. apply adds_bind; [by apply adds_none|]. intros jobs. destruct (dict_get _ jobs); [apply adds_ret|].
  apply adds_bind; [by apply adds_job|intros; apply adds_ret].
Qed.

Lemma adds_live x parent l :
  o_status (o_exec x.2) = "pending_new" -> o_parent_order_id (o_links x.2) = Some parent ->
  _is_slice_stale sch x.2 now = false -> added (recover_live_slice env sch now x parent l).
Proof.
  intros H1 H2 H3. apply adds_bind; [apply adds_call|]. intros [|].
  { apply adds_bind; [apply adds_call|]. intros r. apply adds_bind; [apply adds_call|intros; apply adds_ret]. }
  destruct (o_scheduled_time _) as [t|]; [|apply adds_fail]. destruct (o_slice_num _) as [n|] eqn:En; [|apply adds_fail].
  intros s. rewrite M_bind_run. pose proof (run_time_jobs t s) as Hj. pose proof (run_time_session t s) as Ht.
  destruct (run_time_of env sch now t s) as [[[m|r]|e] s1]; simpl in Hj; rewrite <- Hj.
  - apply adds_fail.
  - apply adds_reschedule. exists x, parent, n, r. split_and!; try done. by eapply Ht.
  - exists []. rewrite app_nil_r. split_and!; [done|done|done|constructor].
Qed.

Lemma adds_recover l x : o_status (o_exec x.2) = "pending_new" -> added (recover_slice env sch now l x).
Proof.
  intros H1. unfold recover_slice. destruct (o_parent_order_id (o_links x.2)) as [parent|] eqn:Ep; [|apply adds_fail].
  destruct parent as [|c p]; [apply adds_fail|]. set (parent := String c p) in *. clearbody parent.
  apply adds_bind; [apply adds_call|]. intros [prow|]; [|apply adds_fail]. cbv zeta.
  destruct (one_of _ terminal_parent_statuses).
  { destruct (bool_decide _); [apply adds_ret|]. apply adds_bind; [apply adds_call|intros; apply adds_ret]. }
  destruct (negb _); [apply adds_ret|]. destruct (_is_slice_stale _ _ _) eqn:Es; [|by apply adds_live].
  apply adds_bind; [apply adds_call|intros; apply adds_ret].
Qed.
End recovery.

(** What a read of pending slices returns is pending. *)
Lemma pending_read env s xs s' :
  call env (fun _ => in_db get_pending_child_slices) s = (Ok xs, s') ->
  Forall (fun x => o_status (o_exec x.2) = "pending_new") xs.
Proof.
  unfold call. destruct (fates env (g_calls s)); [|done..].
  unfold get_pending_child_slices. rewrite in_db_read. intros [= <- _]. apply Forall_forall. intros x.
  rewrite merge_sort_Permutation. unfold select_orders. destruct x as [k r].
  rewrite elem_of_map_to_list, map_lookup_filter_Some. intros [_ H]. simpl in H.
  apply andb_prop in H as [_ H]. by apply bool_decide_eq_true in H.
Qed.

Lemma adds_expire P env now canceled c p : adds P (expire_parent env now canceled c p).
Proof.
  unfold expire_parent. destruct (bool_decide _); [apply adds_ret|]. apply adds_bind; [apply adds_call|].
  intros [|n]; simpl; [|apply adds_ret]. apply adds_bind; [apply adds_call|intros; apply adds_ret].
Qed.

Lemma adds_recover_all env sch now xs : Forall (fun x => o_status (o_exec x.2) = "pending_new") xs ->
  forall l, adds (recovered_job env sch now) (for_each (recover_slice env sch now) l xs).
Proof.
  induction 1 as [|x xs Hx _ IH]; intros l; [by apply adds_none|]. apply adds_bind; [by apply adds_recover|apply IH].
Qed.

(** Recovery only adds jobs, whatever the other workers do and whichever calls fail: it never replaces
    or drops a job, adds none under an identifier in use, and every job it adds is the one of a pending
    slice that is not stale, under the slice's own identifier, due now or later or at the next opening. *)
Theorem recovered_jobs_in_session env sch set_order now s : exists new,
  g_jobs (snd (recover_zombie_slices env sch set_order now s)) = g_jobs s ++ new /\
  Forall (fun p => recovered_job env sch now p.1 p.2) new /\
  Forall (fun p => dict_get p.1 (g_jobs s) = None) new /\ NoDup new.*1.
Proof.
  unfold recover_zombie_slices. rewrite M_bind_run. pose proof (pending_read env s) as Hp.
  pose proof (jobs_call env (fun _ => in_db get_pending_child_slices) s) as Hj.
  destruct (call env _ s) as [[xs|e] s1]; simpl in Hj; rewrite <- Hj.
  2:{ exists []. rewrite app_nil_r. split_and!; [done|done|done|constructor]. }
  specialize (Hp xs s1 eq_refl). destruct xs as [|x xs]; [by apply adds_ret|].
  apply (adds_bind _ (for_each _ _ (x :: xs))); [by apply adds_recover_all|].
  intros l. apply adds_for_each. intros c p. apply adds_expire.
Qed.

(** ** A canceled parent *)

Lemma pending_child_canceled env parent s id row :
  quiet env -> db_orders (sh_db (g_shared s)) !! id = Some row -> pending_child parent row = true ->
  let s' := snd (cancel_remaining_slices env parent s) in
  blocked CanceledRow id (g_shared s').
Proof.
  intros Hq Hr Hp. unfold cancel_remaining_slices. rewrite M_bind_run, call_quiet by done. simpl.
  rewrite lookup_fmap, Hr. simpl. by rewrite Hp.
Qed.

Lemma cancel_run env parent s : quiet env -> exists n m,
  fst (cancel_remaining_slices env parent s) = Ok (n, m) /\
  g_jobs (snd (cancel_remaining_slices env parent s)) =
    filter (fun p : string * slice_job => belongs_to parent p.1 = false) (g_jobs s).
Proof.
  intros Hq. unfold cancel_remaining_slices. rewrite M_bind_run, call_quiet by done. by eexists _, _.
Qed.

(** The prefix tells parents apart: their identifiers all have the same length. *)
Lemma belongs_to_job parent parent' n :
  String.length parent = String.length parent' ->
  belongs_to parent (job_id parent' n) = bool_decide (parent = parent').
Proof.
  unfold belongs_to, job_id. revert parent'. induction parent as [|c p IH]; intros [|c' p'] Hl; [rewrite bool_decide_true by done; by destruct (str_int n)|discriminate..|].
  injection Hl as Hl. specialize (IH p' Hl).
  change (String.prefix _ _) with
    (if Ascii.ascii_dec c c' then String.prefix (p +:+ "_slice_") (p' +:+ "_slice_" +:+ str_int n) else false).
  destruct (Ascii.ascii_dec c c') as [->|Hc].
  - rewrite IH. apply bool_decide_ext. split; [by intros ->|by intros [= ->]].
  - rewrite bool_decide_false; [done|congruence].
Qed.

(** Cancelling the slices of a parent order is final: none of the parent's jobs is left and no other job
    is lost, and a job of one of its slices that was already taken up by a worker submits nothing later,
    as long as the other workers leave the canceled row canceled. *)
Theorem canceled_parent_sends_nothing env parent s : quiet env ->
  let s' := snd (cancel_remaining_slices env parent s) in
  (forall id j, (id, j) ∈ g_jobs s' <-> (id, j) ∈ g_jobs s /\ belongs_to parent id = false) /\
  (forall parent' n, String.length parent = String.length parent' ->
     belongs_to parent (job_id parent' n) = bool_decide (parent = parent')) /\
  forall env' executor j row,
    db_orders (sh_db (g_shared s)) !! job_id_of j = Some row -> pending_child parent row = true ->
    infra_faults env' -> stable env' (blocked CanceledRow (job_id_of j)) ->
    g_sent (snd (_execute_slice_job_wrapper env' executor j s')) = g_sent s'.
Proof.
  intros Hq s'. split_and!; [|apply belongs_to_job|].
  - intros id j. destruct (cancel_run env parent s Hq) as (n & m & _ & E). unfold s'. rewrite E, list_elem_of_filter. naive_solver.
  - intros env' executor j row Hr Hp Hf Hs.
    destruct (attempt_blocked env' executor j CanceledRow s' Hf Hs) as [Ha Hk].
    { by eapply pending_child_canceled. }
    rewrite wrapper_attempt by exact Ha. apply Hk.
Qed.

(** ** Scheduling a plan *)

Definition plan_job (parent symbol side order_type : string) (lp sp : option decimal) (tif : string) (d : SliceDetail)
    : string * slice_job :=
  (job_id parent (sd_slice_num d),
   {| job_run_date := sd_scheduled_time d; job_parent_order_id := parent; job_slice := d; job_symbol := symbol;
      job_side := side; job_order_type := order_type; job_limit_price := lp; job_stop_price := sp;
      job_time_in_force := tif |}).

Lemma schedule_slices_run parent symbol side ot lp sp tif ds : forall ids s,
  NoDup (sd_slice_num <$> ds) ->
  Forall (fun d => dict_get (job_id parent (sd_slice_num d)) (g_jobs s) = None) ds ->
  for_each (schedule_slice parent symbol side ot lp sp tif) ids ds s =
    (Ok (ids ++ ((fun d => job_id parent (sd_slice_num d)) <$> ds)),
     set_jobs (g_jobs s ++ (plan_job parent symbol side ot lp sp tif <$> ds)) s).
Proof.
  induction ds as [|d ds IH]; intros ids s Hnd Hf; simpl.
  - rewrite !app_nil_r. by destruct s.
  - apply NoDup_cons in Hnd as [Hn Hnd]. apply Forall_cons in Hf as [Hd Hf].
    rewrite M_bind_run. unfold schedule_slice at 1. rewrite M_bind_run. unfold add_job. rewrite Hd. simpl.
    rewrite dict_set_new by done. rewrite IH; simpl; [by rewrite <- !app_assoc|done|].
    rewrite Forall_forall in Hf |- *. intros d' Hd'. rewrite dict_get_app, (Hf d' Hd'). simpl.
    rewrite decide_False; [done|]. unfold job_id. intros E. apply Hn, list_elem_of_fmap. exists d'. split; [|done].
    by apply (inj (String.append _)), (inj (String.append _)), (inj str_int) in E.
Qed.

Lemma schedule_conflict parent symbol side ot lp sp tif d ds ids s :
  dict_get (job_id parent (sd_slice_num d)) (g_jobs s) <> None ->
  for_each (schedule_slice parent symbol side ot lp sp tif) ids (d :: ds) s =
    (Raise (KeyError (job_id parent (sd_slice_num d))), s).
Proof.
  intros H. simpl. rewrite M_bind_run. unfold schedule_slice at 1. rewrite M_bind_run. unfold add_job.
  by destruct (dict_get _ (g_jobs s)).
Qed.

(** A plan is scheduled once: when none of its identifiers is in use every slice gets one job under
    its own identifier, in the plan's order, and the other jobs stay; a slice whose identifier is in
    use raises, with the jobs of the slices before it left in place. *)
Theorem schedule_slices_once parent symbol side ot lp sp tif ds s :
  NoDup (sd_slice_num <$> ds) ->
  Forall (fun d => dict_get (job_id parent (sd_slice_num d)) (g_jobs s) = None) ds ->
  let s' := set_jobs (g_jobs s ++ (plan_job parent symbol side ot lp sp tif <$> ds)) s in
  schedule_slices parent ds symbol side ot lp sp tif s = (Ok ((fun d => job_id parent (sd_slice_num d)) <$> ds), s') /\
  forall d ds', dict_get (job_id parent (sd_slice_num d)) (g_jobs s') <> None ->
    schedule_slices parent (ds ++ d :: ds') symbol side ot lp sp tif s =
      (Raise (KeyError (job_id parent (sd_slice_num d))), s').
Proof.
  intros Hn Hf s'. pose proof (schedule_slices_run parent symbol side ot lp sp tif ds [] s Hn Hf) as E.
  split; [exact E|]. intros d ds' Hd. unfold schedule_slices.
  rewrite for_each_app, E. by apply schedule_conflict.
Qed.

(** ** Examples *)

Definition ex_parent : order_row := {|
  o_core := o_core ex_row; o_exec := new_exec "accepted" None None None;
  o_links := {| o_parent_order_id := None; o_slice_num := None; o_total_slices := Some 1; o_scheduled_time := None;
                o_replaced_order_id := None |};
  o_metadata := Some empty_meta; o_created_at := 1; o_updated_at := 1 |}.

Definition ex_child : order_row := {|
  o_core := o_core ex_row; o_exec := new_exec "pending_new" None None None;
  o_links := {| o_parent_order_id := Some "p1"; o_slice_num := Some 0; o_total_slices := None;
                o_scheduled_time := Some 5; o_replaced_order_id := None |};
  o_metadata := Some empty_meta; o_created_at := 1; o_updated_at := 1 |}.

(** The parent [p1] and its pending slice [o1]. *)
Definition ex_family (jobs : dict slice_job) : gw := {|
  g_shared := set_db (set_orders (insert "p1" ex_parent) (sample_db ex_child)) (ex_shared ex_child (ex_kill false));
  g_jobs := jobs; g_sent := []; g_calls := 0 |}.

Definition ex_sch : SliceScheduler := {|
  sch_executor := true; sch_market_clock_provider := None; sch_misfire_grace_seconds := 60;
  sch_stale_slice_expiry_seconds := 0 |}.

(** The broker says the market is closed until 900. *)
Definition ex_closed (h : list broker_request) : broker_reply := Clock false (Some 900).

Example recovery_waits_for_the_opening :
  let out := recover_zombie_slices (ex_env ex_closed) ex_sch id 50 (ex_family []) in
  job_run_date <$> (snd <$> g_jobs (snd out)) = [900] /\ fst <$> g_jobs (snd out) = ["p1_slice_0"] /\
  (o_scheduled_time ∘ o_links <$> db_orders (sh_db (g_shared (snd out))) !! "o1") = Some (Some 900).
Proof. vm_compute. by split_and!. Qed.

Lemma canceled_parent_sends_nothing_witness :
  let s' := snd (cancel_remaining_slices (ex_env ex_accepts) "p1" (ex_family [("p1_slice_0", ex_job)])) in
  g_jobs s' = [] /\ g_sent (snd (_execute_slice_job_wrapper (ex_env ex_accepts) true ex_job s')) = [].
Proof.
  pose proof (canceled_parent_sends_nothing (ex_env ex_accepts) "p1" (ex_family [("p1_slice_0", ex_job)]) (ex_quiet _)) as H.
  split; [reflexivity|]. destruct H as (_ & _ & H).
  refine (H (ex_env ex_accepts) true ex_job ex_child eq_refl eq_refl _ _).
  - intros n e [E|E]; discriminate E.
  - intros n sh E. exact E.
Defined.

Lemma schedule_slices_once_witness :
  let d := job_slice ex_job in
  exists s', schedule_slices "p1" [d] "AAPL" "buy" "market" None None "day" (ex_family []) = (Ok ["p1_slice_0"], s') /\
    schedule_slices "p1" [d; d] "AAPL" "buy" "market" None None "day" (ex_family []) = (Raise (KeyError "p1_slice_0"), s').
Proof.
  destruct (schedule_slices_once "p1" "AAPL" "buy" "market" None None "day" [job_slice ex_job] (ex_family [])) as [H1 H2].
  - vm_compute. apply NoDup_singleton.
  - constructor; [reflexivity|constructor].
  - eexists. split; [exact H1|]. apply (H2 (job_slice ex_job) []). vm_compute. discriminate.
Defined.
