(* ===== verification/ReconHelpers.v ===== *)
(** * Pure helpers of reconciliation (apps/execution_gateway/reconciliation/helpers.py)

    The gap-closing synthetic fill, the notional estimate, the identifier of
    an activity without one, and the merge of the broker's order lists. *)

From S2P Require Import Prelude PyDecimal Nano PyText OrderStatus OrderSchema GatewayDb OrderCas FillOps PyDict.
From Stdlib Require Import QArith.
Open Scope Z_scope.

(** A broker order as the Alpaca client returns it; timestamps in microseconds. *)
Record broker_order := {
  b_id : option string;
  b_client_order_id : option string;
  b_symbol : option string;
  b_side : option string;
  b_qty : option decimal;
  b_notional : option decimal;
  b_limit_price : option decimal;
  b_filled_qty : option decimal;
  b_filled_avg_price : option decimal;
  b_status : option string;
  b_created_at : option Z;
  b_updated_at : option Z;
  b_filled_at : option Z
}.

(** [x or Decimal("0")]: a zero is falsy. *)
Definition or_zero (x : option decimal) : decimal :=
  match x with Some q => if coef q =? 0 then dzero else q | None => dzero end.

(** [s or default] for strings *)
Definition or_text (x : option string) (d : string) : string :=
  match x with Some "" => d | Some s => s | None => d end.

(** ** [calculate_synthetic_fill] *)

Record fill_sums := { real_fill_qty : decimal; synthetic_fill_qty : decimal }.

Definition add_fill (x : fill_sums) (f : fill_rec) : fill_sums :=
  if f_superseded f then x
  else if f_synthetic f then
    {| real_fill_qty := real_fill_qty x; synthetic_fill_qty := dadd (synthetic_fill_qty x) (f_fill_qty f) |}
  else {| real_fill_qty := dadd (real_fill_qty x) (f_fill_qty f); synthetic_fill_qty := synthetic_fill_qty x |}.

Definition sum_fills (fills : list fill_rec) : fill_sums :=
  foldl add_fill {| real_fill_qty := dzero; synthetic_fill_qty := dzero |} fills.

(** [str(d).replace(".", "_")] *)
Definition dots_to_underscores (s : string) : string :=
  of_chars ((fun c => if is_char 46 c then chr 95 else c) <$> chars s).

Definition synthetic_fill_id (client_order_id source : string) (filled missing : decimal) : string :=
  client_order_id +:+ "_" +:+ source +:+ "_" +:+ dots_to_underscores (str_decimal filled)
    +:+ "_" +:+ dots_to_underscores (str_decimal missing).

Definition calculate_synthetic_fill (client_order_id : string) (filled_qty filled_avg_price : decimal)
    (timestamp : Z) (existing_fills : list fill_rec) (source : string) : result (option fill_rec) :=
  let sums := sum_fills existing_fills in
  if dleb filled_qty (real_fill_qty sums) then Ok None
  else
    let missing_qty := dsub (dsub filled_qty (real_fill_qty sums)) (synthetic_fill_qty sums) in
    if dleb missing_qty dzero then Ok None
    else
      fractional ← dfractional missing_qty;
      Ok (Some {| f_fill_id := synthetic_fill_id client_order_id source filled_qty missing_qty;
                  f_fill_qty := if (fractional : bool) then missing_qty else of_int (dint missing_qty);
                  f_fill_price := filled_avg_price; f_realized_pl := Some dzero;
                  f_timestamp := Some timestamp; f_source := Some source;
                  f_synthetic := true; f_superseded := false |}).

(** ** [estimate_notional] *)

Definition estimate_notional (o : broker_order) : decimal :=
  match b_notional o with
  | Some n => n
  | None =>
      let qty := or_zero (b_qty o) in
      match b_limit_price o with
      | Some p => dmul qty p
      | None => match b_filled_avg_price o with Some p => dmul qty p | None => dzero end
      end
  end.

(** ** [generate_fill_id_from_activity] *)

(** A FILL activity: its texts, the quantity and price they denote, and the
    instants of its timestamps. *)
Record activity := {
  a_id : option string;
  a_order_id : option string;
  a_symbol : option string;
  a_side : option string;
  a_qty : decimal;
  a_price : decimal;
  a_transaction_time : option (string * Z);
  a_activity_time : option (string * Z)
}.

(** [str(x or "")] *)
Definition text_or_empty (x : option string) : string := default "" x.
Definition number_or_empty (d : decimal) : string := str_decimal d.

Definition activity_payload (a : activity) : string :=
  "activity_time=" +:+ text_or_empty (fst <$> a_activity_time a) +:+
  "|broker_order_id=" +:+ text_or_empty (a_order_id a) +:+
  "|id_hint=" +:+ text_or_empty (a_id a) +:+
  "|price=" +:+ number_or_empty (a_price a) +:+
  "|qty=" +:+ number_or_empty (a_qty a) +:+
  "|side=" +:+ text_or_empty (a_side a) +:+
  "|symbol=" +:+ text_or_empty (a_symbol a) +:+
  "|transaction_time=" +:+ text_or_empty (fst <$> a_transaction_time a).

Definition generate_fill_id_from_activity (a : activity) : string :=
  sprefix 32 (Sha256.hexdigest (encode (activity_payload a))).

(** ** [merge_broker_orders] *)

(** [order.get("updated_at") or order.get("created_at")] *)
Definition stamp (o : broker_order) : option Z :=
  match b_updated_at o with Some t => Some t | None => b_created_at o end.

(** Is [new] to replace [old]? *)
Definition newer (old new : option Z) : bool :=
  match new with
  | Some t => match old with Some t' => t' <? t | None => true end
  | None => false
  end.

Definition merge_order (d : dict broker_order) (o : broker_order) : dict broker_order :=
  match b_client_order_id o with
  | None | Some "" => d
  | Some client_id =>
      match dict_get client_id d with
      | None => dict_set client_id o d
      | Some existing => if newer (stamp existing) (stamp o) then dict_set client_id o d else d
      end
  end.

Definition merge_broker_orders (open_orders recent_orders : list broker_order) : dict broker_order :=
  foldl merge_order [] (open_orders ++ recent_orders).

Definition extract_broker_client_ids (orders : list broker_order) : list string :=
  omap b_client_order_id orders.

(** ** The broker behind [AlpacaExecutor] (alpaca_client.py): the answers of the Alpaca API, a service outside the
    repository; reconciliation takes them as an argument, each a value or an exception. *)

(** An open position at the broker. *)
Record broker_position := {
  bp_symbol : string;
  bp_qty : option decimal;
  bp_avg_entry_price : option decimal;
  bp_current_price : option decimal
}.

Record broker := {
  (** [get_orders(status, limit=500, after)] *)
  br_orders : string -> option Z -> result (list broker_order);
  (** [get_order_by_client_id] *)
  br_order_by_client_id : string -> result (option broker_order);
  (** [get_all_positions] *)
  br_positions : result (list broker_position);
  (** [get_account_activities("FILL", after, until, page_size, page_token, direction="desc")] *)
  br_activities : Z -> Z -> nat -> option string -> result (list activity)
}.

(** ** Lemmas *)

(** What the fills that count amount to: the real and the synthetic ones not superseded. *)
Definition real_qty (fs : list fill_rec) : Z :=
  Zsum ((fun f => if f_superseded f || f_synthetic f then 0 else nano (f_fill_qty f)) <$> fs).
Definition synthetic_qty (fs : list fill_rec) : Z :=
  Zsum ((fun f => if negb (f_superseded f) && f_synthetic f then nano (f_fill_qty f) else 0) <$> fs).
Definition all_qty (fs : list fill_rec) : Z := Zsum ((fun f => nano (f_fill_qty f)) <$> fs).

Definition good_qty (d : decimal) : Prop := is_nano d /\ 0 <= nano d.

Lemma sum_fills_from fs r y :
  Forall (fun f => good_qty (f_fill_qty f)) fs -> good_qty r -> good_qty y ->
  nano r + nano y + all_qty fs < 10 ^ 28 ->
  let x := foldl add_fill {| real_fill_qty := r; synthetic_fill_qty := y |} fs in
  good_qty (real_fill_qty x) /\ good_qty (synthetic_fill_qty x) /\
  nano (real_fill_qty x) = nano r + real_qty fs /\ nano (synthetic_fill_qty x) = nano y + synthetic_qty fs.
Proof.
  intros Hfs. revert r y. induction Hfs as [|f fs Hf Hfs IH]; intros r y Hr Hy Hb.
  - unfold real_qty, synthetic_qty. simpl. rewrite !Z.add_0_r. done.
  - assert (Hnn : 0 <= all_qty fs).
    { apply Zsum_nonneg, Forall_fmap. eapply Forall_impl; [exact Hfs|]. by intros f' [_ H]. }
    unfold all_qty in Hb, Hnn. rewrite fmap_cons, Zsum_cons in Hb. fold (all_qty fs) in Hb, Hnn.
    destruct Hr as [Hr1 Hr2], Hy as [Hy1 Hy2], Hf as [Hf1 Hf2].
    unfold real_qty, synthetic_qty. rewrite !fmap_cons, !Zsum_cons.
    fold (real_qty fs) (synthetic_qty fs).
    cbn [foldl]. unfold add_fill at 2 4 6 8. cbn [real_fill_qty synthetic_fill_qty].
    destruct (f_superseded f); cbn [orb negb andb].
    + rewrite !Z.add_0_l. apply IH; [done..|lia].
    + destruct (f_synthetic f); cbn [orb negb andb].
      * destruct (dadd_nano y (f_fill_qty f)) as [Hn Hv]; [done|done|lia|].
        rewrite !Z.add_0_l, Z.add_assoc, <- Hv.
        assert (Hg : good_qty (dadd y (f_fill_qty f))) by (split; [done|lia]).
        apply IH; try done; rewrite Hv; lia.
      * destruct (dadd_nano r (f_fill_qty f)) as [Hn Hv]; [done|done|lia|].
        rewrite !Z.add_0_l, Z.add_assoc, <- Hv.
        assert (Hg : good_qty (dadd r (f_fill_qty f))) by (split; [done|lia]).
        apply IH; try done; rewrite Hv; lia.
Qed.

Lemma good_zero : good_qty dzero.
Proof. split; [unfold is_nano; simpl; lia | unfold nano, scaled; simpl; lia]. Qed.

Lemma sum_fills_nano fs :
  Forall (fun f => good_qty (f_fill_qty f)) fs -> all_qty fs < 10 ^ 28 ->
  good_qty (real_fill_qty (sum_fills fs)) /\ good_qty (synthetic_fill_qty (sum_fills fs)) /\
  nano (real_fill_qty (sum_fills fs)) = real_qty fs /\
  nano (synthetic_fill_qty (sum_fills fs)) = synthetic_qty fs.
Proof.
  intros Hfs Hb. change (sum_fills fs)
    with (foldl add_fill {| real_fill_qty := dzero; synthetic_fill_qty := dzero |} fs).
  destruct (sum_fills_from fs dzero dzero Hfs good_zero good_zero) as (H1 & H2 & H3 & H4); [done|].
  change (nano dzero) with 0 in *. rewrite Z.add_0_l in H3, H4. done.
Qed.

Lemma live_parts fs : Forall (fun f => good_qty (f_fill_qty f)) fs ->
  0 <= real_qty fs /\ 0 <= synthetic_qty fs /\ real_qty fs + synthetic_qty fs <= all_qty fs.
Proof.
  intros Hfs. unfold real_qty, synthetic_qty, all_qty.
  induction Hfs as [|f fs [_ Hf] _ IH]; [simpl; lia|].
  rewrite !fmap_cons, !Zsum_cons. destruct (f_superseded f), (f_synthetic f); simpl; lia.
Qed.

(** What the function answers, in integers. *)
Lemma synthetic_fill_spec id filled price t fs src :
  Forall (fun f => good_qty (f_fill_qty f)) fs -> good_qty filled -> nano filled + all_qty fs < 10 ^ 28 ->
  let gap := nano filled - real_qty fs - synthetic_qty fs in
  (gap <= 0 -> calculate_synthetic_fill id filled price t fs src = Ok None) /\
  (0 < gap -> exists f, calculate_synthetic_fill id filled price t fs src = Ok (Some f) /\
     nano (f_fill_qty f) = gap /\ is_nano (f_fill_qty f) /\ f_synthetic f = true /\
     f_superseded f = false /\ f_fill_price f = price /\ f_realized_pl f = Some dzero).
Proof.
  intros Hfs [Hf1 Hf2] Hb gap. destruct (live_parts fs Hfs) as (Hr & Hy & Hle).
  destruct (sum_fills_nano fs Hfs) as ([G1 _] & [G2 _] & E1 & E2); [lia|].
  unfold calculate_synthetic_fill. rewrite dleb_nano, E1 by done.
  destruct (dsub_nano filled (real_fill_qty (sum_fills fs))) as [D1 D2]; [done|done|rewrite E1; lia|].
  rewrite E1 in D2.
  destruct (dsub_nano (dsub filled (real_fill_qty (sum_fills fs))) (synthetic_fill_qty (sum_fills fs)))
    as [D3 D4]; [done|done|rewrite D2, E2; lia|].
  rewrite D2, E2 in D4. fold gap in D4.
  rewrite dleb_nano, D4 by (done || apply good_zero). change (nano dzero) with 0.
  destruct (nano filled <=? real_qty fs) eqn:Ec; boolify.
  - split; [done|]. unfold gap. lia.
  - destruct (gap <=? 0) eqn:Eg; boolify; [by split; [|lia]|]. split; [lia|]. intros _.
    destruct (stored_qty_nano _ D3) as (fr & -> & Hn & Hi); [lia|].
    eexists. split; [reflexivity|]. cbn [f_fill_qty f_synthetic f_superseded f_fill_price f_realized_pl].
    rewrite Hn. by split_and!.
Qed.

Lemma live_snoc fs f : f_superseded f = false -> f_synthetic f = true ->
  real_qty (fs ++ [f]) = real_qty fs /\
  synthetic_qty (fs ++ [f]) = synthetic_qty fs + nano (f_fill_qty f) /\
  all_qty (fs ++ [f]) = all_qty fs + nano (f_fill_qty f).
Proof.
  intros H1 H2. unfold real_qty, synthetic_qty, all_qty. rewrite !fmap_app, !Zsum_app. simpl.
  rewrite H1, H2. simpl. lia.
Qed.

(** *** The merge *)

(** [merge_order] on a dict that holds the newest order of each identifier. *)
Record merged (l : list broker_order) (d : dict broker_order) : Prop := {
  md_keys : NoDup d.*1;
  md_found : forall k o, dict_get k d = Some o -> o ∈ l /\ b_client_order_id o = Some k /\ k <> "";
  md_newest : forall k o, o ∈ l -> b_client_order_id o = Some k -> k <> "" ->
    exists best, dict_get k d = Some best /\ newer (stamp best) (stamp o) = false
}.

Lemma newer_refl t : newer t t = false.
Proof. destruct t as [t|]; [apply Z.ltb_irrefl | done]. Qed.

Lemma newer_trans a b c : newer a b = true -> newer a c = false \/ newer b c = false -> newer b c = false.
Proof.
  destruct a as [a|], b as [b|], c as [c|]; simpl; try (intros; tauto); try done; rewrite ?Z.ltb_ge, ?Z.ltb_lt; lia.
Qed.

Lemma merge_step l d o : merged l d -> merged (l ++ [o]) (merge_order d o).
Proof.
  intros [Hk Hf Hn]. unfold merge_order.
  assert (Hkeep : (forall k, b_client_order_id o = Some k -> k <> "" ->
            exists best, dict_get k d = Some best /\ newer (stamp best) (stamp o) = false) ->
          merged (l ++ [o]) d).
  { intros Ho. split; [done| |].
    - intros k x Hx. apply Hf in Hx as (? & ? & ?). split; [|done]. apply elem_of_app. by left.
    - intros k x [Hx|Hx]%elem_of_app; [by apply Hn|]. apply list_elem_of_singleton in Hx as ->. apply Ho. }
  assert (Hset : forall k, b_client_order_id o = Some k -> k <> "" ->
            (forall b, dict_get k d = Some b -> newer (stamp b) (stamp o) = true) ->
          merged (l ++ [o]) (dict_set k o d)).
  { intros k Ho Hk0 Hb. split; [by apply dict_set_nodup| |].
    - intros k' x. rewrite dict_get_set. case_decide as E.
      + intros [= <-]. subst. split; [apply elem_of_app; right; by left|done].
      + intros Hx. apply Hf in Hx as (? & ? & ?). split; [|done]. apply elem_of_app. by left.
    - intros k' x Hx Hx' Hk'. rewrite dict_get_set. case_decide as E.
      + subst k'. eexists. split; [done|]. apply elem_of_app in Hx as [Hx|Hx].
        * destruct (Hn k x Hx Hx' Hk') as (b & Hb' & Hnb). specialize (Hb b Hb').
          eapply newer_trans; [exact Hb|by left].
        * apply list_elem_of_singleton in Hx as ->. apply newer_refl.
      + apply elem_of_app in Hx as [Hx|Hx]; [by apply Hn|].
        apply list_elem_of_singleton in Hx as ->. congruence. }
  destruct (b_client_order_id o) as [k|] eqn:Ek; [|apply Hkeep; by intros k [=]].
  destruct (decide (k = "")) as [->|Hne]; [apply Hkeep; by intros k [= <-]|].
  assert (Hgoal : merged (l ++ [o])
    match dict_get k d with
    | None => dict_set k o d
    | Some existing => if newer (stamp existing) (stamp o) then dict_set k o d else d end).
  { destruct (dict_get k d) as [b|] eqn:Eb; [|apply Hset; [done|done|intros b; congruence]].
    destruct (newer (stamp b) (stamp o)) eqn:En.
    - apply Hset; [done|done|]. intros b' Hb'. congruence.
    - apply Hkeep. intros k' [= <-] _. exists b. by rewrite Eb. }
  by destruct k.
Qed.

Lemma merge_merged l1 l2 : merged (l1 ++ l2) (merge_broker_orders l1 l2).
Proof.
  unfold merge_broker_orders. induction (l1 ++ l2) as [|o l IH] using rev_ind.
  - split; [apply NoDup_nil_2|done|]. intros k o Ho. by apply elem_of_nil in Ho.
  - rewrite foldl_app. by apply merge_step.
Qed.

(** ** Properties *)

(** The synthetic fill closes the gap to the broker, and once: on
    quantities of at most nine decimals (and fewer than 28 digits in all) the
    function never raises; it answers a fill exactly when the fills that count
    amount to less than the broker's filled quantity; that fill is for exactly
    the missing quantity, at the broker's price; and asked again with it
    recorded, the function answers none. *)
Theorem synthetic_fill_closes_gap (id src : string) (filled price : decimal) (t : Z) (fs : list fill_rec)
    (Hfs : Forall (fun f => good_qty (f_fill_qty f)) fs) (Hfilled : good_qty filled)
    (Hbound : 2 * nano filled + all_qty fs < 10 ^ 28) :
  exists o, calculate_synthetic_fill id filled price t fs src = Ok o /\
    (is_Some o <-> real_qty fs + synthetic_qty fs < nano filled) /\
    (forall f, o = Some f ->
       f_synthetic f = true /\ f_superseded f = false /\ f_fill_price f = price /\
       real_qty (fs ++ [f]) + synthetic_qty (fs ++ [f]) = nano filled /\
       calculate_synthetic_fill id filled price t (fs ++ [f]) src = Ok None).
Proof.
  destruct (live_parts fs Hfs) as (Hr & Hy & Hle). pose proof (proj2 Hfilled) as Hf0.
  destruct (synthetic_fill_spec id filled price t fs src Hfs Hfilled) as [Hno Hyes]; [lia|].
  destruct (Z_le_gt_dec (nano filled - real_qty fs - synthetic_qty fs) 0) as [Hg|Hg].
  - exists None. split; [by apply Hno|]. split; [|done]. split; [by intros []|lia].
  - destruct Hyes as (f & Hf & Hq & Hi & Hs & Hu & Hp & _); [lia|].
    exists (Some f). split; [done|]. split; [split; [lia|by eexists]|]. intros f' [= <-].
    destruct (live_snoc fs f Hu Hs) as (E1 & E2 & E3). split_and!; try done; [lia|].
    assert (Hfs' : Forall (fun f => good_qty (f_fill_qty f)) (fs ++ [f])).
    { apply Forall_app. split; [done|]. repeat constructor; [done|lia]. }
    apply (synthetic_fill_spec id filled price t (fs ++ [f]) src Hfs' Hfilled); [lia|]. lia.
Qed.

(** The merged dict has one entry per client order id that occurs in the
    lists, and it is an order of that id with the newest update (or creation)
    time. *)
Theorem merge_keeps_newest (open_orders recent_orders : list broker_order) :
  let l := open_orders ++ recent_orders in
  let d := merge_broker_orders open_orders recent_orders in
  NoDup d.*1 /\
  (forall k o, dict_get k d = Some o -> o ∈ l /\ b_client_order_id o = Some k) /\
  (forall k o, o ∈ l -> b_client_order_id o = Some k -> k <> "" ->
     exists best, dict_get k d = Some best /\
       match stamp o, stamp best with
       | Some to, Some tb => to <= tb
       | None, _ => True
       | Some _, None => False
       end).
Proof.
  intros l d. destruct (merge_merged open_orders recent_orders) as [H1 H2 H3]. fold l d in H1, H2, H3.
  split_and!; [done| |].
  - intros k o Hk. by apply H2 in Hk as (? & ? & _).
  - intros k o Ho Hk Hne. destruct (H3 k o Ho Hk Hne) as (best & Hb & Hn). exists best. split; [done|].
    destruct (stamp o) as [a|], (stamp best) as [b|]; simpl in Hn; boolify; done.
Qed.

(** ** Witnesses *)

Definition ex_fill (q : decimal) (syn : bool) : fill_rec := {|
  f_fill_id := "f"; f_fill_qty := q; f_fill_price := Dec 100 0; f_realized_pl := None; f_timestamp := None;
  f_source := None; f_synthetic := syn; f_superseded := false |}.

Lemma synthetic_fill_closes_gap_witness :
  exists o, calculate_synthetic_fill "o1" (Dec 105 (-1)) (Dec 100 0) 7 [ex_fill (Dec 4 0) false; ex_fill (Dec 25 (-1)) true] "recon"
    = Ok o /\ is_Some o.
Proof.
  destruct (synthetic_fill_closes_gap "o1" "recon" (Dec 105 (-1)) (Dec 100 0) 7
    [ex_fill (Dec 4 0) false; ex_fill (Dec 25 (-1)) true]) as (o & Ho & Hi & _).
  - repeat constructor; vm_compute; congruence.
  - split; vm_compute; congruence.
  - vm_compute. reflexivity.
  - exists o. split; [exact Ho|]. apply Hi. vm_compute. reflexivity.
Defined.
