(* ===== verification/ReconFills.v ===== *)
(** * Fill backfill (apps/execution_gateway/reconciliation/fills.py)

    Fills fetched page by page from the broker's activities and booked in one
    transaction ([backfill_alpaca_fills]); synthetic fills that close the gap
    between the broker's filled quantity and the recorded fills
    ([backfill_fill_metadata], [backfill_fill_metadata_from_order]); and the
    scan for filled orders without fills.  Times are microseconds. *)

From S2P Require Import Prelude PyDecimal Nano PyText OrderStatus OrderSchema GatewayDb.
From S2P Require Import OrderCas FillOps PyDict ReconHelpers.
Open Scope Z_scope.

Definition hour_us : Z := 3600 * second_us.

(** The keyword arguments of [backfill_alpaca_fills]. *)
Record backfill_config := {
  fills_backfill_enabled : bool;
  fills_backfill_initial_lookback_hours : Z;
  fills_backfill_page_size : nat;
  fills_backfill_max_pages : nat;
  overlap_seconds : Z
}.

(** [except Exception: ... return d] around a database operation. *)
Definition or_else_return {A} (d : A) (m : M db A) : M db A := fun s =>
  match m s with
  | (Ok a, s') => (Ok a, s')
  | (Raise _, s') => (Ok d, s')
  end.

(** ** [backfill_alpaca_fills] *)

Definition after_time (now : Z) (c : backfill_config) (lookback_hours last_check : option Z) : Z :=
  match lookback_hours with
  | Some h => now - h * hour_us
  | None =>
      match last_check with
      | Some t => t - overlap_seconds c * second_us
      | None => now - fills_backfill_initial_lookback_hours c * hour_us
      end
  end.

(** [str(item.get("id"))] *)
Definition id_text (a : activity) : string := default "None" (a_id a).

(** The pagination loop, [pages] of them left; [token] is both the page token
    and the last activity seen. *)
Fixpoint fetch_pages (br : broker) (after until : Z) (page_size pages : nat) (token : option string)
    : result (list activity) :=
  match pages with
  | O => Ok []
  | S pages' =>
      let size := match token with Some _ => S page_size | None => page_size end in
      raw_page ← br_activities br after until size token;
      match last raw_page with
      | None => Ok []
      | Some final =>
          let page := match token with
                      | Some t => filter (fun a => id_text a <> t) raw_page
                      | None => raw_page end in
          if (length raw_page <? size)%nat then Ok page
          else
            match a_id final with
            | None | Some "" => Ok page
            | Some last_id =>
                rest ← fetch_pages br after until page_size pages' (Some last_id);
                Ok (page ++ rest)
            end
      end
  end.

(** [fill.get("transaction_time") or fill.get("activity_time")] *)
Definition activity_time (a : activity) : option Z :=
  match a_transaction_time a with Some (_, t) => Some t | None => snd <$> a_activity_time a end.

Definition activity_fill_id (a : activity) : string :=
  let id := strip (default "" (a_id a)) in
  if bool_decide (id = "") then generate_fill_id_from_activity a else id.

Definition fill_of_activity (a : activity) : fill_rec := {|
  f_fill_id := activity_fill_id a; f_fill_qty := a_qty a; f_fill_price := a_price a;
  f_realized_pl := Some dzero; f_timestamp := activity_time a; f_source := Some "alpaca_activity";
  f_synthetic := false; f_superseded := false |}.

(** The matching loop: fills per order, affected (strategy, symbol) pairs, unmatched count. *)
Record matching := {
  fills_by_client : dict (list fill_rec);
  affected : list (string * string);
  unmatched : nat
}.

Definition no_matching : matching := {| fills_by_client := []; affected := []; unmatched := 0 |}.

Definition order_of_activity (orders : list (string * OrderDetail)) (a : activity) : option OrderDetail :=
  match a_order_id a with
  | None | Some "" => None
  | Some broker_order_id => dict_get broker_order_id orders
  end.

Definition add_once {A} `{EqDecision A} (x : A) (l : list A) : list A :=
  if bool_decide (x ∈ l) then l else l ++ [x].

Definition match_fill (orders : list (string * OrderDetail)) (m : matching) (a : activity) : matching :=
  match order_of_activity orders a with
  | None => {| fills_by_client := fills_by_client m; affected := affected m; unmatched := S (unmatched m) |}
  | Some (client_order_id, order) =>
      {| fills_by_client := dict_set client_order_id
           (default [] (dict_get client_order_id (fills_by_client m)) ++ [fill_of_activity a]) (fills_by_client m);
         affected := add_once (o_strategy_id (o_core order), o_symbol (o_core order)) (affected m);
         unmatched := unmatched m |}
  end.

Definition match_fills (orders : list (string * OrderDetail)) (fills : list activity) : matching :=
  foldl (match_fill orders) no_matching fills.

Definition insert_fill (now : Z) (client_order_id : string) (inserted : nat) (f : fill_rec) : M db nat :=
  updated ← append_fill_to_order_metadata now client_order_id f;
  mret (match updated with Some _ => S inserted | None => inserted end).

Definition insert_fills (now : Z) (inserted : nat) (x : string * list fill_rec) : M db nat :=
  for_each (insert_fill now x.1) inserted x.2.

(** A failed recalculation raises RuntimeError, which rolls everything back. *)
Definition recalculate_pair (recalc_all : bool) (updates : nat) (p : string * string) : M db nat := fun s =>
  match recalculate_trade_realized_pnl p.1 p.2 recalc_all None s with
  | (Ok (_, n), s') => (Ok (updates + n)%nat, s')
  | (Raise _, s') => (Raise (RuntimeError ("P&L recalculation failed for " +:+ p.1 +:+ ":" +:+ p.2)), s')
  end.

Inductive backfill_result :=
| BackfillDisabled
| BackfillOk (fills_seen fills_inserted n_unmatched pnl_updates : nat).

Definition hwm_name : string := "alpaca_fills".

Definition backfill_alpaca_fills (br : broker) (now : Z) (c : backfill_config) (lookback_hours : option Z)
    (recalc_all_trades : bool) : M db backfill_result :=
  if negb (fills_backfill_enabled c) && bool_decide (lookback_hours = None) then mret BackfillDisabled
  else
    last_check ← get_reconciliation_high_water_mark hwm_name;
    fills ← lift (fetch_pages br (after_time now c lookback_hours last_check) now
                    (fills_backfill_page_size c) (fills_backfill_max_pages c) None);
    match fills with
    | [] => _ ← set_reconciliation_high_water_mark now hwm_name; mret (BackfillOk 0 0 0 0)
    | _ =>
        orders ← get_orders_by_broker_ids (omap a_order_id fills);
        let m := match_fills orders fills in
        counts ← transaction (
          inserted ← for_each (insert_fills now) 0%nat (fills_by_client m);
          updates ← for_each (recalculate_pair recalc_all_trades) 0%nat (affected m);
          mret (inserted, updates));
        _ ← set_reconciliation_high_water_mark now hwm_name;
        mret (BackfillOk (length fills) counts.1 (unmatched m) counts.2)
    end.

(** ** Synthetic fills *)

(** [order.metadata.get("fills", [])]: a NULL metadata is not a dict. *)
Definition existing_fills (r : order_row) : result (list fill_rec) :=
  match o_metadata r with
  | Some m => Ok (default [] (m_fills m))
  | None => Raise (TypeError "metadata")
  end.

Definition with_source (src : string) (f : fill_rec) : fill_rec := {|
  f_fill_id := f_fill_id f; f_fill_qty := f_fill_qty f; f_fill_price := f_fill_price f;
  f_realized_pl := f_realized_pl f; f_timestamp := f_timestamp f; f_source := Some src;
  f_synthetic := f_synthetic f; f_superseded := f_superseded f |}.

(** The body both variants share: compute the fill, store it under [stored]. *)
Definition inject_synthetic (now : Z) (client_order_id : string) (filled_qty filled_avg_price : decimal)
    (timestamp : Z) (order : option order_row) (src stored : string) : M db bool :=
  match order with
  | None => mret false
  | Some r =>
      fills ← lift (existing_fills r);
      fill ← lift (calculate_synthetic_fill client_order_id filled_qty filled_avg_price timestamp fills src);
      match fill with
      | None => mret false
      | Some f => _ ← append_fill_to_order_metadata now client_order_id (with_source stored f); mret true
      end
  end.

Definition backfill_fill_metadata (now : Z) (client_order_id : string) (o : broker_order)
    (updated_at : option Z) (cached_order : option order_row) : M db bool :=
  or_else_return false (
    let timestamp := default (default now (stamp o)) updated_at in
    match b_filled_avg_price o with
    | None => mret false
    | Some price =>
        transaction (
          order ← match cached_order with
                  | Some r => mret (Some r)
                  | None => get_order_for_update client_order_id end;
          inject_synthetic now client_order_id (or_zero (b_filled_qty o)) price timestamp order
            "recon" "reconciliation_backfill")
    end).

Definition backfill_fill_metadata_from_order (now : Z) (client_order_id : string) (order : order_row)
    : M db bool :=
  or_else_return false (
    match o_filled_avg_price (o_exec order), o_filled_qty (o_exec order) with
    | Some price, Some qty =>
        let timestamp := default (o_updated_at order) (o_filled_at (o_exec order)) in
        transaction (
          locked ← get_order_for_update client_order_id;
          inject_synthetic now client_order_id qty price timestamp locked
            "recon_db" "reconciliation_db_backfill")
    | _, _ => mret false
    end).

Definition count_backfill (now : Z) (n : nat) (x : OrderDetail) : M db nat :=
  done ← backfill_fill_metadata_from_order now x.1 x.2;
  mret (if (done : bool) then S n else n).

Definition backfill_missing_fills_scan (now : Z) (limit : Z) : M db nat :=
  or_else_return 0%nat (
    orders ← get_filled_orders_missing_fills limit;
    for_each (count_backfill now) 0%nat orders).

(** ** Lemmas *)

(** Recorded in the order's metadata. *)
Definition booked (s : db) (client_order_id : string) (f : fill_rec) : Prop :=
  exists r, db_orders s !! client_order_id = Some r /\ has_fill (f_fill_id f) r = true.

(** What booking fills keeps: the constraints, the fills already booked, and
    everything about an order but its metadata. *)
Record books_only (s s' : db) : Prop := {
  bo_wf : db_wf s';
  bo_booked : forall id f, booked s id f -> booked s' id f;
  bo_orders : forall id, (fun r => (o_core r, o_exec r)) <$> db_orders s' !! id
                       = (fun r => (o_core r, o_exec r)) <$> db_orders s !! id
}.

Lemma books_only_refl s : db_wf s -> books_only s s.
Proof. by split. Qed.

Lemma books_only_trans s1 s2 s3 : books_only s1 s2 -> books_only s2 s3 -> books_only s1 s3.
Proof.
  intros [_ B1 O1] [W B2 O2]. split; [done| |].
  - intros id f H. by apply B2, B1.
  - intros id. by rewrite O2.
Qed.

Lemma books_only_order s s' id : books_only s s' -> is_Some (db_orders s !! id) -> is_Some (db_orders s' !! id).
Proof.
  intros [_ _ O] [r Hr]. specialize (O id). rewrite Hr in O.
  destruct (db_orders s' !! id) as [r'|]; [by eexists|done].
Qed.

Lemma has_fill_booked_row now f g r :
  has_fill g (booked_row now f r) = has_fill g r || bool_decide (g = f_fill_id f).
Proof.
  unfold has_fill. rewrite booked_ids. rewrite <- bool_decide_or. apply bool_decide_ext.
  rewrite elem_of_app, list_elem_of_singleton. done.
Qed.

(** Booking one fill of an order on record: it succeeds, once. *)
Lemma insert_fill_run now id n f s :
  db_wf s -> is_Some (db_orders s !! id) -> f_fill_id f <> "" ->
  exists k s', insert_fill now id n f s = (Ok k, s') /\ books_only s s' /\ booked s' id f /\ (n <= k <= S n)%nat.
Proof.
  intros Hwf [r Hr] Hf. unfold insert_fill, mbind, M_bind.
  destruct (has_fill (f_fill_id f) r) eqn:Eh.
  - rewrite (append_known now id f s r Hr Eh). eexists _, _. split; [reflexivity|].
    split; [by apply books_only_refl|]. split; [by exists r|lia].
  - destruct (append_new now id f s r Hwf Hr Hf Eh) as (s' & E & Hw & Ho & _ & _). rewrite E.
    eexists _, _. split; [reflexivity|]. split.
    + split; [done| |].
      * intros id' g (r' & Hr' & Hg). destruct (decide (id' = id)) as [->|Hne].
        -- exists (booked_row now f r). rewrite Ho, lookup_insert_eq, has_fill_booked_row. split; [done|].
           rewrite Hr in Hr'. injection Hr' as <-. by rewrite Hg.
        -- exists r'. by rewrite Ho, lookup_insert_ne.
      * intros id'. rewrite Ho. destruct (decide (id' = id)) as [->|Hne].
        -- rewrite lookup_insert_eq, Hr. simpl. by destruct (booked_exec now f r) as [-> ->].
        -- by rewrite lookup_insert_ne.
    + split; [|lia]. exists (booked_row now f r). rewrite Ho, lookup_insert_eq, has_fill_booked_row.
      split; [done|]. rewrite bool_decide_eq_true_2 by done. apply orb_true_r.
Qed.

Lemma insert_fill_again now id n f s : f_fill_id f <> "" -> booked s id f -> insert_fill now id n f s = (Ok n, s).
Proof.
  intros _ (r & Hr & Hf). unfold insert_fill, mbind, M_bind. by rewrite (append_known now id f s r Hr Hf).
Qed.

Lemma insert_fills_run now id fs : forall n s,
  db_wf s -> is_Some (db_orders s !! id) -> Forall (fun f => f_fill_id f <> "") fs ->
  exists k s', for_each (insert_fill now id) n fs s = (Ok k, s') /\ books_only s s' /\
    Forall (booked s' id) fs /\ (n <= k <= n + length fs)%nat.
Proof.
  induction fs as [|f fs IH]; intros n s Hwf Ho Hf; simpl.
  - eexists _, _. split; [reflexivity|]. split; [by apply books_only_refl|]. split; [constructor|lia].
  - apply Forall_cons in Hf as [Hf Hfs].
    destruct (insert_fill_run now id n f s Hwf Ho Hf) as (k1 & s1 & E1 & B1 & K1 & L1).
    destruct (IH k1 s1) as (k & s' & E & B & K & L); [apply B1|by eapply books_only_order|done|].
    eexists _, _. split; [unfold mbind, M_bind; rewrite E1; exact E|].
    split; [by eapply books_only_trans|]. split; [|lia]. constructor; [|done]. by apply B.
Qed.

Lemma insert_fills_again now id fs n s :
  Forall (fun f => f_fill_id f <> "") fs -> Forall (booked s id) fs ->
  for_each (insert_fill now id) n fs s = (Ok n, s).
Proof.
  induction fs as [|f fs IH]; intros Hf Hb; [done|].
  apply Forall_cons in Hf as [Hf Hfs]. apply Forall_cons in Hb as [Hb Hbs]. simpl.
  unfold mbind, M_bind. rewrite insert_fill_again by done. by apply IH.
Qed.

(** Fills of orders on record, with identifiers. *)
Definition bookable (s : db) (d : dict (list fill_rec)) : Prop :=
  Forall (fun x => is_Some (db_orders s !! x.1) /\ Forall (fun f => f_fill_id f <> "") x.2) d.

Fixpoint fill_count (d : dict (list fill_rec)) : nat :=
  match d with [] => 0 | (_, fs) :: d' => length fs + fill_count d' end.

Lemma booking_run now d : forall n s, db_wf s -> bookable s d ->
  exists k s', for_each (insert_fills now) n d s = (Ok k, s') /\ books_only s s' /\
    Forall (fun x => Forall (booked s' x.1) x.2) d /\ (n <= k <= n + fill_count d)%nat.
Proof.
  unfold bookable. induction d as [|[id fs] d IH]; intros n s Hwf Hd.
  - eexists _, _. split; [reflexivity|]. split; [by apply books_only_refl|]. split; [constructor|simpl; lia].
  - apply Forall_cons in Hd as [[Ho Hf] Hd]. simpl in Ho, Hf.
    destruct (insert_fills_run now id fs n s Hwf Ho Hf) as (k1 & s1 & E1 & B1 & K1 & L1).
    destruct (IH k1 s1) as (k & s' & E & B & K & L).
    { apply B1. }
    { eapply Forall_impl; [exact Hd|]. intros x [Hx Hfx]. split; [by eapply books_only_order|done]. }
    eexists _, _. split; [cbn [for_each]; unfold mbind, M_bind; unfold insert_fills at 1; simpl; rewrite E1; exact E|].
    split; [by eapply books_only_trans|]. split.
    + constructor; [|done]. simpl. eapply Forall_impl; [exact K1|]. intros f. apply B.
    + simpl. lia.
Qed.

Lemma booking_again now d n s :
  bookable s d -> Forall (fun x => Forall (booked s x.1) x.2) d ->
  for_each (insert_fills now) n d s = (Ok n, s).
Proof.
  induction d as [|[id fs] d IH]; intros Hd Hb; [done|].
  apply Forall_cons in Hd as [[_ Hf] Hd]. apply Forall_cons in Hb as [Hb Hbs].
  cbn [for_each]. unfold mbind, M_bind. unfold insert_fills at 1. simpl.
  rewrite insert_fills_again by done. by apply IH.
Qed.

(** Every activity is matched to one order or counted as unmatched. *)
Lemma match_fills_count orders fills m :
  (fill_count (fills_by_client (foldl (match_fill orders) m fills)) +
   unmatched (foldl (match_fill orders) m fills) =
   fill_count (fills_by_client m) + unmatched m + length fills)%nat.
Proof.
  revert m. induction fills as [|a fills IH]; intros m; simpl; [lia|]. rewrite IH.
  unfold match_fill. destruct (order_of_activity orders a) as [[id o]|]; simpl; [|lia].
  assert (Hset : forall d : dict (list fill_rec), fill_count
      (dict_set id (default [] (dict_get id d) ++ [fill_of_activity a]) d) = S (fill_count d)).
  { induction d as [|[k fs] d IHd]; [done|]. simpl.
    case_decide as E; simpl; [rewrite length_app; simpl; lia|]. rewrite IHd. lia. }
  rewrite Hset. lia.
Qed.

Lemma slen_nonempty s : slen s <> 0%nat -> s <> "".
Proof. by intros H ->. Qed.

Lemma activity_fill_id_nonempty a : activity_fill_id a <> "".
Proof.
  unfold activity_fill_id. case_bool_decide as E; [|done].
  apply slen_nonempty. unfold generate_fill_id_from_activity.
  rewrite slen_sprefix; [done|]. rewrite hexdigest_length. lia.
Qed.

Lemma order_by_broker_id_ok id s cid r :
  order_by_broker_id id s = Some (cid, r) -> db_orders s !! cid = Some r.
Proof.
  unfold order_by_broker_id. case_bool_decide; [done|]. intros H1.
  apply head_Some_elem_of in H1. unfold select_orders in H1.
  apply elem_of_map_to_list, map_lookup_filter_Some in H1. by destruct H1.
Qed.

Lemma orders_by_broker_ids_ok (ids : list string) s (id : string) cid r :
  (id, (cid, r)) ∈ omap (fun id => pair id <$> order_by_broker_id id s) ids -> db_orders s !! cid = Some r.
Proof.
  intros H. apply list_elem_of_omap in H as (x & _ & Hx).
  destruct (order_by_broker_id x s) as [[c r']|] eqn:E; [|done]. simpl in Hx. injection Hx as _ -> ->.
  by eapply order_by_broker_id_ok.
Qed.

Lemma bookable_set s d id fs :
  bookable s d -> is_Some (db_orders s !! id) -> Forall (fun f => f_fill_id f <> "") fs ->
  bookable s (dict_set id fs d).
Proof.
  unfold bookable. intros Hd Ho Hf. induction Hd as [|[k x] d [H1 H2] Hd IH]; simpl; [by repeat constructor|].
  case_decide; constructor; done.
Qed.

Lemma bookable_get s d id fs : bookable s d -> dict_get id d = Some fs -> Forall (fun f => f_fill_id f <> "") fs.
Proof.
  intros Hd Hg. apply dict_get_in in Hg. unfold bookable in Hd. eapply Forall_forall in Hd as [_ H]; [|exact Hg]. done.
Qed.

(** What matching produces can be booked. *)
Lemma match_fills_bookable s orders fills m :
  (forall id cid r, (id, (cid, r)) ∈ orders -> is_Some (db_orders s !! cid)) ->
  bookable s (fills_by_client m) -> bookable s (fills_by_client (foldl (match_fill orders) m fills)).
Proof.
  intros Ho. revert m. induction fills as [|a fills IH]; intros m Hm; [done|]. apply IH.
  unfold match_fill, order_of_activity.
  destruct (a_order_id a) as [bid|]; [|done]. destruct (decide (bid = "")) as [->|Hne]; [done|].
  replace (match bid with "" => None | _ => dict_get bid orders end) with (dict_get bid orders) by (by destruct bid).
  destruct (dict_get bid orders) as [[cid r]|] eqn:E; [|done]. simpl.
  apply bookable_set; [done|eapply Ho; by apply dict_get_in|].
  apply Forall_app. split; [|repeat constructor; apply activity_fill_id_nonempty].
  destruct (dict_get cid (fills_by_client m)) as [fs|] eqn:Ed; [|constructor]. by eapply bookable_get.
Qed.

(** A page is at most as long as the client asked for. *)
Definition pages_capped (br : broker) : Prop :=
  forall after until size token page, br_activities br after until size token = Ok page -> (length page <= size)%nat.

Lemma fetch_pages_capped br after until size pages token fills :
  pages_capped br -> fetch_pages br after until size pages token = Ok fills ->
  (length fills <= pages * S size)%nat.
Proof.
  intros Hc. revert token fills. induction pages as [|pages IH]; intros token fills; simpl; [by intros [= <-]|].
  set (sz := match token with Some _ => S size | None => size end).
  destruct (br_activities br after until sz token) as [raw|e] eqn:E; simpl; [|done].
  apply Hc in E. assert (Hsz : (sz <= S size)%nat) by (unfold sz; destruct token; lia).
  destruct (last raw) as [final|]; [|by intros [= <-]; simpl; lia].
  set (page := match token with Some t => filter (fun a => id_text a <> t) raw | None => raw end).
  assert (Hp : (length page <= S size)%nat).
  { unfold page. destruct token as [t|]; [|lia]. etransitivity; [apply length_filter|]. lia. }
  destruct (length raw <? sz)%nat; [intros [= <-]; lia|].
  destruct (a_id final) as [lid|]; [|intros [= <-]; lia].
  destruct (decide (lid = "")) as [->|Hne]; [intros [= <-]; lia|].
  assert (Hgo : (rest ← fetch_pages br after until size pages (Some lid); Ok (page ++ rest)) = Ok fills ->
                (length fills <= S size + pages * S size)%nat).
  { destruct (fetch_pages br after until size pages (Some lid)) as [rest|e'] eqn:Ef; simpl; [|done].
    intros [= <-]. apply IH in Ef. rewrite length_app. lia. }
  by destruct lid.
Qed.

(** [backfill_alpaca_fills], outcome by outcome. *)
Lemma backfill_outcome br now c lookback recalc s r s' :
  backfill_alpaca_fills br now c lookback recalc s = (r, s') ->
  (exists e, r = Raise e /\ s' = s) \/
  (r = Ok BackfillDisabled /\ s' = s) \/
  (exists seen ins un up fills, r = Ok (BackfillOk seen ins un up) /\
     fetch_pages br (after_time now c lookback (db_high_water_marks s !! hwm_name)) now
       (fills_backfill_page_size c) (fills_backfill_max_pages c) None = Ok fills /\
     seen = length fills /\ db_high_water_marks s' !! hwm_name = Some now).
Proof.
  unfold backfill_alpaca_fills. destruct (_ && _); [intros [= <- <-]; right; by left|].
  unfold mbind at 1, M_bind at 1, get_reconciliation_high_water_mark, reads.
  unfold mbind at 1, M_bind at 1, lift.
  destruct (fetch_pages _ _ _ _ _ _) as [fills|e] eqn:Ef; [|intros [= <- <-]; left; by exists e].
  destruct fills as [|a fills].
  - intros [= <- <-]. right. right. exists 0%nat, 0%nat, 0%nat, 0%nat, [].
    split_and!; try done. simpl. by rewrite lookup_insert_eq.
  - unfold mbind at 1, M_bind at 1, get_orders_by_broker_ids, reads. unfold mbind at 1, M_bind at 1, transaction at 1.
    match goal with |- context [match ?m s with _ => _ end] => destruct (m s) as [[counts|e] s1] end;
      [|intros [= <- <-]; left; by exists e].
    intros [= <- <-]. right. right. do 5 eexists. split; [reflexivity|]. split; [done|]. split; [done|].
    simpl. by rewrite lookup_insert_eq.
Qed.

(** *** The synthetic fill in the database *)

Definition live_qty (r : order_row) : Z := real_qty (fills_of r) + synthetic_qty (fills_of r).

Lemma existing_fills_ok r : o_metadata r <> None -> existing_fills r = Ok (fills_of r).
Proof. unfold existing_fills, fills_of. by destruct (o_metadata r). Qed.

Lemma synthetic_fill_id_nonempty id src a b : synthetic_fill_id id src a b <> "".
Proof.
  apply slen_nonempty. unfold synthetic_fill_id. rewrite !slen_app.
  change (slen "_") with 1%nat. lia.
Qed.

Lemma synthetic_fill_has_id id filled price t fs src f :
  calculate_synthetic_fill id filled price t fs src = Ok (Some f) -> f_fill_id f <> "".
Proof.
  unfold calculate_synthetic_fill. destruct (dleb _ _); [done|]. destruct (dleb _ _); [done|].
  destruct (dfractional _) as [fr|e]; simpl; [|done]. intros [= <-]. apply synthetic_fill_id_nonempty.
Qed.

Lemma booked_synthetic now f r : f_synthetic f = true -> fills_of (booked_row now f r) = fills_of r ++ [f].
Proof. intros H. unfold booked_row. cbv zeta. rewrite H. apply fills_of_append. Qed.

Lemma with_source_fields src f :
  f_fill_id (with_source src f) = f_fill_id f /\ f_fill_qty (with_source src f) = f_fill_qty f /\
  f_synthetic (with_source src f) = f_synthetic f /\ f_superseded (with_source src f) = f_superseded f.
Proof. done. Qed.

(** Quantities of the order and the broker that sum exactly, with room for [k]
    times the broker's. *)
Record gap_exact (k : Z) (r : order_row) (filled : decimal) : Prop := {
  ge_meta : o_metadata r <> None;
  ge_fills : Forall (fun f => good_qty (f_fill_qty f)) (fills_of r);
  ge_filled : good_qty filled;
  ge_bound : k * nano filled + all_qty (fills_of r) < 10 ^ 28
}.

Lemma inject_none now id filled price t r src stored s :
  gap_exact 1 r filled -> nano filled <= live_qty r ->
  inject_synthetic now id filled price t (Some r) src stored s = (Ok false, s).
Proof.
  intros [Hm Hf Hq Hb] Hle. unfold inject_synthetic, mbind, M_bind, lift.
  rewrite existing_fills_ok by done. pose proof (proj2 Hq).
  destruct (synthetic_fill_spec id filled price t (fills_of r) src Hf Hq) as [Hno _]; [lia|].
  unfold live_qty in Hle. by rewrite Hno by lia.
Qed.

Lemma inject_some now id filled price t r src stored s :
  db_wf s -> db_orders s !! id = Some r -> gap_exact 2 r filled -> live_qty r < nano filled ->
  (forall f, calculate_synthetic_fill id filled price t (fills_of r) src = Ok (Some f) ->
     has_fill (f_fill_id f) r = false) ->
  exists r' s', inject_synthetic now id filled price t (Some r) src stored s = (Ok true, s') /\
    db_wf s' /\ db_orders s' = <[id := r']> (db_orders s) /\ db_positions s' = db_positions s /\
    o_exec r' = o_exec r /\ o_core r' = o_core r /\ gap_exact 1 r' filled /\ live_qty r' = nano filled /\
    (ledger_ok r -> ledger_ok r').
Proof.
  intros Hwf Hr [Hm Hf Hq Hb] Hlt Hnew. pose proof (proj2 Hq) as Hq0.
  destruct (live_parts (fills_of r) Hf) as (L1 & L2 & L3).
  destruct (synthetic_fill_spec id filled price t (fills_of r) src Hf Hq) as [_ Hyes]; [lia|].
  unfold live_qty in Hlt. destruct Hyes as (f & Hc & Hn & Hi & Hs & Hu & _); [lia|].
  pose proof (Hnew f Hc) as Hh. pose proof (synthetic_fill_has_id _ _ _ _ _ _ _ Hc) as Hid.
  set (g := with_source stored f).
  destruct (append_new now id g s r Hwf Hr Hid Hh) as (s' & E & Hw & Ho & Hp & _).
  destruct (booked_exec now g r) as [Ee Ec].
  destruct (live_snoc (fills_of r) g Hu Hs) as (S1 & S2 & S3).
  change (nano (f_fill_qty g)) with (nano (f_fill_qty f)) in S2, S3.
  exists (booked_row now g r), s'. split_and!; try done.
  - unfold inject_synthetic, mbind, M_bind, lift. rewrite existing_fills_ok, Hc by done.
    fold g. by rewrite E.
  - split; rewrite ?(booked_synthetic now g r Hs); try done.
    + unfold booked_row. cbv zeta. change (f_synthetic g) with (f_synthetic f). by rewrite Hs.
    + apply Forall_app. split; [done|]. apply Forall_singleton. split; [done|].
      change (nano (f_fill_qty g)) with (nano (f_fill_qty f)). lia.
    + rewrite S3. lia.
  - unfold live_qty. rewrite (booked_synthetic now g r Hs), S1, S2. lia.
  - by apply booked_ledger.
Qed.

(** ** Properties *)

(** Booking what the activities API returned: every activity is matched to
    one order or counted as unmatched; the matched fills are all booked, the
    constraints and everything but the metadata of the orders kept; and
    booking the same fills again, as the overlapping windows of later runs do,
    inserts nothing and changes nothing. *)
Theorem activities_booked_once (now : Z) (s : db) (fills : list activity) (Hwf : db_wf s) :
  let orders := omap (fun id => pair id <$> order_by_broker_id id s) (omap a_order_id fills) in
  let m := match_fills orders fills in
  (get_orders_by_broker_ids (omap a_order_id fills) s).1 = Ok orders /\
  (fill_count (fills_by_client m) + unmatched m = length fills)%nat /\
  exists n s1, for_each (insert_fills now) 0%nat (fills_by_client m) s = (Ok n, s1) /\
    db_wf s1 /\ (n <= fill_count (fills_by_client m))%nat /\
    Forall (fun x => Forall (booked s1 x.1) x.2) (fills_by_client m) /\
    (forall id, (fun r => (o_core r, o_exec r)) <$> db_orders s1 !! id
              = (fun r => (o_core r, o_exec r)) <$> db_orders s !! id) /\
    (forall now', for_each (insert_fills now') 0%nat (fills_by_client m) s1 = (Ok 0%nat, s1)).
Proof.
  intros orders m. split; [done|]. split.
  { unfold m, match_fills. by rewrite match_fills_count. }
  assert (Hd : bookable s (fills_by_client m)).
  { apply match_fills_bookable; [|constructor]. intros id cid r Hin. eexists.
    by eapply orders_by_broker_ids_ok. }
  destruct (booking_run now _ 0%nat s Hwf Hd) as (n & s1 & E & B & K & L).
  exists n, s1. split_and!; [done|apply B|lia|done|apply B|].
  intros now'. apply booking_again; [|done].
  eapply Forall_impl; [exact Hd|]. intros x [Hx Hf]. split; [by eapply books_only_order|done].
Qed.

(** A backfill run is all or nothing: a run that raises, in the broker's
    API, while booking or in the profit recalculation, leaves the whole
    database as it was, high-water mark included; a disabled run does nothing;
    and a run that returns leaves the mark at its own time. *)
Theorem backfill_all_or_nothing (br : broker) (now : Z) (c : backfill_config) (lookback : option Z)
    (recalc : bool) (s : db) :
  match backfill_alpaca_fills br now c lookback recalc s with
  | (Raise _, s') | (Ok BackfillDisabled, s') => s' = s
  | (Ok (BackfillOk seen _ _ _), s') => db_high_water_marks s' !! hwm_name = Some now
  end.
Proof.
  destruct (backfill_alpaca_fills br now c lookback recalc s) as [r s'] eqn:E.
  apply backfill_outcome in E as [(e & -> & ->)|[(-> & ->)|(seen & ins & un & up & fills & -> & _ & _ & H)]]; done.
Qed.

(** The window moves on whether or not it was read to its end: a run sees
    at most [max_pages * (page_size + 1)] fills, newest first, and then sets the
    mark to its own time, so the next run asks only for what is newer than
    that less the overlap; older fills beyond the last page are never asked
    for again. *)
Theorem backfill_window_moves_past_unread (br : broker) (now now' : Z) (c : backfill_config)
    (recalc : bool) (s s' : db) (seen ins un up : nat) (Hcap : pages_capped br)
    (Hrun : backfill_alpaca_fills br now c None recalc s = (Ok (BackfillOk seen ins un up), s')) :
  (seen <= fills_backfill_max_pages c * S (fills_backfill_page_size c))%nat /\
  after_time now' c None (db_high_water_marks s' !! hwm_name) = now - overlap_seconds c * second_us.
Proof.
  apply backfill_outcome in Hrun as [(e & [=] & _)|[([=] & _)|(? & ? & ? & ? & fills & [= <- <- <- <-] & Hf & -> & Hh)]].
  split; [by eapply fetch_pages_capped|]. by rewrite Hh.
Qed.

(** C36. [backfill_fill_metadata] brings the recorded fills of an order up to
    what the broker reports, once: it injects a fill exactly when less is
    recorded, after which the fills that count amount to the broker's filled
    quantity, the order's profit total is still the sum over its fills, and
    its status and position are untouched; run again, it does nothing. *)
Theorem backfill_reaches_broker_quantity (now : Z) (id : string) (o : broker_order) (t : option Z)
    (s : db) (r : order_row) (price : decimal)
    (Hwf : db_wf s) (Hr : db_orders s !! id = Some r) (Hprice : b_filled_avg_price o = Some price)
    (Hexact : gap_exact 2 r (or_zero (b_filled_qty o)))
    (Hnew : forall f t, calculate_synthetic_fill id (or_zero (b_filled_qty o)) price t (fills_of r) "recon"
              = Ok (Some f) -> has_fill (f_fill_id f) r = false) :
  let filled := nano (or_zero (b_filled_qty o)) in
  (filled <= live_qty r -> backfill_fill_metadata now id o t None s = (Ok false, s)) /\
  (live_qty r < filled ->
   exists r' s', backfill_fill_metadata now id o t None s = (Ok true, s') /\ db_wf s' /\
     db_orders s' = <[id := r']> (db_orders s) /\ db_positions s' = db_positions s /\
     o_exec r' = o_exec r /\ live_qty r' = filled /\ (ledger_ok r -> ledger_ok r') /\
     forall now' t', backfill_fill_metadata now' id o t' None s' = (Ok false, s')).
Proof.
  intros filled.
  assert (Hrun : forall now t s r, db_orders s !! id = Some r ->
    backfill_fill_metadata now id o t None s =
    or_else_return false (transaction (inject_synthetic now id (or_zero (b_filled_qty o)) price
      (default (default now (stamp o)) t) (Some r) "recon" "reconciliation_backfill")) s).
  { intros now1 t1 s1 r1 Hr1. unfold backfill_fill_metadata. cbv zeta. rewrite Hprice.
    unfold or_else_return, transaction, mbind at 1, M_bind at 1, get_order_for_update,
      get_order_by_client_id, reads. by rewrite Hr1. }
  split; intros Hle.
  - rewrite (Hrun now t s r Hr). unfold or_else_return, transaction. rewrite inject_none; try done.
    destruct Hexact as [H1 H2 H3 H4]. split; try done. pose proof (proj2 H3). lia.
  - destruct (inject_some now id (or_zero (b_filled_qty o)) price (default (default now (stamp o)) t) r
      "recon" "reconciliation_backfill" s Hwf Hr Hexact Hle)
      as (r' & s' & E & Hw & Ho & Hp & He & _ & Hg & Hl & Hled); [by intros f; apply Hnew|].
    exists r', s'. split_and!; try done.
    + rewrite (Hrun now t s r Hr). unfold or_else_return, transaction. by rewrite E.
    + intros now' t'. rewrite (Hrun now' t' s' r') by (by rewrite Ho, lookup_insert_eq).
      unfold or_else_return, transaction. rewrite inject_none; [done|done|]. by rewrite Hl.
Qed.

(** ** Witnesses *)

Definition ex_row : order_row := sample_row "accepted" false (Some 10).
Definition ex_db : db := sample_db ex_row.

Lemma ex_db_wf : db_wf ex_db.
Proof. apply sample_db_wf. reflexivity. Qed.

(** Two executions of the sample order and one of an unknown order. *)
Definition ex_activity (id : string) (order : string) (q : Z) : activity := {|
  a_id := Some id; a_order_id := Some order; a_symbol := Some "AAPL"; a_side := Some "buy";
  a_qty := of_int q; a_price := of_int 150; a_transaction_time := Some ("t", 5); a_activity_time := None |}.

Lemma activities_booked_once_witness :
  let fills := [ex_activity "e1" "b1" 4; ex_activity "e2" "b1" 6; ex_activity "e3" "b9" 1] in
  let m := match_fills (omap (fun id => pair id <$> order_by_broker_id id ex_db) ["b1"; "b1"; "b9"]) fills in
  (fill_count (fills_by_client m) + unmatched m = 3)%nat.
Proof.
  exact (proj1 (proj2 (activities_booked_once 9 ex_db
    [ex_activity "e1" "b1" 4; ex_activity "e2" "b1" 6; ex_activity "e3" "b9" 1] ex_db_wf))).
Defined.

Definition ex_config : backfill_config := {|
  fills_backfill_enabled := true; fills_backfill_initial_lookback_hours := 24; fills_backfill_page_size := 1;
  fills_backfill_max_pages := 2; overlap_seconds := 60 |}.

(** A broker with one page of unmatched fills, then none. *)
Definition ex_broker : broker := {|
  br_orders := fun _ _ => Ok []; br_order_by_client_id := fun _ => Ok None; br_positions := Ok [];
  br_activities := fun _ _ size token =>
    match token, size with None, S _ => Ok [ex_activity "e9" "b9" 1] | _, _ => Ok [] end |}.

Lemma backfill_window_moves_past_unread_witness :
  exists s', backfill_alpaca_fills ex_broker 100 ex_config None false ex_db = (Ok (BackfillOk 1 0 1 0), s') /\
    after_time 200 ex_config None (db_high_water_marks s' !! hwm_name) = 100 - 60 * second_us.
Proof.
  eexists. split; [vm_compute; reflexivity|].
  refine (proj2 (backfill_window_moves_past_unread ex_broker 100 200 ex_config false ex_db _ 1 0 1 0 _ _)).
  - intros after until size token page H. destruct token, size; simpl in H; injection H as <-; simpl; lia.
  - vm_compute. reflexivity.
Defined.

Definition ex_broker_order : broker_order := {|
  b_id := Some "b1"; b_client_order_id := Some "o1"; b_symbol := Some "AAPL"; b_side := Some "buy";
  b_qty := Some (of_int 10); b_notional := None; b_limit_price := None; b_filled_qty := Some (of_int 10);
  b_filled_avg_price := Some (of_int 150); b_status := Some "filled"; b_created_at := Some 1;
  b_updated_at := Some 20; b_filled_at := Some 20 |}.

Lemma backfill_reaches_broker_quantity_witness :
  exists r' s', backfill_fill_metadata 30 "o1" ex_broker_order None None ex_db = (Ok true, s') /\
    db_orders s' !! "o1" = Some r' /\ live_qty r' = 10 * 10 ^ 9.
Proof.
  destruct (backfill_reaches_broker_quantity 30 "o1" ex_broker_order None ex_db ex_row (of_int 150))
    as [_ H]; [exact ex_db_wf|reflexivity|reflexivity| |intros f t _; reflexivity|].
  - split; [discriminate|constructor|split; vm_compute; congruence|vm_compute; reflexivity].
  - destruct H as (r' & s' & E & _ & Ho & _ & _ & Hl & _); [vm_compute; reflexivity|].
    exists r', s'. split; [exact E|]. split; [rewrite Ho; apply lookup_insert_eq|exact Hl].
Defined.
