(* ===== verification/ReconOrders.v ===== *)
(** * Order reconciliation (apps/execution_gateway/reconciliation/orders.py)

    The broker's state of an order is applied with the compare-and-swap of
    [GatewayDb]; orders the bulk query did not return are looked up one by one,
    and a [submitted_unconfirmed] order the broker does not know is failed
    after the grace period. *)

From S2P Require Import Prelude PyDecimal PyText OrderStatus OrderSchema GatewayDb.
From S2P Require Import OrderCas FillOps PyDict ReconHelpers ReconFills.
Open Scope Z_scope.


(** The callback that backfills fills: id, broker order, time, updated row. *)
Definition callback : Type := string -> broker_order -> option Z -> option order_row -> M db unit.

(** [_backfill_callback] of the service: its answer is dropped. *)
Definition backfill_callback (now : Z) : callback := fun id o t cached =>
  _ ← backfill_fill_metadata now id o t cached; mret tt.

(** ** [apply_broker_update] *)

Definition broker_status (o : broker_order) : string := or_text (b_status o) "".

(** The arguments of the compare-and-swap. *)
Definition update_of (now : Z) (o : broker_order) : cas_update :=
  let status := broker_status o in {|
  u_status := status; u_broker_updated_at := default now (stamp o); u_status_rank := status_rank_for status;
  u_source_priority := SOURCE_PRIORITY_RECONCILIATION; u_filled_qty := Some (or_zero (b_filled_qty o));
  u_filled_avg_price := b_filled_avg_price o;
  u_filled_at := if bool_decide (status = "filled") then b_filled_at o else None;
  u_broker_order_id := b_id o; u_broker_event_id := None; u_error_message := None |}.

Definition apply_broker_update (cb : callback) (now : Z) (client_order_id : string) (o : broker_order)
    : M db bool :=
  updated ← transaction (update_order_status_cas now client_order_id (update_of now o));
  match updated with
  | None => mret false
  | Some r =>
      _ ← (if one_of (broker_status o) ["filled"; "partially_filled"]
           then cb client_order_id o (Some (default now (stamp o))) (Some r) else mret tt);
      mret true
  end.

Definition reconcile_known (cb : callback) (now : Z) (orders_by_client : dict broker_order) (n : nat)
    (x : OrderDetail) : M db nat :=
  match dict_get x.1 orders_by_client with
  | Some o => updated ← apply_broker_update cb now x.1 o; mret (if (updated : bool) then S n else n)
  | None => mret n
  end.

Definition reconcile_known_orders (cb : callback) (now : Z) (db_orders : list OrderDetail)
    (orders_by_client : dict broker_order) : M db nat :=
  for_each (reconcile_known cb now orders_by_client) 0%nat db_orders.

(** ** [reconcile_missing_orders] *)

Record missing_counts := { mc_lookups : nat; mc_updated : nat; mc_marked_failed : nat }.

(** Within the query window, and not one that may never have reached the broker. *)
Definition already_checked (after : option Z) (r : order_row) : bool :=
  negb (bool_decide (o_status (o_exec r) = "submitted_unconfirmed")) &&
  match after with Some t => t <=? o_created_at r | None => false end.

Definition grace_elapsed (now grace_seconds : Z) (r : order_row) : bool :=
  negb (now - o_created_at r <? grace_seconds * second_us).

Definition failed_update (r : order_row) : cas_update := {|
  u_status := "failed"; u_broker_updated_at := o_created_at r; u_status_rank := status_rank_for "failed";
  u_source_priority := SOURCE_PRIORITY_RECONCILIATION; u_filled_qty := Some dzero; u_filled_avg_price := None;
  u_filled_at := None; u_broker_order_id := o_broker_order_id (o_exec r); u_broker_event_id := None;
  u_error_message := None |}.

Definition count_lookup (k : missing_counts) : missing_counts :=
  {| mc_lookups := S (mc_lookups k); mc_updated := mc_updated k; mc_marked_failed := mc_marked_failed k |}.
Definition count_updated (b : bool) (k : missing_counts) : missing_counts :=
  {| mc_lookups := mc_lookups k; mc_updated := if b then S (mc_updated k) else mc_updated k;
     mc_marked_failed := mc_marked_failed k |}.
Definition count_failed (b : bool) (k : missing_counts) : missing_counts :=
  {| mc_lookups := mc_lookups k; mc_updated := mc_updated k;
     mc_marked_failed := if b then S (mc_marked_failed k) else mc_marked_failed k |}.

(** One order that is looked up. *)
Definition lookup_order (cb : callback) (br : broker) (now grace_seconds : Z) (k : missing_counts)
    (x : OrderDetail) : M db missing_counts :=
  found ← lift (br_order_by_client_id br x.1);
  match found with
  | Some o => updated ← apply_broker_update cb now x.1 o; mret (count_updated updated (count_lookup k))
  | None =>
      if bool_decide (o_status (o_exec x.2) = "submitted_unconfirmed") && grace_elapsed now grace_seconds x.2 then
        updated ← transaction (update_order_status_cas now x.1 (failed_update x.2));
        mret (count_failed (bool_decide (is_Some updated)) (count_lookup k))
      else mret (count_lookup k)
  end.

Fixpoint reconcile_missing (cb : callback) (br : broker) (now : Z) (after : option Z) (max_lookups : nat)
    (grace_seconds : Z) (k : missing_counts) (l : list OrderDetail) : M db missing_counts :=
  match l with
  | [] => mret k
  | x :: l' =>
      if already_checked after x.2 then reconcile_missing cb br now after max_lookups grace_seconds k l'
      else if (max_lookups <=? mc_lookups k)%nat then mret k
      else
        k' ← lookup_order cb br now grace_seconds k x;
        reconcile_missing cb br now after max_lookups grace_seconds k' l'
  end.

Definition reconcile_missing_orders (cb : callback) (br : broker) (now : Z) (db_orders : list OrderDetail)
    (after : option Z) (max_lookups : nat) (grace_seconds : Z) : M db missing_counts :=
  reconcile_missing cb br now after max_lookups grace_seconds
    {| mc_lookups := 0; mc_updated := 0; mc_marked_failed := 0 |} db_orders.

(** ** [backfill_terminal_fills] *)

Definition backfill_terminal (cb : string -> broker_order -> M db unit) (known : list string) (n : nat)
    (x : string * broker_order) : M db nat :=
  if negb (bool_decide (x.1 ∈ known)) then mret n
  else if one_of (lower (broker_status x.2)) ["filled"; "partially_filled"]
  then _ ← cb x.1 x.2; mret (S n)
  else mret n.

Definition backfill_terminal_fills (cb : string -> broker_order -> M db unit)
    (orders_by_client : dict broker_order) (known : list string) : M db nat :=
  for_each (backfill_terminal cb known) 0%nat orders_by_client.

(** ** Lemmas: what an operation leaves alone *)

(** The status columns of order [j]. *)
Definition exec_is (j : string) (e : option order_exec) (s : db) : Prop := o_exec <$> db_orders s !! j = e.

Definition row_is (j : string) (r : option order_row) (s : db) : Prop := db_orders s !! j = r.

Lemma update_order_row_is j r id cond f : j <> id -> preserves (row_is j r) (update_order id cond f).
Proof.
  intros Hj s Hs. unfold update_order. run_monad. destruct (db_orders s !! id) as [r0|]; [|done].
  destruct (cond r0); [|done]. destruct (order_valid _ _ _); [|done].
  unfold row_is in *. simpl. by rewrite lookup_insert_ne.
Qed.

Lemma update_metadata_exec_is j e id cond now f :
  preserves (exec_is j e) (update_order id cond (set_metadata now f)).
Proof.
  intros s Hs. unfold update_order. run_monad. destruct (db_orders s !! id) as [r0|] eqn:E; [|done].
  destruct (cond r0); [|done]. destruct (order_valid _ _ _); [|done].
  unfold exec_is in *. simpl. destruct (decide (j = id)) as [->|Hne].
  - rewrite lookup_insert_eq. rewrite E in Hs. exact Hs.
  - by rewrite lookup_insert_ne.
Qed.

(** Trades are another table. *)
Lemma insert_trade_orders (P : gmap string order_row -> Prop) id r f :
  preserves (fun s => P (db_orders s)) (_insert_trade_from_fill id r f).
Proof.
  unfold _insert_trade_from_fill. cbv zeta. destruct (bool_decide _); [apply preserves_ret|].
  destruct (_ || _); [apply preserves_ret|]. apply preserves_bind.
  - intros s Hs. unfold insert_trade. run_monad. destruct (db_trades s !! _); [done|].
    by destruct (_ && _).
  - intros _. destruct (f_synthetic f); [apply preserves_ret|]. by intros s Hs.
Qed.

Lemma append_fill_exec_is j e now id f : preserves (exec_is j e) (append_fill_to_order_metadata now id f).
Proof.
  unfold append_fill_to_order_metadata. destruct (bool_decide _); [apply preserves_ret|].
  apply preserves_bind; [apply preserves_get|]. intros s0. destruct (db_orders s0 !! id); [|apply preserves_ret].
  apply preserves_bind; [apply update_metadata_exec_is|]. intros [row|]; [|apply preserves_ret].
  apply preserves_bind; [destruct (f_synthetic f); [apply preserves_ret|apply update_metadata_exec_is]|].
  intros sup. apply preserves_bind; [|intros _; apply preserves_ret].
  apply (insert_trade_orders (fun m => o_exec <$> m !! j = e)).
Qed.

Lemma append_fill_row_is j r now id f : j <> id -> preserves (row_is j r) (append_fill_to_order_metadata now id f).
Proof.
  intros Hj. unfold append_fill_to_order_metadata. destruct (bool_decide _); [apply preserves_ret|].
  apply preserves_bind; [apply preserves_get|]. intros s0. destruct (db_orders s0 !! id); [|apply preserves_ret].
  apply preserves_bind; [by apply update_order_row_is|]. intros [row|]; [|apply preserves_ret].
  apply preserves_bind; [destruct (f_synthetic f); [apply preserves_ret|by apply update_order_row_is]|].
  intros sup. apply preserves_bind; [|intros _; apply preserves_ret].
  apply (insert_trade_orders (fun m => m !! j = r)).
Qed.

Lemma append_fill_wf now id f : preserves db_wf (append_fill_to_order_metadata now id f).
Proof.
  intros s Hwf. destruct (decide (f_fill_id f = "")) as [He|He].
  { unfold append_fill_to_order_metadata. by rewrite bool_decide_eq_true_2. }
  destruct (db_orders s !! id) as [r|] eqn:Hr.
  - destruct (has_fill (f_fill_id f) r) eqn:Eh.
    + by rewrite (append_known now id f s r Hr Eh).
    + by destruct (append_new now id f s r Hwf Hr He Eh) as (s' & -> & Hw & _).
  - unfold append_fill_to_order_metadata. case_bool_decide; [done|]. run_monad. by rewrite Hr.
Qed.

Section backfill_keeps.
Context (P : db -> Prop) (now : Z) (id : string).
Context (Happend : forall f, preserves P (append_fill_to_order_metadata now id f)).

Lemma or_else_return_preserves {A} (d : A) (m : M db A) : preserves P m -> preserves P (or_else_return d m).
Proof. intros Hm s Hs. unfold or_else_return. specialize (Hm s Hs). by destruct (m s) as [[a|e] s']. Qed.

Lemma inject_synthetic_preserves filled price t order src stored :
  preserves P (inject_synthetic now id filled price t order src stored).
Proof.
  unfold inject_synthetic. destruct order as [r|]; [|apply preserves_ret].
  apply preserves_bind; [apply preserves_lift|]. intros fills.
  apply preserves_bind; [apply preserves_lift|]. intros [f|]; [|apply preserves_ret].
  apply preserves_bind; [apply Happend|]. intros _. apply preserves_ret.
Qed.

Lemma backfill_fill_metadata_preserves o t cached : preserves P (backfill_fill_metadata now id o t cached).
Proof.
  unfold backfill_fill_metadata. cbv zeta. apply or_else_return_preserves.
  destruct (b_filled_avg_price o); [|apply preserves_ret]. apply preserves_transaction.
  apply preserves_bind; [destruct cached; [apply preserves_ret|apply preserves_reads]|].
  intros order. apply inject_synthetic_preserves.
Qed.

Lemma backfill_callback_preserves o t cached : preserves P (backfill_callback now id o t cached).
Proof.
  unfold backfill_callback. apply preserves_bind; [apply backfill_fill_metadata_preserves|].
  intros _. apply preserves_ret.
Qed.
End backfill_keeps.

Lemma backfill_callback_ok now id o t cached s : exists s', backfill_callback now id o t cached s = (Ok tt, s').
Proof.
  unfold backfill_callback, backfill_fill_metadata. cbv zeta. unfold mbind at 1, M_bind at 1, or_else_return.
  match goal with |- context [match ?m s with _ => _ end] => destruct (m s) as [[a|e] s'] end; by eexists.
Qed.

Lemma cas_other j r now id u : j <> id -> preserves (row_is j r) (update_order_status_cas now id u).
Proof. intros Hj. by apply update_order_row_is. Qed.

(** One broker order: the row takes the compare-and-swap's value, every other row is untouched. *)
Lemma apply_broker_update_run now id o s r :
  db_wf s -> db_orders s !! id = Some r -> fits r (update_of now o) ->
  let u := update_of now o in
  exists s', apply_broker_update (backfill_callback now) now id o s =
      (Ok (cas_unlocked (o_exec r) && cas_newer u (o_exec r)), s') /\
    db_wf s' /\ exec_is id (Some (o_exec (cas_row now u r))) s' /\
    forall j, j <> id -> db_orders s' !! j = db_orders s !! j.
Proof.
  intros Hwf Hr Hfit u. unfold apply_broker_update, mbind at 1, M_bind at 1, transaction.
  rewrite (cas_run now id (update_of now o) s r Hr). fold u. unfold cas_row. destruct (_ && _) eqn:E.
  2: { exists s. split; [done|]. split; [done|]. split; [|done]. unfold exec_is. by rewrite Hr. }
  pose proof (cas_valid _ now id r u (proj1 Hwf) Hr Hfit) as Hv. rewrite Hv.
  set (row := set_exec now (cas_apply u) r). set (s1 := set_orders (insert id row) s).
  assert (H1 : db_wf s1) by (by apply db_wf_set_orders).
  assert (H2 : exec_is id (Some (o_exec row)) s1) by (unfold exec_is; simpl; by rewrite lookup_insert_eq).
  assert (H3 : forall j, j <> id -> row_is j (db_orders s !! j) s1)
    by (intros j Hj; unfold row_is; simpl; by rewrite lookup_insert_ne).
  destruct (one_of _ _); [|by exists s1].
  destruct (backfill_callback_ok now id o (Some (default now (stamp o))) (Some row) s1) as [s' Es'].
  exists s'. unfold mbind, M_bind. rewrite Es'. split; [done|].
  pose proof (f_equal snd Es') as Es. simpl in Es. subst s'. split; [|split].
  - by apply backfill_callback_preserves; [intros; apply append_fill_wf|].
  - by apply backfill_callback_preserves; [intros; apply append_fill_exec_is|].
  - intros j Hj. apply (backfill_callback_preserves (row_is j (db_orders s !! j)) now id); [|by apply H3].
    intros f. by apply append_fill_row_is.
Qed.

(** The row an order should have after reconciliation against the broker's dict. *)
Definition reconciled (now : Z) (orders_by_client : dict broker_order) (x : OrderDetail) : order_row :=
  match dict_get x.1 orders_by_client with
  | Some o => cas_row now (update_of now o) x.2
  | None => x.2
  end.

(** What reconciliation reads is what is stored, and the broker's values fit the constraints. *)
Definition current_and_fitting (now : Z) (orders_by_client : dict broker_order) (s : db) (x : OrderDetail) : Prop :=
  db_orders s !! x.1 = Some x.2 /\
  forall o, dict_get x.1 orders_by_client = Some o -> fits x.2 (update_of now o).

Lemma known_orders_run now orders_by_client l : forall n s,
  db_wf s -> NoDup l.*1 -> Forall (current_and_fitting now orders_by_client s) l ->
  exists k s', for_each (reconcile_known (backfill_callback now) now orders_by_client) n l s = (Ok k, s') /\
    db_wf s' /\ (n <= k <= n + length l)%nat /\
    Forall (fun x => exec_is x.1 (Some (o_exec (reconciled now orders_by_client x))) s') l /\
    forall j, (j ∉ l.*1) -> db_orders s' !! j = db_orders s !! j.
Proof.
  induction l as [|[id r] l IH]; intros n s Hwf Hnd Hl.
  { exists n, s. split; [done|]. split; [done|]. split; [simpl; lia|]. by split. }
  apply NoDup_cons in Hnd as [Hid Hnd]. apply Forall_cons in Hl as [[Hr Hf] Hl]. simpl in Hr, Hf, Hid.
  assert (H1 : exists n1 s1, reconcile_known (backfill_callback now) now orders_by_client n (id, r) s = (Ok n1, s1) /\
    db_wf s1 /\ (n <= n1 <= S n)%nat /\ exec_is id (Some (o_exec (reconciled now orders_by_client (id, r)))) s1 /\
    forall j, j <> id -> db_orders s1 !! j = db_orders s !! j).
  { unfold reconcile_known, reconciled. simpl. destruct (dict_get id orders_by_client) as [o|] eqn:Eo.
    - destruct (apply_broker_update_run now id o s r Hwf Hr (Hf _ eq_refl)) as (s1 & E1 & W1 & X1 & O1).
      unfold mbind, M_bind. rewrite E1. eexists _, s1. split; [reflexivity|]. split; [done|].
      split; [destruct (_ && _); lia|]. by split.
    - exists n, s. split; [done|]. split; [done|]. split; [lia|]. split; [|done]. unfold exec_is. by rewrite Hr. }
  destruct H1 as (n1 & s1 & E1 & W1 & L1 & X1 & O1).
  destruct (IH n1 s1 W1 Hnd) as (k & s' & E & W & L & X & O).
  { eapply Forall_impl; [apply Forall_and; split; [exact Hl|]|].
    - apply Forall_forall. intros x Hx. exact (list_elem_of_fmap_2 fst l x Hx).
    - intros x [[Hx Hfx] Hin]. split; [|done]. rewrite O1; [done|]. intros Ex. apply Hid. by rewrite <- Ex. }
  exists k, s'. split; [simpl; unfold mbind, M_bind; by rewrite E1|]. split; [done|]. split; [simpl; lia|]. split.
  - constructor; [|done]. unfold exec_is in *. simpl. rewrite (O id Hid). exact X1.
  - intros j [Hj Hjl]%not_elem_of_cons. rewrite O by done. by apply O1.
Qed.

(** What an order that accepts the broker's state has afterwards: the broker's status and
    time, its price when it gives one, and a filled quantity that never shrinks. *)
Definition caught_up (now : Z) (o : broker_order) (e e' : order_exec) : Prop :=
  o_status e' = broker_status o /\ o_is_terminal e' = is_terminal_status (broker_status o) /\
  o_filled_qty e' = Some (greatest (o_filled_qty e) (or_zero (b_filled_qty o))) /\
  o_filled_avg_price e' = coalesce (b_filled_avg_price o) (o_filled_avg_price e) /\
  o_last_updated_at e' = Some (default now (stamp o)).


(** ** Missing orders *)

(** The lookup gives a reason to change the order: the broker has it, or it never
    reached the broker and the grace period is over. *)
Definition may_change (br : broker) (now : Z) (after : option Z) (grace_seconds : Z) (x : OrderDetail) : bool :=
  negb (already_checked after x.2) &&
  match br_order_by_client_id br x.1 with
  | Ok (Some _) => true
  | Ok None => bool_decide (o_status (o_exec x.2) = "submitted_unconfirmed") && grace_elapsed now grace_seconds x.2
  | Raise _ => false
  end.

Section untouched.
Context (cb : callback) (j : string) (e : option order_exec).
Context (Hcb : forall id o t cached, preserves (exec_is j e) (cb id o t cached)).

Lemma cas_exec_is now id u : id <> j -> preserves (exec_is j e) (update_order_status_cas now id u).
Proof.
  intros Hid s Hs. unfold exec_is in *.
  pose proof (cas_other j (db_orders s !! j) now id u (not_eq_sym Hid) s eq_refl) as H.
  unfold row_is in H. by rewrite H.
Qed.

Lemma apply_broker_update_untouched now id o :
  id <> j -> preserves (exec_is j e) (apply_broker_update cb now id o).
Proof.
  intros Hid. unfold apply_broker_update. apply preserves_bind; [by apply preserves_transaction, cas_exec_is|].
  intros [r|]; [|apply preserves_ret]. apply preserves_bind; [|intros _; apply preserves_ret].
  destruct (one_of _ _); [apply Hcb|apply preserves_ret].
Qed.

Lemma lookup_order_untouched br now after grace k x :
  already_checked after x.2 = false -> (x.1 = j -> may_change br now after grace x = false) ->
  preserves (exec_is j e) (lookup_order cb br now grace k x).
Proof.
  intros Hc Hx. unfold lookup_order, may_change in *. rewrite Hc in Hx. simpl in Hx.
  apply preserves_lift_bind. intros [o|] E; rewrite E in Hx.
  - assert (Hj : x.1 <> j) by (intros Hj; by specialize (Hx Hj)).
    apply preserves_bind; [by apply apply_broker_update_untouched|]. intros b. apply preserves_ret.
  - destruct (_ && _) eqn:Eg; [|apply preserves_ret].
    assert (Hj : x.1 <> j) by (intros Hj; by specialize (Hx Hj)).
    apply preserves_bind; [by apply preserves_transaction, cas_exec_is|]. intros b. apply preserves_ret.
Qed.

Lemma reconcile_missing_untouched br now after max grace l : forall k,
  Forall (fun x => x.1 = j -> may_change br now after grace x = false) l ->
  preserves (exec_is j e) (reconcile_missing cb br now after max grace k l).
Proof.
  induction l as [|x l IH]; intros k Hl; simpl; [apply preserves_ret|].
  apply Forall_cons in Hl as [Hx Hl]. destruct (already_checked after x.2) eqn:Ec; [by apply IH|].
  destruct (_ <=? _)%nat; [apply preserves_ret|].
  apply preserves_bind; [by eapply lookup_order_untouched|]. intros k'. by apply IH.
Qed.
End untouched.

Lemma lookup_order_counts cb br now grace k x s k' s' :
  lookup_order cb br now grace k x s = (Ok k', s') ->
  mc_lookups k' = S (mc_lookups k) /\ (mc_updated k' + mc_marked_failed k' <= S (mc_updated k + mc_marked_failed k))%nat.
Proof.
  unfold lookup_order, mbind, M_bind, lift, mret, M_ret. intros H.
  destruct (br_order_by_client_id br x.1) as [[o|]|err]; [..|done].
  - destruct (apply_broker_update cb now x.1 o s) as [[[]|err] s1]; [..|done]; injection H as <- <-; simpl; lia.
  - destruct (_ && _); [|injection H as <- <-; simpl; lia].
    destruct (transaction _ s) as [[b|err] s1]; [|done]. injection H as <- <-. simpl. case_bool_decide; lia.
Qed.

Lemma reconcile_missing_counts cb br now after max grace l : forall k s k' s',
  reconcile_missing cb br now after max grace k l s = (Ok k', s') ->
  (mc_lookups k <= max -> mc_lookups k' <= max)%nat /\
  (mc_lookups k' + (mc_updated k + mc_marked_failed k) >= mc_updated k' + mc_marked_failed k' + mc_lookups k)%nat.
Proof.
  induction l as [|x l IH]; intros k s k' s' H; simpl in H.
  { injection H as <- <-. lia. }
  destruct (already_checked after x.2); [by eapply IH|].
  destruct (max <=? mc_lookups k)%nat eqn:Em; [injection H as <- <-; lia|].
  apply M_bind_inv in H as [(k1 & s1 & H1 & H2)|(err & _ & H2)]; [|done].
  apply lookup_order_counts in H1 as [L1 L2]. destruct (IH _ _ _ _ H2) as [L3 L4]. apply Nat.leb_gt in Em. lia.
Qed.

(** An order is changed by the individual lookups only for a reason: its status is kept
    unless the broker returned the order, or it was [submitted_unconfirmed], the broker does not
    know it and the grace period is over.  This holds even when a lookup raises half-way.  The
    lookups never exceed their cap, and every change counted was a lookup. *)
Theorem missing_orders_changed_for_a_reason br now l after max grace s :
  let cb := backfill_callback now in
  let out := reconcile_missing_orders cb br now l after max grace s in
  (forall j, Forall (fun x => x.1 = j -> may_change br now after grace x = false) l ->
     o_exec <$> db_orders (snd out) !! j = o_exec <$> db_orders s !! j) /\
  forall k, fst out = Ok k ->
    (mc_lookups k <= max /\ mc_updated k + mc_marked_failed k <= mc_lookups k)%nat.
Proof.
  intros cb out. split.
  - intros j Hj. apply (reconcile_missing_untouched cb j (o_exec <$> db_orders s !! j)); [|done|done].
    intros id o t cached. apply backfill_callback_preserves. intros f. apply append_fill_exec_is.
  - intros k Hk. unfold out, reconcile_missing_orders in Hk.
    destruct (reconcile_missing _ _ _ _ _ _ _ _ _) as [res s'] eqn:E. simpl in Hk. subst res.
    apply reconcile_missing_counts in E as [H1 H2]. simpl in *. lia.
Qed.

(** A [submitted_unconfirmed] order the broker does not know is marked failed once the grace
    period is over: its row becomes failed and terminal, with no fill.  Although the failure is
    stamped with the order's own creation time so that later broker updates are not blocked, a
    terminal row is locked: whatever the broker reports afterwards, the row stays failed. *)
Theorem unconfirmed_order_fails_for_good br now grace k id r s :
  db_wf s -> db_orders s !! id = Some r -> o_status (o_exec r) = "submitted_unconfirmed" ->
  br_order_by_client_id br id = Ok None -> grace_elapsed now grace r = true ->
  cas_unlocked (o_exec r) = true -> before (o_created_at r) (o_last_updated_at (o_exec r)) ->
  exists s', lookup_order (backfill_callback now) br now grace k (id, r) s =
      (Ok (count_failed true (count_lookup k)), s') /\ db_wf s' /\
    forall us, exists r', db_orders (deliver id us s') !! id = Some r' /\
      o_status (o_exec r') = "failed" /\ o_is_terminal (o_exec r') = true.
Proof.
  intros Hwf Hr Hst Hbr Hg Hlock Hbefore.
  assert (Hfit : fits r (failed_update r)).
  { split; [|done]. simpl. by destruct (o_broker_order_id (o_exec r)). }
  pose proof (cas_valid _ now id r _ (proj1 Hwf) Hr Hfit) as Hv.
  unfold lookup_order, mbind, M_bind, lift. cbn [fst snd]. rewrite Hbr. cbn [fst snd]. rewrite Hst, Hg.
  cbn [andb]. rewrite bool_decide_eq_true_2 by done. cbn [andb].
  unfold transaction. rewrite (cas_run now id (failed_update r) s r Hr).
  pose proof (cas_row_early now (failed_update r) r Hlock Hbefore) as Erow.
  assert (En : cas_newer (failed_update r) (o_exec r) = true).
  { unfold cas_newer. destruct (o_last_updated_at (o_exec r)) as [t|]; [|done]. simpl in *.
    by destruct (Z.ltb_spec t (o_created_at r)); [|lia]. }
  rewrite Hlock, En, Hv. simpl andb. cbv iota. eexists. split; [reflexivity|].
  split; [by apply db_wf_set_orders|].
  set (row := set_exec now (cas_apply (failed_update r)) r).
  intros us'. exists row. split; [|by split].
  assert (Hdel : forall us s1, db_orders s1 !! id = Some row -> db_orders (deliver id us s1) !! id = Some row).
  { intros us. induction us as [|[t u] us IH]; intros s1 H1; [done|]. rewrite deliver_cons. apply IH.
    rewrite (cas_run t id u s1 row H1). by replace (cas_unlocked (o_exec row)) with false. }
  apply Hdel. apply lookup_insert_eq.
Qed.

(** ** Witnesses *)

Definition ex_open_row : order_row := {|
  o_core := o_core ex_row; o_exec := set_status "submitted_unconfirmed" (o_exec ex_row); o_links := o_links ex_row;
  o_metadata := o_metadata ex_row; o_created_at := 20; o_updated_at := 20 |}.


Lemma unconfirmed_order_fails_for_good_witness :
  exists s', lookup_order (backfill_callback (400 * second_us)) ex_broker (400 * second_us) 300
      {| mc_lookups := 0; mc_updated := 0; mc_marked_failed := 0 |} ("o1", ex_open_row) (sample_db ex_open_row)
    = (Ok {| mc_lookups := 1; mc_updated := 0; mc_marked_failed := 1 |}, s') /\
    forall us, exists r', db_orders (deliver "o1" us s') !! "o1" = Some r' /\ o_status (o_exec r') = "failed".
Proof.
  destruct (unconfirmed_order_fails_for_good ex_broker (400 * second_us) 300
    {| mc_lookups := 0; mc_updated := 0; mc_marked_failed := 0 |} "o1" ex_open_row (sample_db ex_open_row))
    as (s' & E & _ & H); [by apply sample_db_wf|reflexivity..| |].
  - vm_compute. reflexivity.
  - exists s'. split; [exact E|]. intros us. destruct (H us) as (r' & H1 & H2 & _). exists r'. split; [exact H1|exact H2].
Defined.
