(* ===== verification/ReconPositions.v ===== *)
(** * Position reconciliation (apps/execution_gateway/reconciliation/positions.py)

    The broker's open positions are written over the database's, and positions
    the broker does not have are set flat; realised profit is kept. *)

From S2P Require Import Prelude PyDecimal GatewayDb OrderCas FillOps PyDict ReconHelpers.
Open Scope Z_scope.

Record position_counts := { pc_updated : nat; pc_flattened : nat }.

(** [{pos["symbol"]: pos for pos in broker_positions}] *)
Definition positions_by_symbol (ps : list broker_position) : dict broker_position := dict_of_list bp_symbol ps.

Definition upsert_broker_position (now : Z) (n : nat) (x : string * broker_position) : M db nat :=
  _ ← upsert_position_snapshot x.1 (or_zero (bp_qty x.2)) (or_zero (bp_avg_entry_price x.2))
        (bp_current_price x.2) now;
  mret (S n).

Definition flatten_position (now : Z) (n : nat) (symbol : string) : M db nat :=
  _ ← upsert_position_snapshot symbol dzero dzero None now;
  mret (S n).

(** [set_order] is the order in which Python iterates over a set. *)
Definition reconcile_positions (set_order : list string -> list string) (br : broker) (now : Z)
    : M db position_counts :=
  broker_positions ← lift (br_positions br);
  let broker_by_symbol := positions_by_symbol broker_positions in
  db_positions ← get_all_positions;
  updated ← for_each (upsert_broker_position now) 0%nat broker_by_symbol;
  flattened ← for_each (flatten_position now) 0%nat
    (set_order (filter (fun symbol => symbol ∉ broker_by_symbol.*1) db_positions.*1));
  mret {| pc_updated := updated; pc_flattened := flattened |}.

(** ** Lemmas *)

(** The row a snapshot leaves. *)
Definition snapshot (now : Z) (qty avg : decimal) (current : option decimal) (old : option position_row) : position_row := {|
  p_qty := qty; p_avg_entry_price := avg; p_current_price := current;
  p_realized_pl := match old with Some p => p_realized_pl p | None => dzero end;
  p_updated_at := now; p_last_trade_at := Some now |}.

(** The broker's values satisfy the table's checks. *)
Definition bp_checks (p : broker_position) : bool :=
  (dpositive (or_zero (bp_avg_entry_price p)) || deqb (or_zero (bp_qty p)) dzero) &&
  opt_check dpositive (bp_current_price p).

(** Only the positions differ. *)
Definition same_but_positions (s s' : db) : Prop := exists m, s' = set_positions (fun _ => m) s.

Lemma same_but_positions_refl s : same_but_positions s s.
Proof. exists (db_positions s). by destruct s. Qed.

Lemma same_but_positions_insert s s' k r :
  same_but_positions s s' -> same_but_positions s (set_positions (insert k r) s').
Proof. intros [m ->]. exists (<[k := r]> m). done. Qed.

(** The realised profit of a symbol, zero without a row. *)
Definition realized_of (s : db) (symbol : string) : decimal :=
  match db_positions s !! symbol with Some p => p_realized_pl p | None => dzero end.

Section snapshots.
Context {A : Type} (now : Z) (key : A -> string) (qty avg : A -> decimal) (cur : A -> option decimal).

Definition snap (n : nat) (x : A) : M db nat :=
  _ ← upsert_position_snapshot (key x) (qty x) (avg x) (cur x) now; mret (S n).

(** A loop of snapshots over distinct symbols writes each of them once. *)
Lemma snapshots_run l : forall n s,
  db_wf s -> NoDup (key <$> l) ->
  Forall (fun x => position_checks (snapshot now (qty x) (avg x) (cur x) None) = true) l ->
  exists s', for_each snap n l s = (Ok (n + length l)%nat, s') /\ db_wf s' /\ same_but_positions s s' /\
    (forall x, x ∈ l -> db_positions s' !! key x =
       Some (snapshot now (qty x) (avg x) (cur x) (db_positions s !! key x))) /\
    (forall j, (j ∉ (key <$> l)) -> db_positions s' !! j = db_positions s !! j).
Proof.
  induction l as [|x l IH]; intros n s Hwf Hnd Hc.
  { exists s. split; [by rewrite Nat.add_0_r|]. split; [done|]. split; [apply same_but_positions_refl|].
    split; [|done]. by intros x H%elem_of_nil. }
  apply NoDup_cons in Hnd as [Hx Hnd]. apply Forall_cons in Hc as [Hcx Hc].
  destruct (upsert_position_ok (key x) (snapshot now (qty x) (avg x) (cur x)) s Hwf) as [E W]; [exact Hcx|].
  set (s1 := set_positions (insert (key x) (snapshot now (qty x) (avg x) (cur x) (db_positions s !! key x))) s) in *.
  destruct (IH (S n) s1 W Hnd Hc) as (s' & E' & W' & B & Hin & Hout).
  exists s'. split_and!; [|done| | |].
  - assert (Es : snap n x s = (Ok (S n), s1)).
    { unfold snap, upsert_position_snapshot, transaction, mbind, M_bind.
      change (upsert_position (key x) _ s) with (upsert_position (key x) (snapshot now (qty x) (avg x) (cur x)) s).
      by rewrite E. }
    change (for_each snap n (x :: l) s) with ((snap n x ≫= fun n' => for_each snap n' l) s).
    unfold mbind, M_bind. rewrite Es, E'. do 2 f_equal. simpl. lia.
  - destruct B as [m ->]. by exists m.
  - intros y [->|Hy]%elem_of_cons.
    + rewrite Hout by done. apply lookup_insert_eq.
    + rewrite (Hin y Hy). simpl. rewrite lookup_insert_ne; [done|].
      intros Ey. apply Hx. rewrite Ey. by apply list_elem_of_fmap_2.
  - intros j [Hj Hjl]%not_elem_of_cons. rewrite Hout by done. by apply lookup_insert_ne.
Qed.

(** Whatever happens on the way, realised profit and the other tables stay. *)
Lemma snapshots_keep (s0 : db) (l : list A) n :
  preserves (fun s => same_but_positions s0 s /\ forall j, realized_of s j = realized_of s0 j) (for_each snap n l).
Proof.
  apply preserves_for_each. intros k x. apply preserves_bind; [|intros; apply preserves_ret].
  apply preserves_transaction. intros s [Hs Hr]. unfold upsert_position. run_monad.
  destruct (position_checks _); [|done]. simpl. split; [by apply same_but_positions_insert|].
  intros j. rewrite <- Hr. unfold realized_of. simpl. destruct (decide (j = key x)) as [->|Hj].
  - by rewrite lookup_insert_eq.
  - by rewrite lookup_insert_ne.
Qed.
End snapshots.

(** ** Properties *)

(** The position of a symbol after reconciliation. *)
Definition reconciled_position (now : Z) (broker_by_symbol : dict broker_position) (s : db) (symbol : string)
    : option position_row :=
  match dict_get symbol broker_by_symbol, db_positions s !! symbol with
  | Some p, old => Some (snapshot now (or_zero (bp_qty p)) (or_zero (bp_avg_entry_price p)) (bp_current_price p) old)
  | None, Some r => if deqb (p_qty r) dzero then Some r else Some (snapshot now dzero dzero None (Some r))
  | None, None => None
  end.

Lemma open_symbols s symbol :
  symbol ∈ (map_to_list (filter (fun p : string * position_row => deqb (p_qty p.2) dzero = false) (db_positions s))).*1
  <-> exists r, db_positions s !! symbol = Some r /\ deqb (p_qty r) dzero = false.
Proof.
  rewrite list_elem_of_fmap. split.
  - intros ([k r] & -> & H). apply elem_of_map_to_list, map_lookup_filter_Some in H as [H1 H2]. by exists r.
  - intros (r & H1 & H2). exists (symbol, r). split; [done|].
    by apply elem_of_map_to_list, map_lookup_filter_Some.
Qed.

(** After position reconciliation the database has exactly the broker's positions: every
    symbol the broker holds has the broker's quantity and prices, every other open position is
    flat, realised profit and the other tables are unchanged, and the counts are exact. *)
Theorem positions_match_broker set_order br now ps s :
  db_wf s -> br_positions br = Ok ps -> Forall (fun p => bp_checks p = true) ps ->
  (forall l, set_order l ≡ₚ l) ->
  exists c s', reconcile_positions set_order br now s = (Ok c, s') /\ db_wf s' /\
    (forall symbol, db_positions s' !! symbol = reconciled_position now (positions_by_symbol ps) s symbol) /\
    same_but_positions s s' /\ pc_updated c = length (positions_by_symbol ps).
Proof.
  intros Hwf Hps Hck Hset. set (d := positions_by_symbol ps).
  pose proof (dict_of_list_nodup bp_symbol ps : NoDup d.*1) as Hnd.
  destruct (snapshots_run now (fst : string * broker_position -> string)
    (fun x => or_zero (bp_qty x.2)) (fun x => or_zero (bp_avg_entry_price x.2)) (fun x => bp_current_price x.2)
    d 0 s Hwf Hnd) as (s1 & E1 & W1 & B1 & I1 & O1).
  { apply Forall_forall. intros [k p] Hx. apply dict_in_get in Hx; [|done].
    apply dict_of_list_get in Hx as [Hx _]. rewrite Forall_forall in Hck. exact (Hck p Hx). }
  set (opens := map_to_list (filter (fun p : string * position_row => deqb (p_qty p.2) dzero = false) (db_positions s))).
  set (fl := set_order (filter (fun symbol => symbol ∉ d.*1) opens.*1)).
  assert (Hfl : forall j, j ∈ fl <-> (j ∉ d.*1) /\ exists r, db_positions s !! j = Some r /\ deqb (p_qty r) dzero = false).
  { intros j. unfold fl. rewrite Hset, list_elem_of_filter. unfold opens. by rewrite open_symbols. }
  destruct (snapshots_run now (id : string -> string) (fun _ => dzero) (fun _ => dzero) (fun _ => None) fl 0 s1 W1)
    as (s2 & E2 & W2 & B2 & I2 & O2).
  { rewrite list_fmap_id. unfold fl. rewrite Hset. apply NoDup_filter, NoDup_fst_map_to_list. }
  { apply Forall_true. done. }
  rewrite list_fmap_id in O2.
  exists {| pc_updated := length d; pc_flattened := length fl |}, s2. split_and!; [|done| | |done].
  - unfold reconcile_positions, mbind, M_bind, lift. rewrite Hps. unfold get_all_positions, reads. fold d opens fl.
    change (upsert_broker_position now) with (snap now (fst : string * broker_position -> string)
      (fun x => or_zero (bp_qty x.2)) (fun x => or_zero (bp_avg_entry_price x.2)) (fun x => bp_current_price x.2)).
    rewrite E1. change (flatten_position now) with
      (snap now (id : string -> string) (fun _ => dzero) (fun _ => dzero) (fun _ => None)).
    by rewrite E2.
  - intros j. unfold reconciled_position. destruct (dict_get j d) as [p|] eqn:Ed.
    + apply dict_get_in in Ed. assert (Hjd : j ∈ d.*1) by exact (list_elem_of_fmap_2 fst d _ Ed).
      rewrite O2 by (rewrite Hfl; tauto). exact (I1 _ Ed).
    + apply dict_get_none in Ed. pose proof (O1 j Ed) as Hj. rewrite <- Hj.
      destruct (db_positions s1 !! j) as [r|] eqn:Ej.
      * destruct (deqb (p_qty r) dzero) eqn:Eq.
        -- rewrite O2; [done|]. rewrite Hfl. intros [_ (r' & Hr' & Hq)]. congruence.
        -- assert (Hin : j ∈ fl) by (rewrite Hfl; split; [done|]; exists r; by rewrite <- Hj).
           pose proof (I2 j Hin) as H. unfold id in H. by rewrite H, Ej.
      * rewrite O2; [done|]. rewrite Hfl. intros [_ (r' & Hr' & _)]. congruence.
  - destruct B1 as [m1 ->]. destruct B2 as [m2 ->]. by exists m2.
Qed.

(** Position reconciliation never loses realised profit: whatever the broker answers, also
    when a row violates a check half-way, every symbol keeps its realised profit and
    no other table changes. *)
Theorem reconcile_positions_keeps_realized set_order br now s :
  let s' := snd (reconcile_positions set_order br now s) in
  same_but_positions s s' /\ forall symbol, realized_of s' symbol = realized_of s symbol.
Proof.
  cbv zeta.
  enough (H : preserves (fun s' => same_but_positions s s' /\ forall j, realized_of s' j = realized_of s j)
                        (reconcile_positions set_order br now))
    by (apply H; split; [apply same_but_positions_refl|done]).
  unfold reconcile_positions. apply preserves_bind; [apply preserves_lift|]. intros ps.
  apply preserves_bind; [apply preserves_reads|]. intros l.
  apply preserves_bind; [|intros u; apply preserves_bind; [|intros; apply preserves_ret]].
  - exact (snapshots_keep now fst _ _ _ s _ 0).
  - exact (snapshots_keep now id _ _ _ s _ 0).
Qed.

(** ** Witness *)

Definition ex_position : position_row := {|
  p_qty := of_int 5; p_avg_entry_price := of_int 40; p_current_price := None; p_realized_pl := of_int 7;
  p_updated_at := 1; p_last_trade_at := Some 1 |}.

Definition ex_positions_broker : broker := {|
  br_orders := fun _ _ => Ok []; br_order_by_client_id := fun _ => Ok None;
  br_positions := Ok [{| bp_symbol := "AAPL"; bp_qty := Some (of_int 10);
    bp_avg_entry_price := Some (of_int 150); bp_current_price := None |}];
  br_activities := fun _ _ _ _ => Ok [] |}.

Lemma positions_match_broker_witness :
  exists c s', reconcile_positions reverse ex_positions_broker 9
      (set_positions (fun _ => {[ "MSFT" := ex_position ]}) empty_db) = (Ok c, s') /\
    db_positions s' !! "MSFT" = Some (snapshot 9 dzero dzero None (Some ex_position)) /\
    option_map p_qty (db_positions s' !! "AAPL") = Some (of_int 10).
Proof.
  destruct (positions_match_broker reverse ex_positions_broker 9 [{| bp_symbol := "AAPL"; bp_qty := Some (of_int 10);
    bp_avg_entry_price := Some (of_int 150); bp_current_price := None |}]
    (set_positions (fun _ => {[ "MSFT" := ex_position ]}) empty_db)) as (c & s' & E & _ & H & _).
  - split; [|split; [|split]]; [intros k r Hk; done|apply map_Forall_singleton; reflexivity|..];
      intros k r Hk; done.
  - reflexivity.
  - constructor; [reflexivity|constructor].
  - intros l. apply reverse_Permutation.
  - exists c, s'. split; [exact E|]. split; rewrite H; reflexivity.
Defined.
