(* ===== verification/ReconOrphans.v ===== *)
(** * Orphan orders and quarantine (apps/execution_gateway/reconciliation/orphans.py)

    An order at the broker that the database does not know is recorded as an
    orphan and its symbol is quarantined: order submission refuses the symbol
    while the quarantine key is set ([_check_quarantine] of routes/orders.py
    and routes/slicing.py).  The state is the database and the Redis keyspace;
    each database method is its own transaction. *)

From S2P Require Import Prelude PyDecimal PyText OrderStatus OrderSchema GatewayDb RedisClient ReconHelpers PyDict.
Open Scope Z_scope.

Record world := { w_db : db; w_redis : redis_state }.

Definition on_db {A} (m : M db A) : M world A := fun w =>
  let '(r, s) := m (w_db w) in (r, {| w_db := s; w_redis := w_redis w |}).
Definition on_redis {A} (m : M redis_state A) : M world A := fun w =>
  let '(r, s) := m (w_redis w) in (r, {| w_db := w_db w; w_redis := s |}).

(** [except E: ... return d] for the exceptions [handled] selects. *)
Definition catch {S A} (handled : exn -> bool) (d : A) (m : M S A) : M S A := fun s =>
  match m s with
  | (Raise e, s') => if handled e then (Ok d, s') else (Raise e, s')
  | out => out
  end.

Definition quarantine_key (strategy_id symbol : string) : string := "quarantine:" +:+ strategy_id +:+ ":" +:+ symbol.
Definition orphan_exposure_key (strategy_id symbol : string) : string :=
  "orphan_exposure:" +:+ strategy_id +:+ ":" +:+ symbol.

Definition QUARANTINE_STRATEGY_SENTINEL : string := "external".

(** ** Writing the quarantine *)

(** [except redis.RedisError] and [except ValueError] *)
Definition redis_or_value_error (e : exn) : bool :=
  match e with RedisError | ValueError _ => true | _ => false end.

(** [redis_client] may be None; [now] is the server's clock. *)
Definition set_quarantine (redis_client : option network) (now : Z) (symbol strategy_id : string) : M world bool :=
  match redis_client with
  | None => mret false
  | Some net =>
      catch redis_or_value_error false (
        _ ← on_redis (set net now (quarantine_key strategy_id symbol) "orphan_order_detected" None None);
        mret true)
  end.

(** [except (psycopg.OperationalError, psycopg.IntegrityError)] besides those *)
Definition sync_error (e : exn) : bool :=
  match e with OperationalError _ | IntegrityError _ => true | e => redis_or_value_error e end.

Definition sync_orphan_exposure (redis_client : option network) (now : Z) (symbol strategy_id : string) : M world bool :=
  match redis_client with
  | None => mret false
  | Some net =>
      catch sync_error false (
        exposure ← on_db (get_orphan_exposure symbol strategy_id);
        _ ← on_redis (set net now (orphan_exposure_key strategy_id symbol) (str_decimal exposure) None None);
        mret true)
  end.

(** ** Handling an orphan *)

(** [x.get(key)] that must be a non-empty string *)
Definition non_empty (x : option string) : option string :=
  match x with Some "" => None | x => x end.

Definition orphan_status_of (o : broker_order) : string := or_text (b_status o) "untracked".

Definition handle_orphan_order (redis_client : option network) (now : Z) (resolve_terminal : bool)
    (o : broker_order) : M world bool :=
  match non_empty (b_symbol o), non_empty (b_id o) with
  | Some symbol, Some broker_order_id =>
      let status := orphan_status_of o in
      _ ← on_db (transaction (create_orphan_order now broker_order_id (b_client_order_id o) symbol
            QUARANTINE_STRATEGY_SENTINEL (or_text (b_side o) "unknown") (dint (or_zero (b_qty o)))
            (estimate_notional o) status));
      let resolved_at := if resolve_terminal && is_terminal_status status then Some now else None in
      _ ← on_db (update_orphan_order_status broker_order_id status resolved_at);
      _ ← set_quarantine redis_client now symbol "*";
      _ ← sync_orphan_exposure redis_client now symbol QUARANTINE_STRATEGY_SENTINEL;
      mret true
  | _, _ => mret false
  end.

(** [client_id and client_id in db_known_ids] *)
Definition known_order (db_known_ids : list string) (o : broker_order) : bool :=
  match non_empty (b_client_order_id o) with
  | Some client_id => bool_decide (client_id ∈ db_known_ids)
  | None => false
  end.

Definition detect_orphan (redis_client : option network) (now : Z) (db_known_ids : list string)
    (resolve_terminal : bool) (n : nat) (o : broker_order) : M world nat :=
  if known_order db_known_ids o then mret n
  else
    handled ← handle_orphan_order redis_client now resolve_terminal o;
    mret (if (handled : bool) then S n else n).

Definition detect_orphans (redis_client : option network) (now : Z)
    (open_orders recent_orders : list broker_order) (db_known_ids : list string) : M world nat :=
  n ← for_each (detect_orphan redis_client now db_known_ids false) 0%nat open_orders;
  for_each (detect_orphan redis_client now db_known_ids true) n recent_orders.

(** ** Reading the quarantine *)

Definition quarantine_unavailable : exn := HTTPException 503 "Quarantine check unavailable".
Definition symbol_quarantined : exn := HTTPException 503 "Symbol quarantined".

(** [if value]: set and not empty *)
Definition truthy (v : option string) : bool := match v with Some "" | None => false | Some _ => true end.

(** A [RedisError] becomes a 503; the client's [RetryError] goes through. *)
Definition _check_quarantine (dry_run : bool) (redis : option network) (now : Z) (symbol strategy_id : string)
    : M redis_state unit :=
  if dry_run then mret tt
  else
    match redis with
    | None => raise quarantine_unavailable
    | Some net => fun s =>
        match mget net now [quarantine_key strategy_id (upper symbol); quarantine_key "*" (upper symbol)] s with
        | (Ok values, s') => (if existsb truthy values then Raise symbol_quarantined else Ok tt, s')
        | (Raise RedisError, s') => (Raise quarantine_unavailable, s')
        | (Raise e, s') => (Raise e, s')
        end
    end.

(** ** Lemmas *)

Definition served (net : network) : Prop := forall n, net n = Served.

(** The order's numbers fit the columns of [orphan_orders]. *)
Definition orphan_fits (o : broker_order) : Prop :=
  int4 (dint (or_zero (b_qty o))) = Ok (dint (or_zero (b_qty o))) /\
  exists notional, numeric_18_2 (estimate_notional o) = Ok notional.

Lemma set_run net now key value s :
  served net -> set net now key value None None s =
  (Ok tt, {| rs_keys := <[key := (value, None)]> (rs_keys s); rs_attempts := S (rs_attempts s) |}).
Proof. intros Hn. unfold set. cbn [valid_expiry]. by rewrite with_retry_served. Qed.

(** What the key of a stored value without expiry reads as. *)
Lemma lookup_live_stored now key v k : k !! key = Some (v, None) -> lookup_live now key k = Some v.
Proof. intros H. unfold lookup_live. by rewrite H. Qed.

Lemma append_inj_l (p a b : string) : p +:+ a = p +:+ b -> a = b.
Proof. induction p as [|c p IH]; simpl; [done|]. intros H. apply IH. by injection H. Qed.

Lemma quarantine_not_exposure a b c d : quarantine_key a b <> orphan_exposure_key c d.
Proof. unfold quarantine_key, orphan_exposure_key. simpl. discriminate. Qed.

Lemma quarantine_key_inj a b c : quarantine_key a b = quarantine_key a c -> b = c.
Proof.
  unfold quarantine_key. intros H. apply append_inj_l in H. apply append_inj_l in H.
  by apply (append_inj_l ":") in H.
Qed.

(** The row of an orphan after it was handled. *)
Definition orphan_recorded (broker_order_id status : string) (s : db) : Prop :=
  exists r, db_orphan_orders s !! broker_order_id = Some r /\ orphan_status r = status.

Lemma record_orphan now bid cid symbol strat side o status resolved s :
  orphan_fits o ->
  exists s1, transaction (create_orphan_order now bid cid symbol strat side (dint (or_zero (b_qty o)))
                            (estimate_notional o) status) s = (Ok tt, s1) /\
    exists s2, update_orphan_order_status bid status resolved s1 = (Ok tt, s2) /\
    s2 = set_orphan_orders (fun _ => db_orphan_orders s2) s /\ orphan_recorded bid status s2.
Proof.
  intros [Hq [notional Hn]]. unfold transaction, create_orphan_order. rewrite Hq, Hn. run_monad.
  destruct (db_orphan_orders s !! bid) as [r|] eqn:E; eexists; (split; [reflexivity|]);
    eexists; (split; [reflexivity|]); (split; [by destruct s|]); unfold orphan_recorded; simpl.
  - rewrite lookup_alter_eq, E. simpl. by eexists.
  - rewrite lookup_alter_eq, lookup_insert_eq. simpl. by eexists.
Qed.

(** Only the orphan rows and the Redis keys of the symbol change. *)
Record quarantine_effect (symbol broker_order_id status : string) (w w' : world) : Prop := {
  qe_recorded : orphan_recorded broker_order_id status (w_db w');
  qe_db : w_db w' = set_orphan_orders (fun _ => db_orphan_orders (w_db w')) (w_db w);
  qe_key : rs_keys (w_redis w') !! quarantine_key "*" symbol = Some ("orphan_order_detected", None);
  qe_exposure : exists exposure, fst (get_orphan_exposure symbol QUARANTINE_STRATEGY_SENTINEL (w_db w')) = Ok exposure /\
    rs_keys (w_redis w') !! orphan_exposure_key QUARANTINE_STRATEGY_SENTINEL symbol = Some (str_decimal exposure, None);
  qe_others : forall key, key <> quarantine_key "*" symbol ->
    key <> orphan_exposure_key QUARANTINE_STRATEGY_SENTINEL symbol ->
    rs_keys (w_redis w') !! key = rs_keys (w_redis w) !! key
}.

Definition put_key (key value : string) (w : world) : world := {|
  w_db := w_db w;
  w_redis := {| rs_keys := <[key := (value, None)]> (rs_keys (w_redis w)); rs_attempts := S (rs_attempts (w_redis w)) |} |}.

Lemma set_quarantine_run net now symbol strategy_id w :
  served net -> set_quarantine (Some net) now symbol strategy_id w =
  (Ok true, put_key (quarantine_key strategy_id symbol) "orphan_order_detected" w).
Proof.
  intros Hn. unfold set_quarantine, catch, on_redis, mbind, M_bind. by rewrite set_run.
Qed.

Lemma sync_orphan_exposure_run net now symbol strategy_id w exposure :
  served net -> get_orphan_exposure symbol strategy_id (w_db w) = (Ok exposure, w_db w) ->
  sync_orphan_exposure (Some net) now symbol strategy_id w =
  (Ok true, put_key (orphan_exposure_key strategy_id symbol) (str_decimal exposure) w).
Proof.
  intros Hn He. unfold sync_orphan_exposure, catch, on_redis, on_db, mbind, M_bind. rewrite He. cbn [w_redis].
  by rewrite set_run.
Qed.

Lemma handle_orphan_run net now rt o symbol bid w :
  served net -> non_empty (b_symbol o) = Some symbol -> non_empty (b_id o) = Some bid -> orphan_fits o ->
  exists w', handle_orphan_order (Some net) now rt o w = (Ok true, w') /\
    quarantine_effect symbol bid (orphan_status_of o) w w'.
Proof.
  intros Hnet Hsym Hbid Hfit. unfold handle_orphan_order. rewrite Hsym, Hbid. cbv zeta.
  destruct (record_orphan now bid (b_client_order_id o) symbol QUARANTINE_STRATEGY_SENTINEL
    (or_text (b_side o) "unknown") o (orphan_status_of o)
    (if rt && is_terminal_status (orphan_status_of o) then Some now else None) (w_db w) Hfit)
    as (s1 & E1 & s2 & E2 & Es & Hrec).
  unfold mbind, M_bind, on_db. rewrite E1. cbn [w_db w_redis]. rewrite E2. cbn [w_db w_redis].
  rewrite set_quarantine_run by done. erewrite sync_orphan_exposure_run by done.
  eexists. split; [reflexivity|]. split; cbn [put_key w_db w_redis rs_keys].
  - done.
  - done.
  - rewrite lookup_insert_ne by (intros H; by apply (quarantine_not_exposure _ _ _ _ (eq_sym H))).
    apply lookup_insert_eq.
  - eexists. split; [reflexivity|]. apply lookup_insert_eq.
  - intros key H1 H2. by rewrite !lookup_insert_ne.
Qed.

Lemma mget_served net now strategy symbol s :
  served net -> mget net now [quarantine_key strategy symbol; quarantine_key "*" symbol] s =
  (Ok [lookup_live now (quarantine_key strategy symbol) (rs_keys s); lookup_live now (quarantine_key "*" symbol) (rs_keys s)],
   {| rs_keys := rs_keys s; rs_attempts := S (rs_attempts s) |}).
Proof. intros Hn. unfold mget. by rewrite with_retry_served. Qed.

(** ** Properties *)

(** A handled orphan blocks trading: with Redis up, an orphan that names a symbol and a broker
    id is recorded with its status, the symbol's quarantine and exposure keys are the only keys
    written, no other table changes, and from then on the quarantine check refuses the symbol for
    every strategy at any time - also when the orphan was terminal and is
    recorded as resolved: nothing lifts the quarantine. *)
Theorem orphan_blocks_trading net now rt o symbol bid w :
  served net -> non_empty (b_symbol o) = Some symbol -> upper symbol = symbol ->
  non_empty (b_id o) = Some bid -> orphan_fits o ->
  exists w', handle_orphan_order (Some net) now rt o w = (Ok true, w') /\
    quarantine_effect symbol bid (orphan_status_of o) w w' /\
    forall t strategy_id,
      fst (_check_quarantine false (Some net) t symbol strategy_id (w_redis w')) = Raise symbol_quarantined.
Proof.
  intros Hnet Hsym Hup Hbid Hfit.
  destruct (handle_orphan_run net now rt o symbol bid w Hnet Hsym Hbid Hfit) as (w' & E & Q).
  exists w'. split; [done|]. split; [done|]. intros t strategy_id. unfold _check_quarantine.
  rewrite Hup, mget_served by done. rewrite (lookup_live_stored t _ _ _ (qe_key _ _ _ _ _ Q)).
  simpl. by rewrite orb_true_r.
Qed.

(** The orders an orphan scan handles: not known, with a symbol and an id. *)
Definition is_orphan (db_known_ids : list string) (o : broker_order) : bool :=
  negb (known_order db_known_ids o) && bool_decide (is_Some (non_empty (b_symbol o)))
  && bool_decide (is_Some (non_empty (b_id o))).

Definition quarantined (symbol : string) (w : world) : Prop :=
  rs_keys (w_redis w) !! quarantine_key "*" symbol = Some ("orphan_order_detected", None).

Lemma quarantine_effect_other symbol bid st w w' x :
  quarantine_effect symbol bid st w w' ->
  if decide (x = symbol) then quarantined x w'
  else rs_keys (w_redis w') !! quarantine_key "*" x = rs_keys (w_redis w) !! quarantine_key "*" x.
Proof.
  intros Q. case_decide as Hx; [subst; apply Q|]. apply Q.
  - intros H. by apply quarantine_key_inj in H.
  - apply quarantine_not_exposure.
Qed.

Lemma detect_loop_run net now ids rt l : served net -> Forall orphan_fits l -> forall n w,
  exists w', for_each (detect_orphan (Some net) now ids rt) n l w
      = (Ok (n + length (filter (fun o => is_orphan ids o = true) l))%nat, w') /\
    forall x, (Exists (fun o => is_orphan ids o = true /\ b_symbol o = Some x) l -> quarantined x w') /\
      (~ Exists (fun o => is_orphan ids o = true /\ b_symbol o = Some x) l ->
         rs_keys (w_redis w') !! quarantine_key "*" x = rs_keys (w_redis w) !! quarantine_key "*" x) /\
      (quarantined x w -> quarantined x w').
Proof.
  intros Hnet. induction 1 as [|o l Ho Hl IH]; intros n w.
  { exists w. split; [simpl; by rewrite Nat.add_0_r|]. intros x. rewrite Exists_nil. tauto. }
  destruct (is_orphan ids o) eqn:Eo.
  - assert (Eo' := Eo). unfold is_orphan in Eo'. apply andb_true_iff in Eo' as [Eo' Hb].
    apply andb_true_iff in Eo' as [Hk Hs]. apply negb_true_iff in Hk.
    apply bool_decide_eq_true in Hs as [symbol Hsym]. apply bool_decide_eq_true in Hb as [bid Hbid].
    assert (Hsym' : b_symbol o = Some symbol)
      by (unfold non_empty in Hsym; destruct (b_symbol o) as [[]|]; [done|by injection Hsym as <-|done]).
    destruct (handle_orphan_run net now rt o symbol bid w Hnet Hsym Hbid Ho) as (w1 & E1 & Q1).
    assert (Es : detect_orphan (Some net) now ids rt n o w = (Ok (S n), w1))
      by (unfold detect_orphan; rewrite Hk; unfold mbind, M_bind; by rewrite E1).
    destruct (IH (S n) w1) as (w' & E & H). exists w'. split.
    + rewrite (for_each_step _ _ _ _ _ _ _ Es), E, filter_cons, decide_True by done. simpl. do 2 f_equal. lia.
    + intros x. destruct (H x) as (H1 & H2 & H3). pose proof (quarantine_effect_other _ _ _ _ _ x Q1) as Hx.
      rewrite Exists_cons. case_decide as Hxs.
      * subst x. split; [intros _; by apply H3|]. split; [|intros _; by apply H3].
        intros Hn. exfalso. apply Hn. by left.
      * split; [|split].
        -- intros [[_ Hc]|Hc]; [congruence|by apply H1].
        -- intros Hn. rewrite H2 by tauto. exact Hx.
        -- intros Hq. apply H3. unfold quarantined in *. by rewrite Hx.
  - destruct (IH n w) as (w' & E & H).
    assert (Es : detect_orphan (Some net) now ids rt n o w = (Ok n, w)).
    { unfold detect_orphan. unfold is_orphan in Eo. destruct (known_order ids o); [done|]. simpl in Eo.
      unfold handle_orphan_order. unfold mbind, M_bind. 
      destruct (non_empty (b_symbol o)), (non_empty (b_id o)); done. }
    exists w'. split.
    + rewrite (for_each_step _ _ _ _ _ _ _ Es), E, filter_cons, decide_False by congruence. done.
    + intros x. destruct (H x) as (H1 & H2 & H3). rewrite Exists_cons. split; [|split]; [..|done].
      * intros [[Hc _]|Hc]; [congruence|by apply H1].
      * intros Hn. apply H2. tauto.
Qed.

(** C30. The scan is complete and precise: with Redis up, after [detect_orphans] the symbol of every
    broker order (open or recent) the database does not know is quarantined, a symbol without
    such an order keeps its quarantine state, and the count is the number of orphans. *)
Theorem every_orphan_quarantined net now open_orders recent_orders ids w :
  served net -> Forall orphan_fits (open_orders ++ recent_orders) ->
  exists w', detect_orphans (Some net) now open_orders recent_orders ids w
      = (Ok (length (filter (fun o => is_orphan ids o = true) (open_orders ++ recent_orders))), w') /\
    forall symbol, 
      (Exists (fun o => is_orphan ids o = true /\ b_symbol o = Some symbol) (open_orders ++ recent_orders) ->
         quarantined symbol w') /\
      (~ Exists (fun o => is_orphan ids o = true /\ b_symbol o = Some symbol) (open_orders ++ recent_orders) ->
         (quarantined symbol w' <-> quarantined symbol w)).
Proof.
  intros Hnet Hfit. apply Forall_app in Hfit as [H1 H2].
  destruct (detect_loop_run net now ids false open_orders Hnet H1 0%nat w) as (w1 & E1 & Q1).
  destruct (detect_loop_run net now ids true recent_orders Hnet H2
    (length (filter (fun o => is_orphan ids o = true) open_orders)) w1) as (w2 & E2 & Q2).
  exists w2. split.
  - unfold detect_orphans. unfold mbind, M_bind. rewrite E1. simpl. rewrite E2. by rewrite filter_app, length_app.
  - intros x. destruct (Q1 x) as (A1 & B1 & C1), (Q2 x) as (A2 & B2 & C2). rewrite Exists_app. split.
    + intros [H|H]; [by apply C2, A1|by apply A2].
    + intros Hn. unfold quarantined. rewrite B2, B1 by tauto. done.
Qed.

(** The quarantine check fails closed: outside a dry run an order passes it only if Redis
    answered one of the three attempts and neither the strategy's nor the wildcard's
    key holds a value; without a Redis client, with a Redis error or during an outage it raises. *)
Theorem check_quarantine_fails_closed redis now symbol strategy_id s :
  fst (_check_quarantine false redis now symbol strategy_id s) = Ok tt <->
  exists net, redis = Some net /\
    answered net MAX_ATTEMPTS s /\
    truthy (lookup_live now (quarantine_key strategy_id (upper symbol)) (rs_keys s)) = false /\
    truthy (lookup_live now (quarantine_key "*" (upper symbol)) (rs_keys s)) = false.
Proof.
  unfold _check_quarantine. destruct redis as [net|]; [|split; [done|by intros (net & [=] & _)]].
  unfold mget, with_retry.
  destruct (attempts_read (fun k => (fun key => lookup_live now key k) <$>
    [quarantine_key strategy_id (upper symbol); quarantine_key "*" (upper symbol)]) net MAX_ATTEMPTS s)
    as [[[s' E] Hi]|[(e & s' & E) Hi]]; rewrite E.
  - simpl. rewrite orb_false_r. destruct (truthy _) eqn:T1; simpl.
    + split; [done|]. intros (net' & [= <-] & _ & ? & _). congruence.
    + destruct (truthy _) eqn:T2 in |- *; simpl.
      * split; [done|]. intros (net' & [= <-] & _ & _ & ?). congruence.
      * split; [|done]. intros _. exists net. by split_and!.
  - split; [by destruct e|]. by intros (net' & [= <-] & H & _).
Qed.

(** When Redis is unreachable, handling an orphan does not skip the quarantine as
    [set_quarantine] documents: the orphan is recorded, then the client's [RetryError] - not a
    [RedisError] - escapes every handler and aborts the caller. *)
Theorem redis_outage_aborts_orphan_handling net now rt o symbol bid w :
  non_empty (b_symbol o) = Some symbol -> non_empty (b_id o) = Some bid -> orphan_fits o ->
  outage net (w_redis w) ->
  fst (handle_orphan_order (Some net) now rt o w) = Raise RetryError /\
  orphan_recorded bid (orphan_status_of o) (w_db (snd (handle_orphan_order (Some net) now rt o w))).
Proof.
  intros Hsym Hbid Hfit Hout. unfold handle_orphan_order. rewrite Hsym, Hbid. cbv zeta.
  destruct (record_orphan now bid (b_client_order_id o) symbol QUARANTINE_STRATEGY_SENTINEL
    (or_text (b_side o) "unknown") o (orphan_status_of o)
    (if rt && is_terminal_status (orphan_status_of o) then Some now else None) (w_db w) Hfit)
    as (s1 & E1 & s2 & E2 & Es & Hrec).
  unfold mbind, M_bind, on_db. rewrite E1. cbn [w_db w_redis]. rewrite E2. cbn [w_db w_redis].
  unfold set_quarantine, catch, on_redis, mbind, M_bind. cbn [w_redis w_db].
  unfold set. cbn [valid_expiry]. unfold with_retry.
  pose proof (attempts_outage (set_command now (quarantine_key "*" symbol) "orphan_order_detected" None)
    net MAX_ATTEMPTS (w_redis w) Hout) as Hr.
  destruct (attempts _ _ _ _) as [[[]|e] s']; simpl in Hr; [done|]. injection Hr as ->. by split.
Qed.

(** A refused write leaves a gap: when Redis refuses the two writes and serves the next command,
    the orphan counts as handled, and the quarantine check, which does fail closed when
    Redis is down, lets orders for the symbol through. *)
Theorem refused_quarantine_lets_orders_through net now t rt o symbol bid strategy_id w :
  non_empty (b_symbol o) = Some symbol -> upper symbol = symbol -> non_empty (b_id o) = Some bid -> orphan_fits o ->
  net (rs_attempts (w_redis w)) = Refused -> net (S (rs_attempts (w_redis w))) = Refused ->
  net (S (S (rs_attempts (w_redis w)))) = Served ->
  lookup_live t (quarantine_key strategy_id symbol) (rs_keys (w_redis w)) = None ->
  lookup_live t (quarantine_key "*" symbol) (rs_keys (w_redis w)) = None ->
  exists w', handle_orphan_order (Some net) now rt o w = (Ok true, w') /\
    orphan_recorded bid (orphan_status_of o) (w_db w') /\
    fst (_check_quarantine false (Some net) t symbol strategy_id (w_redis w')) = Ok tt.
Proof.
  intros Hsym Hup Hbid Hfit H0 H1 H2 Hk1 Hk2. unfold handle_orphan_order. rewrite Hsym, Hbid. cbv zeta.
  destruct (record_orphan now bid (b_client_order_id o) symbol QUARANTINE_STRATEGY_SENTINEL
    (or_text (b_side o) "unknown") o (orphan_status_of o)
    (if rt && is_terminal_status (orphan_status_of o) then Some now else None) (w_db w) Hfit)
    as (s1 & E1 & s2 & E2 & Es & Hrec).
  unfold mbind, M_bind, on_db. rewrite E1. cbn [w_db w_redis]. rewrite E2. cbn [w_db w_redis].
  unfold set_quarantine, sync_orphan_exposure, catch, on_redis, on_db, mbind, M_bind. cbn [w_redis w_db].
  unfold set. cbn [valid_expiry]. unfold with_retry, MAX_ATTEMPTS. cbn [attempts]. rewrite H0. cbn.
  rewrite H1. cbn. eexists. split; [reflexivity|]. split; [done|]. cbn.
  unfold _check_quarantine, mget, with_retry, MAX_ATTEMPTS. cbn [attempts rs_attempts rs_keys]. rewrite H2.
  rewrite Hup. cbn [fst fmap list_fmap]. rewrite Hk1, Hk2. done.
Qed.

(** ** Witnesses *)

Definition ex_orphan : broker_order := {|
  b_id := Some "b7"; b_client_order_id := Some "x7"; b_symbol := Some "TSLA"; b_side := Some "buy";
  b_qty := Some (of_int 3); b_notional := None; b_limit_price := Some (of_int 200); b_filled_qty := None;
  b_filled_avg_price := None; b_status := Some "canceled"; b_created_at := None; b_updated_at := None;
  b_filled_at := None |}.
Definition ex_world : world := {| w_db := empty_db; w_redis := {| rs_keys := ∅; rs_attempts := 0 |} |}.

Lemma ex_orphan_fits : orphan_fits ex_orphan.
Proof. split; [reflexivity|]. by eexists; vm_compute. Qed.

Lemma orphan_blocks_trading_witness :
  exists w', handle_orphan_order (Some (fun _ => Served)) 5 true ex_orphan ex_world = (Ok true, w') /\
    forall t, fst (_check_quarantine false (Some (fun _ => Served)) t "TSLA" "alpha" (w_redis w')) = Raise symbol_quarantined.
Proof.
  destruct (orphan_blocks_trading (fun _ => Served) 5 true ex_orphan "TSLA" "b7" ex_world)
    as (w' & E & _ & H); [done|reflexivity|reflexivity|reflexivity|exact ex_orphan_fits|].
  exists w'. split; [exact E|]. intros t. exact (H t "alpha").
Defined.

Lemma every_orphan_quarantined_witness :
  exists w', detect_orphans (Some (fun _ => Served)) 5 [ex_orphan] [ex_orphan] ["x1"] ex_world = (Ok 2%nat, w') /\
    quarantined "TSLA" w'.
Proof.
  destruct (every_orphan_quarantined (fun _ => Served) 5 [ex_orphan] [ex_orphan] ["x1"] ex_world)
    as (w' & E & H); [done| |].
  { do 2 (apply Forall_cons; split; [exact ex_orphan_fits|]). apply Forall_nil_2. }
  exists w'. split; [exact E|]. apply (proj1 (H "TSLA")). apply Exists_cons_hd. split; reflexivity.
Defined.

Lemma redis_outage_aborts_orphan_handling_witness :
  fst (handle_orphan_order (Some (fun _ => Lost false)) 5 false ex_orphan ex_world) = Raise RetryError.
Proof.
  refine (proj1 (redis_outage_aborts_orphan_handling (fun _ => Lost false) 5 false ex_orphan "TSLA" "b7" ex_world _ _ _ _));
    [reflexivity|reflexivity|exact ex_orphan_fits|by intros i _; exists false].
Defined.

Lemma refused_quarantine_lets_orders_through_witness :
  let net := fun n => match n with 0 | 1 => Refused | _ => Served end%nat in
  exists w', handle_orphan_order (Some net) 5 false ex_orphan ex_world = (Ok true, w') /\
    fst (_check_quarantine false (Some net) 6 "TSLA" "alpha" (w_redis w')) = Ok tt.
Proof.
  intros net.
  destruct (refused_quarantine_lets_orders_through net 5 6 false ex_orphan "TSLA" "b7" "alpha" ex_world)
    as (w' & E & _ & H); [reflexivity|reflexivity|reflexivity|exact ex_orphan_fits|reflexivity..|].
  exists w'. split; [exact E|exact H].
Defined.
