(* ===== verification/ReconMods.v ===== *)
(** * Recovery of pending modifications (apps/execution_gateway/reconciliation/modifications.py)

    A replacement that reached the broker but was not finalised in the database
    is recovered: the modification is completed, the original order is marked
    replaced and the replacement order is inserted, in one transaction.  An
    IntegrityError of the insert is caught inside the transaction; PostgreSQL
    has then aborted it and its COMMIT rolls everything back. *)

From S2P Require Import Prelude PyDecimal PyText OrderStatus OrderSchema GatewayDb OrderCas ReconHelpers.
Open Scope Z_scope.

(** [_apply_change]: the second element of the pair. *)
Definition _apply_change {A B} (value : A) (change : option (B * A)) : A :=
  match change with Some (_, new) => new | None => value end.

(** A price change: the new value is stored, never null. *)
Definition apply_price_change (value : option decimal) (change : option (option decimal * decimal)) : option decimal :=
  match change with Some (_, new) => Some new | None => value end.

(** [with conn.transaction()] around a body that may have swallowed a failed statement: it
    answers whether it did, and the COMMIT of an aborted transaction is a rollback. *)
Definition transaction_aborting (m : M db bool) : M db unit := fun s =>
  match m s with
  | (Ok false, s') => (Ok tt, s')
  | (Ok true, _) => (Ok tt, s)
  | (Raise e, _) => (Raise e, s)
  end.

(** [try: m except IntegrityError: pass]: did the statement fail? *)
Definition ignore_integrity_error {A} (m : M db A) : M db bool := fun s =>
  match m s with
  | (Ok _, s') => (Ok false, s')
  | (Raise (IntegrityError _), s') => (Ok true, s')
  | (Raise e, s') => (Raise e, s')
  end.

(** The request built from the original order and the changes; the execution style column
    has no writer, so it holds its default. *)
Definition replacement_request (now : Z) (original : order_row) (changes : modification_changes) : result OrderRequest :=
  let tif := _apply_change (o_time_in_force (o_core original)) (ch_time_in_force changes) in
  mk_order_request now {|
    req_symbol := o_symbol (o_core original); req_side := o_side (o_core original);
    req_qty := _apply_change (o_qty (o_core original)) (ch_qty changes);
    req_order_type := o_order_type (o_core original);
    req_limit_price := apply_price_change (o_limit_price (o_core original)) (ch_limit_price changes);
    req_stop_price := apply_price_change (o_stop_price (o_core original)) (ch_stop_price changes);
    req_time_in_force := if one_of tif ["day"; "gtc"; "ioc"; "fok"] then tif else "day";
    req_client_order_id := None; req_execution_style := "instant"; req_twap_duration_minutes := None;
    req_twap_interval_seconds := None; req_start_time := None |}.

(** The transaction of one recovered modification. *)
Definition finalize_recovered (now : Z) (modification_id original_id new_client_id : string) (original : order_row)
    (request : OrderRequest) (o : broker_order) : M db unit :=
  let client_order_id := or_text (b_client_order_id o) new_client_id in
  transaction_aborting (
    _ ← finalize_modification now modification_id (b_id o) "completed" (Some client_order_id);
    _ ← update_order_status_simple_with_conn now original_id "replaced";
    ignore_integrity_error (
      insert_replacement_order now client_order_id original_id (o_strategy_id (o_core original)) request
        (or_text (b_status o) "pending_new") (b_id o))).

Definition recover_modification (br : broker) (now : Z) (recovered : nat) (x : string * modification_row) : M db nat :=
  let '(modification_id, m) := x in
  let original_id := mod_original_client_order_id m in
  let new_client_id := mod_new_client_order_id m in
  match br_order_by_client_id br new_client_id with
  | Raise _ => mret recovered
  | Ok None =>
      _ ← update_modification_status now modification_id "failed"
            (Some "Replacement order not found at broker after timeout");
      mret recovered
  | Ok (Some o) =>
      original ← get_order_by_client_id original_id;
      match original with
      | None =>
          _ ← update_modification_status now modification_id "failed"
                (Some "Original order missing during modification recovery");
          mret recovered
      | Some original =>
          request ← lift (replacement_request now original (mod_changes m));
          _ ← finalize_recovered now modification_id original_id new_client_id original request o;
          mret (S recovered)
      end
  end.

Definition stale_after_us : Z := 5 * minute_us.

Definition reconcile_pending_modifications (br : broker) (now : Z) : M db nat :=
  pending ← get_pending_modifications_older_than (now - stale_after_us);
  for_each (recover_modification br now) 0%nat pending.

(** ** Lemmas *)

(** No row of the table has this broker identifier. *)
Definition broker_id_free (orders : gmap string order_row) (b : option string) : Prop :=
  forall id r, orders !! id = Some r -> same_some b (o_broker_order_id (o_exec r)) = false.

(** The row [insert_replacement_order] writes. *)
Definition persisted_row (now : Z) (original_id : string) (original : order_row) (g : OrderRequest) (status : string)
    (broker_order_id : option string) : order_row := {|
  o_core := core_of (o_strategy_id (o_core original)) g;
  o_exec := new_exec status broker_order_id None (Some now);
  o_links := {| o_parent_order_id := None; o_slice_num := None; o_total_slices := None;
                o_scheduled_time := None; o_replaced_order_id := Some original_id |};
  o_metadata := Some empty_meta; o_created_at := now; o_updated_at := now |}.

Definition replacement_row (now : Z) (original_id : string) (original : order_row) (g : OrderRequest)
    (o : broker_order) : order_row :=
  persisted_row now original_id original g (or_text (b_status o) "pending_new") (b_id o).

Lemma persisted_valid orders now id original_id original g st b t :
  is_Some (orders !! original_id) -> broker_id_free orders b -> request_wf t g ->
  order_valid orders id (persisted_row now original_id original g st b) = true.
Proof.
  intros Ho Hb (Hf & _ & Hl & Hs & _). apply order_valid_spec. split; [|split].
  - unfold field_types_ok in Hf. boolify. unfold order_checks, persisted_row, core_of.
    cbn -[one_of price_positive Z.ltb dleb dltb]. 
    repeat (apply andb_true_iff; split); try done; by apply Z.ltb_lt.
  - intros id' r' Hr'. right. unfold rows_clash. cbn [persisted_row o_exec new_exec o_broker_order_id o_links o_parent_order_id].
    by rewrite (Hb _ _ Hr').
  - unfold refs_ok, ref_ok. simpl. by rewrite (bool_decide_eq_true_2 (is_Some _) Ho), orb_true_r.
Qed.

Lemma replacement_request_wf now original changes g :
  replacement_request now original changes = Ok g -> request_wf now g /\
  req_qty g = _apply_change (o_qty (o_core original)) (ch_qty changes) /\
  req_limit_price g = apply_price_change (o_limit_price (o_core original)) (ch_limit_price changes) /\
  req_stop_price g = apply_price_change (o_stop_price (o_core original)) (ch_stop_price changes).
Proof.
  unfold replacement_request. cbv zeta. intros H. apply mk_order_request_ok in H as [-> H]. by split_and!.
Qed.

Definition replaced_exec (e : order_exec) : order_exec := {|
  o_status := "replaced"; o_broker_order_id := o_broker_order_id e; o_error_message := o_error_message e;
  o_submitted_at := o_submitted_at e; o_filled_at := o_filled_at e; o_filled_qty := o_filled_qty e;
  o_filled_avg_price := o_filled_avg_price e; o_last_updated_at := o_last_updated_at e;
  o_is_terminal := is_terminal_status "replaced"; o_source_priority := o_source_priority e;
  o_status_rank := Some (status_rank_for "replaced"); o_broker_event_id := o_broker_event_id e |}.

(** Marking the original replaced keeps the row valid. *)
Lemma mark_replaced_run now id s r :
  orders_wf (db_orders s) -> db_orders s !! id = Some r ->
  update_order_status_simple_with_conn now id "replaced" s =
  (Ok (Some (set_exec now replaced_exec r)), set_orders (insert id (set_exec now replaced_exec r)) s).
Proof.
  intros Hwf Hr. unfold update_order_status_simple_with_conn, update_order. run_monad. rewrite Hr. cbn [always].
  replace (order_valid _ _ _) with true; [done|]. symmetry. exact (Hwf _ _ Hr).
Qed.

(** The rows of an order and of its replacement, after the two statements that write them. *)
Definition replaced_rows (now : Z) (original_id new_id : string) (original : order_row) (g : OrderRequest) (st : string)
    (b : option string) : db -> db :=
  fun s => set_orders (insert new_id (persisted_row now original_id original g st b))
             (set_orders (insert original_id (set_exec now replaced_exec original)) s).

Lemma replace_rows_run now t original_id new_id original g st b s :
  db_wf s -> db_orders s !! original_id = Some original -> request_wf t g -> db_orders s !! new_id = None ->
  broker_id_free (db_orders s) b ->
  exists s1, update_order_status_simple_with_conn now original_id "replaced" s = (Ok (Some (set_exec now replaced_exec original)), s1) /\
    insert_replacement_order now new_id original_id (o_strategy_id (o_core original)) g st b s1
      = (Ok (persisted_row now original_id original g st b), replaced_rows now original_id new_id original g st b s) /\
    db_wf (replaced_rows now original_id new_id original g st b s).
Proof.
  intros Hwf Horig Hg Hnew Hfree. set (s1 := set_orders (insert original_id (set_exec now replaced_exec original)) s).
  assert (Hwf1 : db_wf s1) by (apply db_wf_set_orders; [exact Hwf|exact (proj1 Hwf _ _ Horig)]).
  assert (Hne : new_id <> original_id) by congruence.
  assert (Hv : order_valid (db_orders s1) new_id (persisted_row now original_id original g st b) = true).
  { apply (persisted_valid _ _ _ _ _ _ _ _ t); [simpl; rewrite lookup_insert_eq; by eexists| |done].
    intros id r. simpl. destruct (decide (id = original_id)) as [->|Hid].
    - rewrite lookup_insert_eq. intros [= <-]. exact (Hfree _ _ Horig).
    - rewrite lookup_insert_ne by done. apply Hfree. }
  exists s1. split; [exact (mark_replaced_run now original_id s original (proj1 Hwf) Horig)|].
  split; [|by apply db_wf_set_orders]. apply insert_order_run; [|done]. simpl. by rewrite lookup_insert_ne.
Qed.

(** ** Properties *)

(** A replacement found at the broker is recovered completely: the modification is completed
    with the broker's identifiers, the original order is 'replaced' and terminal,
    and the replacement order carries the original's parameters with the changes applied, linked to
    it; no other order and no other modification is touched and the constraints hold. *)
Theorem recovered_modification_replaces_order br now n mid m o original g s :
  let new_id := or_text (b_client_order_id o) (mod_new_client_order_id m) in
  let original_id := mod_original_client_order_id m in
  db_wf s -> br_order_by_client_id br (mod_new_client_order_id m) = Ok (Some o) ->
  db_orders s !! original_id = Some original -> db_modifications s !! mid = Some m ->
  replacement_request now original (mod_changes m) = Ok g ->
  db_orders s !! new_id = None -> broker_id_free (db_orders s) (b_id o) ->
  exists s', recover_modification br now n (mid, m) s = (Ok (S n), s') /\ db_wf s' /\
    db_orders s' = <[new_id := replacement_row now original_id original g o]>
                     (<[original_id := set_exec now replaced_exec original]> (db_orders s)) /\
    db_modifications s' = <[mid := set_mod_status now "completed" None (b_id o) new_id m]> (db_modifications s) /\
    req_qty g = _apply_change (o_qty (o_core original)) (ch_qty (mod_changes m)).
Proof.
  intros new_id original_id Hwf Hbr Horig Hmod Hg Hnew Hfree.
  destruct (replacement_request_wf _ _ _ _ Hg) as (Hgwf & Hqty & _).
  set (s1 := set_modifications (alter (fun m => set_mod_status now "completed" None (b_id o) new_id m) mid) s).
  assert (Hwf1 : db_wf s1) by exact Hwf.
  destruct (replace_rows_run now now original_id new_id original g (or_text (b_status o) "pending_new") (b_id o) s1
    Hwf1 Horig Hgwf Hnew Hfree) as (s2 & E2 & E3 & Hwf3).
  set (s3 := replaced_rows _ _ _ _ _ _ _ s1) in *.
  assert (E : finalize_recovered now mid original_id (mod_new_client_order_id m) original g o s = (Ok tt, s3)).
  { unfold finalize_recovered, transaction_aborting, mbind, M_bind. fold new_id.
    change (finalize_modification now mid (b_id o) "completed" (Some new_id) s) with (@Ok unit tt, s1).
    cbv iota beta. rewrite E2. unfold ignore_integrity_error. by rewrite E3. }
  exists s3. split_and!; [|exact Hwf3|done| |done].
  - unfold recover_modification. rewrite Hbr. unfold mbind, M_bind, get_order_by_client_id, reads.
    fold original_id. rewrite Horig. unfold lift. rewrite Hg. by rewrite E.
  - simpl. unfold s1. apply map_eq. intros k. simpl. destruct (decide (k = mid)) as [->|Hk].
    + by rewrite lookup_alter_eq, Hmod, lookup_insert_eq.
    + by rewrite lookup_alter_ne, lookup_insert_ne.
Qed.

(** When the replacement order is already on record, the case whose IntegrityError the code
    ignores, nothing is recovered although the run counts it: the failed insert has aborted the
    transaction, the modification stays pending, the original order keeps its
    status, and the next run does the same again. *)
Theorem recorded_replacement_stays_pending br now n mid m o original g s :
  let new_id := or_text (b_client_order_id o) (mod_new_client_order_id m) in
  db_wf s -> br_order_by_client_id br (mod_new_client_order_id m) = Ok (Some o) ->
  db_orders s !! mod_original_client_order_id m = Some original ->
  replacement_request now original (mod_changes m) = Ok g -> is_Some (db_orders s !! new_id) ->
  recover_modification br now n (mid, m) s = (Ok (S n), s).
Proof.
  intros new_id Hwf Hbr Horig Hg [r Hnew]. unfold recover_modification. rewrite Hbr.
  unfold mbind, M_bind, get_order_by_client_id, reads. rewrite Horig. unfold lift. rewrite Hg.
  unfold finalize_recovered, transaction_aborting, mbind, M_bind. fold new_id.
  set (s1 := set_modifications (alter (fun m => set_mod_status now "completed" None (b_id o) new_id m) mid) s).
  change (finalize_modification now mid (b_id o) "completed" (Some new_id) s) with (@Ok unit tt, s1).
  cbv iota beta.
  rewrite (mark_replaced_run now (mod_original_client_order_id m) s1 original (proj1 Hwf) Horig).
  unfold ignore_integrity_error, insert_replacement_order, insert_order. run_monad.
  destruct (decide (new_id = mod_original_client_order_id m)) as [->|Hne].
  - by rewrite lookup_insert_eq.
  - rewrite lookup_insert_ne by done. by rewrite Hnew.
Qed.

(** ** What a run leaves alone *)

Lemma transaction_aborting_preserves (P : db -> Prop) m : preserves P m -> preserves P (transaction_aborting m).
Proof. intros H s Hs. unfold transaction_aborting. specialize (H s Hs). by destruct (m s) as [[[]|e] s']. Qed.

Lemma ignore_integrity_error_preserves (P : db -> Prop) {A} (m : M db A) :
  preserves P m -> preserves P (ignore_integrity_error m).
Proof. intros H s Hs. unfold ignore_integrity_error. specialize (H s Hs). by destruct (m s) as [[|[]] s']. Qed.

Section kept.
Context (P : db -> Prop) (br : broker) (now : Z) (mid : string).
Context (Hmods : forall f s, P s -> P (set_modifications (alter f mid) s)).
Context (Hmark : forall id st, preserves P (update_order_status_simple_with_conn now id st)).
Context (Hins : forall id o g r st b, preserves P (insert_replacement_order now id o g r st b)).

Lemma recover_modification_preserves n m : preserves P (recover_modification br now n (mid, m)).
Proof.
  unfold recover_modification. destruct (br_order_by_client_id br _) as [[o|]|e]; [| |apply preserves_ret].
  - apply preserves_bind; [apply preserves_reads|]. intros [original|].
    + apply preserves_bind; [apply preserves_lift|]. intros g. apply preserves_bind; [|intros; apply preserves_ret].
      apply transaction_aborting_preserves. apply preserves_bind; [|intros _; apply preserves_bind; [apply Hmark|]].
      * intros s Hs. by apply Hmods.
      * intros _. apply ignore_integrity_error_preserves, Hins.
    + apply preserves_bind; [|intros; apply preserves_ret]. intros s Hs. by apply Hmods.
  - apply preserves_bind; [|intros; apply preserves_ret]. intros s Hs. by apply Hmods.
Qed.
End kept.

Lemma insert_order_mods (Q : gmap string modification_row -> Prop) id r :
  preserves (fun s => Q (db_modifications s)) (insert_order id r).
Proof. intros s Hs. unfold insert_order. run_monad. destruct (_ !! _); [done|]. by destruct (order_valid _ _ _). Qed.

Lemma update_order_mods (Q : gmap string modification_row -> Prop) id c f :
  preserves (fun s => Q (db_modifications s)) (update_order id c f).
Proof. intros s Hs. unfold update_order. run_monad. destruct (_ !! _); [|done]. destruct (c _); [|done]. by destruct (order_valid _ _ _). Qed.

Lemma fresh_modification_kept br now s j m : db_modifications s !! j = Some m ->
  mod_status m <> "pending" \/ now - stale_after_us <= mod_modified_at m ->
  db_modifications (snd (reconcile_pending_modifications br now s)) !! j = Some m.
Proof.
  unfold reconcile_pending_modifications, get_pending_modifications_older_than, mbind, M_bind, reads.
  set (l := merge_sort _ _). intros Hj Hfresh.
  assert (Hl : Forall (fun x => x.1 <> j) l).
  { apply Forall_forall. intros [mid m'] Hin Hx. simpl in Hx. subst mid. unfold l in Hin.
    rewrite merge_sort_Permutation in Hin. apply elem_of_map_to_list, map_lookup_filter_Some in Hin as [H1 [H2 H3]].
    simpl in *. rewrite Hj in H1. injection H1 as <-. destruct Hfresh; [done|lia]. }
  assert (H : preserves (fun s => db_modifications s !! j = Some m) (for_each (recover_modification br now) 0%nat l)); [|by apply H].
  clear Hj. generalize 0%nat. clearbody l. induction l as [|[mid m'] l' IH]; intros n; [apply preserves_ret|].
  apply Forall_cons in Hl as [Hne Hl]. simpl in Hne. simpl for_each. apply preserves_bind; [|intros; by apply IH].
  apply recover_modification_preserves.
  - intros f s0 H0. simpl. by rewrite lookup_alter_ne.
  - intros id st. apply (update_order_mods (fun M => M !! j = Some m)).
  - intros. apply (insert_order_mods (fun M => M !! j = Some m)).
Qed.

(** Recovery touches stale pending modifications only, whatever the broker answers and
    whether or not the run raises: a modification that is not pending, or
    younger than five minutes, is unchanged, and the constraints of the tables hold. *)
Theorem recovery_leaves_fresh_modifications br now s :
  let s' := snd (reconcile_pending_modifications br now s) in
  (db_wf s -> db_wf s') /\
  forall j m, db_modifications s !! j = Some m ->
    mod_status m <> "pending" \/ now - stale_after_us <= mod_modified_at m ->
    db_modifications s' !! j = Some m.
Proof.
  cbv zeta. split; [|intros; by apply fresh_modification_kept].
  unfold reconcile_pending_modifications, get_pending_modifications_older_than, mbind, M_bind, reads.
  assert (H : forall l, preserves db_wf (for_each (recover_modification br now) 0%nat l)); [|apply H].
  intros l. apply preserves_for_each. intros n [mid m]. apply recover_modification_preserves; [done| |].
  - intros id st. unfold update_order_status_simple_with_conn. apply update_order_preserves.
  - intros. apply insert_order_preserves.
Qed.

(** ** Witnesses *)

Definition ex_changes : modification_changes := {|
  ch_qty := Some (10, 25); ch_limit_price := None; ch_stop_price := None; ch_time_in_force := None |}.

Definition ex_modification : modification_row := {|
  mod_original_client_order_id := "o1"; mod_new_client_order_id := "o2"; mod_original_broker_order_id := Some "b1";
  mod_new_broker_order_id := None; mod_seq := 1; mod_idempotency_key := "k"; mod_status := "pending";
  mod_error_message := None; mod_modified_at := 1; mod_modified_by := "u"; mod_reason := None;
  mod_changes := ex_changes |}.

Definition ex_replacement : broker_order := {|
  b_id := Some "b2"; b_client_order_id := Some "o2"; b_symbol := Some "AAPL"; b_side := Some "buy";
  b_qty := Some (of_int 25); b_notional := None; b_limit_price := None; b_filled_qty := None;
  b_filled_avg_price := None; b_status := Some "accepted"; b_created_at := None; b_updated_at := None;
  b_filled_at := None |}.

Definition ex_mod_broker : broker := {|
  br_orders := fun _ _ => Ok []; br_order_by_client_id := fun id =>
    if String.eqb id "o2" then Ok (Some ex_replacement) else Ok None;
  br_positions := Ok []; br_activities := fun _ _ _ _ => Ok [] |}.

Definition ex_mod_row : order_row := sample_row "accepted" false (Some 10).
Definition ex_mod_db : db := set_modifications (insert "m1" ex_modification) (sample_db ex_mod_row).

Definition ex_request : OrderRequest := {|
  req_symbol := "AAPL"; req_side := "buy"; req_qty := 25; req_order_type := "market"; req_limit_price := None;
  req_stop_price := None; req_time_in_force := "day"; req_execution_style := "instant";
  req_twap_duration_minutes := None; req_twap_interval_seconds := None; req_start_time := None;
  req_client_order_id := None |}.

Lemma ex_mod_db_wf : db_wf ex_mod_db.
Proof. exact (sample_db_wf ex_mod_row eq_refl). Qed.

Lemma recovered_modification_replaces_order_witness :
  exists s', recover_modification ex_mod_broker 9 0 ("m1", ex_modification) ex_mod_db = (Ok 1%nat, s') /\
    option_map (fun r => o_qty (o_core r)) (db_orders s' !! "o2") = Some 25.
Proof.
  destruct (recovered_modification_replaces_order ex_mod_broker 9 0 "m1" ex_modification ex_replacement ex_mod_row
    ex_request ex_mod_db) as (s' & E & _ & Ho & _); [exact ex_mod_db_wf|reflexivity..| |].
  - intros id r Hr. change (({[ "o1" := ex_mod_row ]} : gmap string order_row) !! id = Some r) in Hr.
    apply lookup_singleton_Some in Hr as [_ <-]. reflexivity.
  - exists s'. split; [exact E|]. rewrite Ho. reflexivity.
Defined.

Lemma recorded_replacement_stays_pending_witness :
  let s := set_orders (insert "o2" (replacement_row 5 "o1" ex_mod_row ex_request ex_replacement)) ex_mod_db in
  recover_modification ex_mod_broker 9 0 ("m1", ex_modification) s = (Ok 1%nat, s).
Proof.
  intros s. apply (recorded_replacement_stays_pending ex_mod_broker 9 0 "m1" ex_modification ex_replacement ex_mod_row
    ex_request); [|reflexivity..|by eexists].
  apply db_wf_set_orders; [exact ex_mod_db_wf|]. vm_compute. reflexivity.
Defined.
