(* ===== verification/ReconService.v ===== *)
(** * The reconciliation service (apps/execution_gateway/reconciliation/service.py)

    One run composes the steps of the other Recon files over the database and
    Redis, advances the high-water mark last, and opens the startup gate; the
    startup run and the periodic loop decide which exceptions they survive. *)

From S2P Require Import Prelude PyDecimal PyText OrderStatus OrderSchema GatewayDb OrderCas FillOps RedisClient.
From S2P Require Import ReconState PyDict ReconHelpers ReconFills ReconOrders ReconPositions ReconOrphans ReconMods.
Open Scope Z_scope.

(** The service's configuration and clients. *)
Record ReconciliationService := {
  sv_dry_run : bool;
  sv_redis_client : option network;
  sv_max_individual_lookups : nat;
  sv_overlap_seconds : Z;
  sv_submitted_unconfirmed_grace_seconds : Z;
  sv_backfill : backfill_config;
  sv_set_order : list string -> list string  (** Python's iteration order over a set *)
}.

(** The clock at the start of a run and during it. *)
Record run_clock := { start_time : Z; current_time : Z }.

Definition orders_mark : string := "orders".

Definition _simple_backfill_callback (now : Z) (client_order_id : string) (o : broker_order) : M db unit :=
  _ ← backfill_fill_metadata now client_order_id o None None; mret tt.

(** [except Exception: log] *)
Definition ignore_errors {A} (m : M db A) : M db unit := or_else_return tt (_ ← m; mret tt).

Definition run_result (t : Z) (mode status : string) (error : option string) : recon_result :=
  {| rr_status := status; rr_mode := mode; rr_timestamp := t; rr_error := error |}.

(** [get_non_terminal_orders] is called without a cutoff. *)
Definition _run_reconciliation (sv : ReconciliationService) (br : broker) (clock : run_clock) (mode : string)
    : M world recon_result :=
  let now := current_time clock in
  last_check ← on_db (get_reconciliation_high_water_mark orders_mark);
  let after_time := t ← last_check; Some (t - sv_overlap_seconds sv * second_us) in
  open_orders ← lift (br_orders br "open" None);
  recent_orders ← lift (match after_time with
                        | Some t => br_orders br "all" (Some t)
                        | None => Ok [] end);
  let orders_by_client := merge_broker_orders open_orders recent_orders in
  db_orders ← on_db (get_non_terminal_orders None);
  let broker_client_ids := extract_broker_client_ids (open_orders ++ recent_orders) in
  db_known_ids ← on_db (get_order_ids_by_client_ids broker_client_ids);
  _ ← on_db (reconcile_known_orders (backfill_callback now) now db_orders orders_by_client);
  _ ← on_db (reconcile_missing_orders (backfill_callback now) br now db_orders after_time
               (sv_max_individual_lookups sv) (sv_submitted_unconfirmed_grace_seconds sv));
  _ ← detect_orphans (sv_redis_client sv) now open_orders recent_orders db_known_ids;
  _ ← on_db (backfill_terminal_fills (_simple_backfill_callback now) orders_by_client db_known_ids);
  _ ← on_db (ignore_errors (backfill_alpaca_fills br now (sv_backfill sv) None false));
  _ ← on_db (reconcile_positions (sv_set_order sv) br now);
  _ ← on_db (backfill_missing_fills_scan now 200);
  _ ← on_db (reconcile_pending_modifications br now);
  _ ← on_db (set_reconciliation_high_water_mark (start_time clock) orders_mark);
  mret (run_result (start_time clock) mode "success" None).

(** ** The gate around a run *)

Record service_state := { ss_world : world; ss_gate : ReconciliationState }.

Definition on_world {A} (m : M world A) : M service_state A := fun s =>
  let '(r, w) := m (ss_world s) in (r, {| ss_world := w; ss_gate := ss_gate s |}).
Definition on_gate {A} (m : M ReconciliationState A) : M service_state A := fun s =>
  let '(r, g) := m (ss_gate s) in (r, {| ss_world := ss_world s; ss_gate := g |}).

Definition run_reconciliation_once (sv : ReconciliationService) (br : broker) (clock : run_clock) (mode : string)
    : M service_state unit :=
  if sv_dry_run sv then mret tt
  else
    result ← on_world (_run_reconciliation sv br clock mode);
    _ ← on_gate (record_reconciliation_result result);
    _ ← on_gate open_gate_after_successful_run;
    mret tt.

(** The exceptions [run_startup_reconciliation] turns into a failed result. *)
Definition startup_error (e : exn) : option string :=
  match e with
  | AlpacaConnectionError m | OperationalError m | IntegrityError m | ValueError m | ConnectionError m => Some m
  | _ => None
  end.

Definition run_startup_reconciliation (sv : ReconciliationService) (br : broker) (clock : run_clock)
    : M service_state bool :=
  if sv_dry_run sv then mret true
  else fun s =>
    match run_reconciliation_once sv br clock "startup" s with
    | (Ok _, s') => (Ok true, s')
    | (Raise e, s') =>
        match startup_error e with
        | Some m => (_ ← on_gate (record_reconciliation_result (run_result (current_time clock) "startup" "failed" (Some m)));
                     mret false) s'
        | None => (Raise e, s')
        end
    end.

(** The exceptions an iteration of the periodic loop survives. *)
Definition periodic_error (e : exn) : bool :=
  match e with AlpacaConnectionError _ | OperationalError _ | IntegrityError _ | ValueError _ => true | _ => false end.

Definition periodic_iteration (sv : ReconciliationService) (p : broker * run_clock) : M service_state unit :=
  catch periodic_error tt (
    _ ← run_reconciliation_once sv p.1 p.2 "periodic";
    _ ← on_gate open_gate_after_successful_run;
    mret tt).

(** The loop until the stop event, which comes after the polls of [polls]; an exception
    that escapes an iteration ends it. *)
Fixpoint run_periodic_loop (sv : ReconciliationService) (polls : list (broker * run_clock)) : M service_state unit :=
  match polls with
  | [] => mret tt
  | p :: polls' => _ ← periodic_iteration sv p; run_periodic_loop sv polls'
  end.

(** ** Lemmas: the orders' high-water mark *)

Definition mark_is (m : option Z) (s : db) : Prop := db_high_water_marks s !! orders_mark = m.

Section mark.
Context (m : option Z).
#[local] Abbreviation keeps := (preserves (mark_is m)).

Lemma update_order_mark id c f : keeps (update_order id c f).
Proof.
  intros s Hs. unfold update_order. run_monad. destruct (db_orders s !! id) as [r|]; [|done].
  destruct (c r); [|done]. by destruct (order_valid _ _ _).
Qed.

Lemma insert_order_mark id r : keeps (insert_order id r).
Proof. intros s Hs. unfold insert_order. run_monad. destruct (_ !! _); [done|]. by destruct (order_valid _ _ _). Qed.

Lemma modify_mark f : (forall s, db_high_water_marks (f s) = db_high_water_marks s) -> keeps (modify f).
Proof. intros Hf s Hs. unfold mark_is, modify in *. simpl. by rewrite Hf. Qed.

Lemma insert_trade_from_fill_mark id r f : keeps (_insert_trade_from_fill id r f).
Proof.
  unfold _insert_trade_from_fill. cbv zeta. destruct (bool_decide _); [apply preserves_ret|].
  destruct (_ || _); [apply preserves_ret|]. apply preserves_bind.
  - intros s Hs. unfold insert_trade. run_monad. destruct (db_trades s !! _); [done|]. by destruct (_ && _).
  - intros _. destruct (f_synthetic f); [apply preserves_ret|]. by apply modify_mark.
Qed.

Lemma append_fill_mark now id f : keeps (append_fill_to_order_metadata now id f).
Proof.
  unfold append_fill_to_order_metadata. destruct (bool_decide _); [apply preserves_ret|].
  apply preserves_bind; [apply preserves_get|]. intros s0. destruct (db_orders s0 !! id); [|apply preserves_ret].
  apply preserves_bind; [apply update_order_mark|]. intros [row|]; [|apply preserves_ret].
  apply preserves_bind; [destruct (f_synthetic f); [apply preserves_ret|apply update_order_mark]|].
  intros sup. apply preserves_bind; [apply insert_trade_from_fill_mark|]. intros _. apply preserves_ret.
Qed.

Lemma backfill_metadata_mark now id o t cached : keeps (backfill_fill_metadata now id o t cached).
Proof. apply backfill_fill_metadata_preserves. intros f. apply append_fill_mark. Qed.

Lemma callback_mark now id o t cached : keeps (backfill_callback now id o t cached).
Proof. apply backfill_callback_preserves. intros f. apply append_fill_mark. Qed.

Lemma cas_mark now id u : keeps (update_order_status_cas now id u).
Proof. apply update_order_mark. Qed.

Lemma apply_broker_update_mark now id o : keeps (apply_broker_update (backfill_callback now) now id o).
Proof.
  unfold apply_broker_update. apply preserves_bind; [apply preserves_transaction, cas_mark|].
  intros [r|]; [|apply preserves_ret]. apply preserves_bind; [|intros; apply preserves_ret].
  destruct (one_of _ _); [apply callback_mark|apply preserves_ret].
Qed.

Lemma known_orders_mark now l d : keeps (reconcile_known_orders (backfill_callback now) now l d).
Proof.
  apply preserves_for_each. intros n x. unfold reconcile_known. destruct (dict_get _ _); [|apply preserves_ret].
  apply preserves_bind; [apply apply_broker_update_mark|]. intros. apply preserves_ret.
Qed.

Lemma missing_orders_mark br now l after max grace :
  keeps (reconcile_missing_orders (backfill_callback now) br now l after max grace).
Proof.
  unfold reconcile_missing_orders. generalize {| mc_lookups := 0; mc_updated := 0; mc_marked_failed := 0 |}.
  induction l as [|x l IH]; intros k; simpl; [apply preserves_ret|].
  destruct (already_checked _ _); [apply IH|]. destruct (_ <=? _)%nat; [apply preserves_ret|].
  apply preserves_bind; [|intros; apply IH]. unfold lookup_order.
  apply preserves_bind; [apply preserves_lift|]. intros [o|].
  - apply preserves_bind; [apply apply_broker_update_mark|]. intros. apply preserves_ret.
  - destruct (_ && _); [|apply preserves_ret].
    apply preserves_bind; [apply preserves_transaction, cas_mark|]. intros. apply preserves_ret.
Qed.

Lemma terminal_fills_mark now d ids : keeps (backfill_terminal_fills (_simple_backfill_callback now) d ids).
Proof.
  apply preserves_for_each. intros n x. unfold backfill_terminal. destruct (negb _); [apply preserves_ret|].
  destruct (one_of _ _); [|apply preserves_ret]. apply preserves_bind; [|intros; apply preserves_ret].
  unfold _simple_backfill_callback. apply preserves_bind; [apply backfill_metadata_mark|]. intros. apply preserves_ret.
Qed.

Lemma recalculate_mark recalc n p : keeps (recalculate_pair recalc n p).
Proof.
  intros s Hs. unfold recalculate_pair.
  assert (H : keeps (recalculate_trade_realized_pnl p.1 p.2 recalc None)).
  { unfold recalculate_trade_realized_pnl. apply preserves_bind; [apply preserves_get|]. intros s0.
    apply preserves_bind; [apply preserves_lift|]. intros u.
    apply preserves_bind; [by apply modify_mark|]. intros. apply preserves_ret. }
  specialize (H s Hs). by destruct (recalculate_trade_realized_pnl p.1 p.2 recalc None s) as [[[]|] ?].
Qed.

Lemma set_fills_mark now : keeps (set_reconciliation_high_water_mark now hwm_name).
Proof. intros s Hs. unfold mark_is in *. simpl. by rewrite lookup_insert_ne. Qed.

Lemma alpaca_fills_mark br now c h all : keeps (ignore_errors (backfill_alpaca_fills br now c h all)).
Proof.
  apply or_else_return_preserves. apply preserves_bind; [|intros; apply preserves_ret].
  unfold backfill_alpaca_fills. destruct (_ && _); [apply preserves_ret|].
  apply preserves_bind; [apply preserves_reads|]. intros last.
  apply preserves_bind; [apply preserves_lift|]. intros [|f fs].
  { apply preserves_bind; [apply set_fills_mark|]. intros. apply preserves_ret. }
  apply preserves_bind; [apply preserves_reads|]. intros orders. cbv zeta.
  apply preserves_bind; [|intros c'; apply preserves_bind; [apply set_fills_mark|intros; apply preserves_ret]].
  apply preserves_transaction. apply preserves_bind.
  - apply preserves_for_each. intros n x. apply preserves_for_each. intros n' f'. unfold insert_fill.
    apply preserves_bind; [apply append_fill_mark|]. intros. apply preserves_ret.
  - intros n. apply preserves_bind; [apply preserves_for_each; intros; apply recalculate_mark|]. intros. apply preserves_ret.
Qed.

Lemma upsert_snapshot_mark symbol q a c t : keeps (upsert_position_snapshot symbol q a c t).
Proof.
  apply preserves_transaction. intros s Hs. unfold upsert_position. run_monad. by destruct (position_checks _).
Qed.

Lemma positions_mark set_order br now : keeps (reconcile_positions set_order br now).
Proof.
  unfold reconcile_positions. apply preserves_bind; [apply preserves_lift|]. intros ps. cbv zeta.
  apply preserves_bind; [apply preserves_reads|]. intros l.
  apply preserves_bind; [|intros u; apply preserves_bind; [|intros; apply preserves_ret]];
    apply preserves_for_each; intros n x; (apply preserves_bind; [apply upsert_snapshot_mark|intros; apply preserves_ret]).
Qed.

Lemma scan_mark now limit : keeps (backfill_missing_fills_scan now limit).
Proof.
  apply or_else_return_preserves. apply preserves_bind; [apply preserves_reads|]. intros l.
  apply preserves_for_each. intros n x. apply preserves_bind; [|intros; apply preserves_ret].
  unfold backfill_fill_metadata_from_order. apply or_else_return_preserves.
  destruct (o_filled_avg_price (o_exec x.2)), (o_filled_qty (o_exec x.2)); try apply preserves_ret. cbv zeta.
  apply preserves_transaction. apply preserves_bind; [apply preserves_reads|]. intros locked.
  apply inject_synthetic_preserves. intros f. apply append_fill_mark.
Qed.

Lemma modifications_mark br now : keeps (reconcile_pending_modifications br now).
Proof.
  unfold reconcile_pending_modifications. apply preserves_bind; [apply preserves_reads|]. intros l.
  apply preserves_for_each. intros n [mid md]. apply recover_modification_preserves; [done| |].
  - intros. apply update_order_mark.
  - intros. apply insert_order_mark.
Qed.
End mark.

(** Lifting to the states of the service. *)
Lemma on_db_preserves (P : db -> Prop) {A} (m : M db A) : preserves P m -> preserves (fun w => P (w_db w)) (on_db m).
Proof. intros H w Hw. unfold on_db. specialize (H _ Hw). by destruct (m (w_db w)). Qed.

Lemma on_redis_preserves (P : db -> Prop) {A} (m : M redis_state A) : preserves (fun w => P (w_db w)) (on_redis m).
Proof. intros w Hw. unfold on_redis. by destruct (m (w_redis w)). Qed.

Lemma catch_preserves {S A} (P : S -> Prop) h (d : A) (m : M S A) : preserves P m -> preserves P (catch h d m).
Proof. intros H s Hs. unfold catch. specialize (H s Hs). destruct (m s) as [[a|e] s']; [done|]. by destruct (h e). Qed.

Lemma detect_orphans_mark m redis now l1 l2 ids :
  preserves (fun w => mark_is m (w_db w)) (detect_orphans redis now l1 l2 ids).
Proof.
  assert (Hh : forall rt n o, preserves (fun w => mark_is m (w_db w)) (detect_orphan redis now ids rt n o)).
  { intros rt n o. unfold detect_orphan. destruct (known_order _ _); [apply preserves_ret|].
    apply preserves_bind; [|intros; apply preserves_ret]. unfold handle_orphan_order.
    destruct (non_empty (b_symbol o)) as [symbol|]; [|apply preserves_ret].
    destruct (non_empty (b_id o)) as [bid|]; [|apply preserves_ret]. cbv zeta.
    apply preserves_bind; [|intros _; apply preserves_bind; [|intros _; apply preserves_bind; [|intros _; apply preserves_bind]]].
    - apply on_db_preserves, preserves_transaction. intros s Hs. unfold create_orphan_order. run_monad.
      destruct (int4 _); [|done]. destruct (numeric_18_2 _); [|done]. by destruct (_ !! bid).
    - by apply on_db_preserves, modify_mark.
    - unfold set_quarantine. destruct redis; [|apply preserves_ret]. apply catch_preserves.
      apply preserves_bind; [apply on_redis_preserves|intros; apply preserves_ret].
    - unfold sync_orphan_exposure. destruct redis; [|apply preserves_ret]. apply catch_preserves.
      apply preserves_bind; [apply on_db_preserves, preserves_reads|]. intros e.
      apply preserves_bind; [apply on_redis_preserves|intros; apply preserves_ret].
    - intros _. apply preserves_ret. }
  unfold detect_orphans. apply preserves_bind; [|intros n]; apply preserves_for_each; intros; apply Hh.
Qed.

(** The mark after a run: its start time on success, untouched otherwise. *)
Definition mark_after (clock : run_clock) (mode : string) (m : option Z) (r : result recon_result) (w : world) : Prop :=
  match r with
  | Ok res => mark_is (Some (start_time clock)) (w_db w) /\ res = run_result (start_time clock) mode "success" None
  | Raise _ => mark_is m (w_db w)
  end.

Lemma run_mark sv br clock mode m :
  ensures (fun w => mark_is m (w_db w)) (_run_reconciliation sv br clock mode) (mark_after clock mode m).
Proof.
  unfold _run_reconciliation. cbv zeta.
  assert (He : forall e w, mark_is m (w_db w) -> mark_after clock mode m (Raise e) w) by done.
  do 13 (apply ensures_step; [exact He|first [apply preserves_lift|apply detect_orphans_mark|
    apply on_db_preserves; first [apply preserves_reads|apply known_orders_mark|apply missing_orders_mark
      |apply terminal_fills_mark|apply alpaca_fills_mark|apply positions_mark|apply scan_mark
      |apply modifications_mark]]|intros ?]).
  intros w _. split; [|done]. unfold mark_is. apply lookup_insert_eq.
Qed.

(** The orders' mark of a service state. *)
Definition orders_mark_of (s : service_state) : option Z := db_high_water_marks (w_db (ss_world s)) !! orders_mark.

Lemma run_once_gate sv br clock mode s :
  sv_dry_run sv = false ->
  let out := run_reconciliation_once sv br clock mode s in
  match fst out with
  | Ok _ => orders_mark_of (snd out) = Some (start_time clock) /\ startup_complete (ss_gate (snd out)) = true
  | Raise _ => orders_mark_of (snd out) = orders_mark_of s /\ ss_gate (snd out) = ss_gate s
  end.
Proof.
  intros Hdry out. unfold out, run_reconciliation_once. rewrite Hdry.
  pose proof (run_mark sv br clock mode (orders_mark_of s) (ss_world s) eq_refl) as H.
  unfold mbind, M_bind, on_world. destruct (_run_reconciliation sv br clock mode (ss_world s)) as [[res|e] w].
  - destruct H as [H _]. unfold on_gate, open_gate_after_successful_run. simpl.
    destruct (startup_complete (ss_gate s)) eqn:E; simpl; by split.
  - simpl. by split.
Qed.


(** The startup run reports what happened to the gate: True means the gate is open; False means the
    run failed with one of the errors it handles, the failure is recorded (so that an operator may
    force the gate) and the gate is as it was; any other exception goes through to the caller
    with nothing recorded. *)
Theorem startup_run_outcome sv br clock s :
  sv_dry_run sv = false ->
  match run_startup_reconciliation sv br clock s with
  | (Ok true, s') => startup_complete (ss_gate s') = true /\ orders_mark_of s' = Some (start_time clock)
  | (Ok false, s') => startup_complete (ss_gate s') = startup_complete (ss_gate s) /\
      orders_mark_of s' = orders_mark_of s /\
      exists m, last_reconciliation_result (ss_gate s') =
        Some (run_result (current_time clock) "startup" "failed" (Some m))
  | (Raise e, s') => startup_error e = None /\ ss_gate s' = ss_gate s /\ orders_mark_of s' = orders_mark_of s
  end.
Proof.
  intros Hdry. unfold run_startup_reconciliation. rewrite Hdry.
  pose proof (run_once_gate sv br clock "startup" s Hdry) as H.
  destruct (run_reconciliation_once sv br clock "startup" s) as [[[]|e] s']; simpl in H.
  - by destruct H.
  - destruct H as [H1 H2]. destruct (startup_error e) as [m|] eqn:Ee; [|by split_and!].
    unfold mbind, M_bind, on_gate. simpl. rewrite H2. split_and!; [done|done|]. by exists m.
Qed.

(** ** Redis outages and the periodic loop *)

(** An idle gateway: no open orders, no earlier run; the broker reports one open order,
    which the database does not know. *)
Record one_orphan (br : broker) (o : broker_order) (w : world) : Prop := {
  oo_orders : br_orders br "open" None = Ok [o];
  oo_mark : db_high_water_marks (w_db w) !! orders_mark = None;
  oo_none : db_orders (w_db w) = ∅;
  oo_symbol : exists symbol, non_empty (b_symbol o) = Some symbol;
  oo_id : exists bid, non_empty (b_id o) = Some bid;
  oo_fits : orphan_fits o
}.

Lemma filter_known_none (l : list string) (s : db) :
  db_orders s = ∅ -> filter (fun id => id <> "" /\ is_Some (db_orders s !! id)) l = [].
Proof.
  intros Hs. induction l as [|x l IH]; [done|]. rewrite filter_cons, decide_False; [done|].
  intros [_ H]. rewrite Hs, lookup_empty in H. by destruct H.
Qed.

Lemma select_none c (s : db) : db_orders s = ∅ -> select_orders c s = [].
Proof. intros Hs. unfold select_orders. by rewrite Hs. Qed.

Lemma known_order_nil o : known_order [] o = false.
Proof.
  unfold known_order. destruct (non_empty (b_client_order_id o)) as [x|]; [|done].
  apply bool_decide_eq_false_2. intros H. by apply elem_of_nil in H.
Qed.

Lemma outage_run_raises sv net br clock mode o w :
  sv_redis_client sv = Some net -> one_orphan br o w -> outage net (w_redis w) ->
  fst (_run_reconciliation sv br clock mode w) = Raise RetryError.
Proof.
  intros Hnet [H1 H2 H3 [symbol H4] [bid H5] H6] Hout.
  destruct (redis_outage_aborts_orphan_handling net (current_time clock) false o symbol bid w H4 H5 H6 Hout) as [Hr _].
  unfold _run_reconciliation, mbind, M_bind, on_db, lift, get_reconciliation_high_water_mark, reads. cbv zeta.
  rewrite H2. cbn [w_db w_redis option_bind]. rewrite H1. cbv iota beta. cbn [app].
  unfold get_non_terminal_orders, reads. cbn [w_db]. rewrite select_none by done. change (merge_sort created_le []) with (@nil OrderDetail).
  cbn [w_db w_redis]. unfold get_order_ids_by_client_ids, reads. rewrite filter_known_none by done.
  unfold reconcile_known_orders, reconcile_missing_orders. cbn [for_each reconcile_missing w_db w_redis].
  unfold mret, M_ret. cbn [w_db w_redis].
  replace {| w_db := w_db w; w_redis := w_redis w |} with w by (by destruct w).
  unfold detect_orphans, mbind, M_bind. cbn [for_each]. unfold mbind, M_bind, detect_orphan.
  rewrite known_order_nil.
  unfold mbind, M_bind. rewrite Hnet.
  destruct (handle_orphan_order (Some net) (current_time clock) false o w) as [[b|e] w'] eqn:E; [done|].
  simpl in Hr. by injection Hr as ->.
Qed.


(** The periodic loop survives every error it lists: when each run either succeeds or fails with
    such an error, every poll is carried out, and once one of them succeeds the gate stays open. *)
Theorem periodic_loop_runs_every_poll sv polls : forall s,
  sv_dry_run sv = false ->
  (forall p s', p ∈ polls -> match fst (run_reconciliation_once sv p.1 p.2 "periodic" s') with
                          | Ok _ => True | Raise e => periodic_error e = true end) ->
  let s' := foldl (fun s p => snd (periodic_iteration sv p s)) s polls in
  run_periodic_loop sv polls s = (Ok tt, s') /\
  (startup_complete (ss_gate s) = true -> startup_complete (ss_gate s') = true).
Proof.
  induction polls as [|p polls IH]; intros s Hdry Hok; [done|]. cbn [foldl run_periodic_loop].
  assert (Hp : exists s1, periodic_iteration sv p s = (Ok tt, s1) /\
    (startup_complete (ss_gate s) = true -> startup_complete (ss_gate s1) = true)).
  { specialize (Hok p s ltac:(by left)).
    pose proof (run_once_gate sv p.1 p.2 "periodic" s Hdry) as H.
    unfold periodic_iteration, catch, mbind, M_bind.
    destruct (run_reconciliation_once sv p.1 p.2 "periodic" s) as [[[]|e] s1]; simpl in *.
    - destruct H as [_ H]. unfold on_gate, open_gate_after_successful_run. rewrite H. simpl.
      by eexists.
    - rewrite Hok. destruct H as [_ H]. exists s1. split; [done|]. by rewrite H. }
  destruct Hp as (s1 & E & Hg). unfold mbind, M_bind. rewrite E. cbn [snd].
  destruct (IH s1 Hdry) as [E' Hg']; [intros q s2 Hq; apply Hok; by right|].
  split; [exact E'|]. intros H. by apply Hg', Hg.
Qed.

(** ** Witnesses *)

Definition ex_service (net : network) : ReconciliationService := {|
  sv_dry_run := false; sv_redis_client := Some net; sv_max_individual_lookups := 100; sv_overlap_seconds := 60;
  sv_submitted_unconfirmed_grace_seconds := 300; sv_backfill := ex_config; sv_set_order := id |}.

Definition ex_service_state : service_state := {|
  ss_world := ex_world; ss_gate := recon_state_init 0 false 300 |}.

Definition ex_clock : run_clock := {| start_time := 7; current_time := 8 |}.

Definition ex_orphan_broker : broker := {|
  br_orders := fun status _ => Ok (if String.eqb status "open" then [ex_orphan] else []);
  br_order_by_client_id := fun _ => Ok None; br_positions := Ok []; br_activities := fun _ _ _ _ => Ok [] |}.

Definition ex_down_broker : broker := {|
  br_orders := fun _ _ => Raise (AlpacaConnectionError "down");
  br_order_by_client_id := fun _ => Raise (AlpacaConnectionError "down");
  br_positions := Raise (AlpacaConnectionError "down");
  br_activities := fun _ _ _ _ => Raise (AlpacaConnectionError "down") |}.


Lemma startup_run_outcome_witness :
  let out := run_startup_reconciliation (ex_service (fun _ => Served)) ex_down_broker ex_clock ex_service_state in
  fst out = Ok false /\ startup_complete (ss_gate (snd out)) = false.
Proof.
  pose proof (startup_run_outcome (ex_service (fun _ => Served)) ex_down_broker ex_clock ex_service_state eq_refl) as H.
  cbv zeta. destruct (run_startup_reconciliation _ _ _ _) as [[[]|e] s'] eqn:E.
  - exfalso. vm_compute in E. discriminate.
  - split; [reflexivity|]. exact (proj1 H).
  - exfalso. vm_compute in E. discriminate.
Defined.


Lemma periodic_loop_runs_every_poll_witness :
  fst (run_periodic_loop (ex_service (fun _ => Served)) [(ex_down_broker, ex_clock); (ex_down_broker, ex_clock)]
    ex_service_state) = Ok tt.
Proof.
  refine (f_equal fst (proj1 (periodic_loop_runs_every_poll (ex_service (fun _ => Served))
    [(ex_down_broker, ex_clock); (ex_down_broker, ex_clock)] ex_service_state eq_refl _))).
  intros p s Hp. assert (E : p = (ex_down_broker, ex_clock)).
  { apply elem_of_cons in Hp as [->|Hp]; [reflexivity|]. by apply list_elem_of_singleton in Hp. }
  subst p. unfold run_reconciliation_once, mbind, M_bind, on_world. simpl. reflexivity.
Defined.
