(* ===== verification/OrderGates.v ===== *)
(** * The safety gates of order submission (apps/execution_gateway/routes/orders.py)

    What stands before an order: the components of the recovery manager, the
    kill switch, the breaker, the quarantine of the symbol, and the reduce-only
    gate of an unfinished startup.  An HTTPException carries its status and the
    error text of its detail. *)

From S2P Require Import Prelude PyDecimal Nano PyText OrderStatus OrderSchema GatewayDb RedisClient Gateway SliceExec.
From S2P Require KillSwitch Breaker Recovery ReconState ReconOrphans.
From Stdlib Require Import QArith Qabs Lqa.
Open Scope Z_scope.

(** The fields of [AppContext] and [ExecutionGatewayConfig] the handlers read. *)
Record gateway := {
  has_redis : bool;
  has_alpaca : bool;
  cfg_dry_run : bool;
  cfg_strategy_id : string;
  cfg_max_position_size : Z;
  cfg_max_price_age_seconds : Z;
  liquidity_service : option Liquidity.LiquidityService
}.

Definition unavailable : Z := 503.

(** ** Components and switches *)

Definition recovery_flag (env : environment) (f : Recovery.RecoveryState -> bool) : M gw bool :=
  local env (fun _ => reads (fun sh => f (sh_recovery sh))).

(** Gates 1 to 5.  The instances are looked up first, the flags at each gate. *)
Definition safety_gates (env : environment) : M gw unit :=
  kill_switch ← recovery_flag env Recovery.kill_switch;
  circuit_breaker ← recovery_flag env Recovery.circuit_breaker;
  position_reservation ← recovery_flag env Recovery.position_reservation;
  is_unavailable ← recovery_flag env Recovery.kill_switch_unavailable;
  if is_unavailable || negb kill_switch then raise (HTTPException unavailable "Kill-switch unavailable") else
  is_unavailable ← recovery_flag env Recovery.circuit_breaker_unavailable;
  if is_unavailable || negb circuit_breaker then raise (HTTPException unavailable "Circuit-breaker state unavailable") else
  is_unavailable ← recovery_flag env Recovery.position_reservation_unavailable;
  if is_unavailable || negb position_reservation
  then raise (HTTPException unavailable "Position-reservation state unavailable") else
  engaged ← call env (fun _ => in_kill KillSwitch.is_engaged);
  if engaged : bool then raise (HTTPException unavailable "Kill-switch engaged - new orders blocked") else
  tripped ← call env (fun _ => in_breaker Breaker.is_tripped);
  if tripped : bool then raise (HTTPException unavailable "Circuit breaker tripped - trading paused") else
  mret tt.

(** ** Quarantine *)

Definition check_quarantine (env : environment) (app : gateway) (symbol : string) : M gw unit :=
  local env (fun now => in_redis (ReconOrphans._check_quarantine (cfg_dry_run app)
    (if has_redis app then Some (redis_net env) else None) now symbol (cfg_strategy_id app))).

(** ** Reduce-only during startup *)

Definition _is_reconciliation_ready (app : gateway) (recon : option ReconState.ReconciliationState) : bool :=
  if cfg_dry_run app then true
  else match recon with None => false | Some s => ReconState.is_startup_complete s end.

(** [str(order.get("side", "")).lower() == order_side] *)
Definition has_side (order_side : string) (o : open_order) : bool :=
  match oo_side o with Some s => bool_decide (lower s = order_side) | None => false end.

Definition pending_of (order_side : string) (total : decimal) (o : open_order) : decimal :=
  if has_side order_side o then
    let remaining := dsub (oo_qty o) (oo_filled_qty o) in
    if dltb dzero remaining then dadd total remaining else total
  else total.

Definition _calculate_pending_order_qty (open_orders : list open_order) (order_side : string) : decimal :=
  foldl (pending_of order_side) dzero open_orders.

Definition _is_reduce_only_order (side : string) (qty : Z) (broker_position : option decimal)
    (open_orders : list open_order) : bool :=
  match broker_position with
  | None => false
  | Some current_qty =>
      if deqb current_qty dzero then false
      else if dltb dzero current_qty then
        if negb (bool_decide (lower side = "sell")) then false
        else dleb (of_int qty) (dsub current_qty (_calculate_pending_order_qty open_orders "sell"))
      else
        if negb (bool_decide (lower side = "buy")) then false
        else dleb (of_int qty) (dsub (dabs current_qty) (_calculate_pending_order_qty open_orders "buy"))
  end.

Definition broker_unavailable : exn := HTTPException unavailable "Broker unavailable during reconciliation".
Definition reconciliation_in_progress : exn := HTTPException unavailable "Reconciliation in progress".

Definition _require_reconciliation_ready_or_reduce_only (env : environment) (app : gateway) (order : OrderRequest)
    : M gw unit :=
  recon ← local env (fun _ => reads sh_recon);
  if match recon with Some s => ReconState.override_active s | None => false end then mret tt
  else if _is_reconciliation_ready app recon then mret tt
  else if negb (has_alpaca app) then raise broker_unavailable
  else
    broker_position ← try_except (get_open_position env (req_symbol order)) (fun _ => Some (raise broker_unavailable));
    open_orders ← try_except (get_open_orders env (upper (req_symbol order))) (fun _ => Some (mret []));
    if _is_reduce_only_order (req_side order) (req_qty order) broker_position open_orders then mret tt
    else raise reconciliation_in_progress.

(** ** What the reduce-only check admits *)

(** What is left of an open order on one side. *)
Definition open_nano (order_side : string) (o : open_order) : Z :=
  if has_side order_side o then Z.max 0 (nano (oo_qty o) - nano (oo_filled_qty o)) else 0.

(** Quantities the checks compute exactly with. *)
Definition fine_order (o : open_order) : Prop :=
  is_nano (oo_qty o) /\ is_nano (oo_filled_qty o) /\ 0 <= nano (oo_filled_qty o) <= nano (oo_qty o) /\ nano (oo_qty o) < 10 ^ 27.

Lemma pending_total order_side orders : Forall fine_order orders -> forall total,
  is_nano total -> 0 <= nano total -> nano total + Zsum (open_nano order_side <$> orders) < 10 ^ 27 ->
  let t := foldl (pending_of order_side) total orders in
  is_nano t /\ nano t = nano total + Zsum (open_nano order_side <$> orders).
Proof.
  induction 1 as [|o orders (Hq & Hf & Hf0 & Hq0) Ho IH]; intros total Ht H0 Hb.
  { simpl. split; [done|lia]. }
  cbn [fmap list_fmap] in Hb |- *. rewrite Zsum_cons in *.
  assert (Hrest : 0 <= Zsum (open_nano order_side <$> orders)).
  { apply Zsum_nonneg, Forall_fmap, Forall_true. intros o'. unfold open_nano. simpl. destruct (has_side _ _); lia. }
  assert (Hstep : is_nano (pending_of order_side total o) /\
    nano (pending_of order_side total o) = nano total + open_nano order_side o).
  { unfold pending_of, open_nano in *. destruct (has_side order_side o); [|split; [done|lia]].
    destruct (dsub_nano (oo_qty o) (oo_filled_qty o) Hq Hf) as [H1 E]; [lia|].
    rewrite dltb_nano by (exact H1 || done). change (nano dzero) with 0. rewrite E.
    destruct (Z.ltb_spec 0 (nano (oo_qty o) - nano (oo_filled_qty o))); [|split; [done|lia]].
    destruct (dadd_nano total (dsub (oo_qty o) (oo_filled_qty o))) as [H3 H4]; [done|exact H1|rewrite E; lia|].
    split; [exact H3|]. rewrite H4, E. lia. }
  destruct Hstep as [H1 H2]. destruct (IH _ H1) as [H3 H4]; [rewrite H2; unfold open_nano; destruct (has_side _ _); lia|lia|].
  split; [exact H3|]. simpl. rewrite H4, H2. lia.
Qed.

(** The order and everything pending on its side together do not reach past flat. *)
Definition reduces (side : string) (qty : Z) (q : decimal) (l : list open_order) : Prop :=
  (0 < nano q /\ lower side = "sell" /\ qty * 10 ^ 9 + Zsum (open_nano "sell" <$> l) <= nano q) \/
  (nano q < 0 /\ lower side = "buy" /\ qty * 10 ^ 9 + Zsum (open_nano "buy" <$> l) <= - nano q).

(** Quantities in billionths, few enough for 28 digits. *)
Definition fine_book (q : decimal) (l : list open_order) : Prop :=
  is_nano q /\ Z.abs (nano q) < 10 ^ 27 /\ Forall fine_order l /\
  forall order_side, Zsum (open_nano order_side <$> l) < 10 ^ 27.

Lemma reduce_only_spec side qty q l : fine_book q l ->
  _is_reduce_only_order side qty (Some q) l = true <-> reduces side qty q l.
Proof.
  intros (Hq & Hb & Hl & Hs). unfold _is_reduce_only_order, reduces. rewrite (deqb_nano _ dzero) by done. change (nano dzero) with 0.
  destruct (Z.eqb_spec (nano q) 0) as [E|E]; [split; [done|lia]|].
  assert (Hp : forall order_side, let t := _calculate_pending_order_qty l order_side in
    is_nano t /\ nano t = Zsum (open_nano order_side <$> l) /\ 0 <= nano t).
  { intros sd. destruct (pending_total sd l Hl dzero) as [H1 H2]; [done|done|apply Hs|].
    cbv zeta. unfold _calculate_pending_order_qty. rewrite H2. split; [exact H1|]. split; [done|].
    change (nano dzero) with 0. rewrite Z.add_0_l. apply Zsum_nonneg, Forall_fmap, Forall_true.
    intros o. unfold open_nano. simpl. destruct (has_side sd o); lia. }
  destruct (of_int_nano qty) as [Hi Hi'].
  rewrite dltb_nano by done. change (nano dzero) with 0. destruct (Z.ltb_spec 0 (nano q)) as [Hpos|Hneg].
  - destruct (Hp "sell") as (H1 & H2 & H3). specialize (Hs "sell").
    destruct (dsub_nano q _ Hq H1) as [H4 H5]; [lia|]. rewrite dleb_nano by done. rewrite H5, H2, Hi'.
    destruct (decide (lower side = "sell")) as [Es|Es].
    + rewrite bool_decide_true by done. simpl. rewrite Z.leb_le. split; [intros H; left; split_and!; [done..|lia]|].
      intros [(_ & _ & H)|(H & _)]; lia.
    + rewrite bool_decide_false by done. simpl. split; [done|]. intros [(_ & H & _)|(H & _)]; [done|lia].
  - destruct (Hp "buy") as (H1 & H2 & H3). specialize (Hs "buy").
    destruct (dabs_nano q Hq) as [H6 H7]; [lia|].
    destruct (dsub_nano (dabs q) _ H6 H1) as [H4 H5]; [lia|]. rewrite dleb_nano by done. rewrite H5, H2, H7, Hi'.
    destruct (decide (lower side = "buy")) as [Es|Es].
    + rewrite bool_decide_true by done. simpl. rewrite Z.leb_le. split; [intros H; right; split_and!; [lia|done|lia]|].
      intros [(H & _)|(_ & _ & H)]; lia.
    + rewrite bool_decide_false by done. simpl. split; [done|]. intros [(H & _)|(_ & H & _)]; [lia|done].
Qed.

Lemma get_open_position_reply env symbol s :
  g_sent (snd (get_open_position env symbol s)) = g_sent s ++ [GetPosition symbol] /\
  forall q, fst (get_open_position env symbol s) = Ok (Some q) ->
    broker_api env (g_sent s ++ [GetPosition symbol]) = Position q.
Proof.
  unfold get_open_position. rewrite M_bind_run. unfold ask_broker.
  destruct (broker_api env _) as [o|q|l|b n| |[c|] m|m|m|t]; try done; [split; [done|]; by intros q' [= ->]|].
  repeat case_match; by split.
Qed.

Lemma get_open_orders_reply env symbol s l :
  fst (get_open_orders env symbol s) = Ok l -> broker_api env (g_sent s ++ [GetOpenOrders symbol]) = Orders l.
Proof.
  unfold get_open_orders. rewrite M_bind_run. unfold ask_broker.
  destruct (broker_api env _) as [o|q|l'|b n| |c m|m|m|t]; try done. by intros [= ->].
Qed.

(** Until startup reconciliation is complete (or an operator has overridden it), an order passes only
    if the broker reports a position it reduces: even if it fills completely, after everything
    pending on its side that the broker reported, the position does not change its sign. *)
Theorem startup_admits_only_reductions env app order s s' :
  _require_reconciliation_ready_or_reduce_only env app order s = (Ok tt, s') ->
  let recon := sh_recon (others env (g_calls s) (g_shared s)) in
  (exists r, recon = Some r /\ ReconState.override_active r = true) \/
  _is_reconciliation_ready app recon = true \/
  exists q l, broker_api env (g_sent s ++ [GetPosition (req_symbol order)]) = Position q /\
    (broker_api env (g_sent s ++ [GetPosition (req_symbol order); GetOpenOrders (upper (req_symbol order))]) = Orders l \/ l = []) /\
    (fine_book q l -> reduces (req_side order) (req_qty order) q l).
Proof.
  unfold _require_reconciliation_ready_or_reduce_only. rewrite M_bind_run. unfold local, reads.
  set (recon := sh_recon (others env (g_calls s) (g_shared s))). cbv zeta. intros H.
  set (s0 := after_call (others env (g_calls s) (g_shared s)) s) in H.
  destruct (match recon with Some r => ReconState.override_active r | None => false end) eqn:Eo.
  { left. destruct recon as [r|]; [by exists r|done]. }
  right. destruct (_is_reconciliation_ready app recon) eqn:Er; [by left|]. right.
  destruct (negb (has_alpaca app)); [done|]. rewrite M_bind_run in H. unfold try_except at 1 in H.
  pose proof (get_open_position_reply env (req_symbol order) s0) as [Hs1 Hp].
  destruct (get_open_position env (req_symbol order) s0) as [[p|e] s1]; [|done]. cbn [fst snd] in Hs1, Hp.
  rewrite M_bind_run in H. unfold try_except in H.
  pose proof (get_open_orders_reply env (upper (req_symbol order)) s1) as Hl.
  assert (Hadm : forall l s2, (if _is_reduce_only_order (req_side order) (req_qty order) p l then mret tt
      else raise reconciliation_in_progress) s2 = (Ok tt, s') ->
    exists q, p = Some q /\ (fine_book q l -> reduces (req_side order) (req_qty order) q l)).
  { intros l s2. destruct p as [q|]; [|done]. destruct (_is_reduce_only_order _ _ (Some q) l) eqn:E; [|done].
    intros _. exists q. split; [done|]. intros Hf. by apply reduce_only_spec. }
  rewrite Hs1 in Hl. change (g_sent s0) with (g_sent s) in *. rewrite <- app_assoc in Hl. cbn [Datatypes.app] in Hl.
  destruct (get_open_orders env (upper (req_symbol order)) s1) as [[l|e] s2]; cbn [fst] in Hl.
  - destruct (Hadm _ _ H) as (q & -> & Hq). exists q, l. split_and!; [by apply Hp|left; by apply Hl|exact Hq].
  - destruct (Hadm _ _ H) as (q & -> & Hq). exists q, []. split_and!; [by apply Hp|by right|exact Hq].
Qed.

(** ** Closed gates *)

(** Refused: no answer, and nothing was sent to the broker. *)
Definition refused {A} (k : list broker_request) (r : result A) (s : gw) : Prop := (forall a, r <> Ok a) /\ g_sent s = k.

Section refusal.
Context (env : environment) (P : shared -> Prop) (k : list broker_request).
Hypothesis Hs : stable env P.

(** A step under the condition, before a rest that ensures [R]. *)
Lemma held_bind {A B} (Q : A -> Prop) (R : result B -> gw -> Prop) (m : M gw A) (f : A -> M gw B) :
  (forall e s, held k P s -> R (Raise e) s) ->
  ensures (held k P) m (fun r s => held k P s /\ forall a, r = Ok a -> Q a) ->
  (forall a, Q a -> ensures (held k P) (f a) R) -> ensures (held k P) (m ≫= f) R.
Proof.
  intros HR Hm Hf s H. rewrite M_bind_run. destruct (Hm s H) as [H1 H2].
  destruct (m s) as [[a|e] s1]; [by apply Hf; [apply H2|]|by apply HR].
Qed.

Lemma refused_raise {A} e : ensures (held k P) (raise e : M gw A) (refused k).
Proof. intros s [H _]. by split. Qed.

Lemma held_call {A} (m : Z -> M shared A) :
  (forall now sh, P sh -> P (snd (m now sh))) ->
  ensures (held k P) (call env m)
    (fun r s => held k P s /\ forall a, r = Ok a -> exists now sh, P sh /\ fst (m now sh) = Ok a).
Proof.
  intros Hm s [Hk HP]. specialize (Hs (g_calls s) _ HP). unfold call.
  destruct (fates env (g_calls s)) as [|e|e].
  - specialize (Hm (clock env (g_calls s)) _ Hs).
    destruct (m (clock env (g_calls s)) (others env (g_calls s) (g_shared s))) as [r sh] eqn:E. split; [by split|].
    intros a Ha. eexists _, _. split; [exact Hs|]. by rewrite E.
  - by split; [split|].
  - split; [split; [done|by apply Hm]|done].
Qed.

Lemma held_local {A} (m : Z -> M shared A) :
  (forall now sh, P sh -> P (snd (m now sh))) ->
  ensures (held k P) (local env m)
    (fun r s => held k P s /\ forall a, r = Ok a -> exists now sh, P sh /\ fst (m now sh) = Ok a).
Proof.
  intros Hm s [Hk HP]. specialize (Hs (g_calls s) _ HP). unfold local.
  specialize (Hm (clock env (g_calls s)) _ Hs).
  destruct (m (clock env (g_calls s)) (others env (g_calls s) (g_shared s))) as [r sh] eqn:E. split; [by split|].
  intros a Ha. eexists _, _. split; [exact Hs|]. by rewrite E.
Qed.

(** A flag as some state with the condition has it. *)
Lemma held_flag f : ensures (held k P) (recovery_flag env f)
  (fun r s => held k P s /\ forall b, r = Ok b -> exists sh, P sh /\ f (sh_recovery sh) = b).
Proof.
  intros s H. destruct (held_local (fun _ => reads (fun sh => f (sh_recovery sh))) (fun _ _ H => H) s H) as [H1 H2].
  split; [exact H1|]. intros b Hb. destruct (H2 b Hb) as (now & sh & HP & [= E]). by exists sh.
Qed.
End refusal.

Inductive gate := KillSwitchGone | BreakerGone | ReservationGone | KillSwitchEngaged | BreakerTripped | Quarantined.

#[export] Instance gate_eq_dec : EqDecision gate.
Proof. solve_decision. Defined.

(** What closes each gate for [symbol].  A gate is closed too when the state of its switch is lost, and
    the quarantine gate when there is no Redis client. *)
Definition closed (app : gateway) (symbol : string) (g : gate) (sh : shared) : Prop :=
  match g with
  | KillSwitchGone => Recovery.kill_switch_unavailable (sh_recovery sh) = true
  | BreakerGone => Recovery.circuit_breaker_unavailable (sh_recovery sh) = true
  | ReservationGone => Recovery.position_reservation_unavailable (sh_recovery sh) = true
  | KillSwitchEngaged => fst (KillSwitch.is_engaged (sh_kill sh)) <> Ok false
  | BreakerTripped => fst (Breaker.is_tripped (sh_breaker sh)) <> Ok false
  | Quarantined => cfg_dry_run app = false /\
      (has_redis app = false \/ exists strategy_id v, strategy_id ∈ [cfg_strategy_id app; "*"] /\ v <> "" /\
         rs_keys (sh_redis sh) !! ReconOrphans.quarantine_key strategy_id (upper symbol) = Some (v, None))
  end.

(** A lookup of keys without retries left over: what it returns, it read. *)
Lemma mget_values net now keys r vs r' : keys <> [] -> mget net now keys r = (Ok vs, r') ->
  vs = (fun key => lookup_live now key (rs_keys r)) <$> keys /\ rs_keys r' = rs_keys r.
Proof.
  destruct keys as [|key keys]; [done|]. intros _. unfold mget, with_retry. intros E.
  match type of E with attempts _ _ ?op _ = _ =>
    pose proof (attempts_repeatable op net MAX_ATTEMPTS (read_repeatable _) r) as H end.
  rewrite E in H. exact H.
Qed.

Lemma quarantine_refuses (env : environment) (app : gateway) symbol now sh :
  closed app symbol Quarantined sh -> forall a,
  fst (in_redis (ReconOrphans._check_quarantine (cfg_dry_run app)
    (if has_redis app then Some (redis_net env) else None) now symbol (cfg_strategy_id app)) sh) <> Ok a.
Proof.
  intros [Hd Hc] a. unfold in_redis. rewrite zoom_run. cbn [fst]. unfold ReconOrphans._check_quarantine. rewrite Hd.
  destruct (has_redis app) eqn:Hr; [|done]. destruct Hc as [|(st & v & Hst & Hv & Hk)]; [done|].
  destruct (mget _ _ _ _) as [[vs|e] r'] eqn:E; [|by destruct e].
  apply mget_values in E as [-> _]; [|done]. cbn [fmap list_fmap existsb].
  assert (Hlive : ReconOrphans.truthy (lookup_live now (ReconOrphans.quarantine_key st (upper symbol)) (rs_keys (sh_redis sh))) = true).
  { unfold lookup_live. rewrite Hk. by destruct v. }
  apply elem_of_cons in Hst as [->|Hst]; [|apply list_elem_of_singleton in Hst as ->].
  - by rewrite Hlive.
  - by rewrite Hlive, !orb_true_r.
Qed.

Section closed.
Context (env : environment) (app : gateway) (symbol : string) (g : gate) (k : list broker_request).
Hypothesis Hs : stable env (closed app symbol g).
Let P := closed app symbol g.

(** Steps of a handler whose rest ensures [R]. *)
Section steps.
Context {B : Type} (R : result B -> gw -> Prop).
Hypothesis HR : forall e s, held k P s -> R (Raise e) s.

Lemma gate_flag (f : Recovery.RecoveryState -> bool) (Q : bool -> Prop) (rest : bool -> M gw B) :
  (forall sh, P sh -> Q (f (sh_recovery sh))) ->
  (forall b, Q b -> ensures (held k P) (rest b) R) ->
  ensures (held k P) (b ← recovery_flag env f; rest b) R.
Proof.
  intros Hf Hr. apply (held_bind _ _ Q); [apply HR| |exact Hr].
  intros s H. destruct (held_flag env P k Hs f s H) as [H1 H2]. split; [done|].
  intros b Hb. destruct (H2 b Hb) as (sh & HP & <-). by apply Hf.
Qed.

Lemma gate_read {A} (m : M shared A) (Q : A -> Prop) (rest : A -> M gw B) :
  (forall sh, snd (m sh) = sh) -> (forall sh a, P sh -> fst (m sh) = Ok a -> Q a) ->
  (forall a, Q a -> ensures (held k P) (rest a) R) ->
  ensures (held k P) (a ← call env (fun _ => m); rest a) R.
Proof.
  intros Hm HQ Hr. apply (held_bind _ _ Q); [apply HR| |exact Hr].
  intros s H. destruct (held_call env P k Hs (fun _ => m)) with (s := s) as [H1 H2]; [by intros _ sh HP; rewrite Hm|done|].
  split; [done|]. intros a Ha. destruct (H2 a Ha) as (_ & sh & HP & E). by eapply HQ.
Qed.

Lemma gate_when (b : bool) e (rest : M gw B) :
  (b = false -> ensures (held k P) rest R) -> ensures (held k P) (if b then raise e else rest) R.
Proof. intros H. destruct b; [intros s Hh; by apply HR|by apply H]. Qed.

Lemma gate_switch (rest : bool -> M gw B) :
  (forall b, (g = KillSwitchEngaged -> b = true) -> ensures (held k P) (rest b) R) ->
  ensures (held k P) (b ← call env (fun _ => in_kill KillSwitch.is_engaged); rest b) R.
Proof.
  apply gate_read; [intros sh; by rewrite in_kill_read|].
  intros sh a HP E ->. rewrite in_kill_read in E. cbn [fst] in E. destruct a; [done|]. by destruct (HP E).
Qed.

Lemma gate_breaker (rest : bool -> M gw B) :
  (forall b, (g = BreakerTripped -> b = true) -> ensures (held k P) (rest b) R) ->
  ensures (held k P) (b ← call env (fun _ => in_breaker Breaker.is_tripped); rest b) R.
Proof.
  apply gate_read; [intros sh; by rewrite in_breaker_read|].
  intros sh a HP E ->. rewrite in_breaker_read in E. cbn [fst] in E. destruct a; [done|]. by destruct (HP E).
Qed.
End steps.

(** Refused, or the quarantine is the closed gate and still ahead. *)
Definition halted (r : result unit) (s : gw) : Prop := held k P s /\ (g <> Quarantined -> forall a, r <> Ok a).

Lemma halted_raise e s : held k P s -> halted (Raise e) s.
Proof. intros H. by split. Qed.

Lemma safety_gates_halted : ensures (held k P) (safety_gates env) halted.
Proof.
  apply (gate_flag _ halted_raise _ (fun _ => True)); [done|intros h1 _]. apply (gate_flag _ halted_raise _ (fun _ => True)); [done|intros h2 _].
  apply (gate_flag _ halted_raise _ (fun _ => True)); [done|intros h3 _].
  apply (gate_flag _ halted_raise _ (fun b => g = KillSwitchGone -> b = true)); [intros sh HP ->; exact HP|]. intros b1 Hb1.
  apply (gate_when _ halted_raise). intros [-> _]%orb_false_elim.
  apply (gate_flag _ halted_raise _ (fun b => g = BreakerGone -> b = true)); [intros sh HP ->; exact HP|]. intros b2 Hb2.
  apply (gate_when _ halted_raise). intros [-> _]%orb_false_elim.
  apply (gate_flag _ halted_raise _ (fun b => g = ReservationGone -> b = true)); [intros sh HP ->; exact HP|]. intros b3 Hb3.
  apply (gate_when _ halted_raise). intros [-> _]%orb_false_elim.
  apply (gate_switch _ halted_raise). intros b4 Hb4. apply (gate_when _ halted_raise). intros ->.
  apply (gate_breaker _ halted_raise). intros b5 Hb5. apply (gate_when _ halted_raise). intros ->.
  intros s H. split; [exact H|]. intros Hne. exfalso. destruct g; naive_solver.
Qed.

Lemma check_quarantine_refuses : g = Quarantined ->
  ensures (held k P) (check_quarantine env app symbol) (refused k).
Proof.
  intros Hg s [Hk HP]. unfold P in HP. specialize (Hs (g_calls s) _ HP). rewrite Hg in Hs, HP. unfold check_quarantine, local.
  pose proof (quarantine_refuses env app symbol (clock env (g_calls s)) _ Hs) as Hr.
  destruct (in_redis _ _) as [r sh]. by split.
Qed.
End closed.
