(* ===== verification/OrderSubmit.v ===== *)
(** * Order submission (apps/execution_gateway/routes/orders.py, [submit_order])

    The handler of POST /api/v1/orders behind authentication: the gates of
    [OrderGates], the position reservation, the idempotency check, the
    fat-finger check, the row in the database, the submission to the broker and
    what is undone when it fails.  [token] is the reservation's random token and
    [today] the UTC date; the time an order took is only logged. *)

From S2P Require Import Prelude PyDecimal PyText OrderStatus OrderSchema OrderId GatewayDb OrderCas FillOps RedisClient.
From S2P Require Import Gateway PriceFeed SliceExec OrderGates.
From S2P Require KillSwitch Breaker Reservation FatFinger ReconOrphans.
Import Gateway.Accounts.
Open Scope Z_scope.

Record OrderResponse := {
  resp_client_order_id : string;
  resp_status : string;
  resp_broker_order_id : option string;
  resp_core : order_core;
  resp_created_at : Z;
  resp_message : string
}.

Definition response (client_order_id : string) (row : order_row) (message : string) : OrderResponse := {|
  resp_client_order_id := client_order_id; resp_status := o_status (o_exec row);
  resp_broker_order_id := o_broker_order_id (o_exec row); resp_core := o_core row;
  resp_created_at := o_created_at row; resp_message := message |}.

Definition same_price (a b : option decimal) : bool :=
  match a, b with
  | None, None => true
  | Some x, Some y => deqb x y
  | _, _ => false
  end.

(** No statement writes [execution_style], so a row has the column's default, "instant". *)
Definition _idempotency_payload_matches (order : OrderRequest) (existing : order_row) (strategy_id : string) : bool :=
  let c := o_core existing in
  bool_decide (req_symbol order = o_symbol c) && bool_decide (req_side order = o_side c)
  && (req_qty order =? o_qty c) && bool_decide (req_order_type order = o_order_type c)
  && same_price (req_limit_price order) (o_limit_price c) && same_price (req_stop_price order) (o_stop_price c)
  && bool_decide (req_time_in_force order = o_time_in_force c)
  && bool_decide (req_execution_style order = "instant") && bool_decide (strategy_id = o_strategy_id c).

Definition id_collision (client_order_id : string) : exn :=
  HTTPException 409 ("client_order_id '" +:+ client_order_id +:+ "' already exists for a different order. Supply a unique ID.").

(** The answer to an order whose row exists. *)
Definition existing_response (app : gateway) (order : OrderRequest) (client_order_id : string) (row : order_row)
    (message : string) : M gw OrderResponse :=
  if negb (_idempotency_payload_matches order row (cfg_strategy_id app)) then raise (id_collision client_order_id)
  else mret (response client_order_id row message).

(** ** The reservation *)

Definition release (env : environment) (symbol token : string) : M gw unit :=
  _ ← call env (fun now => in_reserved (Reservation.release (now / second_us) symbol token)); mret tt.

Definition confirm (env : environment) (symbol token : string) : M gw unit :=
  _ ← call env (fun now => in_reserved (Reservation.confirm (now / second_us) symbol token)); mret tt.

(** Gate 8 *)
Definition reserve_position (env : environment) (app : gateway) (token : string) (order : OrderRequest) : M gw string :=
  current_position ← try_except (call env (fun _ => in_db (get_position_by_symbol (req_symbol order))))
    (fun _ => Some (raise (HTTPException unavailable "Position lookup unavailable for reservation (fail-closed)")));
  reservation_result ← call env (fun now => in_reserved (Reservation.reserve (now / second_us) token (req_symbol order)
    (req_side order) (req_qty order) (cfg_max_position_size app) current_position Reservation.DEFAULT_RESERVATION_TTL));
  if negb (Reservation.rr_success reservation_result) then raise (HTTPException 422 "Position limit exceeded")
  else match Reservation.rr_token reservation_result with
       | None => raise (HTTPException 500 "Position reservation failed to return token")
       | Some reservation_token => mret reservation_token
       end.

(** ** The checks after the reservation *)

(** Gate 9 *)
Definition find_existing (env : environment) (order : OrderRequest) (token client_order_id : string)
    : M gw (option order_row) :=
  try_except (call env (fun _ => in_db (get_order_by_client_id client_order_id)))
    (fun _ => Some (
      _ ← release env (req_symbol order) token; raise (HTTPException unavailable "Database unavailable during idempotency check"))).

(** [", ".join(iter_breach_types(breaches))], and the detail it gives *)
Definition fat_finger_detail (bs : list FatFinger.FatFingerBreach) : string :=
  match FatFinger.iter_breach_types bs with
  | [] => "Order rejected by fat-finger checks"
  | ts => "Order rejected by fat-finger checks: " +:+ String.concat ", " ts
  end.

(** Gate 10.  Nothing catches what the context's lookups raise. *)
Definition fat_finger_gate (env : environment) (app : gateway) (json_loads : string -> option price_data)
    (order : OrderRequest) (token : string) : M gw unit :=
  validator ← local env (fun _ => reads sh_fat_finger);
  let thresholds := FatFinger.get_effective_thresholds validator (req_symbol order) in
  context ← resolve_fat_finger_context json_loads env (has_redis app) (liquidity_service app)
              (cfg_max_price_age_seconds app) order thresholds;
  fat_finger_result ← lift (FatFinger.validate validator (req_symbol order) (req_qty order) context.1 context.2 (Some thresholds));
  if FatFinger.breached fat_finger_result then
    _ ← release env (req_symbol order) token;
    raise (HTTPException 400 (fat_finger_detail (FatFinger.breaches fat_finger_result)))
  else mret tt.

(** The [except] clauses of the insertion: a unique violation means that another request was first. *)
Definition insert_failed (env : environment) (app : gateway) (order : OrderRequest) (token client_order_id : string)
    (e : exn) : M gw (option OrderResponse) :=
  _ ← release env (req_symbol order) token;
  if UniqueViolation e then
    order_detail ← call env (fun _ => in_db (get_order_by_client_id client_order_id));
    match order_detail with
    | Some row =>
        r ← existing_response app order client_order_id row "Order already exists (concurrent retry)";
        mret (Some r)
    | None => raise e
    end
  else raise e.

(** Lines 1787-1849: [Some] answer when another request inserted the order first. *)
Definition insert_order_row (env : environment) (app : gateway) (order : OrderRequest) (token client_order_id : string)
    : M gw (option OrderResponse) :=
  try_except
    (_ ← call env (fun now => in_db (create_order now client_order_id (cfg_strategy_id app) order
           (if cfg_dry_run app then "dry_run" else "pending_new") None None));
     mret None)
    (fun e => Some (insert_failed env app order token client_order_id e)).

(** ** The submission *)

(** The row after a submission that failed. *)
Definition failed_submission (now : Z) (status : string) (error_message : option string) : cas_update := {|
  u_status := status; u_broker_updated_at := now; u_status_rank := status_rank_for status;
  u_source_priority := SOURCE_PRIORITY_MANUAL; u_filled_qty := Some dzero; u_filled_avg_price := None;
  u_filled_at := None; u_broker_order_id := None; u_broker_event_id := None; u_error_message := error_message |}.

Definition mark_failed (env : environment) (client_order_id status : string) (error_message : option string)
    : M gw (option order_row) :=
  call env (fun now => in_db (update_order_status_cas now client_order_id (failed_submission now status error_message))).

(** The [except] clauses of lines 1909-2043. *)
Definition submission_failed {A} (env : environment) (order : OrderRequest) (token client_order_id : string)
    (broker_accepted : bool) (e : exn) : M gw A :=
  match e with
  | ValueError m =>
      _ ← release env (req_symbol order) token;
      _ ← mark_failed env client_order_id "rejected" (Some ("Order validation failed: " +:+ m));
      raise (HTTPException 422 ("Order validation failed: " +:+ m))
  | AlpacaValidationError m =>
      _ ← release env (req_symbol order) token;
      _ ← mark_failed env client_order_id "rejected" None;
      raise (HTTPException 400 ("Order validation failed: " +:+ m))
  | AlpacaRejectionError m =>
      _ ← release env (req_symbol order) token;
      _ ← mark_failed env client_order_id "rejected" None;
      raise (HTTPException 422 ("Order rejected by broker: " +:+ m))
  | AlpacaConnectionError m =>
      _ ← release env (req_symbol order) token;
      _ ← mark_failed env client_order_id "failed" (Some ("Broker connection error: " +:+ m));
      raise (HTTPException unavailable ("Broker connection error: " +:+ m))
  | _ =>
      _ ← (if broker_accepted then mret tt else release env (req_symbol order) token);
      raise (HTTPException 500 "Unexpected error during order submission")
  end.

(** Lines 1885-1907: a failure to record the broker's identifier is only logged. *)
Definition record_acceptance (env : environment) (order : OrderRequest) (token client_order_id broker_order_id : string)
    : M gw unit :=
  _ ← confirm env (req_symbol order) token;
  try_except
    (_ ← call env (fun now => in_db (update_order_status now client_order_id "pending_new" (Some broker_order_id)
                                       None None None));
     mret tt)
    (fun _ => Some (mret tt)).

Definition submit_to_broker (env : environment) (app : gateway) (order : OrderRequest) (token client_order_id : string)
    : M gw (option string) :=
  if cfg_dry_run app then _ ← release env (req_symbol order) token; mret None
  else if negb (has_alpaca app) then
    _ ← release env (req_symbol order) token;
    raise (HTTPException unavailable "Alpaca client not initialized. Check credentials.")
  else
    broker_response ← try_except (Gateway.submit_order env order client_order_id)
                        (fun e => Some (submission_failed env order token client_order_id false e));
    _ ← try_except (record_acceptance env order token client_order_id (od_id broker_response))
          (fun e => Some (submission_failed env order token client_order_id true e));
    mret (Some (od_id broker_response)).

(** Lines 2052-2086 *)
Definition success_response (env : environment) (app : gateway) (order : OrderRequest) (client_order_id : string)
    (broker_order_id : option string) : M gw OrderResponse :=
  order_detail ← call env (fun _ => in_db (get_order_by_client_id client_order_id));
  match order_detail with
  | None => raise (HTTPException 500 "Order inserted but not found in database")
  | Some row => mret {|
      resp_client_order_id := client_order_id; resp_status := o_status (o_exec row);
      resp_broker_order_id := broker_order_id; resp_core := core_of (cfg_strategy_id app) order;
      resp_created_at := o_created_at row;
      resp_message := if cfg_dry_run app then "Order logged (DRY_RUN mode)" else "Order submitted" |}
  end.

Definition twap_not_supported : exn := HTTPException 400 "twap_not_supported".

(** Lines 1746-2086: a new order. *)
Definition place_order (env : environment) (app : gateway) (json_loads : string -> option price_data)
    (order : OrderRequest) (token client_order_id : string) : M gw OrderResponse :=
  _ ← fat_finger_gate env app json_loads order token;
  inserted ← insert_order_row env app order token client_order_id;
  match inserted with
  | Some r => mret r
  | None =>
      broker_order_id ← submit_to_broker env app order token client_order_id;
      success_response env app order client_order_id broker_order_id
  end.

(** Lines 1603-2086: gates 8 and 9, and the rest. *)
Definition reserve_and_place (env : environment) (app : gateway) (json_loads : string -> option price_data)
    (token : string) (order : OrderRequest) (client_order_id : string) : M gw OrderResponse :=
  reservation_token ← reserve_position env app token order;
  existing_order ← find_existing env order reservation_token client_order_id;
  match existing_order with
  | Some row =>
      _ ← release env (req_symbol order) reservation_token;
      existing_response app order client_order_id row "Order already exists (idempotent retry)"
  | None => place_order env app json_loads order reservation_token client_order_id
  end.

Definition client_id (app : gateway) (today : date) (order : OrderRequest) : result string :=
  match req_client_order_id order with
  | Some c => Ok c
  | None => generate_client_order_id order (cfg_strategy_id app) None today
  end.

Definition submit_order (env : environment) (app : gateway) (json_loads : string -> option price_data)
    (token : string) (today : date) (order : OrderRequest) : M gw OrderResponse :=
  client_order_id ← lift (client_id app today order);
  _ ← safety_gates env;
  _ ← (if bool_decide (req_execution_style order = "twap") then raise twap_not_supported else mret tt);
  _ ← check_quarantine env app (req_symbol order);
  _ ← _require_reconciliation_ready_or_reduce_only env app order;
  reserve_and_place env app json_loads token order client_order_id.

(** ** Closed gates *)


(** ** Orders at the broker are in the database *)

Definition has_row (id : string) (sh : shared) : Prop := is_Some (db_orders (sh_db sh) !! id).

(** What the submission handler may send: queries, and submissions of an order with this identifier, whose row exists. *)
Definition backed_order (id : string) (r : broker_request) (sh : shared) : Prop :=
  match r with
  | Submit q => client_id_of q = id /\ has_row id sh
  | Replace _ _ | Cancel _ => False
  | GetPosition _ | GetOpenOrders _ | GetClock => True
  end.

Section accounts.
Context (env : environment) (k : list broker_request) (id : string).
Hypothesis Hrow : stable env (has_row id).

Abbreviation accounted := (accounted k (backed_order id)).
Abbreviation covered := (covered (has_row id) k (backed_order id)).
Abbreviation keeps_row := (preserves (has_row id)).

Lemma backed_stable r : stable env (backed_order id r).
Proof. intros n sh. destruct r; simpl; try done. intros [H1 H2]. split; [done|by apply Hrow]. Qed.

Lemma keeps_order {A} (m : M shared A) : keeps_row m -> keeps (backed_order id) m.
Proof. intros H r s. destruct r; simpl; try done. intros [H1 H2]. split; [done|by apply H]. Qed.

(** Parts of the shared state beside the database. *)
Lemma keeps_zoom {S A} (part : shared -> S) put (m : M S A) :
  (forall x sh, sh_db (put x sh) = sh_db sh) -> keeps_row (zoom part put m).
Proof. intros Hp sh H. rewrite zoom_run. unfold has_row. simpl. by rewrite Hp. Qed.

Lemma keeps_reads {A} (f : shared -> A) : keeps_row (reads f).
Proof. intros sh H. exact H. Qed.

Definition row_in (s : db) : Prop := is_Some (db_orders s !! id).

Lemma row_in_put id' r s : row_in s -> row_in (set_orders (insert id' r) s).
Proof. unfold row_in. simpl. destruct (decide (id' = id)) as [->|]; [by rewrite lookup_insert_eq|by rewrite lookup_insert_ne]. Qed.

Lemma row_in_update id' c f : preserves row_in (update_order id' c f).
Proof.
  intros s H. unfold update_order. run_monad. destruct (db_orders s !! id'); [|done]. destruct (c _); [|done].
  destruct (order_valid _ _ _); [|done]. by apply row_in_put.
Qed.

Lemma row_in_insert id' r : preserves row_in (insert_order id' r).
Proof.
  intros s H. unfold insert_order. run_monad. destruct (db_orders s !! id'); [done|].
  destruct (order_valid _ _ _); [|done]. by apply row_in_put.
Qed.

Lemma row_in_db {A} (m : M db A) : preserves row_in m -> keeps_row (in_db m).
Proof. intros Hm sh H. unfold in_db. rewrite zoom_run. by apply Hm. Qed.

(** Steps of the handlers that keep the account. *)
Ltac keep_row :=
  first [ apply keeps_reads
        | apply row_in_db; first [apply preserves_reads | apply preserves_transaction, row_in_insert
                                 | apply preserves_transaction, row_in_update | apply row_in_update]
        | apply keeps_zoom; done ].

Ltac order_call _ :=
  first
    [ apply (accounted_call _ _ _ backed_stable); intros; apply keeps_order; keep_row
    | apply (accounted_local _ _ _ backed_stable); intros; apply keeps_order; keep_row
    | apply (covered_call _ _ _ backed_stable _ Hrow); intros; [apply keeps_order|]; keep_row
    | apply (accounted_ask _ _ _ backed_stable); done ].

Ltac accounts := accounts_with order_call.

Lemma accounted_gates app symbol order :
  preserves (accounted) (safety_gates env) /\ preserves (accounted) (check_quarantine env app symbol) /\
  preserves (accounted) (_require_reconciliation_ready_or_reduce_only env app order).
Proof.
  split_and!.
  - unfold safety_gates, recovery_flag. accounts.
  - unfold check_quarantine. accounts.
  - unfold _require_reconciliation_ready_or_reduce_only, get_open_position, get_open_orders. accounts.
Qed.

Lemma accounted_adv ls order t : preserves (accounted) (resolve_adv env ls order t).
Proof.
  unfold resolve_adv. destruct (FatFinger.max_adv_pct t); [|accounts]. destruct ls as [l|]; [|accounts].
  intros s H. eapply (accounted_local _ _ _ backed_stable); [|exact H]. intros. apply keeps_order. keep_row.
Qed.

Lemma accounted_before app json_loads token order :
  preserves (accounted) (reserve_position env app token order) /\
  preserves (accounted) (release env (req_symbol order) token) /\
  preserves (accounted) (find_existing env order token id) /\
  preserves (accounted) (fat_finger_gate env app json_loads order token).
Proof.
  split_and!.
  - unfold reserve_position. accounts.
  - unfold release. accounts.
  - unfold find_existing, release. accounts.
  - pose proof accounted_adv. unfold fat_finger_gate, resolve_fat_finger_context, resolve_price, release. accounts; eauto. by intros s.
Qed.

Lemma insert_failed_answers app order token e s : fst (insert_failed env app order token id e s) <> Ok None.
Proof.
  unfold insert_failed, existing_response. rewrite M_bind_run. destruct (release _ _ _ s) as [[[]|e'] s1]; [|done].
  destruct (UniqueViolation e); [|done]. rewrite M_bind_run. destruct (call _ _ s1) as [[[row|]|e'] s2]; [|done..].
  rewrite M_bind_run. by destruct (negb _).
Qed.

(** After the insertion the row exists, unless the handler is about to answer without submitting. *)
Lemma insert_covers app order token :
  ensures (accounted) (insert_order_row env app order token id)
    (fun r s => accounted s /\ (r = Ok None -> covered s)).
Proof.
  intros s H. unfold insert_order_row, try_except. rewrite M_bind_run.
  set (m := call env (fun now => in_db (create_order now id (cfg_strategy_id app) order _ None None))).
  assert (Hc : accounted (snd (m s)) /\ forall row, fst (m s) = Ok row -> has_row id (g_shared (snd (m s)))).
  { split; [apply (accounted_call _ _ _ backed_stable); [intros; apply keeps_order; keep_row|done]|]. intros row. unfold m, call.
    destruct (fates env (g_calls s)); [|done..]. unfold in_db. rewrite zoom_run. simpl.
    unfold create_order, transaction, insert_order. run_monad.
    destruct (db_orders _ !! id); [done|]. destruct (order_valid _ _ _); [|done]. intros _.
    unfold has_row. simpl. by rewrite lookup_insert_eq. }
  destruct (m s) as [[row|e] s1]; cbn [fst snd] in Hc; destruct Hc as [H1 H2].
  - split; [exact H1|]. intros _. split; [by eapply H2|exact H1].
  - split; [|intros E; by destruct (insert_failed_answers app order token e s1)].
    revert s1 H1 H2. assert (Hf : preserves (accounted) (insert_failed env app order token id e)).
    { unfold insert_failed, existing_response, release. accounts. }
    intros s1 H1 _. by apply Hf.
Qed.

Lemma covered_submission app order token :
  preserves (covered) (submit_to_broker env app order token id) /\
  forall bid, preserves (covered) (success_response env app order id bid).
Proof.
  split; [|intros bid; unfold success_response; accounts].
  assert (Hfail : forall A b e, preserves (covered) (submission_failed (A:=A) env order token id b e)).
  { intros A b e. unfold submission_failed, release, mark_failed. accounts. }
  unfold submit_to_broker, release, record_acceptance, confirm. accounts; try apply Hfail.
  unfold Gateway.submit_order. apply preserves_retry. unfold submit_attempt.
  destruct (_build_alpaca_request order id) as [r|e] eqn:Er; [|accounts].
  apply preserves_bind; [|intros; accounts].
  apply (covered_ask _ _ _ backed_stable _ Hrow). intros sh Hsh. split; [|done]. revert Er. unfold _build_alpaca_request.
  repeat case_match; by intros [= <-].
Qed.

Lemma covered_accounted s : covered s -> accounted s.
Proof. by intros [_ H]. Qed.

Lemma accounted_place app json_loads order token :
  preserves (accounted) (place_order env app json_loads order token id).
Proof.
  destruct (accounted_before app json_loads token order) as (_ & _ & _ & B4).
  apply preserves_bind; [exact B4|]. intros _ s H. rewrite M_bind_run.
  destruct (insert_covers app order token s H) as [H1 H2].
  destruct (insert_order_row env app order token id s) as [[[r|]|e] s1]; [exact H1| |exact H1].
  specialize (H2 eq_refl). destruct (covered_submission app order token) as [C1 C2].
  apply covered_accounted. apply (preserves_bind (covered) _ _ C1); [apply C2|exact H2].
Qed.

Lemma accounted_submit app json_loads token today order : client_id app today order = Ok id ->
  preserves (accounted) (submit_order env app json_loads token today order).
Proof.
  intros Hid. destruct (accounted_gates app (req_symbol order) order) as (G1 & G2 & G3).
  assert (Hrest : preserves (accounted) (
    _ ← safety_gates env;
    _ ← (if bool_decide (req_execution_style order = "twap") then raise twap_not_supported else mret tt);
    _ ← check_quarantine env app (req_symbol order);
    _ ← _require_reconciliation_ready_or_reduce_only env app order;
    reserve_and_place env app json_loads token order id)).
  { apply preserves_bind; [exact G1|intros _]. apply preserves_bind; [case_bool_decide; accounts|intros _].
    apply preserves_bind; [exact G2|intros _]. apply preserves_bind; [exact G3|intros _].
    destruct (accounted_before app json_loads token order) as (B1 & _).
    apply preserves_bind; [exact B1|intros t].
    destruct (accounted_before app json_loads t order) as (_ & B2 & B3 & _).
    apply preserves_bind; [exact B3|]. intros [row|]; [|apply accounted_place].
    apply preserves_bind; [exact B2|intros _]. unfold existing_response. accounts. }
  intros s H. unfold submit_order. rewrite Hid, M_bind_run. by apply Hrest.
Qed.
End accounts.

(** C14. No order reaches the broker that the database does not have: whatever fails and whatever the other workers
    do (short of deleting rows), everything the handler sends besides queries is a submission of the
    order's own identifier, and the row of that identifier exists. *)
Theorem sent_orders_are_recorded env app json_loads token today order id s :
  client_id app today order = Ok id -> stable env (has_row id) ->
  let s' := snd (submit_order env app json_loads token today order s) in
  exists rs, g_sent s' = g_sent s ++ rs /\ forall r, r ∈ rs -> backed_order id r (g_shared s').
Proof. intros Hid Hs. by apply (accounted_submit env (g_sent s) id Hs), accounted_start. Qed.
