(* ===== verification/OrderOutcome.v ===== *)
(** * What a submission leaves behind

    The outcome of the submission handler when nobody interferes: for every
    verdict of the broker the answer to the caller, the row, and what becomes of
    the position reservation; the answer to a repeated order; and the
    interferences that leave an order wrong. *)

From S2P Require Import Prelude PyDecimal PyText OrderStatus OrderSchema OrderId GatewayDb OrderCas FillOps RedisClient.
From S2P Require Import Gateway PriceFeed SliceExec OrderGates OrderSubmit.
From S2P Require KillSwitch Breaker Reservation FatFinger ReconOrphans ReconState Recovery.
Open Scope Z_scope.

(** ** The reservation of one order *)

(** The store differs from [st] in the symbol's aggregate, now [x], and the token is gone. *)
Record settled (symbol token : string) (x : Z) (st st' : Reservation.rstore) : Prop := {
  settled_aggregate : st' !! Reservation._get_key symbol = Some {| Reservation.rv_num := x; Reservation.rv_expires := None |};
  settled_token : st' !! Reservation.token_key symbol token = None;
  settled_others : forall k, k <> Reservation._get_key symbol -> k <> Reservation.token_key symbol token -> st' !! k = st !! k
}.

Section reservation.
Context (symbol token : string) (delta cur t0 : Z) (st : Reservation.rstore).
Let reserved := Reservation.reserved_store t0 token symbol delta Reservation.DEFAULT_RESERVATION_TTL (cur + delta) st.

Lemma reserved_lookup k : k <> Reservation._get_key symbol -> k <> Reservation.token_key symbol token -> reserved !! k = st !! k.
Proof. intros H1 H2. unfold reserved, Reservation.reserved_store, Reservation.redis_set.
  rewrite !lookup_insert_ne; [reflexivity| |]; congruence. Qed.

Lemma reserved_key : reserved !! Reservation._get_key symbol = Some {| Reservation.rv_num := cur + delta; Reservation.rv_expires := None |}.
Proof.
  unfold reserved, Reservation.reserved_store, Reservation.redis_set.
  rewrite lookup_insert_ne by apply Reservation.token_key_ne. apply lookup_insert_eq.
Qed.

Lemma reserved_agg t : Reservation.redis_get t (Reservation._get_key symbol) reserved = Some (cur + delta).
Proof. apply Reservation.reserved_aggregate. Qed.

Lemma release_settles t1 : t1 < t0 + Reservation.DEFAULT_RESERVATION_TTL ->
  settled symbol token cur st (snd (Reservation.release t1 symbol token reserved)).
Proof.
  intros Ht. unfold Reservation.release, Reservation.release_script. unfold reserved at 1.
  rewrite Reservation.reserved_token. destruct (Z.ltb_spec t1 (t0 + Reservation.DEFAULT_RESERVATION_TTL)); [|lia].
  cbv zeta. rewrite !reserved_agg. simpl.
  replace (cur + delta - delta) with cur by lia. pose proof (Reservation.token_key_ne symbol token) as Hne.
  split.
  - rewrite lookup_delete_ne by done. unfold Reservation.redis_set. by rewrite lookup_insert_eq.
  - by rewrite lookup_delete_eq.
  - intros k H1 H2. rewrite lookup_delete_ne by congruence. unfold Reservation.redis_set. rewrite lookup_insert_ne by congruence.
    by apply reserved_lookup.
Qed.

Lemma confirm_settles t1 : t1 < t0 + Reservation.DEFAULT_RESERVATION_TTL ->
  settled symbol token (cur + delta) st (snd (Reservation.confirm t1 symbol token reserved)).
Proof.
  intros Ht. unfold Reservation.confirm, Reservation.confirm_script. unfold reserved at 1.
  rewrite Reservation.reserved_token. destruct (Z.ltb_spec t1 (t0 + Reservation.DEFAULT_RESERVATION_TTL)); [|lia]. simpl.
  pose proof (Reservation.token_key_ne symbol token) as Hne. split.
  - rewrite lookup_delete_ne by done. apply reserved_key.
  - by rewrite lookup_delete_eq.
  - intros k H1 H2. rewrite lookup_delete_ne by congruence. by apply reserved_lookup.
Qed.

Lemma reserve_grants side qty limit : Reservation.reserve_delta side qty = delta -> Z.abs (cur + delta) <= limit ->
  forall fallback, default fallback (Reservation.redis_get t0 (Reservation._get_key symbol) st) = cur ->
  exists r, Reservation.reserve t0 token symbol side qty limit fallback Reservation.DEFAULT_RESERVATION_TTL st = (Ok r, reserved) /\
    Reservation.rr_success r = true /\ Reservation.rr_token r = Some token.
Proof.
  intros Hd Hl fallback Hc. unfold Reservation.reserve, Reservation.reserve_script. rewrite Hd, Hc.
  destruct (Z.ltb_spec limit (Z.abs (cur + delta))); [lia|]. eexists. split; [|split; [|]].
  1: { f_equal. unfold reserved, Reservation.reserved_store, Reservation.redis_expire, Reservation.redis_set. by rewrite alter_insert_eq. }
  1, 2: reflexivity.
Qed.
End reservation.

(** ** Steps of the handler when nobody interferes *)

(** The handler's clock stays within the life of a reservation. *)
Definition prompt (env : environment) : Prop :=
  forall i j, clock env j / second_us < clock env i / second_us + Reservation.DEFAULT_RESERVATION_TTL.

(** What the symbol's position counts as: reserved, or the database's when nothing is. *)
Definition counted_position (symbol : string) (sh : shared) : Z :=
  match sh_reserved sh !! Reservation._get_key symbol with
  | Some v => Reservation.rv_num v
  | None => match db_positions (sh_db sh) !! symbol with Some p => dint (p_qty p) | None => 0 end
  end.

(** The aggregate never expires. *)
Definition lasting (symbol : string) (sh : shared) : Prop :=
  forall v, sh_reserved sh !! Reservation._get_key symbol = Some v -> Reservation.rv_expires v = None.

Definition order_delta (order : OrderRequest) : Z := Reservation.reserve_delta (req_side order) (req_qty order).

(** The state in which the order's reservation is held. *)
Definition holding (token : string) (t0 : Z) (order : OrderRequest) (sh : shared) : shared :=
  set_reserved (Reservation.reserved_store t0 token (req_symbol order) (order_delta order) Reservation.DEFAULT_RESERVATION_TTL
    (counted_position (req_symbol order) sh + order_delta order) (sh_reserved sh)) sh.

Lemma shared_tick s : g_shared (tick s) = g_shared s.
Proof. done. Qed.

Section quiet.
Context (env : environment) (app : gateway).
Hypothesis Hq : quiet env.

(** A reservation of [qty] shares, with the database's position as the fallback. *)
Lemma reserve_call_run symbol side qty token s :
  lasting symbol (g_shared s) ->
  let x := counted_position symbol (g_shared s) + Reservation.reserve_delta side qty in
  Z.abs x <= cfg_max_position_size app ->
  exists r, call env (fun now => in_reserved (Reservation.reserve (now / second_us) token symbol side qty
      (cfg_max_position_size app)
      (match db_positions (sh_db (g_shared s)) !! symbol with Some p => dint (p_qty p) | None => 0 end)
      Reservation.DEFAULT_RESERVATION_TTL)) s
    = (Ok r, after_call (set_reserved (Reservation.reserved_store (clock env (g_calls s) / second_us) token symbol
        (Reservation.reserve_delta side qty) Reservation.DEFAULT_RESERVATION_TTL x (sh_reserved (g_shared s))) (g_shared s)) s) /\
    Reservation.rr_success r = true /\ Reservation.rr_token r = Some token.
Proof.
  intros Hl x Hb. rewrite call_quiet by done. unfold in_reserved. rewrite zoom_run. cbn [fst snd].
  destruct (reserve_grants symbol token (Reservation.reserve_delta side qty) (counted_position symbol (g_shared s))
    (clock env (g_calls s) / second_us) (sh_reserved (g_shared s)) side qty (cfg_max_position_size app) eq_refl Hb
    (match db_positions (sh_db (g_shared s)) !! symbol with Some p => dint (p_qty p) | None => 0 end)) as (r & E & Hs & Ht).
  { unfold Reservation.redis_get, counted_position. destruct (sh_reserved (g_shared s) !! _) as [v|] eqn:Ev; [|done].
    simpl. unfold Reservation.rlive. by rewrite (Hl v Ev). }
  exists r. rewrite E. by split_and!.
Qed.

Lemma reserve_position_run token order s :
  lasting (req_symbol order) (g_shared s) ->
  Z.abs (counted_position (req_symbol order) (g_shared s) + order_delta order) <= cfg_max_position_size app ->
  reserve_position env app token order s =
    (Ok token, after_call (holding token (clock env (S (g_calls s)) / second_us) order (g_shared s)) (tick s)).
Proof.
  intros Hl Hb. unfold reserve_position. rewrite M_bind_run. unfold try_except, get_position_by_symbol.
  rewrite (call_read env _ _ _ Hq (fun sh => in_db_read _ sh)), M_bind_run.
  destruct (reserve_call_run (req_symbol order) (req_side order) (req_qty order) token (tick s) Hl Hb) as (r & E & Hs & Ht).
  rewrite shared_tick in E. rewrite E. cbn [fst snd]. rewrite Hs, Ht. done.
Qed.

Lemma find_existing_run order token id s :
  find_existing env order token id s = (Ok (db_orders (sh_db (g_shared s)) !! id), tick s).
Proof.
  unfold find_existing, try_except, get_order_by_client_id. by rewrite (call_read env _ _ _ Hq (fun sh => in_db_read _ sh)).
Qed.

Lemma release_run symbol token s : release env symbol token s =
  (Ok tt, after_call (set_reserved (snd (Reservation.release (clock env (g_calls s) / second_us) symbol token
     (sh_reserved (g_shared s)))) (g_shared s)) s).
Proof.
  unfold release. rewrite M_bind_run, call_quiet by done. unfold in_reserved. rewrite zoom_run. cbn [fst snd].
  unfold Reservation.release. by destruct (Reservation.release_script _ _ _ _) as [[[prev new]|] st'].
Qed.

Lemma confirm_run symbol token s : confirm env symbol token s =
  (Ok tt, after_call (set_reserved (snd (Reservation.confirm (clock env (g_calls s) / second_us) symbol token
     (sh_reserved (g_shared s)))) (g_shared s)) s).
Proof.
  unfold confirm. rewrite M_bind_run, call_quiet by done. unfold in_reserved. rewrite zoom_run. cbn [fst snd].
  unfold Reservation.confirm. by destruct (Reservation.confirm_script _ _ _ _) as [[] st'].
Qed.

(** The price an order is checked against when it names one. *)
Definition own_price (order : OrderRequest) (t : FatFinger.FatFingerThresholds) : option decimal :=
  match FatFinger.max_notional t with
  | None => None
  | Some _ => FatFinger.or_else (req_limit_price order) (req_stop_price order)
  end.

(** The fat-finger check needs no lookup for this order, and lets it through. *)
Definition checks_pass (order : OrderRequest) (sh : shared) : Prop :=
  let v := sh_fat_finger sh in
  let t := FatFinger.get_effective_thresholds v (req_symbol order) in
  (FatFinger.max_adv_pct t = None \/ liquidity_service app = None) /\
  (FatFinger.max_notional t = None \/ is_Some (own_price order t)) /\
  exists res, FatFinger.validate v (req_symbol order) (req_qty order) (own_price order t) None (Some t) = Ok res /\
    FatFinger.breached res = false.

(** The context of an order that names its price, or needs none. *)
Lemma context_run json_loads order (t : FatFinger.FatFingerThresholds) s :
  FatFinger.max_adv_pct t = None \/ liquidity_service app = None ->
  FatFinger.max_notional t = None \/ is_Some (own_price order t) ->
  resolve_fat_finger_context json_loads env (has_redis app) (liquidity_service app) (cfg_max_price_age_seconds app)
    order t s = (Ok (own_price order t, None), s).
Proof.
  intros Ha Hn. unfold resolve_fat_finger_context. rewrite M_bind_run.
  assert (Ep : resolve_price json_loads env (has_redis app) (cfg_max_price_age_seconds app) order t s = (Ok (own_price order t), s)).
  { unfold resolve_price, own_price in *. destruct (FatFinger.max_notional t); [|done].
    unfold FatFinger.or_else in *. destruct (req_limit_price order); [done|]. destruct (req_stop_price order); [done|].
    destruct Hn as [Hn|Hn]; [done|by destruct Hn]. }
  rewrite Ep, M_bind_run. unfold resolve_adv. destruct Ha as [Ha | Ha]; rewrite Ha; [done|]. by destruct (FatFinger.max_adv_pct t).
Qed.

Lemma fat_finger_run json_loads order token s :
  checks_pass order (g_shared s) -> fat_finger_gate env app json_loads order token s = (Ok tt, tick s).
Proof.
  intros (Ha & Hn & res & Hv & Hb). unfold fat_finger_gate. rewrite M_bind_run. unfold local, reads.
  destruct Hq as [_ Ho]. rewrite Ho. cbv zeta. rewrite M_bind_run. fold (tick s).
  rewrite (context_run json_loads order _ (tick s) Ha Hn), M_bind_run. cbn [fst snd]. unfold lift. rewrite Hv, Hb. done.
Qed.

(** The row of a new order. *)
Definition new_row (order : OrderRequest) (now : Z) : order_row := {|
  o_core := core_of (cfg_strategy_id app) order; o_exec := new_exec "pending_new" None None (Some now);
  o_links := no_links; o_metadata := Some empty_meta; o_created_at := now; o_updated_at := now |}.

Lemma insert_run order token id s :
  cfg_dry_run app = false -> db_orders (sh_db (g_shared s)) !! id = None ->
  order_valid (db_orders (sh_db (g_shared s))) id (new_row order 0) = true ->
  insert_order_row env app order token id s =
    (Ok None, after_call (with_row id (new_row order (clock env (g_calls s))) (g_shared s)) s).
Proof.
  intros Hd Hn Hv. unfold insert_order_row, try_except. rewrite M_bind_run, call_quiet, Hd by done.
  unfold in_db. rewrite zoom_run. set (now := clock env (g_calls s)).
  change (create_order now id (cfg_strategy_id app) order "pending_new" None None)
    with (transaction (insert_order id (new_row order now))).
  unfold transaction. by rewrite (insert_order_run id (new_row order now) _ Hn Hv).
Qed.
End quiet.

(** ** A failed submission *)

(** Status, error text and answer for an error of the broker's client. *)
Definition failure (e : exn) : option (string * option string) * exn :=
  match e with
  | AlpacaValidationError m => (Some ("rejected", None), HTTPException 400 ("Order validation failed: " +:+ m))
  | AlpacaRejectionError m => (Some ("rejected", None), HTTPException 422 ("Order rejected by broker: " +:+ m))
  | AlpacaConnectionError m =>
      (Some ("failed", Some ("Broker connection error: " +:+ m)), HTTPException unavailable ("Broker connection error: " +:+ m))
  | _ => (None, HTTPException 500 "Unexpected error during order submission")
  end.

(** The row after the failure of its submission. *)
Definition row_after (e : exn) (now : Z) (row : order_row) : order_row :=
  match (failure e).1 with
  | Some (st, err) => set_exec now (cas_apply (failed_submission now st err)) row
  | None => row
  end.

Lemma unique_in_own (orders : gmap string order_row) id r r0 :
  unique_in orders id r = true -> unique_in (<[id := r0]> orders) id r = true.
Proof.
  unfold unique_in. rewrite !bool_decide_eq_true. intros H. apply map_Forall_insert_2; [by left|exact H].
Qed.

Lemma valid_own (orders : gmap string order_row) id r r0 :
  o_links r = no_links -> order_valid orders id r = true -> order_valid (<[id := r0]> orders) id r = true.
Proof.
  unfold order_valid, refs_ok. intros ->. simpl. rewrite !andb_true_iff. intros [[H1 H2] _].
  split_and!; [done|by apply unique_in_own|done..].
Qed.

(** The constraints do not read what a failure writes. *)
Lemma failed_row_valid app order orders id st err now t :
  order_valid orders id (new_row app order 0) = true ->
  order_valid orders id (set_exec now (cas_apply (failed_submission now st err)) (new_row app order t)) = true.
Proof. intros H; exact H. Qed.

Section outcome.
Context (env : environment) (app : gateway).
Hypothesis Hq : quiet env.

Lemma mark_failed_run order id st err t s orders :
  db_orders (sh_db (g_shared s)) = <[id := new_row app order t]> orders ->
  order_valid orders id (new_row app order 0) = true ->
  let now := clock env (g_calls s) in
  let row := set_exec now (cas_apply (failed_submission now st err)) (new_row app order t) in
  mark_failed env id st err s = (Ok (Some row), after_call (with_row id row (g_shared s)) s).
Proof.
  intros Ho Hv now row. unfold mark_failed. rewrite call_quiet by done. unfold in_db. rewrite zoom_run.
  assert (Hr : db_orders (sh_db (g_shared s)) !! id = Some (new_row app order t)) by (rewrite Ho; apply lookup_insert_eq).
  rewrite (cas_run _ _ _ _ _ Hr). fold now.
  replace (cas_unlocked (o_exec (new_row app order t)) && cas_newer (failed_submission now st err) (o_exec (new_row app order t)))
    with true by reflexivity.
  fold row. rewrite Ho. rewrite (valid_own orders id row _ eq_refl) by (by apply failed_row_valid). done.
Qed.

(** The answer to a broker error, the row and the reservation after it. *)
Lemma submission_failed_run order token id e t s orders :
  broker_error e = true ->
  db_orders (sh_db (g_shared s)) = <[id := new_row app order t]> orders ->
  order_valid orders id (new_row app order 0) = true ->
  exists now t1 s', submission_failed (A:=order_dict) env order token id false e s = (Raise (failure e).2, s') /\
    db_orders (sh_db (g_shared s')) = <[id := row_after e now (new_row app order t)]> orders /\
    sh_reserved (g_shared s') = snd (Reservation.release (clock env t1 / second_us) (req_symbol order) token
      (sh_reserved (g_shared s))) /\ g_sent s' = g_sent s.
Proof.
  intros He Ho Hv.
  assert (Hrel : exists t1 s1, release env (req_symbol order) token s = (Ok tt, s1) /\
    db_orders (sh_db (g_shared s1)) = <[id := new_row app order t]> orders /\
    sh_reserved (g_shared s1) = snd (Reservation.release (clock env t1 / second_us) (req_symbol order) token
      (sh_reserved (g_shared s))) /\ g_sent s1 = g_sent s).
  { rewrite (release_run env Hq). eexists _, _. split; [reflexivity|]. by split_and!. }
  destruct Hrel as (t1 & s1 & E1 & Ho1 & Hr1 & Hs1).
  assert (Hmark : forall st err exc,
    (_ ← release env (req_symbol order) token; _ ← mark_failed env id st err; raise exc) s =
    (Raise exc : result order_dict, after_call (with_row id
      (set_exec (clock env (g_calls s1)) (cas_apply (failed_submission (clock env (g_calls s1)) st err)) (new_row app order t))
      (g_shared s1)) s1)).
  { intros st err exc. rewrite M_bind_run, E1, M_bind_run. by rewrite (mark_failed_run order id st err t s1 orders Ho1 Hv). }
  exists (clock env (g_calls s1)), t1.
  destruct e; try discriminate He; unfold submission_failed, row_after; cbn [failure fst snd];
    try (rewrite Hmark; eexists; split; [reflexivity|]; simpl; rewrite Ho1, insert_insert_eq; by split_and!).
  rewrite M_bind_run, E1. exists s1. by split_and!.
Qed.

(** The row after the broker took the order. *)
Definition accepted_row (broker_order_id : string) (now : Z) (row : order_row) : order_row :=
  set_exec now (fun e =>
    {| o_status := "pending_new"; o_broker_order_id := Some broker_order_id; o_error_message := None;
       o_submitted_at := o_submitted_at e; o_filled_at := o_filled_at e; o_filled_qty := o_filled_qty e;
       o_filled_avg_price := o_filled_avg_price e; o_last_updated_at := Some now; o_is_terminal := false;
       o_source_priority := o_source_priority e; o_status_rank := Some (status_rank_for "pending_new");
       o_broker_event_id := o_broker_event_id e |}) row.

(** The broker's identifier is no other order's. *)
Definition new_broker_id (orders : gmap string order_row) (id broker_order_id : string) (order : OrderRequest) : Prop :=
  order_valid orders id (accepted_row broker_order_id 0 (new_row app order 0)) = true.

Lemma record_acceptance_row order token id bid row s :
  db_orders (sh_db (g_shared s)) !! id = Some row ->
  (forall now, order_valid (db_orders (sh_db (g_shared s))) id (accepted_row bid now row) = true) ->
  exists now t1 s', record_acceptance env order token id bid s = (Ok tt, s') /\
    db_orders (sh_db (g_shared s')) = <[id := accepted_row bid now row]> (db_orders (sh_db (g_shared s))) /\
    sh_reserved (g_shared s') = snd (Reservation.confirm (clock env t1 / second_us) (req_symbol order) token
      (sh_reserved (g_shared s))) /\ g_sent s' = g_sent s.
Proof.
  intros Hr Hv. unfold record_acceptance. rewrite M_bind_run, (confirm_run env Hq). unfold try_except.
  rewrite M_bind_run, call_quiet by done. set (s1 := after_call _ s). set (now := clock env (g_calls s1)).
  unfold in_db. rewrite zoom_run.
  change (update_order_status now id "pending_new" (Some bid) None None None)
    with (transaction (update_order id always (accepted_row bid now))).
  unfold transaction, update_order. rewrite M_bind_run. unfold get_state. cbv beta iota.
  change (db_orders (sh_db (g_shared s1))) with (db_orders (sh_db (g_shared s))). rewrite Hr. simpl always. cbv iota.
  rewrite (Hv now). exists now, (g_calls s). eexists. split; [reflexivity|]. by split_and!.
Qed.

Lemma record_acceptance_run order token id bid t s orders :
  db_orders (sh_db (g_shared s)) = <[id := new_row app order t]> orders -> new_broker_id orders id bid order ->
  exists now t1 s', record_acceptance env order token id bid s = (Ok tt, s') /\
    db_orders (sh_db (g_shared s')) = <[id := accepted_row bid now (new_row app order t)]> orders /\
    sh_reserved (g_shared s') = snd (Reservation.confirm (clock env t1 / second_us) (req_symbol order) token
      (sh_reserved (g_shared s))) /\ g_sent s' = g_sent s.
Proof.
  intros Ho Hb. destruct (record_acceptance_row order token id bid (new_row app order t) s) as (now & t1 & s' & H1 & H2 & H3).
  - rewrite Ho. apply lookup_insert_eq.
  - intros now. rewrite Ho. apply valid_own; [done|exact Hb].
  - exists now, t1, s'. rewrite Ho, insert_insert_eq in H2. split; [exact H1|]. split; [exact H2|exact H3].
Qed.
End outcome.

(** ** The whole handler *)

(** Nothing stands in the way of [order]. *)
Record open_gates (env : environment) (app : gateway) (order : OrderRequest) (sh : shared) : Prop := {
  og_components : Recovery.needs_recovery (sh_recovery sh) = false;
  og_kill_switch : fst (KillSwitch.is_engaged (sh_kill sh)) = Ok false;
  og_breaker : fst (Breaker.is_tripped (sh_breaker sh)) = Ok false;
  og_instant : req_execution_style order <> "twap";
  og_live : cfg_dry_run app = false;
  og_redis : has_redis app = true;
  og_served : forall n, redis_net env n = Served;
  og_no_quarantine : forall strategy_id, strategy_id ∈ [cfg_strategy_id app; "*"] ->
    rs_keys (sh_redis sh) !! ReconOrphans.quarantine_key strategy_id (upper (req_symbol order)) = None;
  og_ready : _is_reconciliation_ready app (sh_recon sh) = true
}.

(** The state after the gates: a Redis command and nine other steps later. *)
Definition past_gates (s : gw) : gw := {|
  g_shared := set_redis {| rs_keys := rs_keys (sh_redis (g_shared s)); rs_attempts := S (rs_attempts (sh_redis (g_shared s))) |}
                (g_shared s);
  g_jobs := g_jobs s; g_sent := g_sent s; g_calls := 10 + g_calls s |}.

Lemma recovery_flag_run env f s : quiet env -> recovery_flag env f s = (Ok (f (sh_recovery (g_shared s))), tick s).
Proof. intros [_ Ho]. unfold recovery_flag, local, reads. by rewrite Ho. Qed.

Lemma no_recovery_needed r : Recovery.needs_recovery r = false ->
  Recovery.kill_switch_unavailable r = false /\ Recovery.circuit_breaker_unavailable r = false /\
  Recovery.position_reservation_unavailable r = false /\ Recovery.kill_switch r = true /\
  Recovery.circuit_breaker r = true /\ Recovery.position_reservation r = true.
Proof. by destruct r as [[] [] [] sch [] [] []]. Qed.

Lemma safety_gates_run env app order s : quiet env -> open_gates env app order (g_shared s) ->
  safety_gates env s = (Ok tt, tick (tick (tick (tick (tick (tick (tick (tick s)))))))).
Proof.
  intros Hq Ho. destruct (no_recovery_needed _ (og_components _ _ _ _ Ho)) as (H1 & H2 & H3 & H4 & H5 & H6).
  unfold safety_gates. do 4 rewrite M_bind_run, recovery_flag_run by done. rewrite ?shared_tick. rewrite H1, H4. cbn [orb negb].
  rewrite M_bind_run, recovery_flag_run by done. rewrite ?shared_tick. rewrite H2, H5. cbn [orb negb].
  rewrite M_bind_run, recovery_flag_run by done. rewrite ?shared_tick. rewrite H3, H6. cbn [orb negb].
  rewrite M_bind_run, (call_read env _ _ _ Hq in_kill_read). rewrite ?shared_tick. rewrite (og_kill_switch _ _ _ _ Ho).
  rewrite M_bind_run, (call_read env _ _ _ Hq in_breaker_read). rewrite ?shared_tick. by rewrite (og_breaker _ _ _ _ Ho).
Qed.

Lemma gates_run env app json_loads token today order id s :
  quiet env -> open_gates env app order (g_shared s) -> client_id app today order = Ok id ->
  submit_order env app json_loads token today order s = reserve_and_place env app json_loads token order id (past_gates s).
Proof.
  intros Hq Ho Hid. unfold submit_order. rewrite M_bind_run. unfold lift. rewrite Hid.
  rewrite M_bind_run, (safety_gates_run env app order s Hq Ho), M_bind_run.
  rewrite bool_decide_false by apply (og_instant _ _ _ _ Ho). unfold mret, M_ret. cbv beta iota.
  rewrite M_bind_run. unfold check_quarantine, local. destruct Hq as [Hf Hoth]. rewrite Hoth.
  unfold in_redis. rewrite zoom_run. unfold ReconOrphans._check_quarantine.
  rewrite (og_live _ _ _ _ Ho), (og_redis _ _ _ _ Ho), ReconOrphans.mget_served by exact (og_served _ _ _ _ Ho).
  cbn [existsb]. unfold lookup_live. simpl g_shared.
  rewrite !(og_no_quarantine _ _ _ _ Ho) by (rewrite !elem_of_cons; naive_solver). cbn [ReconOrphans.truthy orb fst snd].
  rewrite M_bind_run. unfold _require_reconciliation_ready_or_reduce_only. rewrite M_bind_run. unfold local, reads.
  rewrite Hoth. set (s9 := after_call _ _). change (sh_recon (g_shared s9)) with (sh_recon (g_shared s)).
  rewrite (og_ready _ _ _ _ Ho).
  by destruct (match sh_recon (g_shared s) with Some r => ReconState.override_active r | None => false end).
Qed.

(** A new order that passes every gate and check, and the request it becomes. *)
Record admissible (env : environment) (app : gateway) (today : date) (order : OrderRequest) (id : string)
    (r : alpaca_request) (s : gw) : Prop := {
  ad_gates : open_gates env app order (g_shared s);
  ad_alpaca : has_alpaca app = true;
  ad_id : client_id app today order = Ok id;
  ad_request : _build_alpaca_request order id = Ok r;
  ad_lasting : lasting (req_symbol order) (g_shared s);
  ad_limit : Z.abs (counted_position (req_symbol order) (g_shared s) + order_delta order) <= cfg_max_position_size app;
  ad_checks : checks_pass app order (g_shared s);
  ad_new : db_orders (sh_db (g_shared s)) !! id = None;
  ad_valid : order_valid (db_orders (sh_db (g_shared s))) id (new_row app order 0) = true
}.

Lemma verdict_error env r e more sent : verdict env sent r more = Raise e -> broker_error e = true.
Proof. apply retried_error. intros reply e'. apply order_of_reply_error. Qed.

(** The handler up to the submission: reserved and recorded, nothing sent. *)
Lemma until_submission env app json_loads token today order id r s : quiet env -> admissible env app today order id r s ->
  exists t0 t s1, db_orders (sh_db (g_shared s1)) = <[id := new_row app order t]> (db_orders (sh_db (g_shared s))) /\
    sh_reserved (g_shared s1) = sh_reserved (holding token (clock env t0 / second_us) order (g_shared s)) /\
    g_sent s1 = g_sent s /\
    submit_order env app json_loads token today order s =
      (broker_order_id ← submit_to_broker env app order token id;
       success_response env app order id broker_order_id) s1.
Proof.
  intros Hq Ha. rewrite (gates_run _ _ _ _ _ _ _ _ Hq (ad_gates _ _ _ _ _ _ _ Ha) (ad_id _ _ _ _ _ _ _ Ha)).
  unfold reserve_and_place. set (s0 := past_gates s). rewrite M_bind_run.
  rewrite (reserve_position_run env app Hq token order s0) by
    (exact (ad_lasting _ _ _ _ _ _ _ Ha) || exact (ad_limit _ _ _ _ _ _ _ Ha)).
  set (t0 := S (g_calls s0)). set (s1 := after_call _ _).
  rewrite M_bind_run, (find_existing_run env Hq).
  change (db_orders (sh_db (g_shared s1)) !! id) with (db_orders (sh_db (g_shared s)) !! id). rewrite (ad_new _ _ _ _ _ _ _ Ha).
  unfold place_order. rewrite M_bind_run, (fat_finger_run env app Hq) by exact (ad_checks _ _ _ _ _ _ _ Ha).
  rewrite M_bind_run, (insert_run env app Hq) by
    (exact (og_live _ _ _ _ (ad_gates _ _ _ _ _ _ _ Ha)) || exact (ad_new _ _ _ _ _ _ _ Ha) || exact (ad_valid _ _ _ _ _ _ _ Ha)).
  eexists t0, _, _. split; [|split; [|split; [|reflexivity]]]; reflexivity.
Qed.

Lemma try_ok {S A} (m : M S A) h s a s' : m s = (Ok a, s') -> try_except m h s = (Ok a, s').
Proof. intros E. unfold try_except. by rewrite E. Qed.

Lemma try_raise {S A} (m : M S A) h s e c s' : m s = (Raise e, s') -> h e = Some c -> try_except m h s = c s'.
Proof. intros E Ec. unfold try_except. by rewrite E, Ec. Qed.

