(* ===== verification/OrderFaults.v ===== *)
(** * Repeated and disturbed submissions

    A repeated order is answered from its row; and three disturbances that
    leave an order wrong: a commit whose reply is lost, a price lookup that
    fails while the reservation is held, and a fill that arrives between the
    broker's answer and the update that records it. *)

From S2P Require Import Prelude PyDecimal PyText OrderStatus OrderSchema OrderId GatewayDb OrderCas FillOps RedisClient.
From S2P Require Import Gateway PriceFeed SliceExec OrderGates OrderSubmit OrderOutcome.
From S2P Require KillSwitch Breaker Reservation FatFinger ReconOrphans ReconState Recovery Liquidity.
Open Scope Z_scope.

(** The answer to a request whose identifier [row] has. *)
Definition retried (app : gateway) (order : OrderRequest) (id : string) (row : order_row) : result OrderResponse :=
  if _idempotency_payload_matches order row (cfg_strategy_id app)
  then Ok (response id row "Order already exists (idempotent retry)") else Raise (id_collision id).

(** The position of [symbol] counts as [x] from now on, whenever it is asked for. *)
Definition reserved_for_good (symbol : string) (x : Z) (sh : shared) : Prop :=
  forall now, Reservation.redis_get now (Reservation._get_key symbol) (sh_reserved sh) = Some x.

Section quiet.
Context (env : environment) (app : gateway).
Hypothesis Hq : quiet env.

Lemma reserve_position_refused token order s :
  lasting (req_symbol order) (g_shared s) ->
  cfg_max_position_size app < Z.abs (counted_position (req_symbol order) (g_shared s) + order_delta order) ->
  exists s1, reserve_position env app token order s = (Raise (HTTPException 422 "Position limit exceeded"), s1) /\
    g_shared s1 = g_shared s /\ g_sent s1 = g_sent s.
Proof.
  intros Hl Hb. unfold reserve_position. rewrite M_bind_run. unfold try_except, get_position_by_symbol.
  rewrite (call_read env _ _ _ Hq (fun sh => in_db_read _ sh)), M_bind_run, call_quiet by done.
  unfold in_reserved. rewrite zoom_run. unfold Reservation.reserve, Reservation.reserve_script, Reservation.redis_get.
  rewrite shared_tick. fold (order_delta order).
  replace (default _ _) with (counted_position (req_symbol order) (g_shared s)).
  2:{ unfold counted_position. destruct (sh_reserved (g_shared s) !! _) as [v|] eqn:Ev; [|done].
      simpl. unfold Reservation.rlive. by rewrite (Hl v Ev). }
  destruct (Z.ltb_spec (cfg_max_position_size app) (Z.abs (counted_position (req_symbol order) (g_shared s) + order_delta order)));
    [|lia]. cbn [fst snd Reservation.rr_success negb]. eexists. split; [reflexivity|]. split; [|reflexivity].
  simpl. by destruct (g_shared s).
Qed.

(** A repeated order never reaches the broker and leaves the database and the reserved position as they
    were: it is answered from its row when the request is the one recorded, and with 409 when
    it is not; but when the first order used up the position limit the retry is refused with 422,
    because the reservation comes before the idempotency check. *)
Theorem repeated_order_is_not_sent json_loads token today order id row s :
  prompt env -> open_gates env app order (g_shared s) -> client_id app today order = Ok id ->
  lasting (req_symbol order) (g_shared s) -> db_orders (sh_db (g_shared s)) !! id = Some row ->
  let out := submit_order env app json_loads token today order s in
  let cur := counted_position (req_symbol order) (g_shared s) in
  sh_db (g_shared out.2) = sh_db (g_shared s) /\ g_sent out.2 = g_sent s /\
  if Z.abs (cur + order_delta order) <=? cfg_max_position_size app then
    settled (req_symbol order) token cur (sh_reserved (g_shared s)) (sh_reserved (g_shared out.2)) /\
    out.1 = retried app order id row
  else out.1 = Raise (HTTPException 422 "Position limit exceeded") /\ sh_reserved (g_shared out.2) = sh_reserved (g_shared s).
Proof.
  intros Hp Ho Hid Hl Hr. cbv zeta. rewrite (gates_run _ _ _ _ _ _ _ _ Hq Ho Hid).
  unfold reserve_and_place. set (s0 := past_gates s). rewrite M_bind_run.
  destruct (Z.leb_spec (Z.abs (counted_position (req_symbol order) (g_shared s) + order_delta order)) (cfg_max_position_size app))
    as [Hb|Hb].
  - rewrite (reserve_position_run env app Hq token order s0) by (exact Hl || exact Hb).
    set (t0 := clock env (S (g_calls s0)) / second_us). set (s1 := after_call _ _).
    rewrite M_bind_run, (find_existing_run env Hq).
    change (db_orders (sh_db (g_shared s1)) !! id) with (db_orders (sh_db (g_shared s)) !! id). rewrite Hr.
    rewrite M_bind_run, (release_run env Hq). unfold existing_response, retried. cbn [fst snd].
    set (s2 := after_call _ _).
    assert (Hset : settled (req_symbol order) token (counted_position (req_symbol order) (g_shared s))
      (sh_reserved (g_shared s)) (sh_reserved (g_shared s2))) by apply release_settles, Hp.
    by destruct (_idempotency_payload_matches order row (cfg_strategy_id app)).
  - destruct (reserve_position_refused token order s0) as (s1 & E & H1 & H2); [exact Hl|exact Hb|].
    rewrite E. cbn [fst snd]. by rewrite H1, H2.
Qed.
End quiet.

(** ** Disturbances *)

(** A commit whose reply is lost: the handler gives up with the row in place, pending_new, the shares
    free again and nothing sent.  Nothing will ever send it: the retry is answered from the row. *)
Theorem lost_commit_strands_order env app order token id m s :
  (forall n sh, others env n sh = sh) -> fates env (g_calls s) = ReplyLost (OperationalError m) ->
  fates env (S (g_calls s)) = Up -> cfg_dry_run app = false ->
  db_orders (sh_db (g_shared s)) !! id = None ->
  order_valid (db_orders (sh_db (g_shared s))) id (new_row app order 0) = true ->
  exists s1 row, insert_order_row env app order token id s = (Raise (OperationalError m), s1) /\
    g_sent s1 = g_sent s /\ db_orders (sh_db (g_shared s1)) !! id = Some row /\ o_status (o_exec row) = "pending_new" /\
    o_core row = core_of (cfg_strategy_id app) order.
Proof.
  intros Ho Hf Hu Hd Hn Hv. set (now := clock env (g_calls s)).
  set (s0 := after_call (with_row id (new_row app order now) (g_shared s)) s).
  assert (E : call env (fun now => in_db (create_order now id (cfg_strategy_id app) order
      (if cfg_dry_run app then "dry_run" else "pending_new") None None)) s = (Raise (OperationalError m), s0)).
  { unfold call. rewrite Hf, Ho, Hd. unfold in_db. rewrite zoom_run. fold now.
    change (create_order now id (cfg_strategy_id app) order "pending_new" None None)
      with (transaction (insert_order id (new_row app order now))).
    unfold transaction. rewrite (insert_order_run id (new_row app order now) _ Hn Hv). done. }
  unfold insert_order_row. erewrite try_raise; [|rewrite M_bind_run, E; reflexivity|reflexivity].
  unfold insert_failed. rewrite M_bind_run. unfold release. rewrite M_bind_run. unfold call.
  change (g_calls s0) with (S (g_calls s)). rewrite Hu, Ho. unfold in_reserved. rewrite zoom_run.
  unfold Reservation.release at 1. destruct (Reservation.release_script _ _ _ _) as [[[p n]|] st] eqn:Er; cbn [fst snd];
    eexists _, (new_row app order now); (split; [reflexivity|]); simpl; rewrite lookup_insert_eq; by split_and!.
Qed.

(** The price lookup of the fat-finger check runs while the reservation is held, and nothing releases it:
    when the Redis client gives up (tenacity's RetryError), the order is refused but its shares stay
    reserved; the token expires, the aggregate does not. *)
Theorem failed_lookup_leaks_reservation env app json_loads order token id limit s :
  quiet env -> lasting (req_symbol order) (g_shared s) ->
  Z.abs (counted_position (req_symbol order) (g_shared s) + order_delta order) <= cfg_max_position_size app ->
  db_orders (sh_db (g_shared s)) !! id = None ->
  FatFinger.max_notional (FatFinger.get_effective_thresholds (sh_fat_finger (g_shared s)) (req_symbol order)) = Some limit ->
  req_limit_price order = None -> req_stop_price order = None -> has_redis app = true ->
  outage (redis_net env) (sh_redis (g_shared s)) ->
  exists s', reserve_and_place env app json_loads token order id s = (Raise RetryError, s') /\
    g_sent s' = g_sent s /\ sh_db (g_shared s') = sh_db (g_shared s) /\
    reserved_for_good (req_symbol order) (counted_position (req_symbol order) (g_shared s) + order_delta order) (g_shared s').
Proof.
  intros Hq Hl Hb Hn Ht Hlp Hsp Hr Hout. unfold reserve_and_place. rewrite M_bind_run.
  rewrite (reserve_position_run env app Hq token order s Hl Hb). set (t0 := clock env _ / second_us). set (s1 := after_call _ _).
  rewrite M_bind_run, (find_existing_run env Hq).
  change (db_orders (sh_db (g_shared s1)) !! id) with (db_orders (sh_db (g_shared s)) !! id). rewrite Hn.
  unfold place_order. rewrite M_bind_run. unfold fat_finger_gate. rewrite M_bind_run. unfold local at 1, reads.
  destruct Hq as [_ Ho]. rewrite Ho. cbv zeta.
  change (sh_fat_finger (g_shared (tick s1))) with (sh_fat_finger (g_shared s)). rewrite M_bind_run.
  unfold resolve_fat_finger_context. rewrite M_bind_run. unfold resolve_price. rewrite Ht, Hlp, Hsp, Hr.
  rewrite M_bind_run. unfold local. rewrite Ho. unfold in_redis. rewrite zoom_run. set (s2 := after_call _ (tick s1)).
  change (sh_redis (g_shared s2)) with (sh_redis (g_shared s)).
  assert (E : forall now, exists r', batch_fetch_realtime_prices_from_redis json_loads (Some (redis_net env)) now
      [req_symbol order] (sh_redis (g_shared s)) = (Raise RetryError, r')).
  { intros now. unfold batch_fetch_realtime_prices_from_redis, try_except. rewrite M_bind_run. unfold mget, with_retry.
    cbn [fmap list_fmap]. match goal with |- context [attempts ?net ?n ?op ?st] =>
      pose proof (attempts_outage op net n st Hout) as Hx; destruct (attempts net n op st) as [x r'] end.
    simpl in Hx. subst x. by exists r'. }
  destruct (E (clock env (g_calls s2))) as [r' E']. rewrite E'. cbn [fst snd].
  eexists. split; [reflexivity|]. split; [reflexivity|]. split; [reflexivity|]. intros now.
  apply Reservation.reserved_aggregate.
Qed.

(** The update that records the broker's identifier is not a compare-and-swap: whatever the webhook
    has made of the row in the meantime, a complete fill included, it is pending_new and open again. *)
Theorem acceptance_overwrites_fill env order token id bid s row :
  fates env (g_calls s) = Up -> fates env (S (g_calls s)) = Up ->
  let sh := others env (S (g_calls s)) (snd (in_reserved (Reservation.confirm (clock env (g_calls s) / second_us)
              (req_symbol order) token) (others env (g_calls s) (g_shared s)))) in
  db_orders (sh_db sh) !! id = Some row ->
  (forall now, order_valid (db_orders (sh_db sh)) id (accepted_row bid now row) = true) ->
  exists s' row', record_acceptance env order token id bid s = (Ok tt, s') /\
    db_orders (sh_db (g_shared s')) !! id = Some row' /\ o_status (o_exec row') = "pending_new" /\
    o_is_terminal (o_exec row') = false /\ o_filled_qty (o_exec row') = o_filled_qty (o_exec row).
Proof.
  intros Hf1 Hf2 sh Hr Hv. unfold record_acceptance, confirm. rewrite M_bind_run, M_bind_run. unfold call at 1. rewrite Hf1.
  assert (Hc : exists r, in_reserved (Reservation.confirm (clock env (g_calls s) / second_us) (req_symbol order) token)
      (others env (g_calls s) (g_shared s)) = (Ok r, snd (in_reserved (Reservation.confirm (clock env (g_calls s) / second_us)
      (req_symbol order) token) (others env (g_calls s) (g_shared s))))).
  { unfold in_reserved. rewrite zoom_run. unfold Reservation.confirm.
    destruct (Reservation.confirm_script _ _ _ _) as [[] st]; by eexists. }
  destruct Hc as [r E]. rewrite E. set (s1 := after_call _ s). unfold mret, M_ret. unfold try_except. rewrite M_bind_run.
  unfold call. change (g_calls s1) with (S (g_calls s)). rewrite Hf2. change (others env (S (g_calls s)) (g_shared s1)) with sh.
  unfold in_db. rewrite zoom_run. set (now := clock env (S (g_calls s))).
  change (update_order_status now id "pending_new" (Some bid) None None None)
    with (transaction (update_order id always (accepted_row bid now))).
  unfold transaction, update_order. rewrite M_bind_run. unfold get_state. cbv beta iota. rewrite Hr. simpl always. cbv iota.
  rewrite Hv. eexists _, (accepted_row bid now row). split; [reflexivity|]. simpl. rewrite lookup_insert_eq. by split_and!.
Qed.
