(* ===== verification/OrderExamples.v ===== *)
(** * A gateway that takes orders

    One concrete gateway, with its database, switches, Redis and broker, on
    which the theorems about the submission handler are applied. *)

From S2P Require Import Prelude PyDecimal Nano PyText OrderStatus OrderSchema OrderId GatewayDb OrderCas RedisClient.
From S2P Require Import Gateway PriceFeed SliceExec OrderGates OrderSubmit OrderOutcome OrderFaults.
From S2P Require KillSwitch Breaker Reservation FatFinger ReconOrphans ReconState Recovery Liquidity Webhook.
Open Scope Z_scope.

Definition ex_app : gateway := {|
  has_redis := true; has_alpaca := true; cfg_dry_run := false; cfg_strategy_id := "alpha";
  cfg_max_position_size := 1000; cfg_max_price_age_seconds := 30; liquidity_service := None |}.

Definition ex_ready : ReconState.ReconciliationState := ReconState.open_gate (ReconState.recon_state_init 0 false 300).

Definition ex_limits (max_notional : option decimal) : FatFinger.FatFingerThresholds :=
  {| FatFinger.max_notional := max_notional; FatFinger.max_qty := Some 500; FatFinger.max_adv_pct := None |}.

Definition ex_today : date := Date 2024 6 3.

Definition ex_new (id : string) : OrderRequest := {|
  req_symbol := "AAPL"; req_side := "buy"; req_qty := 10; req_order_type := "market"; req_limit_price := None;
  req_stop_price := None; req_time_in_force := "day"; req_execution_style := "instant";
  req_twap_duration_minutes := None; req_twap_interval_seconds := None; req_start_time := None;
  req_client_order_id := Some id |}.

(** The order "o1" was taken before; startup reconciliation is over. *)
Definition ex_sh (engaged : bool) (max_notional : option decimal) : shared :=
  let sh := ex_shared (new_row ex_app (ex_new "o1") 1) (ex_kill engaged) in {|
  sh_db := sh_db sh; sh_kill := sh_kill sh; sh_breaker := sh_breaker sh; sh_reserved := sh_reserved sh;
  sh_redis := sh_redis sh; sh_adv := sh_adv sh; sh_recovery := sh_recovery sh; sh_recon := Some ex_ready;
  sh_fat_finger := FatFinger.fat_finger_init (ex_limits max_notional) [] |}.

Definition ex_state (engaged : bool) (max_notional : option decimal) : gw := {|
  g_shared := ex_sh engaged max_notional; g_jobs := []; g_sent := []; g_calls := 0 |}.

(** Nothing fails; a thousand calls take a millisecond. *)
Definition ex_net (api : list broker_request -> broker_reply) : environment := {|
  fates := fun _ => Up; others := fun _ sh => sh; clock := fun n => 100 + Z.of_nat (Nat.min n 1000); broker_api := api;
  redis_net := fun _ => Served; bars_api := fun _ _ => Liquidity.RequestError |}.

Definition ex_submit (api : list broker_request -> broker_reply) (id : string) (s : gw) : result OrderResponse * gw :=
  submit_order (ex_net api) ex_app (fun _ => None) "token" ex_today (ex_new id) s.

Lemma ex_net_prompt api : prompt (ex_net api).
Proof.
  intros i j. cbn [clock ex_net]. unfold second_us, Reservation.DEFAULT_RESERVATION_TTL.
  rewrite !Z.div_small by lia. lia.
Qed.

Lemma ex_net_quiet api : quiet (ex_net api).
Proof. by split. Qed.

Lemma ex_lasting max_notional engaged : lasting "AAPL" (ex_sh engaged max_notional).
Proof. intros v. simpl. by rewrite lookup_empty. Qed.

Lemma ex_open_gates api id max_notional : open_gates (ex_net api) ex_app (ex_new id) (ex_sh false max_notional).
Proof. split; vm_compute; congruence. Qed.

Definition ex_market (id : string) : alpaca_request := MarketOrderRequest "AAPL" 10 "buy" "day" id.

Lemma ex_admissible api :
  admissible (ex_net api) ex_app ex_today (ex_new "o2") "o2" (ex_market "o2") (ex_state false None).
Proof.
  split; [apply ex_open_gates|..|apply ex_lasting| | | |]; try (vm_compute; congruence).
  split; [left; reflexivity|]. split; [left; reflexivity|]. eexists. split; vm_compute; reflexivity.
Qed.


(** An order with the identifier of an earlier one is answered from its row. *)
Lemma repeated_order_is_not_sent_witness :
  let out := ex_submit ex_accepts "o1" (ex_state false None) in
  sh_db (g_shared out.2) = sh_db (ex_sh false None) /\ g_sent out.2 = [] /\
  out.1 = Ok (response "o1" (new_row ex_app (ex_new "o1") 1) "Order already exists (idempotent retry)").
Proof.
  destruct (repeated_order_is_not_sent (ex_net ex_accepts) ex_app (ex_net_quiet _) (fun _ => None) "token" ex_today (ex_new "o1")
    "o1" (new_row ex_app (ex_new "o1") 1) (ex_state false None)) as (H1 & H2 & H3).
  - apply ex_net_prompt.
  - apply ex_open_gates.
  - reflexivity.
  - apply ex_lasting.
  - reflexivity.
  - split; [exact H1|]. split; [exact H2|]. apply H3.
Defined.


Lemma sent_orders_are_recorded_witness :
  let s' := snd (ex_submit ex_accepts "o2" (ex_state false None)) in
  exists rs, g_sent s' = [] ++ rs /\ forall r, r ∈ rs -> backed_order "o2" r (g_shared s').
Proof.
  apply (sent_orders_are_recorded (ex_net ex_accepts) ex_app (fun _ => None) "token" ex_today (ex_new "o2") "o2"
    (ex_state false None)).
  - reflexivity.
  - intros n sh H. exact H.
Defined.

(** During startup reconciliation: 50 shares are held, 40 are already for sale. *)
Definition ex_book (h : list broker_request) : broker_reply :=
  match h with
  | [_] => Position (of_int 50)
  | _ => Orders [{| oo_side := Some "SELL"; oo_qty := of_int 60; oo_filled_qty := of_int 20 |}]
  end.

Definition ex_sell : OrderRequest := {|
  req_symbol := "AAPL"; req_side := "sell"; req_qty := 10; req_order_type := "market"; req_limit_price := None;
  req_stop_price := None; req_time_in_force := "day"; req_execution_style := "instant";
  req_twap_duration_minutes := None; req_twap_interval_seconds := None; req_start_time := None;
  req_client_order_id := None |}.

Definition ex_starting : gw := ex_gw ex_row (ex_kill false).

Definition ex_for_sale : open_order := {| oo_side := Some "SELL"; oo_qty := of_int 60; oo_filled_qty := of_int 20 |}.

Lemma ex_fine_book l : l = [] \/ l = [ex_for_sale] -> fine_book (of_int 50) l.
Proof.
  assert (Hf : forall n, is_nano (of_int n)) by (intros n; apply of_int_nano).
  intros [El | El]; rewrite El; (split; [apply Hf|split; [reflexivity|split]]).
  - apply Forall_nil_2.
  - intros sd. reflexivity.
  - apply Forall_singleton. split; [apply Hf|split; [apply Hf|split; [|reflexivity]]]. split; vm_compute; discriminate.
  - intros sd. cbn [fmap list_fmap]. unfold open_nano. destruct (has_side sd ex_for_sale); reflexivity.
Qed.

Lemma startup_admits_only_reductions_witness :
  exists q l, ex_book [GetPosition "AAPL"] = Position q /\ reduces "sell" 10 q l.
Proof.
  destruct (startup_admits_only_reductions (ex_net ex_book) ex_app ex_sell ex_starting
    (snd (_require_reconciliation_ready_or_reduce_only (ex_net ex_book) ex_app ex_sell ex_starting)))
    as [(r & H & _)|[H|(q & l & H1 & H2 & H3)]].
  - vm_compute. reflexivity.
  - discriminate H.
  - discriminate H.
  - exists q, l. split; [exact H1|]. apply H3. simpl in H1. injection H1 as <-. apply ex_fine_book.
    destruct H2 as [H2|H2]; [right; injection H2 as <-; reflexivity|left; exact H2].
Defined.

(** The price that Redis has for AAPL, written at time 90. *)
Definition ex_price : price_data := {|
  pd_symbol := Some "AAPL"; pd_timestamp := Ts 90; pd_mid := Webhook.Num (of_int 150) |}.

Definition ex_priced : gw := {|
  g_shared := set_redis {| rs_keys := {["price:AAPL" := ("{...}", None)]}; rs_attempts := 0 |} (ex_sh false None);
  g_jobs := []; g_sent := []; g_calls := 0 |}.

Lemma price_is_own_or_fresh_witness :
  exists raw d price_ts, lookup_live 100 "price:AAPL" {["price:AAPL" := ("{...}", None)]} = Some raw /\
    Some ex_price = Some d /\ pd_timestamp d = Ts price_ts /\ 101 - price_ts <= 30 * second_us.
Proof.
  destruct (price_is_own_or_fresh (fun _ => Some ex_price) (ex_net ex_accepts) true None 30 (ex_new "o2")
    (ex_limits (Some (of_int 10000))) (of_int 150) None ex_priced
    (snd (resolve_fat_finger_context (fun _ => Some ex_price) (ex_net ex_accepts) true None 30 (ex_new "o2")
      (ex_limits (Some (of_int 10000))) ex_priced)))
    as [H|[[_ H]|(raw & d & ts & _ & H1 & H2 & _ & _ & _ & H3 & _ & H4)]].
  - vm_compute. reflexivity.
  - discriminate H.
  - discriminate H.
  - exists raw, d, ts. split_and!; [exact H1|exact H2|exact H3|exact H4].
Defined.

(** Redis is gone when the fat-finger check asks for a price. *)
Definition ex_no_redis : environment := {|
  fates := fun _ => Up; others := fun _ sh => sh; clock := fun n => 100 + Z.of_nat (Nat.min n 1000);
  broker_api := ex_accepts; redis_net := fun _ => Lost false; bars_api := fun _ _ => Liquidity.RequestError |}.

Lemma failed_lookup_leaks_reservation_witness :
  exists s', reserve_and_place ex_no_redis ex_app (fun _ => None) "token" (ex_new "o2") "o2"
      (ex_state false (Some (of_int 10000))) = (Raise RetryError, s') /\ g_sent s' = [] /\
    forall now, Reservation.redis_get now (Reservation._get_key "AAPL") (sh_reserved (g_shared s')) = Some 10.
Proof.
  destruct (failed_lookup_leaks_reservation ex_no_redis ex_app (fun _ => None) (ex_new "o2") "token" "o2" (of_int 10000)
    (ex_state false (Some (of_int 10000)))) as (s' & H1 & H2 & _ & H3).
  - by split.
  - apply ex_lasting.
  - vm_compute. congruence.
  - reflexivity.
  - reflexivity.
  - reflexivity.
  - reflexivity.
  - reflexivity.
  - intros i _. by exists false.
  - exists s'. split; [exact H1|]. split; [exact H2|exact H3].
Defined.

(** The reply to the first commit is lost. *)
Definition ex_lost_commit : environment := {|
  fates := fun n => if (n =? 0)%nat then ReplyLost (OperationalError "server closed the connection") else Up;
  others := fun _ sh => sh; clock := fun n => 100 + Z.of_nat n;
  broker_api := ex_accepts; redis_net := fun _ => Served; bars_api := fun _ _ => Liquidity.RequestError |}.

Lemma lost_commit_strands_order_witness :
  exists s1 row, insert_order_row ex_lost_commit ex_app (ex_new "o2") "token" "o2" (ex_state false None)
      = (Raise (OperationalError "server closed the connection"), s1) /\ g_sent s1 = [] /\
    db_orders (sh_db (g_shared s1)) !! "o2" = Some row /\ o_status (o_exec row) = "pending_new".
Proof.
  destruct (lost_commit_strands_order ex_lost_commit ex_app (ex_new "o2") "token" "o2" "server closed the connection"
    (ex_state false None)) as (s1 & row & H1 & H2 & H3 & H4 & _); try (vm_compute; reflexivity).
  exists s1, row. split_and!; [exact H1|exact H2|exact H3|exact H4].
Defined.

(** A complete fill of "o1" arrives between the confirmation and the update. *)
Definition ex_filled : order_row := set_exec 7 (fun e => {|
  o_status := "filled"; o_broker_order_id := Some "b1"; o_error_message := None; o_submitted_at := None;
  o_filled_at := Some 7; o_filled_qty := Some (of_int 10); o_filled_avg_price := Some (of_int 150); o_last_updated_at := Some 7;
  o_is_terminal := true; o_source_priority := o_source_priority e; o_status_rank := Some (status_rank_for "filled");
  o_broker_event_id := o_broker_event_id e |}) (new_row ex_app (ex_new "o1") 1).

Definition ex_early_fill : environment := {|
  fates := fun _ => Up; others := fun n sh => if (n =? 1)%nat then with_row "o1" ex_filled sh else sh;
  clock := fun n => 100 + Z.of_nat n; broker_api := ex_accepts; redis_net := fun _ => Served;
  bars_api := fun _ _ => Liquidity.RequestError |}.

Lemma acceptance_overwrites_fill_witness :
  exists s' row', record_acceptance ex_early_fill (ex_new "o1") "token" "o1" "b1" (ex_state false None) = (Ok tt, s') /\
    db_orders (sh_db (g_shared s')) !! "o1" = Some row' /\ o_status (o_exec row') = "pending_new" /\
    o_filled_qty (o_exec row') = Some (of_int 10).
Proof.
  destruct (acceptance_overwrites_fill ex_early_fill (ex_new "o1") "token" "o1" "b1" (ex_state false None) ex_filled)
    as (s' & row' & H1 & H2 & H3 & _ & H4); try (vm_compute; reflexivity).
  exists s', row'. split_and!; [exact H1|exact H2|exact H3|exact H4].
Defined.
