(* ===== verification/OrderModify.v ===== *)
(** * Modification of an order (routes/orders.py, schemas.py)

    A working order is modified by replacing it at the broker.  The modification
    is recorded first, under a lock on the order's row and with the caller's
    idempotency key; then the broker is asked; then, in one transaction, the
    modification is completed, the original order marked replaced and the
    replacement inserted.  A key stands for its canonical text: PostgreSQL
    compares UUIDs, not strings.  Texts of details that are JSON objects are
    abbreviated to their first field. *)

From S2P Require Import Prelude PyDecimal PyText OrderStatus OrderSchema OrderId GatewayDb OrderCas FillOps RedisClient.
From S2P Require Import ReconHelpers Access Gateway PriceFeed ReconMods OrderGates OrderSubmit.
From S2P Require KillSwitch Breaker Reservation FatFinger Recovery.
Import Gateway.Accounts.
Open Scope Z_scope.

(** ** The request (schemas.py) *)

Record OrderModifyRequest := {
  om_idempotency_key : string;
  om_qty : option Z;
  om_limit_price : option decimal;
  om_stop_price : option decimal;
  om_time_in_force : option string;
  om_reason : option string
}.

(** [s.replace(pat, "")]; [skip] characters of a match are still to be dropped. *)
Fixpoint remove_text (pat : list Ascii.ascii) (skip : nat) (l : list Ascii.ascii) : list Ascii.ascii :=
  match l with
  | [] => []
  | c :: l' =>
      match skip with
      | S k => remove_text pat k l'
      | O => if bool_decide (take (length pat) l = pat) then remove_text pat (length pat - 1) l'
             else c :: remove_text pat 0 l'
      end
  end.

Fixpoint drop_braces (l : list Ascii.ascii) : list Ascii.ascii :=
  match l with
  | c :: l' => if is_char 123 c || is_char 125 c then drop_braces l' else l
  | [] => []
  end.

(** [uuid.UUID(v)] succeeds. *)
Definition is_uuid (v : string) : bool :=
  let hex := remove_text (chars "uuid:") 0 (remove_text (chars "urn:") 0 (chars v)) in
  let hex := remove_text (chars "-") 0 (rev (drop_braces (rev (drop_braces hex)))) in
  bool_decide (length hex = 32%nat) && parses_base16 (of_chars hex).

Definition positive_price (p : option decimal) : bool := match p with Some d => negb (dleb d dzero) | None => true end.

(** The validators of the schema. *)
Definition modify_request_ok (r : OrderModifyRequest) : bool :=
  is_uuid (om_idempotency_key r) &&
  match om_qty r with Some q => negb (q <=? 0) | None => true end &&
  positive_price (om_limit_price r) && positive_price (om_stop_price r) &&
  match om_time_in_force r with Some t => one_of t ["day"; "gtc"] | None => true end &&
  (bool_decide (is_Some (om_qty r)) || bool_decide (is_Some (om_limit_price r))
   || bool_decide (is_Some (om_stop_price r)) || bool_decide (is_Some (om_time_in_force r))).

(** The answer, with its HTTP status. *)
Record OrderModifyResponse := {
  mr_http_status : Z;
  mr_original_client_order_id : string;
  mr_new_client_order_id : string;
  mr_modification_id : string;
  mr_modified_at : Z;
  mr_status : string;
  mr_changes : modification_changes
}.

(** ** Changes *)

Definition MODIFIABLE_STATUSES : list string := ["pending_new"; "new"; "accepted"; "partially_filled"].

Definition _generate_replacement_order_id (original_client_order_id : string) (modification_seq : Z) : string :=
  sprefix 24 (Sha256.hexdigest (encode (original_client_order_id +:+ ":mod:" +:+ str_int modification_seq))).

(** [new is not None and new != old] on prices *)
Definition price_differs (new old : option decimal) : bool :=
  match new with
  | None => false
  | Some p => match old with Some o => negb (deqb p o) | None => true end
  end.

Definition price_change (new old : option decimal) : option (option decimal * decimal) :=
  match new with Some p => if price_differs new old then Some (old, p) else None | None => None end.

Definition qty_change (new : option Z) (old : Z) : option (Z * Z) :=
  match new with Some q => if q =? old then None else Some (old, q) | None => None end.

Definition tif_change (new : option string) (old : string) : option (string * string) :=
  match new with Some t => if bool_decide (t = old) then None else Some (old, t) | None => None end.

Definition _compute_modification_changes (order : order_row) (payload : OrderModifyRequest) : modification_changes :=
  let c := o_core order in {|
  ch_qty := qty_change (om_qty payload) (o_qty c);
  ch_limit_price := price_change (om_limit_price payload) (o_limit_price c);
  ch_stop_price := price_change (om_stop_price payload) (o_stop_price c);
  ch_time_in_force := tif_change (om_time_in_force payload) (o_time_in_force c) |}.

Definition no_changes (ch : modification_changes) : bool :=
  match ch_qty ch, ch_limit_price ch, ch_stop_price ch, ch_time_in_force ch with
  | None, None, None, None => true
  | _, _, _, _ => false
  end.

(** [payload.x if payload.x is not None else order.x] *)
Definition effective {A} (new : option A) (old : A) : A := default old new.
Definition effective_price (new old : option decimal) : option decimal := match new with Some p => Some p | None => old end.

(** The execution style column has no writer, so it holds its default. *)
Definition _build_replacement_request (now : Z) (order : order_row) (payload : OrderModifyRequest) : result OrderRequest :=
  let c := o_core order in
  mk_order_request now {|
    req_symbol := o_symbol c; req_side := o_side c; req_qty := effective (om_qty payload) (o_qty c);
    req_order_type := o_order_type c;
    req_limit_price := effective_price (om_limit_price payload) (o_limit_price c);
    req_stop_price := effective_price (om_stop_price payload) (o_stop_price c);
    req_time_in_force := effective (om_time_in_force payload) (o_time_in_force c);
    req_execution_style := "instant"; req_twap_duration_minutes := None; req_twap_interval_seconds := None;
    req_start_time := None; req_client_order_id := None |}.

(** ** Checks of the request against the order *)

Definition not_applicable (field order_type : string) : string :=
  field +:+ " not applicable for " +:+ order_type +:+ " orders".

Definition stop_limit_error (requires : string) (limit stop : decimal) : string :=
  requires +:+ " (got limit=" +:+ str_decimal limit +:+ ", stop=" +:+ str_decimal stop +:+ ")".

Definition field_errors (order : order_row) (payload : OrderModifyRequest) : list string :=
  let c := o_core order in
  (if bool_decide (is_Some (om_limit_price payload)) && negb (one_of (o_order_type c) ["limit"; "stop_limit"])
   then [not_applicable "limit_price" (o_order_type c)] else []) ++
  (if bool_decide (is_Some (om_stop_price payload)) && negb (one_of (o_order_type c) ["stop"; "stop_limit"])
   then [not_applicable "stop_price" (o_order_type c)] else []) ++
  (if bool_decide (o_order_type c = "stop_limit") then
     match effective_price (om_stop_price payload) (o_stop_price c),
           effective_price (om_limit_price payload) (o_limit_price c) with
     | Some effective_stop, Some effective_limit =>
         (if bool_decide (o_side c = "buy") && dltb effective_limit effective_stop
          then [stop_limit_error "Buy stop-limit requires limit_price >= stop_price" effective_limit effective_stop] else []) ++
         (if bool_decide (o_side c = "sell") && dltb effective_stop effective_limit
          then [stop_limit_error "Sell stop-limit requires limit_price <= stop_price" effective_limit effective_stop] else [])
     | _, _ => []
     end
   else []).

Definition _validate_modify_fields (order : order_row) (payload : OrderModifyRequest) : result unit :=
  match field_errors order payload with
  | [] => Ok tt
  | errors => Raise (HTTPException 422 (String.concat "; " errors))
  end.

Definition _check_order_modification_eligibility (order : order_row) : result unit :=
  let status := o_status (o_exec order) in
  let l := o_links order in
  if negb (one_of status MODIFIABLE_STATUSES) then
    Raise (HTTPException 400 ("Order cannot be modified in status '" +:+ status
      +:+ "'. Only orders in ['accepted', 'new', 'partially_filled', 'pending_new'] can be modified."))
  else match o_broker_order_id (o_exec order) with
  | None => Raise (HTTPException 400 "Order cannot be modified yet - awaiting broker acknowledgment.")
  | Some _ =>
      if bool_decide (is_Some (o_parent_order_id l)) || bool_decide (is_Some (o_total_slices l))
      then Raise (HTTPException 400 "TWAP orders cannot be modified. Cancel and resubmit instead.")
      else Ok tt
  end.

(** [Decimal(str(order.filled_qty or 0)) > Decimal(str(payload.qty))] *)
Definition below_filled (order : order_row) (payload : OrderModifyRequest) : bool :=
  match om_qty payload with
  | Some q => dltb (of_int q) (default dzero (o_filled_qty (o_exec order)))
  | None => false
  end.

(** A record of the same key: its response, or 409 for a failed one. *)
Definition _handle_idempotent_modification_response (existing : option (string * modification_row))
    : result (option OrderModifyResponse) :=
  match existing with
  | None => Ok None
  | Some (modification_id, m) =>
      let status_value := if bool_decide (mod_status m = "") then "pending" else mod_status m in
      let resp code := {|
        mr_http_status := code; mr_original_client_order_id := mod_original_client_order_id m;
        mr_new_client_order_id := mod_new_client_order_id m; mr_modification_id := modification_id;
        mr_modified_at := mod_modified_at m; mr_status := status_value; mr_changes := mod_changes m |} in
      if bool_decide (status_value = "completed") then Ok (Some (resp 200))
      else if one_of status_value ["pending"; "submitted_unconfirmed"] then Ok (Some (resp 202))
      else Raise (HTTPException 409 (match mod_error_message m with
                                     | None | Some "" => "Previous modification failed"
                                     | Some e => e end))
  end.

(** ** Checks against the state *)

(** The quantity that decides, and that nothing else changes, without the position. *)
Definition only_qty (order : order_row) (payload : OrderModifyRequest) : option Z :=
  if bool_decide (is_Some (o_parent_order_id (o_links order))) then None
  else match om_qty payload with
  | None => None
  | Some q =>
      if price_differs (om_limit_price payload) (o_limit_price (o_core order))
         || price_differs (om_stop_price payload) (o_stop_price (o_core order))
         || bool_decide (is_Some (tif_change (om_time_in_force payload) (o_time_in_force (o_core order))))
      then None else Some q
  end.

(** The order's quantity counts in full, whatever is filled of it. *)
Definition projected (order : order_row) (current_qty qty : Z) : Z :=
  current_qty + (if bool_decide (o_side (o_core order) = "buy") then qty else - qty).

Definition _is_strictly_risk_reducing (env : environment) (order : order_row) (payload : OrderModifyRequest) : M gw bool :=
  match only_qty order payload with
  | None => mret false
  | Some qty =>
      try_except
        (current_qty ← call env (fun _ => in_db (get_position_by_symbol (o_symbol (o_core order))));
         mret (Z.abs (projected order current_qty qty) <? Z.abs (projected order current_qty (o_qty (o_core order)))))
        (fun _ => Some (mret false))
  end.

Definition modifications_blocked (event_type : string) : exn :=
  HTTPException unavailable ("Order modifications blocked: " +:+ event_type
    +:+ " engaged. Only strictly risk-reducing qty decreases allowed.").

(** [a or b] *)
Definition or_else_do {S} (a b : M S bool) : M S bool := x ← a; if x : bool then mret true else b.

Definition _check_modify_safety_gates (env : environment) (order : order_row) (payload : OrderModifyRequest) : M gw unit :=
  kill_switch ← recovery_flag env Recovery.kill_switch;
  circuit_breaker ← recovery_flag env Recovery.circuit_breaker;
  is_unavailable ← recovery_flag env Recovery.kill_switch_unavailable;
  if is_unavailable || negb kill_switch then raise (HTTPException unavailable "Kill-switch state unavailable (fail-closed)") else
  is_unavailable ← recovery_flag env Recovery.circuit_breaker_unavailable;
  if is_unavailable || negb circuit_breaker
  then raise (HTTPException unavailable "Circuit-breaker state unavailable (fail-closed)") else
  safety_event ← or_else_do (call env (fun _ => in_kill KillSwitch.is_engaged)) (call env (fun _ => in_breaker Breaker.is_tripped));
  if negb safety_event then mret tt
  else
    reducing ← _is_strictly_risk_reducing env order payload;
    if reducing : bool then mret tt
    else
      engaged ← call env (fun _ => in_kill KillSwitch.is_engaged);
      raise (modifications_blocked (if engaged : bool then "kill switch" else "circuit breaker")).

(** The payload's quantity when it is an increase. *)
Definition increase (order : order_row) (payload : OrderModifyRequest) : option Z :=
  match om_qty payload with
  | Some q => if q <=? o_qty (o_core order) then None else Some q
  | None => None
  end.

Definition signed (order : order_row) (qty : Z) : Z := if bool_decide (o_side (o_core order) = "buy") then qty else - qty.

Definition _validate_modify_position_limits (env : environment) (app : gateway) (order : order_row) (payload : OrderModifyRequest)
    : M gw unit :=
  match increase order payload with
  | None => mret tt
  | Some qty =>
      current_position ← call env (fun _ => in_db (get_position_by_symbol (o_symbol (o_core order))));
      let filled_qty := dint (default dzero (o_filled_qty (o_exec order))) in
      let existing_projected := current_position + signed order (o_qty (o_core order) - filled_qty) in
      let proposed_projected := current_position + signed order (qty - filled_qty) in
      if cfg_max_position_size app <? Z.abs proposed_projected then
        raise (HTTPException 422 ("Qty increase would exceed position limits. Additional exposure: "
          +:+ str_int (Z.abs proposed_projected - Z.abs existing_projected) +:+ " shares."))
      else mret tt
  end.

(** The reservation of the additional shares; [None] when the quantity does not grow. *)
Definition _reserve_modify_delta (env : environment) (app : gateway) (token : string) (order : order_row)
    (payload : OrderModifyRequest) : M gw (option string) :=
  match increase order payload with
  | None => mret None
  | Some qty =>
      position_reservation ← recovery_flag env Recovery.position_reservation;
      is_unavailable ← recovery_flag env Recovery.position_reservation_unavailable;
      if is_unavailable || negb position_reservation
      then raise (HTTPException unavailable "Position-reservation state unavailable (fail-closed)") else
      current_position ← try_except (call env (fun _ => in_db (get_position_by_symbol (o_symbol (o_core order)))))
        (fun _ => Some (raise (HTTPException unavailable "Position lookup unavailable for reservation (fail-closed)")));
      reservation_result ← call env (fun now => in_reserved (Reservation.reserve (now / second_us) token
        (o_symbol (o_core order)) (o_side (o_core order)) (qty - o_qty (o_core order)) (cfg_max_position_size app)
        current_position Reservation.DEFAULT_RESERVATION_TTL));
      match Reservation.rr_success reservation_result, Reservation.rr_token reservation_result with
      | true, Some t => mret (Some t)
      | _, _ => raise (HTTPException 422 "Position limit exceeded")
      end
  end.

(** A stop moved away from the market, down for a sell and up for a buy, or set for the first time. *)
Definition stop_price_increases_risk (order : order_row) (payload : OrderModifyRequest) : bool :=
  match om_stop_price payload with
  | None => false
  | Some p =>
      match o_stop_price (o_core order) with
      | None => true
      | Some old =>
          negb (deqb p old) && (if bool_decide (o_side (o_core order) = "sell") then dltb p old else dltb old p)
      end
  end.

(** A limit moved to a worse price. *)
Definition limit_price_increases_risk (order : order_row) (payload : OrderModifyRequest) : bool :=
  match om_limit_price payload, o_limit_price (o_core order) with
  | Some p, Some old =>
      (bool_decide (o_side (o_core order) = "buy") && dltb old p) || (bool_decide (o_side (o_core order) = "sell") && dltb p old)
  | _, _ => false
  end.

Definition exposure_increasing (order : order_row) (payload : OrderModifyRequest) : bool :=
  bool_decide (is_Some (increase order payload)) || limit_price_increases_risk order payload
  || stop_price_increases_risk order payload.

Definition modify_breach_detail (bs : list FatFinger.FatFingerBreach) : string :=
  match FatFinger.iter_breach_types bs with
  | [] => "Modification would breach fat-finger limits"
  | ts => "Modification would breach fat-finger limits: " +:+ String.concat ", " ts
  end.

Definition _validate_modify_fat_finger (env : environment) (app : gateway) (json_loads : string -> option price_data)
    (order : order_row) (payload : OrderModifyRequest) : M gw unit :=
  if negb (exposure_increasing order payload) then mret tt
  else
    now ← read_clock env;
    replacement_request ← lift (_build_replacement_request now order payload);
    validator ← local env (fun _ => reads sh_fat_finger);
    let symbol := o_symbol (o_core order) in
    let thresholds := FatFinger.get_effective_thresholds validator symbol in
    context ← resolve_fat_finger_context json_loads env (has_redis app) (liquidity_service app)
                (cfg_max_price_age_seconds app) replacement_request thresholds;
    result ← lift (FatFinger.validate validator symbol (req_qty replacement_request) context.1 context.2 (Some thresholds));
    if FatFinger.breached result then raise (HTTPException 422 (modify_breach_detail (FatFinger.breaches result)))
    else mret tt.

(** ** The lock *)

Definition lock_not_available : exn := OperationalError "could not obtain lock on row in relation orders".

(** What PostgreSQL answers to a statement after a failed one, until the transaction ends. *)
Definition in_failed_transaction : exn :=
  InternalError "current transaction is aborted, commands ignored until end of transaction block".

(** Lines 1050-1063.  The lookup in the handler of LockNotAvailable is a statement of the transaction
    that LockNotAvailable has aborted. *)
Definition next_seq_locked (env : environment) (client_order_id : string) : M gw Z :=
  try_except (call env (fun _ => in_db (get_next_modification_seq client_order_id)))
    (fun e => if decide (e = lock_not_available) then Some (raise in_failed_transaction) else None).

(** One transaction; its only write is the last statement.  [inl] is the answer of an earlier request
    with the same key; [modification_id] is the one the database makes up. *)
Definition _acquire_modification_lock (env : environment) (modification_id client_order_id : string) (order : order_row)
    (payload : OrderModifyRequest) (changes : modification_changes) (user_id : string)
    : M gw (OrderModifyResponse + string * string) :=
  existing ← call env (fun _ => in_db (get_modification_by_idempotency_key client_order_id (om_idempotency_key payload)));
  idempotent_resp ← lift (_handle_idempotent_modification_response existing);
  match idempotent_resp with
  | Some r => mret (inl r)
  | None =>
      modification_seq ← next_seq_locked env client_order_id;
      let new_client_order_id := _generate_replacement_order_id client_order_id modification_seq in
      id ← call env (fun now => in_db (transaction (insert_pending_modification now modification_id client_order_id
             new_client_order_id (o_broker_order_id (o_exec order)) modification_seq (om_idempotency_key payload) "pending"
             user_id (om_reason payload) changes)));
      mret (inr (id, new_client_order_id))
  end.

(** ** The broker and the database *)

Definition mark_modification (env : environment) (modification_id status error_message : string) : M gw unit :=
  call env (fun now => in_db (update_modification_status now modification_id status (Some error_message))).

(** [if reservation_token and ctx.recovery_manager.position_reservation: f()] *)
Definition when_reserved (env : environment) (token : option string) (f : string -> M gw unit) : M gw unit :=
  match token with
  | None => mret tt
  | Some t => held ← recovery_flag env Recovery.position_reservation; if held : bool then f t else mret tt
  end.

(** The status of the answer to each error of the broker. *)
Definition replace_error_status (e : exn) : option Z :=
  match e with
  | AlpacaRejectionError _ => Some 422
  | AlpacaValidationError _ => Some 400
  | AlpacaConnectionError _ => Some unavailable
  | _ => None
  end.

Definition replace_failed (env : environment) (symbol modification_id : string) (token : option string) (e : exn)
    : option (M gw order_dict) :=
  code ← replace_error_status e;
  Some (_ ← when_reserved env token (release env symbol);
        _ ← mark_modification env modification_id "failed" (str_exn e);
        raise (HTTPException code (str_exn e))).

(** The broker's identifier, and the client identifier it used. *)
Definition _call_broker_replace (env : environment) (order : order_row) (broker_order_id : string) (payload : OrderModifyRequest)
    (new_client_order_id modification_id : string) (token : option string) : M gw (string * string * option string) :=
  broker_response ← try_except
    (Gateway.replace_order env broker_order_id (om_qty payload) (om_limit_price payload) (om_stop_price payload)
       (om_time_in_force payload) (Some new_client_order_id))
    (replace_failed env (o_symbol (o_core order)) modification_id token);
  _ ← when_reserved env token (confirm env (o_symbol (o_core order)));
  mret (od_id broker_response, or_text (od_client_order_id broker_response) new_client_order_id, od_status broker_response).

Definition not_persisted : exn :=
  HTTPException 500 "Order replacement accepted by broker but failed to persist. Reconciliation required.".

(** The transaction of lines 1198-1215. *)
Definition persist_replacement (now : Z) (client_order_id : string) (order : order_row) (modification_id broker_order_id
    broker_client_order_id : string) (status : option string) (replacement_request : OrderRequest) : M db unit :=
  transaction (
    _ ← finalize_modification now modification_id (Some broker_order_id) "completed" (Some broker_client_order_id);
    _ ← update_order_status_simple_with_conn now client_order_id "replaced";
    _ ← insert_replacement_order now broker_client_order_id client_order_id (o_strategy_id (o_core order)) replacement_request
          (or_text status "pending_new") (Some broker_order_id);
    mret tt).

Definition _finalize_modification_in_db (env : environment) (client_order_id : string) (order : order_row)
    (modification_id broker_order_id broker_client_order_id : string) (status : option string)
    (replacement_request : OrderRequest) : M gw unit :=
  try_except
    (call env (fun now => in_db (persist_replacement now client_order_id order modification_id broker_order_id
       broker_client_order_id status replacement_request)))
    (fun e => Some (
      _ ← try_except (mark_modification env modification_id "submitted_unconfirmed" ("db_finalize_failed: " +:+ str_exn e))
            (fun _ => Some (mret tt));
      raise not_persisted)).

(** ** The handler *)

(** Lines 2161-2207: with the modification recorded. *)
Definition replace_recorded (env : environment) (app : gateway) (token client_order_id : string) (order : order_row)
    (broker_order_id : string) (payload : OrderModifyRequest) (changes : modification_changes)
    (modification_id new_client_order_id : string) : M gw OrderModifyResponse :=
  if negb (has_alpaca app) then
    _ ← mark_modification env modification_id "failed" "broker_unavailable";
    raise (HTTPException unavailable "Alpaca client not initialized. Check credentials.")
  else
    reservation_token ← try_except (_reserve_modify_delta env app token order payload)
      (fun e => match e with
                | HTTPException _ detail => Some (_ ← mark_modification env modification_id "failed" detail; raise e)
                | _ => None
                end);
    now ← read_clock env;
    replacement_request ← lift (_build_replacement_request now order payload);
    replaced ← _call_broker_replace env order broker_order_id payload new_client_order_id modification_id reservation_token;
    let '(new_broker_order_id, broker_client_order_id, status) := replaced in
    _ ← _finalize_modification_in_db env client_order_id order modification_id new_broker_order_id broker_client_order_id
          status replacement_request;
    modified_at ← read_clock env;
    mret {| mr_http_status := 200; mr_original_client_order_id := client_order_id;
            mr_new_client_order_id := broker_client_order_id; mr_modification_id := modification_id;
            mr_modified_at := modified_at; mr_status := "completed"; mr_changes := changes |}.

(** Lines 2129-2207: a modification that no earlier request made. *)
Definition modify_new (env : environment) (app : gateway) (auth : AuthContext) (json_loads : string -> option price_data)
    (token fresh_id client_order_id : string) (order : order_row) (payload : OrderModifyRequest) : M gw OrderModifyResponse :=
  _ ← _check_modify_safety_gates env order payload;
  _ ← lift (_check_order_modification_eligibility order);
  _ ← lift (_validate_modify_fields order payload);
  if below_filled order payload then
    raise (HTTPException 422 ("Cannot reduce qty below filled quantity ("
      +:+ default "None" (str_decimal <$> o_filled_qty (o_exec order)) +:+ ")"))
  else
    let changes := _compute_modification_changes order payload in
    if no_changes changes then raise (HTTPException 400 "No changes detected for modification")
    else
      _ ← _validate_modify_position_limits env app order payload;
      _ ← _validate_modify_fat_finger env app json_loads order payload;
      locked ← _acquire_modification_lock env fresh_id client_order_id order payload changes
                 (_extract_user_id_from_auth (auth_user auth));
      match locked with
      | inl r => mret r
      | inr (modification_id, new_client_order_id) =>
          match o_broker_order_id (o_exec order) with
          | None => raise (HTTPException 400 "Order cannot be modified yet - awaiting broker acknowledgment.")
          | Some broker_order_id => replace_recorded env app token client_order_id order broker_order_id payload changes
                                      modification_id new_client_order_id
          end
      end.

Definition modify_order (env : environment) (app : gateway) (auth : AuthContext) (json_loads : string -> option price_data)
    (token fresh_id client_order_id : string) (payload : OrderModifyRequest) : M gw OrderModifyResponse :=
  order ← call env (fun _ => in_db (get_order_by_client_id client_order_id));
  match order with
  | None => raise (HTTPException 404 "Order not found")
  | Some order =>
      _ ← lift (_ensure_strategy_access (o_strategy_id (o_core order)) auth);
      existing ← call env (fun _ => in_db (get_modification_by_idempotency_key client_order_id (om_idempotency_key payload)));
      idempotent_resp ← lift (_handle_idempotent_modification_response existing);
      match idempotent_resp with
      | Some r => mret r
      | None => modify_new env app auth json_loads token fresh_id client_order_id order payload
      end
  end.

(** ** The recovery rebuilds the request of the handler *)

(** Equal requests, prices compared by value. *)
Record same_request (a b : OrderRequest) : Prop := {
  sr_symbol : req_symbol a = req_symbol b; sr_side : req_side a = req_side b; sr_qty : req_qty a = req_qty b;
  sr_order_type : req_order_type a = req_order_type b; sr_tif : req_time_in_force a = req_time_in_force b;
  sr_limit : option_Forall2 deq (req_limit_price a) (req_limit_price b);
  sr_stop : option_Forall2 deq (req_stop_price a) (req_stop_price b);
  sr_style : req_execution_style a = req_execution_style b
}.

Lemma price_positive_same p q : option_Forall2 deq p q -> price_positive p = price_positive q.
Proof. destruct 1 as [x y H|]; [|done]. simpl. by rewrite H. Qed.

Lemma prices_wf_same a b : same_request a b -> prices_wf b -> prices_wf a.
Proof.
  intros [_ Hsd _ Ht _ Hl Hs _] (H1 & H2 & H3). unfold prices_wf. rewrite Ht, Hsd. split_and!.
  - intros H. specialize (H1 H). destruct Hl; [done|by destruct H1].
  - intros H. specialize (H2 H). destruct Hs; [done|by destruct H2].
  - intros l s E El Es. rewrite El in Hl. rewrite Es in Hs. inversion Hl as [? l' Hll El0 El'|]. inversion Hs as [? s' Hss Es0 Es'|].
    subst. destruct (H3 _ _ E (eq_sym El') (eq_sym Es')) as [K1 K2]. rewrite Hll, Hss. by split.
Qed.

(** The change that is recorded, applied to the order, is the effective value. *)
Lemma recorded_price new old :
  option_Forall2 deq (apply_price_change old (price_change new old)) (effective_price new old).
Proof.
  destruct new as [p|]; simpl; [|by destruct old; constructor]. destruct old as [o|]; simpl; [|by constructor].
  destruct (deqb p o) eqn:E; simpl; constructor; [|done]. symmetry. by apply deqb_deq.
Qed.

Lemma recorded_qty new old : _apply_change old (qty_change new old) = effective new old.
Proof. destruct new as [q|]; simpl; [|done]. unfold qty_change. by destruct (Z.eqb_spec q old). Qed.

Lemma recorded_tif new old : _apply_change old (tif_change new old) = effective new old.
Proof. destruct new as [t|]; simpl; [|done]. unfold tif_change. by case_bool_decide. Qed.

(** What reconciliation rebuilds from the recorded changes is the replacement the handler sent: whenever the
    handler can build its request, the recovery builds an equal one, up to the representation of prices. *)
Theorem recovery_rebuilds_replacement now order payload g :
  _build_replacement_request now order payload = Ok g ->
  exists g', replacement_request now order (_compute_modification_changes order payload) = Ok g' /\ same_request g' g.
Proof.
  unfold _build_replacement_request, replacement_request, _compute_modification_changes.
  cbn [ch_qty ch_limit_price ch_stop_price ch_time_in_force]. rewrite recorded_tif, recorded_qty. cbv zeta.
  intros Hb. apply mk_order_request_ok in Hb as [-> (Hf & Hc & Hl & Hs & Hp & Ht)].
  cbn [req_execution_style req_limit_price req_stop_price] in *.
  assert (Htif : one_of (effective (om_time_in_force payload) (o_time_in_force (o_core order))) ["day"; "gtc"; "ioc"; "fok"] = true)
    by (unfold field_types_ok in Hf; boolify; done).
  rewrite Htif. eexists. split.
  - apply mk_order_request_ok. split; [reflexivity|]. split_and!; cbn [req_limit_price req_stop_price].
    + exact Hf.
    + exact Hc.
    + by rewrite (price_positive_same _ _ (recorded_price _ _)).
    + by rewrite (price_positive_same _ _ (recorded_price _ _)).
    + eapply prices_wf_same; [|exact Hp]. split; try done; apply recorded_price.
    + done.
  - split; try done; apply recorded_price.
Qed.
