(* ===== verification/ModifyRecords.v ===== *)
(** * Replacements at the broker are on record

    Whatever fails, the modification handler sends only replacements that the
    database has recorded before. *)

From S2P Require Import Prelude PyDecimal PyText GatewayDb OrderCas RedisClient.
From S2P Require Import Access Gateway PriceFeed OrderGates OrderSubmit OrderModify.
From S2P Require FatFinger.
Import Gateway.Accounts.
Open Scope Z_scope.

(** A modification of [oid] is on record that replaces [broker_order_id] under the identifier [new_id]. *)
Definition recorded (oid broker_order_id new_id : string) (sh : shared) : Prop :=
  exists mid m, db_modifications (sh_db sh) !! mid = Some m /\ mod_original_client_order_id m = oid /\
    mod_original_broker_order_id m = Some broker_order_id /\ new_id = _generate_replacement_order_id oid (mod_seq m).

(** What the handler may send: queries, and replacements on record. *)
Definition backed_modification (oid : string) (r : broker_request) (sh : shared) : Prop :=
  match r with
  | Replace b f => exists new_id, rp_client_order_id f = Some new_id /\ recorded oid b new_id sh
  | Submit _ | Cancel _ => False
  | GetPosition _ | GetOpenOrders _ | GetClock => True
  end.

(** The database forgets no modification. *)
Definition remembers {A} (m : M db A) : Prop := forall s mid x, db_modifications s !! mid = Some x ->
  exists x', db_modifications (snd (m s)) !! mid = Some x' /\
    mod_original_client_order_id x' = mod_original_client_order_id x /\
    mod_original_broker_order_id x' = mod_original_broker_order_id x /\ mod_seq x' = mod_seq x.

Lemma remembers_same {A} (m : M db A) : (forall s, db_modifications (snd (m s)) = db_modifications s) -> remembers m.
Proof. intros H s mid x Hx. exists x. rewrite H. by split_and!. Qed.

Lemma remembers_bind {A B} (m : M db A) (f : A -> M db B) :
  remembers m -> (forall a, remembers (f a)) -> remembers (m ≫= f).
Proof.
  intros Hm Hf s mid x Hx. rewrite M_bind_run. destruct (Hm s mid x Hx) as (x1 & H1 & E1 & E2 & E3).
  destruct (m s) as [[a|e] s1]; simpl in H1; [|exists x1; by split_and!].
  destruct (Hf a s1 mid x1 H1) as (x2 & H2 & F1 & F2 & F3). exists x2. split; [exact H2|]. by rewrite F1, F2, F3.
Qed.

Lemma remembers_transaction {A} (m : M db A) : remembers m -> remembers (transaction m).
Proof.
  intros Hm s mid x Hx. specialize (Hm s mid x Hx). unfold transaction. destruct (m s) as [[a|e] s1]; [exact Hm|].
  exists x. by split_and!.
Qed.

Lemma remembers_reads {A} (f : db -> A) : remembers (reads f).
Proof. by apply remembers_same. Qed.

Lemma remembers_ret {A} (a : A) : remembers (mret a).
Proof. by apply remembers_same. Qed.

Lemma remembers_mark now mid st err : remembers (update_modification_status now mid st err).
Proof.
  intros s j x Hx. unfold update_modification_status, modify. simpl. destruct (decide (j = mid)) as [->|Hj].
  - rewrite lookup_alter_eq, Hx. eexists. split; [reflexivity|]. by split_and!.
  - rewrite lookup_alter_ne by done. exists x. by split_and!.
Qed.

Lemma remembers_finalize now mid b st c : remembers (finalize_modification now mid b st c).
Proof.
  intros s j x Hx. unfold finalize_modification, modify. simpl. destruct (decide (j = mid)) as [->|Hj].
  - rewrite lookup_alter_eq, Hx. eexists. split; [reflexivity|]. by split_and!.
  - rewrite lookup_alter_ne by done. exists x. by split_and!.
Qed.

Lemma remembers_pending now mid oid new_id b seq key st by_ reason ch :
  remembers (insert_pending_modification now mid oid new_id b seq key st by_ reason ch).
Proof.
  intros s j x Hx. unfold insert_pending_modification. run_monad. destruct (_ || _) eqn:E; [exists x; by split_and!|].
  exists x. split; [|done]. simpl. apply orb_false_elim in E as [E _]. apply orb_false_elim in E as [E _].
  apply bool_decide_eq_false in E. rewrite lookup_insert_ne; [done|]. intros ->. apply E. by exists x.
Qed.

Lemma remembers_orders :
  (forall id c f, remembers (update_order id c f)) /\ (forall id r, remembers (insert_order id r)).
Proof.
  split; intros; apply remembers_same; intros s; unfold update_order, insert_order; run_monad; repeat case_match; done.
Qed.

Lemma remembers_persist now id order mid b c st g : remembers (persist_replacement now id order mid b c st g).
Proof.
  destruct remembers_orders as [H1 H2]. apply remembers_transaction, remembers_bind; [apply remembers_finalize|intros _].
  apply remembers_bind; [apply H1|intros _]. apply remembers_bind; [apply H2|intros _]. apply remembers_ret.
Qed.

Section modifications.
Context (env : environment) (k : list broker_request) (oid : string).
Hypothesis Hrec : forall b new_id, stable env (recorded oid b new_id).

Abbreviation account := (accounted k (backed_modification oid)).

Lemma backed_modification_stable r : stable env (backed_modification oid r).
Proof. intros n sh. destruct r; simpl; try done. intros (new_id & H1 & H2). exists new_id. split; [done|by apply Hrec]. Qed.

Lemma recorded_kept {A} (m : M shared A) b new_id :
  (forall sh mid x, db_modifications (sh_db sh) !! mid = Some x ->
     exists x', db_modifications (sh_db (snd (m sh))) !! mid = Some x' /\
       mod_original_client_order_id x' = mod_original_client_order_id x /\
       mod_original_broker_order_id x' = mod_original_broker_order_id x /\ mod_seq x' = mod_seq x) ->
  preserves (recorded oid b new_id) m.
Proof.
  intros H sh (mid & x & Hx & H1 & H2 & H3). destruct (H sh mid x Hx) as (x' & Hx' & E1 & E2 & E3).
  exists mid, x'. rewrite E1, E2, E3. by split_and!.
Qed.

Lemma recorded_db {A} (m : M db A) b new_id : remembers m -> preserves (recorded oid b new_id) (in_db m).
Proof. intros H. apply recorded_kept. intros sh mid x Hx. unfold in_db. rewrite zoom_run. by apply H. Qed.

Lemma recorded_zoom {S A} (part : shared -> S) put (m : M S A) b new_id :
  (forall x sh, sh_db (put x sh) = sh_db sh) -> preserves (recorded oid b new_id) (zoom part put m).
Proof. intros Hp. apply recorded_kept. intros sh mid x Hx. rewrite zoom_run. simpl. rewrite Hp. exists x. by split_and!. Qed.

Lemma recorded_reads {A} (f : shared -> A) b new_id : preserves (recorded oid b new_id) (reads f).
Proof. by intros sh. Qed.

Lemma keeps_modifications {A} (m : M shared A) :
  (forall b new_id, preserves (recorded oid b new_id) m) -> keeps (backed_modification oid) m.
Proof. intros H r sh. destruct r; simpl; try done. intros (new_id & H1 & H2). exists new_id. split; [done|by apply H]. Qed.

Ltac keep_recorded :=
  first [ apply recorded_reads
        | apply recorded_db; first [apply remembers_reads | apply remembers_mark | apply remembers_persist
                                   | apply remembers_transaction, remembers_pending]
        | apply recorded_zoom; done ].

Ltac modify_call _ :=
  first
    [ apply (accounted_call _ _ _ backed_modification_stable); intros; apply keeps_modifications; intros; keep_recorded
    | apply (accounted_local _ _ _ backed_modification_stable); intros; apply keeps_modifications; intros; keep_recorded
    | apply (covered_call _ _ _ backed_modification_stable _ (Hrec _ _)); intros; [apply keeps_modifications; intros|]; keep_recorded
    | apply (covered_local _ _ _ backed_modification_stable _ (Hrec _ _)); intros; [apply keeps_modifications; intros|]; keep_recorded
    | apply (accounted_ask _ _ _ backed_modification_stable); done ].

Ltac modifications := accounts_with modify_call.

Lemma account_before app json_loads order payload :
  preserves account (_check_modify_safety_gates env order payload) /\
  preserves account (_validate_modify_position_limits env app order payload) /\
  preserves account (_validate_modify_fat_finger env app json_loads order payload).
Proof.
  split_and!.
  - unfold _check_modify_safety_gates, recovery_flag, or_else_do, _is_strictly_risk_reducing. modifications.
  - unfold _validate_modify_position_limits. modifications.
  - assert (Ha : forall ls o t, preserves account (resolve_adv env ls o t)).
    { intros ls o t. unfold resolve_adv. destruct (FatFinger.max_adv_pct t); [|modifications]. destruct ls as [l|]; [|modifications].
      intros s H. eapply (accounted_local _ _ _ backed_modification_stable); [|exact H].
      intros. apply keeps_modifications. intros. keep_recorded. }
    unfold _validate_modify_fat_finger, resolve_fat_finger_context, resolve_price. modifications; eauto; by intros s.
Qed.

(** Past the lock the modification is on record. *)
Lemma lock_records mid order payload ch user b : o_broker_order_id (o_exec order) = Some b ->
  ensures account (_acquire_modification_lock env mid oid order payload ch user)
    (fun r s => account s /\ forall id new_id, r = Ok (inr (id, new_id)) ->
       covered (recorded oid b new_id) k (backed_modification oid) s).
Proof.
  intros Hb s H. unfold _acquire_modification_lock. rewrite M_bind_run.
  set (m1 := call env _). assert (H1 : account (snd (m1 s))) by (revert s H; change (preserves account m1); unfold m1; modifications).
  destruct (m1 s) as [[existing|e] s1]; [|by split]. rewrite M_bind_run. unfold lift.
  destruct (_handle_idempotent_modification_response existing) as [[r|]|e]; [by split|..|by split].
  rewrite M_bind_run. set (m2 := next_seq_locked env oid).
  assert (H2 : account (snd (m2 s1))) by (revert s1 H1; change (preserves account m2); unfold m2, next_seq_locked; modifications).
    destruct (m2 s1) as [[seq|e] s2]; [|by split]. rewrite M_bind_run. set (m3 := call env _).
  assert (H3 : account (snd (m3 s2))) by (revert s2 H2; change (preserves account m3); unfold m3; modifications).
  assert (Hrow : forall id, fst (m3 s2) = Ok id ->
    recorded oid b (_generate_replacement_order_id oid seq) (g_shared (snd (m3 s2)))).
  { intros id. unfold m3, call. destruct (fates env (g_calls s2)); [|done..]. unfold in_db. rewrite zoom_run. simpl.
    unfold transaction, insert_pending_modification. run_monad. destruct (_ || _); [done|]. simpl. intros _.
    eexists mid, _. simpl. rewrite lookup_insert_eq. by split_and!. }
  destruct (m3 s2) as [[id|e] s3]; [|by split]. split; [exact H3|]. intros id' new_id [= <- <-].
  split; [by apply (Hrow id)|exact H3].
Qed.

Lemma covered_replace app token order b payload ch mid new_id :
  preserves (covered (recorded oid b new_id) k (backed_modification oid))
    (replace_recorded env app token oid order b payload ch mid new_id).
Proof.
  assert (Hmark : forall st err, preserves (covered (recorded oid b new_id) k (backed_modification oid))
    (mark_modification env mid st err)) by (intros; unfold mark_modification; modifications).
  assert (Hreserve : preserves (covered (recorded oid b new_id) k (backed_modification oid))
    (_reserve_modify_delta env app token order payload)) by (unfold _reserve_modify_delta, recovery_flag; modifications).
  unfold replace_recorded. destruct (negb _); [apply preserves_bind; [apply Hmark|modifications]|].
  apply preserves_bind.
  { apply preserves_try; [exact Hreserve|]. intros e c Hc. destruct e; simplify_eq. apply preserves_bind; [apply Hmark|modifications]. }
  intros t. apply preserves_bind; [by intros s|]. intros now. apply preserves_bind; [modifications|]. intros g.
  apply preserves_bind.
  - unfold _call_broker_replace. apply preserves_bind.
    + apply preserves_try.
      * unfold Gateway.replace_order. apply preserves_retry. apply preserves_bind; [|intros; modifications].
        apply (covered_ask _ _ _ backed_modification_stable _ (Hrec _ _)). intros sh Hsh. exists new_id. by split.
      * intros e c. unfold replace_failed, when_reserved, release, recovery_flag, mark_modification.
        destruct (replace_error_status e); simpl; [intros [= <-]|done]. modifications.
    + intros o. unfold when_reserved, confirm, recovery_flag. modifications.
  - intros [[b' c] st]. apply preserves_bind.
    + unfold _finalize_modification_in_db, mark_modification. modifications.
    + intros _. apply preserves_bind; [by intros s|]. intros t'. modifications.
Qed.

Lemma covered_account b new_id s : covered (recorded oid b new_id) k (backed_modification oid) s -> account s.
Proof. by intros [_ H]. Qed.

Lemma account_new app auth json_loads token mid order payload :
  preserves account (modify_new env app auth json_loads token mid oid order payload).
Proof.
  destruct (account_before app json_loads order payload) as (B1 & B2 & B3).
  unfold modify_new. apply preserves_bind; [exact B1|intros _].
  destruct (_check_order_modification_eligibility order) as [[]|e] eqn:Ee; [|by intros s].
  assert (exists b, o_broker_order_id (o_exec order) = Some b) as [b Hb].
  { revert Ee. unfold _check_order_modification_eligibility. destruct (negb _); [done|].
    destruct (o_broker_order_id (o_exec order)) as [b|]; [by exists b|done]. }
  apply preserves_bind; [modifications|intros _]. apply preserves_bind; [modifications|intros _].
  destruct (below_filled order payload); [modifications|]. cbv zeta. destruct (no_changes _); [modifications|].
  apply preserves_bind; [exact B2|intros _]. apply preserves_bind; [exact B3|intros _].
  intros s H. rewrite M_bind_run.
  destruct (lock_records mid order payload (_compute_modification_changes order payload)
    (_extract_user_id_from_auth (auth_user auth)) b Hb s H) as [H1 H2].
  destruct (_acquire_modification_lock _ _ _ _ _ _ _ s) as [[[r|[id new_id]]|e] s1]; [exact H1| |exact H1].
  rewrite Hb. eapply covered_account, covered_replace, (H2 id new_id eq_refl).
Qed.

Lemma account_modify app auth json_loads token mid payload :
  preserves account (modify_order env app auth json_loads token mid oid payload).
Proof.
  unfold modify_order. apply preserves_bind; [modifications|]. intros [order|]; [|modifications].
  apply preserves_bind; [modifications|intros _]. apply preserves_bind; [modifications|intros existing].
  apply preserves_bind; [modifications|]. intros [r|]; [modifications|apply account_new].
Qed.
End modifications.

(** C16. No replacement reaches the broker that the database does not have: whatever fails and whatever the
    other workers do (short of deleting modifications or rewriting what they are about), everything the
    handler sends besides queries replaces an order for which a modification of this order is on
    record, under the client identifier that its sequence number determines. *)
Theorem sent_replacements_are_recorded env app auth json_loads token mid oid payload s :
  (forall b new_id, stable env (recorded oid b new_id)) ->
  let s' := snd (modify_order env app auth json_loads token mid oid payload s) in
  exists rs, g_sent s' = g_sent s ++ rs /\ forall r, r ∈ rs -> backed_modification oid r (g_shared s').
Proof. intros Hrec. by apply (account_modify env (g_sent s) oid Hrec), accounted_start. Qed.
