(* ===== verification/ModifySafety.v ===== *)
(** * Modifications while trading is halted, repeated and concurrent modifications

    While the kill switch is engaged or the breaker is tripped only a reduction
    of the quantity is let through; the check that decides what reduces the risk
    is exact for an order nothing of which is filled, and wrong for a partially
    filled one. *)

From S2P Require Import Prelude PyDecimal PyText OrderStatus OrderSchema GatewayDb OrderCas FillOps RedisClient ReconMods.
From S2P Require Import Access Gateway PriceFeed SliceExec OrderGates OrderSubmit OrderOutcome OrderModify.
From S2P Require KillSwitch Breaker Recovery.
Open Scope Z_scope.

(** ** Halted *)

(** The gates a modification has to pass. *)
Definition modify_gates : list gate := [KillSwitchGone; BreakerGone; KillSwitchEngaged; BreakerTripped].

Lemma safety_event_true env app symbol g k : g ∈ modify_gates -> g <> KillSwitchGone -> g <> BreakerGone ->
  stable env (closed app symbol g) ->
  ensures (held k (closed app symbol g))
    (or_else_do (call env (fun _ => in_kill KillSwitch.is_engaged)) (call env (fun _ => in_breaker Breaker.is_tripped)))
    (fun r s => held k (closed app symbol g) s /\ forall b, r = Ok b -> b = true).
Proof.
  intros Hg Hn1 Hn2 Hs. apply (gate_switch _ _ _ _ _ Hs); [by intros e s H|].
  intros [|] Hb1; [by intros s H; split; [|intros b [= <-]]|].
  intros s H. destruct (held_call _ _ k Hs (fun _ => in_breaker Breaker.is_tripped)) with (s := s) as [H1 H2];
    [by intros _ sh HP; rewrite in_breaker_read|done|].
  split; [exact H1|]. intros b Hb. destruct (H2 b Hb) as (_ & sh & HP & E). rewrite in_breaker_read in E. cbn [fst] in E.
  unfold modify_gates in Hg. rewrite !elem_of_cons, elem_of_nil in Hg.
  destruct Hg as [?|[?|[Hg|[Hg|[]]]]]; [done|done|by specialize (Hb1 Hg)|].
  rewrite Hg in HP. destruct b; [done|]. by destruct (HP E).
Qed.

(** While a safety component is unavailable, the kill switch engaged or the breaker tripped (or the state of
    either lost), a modification that is not purely a change of quantity, or of a slice, is refused and
    nothing is sent, whatever the other workers do and whichever calls fail. *)
Theorem halted_modifications_refused env app auth json_loads token mid oid order payload g s :
  let symbol := o_symbol (o_core order) in
  g ∈ modify_gates -> stable env (closed app symbol g) -> closed app symbol g (g_shared s) ->
  only_qty order payload = None ->
  let out := modify_new env app auth json_loads token mid oid order payload s in
  (forall resp, fst out <> Ok resp) /\ g_sent (snd out) = g_sent s.
Proof.
  intros symbol Hg Hs Hc Hq. change (refused (g_sent s)
    (fst (modify_new env app auth json_loads token mid oid order payload s))
    (snd (modify_new env app auth json_loads token mid oid order payload s))).
  assert (Hh : held (g_sent s) (closed app symbol g) s) by by split.
  assert (HR : forall e s', held (g_sent s) (closed app symbol g) s' -> refused (A:=unit) (g_sent s) (Raise e) s')
    by (intros e s' [H _]; by split).
  assert (Hgate : ensures (held (g_sent s) (closed app symbol g)) (_check_modify_safety_gates env order payload) (refused (g_sent s))).
  { unfold _check_modify_safety_gates.
    apply (gate_flag _ _ _ _ _ Hs _ HR _ (fun _ => True)); [done|intros h1 _].
    apply (gate_flag _ _ _ _ _ Hs _ HR _ (fun _ => True)); [done|intros h2 _].
    apply (gate_flag _ _ _ _ _ Hs _ HR _ (fun b => g = KillSwitchGone -> b = true)); [intros sh HP ->; exact HP|]. intros b1 Hb1.
    apply (gate_when _ _ _ _ _ HR). intros [-> _]%orb_false_elim.
    apply (gate_flag _ _ _ _ _ Hs _ HR _ (fun b => g = BreakerGone -> b = true)); [intros sh HP ->; exact HP|]. intros b2 Hb2.
    apply (gate_when _ _ _ _ _ HR). intros [-> _]%orb_false_elim.
    eapply (held_bind _ _ (fun b => b = true)); [exact HR|apply safety_event_true; [exact Hg|naive_solver|naive_solver|exact Hs]|].
    intros b ->. cbn [negb]. unfold _is_strictly_risk_reducing. rewrite Hq.
    intros s1 H1. rewrite M_bind_run. revert s1 H1. change (ensures (held (g_sent s) (closed app symbol g))
      (engaged ← call env (fun _ => in_kill KillSwitch.is_engaged);
       raise (modifications_blocked (if engaged : bool then "kill switch" else "circuit breaker")) : M gw unit) (refused (g_sent s))).
    apply (gate_switch _ _ _ _ _ Hs _ HR). intros b _. apply refused_raise. }
  unfold modify_new. rewrite M_bind_run. specialize (Hgate s Hh).
  destruct (_check_modify_safety_gates env order payload s) as [[[]|e] s1]; [by destruct Hgate as [H _]; destruct (H tt)|].
  split; [done|apply Hgate].
Qed.

(** ** What counts as a reduction *)

(** The position once the order, now of [qty] shares, fills completely. *)
Definition final_position (order : order_row) (current qty : Z) : Z :=
  current + signed order (qty - dint (default dzero (o_filled_qty (o_exec order)))).

Definition position_of (symbol : string) (sh : shared) : Z :=
  match db_positions (sh_db sh) !! symbol with Some p => dint (p_qty p) | None => 0 end.

Lemma projected_final order current qty :
  dint (default dzero (o_filled_qty (o_exec order))) = 0 -> projected order current qty = final_position order current qty.
Proof. unfold projected, final_position, signed. intros ->. by rewrite Z.sub_0_r. Qed.

Lemma risk_reducing_run env order payload q s : quiet env -> only_qty order payload = Some q ->
  let current := position_of (o_symbol (o_core order)) (g_shared s) in
  _is_strictly_risk_reducing env order payload s =
  (Ok (Z.abs (projected order current q) <? Z.abs (projected order current (o_qty (o_core order)))), tick s).
Proof.
  intros Hq Ho current. unfold _is_strictly_risk_reducing. rewrite Ho. unfold try_except, get_position_by_symbol.
  rewrite M_bind_run, (call_read env _ _ _ Hq (fun sh => in_db_read _ sh)). done.
Qed.

(** The state of a halted gateway: the components are there, and the kill switch is engaged. *)
Definition halted_by_switch (sh : shared) : Prop :=
  Recovery.needs_recovery (sh_recovery sh) = false /\ fst (KillSwitch.is_engaged (sh_kill sh)) = Ok true.

Lemma modify_gates_halted_run env order payload q s :
  quiet env -> halted_by_switch (g_shared s) -> only_qty order payload = Some q ->
  let current := position_of (o_symbol (o_core order)) (g_shared s) in
  exists s', g_shared s' = g_shared s /\ g_sent s' = g_sent s /\
  _check_modify_safety_gates env order payload s =
  (if Z.abs (projected order current q) <? Z.abs (projected order current (o_qty (o_core order)))
   then Ok tt else Raise (modifications_blocked "kill switch"), s').
Proof.
  intros Hq (Hr & Hk) Ho current. destruct (no_recovery_needed _ Hr) as (H1 & H2 & _ & H4 & H5 & _).
  unfold _check_modify_safety_gates. do 3 rewrite M_bind_run, recovery_flag_run by done. rewrite ?shared_tick, H1, H4.
  cbn [orb negb]. rewrite M_bind_run, recovery_flag_run by done. rewrite ?shared_tick, H2, H5. cbn [orb negb].
  rewrite M_bind_run. unfold or_else_do. rewrite M_bind_run, (call_read env _ _ _ Hq in_kill_read), ?shared_tick, Hk.
  unfold mret at 1, M_ret. cbn [negb]. rewrite M_bind_run, (risk_reducing_run env order payload q _ Hq Ho), ?shared_tick.
  fold current. destruct (_ <? _); [eexists; split; [|split; [|reflexivity]]; reflexivity|].
  rewrite M_bind_run, (call_read env _ _ _ Hq in_kill_read), ?shared_tick, Hk.
  eexists; split; [|split; [|reflexivity]]; reflexivity.
Qed.

(** While the kill switch is engaged, a change of the quantity of an order nothing of which is filled is let
    through exactly when it makes the position it leads to smaller. *)
Theorem halted_quantity_change_reduces env order payload q s :
  quiet env -> halted_by_switch (g_shared s) -> only_qty order payload = Some q ->
  dint (default dzero (o_filled_qty (o_exec order))) = 0 ->
  let current := position_of (o_symbol (o_core order)) (g_shared s) in
  fst (_check_modify_safety_gates env order payload s) = Ok tt <->
  Z.abs (final_position order current q) < Z.abs (final_position order current (o_qty (o_core order))).
Proof.
  intros Hq Hh Ho Hf current. destruct (modify_gates_halted_run env order payload q s Hq Hh Ho) as (s' & _ & _ & E).
  rewrite E. cbn [fst]. fold current. rewrite !projected_final by done.
  destruct (Z.ltb_spec (Z.abs (final_position order current q)) (Z.abs (final_position order current (o_qty (o_core order)))));
    [by split|split; [done|lia]].
Qed.

(** The check counts the whole quantity of a partially filled order on top of a position that has the fills
    already: while the kill switch is engaged, a buy that is closing a short position can be cut so that
    the position it leads to is larger. *)
Theorem halted_modification_may_grow_position env order payload q s :
  quiet env -> halted_by_switch (g_shared s) -> only_qty order payload = Some q -> o_side (o_core order) = "buy" ->
  let current := position_of (o_symbol (o_core order)) (g_shared s) in
  let qty := o_qty (o_core order) in
  final_position order current qty = 0 -> q < qty -> 0 < 2 * current + q + qty ->
  fst (_check_modify_safety_gates env order payload s) = Ok tt /\ final_position order current q < 0.
Proof.
  intros Hq Hh Ho Hb current qty Hz Hlt Hpos. destruct (modify_gates_halted_run env order payload q s Hq Hh Ho) as (s' & _ & _ & E).
  rewrite E. cbn [fst]. fold current qty. unfold final_position, projected, signed in *. rewrite Hb in *.
  rewrite bool_decide_true in * by done. split; [|lia]. destruct (Z.ltb_spec (Z.abs (current + q)) (Z.abs (current + qty))); [done|lia].
Qed.

(** ** Concurrent and repeated modifications *)

(** Comparisons of closed texts are evaluated. *)
Ltac decide_texts :=
  repeat match goal with
  | |- context [bool_decide ?P] => let b := eval vm_compute in (bool_decide P) in
      match b with true => idtac | false => idtac end; change (bool_decide P) with b
  end; cbv beta iota.

(** The handler means to answer 409 when another modification holds the lock on the order's row; but
    PostgreSQL has aborted the transaction, and the lookup the handler makes in it fails: the caller gets
    an internal error, nothing is recorded and nothing is sent. *)
Theorem busy_lock_is_an_internal_error env mid oid order payload ch user s :
  fates env (g_calls s) = Up -> fates env (S (g_calls s)) = Down lock_not_available ->
  (forall m, fst (get_modification_by_idempotency_key oid (om_idempotency_key payload)
      (sh_db (others env (g_calls s) (g_shared s)))) <> Ok (Some m)) ->
  exists s', _acquire_modification_lock env mid oid order payload ch user s = (Raise in_failed_transaction, s') /\
    g_shared s' = others env (S (g_calls s)) (others env (g_calls s) (g_shared s)) /\ g_sent s' = g_sent s.
Proof.
  intros Hf1 Hf2 Hn. unfold _acquire_modification_lock. rewrite M_bind_run. unfold call at 1. rewrite Hf1.
  unfold in_db. rewrite zoom_run. unfold get_modification_by_idempotency_key, reads in *. cbn [fst snd] in *.
  destruct (head _) as [m|]; [by destruct (Hn m)|]. rewrite M_bind_run. unfold lift. cbn [_handle_idempotent_modification_response].
  rewrite M_bind_run. unfold next_seq_locked, try_except, call. cbn [after_call g_calls]. rewrite Hf2. cbn [fst snd].
  rewrite decide_True by done. eexists. split; [reflexivity|]. split; [|reflexivity]. simpl.
  by destruct (others env (g_calls s) (g_shared s)).
Qed.

(** A repeated modification changes nothing and sends nothing: it is answered from the record of its key,
    with 200 for a completed one, 202 for one that is pending or unconfirmed, and 409 for a failed one. *)
Theorem repeated_modification_is_not_sent env app auth json_loads token mid oid payload order id m s :
  quiet env -> db_orders (sh_db (g_shared s)) !! oid = Some order ->
  _ensure_strategy_access (o_strategy_id (o_core order)) auth = Ok tt ->
  fst (get_modification_by_idempotency_key oid (om_idempotency_key payload) (sh_db (g_shared s))) = Ok (Some (id, m)) ->
  mod_status m ∈ ["pending"; "completed"; "failed"; "submitted_unconfirmed"] ->
  let out := modify_order env app auth json_loads token mid oid payload s in
  g_shared (snd out) = g_shared s /\ g_sent (snd out) = g_sent s /\
  if decide (mod_status m = "failed") then exists detail, fst out = Raise (HTTPException 409 detail)
  else exists resp, fst out = Ok resp /\ mr_modification_id resp = id /\ mr_status resp = mod_status m /\
    mr_new_client_order_id resp = mod_new_client_order_id m /\
    mr_http_status resp = if decide (mod_status m = "completed") then 200 else 202.
Proof.
  intros Hq Ho Ha Hm Hst out. subst out. unfold modify_order. rewrite M_bind_run. unfold get_order_by_client_id.
  rewrite (call_read env _ _ _ Hq (fun sh => in_db_read _ sh)), Ho, M_bind_run. unfold lift. rewrite Ha.
  rewrite M_bind_run. unfold get_modification_by_idempotency_key in *.
  rewrite (call_read env _ _ _ Hq (fun sh => in_db_read _ sh)), shared_tick. unfold reads in Hm. cbn [fst] in Hm. injection Hm as Hm. rewrite Hm.
  rewrite M_bind_run. unfold _handle_idempotent_modification_response.
  rewrite !elem_of_cons, elem_of_nil in Hst.
  destruct Hst as [E|[E|[E|[E|[]]]]]; rewrite E; unfold one_of; decide_texts; (split; [done|]; split; [done|]);
    rewrite ?decide_False, ?decide_True by done; try (eexists; split; [reflexivity|by split_and!]).
  by eexists.
Qed.
