(* ===== verification/ModifyOutcome.v ===== *)
(** * What a modification leaves behind

    The outcome of the modification handler when nobody interferes: for every
    verdict of the broker the answer, the two rows, the record and what becomes
    of the reservation of the additional shares; and what is left of a
    replacement that the broker accepted and the database did not. *)

From S2P Require Import Prelude PyDecimal PyText OrderStatus OrderSchema GatewayDb OrderCas FillOps RedisClient ReconHelpers ReconMods.
From S2P Require Import Access Gateway PriceFeed SliceExec OrderGates OrderSubmit OrderOutcome OrderModify ModifySafety.
From S2P Require KillSwitch Breaker Reservation FatFinger Recovery.
Open Scope Z_scope.

(** The handler went from [s] to [s'] and changed at most the database and the reservations. *)
Record moved (s s' : gw) (D : db) (R : Reservation.rstore) : Prop := {
  moved_db : sh_db (g_shared s') = D;
  moved_reserved : sh_reserved (g_shared s') = R;
  moved_recovery : sh_recovery (g_shared s') = sh_recovery (g_shared s);
  moved_fat_finger : sh_fat_finger (g_shared s') = sh_fat_finger (g_shared s);
  moved_kill : sh_kill (g_shared s') = sh_kill (g_shared s);
  moved_breaker : sh_breaker (g_shared s') = sh_breaker (g_shared s);
  moved_sent : g_sent s' = g_sent s
}.

Abbreviation stayed s s' := (moved s s' (sh_db (g_shared s)) (sh_reserved (g_shared s))).

Lemma stayed_refl s : stayed s s.
Proof. by split. Qed.

Lemma stayed_tick s s' : stayed s s' -> stayed s (tick s').
Proof. by intros []. Qed.

Lemma moved_trans s s1 s2 D1 R1 D2 R2 : moved s s1 D1 R1 -> moved s1 s2 D2 R2 -> moved s s2 D2 R2.
Proof. intros [] []. split; try done; congruence. Qed.

Lemma stayed_trans s s1 s2 : stayed s s1 -> stayed s1 s2 -> stayed s s2.
Proof. intros [] []. split; congruence. Qed.

(** The record of the modification, as the lock writes it. *)
Definition pending_record (now : Z) (oid new_id : string) (seq : Z) (order : order_row) (payload : OrderModifyRequest)
    (user : string) : modification_row := {|
  mod_original_client_order_id := oid; mod_new_client_order_id := new_id;
  mod_original_broker_order_id := o_broker_order_id (o_exec order); mod_new_broker_order_id := None; mod_seq := seq;
  mod_idempotency_key := om_idempotency_key payload; mod_status := "pending"; mod_error_message := None;
  mod_modified_at := now; mod_modified_by := user; mod_reason := om_reason payload;
  mod_changes := _compute_modification_changes order payload |}.

(** The next sequence number of [oid]. *)
Definition next_seq (oid : string) (D : db) : Z :=
  match modification_seqs oid D with [] => 1 | x :: l => foldr Z.max x l + 1 end.

Lemma foldr_max_ge x l y : y ∈ x :: l -> y <= foldr Z.max x l.
Proof.
  intros H. apply elem_of_cons in H as [->|H].
  - induction l as [|z l IH]; simpl; lia.
  - induction l as [|z l IH]; [by apply elem_of_nil in H|]. apply elem_of_cons in H as [->|H]; simpl; [lia|].
    specialize (IH H). lia.
Qed.

(** No modification of [oid] has the next sequence number. *)
Lemma next_seq_fresh oid D mid m : db_modifications D !! mid = Some m -> mod_original_client_order_id m = oid ->
  mod_seq m < next_seq oid D.
Proof.
  intros Hm Ho. assert (Hin : mod_seq m ∈ modification_seqs oid D).
  { unfold modification_seqs. apply list_elem_of_fmap. exists (mid, m). split; [done|].
    apply elem_of_map_to_list, map_lookup_filter_Some. by split. }
  unfold next_seq. destruct (modification_seqs oid D) as [|x l]; [by apply elem_of_nil in Hin|].
  pose proof (foldr_max_ge x l _ Hin). lia.
Qed.

Lemma key_unused oid key D mid m :
  fst (get_modification_by_idempotency_key oid key D) = Ok None -> db_modifications D !! mid = Some m ->
  mod_original_client_order_id m = oid -> mod_idempotency_key m <> key.
Proof.
  unfold get_modification_by_idempotency_key, reads. cbn [fst]. intros [= Hh] Hm Ho Hk.
  assert (Hin : (mid, m) ∈ map_to_list (filter (fun p : string * modification_row =>
    mod_original_client_order_id p.2 = oid /\ mod_idempotency_key p.2 = key) (db_modifications D))).
  { apply elem_of_map_to_list, map_lookup_filter_Some. by split. }
  destruct (map_to_list _); [by apply elem_of_nil in Hin|done].
Qed.

(** The insertion of the record succeeds. *)
Lemma insert_pending_run now mid oid order payload user D :
  is_Some (db_orders D !! oid) -> db_modifications D !! mid = None ->
  fst (get_modification_by_idempotency_key oid (om_idempotency_key payload) D) = Ok None ->
  let seq := next_seq oid D in let new_id := _generate_replacement_order_id oid seq in
  insert_pending_modification now mid oid new_id (o_broker_order_id (o_exec order)) seq (om_idempotency_key payload) "pending"
    user (om_reason payload) (_compute_modification_changes order payload) D
  = (Ok mid, set_modifications (insert mid (pending_record now oid new_id seq order payload user)) D).
Proof.
  intros Ho Hm Hk seq new_id. unfold insert_pending_modification. run_monad.
  assert (E : bool_decide (is_Some (db_modifications D !! mid)) || negb (bool_decide (is_Some (db_orders D !! oid)))
     || bool_decide (map_Exists (fun _ m => mod_original_client_order_id m = oid /\
          (mod_seq m = seq \/ mod_idempotency_key m = om_idempotency_key payload)) (db_modifications D)) = false).
  { rewrite (bool_decide_false (is_Some (_ !! mid))) by (rewrite Hm; by intros [? ?]). rewrite (bool_decide_true (is_Some _)) by done.
    simpl. apply bool_decide_eq_false_2. intros (j & m & Hj & H1 & [H2|H2]).
    - pose proof (next_seq_fresh _ _ _ _ Hj H1). unfold seq in H2. lia.
    - by destruct (key_unused _ _ _ _ _ Hk Hj H1). }
  rewrite E. done.
Qed.

(** ** A modification that passes every check *)

Definition counted (order : order_row) (s : gw) : Z := counted_position (o_symbol (o_core order)) (g_shared s).

(** The additional shares, as the reservation counts them. *)
Definition added (order : order_row) (q : Z) : Z := Reservation.reserve_delta (o_side (o_core order)) (q - o_qty (o_core order)).

Record modifiable (app : gateway) (auth : AuthContext) (mid oid : string) (payload : OrderModifyRequest) (order : order_row)
    (broker_order_id : string) (g : OrderRequest) (s : gw) : Prop := {
  md_row : db_orders (sh_db (g_shared s)) !! oid = Some order;
  md_access : _ensure_strategy_access (o_strategy_id (o_core order)) auth = Ok tt;
  md_key : fst (get_modification_by_idempotency_key oid (om_idempotency_key payload) (sh_db (g_shared s))) = Ok None;
  md_components : Recovery.needs_recovery (sh_recovery (g_shared s)) = false;
  md_kill_switch : fst (KillSwitch.is_engaged (sh_kill (g_shared s))) = Ok false;
  md_breaker : fst (Breaker.is_tripped (sh_breaker (g_shared s))) = Ok false;
  md_eligible : _check_order_modification_eligibility order = Ok tt;
  md_broker_id : o_broker_order_id (o_exec order) = Some broker_order_id;
  md_fields : _validate_modify_fields order payload = Ok tt;
  md_filled : below_filled order payload = false;
  md_changes : no_changes (_compute_modification_changes order payload) = false;
  md_limit : forall q, increase order payload = Some q ->
    Z.abs (final_position order (position_of (o_symbol (o_core order)) (g_shared s)) q) <= cfg_max_position_size app;
  md_reserve : forall q, increase order payload = Some q ->
    lasting (o_symbol (o_core order)) (g_shared s) /\ Z.abs (counted order s + added order q) <= cfg_max_position_size app;
  md_request : forall now, _build_replacement_request now order payload = Ok g;
  md_symbol : req_symbol g = o_symbol (o_core order);
  md_checks : exposure_increasing order payload = true -> checks_pass app g (g_shared s);
  md_alpaca : has_alpaca app = true;
  md_new_id : db_modifications (sh_db (g_shared s)) !! mid = None
}.

Lemma modifiable_stayed app auth mid oid payload order b g s s' :
  modifiable app auth mid oid payload order b g s -> stayed s s' -> modifiable app auth mid oid payload order b g s'.
Proof.
  intros [] [M1 M2 M3 M4 M5 M6 M7].
  split; unfold counted, counted_position, lasting, position_of, checks_pass in *; rewrite ?M1, ?M2, ?M3, ?M4, ?M5, ?M6; done.
Qed.

Section steps.
Context (env : environment) (app : gateway) (auth : AuthContext) (json_loads : string -> option price_data)
  (token mid oid : string) (payload : OrderModifyRequest) (order : order_row) (b : string) (g : OrderRequest).
Hypothesis Hq : quiet env.

Lemma modify_gates_pass s : modifiable app auth mid oid payload order b g s ->
  exists s', _check_modify_safety_gates env order payload s = (Ok tt, s') /\ stayed s s'.
Proof.
  intros H. destruct (no_recovery_needed _ (md_components _ _ _ _ _ _ _ _ _ H)) as (H1 & H2 & _ & H4 & H5 & _).
  unfold _check_modify_safety_gates. do 3 rewrite M_bind_run, recovery_flag_run by done. rewrite ?shared_tick, H1, H4.
  cbn [orb negb]. rewrite M_bind_run, recovery_flag_run by done. rewrite ?shared_tick, H2, H5. cbn [orb negb].
  rewrite M_bind_run. unfold or_else_do. rewrite M_bind_run, (call_read env _ _ _ Hq in_kill_read), ?shared_tick,
    (md_kill_switch _ _ _ _ _ _ _ _ _ H), (call_read env _ _ _ Hq in_breaker_read), ?shared_tick,
    (md_breaker _ _ _ _ _ _ _ _ _ H).
  cbn [negb]. eexists. split; [reflexivity|]. repeat apply stayed_tick. apply stayed_refl.
Qed.

Lemma modify_limits_pass s : modifiable app auth mid oid payload order b g s ->
  exists s', _validate_modify_position_limits env app order payload s = (Ok tt, s') /\ stayed s s'.
Proof.
  intros H. unfold _validate_modify_position_limits. pose proof (md_limit _ _ _ _ _ _ _ _ _ H) as Hl.
  destruct (increase order payload) as [q|]; [|exists s; split; [done|apply stayed_refl]].
  specialize (Hl q eq_refl). rewrite M_bind_run. unfold get_position_by_symbol.
  rewrite (call_read env _ _ _ Hq (fun sh => in_db_read _ sh)). cbv zeta. unfold final_position, position_of in Hl.
  destruct (Z.ltb_spec (cfg_max_position_size app) (Z.abs (match db_positions (sh_db (g_shared s)) !! o_symbol (o_core order) with
    | Some p => dint (p_qty p) | None => 0 end + signed order (q - dint (default dzero (o_filled_qty (o_exec order)))))));
    [lia|]. eexists. split; [reflexivity|]. apply stayed_tick, stayed_refl.
Qed.

Lemma modify_checks_pass s : modifiable app auth mid oid payload order b g s ->
  exists s', _validate_modify_fat_finger env app json_loads order payload s = (Ok tt, s') /\ stayed s s'.
Proof.
  intros H. unfold _validate_modify_fat_finger. pose proof (md_checks _ _ _ _ _ _ _ _ _ H) as Hc.
  destruct (exposure_increasing order payload); cbn [negb]; [|exists s; split; [done|apply stayed_refl]].
  destruct (Hc eq_refl) as (Ha & Hn & res & Hv & Hb). rewrite M_bind_run. unfold read_clock. rewrite M_bind_run. unfold lift at 1.
  rewrite (md_request _ _ _ _ _ _ _ _ _ H), M_bind_run. unfold local, reads. destruct Hq as [_ Ho]. rewrite Ho. cbv zeta.
  fold (tick s). rewrite <- (md_symbol _ _ _ _ _ _ _ _ _ H).
  rewrite M_bind_run, (context_run env app json_loads g _ (tick s) Ha Hn), M_bind_run. cbn [fst snd]. unfold lift. rewrite Hv, Hb.
  eexists. split; [reflexivity|]. apply stayed_tick, stayed_refl.
Qed.

Lemma lock_run s : modifiable app auth mid oid payload order b g s ->
  let D := sh_db (g_shared s) in let seq := next_seq oid D in let new_id := _generate_replacement_order_id oid seq in
  let user := _extract_user_id_from_auth (auth_user auth) in
  exists now s', _acquire_modification_lock env mid oid order payload (_compute_modification_changes order payload) user s
    = (Ok (inr (mid, new_id)), s') /\
    moved s s' (set_modifications (insert mid (pending_record now oid new_id seq order payload user)) D) (sh_reserved (g_shared s)).
Proof.
  intros H D seq new_id user. unfold _acquire_modification_lock. rewrite M_bind_run. pose proof (md_key _ _ _ _ _ _ _ _ _ H) as Hk.
  unfold get_modification_by_idempotency_key in *. rewrite (call_read env _ _ _ Hq (fun sh => in_db_read _ sh)).
  unfold reads in Hk. cbn [fst] in Hk. injection Hk as Hk. rewrite Hk, M_bind_run. unfold lift. cbn [_handle_idempotent_modification_response].
  rewrite M_bind_run. unfold next_seq_locked, try_except, get_next_modification_seq.
  rewrite (call_read env _ _ _ Hq (fun sh => in_db_read _ sh)), shared_tick. fold D. fold (next_seq oid D). fold seq new_id.
  rewrite M_bind_run, call_quiet by done. unfold in_db. rewrite zoom_run. rewrite ?shared_tick. fold D.
  unfold transaction. set (now := clock env _).
  assert (E : insert_pending_modification now mid oid new_id (o_broker_order_id (o_exec order)) seq (om_idempotency_key payload)
    "pending" user (om_reason payload) (_compute_modification_changes order payload) D
    = (Ok mid, set_modifications (insert mid (pending_record now oid new_id seq order payload user)) D)).
  { apply insert_pending_run; [by exists order; apply (md_row _ _ _ _ _ _ _ _ _ H)|apply (md_new_id _ _ _ _ _ _ _ _ _ H)|].
    unfold get_modification_by_idempotency_key, reads. cbn [fst]. exact (f_equal Ok Hk). }
  rewrite E. cbn [fst snd]. exists now. eexists. split; [reflexivity|]. by split.
Qed.
(** The reservation while the broker is asked: the additional shares are held, if there are any. *)
Definition holding_added (t0 : Z) (s : gw) : Reservation.rstore :=
  match increase order payload with
  | None => sh_reserved (g_shared s)
  | Some q => Reservation.reserved_store t0 token (o_symbol (o_core order)) (added order q) Reservation.DEFAULT_RESERVATION_TTL
                (counted order s + added order q) (sh_reserved (g_shared s))
  end.

Definition token_held : option string := match increase order payload with None => None | Some _ => Some token end.

Lemma reserve_delta_run s :
  Recovery.needs_recovery (sh_recovery (g_shared s)) = false ->
  (forall q, increase order payload = Some q ->
    lasting (o_symbol (o_core order)) (g_shared s) /\ Z.abs (counted order s + added order q) <= cfg_max_position_size app) ->
  exists i s', _reserve_modify_delta env app token order payload s = (Ok token_held, s') /\
    moved s s' (sh_db (g_shared s)) (holding_added (clock env i / second_us) s).
Proof.
  intros Hr Hl. destruct (no_recovery_needed _ Hr) as (_ & _ & H3 & _ & _ & H6).
  unfold _reserve_modify_delta, holding_added, token_held. destruct (increase order payload) as [q|];
    [|exists 0%nat, s; split; [done|apply stayed_refl]].
  destruct (Hl q eq_refl) as [Hla Hb]. do 2 rewrite M_bind_run, recovery_flag_run by done. rewrite ?shared_tick, H3, H6. cbn [orb negb].
  rewrite M_bind_run. unfold try_except, get_position_by_symbol.
  rewrite (call_read env _ _ _ Hq (fun sh => in_db_read _ sh)), ?shared_tick, M_bind_run.
  destruct (reserve_call_run env app Hq (o_symbol (o_core order)) (o_side (o_core order)) (q - o_qty (o_core order)) token
    (tick (tick (tick s))) Hla Hb) as (r & E & Hs & Ht).
  rewrite ?shared_tick in E. rewrite E, Hs, Ht. eexists _, _. split; [reflexivity|]. by split.
Qed.

(** The reservations after the broker's answer: of the additional shares either [x] of them counts on, or none were asked for. *)
Definition share_change (x : Z -> Z) (R R' : Reservation.rstore) : Prop :=
  match increase order payload with
  | None => R' = R
  | Some q => settled (o_symbol (o_core order)) token (x q) R R'
  end.

Lemma when_reserved_run (f : string -> M gw unit) (x : Z -> Z) s R :
  Recovery.needs_recovery (sh_recovery (g_shared s)) = false ->
  (forall q, increase order payload = Some q -> forall s1, stayed s s1 -> exists s', f token s1 = (Ok tt, s') /\
     moved s s' (sh_db (g_shared s)) (sh_reserved (g_shared s')) /\
     settled (o_symbol (o_core order)) token (x q) R (sh_reserved (g_shared s'))) ->
  (increase order payload = None -> sh_reserved (g_shared s) = R) ->
  exists s', when_reserved env token_held f s = (Ok tt, s') /\
    moved s s' (sh_db (g_shared s)) (sh_reserved (g_shared s')) /\ share_change x R (sh_reserved (g_shared s')).
Proof.
  intros Hr Hf Hn. destruct (no_recovery_needed _ Hr) as (_ & _ & _ & _ & _ & H6).
  unfold when_reserved, token_held, share_change. destruct (increase order payload) as [q|].
  - rewrite M_bind_run, recovery_flag_run by done. rewrite H6. apply (Hf q eq_refl). apply stayed_tick, stayed_refl.
  - exists s. split; [done|]. split; [apply stayed_refl|by apply Hn].
Qed.
Hypothesis Hp : prompt env.

Lemma release_added (s0 s : gw) i : sh_reserved (g_shared s) = holding_added (clock env i / second_us) s0 ->
  forall q, increase order payload = Some q -> forall s1, stayed s s1 ->
  exists s', release env (o_symbol (o_core order)) token s1 = (Ok tt, s') /\
    moved s s' (sh_db (g_shared s)) (sh_reserved (g_shared s')) /\
    settled (o_symbol (o_core order)) token (counted order s0) (sh_reserved (g_shared s0)) (sh_reserved (g_shared s')).
Proof.
  intros Hr q Hi s1 []. rewrite (release_run env Hq). eexists. split; [reflexivity|]. split; [by split|].
  simpl. rewrite moved_reserved0, Hr. unfold holding_added. rewrite Hi. apply release_settles, Hp.
Qed.

Lemma confirm_added (s0 s : gw) i : sh_reserved (g_shared s) = holding_added (clock env i / second_us) s0 ->
  forall q, increase order payload = Some q -> forall s1, stayed s s1 ->
  exists s', confirm env (o_symbol (o_core order)) token s1 = (Ok tt, s') /\
    moved s s' (sh_db (g_shared s)) (sh_reserved (g_shared s')) /\
    settled (o_symbol (o_core order)) token (counted order s0 + added order q) (sh_reserved (g_shared s0)) (sh_reserved (g_shared s')).
Proof.
  intros Hr q Hi s1 []. rewrite (confirm_run env Hq). eexists. split; [reflexivity|]. split; [by split|].
  simpl. rewrite moved_reserved0, Hr. unfold holding_added. rewrite Hi. apply confirm_settles, Hp.
Qed.

Lemma mark_modification_run st err s : exists now s', mark_modification env mid st err s = (Ok tt, s') /\
  moved s s' (set_modifications (alter (fun m => set_mod_status now st (Some err) (mod_new_broker_order_id m)
    (mod_new_client_order_id m) m) mid) (sh_db (g_shared s))) (sh_reserved (g_shared s)).
Proof.
  unfold mark_modification. rewrite call_quiet by done. unfold in_db. rewrite zoom_run. exists (clock env (g_calls s)).
  eexists. split; [reflexivity|]. by split.
Qed.

Definition replace_request (new_id : string) : broker_request := Replace b {|
  rp_qty := om_qty payload; rp_limit_price := om_limit_price payload; rp_stop_price := om_stop_price payload;
  rp_time_in_force := replace_tif (om_time_in_force payload); rp_client_order_id := Some new_id |}.

(** What the broker makes of the replacement. *)
Abbreviation answer new_id s := (retried env replace_reply (replace_request new_id) (g_sent s) RETRIES).

Lemma call_replace_run (s0 s : gw) i new_id :
  sh_reserved (g_shared s) = holding_added (clock env i / second_us) s0 ->
  Recovery.needs_recovery (sh_recovery (g_shared s)) = false ->
  exists s', (exists n, (n <= 3)%nat /\ g_sent s' = g_sent s ++ replicate n (replace_request new_id)) /\
  match answer new_id s with
  | Ok o =>
      _call_broker_replace env order b payload new_id mid token_held s
        = (Ok (od_id o, or_text (od_client_order_id o) new_id, od_status o), s') /\
      sh_db (g_shared s') = sh_db (g_shared s) /\
      share_change (fun q => counted order s0 + added order q) (sh_reserved (g_shared s0)) (sh_reserved (g_shared s'))
  | Raise e =>
      match replace_error_status e with
      | Some code =>
          _call_broker_replace env order b payload new_id mid token_held s = (Raise (HTTPException code (str_exn e)), s') /\
          (exists now, sh_db (g_shared s') = set_modifications (alter (fun m => set_mod_status now "failed" (Some (str_exn e))
             (mod_new_broker_order_id m) (mod_new_client_order_id m) m) mid) (sh_db (g_shared s))) /\
          share_change (fun _ => counted order s0) (sh_reserved (g_shared s0)) (sh_reserved (g_shared s'))
      | None => _call_broker_replace env order b payload new_id mid token_held s = (Raise e, s') /\
          sh_db (g_shared s') = sh_db (g_shared s)
      end
  end.
Proof.
  intros Hres Hrec. unfold _call_broker_replace, Gateway.replace_order. fold (replace_request new_id).
  destruct (retry_run env replace_reply (replace_request new_id) RETRIES Hq s) as (s1 & E & (H1 & H2 & n & Hn & H3) & _).
  assert (Hnone : increase order payload = None -> sh_reserved (g_shared s1) = sh_reserved (g_shared s0)).
  { intros Hi. rewrite H1, Hres. unfold holding_added. by rewrite Hi. }
  rewrite M_bind_run. destruct (answer new_id s) as [o|e].
  - rewrite (try_ok _ _ _ _ _ E), M_bind_run.
    destruct (when_reserved_run (confirm env (o_symbol (o_core order))) (fun q => counted order s0 + added order q) s1
      (sh_reserved (g_shared s0))) as (s2 & E2 & [M1 M2 M3 M4 _ _ M5] & Hch); [by rewrite H1|apply (confirm_added s0 s1 i); by rewrite H1|exact Hnone|].
    rewrite E2. exists s2. split; [exists n; split; [exact Hn|by rewrite M5]|]. split; [done|]. split; [by rewrite M1, H1|exact Hch].
  - destruct (replace_error_status e) as [code|] eqn:Ec.
    + erewrite (try_raise _ _ _ _ _ _ E) by (unfold replace_failed; rewrite Ec; reflexivity). rewrite M_bind_run.
      destruct (when_reserved_run (release env (o_symbol (o_core order))) (fun _ => counted order s0) s1
        (sh_reserved (g_shared s0))) as (s2 & E2 & [M1 M2 M3 M4 _ _ M5] & Hch); [by rewrite H1|apply (release_added s0 s1 i); by rewrite H1|exact Hnone|].
      rewrite E2, M_bind_run. destruct (mark_modification_run "failed" (str_exn e) s2) as (now & s3 & E3 & [N1 N2 N3 N4 _ _ N5]).
      rewrite E3. exists s3. split; [exists n; split; [exact Hn|by rewrite N5, M5]|]. split; [done|].
      split; [exists now; by rewrite N1, M1, H1|by rewrite N2].
    + exists s1. split; [by exists n|]. split; [|by rewrite H1]. unfold try_except. rewrite E. unfold replace_failed. by rewrite Ec.
Qed.

(** The rows and the record after the broker took the replacement as [bid], under the client identifier [cid]. *)
Definition completed (now : Z) (m : modification_row) (cid bid st : string) (D : db) : db :=
  replaced_rows now oid cid order g st (Some bid)
    (set_modifications (insert mid (set_mod_status now "completed" None (Some bid) cid m)) D).

Lemma set_modifications_twice f h D : set_modifications f (set_modifications h D) = set_modifications (fun m => f (h m)) D.
Proof. done. Qed.

Lemma alter_pending f m D :
  set_modifications (alter f mid) (set_modifications (insert mid m) D) = set_modifications (insert mid (f m)) D.
Proof. rewrite set_modifications_twice. unfold set_modifications. by rewrite alter_insert_eq. Qed.

Lemma finalize_run t0 s m D o cid : db_wf D -> db_orders D !! oid = Some order -> request_wf t0 g ->
  sh_db (g_shared s) = set_modifications (insert mid m) D -> db_orders D !! cid = None ->
  broker_id_free (db_orders D) (Some (od_id o)) ->
  exists now s', _finalize_modification_in_db env oid order mid (od_id o) cid (od_status o) g s = (Ok tt, s') /\
    moved s s' (completed now m cid (od_id o) (or_text (od_status o) "pending_new") D) (sh_reserved (g_shared s)).
Proof.
  intros Hwf Ho Hg HD Hc Hf. unfold _finalize_modification_in_db, try_except. rewrite call_quiet by done.
  unfold in_db. rewrite zoom_run. set (now := clock env (g_calls s)). rewrite HD.
  set (D1 := set_modifications (insert mid (set_mod_status now "completed" None (Some (od_id o)) cid m)) D).
  destruct (replace_rows_run now t0 oid cid order g (or_text (od_status o) "pending_new") (Some (od_id o)) D1
    Hwf Ho Hg Hc Hf) as (D2 & E2 & E3 & _).
  assert (E : persist_replacement now oid order mid (od_id o) cid (od_status o) g (set_modifications (insert mid m) D)
    = (Ok tt, completed now m cid (od_id o) (or_text (od_status o) "pending_new") D)).
  { assert (Ef : finalize_modification now mid (Some (od_id o)) "completed" (Some cid) (set_modifications (insert mid m) D)
      = (Ok tt, D1)) by (unfold finalize_modification, modify; by rewrite alter_pending).
    unfold persist_replacement, transaction, mbind, M_bind. rewrite Ef, E2, E3. done. }
  rewrite E. exists now. eexists. split; [reflexivity|]. by split.
Qed.

(** ** The outcome *)

Let new_id (s : gw) : string := _generate_replacement_order_id oid (next_seq oid (sh_db (g_shared s))).
Let the_record (now : Z) (s : gw) : modification_row :=
  pending_record now oid (new_id s) (next_seq oid (sh_db (g_shared s))) order payload (_extract_user_id_from_auth (auth_user auth)).

Lemma replace_recorded_run s0 s t : modifiable app auth mid oid payload order b g s0 -> db_wf (sh_db (g_shared s0)) ->
  moved s0 s (set_modifications (insert mid (the_record t s0)) (sh_db (g_shared s0))) (sh_reserved (g_shared s0)) ->
  (forall o, answer (new_id s0) s0 = Ok o ->
     db_orders (sh_db (g_shared s0)) !! or_text (od_client_order_id o) (new_id s0) = None /\
     broker_id_free (db_orders (sh_db (g_shared s0))) (Some (od_id o))) ->
  exists r s', replace_recorded env app token oid order b payload (_compute_modification_changes order payload) mid (new_id s0) s
      = (r, s') /\
  (exists n, (n <= 3)%nat /\ g_sent s' = g_sent s0 ++ replicate n (replace_request (new_id s0))) /\
  match answer (new_id s0) s0 with
  | Ok o =>
      let cid := or_text (od_client_order_id o) (new_id s0) in
      (exists at_, r = Ok {| mr_http_status := 200; mr_original_client_order_id := oid; mr_new_client_order_id := cid;
          mr_modification_id := mid; mr_modified_at := at_; mr_status := "completed";
          mr_changes := _compute_modification_changes order payload |}) /\
      (exists now, sh_db (g_shared s') = completed now (the_record t s0) cid (od_id o) (or_text (od_status o) "pending_new")
         (sh_db (g_shared s0))) /\
      share_change (fun q => counted order s0 + added order q) (sh_reserved (g_shared s0)) (sh_reserved (g_shared s'))
  | Raise e =>
      match replace_error_status e with
      | Some code =>
          r = Raise (HTTPException code (str_exn e)) /\
          (exists now, sh_db (g_shared s') = set_modifications (insert mid (set_mod_status now "failed" (Some (str_exn e)) None
             (new_id s0) (the_record t s0))) (sh_db (g_shared s0))) /\
          share_change (fun _ => counted order s0) (sh_reserved (g_shared s0)) (sh_reserved (g_shared s'))
      | None => r = Raise e /\
          sh_db (g_shared s') = set_modifications (insert mid (the_record t s0)) (sh_db (g_shared s0))
      end
  end.
Proof.
  intros H Hwf [M1 M2 M3 M4 _ _ M5] Hans. set (D := sh_db (g_shared s0)) in *.
  assert (Hg : request_wf 0 g) by (pose proof (md_request _ _ _ _ _ _ _ _ _ H 0) as Hr; by apply mk_order_request_ok in Hr as [-> ?]).
  pose proof (md_row _ _ _ _ _ _ _ _ _ H) as Ho. pose proof (md_components _ _ _ _ _ _ _ _ _ H) as Hrec.
  unfold replace_recorded. rewrite (md_alpaca _ _ _ _ _ _ _ _ _ H). cbn [negb]. rewrite M_bind_run.
  assert (Hres : forall q, increase order payload = Some q -> lasting (o_symbol (o_core order)) (g_shared s) /\
     counted order s = counted order s0 /\ Z.abs (counted order s + added order q) <= cfg_max_position_size app).
  { intros q Hi. destruct (md_reserve _ _ _ _ _ _ _ _ _ H q Hi) as [H1 H2]. unfold lasting, counted, counted_position in *.
    rewrite M1, M2. by split_and!. }
  destruct (reserve_delta_run s) as (i & s1 & E1 & [A1 A2 A3 A4 _ _ A5]);
    [by rewrite M3|intros q Hi; destruct (Hres q Hi) as (? & _ & ?); by split|].
  rewrite (try_ok _ _ _ _ _ E1), M_bind_run. unfold read_clock. rewrite M_bind_run. unfold lift at 1.
  rewrite (md_request _ _ _ _ _ _ _ _ _ H), M_bind_run.
  destruct (call_replace_run s0 s1 i (new_id s0)) as (s3 & (n & Hn & Hsent) & Hc).
  { rewrite A2. unfold holding_added. destruct (increase order payload) as [q|] eqn:Ei; [|done].
    destruct (Hres q eq_refl) as (_ & -> & _). by rewrite M2. }
  { by rewrite A3, M3. }
  assert (Hsame : g_sent s1 = g_sent s0) by congruence.
  assert (HD2 : sh_db (g_shared s1) = set_modifications (insert mid (the_record t s0)) D) by congruence.
  rewrite Hsame in Hsent, Hc. rewrite HD2 in Hc.
  destruct (answer (new_id s0) s0) as [o|e] eqn:Ea.
  - destruct Hc as (Ec & HD & Hch). rewrite Ec. destruct (Hans o eq_refl) as [Hcid Hfree].
    destruct (finalize_run 0 s3 (the_record t s0) D o (or_text (od_client_order_id o) (new_id s0)) Hwf Ho Hg HD Hcid Hfree)
      as (now & s4 & E4 & [N1 N2 N3 N4 _ _ N5]).
    rewrite M_bind_run, E4, M_bind_run. eexists _, _. split; [reflexivity|]. cbv zeta.
    split; [exists n; split; [exact Hn|by rewrite N5]|].
    split; [by eexists|]. split; [by exists now|by rewrite N2].
  - destruct (replace_error_status e) as [code|].
    + destruct Hc as (Ec & (now & HD) & Hch). rewrite Ec. eexists _, _. split; [reflexivity|]. split; [by exists n|].
      split; [done|]. split; [|exact Hch]. exists now. by rewrite HD, alter_pending.
    + destruct Hc as (Ec & HD). rewrite Ec. eexists _, _. split; [reflexivity|]. split; [by exists n|]. by split.
Qed.
End steps.

(** What becomes of the order, the record and the additional shares when the broker took the replacement [o]. *)
Record replacement_done (token mid oid : string) (payload : OrderModifyRequest) (order : order_row)
    (g : OrderRequest) (m : modification_row) (o : order_dict) (s s' : gw) (now : Z) : Prop := {
  rd_orders : db_orders (sh_db (g_shared s')) =
    <[or_text (od_client_order_id o) (mod_new_client_order_id m) :=
        persisted_row now oid order g (or_text (od_status o) "pending_new") (Some (od_id o))]>
      (<[oid := set_exec now replaced_exec order]> (db_orders (sh_db (g_shared s))));
  rd_record : db_modifications (sh_db (g_shared s')) =
    <[mid := set_mod_status now "completed" None (Some (od_id o)) (or_text (od_client_order_id o) (mod_new_client_order_id m)) m]>
      (db_modifications (sh_db (g_shared s)));
  rd_shares : share_change token payload order (fun q => counted order s + added order q)
    (sh_reserved (g_shared s)) (sh_reserved (g_shared s'))
}.

(** What is left when the broker refused: the orders as they were, a record that says why, and none of the
    additional shares. *)
Record replacement_refused (token mid : string) (payload : OrderModifyRequest) (order : order_row)
    (m : modification_row) (e : exn) (s s' : gw) (now : Z) : Prop := {
  rr_orders : db_orders (sh_db (g_shared s')) = db_orders (sh_db (g_shared s));
  rr_record : db_modifications (sh_db (g_shared s')) =
    <[mid := set_mod_status now "failed" (Some (str_exn e)) None (mod_new_client_order_id m) m]>
      (db_modifications (sh_db (g_shared s)));
  rr_shares : share_change token payload order (fun _ => counted order s)
    (sh_reserved (g_shared s)) (sh_reserved (g_shared s'))
}.


(** ** A replacement that is not persisted *)

(** When the database fails after the broker took the replacement, the original order stays as it is, without its
    replacement, and the caller is told that reconciliation is required; but the record is marked
    submitted_unconfirmed, and the recovery, which reads pending records only, leaves it so for ever. *)
Theorem unpersisted_replacement_is_never_reconciled env oid order mid bid cid st g e m s :
  (forall n sh, others env n sh = sh) -> fates env (g_calls s) = Down e -> fates env (S (g_calls s)) = Up ->
  db_modifications (sh_db (g_shared s)) !! mid = Some m ->
  exists s' m', _finalize_modification_in_db env oid order mid bid cid st g s = (Raise not_persisted, s') /\
    db_orders (sh_db (g_shared s')) = db_orders (sh_db (g_shared s)) /\
    db_modifications (sh_db (g_shared s')) !! mid = Some m' /\ mod_status m' = "submitted_unconfirmed" /\
    forall br now D, db_modifications D !! mid = Some m' ->
      db_modifications (snd (reconcile_pending_modifications br now D)) !! mid = Some m'.
Proof.
  intros Ho Hf Hu Hm. unfold _finalize_modification_in_db.
  set (s1 := after_call (g_shared s) s). set (now := clock env (S (g_calls s))).
  erewrite (try_raise _ _ _ e); [| |reflexivity].
  2:{ unfold call. rewrite Hf, Ho. reflexivity. }
  set (m' := set_mod_status now "submitted_unconfirmed" (Some ("db_finalize_failed: " +:+ str_exn e))
    (mod_new_broker_order_id m) (mod_new_client_order_id m) m).
  rewrite M_bind_run. unfold try_except, mark_modification, call. cbn [after_call g_calls g_shared]. rewrite Hu, Ho.
  unfold in_db. rewrite zoom_run. cbn [fst snd update_modification_status modify].
  eexists _, m'. split; [reflexivity|]. split; [done|]. split; [|split; [done|]].
  - simpl. by rewrite lookup_alter_eq, Hm.
  - intros br t D HD. apply fresh_modification_kept; [exact HD|]. by left.
Qed.
