(* ===== verification/ModifyExamples.v ===== *)
(** * A gateway that takes modifications

    The gateway of the submissions, with an order at the broker, on which the
    theorems about the modification handler are applied. *)

From S2P Require Import Prelude PyDecimal PyText OrderStatus OrderSchema OrderId GatewayDb OrderCas RedisClient ReconMods Access.
From S2P Require Import Gateway PriceFeed SliceExec OrderGates OrderSubmit OrderOutcome OrderExamples.
From S2P Require Import OrderModify ModifyRecords ModifySafety ModifyOutcome.
From S2P Require KillSwitch Breaker Reservation FatFinger Recovery.
Open Scope Z_scope.

(** Ten shares of AAPL, taken by the broker as "b0". *)
Definition ex_working : order_row := accepted_row "b0" 2 (new_row ex_app (ex_new "o1") 1).

Definition ex_modify (qty : Z) : OrderModifyRequest := {|
  om_idempotency_key := "6b1f5c52-9f0e-4a43-8f5a-0d3a1f6f2c11"; om_qty := Some qty; om_limit_price := None;
  om_stop_price := None; om_time_in_force := None; om_reason := Some "resize" |}.

Definition ex_user : AuthContext := {|
  auth_user := Some {| user_id := "trader"; user_strategies := Some [Some " Alpha "] |}; auth_type := "session";
  is_authenticated := true |}.

Definition ex_at_broker (row : order_row) (engaged : bool) : gw := {|
  g_shared := with_row "o1" row (ex_sh engaged None); g_jobs := []; g_sent := []; g_calls := 0 |}.

Definition ex_replaces (h : list broker_request) : broker_reply :=
  OrderObject {| od_id := "b2"; od_client_order_id := None; od_status := Some "new" |}.

Definition ex_bigger : OrderRequest := {|
  req_symbol := "AAPL"; req_side := "buy"; req_qty := 25; req_order_type := "market"; req_limit_price := None;
  req_stop_price := None; req_time_in_force := "day"; req_execution_style := "instant";
  req_twap_duration_minutes := None; req_twap_interval_seconds := None; req_start_time := None;
  req_client_order_id := None |}.

Lemma ex_modify_ok : modify_request_ok (ex_modify 25) = true.
Proof. vm_compute. reflexivity. Qed.

Lemma recovery_rebuilds_replacement_witness :
  exists g', replacement_request 5 ex_working (_compute_modification_changes ex_working (ex_modify 25)) = Ok g' /\
    same_request g' ex_bigger.
Proof. apply (recovery_rebuilds_replacement 5 ex_working (ex_modify 25) ex_bigger). reflexivity. Defined.

Lemma ex_modifiable : modifiable ex_app ex_user "m1" "o1" (ex_modify 25) ex_working "b0" ex_bigger (ex_at_broker ex_working false).
Proof.
  split; try (vm_compute; reflexivity).
  - intros q. vm_compute. intros [= <-]. discriminate.
  - intros q Hi. split; [|vm_compute in Hi; injection Hi as <-; vm_compute; discriminate].
    intros v. simpl. by rewrite lookup_empty.
  - intros _. split; [left; reflexivity|]. split; [left; reflexivity|]. eexists. split; vm_compute; reflexivity.
Qed.

Lemma ex_at_broker_wf engaged : db_wf (sh_db (g_shared (ex_at_broker ex_working engaged))).
Proof.
  apply db_wf_set_orders; [|vm_compute; reflexivity].
  apply (sample_db_wf (new_row ex_app (ex_new "o1") 1)). vm_compute. reflexivity.
Qed.


(** The connection to the database breaks between the broker's answer and the transaction. *)
Definition ex_recorded : gw :=
  let s := ex_at_broker ex_working false in {|
  g_shared := set_db (set_modifications (insert "m1" (pending_record 5 "o1" "o2" 1 ex_working (ex_modify 25) "trader"))
    (sh_db (g_shared s))) (g_shared s); g_jobs := []; g_sent := []; g_calls := 0 |}.

Definition ex_db_lost : environment := {|
  fates := fun n => if (n =? 0)%nat then Down (OperationalError "server closed the connection") else Up;
  others := fun _ sh => sh; clock := fun n => 100 + Z.of_nat n; broker_api := ex_replaces;
  redis_net := fun _ => Served; bars_api := fun _ _ => Liquidity.RequestError |}.

Lemma unpersisted_replacement_is_never_reconciled_witness :
  exists s' m', _finalize_modification_in_db ex_db_lost "o1" ex_working "m1" "b2" "o2" (Some "new") ex_bigger ex_recorded
      = (Raise not_persisted, s') /\ mod_status m' = "submitted_unconfirmed" /\
    db_modifications (sh_db (g_shared s')) !! "m1" = Some m'.
Proof.
  destruct (unpersisted_replacement_is_never_reconciled ex_db_lost "o1" ex_working "m1" "b2" "o2" (Some "new") ex_bigger
    (OperationalError "server closed the connection") (pending_record 5 "o1" "o2" 1 ex_working (ex_modify 25) "trader")
    ex_recorded) as (s' & m' & H1 & _ & H2 & H3 & _); [reflexivity|reflexivity|reflexivity|vm_compute; reflexivity|].
  exists s', m'. split_and!; [exact H1|exact H3|exact H2].
Defined.

Lemma sent_replacements_are_recorded_witness :
  let s' := snd (modify_order (ex_net ex_replaces) ex_app ex_user (fun _ => None) "token" "m1" "o1" (ex_modify 25)
    (ex_at_broker ex_working false)) in
  exists rs, g_sent s' = [] ++ rs /\ forall r, r ∈ rs -> backed_modification "o1" r (g_shared s').
Proof.
  apply (sent_replacements_are_recorded (ex_net ex_replaces) ex_app ex_user (fun _ => None) "token" "m1" "o1" (ex_modify 25)
    (ex_at_broker ex_working false)). intros b new_id n sh H. exact H.
Defined.

(** ** Halted *)

(** A price is asked for while the kill switch is engaged. *)
Definition ex_reprice : OrderModifyRequest := {|
  om_idempotency_key := "6b1f5c52-9f0e-4a43-8f5a-0d3a1f6f2c11"; om_qty := None; om_limit_price := Some (of_int 150);
  om_stop_price := None; om_time_in_force := None; om_reason := None |}.

Lemma halted_modifications_refused_witness :
  let out := modify_new (ex_net ex_replaces) ex_app ex_user (fun _ => None) "token" "m1" "o1" ex_working ex_reprice
    (ex_at_broker ex_working true) in
  (forall resp, fst out <> Ok resp) /\ g_sent (snd out) = [].
Proof.
  apply (halted_modifications_refused (ex_net ex_replaces) ex_app ex_user (fun _ => None) "token" "m1" "o1" ex_working
    ex_reprice KillSwitchEngaged (ex_at_broker ex_working true)).
  - unfold modify_gates. rewrite !elem_of_cons. auto.
  - intros n sh H. exact H.
  - vm_compute. discriminate.
  - reflexivity.
Defined.

Lemma ex_halted row : halted_by_switch (g_shared (ex_at_broker row true)).
Proof. split; vm_compute; reflexivity. Qed.

Lemma halted_quantity_change_reduces_witness :
  fst (_check_modify_safety_gates (ex_net ex_replaces) ex_working (ex_modify 4) (ex_at_broker ex_working true)) = Ok tt.
Proof.
  apply (halted_quantity_change_reduces (ex_net ex_replaces) ex_working (ex_modify 4) 4 (ex_at_broker ex_working true)
    (ex_net_quiet _) (ex_halted _) eq_refl eq_refl). vm_compute. reflexivity.
Defined.

(** A short position of 6 is being closed by a buy of 10 shares, 4 of which are filled. *)
Definition ex_covering : order_row := set_exec 7 (fun e => {|
  o_status := "partially_filled"; o_broker_order_id := Some "b0"; o_error_message := None; o_submitted_at := None;
  o_filled_at := None; o_filled_qty := Some (of_int 4); o_filled_avg_price := Some (of_int 150); o_last_updated_at := Some 7;
  o_is_terminal := false; o_source_priority := o_source_priority e; o_status_rank := Some (status_rank_for "partially_filled");
  o_broker_event_id := o_broker_event_id e |}) ex_working.

Definition ex_short : gw :=
  let s := ex_at_broker ex_covering true in {|
  g_shared := set_db (set_positions (insert "AAPL" {| p_qty := of_int (-6); p_avg_entry_price := of_int 150;
      p_current_price := None; p_realized_pl := of_int 0; p_updated_at := 7; p_last_trade_at := Some 7 |})
    (sh_db (g_shared s))) (g_shared s); g_jobs := []; g_sent := []; g_calls := 0 |}.

Lemma halted_modification_may_grow_position_witness :
  fst (_check_modify_safety_gates (ex_net ex_replaces) ex_covering (ex_modify 5) ex_short) = Ok tt /\
  final_position ex_covering (position_of "AAPL" (g_shared ex_short)) 5 < 0.
Proof.
  apply (halted_modification_may_grow_position (ex_net ex_replaces) ex_covering (ex_modify 5) 5 ex_short);
    [apply ex_net_quiet|split; vm_compute; reflexivity|vm_compute; reflexivity..].
Defined.

(** ** Concurrent and repeated modifications *)

(** Another modification holds the row. *)
Definition ex_busy : environment := {|
  fates := fun n => if (n =? 1)%nat then Down lock_not_available else Up;
  others := fun _ sh => sh; clock := fun n => 100 + Z.of_nat n; broker_api := ex_replaces;
  redis_net := fun _ => Served; bars_api := fun _ _ => Liquidity.RequestError |}.

Lemma busy_lock_is_an_internal_error_witness :
  exists s', _acquire_modification_lock ex_busy "m1" "o1" ex_working (ex_modify 25)
      (_compute_modification_changes ex_working (ex_modify 25)) "trader" (ex_at_broker ex_working false)
    = (Raise in_failed_transaction, s') /\ g_sent s' = [].
Proof.
  destruct (busy_lock_is_an_internal_error ex_busy "m1" "o1" ex_working (ex_modify 25)
    (_compute_modification_changes ex_working (ex_modify 25)) "trader" (ex_at_broker ex_working false)) as (s' & H1 & _ & H2);
    [reflexivity|reflexivity|vm_compute; discriminate|].
  exists s'. split; [exact H1|exact H2].
Defined.

Lemma repeated_modification_is_not_sent_witness :
  let out := modify_order (ex_net ex_replaces) ex_app ex_user (fun _ => None) "token" "m2" "o1" (ex_modify 25) ex_recorded in
  g_sent (snd out) = [] /\ exists resp, fst out = Ok resp /\ mr_modification_id resp = "m1" /\ mr_http_status resp = 202.
Proof.
  destruct (repeated_modification_is_not_sent (ex_net ex_replaces) ex_app ex_user (fun _ => None) "token" "m2" "o1" (ex_modify 25)
    ex_working "m1" (pending_record 5 "o1" "o2" 1 ex_working (ex_modify 25) "trader") ex_recorded)
    as (_ & H2 & H3); [apply ex_net_quiet|vm_compute; reflexivity..| |].
  - simpl. rewrite elem_of_cons. by left.
  - split; [exact H2|]. rewrite decide_False in H3 by done. destruct H3 as (resp & E & Hm & _ & _ & Hh).
    exists resp. split_and!; [exact E|exact Hm|]. by rewrite decide_False in Hh.
Defined.
