(* ===== verification/OrderCancel.v ===== *)
(** * Cancellation of an order (routes/orders.py)

    The order is cancelled at the broker, when it has an identifier there, and
    then marked canceled by the conditional update, as of now and with manual
    priority. *)

From S2P Require Import Prelude PyDecimal PyText OrderStatus OrderSchema GatewayDb OrderCas RedisClient.
From S2P Require Import ReconMods Access Gateway SliceExec OrderGates OrderSubmit OrderOutcome OrderExamples ModifyExamples.
From S2P Require Liquidity.
Open Scope Z_scope.

Record cancel_answer := { ca_client_order_id : string; ca_status : string; ca_message : string }.

(** An identifier that counts: a string that is not empty. *)
Definition broker_id_of (order : order_row) : option string :=
  match o_broker_order_id (o_exec order) with
  | Some b => if bool_decide (b = "") then None else Some b
  | None => None
  end.

Definition cancel_at_broker (env : environment) (app : gateway) (order : order_row) : M gw unit :=
  if cfg_dry_run app then mret tt
  else if negb (has_alpaca app) then raise (HTTPException unavailable "Alpaca client not initialized. Check credentials.")
  else match broker_id_of order with
       | Some b => _ ← Gateway.cancel_order env b; mret tt
       | None => mret tt
       end.

(** The update: what was read of the order, as of [t]. *)
Definition canceled_update (t : Z) (order : order_row) : cas_update := {|
  u_status := "canceled"; u_broker_updated_at := t; u_status_rank := status_rank_for "canceled";
  u_source_priority := SOURCE_PRIORITY_MANUAL; u_filled_qty := Some (default dzero (o_filled_qty (o_exec order)));
  u_filled_avg_price := o_filled_avg_price (o_exec order); u_filled_at := o_filled_at (o_exec order);
  u_broker_order_id := o_broker_order_id (o_exec order); u_broker_event_id := None; u_error_message := None |}.

Definition mark_canceled (env : environment) (client_order_id : string) (order : order_row) : M gw cancel_answer :=
  t ← read_clock env;
  updated ← call env (fun now => in_db (update_order_status_cas now client_order_id (canceled_update t order)));
  mret {| ca_client_order_id := client_order_id;
          ca_status := match updated with Some r => o_status (o_exec r) | None => "canceled" end;
          ca_message := "Order canceled" |}.

Definition cancel_order (env : environment) (app : gateway) (auth : AuthContext) (client_order_id : string) : M gw cancel_answer :=
  order ← call env (fun _ => in_db (get_order_by_client_id client_order_id));
  match order with
  | None => raise (HTTPException 404 ("Order not found: " +:+ client_order_id))
  | Some order =>
      _ ← lift (_ensure_strategy_access (o_strategy_id (o_core order)) auth);
      if is_terminal_status (o_status (o_exec order)) then
        mret {| ca_client_order_id := client_order_id; ca_status := o_status (o_exec order);
                ca_message := "Order already in terminal state" |}
      else
        _ ← cancel_at_broker env app order;
        mark_canceled env client_order_id order
  end.

(** ** Outcomes *)

(** The row of a canceled order. *)
Definition canceled_row (now t : Z) (order : order_row) : order_row := set_exec now (cas_apply (canceled_update t order)) order.

Lemma canceled_valid orders now t id order : orders_wf orders -> orders !! id = Some order ->
  order_valid orders id (canceled_row now t order) = true.
Proof.
  intros Hwf Hr. apply cas_valid; [done|done|].
  destruct (proj1 (order_valid_spec _ _ _) (Hwf _ _ Hr)) as (Hc & _ & _). unfold order_checks in Hc.
  cbn -[one_of opt_check dpositive dleb dzero] in Hc. boolify. split_and!; simpl.
  - by destruct (o_broker_order_id (o_exec order)).
  - done.
  - destruct (o_filled_qty (o_exec order)) as [q|]; [done|reflexivity].
Qed.

Section quiet.
Context (env : environment) (app : gateway) (auth : AuthContext) (id : string) (order : order_row).
Hypothesis Hq : quiet env.

(** The order can be canceled, and nothing newer than [n] steps from now is known of it. *)
Record cancelable (s : gw) : Prop := {
  cl_row : db_orders (sh_db (g_shared s)) !! id = Some order;
  cl_access : _ensure_strategy_access (o_strategy_id (o_core order)) auth = Ok tt;
  cl_open : is_terminal_status (o_status (o_exec order)) = false;
  cl_flag : o_is_terminal (o_exec order) = false;
  cl_live : cfg_dry_run app = false;
  cl_alpaca : has_alpaca app = true;
  cl_newer : forall n, cas_newer (canceled_update (clock env n) order) (o_exec order) = true
}.

Lemma mark_canceled_run s : db_wf (sh_db (g_shared s)) -> db_orders (sh_db (g_shared s)) !! id = Some order ->
  o_is_terminal (o_exec order) = false -> (forall n, cas_newer (canceled_update (clock env n) order) (o_exec order) = true) ->
  let t := clock env (g_calls s) in
  mark_canceled env id order s =
    (Ok {| ca_client_order_id := id; ca_status := "canceled"; ca_message := "Order canceled" |},
     after_call (with_row id (canceled_row t t order) (g_shared s)) s).
Proof.
  intros Hwf Hr Hf Hn t. unfold mark_canceled. rewrite M_bind_run. unfold read_clock. rewrite M_bind_run, call_quiet by done.
  unfold in_db. rewrite zoom_run. rewrite (cas_run _ _ _ _ _ Hr). unfold cas_unlocked. rewrite Hf. fold t.
  rewrite (Hn (g_calls s) : cas_newer (canceled_update t order) (o_exec order) = true). cbn [negb orb andb].
  fold (canceled_row t t order). rewrite (canceled_valid _ t t _ _ (proj1 Hwf) Hr). done.
Qed.

Lemma cancel_start s : cancelable s ->
  cancel_order env app auth id s = (_ ← cancel_at_broker env app order; mark_canceled env id order) (tick s).
Proof.
  intros [H1 H2 H3 _ _ _ _]. unfold cancel_order. rewrite M_bind_run. unfold get_order_by_client_id.
  rewrite (call_read env _ _ _ Hq (fun sh => in_db_read _ sh)), H1, M_bind_run. unfold lift. rewrite H2. by rewrite H3.
Qed.

End quiet.

(** ** Cancellations that do not last *)

(** The broker's identifier is no other order's: it fits any row of [id]. *)
Lemma accepted_valid orders id bid now row : broker_id_free orders (Some bid) -> order_valid orders id row = true ->
  order_valid orders id (accepted_row bid now row) = true.
Proof.
  intros Hfree Hv. destruct (proj1 (order_valid_spec _ _ _) Hv) as (Hc & Hu & Hf). apply order_valid_spec. split; [exact Hc|].
  split; [|exact Hf]. intros id' r' Hr'. destruct (Hu _ _ Hr') as [H|H]; [by left|right].
  unfold rows_clash in *. apply orb_false_iff in H as [_ H]. apply orb_false_iff. split; [|exact H]. exact (Hfree _ _ Hr').
Qed.

(** A cancellation that meets an order in flight, whose submission has no answer yet, asks the broker nothing and
    answers "canceled"; the submission then records the broker's acceptance over it: the order is at the
    broker, and open. *)
Theorem canceled_in_flight_goes_live env app auth request token id bid order s :
  quiet env -> db_wf (sh_db (g_shared s)) -> cancelable env app auth id order s -> o_broker_order_id (o_exec order) = None ->
  broker_id_free (db_orders (sh_db (g_shared s))) (Some bid) ->
  let out := cancel_order env app auth id s in
  fst out = Ok {| ca_client_order_id := id; ca_status := "canceled"; ca_message := "Order canceled" |} /\
  g_sent (snd out) = g_sent s /\
  exists row s', record_acceptance env request token id bid (snd out) = (Ok tt, s') /\
    db_orders (sh_db (g_shared s')) !! id = Some row /\ o_status (o_exec row) = "pending_new" /\
    o_is_terminal (o_exec row) = false /\ o_broker_order_id (o_exec row) = Some bid.
Proof.
  intros Hq Hwf Hc Hb Hfree out. subst out. rewrite (cancel_start env app auth id order Hq s Hc).
  destruct Hc as [Hr _ _ Hf Hl Ha Hn]. unfold cancel_at_broker, broker_id_of. rewrite Hl, Ha, Hb. cbn [negb]. rewrite M_bind_run.
  change ((mret tt : M gw unit) (tick s)) with (@Ok unit tt, tick s). cbv beta iota.
  rewrite (mark_canceled_run env id order Hq (tick s) Hwf Hr Hf Hn). cbn [fst snd].
  split; [done|]. split; [done|]. set (t := clock env _). set (s1 := after_call _ _).
  destruct (record_acceptance_row env Hq request token id bid (canceled_row t t order) s1) as (now & t1 & s' & H1 & H2 & _).
  - apply lookup_insert_eq.
  - intros now. assert (Hv := canceled_valid _ t t _ _ (proj1 Hwf) Hr).
    change (db_orders (sh_db (g_shared s1))) with (<[id := canceled_row t t order]> (db_orders (sh_db (g_shared s)))).
    apply accepted_valid.
    + intros id' r'. destruct (decide (id' = id)) as [->|Hne].
      * rewrite lookup_insert_eq. intros [= <-]. cbn [canceled_row set_exec o_exec cas_apply o_broker_order_id canceled_update u_broker_order_id].
        by rewrite Hb.
      * rewrite lookup_insert_ne by done. apply Hfree.
    + exact (orders_wf_insert _ _ _ (proj1 Hwf) Hv id _ (lookup_insert_eq _ _ _)).
  - exists (accepted_row bid now (canceled_row t t order)), s'. rewrite H2, lookup_insert_eq. by split_and!.
Qed.

(** The update takes any row that is filled for one that may still change: when the complete fill arrives after
    the order was read, the order ends canceled, with all of its shares filled. *)
Theorem cancellation_overwrites_fill env id order row s :
  fates env (g_calls s) = Up ->
  let sh := others env (g_calls s) (g_shared s) in
  db_wf (sh_db sh) -> db_orders (sh_db sh) !! id = Some row -> o_status (o_exec row) = "filled" ->
  fits row (canceled_update (clock env (g_calls s)) order) ->
  cas_newer (canceled_update (clock env (g_calls s)) order) (o_exec row) = true ->
  exists s' row', mark_canceled env id order s =
      (Ok {| ca_client_order_id := id; ca_status := "canceled"; ca_message := "Order canceled" |}, s') /\
    db_orders (sh_db (g_shared s')) !! id = Some row' /\ o_status (o_exec row') = "canceled" /\
    o_is_terminal (o_exec row') = true /\
    o_filled_qty (o_exec row') = Some (greatest (o_filled_qty (o_exec row)) (default dzero (o_filled_qty (o_exec order)))).
Proof.
  intros Hu sh Hwf Hr Hf Hfit Hn. unfold mark_canceled. rewrite M_bind_run. unfold read_clock. rewrite M_bind_run. unfold call.
  rewrite Hu. fold sh. unfold in_db. rewrite zoom_run, (cas_run _ _ _ _ _ Hr). unfold cas_unlocked. rewrite Hf, Hn.
  rewrite bool_decide_true, orb_true_r by done. cbn [andb]. rewrite (cas_valid _ _ _ _ _ (proj1 Hwf) Hr Hfit).
  eexists _, _. split; [reflexivity|]. split; [apply lookup_insert_eq|]. by split_and!.
Qed.

(** ** Examples *)

Lemma newer_than t0 u e : o_last_updated_at e = Some t0 -> t0 < u_broker_updated_at u -> cas_newer u e = true.
Proof. intros H Ht. unfold cas_newer. rewrite H. cbn [sql_cmp]. rewrite (proj2 (Z.ltb_lt _ _) Ht). by rewrite orb_true_r. Qed.

Lemma ex_clock n : 2 < 100 + Z.of_nat (Nat.min n 1000).
Proof. lia. Qed.

Lemma ex_cancelable api : cancelable (ex_net api) ex_app ex_user "o1" ex_working (ex_at_broker ex_working false).
Proof. split; try (vm_compute; reflexivity). intros n. apply (newer_than 2); [reflexivity|apply ex_clock]. Qed.


(** The order "o1" is on its way to the broker. *)
Definition ex_in_flight : order_row := set_exec 2 (fun e => {|
  o_status := o_status e; o_broker_order_id := None; o_error_message := None; o_submitted_at := None; o_filled_at := None;
  o_filled_qty := Some dzero; o_filled_avg_price := None; o_last_updated_at := Some 2; o_is_terminal := false;
  o_source_priority := o_source_priority e; o_status_rank := o_status_rank e; o_broker_event_id := None |})
  (new_row ex_app (ex_new "o1") 1).

Lemma canceled_in_flight_goes_live_witness :
  let out := cancel_order (ex_net ex_accepts) ex_app ex_user "o1" (ex_at_broker ex_in_flight false) in
  g_sent (snd out) = [] /\ exists row s', record_acceptance (ex_net ex_accepts) (ex_new "o1") "token" "o1" "b1" (snd out) = (Ok tt, s') /\
    db_orders (sh_db (g_shared s')) !! "o1" = Some row /\ o_status (o_exec row) = "pending_new".
Proof.
  destruct (canceled_in_flight_goes_live (ex_net ex_accepts) ex_app ex_user (ex_new "o1") "token" "o1" "b1" ex_in_flight
    (ex_at_broker ex_in_flight false)) as (_ & H1 & row & s' & H2 & H3 & H4 & _).
  - apply ex_net_quiet.
  - apply db_wf_set_orders; [apply (sample_db_wf (new_row ex_app (ex_new "o1") 1)); vm_compute; reflexivity|vm_compute; reflexivity].
  - split; try (vm_compute; reflexivity). intros n. apply (newer_than 2); [reflexivity|apply ex_clock].
  - reflexivity.
  - intros id r Hr. simpl in Hr. apply lookup_insert_Some in Hr as [[_ <-]|[Hne Hr]]; [reflexivity|].
    apply lookup_singleton_Some in Hr as [Heq _]. congruence.
  - split; [exact H1|]. exists row, s'. split_and!; [exact H2|exact H3|exact H4].
Defined.

(** The complete fill of "o1" arrives before the update. *)
Definition ex_late_fill : environment := {|
  fates := fun _ => Up; others := fun n sh => with_row "o1" (set_exec 7 (fun e => {|
    o_status := "filled"; o_broker_order_id := Some "b0"; o_error_message := None; o_submitted_at := None;
    o_filled_at := Some 7; o_filled_qty := Some (of_int 10); o_filled_avg_price := Some (of_int 150);
    o_last_updated_at := Some 7; o_is_terminal := true; o_source_priority := o_source_priority e;
    o_status_rank := Some (status_rank_for "filled"); o_broker_event_id := None |}) ex_working) sh;
  clock := fun n => 100 + Z.of_nat n; broker_api := ex_accepts; redis_net := fun _ => Served;
  bars_api := fun _ _ => Liquidity.RequestError |}.

Lemma cancellation_overwrites_fill_witness :
  exists s' row', mark_canceled ex_late_fill "o1" ex_working (ex_at_broker ex_working false) =
      (Ok {| ca_client_order_id := "o1"; ca_status := "canceled"; ca_message := "Order canceled" |}, s') /\
    db_orders (sh_db (g_shared s')) !! "o1" = Some row' /\ o_status (o_exec row') = "canceled" /\
    o_filled_qty (o_exec row') = Some (of_int 10).
Proof.
  destruct (cancellation_overwrites_fill ex_late_fill "o1" ex_working
    (default ex_working (db_orders (sh_db (others ex_late_fill 0 (g_shared (ex_at_broker ex_working false)))) !! "o1"))
    (ex_at_broker ex_working false)) as (s' & row' & H1 & H2 & H3 & _ & H4).
  - reflexivity.
  - apply db_wf_set_orders; [apply ex_at_broker_wf|vm_compute; reflexivity].
  - vm_compute. reflexivity.
  - vm_compute. reflexivity.
  - split_and!; vm_compute; reflexivity.
  - vm_compute. reflexivity.
  - exists s', row'. split_and!; [exact H1|exact H2|exact H3|exact H4].
Defined.
