(* ===== verification/RateLimiter.v ===== *)
(** * The rate limiter (libs/platform/web_console_auth/rate_limiter.py)

    Two limits over Redis: a sliding window, a sorted set of the recent calls of
    one user for one action, and fixed windows for alerts, a counter that
    expires.  Each is one Lua script, sent once; the clock is one argument for
    the caller and Redis, in microseconds. *)

From S2P Require Import Prelude PyText OrderSchema RedisClient.
Open Scope Z_scope.

Record RateLimiter := {
  fallback_mode : string;
  default_max_requests : option Z;
  default_window_seconds : option Z;
  key_prefix : string
}.

(** A sorted set, and a counter, with the time it expires at. *)
Record zset := { z_scores : gmap string Z; z_expires : Z }.
Record counter := { n_value : Z; n_expires : option Z }.

Record limits := { l_sets : gmap string zset; l_counters : gmap string counter }.

Definition members (t : Z) (key : string) (s : limits) : gmap string Z :=
  match l_sets s !! key with
  | Some z => if t <? z_expires z then z_scores z else ∅
  | None => ∅
  end.

(** [_RATE_LIMIT_SCRIPT]: ZADD, ZREMRANGEBYSCORE, ZCARD, EXPIRE. *)
Definition rate_limit_script (t : Z) (key : string) (now window : Z) (member : string) (s : limits) : Z * limits :=
  let scores := <[member := now]> (members t key s) in
  let scores := filter (fun p : string * Z => ~ (0 <= p.2 <= now - window)) scores in
  (Z.of_nat (size scores),
   {| l_sets := <[key := {| z_scores := scores; z_expires := t + window * second_us |}]> (l_sets s); l_counters := l_counters s |}).

(** One command, sent once. *)
Definition eval_script {A} (fate : attempt) (script : limits -> A * limits) : M limits A := fun s =>
  match fate with
  | Served => (Ok (fst (script s)), snd (script s))
  | Lost executed => (Raise (ConnectionError ""), if executed then snd (script s) else s)
  | Refused => (Raise RedisError, s)
  end.

(** [fallback_mode or self.fallback_mode or "deny"] *)
Definition mode_of (lim : RateLimiter) (mode : option string) : string :=
  match mode with
  | Some m => if bool_decide (m = "") then (if bool_decide (fallback_mode lim = "") then "deny" else fallback_mode lim) else m
  | None => if bool_decide (fallback_mode lim = "") then "deny" else fallback_mode lim
  end.

(** [time_ns] is read again for the member. *)
Definition check_rate_limit (lim : RateLimiter) (fate : attempt) (t time_ns : Z) (user_id action : string)
    (max_requests window_seconds : Z) (mode : option string) : M limits (bool * Z) :=
  let now := t / second_us in
  let key := key_prefix lim +:+ action +:+ ":" +:+ user_id in
  let member := user_id +:+ ":" +:+ str_int time_ns in
  try_except
    (count ← eval_script fate (rate_limit_script t key now window_seconds member);
     mret (count <=? max_requests, Z.max 0 (max_requests - count)))
    (fun _ => Some (if bool_decide (mode_of lim mode = "deny") then mret (false, 0) else mret (true, max_requests))).

Definition is_allowed (lim : RateLimiter) (fate : attempt) (t time_ns : Z) (key : string) : M limits bool :=
  match default_max_requests lim, default_window_seconds lim with
  | Some max_requests, Some window_seconds =>
      r ← check_rate_limit lim fate t time_ns key "default" max_requests window_seconds None; mret r.1
  | _, _ => raise (ValueError "Default max_requests and window_seconds must be set for is_allowed")
  end.

(** ** Alerts *)

Definition counted (t : Z) (key : string) (s : limits) : option counter :=
  match l_counters s !! key with
  | Some c => match n_expires c with Some e => if t <? e then Some c else None | None => Some c end
  | None => None
  end.

(** INCR, and EXPIRE for the first one. *)
Definition incr_script (t : Z) (key : string) (ttl : Z) (s : limits) : Z * limits :=
  let c := match counted t key s with
           | Some c => {| n_value := n_value c + 1; n_expires := n_expires c |}
           | None => {| n_value := 1; n_expires := None |}
           end in
  let c := if n_value c =? 1 then {| n_value := 1; n_expires := Some (t + ttl * second_us) |} else c in
  (n_value c, {| l_sets := l_sets s; l_counters := <[key := c]> (l_counters s) |}).

Definition check_alert_rate_limit (lim : RateLimiter) (fate : attempt) (t : Z) (key : string) (limit ttl : Z)
    (mode : option string) : M limits bool :=
  try_except
    (count ← eval_script fate (incr_script t key ttl); mret (count <=? limit))
    (fun _ => Some (mret (bool_decide (mode_of lim mode = "allow")))).

(** [ALERT_RATE_LIMITS] *)
Definition channel_limit (channel : string) : option Z :=
  match channel with "email" => Some 100 | "slack" => Some 50 | "sms" => Some 10 | "pagerduty" => Some 30 | _ => None end.
Definition recipient_limit (channel : string) : option Z :=
  match channel with "email" => Some 5 | "slack" => Some 10 | "sms" => Some 3 | "pagerduty" => Some 10 | _ => None end.
Definition global_limit : Z := 500.

Definition minute_of (t : Z) : Z := t / second_us / 60.
Definition hour_of (t : Z) : Z := t / second_us / 3600.

Definition check_channel_rate_limit (lim : RateLimiter) (fate : attempt) (t : Z) (channel : string) : M limits bool :=
  match channel_limit channel with
  | None => raise (ValueError ("Unknown channel type: " +:+ channel))
  | Some limit =>
      check_alert_rate_limit lim fate t ("alert_ratelimit:channel:" +:+ channel +:+ ":" +:+ str_int (minute_of t)) limit 60 None
  end.

Definition check_recipient_rate_limit (lim : RateLimiter) (fate : attempt) (t : Z) (recipient_hash channel : string)
    : M limits bool :=
  match recipient_limit channel with
  | None => raise (ValueError ("Unknown channel type for recipient limit: " +:+ channel))
  | Some limit =>
      check_alert_rate_limit lim fate t
        ("alert_ratelimit:recipient:" +:+ channel +:+ ":" +:+ recipient_hash +:+ ":" +:+ str_int (hour_of t)) limit 3600 None
  end.

Definition check_global_rate_limit (lim : RateLimiter) (fate : attempt) (t : Z) : M limits bool :=
  check_alert_rate_limit lim fate t ("alert_ratelimit:global:" +:+ str_int (minute_of t)) global_limit 60 None.

(** ** The sliding window *)

Lemma served_run lim t ns user action max_requests window mode s :
  let out := rate_limit_script t (key_prefix lim +:+ action +:+ ":" +:+ user) (t / second_us) window (user +:+ ":" +:+ str_int ns) s in
  check_rate_limit lim Served t ns user action max_requests window mode s =
    (Ok (fst out <=? max_requests, Z.max 0 (max_requests - fst out)), snd out).
Proof. done. Qed.

(** One call: when it is made, and the nanoseconds its member is named after. *)
Record attempt_at := { at_us : Z; at_ns : Z }.

Definition seconds (c : attempt_at) : Z := at_us c / second_us.

Section window.
Context (lim : RateLimiter) (user action : string) (max_requests window : Z).

(** The answers to a user's calls, one after the other. *)
Fixpoint answers (calls : list attempt_at) (s : limits) : list bool :=
  match calls with
  | [] => []
  | c :: calls' =>
      let out := check_rate_limit lim Served (at_us c) (at_ns c) user action max_requests window None s in
      match fst out with Ok r => r.1 | Raise _ => false end :: answers calls' (snd out)
  end.

(** What the limiter promises: a call is let through when fewer than [max_requests] calls, refused ones
    included, came in the window that ends with it. *)
Definition recent (now : Z) (before : list attempt_at) : list attempt_at :=
  filter (fun c => now - window < seconds c) before.

Fixpoint promised (before calls : list attempt_at) : list bool :=
  match calls with
  | [] => []
  | c :: calls' => (Z.of_nat (length (recent (seconds c) before)) <? max_requests) :: promised (c :: before) calls'
  end.

Let key : string := key_prefix lim +:+ action +:+ ":" +:+ user.
Let member (c : attempt_at) : string := user +:+ ":" +:+ str_int (at_ns c).

Lemma member_inj c d : member c = member d -> at_ns c = at_ns d.
Proof. intros H. by apply (inj (String.append _)), (inj (String.append _)), (inj str_int) in H. Qed.

Definition scores_of (l : list attempt_at) : gmap string Z := list_to_map ((fun c => (member c, seconds c)) <$> l).


Lemma scores_none l c : c.(at_ns) ∉ at_ns <$> l -> scores_of l !! member c = None.
Proof.
  intros H. apply not_elem_of_list_to_map_1. rewrite <- list_fmap_compose. intros (d & Hd & Hin)%list_elem_of_fmap.
  apply H, list_elem_of_fmap. exists d. split; [by apply member_inj|done].
Qed.

Lemma scores_cons c l : scores_of (c :: l) = <[member c := seconds c]> (scores_of l).
Proof. done. Qed.

Lemma filter_scores now l : NoDup (at_ns <$> l) ->
  filter (fun p : string * Z => now - window < p.2) (scores_of l) = scores_of (recent now l).
Proof.
  induction l as [|c l IH]; intros Hnd; [done|]. apply NoDup_cons in Hnd as [Hc Hnd]. rewrite scores_cons.
  specialize (IH Hnd). unfold recent in *. rewrite filter_cons. destruct (decide (now - window < seconds c)) as [H|H].
  - rewrite map_filter_insert_True by done. by rewrite IH, scores_cons.
  - rewrite map_filter_insert_False by done. rewrite delete_id by (by apply scores_none). exact IH.
Qed.

Lemma size_scores l : NoDup (at_ns <$> l) -> size (scores_of l) = length l.
Proof.
  induction l as [|c l IH]; intros Hnd; [done|]. apply NoDup_cons in Hnd as [Hc Hnd]. rewrite scores_cons.
  rewrite map_size_insert_None by (by apply scores_none). by rewrite IH.
Qed.

(** The set holds the calls of the window, the latest first, and lasts as long as one of them counts. *)
Definition holds (before : list attempt_at) (s : limits) : Prop := forall t, Forall (fun c => at_us c <= t) before ->
  filter (fun p : string * Z => t / second_us - window < p.2) (members t key s) = scores_of (recent (t / second_us) before) /\
  map_Forall (fun _ z => 0 <= z) (members t key s).

Lemma holds_start s : l_sets s !! key = None -> holds [] s.
Proof. intros H t _. unfold members. rewrite H. split; [apply map_filter_empty|apply map_Forall_empty]. Qed.

Lemma recent_recent now now' l : now <= now' -> recent now' (recent now l) = recent now' l.
Proof. intros H. unfold recent. rewrite list_filter_filter. apply list_filter_iff. intros c. lia. Qed.

Lemma recent_nodup now l : NoDup (at_ns <$> l) -> NoDup (at_ns <$> recent now l).
Proof.
  unfold recent. induction l as [|c l IH]; intros H; [constructor|]. apply NoDup_cons in H as [Hc H]. rewrite filter_cons.
  destruct (decide _); [|by apply IH]. simpl. constructor; [|by apply IH]. intros (d & Hd & [_ Hin]%list_elem_of_filter)%list_elem_of_fmap.
  apply Hc. rewrite Hd. by apply list_elem_of_fmap_2.
Qed.

(** The set after the script has removed what is too old. *)
Lemma pruned c before s : 0 < window -> NoDup (at_ns <$> c :: before) -> Forall (fun d => at_us d <= at_us c) before ->
  0 <= at_us c -> holds before s ->
  filter (fun p : string * Z => ~ (0 <= p.2 <= seconds c - window)) (<[member c := seconds c]> (members (at_us c) key s))
  = scores_of (recent (seconds c) (c :: before)).
Proof.
  intros Hw Hnd Hb Hc Hs. destruct (Hs _ Hb) as [He Hp]. fold (seconds c) in He.
  assert (H0 : 0 <= seconds c) by (apply Z.div_pos; [done|reflexivity]).
  trans (filter (fun p : string * Z => seconds c - window < p.2) (<[member c := seconds c]> (members (at_us c) key s))).
  { apply map_filter_ext. intros k z Hz. simpl. assert (0 <= z); [|lia].
    apply lookup_insert_Some in Hz as [[_ <-]|[_ Hz]]; [done|by apply (Hp k)]. }
  rewrite map_filter_insert_True by (simpl; lia). rewrite He. unfold recent. rewrite filter_cons, decide_True by lia. done.
Qed.

Lemma recent_none now l : Forall (fun d => seconds d <= now - window) l -> recent now l = [].
Proof.
  intros H. destruct (recent now l) as [|d r] eqn:E; [done|]. exfalso.
  assert (Hd : d ∈ recent now l) by (rewrite E; apply elem_of_cons; by left).
  apply list_elem_of_filter in Hd as [H1 H2]. rewrite Forall_forall in H. specialize (H d H2). lia.
Qed.

(** One call: the answer, and the set after it. *)
Lemma script_holds c before s : 0 < window -> NoDup (at_ns <$> c :: before) ->
  Forall (fun d => 0 <= at_us d <= at_us c) (c :: before) -> holds before s ->
  let out := rate_limit_script (at_us c) key (seconds c) window (member c) s in
  fst out = Z.of_nat (S (length (recent (seconds c) before))) /\ holds (c :: before) (snd out).
Proof.
  intros Hw Hnd Hb Hs. pose proof (Forall_inv Hb) as Hc; cbv beta in Hc. unfold rate_limit_script. cbn [fst snd].
  rewrite (pruned c before s); [|done|done|apply (Forall_impl _ _ _ (Forall_inv_tail Hb)); intros d Hd; simpl in Hd; lia|lia|done].
  set (l := c :: before) in *. split.
  - rewrite size_scores by (by apply recent_nodup). unfold l, recent. by rewrite filter_cons, decide_True by lia.
  - intros t Ht. unfold members. cbn [l_sets snd]. rewrite lookup_insert_eq. cbn [z_expires z_scores].
    pose proof (Forall_inv Ht) as Hct. assert (Hdiv : seconds c <= t / second_us) by (apply Z.div_le_mono; [reflexivity|done]).
    destruct (Z.ltb_spec t (at_us c + window * second_us)) as [Hl|Hl].
    + rewrite filter_scores by (by apply recent_nodup). rewrite recent_recent by done. split; [done|].
      intros k z Hz. apply elem_of_list_to_map_2, list_elem_of_fmap in Hz as (d & [= _ ->] & [_ Hd]%list_elem_of_filter).
      rewrite Forall_forall in Hb. apply Z.div_pos; [by apply Hb|reflexivity].
    + split; [|apply map_Forall_empty]. rewrite map_filter_empty. rewrite recent_none; [done|].
      apply (Forall_impl _ _ _ Hb). intros d Hd.
      assert (E1 : seconds d <= seconds c) by (apply Z.div_le_mono; [reflexivity|lia]).
      assert (E2 : (at_us c + window * second_us) / second_us <= t / second_us) by (apply Z.div_le_mono; [reflexivity|done]).
      rewrite Z.div_add in E2 by done. fold (seconds c) in E2. lia.
Qed.

(** Calls in the order of their times, each under a name of its own. *)
Fixpoint in_order (before calls : list attempt_at) : Prop :=
  match calls with
  | [] => True
  | c :: calls' => Forall (fun d => 0 <= at_us d <= at_us c) (c :: before) /\ (at_ns c ∉ at_ns <$> before) /\ in_order (c :: before) calls'
  end.

Lemma answers_promised calls : forall before s, 0 < window -> in_order before calls -> NoDup (at_ns <$> before) ->
  holds before s -> answers calls s = promised before calls.
Proof.
  induction calls as [|c calls IH]; intros before s Hw Ho Hnd Hs; [done|]. destruct Ho as (Hc & Hn & Ho).
  assert (Hnd' : NoDup (at_ns <$> c :: before)) by (by constructor).
  destruct (script_holds c before s Hw Hnd' Hc Hs) as [H1 H2]. cbn [answers promised]. rewrite served_run.
  fold key (seconds c) (member c). cbn [fst snd]. rewrite (IH (c :: before)) by done. f_equal.
  rewrite H1. destruct (Z.leb_spec (Z.of_nat (S (length (recent (seconds c) before)))) max_requests),
    (Z.ltb_spec (Z.of_nat (length (recent (seconds c) before))) max_requests); [done|lia|lia|done].
Qed.
End window.


Lemma length_filter_impl {A} (P Q : A -> Prop) `{!forall x, Decision (P x)} `{!forall x, Decision (Q x)} (l : list A) :
  (forall x, P x -> Q x) -> (length (filter P l) <= length (filter Q l))%nat.
Proof.
  intros Himp. induction l as [|x l IH]; [done|]. rewrite !filter_cons.
  destruct (decide (P x)) as [HP|HP], (decide (Q x)) as [HQ|HQ]; simpl; [lia|by destruct (HQ (Himp x HP))|lia|lia].
Qed.

Section promise.
Context (max_requests window : Z).

(** The calls of the window that ends with [T] that are let through. *)
Definition passed (T : Z) (calls : list attempt_at) (bs : list bool) : list (attempt_at * bool) :=
  filter (fun p : attempt_at * bool => p.2 = true /\ T - window < seconds p.1 <= T) (zip calls bs).

Lemma promised_within T calls : forall before, passed T calls (promised max_requests window before calls) <> [] ->
  Z.of_nat (length (passed T calls (promised max_requests window before calls))
            + length (filter (fun c => T - window < seconds c) before)) <= max_requests.
Proof.
  unfold passed. induction calls as [|c calls IH]; intros before Hne; [done|]. simpl in *. rewrite filter_cons in *. cbn [fst snd] in *.
  specialize (IH (c :: before)). rewrite filter_cons in IH. set (rest := filter _ (zip calls _)) in *.
  destruct (decide (rest = [])) as [E|E].
  - rewrite E in *. clear IH. repeat case_decide; try done.
    match goal with H : (_ <? _) = true /\ _ |- _ => destruct H as [Ha Hw] end. apply Z.ltb_lt in Ha. cbn [fst] in Hw. simpl.
    pose proof (length_filter_impl (fun c => T - window < seconds c) (fun d => seconds c - window < seconds d) before
      ltac:(intros y Hy; simpl in *; lia)). unfold recent in Ha. lia.
  - specialize (IH E). clear Hne E. repeat case_decide; simpl in *; lia.
Qed.

(** Calls at most [d] seconds apart; the latest is first in [paced]. *)
Fixpoint paced (d now : Z) (before : list attempt_at) : Prop :=
  match before with
  | [] => True
  | c :: before' => now - d <= seconds c /\ paced d (seconds c) before'
  end.

Fixpoint steady (d : Z) (before calls : list attempt_at) : Prop :=
  match calls with
  | [] => True
  | c :: calls' => paced d (seconds c) before /\ steady d (c :: before) calls'
  end.

Lemma paced_recent d now l : 0 <= d -> forall (k j : nat) now', now - Z.of_nat j * d <= now' -> Z.of_nat (j + k) * d < window ->
  paced d now' l -> (Nat.min k (length l) <= length (recent window now l))%nat.
Proof.
  intros Hd. unfold recent. induction l as [|c l IH]; intros k j now' Hj Hk Hp; [simpl; lia|]. destruct Hp as [Hc Hp].
  destruct k as [|k]; [lia|]. rewrite filter_cons, decide_True by nia. simpl.
  specialize (IH k (S j) (seconds c)). apply le_n_S, IH; [nia| |done]. by replace (S j + k)%nat with (j + S k)%nat by lia.
Qed.

Lemma promised_starves d calls : 0 <= d -> 0 <= max_requests -> max_requests * d < window -> forall before, steady d before calls ->
  Forall (eq false) (drop (Z.to_nat max_requests - length before) (promised max_requests window before calls)).
Proof.
  intros Hd Hm Hw. induction calls as [|c calls IH]; intros before Hs; [simpl; rewrite drop_nil; constructor|].
  destruct Hs as [Hp Hs]. specialize (IH (c :: before) Hs). simpl in IH. cbn [promised].
  destruct (Z.to_nat max_requests - length before)%nat as [|n] eqn:E.
  - constructor.
    + symmetry. apply Z.ltb_ge.
      pose proof (paced_recent d (seconds c) before Hd (Z.to_nat max_requests) 0 (seconds c) ltac:(lia) ltac:(nia) Hp). lia.
    + by replace (Z.to_nat max_requests - S (length before))%nat with 0%nat in IH by lia.
  - simpl. by replace (Z.to_nat max_requests - S (length before))%nat with n in IH by lia.
Qed.
End promise.

(** In every window at most [max_requests] calls are let through. *)
Theorem window_never_exceeded lim user action max_requests window calls s T :
  0 < window -> 0 <= max_requests -> in_order [] calls -> l_sets s !! (key_prefix lim +:+ action +:+ ":" +:+ user) = None ->
  Z.of_nat (length (passed window T calls (answers lim user action max_requests window calls s))) <= max_requests.
Proof.
  intros Hw Hm Ho Hs. rewrite (answers_promised lim user action max_requests window calls [] s); [|done|done|constructor|by apply holds_start].
  pose proof (promised_within max_requests window T calls []) as H. simpl in H. rewrite Nat.add_0_r in H.
  destruct (passed _ _ _ _); [done|by apply H].
Qed.

(** A refused call counts as well: a caller that goes on calling, ever so slowly but more than [max_requests] times per
    window, is refused for good after its first [max_requests] calls. *)
Theorem insistent_caller_starves lim user action max_requests window d calls s :
  0 <= d -> 0 <= max_requests -> max_requests * d < window -> in_order [] calls -> steady d [] calls ->
  l_sets s !! (key_prefix lim +:+ action +:+ ":" +:+ user) = None ->
  Forall (eq false) (drop (Z.to_nat max_requests) (answers lim user action max_requests window calls s)).
Proof.
  intros Hd Hm Hw Ho Hst Hs. rewrite (answers_promised lim user action max_requests window calls [] s); [|nia|done|constructor|by apply holds_start].
  pose proof (promised_starves max_requests window d calls Hd Hm Hw [] Hst) as H. simpl in H. by rewrite Nat.sub_0_r in H.
Qed.

(** ** The fixed windows of the alerts *)

Fixpoint alert_answers (lim : RateLimiter) (key : string) (limit ttl : Z) (times : list Z) (s : limits) : list bool :=
  match times with
  | [] => []
  | t :: times' =>
      let out := check_alert_rate_limit lim Served t key limit ttl None s in
      match fst out with Ok b => b | Raise _ => false end :: alert_answers lim key limit ttl times' (snd out)
  end.

Lemma alert_run lim t key limit ttl mode s :
  check_alert_rate_limit lim Served t key limit ttl mode s =
    (Ok (fst (incr_script t key ttl s) <=? limit), snd (incr_script t key ttl s)).
Proof. done. Qed.

Lemma alert_answers_from lim key limit ttl expires times : forall n s, 0 < n ->
  Forall (fun t => t < expires) times -> l_counters s !! key = Some {| n_value := n; n_expires := Some expires |} ->
  alert_answers lim key limit ttl times s = (fun i => n + Z.of_nat (S i) <=? limit) <$> seq 0 (length times).
Proof.
  induction times as [|t times IH]; intros n s Hn Ht Hs; [done|]. apply Forall_cons in Ht as [Ht Hts].
  assert (E : incr_script t key ttl s = (n + 1, {| l_sets := l_sets s;
    l_counters := <[key := {| n_value := n + 1; n_expires := Some expires |}]> (l_counters s) |})).
  { unfold incr_script, counted. rewrite Hs. cbn [n_expires]. destruct (Z.ltb_spec t expires); [|lia]. cbn [n_value].
    destruct (Z.eqb_spec (n + 1) 1); [lia|done]. }
  cbn [alert_answers length]. rewrite alert_run, E. cbn [fst snd]. rewrite (IH (n + 1)); [|lia|done|apply lookup_insert_eq].
  rewrite <- cons_seq, fmap_cons. f_equal. rewrite <- (fmap_S_seq 0), <- list_fmap_compose. apply list_fmap_ext. intros i x _. simpl.
  f_equal. lia.
Qed.

(** Of the alerts of one window exactly the first [limit] go out. *)
Theorem fixed_window_exact lim key limit ttl t times s :
  Forall (fun t' => t' < t + ttl * second_us) times -> counted t key s = None ->
  alert_answers lim key limit ttl (t :: times) s = (fun i => Z.of_nat (S i) <=? limit) <$> seq 0 (length (t :: times)).
Proof.
  intros Ht Hs. cbn [alert_answers length]. rewrite alert_run. unfold incr_script. rewrite Hs. cbn [fst snd n_value Z.eqb].
  rewrite (alert_answers_from lim key limit ttl (t + ttl * second_us) times 1); [|lia|done|apply lookup_insert_eq].
  rewrite <- cons_seq, fmap_cons. f_equal. rewrite <- (fmap_S_seq 0), <- list_fmap_compose. apply list_fmap_ext. intros i x _. simpl.
  f_equal. lia.
Qed.

(** The counters outlive their windows: a minute has no more than 60 seconds. *)
Lemma minute_covered t t' : minute_of t' = minute_of t -> t' < t + 60 * second_us.
Proof.
  unfold minute_of, second_us. intros H. pose proof (Z.mod_pos_bound t 1000000). pose proof (Z.mod_pos_bound t' 1000000).
  pose proof (Z.mod_pos_bound (t / 1000000) 60). pose proof (Z.mod_pos_bound (t' / 1000000) 60).
  pose proof (Z.div_mod t 1000000). pose proof (Z.div_mod t' 1000000).
  pose proof (Z.div_mod (t / 1000000) 60). pose proof (Z.div_mod (t' / 1000000) 60). lia.
Qed.

(** ** Examples *)

Definition ex_limiter : RateLimiter := {|
  fallback_mode := "deny"; default_max_requests := Some 2; default_window_seconds := Some 60; key_prefix := "rl:" |}.

Definition ex_limits : limits := {| l_sets := ∅; l_counters := ∅ |}.

(** Five calls, twenty seconds apart. *)
Definition ex_calls : list attempt_at := (fun i => {| at_us := 20 * second_us * i; at_ns := i |}) <$> [1; 2; 3; 4; 5].

Lemma ex_in_order : in_order [] ex_calls.
Proof. repeat split; try (apply (bool_decide_unpack _); vm_compute; exact I). Qed.


Lemma window_never_exceeded_witness :
  (length (passed 60 100 ex_calls (answers ex_limiter "ann" "cancel_order" 2 60 ex_calls ex_limits)) <= 2)%nat.
Proof.
  apply Nat2Z.inj_le, (window_never_exceeded ex_limiter "ann" "cancel_order" 2 60 ex_calls ex_limits 100);
    [reflexivity|discriminate|apply ex_in_order|reflexivity].
Defined.

Lemma insistent_caller_starves_witness :
  Forall (eq false) (drop 2 (answers ex_limiter "ann" "cancel_order" 2 60 ex_calls ex_limits)).
Proof.
  apply (insistent_caller_starves ex_limiter "ann" "cancel_order" 2 60 20 ex_calls ex_limits);
    [discriminate|discriminate|reflexivity|apply ex_in_order| |reflexivity].
  repeat split; vm_compute; discriminate.
Defined.

Lemma fixed_window_exact_witness : alert_answers ex_limiter "k" 2 60 [5; 7; 9] ex_limits = [true; true; false].
Proof.
  transitivity ((fun i => Z.of_nat (S i) <=? 2) <$> seq 0 3); [|reflexivity].
  apply (fixed_window_exact ex_limiter "k" 2 60 5 [7; 9] ex_limits); [repeat constructor|reflexivity].
Defined.
