(* ===== verification/Calendar.v ===== *)
(** * Calendar dates and minutes (the [datetime] of the standard library)

    The proleptic Gregorian calendar on microseconds since 1970, as far as the
    gateway formats times with it. *)

From S2P Require Import Prelude PyText OrderSchema.
Open Scope Z_scope.

(** A day of the 400-year cycle of 146097 days, from March 1st: its year of the cycle (from March to
    February), month and day. *)
Definition year_of_era (doe : Z) : Z := (doe - doe / 1460 + doe / 36524 - doe / 146096) / 365.
Definition day_of_year (doe : Z) : Z :=
  let yoe := year_of_era doe in doe - (365 * yoe + yoe / 4 - yoe / 100).

Definition month_index (doe : Z) : Z := (5 * day_of_year doe + 2) / 153.
Definition day_of_month (doe : Z) : Z := day_of_year doe - (153 * month_index doe + 2) / 5 + 1.
Definition month_of (doe : Z) : Z := if month_index doe <? 10 then month_index doe + 3 else month_index doe - 9.

(** March 1st of the year 0, in days before 1970. *)
Definition epoch_shift : Z := 719468.

(** The date of the day [n] after 1970-01-01. *)
Definition civil (n : Z) : date :=
  let era := (n + epoch_shift) / 146097 in
  let doe := (n + epoch_shift) mod 146097 in
  let m := month_of doe in
  Date (year_of_era doe + era * 400 + (if m <=? 2 then 1 else 0)) m (day_of_month doe).

(** The number of a date's day. *)
Definition days_of (d : date) : Z :=
  let y := if month d <=? 2 then year d - 1 else year d in
  let era := y / 400 in
  let yoe := y mod 400 in
  let doy := (153 * ((month d + 9) mod 12) + 2) / 5 + day d - 1 in
  era * 146097 + (yoe * 365 + yoe / 4 - yoe / 100 + doy) - epoch_shift.

(** [t.astimezone(UTC).date()] *)
Definition date_of (t : Z) : date := civil (t / day_us).

(** [t.strftime("%Y%m%d%H%M")] *)
Definition minute_key (t : Z) : string :=
  let m := t / minute_us in
  let d := civil (m / 1440) in
  of_chars (digits_w 4 (year d) ++ digits_w 2 (month d) ++ digits_w 2 (day d)
            ++ digits_w 2 (m mod 1440 / 60) ++ digits_w 2 (m mod 1440 mod 60)).

(** ** The calendar has one date per day *)

Lemma year_range doe : 0 <= doe < 146097 -> 0 <= year_of_era doe < 400 /\ 0 <= day_of_year doe <= 365.
Proof. unfold day_of_year, year_of_era. intros H. Z.to_euclidean_division_equations. lia. Qed.

Lemma month_range doe : 0 <= doe < 146097 -> 1 <= month_of doe <= 12 /\ 1 <= day_of_month doe <= 31 /\
  (153 * ((month_of doe + 9) mod 12) + 2) / 5 + day_of_month doe - 1 = day_of_year doe.
Proof.
  intros H. destruct (year_range doe H) as [_ Hd]. unfold month_of, day_of_month, month_index. set (doy := day_of_year doe) in *.
  clearbody doy. destruct (Z.ltb_spec ((5 * doy + 2) / 153) 10); Z.to_euclidean_division_equations; lia.
Qed.

(** Every day has a date and every date comes from its day. *)
Theorem calendar_roundtrip n : days_of (civil n) = n /\ 1 <= month (civil n) <= 12 /\ 1 <= day (civil n) <= 31.
Proof.
  unfold civil. set (era := (n + epoch_shift) / 146097). set (doe := (n + epoch_shift) mod 146097).
  assert (Hd : 0 <= doe < 146097) by (apply Z.mod_pos_bound; lia).
  destruct (year_range doe Hd) as [Hy _]. destruct (month_range doe Hd) as (Hm & Hdm & E).
  split; [|by split]. unfold days_of. cbn [year month day].
  replace (if month_of doe <=? 2 then year_of_era doe + era * 400 + (if month_of doe <=? 2 then 1 else 0) - 1
    else year_of_era doe + era * 400 + (if month_of doe <=? 2 then 1 else 0)) with (year_of_era doe + era * 400)
    by (destruct (month_of doe <=? 2); lia).
  rewrite Z.div_add, Z_mod_plus_full, Z.div_small, Z.mod_small by lia.
  assert (Hn : n + epoch_shift = 146097 * era + doe) by (apply Z.div_mod; lia).
  replace (year_of_era doe * 365 + year_of_era doe / 4 - year_of_era doe / 100
    + ((153 * ((month_of doe + 9) mod 12) + 2) / 5 + day_of_month doe - 1)) with doe.
  - lia.
  - rewrite E. unfold day_of_year. lia.
Qed.

Lemma civil_inj n m : civil n = civil m -> n = m.
Proof. intros H. rewrite <- (proj1 (calendar_roundtrip n)), H. apply calendar_roundtrip. Qed.

(** Dates before the year 9000. *)
Lemma year_bound n : 0 <= n < 2500000 -> 0 <= year (civil n) < 10000.
Proof.
  intros H. unfold civil. cbn [year]. set (doe := (n + epoch_shift) mod 146097).
  assert (Hd : 0 <= doe < 146097) by (apply Z.mod_pos_bound; lia). destruct (year_range doe Hd) as [Hy _].
  assert (0 <= (n + epoch_shift) / 146097 <= 22) by (unfold epoch_shift; Z.to_euclidean_division_equations; lia).
  destruct (month_of doe <=? 2); lia.
Qed.

(** Two times have one minute key exactly when they lie in one minute. *)
Theorem minute_key_inj t t' : 0 <= t < 2500000 * day_us -> 0 <= t' < 2500000 * day_us ->
  minute_key t = minute_key t' <-> t / minute_us = t' / minute_us.
Proof.
  intros Ht Ht'. split; [|by unfold minute_key; intros ->].
  assert (Hr : forall t, 0 <= t < 2500000 * day_us -> 0 <= t / minute_us / 1440 < 2500000).
  { unfold day_us, minute_us, second_us. intros u Hu. Z.to_euclidean_division_equations. lia. }
  pose proof (year_bound _ (Hr t Ht)). pose proof (year_bound _ (Hr t' Ht')). clear Hr.
  destruct (calendar_roundtrip (t / minute_us / 1440)) as (_ & Hm & Hd).
  destruct (calendar_roundtrip (t' / minute_us / 1440)) as (_ & Hm' & Hd').
  unfold minute_key. set (m := t / minute_us) in *. set (m' := t' / minute_us) in *. clearbody m m'.
  intros E. apply (f_equal chars) in E. rewrite !chars_of_chars in E.
  repeat match goal with H : digits_w ?w _ ++ _ = digits_w ?w _ ++ _ |- _ => apply app_inj_1 in H as [? H]; [|by rewrite !length_digits_w] end.
  repeat match goal with H : digits_w _ _ = digits_w _ _ |- _ =>
    apply digits_w_inj in H; [|first [lia|simpl; Z.to_euclidean_division_equations; lia]..] end.
  assert (Hc : civil (m / 1440) = civil (m' / 1440)) by (destruct (civil (m / 1440)), (civil (m' / 1440)); simpl in *; congruence).
  apply civil_inj in Hc. Z.to_euclidean_division_equations. lia.
Qed.
