(* ===== verification/ManualText.v ===== *)
(** * Reasons and identifiers of manual actions (api/manual_controls.py)

    The reason of a manual action is cleaned before it is logged, and the orders
    that manual actions place are named after what they do and the minute they do
    it in.  Text is Latin-1: one code point per character. *)

From S2P Require Import Prelude PyDecimal PyText OrderSchema OrderId Calendar.
Open Scope Z_scope.

(** ** Reasons *)

Definition REASON_MAX_LEN : nat := 512.

(** [[\x00-\x1f\x7f-\x9f]] *)
Definition is_control (c : Ascii.ascii) : bool := (code c <=? 31) || ((127 <=? code c) && (code c <=? 159)).

Definition space : Ascii.ascii := chr 32.

(** What [str.split] and [str.strip] take for a space. *)
Definition is_white (c : Ascii.ascii) : bool := is_space c || (code c =? 133) || (code c =? 160).

(** [s.split()]; [word] is the word begun so far. *)
Fixpoint split (word l : list Ascii.ascii) : list (list Ascii.ascii) :=
  match l with
  | [] => match word with [] => [] | _ => [word] end
  | c :: l' =>
      if is_white c then match word with [] => split [] l' | _ => word :: split [] l' end
      else split (word ++ [c]) l'
  end.

(** [" ".join(ws)] *)
Fixpoint join_words (ws : list (list Ascii.ascii)) : list Ascii.ascii :=
  match ws with
  | [] => []
  | [w] => w
  | w :: ws' => w ++ space :: join_words ws'
  end.

Fixpoint skip_white (l : list Ascii.ascii) : list Ascii.ascii :=
  match l with
  | c :: l' => if is_white c then skip_white l' else l
  | [] => []
  end.

Definition rstrip (l : list Ascii.ascii) : list Ascii.ascii := rev (skip_white (rev l)).

Definition _sanitize_reason (reason : string) : string :=
  let cleaned := (fun c => if is_control c then space else c) <$> chars reason in
  let cleaned := rstrip (skip_white (join_words (split [] cleaned))) in
  of_chars (if (REASON_MAX_LEN <? length cleaned)%nat then rstrip (take REASON_MAX_LEN cleaned) else cleaned).

(** A word: characters that are no spaces and no controls.  A clean text is words with a space between. *)
Definition good (c : Ascii.ascii) : Prop := is_control c = false /\ is_white c = false.
Definition word (w : list Ascii.ascii) : Prop := w <> [] /\ Forall good w.
Definition clean (l : list Ascii.ascii) : Prop := exists ws, l = join_words ws /\ Forall word ws.

Lemma word_start w : word w -> exists c w', w = c :: w' /\ is_white c = false.
Proof. intros [Hn Hg]. destruct w as [|c w']; [done|]. apply Forall_cons in Hg as [[_ Hc] _]. by exists c, w'. Qed.

Lemma word_end w : word w -> exists c w', w = w' ++ [c] /\ is_white c = false.
Proof.
  intros [Hn Hg]. destruct (exists_last Hn) as (w' & c & ->). apply Forall_app in Hg as [_ Hg].
  apply Forall_singleton in Hg as [_ Hc]. by exists c, w'.
Qed.

Lemma join_cons w ws : join_words (w :: ws) = w ++ match ws with [] => [] | _ => space :: join_words ws end.
Proof. destruct ws; simpl; [by rewrite app_nil_r|done]. Qed.

(** *** Splitting *)

Lemma split_words l : forall w, Forall (fun c => is_control c = false) (w ++ l) -> Forall (fun c => is_white c = false) w ->
  Forall word (split w l).
Proof.
  assert (Hg : forall w, Forall (fun c => is_control c = false) w -> Forall (fun c => is_white c = false) w -> Forall good w).
  { intros w H1 H2. rewrite Forall_forall in *. intros c Hc. split; auto. }
  induction l as [|c l IH]; intros w Hc Hw; simpl.
  - rewrite app_nil_r in Hc. destruct w as [|x w]; [constructor|]. apply Forall_singleton. split; [done|by apply Hg].
  - destruct (is_white c) eqn:E.
    + apply Forall_app in Hc as [Hcw Hcl]. apply Forall_cons in Hcl as [Hcc Hcl].
      assert (IH0 := IH [] Hcl ltac:(constructor)). destruct w as [|x w]; [done|]. constructor; [|done]. split; [done|by apply Hg].
    + apply IH; [by rewrite <- app_assoc|]. apply Forall_app. split; [done|]. by apply Forall_singleton.
Qed.

Lemma split_word w : forall acc l, Forall good w -> split acc (w ++ l) = split (acc ++ w) l.
Proof.
  induction w as [|c w IH]; intros acc l Hw; [by rewrite app_nil_r|]. apply Forall_cons in Hw as [[_ Hc] Hw].
  simpl. rewrite Hc, IH by done. by rewrite <- app_assoc.
Qed.

Lemma split_join ws : Forall word ws -> split [] (join_words ws) = ws.
Proof.
  induction 1 as [|w ws [Hn Hw] Hws IH]; [done|]. rewrite join_cons, split_word by done. simpl.
  destruct ws as [|w' ws]; [by destruct w|]. set (rest := join_words (w' :: ws)) in *.
  change (split w (space :: rest)) with (match w with [] => split [] rest | _ => w :: split [] rest end).
  rewrite IH. by destruct w.
Qed.

(** *** Stripping *)

Lemma rstrip_end l c : is_white c = false -> rstrip (l ++ [c]) = l ++ [c].
Proof. intros Hc. unfold rstrip. rewrite rev_app_distr. simpl. rewrite Hc. simpl. by rewrite rev_involutive. Qed.

Lemma rstrip_space l : rstrip (l ++ [space]) = rstrip l.
Proof. unfold rstrip. by rewrite rev_app_distr. Qed.

Lemma rstrip_app a b : rstrip b <> [] -> rstrip (a ++ b) = a ++ rstrip b.
Proof.
  unfold rstrip. rewrite rev_app_distr. generalize (rev b) as l. induction l as [|c l IH]; simpl; [done|].
  destruct (is_white c); [exact IH|]. intros _. simpl. by rewrite rev_app_distr, rev_involutive, <- app_assoc.
Qed.

Lemma rstrip_length l : (length (rstrip l) <= length l)%nat.
Proof.
  unfold rstrip. rewrite length_rev. rewrite <- (length_rev l). induction (rev l) as [|c l' IH]; simpl; [done|].
  destruct (is_white c); simpl; lia.
Qed.

Lemma rstrip_word w : word w -> rstrip w = w.
Proof. intros (c & w' & -> & Hc)%word_end. by apply rstrip_end. Qed.

Lemma word_rstrip_nonempty w : word w -> rstrip w <> [].
Proof. intros Hw. rewrite rstrip_word by done. apply Hw. Qed.

Lemma take_word n w : (0 < n)%nat -> word w -> word (take n w).
Proof.
  intros Hn [Hne Hg]. split; [|by apply Forall_take]. destruct n; [lia|]. by destruct w.
Qed.

(** A cut text, stripped, is clean again. *)
Lemma cut_clean n ws : (0 < n)%nat -> ws <> [] -> Forall word ws ->
  exists ws', ws' <> [] /\ Forall word ws' /\ rstrip (take n (join_words ws)) = join_words ws'.
Proof.
  intros Hn Hne Hws. revert n Hn Hne. induction Hws as [|w ws Hw Hws IH]; intros n Hn Hne; [done|]. rewrite join_cons.
  destruct (decide (n <= length w)%nat) as [Hl|Hl].
  - exists [take n w]. pose proof (take_word n w Hn Hw) as Ht. split; [done|]. split; [by apply Forall_singleton|].
    rewrite take_app_le by done. by apply rstrip_word.
  - rewrite take_app, (take_ge w) by lia. destruct ws as [|w1 ws].
    + exists [w]. split; [done|]. split; [by apply Forall_singleton|]. rewrite take_nil, app_nil_r. by apply rstrip_word.
    + destruct (n - length w)%nat as [|[|k]] eqn:E; [lia| |].
      * exists [w]. split; [done|]. split; [by apply Forall_singleton|]. simpl. rewrite rstrip_space. by apply rstrip_word.
      * destruct (IH (S k) ltac:(lia) ltac:(done)) as (ws' & Hne' & Hws' & Er). exists (w :: ws'). split; [done|].
        split; [by constructor|]. assert (Hn' : rstrip (take (S k) (join_words (w1 :: ws))) <> []).
        { rewrite Er. destruct ws' as [|w' ws']; [done|]. rewrite join_cons. apply Forall_cons in Hws' as [[Hw' _] _]. by destruct w'. }
        change (take (S (S k)) (space :: join_words (w1 :: ws))) with ([space] ++ take (S k) (join_words (w1 :: ws))).
        rewrite app_assoc, rstrip_app by done. rewrite Er, join_cons, <- app_assoc. by destruct ws'.
Qed.

Lemma join_nonempty ws : ws <> [] -> Forall word ws -> join_words ws <> [].
Proof. intros Hne Hws. destruct Hws as [|w ws [Hw _] _]; [done|]. rewrite join_cons. by destruct w. Qed.

Lemma rstrip_join ws : Forall word ws -> rstrip (join_words ws) = join_words ws.
Proof.
  induction 1 as [|w ws Hw Hws IH]; [done|]. rewrite join_cons. destruct ws as [|w' ws].
  - rewrite app_nil_r. by apply rstrip_word.
  - change (space :: join_words (w' :: ws)) with ([space] ++ join_words (w' :: ws)).
    rewrite app_assoc, rstrip_app; [by rewrite IH|]. rewrite IH. by apply join_nonempty.
Qed.

Lemma strip_clean l : clean l -> rstrip (skip_white l) = l.
Proof.
  intros (ws & -> & Hws).
  assert (E : skip_white (join_words ws) = join_words ws).
  { destruct Hws as [|w ws' Hw _]; [done|]. rewrite join_cons. destruct (word_start w Hw) as (c & w' & -> & Hc). simpl. by rewrite Hc. }
  rewrite E. by apply rstrip_join.
Qed.

Lemma clean_split l : Forall (fun c => is_control c = false) l -> clean (join_words (split [] l)).
Proof. intros H. eexists. split; [reflexivity|]. apply split_words; [exact H|constructor]. Qed.

Lemma no_controls (l : list Ascii.ascii) : Forall (fun c => is_control c = false) ((fun c => if is_control c then space else c) <$> l).
Proof. apply Forall_fmap, Forall_true. intros c. simpl. destruct (is_control c) eqn:E; [reflexivity|exact E]. Qed.

Lemma clean_no_controls l : clean l -> Forall (fun c => is_control c = false) l.
Proof.
  intros (ws & -> & Hws). induction Hws as [|w ws [_ Hw] Hws IH]; [constructor|]. rewrite join_cons. apply Forall_app. split.
  - apply (Forall_impl _ _ _ Hw). by intros c [Hc _].
  - destruct ws; [constructor|]. by constructor.
Qed.

Lemma controls_id l : Forall (fun c => is_control c = false) l -> (fun c => if is_control c then space else c) <$> l = l.
Proof. induction 1 as [|c l Hc Hl IH]; [done|]. rewrite fmap_cons, IH. by rewrite Hc. Qed.

(** What is logged as the reason is words of printable characters with single spaces between, of 512 characters at most;
    cleaning it again changes nothing. *)
Theorem sanitized_reason_clean reason :
  clean (chars (_sanitize_reason reason)) /\ (slen (_sanitize_reason reason) <= 512)%nat /\
  _sanitize_reason (_sanitize_reason reason) = _sanitize_reason reason.
Proof.
  assert (H : clean (chars (_sanitize_reason reason)) /\ (slen (_sanitize_reason reason) <= REASON_MAX_LEN)%nat).
  { unfold slen, _sanitize_reason. rewrite chars_of_chars. set (l := _ <$> chars reason).
    assert (Hc : clean (join_words (split [] l))) by apply clean_split, no_controls. rewrite strip_clean by done.
    destruct (Nat.ltb_spec REASON_MAX_LEN (length (join_words (split [] l)))) as [Hl|Hl]; [|by split].
    split; [|etransitivity; [apply rstrip_length|]; rewrite length_take; lia].
    destruct Hc as (ws & E & Hws). rewrite E in *. destruct (decide (ws = [])) as [->|Hne]; [simpl in Hl; lia|].
    destruct (cut_clean REASON_MAX_LEN ws ltac:(unfold REASON_MAX_LEN; lia) Hne Hws) as (ws' & _ & Hws' & ->). by exists ws'. }
  destruct H as [Hc Hl]. split; [exact Hc|]. split; [exact Hl|]. set (s := _sanitize_reason reason) in *.
  unfold _sanitize_reason. rewrite (controls_id (chars s)) by (by apply clean_no_controls).
  assert (E : join_words (split [] (chars s)) = chars s).
  { destruct Hc as (ws & -> & Hws). by rewrite split_join. }
  rewrite E, strip_clean by done. unfold slen in Hl. destruct (Nat.ltb_spec REASON_MAX_LEN (length (chars s))); [lia|].
  apply of_chars_chars.
Qed.

(** ** Identifiers *)

Definition optional (prefix : string) (x : option string) : string :=
  match x with None => "" | Some s => prefix +:+ s end.

(** [f"{action}:{symbol}:{side}:{qty_int}:{user_id}:{minute_key}"] and the optional parts; order type and time in
    force are given or not given, never empty. *)
Definition manual_order_text (action symbol side : string) (qty : Z) (user_id minute : string)
    (order_type : option string) (limit_price stop_price : option decimal) (time_in_force : option string) : string :=
  action +:+ ":" +:+ (symbol +:+ ":" +:+ (side +:+ ":" +:+ (str_int qty +:+ ":" +:+ (user_id +:+ ":" +:+ (minute
    +:+ (optional ":" order_type +:+ (optional ":lp" (str_decimal <$> limit_price)
    +:+ (optional ":sp" (str_decimal <$> stop_price) +:+ optional ":" time_in_force)))))))).

Definition _generate_manual_order_id (now : Z) (action symbol side : string) (qty : Z) (user_id : string)
    (order_type : option string) (limit_price stop_price : option decimal) (time_in_force : option string) : string :=
  sprefix 24 (Sha256.hexdigest (encode (manual_order_text action symbol side qty user_id (minute_key now)
    order_type limit_price stop_price time_in_force))).

Lemma split_colon a b ra rb : no_char 58 a -> no_char 58 b -> a +:+ ":" +:+ ra = b +:+ ":" +:+ rb -> a = b /\ ra = rb.
Proof. intros Ha Hb H. by apply (split_sep 58 a b ra rb (chr 58)). Qed.

Lemma minute_key_length t : slen (minute_key t) = 12%nat.
Proof. unfold slen, minute_key. by rewrite chars_of_chars, !length_app, !length_digits_w. Qed.

Lemma split_prefix a b ra rb : slen a = slen b -> a +:+ ra = b +:+ rb -> a = b /\ ra = rb.
Proof.
  intros Hlen H. apply (f_equal chars) in H. rewrite !chars_app in H.
  apply app_inj_1 in H as [H1 H2]; [|exact Hlen]. by split; apply (inj chars).
Qed.

(** The hashed text names the order and the minute: two orders of one user and one kind with the same text
    are for the same symbol, side and quantity and fall into the same minute, so a retry is recognised
    within the minute of the first request, and never after it. *)
Theorem manual_text_determines action user_id symbol symbol' side side' qty qty' t t' ot ot' lp lp' sp sp' tif tif' :
  no_char 58 symbol -> no_char 58 symbol' -> no_char 58 side -> no_char 58 side' ->
  0 <= t < 2500000 * day_us -> 0 <= t' < 2500000 * day_us ->
  manual_order_text action symbol side qty user_id (minute_key t) ot lp sp tif
  = manual_order_text action symbol' side' qty' user_id (minute_key t') ot' lp' sp' tif' ->
  symbol = symbol' /\ side = side' /\ qty = qty' /\ t / minute_us = t' / minute_us.
Proof.
  intros H1 H2 H3 H4 Ht Ht' H. unfold manual_order_text in H.
  apply (inj (String.append _)), (inj (String.append _)) in H.
  apply split_colon in H as [-> H]; [|done|done]. apply split_colon in H as [-> H]; [|done|done].
  apply split_colon in H as [Hq H]; [|apply str_int_no_char; lia|apply str_int_no_char; lia].
  apply (inj (String.append _)), (inj (String.append _)) in H.
  apply split_prefix in H as [Hm _]; [|by rewrite !minute_key_length]. split_and!; [done|done| |by apply minute_key_inj].
  by apply (inj str_int).
Qed.
