(* ===== verification/Listings.v ===== *)
(** * Listings of orders, positions and fills (apps/execution_gateway/database.py)

    The queries behind the operator's screens.  Text is ordered by code point. *)

From S2P Require Import Prelude PyDecimal PyText OrderStatus OrderSchema GatewayDb FillOps.
Open Scope Z_scope.

(** ** Pending orders *)

Definition SORT_COLUMNS : list string := ["created_at"; "updated_at"; "symbol"; "strategy_id"; "status"].

(** The order of one column of the whitelist; any other name is [created_at]. *)
Definition column_le (column : string) (a b : order_row) : bool :=
  match column with
  | "updated_at" => o_updated_at a <=? o_updated_at b
  | "symbol" => string_le (o_symbol (o_core a)) (o_symbol (o_core b))
  | "strategy_id" => string_le (o_strategy_id (o_core a)) (o_strategy_id (o_core b))
  | "status" => string_le (o_status (o_exec a)) (o_status (o_exec b))
  | _ => o_created_at a <=? o_created_at b
  end.

Definition listed_le (column : string) (ascending : bool) (a b : OrderDetail) : Prop :=
  (if ascending then column_le column a.2 b.2 else column_le column b.2 a.2) = true.
#[export] Instance listed_le_dec column ascending : RelDecision (listed_le column ascending).
Proof. intros a b. unfold listed_le. apply _. Defined.

Record pending_filter := {
  pf_symbol : option string;
  pf_strategy_ids : option (list string);
  pf_parent_order_id : option string
}.

(** An empty filter text is no filter. *)
Definition text_filter (x : option string) : option string :=
  match x with Some "" => None | _ => x end.

Definition pending_match (f : pending_filter) (r : order_row) : bool :=
  one_of (o_status (o_exec r)) PENDING_STATUSES &&
  opt_check (fun s => bool_decide (o_symbol (o_core r) = upper s)) (text_filter (pf_symbol f)) &&
  opt_check (fun l => one_of (o_strategy_id (o_core r)) l) (pf_strategy_ids f) &&
  opt_check (fun p => bool_decide (o_parent_order_id (o_links r) = Some p)) (text_filter (pf_parent_order_id f)).

(** The page, and how many there are in all. *)
Definition get_pending_orders (f : pending_filter) (limit offset : Z) (sort_by sort_order : string)
    : M db (list OrderDetail * Z) :=
  reads (fun s =>
    let rows := select_orders (pending_match f) s in
    (take (Z.to_nat limit) (drop (Z.to_nat offset)
       (merge_sort (listed_le sort_by (bool_decide (lower sort_order = "asc"))) rows)),
     Z.of_nat (length rows))).

(** ** Positions *)

Definition text_le (a b : string) : Prop := string_le a b = true.
#[export] Instance text_le_dec : RelDecision text_le.
Proof. intros a b. unfold text_le. apply _. Defined.

Definition by_symbol (a b : string * position_row) : Prop := text_le a.1 b.1.
#[export] Instance by_symbol_dec : RelDecision by_symbol.
Proof. intros a b. unfold by_symbol. apply _. Defined.

(** [get_all_positions] with its [ORDER BY symbol]. *)
Definition positions_in_order : M db (list (string * position_row)) :=
  ps ← get_all_positions; mret (merge_sort by_symbol ps).

(** [ARRAY_AGG(DISTINCT strategy_id)]; the column is NOT NULL. *)
Definition strategies_of (symbol : string) (s : db) : list string :=
  remove_dups ((fun p : OrderDetail => o_strategy_id (o_core p.2))
    <$> select_orders (fun r => bool_decide (o_symbol (o_core r) = symbol)) s).

(** [HAVING COUNT(DISTINCT strategy_id) = 1]: the strategy of a symbol, when there is exactly one. *)
Definition only_strategy (symbol : string) (s : db) : option string :=
  match strategies_of symbol s with [x] => Some x | _ => None end.

(** [MAPPED_POSITIONS_QUERY] *)
Definition get_positions_for_strategies (strategies : list string) : M db (list (string * position_row)) :=
  match strategies with
  | [] => mret []
  | _ =>
      ps ← positions_in_order;
      reads (fun s => filter (fun p : string * position_row =>
        match only_strategy p.1 s with Some x => one_of x strategies | None => false end = true) ps)
  end.

Definition get_strategy_map_for_symbols (symbols : list string) : M db (gmap string (option string)) :=
  reads (fun s => list_to_map ((fun symbol => (symbol, only_strategy symbol s)) <$> symbols)).

(** ** Recent fills *)

Record fill_event := {
  fe_client_order_id : string;
  fe_symbol : string;
  fe_side : string;
  fe_status : string;
  fe_qty : decimal;
  fe_price : decimal;
  fe_realized_pl : decimal;
  fe_timestamp : Z
}.

Definition hour_us : Z := 3600 * second_us.

Definition fills_of (r : order_row) : list fill_rec :=
  match o_metadata r with Some m => default [] (m_fills m) | None => [] end.

Definition event_of (id : string) (r : order_row) (f : fill_rec) : fill_event := {|
  fe_client_order_id := id; fe_symbol := o_symbol (o_core r); fe_side := o_side (o_core r); fe_status := o_status (o_exec r);
  fe_qty := f_fill_qty f; fe_price := f_fill_price f; fe_realized_pl := default dzero (f_realized_pl f);
  fe_timestamp := default (o_updated_at r) (f_timestamp f) |}.

(** The fills of one order that count, at time [now]. *)
Definition recent_events (now lookback_hours : Z) (p : OrderDetail) : list fill_event :=
  filter (fun e => now - lookback_hours * hour_us <= fe_timestamp e)
    (event_of p.1 p.2 <$> filter (fun f => f_superseded f = false) (fills_of p.2)).

Definition recently_filled (now lookback_hours : Z) (strategy_ids : option (list string)) (r : order_row) : bool :=
  one_of (o_status (o_exec r)) ["filled"; "partially_filled"] &&
  (now - lookback_hours * hour_us <=? o_updated_at r) &&
  opt_check (fun l => one_of (o_strategy_id (o_core r)) l) strategy_ids.

Definition latest_first (a b : fill_event) : Prop := fe_timestamp b <= fe_timestamp a.
#[export] Instance latest_first_dec : RelDecision latest_first.
Proof. intros a b. unfold latest_first. apply _. Defined.

Definition get_recent_fills (now : Z) (strategy_ids : option (list string)) (limit lookback_hours : Z) : M db (list fill_event) :=
  match strategy_ids with
  | Some [] => mret []
  | _ =>
      let limit := Z.max 1 (Z.min limit 200) in
      let hours := Z.max 1 (Z.min lookback_hours 168) in
      reads (fun s => take (Z.to_nat limit) (merge_sort latest_first
        (select_orders (recently_filled now hours strategy_ids) s ≫= recent_events now hours)))
  end.

(** ** What the listings contain *)


Lemma Zleb_total a b : (a <=? b) = true \/ (b <=? a) = true.
Proof. rewrite !Z.leb_le. lia. Qed.

Lemma column_le_total column a b : column_le column a b = true \/ column_le column b a = true.
Proof.
  unfold column_le. repeat case_match; try apply Zleb_total; apply codes_le_total.
Qed.

Lemma select_orders_spec cond D id r : (id, r) ∈ select_orders cond D <-> db_orders D !! id = Some r /\ cond r = true.
Proof. unfold select_orders. rewrite elem_of_map_to_list, map_lookup_filter_Some. simpl. done. Qed.

Lemma select_orders_nodup cond D : NoDup ((select_orders cond D).*1).
Proof. apply NoDup_fst_map_to_list. Qed.

Lemma take_mem {A} n (l : list A) x : x ∈ take n l -> x ∈ l.
Proof. intros H. rewrite <- (take_drop n l). apply elem_of_app. by left. Qed.

Lemma drop_mem {A} n (l : list A) x : x ∈ drop n l -> x ∈ l.
Proof. intros H. rewrite <- (take_drop n l). apply elem_of_app. by right. Qed.

Lemma NoDup_take {A} n (l : list A) : NoDup l -> NoDup (take n l).
Proof. intros H. rewrite <- (take_drop n l) in H. by apply NoDup_app in H as [H _]. Qed.

Lemma NoDup_drop {A} n (l : list A) : NoDup l -> NoDup (drop n l).
Proof. intros H. rewrite <- (take_drop n l) in H. by apply NoDup_app in H as (_ & _ & H). Qed.

Lemma pages_join {A} (size : nat) (l : list A) (n : nat) :
  (seq 0 n ≫= fun k => take size (drop (k * size) l)) = take (n * size) l.
Proof.
  induction n as [|n IH]; [done|]. rewrite seq_S, bind_app, IH, Nat.add_0_l, bind_cons, app_nil_r.
  rewrite take_take_drop. f_equal. lia.
Qed.

Lemma bind_same {A B} (f g : A -> list B) l : (forall x, f x = g x) -> l ≫= f = l ≫= g.
Proof. intros H. induction l as [|x l IH]; [done|]. by rewrite !bind_cons, H, IH. Qed.

(** Page [k] of a listing. *)
Definition page (f : pending_filter) (limit : Z) (sort_by sort_order : string) (k : nat) (D : db) : list OrderDetail :=
  match fst (get_pending_orders f limit (Z.of_nat k * limit) sort_by sort_order D) with Ok (l, _) => l | Raise _ => [] end.

Definition pages (f : pending_filter) (limit : Z) (sort_by sort_order : string) (n : nat) (D : db) : list OrderDetail :=
  seq 0 n ≫= fun k => page f limit sort_by sort_order k D.

(** While nothing changes and rows with equal keys come in the same order each time, the pages up to the total hold every
    pending order of the filter, each once, in the order asked for. *)
Theorem pages_cover f limit sort_by sort_order n D : 0 < limit ->
  (forall total l, fst (get_pending_orders f limit 0 sort_by sort_order D) = Ok (l, total) -> (total <= Z.of_nat n * limit)%Z) ->
  let listing := pages f limit sort_by sort_order n D in
  NoDup (listing.*1) /\
  (forall id r, (id, r) ∈ listing <-> db_orders D !! id = Some r /\ pending_match f r = true) /\
  Sorted (listed_le sort_by (bool_decide (lower sort_order = "asc"))) listing.
Proof.
  intros Hl Ht. specialize (Ht _ _ eq_refl). intros listing.
  assert (E : listing = merge_sort (listed_le sort_by (bool_decide (lower sort_order = "asc"))) (select_orders (pending_match f) D)).
  { unfold listing, pages, page, get_pending_orders, reads. cbn [fst].
    transitivity (seq 0 n ≫= fun k => take (Z.to_nat limit) (drop (k * Z.to_nat limit)
      (merge_sort (listed_le sort_by (bool_decide (lower sort_order = "asc"))) (select_orders (pending_match f) D)))).
    - apply bind_same. intros k. do 2 f_equal. lia.
    - rewrite pages_join. apply take_ge. rewrite merge_sort_Permutation. lia. }
  rewrite E. split; [rewrite merge_sort_Permutation; apply select_orders_nodup|]. split.
  - intros id r. rewrite merge_sort_Permutation. apply select_orders_spec.
  - apply Sorted_merge_sort. intros a b. unfold listed_le.
    destruct (bool_decide _); apply column_le_total.
Qed.
