(* ===== verification/Mfa.v ===== *)
(** * The second factor (api/dependencies.py)

    [flatten_all] wants an ID token that proves a recent second factor of the same
    user.  What the JWKS validator makes of a token - the signature, issuer,
    audience and expiry are the JWT library's business - is given. *)

From S2P Require Import Prelude PyText OrderSchema.
Open Scope Z_scope.

Definition MFA_TOKEN_MAX_AGE_SECONDS : Z := 60.

(** The claims of a token that verified; [auth_time] in seconds. *)
Record claims := { cl_sub : option string; cl_amr : list string; cl_auth_time : option Z }.

(** What [validate_id_token] returns or raises. *)
Inductive id_token_check :=
| Claims (c : claims)
| ExpiredSignatureError
| InvalidIssuerError
| InvalidAudienceError
| ImmatureSignatureError
| RequestError
| InvalidTokenError
| DataError.

Definition MFA_METHODS : list string := ["webauthn"; "hwk"; "otp"; "sms"; "push"; "mfa"].

(** The first of them, the strongest first, that the token names. *)
Definition amr_method (amr : list string) : option string := head (filter (fun m => m ∈ amr) MFA_METHODS).

Definition TwoFaResult : Type := bool * option string * option string.

Definition denied (why : string) : TwoFaResult := (false, Some why, None).

(** At [now], in microseconds; [validator] is [None] when Auth0 is not configured. *)
Definition verify_2fa_token (validator : option (string -> id_token_check)) (now : Z) (id_token requesting_user_id : string)
    : TwoFaResult :=
  match validator with
  | None => denied "mfa_misconfigured"
  | Some validate =>
      match validate id_token with
      | ExpiredSignatureError => denied "token_expired"
      | InvalidIssuerError => denied "invalid_issuer"
      | InvalidAudienceError => denied "invalid_audience"
      | ImmatureSignatureError => denied "token_not_yet_valid"
      | RequestError => denied "mfa_unavailable"
      | InvalidTokenError | DataError => denied "invalid_jwt"
      | Claims c =>
          if negb (bool_decide (cl_sub c = Some requesting_user_id)) then denied "token_mismatch"
          else if negb (existsb (fun m => bool_decide (m ∈ cl_amr c)) MFA_METHODS) then denied "mfa_required"
          else match cl_auth_time c with
               | None | Some 0 => denied "mfa_required"
               | Some auth_time =>
                   let auth_age := now - auth_time * second_us in
                   if auth_age <? 0 then denied "token_not_yet_valid"
                   else if MFA_TOKEN_MAX_AGE_SECONDS * second_us <? auth_age then denied "mfa_expired"
                   else (true, None, amr_method (cl_amr c))
               end
      end
  end.

Definition mfa_invalid : Z * string := (403, "mfa_invalid").

(** The map of [flatten_all_positions], and its default. *)
Definition error_map (mfa_error : string) : Z * string :=
  match mfa_error with
  | "token_expired" | "mfa_expired" => (403, "mfa_expired")
  | "invalid_issuer" | "invalid_audience" | "invalid_jwt" => mfa_invalid
  | "token_mismatch" => (403, "token_mismatch")
  | "mfa_misconfigured" | "mfa_unavailable" => (503, "mfa_unavailable")
  | _ => (403, "mfa_required")
  end.

(** A second factor counts when the token is the user's own, names a method, and the login is at most a minute old and
    not in the future; the method reported is the strongest one named. *)
Theorem second_factor_exact validator now id_token user method :
  verify_2fa_token validator now id_token user = (true, None, method) <->
  exists validate c t, validator = Some validate /\ validate id_token = Claims c /\ cl_sub c = Some user /\
    cl_auth_time c = Some t /\ t <> 0 /\ 0 <= now - t * second_us <= MFA_TOKEN_MAX_AGE_SECONDS * second_us /\
    method = amr_method (cl_amr c) /\ is_Some method.
Proof.
  assert (Hm : forall amr, existsb (fun m => bool_decide (m ∈ amr)) MFA_METHODS = true <-> is_Some (amr_method amr)).
  { intros amr. unfold amr_method. rewrite existsb_exists. split.
    - intros (m & Hin & Hm). apply bool_decide_eq_true in Hm. destruct (filter _ MFA_METHODS) as [|x l] eqn:E; [|by eexists].
      exfalso. apply (filter_nil_not_elem_of _ _ m E Hm). by apply list_elem_of_In.
    - intros [m Hm]. apply head_Some_elem_of in Hm. apply list_elem_of_filter in Hm as [Ha Hin]. exists m.
      split; [by apply list_elem_of_In|by apply bool_decide_eq_true]. }
  unfold verify_2fa_token, denied. split.
  - destruct validator as [validate|]; [|discriminate]. destruct (validate id_token) as [c| | | | | | |] eqn:Ev; try discriminate.
    case_bool_decide as Hs; [|discriminate]. destruct (existsb _ _) eqn:Ea; [|discriminate]. apply Hm in Ea.
    cbn [negb]. destruct (cl_auth_time c) as [t|] eqn:Et; [|discriminate]. destruct (decide (t = 0)) as [->|Hz]; [discriminate|].
    assert (E : forall A (a b : A), match t with 0 => a | _ => b end = b) by (by destruct t). rewrite E. clear E.
    destruct (Z.ltb_spec (now - t * second_us) 0); [discriminate|]. destruct (Z.ltb_spec (MFA_TOKEN_MAX_AGE_SECONDS * second_us) (now - t * second_us)); [discriminate|].
    intros [= <-]. exists validate, c, t. by split_and!.
  - intros (validate & c & t & -> & -> & Hs & Et & Hz & Ht & -> & Hsome). rewrite bool_decide_true by done. apply Hm in Hsome. rewrite Hsome, Et. cbn [negb].
    assert (E : forall A (a b : A), match t with 0 => a | _ => b end = b) by (by destruct t). rewrite E. clear E.
    destruct (Z.ltb_spec (now - t * second_us) 0); [lia|]. destruct (Z.ltb_spec (MFA_TOKEN_MAX_AGE_SECONDS * second_us) (now - t * second_us)); [lia|]. done.
Qed.
