(* ===== verification/ManualBase.v ===== *)
(** * What the manual controls share (api/manual_controls.py, api/dependencies.py, audit_logger.py)

    An operator's action runs on the state of the gateway, writes entries to the
    audit log and uses up the operator's rate limit.  The audit writer swallows
    every failure, so an entry may be missing, and never changes the outcome of
    the action.  The details of an entry are the reason and the field that tells
    it apart; the detail of an HTTPException is its error code. *)

From S2P Require Import Prelude PyDecimal PyText OrderStatus OrderSchema GatewayDb OrderCas RedisClient RateLimiter.
From S2P Require Import Access Gateway SliceExec OrderGates OrderSubmit OrderOutcome ManualText.
From S2P Require KillSwitch Breaker Recovery.
Open Scope Z_scope.

Record audit_entry := {
  au_user : string;
  au_action : string;
  au_resource_type : string;
  au_resource_id : string;
  au_outcome : string;
  au_reason : option string;
  au_detail : string
}.

Record mc := { mc_gw : gw; mc_audit : list audit_entry; mc_limits : limits }.

Definition put_gw (g : gw) (s : mc) : mc := {| mc_gw := g; mc_audit := mc_audit s; mc_limits := mc_limits s |}.

Definition on_gw {A} : M gw A -> M mc A := zoom mc_gw put_gw.

(** The dependencies of the endpoints. *)
Record controls := {
  mx_app : gateway;
  mx_limiter : RateLimiter;
  mx_redis : bool;
  mx_executor : bool;
  mx_dry_run : bool;
  mx_scheduler : bool;
  mx_max_price_age : Z
}.

(** ** The audit log *)

(** [AuditLogger._write]: [except Exception: pass] *)
Definition log_action (env : environment) (e : audit_entry) : M mc unit := fun s =>
  let g := mc_gw s in
  let n := g_calls g in
  (Ok tt, {| mc_gw := after_call (others env n (g_shared g)) g;
             mc_audit := match fates env n with Down _ => mc_audit s | _ => mc_audit s ++ [e] end;
             mc_limits := mc_limits s |}).

Definition entry (user : AuthenticatedUser) (action resource_type resource_id outcome : string) (reason : option string)
    (detail : string) : audit_entry := {|
  au_user := user_id user; au_action := action; au_resource_type := resource_type; au_resource_id := resource_id;
  au_outcome := outcome; au_reason := reason; au_detail := detail |}.

(** An entry, and then the answer. *)
Definition log_and_raise {A} (env : environment) (e : audit_entry) (x : exn) : M mc A := _ ← log_action env e; raise x.

(** ** Rate limits and permissions *)

(** [RATE_LIMITS] *)
Definition RATE_LIMITS (action : string) : option (Z * Z) :=
  match action with
  | "cancel_order" | "close_position" | "adjust_position" | "manual_order" | "pending_orders" => Some (10, 60)
  | "cancel_all" | "recent_fills" => Some (5, 60)
  | "flatten_all" => Some (1, 300)
  | _ => None
  end.

(** The fate of a command that is sent once. *)
Definition one_command (f : fate) : attempt :=
  match f with Up => Served | Down _ => Lost false | ReplyLost _ => Lost true end.

(** [check_rate_limit_with_fallback]: a limiter that raises is a refusal; the clock of a call names its member. *)
Definition check_rate_limit_with_fallback (env : environment) (lim : RateLimiter) (user action : string)
    (max_requests window_seconds : Z) : M mc bool := fun s =>
  let g := mc_gw s in
  let n := g_calls g in
  let '(r, l) := check_rate_limit lim (one_command (fates env n)) (clock env n) (1000 * clock env n) user action
                   max_requests window_seconds None (mc_limits s) in
  (Ok (match r with Ok x => x.1 | Raise _ => false end),
   {| mc_gw := after_call (others env n (g_shared g)) g; mc_audit := mc_audit s; mc_limits := l |}).

Definition _enforce_rate_limit (env : environment) (cx : controls) (user : AuthenticatedUser) (action : string) : M mc unit :=
  match RATE_LIMITS action with
  | None => raise (KeyError action)
  | Some (max_requests, window) =>
      allowed ← check_rate_limit_with_fallback env (mx_limiter cx) (user_id user) action max_requests window;
      if allowed : bool then mret tt
      else log_and_raise env (entry user action "rate_limit" action "rate_limited" None "") (HTTPException 429 "rate_limited")
  end.

(** The single-admin model: every permission is granted (permissions.py). *)
Definition has_permission (user : AuthenticatedUser) (permission : string) : bool := true.

Definition _ensure_permission_with_audit (env : environment) (user : AuthenticatedUser) (permission action : string) : M mc unit :=
  if negb (has_permission user permission)
  then log_and_raise env (entry user action "endpoint" "*" "denied" None permission) (HTTPException 403 "permission_denied")
  else mret tt.

Definition MANUAL_CONTROL_STRATEGY_PREFIX : string := "manual_controls_".

Definition MANUAL_CONTROL_STRATEGIES : list string :=
  (fun s => MANUAL_CONTROL_STRATEGY_PREFIX +:+ s) <$> ["close_position"; "adjust_position"; "flatten_all"; "trade"].

Definition MANUAL_CONTROL_PERMISSIONS : list string :=
  ["cancel_order"; "close_position"; "adjust_position"; "flatten_all"; "submit_order"].

Definition _manual_controls_allowed (user : AuthenticatedUser) : bool :=
  existsb (has_permission user) MANUAL_CONTROL_PERMISSIONS.

Definition starts_with (p s : string) : bool := bool_decide (sprefix (slen p) s = p).

Definition _strategy_allowed (user : AuthenticatedUser) (strategy_id : string) : bool :=
  if has_permission user "view_all_strategies" then true
  else if starts_with MANUAL_CONTROL_STRATEGY_PREFIX strategy_id then _manual_controls_allowed user
  else bool_decide (strategy_id ∈ get_authorized_strategies (Some user)).

(** [None]: every strategy; the order of the list, which the code sorts, is not used. *)
Definition _apply_strategy_scope (user : AuthenticatedUser) (strategies : list string) : option (list string) :=
  if has_permission user "view_all_strategies" then None
  else Some (strategies ++ if _manual_controls_allowed user then MANUAL_CONTROL_STRATEGIES else []).

Definition _require_non_empty_strategy_scope (env : environment) (user : AuthenticatedUser) (action resource_type resource_id : string)
    : M mc (option (list string)) :=
  match _apply_strategy_scope user (get_authorized_strategies (Some user)) with
  | Some [] => log_and_raise env (entry user action resource_type resource_id "failed" None "no_authorized_strategies")
                 (HTTPException 403 "strategy_unauthorized")
  | scope => mret scope
  end.

(** ** The switches *)

Definition breaker_unavailable : exn := HTTPException unavailable "circuit_breaker_unavailable".
Definition breaker_tripped : exn := HTTPException unavailable "circuit_breaker_tripped".

(** The key of the breaker holds what the breaker wrote; a missing key is the empty text. *)
Definition _parse_circuit_breaker_state (d : option Breaker.cb_data) : string :=
  match d with None => "" | Some d => upper (Breaker.state d) end.

Definition read_breaker_state (env : environment) : M mc string :=
  on_gw (call env (fun _ => in_breaker (reads (fun s => _parse_circuit_breaker_state (Breaker.state_key s))))).

(** [except RedisError] *)
Definition is_redis_error (e : exn) : bool := match e with RedisError => true | _ => false end.

Definition breaker_failed {A} (env : environment) (user : AuthenticatedUser) (action reason detail : string) : M mc A :=
  log_and_raise env (entry user action "circuit_breaker" "state" "failed" (Some reason) detail) breaker_unavailable.

Definition _check_circuit_breaker (env : environment) (cx : controls) (user : AuthenticatedUser) (action reason : string) : M mc unit :=
  if negb (mx_redis cx) then breaker_failed env user action reason "redis_unavailable"
  else
    state ← try_except (read_breaker_state env)
      (fun e => if is_redis_error e then Some (breaker_failed env user action reason "redis_error") else None);
    if bool_decide (state = "") then breaker_failed env user action reason "state_missing"
    else if bool_decide (state = "TRIPPED")
    then log_and_raise env (entry user action "circuit_breaker" "state" "denied" (Some reason) state) breaker_tripped
    else mret tt.

Definition _check_kill_switch (env : environment) (user : AuthenticatedUser) (action reason : string) : M mc unit :=
  kill_switch ← on_gw (recovery_flag env Recovery.kill_switch);
  is_unavailable ← on_gw (recovery_flag env Recovery.kill_switch_unavailable);
  if is_unavailable || negb kill_switch
  then log_and_raise env (entry user action "kill_switch" "state" "failed" (Some reason) "kill_switch_unavailable")
         (HTTPException unavailable "kill_switch_unavailable")
  else
    engaged ← on_gw (call env (fun _ => in_kill KillSwitch.is_engaged));
    if engaged : bool
    then log_and_raise env (entry user action "kill_switch" "state" "denied" (Some reason) "ENGAGED")
           (HTTPException unavailable "kill_switch_engaged")
    else mret tt.

(** ** Quantities *)

(** [qty == qty.to_integral_value()] *)
Definition integral (d : decimal) : bool := if 0 <=? dexp d then true else Z.rem (coef d) (10 ^ (- dexp d)) =? 0.

Definition invalid_request : exn := HTTPException 400 "invalid_request".

Definition _require_integral_qty (qty : decimal) : result Z :=
  if negb (integral qty) then Raise invalid_request
  else if dint qty <=? 0 then Raise invalid_request
  else Ok (dint qty).

(** [except (OperationalError, DatabaseError)] *)
Definition is_database_error (e : exn) : bool :=
  match e with OperationalError _ | IntegrityError _ | ProgrammingError _ | InternalError _ => true | _ => false end.

Definition broker_unavailable : exn := HTTPException unavailable "broker_unavailable".

(** ** The start of every action *)

(** Permission, rate limit and strategies. *)
Definition admitted (env : environment) (cx : controls) (user : AuthenticatedUser) (permission action limit_name resource_type
    resource_id : string) : M mc (option (list string)) :=
  _ ← _ensure_permission_with_audit env user permission action;
  _ ← _enforce_rate_limit env cx user limit_name;
  _require_non_empty_strategy_scope env user action resource_type resource_id.

(** ** Steps when nobody interferes *)

Abbreviation db_of s := (sh_db (g_shared (mc_gw s))).

(** From [s] to [s'] the database became [D], and the requests [sent] and the entries [log] were added. *)
Record went (s s' : mc) (D : db) (sent : list broker_request) (log : list audit_entry) : Prop := {
  went_shared : g_shared (mc_gw s') = set_db D (g_shared (mc_gw s));
  went_sent : g_sent (mc_gw s') = g_sent (mc_gw s) ++ sent;
  went_log : mc_audit s' = mc_audit s ++ log;
  went_jobs : g_jobs (mc_gw s') = g_jobs (mc_gw s)
}.

Lemma went_db s s' D sent log : went s s' D sent log -> db_of s' = D.
Proof. intros [-> _ _ _]. done. Qed.

Lemma set_db_id sh : set_db (sh_db sh) sh = sh.
Proof. by destruct sh. Qed.

Lemma went_refl s : went s s (db_of s) [] [].
Proof. split; rewrite ?set_db_id, ?app_nil_r; done. Qed.

(** Every step adds to what came before it. *)
Section quiet.
Context (env : environment).
Hypothesis Hq : quiet env.

Lemma clock_from s1 : exists t, on_gw (read_clock env) s1 = (Ok t, s1).
Proof. eexists. unfold on_gw. rewrite zoom_run. unfold read_clock. cbn [fst snd]. by destruct s1. Qed.

Section from.
Context {s s1 : mc} {D : db} {sent : list broker_request} {log : list audit_entry}.
Hypothesis W : went s s1 D sent log.

Lemma log_from e : exists s2, log_action env e s1 = (Ok tt, s2) /\ went s s2 D sent (log ++ [e]).
Proof.
  unfold log_action. destruct Hq as [Hu Ho]. rewrite Hu, Ho. eexists. split; [reflexivity|].
  destruct W as [H1 H2 H3 H4]. split; simpl; [exact H1|exact H2|by rewrite H3, app_assoc|exact H4].
Qed.

Lemma log_raise_from {A} e x : exists s2, log_and_raise (A:=A) env e x s1 = (Raise x, s2) /\ went s s2 D sent (log ++ [e]).
Proof. destruct (log_from e) as (s2 & E & H). exists s2. split; [|exact H]. unfold log_and_raise. by rewrite M_bind_run, E. Qed.

Lemma db_from {A} (m : Z -> M db A) : exists now s2, on_gw (call env (fun now => in_db (m now))) s1 = (fst (m now D), s2) /\
  went s s2 (snd (m now D)) sent log.
Proof.
  unfold on_gw. rewrite zoom_run, call_quiet by done. unfold in_db. rewrite zoom_run. cbn [fst snd]. rewrite (went_db _ _ _ _ _ W).
  exists (clock env (g_calls (mc_gw s1))). eexists. split; [reflexivity|]. destruct W as [H1 H2 H3 H4].
  split; simpl; [by rewrite H1|exact H2|exact H3|exact H4].
Qed.

Lemma ask_from r : exists s2, on_gw (ask_broker env r) s1 = (Ok (broker_api env (g_sent (mc_gw s) ++ sent ++ [r])), s2) /\
  went s s2 D (sent ++ [r]) log.
Proof.
  unfold on_gw. rewrite zoom_run. unfold ask_broker. destruct Hq as [_ Ho]. rewrite Ho. cbn [fst snd].
  destruct W as [H1 H2 H3 H4]. rewrite H2, app_assoc. eexists. split; [reflexivity|].
  split; simpl; [exact H1|by rewrite app_assoc|exact H3|exact H4].
Qed.

Lemma cancel_from b : exists s2, on_gw (Gateway.cancel_order env b) s1
    = (cancel_reply (broker_api env (g_sent (mc_gw s) ++ sent ++ [Cancel b])), s2) /\ went s s2 D (sent ++ [Cancel b]) log.
Proof.
  destruct (ask_from (Cancel b)) as (s2 & E & H). exists s2. split; [|exact H]. unfold on_gw in *. rewrite zoom_run in *.
  unfold Gateway.cancel_order. rewrite M_bind_run. unfold ask_broker in *. cbn [fst snd] in *. injection E as Er <-. by rewrite Er.
Qed.

Lemma limit_from lim user action n window : exists b s2,
  check_rate_limit_with_fallback env lim user action n window s1 = (Ok b, s2) /\ went s s2 D sent log.
Proof.
  unfold check_rate_limit_with_fallback. destruct Hq as [Hu Ho]. rewrite Hu, Ho. destruct (check_rate_limit _ _ _ _ _ _ _ _ _ _) as [r l].
  eexists _, _. split; [reflexivity|]. destruct W as [H1 H2 H3 H4]. by split.
Qed.
End from.

(** An action that is not admitted has been logged, no more. *)
Lemma admitted_run cx user permission action limit_name rtype rid s : exists log s',
  went s s' (db_of s) [] log /\
  (admitted env cx user permission action limit_name rtype rid s = (Ok None, s') /\ log = [] \/
   exists e, admitted env cx user permission action limit_name rtype rid s = (Raise e, s')).
Proof.
  unfold admitted, _ensure_permission_with_audit, _enforce_rate_limit, _require_non_empty_strategy_scope, _apply_strategy_scope.
  cbn [negb has_permission]. rewrite !M_bind_run. change ((mret tt : M mc unit) s) with (@Ok unit tt, s). cbv beta iota.
  rewrite M_bind_run. destruct (RATE_LIMITS limit_name) as [[n window]|].
  - destruct (limit_from (went_refl s) (mx_limiter cx) (user_id user) limit_name n window) as (b & s1 & E & W). rewrite M_bind_run, E.
    destruct b; [exists [], s1; split; [exact W|by left]|].
    destruct (log_raise_from (A:=unit) W (entry user limit_name "rate_limit" limit_name "rate_limited" None "")
        (HTTPException 429 "rate_limited")) as (s2 & E2 & W2). rewrite E2. exists (([] : list audit_entry) ++ [entry user limit_name "rate_limit" limit_name "rate_limited" None ""]), s2.
    split; [exact W2|]. right. by eexists.
  - exists [], s. split; [apply went_refl|]. right. by eexists.
Qed.

Lemma admitted_from {cx user permission action limit_name rtype rid s scope s1} :
  admitted env cx user permission action limit_name rtype rid s = (Ok scope, s1) -> went s s1 (db_of s) [] [] /\ scope = None.
Proof.
  intros Ha. destruct (admitted_run cx user permission action limit_name rtype rid s) as (l & s' & W & [[E ->]|[e E]]);
    rewrite Ha in E; [by injection E as -> ->|discriminate].
Qed.
End quiet.

(** The row with another status. *)
Definition with_status (now : Z) (status : string) (error_message : option string) (row : order_row) : order_row :=
  set_exec now (fun e =>
    {| o_status := status; o_broker_order_id := o_broker_order_id e; o_error_message := error_message;
       o_submitted_at := o_submitted_at e; o_filled_at := o_filled_at e; o_filled_qty := o_filled_qty e;
       o_filled_avg_price := o_filled_avg_price e; o_last_updated_at := Some now;
       o_is_terminal := is_terminal_status status; o_source_priority := o_source_priority e;
       o_status_rank := Some (status_rank_for status); o_broker_event_id := o_broker_event_id e |}) row.

Lemma update_status_unfold now id status err :
  update_order_status now id status None None None err = transaction (update_order id always (with_status now status err)).
Proof. unfold update_order_status, with_status. by destruct (bool_decide (status = "filled")). Qed.

Lemma update_status_run now id status err D row : db_wf D -> db_orders D !! id = Some row ->
  update_order_status now id status None None None err D
    = (Ok (Some (with_status now status err row)), set_orders (insert id (with_status now status err row)) D) /\
  db_wf (set_orders (insert id (with_status now status err row)) D).
Proof.
  intros Hwf Hr. assert (Hv : order_valid (db_orders D) id (with_status now status err row) = true) by exact (proj1 Hwf _ _ Hr).
  split; [|by apply db_wf_set_orders]. rewrite update_status_unfold. unfold transaction, update_order. rewrite M_bind_run.
  unfold get_state. cbv beta iota. rewrite Hr. cbn [always]. cbv zeta. by rewrite Hv.
Qed.
