(* ===== verification/ManualCancel.v ===== *)
(** * Manual cancellation (api/manual_controls.py)

    An order is marked "pending_cancel" before the broker is asked, and marked
    back when the broker refuses.  [ValidationError] stands for a row that is
    not a valid [OrderDetail]. *)

From S2P Require Import Prelude PyDecimal PyText OrderStatus OrderSchema GatewayDb OrderCas RedisClient RateLimiter.
From S2P Require Import Access Gateway SliceExec OrderGates OrderSubmit OrderOutcome OrderCancel ManualText Listings ManualBase.
Open Scope Z_scope.

Definition update_status (env : environment) (id status : string) (error_message : option string) : M mc (option order_row) :=
  on_gw (call env (fun now => in_db (update_order_status now id status None None None error_message))).

Definition not_found : exn := HTTPException 404 "not_found".
Definition db_error : exn := HTTPException 500 "db_error".
Definition validation_error : exn := HTTPException 500 "validation_error".
Definition broker_failed : exn := HTTPException 502 "broker_error".

(** The status an order had, with the broker's refusal; a failure of the database is only logged. *)
Definition revert_status (env : environment) (id previous : string) (e : exn) : M mc unit :=
  try_except (_ ← update_status env id previous (Some ("cancel_failed_broker: " +:+ str_exn e)); mret tt)
    (fun e => if is_database_error e then Some (mret tt) else None).

Record CancelOrderResponse := { cancel_order_id : string; cancelled_at : Z }.

Definition cancelled_answer (env : environment) (order_id : string) : M mc CancelOrderResponse :=
  t ← on_gw (read_clock env); mret {| cancel_order_id := order_id; cancelled_at := t |}.

(** Lines 566-619 *)
Definition mark_pending_cancel (env : environment) (user : AuthenticatedUser) (order_id reason : string) : M mc unit :=
  try_except (_ ← update_status env order_id "pending_cancel" None; mret tt)
    (fun e =>
      if is_database_error e then
        Some (log_and_raise env (entry user "cancel_order" "order" order_id "failed" (Some reason) ("db_update_failed: " +:+ str_exn e)) db_error)
      else match e with
           | ValueError m => Some (log_and_raise env (entry user "cancel_order" "order" order_id "failed" (Some reason)
                                     ("validation_failed: " +:+ m)) validation_error)
           | _ => None
           end).

(** Lines 645-698.  The broker client has no timeout of its own: the clause for [TimeoutError] is never taken. *)
Definition ask_cancel (env : environment) (user : AuthenticatedUser) (order_id previous broker_order_id reason : string) : M mc unit :=
  try_except (_ ← on_gw (Gateway.cancel_order env broker_order_id); mret tt)
    (fun e => if broker_error e then Some (
        _ ← revert_status env order_id previous e;
        log_and_raise env (entry user "cancel_order" "order" order_id "failed" (Some reason) (str_exn e)) broker_failed)
      else None).

Definition cancel_order (env : environment) (cx : controls) (user : AuthenticatedUser) (order_id request_reason : string)
    : M mc CancelOrderResponse :=
  let reason := _sanitize_reason request_reason in
  _ ← admitted env cx user "cancel_order" "cancel_order" "cancel_order" "order" order_id;
  order ← on_gw (call env (fun _ => in_db (get_order_by_client_id order_id)));
  match (if match order with Some row => _strategy_allowed user (o_strategy_id (o_core row)) | None => false end
         then order else None) with
  | None => log_and_raise env (entry user "cancel_order" "order" order_id "denied" (Some reason) "not_found_or_unauthorized") not_found
  | Some order =>
      let previous_status := o_status (o_exec order) in
      if negb (mx_executor cx) then
        log_and_raise env (entry user "cancel_order" "order" order_id "failed" (Some reason) "broker_unavailable") broker_unavailable
      else
        _ ← log_action env (entry user "cancel_order" "order" order_id "pending" (Some reason) (o_strategy_id (o_core order)));
        _ ← mark_pending_cancel env user order_id reason;
        match broker_id_of order with
        | None =>
            _ ← update_status env order_id "canceled" None;
            _ ← log_action env (entry user "cancel_order" "order" order_id "success" (Some reason) "no_broker_order_id");
            cancelled_answer env order_id
        | Some b =>
            _ ← ask_cancel env user order_id previous_status b reason;
            _ ← log_action env (entry user "cancel_order" "order" order_id "success" (Some reason) (o_strategy_id (o_core order)));
            cancelled_answer env order_id
        end
  end.

(** ** All orders of a symbol *)

Record tally := {
  cancelled_ids : list string;
  failed_ids : list string;
  skipped_unauthorized : list string;
  strategies_affected : gset string
}.

Definition add_cancelled (id : string) (t : tally) : tally := {|
  cancelled_ids := cancelled_ids t ++ [id]; failed_ids := failed_ids t; skipped_unauthorized := skipped_unauthorized t;
  strategies_affected := strategies_affected t |}.
Definition add_failed (id : string) (t : tally) : tally := {|
  cancelled_ids := cancelled_ids t; failed_ids := failed_ids t ++ [id]; skipped_unauthorized := skipped_unauthorized t;
  strategies_affected := strategies_affected t |}.
Definition add_skipped (id : string) (t : tally) : tally := {|
  cancelled_ids := cancelled_ids t; failed_ids := failed_ids t; skipped_unauthorized := skipped_unauthorized t ++ [id];
  strategies_affected := strategies_affected t |}.
Definition touch_strategy (strategy_id : string) (t : tally) : tally := {|
  cancelled_ids := cancelled_ids t; failed_ids := failed_ids t; skipped_unauthorized := skipped_unauthorized t;
  strategies_affected := {[strategy_id]} ∪ strategies_affected t |}.

Definition no_tally : tally := {| cancelled_ids := []; failed_ids := []; skipped_unauthorized := []; strategies_affected := ∅ |}.

Definition order_entry (user : AuthenticatedUser) (id outcome reason detail : string) : audit_entry :=
  entry user "cancel_order" "order" id outcome (Some reason) detail.

(** Lines 803-850: whether the row is marked. *)
Definition mark_or_fail (env : environment) (user : AuthenticatedUser) (id reason : string) : M mc bool :=
  let failed := fun why => Some (_ ← log_action env (order_entry user id "failed" reason why); mret false) in
  try_except (_ ← update_status env id "pending_cancel" None; mret true)
    (fun e => if is_database_error e then failed ("db_update_failed: " +:+ str_exn e)
              else match e with ValueError m => failed ("validation_failed: " +:+ m) | _ => None end).

(** Lines 859-886 *)
Definition cancel_or_revert (env : environment) (user : AuthenticatedUser) (id previous broker_order_id reason : string) (t : tally)
    : M mc tally :=
  try_except (_ ← on_gw (Gateway.cancel_order env broker_order_id); mret (add_cancelled id t))
    (fun e => if broker_error e then Some (
        _ ← revert_status env id previous e;
        _ ← log_action env (order_entry user id "failed" reason (str_exn e));
        mret (add_failed id t))
      else None).

(** One turn of the loop. *)
Definition cancel_each (env : environment) (user : AuthenticatedUser) (reason : string) (t : tally) (order : OrderDetail) : M mc tally :=
  let '(id, row) := order in
  let strategy_id := o_strategy_id (o_core row) in
  if negb (_strategy_allowed user strategy_id) then
    _ ← log_action env (order_entry user id "denied" reason strategy_id); mret (add_skipped id t)
  else
    let t := touch_strategy strategy_id t in
    marked ← mark_or_fail env user id reason;
    if negb marked then mret (add_failed id t)
    else match broker_id_of row with
         | None => _ ← update_status env id "canceled" None; mret (add_cancelled id t)
         | Some b => cancel_or_revert env user id (o_status (o_exec row)) b reason t
         end.

Record CancelAllOrdersResponse := {
  all_symbol : string;
  cancelled_count : nat;
  all_order_ids : list string;
  all_strategies_affected : list string
}.

Definition nothing_cancelled (t : tally) : bool :=
  match failed_ids t, cancelled_ids t with _ :: _, [] => true | _, _ => false end.

(** Lines 889-894 *)
Definition outcome_of (t : tally) : string :=
  if nothing_cancelled t then "failed" else match failed_ids t with _ :: _ => "partial" | [] => "success" end.

(** [sorted(s for s in strategies_affected if s)] *)
Definition sorted_strategies (s : gset string) : list string :=
  merge_sort text_le (filter (fun x => x <> "") (elements s)).

(** [symbol] is the validated symbol of the request. *)
Definition cancel_all_orders (env : environment) (cx : controls) (user : AuthenticatedUser) (symbol request_reason : string)
    : M mc CancelAllOrdersResponse :=
  let reason := _sanitize_reason request_reason in
  let log := fun outcome detail => entry user "cancel_all_orders" "symbol" symbol outcome (Some reason) detail in
  strategy_scope ← admitted env cx user "cancel_order" "cancel_all_orders" "cancel_all" "symbol" symbol;
  found ← on_gw (call env (fun _ => in_db (get_pending_orders
            {| pf_symbol := Some symbol; pf_strategy_ids := strategy_scope; pf_parent_order_id := None |} 100 0 "created_at" "desc")));
  match found.1 with
  | [] => log_and_raise env (log "no_op" "no_pending_orders_found") not_found
  | orders =>
      if negb (mx_executor cx) then log_and_raise env (log "failed" "broker_unavailable") broker_unavailable
      else
        t ← for_each (cancel_each env user reason) no_tally orders;
        _ ← log_action env (log (outcome_of t) "");
        if nothing_cancelled t then raise broker_failed
        else mret {| all_symbol := symbol; cancelled_count := length (cancelled_ids t); all_order_ids := cancelled_ids t;
                     all_strategies_affected := sorted_strategies (strategies_affected t) |}
  end.

(** ** Outcomes *)

(** What the operator is told, the status and error the row ends with, and the outcomes in the audit log. *)
Record cancel_verdict := { v_told : result unit; v_row : string * option string; v_log : list string }.

Definition verdict_on (row : order_row) (reply : result bool) : cancel_verdict :=
  match broker_id_of row, reply with
  | None, _ => {| v_told := Ok tt; v_row := ("canceled", None); v_log := ["pending"; "success"] |}
  | Some _, Ok _ => {| v_told := Ok tt; v_row := ("pending_cancel", None); v_log := ["pending"; "success"] |}
  | Some _, Raise e =>
      if broker_error e
      then {| v_told := Raise broker_failed; v_row := (o_status (o_exec row), Some ("cancel_failed_broker: " +:+ str_exn e));
              v_log := ["pending"; "failed"] |}
      else {| v_told := Raise e; v_row := ("pending_cancel", None); v_log := ["pending"] |}
  end.

Definition cancel_requests (row : order_row) : list broker_request :=
  match broker_id_of row with Some b => [Cancel b] | None => [] end.

Lemma with_status_twice n1 n2 st1 st2 e1 e2 row :
  with_status n2 st2 e2 (with_status n1 st1 e1 row) = with_status n2 st2 e2 row.
Proof. reflexivity. Qed.

(** The database with a row whose status changed last at [now]. *)
Definition marked (id : string) (row : order_row) (now : Z) (v : string * option string) (D : db) : db :=
  set_orders (insert id (with_status now v.1 v.2 row)) D.

Lemma marked_twice id row n1 n2 v1 v2 D : marked id (with_status n1 v1.1 v1.2 row) n2 v2 (marked id row n1 v1 D) = marked id row n2 v2 D.
Proof. unfold marked. destruct D. unfold set_orders; simpl. by rewrite insert_insert_eq. Qed.

Lemma marked_lookup id row now v D : db_orders (marked id row now v D) !! id = Some (with_status now v.1 v.2 row).
Proof. apply lookup_insert_eq. Qed.

Section quiet.
Context (env : environment).
Hypothesis Hq : quiet env.

Section from.
Context {s s1 : mc} {D : db} {sent : list broker_request} {log : list audit_entry}.
Hypothesis W : went s s1 D sent log.
Hypothesis Hwf : db_wf D.

Lemma update_from {id row} status err : db_orders D !! id = Some row ->
  exists now s2, update_status env id status err s1 = (Ok (Some (with_status now status err row)), s2) /\
    went s s2 (marked id row now (status, err) D) sent log /\ db_wf (marked id row now (status, err) D).
Proof.
  intros Hr. destruct (db_from env Hq W (fun now => update_order_status now id status None None None err)) as (now & s2 & E & W2).
  destruct (update_status_run now id status err _ row Hwf Hr) as [E' H]. rewrite E' in E, W2. exists now, s2. by split_and!.
Qed.
End from.

(** Marking a row that was marked before. *)
Lemma remark_from {s s1 id row n0 v0 D sent log} status err : went s s1 (marked id row n0 v0 D) sent log -> db_wf (marked id row n0 v0 D) ->
  exists now r s2, update_status env id status err s1 = (Ok r, s2) /\
    went s s2 (marked id row now (status, err) D) sent log /\ db_wf (marked id row now (status, err) D).
Proof.
  intros W Hwf. destruct (update_from W Hwf status err (marked_lookup _ _ _ _ _)) as (now & s2 & E & W2 & H2).
  rewrite (marked_twice id row n0 now v0 (status, err)) in W2, H2. eexists now, _, s2. by split_and!.
Qed.

Lemma revert_from {s s1 id row n0 v0 D sent log} e : went s s1 (marked id row n0 v0 D) sent log -> db_wf (marked id row n0 v0 D) ->
  let v := (o_status (o_exec row), Some ("cancel_failed_broker: " +:+ str_exn e)) in
  exists now s2, revert_status env id (o_status (o_exec row)) e s1 = (Ok tt, s2) /\
    went s s2 (marked id row now v D) sent log /\ db_wf (marked id row now v D).
Proof.
  intros W Hwf v. destruct (remark_from (o_status (o_exec row)) (Some ("cancel_failed_broker: " +:+ str_exn e)) W Hwf) as (now & r & s2 & E & W2 & H2).
  exists now, s2. unfold revert_status, try_except. rewrite M_bind_run, E. by split_and!.
Qed.

(** The answer of a handler that tells nothing but the time. *)
Definition tells {A} (told : result unit) (out : result A) (ok : A -> Prop) : Prop :=
  match told with Ok _ => exists a, out = Ok a /\ ok a | Raise e => out = Raise e end.

(** The broker is asked at most once, and its answer decides what the row becomes: it waits for the confirmation,
    keeps its status with the refusal as its error, or is canceled when the broker never had it.  The log has the
    request and its outcome. *)
Theorem manual_cancel_outcome cx user id request_reason scope row s s1 :
  db_wf (db_of s) -> db_orders (db_of s) !! id = Some row -> mx_executor cx = true ->
  admitted env cx user "cancel_order" "cancel_order" "cancel_order" "order" id s = (Ok scope, s1) ->
  let out := cancel_order env cx user id request_reason s in
  let v := verdict_on row (cancel_reply (broker_api env (g_sent (mc_gw s) ++ cancel_requests row))) in
  exists now log, went s (snd out) (marked id row now (v_row v) (db_of s)) (cancel_requests row) log /\
    au_outcome <$> log = v_log v /\ tells (v_told v) (fst out) (fun a => cancel_order_id a = id).
Proof.
  intros Hwf Hr Hx Ha out v. subst out. unfold cancel_order. rewrite M_bind_run, Ha. apply (admitted_from env Hq) in Ha as [W _].
  rewrite M_bind_run. destruct (db_from env Hq W (fun _ => get_order_by_client_id id)) as (n2 & s2 & E & W2). rewrite E. clear E W s1.
  cbn [fst snd get_order_by_client_id reads] in *. rewrite Hr. cbn [_strategy_allowed has_permission]. rewrite Hx. cbn [negb].
  rewrite M_bind_run. edestruct (log_from env Hq W2) as (s3 & E & W3). rewrite E, M_bind_run. clear E W2 s2.
  destruct (update_from W3 Hwf "pending_cancel" None Hr) as (n4 & s4 & E & W4 & Hwf4).
  unfold mark_pending_cancel, try_except. rewrite M_bind_run, E. change ((mret tt : M mc unit) s4) with (@Ok unit tt, s4). cbv beta iota.
  clear E W3 s3. unfold v, verdict_on, cancel_requests. destruct (broker_id_of row) as [b|].
  - unfold ask_cancel, try_except. rewrite !M_bind_run. destruct (cancel_from env Hq W4 b) as (s5 & E & W5). rewrite E. clear E W4 s4.
    change (([] : list broker_request) ++ [Cancel b]) with [Cancel b] in *. destruct (cancel_reply (broker_api env (g_sent (mc_gw s) ++ [Cancel b]))) as [x|e].
    + cbv beta iota. change ((mret tt : M mc unit) s5) with (@Ok unit tt, s5). cbv beta iota. rewrite M_bind_run.
      edestruct (log_from env Hq W5) as (s6 & E & W6). rewrite E. clear E. unfold cancelled_answer. rewrite M_bind_run.
      destruct (clock_from env s6) as (t & E). rewrite E. eexists n4, _. split; [exact W6|]. split; [reflexivity|]. by eexists.
    + destruct (broker_error e).
      * rewrite M_bind_run. destruct (revert_from e W5 Hwf4) as (n6 & s6 & E & W6 & _). rewrite E.
        edestruct (log_raise_from (A:=unit) env Hq W6) as (s7 & E7 & W7). rewrite E7. eexists n6, _. by split_and!.
      * eexists n4, _. split; [exact W5|]. by split.
  - rewrite M_bind_run. destruct (remark_from "canceled" None W4 Hwf4) as (n5 & r & s5 & E & W5 & _). rewrite E, M_bind_run.
    edestruct (log_from env Hq W5) as (s6 & E6 & W6). rewrite E6. unfold cancelled_answer. rewrite M_bind_run.
    destruct (clock_from env s6) as (t & E7). rewrite E7. eexists n5, _. split; [exact W6|]. split; [reflexivity|]. by eexists.
Qed.
End quiet.

(** ** Cancelling every order of a symbol

    What the loop of [cancel_all_orders] does to the orders it finds, and to
    those it does not find. *)

(** The orders of [symbol] that wait: what the handler asks the database for. *)
Definition symbol_filter (symbol : string) : pending_filter :=
  {| pf_symbol := Some symbol; pf_strategy_ids := None; pf_parent_order_id := None |}.

Definition waiting (symbol : string) (D : db) : list OrderDetail := select_orders (pending_match (symbol_filter symbol)) D.

Definition found_orders (symbol : string) (D : db) : list OrderDetail :=
  match fst (get_pending_orders (symbol_filter symbol) 100 0 "created_at" "desc" D) with Ok (l, _) => l | Raise _ => [] end.

Lemma found_mem symbol D id r : (id, r) ∈ found_orders symbol D -> db_orders D !! id = Some r /\ pending_match (symbol_filter symbol) r = true.
Proof.
  intros H. apply take_mem, drop_mem in H. rewrite merge_sort_Permutation in H. by apply select_orders_spec.
Qed.

Lemma found_nodup symbol D : NoDup ((found_orders symbol D).*1).
Proof.
  unfold found_orders, get_pending_orders, reads. cbn [fst]. rewrite fmap_take, fmap_drop. apply NoDup_take, NoDup_drop.
  rewrite merge_sort_Permutation. apply select_orders_nodup.
Qed.

Lemma found_length symbol D : (length (found_orders symbol D) <= 100)%nat.
Proof. unfold found_orders, get_pending_orders, reads. cbn [fst]. rewrite length_take. lia. Qed.

(** ** The loop *)

Section loop.
Context (env : environment) (user : AuthenticatedUser) (reason : string).
Hypothesis Hq : quiet env.

(** The broker takes or refuses every cancellation: no answer is lost or unreadable. *)
Definition answering : Prop := forall h b e, cancel_reply (broker_api env (h ++ [Cancel b])) = Raise e -> broker_error e = true.

(** The verdicts on the orders, asked for one after the other. *)
Fixpoint verdicts (history : list broker_request) (orders : list OrderDetail) : list cancel_verdict :=
  match orders with
  | [] => []
  | (_, row) :: rest =>
      let h := history ++ cancel_requests row in verdict_on row (cancel_reply (broker_api env h)) :: verdicts h rest
  end.

Definition taken (v : cancel_verdict) : bool := match v_told v with Ok _ => true | Raise _ => false end.

Definition tallied (t : tally) (p : OrderDetail * cancel_verdict) : tally :=
  let t := touch_strategy (o_strategy_id (o_core p.1.2)) t in
  if taken p.2 then add_cancelled p.1.1 t else add_failed p.1.1 t.

Lemma each_from {s s1 D sent log id row} t : answering -> went s s1 D sent log -> db_wf D -> db_orders D !! id = Some row ->
  let v := verdict_on row (cancel_reply (broker_api env (g_sent (mc_gw s) ++ sent ++ cancel_requests row))) in
  exists now s2 log', cancel_each env user reason t (id, row) s1 = (Ok (tallied t (id, row, v)), s2) /\
    went s s2 (marked id row now (v_row v) D) (sent ++ cancel_requests row) log' /\ db_wf (marked id row now (v_row v) D).
Proof.
  intros Han W Hwf Hr v. unfold cancel_each. cbn [_strategy_allowed has_permission negb]. rewrite M_bind_run.
  destruct (update_from env Hq W Hwf "pending_cancel" None Hr) as (n1 & s2 & E & W1 & Hwf1).
  unfold mark_or_fail, try_except. rewrite M_bind_run, E. change ((mret true : M mc bool) s2) with (@Ok bool true, s2). cbv beta iota. cbn [negb].
  clear E. unfold v, verdict_on, cancel_requests. destruct (broker_id_of row) as [b|] eqn:Eb.
  - unfold cancel_or_revert, try_except. rewrite M_bind_run. destruct (cancel_from env Hq W1 b) as (s3 & E & W2). rewrite E. clear E.
    specialize (Han (g_sent (mc_gw s) ++ sent) b). rewrite <- app_assoc in Han.
    destruct (cancel_reply (broker_api env (g_sent (mc_gw s) ++ sent ++ [Cancel b]))) as [x|e].
    + exists n1, s3, log. by split_and!.
    + rewrite (Han e eq_refl). destruct (revert_from env Hq e W2 Hwf1) as (n2 & s4 & E & W3 & Hwf3). rewrite M_bind_run, E, M_bind_run.
      edestruct (log_from env Hq W3) as (s5 & E5 & W5). rewrite E5. eexists n2, s5, _. by split_and!.
  - rewrite M_bind_run. destruct (remark_from env Hq "canceled" None W1 Hwf1) as (n2 & r & s3 & E & W2 & Hwf2). rewrite E, app_nil_r.
    exists n2, s3, log. by split_and!.
Qed.

(** The rows of [orders] got their verdicts, and the rest is as it was. *)
Definition settled_rows (orders : list OrderDetail) (vs : list cancel_verdict) (D D' : db) : Prop :=
  Forall2 (fun p v => exists now, db_orders D' !! p.1 = Some (with_status now (v_row v).1 (v_row v).2 p.2)) orders vs /\
  forall id, id ∉ orders.*1 -> db_orders D' !! id = db_orders D !! id.

Lemma loop_from orders : answering -> forall s s1 D sent log t, NoDup (orders.*1) ->
  (forall id row, (id, row) ∈ orders -> db_orders D !! id = Some row) -> went s s1 D sent log -> db_wf D ->
  let vs := verdicts (g_sent (mc_gw s) ++ sent) orders in
  exists D' s2 log', for_each (cancel_each env user reason) t orders s1 = (Ok (foldl tallied t (zip orders vs)), s2) /\
    went s s2 D' (sent ++ (orders ≫= fun p => cancel_requests p.2)) log' /\ db_wf D' /\ settled_rows orders vs D D'.
Proof.
  intros Han. induction orders as [|[id row] orders IH]; intros s s1 D sent log t Hnd Hin W Hwf vs.
  - exists D, s1, log. rewrite app_nil_r. split; [done|]. split; [exact W|]. split; [exact Hwf|]. split; [constructor|done].
  - apply NoDup_cons in Hnd as [Hni Hnd]. destruct (each_from t Han W Hwf (Hin id row ltac:(left))) as (now & s2 & log2 & E & W2 & Hwf2).
    set (v := verdict_on _ _) in *. assert (Hin2 : forall id' row', (id', row') ∈ orders -> db_orders (marked id row now (v_row v) D) !! id' = Some row').
    { intros id' row' Hi. unfold marked, set_orders. cbn [db_orders]. rewrite lookup_insert_ne; [by apply Hin; right|].
      intros <-. apply Hni, list_elem_of_fmap. by exists (id, row'). }
    destruct (IH s s2 _ _ log2 (tallied t (id, row, v)) Hnd Hin2 W2 Hwf2) as (D' & s3 & log3 & E3 & W3 & Hwf3 & HF & Ho).
    rewrite app_assoc in E3, HF. exists D', s3, log3. split; [rewrite (for_each_step _ _ _ _ _ _ _ E); subst vs; simpl; rewrite <- app_assoc in *; exact E3|].
    split; [by rewrite bind_cons, app_assoc|]. split; [exact Hwf3|]. subst vs. simpl. rewrite <- app_assoc in *. fold v. split.
    + constructor; [|exact HF]. exists now. simpl. rewrite (Ho id Hni). apply marked_lookup.
    + intros id' Hni'. simpl in Hni'. rewrite Ho by (intros H; apply Hni'; by right). unfold marked, set_orders. cbn [db_orders].
      apply lookup_insert_ne. intros <-. apply Hni'. by left.
Qed.
End loop.

(** ** The answer *)

Definition ids_of (keep : bool) (l : list (OrderDetail * cancel_verdict)) : list string :=
  (fun p => p.1.1) <$> filter (fun p => taken p.2 = keep) l.

Lemma tallied_ids l : forall t, cancelled_ids (foldl tallied t l) = cancelled_ids t ++ ids_of true l /\
  failed_ids (foldl tallied t l) = failed_ids t ++ ids_of false l.
Proof.
  unfold ids_of. induction l as [|[[id row] v] l IH]; intros t; [by rewrite !app_nil_r|]. change (foldl tallied t ((id, row, v) :: l)) with (foldl tallied (tallied t (id, row, v)) l).
  destruct (IH (tallied t (id, row, v))) as [-> ->]. rewrite !filter_cons. unfold tallied. cbn [fst snd].
  destruct (taken v); simpl; rewrite <- ?app_assoc; done.
Qed.

Lemma verdicts_length env history orders : length (verdicts env history orders) = length orders.
Proof. revert history. induction orders as [|[id row] orders IH]; intros history; simpl; by rewrite ?IH. Qed.

Lemma some_id l : l <> [] -> ids_of true l = [] -> ids_of false l <> [].
Proof.
  destruct l as [|[p v] l]; [done|]. unfold ids_of. rewrite !filter_cons. cbn [fst snd]. by destruct (taken v).
Qed.

Section quiet.
Context (env : environment) (cx : controls) (user : AuthenticatedUser) (symbol request_reason : string) (s : mc).
Hypothesis Hq : quiet env.
Hypothesis Hwf : db_wf (db_of s).
Hypothesis Hx : mx_executor cx = true.
Hypothesis Han : answering env.

Lemma cancel_all_run scope s1 :
  let orders := found_orders symbol (db_of s) in
  let vs := verdicts env (g_sent (mc_gw s)) orders in
  let succeeded := ids_of true (zip orders vs) in
  orders <> [] -> admitted env cx user "cancel_order" "cancel_all_orders" "cancel_all" "symbol" symbol s = (Ok scope, s1) ->
  let out := cancel_all_orders env cx user symbol request_reason s in
  exists D' log, went s (snd out) D' (orders ≫= fun p => cancel_requests p.2) log /\ settled_rows orders vs (db_of s) D' /\
    match fst out with
    | Ok a => succeeded <> [] /\ all_order_ids a = succeeded /\ cancelled_count a = length succeeded
    | Raise e => e = broker_failed /\ succeeded = []
    end.
Proof.
  intros orders vs succeeded Hne Ha out. subst out. unfold cancel_all_orders. rewrite M_bind_run, Ha. apply (admitted_from env Hq) in Ha as [W ->].
  rewrite M_bind_run. fold (symbol_filter symbol).
  destruct (db_from env Hq W (fun _ => get_pending_orders (symbol_filter symbol) 100 0 "created_at" "desc")) as (n2 & s2 & E & W2).
  rewrite E. clear E W s1. unfold get_pending_orders, reads in W2 |- *. cbn [fst snd] in W2 |- *.
  change (take _ _) with orders.
  destruct (loop_from env user (_sanitize_reason request_reason) Hq orders Han s s2 (db_of s) [] [] no_tally) as
    (D' & s3 & log & E & W3 & _ & HS); [apply found_nodup|intros id row Hi; by apply found_mem in Hi as [? _]|exact W2|exact Hwf|].
  rewrite app_nil_r in E, HS. fold vs in E, HS.
  assert (Eo : exists o rest, orders = o :: rest) by (destruct orders as [|o rest]; [done|by eexists _, _]).
  destruct Eo as (o & rest & Eo). rewrite Eo. cbv iota. rewrite <- Eo, Hx. cbn [negb]. rewrite M_bind_run, E, M_bind_run.
  destruct (tallied_ids (zip orders vs) no_tally) as [Ec Ef].
  edestruct (log_from env Hq W3) as (s4 & E4 & W4). rewrite E4. cbv beta iota. unfold nothing_cancelled.
  match goal with |- context [failed_ids ?t] => change t with (foldl tallied no_tally (zip orders vs)) end.
  rewrite Ec, Ef. cbn [no_tally cancelled_ids failed_ids app].
  fold succeeded. exists D'. eexists. split; [|split; [exact HS|]].
  - destruct (ids_of false _); [exact W4|]. destruct succeeded; exact W4.
  - destruct (decide (succeeded = [])) as [Es|Es].
    + assert (Hf : ids_of false (zip orders vs) <> []).
      { apply some_id; [|exact Es]. intros Ez. apply (f_equal length) in Ez. rewrite length_zip, (verdicts_length env _ orders : length vs = _) in Ez.
        rewrite Eo in Ez. simpl in Ez. lia. }
      rewrite Es. by destruct (ids_of false _).
    + destruct (ids_of false _), succeeded; done.
Qed.

(** Of the orders found, each is asked for at the broker once, in their order; each row gets what the broker's answer
    to it means, and no other row is touched.  The answer names the orders whose cancellation went through, and
    there is one unless every cancellation failed. *)
Theorem cancel_all_outcome scope s1 :
  let orders := found_orders symbol (db_of s) in
  let vs := verdicts env (g_sent (mc_gw s)) orders in
  let succeeded := ids_of true (zip orders vs) in
  orders <> [] -> admitted env cx user "cancel_order" "cancel_all_orders" "cancel_all" "symbol" symbol s = (Ok scope, s1) ->
  let out := cancel_all_orders env cx user symbol request_reason s in
  g_sent (mc_gw (snd out)) = g_sent (mc_gw s) ++ (orders ≫= fun p => cancel_requests p.2) /\
  settled_rows orders vs (db_of s) (db_of (snd out)) /\
  (succeeded = [] /\ fst out = Raise broker_failed \/
   succeeded <> [] /\ exists a, fst out = Ok a /\ all_order_ids a = succeeded /\ cancelled_count a = length succeeded).
Proof.
  intros orders vs succeeded Hne Ha out. destruct (cancel_all_run scope s1 Hne Ha) as (D' & log & W & HS & Hout).
  fold out in W, Hout. fold orders vs in HS. rewrite (went_db _ _ _ _ _ W). split; [exact (went_sent _ _ _ _ _ W)|]. split; [exact HS|].
  destruct (fst out) as [a|e]; [right; destruct Hout; split; [done|by exists a]|left; by destruct Hout as [-> Hd]].
Qed.

(** With more than a hundred orders waiting, one of them is left as it is and not named, although the answer says that
    the orders of the symbol are cancelled. *)
Theorem cancel_all_leaves_the_rest scope s1 : (100 < length (waiting symbol (db_of s)))%nat ->
  admitted env cx user "cancel_order" "cancel_all_orders" "cancel_all" "symbol" symbol s = (Ok scope, s1) ->
  let out := cancel_all_orders env cx user symbol request_reason s in
  exists id row, (id, row) ∈ waiting symbol (db_of s) /\ db_orders (db_of (snd out)) !! id = Some row /\
    forall a, fst out = Ok a -> id ∉ all_order_ids a.
Proof.
  intros Hmany Ha out. assert (Hne : found_orders symbol (db_of s) <> []).
  { intros H. apply (f_equal length) in H. revert H. unfold found_orders, get_pending_orders, reads. cbn [fst].
    rewrite length_take, length_drop, merge_sort_Permutation. fold (waiting symbol (db_of s)). cbn [length]. lia. }
  destruct (cancel_all_run scope s1 Hne Ha) as (D' & log & W & [_ Ho] & Hout). fold out in W, Hout. rewrite (went_db _ _ _ _ _ W).
  set (orders := found_orders symbol (db_of s)) in *.
  assert (Hrest : exists p, p ∈ waiting symbol (db_of s) /\ p.1 ∉ orders.*1).
  { destruct (decide (Forall (fun p => p.1 ∈ orders.*1) (waiting symbol (db_of s)))) as [H|H].
    - exfalso. assert (Hs : (waiting symbol (db_of s)).*1 ⊆+ orders.*1).
      { apply NoDup_submseteq; [apply select_orders_nodup|]. intros x Hi. apply list_elem_of_fmap in Hi as (p & -> & Hp).
        rewrite Forall_forall in H. by apply H. }
      apply submseteq_length in Hs. rewrite !length_fmap in Hs. assert (Hl := found_length symbol (db_of s)). fold orders in Hl. unfold OrderDetail in *. unfold waiting, OrderDetail in *. eapply Nat.lt_irrefl, Nat.lt_le_trans; [exact Hmany|]. etransitivity; [exact Hs|exact Hl].
    - apply not_Forall_Exists in H; [|apply _]. apply Exists_exists in H. exact H. }
  destruct Hrest as ([id row] & Hin & Hni). exists id, row. split; [exact Hin|]. split; [rewrite (Ho id Hni); by apply select_orders_spec in Hin as [? _]|].
  intros a Ea. rewrite Ea in Hout. destruct Hout as (_ & -> & _). intros Hi. apply Hni.
  unfold ids_of in Hi. apply list_elem_of_fmap in Hi as ([p v] & -> & Hp). apply list_elem_of_filter in Hp as [_ Hp].
  apply elem_of_zip_l in Hp. apply list_elem_of_fmap. by exists p.
Qed.
End quiet.
