(* ===== verification/ManualPositions.v ===== *)
(** * Closing, adjusting and flattening positions (api/manual_controls.py)

    The order that moves a position is written before it is sent, under an
    identifier made from the order, the user and the minute; a request that meets
    its identifier again answers that the order was already submitted. *)

From S2P Require Import Prelude PyDecimal PyText OrderStatus OrderSchema GatewayDb OrderCas RedisClient RateLimiter.
From S2P Require Import Access Gateway SliceExec OrderGates OrderSubmit OrderOutcome ManualText Listings Mfa ManualBase ManualCancel.
Open Scope Z_scope.

(** ** What the actions share *)

Definition is_integrity (e : exn) : bool := match e with IntegrityError _ => true | _ => false end.

(** [OrderRequest(symbol=..., side=..., qty=..., order_type=..., limit_price=...)] *)
Definition manual_request (symbol side : string) (qty : Z) (order_type : string) (limit_price : option decimal) : OrderRequest := {|
  req_symbol := symbol; req_side := side; req_qty := qty; req_order_type := order_type; req_limit_price := limit_price;
  req_stop_price := None; req_time_in_force := "day"; req_execution_style := "instant"; req_twap_duration_minutes := None;
  req_twap_interval_seconds := None; req_start_time := None; req_client_order_id := None |}.

Definition order_request (env : environment) (raw : OrderRequest) : M mc OrderRequest :=
  t ← on_gw (read_clock env); lift (mk_order_request t raw).

Definition order_id_for (env : environment) (action : string) (r : OrderRequest) (user : AuthenticatedUser) (order_type : option string)
    : M mc string :=
  t ← on_gw (read_clock env);
  mret (_generate_manual_order_id t action (req_symbol r) (req_side r) (req_qty r) (user_id user) order_type (req_limit_price r) None None).

Definition persist (env : environment) (order_id strategy_id : string) (r : OrderRequest) : M mc order_row :=
  on_gw (call env (fun now => in_db (create_order now order_id strategy_id r "pending_new" None None))).

Definition submit (env : environment) (r : OrderRequest) (order_id : string) : M mc order_dict :=
  on_gw (Gateway.submit_order env r order_id).

Definition conflict : exn := HTTPException 500 "db_error".

(** The two [try] blocks that write and send the order: whether it was there before. *)
Definition place (env : environment) (log : string -> string -> audit_entry) (order_id strategy_id : string) (r : OrderRequest)
    : M mc bool :=
  try_except
    (exists_already ← try_except (_ ← persist env order_id strategy_id r; mret false)
       (fun e => if is_integrity e then Some (
           existing ← on_gw (call env (fun _ => in_db (get_order_by_client_id order_id)));
           match existing with
           | Some _ => _ ← log_action env (log "success" "idempotent"); mret true
           | None => raise conflict
           end) else None);
     if exists_already : bool then mret true
     else _ ← submit env r order_id; _ ← log_action env (log "success" order_id); mret false)
    (fun e => if broker_error e then Some (log_and_raise env (log "failed" (str_exn e)) broker_failed) else None).

(** The positions the user may touch. *)
Definition visible_positions (env : environment) (user : AuthenticatedUser) : M mc (list (string * position_row)) :=
  if negb (has_permission user "view_all_strategies")
  then on_gw (call env (fun _ => in_db (get_positions_for_strategies (get_authorized_strategies (Some user)))))
  else on_gw (call env (fun _ => in_db positions_in_order)).

Definition position_of (symbol : string) (ps : list (string * position_row)) : option position_row :=
  snd <$> head (filter (fun p : string * position_row => p.1 = symbol) ps).

Definition strategy_unauthorized : exn := HTTPException 403 "strategy_unauthorized".

Definition no_strategies (user : AuthenticatedUser) : bool :=
  negb (has_permission user "view_all_strategies") && bool_decide (get_authorized_strategies (Some user) = []).

(** From the start to the position: permission, rate limit, strategies, and a whole number of shares. *)
Definition whole_position (env : environment) (cx : controls) (user : AuthenticatedUser) (action symbol reason : string) : M mc decimal :=
  let log := fun outcome detail => entry user action "position" symbol outcome (Some reason) detail in
  _ ← _ensure_permission_with_audit env user action action;
  _ ← _enforce_rate_limit env cx user action;
  if no_strategies user then log_and_raise env (log "failed" "no_authorized_strategies") strategy_unauthorized
  else
    _ ← _require_non_empty_strategy_scope env user action "position" symbol;
    positions ← visible_positions env user;
    match position_of symbol positions with
    | None => log_and_raise env (log "failed" "position_not_found") not_found
    | Some position => mret (p_qty position)
    end.

Definition fractional_position : exn := HTTPException 422 "fractional_position_unsupported".

Definition side_to_close (qty : decimal) : string := if dltb dzero qty then "sell" else "buy".

(** ** Close *)

Record ClosePositionRequest := { cp_reason : string; cp_qty : option decimal }.

(** The shortest reason that is taken; flattening takes twenty characters. *)
Definition MIN_REASON : nat := 10.

(** The validators of the request. *)
Definition close_request_ok (r : ClosePositionRequest) : bool :=
  (MIN_REASON <=? slen (cp_reason r))%nat && opt_check (fun q => dltb dzero q && integral q) (cp_qty r).

Record ClosePositionResponse := {
  cp_status : string;
  cp_order_id : option string;
  cp_qty_to_close : decimal;
  cp_message : option string
}.

Definition retry_message (retried : bool) : option string :=
  if retried then Some "Order already submitted (idempotent retry)" else None.

Definition close_position (env : environment) (cx : controls) (user : AuthenticatedUser) (symbol : string)
    (request : ClosePositionRequest) : M mc ClosePositionResponse :=
  let reason := _sanitize_reason (cp_reason request) in
  let symbol := upper symbol in
  let log := fun outcome detail => entry user "close_position" "position" symbol outcome (Some reason) detail in
  qty ← whole_position env cx user "close_position" symbol reason;
  if deqb qty dzero then
    _ ← log_action env (log "no_op" "position_already_flat");
    mret {| cp_status := "already_flat"; cp_order_id := None; cp_qty_to_close := of_int 0; cp_message := None |}
  else if negb (integral qty) then log_and_raise env (log "failed" "fractional_position_unsupported") fractional_position
  else
    let qty_to_close := match cp_qty request with Some q => q | None => dabs qty end in
    if dltb (dabs qty) qty_to_close then log_and_raise env (log "rejected" "qty_exceeds_position") (HTTPException 422 "qty_exceeds_position")
    else
      qty_int ← lift (_require_integral_qty qty_to_close);
      if negb (mx_executor cx) then log_and_raise env (log "failed" "broker_unavailable") broker_unavailable
      else
        order_req ← order_request env (manual_request symbol (side_to_close qty) qty_int "market" None);
        order_id ← order_id_for env "close_position" order_req user None;
        retried ← place env log order_id "manual_controls_close_position" order_req;
        mret {| cp_status := "closing"; cp_order_id := Some order_id; cp_qty_to_close := qty_to_close; cp_message := retry_message retried |}.

(** ** Adjust *)

Record AdjustPositionRequest := {
  aj_reason : string;
  aj_target_qty : decimal;
  aj_order_type : string;
  aj_limit_price : option decimal
}.

(** The validators of the request; a limit price that is left out is not validated, as validators do not run on defaults
    (one that is given as null is refused). *)
Definition adjust_request_ok (r : AdjustPositionRequest) : bool :=
  (MIN_REASON <=? slen (aj_reason r))%nat && integral (aj_target_qty r) && one_of (aj_order_type r) ["market"; "limit"] && opt_check dpositive (aj_limit_price r).

Record AdjustPositionResponse := {
  aj_current_qty : decimal;
  aj_new_qty : decimal;
  aj_order_id : option string;
  aj_message : option string
}.

Definition blocked {A} (env : environment) (user : AuthenticatedUser) (symbol reason why : string) (e : exn) : M mc A :=
  log_and_raise env (entry user "adjust_position" "circuit_breaker" symbol "blocked" (Some reason) why) e.

(** Lines 1254-1340, for an adjustment that does not reduce the position. *)
Definition adjust_breaker (env : environment) (cx : controls) (user : AuthenticatedUser) (symbol reason : string) : M mc unit :=
  try_except
    (if mx_redis cx then
       state ← read_breaker_state env;
       if bool_decide (state = "") then blocked env user symbol reason "circuit_breaker_state_missing" breaker_unavailable
       else if bool_decide (state = "TRIPPED") then blocked env user symbol reason "circuit_breaker_tripped" breaker_tripped
       else mret tt
     else blocked env user symbol reason "circuit_breaker_unavailable" breaker_unavailable)
    (fun e => if is_redis_error e then Some (blocked env user symbol reason "redis_error: " breaker_unavailable) else None).

Definition adjust_position (env : environment) (cx : controls) (user : AuthenticatedUser) (symbol : string)
    (request : AdjustPositionRequest) : M mc AdjustPositionResponse :=
  let reason := _sanitize_reason (aj_reason request) in
  let symbol := upper symbol in
  let target := aj_target_qty request in
  let log := fun outcome detail => entry user "adjust_position" "position" symbol outcome (Some reason) detail in
  current ← whole_position env cx user "adjust_position" symbol reason;
  if negb (integral current) then log_and_raise env (log "failed" "fractional_position_unsupported") fractional_position
  else
    let delta := dsub target current in
    let is_risk_reducing := dltb (dabs target) (dabs current) in
    _ ← (if negb is_risk_reducing && negb (deqb delta dzero) then adjust_breaker env cx user symbol reason else mret tt);
    if deqb delta dzero then
      _ ← log_action env (log "no_op" "position_already_at_target");
      mret {| aj_current_qty := current; aj_new_qty := target; aj_order_id := None; aj_message := None |}
    else if negb (mx_executor cx) then log_and_raise env (log "failed" "broker_unavailable") broker_unavailable
    else
      let side := if dltb dzero delta then "buy" else "sell" in
      qty_int ← lift (_require_integral_qty (dabs delta));
      order_req ← order_request env (manual_request symbol side qty_int (aj_order_type request) (aj_limit_price request));
      order_id ← order_id_for env "adjust_position" order_req user (Some (aj_order_type request));
      retried ← place env log order_id "manual_controls_adjust_position" order_req;
      mret {| aj_current_qty := current; aj_new_qty := target; aj_order_id := Some order_id; aj_message := retry_message retried |}.

(** ** Flatten *)

Record FlattenAllRequest := { fl_reason : string; fl_id_token : string }.

Record FlattenAllResponse := {
  positions_closed : nat;
  orders_created : list string;
  fl_strategies : list string
}.

Definition flatten_entry (user : AuthenticatedUser) (outcome reason detail : string) : audit_entry :=
  entry user "flatten_all" "positions" "*" outcome (Some reason) detail.

(** One turn of the loop: the orders created so far, and the strategies. *)
Definition flatten_one (env : environment) (user : AuthenticatedUser) (reason : string) (strategy_map : gmap string (option string))
    (acc : list string * gset string) (position : string * position_row) : M mc (list string * gset string) :=
  let '(symbol, p) := position in
  if deqb (p_qty p) dzero then mret acc
  else
    let side := side_to_close (p_qty p) in
    let qty := dint (dabs (p_qty p)) in
    order_req ← order_request env (manual_request symbol side qty "market" None);
    t ← on_gw (read_clock env);
    let order_id := _generate_manual_order_id t "flatten_all" symbol side qty (user_id user) None None None None in
    try_except
      (order_already_exists ← try_except (_ ← persist env order_id "manual_controls_flatten_all" order_req; mret false)
         (fun e => if is_integrity e then Some (mret true) else None);
       _ ← (if order_already_exists : bool then mret tt else _ ← submit env order_req order_id; mret tt);
       let strategy_id := match default None (strategy_map !! symbol) with
                          | Some x => if bool_decide (x = "") then "manual_controls_flatten_all" else x
                          | None => "manual_controls_flatten_all" end in
       mret (acc.1 ++ [order_id], {[strategy_id]} ∪ acc.2))
      (fun e => if broker_error e then Some (log_and_raise env (flatten_entry user "failed" reason symbol) broker_failed) else None).

(** The answer of the second-factor service, when it refuses. *)
Definition mfa_refused (env : environment) (user : AuthenticatedUser) (reason : string) (mfa_error : option string) : M mc unit :=
  let why := match mfa_error with Some e => if bool_decide (e = "") then "mfa_required" else e | None => "mfa_required" end in
  let '(status_code, code) := error_map why in
  log_and_raise env (flatten_entry user "failed" reason why) (HTTPException status_code code).

(** Lines 1583-1623: the positions, and whether there is a broker to close them. *)
Definition to_flatten (env : environment) (cx : controls) (user : AuthenticatedUser) (reason : string) : M mc (list (string * position_row)) :=
  positions ← (if has_permission user "view_all_strategies" then on_gw (call env (fun _ => in_db positions_in_order))
               else match get_authorized_strategies (Some user) with
                    | [] => log_and_raise env (flatten_entry user "failed" reason "no_authorized_strategies") strategy_unauthorized
                    | l => on_gw (call env (fun _ => in_db (get_positions_for_strategies l)))
                    end);
  match positions with
  | [] => _ ← log_action env (flatten_entry user "no_op" reason "no_positions_to_flatten"); mret []
  | _ => if negb (mx_executor cx) then log_and_raise env (flatten_entry user "failed" reason "broker_unavailable") broker_unavailable
         else mret positions
  end.

Definition flatten_all_positions (env : environment) (cx : controls) (two_fa : string -> string -> TwoFaResult) (user : AuthenticatedUser)
    (request : FlattenAllRequest) : M mc FlattenAllResponse :=
  let reason := _sanitize_reason (fl_reason request) in
  _ ← _ensure_permission_with_audit env user "flatten_all" "flatten_all";
  _ ← _enforce_rate_limit env cx user "flatten_all";
  let '(valid_mfa, mfa_error, _) := two_fa (fl_id_token request) (user_id user) in
  _ ← (if valid_mfa : bool then mret tt else mfa_refused env user reason mfa_error);
  positions ← to_flatten env cx user reason;
  match positions with
  | [] => mret {| positions_closed := 0; orders_created := []; fl_strategies := [] |}
  | _ =>
      strategy_map ← on_gw (call env (fun _ => in_db (get_strategy_map_for_symbols positions.*1)));
      acc ← for_each (flatten_one env user reason strategy_map) ([], ∅) positions;
      _ ← log_action env (flatten_entry user "success" reason "");
      mret {| positions_closed := length acc.1; orders_created := acc.1; fl_strategies := sorted_strategies acc.2 |}
  end.
