(* ===== verification/ManualPlace.v ===== *)
(** * How an operator's order is written and sent

    The quantities of a manual order are whole numbers, its row meets every
    constraint of the table, and the broker sees it between one and three times. *)

From S2P Require Import Prelude PyDecimal PyText OrderStatus OrderSchema GatewayDb OrderCas RedisClient RateLimiter.
From S2P Require Import Access Gateway SliceExec OrderGates OrderSubmit OrderOutcome ManualText Listings ManualBase ManualCancel ManualPositions.
From Stdlib Require Import QArith Qabs.
Open Scope Z_scope.

(** ** Whole numbers of shares *)

Lemma integral_val d : integral d = true -> (dval d == inject_Z (dint d))%Q.
Proof.
  unfold integral, dint. destruct (Z.leb_spec 0 (dexp d)) as [H|H].
  - intros _. unfold dval. rewrite ten_pow_inject by done. by rewrite <- inject_Z_mult.
  - rewrite Z.eqb_eq. intros Hr. set (k := - dexp d) in *. assert (Hk : 0 < 10 ^ k) by (apply pow10_pos; lia).
    assert (E : coef d = Z.quot (coef d) (10 ^ k) * 10 ^ k) by (pose proof (Z.quot_rem (coef d) (10 ^ k)); lia).
    unfold dval. rewrite E at 1. rewrite inject_Z_mult, <- Qmult_assoc, <- ten_pow_inject by lia.
    rewrite <- ten_pow_add. replace (k + dexp d) with 0 by lia. ring.
Qed.

Lemma require_run q : integral q = true -> (0 < dval q)%Q -> _require_integral_qty q = Ok (dint q) /\ 0 < dint q.
Proof.
  intros Hi Hq. rewrite (integral_val q Hi) in Hq. change 0%Q with (inject_Z 0) in Hq. rewrite <- Zlt_Qlt in Hq.
  unfold _require_integral_qty. rewrite Hi. cbn [negb]. destruct (Z.leb_spec (dint q) 0); [lia|done].
Qed.

(** A column of numbers with at most 28 digits. *)
Definition small (d : decimal) : Prop := Z.abs (coef d) < 10 ^ 28.

Lemma dabs_small d : small d -> dabs d = Dec (Z.abs (coef d)) (dexp d).
Proof. intros H. unfold dabs. apply fix_prec_small. simpl. unfold small in H. lia. Qed.

Lemma dabs_val d : small d -> (dval (dabs d) == Qabs (dval d))%Q.
Proof. intros H. rewrite (dabs_small d H). apply abs_val. Qed.

Lemma dabs_integral d : small d -> integral (dabs d) = integral d.
Proof.
  intros H. rewrite (dabs_small d H). unfold integral. cbn [coef dexp]. destruct (0 <=? dexp d); [done|].
  destruct (Z.eqb_spec (Z.rem (coef d) (10 ^ (- dexp d))) 0) as [E|E], (Z.eqb_spec (Z.rem (Z.abs (coef d)) (10 ^ (- dexp d))) 0) as [E'|E']; try done;
    exfalso; destruct (Z.abs_eq_or_opp (coef d)) as [Ea|Ea]; rewrite Ea in E'; rewrite ?Z.rem_opp_l' in E'; lia.
Qed.

Lemma dint_dabs d : small d -> integral d = true -> dint (dabs d) = Z.abs (dint d).
Proof.
  intros Hs Hi. apply inject_Z_injective. rewrite <- integral_val by (by rewrite dabs_integral). rewrite dabs_val by done.
  rewrite (integral_val d Hi). reflexivity.
Qed.

(** ** The row of a new order *)

Lemma upper_char_idem c : upper_char (upper_char c) = upper_char c.
Proof. destruct c as [[] [] [] [] [] [] [] []]; reflexivity. Qed.

Lemma upper_idem s : upper (upper s) = upper s.
Proof.
  unfold upper. rewrite chars_of_chars. f_equal. rewrite <- list_fmap_compose. apply list_fmap_ext. intros i c _. apply upper_char_idem.
Qed.

Definition manual_row (strategy_id : string) (r : OrderRequest) (status : string) (submitted_at : option Z) (now : Z) : order_row := {|
  o_core := core_of strategy_id r; o_exec := new_exec status None None submitted_at; o_links := no_links;
  o_metadata := Some empty_meta; o_created_at := now; o_updated_at := now |}.

Lemma manual_row_valid t raw r orders id strategy_id status sub now : mk_order_request t raw = Ok r ->
  order_valid orders id (manual_row strategy_id r status sub now) = true.
Proof.
  intros H. apply mk_order_request_ok in H as [-> (Hf & _ & Hl & Hs & _)]. apply order_valid_spec. split; [|split; [|done]].
  - unfold field_types_ok in Hf. boolify. unfold order_checks. simpl. unfold price_positive in *. unfold opt_check, dpositive.
    repeat (apply andb_true_iff; split); try done; lia.
  - intros id' r' _. by right.
Qed.

(** ** Writing and sending *)

Lemma retry_asks env (read : broker_reply -> result order_dict) q more : forall s, exists l,
  g_sent (snd (retry_connection more (reply ← ask_broker env q; lift (read reply)) s)) = g_sent s ++ [q] ++ l.
Proof.
  induction more as [|more IH]; intros s; cbn [retry_connection]; rewrite M_bind_run; unfold ask_broker, lift;
    set (s1 := {| g_shared := _; g_jobs := _; g_sent := _; g_calls := _ |}); destruct (read _) as [o|e].
  1,3: by exists [].
  - exists []. by destruct e.
  - destruct (IH s1) as [l H]. destruct e; try (by exists []). exists ([q] ++ l). unfold ask_broker, lift in H. rewrite H. simpl. by rewrite <- app_assoc.
Qed.

Section quiet.
Context (env : environment).
Hypothesis Hq : quiet env.

Section from.
Context {s s1 : mc} {D : db} {sent : list broker_request} {log : list audit_entry}.
Hypothesis W : went s s1 D sent log.

Lemma submit_from r id q : _build_alpaca_request r id = Ok q -> exists n s2,
  submit env r id s1 = (verdict env (g_sent (mc_gw s) ++ sent) q RETRIES, s2) /\ (1 <= n <= 3)%nat /\
  went s s2 D (sent ++ replicate n (Submit q)) log.
Proof.
  intros Hb. unfold submit, on_gw. rewrite zoom_run. unfold Gateway.submit_order.
  destruct (submit_order_run env r id q RETRIES Hq Hb (mc_gw s1)) as (g & E & (H1 & H2 & n & Hn & H3) & _).
  assert (H4 : exists l, g_sent g = g_sent (mc_gw s1) ++ [Submit q] ++ l).
  { destruct (retry_asks env submit_reply (Submit q) RETRIES (mc_gw s1)) as [l Hl]. exists l. rewrite <- Hl.
    unfold submit_attempt in E. rewrite Hb in E. by rewrite E. }
  rewrite E. cbn [fst snd]. destruct W as [W1 W2 W3 W4]. rewrite W2. exists n. eexists. split; [reflexivity|]. split.
  - destruct H4 as [l H4]. rewrite H4 in H3. apply (f_equal length) in H3. rewrite !length_app, length_replicate in H3. simpl in H3. unfold RETRIES in Hn. lia.
  - split; simpl; [by rewrite H1|by rewrite H3, W2, app_assoc|exact W3|by rewrite H2].
Qed.

Lemma persist_new t raw r id strategy_id : mk_order_request t raw = Ok r -> db_orders D !! id = None -> exists now row s2,
  persist env id strategy_id r s1 = (Ok row, s2) /\
  went s s2 (set_orders (insert id (manual_row strategy_id r "pending_new" (Some now) now)) D) sent log.
Proof.
  intros Hm Hn. destruct (db_from env Hq W (fun now => create_order now id strategy_id r "pending_new" None None)) as (now & s2 & E & W2).
  change (create_order now id strategy_id r "pending_new" None None)
    with (transaction (insert_order id (manual_row strategy_id r "pending_new" (Some now) now))) in E, W2.
  unfold transaction in E, W2. rewrite (insert_order_run id _ D Hn (manual_row_valid _ _ _ _ _ _ _ _ _ Hm)) in E, W2.
  exists now. eexists _, s2. by split.
Qed.

Lemma persist_again r id strategy_id row : db_orders D !! id = Some row -> exists c s2,
  persist env id strategy_id r s1 = (Raise (IntegrityError c), s2) /\ went s s2 D sent log.
Proof.
  intros Hr. destruct (db_from env Hq W (fun now => create_order now id strategy_id r "pending_new" None None)) as (now & s2 & E & W2).
  unfold create_order, transaction, insert_order in E, W2. rewrite M_bind_run in E, W2. unfold get_state in E, W2. cbv beta iota in E, W2.
  rewrite Hr in E, W2. eexists _, s2. split; [exact E|exact W2].
Qed.

End from.

Section place.
Context {s s1 : mc} {D : db} {sent : list broker_request} {log : list audit_entry}.
Hypothesis W : went s s1 D sent log.

(** An identifier that is taken: nothing is sent. *)
Lemma place_again mklog r id strategy_id row : db_orders D !! id = Some row -> exists s2,
  place env mklog id strategy_id r s1 = (Ok true, s2) /\ went s s2 D sent (log ++ [mklog "success" "idempotent"]).
Proof.
  intros Hr. destruct (persist_again W r id strategy_id row Hr) as (c & s2 & E & W2).
  unfold place, try_except. rewrite !M_bind_run, E. cbn [is_integrity]. rewrite M_bind_run.
  destruct (db_from env Hq W2 (fun _ => get_order_by_client_id id)) as (n3 & s3 & E3 & W3). rewrite E3.
  cbn [fst snd get_order_by_client_id reads] in *. rewrite Hr, M_bind_run.
  destruct (log_from env Hq W3 (mklog "success" "idempotent")) as (s4 & E4 & W4). rewrite E4. exists s4. by split.
Qed.

(** A new identifier: the row is written, then the broker's verdict on the order is the answer. *)
Lemma place_new t raw mklog r id strategy_id q : mk_order_request t raw = Ok r -> _build_alpaca_request r id = Ok q ->
  db_orders D !! id = None -> exists now n s2 e,
  let v := verdict env (g_sent (mc_gw s) ++ sent) q RETRIES in
  place env mklog id strategy_id r s1 = (match v with Ok _ => Ok false | Raise _ => Raise broker_failed end, s2) /\ (1 <= n <= 3)%nat /\
  went s s2 (set_orders (insert id (manual_row strategy_id r "pending_new" (Some now) now)) D) (sent ++ replicate n (Submit q)) (log ++ [e]).
Proof.
  intros Hm Hb Hn. destruct (persist_new W t raw r id strategy_id Hm Hn) as (now & row & s2 & E & W2). unfold place, try_except.
  rewrite !M_bind_run, E. change ((mret false : M mc bool) s2) with (@Ok bool false, s2). cbv beta iota. exists now.
  destruct (submit_from W2 r id q Hb) as (n & s3 & E3 & Hr & W3). exists n. rewrite M_bind_run, E3.
  destruct (verdict env (g_sent (mc_gw s) ++ sent) q RETRIES) as [o|e] eqn:Ev.
  - destruct (log_from env Hq W3 (mklog "success" id)) as (s4 & E4 & W4). rewrite M_bind_run, E4.
    exists s4, (mklog "success" id). split; [reflexivity|]. split; [exact Hr|exact W4].
  - rewrite (verdict_error _ _ _ _ _ Ev). destruct (log_raise_from (A:=bool) env Hq W3 (mklog "failed" (str_exn e)) broker_failed) as (s4 & E4 & W4).
    exists s4, (mklog "failed" (str_exn e)). rewrite E4. split; [reflexivity|]. split; [exact Hr|exact W4].
Qed.
End place.
End quiet.
