(* ===== verification/ManualMoves.v ===== *)
(** * What closing and adjusting do to a position

    The order of a close is on the other side and never larger than the position;
    a request that is repeated within the minute sends nothing more. *)

From S2P Require Import Prelude PyDecimal PyText OrderStatus OrderSchema GatewayDb OrderCas RedisClient RateLimiter.
From S2P Require Import Access Gateway SliceExec OrderGates OrderSubmit OrderOutcome Calendar ManualText Listings ManualBase ManualCancel ManualPositions ManualPlace.
From S2P Require Breaker.
From Stdlib Require Import QArith Qabs Lqa.
Open Scope Z_scope.

Lemma listed_position symbol D p : db_positions D !! symbol = Some p -> deqb (p_qty p) dzero = false ->
  forall l D', positions_in_order D = (Ok l, D') -> position_of symbol l = Some p.
Proof.
  intros Hp Hz l D'. unfold positions_in_order, get_all_positions, reads. rewrite M_bind_run. intros [= <- _]. unfold position_of.
  set (all := merge_sort _ _).
  assert (Hmem : forall x, x ∈ all <-> db_positions D !! x.1 = Some x.2 /\ deqb (p_qty x.2) dzero = false).
  { intros [k x]. unfold all. rewrite merge_sort_Permutation, elem_of_map_to_list, map_lookup_filter_Some. done. }
  destruct (filter _ all) as [|[k x] rest] eqn:E.
  - exfalso. apply (filter_nil_not_elem_of _ _ (symbol, p) E); [done|]. by apply Hmem.
  - assert (Hx : (k, x) ∈ filter (fun q : string * position_row => q.1 = symbol) all) by (rewrite E; left).
    apply list_elem_of_filter in Hx as [Hk Hx]. simpl in Hk. subst k. apply Hmem in Hx as [Hx _]. simpl in Hx. simpl. congruence.
Qed.

Definition within_limit (env : environment) (cx : controls) (user : AuthenticatedUser) (action : string) (s : mc) : Prop :=
  exists s1, _enforce_rate_limit env cx user action s = (Ok tt, s1).

(** The table has the position, with a whole number of shares that is not zero. *)
Record holds (D : db) (symbol : string) (qty : decimal) : Prop := {
  h_row : exists p, db_positions D !! symbol = Some p /\ p_qty p = qty;
  h_small : small qty;
  h_whole : integral qty = true;
  h_open : deqb qty dzero = false
}.

(** The order that closes: the other side, a market order for the day. *)
Definition close_order (symbol : string) (qty : decimal) (k : Z) : OrderRequest := manual_request symbol (side_to_close qty) k "market" None.

Lemma close_order_ok t symbol qty k : 0 < k ->
  mk_order_request t (close_order (upper symbol) qty k) = Ok (close_order (upper symbol) qty k).
Proof.
  intros Hk. apply mk_order_request_ok. split.
  - unfold symbol_uppercase, close_order, manual_request. simpl. by rewrite upper_idem.
  - unfold request_wf, field_types_ok, close_order, manual_request, side_to_close. simpl.
    assert (Hk' : (0 <? k) = true) by (by apply Z.ltb_lt). rewrite Hk'.
    split; [by destruct (dltb dzero qty)|]. do 3 (split; [reflexivity|]). split; [|discriminate].
    unfold prices_wf. simpl. split; [|split]; [intros H; exfalso; set_solver..|discriminate].
Qed.

Definition market_order (r : OrderRequest) (id : string) : alpaca_request :=
  MarketOrderRequest (req_symbol r) (req_qty r) (req_side r) (req_time_in_force r) id.

Lemma close_order_build symbol qty k id : _build_alpaca_request (close_order symbol qty k) id = Ok (market_order (close_order symbol qty k) id).
Proof. unfold _build_alpaca_request, close_order, manual_request, side_to_close, market_order. simpl. by destruct (dltb dzero qty). Qed.

Lemma close_side qty : integral qty = true -> side_to_close qty = if decide (0 < dint qty) then "sell" else "buy".
Proof.
  intros Hi. pose proof (integral_val qty Hi) as Hv. unfold side_to_close. destruct (dltb_spec dzero qty) as [H|H]; rewrite dzero_val, Hv in H;
    change 0%Q with (inject_Z 0) in H; rewrite <- Zlt_Qlt in H; by destruct (decide _).
Qed.

Section quiet.
Context (env : environment).
Hypothesis Hq : quiet env.

Lemma limit_passed cx user action s s1 : _enforce_rate_limit env cx user action s = (Ok tt, s1) -> went s s1 (db_of s) [] [].
Proof.
  unfold _enforce_rate_limit. destruct (RATE_LIMITS action) as [[n w]|]; [|by intros [=]].
  destruct (limit_from env Hq (went_refl s) (mx_limiter cx) (user_id user) action n w) as (b & s2 & E & W). rewrite M_bind_run, E.
  destruct b; [by intros [= <-]|]. destruct (log_raise_from (A:=unit) env Hq W (entry user action "rate_limit" action "rate_limited" None "") (HTTPException 429 "rate_limited")) as (s3 & E3 & _).
  rewrite E3. by intros [=].
Qed.

Lemma whole_position_from cx user action symbol reason s qty : within_limit env cx user action s -> holds (db_of s) symbol qty -> exists s1,
  whole_position env cx user action symbol reason s = (Ok qty, s1) /\ went s s1 (db_of s) [] [].
Proof.
  intros [s1 E] [(p & Hp & <-) _ _ Hz]. pose proof (limit_passed _ _ _ _ _ E) as W. unfold whole_position, _ensure_permission_with_audit, no_strategies.
  cbn [negb has_permission andb]. rewrite M_bind_run. change ((mret tt : M mc unit) s) with (@Ok unit tt, s). cbv beta iota.
  rewrite M_bind_run, E. unfold _require_non_empty_strategy_scope, _apply_strategy_scope. cbn [has_permission]. rewrite M_bind_run.
  change ((mret None : M mc (option (list string))) s1) with (@Ok (option (list string)) None, s1). cbv beta iota.
  unfold visible_positions. cbn [negb has_permission]. rewrite M_bind_run.
  destruct (db_from env Hq W (fun _ => positions_in_order)) as (n & s2 & E2 & W2). rewrite E2.
  destruct (positions_in_order (db_of s)) as [[l|e] D'] eqn:El; [|discriminate].
  cbn [fst snd] in *. rewrite (listed_position symbol (db_of s) p Hp Hz l D' El). exists s2. split; [reflexivity|].
  assert (D' = db_of s) as ->; [|exact W2]. unfold positions_in_order, get_all_positions, reads in El. rewrite M_bind_run in El. by injection El.
Qed.

Definition close_id (t : Z) (symbol : string) (qty : decimal) (k : Z) (user : AuthenticatedUser) : string :=
  _generate_manual_order_id t "close_position" symbol (side_to_close qty) k (user_id user) None None None None.

Definition close_answer (id : string) (q : decimal) (retried : bool) : ClosePositionResponse :=
  {| cp_status := "closing"; cp_order_id := Some id; cp_qty_to_close := q; cp_message := retry_message retried |}.

(** A request that can be carried out: at most the whole position. *)
Record closable (cx : controls) (user : AuthenticatedUser) (symbol : string) (request : ClosePositionRequest) (qty : decimal) (s : mc) : Prop := {
  cb_executor : mx_executor cx = true;
  cb_limit : within_limit env cx user "close_position" s;
  cb_position : holds (db_of s) (upper symbol) qty;
  cb_request : close_request_ok request = true;
  cb_size : (dval (default (dabs qty) (cp_qty request)) <= Qabs (dval qty))%Q
}.

Lemma closable_qty cx user symbol request qty s : closable cx user symbol request qty s ->
  let q := default (dabs qty) (cp_qty request) in
  _require_integral_qty q = Ok (dint q) /\ 0 < dint q <= Z.abs (dint qty) /\ dltb (dabs qty) q = false.
Proof.
  intros [_ _ [_ Hs Hi Ho] Hr Hle] q.
  assert (Hpos : integral q = true /\ (0 < dval q)%Q).
  { unfold close_request_ok in Hr. apply andb_true_iff in Hr as [_ Hr]. unfold q, opt_check in *. destruct (cp_qty request) as [c|]; simpl.
    - apply andb_true_iff in Hr as [Hp Hc]. split; [exact Hc|]. destruct (dltb_spec dzero c) as [H|]; [|discriminate]. by rewrite dzero_val in H.
    - split; [by rewrite dabs_integral|]. rewrite dabs_val by done. destruct (deqb_spec qty dzero) as [|H]; [discriminate|]. rewrite dzero_val in H.
      apply Qnot_le_lt. intros Hle'. apply H. apply Qabs_Qle_condition in Hle'. lra. }
  destruct Hpos as [Hqi Hqp]. destruct (require_run q Hqi Hqp) as [E Hk]. split; [exact E|]. split.
  - split; [exact Hk|]. rewrite <- dint_dabs by done. apply dint_mono. by rewrite dabs_val.
  - destruct (dltb_spec (dabs qty) q) as [H|]; [|done]. rewrite dabs_val in H by done. exfalso. by apply (Qlt_not_le _ _ H).
Qed.

(** Up to the point where the order is written and sent. *)
Lemma close_start cx user symbol request qty s : closable cx user symbol request qty s ->
  let q := default (dabs qty) (cp_qty request) in
  let r := close_order (upper symbol) qty (dint q) in
  let log := fun outcome detail => entry user "close_position" "position" (upper symbol) outcome (Some (_sanitize_reason (cp_reason request))) detail in
  exists n s1, went s s1 (db_of s) [] [] /\
    let id := close_id (clock env n) (upper symbol) qty (dint q) user in
    close_position env cx user symbol request s =
      (retried ← place env log id "manual_controls_close_position" r; mret (close_answer id q retried)) s1.
Proof.
  intros Hc q r log. destruct (closable_qty _ _ _ _ _ _ Hc) as (Eq & Hk & Hle). fold q in Eq, Hk, Hle.
  destruct Hc as [Hx Hlim Hh _ _]. unfold close_position. rewrite M_bind_run.
  destruct (whole_position_from cx user "close_position" (upper symbol) (_sanitize_reason (cp_reason request)) s qty Hlim Hh) as (s1 & E & W).
  rewrite E. destruct Hh as [_ _ Hi Ho]. rewrite Ho, Hi. cbn [negb]. change (match cp_qty request with Some q0 => q0 | None => dabs qty end) with q.
  rewrite Hle, M_bind_run. unfold lift. rewrite Eq, Hx. cbn [negb].
  exists (g_calls (mc_gw s1)), s1. split; [exact W|]. unfold order_request. rewrite M_bind_run, M_bind_run.
  assert (Ec : on_gw (read_clock env) s1 = (Ok (clock env (g_calls (mc_gw s1))), s1)).
  { unfold on_gw. rewrite zoom_run. unfold read_clock. cbn [fst snd]. by destruct s1. }
  rewrite Ec. unfold lift. fold (close_order (upper symbol) qty (dint q)). rewrite close_order_ok by lia.
  unfold order_id_for. rewrite M_bind_run, M_bind_run, Ec. done.
Qed.

(** The close is written first, and sent between one and three times, with the broker's verdict as the answer; the
    order is on the other side of the position and not larger.  Under an identifier that is taken nothing is sent. *)
Theorem close_position_outcome cx user symbol request qty s : closable cx user symbol request qty s ->
  let q := default (dabs qty) (cp_qty request) in
  let k := dint q in
  let r := close_order (upper symbol) qty k in
  let out := close_position env cx user symbol request s in
  0 < k <= Z.abs (dint qty) /\ req_side r = (if decide (0 < dint qty) then "sell" else "buy") /\
  exists t, let id := close_id t (upper symbol) qty k user in
  match db_orders (db_of s) !! id with
  | Some _ => fst out = Ok (close_answer id q true) /\ g_sent (mc_gw (snd out)) = g_sent (mc_gw s) /\ db_of (snd out) = db_of s
  | None => exists now n, (1 <= n <= 3)%nat /\
      g_sent (mc_gw (snd out)) = g_sent (mc_gw s) ++ replicate n (Submit (market_order r id)) /\
      db_of (snd out) = set_orders (insert id (manual_row "manual_controls_close_position" r "pending_new" (Some now) now)) (db_of s) /\
      fst out = match verdict env (g_sent (mc_gw s)) (market_order r id) RETRIES with
                | Ok _ => Ok (close_answer id q false)
                | Raise _ => Raise broker_failed
                end
  end.
Proof.
  intros Hc q k r out. destruct (closable_qty _ _ _ _ _ _ Hc) as (_ & Hk & _). split; [exact Hk|].
  split; [exact (close_side qty (h_whole _ _ _ (cb_position _ _ _ _ _ _ Hc)))|].
  destruct (close_start _ _ _ _ _ _ Hc) as (n & s1 & W & E). exists (clock env n). unfold out. cbv zeta in E. rewrite E. clear E out.
  fold q k r. set (id := close_id _ _ _ _ _). set (log := fun outcome detail => _).
  destruct (db_orders (db_of s) !! id) as [row|] eqn:Eo; rewrite M_bind_run.
  - destruct (place_again env Hq W log r id "manual_controls_close_position" row Eo) as (s2 & E & W2). rewrite E. unfold mret, M_ret. cbn [fst snd].
    split; [reflexivity|]. split; [|exact (went_db _ _ _ _ _ W2)]. rewrite (went_sent _ _ _ _ _ W2). apply app_nil_r.
  - destruct (place_new env Hq W 0 r log r id "manual_controls_close_position" (market_order r id)) as (now & j & s2 & e & E & Hj & W2);
      [apply close_order_ok; apply Hk|apply close_order_build|exact Eo|]. rewrite E. exists now, j. split; [exact Hj|].
    rewrite app_nil_r in *. destruct (verdict env _ _ _); unfold mret, M_ret; cbn [fst snd];
      (split; [exact (went_sent _ _ _ _ _ W2)|]; split; [exact (went_db _ _ _ _ _ W2)|reflexivity]).
Qed.

Lemma id_in_minute t t' action symbol side qty uid ot lp sp tif : minute_key t = minute_key t' ->
  _generate_manual_order_id t action symbol side qty uid ot lp sp tif = _generate_manual_order_id t' action symbol side qty uid ot lp sp tif.
Proof. unfold _generate_manual_order_id. by intros ->. Qed.

(** A close that the broker refused is answered, when it is repeated within the minute, as already submitted: nothing
    is sent, and the order stays in the table as pending without ever having been taken. *)
Theorem failed_close_is_reported_as_closing cx user symbol request qty s e :
  (forall n, minute_key (clock env n) = minute_key (clock env 0)) -> closable cx user symbol request qty s ->
  let q := default (dabs qty) (cp_qty request) in
  let r := close_order (upper symbol) qty (dint q) in
  let id := close_id (clock env 0) (upper symbol) qty (dint q) user in
  let out := close_position env cx user symbol request s in
  let again := close_position env cx user symbol request (snd out) in
  db_orders (db_of s) !! id = None ->
  verdict env (g_sent (mc_gw s)) (market_order r id) RETRIES = Raise e ->
  within_limit env cx user "close_position" (snd out) ->
  fst out = Raise broker_failed /\ fst again = Ok (close_answer id q true) /\
  g_sent (mc_gw (snd again)) = g_sent (mc_gw (snd out)) /\
  exists row, db_orders (db_of (snd again)) !! id = Some row /\ o_status (o_exec row) = "pending_new" /\ o_broker_order_id (o_exec row) = None.
Proof.
  intros Hmin Hc q r id out again Hn Hv Hlim. destruct (closable_qty _ _ _ _ _ _ Hc) as (_ & Hk & _).
  destruct (close_start _ _ _ _ _ _ Hc) as (n & s1 & W & E). subst again. fold out in E. cbv zeta in E. fold q r in E.
  assert (Eid : forall m, close_id (clock env m) (upper symbol) qty (dint q) user = id).
  { intros m. unfold id, close_id. apply id_in_minute. exact (Hmin m). }
  rewrite Eid in E. clearbody id. set (log := fun outcome detail => _) in E.
  destruct (place_new env Hq W 0 r log r id "manual_controls_close_position" (market_order r id)) as (now & j & s2 & x & E2 & _ & W2);
    [apply close_order_ok; apply Hk|apply close_order_build|exact Hn|].
  rewrite app_nil_r, Hv in E2. rewrite M_bind_run, E2 in E. rewrite E in *. cbn [fst snd] in *. clear E E2.
  set (row := manual_row _ r _ _ _) in W2. set (D := set_orders _ _) in W2. pose proof (went_db _ _ _ _ _ W2) as HD.
  assert (Hc2 : closable cx user symbol request qty s2).
  { destruct Hc as [Hx _ [Hp Hs Hw Ho] Hr Hle]. split; [exact Hx|exact Hlim| |exact Hr|exact Hle]. rewrite HD. by split. }
  destruct (close_start _ _ _ _ _ _ Hc2) as (m & s3 & W3 & E3). cbv zeta in E3. fold q r in E3. rewrite Eid in E3.
  set (log3 := fun outcome detail => _) in E3.
  assert (Hrow : db_orders (db_of s2) !! id = Some row) by (rewrite HD; apply lookup_insert_eq).
  destruct (place_again env Hq W3 log3 r id "manual_controls_close_position" row Hrow) as (s4 & E4 & W4).
  rewrite E3, M_bind_run, E4. unfold mret, M_ret. cbn [fst snd]. split; [reflexivity|]. split; [reflexivity|].
  split; [rewrite (went_sent _ _ _ _ _ W4); apply app_nil_r|]. exists row. rewrite (went_db _ _ _ _ _ W4). by split_and!.
Qed.
End quiet.
