(* ===== verification/ManualAdjust.v ===== *)
(** * What an adjustment does

    An adjustment orders the difference to the target.  The breaker stops those
    that do not make the position smaller in size; the kill switch is not asked. *)

From S2P Require Import Prelude PyDecimal PyText OrderStatus OrderSchema GatewayDb OrderCas RedisClient RateLimiter.
From S2P Require Import Access Gateway SliceExec OrderGates OrderSubmit OrderOutcome Calendar ManualText Listings ManualBase ManualCancel.
From S2P Require Import ManualPositions ManualPlace ManualMoves.
From S2P Require Breaker.
From Stdlib Require Import QArith Qabs Lqa.
Open Scope Z_scope.

Lemma integral_iff d z : (dval d == inject_Z z)%Q -> integral d = true /\ dint d = z.
Proof.
  intros H. assert (Hi : integral d = true).
  { unfold integral. destruct (Z.leb_spec 0 (dexp d)) as [|Hd]; [done|]. apply Z.eqb_eq. set (k := - dexp d) in *.
    assert (Hk : 0 < 10 ^ k) by (apply pow10_pos; lia). assert (E : coef d = z * 10 ^ k); [|rewrite E; apply Z.rem_mul; lia].
    apply inject_Z_injective. rewrite inject_Z_mult, <- H, <- ten_pow_inject by lia. unfold dval.
    rewrite <- Qmult_assoc, <- ten_pow_add. replace (dexp d + k) with 0 by lia. unfold Qpower. ring. }
  split; [exact Hi|]. apply inject_Z_injective. by rewrite <- integral_val.
Qed.

Lemma inject_Z_abs_val z : inject_Z (Z.abs z) = Qabs (inject_Z z).
Proof. reflexivity. Qed.

(** The state of the breaker, as the handler reads it: nothing when its key is missing. *)
Definition breaker_text (s : mc) : string := _parse_circuit_breaker_state (Breaker.state_key (sh_breaker (g_shared (mc_gw s)))).

(** The order of an adjustment by [d] shares. *)
Definition adjust_order (symbol : string) (request : AdjustPositionRequest) (d : Z) : OrderRequest :=
  manual_request symbol (if 0 <? d then "buy" else "sell") (Z.abs d) (aj_order_type request) (aj_limit_price request).

Definition adjust_id (t : Z) (symbol : string) (request : AdjustPositionRequest) (d : Z) (user : AuthenticatedUser) : string :=
  _generate_manual_order_id t "adjust_position" symbol (if 0 <? d then "buy" else "sell") (Z.abs d) (user_id user)
    (Some (aj_order_type request)) (aj_limit_price request) None None.

Section quiet.
Context (env : environment).
Hypothesis Hq : quiet env.

(** A request whose difference to the target is exact. *)
Record adjustable (cx : controls) (user : AuthenticatedUser) (symbol : string) (request : AdjustPositionRequest) (qty : decimal) (s : mc) : Prop := {
  aa_limit : within_limit env cx user "adjust_position" s;
  aa_position : exists p, db_positions (db_of s) !! upper symbol = Some p /\ p_qty p = qty;
  aa_whole : integral qty = true /\ small qty /\ deqb qty dzero = false;
  aa_target : small (aj_target_qty request);
  aa_delta : small (num_add (aj_target_qty request) (dneg_exact qty));
  aa_request : adjust_request_ok request = true;
  aa_priced : aj_order_type request = "limit" -> is_Some (aj_limit_price request)
}.

Section request.
Context (cx : controls) (user : AuthenticatedUser) (symbol : string) (request : AdjustPositionRequest) (qty : decimal) (s : mc).
Hypothesis Ha : adjustable cx user symbol request qty s.

Let d : Z := dint (aj_target_qty request) - dint qty.

Lemma delta_val : (dval (dsub (aj_target_qty request) qty) == inject_Z d)%Q.
Proof.
  destruct Ha as [_ _ [Hi [Hs _]] Ht Hd Hr _]. unfold dsub, dadd. rewrite fix_prec_small by exact Hd.
  rewrite num_add_val, dneg_exact_val. unfold adjust_request_ok in Hr. boolify.
  rewrite (integral_val qty Hi), (integral_val (aj_target_qty request)) by done. unfold d. rewrite inject_Z_sub. ring.
Qed.

Lemma adjust_order_ok t : d <> 0 -> mk_order_request t (adjust_order (upper symbol) request d) = Ok (adjust_order (upper symbol) request d).
Proof.
  intros Hd. apply mk_order_request_ok. split.
  - unfold symbol_uppercase, adjust_order, manual_request. simpl. by rewrite upper_idem.
  - destruct Ha as [_ _ _ _ _ Hr Hp]. unfold adjust_request_ok in Hr. boolify. rename select (one_of _ _ = true) into Hot.
    unfold request_wf, field_types_ok, adjust_order, manual_request, price_positive. simpl.
    assert (Hk : (0 <? Z.abs d) = true) by (apply Z.ltb_lt; lia). rewrite Hk. apply one_of_spec in Hot.
    split; [|split; [reflexivity|split; [by destruct (aj_limit_price request)|split; [reflexivity|split; [|discriminate]]]]].
    + rewrite (one_of_true (aj_order_type request)) by (clear -Hot; set_solver). by destruct (0 <? d).
    + unfold prices_wf. simpl. split; [|split].
      * intros Hl0. apply Hp. apply elem_of_cons in Hl0 as [Hl0|Hl0]; [done|]. apply list_elem_of_singleton in Hl0. rewrite Hl0 in Hot. by apply one_of_spec in Hot.
      * intros Hl0. exfalso. apply elem_of_cons in Hl0 as [Hl0|Hl0]; [|apply list_elem_of_singleton in Hl0]; rewrite Hl0 in Hot; by apply one_of_spec in Hot.
      * intros l st Hl0. exfalso. rewrite Hl0 in Hot. by apply one_of_spec in Hot.
Qed.

Lemma adjust_build id : exists q, _build_alpaca_request (adjust_order (upper symbol) request d) id = Ok q.
Proof.
  destruct Ha as [_ _ _ _ _ Hr Hp]. unfold adjust_request_ok in Hr. boolify. rename select (one_of _ _ = true) into Hot. apply one_of_spec in Hot.
  unfold _build_alpaca_request, adjust_order, manual_request. simpl. apply elem_of_cons in Hot as [->|Hot]; [by eexists|].
  apply list_elem_of_singleton in Hot. rewrite Hot. simpl. destruct (Hp Hot) as [l ->]. by eexists.
Qed.

Lemma reducing_val : dltb (dabs (aj_target_qty request)) (dabs qty) = bool_decide (Z.abs (dint (aj_target_qty request)) < Z.abs (dint qty)).
Proof.
  destruct Ha as [_ _ [Hi [Hs _]] Ht _ Hr _]. unfold adjust_request_ok in Hr. boolify.
  destruct (dltb_spec (dabs (aj_target_qty request)) (dabs qty)) as [Hlt|Hlt]; rewrite !dabs_val, !integral_val in Hlt by done;
    rewrite <- !inject_Z_abs_val in Hlt; rewrite <- Zlt_Qlt in Hlt; symmetry; [by apply bool_decide_eq_true|by apply bool_decide_eq_false].
Qed.
End request.

Lemma breaker_from {s s1 D sent log} : went s s1 D sent log ->
  exists s2, read_breaker_state env s1 = (Ok (breaker_text s), s2) /\ went s s2 D sent log.
Proof.
  intros W. unfold read_breaker_state, on_gw. rewrite zoom_run, call_quiet by done. unfold in_breaker. rewrite zoom_run. cbn [fst snd reads].
  destruct W as [H1 H2 H3 H4]. unfold breaker_text. rewrite H1. eexists. split; [reflexivity|].
  split; simpl; [by destruct (g_shared (mc_gw s))|exact H2|exact H3|exact H4].
Qed.

(** The breaker lets an adjustment through, or blocks it. *)
Lemma adjust_breaker_from {s s1 D sent log} cx user symbol reason : went s s1 D sent log -> mx_redis cx = true ->
  exists s2 log2, went s s2 D sent log2 /\
    adjust_breaker env cx user symbol reason s1 =
      (if bool_decide (breaker_text s = "") then Raise breaker_unavailable
       else if bool_decide (breaker_text s = "TRIPPED") then Raise breaker_tripped else Ok tt, s2).
Proof.
  intros W Hr. unfold adjust_breaker, try_except. rewrite Hr, M_bind_run. destruct (breaker_from W) as (s2 & E & W2). rewrite E.
  repeat case_bool_decide; unfold blocked.
  - edestruct (log_raise_from (A:=unit) env Hq W2) as (s3 & E3 & W3). rewrite E3. eexists s3, _. split; [exact W3|reflexivity].
  - edestruct (log_raise_from (A:=unit) env Hq W2) as (s3 & E3 & W3). rewrite E3. eexists s3, _. split; [exact W3|reflexivity].
  - exists s2, log. split; [exact W2|reflexivity].
Qed.

Section adjust.
Context (cx : controls) (user : AuthenticatedUser) (symbol : string) (request : AdjustPositionRequest) (qty : decimal) (s : mc).
Hypothesis Ha : adjustable cx user symbol request qty s.
Hypothesis Hd : dint (aj_target_qty request) <> dint qty.

Let target : Z := dint (aj_target_qty request).
Let d : Z := target - dint qty.

Lemma adjust_begin : exists s1, went s s1 (db_of s) [] [] /\
  adjust_position env cx user symbol request s =
  (let reason := _sanitize_reason (aj_reason request) in
   let log := fun outcome detail => entry user "adjust_position" "position" (upper symbol) outcome (Some reason) detail in
   _ ← (if bool_decide (Z.abs target < Z.abs (dint qty)) then mret tt else adjust_breaker env cx user (upper symbol) reason);
   if negb (mx_executor cx) then log_and_raise env (log "failed" "broker_unavailable") broker_unavailable
   else
     qty_int ← lift (_require_integral_qty (dabs (dsub (aj_target_qty request) qty)));
     order_req ← order_request env (manual_request (upper symbol) (if 0 <? d then "buy" else "sell") qty_int (aj_order_type request) (aj_limit_price request));
     order_id ← order_id_for env "adjust_position" order_req user (Some (aj_order_type request));
     retried ← place env log order_id "manual_controls_adjust_position" order_req;
     mret {| aj_current_qty := qty; aj_new_qty := aj_target_qty request; aj_order_id := Some order_id; aj_message := retry_message retried |}) s1.
Proof.
  pose proof (delta_val cx user symbol request qty s Ha) as Hv. pose proof (reducing_val cx user symbol request qty s Ha) as Hred.
  destruct Ha as [Hlim Hp (Hi & Hs & Ho) Ht _ Hr _]. unfold adjust_position. rewrite M_bind_run.
  destruct (whole_position_from env Hq cx user "adjust_position" (upper symbol) (_sanitize_reason (aj_reason request)) s qty Hlim) as (s1 & E & W); [by split|].
  rewrite E, Hi. cbn [negb]. exists s1. split; [exact W|]. rewrite Hred.
  assert (Ez : deqb (dsub (aj_target_qty request) qty) dzero = false).
  { destruct (deqb_spec (dsub (aj_target_qty request) qty) dzero) as [H|]; [|done]. rewrite Hv, dzero_val in H. exfalso. apply Hd.
    change 0%Q with (inject_Z 0) in H. rewrite inject_Z_injective in H. lia. }
  assert (Es : dltb dzero (dsub (aj_target_qty request) qty) = (0 <? d)).
  { destruct (dltb_spec dzero (dsub (aj_target_qty request) qty)) as [H|H]; rewrite Hv, dzero_val in H; change 0%Q with (inject_Z 0) in H;
      rewrite <- Zlt_Qlt in H; unfold d, target; destruct (Z.ltb_spec 0 (dint (aj_target_qty request) - dint qty)); lia || done. }
  rewrite Ez, Es. rewrite andb_true_r. fold target. by destruct (bool_decide _).
Qed.

Let r : OrderRequest := adjust_order (upper symbol) request d.

Definition adjust_answer (id : string) (retried : bool) : AdjustPositionResponse := {|
  aj_current_qty := qty; aj_new_qty := aj_target_qty request; aj_order_id := Some id; aj_message := retry_message retried |}.

Definition let_through : Prop := Z.abs target < Z.abs (dint qty) \/
  mx_redis cx = true /\ breaker_text s <> "" /\ breaker_text s <> "TRIPPED".

Lemma adjust_start : mx_executor cx = true -> let_through ->
  exists n s1 log1 mklog, went s s1 (db_of s) [] log1 /\
    let id := adjust_id (clock env n) (upper symbol) request d user in
    adjust_position env cx user symbol request s =
      (retried ← place env mklog id "manual_controls_adjust_position" r; mret (adjust_answer id retried)) s1.
Proof.
  intros Hx Hl. destruct adjust_begin as (s1 & W & E). rewrite E. clear E. cbv zeta.
  set (mklog := fun outcome detail : string => _). set (reason := _sanitize_reason _).
  assert (Hb : exists s2 log2, went s s2 (db_of s) [] log2 /\
    (if bool_decide (Z.abs target < Z.abs (dint qty)) then mret tt else adjust_breaker env cx user (upper symbol) reason) s1 = (Ok tt, s2)).
  { case_bool_decide as Ht; [exists s1, []; by split|]. destruct Hl as [|(Hr & Hne & Hnt)]; [done|].
    destruct (adjust_breaker_from cx user (upper symbol) reason W Hr) as (s2 & log2 & W2 & E). exists s2, log2. split; [exact W2|].
    rewrite E. by rewrite !bool_decide_false. }
  destruct Hb as (s2 & log2 & W2 & E). rewrite M_bind_run, E, Hx. cbn [negb]. clear E W s1.
  assert (Eq : _require_integral_qty (dabs (dsub (aj_target_qty request) qty)) = Ok (Z.abs d)).
  { pose proof (delta_val cx user symbol request qty s Ha) as Hv. fold target d in Hv. destruct Ha as [_ _ _ _ Hsm _ _].
    assert (Hs : small (dsub (aj_target_qty request) qty)) by (unfold dsub, dadd; by rewrite fix_prec_small).
    assert (Hav : (dval (dabs (dsub (aj_target_qty request) qty)) == inject_Z (Z.abs d))%Q) by (rewrite dabs_val, Hv by done; reflexivity).
    destruct (integral_iff _ _ Hav) as [Hi Ek]. rewrite <- Ek. apply require_run; [exact Hi|]. rewrite Hav.
    change 0%Q with (inject_Z 0). rewrite <- Zlt_Qlt. unfold d, target. lia. }
  rewrite M_bind_run. unfold lift. rewrite Eq. exists (g_calls (mc_gw s2)), s2, log2, mklog. split; [exact W2|].
  unfold order_request. rewrite M_bind_run, M_bind_run.
  assert (Ec : on_gw (read_clock env) s2 = (Ok (clock env (g_calls (mc_gw s2))), s2)).
  { unfold on_gw. rewrite zoom_run. unfold read_clock. cbn [fst snd]. by destruct s2. }
  rewrite Ec. unfold lift. fold (adjust_order (upper symbol) request d). rewrite (adjust_order_ok cx user symbol request qty s Ha) by (unfold d, target; lia).
  unfold order_id_for. rewrite M_bind_run, M_bind_run, Ec. done.
Qed.

(** An adjustment that is let through orders exactly the difference: bought, it adds to the position, sold, it takes away
    what is between the position and the target.  The order is written first, and the broker's verdict is the answer. *)
Theorem adjustment_outcome : mx_executor cx = true -> let_through ->
  let out := adjust_position env cx user symbol request s in
  dint qty + (if decide (req_side r = "buy") then req_qty r else - req_qty r) = target /\ 0 < req_qty r /\
  exists t, let id := adjust_id t (upper symbol) request d user in
  match db_orders (db_of s) !! id with
  | Some _ => fst out = Ok (adjust_answer id true) /\ g_sent (mc_gw (snd out)) = g_sent (mc_gw s) /\ db_of (snd out) = db_of s
  | None => exists now n q, _build_alpaca_request r id = Ok q /\ (1 <= n <= 3)%nat /\
      g_sent (mc_gw (snd out)) = g_sent (mc_gw s) ++ replicate n (Submit q) /\
      db_of (snd out) = set_orders (insert id (manual_row "manual_controls_adjust_position" r "pending_new" (Some now) now)) (db_of s) /\
      fst out = match verdict env (g_sent (mc_gw s)) q RETRIES with
                | Ok _ => Ok (adjust_answer id false)
                | Raise _ => Raise broker_failed
                end
  end.
Proof.
  intros Hx Hl out. split.
  { unfold r, adjust_order, manual_request. simpl. unfold d. destruct (Z.ltb_spec 0 (target - dint qty)); simpl; lia. }
  split; [unfold r, adjust_order; simpl; unfold d, target; lia|].
  destruct (adjust_start Hx Hl) as (n & s1 & log1 & mklog & W & E). exists (clock env n). unfold out. cbv zeta in E. rewrite E. clear E out.
  set (id := adjust_id _ _ _ _ _). clearbody id. destruct (db_orders (db_of s) !! id) as [row|] eqn:Eo; rewrite M_bind_run.
  - destruct (place_again env Hq W mklog r id "manual_controls_adjust_position" row Eo) as (s2 & E & W2). rewrite E. unfold mret, M_ret. cbn [fst snd].
    split; [reflexivity|]. split; [|exact (went_db _ _ _ _ _ W2)]. rewrite (went_sent _ _ _ _ _ W2). apply app_nil_r.
  - destruct (adjust_build cx user symbol request qty s Ha id) as [q Eb].
    destruct (place_new env Hq W 0 r mklog r id "manual_controls_adjust_position" q) as (now & j & s2 & e & E & Hj & W2);
      [apply (adjust_order_ok cx user symbol request qty s Ha); unfold target in *; lia|exact Eb|exact Eo|]. rewrite E. exists now, j, q. split; [exact Eb|]. split; [exact Hj|].
    rewrite app_nil_r in *. destruct (verdict env _ _ _); unfold mret, M_ret; cbn [fst snd];
      (split; [exact (went_sent _ _ _ _ _ W2)|]; split; [exact (went_db _ _ _ _ _ W2)|reflexivity]).
Qed.

(** While the breaker is tripped or has no state, a position is not made larger, nor turned into one of the same
    or a larger size: nothing is written and nothing is sent. *)
Theorem tripped_breaker_blocks_increase : mx_redis cx = true -> breaker_text s = "" \/ breaker_text s = "TRIPPED" ->
  Z.abs (dint qty) <= Z.abs target ->
  let out := adjust_position env cx user symbol request s in
  fst out = Raise (if bool_decide (breaker_text s = "") then breaker_unavailable else breaker_tripped) /\
  g_sent (mc_gw (snd out)) = g_sent (mc_gw s) /\ db_of (snd out) = db_of s.
Proof.
  intros Hr Hb Ht out. destruct adjust_begin as (s1 & W & E). unfold out. rewrite E. clear E out. cbv zeta.
  rewrite bool_decide_false by lia. rewrite M_bind_run.
  destruct (adjust_breaker_from cx user (upper symbol) (_sanitize_reason (aj_reason request)) W Hr) as (s2 & log2 & W2 & E). rewrite E.
  assert (Hsent : g_sent (mc_gw s2) = g_sent (mc_gw s)) by (rewrite (went_sent _ _ _ _ _ W2); apply app_nil_r).
  pose proof (went_db _ _ _ _ _ W2) as Hdb. destruct Hb as [->| ->]; by split_and!.
Qed.
End adjust.

(** The size is compared without its sign: with the breaker tripped, a position can be turned over by an order larger
    than the position, as long as the new one is smaller. *)
Theorem tripped_breaker_lets_reversal_through cx user symbol request qty s :
  adjustable cx user symbol request qty s -> mx_executor cx = true -> breaker_text s = "TRIPPED" ->
  let target := dint (aj_target_qty request) in
  0 < dint qty -> target < 0 -> - target < dint qty ->
  (forall t, db_orders (db_of s) !! adjust_id t (upper symbol) request (target - dint qty) user = None) ->
  let r := adjust_order (upper symbol) request (target - dint qty) in
  let out := adjust_position env cx user symbol request s in
  req_side r = "sell" /\ dint qty < req_qty r /\
  exists id q, _build_alpaca_request r id = Ok q /\ Submit q ∈ g_sent (mc_gw (snd out)).
Proof.
  intros Ha Hx Hb target Hp Ht Hlt Hn r out. assert (Hd : dint (aj_target_qty request) <> dint qty) by (fold target; lia).
  split; [unfold r, adjust_order; simpl; by destruct (Z.ltb_spec 0 (target - dint qty)); [lia|]|].
  split; [unfold r, adjust_order; simpl; lia|].
  destruct (adjust_start cx user symbol request qty s Ha Hd Hx) as (n & s1 & log1 & mklog & W & E); [left; fold target; lia|].
  cbv zeta in E. fold target r in E. pose proof (Hn (clock env n)) as Hnone. set (id := adjust_id _ _ _ _ _) in *. clearbody id.
  destruct (adjust_build cx user symbol request qty s Ha id) as [q Eb]. fold target r in Eb. exists id, q. split; [exact Eb|].
  destruct (place_new env Hq W 0 r mklog r id "manual_controls_adjust_position" q) as (now & j & s2 & e & E2 & Hj & W2);
    [apply (adjust_order_ok cx user symbol request qty s Ha); fold target; lia|exact Eb|exact Hnone|].
  unfold out. rewrite E, M_bind_run, E2. destruct (verdict env _ _ _); unfold mret, M_ret; cbn [fst snd];
    rewrite (went_sent _ _ _ _ _ W2), elem_of_app; right; (destruct j as [|j]; [lia|left]).
Qed.
End quiet.
