(* ===== verification/ManualFlatten.v ===== *)
(** * Flattening every position

    With a broker that takes every order, each position gets one order for all of
    it.  A position of less than a share cannot be ordered: the request ends
    there, and the positions after it stay open. *)

From S2P Require Import Prelude PyDecimal PyText OrderStatus OrderSchema GatewayDb OrderCas RedisClient RateLimiter.
From S2P Require Import Access Gateway SliceExec OrderGates OrderSubmit OrderOutcome Calendar ManualText Listings Mfa ManualBase ManualCancel.
From S2P Require Import ManualPositions ManualPlace ManualMoves.
From Stdlib Require Import QArith Qabs Lqa.
Open Scope Z_scope.

(** A broker that takes every order. *)
Definition accepts (env : environment) : Prop := forall h, exists o, submit_reply (broker_api env h) = Ok o.

Section quiet.
Context (env : environment) (user : AuthenticatedUser).
Hypothesis Hq : quiet env.
Hypothesis Hacc : accepts env.
Hypothesis Hmin : forall n, minute_key (clock env n) = minute_key (clock env 0).

Definition flat_qty (p : position_row) : Z := dint (dabs (p_qty p)).

(** The order that flattens a position, and its identifier in this minute. *)
Definition flat_order (p : string * position_row) : OrderRequest := close_order p.1 (p_qty p.2) (flat_qty p.2).
Definition flat_id (p : string * position_row) : string :=
  _generate_manual_order_id (clock env 0) "flatten_all" p.1 (side_to_close (p_qty p.2)) (flat_qty p.2) (user_id user) None None None None.
Definition flat_request (p : string * position_row) : broker_request := Submit (market_order (flat_order p) (flat_id p)).

(** A position of at least one share. *)
Record sizable (p : string * position_row) : Prop := {
  sz_symbol : upper p.1 = p.1;
  sz_open : deqb (p_qty p.2) dzero = false;
  sz_share : 0 < flat_qty p.2
}.

Lemma flat_order_ok t p : sizable p -> mk_order_request t (flat_order p) = Ok (flat_order p).
Proof. intros [Hs _ Hk]. unfold flat_order. rewrite <- Hs at 1. rewrite close_order_ok by done. by rewrite Hs. Qed.

Lemma submit_accepted {s s1 D sent log} r id q : went s s1 D sent log -> _build_alpaca_request r id = Ok q -> exists o s2,
  submit env r id s1 = (Ok o, s2) /\ went s s2 D (sent ++ [Submit q]) log.
Proof.
  intros W Hb. destruct (ask_from env Hq W (Submit q)) as (s2 & E & W2). unfold submit, on_gw in *. rewrite zoom_run in *.
  unfold Gateway.submit_order, submit_attempt, RETRIES. rewrite Hb. cbn [retry_connection]. rewrite M_bind_run.
  destruct (Hacc (g_sent (mc_gw s) ++ sent ++ [Submit q])) as [o Ho]. unfold ask_broker, lift in *. cbn [fst snd] in *.
  injection E as Er <-. rewrite Er, Ho. eexists o, _. split; [reflexivity|exact W2].
Qed.

Lemma flatten_one_from {s s1 D sent log} reason strategies acc p : went s s1 D sent log -> sizable p -> db_orders D !! flat_id p = None ->
  exists now s2 x, flatten_one env user reason strategies acc p s1 = (Ok (acc.1 ++ [flat_id p], x), s2) /\
    went s s2 (set_orders (insert (flat_id p) (manual_row "manual_controls_flatten_all" (flat_order p) "pending_new" (Some now) now)) D)
      (sent ++ [flat_request p]) log.
Proof.
  intros W Hz Hn. destruct p as [symbol p]. unfold flatten_one. pose proof (sz_open _ Hz) as Ho. cbn [snd] in Ho. rewrite Ho.
  fold (flat_qty p). change (manual_request symbol (side_to_close (p_qty p)) (flat_qty p) "market" None) with (flat_order (symbol, p)).
  unfold order_request. rewrite !M_bind_run. destruct (clock_from env s1) as (t & Et). rewrite Et. unfold lift. rewrite (flat_order_ok _ _ Hz).
  rewrite M_bind_run.
  assert (Ec : on_gw (read_clock env) s1 = (Ok (clock env (g_calls (mc_gw s1))), s1)).
  { unfold on_gw. rewrite zoom_run. unfold read_clock. cbn [fst snd]. by destruct s1. }
  rewrite Ec. assert (Eid : _generate_manual_order_id (clock env (g_calls (mc_gw s1))) "flatten_all" symbol (side_to_close (p_qty p)) (flat_qty p) (user_id user)
    None None None None = flat_id (symbol, p)) by (unfold flat_id; cbn [fst snd]; apply id_in_minute; exact (Hmin _)).
  cbv zeta. rewrite Eid. unfold flat_request. set (id := flat_id (symbol, p)) in *. clearbody id.
  destruct (persist_new env Hq W t _ (flat_order (symbol, p)) id "manual_controls_flatten_all" (flat_order_ok t _ Hz) Hn) as (now & row & s2 & E2 & W2).
  unfold try_except. rewrite !M_bind_run, E2. change ((mret false : M mc bool) s2) with (@Ok bool false, s2). cbv beta iota.
  destruct (submit_accepted (flat_order (symbol, p)) id _ W2 (close_order_build _ _ _ id)) as (o & s3 & E3 & W3).
  rewrite !M_bind_run, E3. exists now. eexists s3, _. split; [reflexivity|exact W3].
Qed.

(** The orders of [ps] are in the table, and nothing else changed. *)
Definition flattened (ps : list (string * position_row)) (D D' : db) : Prop :=
  (forall p, p ∈ ps -> exists now, db_orders D' !! flat_id p =
     Some (manual_row "manual_controls_flatten_all" (flat_order p) "pending_new" (Some now) now)) /\
  (forall id, id ∉ flat_id <$> ps -> db_orders D' !! id = db_orders D !! id).

Lemma flatten_loop reason strategies ps : forall s s1 D sent log acc, went s s1 D sent log -> Forall sizable ps ->
  NoDup (flat_id <$> ps) -> (forall id, id ∈ flat_id <$> ps -> db_orders D !! id = None) ->
  exists D' s2 x, for_each (flatten_one env user reason strategies) acc ps s1 = (Ok (acc.1 ++ (flat_id <$> ps), x), s2) /\
    went s s2 D' (sent ++ (flat_request <$> ps)) log /\ flattened ps D D'.
Proof.
  induction ps as [|p ps IH]; intros s s1 D sent log acc W Hz Hnd Hnew.
  - exists D, s1, acc.2. rewrite !app_nil_r. split; [by destruct acc|]. split; [exact W|]. split; [intros p Hp; by apply elem_of_nil in Hp|done].
  - apply Forall_cons in Hz as [Hz Hzs]. rewrite fmap_cons in Hnd, Hnew. apply NoDup_cons in Hnd as [Hni Hnd].
    destruct (flatten_one_from reason strategies acc p W Hz) as (now & s2 & x & E & W2); [apply Hnew; left|].
    set (row := manual_row _ _ _ _ now) in W2. set (D2 := set_orders _ D) in W2.
    assert (Hnew2 : forall id, id ∈ flat_id <$> ps -> db_orders D2 !! id = None).
    { intros id Hi. unfold D2. change (<[flat_id p := row]> (db_orders D) !! id = None). rewrite lookup_insert_ne; [apply Hnew; by right|]. by intros <-. }
    destruct (IH s s2 D2 _ log (acc.1 ++ [flat_id p], x) W2 Hzs Hnd Hnew2) as (D' & s3 & y & E3 & W3 & Hin & Hout).
    exists D', s3, y. rewrite (for_each_step _ _ _ _ _ _ _ E), E3, !fmap_cons. cbn [fst]. rewrite <- !app_assoc in *. split; [done|]. split; [exact W3|]. split.
    + intros p' Hp'. apply elem_of_cons in Hp' as [->|Hp']; [|by apply Hin]. exists now. rewrite Hout by done. apply lookup_insert_eq.
    + intros id Hi. rewrite fmap_cons in Hi. rewrite Hout by (intros H; apply Hi; by right).
      apply lookup_insert_ne. intros <-. apply Hi. left.
Qed.

(** Less than a share: the order cannot even be described. *)
Lemma flatten_fraction reason strategies acc p s1 : deqb (p_qty p.2) dzero = false -> flat_qty p.2 = 0 ->
  flatten_one env user reason strategies acc p s1 = (Raise (ValueError "field type"), s1).
Proof.
  intros Ho Hk. destruct p as [symbol p]. unfold flatten_one. cbn [snd] in Ho, Hk. rewrite Ho. fold (flat_qty p). rewrite Hk.
  unfold order_request. rewrite !M_bind_run. destruct (clock_from env s1) as (t & Et). rewrite Et. unfold lift, mk_order_request, field_types_ok, manual_request.
  simpl. by rewrite andb_false_r.
Qed.

Definition open_positions (D : db) : list (string * position_row) :=
  match fst (positions_in_order D) with Ok l => l | Raise _ => [] end.

(** The request is admitted, the second factor holds, and there is a broker. *)
Record may_flatten (cx : controls) (two_fa : string -> string -> TwoFaResult) (request : FlattenAllRequest) (s : mc) : Prop := {
  mf_limit : within_limit env cx user "flatten_all" s;
  mf_factor : exists method, two_fa (fl_id_token request) (user_id user) = (true, None, method);
  mf_executor : mx_executor cx = true;
  mf_some : open_positions (db_of s) <> []
}.

Lemma flatten_start cx two_fa request s : may_flatten cx two_fa request s ->
  let reason := _sanitize_reason (fl_reason request) in
  exists s1 strategies, went s s1 (db_of s) [] [] /\
    flatten_all_positions env cx two_fa user request s =
    (acc ← for_each (flatten_one env user reason strategies) ([], ∅) (open_positions (db_of s));
     _ ← log_action env (flatten_entry user "success" reason "");
     mret {| positions_closed := length acc.1; orders_created := acc.1; fl_strategies := sorted_strategies acc.2 |}) s1.
Proof.
  intros [[s1 El] [method Ef] Hx Hne] reason. pose proof (limit_passed env Hq _ _ _ _ _ El) as W. unfold flatten_all_positions, _ensure_permission_with_audit.
  cbn [negb has_permission]. rewrite M_bind_run. change ((mret tt : M mc unit) s) with (@Ok unit tt, s). cbv beta iota.
  rewrite M_bind_run, El, Ef, M_bind_run. change ((mret tt : M mc unit) s1) with (@Ok unit tt, s1). cbv beta iota.
  unfold to_flatten. cbn [has_permission]. rewrite !M_bind_run.
  destruct (db_from env Hq W (fun _ => positions_in_order)) as (n & s2 & E2 & W2). rewrite E2.
  unfold open_positions in *. destruct (positions_in_order (db_of s)) as [[ps|e] D'] eqn:Eps; [|done]. cbn [fst snd] in *.
  assert (D' = db_of s) as ->.
  { unfold positions_in_order, get_all_positions, reads in Eps. rewrite M_bind_run in Eps. by injection Eps. }
  destruct (db_from env Hq W2 (fun _ => get_strategy_map_for_symbols ps.*1)) as (n3 & s3 & E3 & W3).
  destruct ps as [|p ps]; [done|]. rewrite Hx. cbn [negb]. change ((mret (p :: ps) : M mc (list (string * position_row))) s2) with (@Ok (list (string * position_row)) (p :: ps), s2).
  cbv beta iota. rewrite M_bind_run, E3. eexists s3, _. split; [exact W3|reflexivity].
Qed.

(** What an order adds to the position. *)
Definition signed_qty (r : OrderRequest) : Z := if decide (req_side r = "buy") then req_qty r else - req_qty r.

Lemma flat_order_closes p : small (p_qty p.2) -> integral (p_qty p.2) = true -> dint (p_qty p.2) + signed_qty (flat_order p) = 0.
Proof.
  intros Hs Hi. unfold signed_qty, flat_order, close_order, manual_request, side_to_close, flat_qty. rewrite dint_dabs by done. simpl.
  assert (Hv := integral_val _ Hi). destruct (dltb_spec dzero (p_qty p.2)) as [H|H]; rewrite dzero_val, Hv in H;
    change 0%Q with (inject_Z 0) in H; rewrite <- Zlt_Qlt in H; simpl; lia.
Qed.

(** Every position gets one order, which closes it when its shares are whole; the orders are in the table, and
    nothing else is sent or written. *)
Theorem flatten_all_outcome cx two_fa request s : may_flatten cx two_fa request s ->
  let ps := open_positions (db_of s) in
  Forall sizable ps -> NoDup (flat_id <$> ps) -> (forall id, id ∈ flat_id <$> ps -> db_orders (db_of s) !! id = None) ->
  let out := flatten_all_positions env cx two_fa user request s in
  (exists a, fst out = Ok a /\ orders_created a = flat_id <$> ps /\ positions_closed a = length ps) /\
  g_sent (mc_gw (snd out)) = g_sent (mc_gw s) ++ (flat_request <$> ps) /\
  flattened ps (db_of s) (db_of (snd out)) /\
  forall p, p ∈ ps -> small (p_qty p.2) -> integral (p_qty p.2) = true -> dint (p_qty p.2) + signed_qty (flat_order p) = 0.
Proof.
  intros Hm ps Hz Hnd Hnew out. destruct (flatten_start _ _ _ _ Hm) as (s1 & strategies & W & E). unfold out. rewrite E. clear E out.
  destruct (flatten_loop (_sanitize_reason (fl_reason request)) strategies ps s s1 _ _ _ ([], ∅) W Hz Hnd Hnew) as (D' & s2 & x & E & W2 & HF).
  rewrite M_bind_run. fold ps. rewrite E, M_bind_run.
  destruct (log_from env Hq W2 (flatten_entry user "success" (_sanitize_reason (fl_reason request)) "")) as (s3 & E3 & W3). rewrite E3.
  unfold mret, M_ret. cbn [fst snd app]. split; [|split; [exact (went_sent _ _ _ _ _ W3)|split]].
  - eexists. split; [reflexivity|]. cbn [orders_created positions_closed]. by rewrite length_fmap.
  - by rewrite (went_db _ _ _ _ _ W3).
  - intros p _. apply flat_order_closes.
Qed.

(** A position of less than a share ends the request with an internal error: the positions before it have their orders,
    those after it have none. *)
Theorem flatten_stops_at_fraction cx two_fa request s pre p post : may_flatten cx two_fa request s ->
  open_positions (db_of s) = pre ++ p :: post -> Forall sizable pre -> NoDup (flat_id <$> pre) ->
  (forall id, id ∈ flat_id <$> pre -> db_orders (db_of s) !! id = None) ->
  deqb (p_qty p.2) dzero = false -> flat_qty p.2 = 0 ->
  let out := flatten_all_positions env cx two_fa user request s in
  fst out = Raise (ValueError "field type") /\
  g_sent (mc_gw (snd out)) = g_sent (mc_gw s) ++ (flat_request <$> pre) /\
  flattened pre (db_of s) (db_of (snd out)).
Proof.
  intros Hm Hps Hz Hnd Hnew Ho Hk out. destruct (flatten_start _ _ _ _ Hm) as (s1 & strategies & W & E). unfold out. rewrite E. clear E out.
  destruct (flatten_loop (_sanitize_reason (fl_reason request)) strategies pre s s1 _ _ _ ([], ∅) W Hz Hnd Hnew) as (D' & s2 & x & E & W2 & HF).
  rewrite M_bind_run, Hps, for_each_app, E. cbn [for_each]. rewrite M_bind_run, flatten_fraction by done. cbn [fst snd].
  split; [reflexivity|]. split; [exact (went_sent _ _ _ _ _ W2)|]. by rewrite (went_db _ _ _ _ _ W2).
Qed.
End quiet.
