(* ===== verification/ManualLists.v ===== *)
(** * The operator's listings (api/manual_controls.py)

    The pages of the waiting orders and the recent fills, as far as the user's
    strategies go. *)

From S2P Require Import Prelude PyDecimal PyText OrderStatus OrderSchema GatewayDb OrderCas RedisClient RateLimiter.
From S2P Require Import Access Gateway SliceExec OrderGates OrderSubmit OrderOutcome Calendar ManualText Listings ManualBase ManualCancel ManualPositions ManualMoves.
Open Scope Z_scope.

(** The query parameters, as FastAPI has checked them. *)
Record pending_query := {
  pq_strategy_id : option string;
  pq_symbol : option string;
  pq_parent_order_id : option string;
  pq_limit : Z;
  pq_offset : Z;
  pq_sort_by : string;
  pq_sort_order : string
}.

Definition pending_query_ok (q : pending_query) : bool := (1 <=? pq_limit q) && (pq_limit q <=? 1000) && (0 <=? pq_offset q).

Record PendingOrdersResponse := {
  pr_orders : list OrderDetail;
  pr_total : Z;
  pr_limit : Z;
  pr_offset : Z;
  pr_filtered_by_strategy : bool;
  pr_user_strategies : list string
}.

Definition sort_column (sort_by : string) : string :=
  if one_of sort_by ["created_at"; "updated_at"; "symbol"; "strategy_id"; "status"] then sort_by else "created_at".
Definition sort_direction (sort_order : string) : string := if one_of sort_order ["asc"; "desc"] then sort_order else "desc".

(** The strategies the query is restricted to, and whether it was restricted. *)
Definition pending_scope (env : environment) (user : AuthenticatedUser) (strategy_id : option string) (scope : option (list string))
    : M mc (option (list string) * bool) :=
  let log := fun rtype rid detail => entry user "list_pending_orders" rtype rid "denied" None detail in
  let wanted := text_filter strategy_id in
  if has_permission user "view_all_strategies"
  then mret ((fun s => [s]) <$> wanted, bool_decide (is_Some strategy_id))
  else
    match scope with
    | None | Some [] => log_and_raise env (log "orders" "*" "no_authorized_strategies") strategy_unauthorized
    | Some l =>
        match wanted with
        | None => mret (Some l, true)
        | Some s =>
            if one_of s l then mret (Some [s], true)
            else log_and_raise env (log "strategy" s s) strategy_unauthorized
        end
    end.

Definition list_pending_orders (env : environment) (cx : controls) (user : AuthenticatedUser) (q : pending_query) : M mc PendingOrdersResponse :=
  scope ← admitted env cx user "view_trades" "list_pending_orders" "pending_orders" "orders" "*";
  restricted ← pending_scope env user (pq_strategy_id q) scope;
  let f := {| pf_symbol := upper <$> text_filter (pq_symbol q); pf_strategy_ids := restricted.1; pf_parent_order_id := pq_parent_order_id q |} in
  found ← on_gw (call env (fun _ => in_db (get_pending_orders f (pq_limit q) (pq_offset q) (sort_column (pq_sort_by q)) (sort_direction (pq_sort_order q)))));
  _ ← log_action env (entry user "list_pending_orders" "orders" "*" "success" None (str_int found.2));
  mret {| pr_orders := found.1; pr_total := found.2; pr_limit := pq_limit q; pr_offset := pq_offset q;
          pr_filtered_by_strategy := restricted.2; pr_user_strategies := get_authorized_strategies (Some user) |}.

(** ** Recent fills *)

Record RecentFillsResponse := {
  rf_events : list fill_event;
  rf_limit : Z;
  rf_filtered_by_strategy : bool;
  rf_user_strategies : list string
}.

(** The default of [get_recent_fills(lookback_hours=...)]. *)
Definition LOOKBACK_HOURS : Z := 24.

Definition list_recent_fills (env : environment) (cx : controls) (user : AuthenticatedUser) (limit : Z) : M mc RecentFillsResponse :=
  _ ← _ensure_permission_with_audit env user "view_trades" "list_recent_fills";
  _ ← _enforce_rate_limit env cx user "recent_fills";
  let scope_strategies := get_authorized_strategies (Some user) in
  let filtered := negb (has_permission user "view_all_strategies") in
  if filtered && bool_decide (scope_strategies = [])
  then log_and_raise env (entry user "list_recent_fills" "orders" "*" "denied" None "no_authorized_strategies") strategy_unauthorized
  else
    events ← on_gw (call env (fun now => in_db (get_recent_fills now (if filtered then Some scope_strategies else None) limit LOOKBACK_HOURS)));
    _ ← log_action env (entry user "list_recent_fills" "orders" "*" "success" None (str_int (Z.of_nat (length events))));
    mret {| rf_events := events; rf_limit := limit; rf_filtered_by_strategy := filtered; rf_user_strategies := scope_strategies |}.

(** ** What a page holds *)

(** A user who is let in sees of the waiting orders those of the strategy, the symbol and the parent asked for, as many
    as the page has room for; the total counts all of them.  Reading changes nothing. *)
Theorem pending_listing_exact env cx user q scope s s1 : quiet env -> pending_query_ok q = true ->
  admitted env cx user "view_trades" "list_pending_orders" "pending_orders" "orders" "*" s = (Ok scope, s1) ->
  let out := list_pending_orders env cx user q s in
  let f := {| pf_symbol := upper <$> text_filter (pq_symbol q); pf_strategy_ids := (fun x => [x]) <$> text_filter (pq_strategy_id q);
              pf_parent_order_id := pq_parent_order_id q |} in
  let all := select_orders (pending_match f) (db_of s) in
  db_of (snd out) = db_of s /\ g_sent (mc_gw (snd out)) = g_sent (mc_gw s) /\
  exists a, fst out = Ok a /\ pr_total a = Z.of_nat (length all) /\
    Z.of_nat (length (pr_orders a)) = Z.min (pq_limit q) (Z.max 0 (pr_total a - pq_offset q)) /\
    (forall p, p ∈ pr_orders a -> p ∈ all).
Proof.
  intros Hq Hok Ha out f all. unfold out, list_pending_orders. rewrite M_bind_run, Ha. apply (admitted_from env Hq) in Ha as [W ->].
  unfold pending_scope. cbn [has_permission]. rewrite M_bind_run.
  change ((mret ((fun s0 => [s0]) <$> text_filter (pq_strategy_id q), bool_decide (is_Some (pq_strategy_id q))) : M mc _) s1)
    with (@Ok (option (list string) * bool) ((fun s0 => [s0]) <$> text_filter (pq_strategy_id q), bool_decide (is_Some (pq_strategy_id q))), s1).
  cbv beta iota zeta. cbn [fst snd]. fold f. rewrite M_bind_run.
  destruct (db_from env Hq W (fun _ => get_pending_orders f (pq_limit q) (pq_offset q) (sort_column (pq_sort_by q)) (sort_direction (pq_sort_order q))))
    as (n & s2 & E & W2). rewrite E. unfold get_pending_orders, reads in *. cbn [fst snd] in *. fold all. rewrite M_bind_run.
  edestruct (log_from env Hq W2) as (s3 & E3 & W3). rewrite E3. unfold mret, M_ret. cbn [fst snd].
  split; [exact (went_db _ _ _ _ _ W3)|]. split; [rewrite (went_sent _ _ _ _ _ W3); apply app_nil_r|].
  eexists. split; [reflexivity|]. cbn [pr_total pr_orders]. split; [done|]. unfold pending_query_ok in Hok. boolify.
  split; [|intros p Hp; apply take_mem, drop_mem in Hp; by rewrite merge_sort_Permutation in Hp].
  rewrite length_take, length_drop, merge_sort_Permutation. unfold OrderDetail in *. lia.
Qed.
