(* ===== verification/ManualOrders.v ===== *)
(** * Manual orders (api/manual_controls.py)

    An operator's own order passes the kill switch, the breaker and the fat-finger
    check, and no position reservation: a position over the limit is only logged.
    A TWAP order is planned, written and scheduled. *)

From S2P Require Import Prelude PyDecimal PyText OrderStatus OrderSchema OrderId Twap GatewayDb FillOps OrderCas RedisClient PyDict RateLimiter.
From S2P Require Import Access Gateway PriceFeed SliceExec SliceRecovery OrderGates OrderSubmit OrderOutcome Calendar ManualText Listings.
From S2P Require Import ManualBase ManualCancel ManualPositions.
From S2P Require FatFinger.
Open Scope Z_scope.

Record ManualOrderRequest := {
  mo_symbol : string;
  mo_side : string;
  mo_qty : decimal;
  mo_order_type : string;
  mo_time_in_force : string;
  mo_execution_style : string;
  mo_twap_duration_minutes : option Z;
  mo_twap_interval_seconds : option Z;
  mo_start_time : option Z;
  mo_limit_price : option decimal;
  mo_stop_price : option decimal;
  mo_reason : string;
  mo_requested_at : Z
}.

(** [str.isalnum] on ASCII text. *)
Definition is_alnum (c : Ascii.ascii) : bool :=
  let n := code c in ((48 <=? n) && (n <=? 57)) || ((65 <=? n) && (n <=? 90)) || ((97 <=? n) && (n <=? 122)).

Definition _validate_symbol (value : string) : result string :=
  let cleaned := upper (strip value) in
  let l := chars cleaned in
  if (1 <=? length l)%nat && (length l <=? 5)%nat && forallb is_alnum l then Ok cleaned
  else Raise (ValueError "symbol must be 1-5 alphanumeric characters").

Definition ensure (b : bool) (why : string) : result unit := if b then Ok tt else Raise (ValueError why).

(** [validate_twap_fields] *)
Definition validate_twap_fields (now : Z) (r : ManualOrderRequest) : result unit :=
  if negb (bool_decide (mo_execution_style r = "twap")) then Ok tt
  else
    _ ← ensure (one_of (mo_order_type r) ["market"; "limit"]) "TWAP execution only supports market or limit order types";
    _ ← ensure (bool_decide (mo_time_in_force r = "day")) "TWAP execution only supports time_in_force=day";
    match mo_twap_duration_minutes r, mo_twap_interval_seconds r with
    | None, _ => Raise (ValueError "twap_duration_minutes required for TWAP orders")
    | _, None => Raise (ValueError "twap_interval_seconds required for TWAP orders")
    | Some d, Some i =>
        _ ← ensure ((TWAP_MIN_DURATION_MINUTES <=? d) && (d <=? TWAP_MAX_DURATION_MINUTES)) "twap_duration_minutes";
        _ ← ensure ((TWAP_MIN_INTERVAL_SECONDS <=? i) && (i <=? TWAP_MAX_INTERVAL_SECONDS)) "twap_interval_seconds";
        let num_slices := num_slices_of d i in
        _ ← ensure (TWAP_MIN_SLICES <=? num_slices) "TWAP requires at least 2 slices";
        _ ← ensure (negb (integral (mo_qty r)) || (TWAP_MIN_SLICE_QTY <=? dint (mo_qty r) / num_slices)) "TWAP minimum slice size is 10 shares";
        match mo_start_time r with
        | None => Ok tt
        | Some t =>
            _ ← ensure (now - minute_us <=? t) "start_time cannot be in the past";
            ensure (t <=? now + 5 * day_us) "start_time cannot be more than 5 days in the future"
        end
    end.

(** The validators of the request, which uppercase its symbol; a price that is left out is not validated (one that is given
    as null is refused when the type of the order needs it). *)
Definition validate_manual_request (now : Z) (r : ManualOrderRequest) : result ManualOrderRequest :=
  symbol ← _validate_symbol (mo_symbol r);
  _ ← ensure (one_of (mo_side r) ["buy"; "sell"]) "side";
  _ ← ensure (dpositive (mo_qty r)) "qty must be positive";
  _ ← ensure (one_of (mo_order_type r) ["market"; "limit"; "stop"; "stop_limit"]) "order_type";
  _ ← ensure (one_of (mo_time_in_force r) ["day"; "gtc"; "ioc"; "fok"]) "time_in_force";
  _ ← ensure (one_of (mo_execution_style r) ["instant"; "twap"]) "execution_style";
  _ ← ensure (opt_check dpositive (mo_limit_price r)) "limit_price must be positive";
  _ ← ensure (opt_check dpositive (mo_stop_price r)) "stop_price must be positive";
  _ ← ensure (MIN_REASON <=? slen (mo_reason r))%nat "reason";
  _ ← validate_twap_fields now r;
  Ok {| mo_symbol := symbol; mo_side := mo_side r; mo_qty := mo_qty r; mo_order_type := mo_order_type r;
        mo_time_in_force := mo_time_in_force r; mo_execution_style := mo_execution_style r;
        mo_twap_duration_minutes := mo_twap_duration_minutes r; mo_twap_interval_seconds := mo_twap_interval_seconds r;
        mo_start_time := mo_start_time r; mo_limit_price := mo_limit_price r; mo_stop_price := mo_stop_price r;
        mo_reason := mo_reason r; mo_requested_at := mo_requested_at r |}.

Definition raw_order (r : ManualOrderRequest) (qty : Z) : OrderRequest := {|
  req_symbol := upper (mo_symbol r); req_side := mo_side r; req_qty := qty; req_order_type := mo_order_type r;
  req_limit_price := mo_limit_price r; req_stop_price := mo_stop_price r; req_time_in_force := mo_time_in_force r;
  req_execution_style := mo_execution_style r; req_twap_duration_minutes := mo_twap_duration_minutes r;
  req_twap_interval_seconds := mo_twap_interval_seconds r; req_start_time := mo_start_time r; req_client_order_id := None |}.

Record ManualOrderResponse := {
  mr_client_order_id : string;
  mr_status : string;
  mr_broker_order_id : option string;
  mr_core : order_core;
  mr_created_at : Z;
  mr_message : string;
  mr_slices : option (nat * option Z * option Z)
}.

(** ** The instant order *)

Definition MANUAL_STRATEGY : string := MANUAL_CONTROL_STRATEGY_PREFIX +:+ "trade".

Definition duplicate_order : exn := HTTPException 409 "duplicate_order".

Definition retry_text : string := "Order already submitted (idempotent retry)".

Definition from_row (id : string) (row : order_row) (message : string) : ManualOrderResponse := {|
  mr_client_order_id := id; mr_status := o_status (o_exec row); mr_broker_order_id := o_broker_order_id (o_exec row);
  mr_core := o_core row; mr_created_at := o_created_at row; mr_message := message; mr_slices := None |}.

Definition _handle_idempotent_order_retry (env : environment) (order_id : string) : M mc ManualOrderResponse :=
  existing ← on_gw (call env (fun _ => in_db (get_order_by_client_id order_id)));
  match existing with
  | Some row => mret (from_row order_id row retry_text)
  | None => raise duplicate_order
  end.

Definition manual_entry (user : AuthenticatedUser) (rid outcome reason detail : string) : audit_entry :=
  entry user "manual_order" "order" rid outcome (Some reason) detail.

(** The insertion: the row, or the answer of the retry. *)
Definition insert_manual (env : environment) (order_id status : string) (r : OrderRequest) : M mc (order_row + ManualOrderResponse) :=
  try_except (row ← on_gw (call env (fun now => in_db (create_order now order_id MANUAL_STRATEGY r status None None))); mret (inl row))
    (fun e => if is_integrity e then Some (a ← _handle_idempotent_order_retry env order_id; mret (inr a)) else None).

Definition _submit_dry_run_manual_order (env : environment) (user : AuthenticatedUser) (order_id reason : string) (r : OrderRequest)
    : M mc ManualOrderResponse :=
  inserted ← insert_manual env order_id "dry_run" r;
  match inserted with
  | inr answer => mret answer
  | inl _ =>
      _ ← log_action env (manual_entry user order_id "success" reason "dry_run");
      t ← on_gw (read_clock env);
      mret {| mr_client_order_id := order_id; mr_status := "dry_run"; mr_broker_order_id := None; mr_core := core_of MANUAL_STRATEGY r;
              mr_created_at := t; mr_message := "Order logged (manual DRY_RUN)"; mr_slices := None |}
  end.

(** The statuses of [OrderDetail]: a row with another one is written, and cannot be read back. *)
Definition ORDER_STATUSES : list string := [
  "pending_new"; "new"; "accepted"; "partially_filled"; "filled"; "canceled"; "rejected"; "expired"; "replaced"; "done_for_day";
  "stopped"; "suspended"; "pending_cancel"; "pending_replace"; "calculated"; "submitted"; "submitted_unconfirmed"; "dry_run";
  "failed"; "scheduled"; "blocked_kill_switch"; "blocked_circuit_breaker"].

(** [update_order_status(order_id, status, broker_order_id=...)] with the broker's status; the column takes no NULL. *)
Definition record_status (env : environment) (order_id : string) (o : order_dict) : M mc (string * option order_row) :=
  match od_status o with
  | None => on_gw (call env (fun _ => in_db (raise (IntegrityError "orders_status_not_null"))))
  | Some st =>
      updated ← on_gw (call env (fun now => in_db (update_order_status now order_id st (Some (od_id o)) None None None)));
      if one_of st ORDER_STATUSES then mret (st, updated) else raise (ValueError "status")
  end.

(** The row of an order that failed; a failure of the database is only logged. *)
Definition mark_manual_failed (env : environment) (order_id why : string) : M mc unit :=
  try_except (_ ← update_status env order_id "failed" (Some why); mret tt) (fun e => if is_database_error e then Some (mret tt) else None).

(** Lines 2106-2131 *)
Definition recheck_breaker (env : environment) (cx : controls) (user : AuthenticatedUser) (order_id reason : string) : M mc unit :=
  try_except (_check_circuit_breaker env cx user "manual_order" reason)
    (fun e => match e with
              | HTTPException _ _ => Some (_ ← mark_manual_failed env order_id "circuit_breaker_tripped_before_submit"; raise e)
              | _ => None
              end).

(** The [except] clauses of the submission. *)
Definition live_failed (env : environment) (user : AuthenticatedUser) (order_id reason : string) (e : exn) : option (M mc ManualOrderResponse) :=
  let log := manual_entry user order_id "failed" reason in
  if broker_error e then Some (_ ← mark_manual_failed env order_id (str_exn e); log_and_raise env (log (str_exn e)) broker_failed)
  else if is_database_error e then Some (log_and_raise env (log ("db_error: " +:+ str_exn e)) db_error)
  else match e with ValueError m => Some (log_and_raise env (log ("validation_failed: " +:+ m)) validation_error) | _ => None end.

Definition _submit_live_manual_order (env : environment) (cx : controls) (user : AuthenticatedUser) (order_id reason : string) (r : OrderRequest)
    : M mc ManualOrderResponse :=
  inserted ← insert_manual env order_id "pending_new" r;
  match inserted with
  | inr answer => mret answer
  | inl order_detail =>
      _ ← recheck_breaker env cx user order_id reason;
      try_except
        (o ← submit env r order_id;
         recorded ← record_status env order_id o;
         _ ← log_action env (manual_entry user order_id "success" reason "");
         mret {| mr_client_order_id := order_id; mr_status := recorded.1; mr_broker_order_id := Some (od_id o);
                 mr_core := core_of MANUAL_STRATEGY r;
                 mr_created_at := o_created_at (match recorded.2 with Some row => row | None => order_detail end);
                 mr_message := "Order submitted (manual)"; mr_slices := None |})
        (live_failed env user order_id reason)
  end.

(** ** The TWAP order *)

Section twap.
(** [random.Random(seed).sample(range(n), k)] *)
Context (sample : Z -> Z -> Z -> list Z).

Definition plan_args (r : OrderRequest) (trade_date : date) : PlanArgs := {|
  pa_symbol := req_symbol r; pa_side := req_side r; pa_qty := req_qty r;
  pa_duration_minutes := default 0 (req_twap_duration_minutes r); pa_order_type := req_order_type r;
  pa_interval_seconds := default 0 (req_twap_interval_seconds r); pa_max_slice_qty := None; pa_limit_price := req_limit_price r;
  pa_stop_price := req_stop_price r; pa_time_in_force := req_time_in_force r; pa_trade_date := Some trade_date |}.

Definition twap_invalid (e : exn) : option exn :=
  match e with ValueError _ => Some (HTTPException 422 "twap_validation_error") | _ => None end.

(** Python's [None] in a format string. *)
Definition str_optional (n : option Z) : string := match n with Some n => str_int n | None => "None" end.

Definition parent_strategy (user : AuthenticatedUser) (r : OrderRequest) : string :=
  MANUAL_CONTROL_STRATEGY_PREFIX +:+ "twap_" +:+ user_id user +:+ "_" +:+ str_optional (req_twap_duration_minutes r) +:+ "m_"
    +:+ str_optional (req_twap_interval_seconds r) +:+ "s".

Definition order_hash (r : OrderRequest) (qty : Z) (strategy_id : string) (d : date) : result string :=
  reconstruct_order_params_hash (req_symbol r) (req_side r) qty (req_limit_price r) (req_stop_price r) (req_order_type r)
    (req_time_in_force r) strategy_id d.

(** The slices of the plan, under identifiers of their own. *)
Fixpoint manual_slices (r : OrderRequest) (strategy_id : string) (d : date) (slices : list SliceDetail) : result (list SliceDetail) :=
  match slices with
  | [] => Ok []
  | x :: rest =>
      let slice_strategy_id := strategy_id +:+ "_slice_" +:+ str_int (sd_slice_num x) in
      child_order_id ← order_hash r (sd_qty x) slice_strategy_id d;
      l ← manual_slices r strategy_id d rest;
      Ok ({| sd_slice_num := sd_slice_num x; sd_qty := sd_qty x; sd_scheduled_time := sd_scheduled_time x;
             sd_client_order_id := child_order_id; sd_strategy_id := slice_strategy_id; sd_status := "pending_new" |} :: l)
  end.

Definition slice_request (r : OrderRequest) (qty : Z) : OrderRequest := {|
  req_symbol := req_symbol r; req_side := req_side r; req_qty := qty; req_order_type := req_order_type r;
  req_limit_price := req_limit_price r; req_stop_price := req_stop_price r; req_time_in_force := req_time_in_force r;
  req_execution_style := "instant"; req_twap_duration_minutes := None; req_twap_interval_seconds := None;
  req_start_time := None; req_client_order_id := None |}.

(** The transaction: the parent, and each slice with its schedule. *)
Definition write_twap (now : Z) (parent_order_id strategy_id : string) (r : OrderRequest) (total : Z) (slices : list SliceDetail) : M db unit :=
  transaction (
    _ ← create_parent_order now parent_order_id strategy_id r total "scheduled" None;
    for_each (fun _ d =>
      slice_order_request ← lift (mk_order_request now (slice_request r (sd_qty d)));
      _ ← create_child_slice now (sd_client_order_id d) parent_order_id (sd_slice_num d) (sd_strategy_id d) slice_order_request
            (sd_scheduled_time d) "pending_new";
      create_slice_schedule parent_order_id (sd_slice_num d) (sd_scheduled_time d) (sd_qty d) "pending") tt slices).

(** Earliest and latest of the times that are there. *)
Definition times_of (slices : list OrderDetail) : list Z := omap (fun p : OrderDetail => o_scheduled_time (o_links p.2)) slices.
Definition list_min (l : list Z) : option Z := match l with [] => None | x :: l => Some (foldl Z.min x l) end.
Definition list_max (l : list Z) : option Z := match l with [] => None | x :: l => Some (foldl Z.max x l) end.

(** The answer to a TWAP order that is there already. *)
Definition existing_twap (env : environment) (parent_order_id : string) : M mc ManualOrderResponse :=
  existing ← on_gw (call env (fun _ => in_db (get_order_by_client_id parent_order_id)));
  match existing with
  | None => raise duplicate_order
  | Some row =>
      slices ← on_gw (call env (fun _ => in_db (get_slices_by_parent_id parent_order_id)));
      let a := from_row parent_order_id row retry_text in
      mret {| mr_client_order_id := mr_client_order_id a; mr_status := mr_status a; mr_broker_order_id := mr_broker_order_id a;
              mr_core := mr_core a; mr_created_at := mr_created_at a; mr_message := mr_message a;
              mr_slices := Some (length slices, list_min (times_of slices), list_max (times_of slices)) |}
  end.

Definition _submit_twap_manual_order (env : environment) (cx : controls) (user : AuthenticatedUser) (request : ManualOrderRequest)
    (r : OrderRequest) (reason : string) : M mc ManualOrderResponse :=
  if negb (mx_executor cx) && negb (mx_dry_run cx) then
    log_and_raise env (manual_entry user ("twap_" +:+ req_symbol r) "failed" reason "broker_unavailable") broker_unavailable
  else if negb (mx_scheduler cx) then raise (HTTPException unavailable "twap_unavailable")
  else if bool_decide (is_Some (req_start_time r)) then raise (HTTPException 400 "twap_start_time_unsupported")
  else
    let trade_date := date_of (mo_requested_at request) in
    t ← on_gw (read_clock env);
    plan ← try_except (lift (Twap.plan sample (plan_args r trade_date) t trade_date)) (fun e => raise <$> twap_invalid e);
    let strategy_id := parent_strategy user r in
    parent_order_id ← lift (order_hash r (req_qty r) strategy_id trade_date);
    slices ← lift (manual_slices r strategy_id trade_date (sp_slices plan));
    found ← try_except
      (_ ← on_gw (call env (fun now => in_db (write_twap now parent_order_id strategy_id r (sp_total_slices plan) slices))); mret None)
      (fun e => if is_integrity e then Some (a ← existing_twap env parent_order_id; mret (Some a)) else None);
    match found with
    | Some answer => mret answer
    | None =>
        _ ← on_gw (schedule_slices parent_order_id slices (req_symbol r) (req_side r) (req_order_type r) (req_limit_price r)
              (req_stop_price r) (req_time_in_force r));
        _ ← log_action env (manual_entry user parent_order_id "success" reason "twap");
        t ← on_gw (read_clock env);
        mret {| mr_client_order_id := parent_order_id; mr_status := "scheduled"; mr_broker_order_id := None;
                mr_core := core_of strategy_id r; mr_created_at := t; mr_message := "TWAP order scheduled (manual)";
                mr_slices := Some (length slices, sd_scheduled_time <$> head slices, sd_scheduled_time <$> last slices) |}
    end.

(** ** The submission *)

(** The position check has no effect but its log. *)
Definition log_position_limit (env : environment) (symbol : string) : M mc unit :=
  try_except (_ ← on_gw (call env (fun _ => in_db (get_position_by_symbol symbol))); mret tt)
    (fun e => if is_database_error e then Some (mret tt) else None).

Definition fat_finger_rejected : exn := HTTPException 400 "fat_finger_rejected".

Definition manual_fat_finger (env : environment) (cx : controls) (json_loads : string -> option price_data) (user : AuthenticatedUser)
    (order_id reason : string) (r : OrderRequest) : M mc unit :=
  let app := mx_app cx in
  validator ← on_gw (local env (fun _ => reads sh_fat_finger));
  let thresholds := FatFinger.get_effective_thresholds validator (req_symbol r) in
  context ← on_gw (resolve_fat_finger_context json_loads env (has_redis app) (liquidity_service app) (mx_max_price_age cx) r thresholds);
  result ← lift (FatFinger.validate validator (req_symbol r) (req_qty r) context.1 context.2 (Some thresholds));
  if FatFinger.breached result then
    log_and_raise env (manual_entry user order_id "denied" reason
      (String.concat ", " (FatFinger.iter_breach_types (FatFinger.breaches result)))) fat_finger_rejected
  else mret tt.

Definition submit_manual_order (env : environment) (cx : controls) (json_loads : string -> option price_data) (user : AuthenticatedUser)
    (request : ManualOrderRequest) : M mc ManualOrderResponse :=
  _ ← _ensure_permission_with_audit env user "submit_order" "manual_order";
  _ ← _enforce_rate_limit env cx user "manual_order";
  let reason := _sanitize_reason (mo_reason request) in
  _ ← _require_non_empty_strategy_scope env user "manual_order" "order" "*";
  qty_int ← lift (_require_integral_qty (mo_qty request));
  r ← order_request env (raw_order request qty_int);
  t ← on_gw (read_clock env);
  let order_id := _generate_manual_order_id t "manual_trade" (req_symbol r) (req_side r) qty_int (user_id user)
    (Some (mo_order_type request)) (mo_limit_price request) (mo_stop_price request) (Some (mo_time_in_force request)) in
  _ ← _check_kill_switch env user "manual_order" reason;
  _ ← _check_circuit_breaker env cx user "manual_order" reason;
  _ ← manual_fat_finger env cx json_loads user order_id reason r;
  _ ← log_position_limit env (req_symbol r);
  if bool_decide (req_execution_style r = "twap") then _submit_twap_manual_order env cx user request r reason
  else if negb (mx_executor cx) then
    if negb (mx_dry_run cx) then log_and_raise env (manual_entry user order_id "failed" reason "broker_unavailable") broker_unavailable
    else _submit_dry_run_manual_order env user order_id reason r
  else _submit_live_manual_order env cx user order_id reason r.
End twap.
