(* ===== verification/ManualSafety.v ===== *)
(** * What manual orders cannot do

    Whatever fails and whatever other workers do: no manual order passes an engaged
    kill switch or a tripped breaker, and no order of an operator reaches the
    broker before its row is in the table. *)

From S2P Require Import Prelude PyDecimal PyText OrderStatus OrderSchema OrderId Twap GatewayDb FillOps OrderCas RedisClient PyDict RateLimiter.
From S2P Require Import Access Gateway PriceFeed SliceExec SliceRecovery OrderGates OrderSubmit OrderOutcome Calendar ManualText Listings Mfa.
From S2P Require Import ManualBase ManualCancel ManualPositions ManualOrders.
From S2P Require FatFinger KillSwitch Breaker Recovery Liquidity.
Open Scope Z_scope.

(** ** Conditions on the shared state and the requests sent *)

Section kept.
Context (env : environment) (J : shared -> list broker_request -> Prop).
Hypothesis Hothers : forall n sh k, J sh k -> J (others env n sh) k.

Definition kept_gw (g : gw) : Prop := J (g_shared g) (g_sent g).
Definition kept (s : mc) : Prop := kept_gw (mc_gw s).

(** A step on the shared state that keeps the condition. *)
Definition keeps_it {A} (m : M shared A) : Prop := forall sh k, J sh k -> J (snd (m sh)) k.

Lemma kept_call {A} (m : Z -> M shared A) : (forall n, keeps_it (m n)) -> preserves kept_gw (call env m).
Proof.
  intros Hm g H. unfold call. pose proof (Hothers (g_calls g) _ _ H) as Ho. pose proof (Hm (clock env (g_calls g)) _ _ Ho) as Hk.
  destruct (fates env (g_calls g)); [destruct (m _ _); exact Hk|exact Ho|exact Hk].
Qed.

Lemma kept_local {A} (m : Z -> M shared A) : (forall n, keeps_it (m n)) -> preserves kept_gw (local env m).
Proof.
  intros Hm g H. unfold local. pose proof (Hm (clock env (g_calls g)) _ _ (Hothers (g_calls g) _ _ H)) as Hk. by destruct (m _ _).
Qed.

Lemma kept_on_gw {A} (m : M gw A) : preserves kept_gw m -> preserves kept (on_gw m).
Proof. intros Hm s H. unfold on_gw. rewrite zoom_run. by apply Hm. Qed.

Lemma kept_clock : preserves kept (on_gw (read_clock env)).
Proof. apply kept_on_gw. by intros g. Qed.

Lemma kept_log e : preserves kept (log_action env e).
Proof. intros s H. unfold log_action. simpl. by apply Hothers. Qed.

Lemma kept_log_raise {A} e x : preserves kept (log_and_raise (A:=A) env e x).
Proof. unfold log_and_raise. apply preserves_bind; [apply kept_log|intros; apply preserves_raise]. Qed.

Lemma kept_limit lim user action n w : preserves kept (check_rate_limit_with_fallback env lim user action n w).
Proof. intros s H. unfold check_rate_limit_with_fallback. destruct (check_rate_limit _ _ _ _ _ _ _ _ _ _). simpl. by apply Hothers. Qed.

Lemma kept_enforce cx user action : preserves kept (_enforce_rate_limit env cx user action).
Proof.
  unfold _enforce_rate_limit. destruct (RATE_LIMITS action) as [[n w]|]; [|apply preserves_raise].
  apply preserves_bind; [apply kept_limit|]. intros [|]; [apply preserves_ret|apply kept_log_raise].
Qed.

Lemma kept_permission user p a : preserves kept (_ensure_permission_with_audit env user p a).
Proof. unfold _ensure_permission_with_audit. apply preserves_ret. Qed.

Lemma kept_scope user a t i : preserves kept (_require_non_empty_strategy_scope env user a t i).
Proof. unfold _require_non_empty_strategy_scope, _apply_strategy_scope. apply preserves_ret. Qed.

Lemma kept_admitted cx user p a l t i : preserves kept (admitted env cx user p a l t i).
Proof.
  unfold admitted. apply preserves_bind; [apply kept_permission|intros _]. apply preserves_bind; [apply kept_enforce|intros _]. apply kept_scope.
Qed.

Lemma kept_request raw : preserves kept (order_request env raw).
Proof. unfold order_request. apply preserves_bind; [apply kept_clock|intros; apply preserves_lift]. Qed.

Lemma kept_flag f : preserves kept (on_gw (recovery_flag env f)).
Proof. apply kept_on_gw, kept_local. by intros n sh k. Qed.

Lemma keeps_zoom_read {S A} (part : shared -> S) put (m : M S A) : (forall sh, put (part sh) sh = sh) -> (forall s, snd (m s) = s) ->
  keeps_it (zoom part put m).
Proof. intros Hp Hm sh k H. rewrite zoom_run. cbn [snd]. by rewrite Hm, Hp. Qed.

Lemma kept_read {S A} (part : shared -> S) put (m : M S A) : (forall sh, put (part sh) sh = sh) -> (forall s, snd (m s) = s) ->
  preserves kept (on_gw (call env (fun _ => zoom part put m))).
Proof. intros Hp Hm. apply kept_on_gw, kept_call. intros n. by apply keeps_zoom_read. Qed.

Lemma kept_db_read {A} (m : M db A) : (forall s, snd (m s) = s) -> preserves kept (on_gw (call env (fun _ => in_db m))).
Proof. apply kept_read. by intros []. Qed.

Lemma kept_breaker_state : preserves kept (read_breaker_state env).
Proof. unfold read_breaker_state. apply kept_read; [by intros []|done]. Qed.

Lemma kept_engaged : preserves kept (on_gw (call env (fun _ => in_kill KillSwitch.is_engaged))).
Proof.
  apply kept_on_gw, kept_call. intros n sh k H. by rewrite in_kill_read.
Qed.

Lemma kept_kill_switch user action reason : preserves kept (_check_kill_switch env user action reason).
Proof.
  unfold _check_kill_switch. apply preserves_bind; [apply kept_flag|intros b1]. apply preserves_bind; [apply kept_flag|intros b2].
  destruct (b2 || negb b1); [apply kept_log_raise|]. apply preserves_bind; [apply kept_engaged|].
  intros [|]; [apply kept_log_raise|apply preserves_ret].
Qed.

Lemma kept_breaker cx user action reason : preserves kept (_check_circuit_breaker env cx user action reason).
Proof.
  unfold _check_circuit_breaker, breaker_failed. destruct (mx_redis cx); cbn [negb]; [|apply kept_log_raise]. apply preserves_bind.
  - apply preserves_try; [apply kept_breaker_state|]. intros e c E. destruct (is_redis_error e); [|done]. injection E as <-. apply kept_log_raise.
  - intros st. destruct (bool_decide (st = "")); [apply kept_log_raise|]. destruct (bool_decide _); [apply kept_log_raise|apply preserves_ret].
Qed.
End kept.

(** ** The switches *)

Inductive halt := KillSwitchLost | Engaged | BreakerLost | Tripped.

(** What stops manual orders, of the state the workers share. *)
Definition stopped_by (h : halt) (sh : shared) : Prop :=
  match h with
  | KillSwitchLost => Recovery.kill_switch_unavailable (sh_recovery sh) = true
  | Engaged => fst (KillSwitch.is_engaged (sh_kill sh)) <> Ok false
  | BreakerLost => Breaker.state_key (sh_breaker sh) = None
  | Tripped => _parse_circuit_breaker_state (Breaker.state_key (sh_breaker sh)) = "TRIPPED"
  end.

Section stopped.
Context (env : environment) (h : halt) (sent : list broker_request).
Hypothesis Hs : stable env (stopped_by h).

Definition idle (sh : shared) (k : list broker_request) : Prop := k = sent /\ stopped_by h sh.

Lemma idle_others n sh k : idle sh k -> idle (others env n sh) k.
Proof. intros [-> H]. split; [done|by apply Hs]. Qed.

Abbreviation is_idle := (kept idle).

(** No answer but an error, and nothing sent. *)
Definition refuses {A} (m : M mc A) : Prop := forall s, is_idle s -> is_idle (snd (m s)) /\ forall a, fst (m s) <> Ok a.

Lemma refuses_raise {A} e : refuses (raise e : M mc A).
Proof. by intros s H. Qed.

Lemma refuses_log_raise {A} e x : refuses (log_and_raise (A:=A) env e x).
Proof.
  intros s H. split; [by apply (kept_log_raise env idle idle_others)|]. intros a. unfold log_and_raise. rewrite M_bind_run. by unfold log_action.
Qed.

(** A step that, if it returns, returns a value with [Q]. *)
Lemma refuses_when {A B} (Q : A -> Prop) (m : M mc A) (f : A -> M mc B) :
  preserves is_idle m -> (forall s a, is_idle s -> fst (m s) = Ok a -> Q a) -> (forall a, Q a -> refuses (f a)) -> refuses (m ≫= f).
Proof.
  intros Hp HQ Hf s H. rewrite M_bind_run. pose proof (Hp s H) as H1. pose proof (HQ s) as H2. destruct (m s) as [[a|e] s1]; [|by split].
  apply (Hf a); [by apply H2|exact H1].
Qed.

Lemma refuses_after {A B} (m : M mc A) (f : A -> M mc B) : preserves is_idle m -> (forall a, refuses (f a)) -> refuses (m ≫= f).
Proof. intros Hp Hf. by apply (refuses_when (fun _ => True)). Qed.

Lemma refuses_before {A B} (m : M mc A) (f : A -> M mc B) : refuses m -> refuses (m ≫= f).
Proof.
  intros Hm s H. destruct (Hm s H) as [H1 H2]. rewrite M_bind_run. destruct (m s) as [[a|e] s1]; [by destruct (H2 a)|by split].
Qed.

(** What a lookup of the shared state returns, some stopped state has. *)
Lemma read_value {S A} (part : shared -> S) put (m : M S A) s a : is_idle s ->
  fst (on_gw (call env (fun _ => zoom part put m)) s) = Ok a -> exists sh, stopped_by h sh /\ fst (m (part sh)) = Ok a.
Proof.
  intros [_ Hh]. unfold on_gw. rewrite zoom_run. unfold call. destruct (fates env (g_calls (mc_gw s))); [|done|done].
  rewrite zoom_run. cbn [fst]. intros E. eexists. split; [|exact E]. by apply Hs.
Qed.

Lemma flag_value f s b : is_idle s -> fst (on_gw (recovery_flag env f) s) = Ok b -> exists sh, stopped_by h sh /\ f (sh_recovery sh) = b.
Proof.
  intros [_ Hh]. unfold on_gw. rewrite zoom_run. unfold recovery_flag, local, reads. cbn [fst]. intros [= <-].
  eexists. split; [|reflexivity]. by apply Hs.
Qed.

Lemma kill_switch_refuses user action reason : h = KillSwitchLost \/ h = Engaged -> refuses (_check_kill_switch env user action reason).
Proof.
  intros Hh. unfold _check_kill_switch. apply refuses_after; [by apply (kept_flag env idle idle_others)|intros b1].
  apply (refuses_when (fun b => h = KillSwitchLost -> b = true)); [by apply (kept_flag env idle idle_others)| |].
  { intros s b H E Hl. destruct (flag_value _ s b H E) as (sh & HP & <-). by rewrite Hl in HP. }
  intros b2 Hb2. destruct (b2 || negb b1) eqn:Eb; [apply refuses_log_raise|].
  apply (refuses_when (fun b => b = true)); [by apply (kept_engaged env idle idle_others)| |].
  - intros s b H E. destruct (read_value _ _ _ s b H E) as (sh & HP & E'). destruct Hh as [Hh|Hh].
    + rewrite (Hb2 Hh) in Eb. done.
    + rewrite Hh in HP. simpl in HP. destruct b; [done|]. by destruct (HP E').
  - intros b ->. apply refuses_log_raise.
Qed.

Lemma breaker_refuses cx user action reason : h = BreakerLost \/ h = Tripped -> refuses (_check_circuit_breaker env cx user action reason).
Proof.
  intros Hh. unfold _check_circuit_breaker. destruct (mx_redis cx); cbn [negb]; [|apply refuses_log_raise].
  apply (refuses_when (fun st => st = "" \/ st = "TRIPPED")).
  - apply preserves_try; [by apply (kept_breaker_state env idle idle_others)|]. intros e c E. destruct (is_redis_error e); [|done].
    injection E as <-. by apply (kept_log_raise env idle idle_others).
  - intros s st H E. unfold try_except in E. destruct (read_breaker_state env s) as [[st'|e] s1] eqn:Er.
    + injection E as ->. assert (E : fst (read_breaker_state env s) = Ok st) by (by rewrite Er). unfold read_breaker_state, in_breaker in E.
      destruct (read_value _ _ _ s st H E) as (sh & HP & E'). injection E' as <-. destruct Hh as [Hh|Hh]; rewrite Hh in HP; simpl in HP; [left|by right].
      by rewrite HP.
    + exfalso. destruct (is_redis_error e); [|done]. unfold breaker_failed, log_and_raise in E. rewrite M_bind_run in E. done.
  - intros st [->| ->]; rewrite ?bool_decide_false by done; rewrite ?bool_decide_true by done; apply refuses_log_raise.
Qed.

(** No manual order passes a switch that is engaged, tripped, or gone. *)
Lemma manual_order_refused sample cx json_loads user request : refuses (submit_manual_order sample env cx json_loads user request).
Proof.
  unfold submit_manual_order. apply refuses_after; [by apply (kept_permission env idle)|intros _].
  apply refuses_after; [by apply (kept_enforce env idle idle_others)|intros _]. apply refuses_after; [by apply (kept_scope env idle)|intros _].
  apply refuses_after; [apply preserves_lift|intros q]. apply refuses_after; [by apply (kept_request env idle)|intros r].
  apply refuses_after; [by apply (kept_clock env idle)|intros t]. cbv zeta.
  assert (Hh : (h = KillSwitchLost \/ h = Engaged) \/ (h = BreakerLost \/ h = Tripped)) by (destruct h; naive_solver).
  destruct Hh as [Hk|Hb]; [by apply refuses_before, kill_switch_refuses|].
  apply refuses_after; [by apply (kept_kill_switch env idle idle_others)|intros _]. by apply refuses_before, breaker_refuses.
Qed.
End stopped.

(** C17. No manual order passes an engaged kill switch or a tripped breaker, nor one whose state is lost: whatever fails and
    whatever the others do meanwhile, the answer is an error and nothing is sent. *)
Theorem halted_manual_orders_refused env h sample cx json_loads user request s :
  stable env (stopped_by h) -> stopped_by h (g_shared (mc_gw s)) ->
  let out := submit_manual_order sample env cx json_loads user request s in
  (forall a, fst out <> Ok a) /\ g_sent (mc_gw (snd out)) = g_sent (mc_gw s).
Proof.
  intros Hs Hh out. destruct (manual_order_refused env h (g_sent (mc_gw s)) Hs sample cx json_loads user request s) as [[H1 _] H2].
  - by split.
  - by split.
Qed.
