(* ===== verification/ManualRecords.v ===== *)
(** * Operators' orders at the broker are in the table

    Closing, adjusting, flattening and manual orders send an order only after its
    row was inserted, as long as nobody deletes rows. *)

From S2P Require Import Prelude PyDecimal PyText OrderStatus OrderSchema OrderId Twap GatewayDb FillOps OrderCas RedisClient PyDict RateLimiter.
From S2P Require Import Access Gateway PriceFeed SliceExec SliceRecovery OrderGates OrderSubmit OrderOutcome Calendar ManualText Listings Mfa.
From S2P Require Import ManualBase ManualCancel ManualPositions ManualOrders ManualSafety.
From S2P Require FatFinger KillSwitch Breaker Recovery Liquidity.
Import Gateway.Accounts.
Open Scope Z_scope.

(** The row of a submitted order is in the table. *)
Definition backed (sh : shared) (r : broker_request) : Prop :=
  match r with Submit q => has_row (client_id_of q) sh | _ => True end.

Lemma build_client_id r id q : _build_alpaca_request r id = Ok q -> client_id_of q = id.
Proof. unfold _build_alpaca_request. repeat case_match; by intros [= <-]. Qed.

Section recorded.
Context (env : environment) (start : list broker_request).
Hypothesis Hrows : forall id, stable env (has_row id).

(** Every order sent since [start] has its row. *)
Definition recorded (sh : shared) (k : list broker_request) : Prop := exists rs, k = start ++ rs /\ Forall (backed sh) rs.

Lemma backed_grows (f : shared -> shared) sh rs : (forall id, has_row id sh -> has_row id (f sh)) -> Forall (backed sh) rs -> Forall (backed (f sh)) rs.
Proof. intros Hf H. apply (Forall_impl _ _ _ H). intros [q| | | | |]; simpl; try done. apply Hf. Qed.

Lemma recorded_others n sh k : recorded sh k -> recorded (others env n sh) k.
Proof. intros (rs & E & H). exists rs. split; [exact E|]. apply backed_grows; [intros id; by apply Hrows|exact H]. Qed.

(** A computation on the database that deletes no order. *)
Definition keeps_rows {A} (m : M db A) : Prop := forall id, preserves (row_in id) m.

Lemma recorded_in_db {A} (m : M db A) : keeps_rows m -> keeps_it recorded (in_db m).
Proof.
  intros Hm sh k (rs & E & H). exists rs. split; [exact E|]. apply (backed_grows (fun sh => snd (in_db m sh))); [|exact H].
  intros id Hid. unfold in_db. rewrite zoom_run. by apply Hm.
Qed.

Lemma recorded_beside {S A} (part : shared -> S) put (m : M S A) : (forall x sh, sh_db (put x sh) = sh_db sh) -> keeps_it recorded (zoom part put m).
Proof.
  intros Hp sh k (rs & E & H). exists rs. split; [exact E|]. apply (backed_grows (fun sh => snd (zoom part put m sh))); [|exact H].
  intros id Hid. rewrite zoom_run. unfold has_row. cbn [snd]. by rewrite Hp.
Qed.

Abbreviation safe := (preserves (kept recorded)).

Lemma safe_db {A} (m : Z -> M db A) : (forall n, keeps_rows (m n)) -> safe (on_gw (call env (fun now => in_db (m now)))).
Proof. intros Hm. apply kept_on_gw, (kept_call env recorded recorded_others). intros n. apply recorded_in_db, Hm. Qed.

Lemma rows_reads {A} (f : db -> A) : keeps_rows (reads f).
Proof. intros id. apply preserves_reads. Qed.

Lemma safe_read {A} (f : db -> A) : safe (on_gw (call env (fun _ => in_db (reads f)))).
Proof. apply safe_db. intros n. apply rows_reads. Qed.

Lemma safe_status id status err : safe (update_status env id status err).
Proof. apply safe_db. intros n id'. unfold update_order_status. apply preserves_transaction, row_in_update. Qed.

(** The insertion: when it returns, the row is there. *)
Lemma create_order_row now id strategy r status s row s' :
  create_order now id strategy r status None None s = (Ok row, s') -> row_in id s'.
Proof.
  unfold create_order, transaction, insert_order. rewrite M_bind_run. unfold get_state. cbv beta iota zeta.
  destruct (db_orders s !! id); [done|]. destruct (order_valid _ _ _); [|done]. rewrite M_bind_run. unfold put_state, mret, M_ret.
  intros [= _ <-]. unfold row_in, set_orders. cbn [db_orders]. rewrite lookup_insert_eq. by eexists.
Qed.

Definition present (id : string) (s : mc) : Prop := kept recorded s /\ has_row id (g_shared (mc_gw s)).

Lemma insert_present id strategy r status : ensures (kept recorded) (on_gw (call env (fun now => in_db (create_order now id strategy r status None None))))
  (fun out s => kept recorded s /\ forall row, out = Ok row -> present id s).
Proof.
  intros s H. assert (Hk : kept recorded (snd (on_gw (call env (fun now => in_db (create_order now id strategy r status None None))) s))).
  { apply safe_db; [|exact H]. intros n id'. unfold create_order. apply preserves_transaction, row_in_insert. }
  split; [exact Hk|]. intros row E. split; [exact Hk|]. revert E. unfold on_gw. rewrite zoom_run. unfold call.
  destruct (fates env (g_calls (mc_gw s))); [|done|done]. unfold in_db. rewrite zoom_run. cbn [fst snd put_gw mc_gw after_call g_shared].
  intros E. destruct (create_order _ _ _ _ _ _ _ _) as [out D'] eqn:Ec. cbn [fst snd] in *. subst out. unfold has_row. cbn [set_db sh_db].
  by eapply create_order_row.
Qed.

(** Sending an order whose row is there. *)
Lemma submit_recorded r id : ensures (present id) (submit env r id) (fun _ s => kept recorded s).
Proof.
  intros s H. assert (Hp : preserves (fun g => kept_gw recorded g /\ has_row id (g_shared g)) (Gateway.submit_order env r id)).
  { unfold Gateway.submit_order. apply preserves_retry. unfold submit_attempt. destruct (_build_alpaca_request r id) as [q|e] eqn:Eq; [|apply preserves_raise].
    apply preserves_bind; [|intros; apply preserves_lift]. intros g [(rs & E & HF) Hr]. unfold ask_broker, kept_gw. cbn [snd g_shared g_sent].
    split; [|by apply Hrows]. exists (rs ++ [Submit q]). split; [by rewrite E, app_assoc|]. apply Forall_app. split.
    - apply backed_grows; [intros id'; by apply Hrows|exact HF].
    - apply Forall_singleton. simpl. rewrite (build_client_id _ _ _ Eq). by apply Hrows. }
  unfold submit, on_gw. rewrite zoom_run. cbn [snd]. unfold kept. cbn [put_gw mc_gw]. by apply Hp.
Qed.

(** ** The handlers *)

Let safe_log e : safe (log_action env e) := kept_log env recorded recorded_others e.
Let safe_raise {A} e x : safe (log_and_raise (A:=A) env e x) := kept_log_raise env recorded recorded_others e x.
Let safe_clock : safe (on_gw (read_clock env)) := kept_clock env recorded.

Ltac keep :=
  repeat lazymatch goal with
    | |- preserves _ (mret _) => apply preserves_ret
    | |- preserves _ (raise _) => apply preserves_raise
    | |- preserves _ (lift _) => apply preserves_lift
    | |- preserves _ (log_action _ _) => apply safe_log
    | |- preserves _ (log_and_raise _ _ _) => apply safe_raise
    | |- preserves _ (on_gw (read_clock _)) => apply safe_clock
    | |- preserves _ (on_gw (call _ _)) => apply safe_read
    | |- preserves _ (update_status _ _ _ _) => apply safe_status
    | |- preserves _ (_ensure_permission_with_audit _ _ _ _) => apply (kept_permission env)
    | |- preserves _ (_enforce_rate_limit _ _ _ _) => apply (kept_enforce env _ recorded_others)
    | |- preserves _ (_require_non_empty_strategy_scope _ _ _ _ _) => apply (kept_scope env)
    | |- preserves _ (order_request _ _) => apply (kept_request env)
    | |- preserves _ (_ ≫= _) => apply preserves_bind; [|intros]
    end.

Lemma insert_then {A} id strategy r status (m : order_row -> M mc A) Q :
  (forall e s, kept recorded s -> Q (Raise e) s) -> (forall row, ensures (present id) (m row) Q) ->
  ensures (kept recorded) (row ← on_gw (call env (fun now => in_db (create_order now id strategy r status None None))); m row) Q.
Proof.
  intros He Hm. apply (ensures_bind _ (fun _ => present id)); [|exact Hm]. intros s H.
  destruct (insert_present id strategy r status s H) as [H1 H2]. destruct (fst _) as [row|e]; [by eapply H2|by apply He].
Qed.

(** An insertion that an IntegrityError ends with [false]: otherwise the row is there. *)
Lemma persist_recorded id strategy r (h : exn -> option (M mc bool)) : (forall e c, h e = Some c -> forall s, kept recorded s ->
    kept recorded (snd (c s)) /\ fst (c s) <> Ok false) ->
  ensures (kept recorded) (try_except (_ ← persist env id strategy r; mret false) h)
    (fun out s => match out with Ok false => present id s | _ => kept recorded s end).
Proof.
  intros Hh s H. unfold try_except. rewrite M_bind_run. destruct (insert_present id strategy r "pending_new" s H) as [H1 H2].
  unfold persist. destruct (on_gw _ s) as [[row|e] s1]; cbn [fst snd] in *; [by eapply H2|].
  destruct (h e) as [c|] eqn:E; [|exact H1]. destruct (Hh e c E s1 H1) as [K1 K2]. destruct (c s1) as [[[]|] s2]; cbn [fst snd] in *; done.
Qed.

Lemma safe_via {A B} (R : A -> mc -> Prop) (m : M mc A) (f : A -> M mc B) :
  ensures (kept recorded) m (fun out s => match out with Ok a => R a s | Raise _ => kept recorded s end) ->
  (forall a, ensures (R a) (f a) (fun _ s => kept recorded s)) -> safe (m ≫= f).
Proof. intros Hm Hf s H. exact (ensures_bind _ R m f (fun _ s => kept recorded s) Hm Hf s H). Qed.

(** Sending, and what follows. *)
Lemma submit_then {A} r id (m : order_dict -> M mc A) : (forall o, safe (m o)) ->
  ensures (present id) (o ← submit env r id; m o) (fun _ s => kept recorded s).
Proof.
  intros Hm. apply (ensures_bind _ (fun _ => kept recorded)); [|exact Hm].
  intros s H. pose proof (submit_recorded r id s H) as Hk. by destruct (fst _).
Qed.

Lemma place_recorded log id strategy r : safe (place env log id strategy r).
Proof.
  unfold place. apply preserves_try; [|intros e c E; destruct (broker_error e); [|done]; injection E as <-; apply safe_raise].
  apply (safe_via (fun (b : bool) s => if b then kept recorded s else present id s)).
  - assert (Hp := persist_recorded id strategy r (fun e => if is_integrity e then Some (
        existing ← on_gw (call env (fun _ => in_db (get_order_by_client_id id)));
        match existing with Some _ => _ ← log_action env (log "success" "idempotent"); mret true | None => raise conflict end) else None)).
    intros s H. apply Hp in H; [by destruct (fst _) as [[]|]|]. clear Hp H s. intros e c E. destruct (is_integrity e); [|done]. injection E as <-. intros s H.
    assert (Hk : safe (existing ← on_gw (call env (fun _ => in_db (get_order_by_client_id id)));
        match existing with Some _ => _ ← log_action env (log "success" "idempotent"); mret true | None => raise conflict end : M mc bool)).
    { keep. destruct a; keep. }
    split; [by apply Hk|]. rewrite M_bind_run. destruct (on_gw _ s) as [[[row|]|e1] s2]; [|done|done]. rewrite M_bind_run. by destruct (log_action _ _ s2) as [[]].
  - intros [|]; [apply preserves_ret|]. apply submit_then. intros o. keep.
Qed.

Lemma visible_recorded user : safe (visible_positions env user).
Proof.
  unfold visible_positions. cbn [negb has_permission]. apply safe_db. intros n id. unfold positions_in_order.
  apply preserves_bind; [apply preserves_reads|intros; apply preserves_ret].
Qed.

Lemma whole_recorded cx user action symbol reason : safe (whole_position env cx user action symbol reason).
Proof.
  unfold whole_position. keep. destruct (no_strategies user); keep. all: first [apply visible_recorded|destruct (position_of _ _); keep].
Qed.

Lemma close_recorded cx user symbol request : safe (close_position env cx user symbol request).
Proof.
  unfold close_position. apply preserves_bind; [apply whole_recorded|intros qty]. destruct (deqb qty dzero); [keep|].
  destruct (integral qty); cbn [negb]; [|keep]. destruct (dltb _ _); [keep|]. keep. destruct (mx_executor cx); cbn [negb]; [|keep].
  unfold order_id_for. keep. apply place_recorded.
Qed.

Lemma breaker_recorded cx user symbol reason : safe (adjust_breaker env cx user symbol reason).
Proof.
  unfold adjust_breaker, blocked. apply preserves_try.
  - destruct (mx_redis cx); [|keep]. apply preserves_bind; [apply (kept_breaker_state env recorded recorded_others)|intros st].
    destruct (bool_decide (st = "")); [keep|]. destruct (bool_decide _); keep.
  - intros e c E. destruct (is_redis_error e); [|done]. injection E as <-. keep.
Qed.

Lemma adjust_recorded cx user symbol request : safe (adjust_position env cx user symbol request).
Proof.
  unfold adjust_position. apply preserves_bind; [apply whole_recorded|intros qty]. destruct (integral qty); cbn [negb]; [|keep].
  apply preserves_bind; [destruct (_ && _); [apply breaker_recorded|keep]|intros _]. destruct (deqb _ dzero); [keep|].
  destruct (mx_executor cx); cbn [negb]; [|keep]. keep. unfold order_id_for. keep. apply place_recorded.
Qed.

Lemma flatten_one_recorded user reason strategies acc p : safe (flatten_one env user reason strategies acc p).
Proof.
  destruct p as [symbol p]. unfold flatten_one. destruct (deqb _ _); [keep|].
  apply preserves_bind; [apply (kept_request env)|intros r]. apply preserves_bind; [apply safe_clock|intros t]. cbv zeta.
  set (id := _generate_manual_order_id _ _ _ _ _ _ _ _ _ _). clearbody id.
  apply preserves_try; [|intros e c E; destruct (broker_error e); [|done]; injection E as <-; apply safe_raise].
  apply (safe_via (fun (b : bool) s => if b then kept recorded s else present id s)).
  - intros s H. assert (Hp := persist_recorded id "manual_controls_flatten_all" r (fun e => if is_integrity e then Some (mret true) else None)).
    apply Hp in H; [by destruct (fst _) as [[]|]|]. intros e c E s1 H1. destruct (is_integrity e); [|done]. injection E as <-. by split.
  - intros b. apply (ensures_bind _ (fun _ => kept recorded)).
    + destruct b; [intros s H; exact H|]. intros s H. pose proof (submit_then r id (fun _ => mret tt) (fun _ => preserves_ret _ _) s H) as Hk.
      by destruct (fst _).
    + intros _ s H. exact H.
Qed.

Lemma flatten_recorded cx two_fa user request : safe (flatten_all_positions env cx two_fa user request).
Proof.
  unfold flatten_all_positions. keep. destruct (two_fa _ _) as [[valid err] m]. keep.
  - destruct valid; [keep|]. unfold mfa_refused. destruct (error_map _). keep.
  - unfold to_flatten. cbn [has_permission]. keep. destruct a2; [keep|]. destruct (negb _); keep.
  - destruct a2 as [|p ps]; [keep|]. apply preserves_bind; [keep|intros sm].
    apply preserves_bind; [apply preserves_for_each; intros; apply flatten_one_recorded|intros acc; keep].
Qed.

(** *** Manual orders *)

Lemma kept_fat_finger cx json_loads user id reason r : safe (manual_fat_finger env cx json_loads user id reason r).
Proof.
  unfold manual_fat_finger. apply preserves_bind; [apply kept_on_gw, (kept_local env recorded recorded_others); by intros n sh k|intros v].
  apply preserves_bind; [|intros x; keep; destruct (FatFinger.breached _); keep].
  apply kept_on_gw. unfold resolve_fat_finger_context. apply preserves_bind; [|intros pr; apply preserves_bind; [|intros; apply preserves_ret]].
  - unfold resolve_price. destruct (FatFinger.max_notional _); [|apply preserves_ret].
    destruct (req_limit_price r); [apply preserves_ret|]. destruct (req_stop_price r); [apply preserves_ret|]. apply preserves_bind.
    + apply (kept_local env recorded recorded_others). intros n. apply recorded_beside. by intros x [].
    + intros prices. destruct (default _ _); [|apply preserves_ret]. apply preserves_bind; [by intros g|]. intros now. case_match; apply preserves_ret.
  - unfold resolve_adv. destruct (FatFinger.max_adv_pct _); [|apply preserves_ret]. destruct (liquidity_service _); [|apply preserves_ret]. intros g H. apply (kept_local env recorded recorded_others); [|exact H].
    intros n. apply recorded_beside. by intros x [].
Qed.

Lemma retry_recorded id : safe (_handle_idempotent_order_retry env id).
Proof. unfold _handle_idempotent_order_retry. keep. destruct a; keep. Qed.

(** The insertion of a manual order: a row, or the answer to a retry. *)
Lemma manual_insert_recorded id status r :
  ensures (kept recorded) (insert_manual env id status r) (fun out s => match out with Ok (inl _) => present id s | _ => kept recorded s end).
Proof.
  intros s H. unfold insert_manual, try_except. rewrite M_bind_run. destruct (insert_present id MANUAL_STRATEGY r status s H) as [H1 H2].
  destruct (on_gw _ s) as [[row|e] s1]; cbn [fst snd] in *; [by eapply H2|]. destruct (is_integrity e); [|exact H1].
  rewrite M_bind_run. pose proof (retry_recorded id s1 H1) as H3. by destruct (_handle_idempotent_order_retry env id s1) as [[a|e'] s2].
Qed.

Lemma dry_run_recorded user id reason r : safe (_submit_dry_run_manual_order env user id reason r).
Proof.
  unfold _submit_dry_run_manual_order.
  apply (safe_via (fun (x : order_row + ManualOrderResponse) s => match x with inl _ => present id s | inr _ => kept recorded s end)).
  - intros s H. pose proof (manual_insert_recorded id "dry_run" r s H) as Hk. by destruct (fst _) as [[]|].
  - intros [row|a]; [|apply preserves_ret]. intros s [H _]. revert s H.
    match goal with |- forall s, kept recorded s -> kept recorded (snd (?m s)) => change (safe m) end. keep.
Qed.

(** The row stays while the breaker is asked again. *)
Definition present_cond (id : string) (sh : shared) (k : list broker_request) : Prop := recorded sh k /\ has_row id sh.

Lemma present_others id n sh k : present_cond id sh k -> present_cond id (others env n sh) k.
Proof. intros [H1 H2]. split; [by apply recorded_others|by apply Hrows]. Qed.

Lemma present_status id id' status err : preserves (kept (present_cond id)) (update_status env id' status err).
Proof.
  apply kept_on_gw, (kept_call env _ (present_others id)). intros n sh k [H1 H2].
  assert (Hk : keeps_rows (update_order_status n id' status None None None err)) by (intros x; unfold update_order_status; apply preserves_transaction, row_in_update).
  split; [by apply recorded_in_db|]. unfold in_db. rewrite zoom_run. by apply Hk.
Qed.

Lemma recheck_present cx user id reason : preserves (kept (present_cond id)) (recheck_breaker env cx user id reason).
Proof.
  unfold recheck_breaker. apply preserves_try; [apply (kept_breaker env _ (present_others id))|]. intros e c E. destruct e; try done.
  injection E as <-. apply preserves_bind; [|intros; apply preserves_raise]. unfold mark_manual_failed. apply preserves_try.
  - apply preserves_bind; [apply present_status|intros; apply preserves_ret].
  - intros e c E. destruct (is_database_error e); [|done]. injection E as <-. apply preserves_ret.
Qed.

Lemma failed_recorded id why : safe (mark_manual_failed env id why).
Proof.
  unfold mark_manual_failed. apply preserves_try; [keep|]. intros e c E. destruct (is_database_error e); [|done]. injection E as <-. keep.
Qed.

Lemma live_recorded cx user id reason r : safe (_submit_live_manual_order env cx user id reason r).
Proof.
  unfold _submit_live_manual_order.
  apply (safe_via (fun (x : order_row + ManualOrderResponse) s => match x with inl _ => present id s | inr _ => kept recorded s end)).
  { intros s H. pose proof (manual_insert_recorded id "pending_new" r s H) as Hk. by destruct (fst _) as [[]|]. }
  intros [row|a]; [|apply preserves_ret]. apply (ensures_bind _ (fun _ => present id)).
  { intros s H. pose proof (recheck_present cx user id reason s H) as [K1 K2]. destruct (fst _); [by split|exact K1]. }
  intros _ s H. unfold try_except.
  assert (Hk : kept recorded (snd ((o ← submit env r id; recorded ← record_status env id o;
     _ ← log_action env (manual_entry user id "success" reason "");
     mret {| mr_client_order_id := id; mr_status := recorded.1; mr_broker_order_id := Some (od_id o); mr_core := core_of MANUAL_STRATEGY r;
             mr_created_at := o_created_at (match recorded.2 with Some row => row | None => row end);
             mr_message := "Order submitted (manual)"; mr_slices := None |}) s))).
  { apply submit_then; [|exact H]. intros o. keep. unfold record_status. destruct (od_status o) as [st|]; [|apply safe_db; intros n id'; apply preserves_raise].
    apply preserves_bind; [|intros; destruct (one_of st _); keep]. apply safe_db. intros n id'. unfold update_order_status. apply preserves_transaction, row_in_update. }
  destruct ((o ← submit env r id; _) s) as [[x|e] s1]; [exact Hk|]. destruct (live_failed env user id reason e) as [c|] eqn:El; [|exact Hk].
  revert s1 Hk. cbn [snd]. match goal with |- forall s1, kept recorded s1 -> kept recorded (snd (?m s1)) => change (safe m) end.
  unfold live_failed in El. destruct (broker_error e); [injection El as <-; keep; apply failed_recorded|].
  destruct (is_database_error e); [injection El as <-; keep|]. destruct e; try done. injection El as <-. keep.
Qed.

Lemma write_twap_rows now parent strategy r total slices : keeps_rows (write_twap now parent strategy r total slices).
Proof.
  intros id. unfold write_twap. apply preserves_transaction, preserves_bind.
  - unfold create_parent_order, bind_params. apply preserves_bind; [destruct (_ =? _)%nat; [apply preserves_ret|apply preserves_raise]|intros; apply row_in_insert].
  - intros _. apply preserves_for_each. intros _ d. apply preserves_bind; [apply preserves_lift|intros g].
    apply preserves_bind; [apply row_in_insert|intros _]. intros D H. unfold create_slice_schedule. rewrite M_bind_run. unfold get_state. cbv beta iota.
    by destruct (_ || _).
Qed.

Lemma schedule_recorded parent slices symbol side ot lp sp tif : safe (on_gw (schedule_slices parent slices symbol side ot lp sp tif)).
Proof.
  apply kept_on_gw. unfold schedule_slices. apply preserves_for_each. intros ids d. unfold schedule_slice.
  apply preserves_bind; [|intros; apply preserves_ret]. intros g H. unfold add_job. by destruct (dict_get _ _).
Qed.

Lemma existing_twap_recorded id : safe (existing_twap env id).
Proof.
  unfold existing_twap. apply preserves_bind; [apply safe_read|intros [row|]; [|apply preserves_raise]].
  apply preserves_bind; [apply safe_read|intros; apply preserves_ret].
Qed.

Lemma twap_recorded sample cx user request r reason : safe (_submit_twap_manual_order sample env cx user request r reason).
Proof.
  unfold _submit_twap_manual_order. destruct (_ && _); [keep|]. destruct (mx_scheduler cx); cbn [negb]; [|keep].
  destruct (bool_decide _); [keep|]. cbv zeta. apply preserves_bind; [apply safe_clock|intros t].
  apply preserves_bind; [apply preserves_try; [apply preserves_lift|]|intros plan].
  { intros e c E. unfold twap_invalid in E. destruct e; try done. injection E as <-. apply preserves_raise. }
  apply preserves_bind; [apply preserves_lift|intros parent]. apply preserves_bind; [apply preserves_lift|intros slices].
  apply preserves_bind.
  - apply preserves_try; [apply preserves_bind; [apply safe_db; intros n; apply write_twap_rows|intros; apply preserves_ret]|].
    intros e c E. destruct (is_integrity e); [|done]. injection E as <-. apply preserves_bind; [apply existing_twap_recorded|intros; apply preserves_ret].
  - intros [a|]; [apply preserves_ret|]. apply preserves_bind; [apply schedule_recorded|intros _]. keep.
Qed.

Lemma manual_order_recorded sample cx json_loads user request : safe (submit_manual_order sample env cx json_loads user request).
Proof.
  unfold submit_manual_order. do 6 (apply preserves_bind; [keep|intros ?]). cbv zeta.
  apply preserves_bind; [apply (kept_kill_switch env _ recorded_others)|intros _].
  apply preserves_bind; [apply (kept_breaker env _ recorded_others)|intros _].
  apply preserves_bind; [apply kept_fat_finger|intros _].
  apply preserves_bind; [unfold log_position_limit; apply preserves_try; [keep|]|intros _].
  { intros e c E. destruct (is_database_error e); [|done]. injection E as <-. keep. }
  destruct (bool_decide _); [apply twap_recorded|]. destruct (mx_executor cx); cbn [negb]; [apply live_recorded|].
  destruct (mx_dry_run cx); cbn [negb]; [apply dry_run_recorded|keep].
Qed.
End recorded.

(** Every order [m] sends has its row when [m] ends. *)
Definition sends_recorded {A} (m : M mc A) (s : mc) : Prop := exists rs, g_sent (mc_gw (snd (m s))) = g_sent (mc_gw s) ++ rs /\
  forall q, Submit q ∈ rs -> has_row (client_id_of q) (g_shared (mc_gw (snd (m s)))).

(** C15. As long as nobody deletes orders, every order an operator's request sends to the broker has its row in the table when
    the request ends, whatever fails on the way: the webhooks and the reconciliation will find it. *)
Theorem sent_manual_orders_are_recorded env cx sample json_loads two_fa user symbol close adjust flatten order s :
  (forall id, stable env (has_row id)) ->
  sends_recorded (close_position env cx user symbol close) s /\
  sends_recorded (adjust_position env cx user symbol adjust) s /\
  sends_recorded (flatten_all_positions env cx two_fa user flatten) s /\
  sends_recorded (submit_manual_order sample env cx json_loads user order) s.
Proof.
  intros Hr.
  assert (H : forall A (m : M mc A), preserves (kept (recorded (g_sent (mc_gw s)))) m -> sends_recorded m s).
  { intros A m Hm. destruct (Hm s) as (rs & E & HF); [exists []; by rewrite app_nil_r|]. exists rs. split; [exact E|].
    intros q Hq. rewrite Forall_forall in HF. exact (HF _ Hq). }
  split; [|split; [|split]]; apply H; [by apply close_recorded|by apply adjust_recorded|by apply flatten_recorded|by apply manual_order_recorded].
Qed.
