(* ===== verification/ManualOutcome.v ===== *)
(** * What becomes of a manual order

    An instant order with a broker: the row is written, the order is sent, and the
    broker's verdict is recorded and answered.  No position limit stands in its
    way. *)

From S2P Require Import Prelude PyDecimal PyText OrderStatus OrderSchema OrderId GatewayDb FillOps OrderCas RedisClient RateLimiter.
From S2P Require Import ReconMods Access Gateway PriceFeed SliceExec OrderGates OrderSubmit OrderOutcome OrderCancel Calendar ManualText Listings.
From S2P Require Import ManualBase ManualCancel ManualPositions ManualPlace ManualMoves ManualAdjust ManualOrders.
From S2P Require FatFinger KillSwitch Breaker Recovery.
From Stdlib Require Import QArith.
Open Scope Z_scope.

(** The row when the broker's status and identifier are recorded. *)
Definition recorded_row (now : Z) (status broker_order_id : string) (row : order_row) : order_row :=
  set_exec now (fun e =>
    {| o_status := status; o_broker_order_id := Some broker_order_id; o_error_message := None;
       o_submitted_at := o_submitted_at e; o_filled_at := o_filled_at e; o_filled_qty := o_filled_qty e;
       o_filled_avg_price := o_filled_avg_price e; o_last_updated_at := Some now; o_is_terminal := is_terminal_status status;
       o_source_priority := o_source_priority e; o_status_rank := Some (status_rank_for status);
       o_broker_event_id := o_broker_event_id e |}) row.

Lemma recorded_run now id st bid D row : db_orders D !! id = Some row -> order_valid (db_orders D) id row = true ->
  broker_id_free (db_orders D) (Some bid) ->
  update_order_status now id st (Some bid) None None None D
    = (Ok (Some (recorded_row now st bid row)), set_orders (insert id (recorded_row now st bid row)) D).
Proof.
  intros Hr Hv Hf. assert (Hv' : order_valid (db_orders D) id (recorded_row now st bid row) = true) by exact (accepted_valid _ _ _ now _ Hf Hv).
  assert (E : update_order_status now id st (Some bid) None None None = transaction (update_order id always (recorded_row now st bid))).
  { unfold update_order_status, recorded_row. by destruct (bool_decide (st = "filled")). }
  rewrite E. unfold transaction, update_order. rewrite M_bind_run. unfold get_state. cbv beta iota. rewrite Hr. cbn [always]. cbv zeta. by rewrite Hv'.
Qed.

Lemma rewritten id (row final : order_row) D : set_orders (insert id final) (set_orders (insert id row) D) = set_orders (insert id final) D.
Proof. unfold set_orders. cbn. by rewrite insert_insert_eq. Qed.

Section quiet.
Context (env : environment).
Hypothesis Hq : quiet env.

Section from.
Context {s s1 : mc} {D : db} {sent : list broker_request} {log : list audit_entry}.
Hypothesis W : went s s1 D sent log.

Lemma read_from {A} (m : M shared A) : (forall sh, snd (m sh) = sh) -> exists s2,
  on_gw (call env (fun _ => m)) s1 = (fst (m (set_db D (g_shared (mc_gw s)))), s2) /\ went s s2 D sent log.
Proof.
  intros Hm. unfold on_gw. rewrite zoom_run, call_quiet by done. cbn [fst snd]. rewrite Hm. destruct W as [H1 H2 H3 H4]. rewrite H1.
  eexists. split; [reflexivity|]. by split.
Qed.

Lemma local_from {A} (m : M shared A) : (forall sh, snd (m sh) = sh) -> exists s2,
  on_gw (local env (fun _ => m)) s1 = (fst (m (set_db D (g_shared (mc_gw s)))), s2) /\ went s s2 D sent log.
Proof.
  intros Hm. unfold on_gw. rewrite zoom_run. unfold local. destruct Hq as [_ Ho]. rewrite Ho. destruct W as [H1 H2 H3 H4].
  specialize (Hm (g_shared (mc_gw s1))). rewrite H1 in *. destruct (m _) as [r sh]. cbn [fst snd] in *. subst sh.
  eexists. split; [reflexivity|]. by split.
Qed.

Lemma flag_from f : exists s2, on_gw (recovery_flag env f) s1 = (Ok (f (sh_recovery (g_shared (mc_gw s)))), s2) /\ went s s2 D sent log.
Proof. apply local_from. done. Qed.
End from.

(** The switches let orders pass. *)
Record running (cx : controls) (s : mc) : Prop := {
  rn_kill_switch : Recovery.kill_switch (sh_recovery (g_shared (mc_gw s))) = true;
  rn_available : Recovery.kill_switch_unavailable (sh_recovery (g_shared (mc_gw s))) = false;
  rn_active : fst (KillSwitch.is_engaged (sh_kill (g_shared (mc_gw s)))) = Ok false;
  rn_redis : mx_redis cx = true;
  rn_breaker : breaker_text s <> "" /\ breaker_text s <> "TRIPPED"
}.

Lemma kill_switch_from {s s1 D sent log} cx user action reason : went s s1 D sent log -> running cx s -> exists s2,
  _check_kill_switch env user action reason s1 = (Ok tt, s2) /\ went s s2 D sent log.
Proof.
  intros W [H1 H2 H3 _ _]. unfold _check_kill_switch. rewrite M_bind_run. destruct (flag_from W Recovery.kill_switch) as (s2 & E & W2). rewrite E, M_bind_run.
  destruct (flag_from W2 Recovery.kill_switch_unavailable) as (s3 & E3 & W3). rewrite E3, H1, H2. cbn [negb orb]. rewrite M_bind_run.
  destruct (read_from W3 (in_kill KillSwitch.is_engaged)) as (s4 & E4 & W4); [intros sh; by rewrite in_kill_read|].
  rewrite E4, in_kill_read. cbn [fst set_db sh_kill]. rewrite H3. exists s4. by split.
Qed.

Lemma breaker_check_from {s s1 D sent log} cx user action reason : went s s1 D sent log -> running cx s -> exists s2,
  _check_circuit_breaker env cx user action reason s1 = (Ok tt, s2) /\ went s s2 D sent log.
Proof.
  intros W [_ _ _ H4 [H5 H6]]. unfold _check_circuit_breaker. rewrite H4. cbn [negb]. rewrite M_bind_run. unfold try_except.
  destruct (breaker_from env Hq W) as (s2 & E & W2). rewrite E, !bool_decide_false by done. exists s2. by split.
Qed.

Lemma fat_finger_from {s s1 D sent log} cx json_loads user id reason r : went s s1 D sent log ->
  checks_pass (mx_app cx) r (g_shared (mc_gw s)) -> exists s2,
  manual_fat_finger env cx json_loads user id reason r s1 = (Ok tt, s2) /\ went s s2 D sent log.
Proof.
  intros W (Ha & Hn & res & Hv & Hb). unfold manual_fat_finger. rewrite M_bind_run.
  destruct (local_from W (reads sh_fat_finger)) as (s2 & E & W2); [done|]. rewrite E. cbn [fst reads set_db sh_fat_finger]. cbv zeta.
  set (app' := {| has_redis := has_redis (mx_app cx); has_alpaca := has_alpaca (mx_app cx); cfg_dry_run := cfg_dry_run (mx_app cx);
    cfg_strategy_id := cfg_strategy_id (mx_app cx); cfg_max_position_size := cfg_max_position_size (mx_app cx);
    cfg_max_price_age_seconds := mx_max_price_age cx; liquidity_service := liquidity_service (mx_app cx) |}).
  rewrite M_bind_run. unfold on_gw at 1. rewrite zoom_run.
  pose proof (context_run env app' json_loads r _ (mc_gw s2) Ha Hn) as Hc. unfold app' in Hc. cbn [has_redis liquidity_service cfg_max_price_age_seconds] in Hc.
  rewrite Hc. cbn [fst snd].
  rewrite M_bind_run. unfold lift. rewrite Hv, Hb. eexists. split; [reflexivity|]. destruct W2 as [K1 K2 K3 K4]. by split.
Qed.

(** A whole number of shares, to be sent at once, with every switch and check in its favour. *)
Record instant_order (cx : controls) (user : AuthenticatedUser) (request : ManualOrderRequest) (r : OrderRequest) (s : mc) : Prop := {
  io_limit : within_limit env cx user "manual_order" s;
  io_whole : integral (mo_qty request) = true /\ (0 < dval (mo_qty request))%Q;
  io_request : forall t, mk_order_request t (raw_order request (dint (mo_qty request))) = Ok r;
  io_instant : req_execution_style r <> "twap";
  io_executor : mx_executor cx = true;
  io_running : running cx s;
  io_checks : checks_pass (mx_app cx) r (g_shared (mc_gw s));
  io_build : forall id, exists q, _build_alpaca_request r id = Ok q
}.

Section submission.
Context (cx : controls) (json_loads : string -> option price_data) (sample : Z -> Z -> Z -> list Z)
  (user : AuthenticatedUser) (request : ManualOrderRequest) (r : OrderRequest).

Definition manual_id (t : Z) : string :=
  _generate_manual_order_id t "manual_trade" (req_symbol r) (req_side r) (dint (mo_qty request)) (user_id user)
    (Some (mo_order_type request)) (mo_limit_price request) (mo_stop_price request) (Some (mo_time_in_force request)).

Let reason : string := _sanitize_reason (mo_reason request).

(** The position limit only writes a log line. *)
Lemma position_limit_from {s s1 D sent log} symbol : went s s1 D sent log -> exists s2,
  log_position_limit env symbol s1 = (Ok tt, s2) /\ went s s2 D sent log.
Proof.
  intros W. unfold log_position_limit, try_except. rewrite M_bind_run.
  destruct (db_from env Hq W (fun _ => get_position_by_symbol symbol)) as (n & s2 & E & W2). rewrite E. exists s2. by split.
Qed.

Lemma submission_begin s : instant_order cx user request r s -> exists t s1, went s s1 (db_of s) [] [] /\
  submit_manual_order sample env cx json_loads user request s = _submit_live_manual_order env cx user (manual_id t) reason r s1.
Proof.
  intros [[s1 E] [Hi Hp] Hr Hs Hx Hrun Hc _]. pose proof (limit_passed env Hq _ _ _ _ _ E) as W. destruct (require_run _ Hi Hp) as [Eq _].
  unfold submit_manual_order, _ensure_permission_with_audit. cbn [negb has_permission].
  rewrite M_bind_run. change ((mret tt : M mc unit) s) with (@Ok unit tt, s). cbv beta iota. rewrite M_bind_run, E.
  unfold _require_non_empty_strategy_scope, _apply_strategy_scope. cbn [has_permission]. cbv zeta. fold reason. rewrite M_bind_run.
  change ((mret None : M mc (option (list string))) s1) with (@Ok (option (list string)) None, s1). cbv beta iota.
  rewrite M_bind_run. unfold lift. rewrite Eq. unfold order_request. rewrite M_bind_run, M_bind_run.
  destruct (clock_from env s1) as [t Et]. rewrite Et. unfold lift. rewrite Hr, M_bind_run, Et. fold (manual_id t). exists t.
  set (id := manual_id t). clearbody id.
  rewrite M_bind_run. destruct (kill_switch_from cx user "manual_order" reason W Hrun) as (s2 & E2 & W2). rewrite E2.
  rewrite M_bind_run. destruct (breaker_check_from cx user "manual_order" reason W2 Hrun) as (s3 & E3 & W3). rewrite E3.
  rewrite M_bind_run. destruct (fat_finger_from cx json_loads user id reason r W3 Hc) as (s4 & E4 & W4). rewrite E4.
  rewrite M_bind_run. destruct (position_limit_from (req_symbol r) W4) as (s5 & E5 & W5). rewrite E5.
  rewrite bool_decide_false by done. rewrite Hx. exists s5. by split.
Qed.

Section live.
Context (s : mc) (id : string).
Let D : db := db_of s.
Let pending (now : Z) : order_row := manual_row MANUAL_STRATEGY r "pending_new" (Some now) now.

(** The insertion, for an identifier that is taken and for a new one. *)
Lemma insert_again {s1} row : went s s1 D [] [] -> db_orders D !! id = Some row -> exists s2,
  insert_manual env id "pending_new" r s1 = (Ok (inr (from_row id row retry_text)), s2) /\ went s s2 D [] [].
Proof.
  intros W Hr. destruct (persist_again env Hq W r id MANUAL_STRATEGY row Hr) as (c & s2 & E & W2). unfold persist in E.
  unfold insert_manual, try_except. rewrite M_bind_run, E. cbn [is_integrity]. unfold _handle_idempotent_order_retry. rewrite !M_bind_run.
  destruct (db_from env Hq W2 (fun _ => get_order_by_client_id id)) as (n3 & s3 & E3 & W3). rewrite E3.
  cbn [fst snd get_order_by_client_id reads] in *. rewrite Hr. exists s3. by split.
Qed.

Lemma insert_fresh {s1} t raw : went s s1 D [] [] -> mk_order_request t raw = Ok r -> db_orders D !! id = None -> exists now s2,
  insert_manual env id "pending_new" r s1 = (Ok (inl (pending now)), s2) /\ went s s2 (set_orders (insert id (pending now)) D) [] [].
Proof.
  intros W Hm Hn. destruct (db_from env Hq W (fun now => create_order now id MANUAL_STRATEGY r "pending_new" None None)) as (now & s2 & E & W2).
  change (create_order now id MANUAL_STRATEGY r "pending_new" None None)
    with (transaction (insert_order id (manual_row MANUAL_STRATEGY r "pending_new" (Some now) now))) in E, W2.
  unfold transaction in E, W2. rewrite (insert_order_run id _ D Hn (manual_row_valid _ _ _ _ _ _ _ _ _ Hm)) in E, W2.
  unfold insert_manual, try_except. rewrite M_bind_run. exists now, s2. split; [|exact W2].
  change (create_order now id MANUAL_STRATEGY r "pending_new" None None)
    with (transaction (insert_order id (manual_row MANUAL_STRATEGY r "pending_new" (Some now) now))). rewrite E. done.
Qed.

(** The row of an order that failed. *)
Lemma failed_from {s1 D1 sent log} row why : went s s1 D1 sent log -> db_wf D1 -> db_orders D1 !! id = Some row -> exists now s2,
  mark_manual_failed env id why s1 = (Ok tt, s2) /\
  went s s2 (set_orders (insert id (with_status now "failed" (Some why) row)) D1) sent log.
Proof.
  intros W Hwf Hr. unfold mark_manual_failed, try_except, update_status. rewrite M_bind_run.
  destruct (db_from env Hq W (fun now => update_order_status now id "failed" None None None (Some why))) as (now & s2 & E & W2).
  destruct (update_status_run now id "failed" (Some why) D1 row Hwf Hr) as [Eu _]. rewrite Eu in E, W2. cbn [fst snd] in E, W2.
  rewrite E. exists now, s2. by split.
Qed.

(** The broker's status, recorded. *)
Lemma status_from {s1 D1 sent log} row o st : went s s1 D1 sent log -> od_status o = Some st -> db_orders D1 !! id = Some row ->
  order_valid (db_orders D1) id row = true -> broker_id_free (db_orders D1) (Some (od_id o)) -> exists now s2,
  record_status env id o s1 = ((if one_of st ORDER_STATUSES then Ok (st, Some (recorded_row now st (od_id o) row)) else Raise (ValueError "status")), s2) /\
  went s s2 (set_orders (insert id (recorded_row now st (od_id o) row)) D1) sent log.
Proof.
  intros W Hst Hr Hv Hf. unfold record_status. rewrite Hst, M_bind_run.
  destruct (db_from env Hq W (fun now => update_order_status now id st (Some (od_id o)) None None None)) as (now & s2 & E & W2).
  rewrite (recorded_run now id st (od_id o) D1 row Hr Hv Hf) in E, W2. cbn [fst snd] in E, W2. rewrite E. exists now, s2. split; [|exact W2].
  by destruct (one_of st ORDER_STATUSES).
Qed.
End live.

Lemma pending_db now id D t raw : mk_order_request t raw = Ok r -> db_wf D ->
  let row := manual_row MANUAL_STRATEGY r "pending_new" (Some now) now in let D1 := set_orders (insert id row) D in
  db_wf D1 /\ db_orders D1 !! id = Some row /\ order_valid (db_orders D1) id row = true /\
  forall b, broker_id_free (db_orders D) b -> broker_id_free (db_orders D1) b.
Proof.
  intros Hm Hwf row D1. split; [apply db_wf_set_orders; [exact Hwf|exact (manual_row_valid _ _ _ _ _ _ _ _ _ Hm)]|].
  split; [apply lookup_insert_eq|]. split; [exact (manual_row_valid _ _ _ _ _ _ _ _ _ Hm)|].
  intros b Hb id' r'. unfold D1, set_orders. cbn [db_orders]. destruct (decide (id' = id)) as [->|Hne].
  - rewrite lookup_insert_eq. intros [= <-]. by destruct b.
  - rewrite lookup_insert_ne by done. apply Hb.
Qed.

End submission.
End quiet.
