(* ===== verification/ManualExamples.v ===== *)
(** * An operator at work

    The gateway of the order examples, with an operator's rate limits and audit
    log, on which the theorems about the manual controls are applied. *)

From S2P Require Import Prelude PyDecimal PyText OrderStatus OrderSchema OrderId GatewayDb OrderCas FillOps RedisClient RateLimiter ReconMods.
From S2P Require Import Access Gateway PriceFeed SliceExec OrderGates OrderSubmit OrderOutcome OrderCancel OrderExamples ModifyOutcome ModifyExamples.
From S2P Require Import Calendar ManualText Listings Mfa ManualBase ManualCancel ManualPositions ManualPlace ManualMoves ManualAdjust ManualFlatten.
From S2P Require Import ManualOrders ManualSafety ManualRecords ManualOutcome.
From S2P Require KillSwitch Breaker FatFinger Recovery.
From Stdlib Require Import QArith Qabs.
Import Gateway.Accounts.
Open Scope Z_scope.

Definition ex_ann : AuthenticatedUser := {| user_id := "ann"; user_strategies := Some [Some "alpha"] |}.

Definition ex_controls : controls := {|
  mx_app := ex_app; mx_limiter := RateLimiter.ex_limiter; mx_redis := true; mx_executor := true; mx_dry_run := false;
  mx_scheduler := true; mx_max_price_age := 30 |}.

Definition ex_desk (g : gw) : mc := {| mc_gw := g; mc_audit := []; mc_limits := RateLimiter.ex_limits |}.

Lemma answered {A S} (x : result A * S) a : fst x = Ok a -> x = (Ok a, snd x).
Proof. destruct x as [r s]. by intros [= ->]. Qed.

Lemma ex_same_minute api n : minute_key (clock (ex_net api) n) = minute_key (clock (ex_net api) 0).
Proof.
  unfold minute_key. cbn [clock ex_net]. assert (E : forall k, (k <= 1000)%nat -> (100 + Z.of_nat k) / minute_us = 0).
  { intros k Hk. apply Z.div_small. unfold minute_us, second_us. lia. }
  rewrite !E by lia. reflexivity.
Qed.

(** The order "o1" is at the broker, as "b0". *)
Definition ex_waiting : mc := ex_desk (ex_at_broker ex_working false).

Lemma manual_cancel_outcome_witness :
  let s := ex_waiting in
  let out := cancel_order (ex_net ex_accepts) ex_controls ex_ann "o1" "the wrong size" s in
  let v := verdict_on ex_working (cancel_reply (broker_api (ex_net ex_accepts) (g_sent (mc_gw s) ++ cancel_requests ex_working))) in
  exists now log, went s (snd out) (marked "o1" ex_working now (v_row v) (db_of s)) (cancel_requests ex_working) log /\
    au_outcome <$> log = v_log v /\ tells (v_told v) (fst out) (fun a => cancel_order_id a = "o1").
Proof.
  eapply (manual_cancel_outcome (ex_net ex_accepts) (ex_net_quiet _) ex_controls ex_ann "o1" "the wrong size" _ ex_working ex_waiting).
  - apply ex_at_broker_wf.
  - vm_compute. reflexivity.
  - reflexivity.
  - apply (answered _ None). vm_compute. reflexivity.
Defined.

Definition ex_cancels (h : list broker_request) : broker_reply := NoContent.

Lemma ex_answering : answering (ex_net ex_cancels).
Proof. intros h b e. discriminate. Qed.

Lemma cancel_all_outcome_witness :
  let out := cancel_all_orders (ex_net ex_cancels) ex_controls ex_ann "AAPL" "earnings today" ex_waiting in
  g_sent (mc_gw (snd out)) = [Cancel "b0"] /\ exists a, fst out = Ok a /\ all_order_ids a = ["o1"].
Proof.
  destruct (cancel_all_outcome (ex_net ex_cancels) ex_controls ex_ann "AAPL" "earnings today" ex_waiting (ex_net_quiet _) (ex_at_broker_wf _)
    eq_refl ex_answering None (snd (admitted (ex_net ex_cancels) ex_controls ex_ann "cancel_order" "cancel_all_orders" "cancel_all" "symbol" "AAPL" ex_waiting)))
    as (H1 & _ & H2).
  - vm_compute. discriminate.
  - apply answered. vm_compute. reflexivity.
  - assert (E : found_orders "AAPL" (db_of ex_waiting) = [("o1", ex_working)]) by (vm_compute; reflexivity).
    rewrite E in H1, H2. split; [exact H1|]. destruct H2 as [[H2 _]|(_ & a & Ha & Hi & _)]; [vm_compute in H2; discriminate|].
    exists a. split; [exact Ha|]. rewrite Hi. vm_compute. reflexivity.
Defined.

(** A hundred and one orders. *)
Definition ex_many : list (string * order_row) := (fun i => ("m" +:+ str_int (Z.of_nat i), new_row ex_app (ex_new "m") 1)) <$> seq 0 101.

Definition ex_crowd : mc :=
  ex_desk {| g_shared := set_db (set_orders (fun _ => list_to_map ex_many) empty_db) (ex_sh false None); g_jobs := []; g_sent := []; g_calls := 0 |}.

Lemma ex_crowd_wf : db_wf (db_of ex_crowd).
Proof.
  split_and!; [|intros ? ? Hk; by destruct (lookup_empty_Some _ _ Hk)..].
  intros id r Hr. change ((list_to_map ex_many : gmap string order_row) !! id = Some r) in Hr. apply elem_of_list_to_map_2 in Hr. unfold ex_many in Hr. apply list_elem_of_fmap in Hr as (i & [= _ ->] & _).
  apply (manual_row_valid 0 (ex_new "m") (ex_new "m") _ id (cfg_strategy_id ex_app) "pending_new" (Some 1) 1). vm_compute. reflexivity.
Qed.

Lemma cancel_all_leaves_the_rest_witness :
  let out := cancel_all_orders (ex_net ex_cancels) ex_controls ex_ann "AAPL" "earnings today" ex_crowd in
  exists id row, (id, row) ∈ waiting "AAPL" (db_of ex_crowd) /\ db_orders (db_of (snd out)) !! id = Some row /\
    forall a, fst out = Ok a -> id ∉ all_order_ids a.
Proof.
  apply (cancel_all_leaves_the_rest (ex_net ex_cancels) ex_controls ex_ann "AAPL" "earnings today" ex_crowd (ex_net_quiet _) ex_crowd_wf
    eq_refl ex_answering None (snd (admitted (ex_net ex_cancels) ex_controls ex_ann "cancel_order" "cancel_all_orders" "cancel_all" "symbol" "AAPL" ex_crowd))).
  - apply Nat.ltb_lt. vm_compute. reflexivity.
  - apply answered. vm_compute. reflexivity.
Defined.

(** ** Positions *)

(** Forty shares of AAPL are held; one of MSFT is short. *)
Definition ex_held (qty : decimal) : position_row :=
  {| p_qty := qty; p_avg_entry_price := of_int 150; p_current_price := None; p_realized_pl := of_int 0; p_updated_at := 7; p_last_trade_at := Some 7 |}.

Definition ex_holding (breaker : Breaker.cb_store) : mc :=
  let sh := set_db (set_positions (fun _ => {[ "AAPL" := ex_held (of_int 40); "MSFT" := ex_held (of_int (-1)) ]}) empty_db) (ex_sh false None) in
  ex_desk {| g_shared := {| sh_db := sh_db sh; sh_kill := sh_kill sh; sh_breaker := breaker; sh_reserved := sh_reserved sh; sh_redis := sh_redis sh;
      sh_adv := sh_adv sh; sh_recovery := sh_recovery sh; sh_recon := sh_recon sh; sh_fat_finger := sh_fat_finger sh |};
    g_jobs := []; g_sent := []; g_calls := 0 |}.

Definition ex_closed : Breaker.cb_store := sh_breaker (ex_sh false None).

Definition ex_tripped : Breaker.cb_store := snd (Breaker.trip (fun _ _ => true) 50 50 "drawdown" None ex_closed).

Lemma ex_forty : holds (db_of (ex_holding ex_closed)) "AAPL" (of_int 40).
Proof. split; [by eexists|vm_compute; reflexivity..]. Qed.

Definition ex_close (qty : option decimal) : ClosePositionRequest := {| cp_reason := "taking profits"; cp_qty := qty |}.

Lemma ex_within api cx user action s : fst (_enforce_rate_limit api cx user action s) = Ok tt -> within_limit api cx user action s.
Proof. intros H. eexists. by apply answered. Qed.

Lemma ex_closable api : closable (ex_net api) ex_controls ex_ann "aapl" (ex_close (Some (of_int 15))) (of_int 40) (ex_holding ex_closed).
Proof.
  split; [reflexivity|apply ex_within; vm_compute; reflexivity|apply ex_forty|vm_compute; reflexivity|vm_compute; discriminate].
Qed.

Lemma ex_no_orders breaker id : db_orders (db_of (ex_holding breaker)) !! id = None.
Proof. apply lookup_empty. Qed.

Lemma close_position_outcome_witness :
  let out := close_position (ex_net ex_accepts) ex_controls ex_ann "aapl" (ex_close (Some (of_int 15))) (ex_holding ex_closed) in
  exists id n, fst out = Ok (close_answer id (of_int 15) false) /\ (1 <= n <= 3)%nat /\
    g_sent (mc_gw (snd out)) = replicate n (Submit (MarketOrderRequest "AAPL" 15 "sell" "day" id)).
Proof.
  destruct (close_position_outcome (ex_net ex_accepts) (ex_net_quiet _) ex_controls ex_ann "aapl" (ex_close (Some (of_int 15))) (of_int 40)
    (ex_holding ex_closed) (ex_closable _)) as (_ & _ & t & H).
  cbv zeta in H. rewrite ex_no_orders in H. destruct H as (now & n & Hn & Hs & _ & Ho). eexists _, n.
  assert (E : forall q, exists o, verdict (ex_net ex_accepts) [] q RETRIES = Ok o) by (intros q; eexists; reflexivity).
  change (g_sent (mc_gw (ex_holding ex_closed))) with (@nil broker_request) in *. edestruct E as [o Eo]. rewrite Eo in Ho.
  split; [exact Ho|]. split; [exact Hn|exact Hs].
Defined.

(** The broker refuses every order. *)
Definition ex_refuses (h : list broker_request) : broker_reply := ApiError (Some 403) "insufficient buying power".

Lemma failed_close_is_reported_as_closing_witness :
  let r := ex_close (Some (of_int 15)) in
  let out := close_position (ex_net ex_refuses) ex_controls ex_ann "aapl" r (ex_holding ex_closed) in
  let again := close_position (ex_net ex_refuses) ex_controls ex_ann "aapl" r (snd out) in
  fst out = Raise broker_failed /\ exists a, fst again = Ok a /\ cp_status a = "closing".
Proof.
  destruct (failed_close_is_reported_as_closing (ex_net ex_refuses) (ex_net_quiet _) ex_controls ex_ann "aapl" (ex_close (Some (of_int 15)))
    (of_int 40) (ex_holding ex_closed) (AlpacaRejectionError "Order rejected: insufficient buying power") (ex_same_minute _) (ex_closable _)) as (H1 & H2 & _).
  - apply ex_no_orders.
  - vm_compute. reflexivity.
  - apply ex_within. vm_compute. reflexivity.
  - split; [exact H1|]. eexists. split; [exact H2|reflexivity].
Defined.

Definition ex_adjust (target : Z) : AdjustPositionRequest :=
  {| aj_reason := "rebalancing"; aj_target_qty := of_int target; aj_order_type := "limit"; aj_limit_price := Some (of_int 150) |}.

Lemma ex_adjustable api target breaker : target = 60 \/ target = -10 ->
  adjustable (ex_net api) ex_controls ex_ann "aapl" (ex_adjust target) (of_int 40) (ex_holding breaker).
Proof.
  intros Ht. split.
  - apply ex_within. vm_compute. reflexivity.
  - by eexists.
  - split_and!; vm_compute; reflexivity.
  - destruct Ht as [->| ->]; vm_compute; reflexivity.
  - destruct Ht as [->| ->]; vm_compute; reflexivity.
  - destruct Ht as [->| ->]; vm_compute; reflexivity.
  - intros _. by eexists.
Qed.

Lemma ex_taken q : exists o, verdict (ex_net ex_accepts) [] q RETRIES = Ok o.
Proof. eexists. reflexivity. Qed.

Lemma adjustment_outcome_witness :
  let out := adjust_position (ex_net ex_accepts) ex_controls ex_ann "aapl" (ex_adjust 60) (ex_holding ex_closed) in
  exists id n, fst out = Ok (adjust_answer (ex_adjust 60) (of_int 40) id false) /\ (1 <= n <= 3)%nat /\
    g_sent (mc_gw (snd out)) = replicate n (Submit (LimitOrderRequest "AAPL" 20 "buy" "day" (of_int 150) id)).
Proof.
  destruct (adjustment_outcome (ex_net ex_accepts) (ex_net_quiet _) ex_controls ex_ann "aapl" (ex_adjust 60) (of_int 40)
    (ex_holding ex_closed) (ex_adjustable _ 60 _ (or_introl eq_refl))) as (_ & _ & t & H).
  - vm_compute. discriminate.
  - reflexivity.
  - right. split; [reflexivity|]. split; vm_compute; discriminate.
  - cbv zeta in H. rewrite ex_no_orders in H. destruct H as (now & n & q & Eq & Hn & Hs & _ & Ho). injection Eq as <-.
    change (g_sent (mc_gw (ex_holding ex_closed))) with (@nil broker_request) in *. edestruct ex_taken as [o Eo]. rewrite Eo in Ho.
    eexists _, n. split; [exact Ho|]. split; [exact Hn|exact Hs].
Defined.

Lemma tripped_breaker_blocks_increase_witness :
  let out := adjust_position (ex_net ex_accepts) ex_controls ex_ann "aapl" (ex_adjust 60) (ex_holding ex_tripped) in
  fst out = Raise breaker_tripped /\ g_sent (mc_gw (snd out)) = [].
Proof.
  destruct (tripped_breaker_blocks_increase (ex_net ex_accepts) (ex_net_quiet _) ex_controls ex_ann "aapl" (ex_adjust 60) (of_int 40)
    (ex_holding ex_tripped) (ex_adjustable _ 60 _ (or_introl eq_refl))) as (H1 & H2 & _).
  - vm_compute. discriminate.
  - reflexivity.
  - right. vm_compute. reflexivity.
  - vm_compute. discriminate.
  - split; [exact H1|exact H2].
Defined.

Lemma tripped_breaker_lets_reversal_through_witness :
  let out := adjust_position (ex_net ex_accepts) ex_controls ex_ann "aapl" (ex_adjust (-10)) (ex_holding ex_tripped) in
  exists id, Submit (LimitOrderRequest "AAPL" 50 "sell" "day" (of_int 150) id) ∈ g_sent (mc_gw (snd out)).
Proof.
  destruct (tripped_breaker_lets_reversal_through (ex_net ex_accepts) (ex_net_quiet _) ex_controls ex_ann "aapl" (ex_adjust (-10)) (of_int 40)
    (ex_holding ex_tripped) (ex_adjustable _ (-10) _ (or_intror eq_refl))) as (_ & _ & id & q & Eq & H).
  - reflexivity.
  - vm_compute. reflexivity.
  - vm_compute. reflexivity.
  - vm_compute. reflexivity.
  - vm_compute. reflexivity.
  - intros t. apply ex_no_orders.
  - injection Eq as <-. exists id. exact H.
Defined.

(** ** Flattening *)

Definition ex_flatten : FlattenAllRequest := {| fl_reason := "volatility before the close"; fl_id_token := "token" |}.

Definition ex_factor (token user : string) : TwoFaResult := (true, None, Some "otp").

Lemma ex_accepting : accepts (ex_net ex_accepts).
Proof. intros h. eexists. reflexivity. Qed.

Lemma ex_may_flatten s : open_positions (db_of s) <> [] ->
  fst (_enforce_rate_limit (ex_net ex_accepts) ex_controls ex_ann "flatten_all" s) = Ok tt ->
  may_flatten (ex_net ex_accepts) ex_ann ex_controls ex_factor ex_flatten s.
Proof. intros Ho Hl. split; [by apply ex_within|by eexists|reflexivity|exact Ho]. Qed.

(** One order sells forty shares of AAPL, the other buys the one of MSFT. *)
Lemma flatten_all_outcome_witness :
  let out := flatten_all_positions (ex_net ex_accepts) ex_controls ex_factor ex_ann ex_flatten (ex_holding ex_tripped) in
  exists id1 id2, g_sent (mc_gw (snd out)) = [Submit (MarketOrderRequest "AAPL" 40 "sell" "day" id1); Submit (MarketOrderRequest "MSFT" 1 "buy" "day" id2)].
Proof.
  assert (Ep : open_positions (db_of (ex_holding ex_tripped)) = [("AAPL", ex_held (of_int 40)); ("MSFT", ex_held (of_int (-1)))]) by (vm_compute; reflexivity).
  destruct (flatten_all_outcome (ex_net ex_accepts) ex_ann (ex_net_quiet _) ex_accepting (ex_same_minute _) ex_controls ex_factor ex_flatten
    (ex_holding ex_tripped)) as (_ & H & _).
  - apply ex_may_flatten; [by rewrite Ep|vm_compute; reflexivity].
  - rewrite Ep. repeat constructor.
  - rewrite Ep. apply (bool_decide_unpack _). vm_compute. exact I.
  - intros id _. apply ex_no_orders.
  - rewrite Ep in H. eexists _, _. exact H.
Defined.

(** Half a share of AAPL comes before MSFT. *)
Definition ex_half : mc :=
  let sh := set_db (set_positions (fun _ => {[ "AAPL" := ex_held (Dec 5 (-1)); "MSFT" := ex_held (of_int (-1)) ]}) empty_db) (ex_sh false None) in
  ex_desk {| g_shared := sh; g_jobs := []; g_sent := []; g_calls := 0 |}.

Lemma flatten_stops_at_fraction_witness :
  let out := flatten_all_positions (ex_net ex_accepts) ex_controls ex_factor ex_ann ex_flatten ex_half in
  fst out = Raise (ValueError "field type") /\ g_sent (mc_gw (snd out)) = [].
Proof.
  assert (Ep : open_positions (db_of ex_half) = [("AAPL", ex_held (Dec 5 (-1))); ("MSFT", ex_held (of_int (-1)))]) by (vm_compute; reflexivity).
  destruct (flatten_stops_at_fraction (ex_net ex_accepts) ex_ann (ex_net_quiet _) ex_accepting (ex_same_minute _) ex_controls ex_factor ex_flatten
    ex_half [] ("AAPL", ex_held (Dec 5 (-1))) [("MSFT", ex_held (of_int (-1)))]) as (H1 & H2 & _).
  - apply ex_may_flatten; [by rewrite Ep|vm_compute; reflexivity].
  - exact Ep.
  - constructor.
  - constructor.
  - intros id Hi. by apply elem_of_nil in Hi.
  - vm_compute. reflexivity.
  - vm_compute. reflexivity.
  - split; [exact H1|exact H2].
Defined.

(** ** Manual orders *)

Definition ex_manual : ManualOrderRequest := {|
  mo_symbol := "aapl"; mo_side := "buy"; mo_qty := of_int 10; mo_order_type := "market"; mo_time_in_force := "day"; mo_execution_style := "instant";
  mo_twap_duration_minutes := None; mo_twap_interval_seconds := None; mo_start_time := None; mo_limit_price := None; mo_stop_price := None;
  mo_reason := "hedging the book"; mo_requested_at := 50 |}.

Definition ex_bought : OrderRequest := raw_order ex_manual 10.

Definition ex_sample (seed n k : Z) : list Z := [].

Lemma halted_manual_orders_refused_witness :
  let out := submit_manual_order ex_sample (ex_net ex_accepts) ex_controls (fun _ => None) ex_ann ex_manual (ex_holding ex_tripped) in
  (forall a, fst out <> Ok a) /\ g_sent (mc_gw (snd out)) = [].
Proof.
  apply (halted_manual_orders_refused (ex_net ex_accepts) Tripped ex_sample ex_controls (fun _ => None) ex_ann ex_manual (ex_holding ex_tripped)).
  - intros n sh H. exact H.
  - vm_compute. reflexivity.
Defined.

Lemma sent_manual_orders_are_recorded_witness :
  let out := submit_manual_order ex_sample (ex_net ex_accepts) ex_controls (fun _ => None) ex_ann ex_manual (ex_holding ex_closed) in
  exists rs, g_sent (mc_gw (snd out)) = [] ++ rs /\ forall q, Submit q ∈ rs -> has_row (client_id_of q) (g_shared (mc_gw (snd out))).
Proof.
  destruct (sent_manual_orders_are_recorded (ex_net ex_accepts) ex_controls ex_sample (fun _ => None) ex_factor ex_ann "aapl"
    (ex_close None) (ex_adjust 60) ex_flatten ex_manual (ex_holding ex_closed)) as (_ & _ & _ & H).
  - intros id n sh Hr. exact Hr.
  - exact H.
Defined.

(** Nothing is held, and nothing was ordered. *)
Definition ex_bare : mc := ex_desk {| g_shared := set_db empty_db (ex_sh false None); g_jobs := []; g_sent := []; g_calls := 0 |}.

Lemma ex_instant api : instant_order (ex_net api) ex_controls ex_ann ex_manual ex_bought ex_bare.
Proof.
  split.
  - apply ex_within. vm_compute. reflexivity.
  - split; vm_compute; reflexivity.
  - intros t. vm_compute. reflexivity.
  - discriminate.
  - reflexivity.
  - split; [vm_compute; reflexivity..|reflexivity|split; vm_compute; discriminate].
  - split; [left; reflexivity|]. split; [left; reflexivity|]. eexists. split; vm_compute; reflexivity.
  - intros id. eexists. reflexivity.
Qed.

(** The broker answers with a status that [OrderDetail] does not list: the order is live and recorded, and the answer is an error. *)
Definition ex_held_back (h : list broker_request) : broker_reply :=
  OrderObject {| od_id := "b1"; od_client_order_id := None; od_status := Some "held" |}.


(** ** Listings and identifiers *)

Definition ex_any : pending_filter := {| pf_symbol := None; pf_strategy_ids := None; pf_parent_order_id := None |}.

Lemma pages_cover_witness : NoDup ((pages ex_any 30 "created_at" "desc" 4 (db_of ex_crowd)).*1).
Proof.
  apply (pages_cover ex_any 30 "created_at" "desc" 4 (db_of ex_crowd)); [reflexivity|]. intros total l. vm_compute. intros [= _ <-]. discriminate.
Defined.

Lemma manual_text_determines_witness : "AAPL" = "AAPL" /\ 15 = 15 /\ 100 / minute_us = 59000000 / minute_us.
Proof.
  destruct (manual_text_determines "close_position" "ann" "AAPL" "AAPL" "sell" "sell" 15 15 100 59000000 None None None None None None None None)
    as (H1 & _ & H2 & H3); [apply (bool_decide_unpack _); vm_compute; exact I..|vm_compute; reflexivity|].
  split; [exact H1|]. split; [exact H2|exact H3].
Defined.
