(* ===== verification/TwapSubmit.v ===== *)
(** * The TWAP endpoints (routes/slicing.py)

    A TWAP request is checked, planned and, when it is new, written with its
    slices and handed to the scheduler.  A request whose parent order is in the
    table is answered from the table. *)

From S2P Require Import Prelude PyDecimal PyText OrderStatus OrderSchema OrderId Twap GatewayDb OrderCas RedisClient PyDict.
From S2P Require Import Gateway PriceFeed SliceExec SliceRecovery OrderGates OrderSubmit OrderOutcome OrderExamples.
From S2P Require KillSwitch Recovery ReconState Liquidity.
From Stdlib Require SpecFloat.
Open Scope Z_scope.

(** ** The request *)

Record SlicingRequest := {
  sr_symbol : string;
  sr_side : string;
  sr_qty : Z;
  sr_duration_minutes : Z;
  sr_interval_seconds : Z;
  sr_order_type : string;
  sr_limit_price : option decimal;
  sr_stop_price : option decimal;
  sr_time_in_force : string;
  sr_trade_date : option date
}.

(** The validators, after the symbol was uppercased. *)
Definition slicing_request_ok (r : SlicingRequest) : bool :=
  bool_decide (upper (sr_symbol r) = sr_symbol r) && one_of (sr_side r) ["buy"; "sell"] && (0 <? sr_qty r) &&
  (0 <? sr_duration_minutes r) && (0 <? sr_interval_seconds r) &&
  one_of (sr_order_type r) ["market"; "limit"; "stop"; "stop_limit"] && one_of (sr_time_in_force r) ["day"; "gtc"; "ioc"; "fok"] &&
  price_positive (sr_limit_price r) && price_positive (sr_stop_price r) &&
  (num_slices_of (sr_duration_minutes r) (sr_interval_seconds r) <=? sr_qty r).

(** ** The share of the volume *)

(** Binary64, as Python's [float]: 53 bits, exponents up to 1024. *)
Definition float_of_int (n : Z) : SpecFloat.spec_float := SpecFloat.binary_normalize 53 1024 n 0 false.
Definition float_mul (x y : SpecFloat.spec_float) : SpecFloat.spec_float := SpecFloat.SFmul 53 1024 x y.

(** [int(x)]; an infinity raises OverflowError, an ArithmeticError that nothing here catches. *)
Definition int_of_float (x : SpecFloat.spec_float) : result Z :=
  match x with
  | SpecFloat.S754_zero _ => Ok 0
  | SpecFloat.S754_finite s m e =>
      let n := if 0 <=? e then Zpos m * 2 ^ e else Zpos m / 2 ^ (- e) in
      Ok (if s : bool then - n else n)
  | SpecFloat.S754_infinity _ => Raise (InternalError "cannot convert float infinity to integer")
  | SpecFloat.S754_nan => Raise (ValueError "cannot convert float NaN to integer")
  end.

(** The settings of the endpoint. *)
Record slicing := {
  sl_app : gateway;
  sl_scheduler : bool;
  sl_check : bool;
  sl_max_slice_pct_of_adv : SpecFloat.spec_float
}.

(** ** The gates *)

(** [_check_twap_prerequisites] *)
Definition _check_twap_prerequisites (env : environment) (cx : slicing) : M gw unit :=
  kill_switch ← recovery_flag env Recovery.kill_switch;
  if negb (sl_scheduler cx) then raise (HTTPException unavailable "TWAP order service unavailable (scheduler not initialized)") else
  is_unavailable ← recovery_flag env Recovery.kill_switch_unavailable;
  if is_unavailable || negb kill_switch then raise (HTTPException unavailable "Kill-switch unavailable") else
  engaged ← call env (fun _ => in_kill KillSwitch.is_engaged);
  if engaged : bool then
    _ ← call env (fun _ => in_kill KillSwitch.get_status);
    raise (HTTPException unavailable "Kill-switch engaged")
  else mret tt.

(** The startup gate: a forced start lets the request through. *)
Definition twap_reconciled (env : environment) (cx : slicing) : M gw unit :=
  recon ← local env (fun _ => reads sh_recon);
  if _is_reconciliation_ready (sl_app cx) recon then mret tt
  else match recon with
       | Some st => if ReconState.override_active st then mret tt
                    else raise (HTTPException unavailable "Reconciliation in progress - TWAP orders blocked")
       | None => raise (HTTPException unavailable "Reconciliation in progress - TWAP orders blocked")
       end.

(** Lines 630-646 *)
Definition twap_gates (env : environment) (cx : slicing) (symbol : string) : M gw unit :=
  _ ← _check_twap_prerequisites env cx;
  _ ← check_quarantine env (sl_app cx) symbol;
  twap_reconciled env cx.

(** The largest slice the liquidity allows: none when the check is off. *)
Definition slice_limit (env : environment) (cx : slicing) (symbol : string) : M gw (option Z * option Z) :=
  if negb (sl_check cx) then mret (None, None)
  else match liquidity_service (sl_app cx) with
       | None => raise (HTTPException unavailable "Liquidity service unavailable; please retry")
       | Some ls =>
           adv ← (fun s => local env (fun now => in_adv (Liquidity.get_adv ls now (bars_api env (g_calls s)) symbol)) s);
           match adv with
           | None => raise (HTTPException unavailable "Liquidity data unavailable (ADV lookup failed); please retry")
           | Some adv_20d =>
               computed ← lift (int_of_float (float_mul (float_of_int adv_20d) (sl_max_slice_pct_of_adv cx)));
               mret (Some adv_20d, Some (Z.max 1 computed))
           end
       end.

(** ** Plans from the table *)

(** [_convert_slices_to_details] *)
Fixpoint _convert_slices_to_details (slices : list OrderDetail) : result (list SliceDetail) :=
  match slices with
  | [] => Ok []
  | (id, row) :: rest =>
      match o_slice_num (o_links row), o_scheduled_time (o_links row) with
      | Some n, Some t =>
          l ← _convert_slices_to_details rest;
          Ok ({| sd_slice_num := n; sd_qty := o_qty (o_core row); sd_scheduled_time := t; sd_client_order_id := id;
                 sd_strategy_id := o_strategy_id (o_core row); sd_status := o_status (o_exec row) |} :: l)
      | _, _ => Raise (HTTPException 500 "Corrupt slice data found in database")
      end
  end.

(** The plan of a parent order that is there: its slices are those of the table. *)
Definition stored_plan (env : environment) (r : SlicingRequest) (parent_order_id parent_strategy_id : string) (interval_seconds : Z)
    : M gw SlicingPlan :=
  existing_slices ← call env (fun _ => in_db (get_slices_by_parent_id parent_order_id));
  slice_details ← lift (_convert_slices_to_details existing_slices);
  mret {| sp_parent_order_id := parent_order_id; sp_parent_strategy_id := parent_strategy_id; sp_symbol := sr_symbol r;
          sp_side := sr_side r; sp_total_qty := sr_qty r; sp_total_slices := Z.of_nat (length slice_details);
          sp_duration_minutes := sr_duration_minutes r; sp_interval_seconds := interval_seconds; sp_slices := slice_details |}.

Definition LEGACY_TWAP_INTERVAL_SECONDS : Z := 60.

(** The strategies older versions hashed, for an interval of a minute. *)
Definition fallback_strategies (r : SlicingRequest) : list string :=
  ["twap_parent_" +:+ str_int (sr_duration_minutes r) +:+ "m"; "twap_parent"].

Fixpoint find_legacy (env : environment) (r : SlicingRequest) (total_slices : Z) (trade_date : date) (strategies : list string)
    : M gw (option (string * string)) :=
  match strategies with
  | [] => mret None
  | strategy_id :: rest =>
      legacy_parent_id ← lift (reconstruct_order_params_hash (sr_symbol r) (sr_side r) (sr_qty r) (sr_limit_price r) (sr_stop_price r)
        (sr_order_type r) (sr_time_in_force r) strategy_id trade_date);
      legacy_parent ← call env (fun _ => in_db (get_order_by_client_id legacy_parent_id));
      match legacy_parent with
      | None => find_legacy env r total_slices trade_date rest
      | Some row =>
          if bool_decide (o_total_slices (o_links row) = Some total_slices)
          then mret (Some (legacy_parent_id, o_strategy_id (o_core row)))
          else find_legacy env r total_slices trade_date rest
      end
  end.

Definition _find_existing_twap_plan (env : environment) (r : SlicingRequest) (plan : SlicingPlan) (trade_date : date)
    : M gw (option SlicingPlan) :=
  existing_parent ← call env (fun _ => in_db (get_order_by_client_id (sp_parent_order_id plan)));
  found ← match existing_parent with
          | Some row => mret (Some (sp_parent_order_id plan, o_strategy_id (o_core row)))
          | None =>
              if negb (sr_interval_seconds r =? LEGACY_TWAP_INTERVAL_SECONDS) then mret None
              else find_legacy env r (sp_total_slices plan) trade_date (fallback_strategies r)
          end;
  match found with
  | None => mret None
  | Some (id, strategy) => p ← stored_plan env r id strategy (sp_interval_seconds plan); mret (Some p)
  end.

(** ** A new order *)

Definition part_request (r : SlicingRequest) (qty : Z) : OrderRequest := {|
  req_symbol := sr_symbol r; req_side := sr_side r; req_qty := qty; req_order_type := sr_order_type r;
  req_limit_price := sr_limit_price r; req_stop_price := sr_stop_price r; req_time_in_force := sr_time_in_force r;
  req_execution_style := "instant"; req_twap_duration_minutes := None; req_twap_interval_seconds := None;
  req_start_time := None; req_client_order_id := None |}.

Definition write_plan (now : Z) (r : SlicingRequest) (plan : SlicingPlan) (metadata : order_meta) : M db unit :=
  transaction (
    parent_order_request ← lift (mk_order_request now (part_request r (sr_qty r)));
    _ ← create_parent_order now (sp_parent_order_id plan) (sp_parent_strategy_id plan) parent_order_request
          (sp_total_slices plan) "pending_new" (Some metadata);
    for_each (fun _ d =>
      slice_order_request ← lift (mk_order_request now (part_request r (sd_qty d)));
      _ ← create_child_slice now (sd_client_order_id d) (sp_parent_order_id plan) (sd_slice_num d) (sd_strategy_id d)
            slice_order_request (sd_scheduled_time d) "pending_new";
      mret tt) tt (sp_slices plan)).

(** [None] when the order was written; the plan of a concurrent request otherwise. *)
Definition _create_twap_in_db (env : environment) (r : SlicingRequest) (plan : SlicingPlan) (metadata : order_meta)
    : M gw (option SlicingPlan) :=
  try_except (_ ← call env (fun now => in_db (write_plan now r plan metadata)); mret None)
    (fun e => if UniqueViolation e then Some (
        existing_parent ← call env (fun _ => in_db (get_order_by_client_id (sp_parent_order_id plan)));
        match existing_parent with
        | None => raise (HTTPException 500 "Database inconsistency: parent order not found after UniqueViolation")
        | Some row =>
            p ← stored_plan env r (sp_parent_order_id plan) (o_strategy_id (o_core row)) (sp_interval_seconds plan); mret (Some p)
        end) else None).

(** [(AttributeError, TypeError, ValueError)] *)
Definition scheduling_error (e : exn) : bool := match e with AttributeError _ | TypeError _ | ValueError _ => true | _ => false end.

(** A slice that is neither pending nor canceled. *)
Definition progressed (p : OrderDetail) : bool := negb (one_of (o_status (o_exec p.2)) ["pending_new"; "canceled"]).

(** What is written back when the scheduler refused; a failure of the database is only logged. *)
Definition compensate (env : environment) (parent_order_id : string) (e : exn) : M gw unit :=
  try_except
    (_ ← call env (fun now => in_db (cancel_pending_slices now parent_order_id));
     all_slices ← call env (fun _ => in_db (get_slices_by_parent_id parent_order_id));
     if existsb progressed all_slices then mret tt
     else _ ← call env (fun now => in_db (update_order_status now parent_order_id "canceled" None None None
                 (Some ("Scheduling failed: " +:+ str_exn e)))); mret tt)
    (fun e => match e with OperationalError _ | AttributeError _ | KeyError _ => Some (mret tt) | _ => None end).

Definition _schedule_slices_with_compensation (env : environment) (r : SlicingRequest) (plan : SlicingPlan) : M gw (list string) :=
  try_except
    (schedule_slices (sp_parent_order_id plan) (sp_slices plan) (sr_symbol r) (sr_side r) (sr_order_type r)
       (sr_limit_price r) (sr_stop_price r) (sr_time_in_force r))
    (fun e => if scheduling_error e then Some (_ ← compensate env (sp_parent_order_id plan) e; raise e) else None).

Section handler.
(** [random.Random(seed).sample(range(n), k)] and [json.dumps] of the liquidity constraints. *)
Context (sample : Z -> Z -> Z -> list Z) (constraints_json : bool -> option Z -> option Z -> Z -> string).

Definition slicing_args (r : SlicingRequest) (max_slice_qty : option Z) (trade_date : date) : PlanArgs := {|
  pa_symbol := sr_symbol r; pa_side := sr_side r; pa_qty := sr_qty r; pa_duration_minutes := sr_duration_minutes r;
  pa_order_type := sr_order_type r; pa_interval_seconds := sr_interval_seconds r; pa_max_slice_qty := max_slice_qty;
  pa_limit_price := sr_limit_price r; pa_stop_price := sr_stop_price r; pa_time_in_force := sr_time_in_force r;
  pa_trade_date := Some trade_date |}.

(** The [except] clauses of the endpoint. *)
Definition slicing_error (e : exn) : option exn :=
  match e with
  | ValueError m => Some (HTTPException 400 m)
  | OperationalError _ => Some (HTTPException 500 "TWAP order creation failed: database error")
  | AttributeError _ | TypeError _ | KeyError _ => Some (HTTPException 500 ("TWAP order creation failed: " +:+ str_exn e))
  | _ => None
  end.

(** The body of the [try]; [today] is the UTC date. *)
Definition plan_and_place (env : environment) (cx : slicing) (today : date) (r : SlicingRequest) : M gw SlicingPlan :=
  let trade_date := default today (sr_trade_date r) in
  limit ← slice_limit env cx (sr_symbol r);
  t ← read_clock env;
  let metadata := {| m_fills := None; m_total_realized_pl := None;
                     m_other := [("liquidity_constraints", constraints_json (sl_check cx) limit.1 limit.2 t)] |} in
  slicing_plan ← lift (Twap.plan sample (slicing_args r limit.2 trade_date) t today);
  existing_plan ← _find_existing_twap_plan env r slicing_plan trade_date;
  match existing_plan with
  | Some p => mret p
  | None =>
      concurrent_plan ← _create_twap_in_db env r slicing_plan metadata;
      match concurrent_plan with
      | Some p => mret p
      | None => _ ← _schedule_slices_with_compensation env r slicing_plan; mret slicing_plan
      end
  end.

Definition submit_sliced_order (env : environment) (cx : slicing) (today : date) (r : SlicingRequest) : M gw SlicingPlan :=
  _ ← twap_gates env cx (sr_symbol r);
  try_except (plan_and_place env cx today r) (fun e => raise <$> slicing_error e).
End handler.

(** ** Listing and cancelling slices *)

Definition listing_error (what : string) (e : exn) : option exn :=
  match e with
  | OperationalError _ => Some (HTTPException 500 (what +:+ ": database error"))
  | AttributeError _ | KeyError _ => Some (HTTPException 500 (what +:+ ": " +:+ str_exn e))
  | _ => None
  end.

Definition parent_not_found (parent_id : string) : exn := HTTPException 404 ("Parent order not found: " +:+ parent_id).

Definition get_slices_by_parent (env : environment) (parent_id : string) : M gw (list OrderDetail) :=
  try_except
    (slices ← call env (fun _ => in_db (get_slices_by_parent_id parent_id));
     match slices with
     | [] =>
         parent ← call env (fun _ => in_db (get_order_by_client_id parent_id));
         match parent with None => raise (parent_not_found parent_id) | Some _ => mret [] end
     | _ => mret slices
     end)
    (fun e => raise <$> listing_error "Failed to fetch slices" e).

Definition cancel_error (e : exn) : option exn :=
  match e with
  | OperationalError _ => Some (HTTPException 500 "Failed to cancel slices: database error")
  | AttributeError _ | RuntimeError _ => Some (HTTPException 500 ("Failed to cancel slices: " +:+ str_exn e))
  | _ => None
  end.

(** The jobs removed and the rows canceled. *)
Definition cancel_slices (env : environment) (cx : slicing) (parent_id : string) : M gw (nat * nat) :=
  if negb (sl_scheduler cx) then raise (HTTPException unavailable "Slice scheduler unavailable - cannot cancel slices")
  else
    parent ← call env (fun _ => in_db (get_order_by_client_id parent_id));
    match parent with
    | None => raise (parent_not_found parent_id)
    | Some _ => try_except (cancel_remaining_slices env parent_id) (fun e => raise <$> cancel_error e)
    end.

(** ** No new TWAP order can be placed *)

Section frozen.
Context (env : environment) (D : db) (jobs : list (string * slice_job)) (sent : list broker_request).
(** The other workers leave the database alone; anything may fail. *)
Hypothesis Hothers : forall n sh, sh_db (others env n sh) = sh_db sh.

Definition frozen (g : gw) : Prop := sh_db (g_shared g) = D /\ g_jobs g = jobs /\ g_sent g = sent.

(** A step on the shared state beside the database. *)
Definition beside {A} (m : M shared A) : Prop := forall sh, sh_db (snd (m sh)) = sh_db sh.

Lemma beside_zoom {S A} (part : shared -> S) put (m : M S A) : (forall x sh, sh_db (put x sh) = sh_db sh) -> beside (zoom part put m).
Proof. intros H sh. rewrite zoom_run. apply H. Qed.

Lemma frozen_call {A} (m : Z -> M shared A) : (forall n sh, sh_db sh = D -> sh_db (snd (m n sh)) = D) -> preserves frozen (call env m).
Proof.
  intros Hm g (H1 & H2 & H3). unfold call. pose proof (Hothers (g_calls g) (g_shared g)) as Ho. rewrite H1 in Ho.
  specialize (Hm (clock env (g_calls g)) _ Ho). destruct (fates env (g_calls g)); [destruct (m _ _)|..]; by split.
Qed.

Lemma frozen_local {A} (m : Z -> M shared A) : (forall n, beside (m n)) -> preserves frozen (local env m).
Proof.
  intros Hm g (H1 & H2 & H3). unfold local. pose proof (Hm (clock env (g_calls g)) (others env (g_calls g) (g_shared g))) as Hd.
  rewrite Hothers, H1 in Hd. destruct (m _ _). by split.
Qed.

Lemma frozen_flag f : preserves frozen (recovery_flag env f).
Proof. apply frozen_local. by intros n sh. Qed.

Lemma frozen_kill {A} (m : M KillSwitch.ks_store A) : preserves frozen (call env (fun _ => in_kill m)).
Proof. apply frozen_call. intros n sh H. unfold in_kill. rewrite beside_zoom; [exact H|by intros x []]. Qed.

Lemma frozen_db {A} (m : Z -> M db A) : (forall n, snd (m n D) = D) -> preserves frozen (call env (fun now => in_db (m now))).
Proof. intros Hm. apply frozen_call. intros n sh H. unfold in_db. rewrite zoom_run. cbn [snd set_db sh_db]. by rewrite H. Qed.

Lemma frozen_clock : preserves frozen (read_clock env).
Proof. by intros g. Qed.

(** What a lookup that answers has read. *)
Lemma lookup_frozen {A} (f : db -> A) : ensures frozen (call env (fun _ => in_db (reads f)))
  (fun r g => frozen g /\ forall a, r = Ok a -> a = f D).
Proof.
  intros g H. split; [by apply frozen_db|]. intros a. unfold call. destruct (fates env (g_calls g)); [|done|done].
  unfold in_db. rewrite zoom_run. cbn [fst reads]. destruct H as [H _]. rewrite Hothers, H. by intros [= <-].
Qed.

Ltac frozen_steps :=
  repeat lazymatch goal with
    | |- preserves _ (mret _) => apply preserves_ret
    | |- preserves _ (raise _) => apply preserves_raise
    | |- preserves _ (lift _) => apply preserves_lift
    | |- preserves _ (recovery_flag _ _) => apply frozen_flag
    | |- preserves _ (read_clock _) => apply frozen_clock
    | |- preserves _ (call _ (fun _ => in_kill _)) => apply frozen_kill
    | |- preserves _ (call _ (fun _ => in_db _)) => apply frozen_db; by intros
    | |- preserves _ (if ?b then _ else _) => destruct b
    | |- preserves _ (_ ≫= _) => apply preserves_bind; [|intros]
    end.

Lemma frozen_prerequisites cx : preserves frozen (_check_twap_prerequisites env cx).
Proof. unfold _check_twap_prerequisites. frozen_steps. Qed.

Lemma frozen_quarantine app symbol : preserves frozen (check_quarantine env app symbol).
Proof. apply frozen_local. intros n. apply beside_zoom. by intros x []. Qed.

Lemma frozen_reconciled cx : preserves frozen (twap_reconciled env cx).
Proof.
  unfold twap_reconciled. apply preserves_bind; [apply frozen_local; by intros n sh|intros [st|]]; [|frozen_steps].
  destruct (_is_reconciliation_ready _ _); frozen_steps.
Qed.

Lemma frozen_gates cx symbol : preserves frozen (twap_gates env cx symbol).
Proof.
  unfold twap_gates. apply preserves_bind; [apply frozen_prerequisites|intros _]. apply preserves_bind; [apply frozen_quarantine|intros _].
  apply frozen_reconciled.
Qed.

Lemma frozen_limit cx symbol : preserves frozen (slice_limit env cx symbol).
Proof.
  unfold slice_limit. destruct (negb _); [frozen_steps|]. destruct (liquidity_service _) as [ls|]; [|frozen_steps].
  apply preserves_bind; [|intros [adv|]; frozen_steps]. intros g H. apply frozen_local; [|exact H]. intros n. apply beside_zoom. by intros x [].
Qed.

(** The plan is made of rows that are in the table. *)
Definition from_table (p : SlicingPlan) : Prop :=
  is_Some (db_orders D !! sp_parent_order_id p) /\
  _convert_slices_to_details (merge_sort slice_le (select_orders (is_child_of (sp_parent_order_id p)) D)) = Ok (sp_slices p) /\
  sp_total_slices p = Z.of_nat (length (sp_slices p)).

Definition stored {A} (get : A -> option SlicingPlan) (r : result A) (g : gw) : Prop :=
  frozen g /\ forall a p, r = Ok a -> get a = Some p -> from_table p.

Lemma stored_lookup r id strategy interval : is_Some (db_orders D !! id) ->
  ensures frozen (stored_plan env r id strategy interval) (stored Some).
Proof.
  intros Hid. unfold stored_plan. apply (ensures_bind frozen (fun slices g => frozen g /\ slices = merge_sort slice_le (select_orders (is_child_of id) D))).
  - intros g H. destruct (lookup_frozen (fun D => merge_sort slice_le (select_orders (is_child_of id) D)) g H) as [H1 H2]. unfold get_slices_by_parent_id. destruct (fst _) as [a|e]; [by split; [|apply H2]|by split].
  - intros slices g [H ->]. rewrite M_bind_run. unfold lift. destruct (_convert_slices_to_details _) as [l|e] eqn:E; [|by split].
    split; [exact H|]. intros a p [= <-] [= <-]. by split_and!.
Qed.

Lemma stored_some r id strategy interval : is_Some (db_orders D !! id) ->
  ensures frozen (p ← stored_plan env r id strategy interval; mret (Some p)) (stored (fun x => x)).
Proof.
  intros Hid. apply (ensures_bind frozen (fun p g => frozen g /\ from_table p)).
  - intros g H. destruct (stored_lookup r id strategy interval Hid g H) as [H1 H2]. destruct (fst _) as [p|e]; [|by split].
    split; [exact H1|]. by apply (H2 p).
  - intros p g [H1 H2]. split; [exact H1|]. by intros a q [= <-] [= <-].
Qed.

Lemma find_legacy_frozen r total d l : ensures frozen (find_legacy env r total d l)
  (fun res g => frozen g /\ forall id st, res = Ok (Some (id, st)) -> is_Some (db_orders D !! id)).
Proof.
  induction l as [|x l IH]; cbn [find_legacy]; [by intros g H|]. intros g H. rewrite M_bind_run. unfold lift.
  destruct (reconstruct_order_params_hash _ _ _ _ _ _ _ _ _) as [id|e]; [|by split]. rewrite M_bind_run.
  pose proof (lookup_frozen (fun D => db_orders D !! id) g H) as [H1 H2]. unfold get_order_by_client_id.
  destruct (call _ _ g) as [[[row|]|e] g1]; cbn [fst snd] in *; [|by apply IH|by split].
  destruct (bool_decide _); [|by apply IH]. split; [exact H1|]. intros id' st [= <- _]. rewrite <- (H2 _ eq_refl). by eexists.
Qed.

Lemma find_existing_frozen r plan d : ensures frozen (_find_existing_twap_plan env r plan d) (stored (fun x => x)).
Proof.
  unfold _find_existing_twap_plan. apply (ensures_bind frozen (fun row g => frozen g /\ row = db_orders D !! sp_parent_order_id plan)).
  { intros g H. destruct (lookup_frozen (fun D => db_orders D !! sp_parent_order_id plan) g H) as [H1 H2]. unfold get_order_by_client_id.
    destruct (fst _) as [a|e]; [split; [exact H1|by apply H2]|by split]. }
  intros row. apply (ensures_bind _ (fun found g => frozen g /\ forall id st, found = Some (id, st) -> is_Some (db_orders D !! id))).
  - intros g [H Er]. destruct row as [row|]; [split; [exact H|]; intros id st [= <- _]; rewrite <- Er; by eexists|].
    destruct (negb _); [by split|]. destruct (find_legacy_frozen r (sp_total_slices plan) d (fallback_strategies r) g H) as [H1 H2].
    destruct (fst _) as [x|e]; [|by split]. split; [exact H1|]. intros id st ->. by eapply H2.
  - intros [[id st]|] g [H Hf]; [|by split; [exact H|intros a p [= <-]]].
    apply stored_some; [by eapply Hf|exact H].
Qed.

(** The transaction fails at the parent's row, and is rolled back. *)
Lemma write_plan_fails now r plan m D' : exists e, write_plan now r plan m D' = (Raise e, D') /\ UniqueViolation e = false.
Proof.
  unfold write_plan, transaction. rewrite M_bind_run. unfold lift. destruct (mk_order_request now (part_request r (sr_qty r))) as [q|e] eqn:E.
  - unfold create_parent_order, bind_params. cbn [Nat.eqb create_parent_order_placeholders create_parent_order_params].
    rewrite M_bind_run, M_bind_run. by eexists.
  - exists e. split; [done|]. revert E. unfold mk_order_request, validate_order_type_prices, validate_twap_constraints. cbv zeta.
    repeat (case_match; try (by intros [= <-])); cbn [mbind result_bind]; repeat (case_match; try (by intros [= <-])).
Qed.

Lemma create_frozen r plan m : ensures frozen (_create_twap_in_db env r plan m) (fun out g => stored (fun x => x) out g /\ out <> Ok None).
Proof.
  intros g H. unfold _create_twap_in_db, try_except. rewrite M_bind_run.
  assert (Hf : frozen (snd (call env (fun now => in_db (write_plan now r plan m)) g))).
  { apply frozen_db; [|exact H]. intros n. by destruct (write_plan_fails n r plan m D) as (e & -> & _). }
  assert (Hr : exists e, fst (call env (fun now => in_db (write_plan now r plan m)) g) = Raise e).
  { unfold call. destruct (fates env (g_calls g)) as [|e|e]; [|by exists e..]. unfold in_db. rewrite zoom_run. cbn [fst].
    destruct (write_plan_fails (clock env (g_calls g)) r plan m (sh_db (others env (g_calls g) (g_shared g)))) as (e & -> & _). by exists e. }
  destruct Hr as [e Hr]. destruct (call _ _ g) as [out g1]. cbn [fst snd] in *. subst out. destruct (UniqueViolation e); [|by split].
  rewrite M_bind_run. destruct (lookup_frozen (fun D => db_orders D !! sp_parent_order_id plan) g1 Hf) as [H1 H2]. unfold get_order_by_client_id.
  destruct (call _ _ g1) as [[[row|]|e1] g2]; cbn [fst snd] in *; [|by split..].
  split.
  - apply stored_some; [|exact H1]. rewrite <- (H2 _ eq_refl). by eexists.
  - rewrite M_bind_run. by destruct (stored_plan _ _ _ _ _ g2) as [[]].
Qed.

Context (sample : Z -> Z -> Z -> list Z) (constraints_json : bool -> option Z -> option Z -> Z -> string).

Lemma place_frozen cx today r : ensures frozen (plan_and_place sample constraints_json env cx today r) (stored Some).
Proof.
  unfold plan_and_place. apply ensures_step; [by intros e g H|apply frozen_limit|intros limit].
  apply ensures_step; [by intros e g H|apply frozen_clock|intros t]. apply ensures_step; [by intros e g H|apply preserves_lift|intros plan].
  apply (ensures_bind frozen (fun found g => frozen g /\ forall p, found = Some p -> from_table p)).
  { intros g H. destruct (find_existing_frozen r plan (default today (sr_trade_date r)) g H) as [H1 H2]. destruct (fst _) as [a|e]; [|by split].
    split; [exact H1|]. intros p ->. by eapply H2. }
  intros [p|].
  { intros g [H Hp]. split; [exact H|]. intros a q [= <-] [= <-]. by apply Hp. }
  apply (ensures_bind _ (fun found g => frozen g /\ exists p, found = Some p /\ from_table p)).
  - intros g [H _]. match goal with |- context [_create_twap_in_db env r plan ?m] => destruct (create_frozen r plan m g H) as [[H1 H2] H3];
      destruct (_create_twap_in_db env r plan m g) as [[[p|]|e] g1] end; cbn [fst snd] in *; [|done|by split]. split; [exact H1|]. exists p. split; [done|]. by eapply H2.
  - intros found g [H (p & -> & Hp)]. split; [exact H|]. by intros a q [= <-] [= <-].
Qed.
End frozen.

(** C35. While the statement for the parent order has the wrong number of placeholders, the endpoint places nothing: whatever
    fails, no row is written, no job is added and nothing is sent, and an answer is the plan of an order that was in the
    table before. *)
Theorem no_new_twap_orders env sample json cx today r s : (forall n sh, sh_db (others env n sh) = sh_db sh) ->
  let out := submit_sliced_order sample json env cx today r s in
  let D := sh_db (g_shared s) in
  sh_db (g_shared (snd out)) = D /\ g_jobs (snd out) = g_jobs s /\ g_sent (snd out) = g_sent s /\
  forall p, fst out = Ok p -> from_table D p.
Proof.
  intros Ho out D.
  assert (H : ensures (frozen D (g_jobs s) (g_sent s)) (submit_sliced_order sample json env cx today r) (stored D (g_jobs s) (g_sent s) Some)).
  { unfold submit_sliced_order. apply ensures_step; [by intros e g H|by apply frozen_gates|intros _].
    intros g Hg. destruct (place_frozen env D (g_jobs s) (g_sent s) Ho sample json cx today r g Hg) as [H1 H2]. unfold try_except.
    destruct (plan_and_place _ _ _ _ _ _ g) as [[p|e] g1]; cbn [fst snd] in *; [by split|]. destruct (slicing_error e); by split. }
  destruct (H s) as [(H1 & H2 & H3) H4]; [by split|]. split_and!; [exact H1|exact H2|exact H3|]. intros p E. by apply (H4 p p E).
Qed.

(** ** A repeated request *)

Lemma call_looks {A} env (f : db -> A) s : quiet env ->
  call env (fun _ => in_db (reads f)) s = (fst (reads f (sh_db (g_shared s))), after_call (g_shared s) s).
Proof. intros Hq. rewrite call_quiet by done. unfold in_db. rewrite zoom_run. cbn [fst snd reads]. f_equal. unfold after_call. by destruct (g_shared s). Qed.

(** Nobody interferes: a request whose parent order is in the table is answered with the slices of the table, each as it
    stands, and nothing changes. *)
Theorem repeated_twap_is_answered env sample json cx today r t plan row slices s s1 : quiet env ->
  twap_gates env cx (sr_symbol r) s = (Ok tt, s1) -> sl_check cx = false -> t = clock env (g_calls s1) ->
  Twap.plan sample (slicing_args r None (default today (sr_trade_date r))) t today = Ok plan ->
  let D := sh_db (g_shared s) in
  db_orders D !! sp_parent_order_id plan = Some row ->
  _convert_slices_to_details (merge_sort slice_le (select_orders (is_child_of (sp_parent_order_id plan)) D)) = Ok slices ->
  let out := submit_sliced_order sample json env cx today r s in
  fst out = Ok {| sp_parent_order_id := sp_parent_order_id plan; sp_parent_strategy_id := o_strategy_id (o_core row);
    sp_symbol := sr_symbol r; sp_side := sr_side r; sp_total_qty := sr_qty r; sp_total_slices := Z.of_nat (length slices);
    sp_duration_minutes := sr_duration_minutes r; sp_interval_seconds := sp_interval_seconds plan; sp_slices := slices |} /\
  sh_db (g_shared (snd out)) = D /\ g_jobs (snd out) = g_jobs s /\ g_sent (snd out) = g_sent s.
Proof.
  intros Hq Hg Hc -> Hp D Hr Hs out. pose proof Hq as [_ Ho].
  destruct (frozen_gates env D (g_jobs s) (g_sent s) (fun n sh => f_equal sh_db (Ho n sh)) cx (sr_symbol r) s) as (H1 & H2 & H3); [by split|].
  rewrite Hg in H1, H2, H3. cbn [snd] in H1, H2, H3.
  unfold out, submit_sliced_order. rewrite M_bind_run, Hg. unfold try_except, plan_and_place. rewrite M_bind_run. unfold slice_limit. rewrite Hc.
  cbn [negb]. change ((mret (None, None) : M gw (option Z * option Z)) s1) with (@Ok (option Z * option Z) (None, None), s1). cbv beta iota.
  rewrite M_bind_run. unfold read_clock. rewrite M_bind_run. unfold lift. cbn [snd]. rewrite Hp. rewrite M_bind_run. unfold _find_existing_twap_plan.
  unfold get_order_by_client_id. rewrite M_bind_run, (call_looks env _ s1 Hq). cbn [fst reads]. rewrite H1, Hr. set (s2 := after_call _ _).
  assert (Hd : sh_db (g_shared s2) = D) by exact H1. rewrite M_bind_run.
  change ((mret (Some (sp_parent_order_id plan, o_strategy_id (o_core row))) : M gw _) s2)
    with (@Ok (option (string * string)) (Some (sp_parent_order_id plan, o_strategy_id (o_core row))), s2). cbv beta iota.
  rewrite M_bind_run. unfold stored_plan, get_slices_by_parent_id. rewrite M_bind_run, (call_looks env _ s2 Hq). cbn [fst reads]. rewrite Hd.
  rewrite M_bind_run. unfold lift. rewrite Hs. unfold mret, M_ret. cbn [fst snd].
  split; [reflexivity|]. split; [exact Hd|]. split; [exact H2|exact H3].
Qed.

(** ** What stops a TWAP request *)

Inductive stop := SwitchLost | SwitchMissing | SwitchOn.

Definition twap_stopped (c : stop) (sh : shared) : Prop :=
  match c with
  | SwitchLost => Recovery.kill_switch_unavailable (sh_recovery sh) = true
  | SwitchMissing => Recovery.kill_switch (sh_recovery sh) = false
  | SwitchOn => fst (KillSwitch.is_engaged (sh_kill sh)) <> Ok false
  end.

Lemma flag_reads env f s : recovery_flag env f s
  = (Ok (f (sh_recovery (others env (g_calls s) (g_shared s)))), after_call (others env (g_calls s) (g_shared s)) s).
Proof. done. Qed.

Lemma stopped_prerequisites env c cx s : stable env (twap_stopped c) -> twap_stopped c (g_shared s) ->
  forall a, fst (_check_twap_prerequisites env cx s) <> Ok a.
Proof.
  intros Hs H a. unfold _check_twap_prerequisites. rewrite M_bind_run, flag_reads. pose proof (Hs (g_calls s) _ H) as H1.
  set (sh1 := others env (g_calls s) (g_shared s)) in *. set (s1 := after_call sh1 s). destruct (negb (sl_scheduler cx)); [done|].
  rewrite M_bind_run, flag_reads. pose proof (Hs (g_calls s1) _ H1) as H2. change (g_shared s1) with sh1.
  set (sh2 := others env (g_calls s1) sh1) in *. set (s2 := after_call sh2 s1).
  destruct (Recovery.kill_switch_unavailable (sh_recovery sh2) || _) eqn:Eb; [done|]. apply orb_false_elim in Eb as [E1 E2]. apply negb_false_iff in E2.
  pose proof (Hs (g_calls s2) _ H2) as H3. assert (Hc : c = SwitchOn) by (destruct c; simpl in *; congruence). rewrite Hc in H3. simpl in H3.
  rewrite M_bind_run. destruct (call env (fun _ => in_kill KillSwitch.is_engaged) s2) as [[[|]|e] s3] eqn:Ek; [|exfalso|done].
  - rewrite M_bind_run. by destruct (call _ _ s3) as [[] ?].
  - revert Ek. unfold call. change (g_shared s2) with sh2. destruct (fates env (g_calls s2)); [|done|done]. unfold in_kill. rewrite zoom_run.
    intros [= Ek _]. by apply H3.
Qed.

(** With the kill switch engaged, lost or missing no TWAP request is taken, whatever fails meanwhile. *)
Theorem stopped_twap_refused env c sample json cx today r s : stable env (twap_stopped c) -> twap_stopped c (g_shared s) ->
  forall p, fst (submit_sliced_order sample json env cx today r s) <> Ok p.
Proof.
  intros Hs H p. unfold submit_sliced_order, twap_gates. rewrite !M_bind_run. pose proof (stopped_prerequisites env c cx s Hs H tt) as Hp.
  destruct (_check_twap_prerequisites env cx s) as [[[]|e] s1]; [done|]. done.
Qed.

(** ** Cancellation *)

(** Nobody interferes: cancelling a parent order cancels its pending slices and no other row, and removes its jobs and no
    others; the answer counts both. *)
Theorem cancel_slices_outcome env cx parent row s : quiet env -> sl_scheduler cx = true ->
  let D := sh_db (g_shared s) in
  db_orders D !! parent = Some row ->
  let out := cancel_slices env cx parent s in
  let mine := fun p : string * slice_job => belongs_to parent p.1 = true in
  fst out = Ok (length (filter mine (g_jobs s)), length (select_orders (pending_child parent) D)) /\
  (forall id j, (id, j) ∈ g_jobs (snd out) <-> (id, j) ∈ g_jobs s /\ belongs_to parent id = false) /\
  select_orders (pending_child parent) (sh_db (g_shared (snd out))) = [] /\
  forall id r, db_orders D !! id = Some r -> pending_child parent r = false -> db_orders (sh_db (g_shared (snd out))) !! id = Some r.
Proof.
  intros Hq Hx D Hr out mine. unfold out, cancel_slices. rewrite Hx. cbn [negb]. rewrite M_bind_run. unfold get_order_by_client_id.
  rewrite (call_looks env _ s Hq). cbn [fst reads]. fold D. rewrite Hr. set (s1 := after_call _ s). unfold cancel_remaining_slices.
  destruct (cancel_pending_slices_effect (clock env (g_calls s1)) parent D) as (n & D' & E & -> & H1 & H2 & _).
  assert (Ec : call env (fun now => in_db (cancel_pending_slices now parent)) s1
    = (Ok (length (select_orders (pending_child parent) D)), after_call (set_db D' (g_shared s1)) s1)).
  { rewrite call_quiet by done. unfold in_db. rewrite zoom_run. change (sh_db (g_shared s1)) with D. by rewrite E. }
  unfold try_except. rewrite M_bind_run, Ec, M_bind_run. unfold remove_jobs, mret, M_ret. cbn [fst snd].
  split; [reflexivity|]. split; [|split; [exact H1|exact H2]]. intros id j. cbn [g_jobs set_jobs after_call]. rewrite list_elem_of_filter. naive_solver.
Qed.

(** ** A TWAP order on the gateway of the examples *)

Definition ex_slicing : slicing := {|
  sl_app := ex_app; sl_scheduler := true; sl_check := false; sl_max_slice_pct_of_adv := float_of_int 1 |}.

Definition ex_twap : SlicingRequest := {|
  sr_symbol := "AAPL"; sr_side := "buy"; sr_qty := 10; sr_duration_minutes := 5; sr_interval_seconds := 60; sr_order_type := "market";
  sr_limit_price := None; sr_stop_price := None; sr_time_in_force := "day"; sr_trade_date := None |}.

(** Every gate is open and nothing fails: the order stops at the statement for its parent, and leaves nothing behind. *)
Lemma no_new_twap_orders_witness :
  let out := submit_sliced_order (fun _ _ _ => []) (fun _ _ _ _ => "{}") (ex_net ex_accepts) ex_slicing ex_today ex_twap (ex_state false None) in
  (exists m, fst out = Raise (ProgrammingError m)) /\ sh_db (g_shared (snd out)) = sh_db (ex_sh false None) /\
  g_jobs (snd out) = [] /\ g_sent (snd out) = [].
Proof.
  destruct (no_new_twap_orders (ex_net ex_accepts) (fun _ _ _ => []) (fun _ _ _ _ => "{}") ex_slicing ex_today ex_twap (ex_state false None))
    as (H1 & H2 & H3 & _); [intros; reflexivity|].
  split; [|split; [exact H1|split; [exact H2|exact H3]]]. eexists. vm_compute. reflexivity.
Defined.
