(* ===== verification/TaxLots.v ===== *)
(** * Tax lots (libs/web_console_services/tax_lot_service.py, src/db/migrations/0019_create_tax_lots.sql)

    The tables of the tax reports and the service that edits lots.  A UUID is its text; quantities are stored with eight
    decimals and amounts with four, rounded half away from zero.  The JSON-like values an update carries are [value]. *)

From S2P Require Import Prelude PyDecimal PyText OrderSchema Access.
From S2P Require Nano.
From Stdlib Require Import QArith.
Open Scope Z_scope.

(** ** Columns *)

(** NUMERIC(18, s): at most eighteen digits, [s] of them decimals. *)
Definition numeric_coef (s : Z) (d : decimal) : Z :=
  if - s <=? dexp d then scaled d (- s) else on_abs (fun n => round_half_up n (- s - dexp d)) (coef d).

Definition numeric_18 (s : Z) (d : decimal) : result decimal :=
  let c := numeric_coef s d in
  if 10 ^ 18 <=? Z.abs c then Raise (ProgrammingError "numeric field overflow") else Ok (Dec c (- s)).

Definition numeric_qty : decimal -> result decimal := numeric_18 8.
Definition numeric_money : decimal -> result decimal := numeric_18 4.

(** VARCHAR(n): spaces beyond [n] characters are dropped, anything else is an error. *)
Definition varchar (n : nat) (s : string) : result string :=
  if forallb (fun c => is_char 32 c) (drop n (chars s)) then Ok (sprefix n s)
  else Raise (ProgrammingError "value too long for type character varying").

(** ** Tables *)

Record tax_lot := {
  l_user_id : string;
  l_symbol : string;
  l_quantity : decimal;
  l_cost_per_share : decimal;
  l_total_cost : decimal;
  l_acquired_at : Z;
  l_acquisition_type : string;
  l_remaining_quantity : decimal;
  l_closed_at : option Z;
  l_created_at : Z
}.

Record tax_disposition := {
  td_lot_id : string;
  td_quantity : decimal;
  td_cost_basis : decimal;
  td_proceeds_per_share : decimal;
  td_total_proceeds : decimal;
  td_disposed_at : Z;
  td_disposition_type : string;
  td_destination_order_id : option string;
  td_idempotency_key : string;
  td_realized_gain_loss : decimal;
  td_holding_period : string;
  td_wash_sale_disallowed : decimal
}.

Record wash_adjustment := {
  wa_matching_shares : decimal;
  wa_disallowed_loss : decimal;
  wa_holding_period_adjustment_days : Z
}.

(** Adjustments by disposition and replacement lot, the cost basis method by user. *)
Record tax_db := {
  tax_lots : gmap string tax_lot;
  tax_lot_dispositions : gmap string tax_disposition;
  tax_wash_sale_adjustments : gmap (string * string) wash_adjustment;
  tax_user_settings : gmap string string
}.

Definition set_lots (f : gmap string tax_lot -> gmap string tax_lot) (d : tax_db) : tax_db := {|
  tax_lots := f (tax_lots d); tax_lot_dispositions := tax_lot_dispositions d;
  tax_wash_sale_adjustments := tax_wash_sale_adjustments d; tax_user_settings := tax_user_settings d |}.

Definition set_dispositions (f : gmap string tax_disposition -> gmap string tax_disposition) (d : tax_db) : tax_db := {|
  tax_lots := tax_lots d; tax_lot_dispositions := f (tax_lot_dispositions d);
  tax_wash_sale_adjustments := tax_wash_sale_adjustments d; tax_user_settings := tax_user_settings d |}.

Definition set_adjustments (f : gmap (string * string) wash_adjustment -> gmap (string * string) wash_adjustment) (d : tax_db) : tax_db := {|
  tax_lots := tax_lots d; tax_lot_dispositions := tax_lot_dispositions d;
  tax_wash_sale_adjustments := f (tax_wash_sale_adjustments d); tax_user_settings := tax_user_settings d |}.

Definition set_settings (f : gmap string string -> gmap string string) (d : tax_db) : tax_db := {|
  tax_lots := tax_lots d; tax_lot_dispositions := tax_lot_dispositions d;
  tax_wash_sale_adjustments := tax_wash_sale_adjustments d; tax_user_settings := f (tax_user_settings d) |}.

Definition write {S} (f : S -> S) : M S unit := s ← get_state; put_state (f s).

(** ** Values *)

Inductive value :=
| VNone
| VDecimal (d : decimal)
| VText (s : string)
| VTime (t : Z).

Definition present {A} (v : option A) : bool := match v with Some _ => true | None => false end.

(** [x or y] on optional strings. *)
Definition str_or (x y : option string) : option string :=
  match x with Some s => if bool_decide (s = "") then y else Some s | None => y end.

Section service.
(** [Decimal(s)] of a text, [None] when it raises; [str] of a time is no number. *)
Context (parse : string -> option decimal).

Definition _to_decimal (v : value) : result decimal :=
  match v with
  | VDecimal d => Ok d
  | VNone => Ok dzero
  | VText s => match parse s with Some d => Ok d | None => Raise (ValueError ("Invalid decimal value: " +:+ s)) end
  | VTime _ => Raise (ValueError "Invalid decimal value: datetime")
  end.

(** ** What a reader sees *)

Record TaxLot := {
  tl_lot_id : string;
  tl_symbol : string;
  tl_quantity : decimal;
  tl_cost_basis : decimal;
  tl_acquisition_date : Z;
  tl_strategy_id : option string;
  tl_status : string;
  tl_remaining_quantity : decimal
}.

Definition _derive_status (row : tax_lot) : string :=
  match l_closed_at row with
  | Some _ => "closed"
  | None => if dleb (l_remaining_quantity row) dzero then "closed" else "open"
  end.

Definition _row_to_lot (strategy_override : option string) (status_override : value) (id : string) (row : tax_lot) : TaxLot := {|
  tl_lot_id := id; tl_symbol := l_symbol row; tl_quantity := l_quantity row; tl_cost_basis := l_total_cost row;
  tl_acquisition_date := l_acquired_at row;
  tl_strategy_id := match strategy_override with
                    | Some s => if one_of s ["None"; ""] then None else Some s
                    | None => None
                    end;
  tl_status := match status_override with VText s => lower (strip s) | _ => _derive_status row end;
  tl_remaining_quantity := l_remaining_quantity row |}.

(** ** Who asks *)

(** Every permission is granted (permissions.py). *)
Definition grants (user : option string) (permission : string) : bool := true.

Definition _require_permission (user : option string) (permission : string) : M tax_db unit :=
  if negb (grants user permission) then raise (PermissionError ("Permission " +:+ permission +:+ " required")) else mret tt.

(** The user whose lots an operation sees: [None] for everybody's. *)
Definition target_user (user user_id : option string) (all_users : bool) : option string :=
  if all_users then None else str_or user_id user.

Definition require_user (user : option string) (all_users : bool) (what : string) : M tax_db unit :=
  if negb all_users && negb (bool_decide (is_Some (str_or user None)))
  then raise (PermissionError ("User context required for " +:+ what)) else mret tt.

(** Another user's lots need the permission to manage. *)
Definition require_cross_user (user user_id : option string) (all_users : bool) : M tax_db unit :=
  if all_users || (bool_decide (is_Some (str_or user_id None)) && negb (bool_decide (user_id = user)))
  then _require_permission user "manage_tax_lots" else mret tt.

(** [user_id = %s], when there is a user. *)
Definition owned_by (target : option string) (l : tax_lot) : bool :=
  match target with Some u => bool_decide (l_user_id l = u) | None => true end.

Definition lookup_lot (target : option string) (id : string) (d : tax_db) : option tax_lot :=
  match tax_lots d !! id with Some l => if owned_by target l then Some l else None | None => None end.

(** ** Reading *)

Definition acquired_ge (p q : string * tax_lot) : Prop := l_acquired_at q.2 <= l_acquired_at p.2.
#[export] Instance acquired_ge_dec p q : Decision (acquired_ge p q).
Proof. unfold acquired_ge. apply _. Defined.

Definition listed (target : option string) (open_only : bool) (l : tax_lot) : bool :=
  owned_by target l && (negb open_only || (dltb dzero (l_remaining_quantity l) && bool_decide (l_closed_at l = None))).

Definition select_lots (p : tax_lot -> bool) (d : tax_db) : list (string * tax_lot) :=
  map_to_list (filter (fun kv : string * tax_lot => p kv.2 = true) (tax_lots d)).

Definition list_lots (user user_id : option string) (all_users open_only : bool) (limit : Z) : M tax_db (list TaxLot) :=
  _ ← _require_permission user "view_tax_lots";
  if negb ((1 <=? limit) && (limit <=? 500)) then raise (ValueError "limit must be between 1 and 500") else
  _ ← require_cross_user user user_id all_users;
  _ ← require_user user all_users "listing tax lots";
  rows ← reads (fun d => take (Z.to_nat limit)
    (merge_sort acquired_ge (select_lots (listed (target_user user user_id all_users) open_only) d)));
  mret ((fun r : string * tax_lot => _row_to_lot None VNone r.1 r.2) <$> rows).

Definition get_lot (user : option string) (lot_id : string) (user_id : option string) (all_users : bool) : M tax_db (option TaxLot) :=
  _ ← _require_permission user "view_tax_lots";
  _ ← require_cross_user user user_id all_users;
  _ ← require_user user all_users "fetching tax lots";
  row ← reads (lookup_lot (target_user user user_id all_users) lot_id);
  mret (_row_to_lot None VNone lot_id <$> row).

(** ** Creating *)

Definition status_of (s : string) : result string :=
  let n := lower (strip s) in
  if one_of n ["open"; "closed"] then Ok n else Raise (ValueError ("status must be 'open' or 'closed', got: " +:+ n)).

(** [cost / quantity if quantity else Decimal("0")] *)
Definition per_share (cost quantity : decimal) : result decimal :=
  if deqb quantity dzero then Ok dzero else ddiv cost quantity.

Definition insert_lot (id : string) (l : tax_lot) : M tax_db unit :=
  row ← lift (
    u ← varchar 255 (l_user_id l); y ← varchar 20 (l_symbol l); q ← numeric_qty (l_quantity l);
    c ← numeric_qty (l_cost_per_share l); t ← numeric_money (l_total_cost l); r ← numeric_qty (l_remaining_quantity l);
    Ok {| l_user_id := u; l_symbol := y; l_quantity := q; l_cost_per_share := c; l_total_cost := t;
          l_acquired_at := l_acquired_at l; l_acquisition_type := l_acquisition_type l; l_remaining_quantity := r;
          l_closed_at := l_closed_at l; l_created_at := l_created_at l |});
  d ← get_state;
  match tax_lots d !! id with
  | Some _ => raise (IntegrityError "tax_lots_pkey")
  | None => write (set_lots (insert id row))
  end.

(** [new_id] is the server's [gen_random_uuid()], [now] the time. *)
Definition create_lot (now : Z) (new_id : string) (user : option string) (symbol : string) (quantity cost_basis acquisition_date : value)
    (strategy_id status user_id : option string) : M tax_db TaxLot :=
  _ ← _require_permission user "manage_tax_lots";
  match acquisition_date with
  | VTime acquired =>
      match str_or user_id (str_or user None) with
      | None => raise (PermissionError "User context required for creating tax lots")
      | Some owner_id =>
          quantity_decimal ← lift (_to_decimal quantity);
          cost_basis_decimal ← lift (_to_decimal cost_basis);
          cost_per_share ← lift (per_share cost_basis_decimal quantity_decimal);
          status_normalized ← lift (status_of (default "open" (str_or status None)));
          let closed := bool_decide (status_normalized = "closed") in
          transaction (
            _ ← insert_lot new_id {|
              l_user_id := owner_id; l_symbol := symbol; l_quantity := quantity_decimal; l_cost_per_share := cost_per_share;
              l_total_cost := cost_basis_decimal; l_acquired_at := acquired; l_acquisition_type := "manual";
              l_remaining_quantity := if closed then dzero else quantity_decimal;
              l_closed_at := if closed then Some now else None; l_created_at := now |};
            row ← reads (fun d => tax_lots d !! new_id);
            match row with
            | None => raise (RuntimeError "Tax lot creation failed")
            | Some r => mret (_row_to_lot strategy_id (VText status_normalized) new_id r)
            end)
      end
  | _ => raise (ValueError "acquisition_date must be datetime")
  end.

(** ** Updating *)

(** The keys of [updates] that the service knows; [None] when the key is absent. *)
Record lot_updates := {
  u_symbol : option (option string);
  u_quantity : option value;
  u_cost_basis : option value;
  u_acquisition_date : option value;
  u_status : option value
}.

Definition no_updates (u : lot_updates) : bool :=
  match u_symbol u, u_quantity u, u_cost_basis u, u_acquisition_date u, u_status u with
  | None, None, None, None, None => true
  | _, _, _, _, _ => false
  end.

(** One [column = %s]. *)
Inductive set_clause :=
| SetSymbol (s : option string)
| SetQuantity (d : decimal)
| SetTotalCost (d : decimal)
| SetCostPerShare (d : decimal)
| SetAcquiredAt (t : Z)
| SetRemainingQuantity (d : decimal)
| SetClosedAt (t : option Z).

Definition apply_clause (l : tax_lot) (c : set_clause) : result tax_lot :=
  match c with
  | SetSymbol None => Raise (IntegrityError "tax_lots.symbol")
  | SetSymbol (Some s) => s ← varchar 20 s;
      Ok {| l_user_id := l_user_id l; l_symbol := s; l_quantity := l_quantity l; l_cost_per_share := l_cost_per_share l;
            l_total_cost := l_total_cost l; l_acquired_at := l_acquired_at l; l_acquisition_type := l_acquisition_type l;
            l_remaining_quantity := l_remaining_quantity l; l_closed_at := l_closed_at l; l_created_at := l_created_at l |}
  | SetQuantity q => q ← numeric_qty q;
      Ok {| l_user_id := l_user_id l; l_symbol := l_symbol l; l_quantity := q; l_cost_per_share := l_cost_per_share l;
            l_total_cost := l_total_cost l; l_acquired_at := l_acquired_at l; l_acquisition_type := l_acquisition_type l;
            l_remaining_quantity := l_remaining_quantity l; l_closed_at := l_closed_at l; l_created_at := l_created_at l |}
  | SetTotalCost t => t ← numeric_money t;
      Ok {| l_user_id := l_user_id l; l_symbol := l_symbol l; l_quantity := l_quantity l; l_cost_per_share := l_cost_per_share l;
            l_total_cost := t; l_acquired_at := l_acquired_at l; l_acquisition_type := l_acquisition_type l;
            l_remaining_quantity := l_remaining_quantity l; l_closed_at := l_closed_at l; l_created_at := l_created_at l |}
  | SetCostPerShare c => c ← numeric_qty c;
      Ok {| l_user_id := l_user_id l; l_symbol := l_symbol l; l_quantity := l_quantity l; l_cost_per_share := c;
            l_total_cost := l_total_cost l; l_acquired_at := l_acquired_at l; l_acquisition_type := l_acquisition_type l;
            l_remaining_quantity := l_remaining_quantity l; l_closed_at := l_closed_at l; l_created_at := l_created_at l |}
  | SetAcquiredAt t =>
      Ok {| l_user_id := l_user_id l; l_symbol := l_symbol l; l_quantity := l_quantity l; l_cost_per_share := l_cost_per_share l;
            l_total_cost := l_total_cost l; l_acquired_at := t; l_acquisition_type := l_acquisition_type l;
            l_remaining_quantity := l_remaining_quantity l; l_closed_at := l_closed_at l; l_created_at := l_created_at l |}
  | SetRemainingQuantity r => r ← numeric_qty r;
      Ok {| l_user_id := l_user_id l; l_symbol := l_symbol l; l_quantity := l_quantity l; l_cost_per_share := l_cost_per_share l;
            l_total_cost := l_total_cost l; l_acquired_at := l_acquired_at l; l_acquisition_type := l_acquisition_type l;
            l_remaining_quantity := r; l_closed_at := l_closed_at l; l_created_at := l_created_at l |}
  | SetClosedAt t =>
      Ok {| l_user_id := l_user_id l; l_symbol := l_symbol l; l_quantity := l_quantity l; l_cost_per_share := l_cost_per_share l;
            l_total_cost := l_total_cost l; l_acquired_at := l_acquired_at l; l_acquisition_type := l_acquisition_type l;
            l_remaining_quantity := l_remaining_quantity l; l_closed_at := t; l_created_at := l_created_at l |}
  end.

Fixpoint apply_clauses (l : tax_lot) (cs : list set_clause) : result tax_lot :=
  match cs with
  | [] => Ok l
  | c :: cs' => l' ← apply_clause l c; apply_clauses l' cs'
  end.

Definition value_or (v : option value) (d : decimal) : result decimal :=
  match v with Some v => _to_decimal v | None => Ok d end.

(** The status the update means and whether it gives one. *)
Definition new_status (u : lot_updates) (row : tax_lot) : result (string * bool) :=
  match u_status u with
  | Some (VText s) => n ← status_of s; Ok (n, true)
  | _ => Ok (_derive_status row, false)
  end.

(** The remaining quantity and the closing time the status means. *)
Definition by_status (now : Z) (row : tax_lot) (new_quantity : decimal) (status : string) (explicit : bool) : decimal * option Z :=
  if bool_decide (status = "closed") then (dzero, Some now)
  else if explicit
       then (if bool_decide (_derive_status row = "closed") then new_quantity else l_remaining_quantity row, None)
       else (l_remaining_quantity row, l_closed_at row).

(** The shares of the lot that are gone stay gone. *)
Definition remaining_after (row : tax_lot) (new_quantity : decimal) (status : string) (remaining : decimal) : result decimal :=
  let disposed := dsub (l_quantity row) (l_remaining_quantity row) in
  if dltb dzero disposed && dltb new_quantity disposed
  then Raise (ValueError ("Cannot reduce quantity below disposed shares (" +:+ str_decimal disposed +:+ "); would erase disposition history"))
  else Ok (if bool_decide (status = "closed") then remaining else dsub new_quantity disposed).

Definition given {A} (v : option A) (c : set_clause) : list set_clause := if present v then [c] else [].

(** The statement an update becomes. *)
Definition update_clauses (now : Z) (row : tax_lot) (u : lot_updates) : result (list set_clause) :=
  new_quantity ← value_or (u_quantity u) (l_quantity row);
  new_cost ← value_or (u_cost_basis u) (l_total_cost row);
  st ← new_status u row;
  let '(status, explicit) := st in
  let '(remaining, closed_at) := by_status now row new_quantity status explicit in
  remaining ← (if present (u_quantity u) then remaining_after row new_quantity status remaining else Ok remaining);
  cost ← (if present (u_quantity u) || present (u_cost_basis u)
          then c ← per_share new_cost new_quantity; Ok [SetCostPerShare c] else Ok []);
  acquired ← match u_acquisition_date u with
             | None => Ok []
             | Some (VTime t) => Ok [SetAcquiredAt t]
             | Some _ => Raise (ValueError "acquisition_date must be datetime")
             end;
  let set_clauses :=
    match u_symbol u with Some s => [SetSymbol s] | None => [] end ++
    given (u_quantity u) (SetQuantity new_quantity) ++ given (u_cost_basis u) (SetTotalCost new_cost) ++ cost ++ acquired ++
    (if explicit then [SetRemainingQuantity remaining; SetClosedAt closed_at] else given (u_quantity u) (SetRemainingQuantity remaining)) in
  match set_clauses with [] => Raise (ValueError "No valid fields provided for update") | _ => Ok set_clauses end.

Definition update_lot (now : Z) (user : option string) (lot_id : string) (updates : lot_updates) (user_id : option string) (all_users : bool)
    : M tax_db TaxLot :=
  _ ← _require_permission user "manage_tax_lots";
  _ ← require_user user all_users "updating tax lots";
  if no_updates updates then raise (ValueError "No valid fields provided for update") else
  let target := target_user user user_id all_users in
  transaction (
    found ← reads (lookup_lot target lot_id);
    match found with
    | None => raise (ValueError ("Tax lot " +:+ lot_id +:+ " not found"))
    | Some row =>
        clauses ← lift (update_clauses now row updates);
        updated ← lift (apply_clauses row clauses);
        _ ← write (set_lots (insert lot_id updated));
        mret (_row_to_lot None (default VNone (u_status updates)) lot_id updated)
    end).

(** ** Closing *)

Definition close_lot (now : Z) (user : option string) (lot_id : string) (user_id : option string) (all_users : bool)
    : M tax_db (option TaxLot) :=
  _ ← _require_permission user "manage_tax_lots";
  _ ← require_user user all_users "closing tax lots";
  transaction (
    found ← reads (lookup_lot (target_user user user_id all_users) lot_id);
    match found with
    | None => mret None
    | Some row =>
        updated ← lift (apply_clauses row [SetRemainingQuantity dzero; SetClosedAt (Some now)]);
        _ ← write (set_lots (insert lot_id updated));
        mret (Some (_row_to_lot None (VText "closed") lot_id updated))
    end).

(** ** The cost basis method *)

Definition VALID_COST_BASIS_METHODS : list string := ["fifo"; "lifo"; "specific_id"].

Definition get_cost_basis_method (user user_id : option string) : M tax_db string :=
  _ ← _require_permission user "view_tax_lots";
  match str_or user_id (str_or user None) with
  | None => mret "fifo"
  | Some target =>
      _ ← (if bool_decide (is_Some (str_or user_id None)) && negb (bool_decide (user_id = user))
           then _require_permission user "manage_tax_settings" else mret tt);
      row ← reads (fun d => tax_user_settings d !! target);
      mret match row with
           | Some m => if one_of m VALID_COST_BASIS_METHODS then m else "fifo"
           | None => "fifo"
           end
  end.

Definition set_cost_basis_method (user : option string) (method : string) (user_id : option string) : M tax_db unit :=
  _ ← _require_permission user "manage_tax_settings";
  let method_lower := lower (strip method) in
  if negb (one_of method_lower VALID_COST_BASIS_METHODS)
  then raise (ValueError ("Invalid cost basis method: " +:+ method +:+ ". Must be one of: fifo, lifo, specific_id")) else
  match str_or user_id (str_or user None) with
  | None => raise (PermissionError "User context required")
  | Some target =>
      transaction (u ← lift (varchar 255 target); write (set_settings (insert u method_lower)))
  end.
End service.

(** ** Rounding to a column *)

Lemma round_half_up_floor n k : 0 <= k -> round_half_up n k = (2 * n + 10 ^ k) / (2 * 10 ^ k).
Proof.
  intros Hk. unfold round_half_up. pose proof (pow10_pos k Hk) as Hp. set (p := 10 ^ k) in *. clearbody p.
  pose proof (Z.div_mod n p ltac:(lia)). pose proof (Z.mod_pos_bound n p Hp).
  destruct (Z.leb_spec p (2 * (n mod p))); apply (Z.div_unique_pos _ _ _ (2 * n + p - 2 * p * (n / p) - (if p <=? 2 * (n mod p) then 2 * p else 0)));
    destruct (Z.leb_spec p (2 * (n mod p))); lia.
Qed.

(** A column holds the number of units nearest to the value, whatever exponent the value is written with. *)
Lemma numeric_coef_fine s d e : e <= dexp d -> e <= - s -> 0 <= coef d ->
  numeric_coef s d = (2 * scaled d e + 10 ^ (- s - e)) / (2 * 10 ^ (- s - e)).
Proof.
  intros H1 H2 H3. unfold numeric_coef. pose proof (pow10_pos (- s - e) ltac:(lia)) as Hp.
  destruct (Z.leb_spec (- s) (dexp d)) as [H|H].
  - rewrite (Nano.scaled_shift d e (- s)) by lia. set (p := 10 ^ (- s - e)) in *. set (a := scaled d (- s)).
    apply (Z.div_unique_pos _ _ _ p); lia.
  - unfold on_abs. rewrite (Z.abs_eq (coef d)) by done. rewrite round_half_up_floor by lia. unfold scaled.
    pose proof (pow10_pos (dexp d - e) ltac:(lia)) as Hj. pose proof (pow10_pos (- s - dexp d) ltac:(lia)) as Hk.
    replace (- s - e) with ((- s - dexp d) + (dexp d - e)) by lia. rewrite pow10_split by lia.
    set (j := 10 ^ (dexp d - e)) in *. set (k := 10 ^ (- s - dexp d)) in *.
    replace (2 * (coef d * j) + k * j) with ((2 * coef d + k) * j) by ring. replace (2 * (k * j)) with (2 * k * j) by ring.
    rewrite Z.div_mul_cancel_r by lia. destruct (Z.eq_dec (coef d) 0) as [E|E]; [|rewrite Z.sgn_pos by lia; lia].
    rewrite E. simpl. symmetry. apply Z.div_small. lia.
Qed.

Lemma scaled_eq a b e : e <= dexp a -> e <= dexp b -> (dval a == dval b)%Q -> scaled a e = scaled b e.
Proof.
  intros Ha Hb H. rewrite (dval_scaled a e Ha), (dval_scaled b e Hb) in H.
  apply Qmult_inj_r in H; [by apply inject_Z_injective|]. pose proof (ten_pow_pos e) as P. intros E. rewrite E in P. by apply Qlt_irrefl in P.
Qed.

Lemma scaled_sign d e : e <= dexp d -> 0 <= coef d <-> 0 <= scaled d e.
Proof. intros H. unfold scaled. pose proof (pow10_pos (dexp d - e) ltac:(lia)). nia. Qed.

Lemma numeric_coef_value s a b : 0 <= coef a -> (dval a == dval b)%Q -> numeric_coef s a = numeric_coef s b.
Proof.
  intros Ha H. set (e := Z.min (Z.min (dexp a) (dexp b)) (- s)).
  assert (E : scaled a e = scaled b e) by (apply scaled_eq; [lia|lia|done]).
  rewrite (numeric_coef_fine s a e), (numeric_coef_fine s b e); [by rewrite E|lia|lia| |lia|lia|done].
  apply (scaled_sign b e); [lia|]. rewrite <- E. apply (scaled_sign a e); lia.
Qed.

(** Adding a stored number to a value shifts what the column holds by that number. *)
Lemma numeric_coef_add s x g : dexp g = - s -> 0 <= coef x -> 0 <= coef (num_add x g) ->
  numeric_coef s (num_add x g) = numeric_coef s x + coef g.
Proof.
  intros Hg Hx Hn. set (e := Z.min (dexp x) (dexp g)).
  rewrite (numeric_coef_fine s x e), (numeric_coef_fine s (num_add x g) e); [|unfold num_add; cbn [dexp]; lia|lia|done|lia|lia|done].
  assert (E : scaled (num_add x g) e = scaled x e + coef g * 10 ^ (- s - e)).
  { unfold num_add. fold e. unfold scaled at 1. cbn [coef dexp]. rewrite Z.sub_diag, Z.mul_1_r. unfold scaled at 2. by rewrite Hg. }
  rewrite E. pose proof (pow10_pos (- s - e) ltac:(lia)). rewrite <- Z.div_add by lia. f_equal. ring.
Qed.

Lemma numeric_coef_mono s a b : 0 <= coef a -> (dval a <= dval b)%Q -> numeric_coef s a <= numeric_coef s b.
Proof.
  intros Ha H. set (e := Z.min (Z.min (dexp a) (dexp b)) (- s)).
  assert (E : scaled a e <= scaled b e).
  { rewrite (dval_scaled a e), (dval_scaled b e) in H by lia. apply Qmult_le_r in H; [|apply ten_pow_pos]. by rewrite <- Zle_Qle in H. }
  assert (Hb : 0 <= coef b) by (apply (scaled_sign b e); [lia|]; pose proof (proj1 (scaled_sign a e ltac:(lia)) Ha); lia).
  rewrite (numeric_coef_fine s a e), (numeric_coef_fine s b e) by lia. pose proof (pow10_pos (- s - e) ltac:(lia)).
  apply Z.div_le_mono; lia.
Qed.

Lemma numeric_coef_nonneg s d : 0 <= coef d -> 0 <= numeric_coef s d.
Proof.
  intros H. rewrite (numeric_coef_fine s d (Z.min (dexp d) (- s))) by lia.
  pose proof (pow10_pos (- s - Z.min (dexp d) (- s)) ltac:(lia)). pose proof (proj1 (scaled_sign d (Z.min (dexp d) (- s)) ltac:(lia)) H).
  apply Z.div_pos; lia.
Qed.

Lemma numeric_coef_stored s d : dexp d = - s -> numeric_coef s d = coef d.
Proof. intros H. unfold numeric_coef, scaled. rewrite H, Z.leb_refl, Z.sub_diag. apply Z.mul_1_r. Qed.

Lemma numeric_18_stored s d r : numeric_18 s d = Ok r -> r = Dec (numeric_coef s d) (- s) /\ Z.abs (coef r) < 10 ^ 18.
Proof. unfold numeric_18. destruct (Z.leb_spec (10 ^ 18) (Z.abs (numeric_coef s d))); [done|]. intros [= <-]. split; [done|cbn [coef]; lia]. Qed.

Lemma numeric_18_ok s d : Z.abs (numeric_coef s d) < 10 ^ 18 -> numeric_18 s d = Ok (Dec (numeric_coef s d) (- s)).
Proof. unfold numeric_18. by destruct (Z.leb_spec (10 ^ 18) (Z.abs (numeric_coef s d))); [lia|]. Qed.

(** ** Lots stay well-formed *)

(** What every lot of the table satisfies: its shares left are some of its shares. *)
Definition lot_ok (l : tax_lot) : Prop :=
  dexp (l_quantity l) = -8 /\ dexp (l_remaining_quantity l) = -8 /\ dexp (l_total_cost l) = -4 /\
  0 <= coef (l_remaining_quantity l) <= coef (l_quantity l) /\ coef (l_quantity l) < 10 ^ 18.

Definition lots_ok (d : tax_db) : Prop := forall id l, tax_lots d !! id = Some l -> lot_ok l.

(** A quantity as a caller may give it: not negative, at most 28 digits. *)
Definition sane (d : decimal) : Prop := 0 <= coef d < 10 ^ 28.

Lemma dsub_stored e q r : dexp q = e -> dexp r = e -> Z.abs (coef q - coef r) < 10 ^ 28 -> dsub q r = Dec (coef q - coef r) e.
Proof.
  intros Hq Hr H. unfold dsub, dadd. assert (E : num_add q (dneg_exact r) = Dec (coef q - coef r) e).
  { unfold num_add, scaled, dneg_exact. cbn [coef dexp]. rewrite Hq, Hr, Z.min_id, Z.sub_diag. f_equal. change (10 ^ 0) with 1. ring. }
  rewrite E. by apply fix_prec_small.
Qed.

Lemma numeric_dsub q g Q : sane q -> dexp g = -8 -> 0 <= coef g -> dltb q g = false -> numeric_qty q = Ok Q ->
  0 <= coef (dsub q g) /\ numeric_coef 8 (dsub q g) = coef Q - coef g.
Proof.
  intros [Hq1 Hq2] Hg Hg0 Hlt HQ. apply numeric_18_stored in HQ as [-> HQ]. cbn [coef] in *.
  destruct (dltb_spec q g) as [|Hle]; [done|]. apply Qnot_lt_le in Hle.
  set (x := num_add q (dneg_exact g)). assert (Hx0 : 0 <= coef x).
  { unfold x, num_add, dneg_exact. cbn [coef dexp]. set (e := Z.min _ _). assert (Ee : e = Z.min (dexp q) (dexp g)) by done.
    rewrite (dval_scaled g e), (dval_scaled q e) in Hle by lia. apply Qmult_le_r in Hle; [|apply ten_pow_pos]. rewrite <- Zle_Qle in Hle.
    unfold scaled in *. cbn [coef dexp]. rewrite Z.mul_opp_l. lia. }
  assert (Hback : numeric_coef 8 q = numeric_coef 8 x + coef g).
  { assert (Hqv : (dval q == dval (num_add x g))%Q).
    { unfold x. rewrite num_add_val, num_add_val, dneg_exact_val. ring. }
    rewrite (numeric_coef_value 8 q (num_add x g) Hq1 Hqv). apply numeric_coef_add; [done|done|].
    unfold num_add. cbn [coef]. pose proof (proj1 (scaled_sign x (Z.min (dexp x) (dexp g)) ltac:(lia)) Hx0).
    pose proof (proj1 (scaled_sign g (Z.min (dexp x) (dexp g)) ltac:(lia)) Hg0). lia. }
  assert (Hx : coef x < 10 ^ 28).
  { destruct (Z.le_gt_cases (dexp q) (-8)) as [He|He].
    - assert (coef x <= coef q); [|lia]. unfold x, num_add, dneg_exact. cbn [coef dexp]. rewrite Hg, Z.min_l by lia.
      unfold scaled. cbn [coef dexp]. rewrite Z.sub_diag. pose proof (pow10_pos (-8 - dexp q) ltac:(lia)). change (10 ^ 0) with 1. nia.
    - unfold numeric_coef in HQ. destruct (Z.leb_spec (- (8)) (dexp q)) as [_|]; [|lia].
      unfold x, num_add, dneg_exact. cbn [coef dexp]. rewrite Hg, Z.min_r by lia. unfold scaled at 2. cbn [coef dexp]. rewrite Z.sub_diag.
      change (- (8)) with (-8) in HQ. lia. }
  unfold dsub, dadd. fold x. rewrite fix_prec_small by lia. split; [done|lia].
Qed.

(** What a statement leaves in the columns of shares and cost. *)
Definition qty_set (q : decimal) (c : set_clause) : decimal := match c with SetQuantity d => Dec (numeric_coef 8 d) (-8) | _ => q end.
Definition rem_set (r : decimal) (c : set_clause) : decimal := match c with SetRemainingQuantity d => Dec (numeric_coef 8 d) (-8) | _ => r end.
Definition cost_set (t : decimal) (c : set_clause) : decimal := match c with SetTotalCost d => Dec (numeric_coef 4 d) (-4) | _ => t end.

Definition fits (c : set_clause) : Prop :=
  match c with SetQuantity d | SetRemainingQuantity d => Z.abs (numeric_coef 8 d) < 10 ^ 18 | _ => True end.

Lemma apply_clause_columns l c l' : apply_clause l c = Ok l' ->
  fits c /\ l_quantity l' = qty_set (l_quantity l) c /\ l_remaining_quantity l' = rem_set (l_remaining_quantity l) c /\
  l_total_cost l' = cost_set (l_total_cost l) c /\ l_user_id l' = l_user_id l.
Proof.
  destruct c as [[s|]|d|d|d|t|d|t]; cbn [apply_clause fits qty_set rem_set cost_set]; try done.
  all: try (destruct (varchar 20 s); cbn; [by intros [= <-]|done]).
  all: try by intros [= <-].
  all: unfold numeric_qty, numeric_money; match goal with |- context [numeric_18 ?s ?x] => destruct (numeric_18 s x) eqn:E end;
    cbn [mbind result_bind]; [|done].
  all: apply numeric_18_stored in E as [-> E]; cbn [coef] in E; by intros [= <-].
Qed.

Lemma apply_clauses_columns cs : forall l l', apply_clauses l cs = Ok l' ->
  Forall fits cs /\ l_quantity l' = foldl qty_set (l_quantity l) cs /\ l_remaining_quantity l' = foldl rem_set (l_remaining_quantity l) cs /\
  l_total_cost l' = foldl cost_set (l_total_cost l) cs /\ l_user_id l' = l_user_id l.
Proof.
  induction cs as [|c cs IH]; intros l l'; cbn [apply_clauses foldl]; [by intros [= <-]|].
  destruct (apply_clause l c) as [l1|] eqn:E; [|done]. intros H. apply apply_clause_columns in E as (H1 & <- & <- & <- & <-).
  destruct (IH l1 l' H) as (H2 & H3). split; [by constructor|exact H3].
Qed.

(** The update gives a sane quantity or none. *)
Definition sane_update (parse : string -> option decimal) (u : lot_updates) : Prop :=
  forall v q, u_quantity u = Some v -> _to_decimal parse v = Ok q -> sane q.

Lemma disposed_stored row : lot_ok row ->
  dsub (l_quantity row) (l_remaining_quantity row) = Dec (coef (l_quantity row) - coef (l_remaining_quantity row)) (-8).
Proof. intros (H1 & H2 & _ & H3 & H4). apply dsub_stored; [done|done|lia]. Qed.

Lemma dltb_sign_stored c : dltb dzero (Dec c (-8)) = (0 <? c).
Proof.
  unfold dltb, dcmp, dzero, scaled. cbn [coef dexp]. change (Z.min 0 (-8)) with (-8). rewrite Z.mul_0_l. change (10 ^ (-8 - -8)) with 1.
  rewrite Z.mul_1_r. unfold Z.ltb. by destruct (0 ?= c).
Qed.

(** The shares left after a change of the quantity, in units of the column. *)
Lemma remaining_after_stored row q status remaining r : lot_ok row -> sane q -> Z.abs (numeric_coef 8 q) < 10 ^ 18 ->
  remaining_after row q status remaining = Ok r -> status <> "closed" ->
  numeric_coef 8 r = numeric_coef 8 q - (coef (l_quantity row) - coef (l_remaining_quantity row)) /\ 0 <= numeric_coef 8 r.
Proof.
  intros Hl Hq Hf H Hs. unfold remaining_after in H. rewrite (disposed_stored row Hl) in H. set (g := Dec _ (-8)) in H.
  destruct Hl as (_ & _ & _ & Hr & _). rewrite bool_decide_eq_false_2 in H by done.
  assert (Hg : 0 <= coef g) by (unfold g; cbn [coef]; lia).
  assert (Hlt : dltb q g = false).
  { destruct (dltb dzero g) eqn:E; [destruct (dltb q g); [done|done]|]. unfold g in E. rewrite dltb_sign_stored in E. apply Z.ltb_ge in E.
    destruct (dltb_spec q g) as [Hlt|]; [|done]. exfalso. apply (Qlt_not_le _ _ Hlt).
    assert (E0 : coef g = 0) by (unfold g in *; cbn [coef] in *; lia). unfold dval at 1. rewrite E0, Qmult_0_l.
    unfold dval. pose proof (ten_pow_pos (dexp q)). apply Qmult_le_0_compat; [|by apply Qlt_le_weak]. apply inject_Z_nonneg. apply Hq. }
  assert (Er : r = dsub q g) by (destruct (dltb dzero g && dltb q g); [done|congruence]). subst r.
  destruct (numeric_dsub q g (Dec (numeric_coef 8 q) (-8)) Hq eq_refl Hg Hlt) as [H1 H2]; [by apply numeric_18_ok|].
  split; [exact H2|by apply numeric_coef_nonneg].
Qed.

Lemma foldl_given {A B} (f : B -> set_clause -> B) b (v : option A) c : foldl f b (given v c) = if present v then f b c else b.
Proof. by destruct v. Qed.

Lemma stored_identity s d : dexp d = - s -> Dec (numeric_coef s d) (- s) = d.
Proof. intros H. rewrite numeric_coef_stored by done. destruct d as [c x]. cbn [coef dexp] in *. by subst. Qed.

(** The columns of shares and cost that an update leaves. *)
Lemma update_columns parse now row u cs l' : update_clauses parse now row u = Ok cs -> apply_clauses row cs = Ok l' ->
  exists q t status explicit remaining,
    value_or parse (u_quantity u) (l_quantity row) = Ok q /\ value_or parse (u_cost_basis u) (l_total_cost row) = Ok t /\
    new_status u row = Ok (status, explicit) /\
    (if present (u_quantity u) then remaining_after row q status (by_status now row q status explicit).1
     else Ok (by_status now row q status explicit).1) = Ok remaining /\
    (present (u_quantity u) = true -> Z.abs (numeric_coef 8 q) < 10 ^ 18) /\
    l_quantity l' = (if present (u_quantity u) then Dec (numeric_coef 8 q) (-8) else l_quantity row) /\
    l_total_cost l' = (if present (u_cost_basis u) then Dec (numeric_coef 4 t) (-4) else l_total_cost row) /\
    l_remaining_quantity l' = (if explicit || present (u_quantity u) then Dec (numeric_coef 8 remaining) (-8) else l_remaining_quantity row) /\
    l_user_id l' = l_user_id row.
Proof.
  unfold update_clauses. destruct (value_or parse (u_quantity u) (l_quantity row)) as [q|]; [|done]. cbn [mbind result_bind].
  destruct (value_or parse (u_cost_basis u) (l_total_cost row)) as [t|]; [|done]. cbn [mbind result_bind].
  destruct (new_status u row) as [[status explicit]|]; [|done]. cbn [mbind result_bind].
  destruct (by_status now row q status explicit) as [rem closed] eqn:Eb.
  destruct (if present (u_quantity u) then _ else _) as [remaining|] eqn:Er; [|done]. cbn [mbind result_bind].
  destruct (if present (u_quantity u) || _ then _ else _) as [cost|] eqn:Ec; [|done]. cbn [mbind result_bind].
  assert (Hcost : exists c, cost = [] \/ cost = [SetCostPerShare c]).
  { destruct (present (u_quantity u) || present (u_cost_basis u)); [|injection Ec as <-; exists dzero; by left].
    destruct (per_share t q) as [c|]; [|done]. injection Ec as <-. exists c. by right. }
  destruct (match u_acquisition_date u with None => _ | Some _ => _ end) as [acquired|] eqn:Ea; [|done]. cbn [mbind result_bind].
  assert (Hacq : exists t, acquired = [] \/ acquired = [SetAcquiredAt t]).
  { destruct (u_acquisition_date u) as [[| | |a]|]; try done; injection Ea as <-; [exists a; by right|exists 0; by left]. }
  match goal with |- context [match ?l with [] => _ | _ => _ end] => set (all := l) end. intros Hcs Ha.
  assert (Ecs : cs = all) by (clearbody all; destruct all; [done|by injection Hcs as <-]). subst cs.
  apply apply_clauses_columns in Ha as (Hf & -> & -> & -> & ->). exists q, t, status, explicit, remaining. split; [done|]. split; [done|].
  split; [done|]. rewrite Eb. cbn [fst]. split; [exact Er|]. clear Hcs Ec Ea Er. unfold all in *. clear all.
  destruct Hcost as [c [-> | ->]], Hacq as [a [-> | ->]]; destruct (u_symbol u) as [s|], (u_quantity u), (u_cost_basis u), explicit;
    cbn [present orb given app foldl qty_set rem_set cost_set] in *;
    (split; [intros HH; try done; rewrite !Forall_cons in Hf; cbn [fits] in Hf; tauto|]); done.
Qed.

Lemma update_keeps_ok parse now row u cs l' : sane_update parse u -> lot_ok row ->
  update_clauses parse now row u = Ok cs -> apply_clauses row cs = Ok l' -> lot_ok l'.
Proof.
  intros Hs Hl Hu Ha. destruct (update_columns parse now row u cs l' Hu Ha) as (q & t & status & explicit & rem & Eq & Et & Est & Er & Hf & E1 & E2 & E3 & _).
  pose proof Hl as (H1 & H2 & H3 & H4 & H5). unfold lot_ok. rewrite E1, E2, E3.
  assert (Hst : status <> "closed" -> bool_decide (status = "closed") = false) by (intros; by apply bool_decide_eq_false_2).
  destruct (u_quantity u) as [v|] eqn:Equ; cbn [present] in *.
  - rewrite orb_true_r. specialize (Hf eq_refl). assert (Hq : sane q) by (eapply Hs; [exact Equ|exact Eq]).
    cbn [dexp coef]. split; [done|]. split; [done|]. split; [by destruct (present (u_cost_basis u))|].
    pose proof (numeric_coef_nonneg 8 q (proj1 Hq)) as Hq0. destruct (decide (status = "closed")) as [->|Hne].
    + unfold remaining_after in Er. destruct (dltb dzero _ && _); [done|]. cbn in Er. injection Er as <-.
      change (numeric_coef 8 dzero) with 0. lia.
    + destruct (remaining_after_stored row q status _ rem Hl Hq Hf Er Hne) as [-> Hr]. lia.
  - injection Er as <-. injection Eq as <-. rewrite orb_false_r. split; [done|]. split; [by destruct explicit|].
    split; [by destruct (present (u_cost_basis u))|]. destruct explicit; [|done]. cbn [coef].
    unfold by_status. destruct (bool_decide (status = "closed")); cbn [fst]; [change (numeric_coef 8 dzero) with 0; lia|].
    destruct (bool_decide _); rewrite numeric_coef_stored by done; lia.
Qed.

Lemma preserves_write (P : tax_db -> Prop) f : (forall d, P d -> P (f d)) -> preserves P (write f).
Proof. intros H s Hs. by apply H. Qed.

Lemma lots_ok_insert id l d : lot_ok l -> lots_ok d -> lots_ok (set_lots (insert id l) d).
Proof.
  intros Hl Hd i x. cbn [tax_lots set_lots]. destruct (decide (i = id)) as [->|Hne].
  - rewrite lookup_insert_eq. by intros [= <-].
  - rewrite lookup_insert_ne by done. apply Hd.
Qed.

Lemma lookup_lot_found target id d l : lookup_lot target id d = Some l -> tax_lots d !! id = Some l /\ owned_by target l = true.
Proof. unfold lookup_lot. destruct (tax_lots d !! id) as [x|]; [|done]. destruct (owned_by target x) eqn:E; [|done]. by intros [= <-]. Qed.

Section service_ok.
Context (parse : string -> option decimal).

Lemma update_preserves now user id u user_id all_users : sane_update parse u ->
  preserves lots_ok (update_lot parse now user id u user_id all_users).
Proof.
  intros Hs. unfold update_lot. apply preserves_bind; [unfold _require_permission; by case_match; auto with pres|intros _].
  apply preserves_bind; [unfold require_user; by case_match; auto with pres|intros _]. case_match; [apply preserves_raise|].
  apply preserves_transaction. intros d Hd. rewrite M_bind_run. cbn [reads].
  destruct (lookup_lot _ id d) as [row|] eqn:El; [|done]. apply lookup_lot_found in El as [El _].
  apply (preserves_lift_bind lots_ok); [intros cs Ecs|exact Hd]. apply preserves_lift_bind. intros l' El'.
  apply preserves_bind; [apply preserves_write; intros; apply lots_ok_insert; [|done]|intros; apply preserves_ret].
  eapply update_keeps_ok; [exact Hs|by eapply Hd|exact Ecs|exact El'].
Qed.

Lemma close_preserves now user id user_id all_users : preserves lots_ok (close_lot now user id user_id all_users).
Proof.
  unfold close_lot. apply preserves_bind; [unfold _require_permission; by case_match; auto with pres|intros _].
  apply preserves_bind; [unfold require_user; by case_match; auto with pres|intros _].
  apply preserves_transaction. intros d Hd. rewrite M_bind_run. cbn [reads].
  destruct (lookup_lot _ id d) as [row|] eqn:El; [|done]. apply lookup_lot_found in El as [El _].
  apply (preserves_lift_bind lots_ok); [intros l' El'|exact Hd].
  apply preserves_bind; [apply preserves_write; intros; apply lots_ok_insert; [|done]|intros; apply preserves_ret].
  apply apply_clauses_columns in El' as (_ & E1 & E2 & E3 & _). destruct (Hd id row El) as (H1 & H2 & H3 & H4 & H5).
  unfold lot_ok. rewrite E1, E2, E3. cbn [foldl qty_set rem_set cost_set coef dexp]. change (numeric_coef 8 dzero) with 0. lia.
Qed.

Lemma insert_keeps_ok id l : sane (l_quantity l) -> l_remaining_quantity l = dzero \/ l_remaining_quantity l = l_quantity l ->
  preserves lots_ok (insert_lot id l).
Proof.
  intros Hq Hr. unfold insert_lot. apply preserves_lift_bind. intros row Er.
  intros d Hd. rewrite M_bind_run. cbn [get_state]. destruct (tax_lots d !! id); [done|]. apply preserves_write; [|exact Hd].
  intros d' Hd'. apply lots_ok_insert; [|exact Hd']. revert Er. destruct (varchar 255 _); [|done]. cbn [mbind result_bind].
  destruct (varchar 20 _); [|done]. cbn [mbind result_bind]. unfold numeric_qty, numeric_money.
  destruct (numeric_18 8 (l_quantity l)) as [q|] eqn:Eq; [|done]. cbn [mbind result_bind].
  destruct (numeric_18 8 (l_cost_per_share l)); [|done]. cbn [mbind result_bind].
  destruct (numeric_18 4 (l_total_cost l)) as [t|] eqn:Et; [|done]. cbn [mbind result_bind].
  destruct (numeric_18 8 (l_remaining_quantity l)) as [r|] eqn:Erq; [|done]. cbn [mbind result_bind]. intros [= <-].
  apply numeric_18_stored in Eq as [-> Eq], Et as [-> _], Erq as [-> _]. unfold lot_ok.
  cbn [l_quantity l_remaining_quantity l_total_cost dexp coef] in *. pose proof (numeric_coef_nonneg 8 _ (proj1 Hq)).
  assert (Hz : numeric_coef 8 dzero = 0) by done. destruct Hr as [-> | ->]; rewrite ?Hz; lia.
Qed.

Lemma create_preserves now id user symbol quantity cost acquired strategy status user_id :
  (forall q, _to_decimal parse quantity = Ok q -> sane q) ->
  preserves lots_ok (create_lot parse now id user symbol quantity cost acquired strategy status user_id).
Proof.
  intros Hs. unfold create_lot. apply preserves_bind; [unfold _require_permission; by case_match; auto with pres|intros _].
  destruct acquired; try apply preserves_raise. destruct (str_or _ _); [|apply preserves_raise].
  apply preserves_lift_bind. intros q Eq. do 3 (apply preserves_bind; [apply preserves_lift|intros]).
  apply preserves_transaction. apply preserves_bind; [apply insert_keeps_ok; [by apply Hs|cbn; case_bool_decide; auto]|intros _].
  apply preserves_bind; [apply preserves_reads|intros r]. destruct r; [apply preserves_ret|apply preserves_raise].
Qed.
End service_ok.

(** The shares left of a lot are never negative and never more than its shares, whatever the service is asked to do with
    quantities that are not negative; an operation that raises leaves the tables as they were. *)
Theorem lots_stay_well_formed parse :
  (forall now id user symbol quantity cost acquired strategy status user_id,
     (forall q, _to_decimal parse quantity = Ok q -> sane q) ->
     preserves lots_ok (create_lot parse now id user symbol quantity cost acquired strategy status user_id)) /\
  (forall now user id u user_id all_users, sane_update parse u ->
     preserves lots_ok (update_lot parse now user id u user_id all_users)) /\
  (forall now user id user_id all_users, preserves lots_ok (close_lot now user id user_id all_users)).
Proof. split; [intros; by apply create_preserves|]. split; [intros; by apply update_preserves|intros; by apply close_preserves]. Qed.

(** ** What an update changes *)

(** The shares that left the lot, in units of the column. *)
Definition gone (l : tax_lot) : Z := coef (l_quantity l) - coef (l_remaining_quantity l).

Lemma update_run parse now user id u user_id all_users d row :
  all_users = true \/ is_Some (str_or user None) -> no_updates u = false ->
  lookup_lot (target_user user user_id all_users) id d = Some row ->
  update_lot parse now user id u user_id all_users d
  = match update_clauses parse now row u with
    | Raise e => (Raise e, d)
    | Ok cs => match apply_clauses row cs with
               | Raise e => (Raise e, d)
               | Ok l => (Ok (_row_to_lot None (default VNone (u_status u)) id l), set_lots (insert id l) d)
               end
    end.
Proof.
  intros Hu Hn Hl. unfold update_lot, _require_permission, require_user. cbn [grants negb]. rewrite M_bind_run.
  change ((mret tt : M tax_db unit) d) with (@Ok unit tt, d). cbv beta iota. rewrite M_bind_run.
  assert (E : negb all_users && negb (bool_decide (is_Some (str_or user None))) = false).
  { destruct Hu as [->|H]; [done|]. rewrite (bool_decide_eq_true_2 _ H). apply andb_false_r. }
  rewrite E. change ((mret tt : M tax_db unit) d) with (@Ok unit tt, d). cbv beta iota. rewrite Hn. unfold transaction. rewrite M_bind_run.
  cbn [reads]. rewrite Hl, M_bind_run. unfold lift. destruct (update_clauses _ _ _ _) as [cs|]; [|done]. rewrite M_bind_run.
  destruct (apply_clauses row cs) as [l|]; [|done]. done.
Qed.

(** An update of an open lot that says nothing of its status changes that lot only, keeps its owner and the shares that
    were sold from it, and a quantity below the shares sold is refused. *)
Theorem update_keeps_sold_shares parse now user id u user_id all_users d row :
  lots_ok d -> sane_update parse u -> all_users = true \/ is_Some (str_or user None) -> no_updates u = false ->
  lookup_lot (target_user user user_id all_users) id d = Some row -> _derive_status row = "open" -> u_status u = None ->
  let out := update_lot parse now user id u user_id all_users d in
  match fst out with
  | Ok lot => exists row', snd out = set_lots (insert id row') d /\ l_user_id row' = l_user_id row /\ gone row' = gone row
  | Raise _ => snd out = d
  end /\
  forall v q, u_quantity u = Some v -> _to_decimal parse v = Ok q -> (dval q < dval (Dec (gone row) (-8)))%Q ->
    exists e, fst out = Raise e.
Proof.
  intros Hok Hs Hu Hn Hl Hst Hus out. unfold out. rewrite (update_run parse now user id u user_id all_users d row Hu Hn Hl).
  assert (Hrow : lot_ok row) by (apply lookup_lot_found in Hl as [Hl _]; by eapply Hok).
  assert (Hstatus : new_status u row = Ok ("open", false)) by (unfold new_status; by rewrite Hus, Hst).
  destruct (update_clauses parse now row u) as [cs|e] eqn:Ecs; [|by split; [|intros; exists e]].
  destruct (apply_clauses row cs) as [l|e] eqn:El; [|by split; [|intros; exists e]]. cbn [fst snd].
  destruct (update_columns parse now row u cs l Ecs El) as (q & t & st & ex & rem & Eq & _ & Est & Er & Hf & E1 & _ & E3 & E4).
  rewrite Hstatus in Est. injection Est as <- <-. split.
  - exists l. split; [done|]. split; [exact E4|]. unfold gone. rewrite E1, E3. cbn [orb].
    destruct (u_quantity u) as [v|] eqn:Equ; cbn [present] in *; [|done]. cbn [coef].
    destruct (remaining_after_stored row q "open" _ rem Hrow (Hs v q Equ Eq) (Hf eq_refl) Er) as [-> _]; [done|]. lia.
  - intros v q' Ev Eq' Hlt. exfalso. rewrite Ev in Eq, Er. cbn [value_or present] in *. rewrite Eq' in Eq. injection Eq as <-.
    unfold remaining_after in Er. rewrite (disposed_stored row Hrow) in Er. change (coef (l_quantity row) - coef (l_remaining_quantity row)) with (gone row) in Er.
    destruct (dltb_spec q' (Dec (gone row) (-8))) as [_|Hge]; [|by apply Hge]. destruct (dltb_spec dzero (Dec (gone row) (-8))) as [_|Hz]; [done|].
    apply Hz. apply Qle_lt_trans with (dval q'); [|exact Hlt]. rewrite dzero_val. unfold dval. pose proof (ten_pow_pos (dexp q')).
    apply Qmult_le_0_compat; [|by apply Qlt_le_weak]. apply inject_Z_nonneg. by apply (Hs v q' Ev Eq').
Qed.

(** ** Examples *)

Definition no_number (s : string) : option decimal := None.

Definition ex_lot (quantity remaining : Z) (closed : option Z) : tax_lot := {|
  l_user_id := "ann"; l_symbol := "AAPL"; l_quantity := Dec (quantity * 10 ^ 8) (-8); l_cost_per_share := Dec (10 * 10 ^ 8) (-8);
  l_total_cost := Dec (10 * quantity * 10 ^ 4) (-4); l_acquired_at := 0; l_acquisition_type := "manual";
  l_remaining_quantity := Dec (remaining * 10 ^ 8) (-8); l_closed_at := closed; l_created_at := 0 |}.

Definition ex_tax (l : tax_lot) : tax_db := {|
  tax_lots := {["lot" := l]}; tax_lot_dispositions := ∅; tax_wash_sale_adjustments := ∅; tax_user_settings := ∅ |}.

Definition ex_update (status : option value) (quantity : option value) : lot_updates := {|
  u_symbol := None; u_quantity := quantity; u_cost_basis := None; u_acquisition_date := None; u_status := status |}.

(** Reopening a closed lot and giving its quantity leaves it closed, while the answer says it is open. *)
Theorem reopened_with_quantity_stays_closed :
  let out := update_lot no_number 5 (Some "ann") "lot" (ex_update (Some (VText "open")) (Some (VDecimal (of_int 100)))) None false
               (ex_tax (ex_lot 100 0 (Some 3))) in
  (exists l, fst out = Ok l /\ tl_status l = "open" /\ tl_remaining_quantity l = Dec 0 (-8)) /\
  option_map _derive_status (tax_lots (snd out) !! "lot") = Some "closed".
Proof. vm_compute. split; [eexists|]; done. Qed.

(** A lot of which sixty shares were sold has a hundred again once it was closed and reopened. *)
Theorem reopening_forgets_sales :
  let close := snd (close_lot 5 (Some "ann") "lot" None false (ex_tax (ex_lot 100 40 None))) in
  let reopen := snd (update_lot no_number 6 (Some "ann") "lot" (ex_update (Some (VText "open")) None) None false close) in
  option_map gone (tax_lots reopen !! "lot") = Some 0.
Proof. by vm_compute. Qed.

(** Another user's lot is updated without [all_users]. *)
Theorem cross_user_update_needs_no_flag :
  let out := update_lot no_number 5 (Some "bob") "lot" (ex_update None (Some (VDecimal (of_int 90)))) (Some "ann") false
               (ex_tax (ex_lot 100 40 None)) in
  option_map l_quantity (tax_lots (snd out) !! "lot") = Some (Dec (90 * 10 ^ 8) (-8)).
Proof. by vm_compute. Qed.
