(* ===== verification/WashSale.v ===== *)
(** * Wash sales (libs/platform/tax/wash_sale_detector.py)

    A loss is disallowed as far as shares of the same symbol were bought within thirty days of the sale.  The detector
    matches the shares sold with the lots bought, oldest first; applying the matches moves the disallowed loss from the
    sale to the cost of the lots. *)

From S2P Require Import Prelude PyDecimal PyText Nano OrderSchema TaxLots.
From S2P Require GatewayDb.
From Stdlib Require Import QArith Qabs Lqa.
Open Scope Z_scope.

Definition WASH_SALE_WINDOW_DAYS : Z := 30.

Record WashSaleMatch := {
  ws_loss_disposition_id : string;
  ws_replacement_lot_id : string;
  ws_symbol : string;
  ws_disallowed_loss : decimal;
  ws_matching_shares : decimal;
  ws_sale_date : Z;
  ws_replacement_date : Z
}.

Record WashSaleAdjustment := {
  adj_lot_id : string;
  adj_disallowed_loss : decimal;
  adj_basis_adjustment : decimal;
  adj_holding_period_adjustment_days : Z
}.

(** ** Detection *)

(** An adjustment counts when its sale was not after [sale_date]. *)
Definition sold_by (sale_date : Z) (d : tax_db) (disposition_id : string) : bool :=
  match tax_lot_dispositions d !! disposition_id with Some x => td_disposed_at x <=? sale_date | None => true end.

(** [COALESCE(SUM(CASE ...), 0) AS shares_already_used] *)
Definition shares_already_used (sale_date : Z) (d : tax_db) (lot_id : string) : decimal :=
  foldr num_add dzero
    ((fun p : (string * string) * wash_adjustment => wa_matching_shares p.2) <$>
       map_to_list (filter (fun p : (string * string) * wash_adjustment => p.1.2 = lot_id /\ sold_by sale_date d p.1.1 = true)
                           (tax_wash_sale_adjustments d))).

Definition acquired_le (p q : string * tax_lot) : Prop := l_acquired_at p.2 <= l_acquired_at q.2.
#[export] Instance acquired_le_dec p q : Decision (acquired_le p q).
Proof. unfold acquired_le. apply _. Defined.

(** The lots bought within the window that still have shares. *)
Definition replacement (user_id symbol : string) (sale_date : Z) (l : tax_lot) : bool :=
  bool_decide (l_user_id l = user_id) && bool_decide (l_symbol l = symbol) &&
  (sale_date - WASH_SALE_WINDOW_DAYS * day_us <=? l_acquired_at l) && (l_acquired_at l <=? sale_date + WASH_SALE_WINDOW_DAYS * day_us) &&
  dltb dzero (l_remaining_quantity l).

Definition replacements (user_id symbol : string) (sale_date : Z) (d : tax_db) : list (string * tax_lot) :=
  merge_sort acquired_le (select_lots (replacement user_id symbol sale_date) d).

(** [min(a, b)] *)
Definition dmin (a b : decimal) : decimal := if dltb b a then b else a.

(** What a lot can still replace. *)
Definition available_shares (sale_date : Z) (d : tax_db) (row : string * tax_lot) : decimal :=
  dmin (l_remaining_quantity row.2) (dsub (l_quantity row.2) (shares_already_used sale_date d row.1)).

(** The loop over the lots: [remaining_shares] are still to be matched. *)
Fixpoint match_lots (symbol : string) (sale_date : Z) (loss_per_share : decimal) (d : tax_db) (remaining_shares : decimal)
    (rows : list (string * tax_lot)) : list WashSaleMatch :=
  match rows with
  | [] => []
  | row :: rest =>
      if dleb remaining_shares dzero then []
      else
        let available := available_shares sale_date d row in
        if dleb available dzero then match_lots symbol sale_date loss_per_share d remaining_shares rest
        else
          let matching_shares := dmin available remaining_shares in
          {| ws_loss_disposition_id := "00000000-0000-0000-0000-000000000000"; ws_replacement_lot_id := row.1;
             ws_symbol := symbol; ws_disallowed_loss := dmul matching_shares loss_per_share;
             ws_matching_shares := matching_shares; ws_sale_date := sale_date; ws_replacement_date := l_acquired_at row.2 |}
          :: match_lots symbol sale_date loss_per_share d (dsub remaining_shares matching_shares) rest
  end.

Definition detect_wash_sales (user_id symbol : string) (sale_date : Z) (loss_amount shares_sold : decimal)
    : M tax_db (list WashSaleMatch) :=
  if dleb shares_sold dzero then raise (ValueError ("shares_sold must be positive, got " +:+ str_decimal shares_sold))
  else if dleb dzero loss_amount then mret []
  else
    d ← get_state;
    match replacements user_id symbol sale_date d with
    | [] => mret []
    | rows =>
        loss_per_share ← lift (ddiv (dabs loss_amount) shares_sold);
        mret (match_lots symbol sale_date loss_per_share d shares_sold rows)
    end.

(** ** Adjustment *)

Section apply.
(** The quotient of two NUMERICs: its number of decimals is the server's choice. *)
Context (numeric_div : decimal -> decimal -> decimal).

(** [SELECT acquired_at FROM tax_lots WHERE id = (SELECT lot_id ...)] *)
Definition original_acquired_at (disposition_id : string) (d : tax_db) : option Z :=
  match tax_lot_dispositions d !! disposition_id with
  | Some x => l_acquired_at <$> tax_lots d !! td_lot_id x
  | None => None
  end.

(** [INSERT ... ON CONFLICT ... DO UPDATE], with the foreign keys. *)
Definition upsert_adjustment (disposition_id lot_id : string) (matching_shares disallowed_loss : decimal) (days : Z) : M tax_db unit :=
  shares ← lift (numeric_qty matching_shares);
  loss ← lift (numeric_money disallowed_loss);
  days ← lift (GatewayDb.int4 days);
  d ← get_state;
  match tax_lot_dispositions d !! disposition_id, tax_lots d !! lot_id with
  | Some _, Some _ =>
      write (set_adjustments (insert (disposition_id, lot_id)
        {| wa_matching_shares := shares; wa_disallowed_loss := loss; wa_holding_period_adjustment_days := days |}))
  | _, _ => raise (IntegrityError "tax_wash_sale_adjustments foreign key")
  end.

Definition with_disallowed (x : tax_disposition) (w : decimal) : tax_disposition := {|
  td_lot_id := td_lot_id x; td_quantity := td_quantity x; td_cost_basis := td_cost_basis x;
  td_proceeds_per_share := td_proceeds_per_share x; td_total_proceeds := td_total_proceeds x; td_disposed_at := td_disposed_at x;
  td_disposition_type := td_disposition_type x; td_destination_order_id := td_destination_order_id x;
  td_idempotency_key := td_idempotency_key x; td_realized_gain_loss := td_realized_gain_loss x;
  td_holding_period := td_holding_period x; td_wash_sale_disallowed := w |}.

(** [SET wash_sale_disallowed = wash_sale_disallowed + %s] *)
Definition add_disallowed (disposition_id : string) (delta : decimal) : M tax_db unit :=
  d ← get_state;
  match tax_lot_dispositions d !! disposition_id with
  | None => mret tt
  | Some x =>
      w ← lift (numeric_money (num_add (td_wash_sale_disallowed x) delta));
      write (set_dispositions (insert disposition_id (with_disallowed x w)))
  end.

Definition with_cost (l : tax_lot) (total per_share : decimal) : tax_lot := {|
  l_user_id := l_user_id l; l_symbol := l_symbol l; l_quantity := l_quantity l; l_cost_per_share := per_share; l_total_cost := total;
  l_acquired_at := l_acquired_at l; l_acquisition_type := l_acquisition_type l; l_remaining_quantity := l_remaining_quantity l;
  l_closed_at := l_closed_at l; l_created_at := l_created_at l |}.

(** [SET total_cost = total_cost + %s, cost_per_share = CASE ...] *)
Definition add_cost (lot_id : string) (delta : decimal) : M tax_db unit :=
  d ← get_state;
  match tax_lots d !! lot_id with
  | None => mret tt
  | Some l =>
      let cost := num_add (l_total_cost l) delta in
      total ← lift (numeric_money cost);
      per_share ← lift (if dltb dzero (l_remaining_quantity l) then numeric_qty (numeric_div cost (l_remaining_quantity l))
                        else Ok (l_cost_per_share l));
      write (set_lots (insert lot_id (with_cost l total per_share)))
  end.

(** What was disallowed for the pair before. *)
Definition old_disallowed (disposition_id lot_id : string) (d : tax_db) : decimal :=
  match tax_wash_sale_adjustments d !! (disposition_id, lot_id) with Some a => wa_disallowed_loss a | None => dzero end.

Definition apply_match (disposition_id : string) (original : option Z) (m : WashSaleMatch) : M tax_db WashSaleAdjustment :=
  let lot := ws_replacement_lot_id m in
  let days_held := match original with Some t => (ws_sale_date m - t) / day_us | None => 0 end in
  old ← reads (old_disallowed disposition_id lot);
  let delta := dsub (ws_disallowed_loss m) old in
  _ ← upsert_adjustment disposition_id lot (ws_matching_shares m) (ws_disallowed_loss m) days_held;
  _ ← (if deqb delta dzero then mret tt else add_disallowed disposition_id delta);
  _ ← (if deqb delta dzero then mret tt else add_cost lot delta);
  mret {| adj_lot_id := lot; adj_disallowed_loss := ws_disallowed_loss m; adj_basis_adjustment := ws_disallowed_loss m;
          adj_holding_period_adjustment_days := days_held |}.

Definition apply_wash_sale_adjustments (matches : list WashSaleMatch) (loss_disposition_id : string) : M tax_db (list WashSaleAdjustment) :=
  match matches with
  | [] => mret []
  | _ =>
      transaction (
        original ← reads (original_acquired_at loss_disposition_id);
        for_each (fun adjustments m => a ← apply_match loss_disposition_id original m; mret (adjustments ++ [a])) [] matches)
  end.
End apply.

(** ** The summary *)

(** [year_of] gives the year of a time in the session's time zone. *)
Definition washed_in (year_of : Z -> Z) (user_id : string) (tax_year : Z) (d : tax_db) (x : tax_disposition) : bool :=
  match tax_lots d !! td_lot_id x with
  | Some l => bool_decide (l_user_id l = user_id)
  | None => false
  end && (year_of (td_disposed_at x) =? tax_year) && dltb dzero (td_wash_sale_disallowed x).

Definition get_wash_sale_summary (year_of : Z -> Z) (user_id : string) (tax_year : Z) : M tax_db (nat * decimal) :=
  reads (fun d =>
    let rows := map_to_list (filter (fun p : string * tax_disposition => washed_in year_of user_id tax_year d p.2 = true)
                                    (tax_lot_dispositions d)) in
    (length rows, foldr num_add dzero ((fun p : string * tax_disposition => td_wash_sale_disallowed p.2) <$> rows))).

(** ** What the detector finds *)

(** Stored adjustments are quantities of the column. *)
Definition adjustments_ok (d : tax_db) : Prop :=
  forall k a, tax_wash_sale_adjustments d !! k = Some a -> dexp (wa_matching_shares a) = -8 /\ 0 <= coef (wa_matching_shares a).

Definition used (sale_date : Z) (d : tax_db) (lot_id : string) : Z := nano (shares_already_used sale_date d lot_id).

(** In billionths of a share: what a lot can replace. *)
Definition capacity (sale_date : Z) (d : tax_db) (row : string * tax_lot) : Z :=
  Z.min (nano (l_remaining_quantity row.2)) (nano (l_quantity row.2) - used sale_date d row.1).

Lemma sum_nano l : Forall (fun x => is_nano x /\ 0 <= nano x) l -> is_nano (foldr num_add dzero l) /\ 0 <= nano (foldr num_add dzero l).
Proof.
  induction 1 as [|x l [H1 H2] _ [IH1 IH2]]; [done|]. cbn [foldr]. destruct (num_add_nano x _ H1 IH1) as (H3 & H4 & _). split; [done|lia].
Qed.

Lemma stored_nano d : dexp d = -8 -> is_nano d /\ nano d = 10 * coef d.
Proof. intros H. unfold is_nano, nano, scaled. rewrite H. split; [lia|]. change (10 ^ (-8 - -9)) with 10. lia. Qed.

Lemma used_nano sale_date d lot_id : adjustments_ok d ->
  is_nano (shares_already_used sale_date d lot_id) /\ 0 <= used sale_date d lot_id.
Proof.
  intros H. apply sum_nano. apply Forall_fmap, Forall_forall. intros [k a] Hin. apply elem_of_map_to_list in Hin.
  apply map_lookup_filter_Some in Hin as [Hin _]. destruct (H k a Hin) as [H1 H2]. cbn. destruct (stored_nano _ H1) as [H3 H4]. split; [done|lia].
Qed.

Lemma dmin_nano a b : is_nano a -> is_nano b -> is_nano (dmin a b) /\ nano (dmin a b) = Z.min (nano a) (nano b).
Proof. intros Ha Hb. unfold dmin. rewrite dltb_nano by done. destruct (Z.ltb_spec (nano b) (nano a)); split; done || lia. Qed.

(** The lot's numbers leave room for the arithmetic. *)
Definition roomy (sale_date : Z) (d : tax_db) (row : string * tax_lot) : Prop := lot_ok row.2 /\ used sale_date d row.1 < 10 ^ 27.

Lemma available_nano sale_date d row : adjustments_ok d -> roomy sale_date d row ->
  is_nano (available_shares sale_date d row) /\ nano (available_shares sale_date d row) = capacity sale_date d row.
Proof.
  intros Ha [(H1 & H2 & _ & H3 & H4) Hu]. destruct (used_nano sale_date d row.1 Ha) as [U1 U2].
  destruct (stored_nano _ H1) as [Q1 Q2], (stored_nano _ H2) as [R1 R2]. unfold used in *.
  destruct (dsub_nano (l_quantity row.2) (shares_already_used sale_date d row.1) Q1 U1) as [S1 S2]; [lia|].
  destruct (dmin_nano _ _ R1 S1) as [M1 M2]. split; [done|]. unfold available_shares, capacity, used. lia.
Qed.

Definition total_shares (ms : list WashSaleMatch) : Z := Zsum ((fun m => nano (ws_matching_shares m)) <$> ms).

(** A match is with a lot of the list, within its capacity, at its part of the loss. *)
Definition match_ok (sale_date : Z) (loss_per_share : decimal) (d : tax_db) (rows : list (string * tax_lot)) (m : WashSaleMatch) : Prop :=
  exists row, row ∈ rows /\ ws_replacement_lot_id m = row.1 /\ ws_replacement_date m = l_acquired_at row.2 /\
    is_nano (ws_matching_shares m) /\ 0 < nano (ws_matching_shares m) <= capacity sale_date d row /\
    ws_disallowed_loss m = dmul (ws_matching_shares m) loss_per_share.

(** Every match but the last takes all its lot can replace. *)
Definition oldest_first (sale_date : Z) (d : tax_db) (rows : list (string * tax_lot)) (ms : list WashSaleMatch) : Prop :=
  forall l1 m l2, ms = l1 ++ m :: l2 -> l2 <> [] ->
    exists row, row ∈ rows /\ ws_replacement_lot_id m = row.1 /\ nano (ws_matching_shares m) = capacity sale_date d row.

Lemma oldest_first_more sale_date d row rows ms : oldest_first sale_date d rows ms -> oldest_first sale_date d (row :: rows) ms.
Proof. intros H l1 m l2 E Hl. destruct (H l1 m l2 E Hl) as (r & Hr & H'). exists r. split; [by apply list_elem_of_further|done]. Qed.

Lemma match_ok_more sale_date lps d row rows m : match_ok sale_date lps d rows m -> match_ok sale_date lps d (row :: rows) m.
Proof. intros (r & Hr & H). exists r. split; [by apply list_elem_of_further|done]. Qed.

Section matching.
Context (symbol : string) (sale_date : Z) (lps : decimal) (d : tax_db) (Ha : adjustments_ok d).

Lemma match_lots_spec rows : forall want, is_nano want -> 0 <= nano want < 10 ^ 28 -> Forall (roomy sale_date d) rows ->
  let ms := match_lots symbol sale_date lps d want rows in
  Forall (match_ok sale_date lps d rows) ms /\ (ws_replacement_lot_id <$> ms) `sublist_of` (fst <$> rows) /\
  total_shares ms = Z.min (nano want) (Zsum ((fun r => Z.max 0 (capacity sale_date d r)) <$> rows)) /\
  oldest_first sale_date d rows ms.
Proof.
  induction rows as [|row rows IH]; intros want Hn Hw Hr; cbn [match_lots].
  { split; [done|]. split; [done|]. split; [cbn; lia|]. by intros [|? ?]. }
  apply Forall_cons in Hr as [Hr Hrs]. destruct (available_nano sale_date d row Ha Hr) as [A1 A2].
  assert (Hcaps : 0 <= Zsum ((fun r => Z.max 0 (capacity sale_date d r)) <$> rows)).
  { apply Zsum_nonneg, Forall_fmap, Forall_forall. intros r _. cbn. lia. }
  rewrite !fmap_cons, Zsum_cons, dleb_nano by done. change (nano dzero) with 0. destruct (Z.leb_spec (nano want) 0) as [Hz|Hz].
  { cbn. split; [done|]. split; [apply sublist_nil_l|]. split; [lia|]. by intros [|? ?]. }
  rewrite dleb_nano by done. change (nano dzero) with 0. rewrite A2. destruct (Z.leb_spec (capacity sale_date d row) 0) as [Hc|Hc].
  { destruct (IH want Hn Hw Hrs) as (H1 & H2 & H3 & H4). split; [|split; [|split]].
    - eapply Forall_impl; [exact H1|intros; by apply match_ok_more].
    - cbn. by apply sublist_cons.
    - cbn zeta in H3. rewrite H3. lia.
    - by apply oldest_first_more. }
  destruct (dmin_nano _ _ A1 Hn) as [M1 M2]. set (got := dmin _ want) in *. rewrite A2 in M2.
  destruct (dsub_nano want got Hn M1) as [S1 S2]; [lia|].
  destruct (IH (dsub want got) S1 ltac:(lia) Hrs) as (H1 & H2 & H3 & H4). cbn zeta in *. set (ms := match_lots _ _ _ _ _ rows) in *.
  split; [|split; [|split]].
  - constructor; [|eapply Forall_impl; [exact H1|intros; by apply match_ok_more]]. exists row. cbn. split; [apply list_elem_of_here|].
    split_and!; try done; lia.
  - cbn. by apply sublist_skip.
  - unfold total_shares in *. rewrite fmap_cons, Zsum_cons, H3. cbn. lia.
  - intros [|m0 l1] m l2 E Hl; injection E as <- E.
    + exists row. cbn. split; [apply list_elem_of_here|]. split; [done|]. subst l2.
      assert (0 < nano (dsub want got)); [|lia]. destruct (Z.le_gt_cases (nano (dsub want got)) 0) as [Hle|]; [|done].
      exfalso. apply Hl. unfold ms. destruct rows as [|r rs]; [done|]. cbn [match_lots]. rewrite dleb_nano by done.
      change (nano dzero) with 0. by destruct (Z.leb_spec (nano (dsub want got)) 0); [|lia].
    + destruct (H4 l1 m l2 E Hl) as (r & Hin & Hrest). exists r. split; [by apply list_elem_of_further|done].
Qed.
End matching.

Lemma select_lots_spec p d id l : (id, l) ∈ select_lots p d <-> tax_lots d !! id = Some l /\ p l = true.
Proof. unfold select_lots. by rewrite elem_of_map_to_list, map_lookup_filter_Some. Qed.

Lemma replacements_spec user symbol sale d id l : (id, l) ∈ replacements user symbol sale d <->
  tax_lots d !! id = Some l /\ replacement user symbol sale l = true.
Proof. unfold replacements. rewrite merge_sort_Permutation. apply select_lots_spec. Qed.

Lemma replacements_nodup user symbol sale d : NoDup (replacements user symbol sale d).*1.
Proof. unfold replacements. rewrite merge_sort_Permutation. apply NoDup_fst_map_to_list. Qed.

(** The part of the loss, up to the rounding of 28 digits. *)
Lemma proportional_loss loss sold lps shares : Z.abs (coef loss) < 10 ^ 28 -> ddiv (dabs loss) sold = Ok lps ->
  (Qabs (dval (dmul shares lps) * dval sold - dval shares * Qabs (dval loss)) <= 4 * ulp_rel * Qabs (dval shares * dval loss))%Q.
Proof.
  intros Hl Hd. assert (Hv : (dval (dabs loss) == Qabs (dval loss))%Q).
  { unfold dabs. rewrite fix_prec_small by (cbn [coef]; lia). apply abs_val. }
  pose proof (ddiv_error _ _ _ Hd) as H1. rewrite Hv in H1. pose proof (dmul_error shares lps) as H2.
  set (L := Qabs (dval loss)) in *. set (s := dval shares) in *. set (q := dval sold) in *. set (p := dval lps) in *.
  set (x := dval (dmul shares lps)) in *.
  assert (E1 : (Qabs (s * p * q - s * L) <= 2 * ulp_rel * Qabs (s * L))%Q).
  { setoid_replace (s * p * q - s * L)%Q with (s * (p * q - L))%Q using relation Qeq by ring. rewrite !Qabs_Qmult.
    setoid_replace (2 * ulp_rel * (Qabs s * Qabs L))%Q with (Qabs s * (2 * ulp_rel * Qabs L))%Q using relation Qeq by ring.
    rewrite (Qmult_comm (Qabs s)), (Qmult_comm (Qabs s)). apply Qmult_le_compat_r; [exact H1|apply Qabs_nonneg]. }
  assert (E2 : (Qabs (x * q - s * p * q) <= ulp_rel * Qabs (s * p * q))%Q).
  { setoid_replace (x * q - s * p * q)%Q with ((x - s * p) * q)%Q using relation Qeq by ring. rewrite !Qabs_Qmult in *. rewrite !Qmult_assoc.
    rewrite Qmult_assoc in H2. apply Qmult_le_compat_r; [exact H2|apply Qabs_nonneg]. }
  assert (E3 : (Qabs (x * q - s * L) <= (2 * ulp_rel + ulp_rel + 2 * ulp_rel * ulp_rel) * Qabs (s * L))%Q).
  { eapply rel_error_compose; [..|exact E1|exact E2]; vm_compute; discriminate. }
  eapply Qle_trans; [exact E3|]. rewrite !Qabs_Qmult. change (Qabs (dval loss)) with L. setoid_rewrite (Qabs_pos L); [|apply Qabs_nonneg].
  apply Qmult_le_compat_r; [vm_compute; discriminate|]. rewrite <- (Qabs_pos L) by apply Qabs_nonneg. rewrite <- Qabs_Qmult. apply Qabs_nonneg.
Qed.

#[export] Instance acquired_le_trans : Transitive acquired_le.
Proof. intros p q r. unfold acquired_le. lia. Qed.

#[export] Instance acquired_le_total : Total acquired_le.
Proof. intros p q. unfold acquired_le. lia. Qed.

Lemma select_sorted user symbol sale d : StronglySorted acquired_le (replacements user symbol sale d).
Proof. unfold replacements. apply StronglySorted_merge_sort; apply _. Qed.

(** A lot bought by the user, in the symbol, within thirty days of the sale. *)
Definition bought_near (user symbol : string) (sale_date : Z) (l : tax_lot) : Prop :=
  l_user_id l = user /\ l_symbol l = symbol /\ Z.abs (l_acquired_at l - sale_date) <= 30 * day_us /\ 0 < coef (l_remaining_quantity l).

Lemma replacement_near user symbol sale l : lot_ok l -> replacement user symbol sale l = true <-> bought_near user symbol sale l.
Proof.
  intros (_ & Hr & _). unfold replacement, bought_near, WASH_SALE_WINDOW_DAYS. rewrite !andb_true_iff, !bool_decide_eq_true, !Z.leb_le.
  assert (E : dltb dzero (l_remaining_quantity l) = true <-> 0 < coef (l_remaining_quantity l)).
  { destruct (l_remaining_quantity l) as [c x]. cbn [dexp coef] in *. subst x. rewrite dltb_sign_stored. apply Z.ltb_lt. }
  rewrite E. naive_solver lia.
Qed.

