(* ===== verification/WashLedger.v ===== *)
(** * The books of wash sales (libs/platform/tax/wash_sale_detector.py)

    What is disallowed for a sale is the sum of its adjustments, and what was added to the cost of a lot is the sum of the
    adjustments that name it: applying matches keeps both, to the unit of the columns, however often it is retried. *)

From S2P Require Import Prelude PyDecimal PyText Nano OrderSchema TaxLots WashSale.
From S2P Require GatewayDb.
From Stdlib Require Import QArith Qabs Lqa.
Open Scope Z_scope.

(** ** Sums over a table *)

Lemma Zsum_perm l k : l ≡ₚ k -> Zsum l = Zsum k.
Proof. induction 1; rewrite ?Zsum_cons in *; lia. Qed.

Section sum_over.
Context {K V : Type} `{Countable K} (f : K -> V -> Z).

Definition sum_over (m : gmap K V) : Z := Zsum ((fun p => f p.1 p.2) <$> map_to_list m).

Lemma sum_over_new k v m : m !! k = None -> sum_over (<[k := v]> m) = f k v + sum_over m.
Proof.
  intros Hk. unfold sum_over.
  rewrite (Zsum_perm _ ((fun p => f p.1 p.2) <$> ((k, v) :: map_to_list m))); [by rewrite fmap_cons, Zsum_cons|].
  apply fmap_Permutation. by apply map_to_list_insert.
Qed.

(** One row written. *)
Lemma sum_over_insert k v m : sum_over (<[k := v]> m) = sum_over m + f k v - match m !! k with Some w => f k w | None => 0 end.
Proof.
  destruct (m !! k) as [w|] eqn:E; [|rewrite sum_over_new by done; lia].
  rewrite <- (insert_delete_id m k w E) at 2. rewrite <- insert_delete_eq.
  rewrite !sum_over_new by apply lookup_delete_eq. lia.
Qed.

Lemma sum_over_nonneg m : (forall k v, m !! k = Some v -> 0 <= f k v) -> 0 <= sum_over m.
Proof.
  intros Hp. apply Zsum_nonneg, Forall_fmap, Forall_forall. intros [k v] Hin. apply elem_of_map_to_list in Hin. by apply Hp.
Qed.

Lemma sum_over_ge k v m : m !! k = Some v -> (forall k v, m !! k = Some v -> 0 <= f k v) -> f k v <= sum_over m.
Proof.
  intros Hk Hp. rewrite <- (insert_delete_id m k v Hk), sum_over_new by apply lookup_delete_eq.
  assert (0 <= sum_over (delete k m)); [|lia]. apply sum_over_nonneg. intros k' v' Hd. apply lookup_delete_Some in Hd as [_ Hd]. by apply Hp.
Qed.
End sum_over.

(** ** The books *)

(** In units of the column: what the adjustments of a sale disallow, and what they add to a lot. *)
Definition part_of_sale (id : string) (k : string * string) (a : wash_adjustment) : Z := if decide (k.1 = id) then coef (wa_disallowed_loss a) else 0.
Definition part_of_lot (id : string) (k : string * string) (a : wash_adjustment) : Z := if decide (k.2 = id) then coef (wa_disallowed_loss a) else 0.

Definition disallowed_of (id : string) (d : tax_db) : Z := sum_over (part_of_sale id) (tax_wash_sale_adjustments d).
Definition washed_into (id : string) (d : tax_db) : Z := sum_over (part_of_lot id) (tax_wash_sale_adjustments d).

Definition adjustment_ok (a : wash_adjustment) : Prop := dexp (wa_disallowed_loss a) = -4 /\ 0 <= coef (wa_disallowed_loss a).

Record ledger (d : tax_db) : Prop := {
  ledger_adjustments : forall k a, tax_wash_sale_adjustments d !! k = Some a -> adjustment_ok a;
  ledger_sales : forall id x, tax_lot_dispositions d !! id = Some x ->
    dexp (td_wash_sale_disallowed x) = -4 /\ coef (td_wash_sale_disallowed x) = disallowed_of id d;
  ledger_lots : forall id l, tax_lots d !! id = Some l -> dexp (l_total_cost l) = -4 /\ washed_into id d <= coef (l_total_cost l)
}.

(** The cost of a lot without its adjustments. *)
Definition own_cost (id : string) (d : tax_db) : option Z :=
  (fun l => coef (l_total_cost l) - washed_into id d) <$> tax_lots d !! id.

(** ** One amount written to a column *)

(** An amount in units of the column, however it is written. *)
Definition money (d : decimal) : Prop := (dval d == dval (Dec (coef d) (-4)))%Q.

Lemma money_stored d : dexp d = -4 -> money d.
Proof. unfold money. destruct d as [c x]. cbn [dexp coef]. by intros ->. Qed.

(** [column + (loss - old)] when the column already contains [old]. *)
Lemma money_moved total old loss c : dexp total = -4 -> money old -> coef old <= coef total -> 0 <= coef loss ->
  Z.abs (coef (num_add loss (dneg_exact old))) < 10 ^ 28 -> numeric_money (num_add total (dsub loss old)) = Ok c ->
  dexp c = -4 /\ coef c = coef total - coef old + numeric_coef 4 loss.
Proof.
  intros Ht Ho Hle Hl Hx Hc. apply numeric_18_stored in Hc as [-> _]. split; [done|]. cbn [coef].
  set (g := Dec (coef total - coef old) (-4)).
  assert (Hs : 0 <= coef (num_add loss g)).
  { unfold num_add. cbn [coef]. set (e := Z.min _ _). assert (Ee : e = Z.min (dexp loss) (dexp g)) by done.
    pose proof (proj1 (scaled_sign loss e ltac:(lia)) Hl). assert (Hg : 0 <= coef g) by (unfold g; cbn [coef]; lia).
    pose proof (proj1 (scaled_sign g e ltac:(lia)) Hg). lia. }
  assert (Ev : (dval (num_add loss g) == dval (num_add total (dsub loss old)))%Q).
  { rewrite !num_add_val. unfold dsub, dadd. rewrite fix_prec_small by done. rewrite num_add_val, dneg_exact_val. unfold money in Ho. rewrite Ho. unfold g, dval. cbn [coef dexp].
    rewrite Ht, inject_Z_sub. ring. }
  rewrite <- (numeric_coef_value 4 _ _ Hs Ev). rewrite numeric_coef_add; [unfold g; cbn [coef]; lia|done|done|done].
Qed.

(** A difference of nothing: the loss is what is recorded. *)
Lemma no_change old loss : money old -> 0 <= coef loss -> Z.abs (coef (num_add loss (dneg_exact old))) < 10 ^ 28 ->
  deqb (dsub loss old) dzero = true -> numeric_coef 4 loss = coef old.
Proof.
  intros Ho Hl Hx He. apply (reflect_iff _ _ (deqb_spec _ _)) in He. unfold dsub, dadd in He. rewrite fix_prec_small in He by done.
  rewrite num_add_val, dneg_exact_val, dzero_val in He. rewrite (numeric_coef_value 4 loss (Dec (coef old) (-4)) Hl); [by rewrite numeric_coef_stored|]. unfold money in Ho. rewrite <- Ho. lra.
Qed.

(** ** One match applied *)

(** The new adjustment. *)
Definition recorded (m : WashSaleMatch) (days : Z) : wash_adjustment := {|
  wa_matching_shares := Dec (numeric_coef 8 (ws_matching_shares m)) (-8);
  wa_disallowed_loss := Dec (numeric_coef 4 (ws_disallowed_loss m)) (-4); wa_holding_period_adjustment_days := days |}.

(** The change against what is recorded takes at most 28 digits. *)
Definition exact_change (id : string) (d : tax_db) (m : WashSaleMatch) : Prop :=
  0 <= coef (ws_disallowed_loss m) /\
  Z.abs (coef (num_add (ws_disallowed_loss m) (dneg_exact (old_disallowed id (ws_replacement_lot_id m) d)))) < 10 ^ 28.

Definition days_held (original : option Z) (m : WashSaleMatch) : Z :=
  match original with Some t => (ws_sale_date m - t) / day_us | None => 0 end.

Lemma upsert_run id lot shares loss days (d d' : tax_db) : upsert_adjustment id lot shares loss days d = (Ok tt, d') ->
  d' = set_adjustments (insert (id, lot) {| wa_matching_shares := Dec (numeric_coef 8 shares) (-8);
    wa_disallowed_loss := Dec (numeric_coef 4 loss) (-4); wa_holding_period_adjustment_days := days |}) d /\ is_Some (tax_lot_dispositions d !! id) /\ is_Some (tax_lots d !! lot).
Proof.
  unfold upsert_adjustment. rewrite M_bind_run. unfold lift at 1. unfold numeric_qty. destruct (numeric_18 8 shares) as [s|] eqn:Es; [|done].
  rewrite M_bind_run. unfold lift at 1. unfold numeric_money. destruct (numeric_18 4 loss) as [l|] eqn:El; [|done].
  rewrite M_bind_run. unfold lift at 1. destruct (GatewayDb.int4 days) as [n|] eqn:En; [|done]. rewrite M_bind_run. cbn [get_state].
  destruct (tax_lot_dispositions d !! id) eqn:Ed; [|done]. destruct (tax_lots d !! lot) eqn:Elot; [|done].
  apply numeric_18_stored in Es as [-> _], El as [-> _]. assert (n = days) as ->.
  { unfold GatewayDb.int4 in En. destruct (_ && _); congruence. }
  intros [= <-]. split_and!; [done|by eexists|by eexists].
Qed.

Lemma add_disallowed_run id delta d d' x : tax_lot_dispositions d !! id = Some x -> add_disallowed id delta d = (Ok tt, d') ->
  exists w, numeric_money (num_add (td_wash_sale_disallowed x) delta) = Ok w /\ d' = set_dispositions (insert id (with_disallowed x w)) d.
Proof.
  intros Hx. unfold add_disallowed. rewrite M_bind_run. cbn [get_state]. rewrite Hx, M_bind_run. unfold lift.
  destruct (numeric_money _) as [w|]; [|done]. intros [= <-]. by exists w.
Qed.

Lemma add_cost_run div lot delta d d' l : tax_lots d !! lot = Some l -> add_cost div lot delta d = (Ok tt, d') ->
  exists t p, numeric_money (num_add (l_total_cost l) delta) = Ok t /\ d' = set_lots (insert lot (with_cost l t p)) d.
Proof.
  intros Hl. unfold add_cost. rewrite M_bind_run. cbn [get_state]. rewrite Hl. cbv zeta. rewrite M_bind_run. unfold lift at 1.
  destruct (numeric_money _) as [t|]; [|done]. rewrite M_bind_run. unfold lift at 1.
  destruct (if dltb dzero (l_remaining_quantity l) then _ else _) as [p|]; [|done]. intros [= <-]. by exists t, p.
Qed.

(** How the sums move when an adjustment is written. *)
Lemma sums_moved id lot a d :
  let d' := set_adjustments (insert (id, lot) a) d in
  let change := coef (wa_disallowed_loss a) - coef (old_disallowed id lot d) in
  (forall i, disallowed_of i d' = disallowed_of i d + if decide (id = i) then change else 0) /\
  (forall i, washed_into i d' = washed_into i d + if decide (lot = i) then change else 0).
Proof.
  unfold disallowed_of, washed_into, old_disallowed. cbn [tax_wash_sale_adjustments set_adjustments].
  split; intros i; rewrite sum_over_insert; unfold part_of_sale, part_of_lot; cbn [fst snd];
    destruct (tax_wash_sale_adjustments d !! (id, lot)); case_decide; cbn [coef dzero]; lia.
Qed.

Lemma old_in_books id lot d : ledger d ->
  money (old_disallowed id lot d) /\ 0 <= coef (old_disallowed id lot d) /\
  coef (old_disallowed id lot d) <= disallowed_of id d /\ coef (old_disallowed id lot d) <= washed_into lot d.
Proof.
  intros [Ha _ _]. assert (Hs : forall i k v, tax_wash_sale_adjustments d !! k = Some v -> 0 <= part_of_sale i k v).
  { intros i k v Hk. destruct (Ha k v Hk). unfold part_of_sale. by case_decide. }
  assert (Hl : forall i k v, tax_wash_sale_adjustments d !! k = Some v -> 0 <= part_of_lot i k v).
  { intros i k v Hk. destruct (Ha k v Hk). unfold part_of_lot. by case_decide. }
  unfold old_disallowed. destruct (tax_wash_sale_adjustments d !! (id, lot)) as [a|] eqn:E.
  - destruct (Ha _ _ E) as [H1 H2]. split; [by apply money_stored|]. split; [done|].
    pose proof (sum_over_ge _ _ _ _ E (Hs id)) as G1. pose proof (sum_over_ge _ _ _ _ E (Hl lot)) as G2.
    unfold part_of_sale in G1. unfold part_of_lot in G2. cbn [fst snd] in *. rewrite decide_True in G1 by done. rewrite decide_True in G2 by done. done.
  - split; [done|]. split; [done|]. split; apply sum_over_nonneg; [apply Hs|apply Hl].
Qed.

(** What an application leaves of the other columns. *)
Definition same_lot (l l' : tax_lot) : Prop := exists t p, l' = with_cost l t p.
Definition same_sale (x x' : tax_disposition) : Prop := exists w, x' = with_disallowed x w.

Lemma same_lot_refl l : same_lot l l.
Proof. exists (l_total_cost l), (l_cost_per_share l). by destruct l. Qed.
Lemma same_sale_refl x : same_sale x x.
Proof. exists (td_wash_sale_disallowed x). by destruct x. Qed.
Lemma same_lot_trans a b c : same_lot a b -> same_lot b c -> same_lot a c.
Proof. intros (t & p & ->) (t' & p' & ->). by exists t', p'. Qed.
Lemma same_sale_trans a b c : same_sale a b -> same_sale b c -> same_sale a c.
Proof. intros (w & ->) (w' & ->). by exists w'. Qed.

(** The rows that changed changed in their amounts only, and the costs of the lots themselves did not. *)
Record same_books (d d' : tax_db) : Prop := {
  same_own_cost : forall id, own_cost id d' = own_cost id d;
  same_lots : forall id, option_Forall2 same_lot (tax_lots d !! id) (tax_lots d' !! id);
  same_sales : forall id, option_Forall2 same_sale (tax_lot_dispositions d !! id) (tax_lot_dispositions d' !! id);
  same_settings : tax_user_settings d' = tax_user_settings d
}.

Lemma same_books_refl d : same_books d d.
Proof.
  split; [done| | |done]; intros id; [destruct (tax_lots d !! id)|destruct (tax_lot_dispositions d !! id)];
    constructor; [apply same_lot_refl|apply same_sale_refl].
Qed.

Lemma option_Forall2_trans {A} (R : A -> A -> Prop) (Ht : forall a b c, R a b -> R b c -> R a c) x y z :
  option_Forall2 R x y -> option_Forall2 R y z -> option_Forall2 R x z.
Proof. intros [a b H1|] H2; inversion H2; subst; constructor. by eapply Ht. Qed.

Lemma same_books_trans a b c : same_books a b -> same_books b c -> same_books a c.
Proof.
  intros [H1 H2 H3 H4] [G1 G2 G3 G4]. split; [congruence| | |congruence]; intros id.
  - eapply option_Forall2_trans; [apply same_lot_trans|apply H2|apply G2].
  - eapply option_Forall2_trans; [apply same_sale_trans|apply H3|apply G3].
Qed.

(** Writing an adjustment and moving the two amounts by the change keeps the books. *)
Lemma books_moved id lot a x l w t p d d' :
  let change := coef (wa_disallowed_loss a) - coef (old_disallowed id lot d) in
  ledger d -> adjustment_ok a -> tax_lot_dispositions d !! id = Some x -> tax_lots d !! lot = Some l ->
  dexp w = -4 -> coef w = coef (td_wash_sale_disallowed x) + change -> dexp t = -4 -> coef t = coef (l_total_cost l) + change ->
  d' = set_lots (insert lot (with_cost l t p)) (set_dispositions (insert id (with_disallowed x w)) (set_adjustments (insert (id, lot) a) d)) ->
  ledger d' /\ same_books d d'.
Proof.
  intros change [Da Ds Dl] Ha Hx Hl Hw1 Hw2 Ht1 Ht2 ->. destruct (sums_moved id lot a d) as [Hsale Hlot]. cbv zeta in Hsale, Hlot.
  fold change in Hsale, Hlot. set (d1 := set_adjustments _ d) in *. set (d' := set_lots _ _).
  assert (Hsale' : forall i, disallowed_of i d' = disallowed_of i d1) by done. assert (Hlot' : forall i, washed_into i d' = washed_into i d1) by done.
  destruct (Ds id x Hx) as [_ Sv]. destruct (Dl lot l Hl) as [_ Lv]. split; split; try done.
  - intros k b. cbn. destruct (decide (k = (id, lot))) as [->|Hne]; [rewrite lookup_insert_eq; by intros [= <-]|].
    rewrite lookup_insert_ne by done. apply Da.
  - intros i y. rewrite Hsale', Hsale. cbn. destruct (decide (i = id)) as [->|Hne].
    + rewrite lookup_insert_eq, decide_True by done. intros [= <-]. cbn. split; [done|lia].
    + rewrite lookup_insert_ne, decide_False by done. intros Hy. destruct (Ds i y Hy). split; [done|lia].
  - intros i y. rewrite Hlot', Hlot. cbn. destruct (decide (i = lot)) as [->|Hne].
    + rewrite lookup_insert_eq, decide_True by done. intros [= <-]. cbn. split; [done|lia].
    + rewrite lookup_insert_ne, decide_False by done. intros Hy. destruct (Dl i y Hy). split; [done|lia].
  - intros i. unfold own_cost. rewrite Hlot', Hlot. cbn. destruct (decide (i = lot)) as [->|Hne].
    + rewrite lookup_insert_eq, decide_True, Hl by done. cbn. f_equal. lia.
    + rewrite lookup_insert_ne, decide_False by done. destruct (tax_lots d !! i); [|done]. cbn. f_equal. lia.
  - intros i. cbn. destruct (decide (i = lot)) as [->|Hne].
    + rewrite lookup_insert_eq, Hl. constructor. by exists t, p.
    + rewrite lookup_insert_ne by done. apply (same_lots _ _ (same_books_refl d)).
  - intros i. cbn. destruct (decide (i = id)) as [->|Hne].
    + rewrite lookup_insert_eq, Hx. constructor. by exists w.
    + rewrite lookup_insert_ne by done. apply (same_sales _ _ (same_books_refl d)).
Qed.

Lemma books_unmoved id lot a x l d : tax_lot_dispositions d !! id = Some x -> tax_lots d !! lot = Some l ->
  set_adjustments (insert (id, lot) a) d
  = set_lots (insert lot (with_cost l (l_total_cost l) (l_cost_per_share l)))
      (set_dispositions (insert id (with_disallowed x (td_wash_sale_disallowed x))) (set_adjustments (insert (id, lot) a) d)).
Proof.
  intros Hx Hl. assert (E1 : with_disallowed x (td_wash_sale_disallowed x) = x) by (by destruct x).
  assert (E2 : with_cost l (l_total_cost l) (l_cost_per_share l) = l) by (by destruct l).
  rewrite E1, E2. unfold set_lots, set_dispositions, set_adjustments. cbn. by rewrite (insert_id _ _ _ Hx), (insert_id _ _ _ Hl).
Qed.

Lemma apply_match_books div id original m d adj d' : ledger d -> exact_change id d m -> apply_match div id original m d = (Ok adj, d') ->
  ledger d' /\ same_books d d' /\
  tax_wash_sale_adjustments d' = <[(id, ws_replacement_lot_id m) := recorded m (days_held original m)]> (tax_wash_sale_adjustments d).
Proof.
  intros Hd [Hl Hx]. unfold apply_match. set (lot := ws_replacement_lot_id m) in *. rewrite M_bind_run. cbn [reads].
  set (old := old_disallowed id lot d) in *. rewrite M_bind_run. fold (days_held original m).
  destruct (upsert_adjustment _ _ _ _ _ d) as [[[]|e] d1] eqn:E1; [|done]. apply upsert_run in E1 as (E1 & [x Hdx] & [l Hdl]).
  change (d1 = set_adjustments (insert (id, lot) (recorded m (days_held original m))) d) in E1. set (a := recorded _ _) in *.
  destruct (old_in_books id lot d Hd) as (Hm & _ & Hos & Hol). fold old in Hm, Hos, Hol.
  assert (Ha : adjustment_ok a) by (split; [done|by apply numeric_coef_nonneg]).
  destruct (ledger_sales d Hd id x Hdx) as [Sx Sv]. destruct (ledger_lots d Hd lot l Hdl) as [Lx Lv].
  pose proof (fun w t p d' => books_moved id lot a x l w t p d d') as Hmove. cbv zeta in Hmove. fold old in Hmove.
  change (coef (wa_disallowed_loss a)) with (numeric_coef 4 (ws_disallowed_loss m)) in Hmove.
  destruct (deqb (dsub (ws_disallowed_loss m) old) dzero) eqn:Edelta.
  - rewrite !M_bind_run. intros [= _ <-]. pose proof (no_change old _ Hm Hl Hx Edelta) as Emu. rewrite E1, (and_assoc (ledger _)).
    split; [|done]. rewrite (books_unmoved id lot a x l d Hdx Hdl).
    eapply Hmove; [exact Hd|exact Ha|exact Hdx|exact Hdl|exact Sx|lia|exact Lx|lia|reflexivity].
  - rewrite M_bind_run. destruct (add_disallowed id _ d1) as [[[]|e] d2] eqn:E2; [|done].
    assert (Hdx1 : tax_lot_dispositions d1 !! id = Some x) by (by rewrite E1).
    destruct (add_disallowed_run _ _ _ _ x Hdx1 E2) as (w & Ew & ->).
    rewrite M_bind_run. destruct (add_cost div lot _ _) as [[[]|e] d3] eqn:E3; [|done].
    apply (add_cost_run div lot _ _ _ l) in E3 as (t & p & Et & ->); [|by rewrite E1]. intros [= _ <-].
    destruct (money_moved _ old _ w Sx Hm ltac:(lia) Hl Hx Ew) as [W1 W2]. destruct (money_moved _ old _ t Lx Hm ltac:(lia) Hl Hx Et) as [T1 T2].
    rewrite E1, (and_assoc (ledger _)). split; [|done].
    eapply Hmove; [exact Hd|exact Ha|exact Hdx|exact Hdl|exact W1|lia|exact T1|lia|reflexivity].
Qed.

(** ** A list of matches applied *)

Abbreviation lot_of := ws_replacement_lot_id.

Definition record_all (id : string) (original : option Z) (ms : list WashSaleMatch) (t : gmap (string * string) wash_adjustment)
    : gmap (string * string) wash_adjustment :=
  foldl (fun t m => <[(id, lot_of m) := recorded m (days_held original m)]> t) t ms.

Lemma record_all_other id original ms : forall t k, k.1 <> id \/ k.2 ∉ lot_of <$> ms -> record_all id original ms t !! k = t !! k.
Proof.
  induction ms as [|m ms IH]; intros t [k1 k2] Hk; [done|]. cbn [record_all foldl]. cbn [fst snd] in Hk.
  rewrite fmap_cons, not_elem_of_cons in Hk. fold (record_all id original ms (<[(id, lot_of m) := recorded m (days_held original m)]> t)).
  rewrite IH by (cbn; naive_solver). apply lookup_insert_ne. naive_solver.
Qed.

Lemma record_all_each id original ms : NoDup (lot_of <$> ms) -> forall t m, m ∈ ms ->
  record_all id original ms t !! (id, lot_of m) = Some (recorded m (days_held original m)).
Proof.
  induction ms as [|m0 ms IH]; intros Hnd t m Hm; [by apply elem_of_nil in Hm|]. rewrite fmap_cons in Hnd. apply NoDup_cons in Hnd as [Hn Hnd].
  cbn [record_all foldl]. fold (record_all id original ms (<[(id, lot_of m0) := recorded m0 (days_held original m0)]> t)).
  apply elem_of_cons in Hm as [->|Hm]; [|by apply IH]. rewrite record_all_other by (by right). apply lookup_insert_eq.
Qed.

Lemma for_each_books div id original ms : forall acc d, ledger d -> NoDup (lot_of <$> ms) -> Forall (exact_change id d) ms ->
  match for_each (fun adjustments m => a ← apply_match div id original m; mret (adjustments ++ [a])) acc ms d with
  | (Ok l, d') => ledger d' /\ same_books d d' /\ tax_wash_sale_adjustments d' = record_all id original ms (tax_wash_sale_adjustments d) /\
      adj_lot_id <$> l = (adj_lot_id <$> acc) ++ (lot_of <$> ms)
  | (Raise _, _) => True
  end.
Proof.
  induction ms as [|m ms IH]; intros acc d Hd Hnd Hx.
  { split; [done|]. split; [apply same_books_refl|]. split; [done|]. by rewrite app_nil_r. }
  rewrite fmap_cons in Hnd. apply NoDup_cons in Hnd as [Hn Hnd]. apply Forall_cons in Hx as [Hm Hx]. cbn [for_each]. rewrite !M_bind_run.
  destruct (apply_match div id original m d) as [[a|e] d1] eqn:E; [|done].
  destruct (apply_match_books div id original m d a d1 Hd Hm E) as (H1 & H2 & H3).
  assert (Ha : adj_lot_id a = lot_of m).
  { revert E. unfold apply_match. rewrite M_bind_run. cbn [reads]. rewrite M_bind_run. destruct (upsert_adjustment _ _ _ _ _ _) as [[[]|] ?]; [|done].
    do 2 (rewrite M_bind_run; match goal with |- context [(if ?b then ?x else ?y) ?t] => destruct ((if b then x else y) t) as [[[]|] ?] end; [|done]).
    by intros [= <- _]. }
  cbn [mret M_ret]. specialize (IH (acc ++ [a]) d1 H1 Hnd). assert (Hx1 : Forall (exact_change id d1) ms).
  { rewrite Forall_forall in *. intros m' Hin. destruct (Hx m' Hin) as [P1 P2]. split; [done|]. unfold old_disallowed in *. rewrite H3.
    rewrite lookup_insert_ne; [exact P2|]. intros [= Heq]. apply Hn. rewrite Heq. by apply list_elem_of_fmap_2. }
  specialize (IH Hx1). change ((mret (acc ++ [a]) : M tax_db _) d1) with (@Ok (list WashSaleAdjustment) (acc ++ [a]), d1). cbv beta iota.
  destruct (for_each _ (acc ++ [a]) ms d1) as [[l|e] d2]; [|done]. destruct IH as (I1 & I2 & I3 & I4).
  split; [exact I1|]. split; [by eapply same_books_trans|]. split; [by rewrite I3, H3|]. rewrite I4, fmap_app, fmap_cons, Ha. by rewrite <- app_assoc.
Qed.

Lemma apply_run div id ms d : ledger d -> NoDup (lot_of <$> ms) -> Forall (exact_change id d) ms ->
  match apply_wash_sale_adjustments div ms id d with
  | (Ok l, d') => ledger d' /\ same_books d d' /\
      tax_wash_sale_adjustments d' = record_all id (original_acquired_at id d) ms (tax_wash_sale_adjustments d) /\
      adj_lot_id <$> l = lot_of <$> ms
  | (Raise _, d') => d' = d
  end.
Proof.
  intros Hd Hnd Hx. unfold apply_wash_sale_adjustments. destruct ms as [|m0 rest] eqn:Ems; [by split; [|split; [apply same_books_refl|]]|].
  rewrite <- Ems in *. unfold transaction. rewrite M_bind_run. cbn [reads].
  pose proof (for_each_books div id (original_acquired_at id d) ms [] d Hd Hnd Hx) as H. by destruct (for_each _ [] ms d) as [[l|e] d'].
Qed.

(** C27. Applying the matches of a sale keeps the books: afterwards, as before, what a sale has disallowed is the sum of its
    adjustments and the cost of a lot is its own cost plus the adjustments that name it; each match is recorded, nothing else
    is, and a failure changes nothing. *)
Theorem wash_sale_books_balance div id ms d : ledger d -> NoDup (lot_of <$> ms) -> Forall (exact_change id d) ms ->
  let out := apply_wash_sale_adjustments div ms id d in
  let original := original_acquired_at id d in
  ledger (snd out) /\ same_books d (snd out) /\
  match fst out with
  | Ok l => adj_lot_id <$> l = lot_of <$> ms /\
      (forall m, m ∈ ms -> tax_wash_sale_adjustments (snd out) !! (id, lot_of m) = Some (recorded m (days_held original m))) /\
      (forall k, k.1 <> id \/ k.2 ∉ lot_of <$> ms -> tax_wash_sale_adjustments (snd out) !! k = tax_wash_sale_adjustments d !! k)
  | Raise _ => snd out = d
  end.
Proof.
  intros Hd Hnd Hx out original. pose proof (apply_run div id ms d Hd Hnd Hx) as H. fold out in H.
  destruct out as [[l|e] d']; cbn [fst snd] in *; [|subst; by split; [|split; [apply same_books_refl|]]].
  destruct H as (H1 & H2 & H3 & H4). split; [exact H1|]. split; [exact H2|]. split; [exact H4|]. rewrite H3.
  split; [intros; by apply record_all_each|intros; by apply record_all_other].
Qed.

(** ** Retries *)

(** A loss as the detector computes it: not negative, 28 digits, no more than 32 decimals. *)
Definition loss_sane (m : WashSaleMatch) : Prop :=
  0 <= coef (ws_disallowed_loss m) < 10 ^ 28 /\ -32 <= dexp (ws_disallowed_loss m) <= 0.

Lemma first_exact id d m : loss_sane m -> tax_wash_sale_adjustments d !! (id, lot_of m) = None -> exact_change id d m.
Proof.
  intros [H1 H2] Hn. split; [lia|]. unfold old_disallowed. rewrite Hn. unfold num_add, dneg_exact, dzero, scaled. cbn [coef dexp].
  rewrite Z.min_l, Z.sub_diag, Z.mul_1_r by lia. lia.
Qed.

Lemma retry_exact id d m days : loss_sane m -> tax_wash_sale_adjustments d !! (id, lot_of m) = Some (recorded m days) -> exact_change id d m.
Proof.
  intros [H1 H2] Hn. split; [lia|]. unfold old_disallowed. rewrite Hn. cbn [recorded wa_disallowed_loss]. set (loss := ws_disallowed_loss m) in *.
  unfold num_add, dneg_exact. cbn [coef dexp]. unfold numeric_coef. change (- (4)) with (-4). destruct (Z.leb_spec (-4) (dexp loss)) as [H|H].
  - rewrite Z.min_r by lia. unfold scaled at 2. cbn [coef dexp]. rewrite Z.sub_diag. change (10 ^ 0) with 1. lia.
  - rewrite Z.min_l by lia. unfold scaled. cbn [coef dexp]. rewrite Z.sub_diag, Z.mul_1_r. unfold on_abs. rewrite (Z.abs_eq (coef loss)) by lia.
    set (k := -4 - dexp loss). assert (Hk : 0 < k <= 28) by lia. pose proof (round_half_up_error (coef loss) k ltac:(lia) ltac:(lia)) as He.
    assert (Hp : 10 ^ k <= 10 ^ 28) by (apply Z.pow_le_mono_r; lia). pose proof (pow10_pos k ltac:(lia)).
    destruct (Z.eq_dec (coef loss) 0) as [E|E]; [rewrite E; cbn; lia|]. rewrite Z.sgn_pos by lia. lia.
Qed.

Lemma original_same id d d' : same_books d d' -> original_acquired_at id d' = original_acquired_at id d.
Proof.
  intros H. unfold original_acquired_at. destruct (same_sales _ _ H id) as [x x' (w & ->)|]; [|done]. cbn [td_lot_id with_disallowed].
  by destruct (same_lots _ _ H (td_lot_id x)) as [l l' (t & p & ->)|].
Qed.

(** Two states with the same adjustments and balanced books agree on every amount. *)
Lemma same_amounts d d' : ledger d -> ledger d' -> same_books d d' -> tax_wash_sale_adjustments d' = tax_wash_sale_adjustments d ->
  tax_lot_dispositions d' = tax_lot_dispositions d /\
  (forall id, l_total_cost <$> tax_lots d' !! id = l_total_cost <$> tax_lots d !! id).
Proof.
  intros L L' S Ha. split.
  - apply map_eq. intros id. pose proof (ledger_sales d L id) as H1. pose proof (ledger_sales d' L' id) as H2.
    destruct (same_sales _ _ S id) as [x x' (w & ->)|]; [|done]. f_equal. destruct (H1 x eq_refl) as [E1 E2], (H2 _ eq_refl) as [E3 E4].
    cbn [td_wash_sale_disallowed with_disallowed] in *. unfold disallowed_of in *. rewrite Ha, <- E2 in E4.
    destruct x as [? ? ? ? ? ? ? ? ? ? ? [c e]], w as [c' e']. cbn in *. by subst.
  - intros id. pose proof (ledger_lots d L id) as H1. pose proof (ledger_lots d' L' id) as H2. pose proof (same_own_cost _ _ S id) as Ho.
    unfold own_cost in Ho. destruct (same_lots _ _ S id) as [l l' (t & p & ->)|]; [|done]. destruct (H1 l eq_refl) as [E1 _], (H2 _ eq_refl) as [E2 _].
    cbn in *. unfold washed_into in Ho. rewrite Ha in Ho. injection Ho as Ho. f_equal.
    destruct (l_total_cost l) as [c e], t as [c' e']. cbn in *. subst. f_equal. lia.
Qed.

Lemma recorded_again id original ms t : NoDup (lot_of <$> ms) ->
  (forall m, m ∈ ms -> t !! (id, lot_of m) = Some (recorded m (days_held original m))) -> record_all id original ms t = t.
Proof.
  intros Hnd H. apply map_eq. intros k. destruct (decide (k.1 = id /\ k.2 ∈ lot_of <$> ms)) as [[E Hin]|Hn].
  - apply list_elem_of_fmap in Hin as (m & E2 & Hm). destruct k as [k1 k2]. cbn in *. subst. rewrite (H m Hm). by apply record_all_each.
  - apply record_all_other. destruct (decide (k.1 = id)); [right; naive_solver|by left].
Qed.

(** Applying the matches of a new sale twice moves each amount once: the second time the adjustments, the losses disallowed and
    the costs are left as they are. *)
Theorem retried_adjustments_count_once div div' id ms d l d1 : ledger d -> NoDup (lot_of <$> ms) -> Forall loss_sane ms ->
  Forall (fun m => tax_wash_sale_adjustments d !! (id, lot_of m) = None) ms ->
  apply_wash_sale_adjustments div ms id d = (Ok l, d1) ->
  let d2 := snd (apply_wash_sale_adjustments div' ms id d1) in
  tax_wash_sale_adjustments d2 = tax_wash_sale_adjustments d1 /\ tax_lot_dispositions d2 = tax_lot_dispositions d1 /\
  (forall i, l_total_cost <$> tax_lots d2 !! i = l_total_cost <$> tax_lots d1 !! i).
Proof.
  intros Hd Hnd Hs Hnew E d2. assert (Hx : Forall (exact_change id d) ms).
  { rewrite Forall_forall in *. intros m Hm. by apply first_exact; [apply Hs|apply Hnew]. }
  pose proof (apply_run div id ms d Hd Hnd Hx) as H1. rewrite E in H1. destruct H1 as (L1 & S1 & R1 & _).
  assert (Rec : forall m, m ∈ ms -> tax_wash_sale_adjustments d1 !! (id, lot_of m) = Some (recorded m (days_held (original_acquired_at id d) m))).
  { intros m Hm. rewrite R1. by apply record_all_each. }
  assert (Hx1 : Forall (exact_change id d1) ms).
  { rewrite Forall_forall in *. intros m Hm. eapply retry_exact; [by apply Hs|by apply Rec]. }
  pose proof (apply_run div' id ms d1 L1 Hnd Hx1) as H2. unfold d2. destruct (apply_wash_sale_adjustments div' ms id d1) as [[l2|e] d2']; cbn [snd].
  - destruct H2 as (L2 & S2 & R2 & _). rewrite (original_same _ _ _ S1) in R2. rewrite (recorded_again _ _ _ _ Hnd Rec) in R2.
    split; [exact R2|]. by apply same_amounts.
  - by rewrite H2.
Qed.

(** ** Examples *)

Definition ex_div (a b : decimal) : decimal := match ddiv a b with Ok c => c | Raise _ => dzero end.

Definition ex_sale (lot : string) (disposed_at : Z) : tax_disposition := {|
  td_lot_id := lot; td_quantity := Dec (60 * 10 ^ 8) (-8); td_cost_basis := Dec (1200 * 10 ^ 4) (-4);
  td_proceeds_per_share := Dec (10 * 10 ^ 8) (-8); td_total_proceeds := Dec (600 * 10 ^ 4) (-4); td_disposed_at := disposed_at;
  td_disposition_type := "sale"; td_destination_order_id := None; td_idempotency_key := lot; td_realized_gain_loss := Dec (-600 * 10 ^ 4) (-4);
  td_holding_period := "short"; td_wash_sale_disallowed := Dec 0 (-4) |}.

(** A hundred shares bought on day 50; sixty older ones sold at a loss on day 40 and sixty on day 45. *)
Definition ex_washed : tax_db := {|
  tax_lots := {["new" := {| l_user_id := "ann"; l_symbol := "AAPL"; l_quantity := Dec (100 * 10 ^ 8) (-8); l_cost_per_share := Dec (10 * 10 ^ 8) (-8);
      l_total_cost := Dec (1000 * 10 ^ 4) (-4); l_acquired_at := 50 * day_us; l_acquisition_type := "buy";
      l_remaining_quantity := Dec (100 * 10 ^ 8) (-8); l_closed_at := None; l_created_at := 0 |}]};
  tax_lot_dispositions := {["early" := ex_sale "old" (40 * day_us); "late" := ex_sale "old" (45 * day_us)]};
  tax_wash_sale_adjustments := ∅; tax_user_settings := ∅ |}.

(** A loss of 600 dollars on the sixty shares, detected and applied. *)
Definition ex_process (id : string) (day : Z) : M tax_db (list WashSaleAdjustment) :=
  matches ← detect_wash_sales "ann" "AAPL" (day * day_us) (of_int (-600)) (of_int 60);
  apply_wash_sale_adjustments ex_div matches id.

Definition ex_disallowed (id : string) (d : tax_db) : option decimal := td_wash_sale_disallowed <$> tax_lot_dispositions d !! id.

(** A sale that is processed again counts its own adjustment as used: sixty of a hundred shares are taken, forty are left, and
    the loss disallowed falls from 600 to 400 dollars. *)
Theorem reprocessing_shrinks_disallowed_loss :
  let once := snd (ex_process "early" 40 ex_washed) in
  let twice := snd (ex_process "early" 40 once) in
  ex_disallowed "early" once = Some (Dec (600 * 10 ^ 4) (-4)) /\ ex_disallowed "early" twice = Some (Dec (400 * 10 ^ 4) (-4)).
Proof. by vm_compute. Qed.

(** Sales processed out of order use a lot beyond its shares: the earlier sale does not see the later one's adjustment. *)
Theorem out_of_order_sales_overuse_a_lot :
  let d := snd (ex_process "early" 40 (snd (ex_process "late" 45 ex_washed))) in
  used (50 * day_us) d "new" = 120 * 10 ^ 9 /\ (nano <$> (l_quantity <$> tax_lots d !! "new")) = Some (100 * 10 ^ 9).
Proof. by vm_compute. Qed.

Lemma ex_lots_ok : lots_ok ex_washed.
Proof. intros id l H. unfold ex_washed in H. cbn [tax_lots] in H. apply lookup_singleton_Some in H as [_ <-]. vm_compute. split_and!; done. Qed.


Lemma ex_ledger : ledger ex_washed.
Proof.
  split.
  - intros k a H. unfold ex_washed in H. cbn [tax_wash_sale_adjustments] in H. by rewrite lookup_empty in H.
  - intros id x H. unfold ex_washed in H. cbn [tax_lot_dispositions] in H. rewrite lookup_insert_Some in H. destruct H as [[_ <-]|[_ H]]; [by vm_compute|].
    apply lookup_singleton_Some in H as [_ <-]. by vm_compute.
  - intros id l H. unfold ex_washed in H. cbn [tax_lots] in H. apply lookup_singleton_Some in H as [_ <-]. by vm_compute.
Qed.

(** The match of the earlier sale. *)
Definition ex_match : WashSaleMatch := {|
  ws_loss_disposition_id := "00000000-0000-0000-0000-000000000000"; ws_replacement_lot_id := "new"; ws_symbol := "AAPL";
  ws_disallowed_loss := of_int 600; ws_matching_shares := of_int 60; ws_sale_date := 40 * day_us; ws_replacement_date := 50 * day_us |}.

Lemma wash_sale_books_balance_witness :
  let out := apply_wash_sale_adjustments ex_div [ex_match] "early" ex_washed in
  ledger (snd out) /\ disallowed_of "early" (snd out) = 600 * 10 ^ 4 /\ own_cost "new" (snd out) = Some (1000 * 10 ^ 4).
Proof.
  destruct (wash_sale_books_balance ex_div "early" [ex_match] ex_washed ex_ledger) as (H1 & [H2 _ _ _] & _).
  - apply NoDup_singleton.
  - constructor; [|constructor]. split; [by vm_compute|by vm_compute].
  - split; [exact H1|]. split; [by vm_compute|]. rewrite H2. by vm_compute.
Defined.

Lemma pair_with_fst {A B} (p : A * B) a : fst p = a -> p = (a, snd p).
Proof. destruct p. cbn. by intros ->. Qed.

Lemma retried_adjustments_count_once_witness :
  let first := apply_wash_sale_adjustments ex_div [ex_match] "early" ex_washed in
  let second := apply_wash_sale_adjustments ex_div [ex_match] "early" (snd first) in
  tax_lot_dispositions (snd second) = tax_lot_dispositions (snd first).
Proof.
  intros first second. destruct (fst first) as [l|e] eqn:E; [|by vm_compute in E].
  refine (proj1 (proj2 (retried_adjustments_count_once ex_div ex_div "early" [ex_match] ex_washed l (snd first) ex_ledger _ _ _ _))).
  - apply NoDup_singleton.
  - constructor; [|constructor]. unfold loss_sane, ex_match, of_int. cbn [ws_disallowed_loss coef dexp]. lia.
  - constructor; [done|constructor].
  - exact (pair_with_fst first (Ok l) E).
Defined.
