(* ===== verification/Harvest.v ===== *)
(** * Tax-loss harvesting (libs/platform/tax/tax_loss_harvesting.py)

    The scan of a user's open lots for losses that can be realised, with the warning when shares of the symbol were bought
    in the thirty days before. *)

From S2P Require Import Prelude PyDecimal PyText Nano OrderSchema Calendar TaxLots WashSale.
From Stdlib Require Import QArith Lqa.
Open Scope Z_scope.

Definition DEFAULT_MIN_LOSS_THRESHOLD : decimal := of_int 100.
Definition SHORT_TERM_TAX_RATE : decimal := Dec 35 (-2).
Definition LONG_TERM_TAX_RATE : decimal := Dec 15 (-2).

Record HarvestingOpportunity := {
  ho_lot_id : string;
  ho_symbol : string;
  ho_shares : decimal;
  ho_cost_basis : decimal;
  ho_current_price : decimal;
  ho_unrealized_loss : decimal;
  ho_holding_period : string;
  ho_wash_sale_risk : bool;
  ho_wash_sale_clear_date : option date;
  ho_repurchase_restricted_until : date
}.

Record HarvestingRecommendation := {
  hr_opportunities : list HarvestingOpportunity;
  hr_total_harvestable_loss : decimal;
  hr_estimated_tax_savings : decimal;
  hr_warnings : list string
}.

(** ** Purchases in the thirty days before *)

(** Another lot of the user in the symbol, bought in the thirty days up to [now]. *)
Definition recent_purchase (user_id symbol lot_id : string) (now : Z) (p : string * tax_lot) : bool :=
  bool_decide (l_user_id p.2 = user_id) && bool_decide (l_symbol p.2 = symbol) && negb (bool_decide (p.1 = lot_id)) &&
  (now - 30 * day_us <=? l_acquired_at p.2) && (l_acquired_at p.2 <=? now).

Definition recent_purchases (user_id symbol lot_id : string) (now : Z) (d : tax_db) : list (string * tax_lot) :=
  map_to_list (filter (fun p : string * tax_lot => recent_purchase user_id symbol lot_id now p = true) (tax_lots d)).

(** [MAX(acquired_at)] *)
Definition max_acquired (rows : list (string * tax_lot)) : option Z :=
  match rows with
  | [] => None
  | p :: rest => Some (foldr Z.max (l_acquired_at p.2) ((fun q : string * tax_lot => l_acquired_at q.2) <$> rest))
  end.

Definition _check_wash_sale_risk (user_id symbol lot_id : string) (now : Z) (d : tax_db) : bool * option date :=
  match max_acquired (recent_purchases user_id symbol lot_id now d) with
  | Some latest => (true, Some (date_of (latest + 31 * day_us)))
  | None => (false, None)
  end.

(** ** The scan *)

Definition unrealized_pnl (l : tax_lot) (current_price : decimal) : decimal :=
  dsub (dmul (l_remaining_quantity l) current_price) (dmul (l_remaining_quantity l) (l_cost_per_share l)).

Definition opportunity (user_id : string) (now : Z) (d : tax_db) (id : string) (l : tax_lot) (current_price : decimal) : HarvestingOpportunity :=
  let risk := _check_wash_sale_risk user_id (l_symbol l) id now d in
  {| ho_lot_id := id; ho_symbol := l_symbol l; ho_shares := l_remaining_quantity l;
     ho_cost_basis := dmul (l_remaining_quantity l) (l_cost_per_share l); ho_current_price := current_price;
     ho_unrealized_loss := unrealized_pnl l current_price;
     ho_holding_period := if 365 <? (now - l_acquired_at l) / day_us then "long_term" else "short_term";
     ho_wash_sale_risk := risk.1; ho_wash_sale_clear_date := risk.2;
     ho_repurchase_restricted_until := date_of (now + 31 * day_us) |}.

Record scan := { sc_opportunities : list HarvestingOpportunity; sc_warnings : list string; sc_total_loss : decimal }.

Definition scan_lot (user_id : string) (current_prices : gmap string decimal) (min_loss_threshold : decimal) (now : Z) (d : tax_db)
    (s : scan) (row : string * tax_lot) : scan :=
  let '(id, l) := row in
  match current_prices !! l_symbol l with
  | None => {| sc_opportunities := sc_opportunities s; sc_warnings := sc_warnings s ++ ["No price available for " +:+ l_symbol l];
               sc_total_loss := sc_total_loss s |}
  | Some current_price =>
      let pnl := unrealized_pnl l current_price in
      if dleb dzero pnl then s
      else if dltb (dabs pnl) min_loss_threshold then s
      else
        let o := opportunity user_id now d id l current_price in
        {| sc_opportunities := sc_opportunities s ++ [o]; sc_warnings := sc_warnings s;
           sc_total_loss := if ho_wash_sale_risk o then sc_total_loss s else dadd (sc_total_loss s) (dabs pnl) |}
  end.

(** [d.quantize(Decimal("0.01"))]: half to even. *)
Definition quantize_cents (d : decimal) : result decimal :=
  let c := if -2 <=? dexp d then scaled d (-2) else on_abs (fun n => round_half_even n (-2 - dexp d)) (coef d) in
  if PREC <? ndigits c then Raise InvalidOperation else Ok (Dec c (-2)).

Definition tax_rate (o : HarvestingOpportunity) : decimal :=
  if bool_decide (ho_holding_period o = "short_term") then SHORT_TERM_TAX_RATE else LONG_TERM_TAX_RATE.

Definition add_savings (savings : decimal) (o : HarvestingOpportunity) : decimal :=
  if ho_wash_sale_risk o then savings else dadd savings (dmul (dabs (ho_unrealized_loss o)) (tax_rate o)).

Definition _estimate_tax_savings (opportunities : list HarvestingOpportunity) : result decimal :=
  quantize_cents (foldl add_savings dzero opportunities).

Definition loss_le (a b : HarvestingOpportunity) : Prop := dltb (ho_unrealized_loss b) (ho_unrealized_loss a) = false.
#[export] Instance loss_le_dec a b : Decision (loss_le a b).
Proof. unfold loss_le. apply _. Defined.

Section harvest.
(** The order of symbols under the database's collation. *)
Context (collate : string -> string -> bool).

(** [ORDER BY symbol, acquired_at] *)
Definition by_symbol (p q : string * tax_lot) : Prop :=
  (if bool_decide (l_symbol p.2 = l_symbol q.2) then l_acquired_at p.2 <=? l_acquired_at q.2 else collate (l_symbol p.2) (l_symbol q.2)) = true.
#[export] Instance by_symbol_dec p q : Decision (by_symbol p q).
Proof. unfold by_symbol. apply _. Defined.

Definition open_lot (user_id : string) (l : tax_lot) : bool := bool_decide (l_user_id l = user_id) && dltb dzero (l_remaining_quantity l).

Definition open_lots (user_id : string) (d : tax_db) : list (string * tax_lot) := merge_sort by_symbol (select_lots (open_lot user_id) d).

Definition find_opportunities (now : Z) (user_id : string) (current_prices : gmap string decimal) (min_loss_threshold : decimal)
    : M tax_db HarvestingRecommendation :=
  s ← reads (fun d => foldl (scan_lot user_id current_prices min_loss_threshold now d)
    {| sc_opportunities := []; sc_warnings := []; sc_total_loss := dzero |} (open_lots user_id d));
  let sorted_opportunities := merge_sort loss_le (sc_opportunities s) in
  estimated_savings ← lift (_estimate_tax_savings sorted_opportunities);
  mret {| hr_opportunities := sorted_opportunities; hr_total_harvestable_loss := sc_total_loss s;
          hr_estimated_tax_savings := estimated_savings; hr_warnings := sc_warnings s |}.

(** ** The summary by symbol *)

Record symbol_summary := { ss_total_loss : decimal; ss_shares : decimal; ss_lots_count : decimal }.

Definition add_to_summary (summary : gmap string symbol_summary) (o : HarvestingOpportunity) : gmap string symbol_summary :=
  let s := default {| ss_total_loss := dzero; ss_shares := dzero; ss_lots_count := dzero |} (summary !! ho_symbol o) in
  <[ho_symbol o := {| ss_total_loss := dadd (ss_total_loss s) (dabs (ho_unrealized_loss o)); ss_shares := dadd (ss_shares s) (ho_shares o);
                      ss_lots_count := dadd (ss_lots_count s) (of_int 1) |}]> summary.

Definition get_harvest_summary_by_symbol (now : Z) (user_id : string) (current_prices : gmap string decimal)
    : M tax_db (gmap string symbol_summary) :=
  recommendation ← find_opportunities now user_id current_prices dzero;
  mret (foldl add_to_summary ∅ (hr_opportunities recommendation)).
End harvest.

(** ** What is found *)

(** The opportunity a lot is, if any. *)
Definition lot_opportunity (user_id : string) (current_prices : gmap string decimal) (threshold : decimal) (now : Z) (d : tax_db)
    (row : string * tax_lot) : option HarvestingOpportunity :=
  match current_prices !! l_symbol row.2 with
  | None => None
  | Some price =>
      let pnl := unrealized_pnl row.2 price in
      if dleb dzero pnl || dltb (dabs pnl) threshold then None else Some (opportunity user_id now d row.1 row.2 price)
  end.

Definition unpriced (current_prices : gmap string decimal) (row : string * tax_lot) : option string :=
  match current_prices !! l_symbol row.2 with None => Some ("No price available for " +:+ l_symbol row.2) | Some _ => None end.

(** The losses that count: those of the opportunities without a risk. *)
Definition safe_loss (o : HarvestingOpportunity) : option decimal :=
  if ho_wash_sale_risk o then None else Some (dabs (ho_unrealized_loss o)).

Lemma omap_head {A B} (f : A -> option B) x l : omap f (x :: l) = option_list (f x) ++ omap f l.
Proof. cbn. by destruct (f x). Qed.

Lemma scan_lot_one user prices threshold now d s row :
  scan_lot user prices threshold now d s row =
  let found := option_list (lot_opportunity user prices threshold now d row) in
  {| sc_opportunities := sc_opportunities s ++ found; sc_warnings := sc_warnings s ++ option_list (unpriced prices row);
     sc_total_loss := foldl dadd (sc_total_loss s) (omap safe_loss found) |}.
Proof.
  destruct s as [os ws t], row as [id l]. unfold scan_lot, lot_opportunity, unpriced. cbn [fst snd].
  destruct (prices !! l_symbol l) as [price|]; cbn; [|by rewrite app_nil_r]. rewrite app_nil_r.
  destruct (dleb dzero (unrealized_pnl l price)); cbn; [by rewrite app_nil_r|].
  destruct (dltb (dabs (unrealized_pnl l price)) threshold); cbn; [by rewrite app_nil_r|]. unfold safe_loss, opportunity. cbn.
  by destruct (_check_wash_sale_risk user (l_symbol l) id now d) as [[|] c].
Qed.

Lemma scan_lots user prices threshold now d rows : forall s,
  let s' := foldl (scan_lot user prices threshold now d) s rows in
  let found := omap (lot_opportunity user prices threshold now d) rows in
  sc_opportunities s' = sc_opportunities s ++ found /\ sc_warnings s' = sc_warnings s ++ omap (unpriced prices) rows /\
  sc_total_loss s' = foldl dadd (sc_total_loss s) (omap safe_loss found).
Proof.
  induction rows as [|row rows IH]; intros s s' found; [by rewrite !app_nil_r|]. unfold s', found. cbn [foldl]. rewrite !omap_head.
  destruct (IH (scan_lot user prices threshold now d s row)) as (H1 & H2 & H3). cbn zeta in *. rewrite H1, H2, H3, scan_lot_one.
  cbn [sc_opportunities sc_warnings sc_total_loss]. by rewrite omap_app, foldl_app, <- !app_assoc.
Qed.

#[export] Instance loss_le_trans : Transitive loss_le.
Proof.
  intros a b c. unfold loss_le. destruct (dltb_spec (ho_unrealized_loss b) (ho_unrealized_loss a)), (dltb_spec (ho_unrealized_loss c) (ho_unrealized_loss b)),
    (dltb_spec (ho_unrealized_loss c) (ho_unrealized_loss a)); try done. lra.
Qed.

#[export] Instance loss_le_total : Total loss_le.
Proof.
  intros a b. unfold loss_le. destruct (dltb_spec (ho_unrealized_loss b) (ho_unrealized_loss a)), (dltb_spec (ho_unrealized_loss a) (ho_unrealized_loss b));
    auto. lra.
Qed.

(** The recommendation lists the open lots whose loss reaches the threshold, and no others, the largest loss first; it warns of
    each open lot without a price, and its total is that of the losses without a wash sale risk. *)
Theorem harvest_finds_every_loss collate now user prices threshold d r :
  fst (find_opportunities collate now user prices threshold d) = Ok r ->
  snd (find_opportunities collate now user prices threshold d) = d /\
  StronglySorted loss_le (hr_opportunities r) /\
  (forall o, o ∈ hr_opportunities r <-> exists id l price,
    tax_lots d !! id = Some l /\ l_user_id l = user /\ (0 < dval (l_remaining_quantity l))%Q /\ prices !! l_symbol l = Some price /\
    (dval (unrealized_pnl l price) < 0)%Q /\ (dval threshold <= dval (dabs (unrealized_pnl l price)))%Q /\
    o = opportunity user now d id l price) /\
  (forall w, w ∈ hr_warnings r <-> exists id l, tax_lots d !! id = Some l /\ l_user_id l = user /\ (0 < dval (l_remaining_quantity l))%Q /\
    prices !! l_symbol l = None /\ w = "No price available for " +:+ l_symbol l) /\
  (exists found, found ≡ₚ hr_opportunities r /\ hr_total_harvestable_loss r = foldl dadd dzero (omap safe_loss found)).
Proof.
  unfold find_opportunities. rewrite M_bind_run. cbn [reads]. set (rows := open_lots collate user d).
  destruct (scan_lots user prices threshold now d rows {| sc_opportunities := []; sc_warnings := []; sc_total_loss := dzero |}) as (H1 & H2 & H3).
  cbn [sc_opportunities sc_warnings sc_total_loss app] in *. set (s := foldl _ _ rows) in *. rewrite M_bind_run. unfold lift.
  destruct (_estimate_tax_savings _) as [e|]; [|done]. cbn. intros [= <-]. cbn [hr_opportunities hr_warnings hr_total_harvestable_loss].
  assert (Hrows : forall id l, (id, l) ∈ rows <-> tax_lots d !! id = Some l /\ l_user_id l = user /\ (0 < dval (l_remaining_quantity l))%Q).
  { intros id l. unfold rows, open_lots. rewrite merge_sort_Permutation, select_lots_spec. unfold open_lot.
    rewrite andb_true_iff, bool_decide_eq_true. destruct (dltb_spec dzero (l_remaining_quantity l)) as [P|P]; rewrite dzero_val in P; naive_solver. }
  split; [done|]. split; [apply StronglySorted_merge_sort; apply _|]. split; [|split; [|]].
  - intros o. rewrite merge_sort_Permutation, H1, list_elem_of_omap. split.
    + intros ([id l] & Hin & Ho). apply Hrows in Hin as (P1 & P2 & P3). unfold lot_opportunity in Ho. cbn [fst snd] in Ho.
      destruct (prices !! l_symbol l) as [price|] eqn:Ep; [|done]. exists id, l, price. cbv zeta in Ho.
      destruct (dleb_spec dzero (unrealized_pnl l price)) as [|Q1]; [done|]. destruct (dltb_spec (dabs (unrealized_pnl l price)) threshold) as [|Q2]; [done|].
      rewrite dzero_val in Q1. injection Ho as <-. split_and!; try done; by apply Qnot_le_lt || by apply Qnot_lt_le.
    + intros (id & l & price & P1 & P2 & P3 & Ep & Q1 & Q2 & ->). exists (id, l). split; [by apply Hrows|]. unfold lot_opportunity. cbn [fst snd]. rewrite Ep.
      cbv zeta. destruct (dleb_spec dzero (unrealized_pnl l price)) as [Q3|_].
      { rewrite dzero_val in Q3. exfalso. by apply (Qlt_not_le _ _ Q1). }
      destruct (dltb_spec (dabs (unrealized_pnl l price)) threshold) as [Q4|_]; [|done]. exfalso. by apply (Qlt_not_le _ _ Q4).
  - intros w. rewrite H2, list_elem_of_omap. split.
    + intros ([id l] & Hin & Hw). apply Hrows in Hin as (P1 & P2 & P3). unfold unpriced in Hw. cbn [fst snd] in Hw.
      destruct (prices !! l_symbol l) eqn:Ep; [done|]. injection Hw as <-. by exists id, l.
    + intros (id & l & P1 & P2 & P3 & Ep & ->). exists (id, l). split; [by apply Hrows|]. unfold unpriced. cbn [fst snd]. by rewrite Ep.
  - exists (sc_opportunities s). split; [by rewrite merge_sort_Permutation|]. by rewrite H3, H1.
Qed.

(** ** What the warning is worth *)

Lemma recent_purchases_spec user symbol lot_id now d id l : (id, l) ∈ recent_purchases user symbol lot_id now d <->
  tax_lots d !! id = Some l /\ l_user_id l = user /\ l_symbol l = symbol /\ id <> lot_id /\ now - 30 * day_us <= l_acquired_at l <= now.
Proof.
  unfold recent_purchases. rewrite elem_of_map_to_list, map_lookup_filter_Some. unfold recent_purchase. cbn [fst snd].
  rewrite !andb_true_iff, negb_true_iff, !bool_decide_eq_true, bool_decide_eq_false, !Z.leb_le. naive_solver.
Qed.

Lemma max_acquired_spec rows : match max_acquired rows with
  | None => rows = []
  | Some t => forall p, p ∈ rows -> l_acquired_at p.2 <= t
  end.
Proof.
  destruct rows as [|q rows]; [done|]. cbn [max_acquired]. assert (H : forall b p, p = q \/ p ∈ rows -> l_acquired_at q.2 <= b ->
    l_acquired_at p.2 <= foldr Z.max b ((fun q : string * tax_lot => l_acquired_at q.2) <$> rows)).
  { intros b p Hp Hb. induction rows as [|r rows IH]; cbn; [destruct Hp as [->|Hp]; [done|by apply elem_of_nil in Hp]|].
    destruct Hp as [->|Hp]; [pose proof (IH (or_introl eq_refl)); lia|]. apply elem_of_cons in Hp as [->|Hp]; [lia|].
    pose proof (IH (or_intror Hp)). lia. }
  intros p Hp. apply H; [by apply elem_of_cons in Hp|done].
Qed.

(** No warning: the user bought no other lot of the symbol in the thirty days before. *)
Lemma no_risk_no_purchase user symbol lot_id now d clear id l : _check_wash_sale_risk user symbol lot_id now d = (false, clear) ->
  tax_lots d !! id = Some l -> l_user_id l = user -> l_symbol l = symbol -> id <> lot_id -> ~ now - 30 * day_us <= l_acquired_at l <= now.
Proof.
  unfold _check_wash_sale_risk. pose proof (max_acquired_spec (recent_purchases user symbol lot_id now d)) as H.
  destruct (max_acquired _); [done|]. intros _ H1 H2 H3 H4 H5. assert (Hin : (id, l) ∈ recent_purchases user symbol lot_id now d).
  { by apply recent_purchases_spec. }
  rewrite H in Hin. by apply elem_of_nil in Hin.
Qed.

(** A lot without a warning that is sold in full at a loss, with no purchase of the symbol in the thirty days after, is no
    wash sale: the detector finds no match for the sale. *)
Theorem harvest_without_risk_is_not_washed user symbol lot_id now d d' clear loss sold :
  _check_wash_sale_risk user symbol lot_id now d = (false, clear) ->
  lots_ok d' -> (forall l, tax_lots d' !! lot_id = Some l -> coef (l_remaining_quantity l) = 0) ->
  (forall id l, tax_lots d' !! id = Some l -> l_user_id l = user -> l_symbol l = symbol -> id <> lot_id ->
     now + 30 * day_us < l_acquired_at l \/
     exists l0, tax_lots d !! id = Some l0 /\ l_user_id l0 = user /\ l_symbol l0 = symbol /\ l_acquired_at l0 = l_acquired_at l /\ l_acquired_at l <= now) ->
  dleb sold dzero = false ->
  fst (detect_wash_sales user symbol now loss sold d') = Ok [].
Proof.
  intros Hrisk Hok Hsold Hothers Hs. unfold detect_wash_sales. rewrite Hs. destruct (dleb dzero loss); [done|]. rewrite M_bind_run. cbn [get_state].
  assert (E : replacements user symbol now d' = []).
  { destruct (replacements user symbol now d') as [|[id l] rest] eqn:E; [done|]. exfalso.
    assert (Hin : (id, l) ∈ replacements user symbol now d') by (rewrite E; apply list_elem_of_here).
    apply replacements_spec in Hin as [Hl Hr]. apply replacement_near in Hr as (R1 & R2 & R3 & R4); [|by eapply Hok].
    destruct (decide (id = lot_id)) as [->|Hne]; [rewrite (Hsold l Hl) in R4; lia|].
    destruct (Hothers id l Hl R1 R2 Hne) as [Ht|(l0 & L1 & L2 & L3 & L4 & L5)]; [unfold day_us in *; lia|].
    apply (no_risk_no_purchase user symbol lot_id now d clear id l0 Hrisk L1 L2 L3 Hne). rewrite L4. unfold day_us in *. lia. }
  rewrite E. reflexivity.
Qed.

(** From the clear date on there is no warning any more, when nothing of the symbol was bought meanwhile. *)
Theorem clear_date_is_clear user symbol lot_id now later d clear :
  _check_wash_sale_risk user symbol lot_id now d = (true, Some clear) -> days_of clear <= later / day_us ->
  (forall id l, tax_lots d !! id = Some l -> l_user_id l = user -> l_symbol l = symbol -> id <> lot_id -> ~ now < l_acquired_at l <= later) ->
  _check_wash_sale_risk user symbol lot_id later d = (false, None).
Proof.
  unfold _check_wash_sale_risk at 1. pose proof (max_acquired_spec (recent_purchases user symbol lot_id now d)) as H.
  destruct (max_acquired (recent_purchases user symbol lot_id now d)) as [latest|] eqn:Elatest; [|done]. intros [= <-] Hlater Hnone.
  unfold date_of in Hlater. rewrite (proj1 (calendar_roundtrip _)) in Hlater.
  assert (Hnow : now - 30 * day_us <= latest).
  { destruct (recent_purchases user symbol lot_id now d) as [|[id l] rest] eqn:E; [done|].
    assert (Hin : (id, l) ∈ recent_purchases user symbol lot_id now d) by (rewrite E; apply list_elem_of_here).
    rewrite E in Hin. pose proof (H _ Hin) as Hle. rewrite <- E in Hin. apply recent_purchases_spec in Hin. cbn [snd] in Hle. lia. }
  assert (Hl : latest + 30 * day_us < later). { unfold day_us, minute_us, second_us in *. Z.to_euclidean_division_equations. lia. }
  unfold _check_wash_sale_risk. pose proof (max_acquired_spec (recent_purchases user symbol lot_id later d)) as G.
  destruct (max_acquired (recent_purchases user symbol lot_id later d)) as [t|] eqn:Et; [|done]. exfalso.
  destruct (recent_purchases user symbol lot_id later d) as [|[id l] rest] eqn:E; [done|].
  assert (Hin : (id, l) ∈ recent_purchases user symbol lot_id later d) by (rewrite E; apply list_elem_of_here).
  apply recent_purchases_spec in Hin as (H1 & H2 & H3 & H4 & H5). destruct (Z.le_gt_cases (l_acquired_at l) now) as [Hn|Hn].
  - assert (Hr : (id, l) ∈ recent_purchases user symbol lot_id now d) by (apply recent_purchases_spec; split_and!; done || lia).
    apply H in Hr. cbn [snd] in Hr. lia.
  - apply (Hnone id l H1 H2 H3 H4). lia.
Qed.

(** ** Examples *)

(** The scan leaves the lot itself out, the detector does not: a lot bought ten days ago carries no warning, and a sale of sixty
    of its hundred shares is matched with the forty that are left. *)
Theorem partial_sale_is_washed_by_its_own_lot :
  fst (_check_wash_sale_risk "ann" "AAPL" "lot" (10 * day_us) (ex_tax (ex_lot 100 100 None))) = false /\
  exists m, fst (detect_wash_sales "ann" "AAPL" (10 * day_us) (of_int (-120)) (of_int 60) (ex_tax (ex_lot 100 40 None))) = Ok [m] /\
    ws_replacement_lot_id m = "lot" /\ nano (ws_matching_shares m) = 40 * 10 ^ 9.
Proof. split; [by vm_compute|]. eexists. split; [vm_compute; reflexivity|]. by vm_compute. Qed.

(** The lot of a hundred shares at ten dollars, with a price of eight. *)
Definition ex_scan : result HarvestingRecommendation :=
  fst (find_opportunities String.leb (10 * day_us) "ann" {["AAPL" := of_int 8]} DEFAULT_MIN_LOSS_THRESHOLD (ex_tax (ex_lot 100 100 None))).

Lemma harvest_finds_every_loss_witness : exists r, ex_scan = Ok r /\ (exists o, o ∈ hr_opportunities r /\ ho_lot_id o = "lot") /\
  StronglySorted loss_le (hr_opportunities r).
Proof.
  destruct ex_scan as [r|e] eqn:E; [|vm_compute in E; discriminate].
  destruct (harvest_finds_every_loss String.leb (10 * day_us) "ann" {["AAPL" := of_int 8]} DEFAULT_MIN_LOSS_THRESHOLD (ex_tax (ex_lot 100 100 None)) r E)
    as (_ & Hs & Ho & _). exists r. split; [done|]. split; [|exact Hs].
  exists (opportunity "ann" (10 * day_us) (ex_tax (ex_lot 100 100 None)) "lot" (ex_lot 100 100 None) (of_int 8)). split; [|done].
  apply Ho. exists "lot", (ex_lot 100 100 None), (of_int 8).
  split; [reflexivity|]. split; [reflexivity|]. split; [vm_compute; reflexivity|]. split; [vm_compute; reflexivity|].
  split; [vm_compute; reflexivity|]. split; [vm_compute; discriminate|reflexivity].
Defined.

Lemma harvest_without_risk_is_not_washed_witness :
  fst (detect_wash_sales "ann" "AAPL" (10 * day_us) (of_int (-200)) (of_int 100) (ex_tax (ex_lot 100 0 (Some 1)))) = Ok [].
Proof.
  apply (harvest_without_risk_is_not_washed "ann" "AAPL" "lot" (10 * day_us) (ex_tax (ex_lot 100 100 None)) _ None).
  - by vm_compute.
  - intros id l H. unfold ex_tax in H. cbn [tax_lots] in H. apply lookup_singleton_Some in H as [_ <-]. vm_compute. split_and!; done.
  - intros l H. unfold ex_tax in H. cbn [tax_lots] in H. apply lookup_singleton_Some in H as [_ <-]. done.
  - intros id l H _ _ Hne. unfold ex_tax in H. cbn [tax_lots] in H. by apply lookup_singleton_Some in H as [<- _].
  - by vm_compute.
Defined.
