(* ===== verification/Formats.v ===== *)
(** * Texts that are exchanged: JSON and CSV

    [json.dumps] of strings and flat objects in the compact form with sorted keys
    ([separators=(",", ":"), sort_keys=True]) and ASCII output that signed and sent requests use, [int] of a
    decimal text, and what [csv.writer] writes with its default dialect, with a reader of that text.  A
    character is a code point below 256, as a header decoded as latin-1 has. *)

From S2P Require Import Prelude PyDecimal PyText.
Open Scope Z_scope.

(** [ESCAPE_DCT] and [\\u{0:04x}] of Python's encoder. *)
Definition escape_char (c : Ascii.ascii) : list Ascii.ascii :=
  let n := code c in
  let short (k : Z) := [chr 92; chr k] in
  if n =? 34 then short 34 else if n =? 92 then short 92
  else if n =? 8 then short 98 else if n =? 9 then short 116 else if n =? 10 then short 110
  else if n =? 12 then short 102 else if n =? 13 then short 114
  else if (32 <=? n) && (n <=? 126) then [c]
  else [chr 92; chr 117; chr 48; chr 48; Sha256.hex_digit (n / 16); Sha256.hex_digit (n mod 16)].

Definition escaped (l : list Ascii.ascii) : list Ascii.ascii := c ← l; escape_char c.

Definition quoted (s : string) : list Ascii.ascii := chr 34 :: escaped (chars s) ++ [chr 34].

(** A JSON value of a flat object: a string or an integer. *)
Inductive json_value := JString (s : string) | JInt (n : Z) | JStrings (l : list string).

Fixpoint commas (l : list (list Ascii.ascii)) : list Ascii.ascii :=
  match l with
  | [] => []
  | [x] => x
  | x :: l' => x ++ chr 44 :: commas l'
  end.

Definition value_text (v : json_value) : list Ascii.ascii :=
  match v with
  | JString s => quoted s
  | JInt n => chars (str_int n)
  | JStrings l => chr 91 :: commas (quoted <$> l) ++ [chr 93]
  end.

Definition member_text (m : string * json_value) : list Ascii.ascii := quoted m.1 ++ chr 58 :: value_text m.2.

(** The members in the order given, which is the sorted one. *)
Definition object_text (members : list (string * json_value)) : string :=
  of_chars (chr 123 :: commas (member_text <$> members) ++ [chr 125]).

(** [int(s)] of an ASCII text. *)
Fixpoint digits_tail (acc : Z) (underscore : bool) (l : list Ascii.ascii) : option Z :=
  match l with
  | [] => if underscore then None else Some acc
  | c :: l' =>
      if is_digit c then digits_tail (10 * acc + (code c - 48)) false l'
      else if is_char 95 c then if underscore then None else digits_tail acc true l'
      else if negb underscore && forallb is_space l then Some acc else None
  end.

Definition digits_start (l : list Ascii.ascii) : option Z :=
  match l with c :: _ => if is_digit c then digits_tail 0 false l else None | [] => None end.

Definition parse_int (s : string) : option Z :=
  match skip_spaces (chars s) with
  | c :: l => if is_char 45 c then Z.opp <$> digits_start l else if is_char 43 c then digits_start l else digits_start (c :: l)
  | [] => None
  end.

(** ** Reading a quoted string back *)

(** The first character of an escaped text, and the rest. *)
Definition unescape (l : list Ascii.ascii) : option (Ascii.ascii * list Ascii.ascii) :=
  match l with
  | c :: l' =>
      if is_char 34 c then None
      else if is_char 92 c then
        match l' with
        | k :: l2 =>
            if is_char 117 k then
              match l2 with
              | _ :: _ :: h :: h' :: l3 =>
                  let v (x : Ascii.ascii) := if is_digit x then code x - 48 else code x - 87 in
                  Some (chr (16 * v h + v h'), l3)
              | _ => None
              end
            else if is_char 98 k then Some (chr 8, l2) else if is_char 116 k then Some (chr 9, l2)
            else if is_char 110 k then Some (chr 10, l2) else if is_char 102 k then Some (chr 12, l2)
            else if is_char 114 k then Some (chr 13, l2) else Some (k, l2)
        | [] => None
        end
      else Some (c, l')
  | [] => None
  end.

Lemma unescape_escape c l : unescape (escape_char c ++ l) = Some (c, l).
Proof. destruct c as [[] [] [] [] [] [] [] []]; reflexivity. Qed.

Lemma escape_char_inj c c' l l' : escape_char c ++ l = escape_char c' ++ l' -> c = c' /\ l = l'.
Proof.
  intros H. apply (f_equal unescape) in H. rewrite !unescape_escape in H. by injection H as -> ->.
Qed.

Lemma quote_not_escape c l r : chr 34 :: r <> escape_char c ++ l.
Proof. intros H. apply (f_equal unescape) in H. by rewrite unescape_escape in H. Qed.

Lemma escaped_inj l : forall l' r r',
  escaped l ++ chr 34 :: r = escaped l' ++ chr 34 :: r' -> l = l' /\ r = r'.
Proof.
  unfold escaped. induction l as [|c l IH]; intros [|c' l'] r r'; cbn [mbind list_bind app].
  - intros H. by injection H as ->.
  - rewrite <- app_assoc. intros H. by apply quote_not_escape in H.
  - rewrite <- app_assoc. intros H. symmetry in H. by apply quote_not_escape in H.
  - rewrite <- !app_assoc. intros H. apply escape_char_inj in H as [-> H]. apply IH in H as [-> ->]. done.
Qed.

(** A quoted string ends where its text says. *)
Lemma quoted_inj s s' r r' : quoted s ++ r = quoted s' ++ r' -> s = s' /\ r = r'.
Proof.
  unfold quoted. cbn [app]. rewrite <- !app_assoc. cbn [app]. intros H. injection H as H.
  apply escaped_inj in H as [H ->]. by apply (inj chars) in H as ->.
Qed.

(** Objects of strings with the same keys have the same text only when they are equal. *)
Definition strings_object (keys values : list string) : list (string * json_value) :=
  zip keys (JString <$> values).

Lemma json_member_inj k v v' r r' :
  member_text (k, JString v) ++ r = member_text (k, JString v') ++ r' -> v = v' /\ r = r'.
Proof.
  unfold member_text. cbn [fst snd value_text]. rewrite <- !app_assoc. cbn [app]. intros H.
  apply app_inv_head in H. apply (f_equal tail) in H. by apply quoted_inj in H.
Qed.

Lemma commas_cons x y l : commas (x :: y :: l) = x ++ chr 44 :: commas (y :: l).
Proof. reflexivity. Qed.

Lemma members_inj keys : forall vs vs' r r', length vs = length keys -> length vs' = length keys ->
  commas (member_text <$> strings_object keys vs) ++ chr 125 :: r =
  commas (member_text <$> strings_object keys vs') ++ chr 125 :: r' -> vs = vs' /\ r = r'.
Proof.
  unfold strings_object.
  induction keys as [|k keys IH]; intros [|v vs] [|v' vs'] r r' Hl Hl' H; try done; [by injection H as ->|].
  injection Hl as Hl. injection Hl' as Hl'.
  destruct keys as [|k2 keys], vs as [|v2 vs], vs' as [|v2' vs']; try done.
  - apply json_member_inj in H as [-> H]. by injection H as ->.
  - rewrite !fmap_cons in H. cbn [zip zip_with] in H. rewrite !fmap_cons, !commas_cons, <- !app_assoc in H.
    apply json_member_inj in H as [-> H]. apply (f_equal tail) in H.
    destruct (IH (v2 :: vs) (v2' :: vs') r r' Hl Hl' H) as [E ->]. by rewrite E.
Qed.

Lemma object_text_inj keys vs vs' : length vs = length keys -> length vs' = length keys ->
  object_text (strings_object keys vs) = object_text (strings_object keys vs') -> vs = vs'.
Proof.
  unfold object_text. intros Hl Hl' H. apply (f_equal chars) in H. rewrite !chars_of_chars in H.
  injection H as H. by destruct (members_inj keys vs vs' [] [] Hl Hl' H).
Qed.

(** ** [int(str(n))] *)

Lemma digits_tail_value l : forall a, Forall (fun c => is_digit c = true) l ->
  digits_tail a false l = Some (foldl digit_step a l).
Proof.
  induction l as [|c l IH]; intros a H; [done|]. inversion_clear H as [|? ? Hc Hl]. simpl.
  unfold digit_step at 2. rewrite Hc. by apply IH.
Qed.

Lemma digit_not_space c : is_digit c = true -> is_space c = false.
Proof. destruct c as [[] [] [] [] [] [] [] []]; reflexivity || done. Qed.

Lemma parse_int_str n : 0 <= n -> parse_int (str_int n) = Some n.
Proof.
  intros Hn. assert (E : str_int n = pretty (Z.to_N n)).
  { unfold str_int, pretty at 1, pretty_Z. destruct n as [|p|p]; [reflexivity|reflexivity|lia]. }
  rewrite E. unfold parse_int. destruct (pretty_N_chars (Z.to_N n)) as [Hd Hv]. specialize (Hv 0).
  rewrite Z2N.id, Z.mul_0_l, Z.add_0_l in Hv by done.
  destruct (chars (pretty (Z.to_N n))) as [|c l] eqn:El.
  { exfalso. unfold pretty, pretty_N in El. case_decide; [done|].
    destruct (pretty_N_go_chars (Z.to_N n) "") as (ds & H1 & _ & H3). rewrite El in H1. symmetry in H1.
    apply app_eq_nil in H1 as [-> _]. specialize (H3 0). simpl in H3. lia. }
  apply Forall_cons in Hd as [Hc Hl]. cbn [skip_spaces]. rewrite (digit_not_space c Hc).
  unfold is_char. pose proof (digit_not 45 c ltac:(lia) Hc) as H45. pose proof (digit_not 43 c ltac:(lia) Hc) as H43.
  apply Z.eqb_neq in H45 as ->. apply Z.eqb_neq in H43 as ->. unfold digits_start. rewrite Hc, digits_tail_value by (by constructor).
  by rewrite Hv.
Qed.

(** Double quotes shown as single ones. *)
Example json_sample :
  of_chars ((fun c => if is_char 34 c then chr 39 else c) <$>
    chars (object_text [("qty", JInt 5); ("symbol", JString "A\"); ("x", JStrings ["a"; "b"])]))
  = "{'qty':5,'symbol':'A\\','x':['a','b']}".
Proof. reflexivity. Qed.

(** ** CSV

    Fields are separated by commas, records end with a carriage return and a line feed, and a field with one of
    these characters or a quote is quoted. *)


Definition COMMA : Ascii.ascii := chr 44.
Definition QUOTE : Ascii.ascii := chr 34.
Definition CR : Ascii.ascii := chr 13.
Definition LF : Ascii.ascii := chr 10.

Definition special (c : Ascii.ascii) : bool := is_char 44 c || is_char 34 c || is_char 13 c || is_char 10 c.

(** A quote inside a quoted field is doubled. *)
Definition escape (l : list Ascii.ascii) : list Ascii.ascii := c ← l; if is_char 34 c then [QUOTE; QUOTE] else [c].

Definition write_field (s : string) : list Ascii.ascii :=
  if existsb special (chars s) then QUOTE :: escape (chars s) ++ [QUOTE] else chars s.

Fixpoint write_fields (fields : list string) : list Ascii.ascii :=
  match fields with
  | [] => []
  | [f] => write_field f
  | f :: rest => write_field f ++ COMMA :: write_fields rest
  end.

(** [writer.writerow(fields)]: a record of one empty field is written as a pair of quotes. *)
Definition writerow (fields : list string) : list Ascii.ascii :=
  (if bool_decide (fields = [""]) then [QUOTE; QUOTE] else write_fields fields) ++ [CR; LF].

Definition write_rows (rows : list (list string)) : string := of_chars (rows ≫= writerow).

(** ** Reading *)

Inductive reader := StartRecord | StartField | InField | InQuoted | QuoteInQuoted | AfterCR.

(** The records of [l]: [field] is the field being read, [row] the fields of the record before it. *)
Fixpoint read (l : list Ascii.ascii) (st : reader) (field : list Ascii.ascii) (row : list string) : list (list string) :=
  match l with
  | [] => match st with StartRecord | AfterCR => [] | _ => [row ++ [of_chars field]] end
  | c :: l' =>
      match st with
      | StartRecord | StartField | AfterCR =>
          if is_char 10 c && (match st with AfterCR => true | _ => false end) then read l' StartRecord [] []
          else if is_char 34 c then read l' InQuoted [] row
          else if is_char 44 c then read l' StartField [] (row ++ [""])
          else if is_char 13 c then (match st with StartField => row ++ [""] | _ => [] end) :: read l' AfterCR [] []
          else read l' InField [c] row
      | InField =>
          if is_char 44 c then read l' StartField [] (row ++ [of_chars field])
          else if is_char 13 c then (row ++ [of_chars field]) :: read l' AfterCR [] []
          else read l' InField (field ++ [c]) row
      | InQuoted =>
          if is_char 34 c then read l' QuoteInQuoted field row else read l' InQuoted (field ++ [c]) row
      | QuoteInQuoted =>
          if is_char 34 c then read l' InQuoted (field ++ [QUOTE]) row
          else if is_char 44 c then read l' StartField [] (row ++ [of_chars field])
          else if is_char 13 c then (row ++ [of_chars field]) :: read l' AfterCR [] []
          else read l' InField (field ++ [c]) row
      end
  end.

Definition read_rows (s : string) : list (list string) := read (chars s) StartRecord [] [].

(** ** What was written is read back *)

Definition starting (st : reader) : bool := match st with StartRecord | StartField => true | _ => false end.

Lemma special_chars c : special c = false -> is_char 44 c = false /\ is_char 34 c = false /\ is_char 13 c = false /\ is_char 10 c = false.
Proof. unfold special. rewrite !orb_false_iff. tauto. Qed.

Lemma read_plain l rest row : forall field, forallb (fun c => negb (special c)) l = true ->
  read (l ++ rest) InField field row = read rest InField (field ++ l) row.
Proof.
  induction l as [|c l IH]; intros field H; [by rewrite app_nil_r|]. cbn [forallb] in H. apply andb_true_iff in H as [Hc Hl].
  apply negb_true_iff, special_chars in Hc as (E1 & _ & E3 & _). cbn [app read]. rewrite E1, E3, IH by done. by rewrite <- app_assoc.
Qed.

Lemma is_quote c : is_char 34 c = true -> c = QUOTE.
Proof.
  unfold is_char, code, QUOTE, chr. intros E. apply Z.eqb_eq in E. rewrite <- (Ascii.ascii_N_embedding c). f_equal. lia.
Qed.

Lemma read_escaped l rest row : forall field, read (escape l ++ rest) InQuoted field row = read rest InQuoted (field ++ l) row.
Proof.
  unfold escape. induction l as [|c l IH]; intros field; [by rewrite app_nil_r|]. cbn [mbind list_bind].
  destruct (is_char 34 c) eqn:E; cbn [app read].
  - apply is_quote in E as ->. change (is_char 34 QUOTE) with true. cbn iota. by rewrite IH, <- app_assoc.
  - rewrite E, IH. by rewrite <- app_assoc.
Qed.

Lemma not_special l : existsb special l = false -> forallb (fun c => negb (special c)) l = true.
Proof. induction l as [|c l IH]; [done|]. cbn. rewrite orb_false_iff. intros [-> H]. by apply IH. Qed.

(** A field, and what ended it. *)
Lemma read_field s rest st row : starting st = true ->
  read (write_field s ++ COMMA :: rest) st [] row = read rest StartField [] (row ++ [s]) /\
  (s <> "" \/ st = StartField -> read (write_field s ++ CR :: rest) st [] row = (row ++ [s]) :: read rest AfterCR [] []).
Proof.
  intros Hst. unfold write_field. destruct (existsb special (chars s)) eqn:Es.
  - assert (Eq : forall r, read ((QUOTE :: escape (chars s) ++ [QUOTE]) ++ r) st [] row = read r QuoteInQuoted (chars s) row).
    { intros r. cbn [app]. rewrite <- app_assoc. assert (E1 : forall r', read (QUOTE :: r') st [] row = read r' InQuoted [] row) by (by destruct st).
      rewrite E1, read_escaped. done. }
    split; [|intros _]; rewrite Eq; cbn [read]; by rewrite of_chars_chars.
  - apply not_special in Es. pose proof (of_chars_chars s) as Hs. destruct (chars s) as [|c l] eqn:Ec.
    + cbn in Hs. subst s. split; [by destruct st|]. intros [?| ->]; done.
    + cbn [forallb] in Es. apply andb_true_iff in Es as [Hc Hl]. apply negb_true_iff, special_chars in Hc as (E1 & E2 & E3 & E4).
      assert (Eq : forall r, read ((c :: l) ++ r) st [] row = read r InField (c :: l) row).
      { intros r. cbn [app read]. rewrite E1, E2, E3, E4. destruct st; try done; cbn [andb]; by rewrite read_plain. }
      split; [|intros _]; rewrite Eq; cbn [read]; by rewrite Hs.
Qed.

Lemma read_fields fields : forall st row rest, starting st = true -> fields <> [] -> st = StartField \/ (row = [] /\ fields <> [""]) ->
  read (write_fields fields ++ CR :: rest) st [] row = (row ++ fields) :: read rest AfterCR [] [].
Proof.
  induction fields as [|f fields IH]; intros st row rest Hst Hn Hx; [done|]. destruct fields as [|g fields].
  - apply (read_field f rest st row Hst). destruct Hx as [->|[_ Hx]]; [by right|left]. by intros ->.
  - change (write_fields (f :: g :: fields)) with (write_field f ++ COMMA :: write_fields (g :: fields)). rewrite <- app_assoc. cbn [app].
    rewrite (proj1 (read_field f _ st row Hst)), IH by (done || by left). by rewrite <- app_assoc.
Qed.

Lemma read_writerow fields rest : read (writerow fields ++ rest) StartRecord [] [] = fields :: read rest StartRecord [] [].
Proof.
  unfold writerow. rewrite <- app_assoc. cbn [app]. case_bool_decide as H; [by subst|]. destruct fields as [|f fields]; [done|].
  rewrite (read_fields (f :: fields) StartRecord [] (LF :: rest)) by (done || by right). done.
Qed.

(** Reading the text of a table gives the table: commas, quotes and line ends inside fields are not mistaken for separators. *)
Theorem csv_roundtrip rows : read_rows (write_rows rows) = rows.
Proof.
  unfold read_rows, write_rows. rewrite chars_of_chars. induction rows as [|r rows IH]; [done|].
  cbn [mbind list_bind]. by rewrite read_writerow, IH.
Qed.
