(* ===== verification/Form8949.v ===== *)
(** * Form 8949 (libs/platform/tax/form_8949.py, libs/platform/tax/export.py, apps/web_console_ng/pages/tax_lots.py)

    The sales of a user as rows of the tax form, its totals, and the CSV and JSON exports. *)

From S2P Require Import Prelude PyDecimal PyText Nano OrderSchema TaxLots Formats.
From Stdlib Require Import QArith Lqa.
Open Scope Z_scope.

(** ** Numbers and dates as text *)

(** [d.normalize()]: no trailing zeros; zero is written without decimals. *)
Definition normalize (d : decimal) : decimal :=
  let d := fix_prec d in
  if coef d =? 0 then Dec 0 0
  else let '(c, e) := strip_zeros (Z.to_nat (ndigits (coef d))) (coef d) (dexp d) (dexp d + ndigits (coef d)) in Dec c e.

(** [f"{d:f}"]: never an exponent. *)
Definition plain (d : decimal) : string :=
  let sign := if coef d <? 0 then "-" else "" in
  if 0 <=? dexp d then sign +:+ pretty (Z.abs (coef d) * 10 ^ dexp d)
  else
    let p := Z.to_nat (- dexp d) in
    let digits := pretty (Z.abs (coef d)) in
    let padded := srepeat "0" (S p - slen digits) +:+ digits in
    let k := (slen padded - p)%nat in
    sign +:+ sprefix k padded +:+ "." +:+ of_chars (drop k (chars padded)).

(** [d.strftime("%m/%d/%Y")] *)
Definition us_date (d : date) : string :=
  of_chars (digits_w 2 (month d) ++ [chr 47] ++ digits_w 2 (day d) ++ [chr 47]) +:+ str_int (year d).

(** ** Rows *)

Record TaxReportRow := {
  tr_symbol : string;
  tr_quantity : decimal;
  tr_acquired_date : date;
  tr_disposed_date : date;
  tr_cost_basis : decimal;
  tr_proceeds : decimal;
  tr_gain_loss : decimal;
  tr_holding_period : string;
  tr_wash_sale_adjustment : option decimal;
  tr_lot_id : option string;
  tr_disposition_id : option string
}.

(** [if x]: a number that is not zero. *)
Definition nonzero (x : option decimal) : option decimal :=
  match x with Some d => if deqb d dzero then None else Some d | None => None end.

Definition is_wash_sale (r : TaxReportRow) : bool :=
  match tr_wash_sale_adjustment r with Some d => dltb dzero d | None => false end.

Definition adjusted_gain_loss (r : TaxReportRow) : decimal :=
  match nonzero (tr_wash_sale_adjustment r) with Some d => dadd (tr_gain_loss r) d | None => tr_gain_loss r end.

Record Form8949Row := {
  fr_description : string;
  fr_date_acquired : date;
  fr_date_sold : date;
  fr_proceeds : decimal;
  fr_cost_basis : decimal;
  fr_adjustment_code : option string;
  fr_adjustment_amount : option decimal;
  fr_gain_or_loss : decimal
}.

Definition CODE_WASH_SALE : string := "W".

Definition _format_description (symbol : string) (quantity : decimal) : string := plain (normalize quantity) +:+ " sh " +:+ symbol.

Definition form_row (r : TaxReportRow) : Form8949Row := {|
  fr_description := _format_description (tr_symbol r) (tr_quantity r);
  fr_date_acquired := tr_acquired_date r; fr_date_sold := tr_disposed_date r; fr_proceeds := tr_proceeds r; fr_cost_basis := tr_cost_basis r;
  fr_adjustment_code := (fun _ => CODE_WASH_SALE) <$> nonzero (tr_wash_sale_adjustment r);
  fr_adjustment_amount := nonzero (tr_wash_sale_adjustment r);
  fr_gain_or_loss := match nonzero (tr_wash_sale_adjustment r) with Some d => dadd (tr_gain_loss r) d | None => tr_gain_loss r end |}.

(** The rows of the two parts. *)
Record form := { short_term : list Form8949Row; long_term : list Form8949Row }.

Definition add_row (f : form) (r : TaxReportRow) : form :=
  if bool_decide (tr_holding_period r = "short_term")
  then {| short_term := short_term f ++ [form_row r]; long_term := long_term f |}
  else {| short_term := short_term f; long_term := long_term f ++ [form_row r] |}.

Definition format_rows (rows : list TaxReportRow) : form := foldl add_row {| short_term := []; long_term := [] |} rows.

(** ** Totals *)

Record totals := { t_proceeds : decimal; t_cost_basis : decimal; t_adjustments : decimal; t_gain_loss : decimal }.

Definition add_totals (t : totals) (r : Form8949Row) : totals := {|
  t_proceeds := dadd (t_proceeds t) (fr_proceeds r);
  t_cost_basis := dadd (t_cost_basis t) (fr_cost_basis r);
  t_adjustments := match nonzero (fr_adjustment_amount r) with Some d => dadd (t_adjustments t) d | None => t_adjustments t end;
  t_gain_loss := dadd (t_gain_loss t) (fr_gain_or_loss r) |}.

Definition _calculate_totals (rows : list Form8949Row) : totals :=
  foldl add_totals {| t_proceeds := dzero; t_cost_basis := dzero; t_adjustments := dzero; t_gain_loss := dzero |} rows.

(** ** Exports *)

Definition cents2 (d : decimal) : string := dec_fixed d 2.

Definition optional_cents (x : option decimal) : string := match nonzero x with Some d => cents2 d | None => "" end.

Definition _row_to_csv_values (r : Form8949Row) : list string :=
  [fr_description r; us_date (fr_date_acquired r); us_date (fr_date_sold r); cents2 (fr_proceeds r); cents2 (fr_cost_basis r);
   default "" (fr_adjustment_code r); optional_cents (fr_adjustment_amount r); cents2 (fr_gain_or_loss r)].

Definition column_headers : list string :=
  ["(a) Description"; "(b) Date acquired"; "(c) Date sold"; "(d) Proceeds"; "(e) Cost basis"; "(f) Code"; "(g) Adjustment"; "(h) Gain or loss"].

Definition totals_record (t : totals) : list string :=
  ["TOTALS"; ""; ""; cents2 (t_proceeds t); cents2 (t_cost_basis t); ""; optional_cents (Some (t_adjustments t)); cents2 (t_gain_loss t)].

(** The records of one part: headers, rows and totals. *)
Definition part_records (include_headers : bool) (title caption : string) (rows : list Form8949Row) : list (list string) :=
  (if include_headers then [[title]; [caption]; []] else []) ++ [column_headers] ++ (_row_to_csv_values <$> rows) ++
  match rows with [] => [] | _ => [[]; totals_record (_calculate_totals rows)] end.

Definition csv_records (f : form) (include_headers : bool) : list (list string) :=
  part_records include_headers "PART I - SHORT-TERM CAPITAL GAINS AND LOSSES" "(Assets held one year or less)" (short_term f) ++ [[]] ++
  part_records include_headers "PART II - LONG-TERM CAPITAL GAINS AND LOSSES" "(Assets held more than one year)" (long_term f).

Definition to_csv (f : form) (include_headers : bool) : string := write_rows (csv_records f include_headers).

(** A JSON object, its values strings or null. *)
Definition json_row (r : Form8949Row) : list (string * option string) :=
  [("description", Some (fr_description r)); ("date_acquired", Some (isoformat (fr_date_acquired r)));
   ("date_sold", Some (isoformat (fr_date_sold r))); ("proceeds", Some (str_decimal (fr_proceeds r)));
   ("cost_basis", Some (str_decimal (fr_cost_basis r))); ("adjustment_code", fr_adjustment_code r);
   ("adjustment_amount", str_decimal <$> nonzero (fr_adjustment_amount r)); ("gain_or_loss", Some (str_decimal (fr_gain_or_loss r)))].

Definition to_json (f : form) : list (string * list (list (string * option string))) :=
  [("short_term", json_row <$> short_term f); ("long_term", json_row <$> long_term f)].

(** ** From the tables *)

Definition disposed_ge (p q : string * tax_disposition) : Prop := td_disposed_at q.2 <= td_disposed_at p.2.
#[export] Instance disposed_ge_dec p q : Decision (disposed_ge p q).
Proof. unfold disposed_ge. apply _. Defined.

(** The sales of the user's lots, the latest first, each with its lot. *)
Definition _get_disposition_rows (user_id : string) (d : tax_db) : list (tax_lot * tax_disposition) :=
  omap (fun p : string * tax_disposition =>
      match tax_lots d !! td_lot_id p.2 with
      | Some l => if bool_decide (l_user_id l = user_id) then Some (l, p.2) else None
      | None => None
      end)
    (merge_sort disposed_ge (map_to_list (tax_lot_dispositions d))).

Definition _normalize_holding_period (raw : string) : string :=
  if bool_decide (raw = "") then "short_term"
  else if bool_decide (raw = "short") then "short_term"
  else if bool_decide (raw = "long") then "long_term"
  else raw.

(** [local_date] is the date of a time in the session's time zone. *)
Definition report_row (local_date : Z -> date) (p : tax_lot * tax_disposition) : TaxReportRow := {|
  tr_symbol := l_symbol p.1; tr_quantity := td_quantity p.2; tr_acquired_date := local_date (l_acquired_at p.1);
  tr_disposed_date := local_date (td_disposed_at p.2); tr_cost_basis := td_cost_basis p.2; tr_proceeds := td_total_proceeds p.2;
  tr_gain_loss := td_realized_gain_loss p.2; tr_holding_period := _normalize_holding_period (td_holding_period p.2);
  tr_wash_sale_adjustment := Some (td_wash_sale_disallowed p.2); tr_lot_id := None; tr_disposition_id := None |}.

(** The export of a user's sales; [None] when there is nothing to export. *)
Definition form_8949_export (local_date : Z -> date) (user_id : string) (d : tax_db) : option string :=
  match _get_disposition_rows user_id d with
  | [] => None
  | rows => Some (to_csv (format_rows (report_row local_date <$> rows)) true)
  end.

(** ** The form adds up *)

(** Amounts of at most nine decimals, as the columns hold them. *)
Definition row_nano (r : Form8949Row) : Prop :=
  is_nano (fr_proceeds r) /\ is_nano (fr_cost_basis r) /\ is_nano (fr_gain_or_loss r) /\
  forall d, fr_adjustment_amount r = Some d -> is_nano d.

(** The adjustment of a row, zero when there is none. *)
Definition row_adjustment (r : Form8949Row) : Z := match fr_adjustment_amount r with Some d => nano d | None => 0 end.

(** All the amounts of a row, to bound the sums. *)
Definition row_size (r : Form8949Row) : Z :=
  Z.abs (nano (fr_proceeds r)) + Z.abs (nano (fr_cost_basis r)) + Z.abs (nano (fr_gain_or_loss r)) + Z.abs (row_adjustment r).

Definition totals_are (t : totals) (p c a g : Z) : Prop :=
  is_nano (t_proceeds t) /\ nano (t_proceeds t) = p /\ is_nano (t_cost_basis t) /\ nano (t_cost_basis t) = c /\
  is_nano (t_adjustments t) /\ nano (t_adjustments t) = a /\ is_nano (t_gain_loss t) /\ nano (t_gain_loss t) = g.

Lemma add_totals_exact t r p c a g : totals_are t p c a g -> row_nano r ->
  Z.abs p + Z.abs c + Z.abs a + Z.abs g + row_size r < 10 ^ 28 ->
  totals_are (add_totals t r) (p + nano (fr_proceeds r)) (c + nano (fr_cost_basis r)) (a + row_adjustment r) (g + nano (fr_gain_or_loss r)).
Proof.
  intros (T1 & T2 & T3 & T4 & T5 & T6 & T7 & T8) (R1 & R2 & R3 & R4) Hs. unfold row_size in Hs. unfold add_totals, totals_are. cbn.
  destruct (dadd_nano _ _ T1 R1) as [E1 E2]; [lia|]. destruct (dadd_nano _ _ T3 R2) as [E3 E4]; [lia|].
  destruct (dadd_nano _ _ T7 R3) as [E5 E6]; [lia|]. rewrite E2, E4, E6, T2, T4, T8.
  assert (Ha : is_nano (match nonzero (fr_adjustment_amount r) with Some d => dadd (t_adjustments t) d | None => t_adjustments t end) /\
    nano (match nonzero (fr_adjustment_amount r) with Some d => dadd (t_adjustments t) d | None => t_adjustments t end) = a + row_adjustment r).
  { unfold nonzero, row_adjustment in *. destruct (fr_adjustment_amount r) as [d|]; [|split; [done|lia]]. specialize (R4 d eq_refl).
    rewrite deqb_nano by done. change (nano dzero) with 0. destruct (Z.eqb_spec (nano d) 0); [split; [done|lia]|].
    destruct (dadd_nano _ _ T5 R4) as [E7 E8]; [lia|]. by rewrite E8, T6. }
  destruct Ha as [Ha1 Ha2]. tauto.
Qed.

Lemma totals_exact rows : forall t p c a g, totals_are t p c a g -> Forall row_nano rows ->
  Z.abs p + Z.abs c + Z.abs a + Z.abs g + Zsum (row_size <$> rows) < 10 ^ 28 ->
  totals_are (foldl add_totals t rows) (p + Zsum ((fun r => nano (fr_proceeds r)) <$> rows)) (c + Zsum ((fun r => nano (fr_cost_basis r)) <$> rows))
    (a + Zsum (row_adjustment <$> rows)) (g + Zsum ((fun r => nano (fr_gain_or_loss r)) <$> rows)).
Proof.
  induction rows as [|r rows IH]; intros t p c a g Ht Hr Hs; [cbn; by rewrite !Z.add_0_r|]. apply Forall_cons in Hr as [Hr Hrs].
  rewrite !fmap_cons, !Zsum_cons, !Z.add_assoc in *. cbn [foldl].
  assert (H0 : 0 <= Zsum (row_size <$> rows)) by (apply Zsum_nonneg, Forall_fmap, Forall_forall; intros x _; unfold row_size; cbn; lia).
  apply IH; [apply add_totals_exact; [done|done|lia]|done|]. unfold row_size in Hs at 1. unfold row_adjustment in *. lia.
Qed.

(** A report row as its contract asks: the gain is what was received less what was paid, and the amounts have few decimals. *)
Definition contract (r : TaxReportRow) : Prop :=
  is_nano (tr_proceeds r) /\ is_nano (tr_cost_basis r) /\ is_nano (tr_gain_loss r) /\
  (forall d, tr_wash_sale_adjustment r = Some d -> is_nano d) /\ nano (tr_gain_loss r) = nano (tr_proceeds r) - nano (tr_cost_basis r) /\
  Z.abs (nano (tr_gain_loss r)) + match tr_wash_sale_adjustment r with Some d => Z.abs (nano d) | None => 0 end < 10 ^ 28.

Definition row_balanced (r : Form8949Row) : Prop :=
  row_nano r /\ nano (fr_gain_or_loss r) = nano (fr_proceeds r) - nano (fr_cost_basis r) + row_adjustment r.

Lemma form_row_balanced r : contract r -> row_balanced (form_row r).
Proof.
  intros (H1 & H2 & H3 & H4 & H5 & H6). unfold row_balanced, row_nano, row_adjustment, form_row. cbn.
  unfold nonzero. destruct (tr_wash_sale_adjustment r) as [d|]; [|split; [split_and!; done|lia]]. specialize (H4 d eq_refl).
  rewrite deqb_nano by done. change (nano dzero) with 0. destruct (Z.eqb_spec (nano d) 0); [split; [split_and!; done|lia]|].
  destruct (dadd_nano _ _ H3 H4) as [E1 E2]; [lia|]. split; [|rewrite E2; lia]. split_and!; try done. by intros ? [= <-].
Qed.

Lemma format_rows_parts rows : forall f,
  short_term (foldl add_row f rows) = short_term f ++ (form_row <$> filter (fun r => tr_holding_period r = "short_term") rows) /\
  long_term (foldl add_row f rows) = long_term f ++ (form_row <$> filter (fun r => tr_holding_period r <> "short_term") rows).
Proof.
  induction rows as [|r rows IH]; intros f; [by rewrite !app_nil_r|]. cbn [foldl]. destruct (IH (add_row f r)) as [-> ->]. clear IH.
  unfold add_row. rewrite !filter_cons. case_bool_decide; repeat case_decide; cbn [short_term long_term fmap list_fmap]; by rewrite <- ?app_assoc.
Qed.

Lemma balanced_sum rows : Forall row_balanced rows ->
  Zsum ((fun r => nano (fr_gain_or_loss r)) <$> rows) = Zsum ((fun r => nano (fr_proceeds r)) <$> rows)
    - Zsum ((fun r => nano (fr_cost_basis r)) <$> rows) + Zsum (row_adjustment <$> rows).
Proof. induction 1 as [|r rows [_ H] _ IH]; [done|]. rewrite !fmap_cons, !Zsum_cons, H. lia. Qed.

(** Every sale is in one part of the form, by its holding period and in the order of the report; a row's gain is its proceeds
    less its cost, plus the wash sale adjustment; and the totals of a part are the exact sums of its rows, and balance the same
    way. *)
Theorem form_adds_up rows : Forall contract rows ->
  let f := format_rows rows in
  short_term f = form_row <$> filter (fun r => tr_holding_period r = "short_term") rows /\
  long_term f = form_row <$> filter (fun r => tr_holding_period r <> "short_term") rows /\
  forall part, part = short_term f \/ part = long_term f -> Zsum (row_size <$> part) < 10 ^ 28 ->
    let t := _calculate_totals part in
    Forall row_balanced part /\
    nano (t_proceeds t) = Zsum ((fun r => nano (fr_proceeds r)) <$> part) /\
    nano (t_cost_basis t) = Zsum ((fun r => nano (fr_cost_basis r)) <$> part) /\
    nano (t_adjustments t) = Zsum (row_adjustment <$> part) /\
    nano (t_gain_loss t) = nano (t_proceeds t) - nano (t_cost_basis t) + nano (t_adjustments t).
Proof.
  intros Hc f. destruct (format_rows_parts rows {| short_term := []; long_term := [] |}) as [E1 E2]. cbn [short_term long_term app] in E1, E2.
  fold (format_rows rows) in E1, E2. fold f in E1, E2. split; [exact E1|]. split; [exact E2|]. intros part Hp Hs t.
  assert (Hb : Forall row_balanced part).
  { assert (Hf : forall (P : TaxReportRow -> Prop) `{forall x, Decision (P x)}, Forall row_balanced (form_row <$> filter P rows)).
    { intros P HP. apply Forall_fmap, Forall_forall. intros r Hr. apply list_elem_of_filter in Hr as [_ Hr]. apply form_row_balanced.
      rewrite Forall_forall in Hc. by apply Hc. }
    destruct Hp as [->| ->]; rewrite ?E1, ?E2; apply Hf. }
  split; [exact Hb|]. assert (Hn : Forall row_nano part) by (eapply Forall_impl; [exact Hb|by intros r [H _]]).
  destruct (totals_exact part {| t_proceeds := dzero; t_cost_basis := dzero; t_adjustments := dzero; t_gain_loss := dzero |} 0 0 0 0)
    as (_ & H1 & _ & H2 & _ & H3 & _ & H4); [by split_and!|exact Hn|lia|]. fold (_calculate_totals part) in H1, H2, H3, H4. fold t in H1, H2, H3, H4.
  rewrite H1, H2, H3, H4, (balanced_sum part Hb). lia.
Qed.

(** The CSV file reads back as the records of the form. *)
Theorem exported_form_reads_back f include_headers : read_rows (to_csv f include_headers) = csv_records f include_headers.
Proof. apply csv_roundtrip. Qed.

(** ** Examples *)

Definition ex_report : TaxReportRow := {|
  tr_symbol := "AAPL"; tr_quantity := Dec (60 * 10 ^ 8) (-8); tr_acquired_date := Date 2024 1 15; tr_disposed_date := Date 2024 6 3;
  tr_cost_basis := Dec (1200 * 10 ^ 4) (-4); tr_proceeds := Dec (600 * 10 ^ 4) (-4); tr_gain_loss := Dec (-600 * 10 ^ 4) (-4);
  tr_holding_period := "short_term"; tr_wash_sale_adjustment := Some (Dec (400 * 10 ^ 4) (-4)); tr_lot_id := None; tr_disposition_id := None |}.

Example exported_row : _row_to_csv_values (form_row ex_report)
  = ["60 sh AAPL"; "01/15/2024"; "06/03/2024"; "600.00"; "1200.00"; "W"; "400.00"; "-200.00"].
Proof. by vm_compute. Qed.

Lemma form_adds_up_witness : nano (t_gain_loss (_calculate_totals (short_term (format_rows [ex_report])))) = -200 * 10 ^ 9.
Proof.
  destruct (form_adds_up [ex_report]) as (_ & _ & H).
  - constructor; [|constructor]. unfold contract. split; [by vm_compute|]. split; [by vm_compute|]. split; [by vm_compute|].
    split; [intros d [= <-]; by vm_compute|]. split; by vm_compute.
  - destruct (H _ (or_introl eq_refl)) as (_ & H1 & H2 & H3 & ->); [by vm_compute|]. rewrite H1, H2, H3. by vm_compute.
Defined.
