(* ===== verification/ServiceAuth.v ===== *)
(** * Service-to-service authentication (libs/core/common/api_auth_dependency.py, apps/orchestrator/clients.py)

    A service signs its request with HMAC-SHA256 over a JSON object of the
    method, the path, the query, the time, a nonce, the user, the strategy and
    the hash of the body; the receiver recomputes the signature from the request
    it got and takes each nonce once.  Header values are latin-1 text.  The
    environment variables are a map; Redis commands are not retried.  The
    decoding of a JWT and its revocation list are arguments. *)

From S2P Require Import Prelude PyDecimal PyText Formats OrderSchema RedisClient WebhookSecurity.
From S2P Require Access.
Open Scope Z_scope.

(** ** Configuration *)

Definition environ : Type := gmap string string.

Definition getenv (env : environ) (name default : string) : string :=
  match env !! name with Some v => v | None => default end.

(** [s.split(",")] *)
Fixpoint split_commas (acc l : list Ascii.ascii) : list string :=
  match l with
  | [] => [of_chars (rev acc)]
  | c :: l' => if is_char 44 c then of_chars (rev acc) :: split_commas [] l' else split_commas (c :: acc) l'
  end.

Definition ALLOWED_SERVICE_IDS (env : environ) : list string :=
  (fun s => lower (Access.strip s)) <$>
  filter (fun s => Access.strip s <> "")
    (split_commas [] (chars (getenv env "ALLOWED_SERVICE_IDS" "orchestrator,signal_service,execution_gateway,web_console_ng"))).

Definition INTERNAL_TOKEN_TIMESTAMP_TOLERANCE (env : environ) : option Z :=
  parse_int (getenv env "INTERNAL_TOKEN_TIMESTAMP_TOLERANCE_SECONDS" "300").

Definition _SERVICE_PERMISSION_ALLOWLIST : list (string * list string) :=
  [("orchestrator", ["generate_signals"; "submit_order"; "cancel_order"; "view_positions"; "view_market_data"]);
   ("signal_service", ["generate_signals"]);
   ("execution_gateway", ["submit_order"; "cancel_order"; "modify_order"; "view_market_data"]);
   ("web_console_ng", ["view_market_data"])].

Definition allowlist (service : string) : list string :=
  default [] (snd <$> List.find (fun x => bool_decide (x.1 = service)) _SERVICE_PERMISSION_ALLOWLIST).

Definition _service_has_permission (service_id : string) (permission : option string) : bool :=
  match permission with
  | None => true
  | Some p => bool_decide (p ∈ allowlist (lower service_id))
  end.

Inductive auth_mode := Enforce | LogOnly.

#[export] Instance auth_mode_eq_dec : EqDecision auth_mode.
Proof. solve_decision. Defined.

Definition _get_auth_mode (env : environ) : auth_mode :=
  if bool_decide (Access.strip (lower (getenv env "API_AUTH_MODE" "enforce")) = "log_only") then LogOnly else Enforce.

(** [re.sub(r"[^A-Z0-9_]", "_", service_id.upper())] *)
Definition service_key (service_id : string) : string :=
  of_chars ((fun c => let n := code c in
    if ((65 <=? n) && (n <=? 90)) || ((48 <=? n) && (n <=? 57)) || (n =? 95) then c else chr 95) <$> chars (upper service_id)).

Definition secret_variable (service_id : string) : string := "INTERNAL_TOKEN_SECRET_" +:+ service_key service_id.

Definition _get_service_secret (env : environ) (service_id : string) : string :=
  let per_service_secret := getenv env (secret_variable service_id) "" in
  if bool_decide (per_service_secret = "") then getenv env "INTERNAL_TOKEN_SECRET" "" else per_service_secret.

Definition _is_service_id_allowed (env : environ) (service_id : string) : bool :=
  bool_decide (lower service_id ∈ ALLOWED_SERVICE_IDS env).

Definition _is_internal_token_required (env : environ) : bool :=
  bool_decide (lower (getenv env "INTERNAL_TOKEN_REQUIRED" "true") = "true").

Definition validate_auth_config (env : environ) : result unit :=
  let mode := getenv env "API_AUTH_MODE" "enforce" in
  if one_of mode ["enforce"; "log_only"] then Ok tt
  else Raise (RuntimeError ("Invalid API_AUTH_MODE: " +:+ mode +:+ ". Must be 'enforce' or 'log_only'")).

(** The loop over the service ids: [keys] are the normalized keys seen so far, with their ids. *)
Fixpoint check_services (env : environ) (keys : list (string * string)) (ids : list string) : result unit :=
  match ids with
  | [] => Ok tt
  | service_id :: ids' =>
      let key := service_key service_id in
      match List.find (fun x => bool_decide (x.1 = key)) keys with
      | Some (_, original) =>
          Raise (RuntimeError ("Service ID collision detected: '" +:+ original +:+ "' and '" +:+ service_id +:+ "'"))
      | None =>
          let s := getenv env (secret_variable service_id) "" in
          if negb (bool_decide (s = "")) && (slen s <? 64)%nat
          then Raise (RuntimeError (secret_variable service_id +:+ " must be at least 64 characters"))
          else check_services env ((key, service_id) :: keys) ids'
      end
  end.

Definition validate_internal_token_config (env : environ) : result unit :=
  if _is_internal_token_required env then
    let secret := getenv env "INTERNAL_TOKEN_SECRET" "" in
    if bool_decide (secret = "") then Raise (RuntimeError "INTERNAL_TOKEN_SECRET is required when INTERNAL_TOKEN_REQUIRED=true.")
    else if (slen secret <? 64)%nat then Raise (RuntimeError "INTERNAL_TOKEN_SECRET must be at least 64 characters")
    else check_services env [] (remove_dups (ALLOWED_SERVICE_IDS env))
  else Ok tt.

(** ** The signature *)

Record token_fields := {
  tf_service_id : string; tf_method : string; tf_path : string; tf_query : string; tf_timestamp : string;
  tf_nonce : string; tf_user_id : option string; tf_strategy_id : option string; tf_body_hash : string
}.

Definition payload_keys : list string :=
  ["body_hash"; "method"; "nonce"; "path"; "query"; "service_id"; "strategy_id"; "timestamp"; "user_id"].

Definition payload_values (f : token_fields) : list string :=
  [tf_body_hash f; tf_method f; tf_nonce f; tf_path f; tf_query f; tf_service_id f;
   default "" (tf_strategy_id f); tf_timestamp f; default "" (tf_user_id f)].

Definition token_payload (f : token_fields) : string := object_text (strings_object payload_keys (payload_values f)).

(** [hmac.new(secret.encode(), payload.encode(), hashlib.sha256).hexdigest()] *)
Definition sign (secret : string) (f : token_fields) : string :=
  hex_of (hmac_sha256 (encode secret) (encode (token_payload f))).

Definition is_ascii (c : Ascii.ascii) : bool := code c <? 128.

(** [hmac.compare_digest] of two texts. *)
Definition compare_digest (a b : string) : result bool :=
  if forallb is_ascii (chars a) && forallb is_ascii (chars b) then Ok (bool_decide (a = b))
  else Raise (TypeError "comparing strings with non-ASCII characters is not supported").

Definition _verify_hmac_signature (env : environ) (token : string) (f : token_fields) : result bool :=
  let secret := _get_service_secret env (tf_service_id f) in
  if bool_decide (secret = "") then Ok false else compare_digest token (sign secret f).

(** A header of a request, and the request. *)
Record headers := {
  h_authorization : option string; h_user_id : option string; h_request_id : option string;
  h_session_version : option string; h_token : option string; h_timestamp : option string;
  h_nonce : option string; h_service_id : option string; h_strategy_id : option string; h_body_hash : option string
}.

Definition no_headers : headers := {|
  h_authorization := None; h_user_id := None; h_request_id := None; h_session_version := None; h_token := None;
  h_timestamp := None; h_nonce := None; h_service_id := None; h_strategy_id := None; h_body_hash := None |}.

(** The body is [None] when reading it raises. *)
Record request := { rq_method : string; rq_path : string; rq_query : string; rq_body : option (list Z) }.

(** A text that counts as true. *)
Definition truthy (o : option string) : option string :=
  match o with Some "" => None | _ => o end.

(** ** The signing side (apps/orchestrator/clients.py) *)

Definition client_secret (env : environ) : string :=
  let per_service_secret := getenv env "INTERNAL_TOKEN_SECRET_ORCHESTRATOR" "" in
  if bool_decide (per_service_secret = "") then getenv env "INTERNAL_TOKEN_SECRET" "" else per_service_secret.

Inductive body_arg := NoBody | TextBody (s : string) | BytesBody (b : list Z).

Definition body_hash_of (body : body_arg) : string :=
  Sha256.hexdigest (match body with NoBody => [] | TextBody s => encode s | BytesBody b => b end).

Definition whole_seconds (now : Z) : Z := now / second_us.

Definition signed_fields (now : Z) (nonce method path : string) (query : option string) (body : body_arg)
    (user strategy : option string) : token_fields := {|
  tf_service_id := "orchestrator"; tf_method := method; tf_path := path; tf_query := default "" query;
  tf_timestamp := str_int (whole_seconds now); tf_nonce := nonce; tf_user_id := user; tf_strategy_id := strategy;
  tf_body_hash := body_hash_of body |}.

Definition _get_internal_auth_headers (env : environ) (now : Z) (nonce method path : string) (query : option string)
    (body : body_arg) (user strategy : option string) : result headers :=
  let secret := client_secret env in
  if bool_decide (secret = "") then
    if bool_decide (lower (getenv env "S2S_AUTH_OPTIONAL" "false") = "true") then Ok no_headers
    else Raise (RuntimeError "INTERNAL_TOKEN_SECRET is required for S2S authentication. Set INTERNAL_TOKEN_SECRET or INTERNAL_TOKEN_SECRET_ORCHESTRATOR environment variable. Set S2S_AUTH_OPTIONAL=true to allow unauthenticated calls during rollout.")
  else
    let f := signed_fields now nonce method path query body user strategy in
    Ok {| h_authorization := None; h_user_id := truthy user; h_request_id := None; h_session_version := None;
          h_token := Some (sign secret f); h_timestamp := Some (tf_timestamp f); h_nonce := Some nonce;
          h_service_id := Some (tf_service_id f); h_strategy_id := truthy strategy; h_body_hash := Some (tf_body_hash f) |}.

(** ** The receiving side *)

Record InternalTokenClaims := {
  ic_service_id : string; ic_user_id : option string; ic_strategy_id : option string; ic_nonce : string; ic_timestamp : Z
}.

Inductive Role := VIEWER | RESEARCHER | OPERATOR | ADMIN.

#[export] Instance Role_eq_dec : EqDecision Role.
Proof. solve_decision. Defined.

(** gateway_auth.AuthenticatedUser *)
Record AuthenticatedUser := {
  au_user_id : string; au_role : option Role; au_strategies : list string; au_session_version : Z; au_request_id : string
}.

Record AuthContext := {
  ac_user : option AuthenticatedUser; ac_internal_claims : option InternalTokenClaims; ac_auth_type : string;
  ac_is_authenticated : bool
}.

Record APIAuthConfig := { cf_action : string; cf_require_role : option Role; cf_require_permission : option string }.

(** [request.state.user] *)
Inductive state_user := InternalUser (user_id : string) | JwtUser (user_id : string) (role : option Role) (strategies : list string).

(** What a dependency changes: Redis and [request.state]. *)
Record auth_state := {
  as_redis : redis_state;
  as_verified : bool;
  as_service_id : option string;
  as_user : option state_user;
  as_strategy_id : option string
}.

Definition set_as_redis (r : redis_state) (s : auth_state) : auth_state := {|
  as_redis := r; as_verified := as_verified s; as_service_id := as_service_id s; as_user := as_user s;
  as_strategy_id := as_strategy_id s |}.
Definition set_as_user (u : option state_user) (s : auth_state) : auth_state := {|
  as_redis := as_redis s; as_verified := as_verified s; as_service_id := as_service_id s; as_user := u;
  as_strategy_id := as_strategy_id s |}.

(** One Redis command, sent once. *)
Definition redis_command {A} (net : network) (op : keyspace -> A * keyspace) : M auth_state A := fun s =>
  let r := as_redis s in
  match net (rs_attempts r) with
  | Served => (Ok (fst (op (rs_keys r))), set_as_redis (next_attempt (fun k => snd (op k)) r) s)
  | Lost executed => (Raise RedisError, set_as_redis (next_attempt (fun k => if executed then snd (op k) else k) r) s)
  | Refused => (Raise RedisError, set_as_redis (next_attempt (fun k => k) r) s)
  end.

(** [await redis.set(key, "1", nx=True, ex=seconds)] *)
Definition set_nx (net : network) (now : Z) (key : string) (seconds : Z) : M auth_state bool :=
  if valid_expiry (Some seconds) then redis_command net (setnx_command now key "1" (Some seconds)) else raise RedisError.

Definition MAX_NONCE_LENGTH : nat := 128.

Definition nonce_key (service_id nonce : string) : string := "internal_nonce:" +:+ service_id +:+ ":" +:+ nonce.

Definition _check_nonce_unique (net : network) (redis_now : Z) (nonce service_id : string) (tolerance_seconds : Z)
    (mode : auth_mode) : M auth_state string :=
  if (MAX_NONCE_LENGTH <? slen nonce)%nat then mret "nonce_too_long"
  else
    try_except
      (was_set ← set_nx net redis_now (nonce_key service_id nonce) (tolerance_seconds * 2);
       mret (if (was_set : bool) then "ok" else "replay_detected"))
      (fun _ => Some (match mode with
                      | Enforce => raise (HTTPException 503 "service_unavailable")
                      | LogOnly => mret "ok"
                      end)).

Definition body_methods : list string := ["POST"; "PUT"; "PATCH"; "DELETE"].

(** Lines 473-519: whether the body hash lets the request through. *)
Definition body_intact (mode : auth_mode) (rq : request) (body_hash : option string) : bool :=
  match truthy body_hash with
  | None => negb (one_of (upper (rq_method rq)) body_methods)
  | Some h =>
      if one_of (rq_method rq) body_methods then
        match rq_body rq with
        | Some body_bytes => bool_decide (Sha256.hexdigest body_bytes = h)
        | None => bool_decide (mode = LogOnly)
        end
      else bool_decide (h = Sha256.hexdigest [])
  end.

Definition accept (claims : InternalTokenClaims) : M auth_state (option InternalTokenClaims) := fun s =>
  (Ok (Some claims), {|
    as_redis := as_redis s; as_verified := true; as_service_id := Some (ic_service_id claims);
    as_user := match truthy (ic_user_id claims) with Some u => Some (InternalUser u) | None => as_user s end;
    as_strategy_id := match truthy (ic_strategy_id claims) with Some i => Some i | None => as_strategy_id s end |}).

Section service.
Context (env : environ) (tolerance : Z) (net : network).

(** [now] is the clock of the service at the timestamp check, [redis_now] that of Redis at the nonce check. *)
Definition received_fields (rq : request) (service_id timestamp nonce : string) (user strategy body_hash : option string)
    : token_fields := {|
  tf_service_id := service_id; tf_method := rq_method rq; tf_path := rq_path rq; tf_query := rq_query rq;
  tf_timestamp := timestamp; tf_nonce := nonce; tf_user_id := user; tf_strategy_id := strategy;
  tf_body_hash := default "" body_hash |}.

Definition verify_internal_token (now redis_now : Z) (rq : request) (token timestamp nonce service_id user strategy body_hash : option string)
    : M auth_state (option InternalTokenClaims) :=
  let mode := _get_auth_mode env in
  match truthy token, truthy timestamp, truthy nonce, truthy service_id with
  | Some token, Some timestamp, Some nonce, Some service_id =>
      if negb (_is_service_id_allowed env service_id) then mret None
      else
        match parse_int timestamp with
        | None => mret None
        | Some ts =>
            if tolerance <? Z.abs (whole_seconds now - ts) then mret None
            else
              valid ← lift (_verify_hmac_signature env token
                              (received_fields rq service_id timestamp nonce user strategy body_hash));
              if negb valid then mret None
              else if negb (body_intact mode rq body_hash) then mret None
              else
                nonce_result ← _check_nonce_unique net redis_now nonce service_id tolerance mode;
                if negb (bool_decide (nonce_result = "ok")) then mret None
                else accept {| ic_service_id := service_id; ic_user_id := user; ic_strategy_id := strategy;
                               ic_nonce := nonce; ic_timestamp := ts |}
        end
  | _, _, _, _ => mret None
  end.

(** ** JWT users (gateway_auth.py) *)

Record jwt_claims := { jc_jti : option string; jc_exp : option Z; jc_sub : option string }.

Record authenticator := {
  validate_token : string -> result jwt_claims;
  is_token_revoked : string -> bool;
  user_strategies : result (list string)
}.

Definition _check_jti_one_time_use (now redis_now : Z) (jti : string) (exp : Z) : M auth_state unit :=
  was_set ← set_nx net redis_now ("jti_seen:" +:+ jti) (Z.max (exp - whole_seconds now) 1);
  if (was_set : bool) then mret tt else raise (InternalError ("Token already used: " +:+ jti)).

Definition authenticate (a : authenticator) (now redis_now : Z) (token x_user_id x_request_id : string) (x_session_version : Z)
    : M auth_state AuthenticatedUser :=
  claims ← lift (validate_token a token);
  match truthy (jc_jti claims) with
  | None => raise (InternalError "Token missing jti claim")
  | Some jti =>
      match jc_exp claims with
      | None => raise (InternalError "Token missing exp claim")
      | Some exp =>
          _ ← _check_jti_one_time_use now redis_now jti exp;
          if is_token_revoked a jti then raise (InternalError ("Token has been revoked: " +:+ jti))
          else if negb (bool_decide (jc_sub claims = Some x_user_id)) then
            raise (InternalError "Token subject does not match X-User-ID")
          else
            strategies ← lift (user_strategies a);
            mret {| au_user_id := x_user_id; au_role := Some ADMIN; au_strategies := strategies;
                    au_session_version := x_session_version; au_request_id := x_request_id |}
      end
  end.

Definition role_level (r : Role) : Z := match r with VIEWER => 0 | RESEARCHER => 1 | OPERATOR => 2 | ADMIN => 3 end.

(** permissions.has_permission *)
Definition has_permission (user : AuthenticatedUser) (permission : string) : bool := true.

(** ** The dependency (api_auth) *)

(** [ROLE_LEVELS.get(user.role, -1)] *)
Definition user_level (role : option Role) : Z := match role with Some r => role_level r | None => -1 end.

Definition state_set_user (u : state_user) : M auth_state unit := fun s => (Ok tt, set_as_user (Some u) s).

Definition insufficient (mode : auth_mode) (denied : bool) : M auth_state unit :=
  if denied && bool_decide (mode = Enforce) then raise (HTTPException 403 "permission_denied") else mret tt.

(** Lines 726-811, the body of the [try]: [None] when the check is skipped. *)
Definition jwt_user (config : APIAuthConfig) (a : option authenticator) (now redis_now : Z) (mode : auth_mode)
    (token x_user_id x_request_id x_session_version : string) : M auth_state (option AuthContext) :=
  match a with
  | None => if bool_decide (mode = Enforce) then raise (HTTPException 401 "jwt_not_supported") else mret None
  | Some a =>
      match parse_int x_session_version with
      | None => raise (ValueError "invalid literal for int() with base 10")
      | Some session_version =>
          user ← authenticate a now redis_now token x_user_id x_request_id session_version;
          _ ← state_set_user (JwtUser (au_user_id user) (au_role user) (au_strategies user));
          _ ← insufficient mode (match cf_require_role config with
                                 | Some r => user_level (au_role user) <? role_level r
                                 | None => false
                                 end);
          _ ← insufficient mode (match cf_require_permission config with
                                 | Some p => negb (has_permission user p)
                                 | None => false
                                 end);
          mret (Some {| ac_user := Some user; ac_internal_claims := None; ac_auth_type := "jwt"; ac_is_authenticated := true |})
      end
  end.

Definition jwt_failed (mode : auth_mode) (e : exn) : option (M auth_state (option AuthContext)) :=
  match e with
  | HTTPException _ _ => None
  | _ => Some (match mode with Enforce => raise (HTTPException 401 "invalid_token") | LogOnly => mret None end)
  end.

Definition starts_with (p s : string) : bool := bool_decide (sprefix (slen p) s = p).

(** Lines 692-829 *)
Definition jwt_auth (config : APIAuthConfig) (a : option authenticator) (now redis_now : Z) (mode : auth_mode) (h : headers)
    : M auth_state (option AuthContext) :=
  match truthy (h_authorization h), truthy (h_user_id h), truthy (h_request_id h), truthy (h_session_version h) with
  | Some authorization, Some u, Some r, Some v =>
      if starts_with "Bearer " authorization then
        try_except (jwt_user config a now redis_now mode (of_chars (drop 7 (chars authorization))) u r v) (jwt_failed mode)
      else mret None
  | _, _, _, _ => mret None
  end.

Definition unauthenticated : AuthContext :=
  {| ac_user := None; ac_internal_claims := None; ac_auth_type := "none"; ac_is_authenticated := false |}.

Definition has_complete_s2s_headers (h : headers) : bool :=
  match truthy (h_token h), truthy (h_timestamp h), truthy (h_nonce h), truthy (h_service_id h) with
  | Some _, Some _, Some _, Some _ => true
  | _, _, _, _ => false
  end.

(** Lines 611-690 *)
Definition internal_auth (config : APIAuthConfig) (now redis_now : Z) (mode : auth_mode) (rq : request) (h : headers)
    : M auth_state (option AuthContext) :=
  if has_complete_s2s_headers h then
    internal_claims ← verify_internal_token now redis_now rq (h_token h) (h_timestamp h) (h_nonce h) (h_service_id h)
                        (h_user_id h) (h_strategy_id h) (h_body_hash h);
    match internal_claims with
    | Some claims =>
        _ ← insufficient mode (negb (_service_has_permission (ic_service_id claims) (cf_require_permission config)));
        mret (Some {| ac_user := None; ac_internal_claims := Some claims; ac_auth_type := "internal_token"; ac_is_authenticated := true |})
    | None =>
        if _is_internal_token_required env && bool_decide (mode = Enforce) then raise (HTTPException 401 "invalid_internal_token")
        else mret None
    end
  else mret None.

Definition api_auth (config : APIAuthConfig) (a : option authenticator) (now redis_now : Z) (rq : request) (h : headers)
    : M auth_state AuthContext :=
  let mode := _get_auth_mode env in
  internal ← internal_auth config now redis_now mode rq h;
  match internal with
  | Some ctx => mret ctx
  | None =>
      jwt ← jwt_auth config a now redis_now mode h;
      match jwt with
      | Some ctx => mret ctx
      | None =>
          if bool_decide (mode = Enforce) then raise (HTTPException 401 "authentication_required") else mret unauthenticated
      end
  end.
End service.

(** ** What a signature covers *)

Lemma payload_determines_values f f' : token_payload f = token_payload f' -> payload_values f = payload_values f'.
Proof. by apply object_text_inj. Qed.

(** The signed text determines every field: no choice of one field can stand for another. *)
Theorem signed_text_determines_fields f f' : token_payload f = token_payload f' ->
  tf_service_id f = tf_service_id f' /\ tf_method f = tf_method f' /\ tf_path f = tf_path f' /\
  tf_query f = tf_query f' /\ tf_timestamp f = tf_timestamp f' /\ tf_nonce f = tf_nonce f' /\
  default "" (tf_user_id f) = default "" (tf_user_id f') /\
  default "" (tf_strategy_id f) = default "" (tf_strategy_id f') /\ tf_body_hash f = tf_body_hash f'.
Proof. intros H. apply payload_determines_values in H. injection H. intros. by split_and!. Qed.

Lemma sign_ascii secret f : forallb is_ascii (chars (sign secret f)) = true.
Proof.
  apply forallb_forall. intros c Hc. apply list_elem_of_In in Hc.
  assert (H : Forall (fun c => is_lower_hex c = true) (chars (sign secret f)))
    by (apply hex_of_lower; unfold hmac_sha256; apply digest_range).
  rewrite Forall_forall in H. specialize (H c Hc). unfold is_lower_hex, is_digit in H. unfold is_ascii. apply Z.ltb_lt.
  apply orb_true_iff in H as [H|H]; boolify; lia.
Qed.

Lemma compare_sign a secret f :
  compare_digest a (sign secret f) = Ok true <-> a = sign secret f.
Proof.
  unfold compare_digest. rewrite sign_ascii, andb_true_r. split.
  - destruct (forallb _ _); [|done]. intros H. injection H as H. by apply bool_decide_eq_true in H.
  - intros ->. rewrite sign_ascii. by rewrite bool_decide_true.
Qed.

(** ** Nonces *)

Definition nonce_free (redis_now : Z) (service_id nonce : string) (k : keyspace) : Prop :=
  lookup_live redis_now (nonce_key service_id nonce) k = None.

(** What the check of a nonce says in enforce mode. *)
Lemma nonce_ok net redis_now nonce service_id tolerance s s' :
  _check_nonce_unique net redis_now nonce service_id tolerance Enforce s = (Ok "ok", s') ->
  (slen nonce <= MAX_NONCE_LENGTH)%nat /\ 0 < tolerance /\ nonce_free redis_now service_id nonce (rs_keys (as_redis s)) /\
  s' = set_as_redis (next_attempt <[nonce_key service_id nonce := ("1", Some (redis_now + tolerance * 2 * second_us))]> (as_redis s)) s.
Proof.
  unfold _check_nonce_unique. destruct (Nat.ltb_spec MAX_NONCE_LENGTH (slen nonce)) as [|Hl]; [done|].
  unfold try_except. rewrite M_bind_run. unfold set_nx, valid_expiry.
  destruct (Z.ltb_spec 0 (tolerance * 2)) as [Ht|]; [|done]. unfold redis_command.
  destruct (net (rs_attempts (as_redis s))); [|done|done]. unfold setnx_command, nonce_free.
  destruct (lookup_live redis_now _ (rs_keys (as_redis s))) as [v|] eqn:El; [done|]. intros H. injection H as <-.
  split_and!; [done|lia|done|]. unfold next_attempt. cbv beta. rewrite El. done.
Qed.

Lemma nonce_served net redis_now nonce service_id tolerance mode s :
  (slen nonce <= MAX_NONCE_LENGTH)%nat -> 0 < tolerance -> net (rs_attempts (as_redis s)) = Served ->
  nonce_free redis_now service_id nonce (rs_keys (as_redis s)) ->
  exists s', _check_nonce_unique net redis_now nonce service_id tolerance mode s = (Ok "ok", s').
Proof.
  intros Hl Ht Hn Hf. unfold _check_nonce_unique. destruct (Nat.ltb_spec MAX_NONCE_LENGTH (slen nonce)); [lia|].
  unfold try_except. rewrite M_bind_run. unfold set_nx, valid_expiry.
  destruct (Z.ltb_spec 0 (tolerance * 2)); [|lia]. unfold redis_command. rewrite Hn. unfold setnx_command.
  rewrite Hf. by eexists.
Qed.

Section accepted.
Context (env : environ) (tolerance : Z) (net : network).
Hypothesis Henforce : _get_auth_mode env = Enforce.

Definition verify_request (now redis_now : Z) (rq : request) (h : headers) : M auth_state (option InternalTokenClaims) :=
  verify_internal_token env tolerance net now redis_now rq (h_token h) (h_timestamp h) (h_nonce h) (h_service_id h)
    (h_user_id h) (h_strategy_id h) (h_body_hash h).

(** The token a receiver expects for the request it got. *)
Definition expected_token (rq : request) (h : headers) (timestamp : string) (claims : InternalTokenClaims) : string :=
  sign (_get_service_secret env (ic_service_id claims))
    (received_fields rq (ic_service_id claims) timestamp (ic_nonce claims) (h_user_id h) (h_strategy_id h) (h_body_hash h)).

(** What a request has for its claims to be believed at [now], with the nonces of [k]. *)
Definition credible (now redis_now : Z) (rq : request) (h : headers) (k : keyspace) (claims : InternalTokenClaims) : Prop :=
  exists timestamp,
    truthy (h_timestamp h) = Some timestamp /\ parse_int timestamp = Some (ic_timestamp claims) /\
    Z.abs (whole_seconds now - ic_timestamp claims) <= tolerance /\
    truthy (h_service_id h) = Some (ic_service_id claims) /\ lower (ic_service_id claims) ∈ ALLOWED_SERVICE_IDS env /\
    truthy (h_token h) = Some (expected_token rq h timestamp claims) /\ _get_service_secret env (ic_service_id claims) <> "" /\
    ic_user_id claims = h_user_id h /\ ic_strategy_id claims = h_strategy_id h /\
    body_intact Enforce rq (h_body_hash h) = true /\
    truthy (h_nonce h) = Some (ic_nonce claims) /\ (slen (ic_nonce claims) <= MAX_NONCE_LENGTH)%nat /\
    nonce_free redis_now (ic_service_id claims) (ic_nonce claims) k.

Lemma verify_credible now redis_now rq h s claims s' :
  verify_request now redis_now rq h s = (Ok (Some claims), s') ->
  credible now redis_now rq h (rs_keys (as_redis s)) claims /\ 0 < tolerance /\
  rs_keys (as_redis s') = <[nonce_key (ic_service_id claims) (ic_nonce claims) :=
                            ("1", Some (redis_now + tolerance * 2 * second_us))]> (rs_keys (as_redis s)).
Proof.
  unfold verify_request, verify_internal_token. rewrite Henforce.
  destruct (truthy (h_token h)) as [token|] eqn:Et, (truthy (h_timestamp h)) as [timestamp|] eqn:Ets,
    (truthy (h_nonce h)) as [nonce|] eqn:En, (truthy (h_service_id h)) as [sid|] eqn:Es; try done.
  destruct (_is_service_id_allowed env sid) eqn:Ea; [|done]. cbn [negb].
  destruct (parse_int timestamp) as [t|] eqn:Ep; [|done].
  destruct (Z.ltb_spec tolerance (Z.abs (whole_seconds now - t))) as [|Hage]; [done|].
  rewrite M_bind_run. unfold lift at 1. unfold _verify_hmac_signature. cbn [tf_service_id received_fields].
  destruct (bool_decide (_ = "")) eqn:Esec; [done|]. apply bool_decide_eq_false in Esec.
  destruct (compare_digest _ _) as [[]|] eqn:Ec; [|done..]. apply compare_sign in Ec. cbn [negb].
  destruct (body_intact Enforce rq (h_body_hash h)) eqn:Eb; [|done]. cbn [negb]. rewrite M_bind_run.
  destruct (_check_nonce_unique net redis_now nonce sid tolerance Enforce s) as [[r|e] s1] eqn:Ek; [|done].
  destruct (bool_decide (r = "ok")) eqn:Er; [|done]. apply bool_decide_eq_true in Er as ->. cbn [negb].
  destruct (nonce_ok _ _ _ _ _ _ _ Ek) as (Hl & Ht & Hf & ->). unfold accept. intros [= <- <-].
  cbn [as_redis set_as_redis ic_service_id ic_nonce next_attempt rs_keys]. split_and!; [|done|done].
  exists timestamp. cbn [ic_service_id ic_nonce ic_timestamp ic_user_id ic_strategy_id].
  unfold _is_service_id_allowed in Ea. apply bool_decide_eq_true in Ea.
  split_and!; try done. unfold expected_token. cbn [ic_service_id ic_nonce]. by rewrite Et, Ec.
Qed.

(** A request that has all this is accepted when Redis answers. *)
Lemma credible_verifies now redis_now rq h s claims :
  credible now redis_now rq h (rs_keys (as_redis s)) claims -> 0 < tolerance -> net (rs_attempts (as_redis s)) = Served ->
  exists s', verify_request now redis_now rq h s = (Ok (Some claims), s').
Proof.
  intros (timestamp & Ets & Ep & Hage & Es & Ha & Et & Hsec & Hu & Hi & Hb & En & Hl & Hf) Ht Hn.
  unfold verify_request, verify_internal_token. rewrite Henforce, Et, Ets, En, Es.
  unfold _is_service_id_allowed. rewrite (bool_decide_eq_true_2 _ Ha). cbn [negb]. rewrite Ep.
  destruct (Z.ltb_spec tolerance (Z.abs (whole_seconds now - ic_timestamp claims))); [lia|].
  rewrite M_bind_run. unfold lift at 1. unfold _verify_hmac_signature. cbn [tf_service_id received_fields].
  rewrite (bool_decide_eq_false_2 _ Hsec). unfold expected_token. rewrite (proj2 (compare_sign _ _ _) eq_refl).
  cbn [negb]. rewrite Hb. cbn [negb]. rewrite M_bind_run.
  destruct (nonce_served net redis_now (ic_nonce claims) (ic_service_id claims) tolerance Enforce s Hl Ht Hn Hf) as [s1 ->].
  rewrite bool_decide_true by done. cbn [negb]. unfold accept. rewrite <- Hu, <- Hi. destruct claims. by eexists.
Qed.
End accepted.

Lemma live_key redis_now key v t (k : keyspace) : k !! key = Some (v, Some t) -> redis_now < t ->
  lookup_live redis_now key k = Some v.
Proof. intros E H. unfold lookup_live. rewrite E. by destruct (Z.ltb_spec redis_now t); [|lia]. Qed.

Lemma whole_seconds_bounds now : whole_seconds now * second_us <= now < (whole_seconds now + 1) * second_us.
Proof.
  unfold whole_seconds, second_us. pose proof (Z.div_mod now 1000000 ltac:(lia)).
  pose proof (Z.mod_pos_bound now 1000000 ltac:(lia)). lia.
Qed.

Lemma sign_ext secret f f' : payload_values f = payload_values f' -> sign secret f = sign secret f'.
Proof. unfold sign, token_payload. by intros ->. Qed.

Lemma default_truthy o : default "" (truthy o) = default "" o.
Proof. by destruct o as [[]|]. Qed.

(** A request whose claims are believed is exactly one that is signed with the secret of an allowed service for
    this method, path, query, user, strategy and body, is stamped within the tolerance, and has a nonce not seen before. *)
Theorem internal_token_accepted_iff env tolerance net now redis_now rq h s claims :
  _get_auth_mode env = Enforce -> 0 < tolerance -> net (rs_attempts (as_redis s)) = Served ->
  fst (verify_request env tolerance net now redis_now rq h s) = Ok (Some claims) <->
  credible env tolerance now redis_now rq h (rs_keys (as_redis s)) claims.
Proof.
  intros He Ht Hn. split.
  - destruct (verify_request _ _ _ _ _ _ _ s) as [r s'] eqn:E. simpl. intros ->.
    by destruct (verify_credible env tolerance net He _ _ _ _ _ _ _ E).
  - intros H. by destruct (credible_verifies env tolerance net He _ _ _ _ _ _ H Ht Hn) as [s' ->].
Qed.

(** C26. A token is accepted once: while Redis keeps its nonce, no later request with the same stamp, nonce and
    service is believed, when a check takes at most [delay] seconds and the stamp is more than that below the
    greatest the tolerance admits. *)
Theorem token_accepted_once env tolerance net now redis_now rq h s claims s1 now2 redis_now2 rq2 h2 s2 claims2 delay :
  _get_auth_mode env = Enforce ->
  verify_request env tolerance net now redis_now rq h s = (Ok (Some claims), s1) ->
  (let key := nonce_key (ic_service_id claims) (ic_nonce claims) in
   rs_keys (as_redis s2) !! key = rs_keys (as_redis s1) !! key) ->
  truthy (h_timestamp h2) = truthy (h_timestamp h) -> truthy (h_nonce h2) = truthy (h_nonce h) ->
  truthy (h_service_id h2) = truthy (h_service_id h) ->
  now <= redis_now -> redis_now2 <= now2 + delay * second_us ->
  ic_timestamp claims + delay < whole_seconds now + tolerance ->
  fst (verify_request env tolerance net now2 redis_now2 rq2 h2 s2) <> Ok (Some claims2).
Proof.
  intros He H1 Hkey Ht Hn Hs Hr Hd Hts H2.
  destruct (verify_request env tolerance net now2 redis_now2 rq2 h2 s2) as [r s3] eqn:E2. simpl in H2. subst r.
  destruct (verify_credible env tolerance net He _ _ _ _ _ _ _ H1) as (C1 & Htol & Hk1).
  destruct (verify_credible env tolerance net He _ _ _ _ _ _ _ E2) as (C2 & _ & _).
  destruct C1 as (t1 & A1 & A2 & _ & A4 & _ & _ & _ & _ & _ & _ & A11 & _).
  destruct C2 as (t2 & B1 & B2 & B3 & B4 & _ & _ & _ & _ & _ & _ & B11 & _ & B13).
  rewrite Ht, A1 in B1. injection B1 as <-. rewrite A2 in B2. injection B2 as B2.
  rewrite Hn, A11 in B11. injection B11 as B11. rewrite Hs, A4 in B4. injection B4 as B4.
  unfold nonce_free in B13. rewrite <- B4, <- B11 in B13. cbv zeta in Hkey. rewrite Hk1, lookup_insert_eq in Hkey.
  rewrite (live_key redis_now2 _ _ _ _ Hkey) in B13; [done|].
  pose proof (whole_seconds_bounds now). pose proof (whole_seconds_bounds now2). unfold second_us in *. lia.
Qed.

Lemma truthy_some s : s <> "" -> truthy (Some s) = Some s.
Proof. by destruct s. Qed.

(** A service whose token is verified and that has the permission is let in. *)
Lemma internal_auth_allowed env tolerance net config now redis_now rq h s claims s' :
  verify_request env tolerance net now redis_now rq h s = (Ok (Some claims), s') ->
  _service_has_permission (ic_service_id claims) (cf_require_permission config) = true ->
  internal_auth env tolerance net config now redis_now Enforce rq h s = (Ok (Some
    {| ac_user := None; ac_internal_claims := Some claims; ac_auth_type := "internal_token"; ac_is_authenticated := true |}), s').
Proof.
  intros Hv Hp. unfold internal_auth.
  assert (Hc : has_complete_s2s_headers h = true).
  { unfold has_complete_s2s_headers. unfold verify_request, verify_internal_token in Hv.
    by destruct (truthy (h_token h)), (truthy (h_timestamp h)), (truthy (h_nonce h)), (truthy (h_service_id h)). }
  rewrite Hc, M_bind_run. unfold verify_request in Hv. rewrite Hv. rewrite M_bind_run. unfold insufficient. by rewrite Hp.
Qed.

Section round_trip.
Context (client_env env : environ) (tolerance : Z) (net : network).
Hypothesis Henforce : _get_auth_mode env = Enforce.
Hypothesis Hsecret : client_secret client_env = _get_service_secret env "orchestrator".
Hypothesis Hallowed : "orchestrator" ∈ ALLOWED_SERVICE_IDS env.

Definition body_bytes (body : body_arg) : list Z :=
  match body with NoBody => [] | TextBody s => encode s | BytesBody b => b end.

(** The request as it was signed. *)
Definition delivered (rq : request) (method path : string) (query : option string) (body : body_arg) : Prop :=
  rq_method rq = method /\ rq_path rq = path /\ rq_query rq = default "" query /\
  ((method ∈ body_methods /\ rq_body rq = Some (body_bytes body)) \/ (~ method ∈ body_methods /\ body_bytes body = [])).

Lemma signed_credible sent nonce method path query body user strategy h now redis_now rq k :
  client_secret client_env <> "" ->
  _get_internal_auth_headers client_env sent nonce method path query body user strategy = Ok h ->
  delivered rq method path query body -> 0 <= sent ->
  Z.abs (whole_seconds now - whole_seconds sent) <= tolerance ->
  nonce <> "" -> (slen nonce <= MAX_NONCE_LENGTH)%nat -> nonce_free redis_now "orchestrator" nonce k ->
  credible env tolerance now redis_now rq h k
    {| ic_service_id := "orchestrator"; ic_user_id := truthy user; ic_strategy_id := truthy strategy; ic_nonce := nonce;
       ic_timestamp := whole_seconds sent |}.
Proof.
  intros Hs. unfold _get_internal_auth_headers. rewrite (bool_decide_eq_false_2 _ Hs). intros [= <-]
    (Hm & Hp & Hq & Hb) Hsent Hage Hne Hl Hf. unfold credible. cbn [ic_service_id ic_nonce ic_timestamp ic_user_id ic_strategy_id
    h_timestamp h_token h_nonce h_service_id h_user_id h_strategy_id h_body_hash].
  set (f := signed_fields _ _ _ _ _ _ _ _).
  assert (Hw : 0 <= whole_seconds sent) by (apply Z.div_pos; [done|reflexivity]).
  assert (Hts : truthy (Some (tf_timestamp f)) = Some (tf_timestamp f)).
  { apply truthy_some. intros E. pose proof (parse_int_str _ Hw) as Hp'.
    change (str_int (whole_seconds sent)) with (tf_timestamp f) in Hp'. by rewrite E in Hp'. }
  exists (tf_timestamp f). split_and!; try done.
  - by apply parse_int_str.
  - unfold expected_token. cbn [ic_service_id ic_nonce h_user_id h_strategy_id h_body_hash]. rewrite <- Hsecret.
    assert (E : sign (client_secret client_env) f = sign (client_secret client_env) (received_fields rq "orchestrator"
      (tf_timestamp f) nonce (truthy user) (truthy strategy) (Some (tf_body_hash f)))).
    { apply sign_ext. unfold payload_values, received_fields. cbn. by rewrite Hm, Hp, Hq, !default_truthy. }
    transitivity (Some (sign (client_secret client_env) f)); [|by rewrite E]. apply truthy_some. intros E'.
    pose proof (signature_length (encode (token_payload f)) (client_secret client_env)) as H.
    change (generate_webhook_signature (encode (token_payload f)) (client_secret client_env)) with (sign (client_secret client_env) f) in H.
    by rewrite E' in H.
  - by rewrite <- Hsecret.
  - assert (Hh : truthy (Some (tf_body_hash f)) = Some (tf_body_hash f)).
    { apply truthy_some. intros E. pose proof (hexdigest_length (body_bytes body)) as H.
      change (Sha256.hexdigest (body_bytes body)) with (tf_body_hash f) in H. by rewrite E in H. }
    change (body_intact Enforce rq (Some (tf_body_hash f)) = true). unfold body_intact. rewrite Hh, Hm. unfold one_of. destruct Hb as [[Hin ->]|[Hout He]].
    + rewrite (bool_decide_eq_true_2 _ Hin). by apply bool_decide_eq_true_2.
    + rewrite (bool_decide_eq_false_2 _ Hout). apply bool_decide_eq_true_2.
      change (Sha256.hexdigest (body_bytes body) = Sha256.hexdigest []). rewrite He. reflexivity.
  - by apply truthy_some.
Qed.

(** A request signed by the orchestrator and delivered as it was signed is accepted, for a permission the
    orchestrator has, when its nonce is new and it arrives in time. *)
Theorem signed_request_accepted config a sent nonce method path query body user strategy h now redis_now rq s p :
  client_secret client_env <> "" ->
  _get_internal_auth_headers client_env sent nonce method path query body user strategy = Ok h ->
  delivered rq method path query body -> 0 <= sent -> 0 < tolerance ->
  Z.abs (whole_seconds now - whole_seconds sent) <= tolerance ->
  nonce <> "" -> (slen nonce <= MAX_NONCE_LENGTH)%nat ->
  nonce_free redis_now "orchestrator" nonce (rs_keys (as_redis s)) -> net (rs_attempts (as_redis s)) = Served ->
  cf_require_permission config = Some p -> p ∈ allowlist "orchestrator" ->
  fst (api_auth env tolerance net config a now redis_now rq h s) = Ok
    {| ac_user := None;
       ac_internal_claims := Some {| ic_service_id := "orchestrator"; ic_user_id := truthy user; ic_strategy_id := truthy strategy;
                                     ic_nonce := nonce; ic_timestamp := whole_seconds sent |};
       ac_auth_type := "internal_token"; ac_is_authenticated := true |}.
Proof.
  intros Hs Hh Hd Hsent Ht Hage Hne Hl Hf Hn Hp Hin.
  pose proof (signed_credible _ _ _ _ _ _ _ _ _ now redis_now rq (rs_keys (as_redis s)) Hs Hh Hd Hsent Hage Hne Hl Hf) as C.
  destruct (credible_verifies env tolerance net Henforce _ _ _ _ _ _ C Ht Hn) as [s' Hv].
  unfold api_auth. rewrite Henforce, M_bind_run.
  rewrite (internal_auth_allowed _ _ _ _ _ _ _ _ _ _ _ Hv); [done|]. unfold _service_has_permission. cbn [ic_service_id].
  rewrite Hp. change (lower "orchestrator") with "orchestrator". by rewrite (bool_decide_eq_true_2 _ Hin).
Qed.
End round_trip.

(** ** Enforce mode *)

Lemma set_nx_taken net now key seconds s b s' : set_nx net now key seconds s = (Ok b, s') ->
  b = true -> lookup_live now key (rs_keys (as_redis s)) = None.
Proof.
  unfold set_nx. destruct (valid_expiry _); [|done]. unfold redis_command. destruct (net _); [|done|done].
  unfold setnx_command. destruct (lookup_live now key (rs_keys (as_redis s))); [|done]. by intros [= <-].
Qed.

(** What a JWT has when its user is believed. *)
Definition jwt_believed (a : authenticator) (now redis_now : Z) (token x_user_id : string) (k : keyspace) : Prop :=
  exists claims jti, validate_token a token = Ok claims /\ truthy (jc_jti claims) = Some jti /\
    jc_exp claims <> None /\ jc_sub claims = Some x_user_id /\ is_token_revoked a jti = false /\
    lookup_live redis_now ("jti_seen:" +:+ jti) k = None.

Lemma authenticate_believed net a now redis_now token u r v s user s' :
  authenticate net a now redis_now token u r v s = (Ok user, s') ->
  au_user_id user = u /\ jwt_believed a now redis_now token u (rs_keys (as_redis s)).
Proof.
  unfold authenticate. rewrite M_bind_run. unfold lift at 1.
  destruct (validate_token a token) as [claims|] eqn:Ev; [|done].
  destruct (truthy (jc_jti claims)) as [jti|] eqn:Ej; [|done]. destruct (jc_exp claims) as [exp|] eqn:Ee; [|done].
  rewrite M_bind_run. unfold _check_jti_one_time_use. rewrite M_bind_run.
  destruct (set_nx _ _ _ _ s) as [[b|e] s1] eqn:Ek; [|done]. destruct b; [|done].
  pose proof (set_nx_taken _ _ _ _ _ _ _ Ek eq_refl) as Hfree.
  change ((mret tt : M auth_state unit) s1) with (@Ok unit tt, s1). cbv iota beta.
  destruct (is_token_revoked a jti) eqn:Er; [done|].
  destruct (bool_decide (jc_sub claims = Some u)) eqn:Es; [|done]. apply bool_decide_eq_true in Es. cbn [negb].
  rewrite M_bind_run. unfold lift at 1. destruct (user_strategies a) as [l|]; [|done]. intros [= <- <-].
  split; [done|]. exists claims, jti. split_and!; try done. by rewrite Ee.
Qed.

Section enforced.
Context (env : environ) (tolerance : Z) (net : network).
Hypothesis Henforce : _get_auth_mode env = Enforce.
Variable config : APIAuthConfig.

(** The internal part lets through a service that is believed and has the permission. *)
Lemma internal_auth_enforced now redis_now rq h s r s' :
  internal_auth env tolerance net config now redis_now Enforce rq h s = (Ok r, s') ->
  match r with
  | Some ctx => exists claims, ac_internal_claims ctx = Some claims /\ ac_is_authenticated ctx = true /\
      credible env tolerance now redis_now rq h (rs_keys (as_redis s)) claims /\
      _service_has_permission (ic_service_id claims) (cf_require_permission config) = true
  | None => has_complete_s2s_headers h = false -> s' = s
  end.
Proof.
  unfold internal_auth. destruct (has_complete_s2s_headers h); [|by intros [= <- <-]]. rewrite M_bind_run.
  destruct (verify_internal_token _ _ _ _ _ _ _ _ _ _ _ _ _ s) as [[[claims|]|e] s1] eqn:Ev; [| |done].
  - destruct (verify_credible env tolerance net Henforce now redis_now rq h s claims s1 Ev) as (C & _ & _).
    rewrite M_bind_run. unfold insufficient. rewrite bool_decide_true, andb_true_r by done.
    destruct (_service_has_permission _ _) eqn:Ep; [|done]. intros [= <- <-]. by exists claims.
  - destruct (_is_internal_token_required env); cbn; [by intros [=]|]. by intros [= <- <-].
Qed.

Lemma jwt_auth_enforced a now redis_now h s ctx s' :
  jwt_auth net config a now redis_now Enforce h s = (Ok (Some ctx), s') ->
  exists au authorization u user, a = Some au /\ truthy (h_authorization h) = Some authorization /\
    truthy (h_user_id h) = Some u /\ ac_user ctx = Some user /\ au_user_id user = u /\ ac_is_authenticated ctx = true /\
    jwt_believed au now redis_now (of_chars (drop 7 (chars authorization))) u (rs_keys (as_redis s)).
Proof.
  unfold jwt_auth. destruct (truthy (h_authorization h)) as [z|] eqn:Ea, (truthy (h_user_id h)) as [u|] eqn:Eu,
    (truthy (h_request_id h)) as [r|], (truthy (h_session_version h)) as [v|]; try done.
  destruct (starts_with _ _); [|done]. unfold try_except, jwt_user. destruct a as [a|]; [|done].
  destruct (parse_int v) as [sv|]; [|done]. rewrite M_bind_run.
  destruct (authenticate net a now redis_now _ u r sv s) as [[user|e] s1] eqn:E1; [|by destruct e].
  destruct (authenticate_believed _ _ _ _ _ _ _ _ _ _ _ E1) as [Hu Hb].
  rewrite M_bind_run. unfold state_set_user. rewrite M_bind_run.
  destruct (insufficient _ _ _) as [[[]|e] s2] eqn:E2; [|].
  - rewrite M_bind_run. destruct (insufficient _ _ s2) as [[[]|e] s3] eqn:E3.
    + intros [= <- <-]. by exists a, z, u, user.
    + unfold insufficient in E3. destruct (_ && _); [|done]. by injection E3 as <- <-.
  - unfold insufficient in E2. destruct (_ && _); [|done]. by injection E2 as <- <-.
Qed.
End enforced.

(** In enforce mode a request that is let through comes from a service whose token is believed and that has the
    permission, or, when the internal part changed nothing, from the subject of a JWT that is valid, unused and not revoked. *)
Theorem enforced_requests_authenticated env tolerance net config a now redis_now rq h s ctx s' :
  _get_auth_mode env = Enforce ->
  api_auth env tolerance net config a now redis_now rq h s = (Ok ctx, s') ->
  ac_is_authenticated ctx = true /\
  ((exists claims, ac_internal_claims ctx = Some claims /\
      credible env tolerance now redis_now rq h (rs_keys (as_redis s)) claims /\
      _service_has_permission (ic_service_id claims) (cf_require_permission config) = true) \/
   (exists au authorization u user s1, a = Some au /\ truthy (h_authorization h) = Some authorization /\
      truthy (h_user_id h) = Some u /\ ac_user ctx = Some user /\ au_user_id user = u /\
      (has_complete_s2s_headers h = false -> s1 = s) /\
      jwt_believed au now redis_now (of_chars (drop 7 (chars authorization))) u (rs_keys (as_redis s1)))).
Proof.
  intros He. unfold api_auth. rewrite He, M_bind_run.
  destruct (internal_auth _ _ _ _ _ _ _ _ _ s) as [[r|e] s1] eqn:E1; [|done].
  pose proof (internal_auth_enforced env tolerance net He config _ _ _ _ _ _ _ E1) as H.
  destruct r as [c|].
  { intros [= <- <-]. destruct H as (claims & ? & ? & ? & ?). split; [done|]. left. by exists claims. }
  rewrite M_bind_run. destruct (jwt_auth _ _ _ _ _ _ _ s1) as [[[c|]|e] s2] eqn:E2; [| |done].
  - intros [= <- <-]. destruct (jwt_auth_enforced net config _ _ _ _ _ _ _ E2) as (au & z & u & user & ? & ? & ? & ? & ? & ? & ?).
    split; [done|]. right. by exists au, z, u, user, s1.
  - by rewrite bool_decide_true.
Qed.

(** The configuration of the gateway's order endpoint (routes/orders.py). *)
Definition order_auth : APIAuthConfig :=
  {| cf_action := "order_submit"; cf_require_role := None; cf_require_permission := Some "submit_order" |}.

(** ** Configuration checks *)

Lemma check_services_ok env ids : forall keys, check_services env keys ids = Ok tt ->
  NoDup (service_key <$> ids) /\ (forall i, i ∈ ids -> ~ service_key i ∈ keys.*1) /\
  (forall i, i ∈ ids -> getenv env (secret_variable i) "" = "" \/ (64 <= slen (getenv env (secret_variable i) ""))%nat).
Proof.
  induction ids as [|i ids IH]; intros keys; cbn [check_services].
  { intros _. split_and!; [constructor|by intros i Hi%elem_of_nil..]. }
  destruct (List.find _ keys) as [[k o]|] eqn:Ef; [done|].
  assert (Hi : ~ service_key i ∈ keys.*1).
  { intros Hin. apply list_elem_of_fmap in Hin as ([k o] & Hk & Hin). cbn in Hk.
    apply list_elem_of_In in Hin. pose proof (List.find_none _ _ Ef _ Hin) as H. cbn in H. by apply bool_decide_eq_false in H. }
  destruct (negb _ && _) eqn:Es; [done|]. intros H. destruct (IH _ H) as (H1 & H2 & H3). split_and!.
  - rewrite fmap_cons. constructor; [|done]. intros Hin. apply list_elem_of_fmap in Hin as (j & Hj & Hin).
    apply (H2 j Hin). rewrite <- Hj. left.
  - intros j [->|Hj]%elem_of_cons; [done|]. intros Hin. apply (H2 j Hj). by right.
  - intros j [->|Hj]%elem_of_cons; [|by apply H3]. apply andb_false_iff in Es as [E|E].
    + apply negb_false_iff, bool_decide_eq_true in E. by left.
    + right. by apply Nat.ltb_ge in E.
Qed.

(** A configuration that passes the start-up check gives every allowed service a secret of at least 64 characters,
    and different services different variables for theirs. *)
Theorem valid_configuration_secrets env i j :
  validate_internal_token_config env = Ok tt -> _is_internal_token_required env = true ->
  i ∈ ALLOWED_SERVICE_IDS env -> j ∈ ALLOWED_SERVICE_IDS env ->
  (64 <= slen (_get_service_secret env i))%nat /\ (secret_variable i = secret_variable j -> i = j).
Proof.
  unfold validate_internal_token_config. intros H Hr Hi Hj. rewrite Hr in H.
  destruct (bool_decide _); [done|]. destruct (Nat.ltb_spec (slen (getenv env "INTERNAL_TOKEN_SECRET" "")) 64) as [|Hl]; [done|].
  destruct (check_services_ok _ _ _ H) as (H1 & _ & H3). rewrite <- elem_of_remove_dups in Hi, Hj. split.
  - unfold _get_service_secret. destruct (bool_decide _) eqn:E; [done|]. apply bool_decide_eq_false in E.
    by destruct (H3 i Hi).
  - intros E. unfold secret_variable in E. apply (inj (String.append _)) in E.
    apply list_elem_of_lookup in Hi as [x Hx]. apply list_elem_of_lookup in Hj as [y Hy].
    assert (x = y) as ->.
    { eapply (NoDup_lookup _ x y (service_key i) H1); rewrite list_lookup_fmap; [by rewrite Hx|by rewrite Hy, E]. }
    congruence.
Qed.

(** ** A token that is not ASCII

    The comparison raises for it, so the caller sees a server error instead of a refusal. *)
Lemma non_ascii_token_raises env tolerance net config a now redis_now rq h s token timestamp service_id ts :
  truthy (h_token h) = Some token -> forallb is_ascii (chars token) = false ->
  truthy (h_timestamp h) = Some timestamp -> parse_int timestamp = Some ts ->
  Z.abs (whole_seconds now - ts) <= tolerance -> truthy (h_nonce h) <> None ->
  truthy (h_service_id h) = Some service_id -> lower service_id ∈ ALLOWED_SERVICE_IDS env ->
  _get_service_secret env service_id <> "" ->
  api_auth env tolerance net config a now redis_now rq h s =
  (Raise (TypeError "comparing strings with non-ASCII characters is not supported"), s).
Proof.
  intros Ht Hna Hts Hp Hage Hn Hs Ha Hsec. destruct (truthy (h_nonce h)) as [nonce|] eqn:En; [|done].
  unfold api_auth. rewrite M_bind_run. unfold internal_auth, has_complete_s2s_headers. rewrite Ht, Hts, En, Hs, M_bind_run.
  unfold verify_internal_token. rewrite Ht, Hts, En, Hs. unfold _is_service_id_allowed. rewrite (bool_decide_eq_true_2 _ Ha).
  cbn [negb]. rewrite Hp. destruct (Z.ltb_spec tolerance (Z.abs (whole_seconds now - ts))); [lia|]. rewrite M_bind_run.
  unfold lift at 1. unfold _verify_hmac_signature. cbn [tf_service_id received_fields]. rewrite (bool_decide_eq_false_2 _ Hsec).
  unfold compare_digest. by rewrite Hna.
Qed.

(** ** Concrete runs *)

Definition sample_env : environ :=
  list_to_map [("INTERNAL_TOKEN_SECRET", "0123456789abcdef0123456789abcdef0123456789abcdef0123456789abcdef")].
Definition sample_request : request :=
  {| rq_method := "POST"; rq_path := "/api/v1/orders"; rq_query := ""; rq_body := Some (encode "{}") |}.
Definition sample_state : auth_state := {|
  as_redis := {| rs_keys := ∅; rs_attempts := 0 |}; as_verified := false; as_service_id := None; as_user := None;
  as_strategy_id := None |}.
Definition always_served : network := fun _ => Served.

(** The headers of the request, signed at second [t]. *)
Definition sample_headers (t : Z) : headers :=
  match _get_internal_auth_headers sample_env (t * second_us) "nonce-1" "POST" "/api/v1/orders" None
          (TextBody "{}") (Some "alice") None with
  | Ok h => h
  | Raise _ => no_headers
  end.

Lemma signed_request_accepted_witness :
  ac_is_authenticated <$> fst (api_auth sample_env 300 always_served order_auth None (1010 * second_us) (1010 * second_us)
    sample_request (sample_headers 1000) sample_state) = Ok true.
Proof.
  rewrite (signed_request_accepted sample_env sample_env 300 always_served ltac:(reflexivity) ltac:(reflexivity)
    ltac:(apply (bool_decide_unpack _); vm_compute; reflexivity) order_auth None (1000 * second_us) "nonce-1" "POST" "/api/v1/orders" None
    (TextBody "{}") (Some "alice") None (sample_headers 1000) (1010 * second_us) (1010 * second_us) sample_request sample_state "submit_order");
    try reflexivity; try (vm_compute; discriminate).
  - split_and!; try reflexivity. left. split; [apply (bool_decide_unpack _); vm_compute; reflexivity|reflexivity].
  - vm_compute. lia.
  - apply (bool_decide_unpack _). vm_compute. reflexivity.
Defined.

(** A token stamped the whole tolerance ahead outlives its nonce by a second. *)
Lemma future_stamp_replayed :
  exists s1 s2,
    verify_request sample_env 300 always_served (1000 * second_us) (1000 * second_us) sample_request (sample_headers 1300)
      sample_state = (Ok (Some {| ic_service_id := "orchestrator"; ic_user_id := Some "alice"; ic_strategy_id := None;
                                  ic_nonce := "nonce-1"; ic_timestamp := 1300 |}), s1) /\
    verify_request sample_env 300 always_served (1600 * second_us + 500000) (1600 * second_us + 500000) sample_request
      (sample_headers 1300) s1 = (Ok (Some {| ic_service_id := "orchestrator"; ic_user_id := Some "alice"; ic_strategy_id := None;
                                  ic_nonce := "nonce-1"; ic_timestamp := 1300 |}), s2).
Proof. eexists _, _. split; vm_compute; reflexivity. Qed.
