(* ===== verification/Orchestrator.v ===== *)
(** * The orchestrator: signals to orders (apps/orchestrator: orchestrator.py, clients.py, schemas.py)

    One run fetches signals, prices them, sizes an order for each and submits
    the orders.  The state is the orchestrator object's price cache and flags,
    and what the run did to the world: the Redis commands and the requests it
    sent, in order.  The answers of the signal service and of the gateway depend
    on the requests they were sent; other processes write to Redis between the
    run's readings.  Floats are the decimals they print as; times are
    microseconds.  The texts of library exceptions and the allocator of
    multi-strategy runs are arguments. *)

From S2P Require Import Prelude PyDecimal PyText Formats OrderSchema RedisClient PyDict.
From S2P Require Gateway PriceFeed ServiceAuth.
From Stdlib Require Import QArith Qabs Lqa.
Open Scope Z_scope.

(** ** Data (schemas.py) *)

Record Signal := { sg_symbol : string; sg_predicted_return : decimal; sg_rank : Z; sg_target_weight : decimal }.

Record SignalMetadata := {
  md_as_of_date : string; md_model_version : string; md_strategy : string; md_num_signals : Z; md_generated_at : string;
  md_top_n : Z; md_bottom_n : Z
}.

Record SignalServiceResponse := { sr_signals : list Signal; sr_metadata : SignalMetadata }.

Record OrderRequest := {
  or_symbol : string; or_side : string; or_qty : Z; or_order_type : string;
  or_limit_price : option decimal; or_stop_price : option decimal; or_time_in_force : string
}.

(** The fields of the answer that the run reads. *)
Record OrderSubmission := { os_client_order_id : string; os_status : string; os_broker_order_id : option string }.

Record SignalOrderMapping := {
  mp_symbol : string; mp_predicted_return : decimal; mp_rank : Z; mp_target_weight : decimal;
  mp_client_order_id : option string; mp_order_qty : option Z; mp_order_side : option string;
  mp_broker_order_id : option string; mp_order_status : option string;
  mp_filled_qty : option decimal; mp_filled_avg_price : option decimal;
  mp_skip_reason : option string
}.

#[export] Instance SignalOrderMapping_eq_dec : EqDecision SignalOrderMapping.
Proof. solve_decision. Defined.

Definition new_mapping (s : Signal) : SignalOrderMapping := {|
  mp_symbol := sg_symbol s; mp_predicted_return := sg_predicted_return s; mp_rank := sg_rank s;
  mp_target_weight := sg_target_weight s; mp_client_order_id := None; mp_order_qty := None; mp_order_side := None;
  mp_broker_order_id := None; mp_order_status := None; mp_filled_qty := None; mp_filled_avg_price := None;
  mp_skip_reason := None |}.

(** Assignments to a mapping. *)
Definition set_skip (reason : string) (m : SignalOrderMapping) : SignalOrderMapping := {|
  mp_symbol := mp_symbol m; mp_predicted_return := mp_predicted_return m; mp_rank := mp_rank m;
  mp_target_weight := mp_target_weight m; mp_client_order_id := mp_client_order_id m; mp_order_qty := mp_order_qty m;
  mp_order_side := mp_order_side m; mp_broker_order_id := mp_broker_order_id m; mp_order_status := mp_order_status m;
  mp_filled_qty := mp_filled_qty m; mp_filled_avg_price := mp_filled_avg_price m; mp_skip_reason := Some reason |}.
Definition set_order (qty : Z) (side : string) (m : SignalOrderMapping) : SignalOrderMapping := {|
  mp_symbol := mp_symbol m; mp_predicted_return := mp_predicted_return m; mp_rank := mp_rank m;
  mp_target_weight := mp_target_weight m; mp_client_order_id := mp_client_order_id m; mp_order_qty := Some qty;
  mp_order_side := Some side; mp_broker_order_id := mp_broker_order_id m; mp_order_status := mp_order_status m;
  mp_filled_qty := mp_filled_qty m; mp_filled_avg_price := mp_filled_avg_price m; mp_skip_reason := mp_skip_reason m |}.
Definition set_submission (x : OrderSubmission) (m : SignalOrderMapping) : SignalOrderMapping := {|
  mp_symbol := mp_symbol m; mp_predicted_return := mp_predicted_return m; mp_rank := mp_rank m;
  mp_target_weight := mp_target_weight m; mp_client_order_id := Some (os_client_order_id x); mp_order_qty := mp_order_qty m;
  mp_order_side := mp_order_side m; mp_broker_order_id := os_broker_order_id x; mp_order_status := Some (os_status x);
  mp_filled_qty := mp_filled_qty m; mp_filled_avg_price := mp_filled_avg_price m; mp_skip_reason := mp_skip_reason m |}.
Definition set_rejected (reason : string) (m : SignalOrderMapping) : SignalOrderMapping := {|
  mp_symbol := mp_symbol m; mp_predicted_return := mp_predicted_return m; mp_rank := mp_rank m;
  mp_target_weight := mp_target_weight m; mp_client_order_id := mp_client_order_id m; mp_order_qty := mp_order_qty m;
  mp_order_side := mp_order_side m; mp_broker_order_id := mp_broker_order_id m; mp_order_status := Some "rejected";
  mp_filled_qty := mp_filled_qty m; mp_filled_avg_price := mp_filled_avg_price m; mp_skip_reason := Some reason |}.

(** A missing date stands for today's, a missing error message for none. *)
Record OrchestrationResult := {
  rs_status : string; rs_strategy_id : string; rs_as_of_date : option string; rs_symbols : list string;
  rs_capital : decimal; rs_num_signals : Z; rs_num_orders_submitted : Z; rs_num_orders_accepted : Z;
  rs_num_orders_rejected : Z; rs_mappings : list SignalOrderMapping; rs_started_at : Z; rs_completed_at : option Z;
  rs_error_message : option string
}.

(** ** The state and the world *)

(** The body of a request to the signal service. *)
Record signal_request := {
  sq_symbols : list string; sq_as_of_date : option string; sq_top_n : option Z; sq_bottom_n : option Z
}.

(** What comes back from [AsyncClient.post]: a response with the text of the exception [raise_for_status] raises for it
    and what its body is, or a transport error. *)
Inductive parsed A := Parsed (a : A) | NotJson (msg : string) | Misshapen (msg : string).
Arguments Parsed {A} a.
Arguments NotJson {A} msg.
Arguments Misshapen {A} msg.

Inductive reply A :=
| Response (status_code : Z) (error_text : string) (body : parsed A)
| Failed (e : exn).
Arguments Response {A} status_code error_text body.
Arguments Failed {A} e.

Record orch := {
  price_cache : gmap string decimal;
  price_timestamps : gmap string Z;
  active_strategy_ids : list string;
  redis_unavailable : bool;
  prefetch_attempted : gset string;
  o_redis : redis_state;
  o_ticks : nat;
  o_signal_requests : list (signal_request * ServiceAuth.headers);
  o_orders_sent : list (OrderRequest * ServiceAuth.headers)
}.

Definition set_prices (c : gmap string decimal) (t : gmap string Z) (s : orch) : orch := {|
  price_cache := c; price_timestamps := t; active_strategy_ids := active_strategy_ids s;
  redis_unavailable := redis_unavailable s; prefetch_attempted := prefetch_attempted s; o_redis := o_redis s;
  o_ticks := o_ticks s; o_signal_requests := o_signal_requests s; o_orders_sent := o_orders_sent s |}.
Definition set_flags (unavailable : bool) (attempted : gset string) (s : orch) : orch := {|
  price_cache := price_cache s; price_timestamps := price_timestamps s; active_strategy_ids := active_strategy_ids s;
  redis_unavailable := unavailable; prefetch_attempted := attempted; o_redis := o_redis s;
  o_ticks := o_ticks s; o_signal_requests := o_signal_requests s; o_orders_sent := o_orders_sent s |}.
Definition set_active (ids : list string) (s : orch) : orch := {|
  price_cache := price_cache s; price_timestamps := price_timestamps s; active_strategy_ids := ids;
  redis_unavailable := redis_unavailable s; prefetch_attempted := prefetch_attempted s; o_redis := o_redis s;
  o_ticks := o_ticks s; o_signal_requests := o_signal_requests s; o_orders_sent := o_orders_sent s |}.
Definition set_redis_tick (r : redis_state) (s : orch) : orch := {|
  price_cache := price_cache s; price_timestamps := price_timestamps s; active_strategy_ids := active_strategy_ids s;
  redis_unavailable := redis_unavailable s; prefetch_attempted := prefetch_attempted s; o_redis := r;
  o_ticks := S (o_ticks s); o_signal_requests := o_signal_requests s; o_orders_sent := o_orders_sent s |}.
Definition set_sent (signals : list (signal_request * ServiceAuth.headers)) (orders : list (OrderRequest * ServiceAuth.headers)) (s : orch) : orch := {|
  price_cache := price_cache s; price_timestamps := price_timestamps s; active_strategy_ids := active_strategy_ids s;
  redis_unavailable := redis_unavailable s; prefetch_attempted := prefetch_attempted s; o_redis := o_redis s;
  o_ticks := S (o_ticks s); o_signal_requests := signals; o_orders_sent := orders |}.

Record environment := {
  clock : nat -> Z;
  publishers : nat -> keyspace -> keyspace;
  redis_net : network;
  signal_api : list (signal_request * ServiceAuth.headers) -> reply SignalServiceResponse;
  gateway_api : list (OrderRequest * ServiceAuth.headers) -> reply OrderSubmission;
  service_env : ServiceAuth.environ;
  uuid4 : nat -> string;
  json_loads : string -> option PriceFeed.price_data;
  retry_error_text : string
}.

(** The configuration of one orchestrator. *)
Record settings := {
  capital : decimal;
  max_position_size : decimal;
  max_price_age_seconds : Z;
  has_redis : bool;
  allocation_method : string
}.

(** [str(e)] *)
Definition exn_text (env : environment) (e : exn) : string :=
  match e with RetryError => retry_error_text env | _ => Gateway.str_exn e end.

Definition read_clock (env : environment) : M orch Z := fun s =>
  (Ok (clock env (o_ticks s)), set_redis_tick (o_redis s) s).

(** A Redis command of the run, after what others wrote. *)
Definition in_redis {A} (env : environment) (m : Z -> M redis_state A) : M orch A := fun s =>
  let r := o_redis s in
  let r := {| rs_keys := publishers env (o_ticks s) (rs_keys r); rs_attempts := rs_attempts r |} in
  let '(a, r') := m (clock env (o_ticks s)) r in
  (a, set_redis_tick r' s).

(** ** The HTTP clients (clients.py) *)

Definition retryable (e : exn) : bool :=
  match e with HttpxConnectTimeout _ | HttpxTimeout _ | HttpxConnectError _ => true | _ => false end.

(** [@retry(stop=stop_after_attempt(3), retry=retry_if_exception_type((httpx.TimeoutException, httpx.ConnectError)))]:
    tenacity raises its own [RetryError] when the attempts are used up. *)
Fixpoint attempts {A} (left : nat) (m : M orch A) : M orch A :=
  match left with
  | O => raise RetryError
  | S left' => fun s =>
      match m s with
      | (Raise e, s') => if retryable e then attempts left' m s' else (Raise e, s')
      | out => out
      end
  end.

Definition MAX_ATTEMPTS : nat := 3.

(** [response.raise_for_status()], unless the status is one of [ok], and then the parsed body. *)
Definition read_reply {A} (ok : list Z) (r : reply A) : result A :=
  match r with
  | Failed e => Raise e
  | Response status_code error_text body =>
      if negb (bool_decide (status_code ∈ ok)) && negb ((200 <=? status_code) && (status_code <=? 299))
      then Raise (HTTPStatusError status_code error_text)
      else match body with
           | Parsed a => Ok a
           | NotJson msg => Raise (ValueError msg)
           | Misshapen msg => Raise (ValidationError msg)
           end
  end.

Definition optional {A} (key : string) (f : A -> json_value) (o : option A) : list (string * json_value) :=
  match o with Some a => [(key, f a)] | None => [] end.

Definition signals_path : string := "/api/v1/signals/generate".
Definition orders_path : string := "/api/v1/orders".

(** [json.dumps(payload, separators=(",", ":"), sort_keys=True)] *)
Definition signals_body (q : signal_request) : string := object_text
  (optional "as_of_date" JString (sq_as_of_date q) ++ optional "bottom_n" JInt (sq_bottom_n q) ++
   [("symbols", JStrings (sq_symbols q))] ++ optional "top_n" JInt (sq_top_n q)).

(** [order.model_dump(mode="json", exclude_none=True)]: decimals are strings. *)
Definition order_body (o : OrderRequest) : string := object_text
  (optional "limit_price" (fun d => JString (str_decimal d)) (or_limit_price o) ++
   [("order_type", JString (or_order_type o)); ("qty", JInt (or_qty o)); ("side", JString (or_side o))] ++
   optional "stop_price" (fun d => JString (str_decimal d)) (or_stop_price o) ++
   [("symbol", JString (or_symbol o)); ("time_in_force", JString (or_time_in_force o))]).

(** The signed headers of a POST of [body] to [path]. *)
Definition sign_post (env : environment) (path body : string) (strategy_id : option string) : M orch ServiceAuth.headers := fun s =>
  (ServiceAuth._get_internal_auth_headers (service_env env) (clock env (o_ticks s)) (uuid4 env (o_ticks s)) "POST" path None
     (ServiceAuth.BytesBody (encode body)) None strategy_id, set_redis_tick (o_redis s) s).

Definition post_signals (env : environment) (q : signal_request) (h : ServiceAuth.headers) : M orch SignalServiceResponse := fun s =>
  let sent := o_signal_requests s ++ [(q, h)] in
  (read_reply [200] (signal_api env sent), set_sent sent (o_orders_sent s) s).

Definition post_order (env : environment) (o : OrderRequest) (h : ServiceAuth.headers) : M orch OrderSubmission := fun s =>
  let sent := o_orders_sent s ++ [(o, h)] in
  (read_reply [200; 201] (gateway_api env sent), set_sent (o_signal_requests s) sent s).

Definition fetch_signals (env : environment) (q : signal_request) (strategy_id : option string) : M orch SignalServiceResponse :=
  attempts MAX_ATTEMPTS
    (h ← sign_post env signals_path (signals_body q) strategy_id;
     post_signals env q h).

Definition submit_order (env : environment) (o : OrderRequest) : M orch OrderSubmission :=
  attempts MAX_ATTEMPTS
    (h ← sign_post env orders_path (order_body o) None;
     post_order env o h).

(** ** Prices *)

(** What a caller may put into the initial price cache. *)
Inductive py_price := PyDecimal (d : decimal) | PyBool | PyInt (n : Z) | PyFloat (d : decimal) | PyOther (type_name : string).

Definition _normalize_price (symbol : string) (price : py_price) : result decimal :=
  let bad := "price_cache value for " +:+ symbol +:+ " must be Decimal, int, or float, " in
  match price with
  | PyDecimal d | PyFloat d => Ok d
  | PyInt n => Ok (of_int n)
  | PyBool => Raise (TypeError (bad +:+ "got bool (bool is not a valid price type)"))
  | PyOther type_name => Raise (TypeError (bad +:+ "got " +:+ type_name))
  end.

Definition cache_price (symbol : string) (mid : decimal) (timestamp : Z) : M orch unit := fun s =>
  (Ok tt, set_prices (<[symbol := mid]> (price_cache s)) (<[symbol := timestamp]> (price_timestamps s)) s).

Definition forget_price (symbol : string) : M orch unit := fun s =>
  (Ok tt, set_prices (base.delete symbol (price_cache s)) (base.delete symbol (price_timestamps s)) s).

Definition mark_unavailable : M orch unit := fun s => (Ok tt, set_flags true (prefetch_attempted s) s).

Definition attempted (symbols : list string) : M orch unit := fun s =>
  (Ok tt, set_flags (redis_unavailable s) (prefetch_attempted s ∪ list_to_set symbols) s).

Definition _parse_and_cache_price (env : environment) (cfg : settings) (symbol raw : string) : M orch (option decimal) :=
  now ← read_clock env;
  match PriceFeed.parse_redis_price_json (json_loads env) now raw symbol (Some (max_price_age_seconds cfg)) with
  | None => mret None
  | Some p => _ ← cache_price symbol (PriceFeed.mid p) (PriceFeed.timestamp p); mret (Some (PriceFeed.mid p))
  end.

(** Whether the cached price of a symbol has to be fetched again. *)
Definition stale (cfg : settings) (now : Z) (s : orch) (symbol : string) : bool :=
  match price_cache s !! symbol with
  | None => true
  | Some _ =>
      match price_timestamps s !! symbol with
      | None => true
      | Some cached_ts => max_price_age_seconds cfg * second_us <? now - cached_ts
      end
  end.

Definition cache_reply (env : environment) (cfg : settings) (_ : unit) (x : string * option string) : M orch unit :=
  match x.2 with
  | None => mret tt
  | Some raw => _ ← _parse_and_cache_price env cfg x.1 raw; mret tt
  end.

Definition _prefetch_prices (env : environment) (cfg : settings) (symbols : list string) : M orch unit :=
  match has_redis cfg, symbols with
  | false, _ | _, [] => mret tt
  | true, _ =>
      now ← read_clock env;
      needed ← reads (fun s => filter (fun sym => stale cfg now s sym = true) symbols);
      match needed with
      | [] => mret tt
      | _ =>
          _ ← for_each (fun _ sym => forget_price sym) tt needed;
          try_except
            (raw_values ← in_redis env (fun now => mget (redis_net env) now (PriceFeed.price_key <$> needed));
             _ ← for_each (cache_reply env cfg) tt (zip needed raw_values);
             attempted needed)
            (fun _ => Some mark_unavailable)
      end
  end.

(** Lines 1258-1278: the cached price, when it is not too old; an unusable entry is dropped. *)
Definition from_cache (env : environment) (cfg : settings) (symbol : string) : M orch (option decimal) :=
  cached ← reads (fun s => price_cache s !! symbol);
  match cached with
  | None => mret None
  | Some price =>
      ts ← reads (fun s => price_timestamps s !! symbol);
      match ts with
      | Some cached_ts =>
          now ← read_clock env;
          if now - cached_ts <=? max_price_age_seconds cfg * second_us then mret (Some price)
          else _ ← forget_price symbol; mret None
      | None => _ ← forget_price symbol; mret None
      end
  end.

(** Lines 1290-1302 *)
Definition from_redis (env : environment) (cfg : settings) (symbol : string) : M orch (option decimal) :=
  try_except
    (raw ← in_redis env (fun now => get (redis_net env) now (PriceFeed.price_key symbol));
     match raw with
     | Some raw => _parse_and_cache_price env cfg symbol raw
     | None => mret None
     end)
    (fun _ => Some (_ ← mark_unavailable; mret None)).

(** Lines 1285-1319 *)
Definition fetch_price (env : environment) (cfg : settings) (symbol : string) : M orch decimal :=
  may_fetch ← reads (fun s => has_redis cfg && negb (redis_unavailable s) && negb (bool_decide (symbol ∈ prefetch_attempted s)));
  fetched ← (if (may_fetch : bool) then from_redis env cfg symbol else mret None);
  match fetched with
  | Some mid => mret mid
  | None => raise (PriceUnavailableError symbol)
  end.

Definition _get_current_price (env : environment) (cfg : settings) (symbol : string) : M orch decimal :=
  cached ← from_cache env cfg symbol;
  match cached with
  | Some price => mret price
  | None => fetch_price env cfg symbol
  end.

(** ** Signals to orders *)

(** Lines 919-927: the dollars a signal may take. *)
Definition dollar_amount (cfg : settings) (weight : decimal) : decimal :=
  let d := dmul (dabs weight) (capital cfg) in
  if dltb (max_position_size cfg) d then max_position_size cfg else d.

(** The reason a price is missing, by exception. *)
Definition price_failure (env : environment) (e : exn) : string :=
  match e with
  | PriceUnavailableError _ => "price_unavailable: " +:+ exn_text env e
  | HttpxConnectTimeout _ => "price_fetch_timeout: " +:+ exn_text env e
  | HTTPStatusError status_code _ => "price_fetch_failed: " +:+ str_int status_code
  | _ => "price_fetch_failed: " +:+ exn_text env e
  end.

Definition price_or_reason (env : environment) (cfg : settings) (symbol : string) : M orch (decimal + string) :=
  try_except (price ← _get_current_price env cfg symbol; mret (inl price))
    (fun e => Some (mret (inr (price_failure env e)))).

Definition size_order (cfg : settings) (signal : Signal) (price : decimal) : result SignalOrderMapping :=
  shares ← ddiv (dollar_amount cfg (sg_target_weight signal)) price;
  let qty := dint shares in
  Ok (if qty <? 1 then set_skip "qty_less_than_one_share" (new_mapping signal)
      else set_order qty (if dltb dzero (sg_target_weight signal) then "buy" else "sell") (new_mapping signal)).

(** The body of the loop over the signals. *)
Definition map_signal (env : environment) (cfg : settings) (signal : Signal) : M orch SignalOrderMapping :=
  if deqb (sg_target_weight signal) dzero then mret (set_skip "zero_weight" (new_mapping signal))
  else
    price ← price_or_reason env cfg (sg_symbol signal);
    match price with
    | inr reason => mret (set_skip reason (new_mapping signal))
    | inl price => lift (size_order cfg signal price)
    end.

(** [list(dict.fromkeys(...))]: the symbols to price, each once, in order. *)
Definition first_seen (acc : list string) (symbol : string) : list string :=
  if bool_decide (symbol ∈ acc) then acc else acc ++ [symbol].
Definition signal_symbols (signals : list Signal) : list string :=
  foldl first_seen [] (sg_symbol <$> filter (fun x => deqb (sg_target_weight x) dzero = false) signals).

Definition _map_signals_to_orders (env : environment) (cfg : settings) (signals : list Signal) : M orch (list SignalOrderMapping) :=
  _ ← _prefetch_prices env cfg (signal_symbols signals);
  for_each (fun mappings signal => m ← map_signal env cfg signal; mret (mappings ++ [m])) [] signals.

(** ** Submission *)

Definition market_order (m : SignalOrderMapping) (qty : Z) (side : string) : OrderRequest := {|
  or_symbol := mp_symbol m; or_side := side; or_qty := qty; or_order_type := "market"; or_limit_price := None;
  or_stop_price := None; or_time_in_force := "day" |}.

(** The reason a submission failed, by exception; [NetworkError] is the parent of [ConnectError]. *)
Definition submission_failure (env : environment) (e : exn) : string :=
  match e with
  | HttpxConnectTimeout _ => "submission_failed: connection_timeout"
  | HTTPStatusError status_code _ => "submission_failed: " +:+ str_int status_code
  | HttpxConnectError _ | HttpxNetworkError _ => "submission_failed: network_error"
  | ValidationError _ => "submission_failed: invalid_response"
  | _ => "unexpected_error: " +:+ exn_text env e
  end.

(** The body of the loop over the orders to submit. *)
Definition submit_mapping (env : environment) (m : SignalOrderMapping) : M orch SignalOrderMapping :=
  match mp_order_qty m, mp_order_side m with
  | Some qty, Some side =>
      try_except
        (submission ← submit_order env (market_order m qty side);
         mret (set_submission submission m))
        (fun e => Some (mret (set_rejected (submission_failure env e) m)))
  | Some _, None => raise (InternalError "order_side must be set when order_qty is set")
  | None, _ => mret m
  end.

Definition _submit_orders (env : environment) (mappings : list SignalOrderMapping) : M orch (list SignalOrderMapping) :=
  for_each (fun done m => m' ← submit_mapping env m; mret (done ++ [m'])) [] mappings.

(** ** Several strategies *)

(** [signals_to_dataframe] and [dataframe_to_signals]: the columns of a frame as its rows. *)
Definition signals_to_dataframe (signals : list Signal) : list (string * decimal * decimal) :=
  (fun s => (sg_symbol s, sg_predicted_return s, sg_target_weight s)) <$> signals.
Definition dataframe_to_signals (rows : list (string * decimal)) : list Signal :=
  (fun r => {| sg_symbol := r.1; sg_predicted_return := Dec 0 (-1); sg_rank := 0; sg_target_weight := r.2 |}) <$> rows.

(** The first of the results that is an exception ends [asyncio.gather]; the other fetches run to their end. *)
Fixpoint gather {A} (tasks : list (M orch A)) : M orch (list A) :=
  match tasks with
  | [] => mret []
  | t :: tasks' => fun s =>
      let '(r, s1) := t s in
      let '(rs, s2) := gather tasks' s1 in
      (a ← r; l ← rs; Ok (a :: l), s2)
  end.

Section strategies.
(** [MultiAlphaAllocator(method, per_strategy_max, allow_short_positions).allocate] *)
Context (allocate : bool -> dict (list (string * decimal * decimal)) -> result (list (string * decimal))).

Definition pairs (d : dict string) : string :=
  let p (x : string * string) := x.1 +:+ "=" +:+ x.2 in
  match d with [] => "" | x :: d' => foldl (fun acc y => acc +:+ ", " +:+ p y) (p x) d' end.

Definition date_mismatch (dates : dict string) : exn :=
  ValueError ("as_of_date mismatch across strategies: " +:+ pairs (merge_sort (fun x y => Is_true (String.leb x.1 y.1)) dates) +:+
    ". All strategies must return signals from the same date to prevent mixing stale and fresh data in allocation.").

Definition _run_multi_strategy (env : environment) (q : signal_request) (strategy_ids : list string)
    : M orch (list Signal * option string) :=
  responses ← gather ((fun i => fetch_signals env q (Some i)) <$> strategy_ids);
  let signal_responses := dict_of_list fst (zip strategy_ids responses) in
  let response_dates := (fun x => (x.1, md_as_of_date (sr_metadata x.2.2))) <$> signal_responses in
  match remove_dups (response_dates.*2) with
  | _ :: _ :: _ => raise (date_mismatch response_dates)
  | unique_dates =>
      let signal_dfs := (fun x => (x.1, signals_to_dataframe (sr_signals x.2.2))) <$> signal_responses in
      let allow_short_positions := existsb (fun x => existsb (fun r => dltb r.2 dzero) x.2) signal_dfs in
      blended ← lift (allocate allow_short_positions signal_dfs);
      mret (dataframe_to_signals blended, head unique_dates)
  end.

(** ** A run *)

Definition status_in (l : list string) (m : SignalOrderMapping) : bool :=
  match mp_order_status m with Some x => one_of x l | None => false end.

Definition count (f : SignalOrderMapping -> bool) (l : list SignalOrderMapping) : Z := Z.of_nat (length (filter (fun m => f m = true) l)).

Definition num_submitted (l : list SignalOrderMapping) : Z := count (fun m => bool_decide (mp_client_order_id m <> None)) l.
Definition num_accepted (l : list SignalOrderMapping) : Z :=
  count (fun m => match mp_order_status m with
                  | Some x => negb (bool_decide (x = "")) && negb (one_of x ["rejected"; "cancelled"])
                  | None => false
                  end) l.
Definition num_rejected (l : list SignalOrderMapping) : Z := count (status_in ["rejected"; "cancelled"]) l.

Definition run_status (rejected accepted : Z) : string :=
  if (0 <? rejected) && (0 <? accepted) then "partial" else if 0 <? rejected then "failed" else "completed".

Definition join_ids (l : list string) : string :=
  match l with [] => "" | x :: l' => foldl (fun acc y => acc +:+ "," +:+ y) x l' end.

(** The error message of a failed run, by exception. *)
Definition failure_message (env : environment) (e : exn) : string :=
  match e with
  | HttpxConnectTimeout _ => "Signal service connection timeout: " +:+ exn_text env e
  | HTTPStatusError status_code _ => "Signal service HTTP error " +:+ str_int status_code +:+ ": " +:+ exn_text env e
  | HttpxConnectError _ | HttpxNetworkError _ => "Network error: " +:+ exn_text env e
  | ValidationError _ => "Invalid response from signal service: " +:+ exn_text env e
  | _ => exn_text env e
  end.

Definition failed_run (env : environment) (cfg : settings) (strategy_ids symbols : list string) (as_of_date : option string)
    (started_at : Z) (e : exn) : M orch OrchestrationResult :=
  completed_at ← read_clock env;
  mret {| rs_status := "failed"; rs_strategy_id := join_ids strategy_ids; rs_as_of_date := as_of_date; rs_symbols := symbols;
          rs_capital := capital cfg; rs_num_signals := 0; rs_num_orders_submitted := 0; rs_num_orders_accepted := 0;
          rs_num_orders_rejected := 0; rs_mappings := []; rs_started_at := started_at; rs_completed_at := Some completed_at;
          rs_error_message := Some (failure_message env e) |}.

(** Lines 397-482, the body of the [try]. *)
Definition run_body (env : environment) (cfg : settings) (q : signal_request) (strategy_ids : list string) (started_at : Z)
    : M orch OrchestrationResult :=
  fetched ← match strategy_ids with
            | [strategy_id] =>
                r ← fetch_signals env q (Some strategy_id);
                mret (sr_signals r, Some (md_as_of_date (sr_metadata r)))
            | _ => _run_multi_strategy env q strategy_ids
            end;
  mappings ← _map_signals_to_orders env cfg (fst fetched);
  mappings ← _submit_orders env mappings;
  completed_at ← read_clock env;
  mret {| rs_status := run_status (num_rejected mappings) (num_accepted mappings); rs_strategy_id := join_ids strategy_ids;
          rs_as_of_date := match snd fetched with Some "" => None | d => d end; rs_symbols := sq_symbols q; rs_capital := capital cfg;
          rs_num_signals := Z.of_nat (length (fst fetched)); rs_num_orders_submitted := num_submitted mappings;
          rs_num_orders_accepted := num_accepted mappings; rs_num_orders_rejected := num_rejected mappings;
          rs_mappings := mappings; rs_started_at := started_at; rs_completed_at := Some completed_at; rs_error_message := None |}.

Definition run (env : environment) (cfg : settings) (q : signal_request) (strategy_ids : list string) : M orch OrchestrationResult :=
  started_at ← read_clock env;
  match strategy_ids with
  | [] => raise (ValueError "strategy_id must be a non-empty string or list of strings")
  | _ =>
      _ ← (fun s => (Ok tt, set_active strategy_ids s));
      try_except (run_body env cfg q strategy_ids started_at)
        (fun e => Some (failed_run env cfg strategy_ids (sq_symbols q) (sq_as_of_date q) started_at e))
  end.
End strategies.

(** [TradingOrchestrator(...)], as [create_orchestrator] and the endpoint build it. *)
Fixpoint normalized (cache : dict py_price) : result (dict decimal) :=
  match cache with
  | [] => Ok []
  | (symbol, p) :: cache' => d ← _normalize_price symbol p; l ← normalized cache'; Ok ((symbol, d) :: l)
  end.

(** The object is new; what was done to the world [before] stays. *)
Definition new_orchestrator (cfg : settings) (now : Z) (cache : dict py_price) (before : orch) : result orch :=
  if max_price_age_seconds cfg <=? 0 then
    Raise (ValueError ("max_price_age_seconds must be > 0, got " +:+ str_int (max_price_age_seconds cfg)))
  else
    prices ← normalized cache;
    if bool_decide (allocation_method cfg = "inverse_vol") then
      Raise (ValueError "allocation_method='inverse_vol' is not yet supported by the orchestrator.")
    else
      Ok {| price_cache := list_to_map prices; price_timestamps := list_to_map ((fun x => (x.1, now)) <$> prices);
            active_strategy_ids := []; redis_unavailable := false; prefetch_attempted := ∅; o_redis := o_redis before;
            o_ticks := o_ticks before; o_signal_requests := o_signal_requests before; o_orders_sent := o_orders_sent before |}.

(** orchestrator.calculate_position_size *)
Definition calculate_position_size (target_weight capital price max_position_size : decimal) : result (Z * decimal) :=
  let d := dmul (dabs target_weight) capital in
  let d := if dltb max_position_size d then max_position_size else d in
  shares ← ddiv d price;
  Ok (dint shares, d).
