(* ===== verification/OrchestratorSafety.v ===== *)
(** * What a run of the orchestrator guarantees

    The prices it trades on are positive and fresh, the orders it sizes stay
    within the signal's share of the capital and the position limit, every order
    it sends is in its report, and the gateway recognises it. *)

From S2P Require Import Prelude PyDecimal PyText Formats OrderSchema RedisClient PyDict Orchestrator.
From S2P Require PriceFeed ServiceAuth Webhook.
From Stdlib Require Import QArith Qabs Lqa.
Open Scope Z_scope.

(** ** Prices *)

(** A price with its time that a payload for the symbol says, positive. *)
Definition published (env : environment) (symbol : string) (p : decimal) (ts : Z) : Prop :=
  exists raw d, json_loads env raw = Some d /\ PriceFeed.pd_symbol d = Some symbol /\
    PriceFeed.pd_timestamp d = PriceFeed.Ts ts /\ PriceFeed.pd_mid d = Webhook.Num p /\ dltb dzero p = true.

(** Every usable entry of the price cache is a quote. *)
Definition quotes (P : string -> decimal -> Z -> Prop) (s : orch) : Prop :=
  forall symbol p ts, price_cache s !! symbol = Some p -> price_timestamps s !! symbol = Some ts -> P symbol p ts.

Lemma not_le_lt a b : dleb a b = false -> dltb b a = true.
Proof.
  intros H. destruct (dleb_spec a b) as [|Hn]; [done|]. destruct (dltb_spec b a) as [|Hn']; [done|].
  exfalso. apply Hn. by apply Qnot_lt_le.
Qed.

Section prices.
Context (env : environment) (cfg : settings) (P : string -> decimal -> Z -> Prop) (start : nat).
Hypothesis HP : forall symbol p ts, published env symbol p ts -> P symbol p ts.

(** Quotes only, since the moment [start]. *)
Definition sound (s : orch) : Prop := quotes P s /\ (start <= o_ticks s)%nat.

Lemma read_clock_quotes : preserves sound (read_clock env).
Proof. intros s [H Hn]. split; [done|cbn; lia]. Qed.
Lemma in_redis_quotes {A} (m : Z -> M redis_state A) : preserves sound (in_redis env m).
Proof. intros s [H Hn]. unfold in_redis. destruct (m _ _). split; [done|cbn; lia]. Qed.
Lemma mark_quotes : preserves sound mark_unavailable.
Proof. by intros s. Qed.
Lemma attempted_quotes l : preserves sound (attempted l).
Proof. by intros s. Qed.
Lemma forget_quotes symbol : preserves sound (forget_price symbol).
Proof.
  intros s [H Hn]. split; [|done]. intros x p ts E1 E2. cbn in E1, E2. apply lookup_delete_Some in E1 as [_ E1], E2 as [_ E2].
  by apply (H x p ts).
Qed.
Lemma cache_quotes symbol p t : P symbol p t -> preserves sound (cache_price symbol p t).
Proof.
  intros Hp s [H Hn]. split; [|done]. intros x q ts. cbn. destruct (decide (x = symbol)) as [->|Hx].
  - rewrite !lookup_insert_eq. by intros [= <-] [= <-].
  - rewrite !lookup_insert_ne by done. apply H.
Qed.

#[local] Hint Resolve read_clock_quotes in_redis_quotes mark_quotes attempted_quotes forget_quotes : pres.

Lemma parse_published now symbol raw m q : PriceFeed.parse_redis_price_json (json_loads env) now raw symbol m = Some q ->
  published env symbol (PriceFeed.mid q) (PriceFeed.timestamp q).
Proof.
  intros E. destruct (PriceFeed.parsed_price _ _ _ _ _ _ E) as (d & H1 & H2 & H3 & H4 & Hp & _).
  exists raw, d. split_and!; try done. by apply not_le_lt.
Qed.

Lemma parse_quotes symbol raw : preserves sound (_parse_and_cache_price env cfg symbol raw).
Proof.
  apply preserves_bind; [auto with pres|]. intros now.
  destruct (PriceFeed.parse_redis_price_json _ now raw symbol _) as [p|] eqn:E; [|auto with pres].
  apply preserves_bind; [|auto with pres]. eapply cache_quotes, HP, parse_published, E.
Qed.

Lemma prefetch_quotes symbols : preserves sound (_prefetch_prices env cfg symbols).
Proof.
  unfold _prefetch_prices. destruct (has_redis cfg), symbols as [|x l]; try apply preserves_ret.
  apply preserves_bind; [auto with pres|]. intros now. apply preserves_bind; [auto with pres|]. intros [|y needed]; [apply preserves_ret|].
  apply preserves_bind; [apply preserves_for_each; auto with pres|]. intros _.
  apply preserves_try; [|intros e c [= <-]; auto with pres].
  apply preserves_bind; [auto with pres|]. intros raw. apply preserves_bind; [|auto with pres].
  apply preserves_for_each. intros [] [sym [v|]]; [|apply preserves_ret].
  unfold cache_reply. cbn [fst snd]. apply preserves_bind; [apply parse_quotes|]. intros; apply preserves_ret.
Qed.

Lemma current_price_quotes symbol : preserves sound (_get_current_price env cfg symbol).
Proof.
  apply preserves_bind.
  - apply preserves_bind; [auto with pres|]. intros [p|]; [|apply preserves_ret]. apply preserves_bind; [auto with pres|].
    intros [t|]; (apply preserves_bind; [auto with pres|]); intros now; [|apply preserves_ret].
    destruct (_ <=? _); [apply preserves_ret|]. apply preserves_bind; [auto with pres|]. intros; apply preserves_ret.
  - intros [p|]; [apply preserves_ret|]. apply preserves_bind; [auto with pres|]. intros b. apply preserves_bind.
    + destruct b; [|apply preserves_ret]. apply preserves_try.
      * apply preserves_bind; [auto with pres|]. intros [raw|]; [apply parse_quotes|apply preserves_ret].
      * intros e c [= <-]. apply preserves_bind; [auto with pres|]. intros; apply preserves_ret.
    + intros [p|]; [apply preserves_ret|apply preserves_raise].
Qed.
End prices.

Section fresh.
Context (env : environment) (cfg : settings).

(** A price that was cached or fetched within the age limit, at some moment of the call. *)
Definition fresh_price (s s' : orch) (symbol : string) (p : decimal) : Prop :=
  price_cache s' !! symbol = Some p /\
  exists t ts, (o_ticks s <= t < o_ticks s')%nat /\ price_timestamps s' !! symbol = Some ts /\
    clock env t - ts <= max_price_age_seconds cfg * second_us.

Lemma parsed_fresh symbol raw s p s' : _parse_and_cache_price env cfg symbol raw s = (Ok (Some p), s') -> fresh_price s s' symbol p.
Proof.
  unfold _parse_and_cache_price, read_clock. rewrite M_bind_run.
  destruct (PriceFeed.parse_redis_price_json _ _ raw symbol _) as [q|] eqn:E; [|done].
  rewrite M_bind_run. unfold cache_price. intros [= <- <-]. split; [by cbn; rewrite lookup_insert_eq|].
  exists (o_ticks s), (PriceFeed.timestamp q). split; [cbn; lia|]. split; [by cbn; rewrite lookup_insert_eq|].
  unfold PriceFeed.parse_redis_price_json in E. destruct (json_loads env raw) as [d|]; [|done].
  destruct (negb _); [done|]. destruct (PriceFeed.pd_timestamp d) as [| |t]; [done..|].
  destruct (_ <? _); [done|]. unfold PriceFeed.too_old in E.
  destruct (Z.ltb_spec (max_price_age_seconds cfg * second_us) (clock env (o_ticks s) - t)) as [|H]; [done|].
  destruct (PriceFeed.pd_mid d); try done. destruct (dleb _ _); [done|]. injection E as <-. cbn. lia.
Qed.

Lemma from_cache_fresh symbol s p s' : from_cache env cfg symbol s = (Ok (Some p), s') -> fresh_price s s' symbol p.
Proof.
  unfold from_cache. rewrite M_bind_run. unfold reads at 1. destruct (price_cache s !! symbol) as [q|] eqn:Eq; [|done].
  rewrite M_bind_run. unfold reads at 1. destruct (price_timestamps s !! symbol) as [ts|] eqn:Et; [|done].
  rewrite M_bind_run. unfold read_clock.
  destruct (Z.leb_spec (clock env (o_ticks s) - ts) (max_price_age_seconds cfg * second_us)) as [H|]; [|done].
  intros [= <- <-]. split; [done|]. exists (o_ticks s), ts. split; [cbn; lia|]. by split.
Qed.

Lemma from_cache_keeps symbol s o s' : from_cache env cfg symbol s = (o, s') -> (o_ticks s <= o_ticks s')%nat.
Proof.
  unfold from_cache. rewrite M_bind_run. unfold reads at 1. destruct (price_cache s !! symbol); [|by intros [= <- <-]].
  rewrite M_bind_run. unfold reads at 1. destruct (price_timestamps s !! symbol); [|by intros [= <- <-]].
  rewrite M_bind_run. unfold read_clock. destruct (_ <=? _); intros [= <- <-]; cbn; lia.
Qed.

Lemma from_redis_fresh symbol s p s' : from_redis env cfg symbol s = (Ok (Some p), s') -> fresh_price s s' symbol p.
Proof.
  unfold from_redis, try_except. rewrite M_bind_run. unfold in_redis at 1.
  destruct (get _ _ _ _) as [[[raw|]|e] r]; [| |done].
  - destruct (_parse_and_cache_price env cfg symbol raw _) as [[o|e] s1] eqn:E; [|done].
    intros [= -> <-]. destruct (parsed_fresh _ _ _ _ _ E) as (H1 & t & ts & Ht & H2). split; [done|].
    exists t, ts. split; [cbn in Ht; lia|done].
  - done.
Qed.

(** A price the orchestrator trades on is at most the configured age old, at a reading of the clock it made for it. *)
Lemma current_price_fresh symbol s p s' : _get_current_price env cfg symbol s = (Ok p, s') -> fresh_price s s' symbol p.
Proof.
  unfold _get_current_price. rewrite M_bind_run.
  destruct (from_cache env cfg symbol s) as [[[q|]|e] s1] eqn:E1; [| |done].
  - intros [= <- <-]. by apply from_cache_fresh.
  - unfold fetch_price. rewrite M_bind_run. unfold reads at 1. rewrite M_bind_run. pose proof (from_cache_keeps _ _ _ _ E1) as Hk.
    destruct (has_redis cfg && _ && _).
    + destruct (from_redis env cfg symbol s1) as [[[q|]|e] s2] eqn:E2; [|done..]. intros [= <- <-].
      destruct (from_redis_fresh _ _ _ _ E2) as (H1 & t & ts & Ht & H2). split; [done|]. exists t, ts. split; [lia|done].
    + done.
Qed.

End fresh.

(** ** Whole shares *)

Lemma dint_bounds d : (0 <= dval d)%Q -> (inject_Z (dint d) <= dval d < inject_Z (dint d + 1))%Q.
Proof.
  intros H. assert (Hc : 0 <= coef d).
  { destruct (Z.le_gt_cases 0 (coef d)) as [|Hn]; [done|]. exfalso.
    assert (dval d < 0)%Q; [|lra]. unfold dval. rewrite <- (Qmult_0_l (ten ^ dexp d)).
    apply Qmult_lt_compat_r; [apply ten_pow_pos|]. unfold Qlt. simpl. lia. }
  unfold dint. destruct (Z.leb_spec 0 (dexp d)) as [He|He].
  - assert (E : (dval d == inject_Z (coef d * 10 ^ dexp d))%Q)
      by (unfold dval; by rewrite (ten_pow_inject _ He), <- inject_Z_mult).
    rewrite E, <- Zle_Qle, <- Zlt_Qlt. lia.
  - set (k := - dexp d). pose proof (pow10_pos k ltac:(lia)) as Hk. rewrite Z.quot_div_nonneg by lia.
    assert (E : (dval d * inject_Z (10 ^ k) == inject_Z (coef d))%Q).
    { unfold dval. rewrite <- (ten_pow_inject k ltac:(lia)), <- Qmult_assoc, <- ten_pow_add.
      replace (dexp d + k) with 0 by lia. apply Qmult_1_r. }
    pose proof (Z.div_mod (coef d) (10 ^ k) ltac:(lia)). pose proof (Z.mod_pos_bound (coef d) (10 ^ k) Hk).
    assert (Hk' : (0 < inject_Z (10 ^ k))%Q) by (by apply inject_Z_pos).
    split.
    + apply (Qmult_le_r _ _ _ Hk'). rewrite E, <- inject_Z_mult, <- Zle_Qle. lia.
    + apply (Qmult_lt_r _ _ _ Hk'). rewrite E, <- inject_Z_mult, <- Zlt_Qlt. lia.
Qed.

(** The amount, in the units of the smaller exponent of the two. *)
Definition units (amount price : decimal) : Z := scaled amount (Z.min (dexp amount) (dexp price)).

Lemma quotient_nonneg amount price d : ddiv amount price = Ok d -> (0 <= dval amount)%Q -> (0 < dval price)%Q -> (0 <= dval d)%Q.
Proof.
  intros Hd Ha Hp. pose proof (ddiv_error _ _ _ Hd) as He. rewrite (Qabs_pos (dval amount)) in He by done.
  apply Qabs_Qle_condition in He as [He _].
  assert (H : (0 <= dval d * dval price)%Q).
  { assert (2 * ulp_rel * dval amount <= 1 * dval amount)%Q by (apply Qmult_le_compat_r; [discriminate|done]). lra. }
  apply (Qmult_le_r _ _ _ Hp). by rewrite Qmult_0_l.
Qed.

(** The whole part of a quotient spends the amount up to less than one more share. *)
Lemma whole_shares_fit amount price d : ddiv amount price = Ok d ->
  (0 <= dval amount)%Q -> (0 < dval price)%Q -> units amount price < 10 ^ 27 ->
  (inject_Z (dint d) * dval price <= dval amount <= inject_Z (dint d + 1) * dval price)%Q.
Proof.
  intros Hd Ha Hp Hu. pose proof (quotient_nonneg _ _ _ Hd Ha Hp) as Hn. destruct (dint_bounds d Hn) as [Hl Hh].
  pose proof (ddiv_error _ _ _ Hd) as He. rewrite (Qabs_pos (dval amount)) in He by done.
  apply Qabs_Qle_condition in He as [He1 He2]. unfold units in Hu. set (e := Z.min _ _) in Hu.
  assert (Hql : (inject_Z (dint d) * dval price <= dval d * dval price)%Q) by (apply Qmult_le_compat_r; [done|lra]).
  assert (Hqh : (dval d * dval price <= inject_Z (dint d + 1) * dval price)%Q) by (apply Qmult_le_compat_r; lra).
  pose proof (dval_scaled amount e ltac:(lia)) as Ea. pose proof (dval_scaled price e ltac:(lia)) as Ep.
  set (a := scaled amount e) in *. set (b := scaled price e) in *. pose proof (ten_pow_pos e) as Ht.
  assert (Hsmall : (2 * ulp_rel * dval amount < 1 * ten ^ e)%Q).
  { rewrite Ea, Qmult_assoc. apply Qmult_lt_compat_r; [done|]. unfold ulp_rel, inject_Z, Qlt. cbn [Qmult Qnum Qden Pos.mul]. lia. }
  rewrite Ea, Ep in *. split.
  - assert (H : (inject_Z (dint d * b) * ten ^ e < inject_Z (a + 1) * ten ^ e)%Q)
      by (rewrite inject_Z_mult, inject_Z_plus; change (inject_Z 1) with 1%Q; lra).
    apply (proj1 (Qmult_lt_r _ _ _ Ht)) in H. rewrite <- Zlt_Qlt in H.
    rewrite Qmult_assoc. apply Qmult_le_compat_r; [|lra]. rewrite <- inject_Z_mult, <- Zle_Qle. lia.
  - assert (H : (inject_Z (a - 1) * ten ^ e < inject_Z ((dint d + 1) * b) * ten ^ e)%Q)
      by (rewrite inject_Z_mult; unfold Z.sub; rewrite (inject_Z_plus a (- (1))); change (inject_Z (- (1))) with (- (1))%Q; lra).
    apply (proj1 (Qmult_lt_r _ _ _ Ht)) in H. rewrite <- Zlt_Qlt in H.
    rewrite Qmult_assoc. apply Qmult_le_compat_r; [|lra]. rewrite <- inject_Z_mult, <- Zle_Qle. lia.
Qed.

(** ** Every signal, in order *)

(** A loop that appends one result for each element. *)
Lemma collect_inv {S A B} (I : S -> Prop) (Q : A -> B -> Prop) (f : A -> M S B) xs :
  (forall x s b s', I s -> f x s = (Ok b, s') -> Q x b /\ I s') ->
  forall acc s l s', I s -> for_each (fun acc x => b ← f x; mret (acc ++ [b])) acc xs s = (Ok l, s') ->
  exists ys, l = acc ++ ys /\ Forall2 Q xs ys /\ I s'.
Proof.
  intros Hf. induction xs as [|x xs IH]; intros acc s l s' Hs; cbn [for_each].
  { intros [= <- <-]. exists []. split; [by rewrite app_nil_r|]. by split. }
  rewrite M_bind_run, M_bind_run. destruct (f x s) as [[b|e] s1] eqn:E; [|done].
  destruct (Hf _ _ _ _ Hs E) as [Hq H1]. change ((mret (acc ++ [b]) : M S (list B)) s1) with (@Ok (list B) (acc ++ [b]), s1).
  cbv beta iota. intros H. destruct (IH _ _ _ _ H1 H) as (ys & -> & Hys & H2). exists (b :: ys).
  rewrite <- app_assoc. split; [done|]. split; [by constructor|done].
Qed.

(** The only exception of a price. *)
Lemma from_redis_total env cfg symbol s : exists o s', from_redis env cfg symbol s = (Ok o, s').
Proof. unfold from_redis, try_except. case_match eqn:E. case_match; eexists _, _; reflexivity. Qed.

Lemma fetch_raises env cfg symbol s e s' : fetch_price env cfg symbol s = (Raise e, s') -> e = PriceUnavailableError symbol.
Proof.
  unfold fetch_price. rewrite M_bind_run. unfold reads at 1. rewrite M_bind_run. destruct (_ && _ && _).
  - destruct (from_redis_total env cfg symbol s) as (o & s1 & ->). destruct o; [done|]. by intros [= <- _].
  - by intros [= <- _].
Qed.

Lemma price_raises env cfg symbol s e s' : _get_current_price env cfg symbol s = (Raise e, s') -> e = PriceUnavailableError symbol.
Proof.
  unfold _get_current_price. rewrite M_bind_run. unfold from_cache. rewrite M_bind_run. unfold reads at 1.
  destruct (price_cache s !! symbol) as [q|]; [|apply fetch_raises].
  rewrite M_bind_run. unfold reads at 1. destruct (price_timestamps s !! symbol) as [ts|].
  - rewrite M_bind_run. unfold read_clock. destruct (_ <=? _); [done|]. rewrite M_bind_run. apply fetch_raises.
  - rewrite M_bind_run. apply fetch_raises.
Qed.

Section mapping.
Context (env : environment) (cfg : settings) (P : string -> decimal -> Z -> Prop) (start : nat).
Hypothesis HP : forall symbol p ts, published env symbol p ts -> P symbol p ts.

(** A quote at most the configured age old at a reading of the clock since [start]. *)
Definition fresh_quote (symbol : string) (price : decimal) : Prop :=
  exists t ts, (start <= t)%nat /\ P symbol price ts /\ clock env t - ts <= max_price_age_seconds cfg * second_us.

(** What becomes of one signal. *)
Definition mapped (signal : Signal) (m : SignalOrderMapping) : Prop :=
  if deqb (sg_target_weight signal) dzero then m = set_skip "zero_weight" (new_mapping signal)
  else
    m = set_skip ("price_unavailable: Price unavailable for " +:+ sg_symbol signal) (new_mapping signal) \/
    exists price shares, fresh_quote (sg_symbol signal) price /\
      ddiv (dollar_amount cfg (sg_target_weight signal)) price = Ok shares /\
      m = if dint shares <? 1 then set_skip "qty_less_than_one_share" (new_mapping signal)
          else set_order (dint shares) (if dltb dzero (sg_target_weight signal) then "buy" else "sell") (new_mapping signal).

Lemma map_signal_mapped signal s m s' : sound P start s -> map_signal env cfg signal s = (Ok m, s') ->
  mapped signal m /\ sound P start s'.
Proof.
  intros Hs. unfold map_signal, mapped. destruct (deqb _ _); [by intros [= <- <-]|].
  rewrite M_bind_run. unfold price_or_reason, try_except. rewrite M_bind_run.
  pose proof (current_price_quotes env cfg P start HP (sg_symbol signal) s Hs) as Hs1.
  destruct (_get_current_price env cfg (sg_symbol signal) s) as [[price|e] s1] eqn:E; cbn [snd] in Hs1.
  - change ((mret (inl price) : M orch (decimal + string)) s1) with (@Ok (decimal + string) (inl price), s1). cbv beta iota.
    unfold lift, size_order. unfold mbind, result_bind. destruct (ddiv _ price) as [shares|] eqn:Ed; [|done].
    intros [= <- <-]. split; [|done]. right. exists price, shares. split; [|done].
    destruct (current_price_fresh _ _ _ _ _ _ E) as (Hc & t & ts & Ht & Hts & Hage). destruct Hs as [_ Hn], Hs1 as [Hq _].
    exists t, ts. split; [lia|]. split; [by apply Hq|done].
  - apply price_raises in E as ->. cbn. intros [= <- <-]. split; [by left|done].
Qed.

Lemma signals_mapped signals s mappings s' : sound P start s ->
  _map_signals_to_orders env cfg signals s = (Ok mappings, s') -> Forall2 mapped signals mappings.
Proof.
  intros Hs. unfold _map_signals_to_orders. rewrite M_bind_run.
  pose proof (prefetch_quotes env cfg P start HP (signal_symbols signals) s Hs) as H1.
  destruct (_prefetch_prices env cfg _ s) as [[[]|e] s1]; [|done]. cbn [snd] in H1. intros H.
  by destruct (collect_inv _ _ _ _ map_signal_mapped _ _ _ _ H1 H) as (ys & -> & Hys & _).
Qed.
End mapping.

(** ** Limits *)

Lemma fix_prec_nonneg d : (0 <= dval d)%Q -> (0 <= dval (fix_prec d))%Q.
Proof.
  intros H. pose proof (fix_prec_error d) as He. rewrite (Qabs_pos (dval d)) in He by done.
  apply Qabs_Qle_condition in He as [He _].
  assert (ulp_rel * dval d <= 1 * dval d)%Q by (apply Qmult_le_compat_r; [discriminate|done]). lra.
Qed.

Lemma dollars_nonneg w c : (0 <= dval c)%Q -> (0 <= dval (dmul (dabs w) c))%Q.
Proof.
  intros Hc. unfold dmul. apply fix_prec_nonneg. rewrite mul_val. apply Qmult_le_0_compat; [|done].
  unfold dabs. apply fix_prec_nonneg. rewrite abs_val. apply Qabs_nonneg.
Qed.

Lemma dollars_exact w c : Z.abs (coef w) < 10 ^ 28 -> Z.abs (coef w * coef c) < 10 ^ 28 ->
  (dval (dmul (dabs w) c) == Qabs (dval w) * dval c)%Q.
Proof.
  intros Hw Hp. unfold dabs. rewrite fix_prec_small by (cbn [coef]; lia).
  rewrite dmul_exact by (cbn [coef]; rewrite Z.abs_mul in *; by rewrite Z.abs_idemp).
  by rewrite abs_val.
Qed.

Section limits.
Context (env : environment) (cfg : settings).
Hypothesis Hcapital : (0 <= dval (capital cfg))%Q.
Hypothesis Hmax : (0 <= dval (max_position_size cfg))%Q.

Lemma dollar_amount_bounds w :
  (0 <= dval (dollar_amount cfg w) <= dval (max_position_size cfg))%Q /\
  (dval (dollar_amount cfg w) <= dval (dmul (dabs w) (capital cfg)))%Q.
Proof.
  pose proof (dollars_nonneg w _ Hcapital) as Hn. unfold dollar_amount.
  destruct (dltb_spec (max_position_size cfg) (dmul (dabs w) (capital cfg))) as [H|H]; lra.
Qed.

(** An order of a signal: its side is the sign of the weight, and its shares at a fresh published price take at most
    the position limit and the weight's share of the capital, and one more share would exceed the amount allotted
    (amounts of up to 27 digits). *)
Definition within_limits (start : nat) (signal : Signal) (m : SignalOrderMapping) : Prop :=
  mp_symbol m = sg_symbol signal /\ mp_target_weight m = sg_target_weight signal /\
  forall q, mp_order_qty m = Some q ->
    1 <= q /\ mp_order_side m = Some (if dltb dzero (sg_target_weight signal) then "buy" else "sell") /\
    exists price, fresh_quote env cfg (published env) start (sg_symbol signal) price /\ (0 < dval price)%Q /\
      let amount := dollar_amount cfg (sg_target_weight signal) in
      (units amount price < 10 ^ 27 ->
       (inject_Z q * dval price <= dval (max_position_size cfg))%Q /\
       (dval amount <= inject_Z (q + 1) * dval price)%Q /\
       (Z.abs (coef (sg_target_weight signal)) < 10 ^ 28 ->
        Z.abs (coef (sg_target_weight signal) * coef (capital cfg)) < 10 ^ 28 ->
        (inject_Z q * dval price <= Qabs (dval (sg_target_weight signal)) * dval (capital cfg))%Q)).

Lemma mapped_within_limits start signal m : mapped env cfg (published env) start signal m -> within_limits start signal m.
Proof.
  unfold mapped, within_limits. destruct (deqb _ _); [by intros ->|].
  intros [->|(price & shares & Hq & Hd & ->)]; [done|].
  destruct (Z.ltb_spec (dint shares) 1) as [|H1]; [done|]. split_and!; [done..|].
  intros q [= <-]. split_and!; [lia|done|]. exists price. split; [done|].
  assert (Hp : (0 < dval price)%Q).
  { destruct Hq as (t & ts & _ & (raw & d & _ & _ & _ & _ & Hp) & _). destruct (dltb_spec dzero price) as [Hp'|]; [|done].
    by rewrite dzero_val in Hp'. }
  split; [done|]. cbv zeta. intros Hu.
  destruct (dollar_amount_bounds (sg_target_weight signal)) as [[Ha0 Ham] Had].
  destruct (whole_shares_fit _ _ _ Hd Ha0 Hp Hu) as [Hl Hh]. split_and!; [lra|done|].
  intros Hw Hc. rewrite <- (dollars_exact _ _ Hw Hc). lra.
Qed.
End limits.

(** C10. The orders of a run: one mapping for each signal, in order, within the limits. *)
Theorem orders_within_limits env cfg signals s mappings s' :
  quotes (published env) s -> (0 <= dval (capital cfg))%Q -> (0 <= dval (max_position_size cfg))%Q ->
  _map_signals_to_orders env cfg signals s = (Ok mappings, s') ->
  Forall2 (within_limits env cfg (o_ticks s)) signals mappings.
Proof.
  intros Hq Hc Hm H.
  pose proof (signals_mapped env cfg (published env) (o_ticks s) (fun _ _ _ h => h) signals s mappings s' (conj Hq (le_n _)) H) as F.
  eapply Forall2_impl; [exact F|]. intros signal m. by apply mapped_within_limits.
Qed.

(** ** Every order sent is reported *)

Section submission.
Context (env : environment).

(** A request for the order, with the headers that sign it. *)
Definition signed_order (o : OrderRequest) (x : OrderRequest * ServiceAuth.headers) : Prop :=
  x.1 = o /\ exists t, ServiceAuth._get_internal_auth_headers (service_env env) (clock env t) (uuid4 env t) "POST" orders_path None
    (ServiceAuth.BytesBody (encode (order_body o))) None None = Ok x.2.

(** A submission sends its order at most three times, each time signed; when it returns, the last reply is its result,
    and what it raises is not an exception that is retried. *)
Definition submission_trace (o : OrderRequest) (r : result OrderSubmission) (before : list (OrderRequest * ServiceAuth.headers))
    (batch : list (OrderRequest * ServiceAuth.headers)) : Prop :=
  Forall (signed_order o) batch /\
  match r with
  | Ok x => batch <> [] /\ read_reply [200; 201] (gateway_api env (before ++ batch)) = Ok x
  | Raise e => retryable e = false
  end.

Lemma attempts_trace o left : forall s, exists r s' batch,
  attempts left (h ← sign_post env orders_path (order_body o) None; post_order env o h) s = (r, s') /\
  o_orders_sent s' = o_orders_sent s ++ batch /\ (length batch <= left)%nat /\ submission_trace o r (o_orders_sent s) batch.
Proof.
  induction left as [|left IH]; intros s; cbn [attempts].
  { exists (Raise RetryError), s, []. split_and!; [done|by rewrite app_nil_r|done|]. by split. }
  rewrite M_bind_run. unfold sign_post at 1. set (s1 := set_redis_tick (o_redis s) s).
  destruct (ServiceAuth._get_internal_auth_headers _ _ _ _ _ _ _ _ _) as [h|e] eqn:Eh.
  - unfold post_order at 1. cbv zeta. change (o_orders_sent s1) with (o_orders_sent s). change (o_signal_requests s1) with (o_signal_requests s).
    set (sent := o_orders_sent s ++ [(o, h)]).
    assert (Hsig : signed_order o (o, h)) by (split; [done|]; by exists (o_ticks s)).
    destruct (read_reply [200; 201] (gateway_api env sent)) as [x|e] eqn:Er.
    + eexists _, _, [(o, h)]. split; [reflexivity|]. split_and!; [done|cbn; lia|]. split; [by constructor|]. by split.
    + destruct (retryable e) eqn:Et.
      * destruct (IH (set_sent (o_signal_requests s) sent s1)) as (r & s' & batch & -> & Hs & Hl & Hb & Hr).
        exists r, s', ((o, h) :: batch). split; [done|]. cbn in Hs. unfold sent in Hs. rewrite <- app_assoc in Hs.
        split_and!; [done|cbn; lia|]. split; [by constructor|]. destruct r as [x|e']; [|done].
        destruct Hr as [_ Hr]. split; [done|]. cbn in Hr. unfold sent in Hr. by rewrite <- app_assoc in Hr.
      * eexists _, _, [(o, h)]. split; [reflexivity|]. split_and!; [done|cbn; lia|]. split; [by constructor|done].
  - assert (Ee : retryable e = false).
    { unfold ServiceAuth._get_internal_auth_headers in Eh. destruct (bool_decide _); [|done]. destruct (bool_decide _); [done|]. by injection Eh as <-. }
    rewrite Ee. exists (Raise e), s1, []. split_and!; [done|by rewrite app_nil_r|cbn; lia|]. by split.
Qed.

(** What the submission makes of a mapping, and the requests it sends for it. *)
Definition submitted (m m' : SignalOrderMapping) (before batch : list (OrderRequest * ServiceAuth.headers)) : Prop :=
  match mp_order_qty m, mp_order_side m with
  | Some qty, Some side =>
      (length batch <= 3)%nat /\ exists r, submission_trace (market_order m qty side) r before batch /\
        m' = match r with
             | Ok x => set_submission x m
             | Raise e => set_rejected (submission_failure env e) m
             end
  | _, _ => m' = m /\ batch = []
  end.

Definition has_side (m : SignalOrderMapping) : Prop := mp_order_qty m <> None -> mp_order_side m <> None.

Lemma submit_mapping_run m s : has_side m -> exists m' s' batch,
  submit_mapping env m s = (Ok m', s') /\ o_orders_sent s' = o_orders_sent s ++ batch /\ submitted m m' (o_orders_sent s) batch.
Proof.
  unfold has_side, submit_mapping, submitted. intros Hm. destruct (mp_order_qty m) as [qty|].
  - destruct (mp_order_side m) as [side|]; [|by destruct Hm]. unfold try_except. rewrite M_bind_run.
    destruct (attempts_trace (market_order m qty side) MAX_ATTEMPTS s) as (r & s' & batch & E & Hs & Hl & Ht).
    unfold submit_order. rewrite E. destruct r as [x|e]; (eexists _, s', batch; split; [reflexivity|]; split; [done|];
      split; [done|]; eexists; split; [exact Ht|done]).
  - exists m, s, []. split_and!; [done|by rewrite app_nil_r|done|done].
Qed.

(** The mappings after submission, with the requests sent for each, after [before]. *)
Inductive all_submitted : list (OrderRequest * ServiceAuth.headers) -> list SignalOrderMapping -> list SignalOrderMapping ->
    list (list (OrderRequest * ServiceAuth.headers)) -> Prop :=
| submitted_none before : all_submitted before [] [] []
| submitted_one before m m' batch ms ms' batches :
    submitted m m' before batch -> all_submitted (before ++ batch) ms ms' batches ->
    all_submitted before (m :: ms) (m' :: ms') (batch :: batches).

Lemma submit_orders_run ms : Forall has_side ms -> forall acc s, exists ms' s' batches,
  for_each (fun done m => m' ← submit_mapping env m; mret (done ++ [m'])) acc ms s = (Ok (acc ++ ms'), s') /\
  o_orders_sent s' = o_orders_sent s ++ concat batches /\ all_submitted (o_orders_sent s) ms ms' batches.
Proof.
  induction 1 as [|m ms Hm _ IH]; intros acc s; cbn [for_each].
  { exists [], s, []. rewrite !app_nil_r. split_and!; [done..|constructor]. }
  rewrite !M_bind_run. destruct (submit_mapping_run m s Hm) as (m' & s1 & batch & -> & H1 & H2).
  change ((mret (acc ++ [m']) : M orch (list SignalOrderMapping)) s1) with (@Ok (list SignalOrderMapping) (acc ++ [m']), s1).
  cbv beta iota. destruct (IH (acc ++ [m']) s1) as (ms' & s' & batches & -> & H3 & H4).
  exists (m' :: ms'), s', (batch :: batches). rewrite <- app_assoc. split; [done|]. rewrite H3, H1, <- app_assoc.
  split; [done|]. constructor; [done|]. by rewrite <- H1.
Qed.
End submission.

(** ** Loops that keep an invariant *)

Section loops.
Context (I : orch -> Prop).

Lemma attempts_preserves {A} (m : M orch A) left : preserves I m -> preserves I (attempts left m).
Proof.
  intros Hm. induction left as [|left IH]; [apply preserves_raise|]. intros s Hs. cbn [attempts]. specialize (Hm s Hs).
  destruct (m s) as [[a|e] s1]; [done|]. destruct (retryable e); [by apply IH|done].
Qed.

Lemma gather_preserves {A} (l : list (M orch A)) : Forall (preserves I) l -> preserves I (gather l).
Proof.
  induction 1 as [|t l Ht _ IH]; [apply preserves_ret|]. intros s Hs. cbn [gather]. specialize (Ht s Hs). destruct (t s) as [r s1].
  specialize (IH s1 Ht). by destruct (gather l s1) as [rs s2].
Qed.

Lemma multi_preserves allocate env q ids : (forall i, preserves I (fetch_signals env q i)) ->
  preserves I (_run_multi_strategy allocate env q ids).
Proof.
  intros Hf. unfold _run_multi_strategy. apply preserves_bind.
  - apply gather_preserves, Forall_fmap, Forall_forall. intros i _. change (preserves I (fetch_signals env q (Some i))). apply Hf.
  - intros responses. case_match; [|case_match]; try apply preserves_raise;
      (apply preserves_bind; [apply preserves_lift|intros; apply preserves_ret]).
Qed.
End loops.

(** ** Nothing is sent before the orders are sized *)

Section unsent.
Context (env : environment) (cfg : settings) (sent : list (OrderRequest * ServiceAuth.headers)).

Definition unsent (s : orch) : Prop := o_orders_sent s = sent.

Lemma read_clock_unsent : preserves unsent (read_clock env).
Proof. by intros s. Qed.
Lemma in_redis_unsent {A} (m : Z -> M redis_state A) : preserves unsent (in_redis env m).
Proof. intros s H. unfold in_redis. by destruct (m _ _). Qed.
Lemma flag_unsent : preserves unsent mark_unavailable.
Proof. by intros s. Qed.
Lemma attempted_unsent l : preserves unsent (attempted l).
Proof. by intros s. Qed.
Lemma forget_unsent symbol : preserves unsent (forget_price symbol).
Proof. by intros s. Qed.
Lemma cache_unsent symbol p t : preserves unsent (cache_price symbol p t).
Proof. by intros s. Qed.
Lemma sign_unsent path body i : preserves unsent (sign_post env path body i).
Proof. by intros s. Qed.
Lemma post_signals_unsent q h : preserves unsent (post_signals env q h).
Proof. by intros s. Qed.

#[local] Hint Resolve read_clock_unsent in_redis_unsent flag_unsent attempted_unsent forget_unsent cache_unsent sign_unsent
  post_signals_unsent : pres.
#[local] Ltac step := apply preserves_bind; [first [apply preserves_ret | apply preserves_reads | apply preserves_lift | auto 3 with pres]|intros].
#[local] Ltac finish := first [apply preserves_ret | apply preserves_raise | apply preserves_lift | apply preserves_reads | auto 3 with pres].

Lemma parse_unsent symbol raw : preserves unsent (_parse_and_cache_price env cfg symbol raw).
Proof. unfold _parse_and_cache_price. step. destruct (PriceFeed.parse_redis_price_json _ _ _ _ _); [step|]; finish. Qed.

Lemma prefetch_unsent symbols : preserves unsent (_prefetch_prices env cfg symbols).
Proof.
  unfold _prefetch_prices. destruct (has_redis cfg), symbols as [|x l]; try apply preserves_ret. step. step.
  case_match; [finish|]. step. apply preserves_try; [|intros e c [= <-]; finish]. step. apply preserves_bind; [|finish].
  apply preserves_for_each. intros [] [sym [v|]]; [|finish]. unfold cache_reply. cbn [fst snd].
  apply preserves_bind; [apply parse_unsent|finish].
Qed.

Lemma from_cache_unsent symbol : preserves unsent (from_cache env cfg symbol).
Proof.
  unfold from_cache. step. case_match; [|finish]. step. case_match; step; [case_match; [finish|step]|]; finish.
Qed.

Lemma price_unsent symbol : preserves unsent (_get_current_price env cfg symbol).
Proof.
  unfold _get_current_price. apply preserves_bind; [apply from_cache_unsent|]. intros [p|]; [finish|]. unfold fetch_price. step.
  apply preserves_bind; [|intros [p|]; finish]. destruct a; [|finish]. apply preserves_try.
  - step. case_match; [apply parse_unsent|finish].
  - intros e c [= <-]. step. finish.
Qed.

Lemma map_signal_unsent signal : preserves unsent (map_signal env cfg signal).
Proof.
  unfold map_signal. destruct (deqb _ _); [finish|]. apply preserves_bind.
  - apply preserves_try; [apply preserves_bind; [apply price_unsent|finish]|]. intros e c [= <-]. finish.
  - intros [p|reason]; finish.
Qed.

Lemma map_signals_unsent signals : preserves unsent (_map_signals_to_orders env cfg signals).
Proof.
  unfold _map_signals_to_orders. apply preserves_bind; [apply prefetch_unsent|]. intros _. apply preserves_for_each. intros acc signal.
  apply preserves_bind; [apply map_signal_unsent|finish].
Qed.

Lemma fetch_unsent q i : preserves unsent (fetch_signals env q i).
Proof. apply attempts_preserves. step. finish. Qed.
End unsent.

Lemma fetch_sound env P start q i : preserves (sound P start) (fetch_signals env q i).
Proof.
  apply attempts_preserves. apply preserves_bind; intros; intros s [H Hn]; (split; [exact H|cbn; lia]).
Qed.

(** ** A run *)

(** The signals a run maps: those of its strategy, or the blend of those of several. *)
Definition fetched (allocate : bool -> dict (list (string * decimal * decimal)) -> result (list (string * decimal)))
    (env : environment) (q : signal_request) (ids : list string) : M orch (list Signal * option string) :=
  match ids with
  | [i] => r ← fetch_signals env q (Some i); mret (sr_signals r, Some (md_as_of_date (sr_metadata r)))
  | _ => _run_multi_strategy allocate env q ids
  end.

Lemma fetched_preserves I allocate env q ids : (forall i, preserves I (fetch_signals env q i)) ->
  preserves I (fetched allocate env q ids).
Proof.
  intros Hf. unfold fetched. destruct ids as [|i [|j l]]; try by apply multi_preserves.
  apply preserves_bind; [apply Hf|intros; apply preserves_ret].
Qed.

Lemma mapped_has_side env cfg P start signal m : mapped env cfg P start signal m -> has_side m.
Proof.
  unfold mapped, has_side. destruct (deqb _ _); [by intros ->|]. intros [->|(price & shares & _ & _ & ->)]; [done|].
  by destruct (_ <? _).
Qed.

(** The report of a run that got through, given its signals and its mappings before submission. *)
Record completed (env : environment) (cfg : settings) (signals : list Signal) (report : OrchestrationResult) : Prop := {
  completed_signals : rs_num_signals report = Z.of_nat (length signals);
  completed_submitted : rs_num_orders_submitted report = num_submitted (rs_mappings report);
  completed_accepted : rs_num_orders_accepted report = num_accepted (rs_mappings report);
  completed_rejected : rs_num_orders_rejected report = num_rejected (rs_mappings report);
  completed_status : rs_status report = run_status (rs_num_orders_rejected report) (rs_num_orders_accepted report);
  completed_error : rs_error_message report = None
}.

Section run.
Context (allocate : bool -> dict (list (string * decimal * decimal)) -> result (list (string * decimal))).
Context (env : environment) (cfg : settings) (q : signal_request) (ids : list string).

(** Either the run stops with a message and sends no order, or its mappings are those of its signals, in order, and
    the requests it sends are those of its mappings. *)
Definition accounted (s s' : orch) (report : OrchestrationResult) : Prop :=
  (rs_status report = "failed" /\ rs_error_message report <> None /\ rs_mappings report = [] /\ rs_num_orders_submitted report = 0 /\
   o_orders_sent s' = o_orders_sent s) \/
  (exists signals mappings batches,
     Forall2 (mapped env cfg (published env) (o_ticks s)) signals mappings /\
     all_submitted env (o_orders_sent s) mappings (rs_mappings report) batches /\
     o_orders_sent s' = o_orders_sent s ++ concat batches /\ completed env cfg signals report).

Lemma run_body_accounted started s r s' : quotes (published env) s -> (run_body allocate env cfg q ids started s = (r, s')) ->
  match r with
  | Ok report => accounted s s' report
  | Raise _ => o_orders_sent s' = o_orders_sent s
  end.
Proof.
  intros Hq. unfold run_body. fold (fetched allocate env q ids). rewrite M_bind_run.
  pose proof (fetched_preserves _ allocate env q ids (fun i => fetch_sound env (published env) (o_ticks s) q i) s (conj Hq (le_n _))) as H1.
  pose proof (fetched_preserves _ allocate env q ids (fun i => fetch_unsent env (o_orders_sent s) q i) s eq_refl) as U1.
  destruct (fetched allocate env q ids s) as [[f|e] s1]; cbn [snd] in H1, U1; [|by intros [= <- <-]].
  rewrite M_bind_run.
  pose proof (map_signals_unsent env cfg (o_orders_sent s) (fst f) s1 U1) as U2.
  destruct (_map_signals_to_orders env cfg (fst f) s1) as [[ms|e] s2] eqn:Em; cbn [snd] in U2; [|by intros [= <- <-]].
  pose proof (signals_mapped env cfg (published env) (o_ticks s) (fun _ _ _ h => h) _ _ _ _ H1 Em) as Hm.
  assert (Hside : Forall has_side ms).
  { clear -Hm. induction Hm as [|x y l k H _ IH]; [done|]. constructor; [by eapply mapped_has_side|done]. }
  rewrite M_bind_run. unfold _submit_orders.
  destruct (submit_orders_run env ms Hside [] s2) as (ms' & s3 & batches & -> & H3 & H4). cbn [app].
  rewrite M_bind_run. unfold read_clock at 1. intros [= <- <-]. right. exists (fst f), ms, batches. rewrite U2 in H3, H4.
  split_and!; [done|done|done|by constructor].
Qed.

(** A run with a strategy always returns a report, and the report accounts for every order request it sent. *)
Lemma run_accounted s : ids <> [] -> quotes (published env) s ->
  exists report s', run allocate env cfg q ids s = (Ok report, s') /\ accounted s s' report.
Proof.
  intros Hids Hq. unfold run. rewrite M_bind_run. unfold read_clock at 1.
  destruct ids as [|i l] eqn:Ei; [done|]. rewrite M_bind_run.
  set (s1 := set_active _ _). unfold try_except.
  destruct (run_body allocate env cfg q (i :: l) (clock env (o_ticks s)) s1) as [r s2] eqn:Eb. rewrite <- Ei in Eb.
  assert (Hq1 : quotes (published env) s1) by exact Hq.
  pose proof (run_body_accounted _ _ _ _ Hq1 Eb) as H. destruct r as [report|e].
  - exists report, s2. split; [done|]. destruct H as [H|(signals & ms & batches & H1 & H2 & H3 & H4)]; [by left|].
    right. exists signals, ms, batches. split_and!; [|done..]. eapply Forall2_impl; [exact H1|]. intros x m.
    unfold mapped. destruct (deqb _ _); [done|]. intros [?|(p & sh & (t & ts & Ht & Hp) & Hr)]; [by left|].
    right. exists p, sh. split; [|done]. exists t, ts. split; [cbn in Ht; lia|done].
  - unfold failed_run. rewrite M_bind_run. unfold read_clock. eexists _, _. split; [reflexivity|]. left. by cbn.
Qed.
End run.

(** ** Timeouts *)

(** Timeouts and refused connections are retried and end as [RetryError]: no caller of a client sees one, so the
    handlers that catch them are never entered. *)
Lemma submit_hides_timeouts env o s e : fst (submit_order env o s) = Raise e -> retryable e = false.
Proof.
  unfold submit_order. destruct (attempts_trace env o MAX_ATTEMPTS s) as (r & s' & batch & -> & _ & _ & _ & H). cbn. by intros ->.
Qed.

Lemma attempts_hide {A} (m : M orch A) left : forall s e, fst (attempts left m s) = Raise e -> retryable e = false.
Proof.
  induction left as [|left IH]; intros s e; cbn [attempts]; [by intros [= <-]|].
  destruct (m s) as [[a|e'] s1]; [done|]. destruct (retryable e') eqn:E; [apply IH|]. by intros [= <-].
Qed.

Lemma fetch_hides_timeouts env q i s e : fst (fetch_signals env q i s) = Raise e -> retryable e = false.
Proof. apply attempts_hide. Qed.

(** The count of accepted orders leaves out [cancelled], which the gateway spells [canceled]. *)
Lemma canceled_order_counted_accepted m : mp_order_status m = Some "canceled" -> num_accepted [m] = 1 /\ num_rejected [m] = 0.
Proof.
  intros H. unfold num_accepted, num_rejected, count, status_in. rewrite !filter_cons, H. by split.
Qed.

(** ** The gateway recognises the orders *)

(** The order as the gateway reads it: the fields the orchestrator leaves out take their defaults. *)
Definition gateway_request (o : OrderRequest) : OrderSchema.OrderRequest := {|
  req_symbol := or_symbol o; req_side := or_side o; req_qty := or_qty o; req_order_type := or_order_type o;
  req_limit_price := or_limit_price o; req_stop_price := or_stop_price o; req_time_in_force := or_time_in_force o;
  req_execution_style := "instant"; req_twap_duration_minutes := None; req_twap_interval_seconds := None;
  req_start_time := None; req_client_order_id := None |}.

Lemma mapped_order env cfg P start signal m q side : mapped env cfg P start signal m ->
  mp_order_qty m = Some q -> mp_order_side m = Some side -> 1 <= q /\ (side = "buy" \/ side = "sell").
Proof.
  unfold mapped. destruct (deqb _ _); [by intros ->|]. intros [->|(price & shares & _ & _ & ->)]; [done|].
  destruct (Z.ltb_spec (dint shares) 1); [done|]. cbn. intros [= <-] [= <-]. split; [lia|]. destruct (dltb _ _); [by left|by right].
Qed.

Lemma market_order_valid m q side now : 1 <= q -> side = "buy" \/ side = "sell" ->
  mk_order_request now (gateway_request (market_order m q side)) = Ok (symbol_uppercase (gateway_request (market_order m q side))).
Proof.
  intros Hq Hside. unfold mk_order_request.
  assert (Hf : field_types_ok (gateway_request (market_order m q side)) = true).
  { unfold field_types_ok. cbn [req_side req_qty req_order_type req_time_in_force req_execution_style gateway_request market_order
      or_side or_qty or_order_type or_time_in_force]. destruct (Z.ltb_spec 0 q); [|lia]. by destruct Hside as [-> | ->]. }
  by rewrite Hf.
Qed.

Section recognized.
Context (env : environment) (cfg : settings) (gateway : ServiceAuth.environ) (tolerance : Z) (net : network).
Hypothesis Henforce : ServiceAuth._get_auth_mode gateway = ServiceAuth.Enforce.
Hypothesis Hsecret : ServiceAuth.client_secret (service_env env) = ServiceAuth._get_service_secret gateway "orchestrator".
Hypothesis Hnonempty : ServiceAuth.client_secret (service_env env) <> "".
Hypothesis Hallowed : "orchestrator" ∈ ServiceAuth.ALLOWED_SERVICE_IDS gateway.
Hypothesis Htolerance : 0 < tolerance.

(** The request reaches the gateway as it was signed at moment [t], in time and with a nonce not seen before. *)
Definition arrives (t : nat) (x : OrderRequest * ServiceAuth.headers) (now redis_now : Z) (rq : ServiceAuth.request)
    (s : ServiceAuth.auth_state) : Prop :=
  ServiceAuth.delivered rq "POST" orders_path None (ServiceAuth.BytesBody (encode (order_body x.1))) /\
  0 <= clock env t /\ Z.abs (ServiceAuth.whole_seconds now - ServiceAuth.whole_seconds (clock env t)) <= tolerance /\
  uuid4 env t <> "" /\ (slen (uuid4 env t) <= ServiceAuth.MAX_NONCE_LENGTH)%nat /\
  ServiceAuth.nonce_free redis_now "orchestrator" (uuid4 env t) (rs_keys (ServiceAuth.as_redis s)) /\
  net (rs_attempts (ServiceAuth.as_redis s)) = Served.

End recognized.
