(* ===== verification/OrchestratorService.v ===== *)
(** * The orchestrator's endpoints and its tables (apps/orchestrator/main.py, database.py)

    A request to run is refused while the kill switch is engaged, or cannot be
    read; a run's report is written with its mappings in one transaction.  The
    state is the module's flag, the kill switch's Redis keys, the two tables and
    what the orchestrators did to the world.  The environment says what others
    did to the kill switch before each access, and whether each access of Redis
    or of the database succeeds, is not executed, or is executed without its
    answer coming back.  Column types are those of
    db/legacy/migrations_pre_alembic/003_create_orchestration_tables.sql. *)

From S2P Require Import Prelude PyDecimal PyText OrderSchema RedisClient PyDict Calendar Orchestrator OrchestratorSafety.
From S2P Require KillSwitch Gateway ServiceAuth PriceFeed Formats Webhook.
Open Scope Z_scope.

(** ** [date.fromisoformat] of Python 3.11 *)

Definition number (l : list Ascii.ascii) : option Z :=
  if forallb is_digit l then Some (digit_value (of_chars l)) else None.

Definition checked_date (y m d : Z) : option date :=
  let x := Date y m d in
  if (1 <=? y) && (y <=? 9999) && (1 <=? m) && (m <=? 12) && bool_decide (civil (days_of x) = x) then Some x else None.

(** Days from Monday. *)
Definition weekday (n : Z) : Z := (n + 3) mod 7.

Definition week1_monday (y : Z) : Z :=
  let first := days_of (Date y 1 1) in
  let monday := first - weekday first in
  if 3 <? weekday first then monday + 7 else monday.

Definition week_date (y w d : Z) : option date :=
  let weeks := (week1_monday (y + 1) - week1_monday y) / 7 in
  if (1 <=? y) && (y <=? 9999) && (1 <=? w) && (w <=? weeks) && (1 <=? d) && (d <=? 7) then
    let x := civil (week1_monday y + (w - 1) * 7 + d - 1) in
    if (1 <=? year x) && (year x <=? 9999) then Some x else None
  else None.

Definition fromisoformat (s : string) : option date :=
  let l := chars s in
  y ← number (take 4 l);
  let dash := match drop 4 l with c :: _ => is_char 45 c | [] => false end in
  let rest := if dash then drop 5 l else drop 4 l in
  match rest with
  | c :: w1 :: w2 :: tail =>
      if is_char 87 c then
        w ← number [w1; w2];
        match dash, tail with
        | _, [] => week_date y w 1
        | true, [s'; d] => if is_char 45 s' then d ← number [d]; week_date y w d else None
        | false, [d] => d ← number [d]; week_date y w d
        | _, _ => None
        end
      else
        match dash, w2 :: tail with
        | true, [s'; d1; d2] => if is_char 45 s' then m ← number [c; w1]; d ← number [d1; d2]; checked_date y m d else None
        | false, [d1; d2] => m ← number [c; w1]; d ← number [d1; d2]; checked_date y m d
        | _, _ => None
        end
  | _ => None
  end.

Example iso_dates :
  fromisoformat "2024-12-31" = Some (Date 2024 12 31) /\ fromisoformat "20240229" = Some (Date 2024 2 29) /\
  fromisoformat "2025-W01-1" = Some (Date 2024 12 30) /\ fromisoformat "2023-02-29" = None /\
  fromisoformat "2021W53" = None /\ fromisoformat "2020W537" = Some (Date 2021 1 3) /\ fromisoformat "31-12-2024" = None.
Proof. vm_compute. split_and!; reflexivity. Qed.

(** ** Tables *)

Record run_row := {
  rr_run_id : string; rr_strategy_id : string; rr_as_of_date : string; rr_status : string; rr_symbols : list string;
  rr_capital : decimal; rr_max_position_size : option decimal; rr_num_signals : Z; rr_model_version : option string;
  rr_num_orders_submitted : Z; rr_num_orders_accepted : Z; rr_num_orders_rejected : Z; rr_started_at : Z;
  rr_completed_at : option Z; rr_duration_seconds : option decimal; rr_error_message : option string
}.

Record tables := { tb_runs : list run_row; tb_mappings : list (string * SignalOrderMapping) }.

Definition data_error : exn := InternalError "psycopg.errors.DataError".

(** A [NUMERIC(p, s)] column and a [VARCHAR(n)] column. *)
Definition numeric (p s : Z) (d : decimal) : result decimal :=
  match quantize_half_up d (- s) with
  | Ok x => if Z.abs (coef x) <? 10 ^ p then Ok x else Raise data_error
  | Raise _ => Raise data_error
  end.
Definition varchar (n : nat) (s : string) : result string := if (slen s <=? n)%nat then Ok s else Raise data_error.

Definition optional_column {A} (f : A -> result A) (o : option A) : result (option A) :=
  match o with Some a => x ← f a; Ok (Some x) | None => Ok None end.

(** [INTEGER]: 32 bits. *)
Definition integer (n : Z) : result Z := if (- 2 ^ 31 <=? n) && (n <? 2 ^ 31) then Ok n else Raise data_error.

Definition run_statuses : list string := ["running"; "completed"; "failed"; "partial"].

(** The duration [completed_at - started_at] in seconds. *)
Definition duration (started completed : Z) : decimal := Dec (completed - started) (-6).

Definition insert_run (run_id today : string) (r : OrchestrationResult) : M tables unit := fun t =>
  match
    (strategy_id ← varchar 100 (rs_strategy_id r);
     status ← varchar 20 (rs_status r);
     cap ← numeric 15 2 (rs_capital r);
     n ← integer (rs_num_signals r); a ← integer (rs_num_orders_submitted r); b ← integer (rs_num_orders_accepted r);
     c ← integer (rs_num_orders_rejected r);
     d ← optional_column (numeric 10 3) (duration (rs_started_at r) <$> rs_completed_at r);
     if negb (one_of status run_statuses) then Raise (IntegrityError "orchestration_runs_status_check")
     else if negb (dltb dzero cap) then Raise (IntegrityError "orchestration_runs_capital_check")
     else if negb ((0 <=? n) && (0 <=? a) && (0 <=? b) && (0 <=? c)) then Raise (IntegrityError "orchestration_runs_num_check")
     else if bool_decide (run_id ∈ rr_run_id <$> tb_runs t) then Raise (IntegrityError "orchestration_runs_run_id_key")
     else Ok {| rr_run_id := run_id; rr_strategy_id := strategy_id; rr_as_of_date := default today (rs_as_of_date r);
                rr_status := status; rr_symbols := rs_symbols r; rr_capital := cap; rr_max_position_size := None;
                rr_num_signals := n; rr_model_version := None; rr_num_orders_submitted := a; rr_num_orders_accepted := b;
                rr_num_orders_rejected := c; rr_started_at := rs_started_at r; rr_completed_at := rs_completed_at r;
                rr_duration_seconds := d; rr_error_message := rs_error_message r |})
  with
  | Ok row => (Ok tt, {| tb_runs := tb_runs t ++ [row]; tb_mappings := tb_mappings t |})
  | Raise e => (Raise e, t)
  end.

(** A row of [signal_order_mappings]. *)
Definition mapping_row (m : SignalOrderMapping) : result SignalOrderMapping :=
  symbol ← varchar 10 (mp_symbol m);
  ret ← numeric 10 6 (mp_predicted_return m);
  rank ← integer (mp_rank m);
  weight ← numeric 5 4 (mp_target_weight m);
  qty ← optional_column integer (mp_order_qty m);
  side ← optional_column (fun s => x ← varchar 10 s;
            if one_of x ["buy"; "sell"] then Ok x else Raise (IntegrityError "signal_order_mappings_order_side_check")) (mp_order_side m);
  status ← optional_column (varchar 20) (mp_order_status m);
  filled ← optional_column (numeric 15 4) (mp_filled_qty m);
  price ← optional_column (numeric 15 4) (mp_filled_avg_price m);
  Ok {| mp_symbol := symbol; mp_predicted_return := ret; mp_rank := rank; mp_target_weight := weight;
        mp_client_order_id := mp_client_order_id m; mp_order_qty := qty; mp_order_side := side;
        mp_broker_order_id := mp_broker_order_id m; mp_order_status := status; mp_filled_qty := filled;
        mp_filled_avg_price := price; mp_skip_reason := mp_skip_reason m |}.

Definition insert_mapping (run_id : string) (_ : unit) (m : SignalOrderMapping) : M tables unit := fun t =>
  match mapping_row m with
  | Ok row => (Ok tt, {| tb_runs := tb_runs t; tb_mappings := tb_mappings t ++ [(run_id, row)] |})
  | Raise e => (Raise e, t)
  end.

Definition _create_mappings (run_id : string) (mappings : list SignalOrderMapping) : M tables unit :=
  for_each (insert_mapping run_id) tt mappings.

(** The connection's context rolls back on an exception. *)
Definition create_run (run_id today : string) (r : OrchestrationResult) : M tables unit :=
  transaction (_ ← insert_run run_id today r; _create_mappings run_id (rs_mappings r)).

Definition get_run (run_id : string) : M tables (option run_row) :=
  reads (fun t => List.find (fun r => bool_decide (rr_run_id r = run_id)) (tb_runs t)).

(** [ORDER BY rank], rows of equal rank in the order they were inserted. *)
Definition by_rank (x y : SignalOrderMapping) : Prop := mp_rank x <= mp_rank y.
#[export] Instance by_rank_dec x y : Decision (by_rank x y).
Proof. unfold by_rank. apply _. Defined.

Definition get_mappings (run_id : string) : M tables (list SignalOrderMapping) :=
  reads (fun t => merge_sort by_rank (snd <$> filter (fun x => x.1 = run_id) (tb_mappings t))).

(** [ORDER BY started_at DESC] *)
Definition newest_first (x y : run_row) : Prop := rr_started_at y <= rr_started_at x.
#[export] Instance newest_first_dec x y : Decision (newest_first x y).
Proof. unfold newest_first. apply _. Defined.

Definition matches (strategy_id status : option string) (r : run_row) : bool :=
  match ServiceAuth.truthy strategy_id with Some i => bool_decide (rr_strategy_id r = i) | None => true end &&
  match ServiceAuth.truthy status with Some x => bool_decide (rr_status r = x) | None => true end.

Definition list_runs (limit offset : nat) (strategy_id status : option string) : M tables (list run_row) :=
  reads (fun t => take limit (drop offset (merge_sort newest_first (filter (fun r => matches strategy_id status r = true) (tb_runs t))))).

Definition update_row (run_id status : string) (completed_at : option Z) (duration_seconds : option decimal)
    (error_message : option string) (r : run_row) : run_row :=
  if bool_decide (rr_run_id r = run_id) then
    {| rr_run_id := rr_run_id r; rr_strategy_id := rr_strategy_id r; rr_as_of_date := rr_as_of_date r; rr_status := status;
       rr_symbols := rr_symbols r; rr_capital := rr_capital r; rr_max_position_size := rr_max_position_size r;
       rr_num_signals := rr_num_signals r; rr_model_version := rr_model_version r;
       rr_num_orders_submitted := rr_num_orders_submitted r; rr_num_orders_accepted := rr_num_orders_accepted r;
       rr_num_orders_rejected := rr_num_orders_rejected r; rr_started_at := rr_started_at r;
       rr_completed_at := match completed_at with Some x => Some x | None => rr_completed_at r end;
       rr_duration_seconds := match duration_seconds with Some x => Some x | None => rr_duration_seconds r end;
       rr_error_message := match error_message with Some x => Some x | None => rr_error_message r end |}
  else r.

Definition update_run_status (run_id status : string) (completed_at : option Z) (duration_seconds : option decimal)
    (error_message : option string) : M tables unit := fun t =>
  match (x ← varchar 20 status; d ← optional_column (numeric 10 3) duration_seconds; Ok (x, d)) with
  | Raise e => (Raise e, t)
  | Ok (status, d) =>
      if existsb (fun r => bool_decide (rr_run_id r = run_id)) (tb_runs t) && negb (one_of status run_statuses)
      then (Raise (IntegrityError "orchestration_runs_status_check"), t)
      else (Ok tt, {| tb_runs := update_row run_id status completed_at d error_message <$> tb_runs t; tb_mappings := tb_mappings t |})
  end.

(** ** The service (main.py) *)

Record service := {
  sv_unavailable : bool;
  sv_kill : KillSwitch.ks_store;
  sv_tables : tables;
  sv_world : orch;
  sv_calls : nat
}.

Definition set_unavailable (s : service) : service := {|
  sv_unavailable := true; sv_kill := sv_kill s; sv_tables := sv_tables s; sv_world := sv_world s; sv_calls := sv_calls s |}.

Record service_environment := {
  orch_env : environment;
  operators : nat -> KillSwitch.ks_store -> KillSwitch.ks_store;
  kill_fate : nat -> Gateway.fate;
  db_fate : nat -> Gateway.fate;
  new_run_id : nat -> string;
  today : nat -> string
}.

(** The module's configuration. *)
Record service_config := {
  CAPITAL : decimal;
  MAX_POSITION_SIZE : decimal;
  STRATEGY_ID : string;
  MAX_PRICE_AGE_SECONDS : Z;
  redis_client : bool;
  kill_switch : bool
}.

(** Lines 84-104: [FAT_FINGER_MAX_PRICE_AGE_SECONDS], or 30. *)
Definition max_price_age_of (raw : option string) : Z :=
  match raw ≫= Formats.parse_int with
  | Some n => if n <=? 0 then 30 else n
  | None => 30
  end.

(** An access of the kill switch. *)
Definition kill_call {A} (env : service_environment) (m : M KillSwitch.ks_store A) : M service A := fun s =>
  let n := sv_calls s in
  let k := operators env n (sv_kill s) in
  let after (k : KillSwitch.ks_store) : service := {|
    sv_unavailable := sv_unavailable s; sv_kill := k; sv_tables := sv_tables s; sv_world := sv_world s; sv_calls := S n |} in
  match kill_fate env n with
  | Gateway.Up => let '(r, k') := m k in (r, after k')
  | Gateway.Down e => (Raise e, after k)
  | Gateway.ReplyLost e => (Raise e, after (snd (m k)))
  end.

(** An access of the database. *)
Definition db_call {A} (env : service_environment) (m : M tables A) : M service A := fun s =>
  let n := sv_calls s in
  let after (t : tables) : service := {|
    sv_unavailable := sv_unavailable s; sv_kill := sv_kill s; sv_tables := t; sv_world := sv_world s; sv_calls := S n |} in
  match db_fate env n with
  | Gateway.Up => let '(r, t') := m (sv_tables s) in (r, after t')
  | Gateway.Down e => (Raise e, after (sv_tables s))
  | Gateway.ReplyLost e => (Raise e, after (snd (m (sv_tables s))))
  end.

Definition mark_unavailable : M service unit := fun s => (Ok tt, set_unavailable s).

Definition kill_missing : exn := HTTPException 503 "Kill-switch unavailable (Redis not initialized)".
Definition kill_unknown : exn := HTTPException 503 "Kill-switch unavailable".

(** The [except] clauses of the kill-switch endpoints. *)
Definition kill_errors {A} (value_errors : bool) (e : exn) : option (M service A) :=
  match e with
  | RuntimeError _ => Some (_ ← mark_unavailable; raise kill_unknown)
  | ValueError msg => if value_errors then Some (raise (HTTPException 400 msg)) else None
  | _ => None
  end.

Section endpoints.
Context (allocate : bool -> dict (list (string * decimal * decimal)) -> result (list (string * decimal))).
Context (env : service_environment) (cfg : service_config).

Definition engage_kill_switch (now reason operator : string) (details : option Redis.json_dict) : M service KillSwitch.ks_data :=
  if negb (kill_switch cfg) then raise kill_missing
  else
    try_except
      (_ ← kill_call env (KillSwitch.engage now reason operator details);
       kill_call env KillSwitch.get_status)
      (kill_errors true).

Definition disengage_kill_switch (now operator : string) (notes : option string) : M service KillSwitch.ks_data :=
  if negb (kill_switch cfg) then raise kill_missing
  else
    try_except
      (_ ← kill_call env (KillSwitch.disengage now operator notes);
       kill_call env KillSwitch.get_status)
      (kill_errors true).

Definition get_kill_switch_status : M service KillSwitch.ks_data :=
  if negb (kill_switch cfg) then raise kill_missing
  else try_except (kill_call env KillSwitch.get_status) (kill_errors false).

Record OrchestrationRequest := {
  rq_symbols : list string; rq_as_of_date : option string; rq_capital : option decimal; rq_max_position_size : option decimal;
  rq_dry_run : option bool
}.

(** A decimal that counts as true. *)
Definition nonzero (o : option decimal) : option decimal :=
  match o with Some d => if deqb d dzero then None else Some d | None => None end.

(** Lines 630-669: refused while the kill switch is engaged or missing. *)
Definition check_kill_switch : M service unit :=
  try_except
    (engaged ← (if kill_switch cfg then kill_call env KillSwitch.is_engaged else mret false);
     if (engaged : bool) then
       _ ← kill_call env KillSwitch.get_status;
       raise (HTTPException 503 "Kill-switch engaged")
     else mret tt)
    (fun e => match e with
              | RuntimeError _ => Some (_ ← mark_unavailable; raise kill_unknown)
              | _ => None
              end).

(** Lines 672-680 *)
Definition parse_as_of_date (o : option string) : result (option string) :=
  match ServiceAuth.truthy o with
  | None => Ok None
  | Some text =>
      match fromisoformat text with
      | Some d => Ok (Some (isoformat d))
      | None => Raise (HTTPException 400 ("Invalid date format: " +:+ text +:+ ". Use YYYY-MM-DD."))
      end
  end.

Definition run_settings (request : OrchestrationRequest) : settings := {|
  capital := default (CAPITAL cfg) (nonzero (rq_capital request));
  max_position_size := default (MAX_POSITION_SIZE cfg) (nonzero (rq_max_position_size request));
  max_price_age_seconds := MAX_PRICE_AGE_SECONDS cfg;
  has_redis := redis_client cfg;
  allocation_method := "rank_aggregation" |}.

(** A new orchestrator's run, on the world. *)
Definition run_once (request : OrchestrationRequest) (as_of_date : option string) : M service OrchestrationResult := fun s =>
  let c := run_settings request in
  let q := {| sq_symbols := rq_symbols request; sq_as_of_date := as_of_date; sq_top_n := None; sq_bottom_n := None |} in
  match new_orchestrator c (clock (orch_env env) (o_ticks (sv_world s))) [] (sv_world s) with
  | Raise e => (Raise e, s)
  | Ok o =>
      let '(r, o') := run allocate (orch_env env) c q [STRATEGY_ID cfg] o in
      (r, {| sv_unavailable := sv_unavailable s; sv_kill := sv_kill s; sv_tables := sv_tables s; sv_world := o';
             sv_calls := sv_calls s |})
  end.

Definition save_run (r : OrchestrationResult) : M service unit := fun s =>
  db_call env (create_run (new_run_id env (sv_calls s)) (today env (sv_calls s)) r) s.

(** The [except] clauses of the endpoint. *)
Definition run_errors (e : exn) : option (M service OrchestrationResult) :=
  match e with
  | HTTPException _ _ => None
  | ValueError msg | ValidationError msg => Some (raise (HTTPException 400 msg))
  | OperationalError _ | IntegrityError _ => Some (raise (HTTPException 500 "Database error during orchestration"))
  | _ => Some (raise (HTTPException 500 "Internal server error during orchestration"))
  end.

Definition run_orchestration (request : OrchestrationRequest) : M service OrchestrationResult :=
  if bool_decide (rq_symbols request = []) then raise (HTTPException 422 "symbols")
  else
    try_except
      (unavailable ← reads sv_unavailable;
       if (unavailable : bool) then raise kill_unknown
       else
         _ ← check_kill_switch;
         as_of_date ← lift (parse_as_of_date (rq_as_of_date request));
         result ← run_once request as_of_date;
         _ ← save_run result;
         mret result)
      run_errors.

(** The bounds of the query parameters are FastAPI's. *)
Definition list_runs_endpoint (limit offset : Z) (strategy_id status : option string) : M service (list run_row * Z) :=
  if negb ((1 <=? limit) && (limit <=? 100) && (0 <=? offset)) then raise (HTTPException 422 "query")
  else
    runs ← db_call env (list_runs (Z.to_nat limit) (Z.to_nat offset) strategy_id status);
    mret (runs, Z.of_nat (length runs)).

Definition result_of_row (r : run_row) (mappings : list SignalOrderMapping) : OrchestrationResult := {|
  rs_status := rr_status r; rs_strategy_id := rr_strategy_id r; rs_as_of_date := Some (rr_as_of_date r); rs_symbols := [];
  rs_capital := of_int 0; rs_num_signals := rr_num_signals r; rs_num_orders_submitted := rr_num_orders_submitted r;
  rs_num_orders_accepted := rr_num_orders_accepted r; rs_num_orders_rejected := rr_num_orders_rejected r;
  rs_mappings := mappings; rs_started_at := rr_started_at r; rs_completed_at := rr_completed_at r;
  rs_error_message := None |}.

Definition get_run_endpoint (run_id : string) : M service OrchestrationResult :=
  found ← db_call env (get_run run_id);
  match found with
  | None => raise (HTTPException 404 ("Run not found: " +:+ run_id))
  | Some row => mappings ← db_call env (get_mappings run_id); mret (result_of_row row mappings)
  end.

(** GET /health: the status, given the two clients' health and the database's. *)
Definition overall_status (unavailable db_connected signal_healthy execution_healthy : bool) : string :=
  if unavailable then "degraded"
  else if db_connected && signal_healthy && execution_healthy then "healthy"
  else if db_connected then "degraded" else "unhealthy".
End endpoints.

(** ** A request to run *)

Section outcome.
Context (allocate : bool -> dict (list (string * decimal * decimal)) -> result (list (string * decimal))).
Context (env : service_environment) (cfg : service_config).

(** What the kill switch shows at the check of a request that starts in [s]. *)
Definition trading_active (s : service) : Prop :=
  sv_unavailable s = false /\
  (kill_switch cfg = true -> exists d, KillSwitch.state_key (operators env (sv_calls s) (sv_kill s)) = Some d /\
                                       KillSwitch.state d = KillSwitch.ks_value KillSwitch.ACTIVE).

(** What a check leaves alone. *)
Definition untouched (s s' : service) : Prop := sv_world s' = sv_world s /\ sv_tables s' = sv_tables s.

Lemma kill_call_untouched {A} (m : M KillSwitch.ks_store A) s : untouched s (snd (kill_call env m s)).
Proof. unfold kill_call. destruct (kill_fate _ _); [destruct (m _)| |]; done. Qed.

Lemma untouched_trans s1 s2 s3 : untouched s1 s2 -> untouched s2 s3 -> untouched s1 s3.
Proof. unfold untouched. intros [-> ->] [-> ->]. done. Qed.

Lemma is_engaged_false k k' : KillSwitch.is_engaged k = (Ok false, k') ->
  exists d, KillSwitch.state_key k = Some d /\ KillSwitch.state d = KillSwitch.ks_value KillSwitch.ACTIVE.
Proof.
  unfold KillSwitch.is_engaged. rewrite M_bind_run. unfold KillSwitch.get_state at 1. rewrite M_bind_run. unfold reads at 1.
  destruct (KillSwitch.state_key k) as [d|]; [|done]. unfold lift, KillSwitch.ks_parse.
  destruct (decide (KillSwitch.state d = "ACTIVE")) as [E|]; [intros _; by exists d|]. by destruct (decide _).
Qed.

(** The check passes only while trading is active, and touches neither the world nor the tables. *)
Lemma check_kill_switch_run s r s' : check_kill_switch env cfg s = (r, s') ->
  untouched s s' /\ (r = Ok tt -> kill_switch cfg = true -> exists d,
    KillSwitch.state_key (operators env (sv_calls s) (sv_kill s)) = Some d /\
    KillSwitch.state d = KillSwitch.ks_value KillSwitch.ACTIVE).
Proof.
  unfold check_kill_switch, try_except. rewrite M_bind_run. destruct (kill_switch cfg).
  2:{ intros [= <- <-]. by split. }
  pose proof (kill_call_untouched KillSwitch.is_engaged s) as U1.
  destruct (kill_call env KillSwitch.is_engaged s) as [[[]|e] s1] eqn:E1; cbn [snd] in U1.
  - rewrite M_bind_run. pose proof (kill_call_untouched KillSwitch.get_status s1) as U2.
    destruct (kill_call env KillSwitch.get_status s1) as [[d|e] s2]; cbn [snd] in U2.
    + intros [= <- <-]. split; [by eapply untouched_trans|done].
    + destruct e; intros [= <- <-]; (split; [by eapply untouched_trans|done]).
  - intros [= <- <-]. split; [done|]. intros _ _. unfold kill_call in E1. destruct (kill_fate env (sv_calls s)); [|done|done].
    destruct (KillSwitch.is_engaged _) as [r k'] eqn:E. injection E1 as -> _. by apply is_engaged_false in E.
  - destruct e; intros [= <- <-]; by split.
Qed.

(** The tables after a report was saved: its row, and a row for each of its mappings. *)
Definition saved (report : OrchestrationResult) (t t' : tables) : Prop :=
  exists row rows, tb_runs t' = tb_runs t ++ [row] /\ tb_mappings t' = tb_mappings t ++ ((fun m => (rr_run_id row, m)) <$> rows) /\
    Forall2 (fun m x => mapping_row m = Ok x) (rs_mappings report) rows /\
    ~ rr_run_id row ∈ rr_run_id <$> tb_runs t /\
    rr_status row = rs_status report /\ rr_num_signals row = rs_num_signals report /\
    rr_num_orders_submitted row = rs_num_orders_submitted report /\
    rr_num_orders_accepted row = rs_num_orders_accepted report /\
    rr_num_orders_rejected row = rs_num_orders_rejected report /\ rr_error_message row = rs_error_message report.

Lemma create_mappings_run run_id ms : forall t t', _create_mappings run_id ms t = (Ok tt, t') ->
  tb_runs t' = tb_runs t /\ exists rows, tb_mappings t' = tb_mappings t ++ ((fun m => (run_id, m)) <$> rows) /\
    Forall2 (fun m x => mapping_row m = Ok x) ms rows.
Proof.
  unfold _create_mappings. induction ms as [|m ms IH]; intros t t'; cbn [for_each].
  { intros [= <-]. split; [done|]. exists []. by rewrite app_nil_r. }
  rewrite M_bind_run. unfold insert_mapping at 1. destruct (mapping_row m) as [row|] eqn:Em; [|done]. intros H.
  destruct (IH _ _ H) as (H1 & rows & H2 & H3). split; [done|]. exists (row :: rows). cbn in H2. rewrite H2, <- app_assoc.
  split; [done|by constructor].
Qed.

Lemma varchar_same n s x : varchar n s = Ok x -> x = s.
Proof. unfold varchar. destruct (_ <=? _)%nat; [|done]. by intros [= ->]. Qed.
Lemma integer_same n x : integer n = Ok x -> x = n.
Proof. unfold integer. destruct (_ && _); [|done]. by intros [= ->]. Qed.

Lemma create_run_saved run_id day report t t' : create_run run_id day report t = (Ok tt, t') -> saved report t t'.
Proof.
  unfold create_run, transaction. rewrite M_bind_run. unfold insert_run at 1. unfold mbind at 1 2 3 4 5 6 7 8. unfold result_bind.
  destruct (varchar 100 _) as [i|] eqn:E1; [|done]. destruct (varchar 20 _) as [st|] eqn:E2; [|done].
  destruct (numeric 15 2 _) as [cap|]; [|done]. destruct (integer (rs_num_signals report)) as [n|] eqn:E3; [|done].
  destruct (integer (rs_num_orders_submitted report)) as [a|] eqn:E4; [|done].
  destruct (integer (rs_num_orders_accepted report)) as [b|] eqn:E5; [|done].
  destruct (integer (rs_num_orders_rejected report)) as [c|] eqn:E6; [|done]. destruct (optional_column _ _) as [d|]; [|done].
  apply varchar_same in E2. apply integer_same in E3, E4, E5, E6. subst.
  destruct (negb _); [done|]. destruct (negb _); [done|]. destruct (negb _); [done|].
  destruct (bool_decide _) eqn:Eid; [done|]. apply bool_decide_eq_false in Eid.
  destruct (_create_mappings run_id (rs_mappings report) _) as [[[]|e] t1] eqn:Em; [|done]. intros [= <-].
  destruct (create_mappings_run _ _ _ _ Em) as (H1 & rows & H2 & H3). cbn in H1, H2. eexists _, rows. rewrite H1.
  split_and!; [done|exact H2|done..].
Qed.

Lemma create_run_rolls_back run_id day report t e t' : create_run run_id day report t = (Raise e, t') -> t' = t.
Proof.
  intros H. pose proof (transaction_raise (_ ← insert_run run_id day report; _create_mappings run_id (rs_mappings report)) t e) as R.
  unfold create_run in H. rewrite H in R. by apply R.
Qed.
(** What a request to run comes to. *)
Inductive run_outcome (request : OrchestrationRequest) (s s' : service) : result OrchestrationResult -> Prop :=
| refused e : untouched s s' -> run_outcome request s s' (Raise e)
| ran_and_saved report : trading_active s ->
    OrchestratorSafety.accounted (orch_env env) (run_settings cfg request) (sv_world s) (sv_world s') report ->
    saved report (sv_tables s) (sv_tables s') -> run_outcome request s s' (Ok report)
| ran_unsaved report e : trading_active s ->
    OrchestratorSafety.accounted (orch_env env) (run_settings cfg request) (sv_world s) (sv_world s') report ->
    (sv_tables s' = sv_tables s \/ saved report (sv_tables s) (sv_tables s')) -> run_outcome request s s' (Raise e).

(** The [except] clauses only translate the exception. *)
Lemma run_errors_raise e (s : service) : match run_errors e with
  | Some m => exists e', m s = (Raise e', s)
  | None => True
  end.
Proof. destruct e; cbn; done || by eexists. Qed.

Lemma run_once_run request d s : 0 < MAX_PRICE_AGE_SECONDS cfg -> exists report s',
  run_once allocate env cfg request d s = (Ok report, s') /\ sv_tables s' = sv_tables s /\
  OrchestratorSafety.accounted (orch_env env) (run_settings cfg request) (sv_world s) (sv_world s') report.
Proof.
  intros Hage. unfold run_once. set (c := run_settings cfg request). unfold new_orchestrator.
  destruct (Z.leb_spec (max_price_age_seconds c) 0) as [H|_]; [cbn in H; lia|]. cbn [normalized mbind result_bind].
  change (bool_decide (allocation_method c = "inverse_vol")) with false. cbv iota. set (o := Build_orch _ _ _ _ _ _ _ _ _).
  match goal with |- context [run allocate _ c ?query ?ids o] =>
    destruct (OrchestratorSafety.run_accounted allocate (orch_env env) c query ids o) as (report & o' & -> & H) end; [done| |].
  - intros symbol p ts E. cbn in E. by rewrite lookup_empty in E.
  - eexists report, _. split; [reflexivity|]. by split.
Qed.

Lemma save_run_run report s r s' : save_run env report s = (r, s') -> sv_world s' = sv_world s /\
  match r with
  | Ok _ => saved report (sv_tables s) (sv_tables s')
  | Raise _ => sv_tables s' = sv_tables s \/ saved report (sv_tables s) (sv_tables s')
  end.
Proof.
  unfold save_run, db_call. destruct (create_run _ _ _ (sv_tables s)) as [[[]|e] t'] eqn:Ec;
    (destruct (db_fate env (sv_calls s)); intros [= <- <-]; cbn; split; try done).
  - by eapply create_run_saved.
  - by left.
  - right. by eapply create_run_saved.
  - left. by eapply create_run_rolls_back.
  - by left.
  - left. by eapply create_run_rolls_back.
Qed.

End outcome.

(** ** The flag latches *)

Section latch.
Context (allocate : bool -> dict (list (string * decimal * decimal)) -> result (list (string * decimal))).
Context (env : service_environment) (cfg : service_config).

Definition latched (s : service) : Prop := sv_unavailable s = true.

Lemma kill_call_latched {A} (m : M KillSwitch.ks_store A) : preserves latched (kill_call env m).
Proof. intros s H. unfold kill_call. destruct (kill_fate _ _); [destruct (m _)| |]; exact H. Qed.

Lemma kill_errors_latched {A} b e (c : M service A) : kill_errors b e = Some c -> preserves latched c.
Proof.
  destruct e; cbn; try done; [|intros [= <-] s H; done]. destruct b; [|done]. intros [= <-] s H. exact H.
Qed.

(** No operation of the service clears the flag: once the kill switch was found missing, every request to run is
    refused until the process restarts. *)
Lemma flag_latched now reason operator details notes :
  preserves latched (engage_kill_switch env cfg now reason operator details) /\
  preserves latched (disengage_kill_switch env cfg now operator notes) /\
  preserves latched (get_kill_switch_status env cfg) /\
  forall request s, latched s -> rq_symbols request <> [] ->
    run_orchestration allocate env cfg request s = (Raise kill_unknown, s).
Proof.
  split_and!.
  - unfold engage_kill_switch. destruct (negb _); [apply preserves_raise|]. apply preserves_try; [|apply kill_errors_latched].
    apply preserves_bind; intros; apply kill_call_latched.
  - unfold disengage_kill_switch. destruct (negb _); [apply preserves_raise|]. apply preserves_try; [|apply kill_errors_latched].
    apply preserves_bind; intros; apply kill_call_latched.
  - unfold get_kill_switch_status. destruct (negb _); [apply preserves_raise|].
    apply preserves_try; [apply kill_call_latched|apply kill_errors_latched].
  - intros request s H Hs. unfold run_orchestration. rewrite (bool_decide_eq_false_2 _ Hs). unfold try_except.
    rewrite M_bind_run. unfold reads at 1. by rewrite H.
Qed.

(** A missing state sets it. *)
Lemma missing_state_latches request s : sv_unavailable s = false -> kill_switch cfg = true -> rq_symbols request <> [] ->
  kill_fate env (sv_calls s) = Gateway.Up -> KillSwitch.state_key (operators env (sv_calls s) (sv_kill s)) = None ->
  exists s', run_orchestration allocate env cfg request s = (Raise kill_unknown, s') /\ latched s'.
Proof.
  intros Hu Hk Hs Hf Hm. unfold run_orchestration. rewrite (bool_decide_eq_false_2 _ Hs). unfold try_except at 1.
  rewrite M_bind_run. unfold reads at 1. rewrite Hu, M_bind_run. unfold check_kill_switch, try_except. rewrite Hk, M_bind_run.
  unfold kill_call at 1. rewrite Hf. unfold KillSwitch.is_engaged. rewrite M_bind_run. unfold KillSwitch.get_state at 1.
  rewrite M_bind_run. unfold reads at 1. rewrite Hm. by eexists.
Qed.
End latch.

(** ** Reading a run back *)

(** Every mapping row belongs to a run, and run ids are unique: the foreign and the unique key of the schema. *)
Definition well_keyed (t : tables) : Prop :=
  NoDup (rr_run_id <$> tb_runs t) /\ Forall (fun x => x.1 ∈ rr_run_id <$> tb_runs t) (tb_mappings t).

Lemma saved_well_keyed report t t' : saved report t t' -> well_keyed t -> well_keyed t'.
Proof.
  intros (row & rows & Hr & Hm & _ & Hnew & _) [Hn Hf]. split.
  - rewrite Hr, fmap_app. apply NoDup_app. split_and!; [done| |apply NoDup_singleton].
    intros x Hx Hx'. cbn in Hx'. apply list_elem_of_singleton in Hx'. by subst.
  - rewrite Hm, Hr, fmap_app. apply Forall_app. split.
    + eapply Forall_impl; [exact Hf|]. intros x Hx. apply elem_of_app. by left.
    + apply Forall_fmap, Forall_forall. intros m _. cbn. apply elem_of_app. right. by apply list_elem_of_singleton.
Qed.

Lemma find_new (row : run_row) l : ~ rr_run_id row ∈ rr_run_id <$> l ->
  List.find (fun r => bool_decide (rr_run_id r = rr_run_id row)) (l ++ [row]) = Some row.
Proof.
  induction l as [|x l IH]; cbn [app List.find]; intros H; [by rewrite bool_decide_true|].
  rewrite fmap_cons, not_elem_of_cons in H. destruct H as [H1 H2]. rewrite bool_decide_false by congruence. by apply IH.
Qed.

(** A saved run is read back with its status, its counts and its mappings by rank; its error message, its symbols and
    its capital are not. *)
Lemma saved_run_read_back env report t s : saved report t (sv_tables s) -> well_keyed t ->
  db_fate env (sv_calls s) = Gateway.Up -> db_fate env (S (sv_calls s)) = Gateway.Up ->
  exists run_id rows result,
    fst (get_run_endpoint env run_id s) = Ok result /\
    Forall2 (fun m x => mapping_row m = Ok x) (rs_mappings report) rows /\ rs_mappings result = merge_sort by_rank rows /\
    rs_status result = rs_status report /\ rs_num_signals result = rs_num_signals report /\
    rs_num_orders_submitted result = rs_num_orders_submitted report /\
    rs_num_orders_accepted result = rs_num_orders_accepted report /\
    rs_num_orders_rejected result = rs_num_orders_rejected report /\ rs_error_message result = None.
Proof.
  intros (row & rows & Hr & Hm & Hrows & Hnew & H1 & H2 & H3 & H4 & H5 & H6) [_ Hk] Hd1 Hd2.
  exists (rr_run_id row), rows, (result_of_row row (merge_sort by_rank rows)). split_and!; try done.
  unfold get_run_endpoint. rewrite M_bind_run. unfold db_call at 1. rewrite Hd1. unfold get_run, reads.
  rewrite Hr, find_new by done. cbv beta iota. rewrite M_bind_run. unfold db_call. cbn [sv_calls]. rewrite Hd2.
  unfold get_mappings, reads. cbn [sv_tables]. rewrite Hm.
  assert (E : snd <$> filter (fun x : string * SignalOrderMapping => x.1 = rr_run_id row)
    (tb_mappings t ++ ((fun m => (rr_run_id row, m)) <$> rows)) = rows).
  { rewrite filter_app.
    assert (E1 : filter (fun x : string * SignalOrderMapping => x.1 = rr_run_id row) (tb_mappings t) = []).
    { clear -Hk Hnew. induction Hk as [|x l Hx _ IH]; [done|]. rewrite filter_cons_False; [done|]. intros E. apply Hnew. by rewrite <- E. }
    rewrite E1. cbn [app]. clear. induction rows as [|m rows IH]; [done|]. rewrite fmap_cons, filter_cons_True by done.
    by rewrite fmap_cons, IH. }
  by rewrite E.
Qed.

(** The total of a listing is the size of its page. *)
Lemma listed_total_is_page_size env limit offset strategy_id status s rows total s' :
  list_runs_endpoint env limit offset strategy_id status s = (Ok (rows, total), s') -> total = Z.of_nat (length rows) /\ total <= limit.
Proof.
  unfold list_runs_endpoint. destruct (negb _) eqn:Eb; [done|]. apply negb_false_iff in Eb. boolify. rewrite M_bind_run. unfold db_call.
  destruct (db_fate _ _); [|done|done]. unfold list_runs, reads. intros Ht. injection Ht as <- <- _. split; [done|].
  rewrite length_take. lia.
Qed.

(** ** Concrete runs

    Two signals, one of them without a price. *)


Definition second : Z := 1000000.

(** AAPL at 150.25 since second 990; MSFT has no price. *)
Definition sample_quote : PriceFeed.price_data := {|
  PriceFeed.pd_symbol := Some "AAPL"; PriceFeed.pd_timestamp := PriceFeed.Ts (990 * second);
  PriceFeed.pd_mid := Webhook.Num (Dec 15025 (-2)) |}.

Definition sample_signals : list Signal :=
  [{| sg_symbol := "AAPL"; sg_predicted_return := Dec 12 (-3); sg_rank := 1; sg_target_weight := Dec 333 (-3) |};
   {| sg_symbol := "MSFT"; sg_predicted_return := Dec (-5) (-3); sg_rank := 2; sg_target_weight := Dec (-25) (-2) |}].

Definition sample_response : SignalServiceResponse := {|
  sr_signals := sample_signals;
  sr_metadata := {| md_as_of_date := "2024-12-31"; md_model_version := "v1"; md_strategy := "alpha_baseline"; md_num_signals := 2;
                    md_generated_at := "2024-12-31T00:00:00Z"; md_top_n := 1; md_bottom_n := 1 |} |}.

(** The gateway refuses its first connection. *)
Definition sample_gateway (sent : list (OrderRequest * ServiceAuth.headers)) : reply OrderSubmission :=
  match sent with
  | [_] => Failed (HttpxConnectError "refused")
  | _ => Response 200 "" (Parsed {| os_client_order_id := "id-1"; os_status := "pending_new"; os_broker_order_id := Some "b-1" |})
  end.

Definition sample_env : environment := {|
  clock := fun n => 1000 * second + Z.of_nat n; publishers := fun _ k => k; redis_net := fun _ => Served;
  signal_api := fun _ => Response 200 "" (Parsed sample_response); gateway_api := sample_gateway;
  service_env := ServiceAuth.sample_env; uuid4 := fun n => str_int (Z.of_nat n);
  json_loads := fun raw => if bool_decide (raw = "quote") then Some sample_quote else None; retry_error_text := "RetryError" |}.

Definition sample_settings : settings := {|
  capital := of_int 100000; max_position_size := of_int 20000; max_price_age_seconds := 30; has_redis := true;
  allocation_method := "rank_aggregation" |}.

Definition sample_world : orch := {|
  price_cache := ∅; price_timestamps := ∅; active_strategy_ids := []; redis_unavailable := false; prefetch_attempted := ∅;
  o_redis := {| rs_keys := {["price:AAPL" := ("quote", None)]}; rs_attempts := 0 |}; o_ticks := 0; o_signal_requests := [];
  o_orders_sent := [] |}.

Definition sample_query : signal_request :=
  {| sq_symbols := ["AAPL"; "MSFT"]; sq_as_of_date := None; sq_top_n := None; sq_bottom_n := None |}.

Definition no_allocator (_ : bool) (_ : dict (list (string * decimal * decimal))) : result (list (string * decimal)) :=
  Raise (ValueError "").

(** The capital's third, 33300, is cut to 20000: 133 shares; the refused connection is tried again. *)
Example sample_run :
  let '(r, s) := run no_allocator sample_env sample_settings sample_query ["alpha_baseline"] sample_world in
  (match r with
   | Ok x => rs_status x = "completed" /\ rs_num_orders_submitted x = 1 /\
       (mp_order_qty <$> rs_mappings x) = [Some 133; None] /\
       (mp_skip_reason <$> rs_mappings x) = [None; Some "price_unavailable: Price unavailable for MSFT"]
   | Raise _ => False
   end) /\ (or_qty <$> (o_orders_sent s).*1) = [133; 133].
Proof. vm_compute. split_and!; reflexivity. Qed.

Lemma empty_quotes env s : price_cache s = ∅ -> quotes (published env) s.
Proof. intros E symbol p ts. rewrite E. by rewrite lookup_empty. Qed.

Definition sample_mapping : result (list SignalOrderMapping) * orch :=
  _map_signals_to_orders sample_env sample_settings sample_signals sample_world.

Lemma orders_within_limits_witness :
  exists mappings s', sample_mapping = (Ok mappings, s') /\ (mp_order_qty <$> mappings) = [Some 133; None] /\
    Forall2 (within_limits sample_env sample_settings 0) sample_signals mappings.
Proof.
  destruct sample_mapping as [[mappings|e] s'] eqn:E; [|vm_compute in E; discriminate].
  exists mappings, s'. split; [reflexivity|]. split; [vm_compute in E; injection E as <- _; reflexivity|].
  apply (orders_within_limits sample_env sample_settings sample_signals sample_world mappings s'); [by apply empty_quotes| | |exact E];
    vm_compute; discriminate.
Defined.

(** The order of the first signal. *)
Definition sample_order_mapping : SignalOrderMapping :=
  set_order 133 "buy" (new_mapping {| sg_symbol := "AAPL"; sg_predicted_return := Dec 12 (-3); sg_rank := 1; sg_target_weight := Dec 333 (-3) |}).

Definition sample_sent : OrderRequest * ServiceAuth.headers :=
  let o := market_order sample_order_mapping 133 "buy" in
  (o, match ServiceAuth._get_internal_auth_headers ServiceAuth.sample_env (1000 * second) "0" "POST" orders_path None
              (ServiceAuth.BytesBody (encode (order_body o))) None None with
      | Ok h => h
      | Raise _ => ServiceAuth.no_headers
      end).

Lemma sample_mapped : mapped sample_env sample_settings (published sample_env) 0
  {| sg_symbol := "AAPL"; sg_predicted_return := Dec 12 (-3); sg_rank := 1; sg_target_weight := Dec 333 (-3) |} sample_order_mapping.
Proof.
  unfold mapped. change (deqb _ dzero) with false. cbv iota. right. eexists (Dec 15025 (-2)), _. split; [|split; [reflexivity|]].
  - exists 0%nat, (990 * second). split; [lia|]. split; [|vm_compute; discriminate]. exists "quote", sample_quote. split_and!; reflexivity.
  - reflexivity.
Qed.


(** The service: trading is active, everything answers. *)
Definition sample_service_env : service_environment := {|
  orch_env := sample_env; operators := fun _ k => k; kill_fate := fun _ => Gateway.Up; db_fate := fun _ => Gateway.Up;
  new_run_id := fun n => str_int (Z.of_nat n); today := fun _ => "2024-12-31" |}.
Definition sample_config : service_config := {|
  CAPITAL := of_int 100000; MAX_POSITION_SIZE := of_int 20000; STRATEGY_ID := "alpha_baseline"; MAX_PRICE_AGE_SECONDS := 30;
  redis_client := true; kill_switch := true |}.
Definition sample_service : service := {|
  sv_unavailable := false; sv_kill := (KillSwitch.kill_switch_init KillSwitch.ks_fresh).2;
  sv_tables := {| tb_runs := []; tb_mappings := [] |}; sv_world := sample_world; sv_calls := 0 |}.
Definition sample_run_request : OrchestrationRequest := {|
  rq_symbols := ["AAPL"; "MSFT"]; rq_as_of_date := Some "2024-12-31"; rq_capital := None; rq_max_position_size := None;
  rq_dry_run := Some true |}.


(** A request marked as a dry run submits its orders: the field is not read. *)
Example dry_run_submits :
  let '(r, s') := run_orchestration no_allocator sample_service_env sample_config sample_run_request sample_service in
  (rs_status <$> r) = Ok "completed" /\ length (o_orders_sent (sv_world s')) = 2%nat /\
  (rr_status <$> tb_runs (sv_tables s')) = ["completed"] /\ length (tb_mappings (sv_tables s')) = 2%nat.
Proof. vm_compute. split_and!; reflexivity. Qed.

(** A database that fails after the orders were sent: the caller sees an error and no trace of the run remains. *)
Definition failing_database : service_environment := {|
  orch_env := sample_env; operators := fun _ k => k; kill_fate := fun _ => Gateway.Up;
  db_fate := fun _ => Gateway.Down (OperationalError "connection lost"); new_run_id := fun n => str_int (Z.of_nat n);
  today := fun _ => "2024-12-31" |}.

Example database_failure_loses_run :
  let '(r, s') := run_orchestration no_allocator failing_database sample_config sample_run_request sample_service in
  r = Raise (HTTPException 500 "Database error during orchestration") /\ length (o_orders_sent (sv_world s')) = 2%nat /\
  sv_tables s' = {| tb_runs := []; tb_mappings := [] |}.
Proof. vm_compute. split_and!; reflexivity. Qed.

(** The nonce of an accepted token is refused the second time. *)
Definition after_first : result (option ServiceAuth.InternalTokenClaims) * ServiceAuth.auth_state :=
  ServiceAuth.verify_request ServiceAuth.sample_env 300 ServiceAuth.always_served (1010 * second) (1010 * second)
    ServiceAuth.sample_request (ServiceAuth.sample_headers 1000) ServiceAuth.sample_state.

Definition sample_claims : ServiceAuth.InternalTokenClaims := {|
  ServiceAuth.ic_service_id := "orchestrator"; ServiceAuth.ic_user_id := Some "alice"; ServiceAuth.ic_strategy_id := None;
  ServiceAuth.ic_nonce := "nonce-1"; ServiceAuth.ic_timestamp := 1000 |}.

Lemma token_accepted_once_witness :
  fst after_first = Ok (Some sample_claims) /\
  fst (ServiceAuth.verify_request ServiceAuth.sample_env 300 ServiceAuth.always_served (1015 * second) (1015 * second)
         ServiceAuth.sample_request (ServiceAuth.sample_headers 1000) (snd after_first)) <> Ok (Some sample_claims).
Proof.
  assert (E1 : fst after_first = Ok (Some sample_claims)) by (vm_compute; reflexivity). split; [exact E1|].
  apply (ServiceAuth.token_accepted_once ServiceAuth.sample_env 300 ServiceAuth.always_served (1010 * second) (1010 * second)
    ServiceAuth.sample_request (ServiceAuth.sample_headers 1000) ServiceAuth.sample_state sample_claims (snd after_first) _ _ _ _ _ _ 0);
    [reflexivity|rewrite <- E1; apply surjective_pairing|reflexivity..].
Defined.
