(* ===== verification/Alerts.v ===== *)
(** * Alerts (libs/platform/alerts: models.py, dedup.py, pii.py, alert_manager.py, poison_queue.py, channels/)

    A rule that triggers writes an event and one delivery per channel in a transaction, then reserves a slot of the queue for
    each delivery and enqueues a job for it.  The world is the database, the queue with its depth counter in Redis, and
    what the worker does to the outside: the messages it sends and the time it sleeps.  Each call to the outside is one
    tick, and the environment says what becomes of it.  Identifiers are canonical UUID texts; the JSON of a rule's
    channels is an object per channel with a boolean flag; the UTC offsets of times are whole minutes. *)

From S2P Require Import Prelude PyDecimal PyText OrderSchema RedisClient.
From S2P Require Gateway WebhookSecurity RateLimiter.
Open Scope Z_scope.

(** ** Data (models.py, the tables of migration 0011) *)

Inductive ChannelType := EMAIL | SLACK | SMS | PAGERDUTY.

#[export] Instance ChannelType_eq_dec : EqDecision ChannelType.
Proof. solve_decision. Defined.

Definition channel_value (c : ChannelType) : string :=
  match c with EMAIL => "email" | SLACK => "slack" | SMS => "sms" | PAGERDUTY => "pagerduty" end.

(** [ChannelType(value)] *)
Definition channel_of (value : string) : option ChannelType :=
  if bool_decide (value = "email") then Some EMAIL
  else if bool_decide (value = "slack") then Some SLACK
  else if bool_decide (value = "sms") then Some SMS
  else if bool_decide (value = "pagerduty") then Some PAGERDUTY
  else None.

Inductive DeliveryStatus := PENDING | IN_PROGRESS | DELIVERED | FAILED | POISON.

#[export] Instance DeliveryStatus_eq_dec : EqDecision DeliveryStatus.
Proof. solve_decision. Defined.

Record ChannelConfig := { cc_type : ChannelType; cc_recipient : string; cc_enabled : bool }.

(** One entry of the JSON column [alert_rules.channels]. *)
Record channel_json := { cj_type : option string; cj_recipient : option string; cj_enabled : option bool }.

Record rule_row := { rr_name : string; rr_channels : option (list channel_json); rr_enabled : bool }.

Record datetime := DateTime {
  dt_date : date; dt_hour : Z; dt_minute : Z; dt_second : Z; dt_microsecond : Z; dt_offset : option Z
}.

#[export] Instance datetime_eq_dec : EqDecision datetime.
Proof. solve_decision. Defined.

Record AlertEvent := {
  ev_rule_id : string;
  ev_triggered_at : datetime;
  ev_trigger_value : option decimal;
  ev_acknowledged_at : option Z;
  ev_acknowledged_by : option string;
  ev_acknowledged_note : option string;
  ev_routed_channels : list string;
  ev_created_at : Z
}.

Record AlertDelivery := {
  dl_alert_id : string;
  dl_channel : ChannelType;
  dl_recipient : string;
  dl_dedup_key : string;
  dl_status : DeliveryStatus;
  dl_attempts : Z;
  dl_last_attempt_at : option Z;
  dl_delivered_at : option Z;
  dl_poison_at : option Z;
  dl_error_message : option string;
  dl_created_at : Z
}.

Record DeliveryResult := {
  dr_success : bool;
  dr_message_id : option string;
  dr_error : option string;
  dr_retryable : bool;
  dr_metadata : gmap string string
}.

(** [DeliveryResult(success=False, error=..., retryable=...)] *)
Definition failure (error : string) (retryable : bool) : DeliveryResult :=
  {| dr_success := false; dr_message_id := None; dr_error := Some error; dr_retryable := retryable; dr_metadata := ∅ |}.
Definition failure_with (error : string) (retryable : bool) (metadata : gmap string string) : DeliveryResult :=
  {| dr_success := false; dr_message_id := None; dr_error := Some error; dr_retryable := retryable; dr_metadata := metadata |}.

(** The tables, and how many identifiers [gen_random_uuid] has given. *)
Record tables := {
  t_rules : gmap string rule_row;
  t_events : gmap string AlertEvent;
  t_deliveries : gmap string AlertDelivery;
  t_serial : nat
}.

(** A job of the queue: the arguments of [execute_delivery_job] and the delay it is enqueued with. *)
Record job := {
  j_delivery_id : string; j_channel : string; j_recipient : string; j_subject : string; j_body : string;
  j_attempt : Z; j_delay : Z
}.

(** A message given to a channel. *)
Record message := {
  m_channel : ChannelType; m_recipient : string; m_subject : string; m_body : string; m_delivery_id : string
}.

Record world := World {
  w_tables : tables;
  w_depth : option Z;
  w_accepting : bool;
  w_jobs : list job;
  w_limits : RateLimiter.limits;
  w_sent : list (message * result DeliveryResult);
  w_slept : list Z;
  w_ticks : nat
}.

Record environ := {
  clock : nat -> Z;
  db : nat -> Gateway.fate;
  redis : nat -> attempt;
  new_id : nat -> string
}.

(** ** Effects *)

(** A transaction of the database at its time: a statement that fails, or a lost connection, undoes it; the reply of a
    commit can be lost. *)
Definition database {A} (env : environ) (m : Z -> M tables A) : M world A := fun s =>
  let '(World d q a j l o z n) := s in
  match db env n, m (clock env n) d with
  | Gateway.Up, (Ok x, d') => (Ok x, World d' q a j l o z (S n))
  | Gateway.ReplyLost e, (Ok _, d') => (Raise e, World d' q a j l o z (S n))
  | Gateway.Down e, _ => (Raise e, World d q a j l o z (S n))
  | _, (Raise e, _) => (Raise e, World d q a j l o z (S n))
  end.

(** One Redis command: on the depth counter, or on the queue of jobs. *)
Definition redis_call {A} (env : environ) (f : option Z * list job -> A * (option Z * list job)) : M world A := fun s =>
  let '(World d q a j l o z n) := s in
  let '(x, (q', j')) := f (q, j) in
  match redis env n with
  | Served => (Ok x, World d q' a j' l o z (S n))
  | Lost executed => (Raise (ConnectionError ""), if executed then World d q' a j' l o z (S n) else World d q a j l o z (S n))
  | Refused => (Raise RedisError, World d q a j l o z (S n))
  end.

Definition depth_call {A} (env : environ) (f : option Z -> A * option Z) : M world A :=
  redis_call env (fun p => let '(x, q) := f p.1 in (x, (q, p.2))).

(** [asyncio.sleep] *)
Definition sleep (seconds : Z) : M world unit := fun s =>
  let '(World d q a j l o z n) := s in (Ok tt, World d q a j l o (z ++ [seconds]) (S n)).

(** RQ's [enqueue] and [enqueue_in]. *)
Definition enqueue (env : environ) (x : job) : M world unit := redis_call env (fun p => (tt, (p.1, p.2 ++ [x]))).

(** [except (psycopg.Error, redis.exceptions.RedisError)] and [except redis.exceptions.RedisError] *)
Definition is_redis_error (e : exn) : bool := match e with RedisError | ConnectionError _ => true | _ => false end.
Definition is_store_error (e : exn) : bool :=
  match e with OperationalError _ | IntegrityError _ | ProgrammingError _ => true | _ => is_redis_error e end.

(** ** Masking (pii.py) and keys (dedup.py) *)

Definition last4 (s : string) : string := of_chars (drop (slen s - 4) (chars s)).

Definition mask_email (email : string) : string := if (4 <=? slen email)%nat then "***" +:+ last4 email else "***".
Definition mask_phone (phone : string) : string := if (4 <=? slen phone)%nat then "***" +:+ last4 phone else "***".
Definition mask_webhook (url : string) : string := if (4 <=? slen url)%nat then "***" +:+ last4 url else "***".

Definition mask_recipient (value channel_type : string) : string :=
  if bool_decide (channel_type = "email") then mask_email value
  else if bool_decide (channel_type = "sms") then mask_phone value
  else if bool_decide (channel_type = "slack") then mask_webhook value
  else if bool_decide (channel_type = "pagerduty") then mask_webhook value
  else mask_email value.

Definition get_recipient_hash_secret (secret : option string) : result string :=
  match secret with
  | Some s => if bool_decide (s = "") then Raise (ValueError "Missing ALERT_RECIPIENT_HASH_SECRET in secrets manager") else Ok s
  | None => Raise (ValueError "Missing ALERT_RECIPIENT_HASH_SECRET in secrets manager")
  end.

Definition compute_recipient_hash (recipient channel_type hash_secret : string) : string :=
  let data := channel_type +:+ ":" +:+ recipient in
  sprefix 16 (WebhookSecurity.hex_of (WebhookSecurity.hmac_sha256 (encode hash_secret) (encode data))).

(** [datetime.isoformat()] *)
Definition two (n : Z) : list Ascii.ascii := digits_w 2 n.
Definition offset_text (o : option Z) : list Ascii.ascii :=
  match o with
  | None => []
  | Some m => [chr (if m <? 0 then 45 else 43)] ++ two (Z.abs m / 60) ++ [chr 58] ++ two (Z.abs m mod 60)
  end.
Definition datetime_isoformat (t : datetime) : string :=
  of_chars (chars (isoformat (dt_date t)) ++ [chr 84] ++ two (dt_hour t) ++ [chr 58] ++ two (dt_minute t) ++ [chr 58]
    ++ two (dt_second t) ++ (if dt_microsecond t =? 0 then [] else chr 46 :: digits_w 6 (dt_microsecond t))
    ++ offset_text (dt_offset t)).

Definition hour_of (t : datetime) : datetime := DateTime (dt_date t) (dt_hour t) 0 0 0 (dt_offset t).

Definition compute_dedup_key (rule_id channel recipient : string) (triggered_at : datetime) (hash_secret : string) : string :=
  let hour_bucket := datetime_isoformat (hour_of triggered_at) in
  let recipient_hash := compute_recipient_hash recipient channel hash_secret in
  rule_id +:+ ":" +:+ channel +:+ ":" +:+ recipient_hash +:+ ":" +:+ hour_bucket.

(** ** The depth of the queue (delivery_service.py, [QueueDepthManager]) *)

Definition MAX_QUEUE_DEPTH : Z := 10000.
Definition QUEUE_RESUME_THRESHOLD : Z := 8000.

Definition increment (env : environ) : M world Z :=
  depth_call env (fun q => let n := default 0 q + 1 in (n, Some n)).

(** DECR, and SET to zero below it. *)
Definition decrement (env : environ) : M world Z :=
  depth_call env (fun q => let n := Z.max 0 (default 0 q - 1) in (n, Some n)).

Definition get_depth (env : environ) : M world Z := depth_call env (fun q => (default 0 q, q)).

Definition set_accepting (b : bool) : M world unit := fun s =>
  let '(World d q _ j l o z n) := s in (Ok tt, World d q b j l o z n).

Definition is_accepting (env : environ) : M world bool :=
  depth ← get_depth env;
  accepting ← reads w_accepting;
  if accepting && (MAX_QUEUE_DEPTH <=? depth) then _ ← set_accepting false; mret false
  else if negb accepting && (depth <? QUEUE_RESUME_THRESHOLD) then _ ← set_accepting true; mret true
  else mret accepting.

Definition with_status (statuses : list DeliveryStatus) (d : tables) : gmap string AlertDelivery :=
  filter (fun p : string * AlertDelivery => dl_status p.2 ∈ statuses) (t_deliveries d).

Definition sync_depth_from_db (env : environ) : M world Z :=
  depth ← database env (fun _ => reads (fun d => Z.of_nat (size (with_status [PENDING; IN_PROGRESS] d))));
  _ ← depth_call env (fun _ => (tt, Some depth));
  mret depth.

(** ** The deliveries of an event *)

Definition set_deliveries (m : gmap string AlertDelivery) (d : tables) : tables :=
  {| t_rules := t_rules d; t_events := t_events d; t_deliveries := m; t_serial := t_serial d |}.

(** [alert_deliveries_attempts_check] *)
Definition attempts_check (x : AlertDelivery) : bool := (0 <=? dl_attempts x) && (dl_attempts x <=? 3).

(** [UPDATE alert_deliveries SET ... WHERE id = %s]: no row is no error. *)
Definition update_delivery (id : string) (f : AlertDelivery -> AlertDelivery) : M tables unit := fun d =>
  match t_deliveries d !! id with
  | None => (Ok tt, d)
  | Some x =>
      if attempts_check (f x) then (Ok tt, set_deliveries (<[id := f x]> (t_deliveries d)) d)
      else (Raise (IntegrityError "alert_deliveries_attempts_check"), d)
  end.

(** [gen_random_uuid()] *)
Definition fresh_id (env : environ) : M tables string := fun d =>
  (Ok (new_id env (t_serial d)),
   {| t_rules := t_rules d; t_events := t_events d; t_deliveries := t_deliveries d; t_serial := S (t_serial d) |}).

Definition insert_event (env : environ) (now : Z) (rule_id : string) (value : option decimal) (t : datetime)
    (channels : list string) : M tables (string * AlertEvent) :=
  id ← fresh_id env;
  d ← get_state;
  match t_rules d !! rule_id with
  | None => raise (IntegrityError "alert_events_rule_id_fkey")
  | Some _ =>
      if bool_decide (is_Some (t_events d !! id)) then raise (IntegrityError "alert_events_pkey") else
      let event := {| ev_rule_id := rule_id; ev_triggered_at := t; ev_trigger_value := value; ev_acknowledged_at := None;
        ev_acknowledged_by := None; ev_acknowledged_note := None; ev_routed_channels := channels; ev_created_at := now |} in
      _ ← put_state {| t_rules := t_rules d; t_events := <[id := event]> (t_events d); t_deliveries := t_deliveries d;
                       t_serial := t_serial d |};
      mret (id, event)
  end.

Definition key_taken (key : string) (m : gmap string AlertDelivery) : bool :=
  existsb (fun p : string * AlertDelivery => bool_decide (dl_dedup_key p.2 = key)) (map_to_list m).

(** [INSERT ... ON CONFLICT (dedup_key) DO NOTHING RETURNING id] *)
Definition insert_delivery (env : environ) (now : Z) (alert_id : string) (channel : ChannelType) (masked dedup_key : string)
    : M tables (option string) :=
  id ← fresh_id env;
  d ← get_state;
  if key_taken dedup_key (t_deliveries d) then mret None
  else if bool_decide (is_Some (t_deliveries d !! id)) then raise (IntegrityError "alert_deliveries_pkey")
  else
    let row := {| dl_alert_id := alert_id; dl_channel := channel; dl_recipient := masked; dl_dedup_key := dedup_key;
      dl_status := PENDING; dl_attempts := 0; dl_last_attempt_at := None; dl_delivered_at := None; dl_poison_at := None;
      dl_error_message := None; dl_created_at := now |} in
    _ ← put_state (set_deliveries (<[id := row]> (t_deliveries d)) d);
    mret (Some id).

Definition _create_deliveries (env : environ) (secret : string) (now : Z) (alert_id rule_id : string)
    (rule_channels : list ChannelConfig) (triggered_at : datetime) : M tables (list (string * ChannelConfig)) :=
  for_each (fun deliveries channel =>
    let dedup_key := compute_dedup_key rule_id (channel_value (cc_type channel)) (cc_recipient channel) triggered_at secret in
    let masked := mask_recipient (cc_recipient channel) (channel_value (cc_type channel)) in
    row ← insert_delivery env now alert_id (cc_type channel) masked dedup_key;
    mret (match row with Some id => deliveries ++ [(id, channel)] | None => deliveries end)) [] rule_channels.

(** ** The manager (alert_manager.py) *)

(** [ChannelConfig( **channel)] *)
Definition channel_config (c : channel_json) : result ChannelConfig :=
  match cj_type c ≫= channel_of, cj_recipient c with
  | Some t, Some r => Ok {| cc_type := t; cc_recipient := r; cc_enabled := default true (cj_enabled c) |}
  | _, _ => Raise (ValidationError "ChannelConfig")
  end.

Fixpoint channel_configs (l : list channel_json) : result (list ChannelConfig) :=
  match l with
  | [] => Ok []
  | c :: l' => if default true (cj_enabled c) then x ← channel_config c; xs ← channel_configs l'; mret (x :: xs) else channel_configs l'
  end.

Definition _fetch_rule (env : environ) (rule_id : string) : M world (string * list ChannelConfig) :=
  row ← database env (fun _ => reads (fun d => r ← t_rules d !! rule_id; if (rr_enabled r : bool) then Some r else None));
  match row with
  | None => raise (ValueError ("Alert rule " +:+ rule_id +:+ " not found or disabled"))
  | Some r => channels ← lift (channel_configs (default [] (rr_channels r))); mret (rr_name r, channels)
  end.

Definition mark_failed (error : string) (x : AlertDelivery) : AlertDelivery :=
  {| dl_alert_id := dl_alert_id x; dl_channel := dl_channel x; dl_recipient := dl_recipient x; dl_dedup_key := dl_dedup_key x;
     dl_status := FAILED; dl_attempts := dl_attempts x; dl_last_attempt_at := dl_last_attempt_at x;
     dl_delivered_at := dl_delivered_at x; dl_poison_at := dl_poison_at x; dl_error_message := Some error;
     dl_created_at := dl_created_at x |}.

Definition _mark_delivery_failed (env : environ) (delivery_id error : string) : M world unit :=
  database env (fun _ => update_delivery delivery_id (mark_failed error)).

(** [enqueue_one], a closure of [_enqueue_deliveries]. *)
Definition enqueue_one (env : environ) (subject body : string) (p : string * ChannelConfig) : M world (string * option exn) :=
  try_except
    (_ ← enqueue env {| j_delivery_id := p.1; j_channel := channel_value (cc_type p.2); j_recipient := cc_recipient p.2;
       j_subject := subject; j_body := body; j_attempt := 0; j_delay := 0 |};
     mret (p.1, None))
    (fun e => Some (mret (p.1, Some e))).

Definition alert_body (rule_name : string) (trigger_value : option decimal) (triggered_at : datetime) : string :=
  let value_str := match trigger_value with Some v => "value=" +:+ str_decimal v | None => "value=N/A" end in
  "Alert '" +:+ rule_name +:+ "' triggered at " +:+ datetime_isoformat triggered_at +:+ " (" +:+ value_str
    +:+ "). Alert ID reserved for tracking.".

Definition _enqueue_deliveries (env : environ) (deliveries : list (string * ChannelConfig)) (rule_name : string)
    (trigger_value : option decimal) (triggered_at : datetime) : M world unit :=
  let subject := "[Alert] " +:+ rule_name +:+ " triggered" in
  let body := alert_body rule_name trigger_value triggered_at in
  _ ← for_each (fun _ _ => _ ← increment env; mret tt) tt deliveries;
  results ← for_each (fun rs p => r ← enqueue_one env subject body p; mret (rs ++ [r])) [] deliveries;
  for_each (fun _ (r : string * option exn) =>
    match r.2 with
    | None => mret tt
    | Some error =>
        _ ← decrement env;
        _mark_delivery_failed env r.1 ("Enqueue failed: " +:+ Gateway.str_exn error)
    end) tt results.

(** A time without an offset is taken to be UTC. *)
Definition aware (t : datetime) : datetime :=
  match dt_offset t with
  | Some _ => t
  | None => DateTime (dt_date t) (dt_hour t) (dt_minute t) (dt_second t) (dt_microsecond t) (Some 0)
  end.

Definition trigger_alert (env : environ) (secret rule_id : string) (trigger_value : option decimal) (triggered_at : datetime)
    : M world (string * AlertEvent) :=
  accepting ← is_accepting env;
  if negb accepting then raise (QueueFullError 60) else
  rule ← _fetch_rule env rule_id;
  if bool_decide (rule.2 = []) then raise (ValueError ("Alert rule " +:+ rule_id +:+ " has no enabled channels")) else
  let trigger_ts := aware triggered_at in
  out ← database env (fun now =>
    event ← insert_event env now rule_id trigger_value trigger_ts ((fun c => channel_value (cc_type c)) <$> rule.2);
    deliveries ← _create_deliveries env secret now event.1 rule_id rule.2 trigger_ts;
    mret (event, deliveries));
  _ ← _enqueue_deliveries env out.2 rule.1 trigger_value trigger_ts;
  mret out.1.

Definition acknowledge_alert (env : environ) (alert_id user_id : string) (note : option string) : M world unit :=
  database env (fun now d =>
    (Ok tt, {| t_rules := t_rules d;
      t_events := alter (fun e => {| ev_rule_id := ev_rule_id e; ev_triggered_at := ev_triggered_at e;
        ev_trigger_value := ev_trigger_value e; ev_acknowledged_at := Some now; ev_acknowledged_by := Some user_id;
        ev_acknowledged_note := note; ev_routed_channels := ev_routed_channels e; ev_created_at := ev_created_at e |})
        alert_id (t_events d);
      t_deliveries := t_deliveries d; t_serial := t_serial d |})).

(** ** Deliveries that failed (poison_queue.py) *)

Definition poisoned (now : Z) (error : string) (x : AlertDelivery) : AlertDelivery :=
  {| dl_alert_id := dl_alert_id x; dl_channel := dl_channel x; dl_recipient := dl_recipient x; dl_dedup_key := dl_dedup_key x;
     dl_status := POISON; dl_attempts := dl_attempts x; dl_last_attempt_at := Some now;
     dl_delivered_at := dl_delivered_at x; dl_poison_at := Some now; dl_error_message := Some error;
     dl_created_at := dl_created_at x |}.

Definition sync_gauge_from_db (env : environ) : M world Z :=
  database env (fun _ => reads (fun d => Z.of_nat (size (with_status [POISON] d)))).

Definition add (env : environ) (delivery_id error : string) : M world unit :=
  _ ← database env (fun now => update_delivery delivery_id (poisoned now error));
  _ ← sync_gauge_from_db env;
  mret tt.

(** [poison_at ASC NULLS LAST, created_at ASC] *)
Definition poison_le (x y : string * AlertDelivery) : Prop :=
  match dl_poison_at x.2, dl_poison_at y.2 with
  | Some a, Some b => a < b \/ (a = b /\ dl_created_at x.2 <= dl_created_at y.2)
  | Some _, None => True
  | None, Some _ => False
  | None, None => dl_created_at x.2 <= dl_created_at y.2
  end.

#[export] Instance poison_le_dec x y : Decision (poison_le x y).
Proof. unfold poison_le. repeat case_match; apply _. Defined.

Definition get_pending (env : environ) (limit : nat) : M world (list (string * AlertDelivery)) :=
  database env (fun _ => reads (fun d => take limit (merge_sort poison_le (map_to_list (with_status [POISON] d))))).

Definition resolve (env : environ) (delivery_id resolution : string) : M world unit :=
  _ ← database env (fun _ => update_delivery delivery_id (mark_failed resolution));
  _ ← sync_gauge_from_db env;
  mret tt.

(** ** The channels (channels/slack.py, email.py, sms.py)

    What a provider answers is an argument.  PagerDuty's channel has no definition (its error texts go through three regular
    expressions): it is one more [handler]. *)

Abbreviation handler := (nat -> message -> result DeliveryResult).

Fixpoint starts (word l : list Ascii.ascii) : bool :=
  match word, l with
  | [], _ => true
  | w :: word', c :: l' => bool_decide (w = c) && starts word' l'
  | _, [] => false
  end.

(** [text.replace(old, new)] of a word that is not empty. *)
Fixpoint replace_from (skip : nat) (old new l : list Ascii.ascii) : list Ascii.ascii :=
  match l with
  | [] => []
  | c :: l' =>
      match skip with
      | S k => replace_from k old new l'
      | O => if starts old l then new ++ replace_from (length old - 1) old new l' else c :: replace_from 0 old new l'
      end
  end.
Definition replace (text old new : string) : string := of_chars (replace_from 0 (chars old) (chars new) (chars text)).

(** A reply of an HTTP provider: the headers [retry-after] and [x-message-id]. *)
Inductive http_reply :=
| HttpReply (status_code : Z) (retry_after message_id : option string)
| TimeoutException
| RequestError (text : string)
| Raised (e : exn).

Definition retry_header (retry_after : option string) : gmap string string :=
  match retry_after with
  | Some r => if bool_decide (r = "") then ∅ else {["retry_after" := r]}
  | None => ∅
  end.

Definition truthy (s : option string) : option string :=
  match s with Some x => if bool_decide (x = "") then None else Some x | None => None end.

(** [SlackChannel.send]: [post] is the provider, given the URL and the text. *)
Definition slack_send (default_webhook_url : option string) (post : nat -> string -> string -> http_reply) : handler := fun n m =>
  let webhook_url := match truthy (Some (m_recipient m)) with Some r => Some r | None => truthy default_webhook_url end in
  match webhook_url with
  | None => Ok (failure "Slack webhook not configured" false)
  | Some url =>
      match post n url ("*" +:+ m_subject m +:+ "*" +:+ of_chars [chr 10] +:+ m_body m) with
      | TimeoutException => Ok (failure "timeout" true)
      | RequestError text => Ok (failure (replace text url (mask_webhook url)) true)
      | Raised e => Raise e
      | HttpReply status retry_after _ =>
          let metadata := retry_header retry_after in
          if status =? 200 then
            Ok {| dr_success := true; dr_message_id := None; dr_error := None; dr_retryable := true; dr_metadata := metadata |}
          else Ok (failure_with ("HTTP " +:+ str_int status) ((status =? 429) || (500 <=? status)) metadata)
      end
  end.

(** What [aiosmtplib] answers: it sent the message, or raised one of its errors, in the order they are caught. *)
Inductive smtp_reply :=
| SmtpSent (message_id : string)
| SMTPAuthenticationError (text : string)
| SMTPConnectError (text : string)
| SMTPRecipientsRefused (text : string)
| SMTPSenderRefused (text : string)
| SMTPResponseException (code : Z) (text : string)
| SmtpOther (text : string).

Record EmailChannel := { from_email : option string; sendgrid_api_key : option string }.

Definition email_sanitize (c : EmailChannel) (text recipient : string) : string :=
  let text := if bool_decide (recipient = "") then text else replace text recipient (mask_recipient recipient "email") in
  match truthy (from_email c) with Some f => replace text f (mask_recipient f "email") | None => text end.

(** A header of [EmailMessage] has no line break. *)
Definition header_ok (s : string) : bool := forallb (fun c => negb (is_char 10 c || is_char 13 c)) (chars s).

Definition _send_smtp (c : EmailChannel) (from : string) (smtp : nat -> message -> smtp_reply) : handler := fun n m =>
  if negb (header_ok from && header_ok (m_recipient m) && header_ok (m_subject m)) then
    Raise (ValueError "Header values may not contain linefeed or carriage return characters")
  else
    let failed text retryable := Ok (failure (email_sanitize c text (m_recipient m)) retryable) in
    match smtp n m with
    | SmtpSent id =>
        Ok {| dr_success := true; dr_message_id := Some id; dr_error := None; dr_retryable := true; dr_metadata := ∅ |}
    | SMTPAuthenticationError text => failed text false
    | SMTPConnectError text => failed text true
    | SMTPRecipientsRefused text => failed text false
    | SMTPSenderRefused text => failed text false
    | SMTPResponseException code text => failed text ((400 <=? code) && (code <? 500))
    | SmtpOther text => failed text true
    end.

Definition _send_sendgrid (c : EmailChannel) (post : nat -> message -> http_reply) : handler := fun n m =>
  match post n m with
  | TimeoutException => Ok (failure "timeout" true)
  | RequestError text => Ok (failure (email_sanitize c text (m_recipient m)) true)
  | Raised e => Raise e
  | HttpReply status retry_after message_id =>
      let metadata := retry_header retry_after in
      if status =? 202 then
        Ok {| dr_success := true; dr_message_id := message_id; dr_error := None; dr_retryable := true; dr_metadata := metadata |}
      else Ok (failure_with ("SendGrid HTTP " +:+ str_int status) ((status =? 429) || (500 <=? status)) metadata)
  end.

Definition email_send (c : EmailChannel) (smtp : nat -> message -> smtp_reply) (post : nat -> message -> http_reply) : handler :=
  fun n m =>
  match truthy (from_email c) with
  | None => Ok (failure "from_email not configured" false)
  | Some from =>
      smtp_result ← _send_smtp c from smtp n m;
      if dr_success smtp_result then Ok smtp_result
      else match truthy (sendgrid_api_key c) with
           | None => Ok (failure_with "SMTP failed and SendGrid not configured" (dr_retryable smtp_result) (dr_metadata smtp_result))
           | Some _ => _send_sendgrid c post n m
           end
  end.

(** What Twilio answers. *)
Inductive twilio_reply :=
| TwilioSent (sid : string)
| TwilioTimeout
| TwilioRestException (status code : option Z) (msg text : string)
| TwilioOther (text : string).

Definition sanitize_twilio (from_number text recipient : string) : string :=
  let text := if bool_decide (recipient = "") then text else replace text recipient (mask_recipient recipient "sms") in
  if bool_decide (from_number = "") then text else replace text from_number (mask_recipient from_number "sms").

Definition sms_send (from_number : string) (create : nat -> string -> string -> twilio_reply) : handler := fun n m =>
  match create n (m_recipient m) (m_subject m +:+ ": " +:+ m_body m) with
  | TwilioSent sid => Ok {| dr_success := true; dr_message_id := Some sid; dr_error := None; dr_retryable := true; dr_metadata := ∅ |}
  | TwilioTimeout => Ok (failure "timeout" true)
  | TwilioRestException status code msg text =>
      let retryable := match status with Some c => (c =? 429) || (500 <=? c) | None => false end in
      let said := sanitize_twilio from_number (if bool_decide (msg = "") then text else msg) (m_recipient m) in
      let status_text := match status with Some c => str_int c | None => "None" end in
      Ok (failure_with ("Twilio " +:+ status_text +:+ ": " +:+ said) retryable
            (match code with Some c => {["twilio_code" := str_int c]} | None => ∅ end))
  | TwilioOther text => Ok (failure (sanitize_twilio from_number text (m_recipient m)) true)
  end.

(** [build_channel_handlers]: the e-mail and SMS channels are there when their libraries are installed, and the SMS one when
    it is configured. *)
Definition build_channel_handlers (strict : bool) (slack pagerduty : handler) (email : option handler)
    (sms : option (option handler)) : result (ChannelType -> option handler) :=
  match email, sms with
  | None, _ => if strict then Raise (RuntimeError "email_channel_disabled: aiosmtplib is not installed. Any email alert rules will fail at delivery time. Install aiosmtplib to enable SMTP email notifications.")
               else match sms with
                    | None => Ok (fun c => match c with SLACK => Some slack | PAGERDUTY => Some pagerduty | _ => None end)
                    | Some h => Ok (fun c => match c with SLACK => Some slack | PAGERDUTY => Some pagerduty | SMS => h | EMAIL => None end)
                    end
  | Some e, None => if strict then Raise (RuntimeError "sms_channel_disabled: twilio is not installed. Any SMS alert rules will fail at delivery time.")
                    else Ok (fun c => match c with SLACK => Some slack | PAGERDUTY => Some pagerduty | EMAIL => Some e | SMS => None end)
  | Some e, Some h => Ok (fun c => match c with SLACK => Some slack | PAGERDUTY => Some pagerduty | EMAIL => Some e | SMS => h end)
  end.
