(* ===== verification/AlertDelivery.v ===== *)
(** * Delivering alerts (libs/platform/alerts/delivery_service.py, apps/alert_worker/entrypoint.py)

    A job of the queue claims its delivery, then tries up to three times to send it, within the rate limits, and leaves
    the delivery delivered, poisoned, or pending with a new job.  [execute] is the code of the executor, its loop a step
    repeated ([attempt_step]); the limiter, the channels and the scheduler are what the executor was built with.  The
    theorems: a run ends, and sends at most three times.  A row satisfies the constraints of its table, so that its
    validation as an [AlertDelivery] is left out. *)

From S2P Require Import Prelude PyDecimal PyText OrderSchema RedisClient Alerts.
From S2P Require Access Gateway RateLimiter Formats.
Open Scope Z_scope.

(** The protocol [AlertRateLimiter]. *)
Record AlertRateLimiter := {
  check_channel_rate_limit : string -> M world bool;
  check_recipient_rate_limit : string -> string -> M world bool;
  check_global_rate_limit : M world bool
}.

Record DeliveryExecutor := {
  channels : ChannelType -> option handler;
  rate_limiter : option AlertRateLimiter;
  retry_scheduler : option (Z -> Z -> M world unit)
}.

Definition MAX_ATTEMPTS : Z := 3.
Definition MAX_RATE_LIMIT_WAITS : Z := 3.
Definition LONG_RETRY_THRESHOLD : Z := 5.
Definition STUCK_TASK_THRESHOLD_MINUTES : Z := 15.
Definition MAX_IN_MEMORY_SLEEP_SECONDS : Z := 240.
Definition RATE_LIMIT_RETRY_DELAY : Z := 60.

Definition is_transient_error (r : DeliveryResult) : bool := if dr_success r then false else dr_retryable r.

(** [RETRY_DELAYS = [5, 30]] *)
Definition _delay_for_attempt (attempt_index : Z) : Z :=
  if attempt_index <=? 0 then 0 else if attempt_index =? 1 then 5 else 30.

Definition _should_reenqueue (r : DeliveryResult) : bool * Z :=
  match dr_metadata r !! "retry_after" ≫= Formats.parse_int with
  | Some n => if LONG_RETRY_THRESHOLD <? n then (true, n) else (false, 0)
  | None => (false, 0)
  end.

Definition _rate_limit_delay (r : DeliveryResult) : Z :=
  match dr_metadata r !! "retry_after" ≫= Formats.parse_int with
  | Some n => if n <=? 0 then RATE_LIMIT_RETRY_DELAY else n
  | None => RATE_LIMIT_RETRY_DELAY
  end.

(** ** The row *)

Definition claimable (now : Z) (x : AlertDelivery) : bool :=
  bool_decide (dl_status x = PENDING)
  || bool_decide (dl_status x = IN_PROGRESS)
     && match dl_last_attempt_at x with
        | Some t => t <? now - STUCK_TASK_THRESHOLD_MINUTES * 60 * second_us
        | None => false
        end.

(** A row with its status, its attempts, the time of the last one and its error. *)
Definition with_attempt (x : AlertDelivery) (status : DeliveryStatus) (attempts now : Z) (delivered : option Z)
    (error : option string) : AlertDelivery :=
  {| dl_alert_id := dl_alert_id x; dl_channel := dl_channel x; dl_recipient := dl_recipient x; dl_dedup_key := dl_dedup_key x;
     dl_status := status; dl_attempts := attempts; dl_last_attempt_at := Some now;
     dl_delivered_at := delivered; dl_poison_at := dl_poison_at x; dl_error_message := error;
     dl_created_at := dl_created_at x |}.

Definition claim (now : Z) (delivery_id : string) : M tables (option AlertDelivery) := fun d =>
  match t_deliveries d !! delivery_id with
  | Some x =>
      if claimable now x then
        let x' := with_attempt x IN_PROGRESS (dl_attempts x) now (dl_delivered_at x) (dl_error_message x) in
        (Ok (Some x'), set_deliveries (<[delivery_id := x']> (t_deliveries d)) d)
      else (Ok None, d)
  | None => (Ok None, d)
  end.

(** [text.split(c)] *)
Fixpoint split_on (n : Z) (l : list Ascii.ascii) : list (list Ascii.ascii) :=
  match l with
  | [] => [[]]
  | c :: l' =>
      if is_char n c then [] :: split_on n l'
      else match split_on n l' with w :: ws => (c :: w) :: ws | [] => [[c]] end
  end.

Section executor.
Context (env : environ) (ex : DeliveryExecutor).

(** A row that was not claimed is read again, for the log. *)
Definition _claim_delivery (delivery_id : string) : M world (option AlertDelivery) :=
  row ← database env (fun now => claim now delivery_id);
  match row with
  | Some x => mret (Some x)
  | None => _ ← database env (fun _ => reads (fun d => dl_status <$> t_deliveries d !! delivery_id)); mret None
  end.

(** [delivered_at = COALESCE(delivered_at, %s)] *)
Definition _record_attempt (delivery_id : string) (attempts : Z) (status : DeliveryStatus) (error : option string)
    (delivered : bool) : M world unit :=
  database env (fun now => update_delivery delivery_id (fun x =>
    with_attempt x status attempts now
      (match dl_delivered_at x with Some t => Some t | None => if (delivered : bool) then Some now else None end) error)).

Definition _record_attempt_failure (delivery_id : string) (attempts : Z) (error : option string) (status : DeliveryStatus)
    : M world unit :=
  database env (fun now => update_delivery delivery_id (fun x => with_attempt x status attempts now (dl_delivered_at x) error)).

Definition _extract_recipient_hash (delivery : AlertDelivery) : option string :=
  let parts := split_on 58 (chars (dl_dedup_key delivery)) in
  if bool_decide (dl_dedup_key delivery = "") then None
  else if (3 <=? length parts)%nat then of_chars <$> parts !! 2%nat else None.

Definition limited (error limit : string) : option DeliveryResult := Some (failure_with error true {["limit" := limit]}).

Definition _check_rate_limits (delivery : AlertDelivery) (channel : ChannelType) : M world (option DeliveryResult) :=
  match rate_limiter ex with
  | None => mret None
  | Some lim =>
      channel_allowed ← check_channel_rate_limit lim (channel_value channel);
      if negb channel_allowed then mret (limited "channel_rate_limited" "channel") else
      allowed ← match truthy (_extract_recipient_hash delivery) with
                | Some h => check_recipient_rate_limit lim h (channel_value channel)
                | None => mret true
                end;
      if negb allowed then mret (limited "recipient_rate_limited" "recipient") else
      global_allowed ← check_global_rate_limit lim;
      if negb global_allowed then mret (limited "global_rate_limited" "global") else mret None
  end.

(** The channel's [send] and the executor's [except Exception]; what was given to the channel is in the log. *)
Definition send (h : handler) (m : message) : M world DeliveryResult := fun s =>
  let '(World d q a j l o z n) := s in
  let r := h n m in
  (Ok match r with
      | Ok x => x
      | Raise e => failure_with (Gateway.str_exn e) true {["raised_exception" := "true"]}
      end,
   World d q a j l (o ++ [(m, r)]) z (S n)).

(** ** One turn of the loop of [execute] *)

(** The loop goes on with its variables [current_attempt], [rate_limit_waits] and [last_result], or [execute] returns. *)
Inductive turn := Again (current_attempt rate_limit_waits : Z) (last_result : DeliveryResult)
                | Return (r : DeliveryResult) (handoff_to_scheduler : bool).

Definition limit_of (r : DeliveryResult) : string := default "unknown" (dr_metadata r !! "limit").

Definition error_or_failed (r : DeliveryResult) : string := default "delivery failed" (truthy (dr_error r)).

(** The rate limit refuses the attempt. *)
Definition throttled (id : string) (current waits : Z) (r : DeliveryResult) : M world turn :=
  let retry_delay := _rate_limit_delay r in
  match retry_scheduler ex with
  | Some schedule =>
      let rate_limit_attempt := current + 1 in
      if MAX_ATTEMPTS <=? rate_limit_attempt then
        _ ← _record_attempt_failure id rate_limit_attempt (Some "rate_limit_retries_exhausted") FAILED;
        _ ← add env id "rate_limit_retries_exhausted";
        mret (Return (failure "rate_limit_retries_exhausted" false) false)
      else
        _ ← _record_attempt_failure id rate_limit_attempt (dr_error r) PENDING;
        try_except (_ ← schedule retry_delay rate_limit_attempt; mret (Return r true))
          (fun e =>
             if is_store_error e then Some (
               let last_result := failure_with "scheduler_enqueue_failed" true
                 (<["limit" := limit_of r]> {["scheduler_failed" := "true"]}) in
               let attempt_number := current + 1 in
               if MAX_ATTEMPTS <=? attempt_number then
                 _ ← _record_attempt id attempt_number FAILED (dr_error last_result) false;
                 _ ← add env id (error_or_failed last_result);
                 mret (Return last_result false)
               else
                 _ ← _record_attempt id attempt_number IN_PROGRESS (dr_error last_result) false;
                 mret (Again attempt_number waits last_result))
             else None)
  | None =>
      let waits := waits + 1 in
      if MAX_RATE_LIMIT_WAITS <=? waits then
        let last_result := failure_with "rate_limit_wait_exhausted" false
          (<["limit" := if bool_decide (dr_metadata r = ∅) then "" else default "None" (dr_metadata r !! "limit")]>
             {["waits" := str_int waits]}) in
        _ ← _record_attempt_failure id (current + 1) (dr_error last_result) FAILED;
        _ ← add env id (error_or_failed last_result);
        mret (Return last_result false)
      else
        _ ← _record_attempt_failure id current (dr_error r) IN_PROGRESS;
        _ ← sleep (Z.min retry_delay MAX_IN_MEMORY_SLEEP_SECONDS);
        mret (Again current waits r)
  end.

(** The attempt was made: its result is recorded, and tried again in time. *)
Definition attempted (id : string) (current waits : Z) (r : DeliveryResult) : M world turn :=
  let attempt_number := current + 1 in
  let is_terminal_failure := negb (dr_success r) && ((MAX_ATTEMPTS <=? attempt_number) || negb (is_transient_error r)) in
  let '(should_reenqueue, delay) :=
    if negb (dr_success r) && negb is_terminal_failure then _should_reenqueue r else (false, 0) in
  if dr_success r then
    _ ← _record_attempt id attempt_number DELIVERED None true;
    mret (Return r false)
  else if is_terminal_failure then
    _ ← _record_attempt id attempt_number FAILED (dr_error r) false;
    _ ← add env id (error_or_failed r);
    mret (Return r false)
  else
    let will_reenqueue := should_reenqueue && bool_decide (is_Some (retry_scheduler ex)) in
    _ ← _record_attempt id attempt_number (if will_reenqueue then PENDING else IN_PROGRESS) (dr_error r) false;
    if should_reenqueue then
      match retry_scheduler ex with
      | Some schedule => _ ← schedule delay attempt_number; mret (Return r true)
      | None => _ ← sleep (Z.min delay MAX_IN_MEMORY_SLEEP_SECONDS); mret (Again attempt_number waits r)
      end
    else mret (Again attempt_number waits r).

Definition attempt_step (id : string) (m : message) (attempt : Z) (delivery : AlertDelivery) (current waits : Z) : M world turn :=
  _ ← (if attempt <? current then
         let delay := _delay_for_attempt current in
         if delay =? 0 then mret tt else sleep (Z.min delay MAX_IN_MEMORY_SLEEP_SECONDS)
       else mret tt);
  rate_limit_result ← try_except (_check_rate_limits delivery (m_channel m))
    (fun e => if is_redis_error e then Some (mret (Some (failure_with "Rate limiter error" true {["limit" := "rate_limiter_exception"]})))
              else None);
  match rate_limit_result with
  | Some r => throttled id current waits r
  | None =>
      match channels ex (m_channel m) with
      | None =>
          let last_result := failure "Unknown channel type" false in
          _ ← _record_attempt id (current + 1) FAILED (dr_error last_result) false;
          _ ← add env id (error_or_failed last_result);
          mret (Return last_result false)
      | Some h => r ← send h m; attempted id current waits r
      end
  end.

(** After the loop. *)
Definition loop_end (id : string) (current : Z) (last_result : option DeliveryResult) : M world (DeliveryResult * bool) :=
  r ← match last_result with
      | Some r => mret r
      | None =>
          _ ← _record_attempt_failure id (Z.max current MAX_ATTEMPTS) (Some "Attempt limit reached") FAILED;
          mret (failure "attempt_limit_reached" false)
      end;
  _ ← add env id (error_or_failed r);
  mret (r, false).

(** The loop; [exhausted] is what happens without fuel. *)
Fixpoint attempt_loop (exhausted : M world (DeliveryResult * bool)) (fuel : nat) (id : string) (m : message) (attempt : Z)
    (delivery : AlertDelivery) (current waits : Z) (last_result : option DeliveryResult) : M world (DeliveryResult * bool) :=
  if MAX_ATTEMPTS <=? current then loop_end id current last_result
  else match fuel with
       | O => exhausted
       | S fuel' =>
           t ← attempt_step id m attempt delivery current waits;
           match t with
           | Again c w r => attempt_loop exhausted fuel' id m attempt delivery c w (Some r)
           | Return r handoff => mret (r, handoff)
           end
       end.

(** Enough for an attempt counter from zero and three waits ([loop_terminates]). *)
Definition FUEL : nat := 6.

(** [finally: if claimed and not handoff_to_scheduler: decrement] *)
Definition release (m : M world (DeliveryResult * bool)) : M world DeliveryResult := fun s =>
  match m s with
  | (Ok (r, true), s1) => (Ok r, s1)
  | (Ok (r, false), s1) => (_ ← decrement env; mret r) s1
  | (Raise e, s1) => (_ ← decrement env; raise e) s1
  end.

Definition execute (delivery_id : string) (channel : ChannelType) (recipient subject body : string) (attempt : Z)
    : M world DeliveryResult :=
  let m := {| m_channel := channel; m_recipient := recipient; m_subject := subject; m_body := body; m_delivery_id := delivery_id |} in
  delivery ← try_except (_claim_delivery delivery_id)
    (fun e => if is_store_error e then Some (_ ← decrement env; raise e) else None);
  match delivery with
  | None =>
      _ ← decrement env;
      mret {| dr_success := true; dr_message_id := Some delivery_id; dr_error := None; dr_retryable := true;
              dr_metadata := {["skipped" := "already_claimed_or_completed"]} |}
  | Some x =>
      release (attempt_loop (raise (InternalError "fuel")) FUEL delivery_id m attempt x (Z.max attempt (dl_attempts x)) 0 None)
  end.
End executor.

(** ** The worker (apps/alert_worker/entrypoint.py)

    Its resources are made for each job: they are the world's, and [REDIS_URL] and [DATABASE_URL] are set. *)

Definition _get_allowed_queues (queues_env : option string) : list string :=
  match truthy queues_env with
  | None => ["alerts"]
  | Some text =>
      let names := Access.strip ∘ of_chars <$> split_on 44 (chars text) in
      let parsed := foldl (fun l q => if bool_decide (q = "") || bool_decide (q ∈ l) then l else l ++ [q]) [] names in
      if bool_decide (parsed = []) then ["alerts"] else parsed
  end.

(** [origin] is the queue of the current job, when there is one. *)
Definition _get_rq_queue (allowed : list string) (origin queue_name : option string) : option string :=
  default_queue ← head allowed;
  let queue_name := match queue_name with
                    | Some q => q
                    | None => default default_queue (truthy origin)
                    end in
  Some (if bool_decide (queue_name ∈ allowed) then queue_name else default_queue).

(** The rate limiter over the worker's Redis. *)
Definition limiter_call (env : environ) (f : attempt -> Z -> M RateLimiter.limits bool) : M world bool := fun s =>
  let '(World d q a j l o z n) := s in
  let '(r, l') := f (redis env n) (clock env n) l in (r, World d q a j l' o z (S n)).

Definition worker_limiter (env : environ) (lim : RateLimiter.RateLimiter) : AlertRateLimiter := {|
  check_channel_rate_limit := fun c => limiter_call env (fun fate t => RateLimiter.check_channel_rate_limit lim fate t c);
  check_recipient_rate_limit := fun h c => limiter_call env (fun fate t => RateLimiter.check_recipient_rate_limit lim fate t h c);
  check_global_rate_limit := limiter_call env (RateLimiter.check_global_rate_limit lim)
|}.

(** [schedule_retry] *)
Definition schedule_retry (env : environ) (x : job) (delay next_attempt : Z) : M world unit :=
  enqueue env {| j_delivery_id := j_delivery_id x; j_channel := j_channel x; j_recipient := j_recipient x;
    j_subject := j_subject x; j_body := j_body x; j_attempt := next_attempt; j_delay := delay |}.

Definition _build_executor (env : environ) (lim : RateLimiter.RateLimiter) (handlers : ChannelType -> option handler) (x : job)
    : DeliveryExecutor :=
  {| channels := handlers; rate_limiter := Some (worker_limiter env lim); retry_scheduler := Some (schedule_retry env x) |}.

Definition execute_delivery_job (env : environ) (lim : RateLimiter.RateLimiter) (handlers : ChannelType -> option handler)
    (x : job) : M world DeliveryResult :=
  match channel_of (j_channel x) with
  | None => raise (ValueError ("'" +:+ j_channel x +:+ "' is not a valid ChannelType"))
  | Some c => execute env (_build_executor env lim handlers x) (j_delivery_id x) c (j_recipient x) (j_subject x) (j_body x) (j_attempt x)
  end.

(** [_sync_startup_metrics] *)
Definition _sync_startup_metrics (env : environ) : M world (Z * Z) :=
  poison_count ← sync_gauge_from_db env;
  depth ← sync_depth_from_db env;
  mret (poison_count, depth).

(** ** A run ends, and sends at most three times *)

Definition succeeded (p : message * result DeliveryResult) : Prop :=
  match p.2 with Ok r => dr_success r = true | Raise _ => False end.

#[export] Instance succeeded_dec p : Decision (succeeded p).
Proof. unfold succeeded. destruct p.2; apply _. Defined.

(** A step that gives nothing to a channel. *)
Definition silent {A} (m : M world A) : Prop := forall L, preserves (fun s => w_sent s = L) m.

Lemma silent_database {A} env (m : Z -> M tables A) : silent (database env m).
Proof. intros L [d q a j l o z n] H. unfold database. destruct (m (clock env n) d) as [[x|e] d'], (db env n); exact H. Qed.

Lemma silent_redis {A} env (f : option Z * list job -> A * (option Z * list job)) : silent (redis_call env f).
Proof. intros L [d q a j l o z n] H. unfold redis_call. destruct (f (q, j)) as [x [q' j']], (redis env n) as [|[]|]; exact H. Qed.

Lemma silent_sleep t : silent (sleep t).
Proof. by intros L [d q a j l o z n] H. Qed.

Lemma silent_bind {A B} (m : M world A) (f : A -> M world B) : silent m -> (forall a, silent (f a)) -> silent (m ≫= f).
Proof. intros Hm Hf L. apply preserves_bind; [apply Hm|intros a; apply Hf]. Qed.

Lemma silent_ret {A} (a : A) : silent (mret a : M world A).
Proof. intros L. apply preserves_ret. Qed.

Lemma silent_raise {A} e : silent (raise e : M world A).
Proof. intros L. apply preserves_raise. Qed.

Lemma silent_try {A} (m : M world A) h : silent m -> (forall e c, h e = Some c -> silent c) -> silent (try_except m h).
Proof. intros Hm Hh L. apply preserves_try; [apply Hm|]. intros e c E. by apply (Hh e). Qed.

Create HintDb silent.
#[export] Hint Resolve silent_database silent_redis silent_sleep silent_ret silent_raise : silent.

Lemma silent_add env id error : silent (add env id error).
Proof. repeat (apply silent_bind; [|intros ?]); try apply silent_database; auto with silent. Qed.

Lemma silent_decrement env : silent (decrement env).
Proof. apply silent_redis. Qed.

#[export] Hint Resolve silent_add silent_decrement : silent.

(** What an executor is built with sends nothing by itself. *)
Record quiet (ex : DeliveryExecutor) : Prop := {
  q_channel lim c : rate_limiter ex = Some lim -> silent (check_channel_rate_limit lim c);
  q_recipient lim h c : rate_limiter ex = Some lim -> silent (check_recipient_rate_limit lim h c);
  q_global lim : rate_limiter ex = Some lim -> silent (check_global_rate_limit lim);
  q_schedule f delay n : retry_scheduler ex = Some f -> silent (f delay n)
}.

Section bounds.
Context (env : environ) (ex : DeliveryExecutor).
Hypothesis Hq : quiet ex.

Lemma silent_limits delivery c : silent (_check_rate_limits ex delivery c).
Proof.
  unfold _check_rate_limits. destruct (rate_limiter ex) as [lim|] eqn:E; [|auto with silent].
  apply silent_bind; [by apply (q_channel ex Hq)|]. intros []; [cbn [negb]|apply silent_ret].
  apply silent_bind; [case_match; [by apply (q_recipient ex Hq)|apply silent_ret]|]. intros []; [cbn [negb]|apply silent_ret].
  apply silent_bind; [by apply (q_global ex Hq)|]. intros []; apply silent_ret.
Qed.

(** One turn: what it sends, and how it moves the counters of the loop. *)
Definition moves (current waits : Z) (l : list (message * result DeliveryResult)) (r : result turn) : Prop :=
  (length l <= 1)%nat /\
  match r with
  | Ok (Again c w _) => (c = current + 1 /\ w = waits \/ c = current /\ w = waits + 1 /\ w < MAX_RATE_LIMIT_WAITS /\ l = [])
                        /\ Forall (fun p => ~ succeeded p) l
  | Ok (Return x _) => Forall (fun p => succeeded p -> p.2 = Ok x) l
  | Raise _ => True
  end.

Definition turned (current waits : Z) (L : list (message * result DeliveryResult)) (r : result turn) (s : world) : Prop :=
  exists l, w_sent s = L ++ l /\ moves current waits l r.

(** The rules: a silent step first, and the two ends. *)
Lemma turned_silent {A} (m : M world A) (f : A -> M world turn) current waits L L' : silent m ->
  (exists l, L' = L ++ l /\ (length l <= 1)%nat) ->
  (forall a, ensures (fun s => w_sent s = L') (f a) (turned current waits L)) ->
  ensures (fun s => w_sent s = L') (m ≫= f) (turned current waits L).
Proof. intros Hm (l & -> & Hl) Hf. apply ensures_step; [|apply Hm|exact Hf]. intros e s Hs. by exists l. Qed.

Lemma turned_ret t current waits L l : moves current waits l (Ok t) ->
  ensures (fun s => w_sent s = L ++ l) (mret t : M world turn) (turned current waits L).
Proof. intros Hm. apply ensures_ret. intros s Hs. by exists l. Qed.

Lemma turned_nothing t current waits L : moves current waits [] (Ok t) ->
  ensures (fun s => w_sent s = L) (mret t : M world turn) (turned current waits L).
Proof. intros Hm. apply ensures_ret. intros s Hs. exists []. by rewrite app_nil_r. Qed.

Lemma turned_try (m : M world turn) h current waits L :
  ensures (fun s => w_sent s = L) m (fun r s => match r with Ok t => turned current waits L (Ok t) s | Raise _ => w_sent s = L end) ->
  (forall e c, h e = Some c -> ensures (fun s => w_sent s = L) c (turned current waits L)) ->
  ensures (fun s => w_sent s = L) (try_except m h) (turned current waits L).
Proof.
  intros Hm Hh s Hs. specialize (Hm s Hs). unfold try_except. destruct (m s) as [[t|e] s1]; [exact Hm|]. simpl in Hm.
  destruct (h e) as [c|] eqn:E; [by apply (Hh e c E)|]. exists []. rewrite app_nil_r. split; [exact Hm|]. split; [simpl; lia|done].
Qed.

Lemma nothing_sent (L : list (message * result DeliveryResult)) : exists l, L = L ++ l /\ (length l <= 1)%nat.
Proof. exists []. rewrite app_nil_r. simpl. split; [done|lia]. Qed.

Hint Resolve nothing_sent : core.

Ltac quietly := refine (turned_silent _ _ _ _ _ _ _ _ _); [first [apply silent_database|solve [auto with silent]]|eauto|intros ?].

Lemma throttled_turn id current waits x L : ensures (fun s => w_sent s = L) (throttled env ex id current waits x) (turned current waits L).
Proof.
  unfold throttled. destruct (retry_scheduler ex) as [schedule|] eqn:E.
  - case_match; [do 2 quietly; apply turned_nothing; split; [simpl; lia|constructor]|]. quietly.
    apply turned_try.
    + intros s Hs. pose proof (q_schedule ex Hq _ (_rate_limit_delay x) (current + 1) E L s Hs) as Hc.
      unfold mbind, M_bind. destruct (schedule _ _ s) as [[[]|e1] s1]; [|exact Hc].
      exists []. rewrite app_nil_r. split; [exact Hc|]. split; [simpl; lia|constructor].
    + intros e c. destruct (is_store_error e); [|done]. intros [= <-]. quietly. apply turned_nothing. split; [simpl; lia|].
      split; [by left|constructor].
  - destruct (Z.leb_spec MAX_RATE_LIMIT_WAITS (waits + 1)).
    + do 2 quietly. apply turned_nothing. split; [simpl; lia|constructor].
    + do 2 quietly. apply turned_nothing. split; [simpl; lia|]. split; [right; by split_and!|constructor].
Qed.

(** The attempt is in the log already: its result decides. *)
Lemma attempted_turn id current waits x L m r : (forall y, r = Ok y -> x = y) -> (forall e, r = Raise e -> dr_success x = false) ->
  current < MAX_ATTEMPTS ->
  ensures (fun s => w_sent s = L ++ [(m, r)]) (attempted env ex id current waits x) (turned current waits L).
Proof.
  intros Hok Hraise Hcur.
  assert (H1 : exists l, L ++ [(m, r)] = L ++ l /\ (length l <= 1)%nat) by (eexists; split; [done|simpl; lia]).
  assert (Hret : forall h, moves current waits [(m, r)] (Ok (Return x h))).
  { intros h. split; [simpl; lia|]. repeat constructor. unfold succeeded. simpl. destruct r as [y|e]; [|done]. by rewrite (Hok y). }
  unfold attempted. destruct (dr_success x) eqn:Ex; cbn [negb andb].
  - quietly. apply turned_ret, Hret.
  - assert (Hno : ~ succeeded (m, r)).
    { unfold succeeded. simpl. destruct r as [y|e]; [|tauto]. rewrite <- (Hok y) by done. by rewrite Ex. }
    assert (Hagain : moves current waits [(m, r)] (Ok (Again (current + 1) waits x))).
    { split; [simpl; lia|]. split; [by left|]. by repeat constructor. }
    destruct ((MAX_ATTEMPTS <=? current + 1) || negb (is_transient_error x)); cbn [negb].
    + do 2 quietly. apply turned_ret, Hret.
    + destruct (_should_reenqueue x) as [[] delay]; quietly; [|by apply turned_ret].
      destruct (retry_scheduler ex) as [schedule|] eqn:E.
      * refine (turned_silent _ _ _ _ _ _ (q_schedule ex Hq _ _ _ E) _ _); [done|intros ?]. apply turned_ret, Hret.
      * quietly. by apply turned_ret.
Qed.

Lemma step_turn id m attempt delivery current waits L : current < MAX_ATTEMPTS ->
  ensures (fun s => w_sent s = L) (attempt_step env ex id m attempt delivery current waits) (turned current waits L).
Proof.
  intros Hcur. unfold attempt_step.
  refine (turned_silent _ _ _ _ _ _ _ _ _); [repeat case_match; auto with silent|done|intros _].
  refine (turned_silent _ _ _ _ _ _ _ _ _); [|done|intros [x|]].
  { apply silent_try; [apply silent_limits|]. intros e c. destruct (is_redis_error e); [|done]. intros [= <-]. apply silent_ret. }
  - apply throttled_turn.
  - destruct (channels ex (m_channel m)) as [h|].
    + intros [d q a j l o z n] Hs. simpl in Hs. subst o. unfold mbind, M_bind, send.
      apply (attempted_turn id current waits _ L m (h n m)); [by intros y ->|by intros e ->|done|done].
    + do 2 quietly. apply turned_nothing. split; [simpl; lia|constructor].
Qed.

(** A log of a run: only its last message can have succeeded, and then its result is the run's. *)
Definition run_log (l : list (message * result DeliveryResult)) (r : result (DeliveryResult * bool)) : Prop :=
  forall l1 p l2, l = l1 ++ p :: l2 -> succeeded p -> l2 = [] /\ forall x h, r = Ok (x, h) -> p.2 = Ok x.

Lemma run_log_nil r : run_log [] r.
Proof. intros l1 p l2 H. by apply app_cons_not_nil in H. Qed.

Lemma run_log_failed l0 l r : Forall (fun p => ~ succeeded p) l0 -> run_log l r -> run_log (l0 ++ l) r.
Proof.
  revert l. induction l0 as [|q l0 IH]; intros l Hf Hl; [exact Hl|]. apply Forall_cons in Hf as [Hq' Hf].
  intros [|q1 l1] p l2 [= -> E] Hp; [done|]. by apply (IH l Hf Hl l1 p l2).
Qed.

Lemma run_log_last l r : (length l <= 1)%nat ->
  (forall x h, r = Ok (x, h) -> Forall (fun p => succeeded p -> p.2 = Ok x) l) -> run_log l r.
Proof.
  intros Hl Hf [|q l1] p l2 -> Hp; [|simpl in Hl; rewrite length_app in Hl; simpl in Hl; lia]. simpl in Hl.
  destruct l2; [|simpl in Hl; lia]. split; [done|]. intros x h E. specialize (Hf x h E). apply Forall_cons in Hf as [Hf _]. by apply Hf.
Qed.

(** What the loop from [current] may add to the log. *)
Definition run_adds (current : Z) (L : list (message * result DeliveryResult)) (r : result (DeliveryResult * bool)) (s : world) : Prop :=
  exists l, w_sent s = L ++ l /\ (length l <= Z.to_nat (MAX_ATTEMPTS - current))%nat /\ run_log l r.

Lemma silent_adds (m : M world (DeliveryResult * bool)) current L : silent m -> ensures (fun s => w_sent s = L) m (run_adds current L).
Proof. intros Hm s Hs. exists []. rewrite app_nil_r. split; [by apply Hm|]. split; [simpl; lia|apply run_log_nil]. Qed.

Lemma silent_end id current last : silent (loop_end env id current last).
Proof.
  unfold loop_end. apply silent_bind; [destruct last; [apply silent_ret|]|].
  - apply silent_bind; [apply silent_database|intros ?; apply silent_ret].
  - intros ?. apply silent_bind; [apply silent_add|intros ?; apply silent_ret].
Qed.

Lemma loop_log exhausted fuel id m attempt delivery : silent exhausted -> forall current waits last L,
  ensures (fun s => w_sent s = L) (attempt_loop env ex exhausted fuel id m attempt delivery current waits last) (run_adds current L).
Proof.
  intros Hex. induction fuel as [|fuel IH]; intros current waits last L; simpl.
  { case_match; apply silent_adds; [apply silent_end|exact Hex]. }
  destruct (Z.leb_spec MAX_ATTEMPTS current) as [Hc|Hc]; [apply silent_adds, silent_end|]. intros s Hs.
  destruct (step_turn id m attempt delivery current waits L Hc s Hs) as (l & Hl & Hlen & Hm).
  rewrite M_bind_run. destruct (attempt_step _ _ _ _ _ _ _ _ s) as [[[c w x|x h]|e] s1]; simpl in *.
  - destruct Hm as [Hcw Hf]. destruct (IH c w (Some x) (L ++ l) s1 Hl) as (l' & Hl' & Hlen' & Hlog). exists (l ++ l').
    split; [by rewrite Hl', app_assoc|]. split; [|by apply run_log_failed]. rewrite length_app.
    destruct Hcw as [[-> ->]|(-> & -> & _ & ->)]; simpl; lia.
  - exists l. split; [done|]. split; [lia|]. apply run_log_last; [done|]. by intros ? ? [= <- <-].
  - exists l. split; [done|]. split; [lia|]. by apply run_log_last.
Qed.

(** The loop's counters: attempts left and waits left. *)
Definition left (current waits : Z) : nat := Z.to_nat (MAX_ATTEMPTS - current) + Z.to_nat (MAX_RATE_LIMIT_WAITS - waits).

Lemma loop_enough exhausted exhausted' id m attempt delivery fuel : forall fuel' current waits last s,
  (left current waits <= fuel)%nat -> (left current waits <= fuel')%nat ->
  attempt_loop env ex exhausted fuel id m attempt delivery current waits last s =
  attempt_loop env ex exhausted' fuel' id m attempt delivery current waits last s.
Proof.
  unfold left. induction fuel as [|fuel IH]; intros [|fuel'] current waits last s H1 H2; simpl;
    destruct (Z.leb_spec MAX_ATTEMPTS current) as [Hc|Hc]; try done; try lia.
  destruct (step_turn id m attempt delivery current waits (w_sent s) Hc s eq_refl) as (l & _ & _ & Hm).
  rewrite !M_bind_run. destruct (attempt_step _ _ _ _ _ _ _ _ s) as [[[c w x|x h]|e] s1]; simpl in *; [|done..].
  destruct Hm as [[[-> ->]|(-> & -> & Hw & _)] _]; apply IH; lia.
Qed.
End bounds.

Lemma silent_limiter_call env f : silent (limiter_call env f).
Proof. intros L [d q a j l o z n] H. unfold limiter_call. by destruct (f (redis env n) (clock env n) l). Qed.

Lemma worker_quiet env lim handlers x : quiet (_build_executor env lim handlers x).
Proof. split; [intros ? c [= <-]|intros ? h c [= <-]|intros ? [= <-]|intros ? delay n [= <-]]; try apply silent_limiter_call. apply silent_redis. Qed.

Lemma silent_claim env id : silent (_claim_delivery env id).
Proof.
  unfold _claim_delivery. apply silent_bind; [apply silent_database|]. intros [y|]; [apply silent_ret|].
  apply silent_bind; [apply silent_database|intros ?; apply silent_ret].
Qed.

Lemma release_log env (m : M world (DeliveryResult * bool)) s : exists s1,
  snd (m s) = s1 /\ w_sent (snd (release env m s)) = w_sent s1 /\
  forall r, fst (release env m s) = Ok r -> exists h, fst (m s) = Ok (r, h).
Proof.
  exists (snd (m s)). split; [done|]. unfold release. destruct (m s) as [[[r []]|e] s1]; simpl.
  - split; [done|]. intros ? [= <-]. by exists true.
  - pose proof (silent_decrement env (w_sent s1) s1 eq_refl) as H. rewrite M_bind_run. destruct (decrement env s1) as [[n|e] s2]; simpl in *.
    + split; [done|]. intros ? [= <-]. by exists false.
    + by split.
  - pose proof (silent_decrement env (w_sent s1) s1 eq_refl) as H. rewrite M_bind_run. by destruct (decrement env s1) as [[n|e1] s2].
Qed.

(** What a job may send: [n] messages, of which only the last one succeeds, and then its result is returned. *)
Definition sends_at_most (n : nat) (before : list (message * result DeliveryResult)) (r : result DeliveryResult) (s : world) : Prop :=
  exists l, w_sent s = before ++ l /\ (length l <= n)%nat /\
    forall l1 p l2, l = l1 ++ p :: l2 -> succeeded p -> l2 = [] /\ forall y, r = Ok y -> p.2 = Ok y.

Lemma silent_sends n (m : M world DeliveryResult) L : silent m -> ensures (fun s => w_sent s = L) m (sends_at_most n L).
Proof.
  intros Hm s Hs. exists []. rewrite app_nil_r. split; [by apply Hm|]. split; [simpl; lia|]. intros l1 p l2 H.
  by apply app_cons_not_nil in H.
Qed.

Lemma execute_sends env ex id c recipient subject body attempt s : quiet ex ->
  sends_at_most (Z.to_nat (MAX_ATTEMPTS - attempt)) (w_sent s) (fst (execute env ex id c recipient subject body attempt s))
    (snd (execute env ex id c recipient subject body attempt s)).
Proof.
  intros Hq. unfold execute. set (n := Z.to_nat _).
  apply (ensures_step (fun s1 => w_sent s1 = w_sent s) _ _ (sends_at_most n (w_sent s))); [| | |done].
  - intros e s1 Hs. exists []. rewrite app_nil_r. split; [done|]. split; [simpl; lia|]. intros l1 p l2 H. by apply app_cons_not_nil in H.
  - apply silent_try; [apply silent_claim|]. intros e m. destruct (is_store_error e); [|done]. intros [= <-].
    apply silent_bind; [apply silent_decrement|intros ?; apply silent_raise].
  - intros [y|]; [|apply silent_sends, silent_bind; [apply silent_decrement|intros ?; apply silent_ret]].
    intros s1 Hs. destruct (release_log env (attempt_loop env ex (raise (InternalError "fuel")) FUEL id
      {| m_channel := c; m_recipient := recipient; m_subject := subject; m_body := body; m_delivery_id := id |} attempt y
      (Z.max attempt (dl_attempts y)) 0 None) s1) as (s2 & Hs2 & Hsent & Hr).
    destruct (loop_log env ex Hq (raise (InternalError "fuel")) FUEL id
      {| m_channel := c; m_recipient := recipient; m_subject := subject; m_body := body; m_delivery_id := id |} attempt y
      (silent_raise _) (Z.max attempt (dl_attempts y)) 0 None (w_sent s) s1 Hs) as (l & Hl & Hlen & Hlog).
    rewrite Hs2 in Hl. exists l. split; [by rewrite Hsent|]. split; [unfold n; lia|]. intros l1 p l2 E Hp.
    destruct (Hlog l1 p l2 E Hp) as [-> Hlast]. split; [done|]. intros z Hz. destruct (Hr z Hz) as [h Hh]. by apply (Hlast z h).
Qed.

(** C19. A job sends its delivery at most three times, less the attempts it was enqueued with, whatever fails and whatever the
    limiter, the channels and the stores answer; once a channel has accepted the message nothing more is sent, and if the run
    returns, it returns that channel's result. *)
Theorem job_sends_bounded env lim handlers x s :
  let '(r, s') := execute_delivery_job env lim handlers x s in
  sends_at_most (Z.to_nat (MAX_ATTEMPTS - j_attempt x)) (w_sent s) r s'.
Proof.
  pose proof (fun c => execute_sends env (_build_executor env lim handlers x) (j_delivery_id x) c (j_recipient x) (j_subject x)
    (j_body x) (j_attempt x) s (worker_quiet env lim handlers x)) as H.
  unfold execute_delivery_job. destruct (channel_of (j_channel x)) as [c|].
  - specialize (H c). by destruct (execute _ _ _ _ _ _ _ _ s).
  - by apply (silent_sends _ (raise _) (w_sent s) (silent_raise _)).
Qed.

(** The loop of [execute] ends: with fuel for three attempts and three waits it never runs out, whatever fails; more fuel,
    or anything else to do without fuel, changes nothing. *)
Theorem loop_terminates env ex exhausted fuel id m attempt delivery current s :
  quiet ex -> 0 <= current -> (FUEL <= fuel)%nat ->
  attempt_loop env ex exhausted fuel id m attempt delivery current 0 None s =
  attempt_loop env ex (raise (InternalError "fuel")) FUEL id m attempt delivery current 0 None s.
Proof.
  intros Hq Hc Hf. apply (loop_enough env ex Hq); unfold left, FUEL, MAX_ATTEMPTS, MAX_RATE_LIMIT_WAITS in *; lia.
Qed.
