(* ===== verification/AlertSystem.v ===== *)
(** * The alert system: the manager, the queue and the worker together (libs/platform/alerts, apps/alert_worker)

    What the system of [Alerts] and [AlertDelivery] does when alerts trigger and jobs run in any order: while the database and
    Redis answer no delivery is lost.  When Redis refuses, two are: the last examples. *)

From S2P Require Import Prelude PyDecimal PyText OrderSchema RedisClient Alerts AlertDelivery.
From S2P Require Gateway RateLimiter.
Open Scope Z_scope.

(** ** The system

    The manager triggers alerts, operators acknowledge events and resolve poisoned deliveries, the worker starts and takes the
    jobs of the queue, in any order: a delay is not waited for. *)

Definition take_job (l : list job) (s : world) : world :=
  let '(World d q a _ m o z n) := s in World d q a l m o z n.

Section system.
Context (env : environ) (secret : string) (lim : RateLimiter.RateLimiter) (handlers : ChannelType -> option handler).

Inductive alert_step : world -> world -> Prop :=
| trigger s rule_id value t : alert_step s (snd (trigger_alert env secret rule_id value t s))
| work s l x l' : w_jobs s = l ++ x :: l' -> alert_step s (snd (execute_delivery_job env lim handlers x (take_job (l ++ l') s)))
| acknowledge s id user note : alert_step s (snd (acknowledge_alert env id user note s))
| resolve_poisoned s id x text :
    t_deliveries (w_tables s) !! id = Some x -> dl_status x = POISON -> alert_step s (snd (resolve env id text s))
| start s : alert_step s (snd (_sync_startup_metrics env s)).

Inductive alert_run (s0 : world) : world -> Prop :=
| run_start : alert_run s0 s0
| run_step s s' : alert_run s0 s -> alert_step s s' -> alert_run s0 s'.
End system.

(** ** The system while the database and Redis answer *)

(** A program that returns. *)
Definition runs {A} (P : world -> Prop) (m : M world A) (R : A -> world -> Prop) : Prop :=
  forall s, P s -> exists a s', m s = (Ok a, s') /\ R a s'.

Lemma runs_bind {A B} P (m : M world A) (f : A -> M world B) R Q :
  runs P m R -> (forall a, runs (R a) (f a) Q) -> runs P (m ≫= f) Q.
Proof.
  intros Hm Hf s Hs. destruct (Hm s Hs) as (a & s1 & E & H1). destruct (Hf a s1 H1) as (b & s2 & E2 & H2).
  exists b, s2. by rewrite M_bind_run, E.
Qed.

Lemma runs_ret {A} (P : world -> Prop) (a : A) (R : A -> world -> Prop) : (forall s, P s -> R a s) -> runs P (mret a) R.
Proof. intros H s Hs. exists a, s. split; [done|by apply H]. Qed.

Lemma runs_try {A} P (m : M world A) h R : runs P m R -> runs P (try_except m h) R.
Proof. intros Hm s Hs. destruct (Hm s Hs) as (a & s1 & E & H1). exists a, s1. unfold try_except. by rewrite E. Qed.

Lemma runs_exists {A B} (P : B -> world -> Prop) (m : M world A) R :
  (forall b, runs (P b) m R) -> runs (fun s => exists b, P b s) m R.
Proof. intros H s [b Hb]. by apply (H b). Qed.

(** The parts of the world the theorems are about. *)
Definition seen (d : tables) (q : option Z) (J : list job) (o : list (message * result DeliveryResult)) (s : world) : Prop :=
  w_tables s = d /\ w_depth s = q /\ w_jobs s = J /\ w_sent s = o.

(** The tables with one delivery's row. *)
Definition with_row (d : tables) (id : string) (y : AlertDelivery) : tables := set_deliveries (<[id := y]> (t_deliveries d)) d.

Definition healthy (env : environ) : Prop :=
  (forall n, db env n = Gateway.Up) /\ (forall n, redis env n = Served) /\ (forall k k', new_id env k = new_id env k' -> k = k').

Section healthy.
Context (env : environ).
Hypothesis Henv : healthy env.

Lemma runs_database {A} (m : Z -> M tables A) d q J o (R : A -> world -> Prop) :
  (forall t, exists x d', m t d = (Ok x, d') /\ forall s, seen d' q J o s -> R x s) -> runs (seen d q J o) (database env m) R.
Proof.
  intros Hm [d0 q0 a j l o0 z n] (H1 & H2 & H3 & H4). simpl in *. subst. destruct (Hm (clock env n)) as (x & d' & E & HR).
  exists x, (World d' q a J l o z (S n)). unfold database. destruct Henv as [-> _]. rewrite E. split; [done|]. by apply HR.
Qed.

Lemma runs_redis {A} (f : option Z * list job -> A * (option Z * list job)) d q J o :
  runs (seen d q J o) (redis_call env f) (fun x s => x = fst (f (q, J)) /\ seen d (snd (f (q, J))).1 (snd (f (q, J))).2 o s).
Proof.
  intros [d0 q0 a j l o0 z n] (H1 & H2 & H3 & H4). simpl in *. subst. unfold redis_call.
  destruct (f (q, J)) as [x [q' j']]. destruct Henv as (_ & -> & _). by eexists _, _.
Qed.

Lemma runs_decrement n d J o : runs (seen d (Some n) J o) (decrement env) (fun _ => seen d (Some (Z.max 0 (n - 1))) J o).
Proof.
  intros s Hs. destruct (runs_redis (fun p : option Z * list job => let '(k, q) := let k := Z.max 0 (default 0 p.1 - 1) in (k, Some k) in (k, (q, p.2)))
    d (Some n) J o s Hs) as (k & s' & E & _ & H). by exists k, s'.
Qed.

Lemma runs_increment q d J o : runs (seen d q J o) (increment env) (fun _ => seen d (Some (default 0 q + 1)) J o).
Proof.
  intros s Hs. destruct (runs_redis (fun p : option Z * list job => let '(k, q) := let k := default 0 p.1 + 1 in (k, Some k) in (k, (q, p.2)))
    d q J o s Hs) as (k & s' & E & _ & H). by exists k, s'.
Qed.

Lemma runs_sleep t d q J o : runs (seen d q J o) (sleep t) (fun _ => seen d q J o).
Proof. intros [d0 q0 a j l o0 z n] H. by eexists _, _. Qed.

Lemma runs_update id f d y q J o : (forall t, attempts_check (f t y) = true) ->
  runs (seen (with_row d id y) q J o) (database env (fun now => update_delivery id (f now)))
    (fun _ s => exists now, seen (with_row d id (f now y)) q J o s).
Proof.
  intros Hf. apply runs_database. intros t. exists tt, (with_row d id (f t y)). split; [|intros s Hs; by exists t].
  unfold update_delivery, with_row. simpl. rewrite lookup_insert_eq, Hf. unfold set_deliveries. simpl. by rewrite insert_insert_eq.
Qed.

Lemma runs_add id error d y q J o : attempts_check y = true ->
  runs (seen (with_row d id y) q J o) (add env id error) (fun _ s => exists now, seen (with_row d id (poisoned now error y)) q J o s).
Proof.
  intros Hy. unfold add. apply (runs_bind _ _ _ _ _ (runs_update id (fun now => poisoned now error) d y q J o (fun _ => Hy))).
  intros _. apply runs_exists. intros now.
  apply (runs_bind _ _ _ (fun _ => seen (with_row d id (poisoned now error y)) q J o)).
  - apply runs_database. intros t. by eexists _, _.
  - intros _. apply runs_ret. intros s Hs. by exists now.
Qed.

Lemma runs_record id n st error delivered d y q J o : 0 <= n <= 3 ->
  runs (seen (with_row d id y) q J o) (_record_attempt env id n st error delivered)
    (fun _ s => exists now at_, seen (with_row d id (with_attempt y st n now at_ error)) q J o s).
Proof.
  intros Hn s Hs. edestruct (runs_update id) as (a & s' & E & now & H); [|exact Hs|].
  2: { exists a, s'. split; [exact E|]. exists now. eexists. exact H. }
  intros t. unfold attempts_check. simpl. lia.
Qed.

Lemma runs_failure id n error st d y q J o : 0 <= n <= 3 ->
  runs (seen (with_row d id y) q J o) (_record_attempt_failure env id n error st)
    (fun _ s => exists now, seen (with_row d id (with_attempt y st n now (dl_delivered_at y) error)) q J o s).
Proof. intros Hn. apply (runs_update id (fun now x => with_attempt x st n now (dl_delivered_at x) error)). intros t. unfold attempts_check. simpl. lia. Qed.

Lemma limiter_answers f d q J o : (forall t l, exists b l', f Served t l = (Ok b, l')) ->
  runs (seen d q J o) (limiter_call env f) (fun _ => seen d q J o).
Proof.
  intros Hf [d0 q0 a j l o0 z n] H. unfold limiter_call. destruct Henv as (_ & -> & _).
  destruct (Hf (clock env n) l) as (b & l' & ->). by eexists _, _.
Qed.

Lemma check_answers lim t key limit ttl l : exists b l',
  RateLimiter.check_alert_rate_limit lim Served t key limit ttl None l = (Ok b, l').
Proof. eexists _, _. done. Qed.

Lemma runs_limits lim handlers x delivery c d q J o :
  runs (seen d q J o) (_check_rate_limits (_build_executor env lim handlers x) delivery c)
    (fun r s => seen d q J o s /\ forall y, r = Some y -> dr_success y = false).
Proof.
  unfold _check_rate_limits. simpl. eapply runs_bind; [apply limiter_answers|].
  { intros t l. unfold RateLimiter.check_channel_rate_limit. destruct c; apply check_answers. }
  intros []; cbn [negb]; [|apply runs_ret; intros s Hs; split; [done|by intros y [= <-]]].
  eapply (runs_bind _ _ _ (fun _ => seen d q J o)); [case_match|].
  { apply limiter_answers. intros t l. unfold RateLimiter.check_recipient_rate_limit. destruct c; apply check_answers. }
  { by apply runs_ret. }
  intros []; cbn [negb]; [|apply runs_ret; intros s Hs; split; [done|by intros y [= <-]]].
  eapply runs_bind; [apply limiter_answers; intros t l; apply check_answers|].
  intros []; apply runs_ret; intros s Hs; (split; [done|]); [done|by intros y [= <-]].
Qed.

Definition same_delivery (y y' : AlertDelivery) : Prop := dl_channel y' = dl_channel y /\ dl_dedup_key y' = dl_dedup_key y.

Definition accepted (l : list (message * result DeliveryResult)) : nat := length (filter succeeded l).

Lemma accepted_one m r : accepted [(m, r)] =
  (if dr_success match r with Ok y => y | Raise e => failure_with (Gateway.str_exn e) true {["raised_exception" := "true"]} end
   then 1 else 0)%nat.
Proof.
  unfold accepted. rewrite filter_cons, filter_nil. destruct (decide (succeeded (m, r))) as [H|H]; unfold succeeded in H; simpl in H;
    destruct r as [y|e]; try done; [by rewrite H|]. by destruct (dr_success y).
Qed.

Section worker.
Context (lim : RateLimiter.RateLimiter) (handlers : ChannelType -> option handler) (x : job) (m : message).
Hypothesis Hm : m_delivery_id m = j_delivery_id x.

Let ex := _build_executor env lim handlers x.
Let id := j_delivery_id x.

Definition retry_of (delay n : Z) : job :=
  {| j_delivery_id := j_delivery_id x; j_channel := j_channel x; j_recipient := j_recipient x;
     j_subject := j_subject x; j_body := j_body x; j_attempt := n; j_delay := delay |}.

(** How a run leaves the row, the queue and the log. *)
Definition settled (d : tables) (y : AlertDelivery) (q : option Z) (J : list job) (L l : list (message * result DeliveryResult))
    (r : DeliveryResult) (handoff : bool) (s : world) : Prop :=
  if handoff then
    dr_success r = false /\ dl_status y = PENDING /\ dl_attempts y < MAX_ATTEMPTS /\ accepted l = 0%nat /\
    exists delay, seen (with_row d id y) q (J ++ [retry_of delay (dl_attempts y)]) (L ++ l) s
  else
    seen (with_row d id y) q J (L ++ l) s /\
    (dr_success r = true /\ dl_status y = DELIVERED /\ accepted l = 1%nat \/
     dr_success r = false /\ dl_status y = POISON /\ accepted l = 0%nat).

Definition turn_left (d : tables) (y : AlertDelivery) (current : Z) (q : option Z) (J : list job)
    (L : list (message * result DeliveryResult)) (t : turn) (s : world) : Prop :=
  exists y' l, Forall (fun p => m_delivery_id p.1 = id) l /\ (length l <= 1)%nat /\ same_delivery y y' /\
    dl_attempts y' = current + 1 /\
    match t with
    | Again c _ _ => c = current + 1 /\ c < MAX_ATTEMPTS /\ accepted l = 0%nat /\ dl_status y' = IN_PROGRESS /\ seen (with_row d id y') q J (L ++ l) s
    | Return r h => settled d y' q J L l r h s
    end.

(** The ends of a turn: the row is poisoned, or there is a new job. *)
Lemma poison_turn d y y' current q J L l error r : Forall (fun p => m_delivery_id p.1 = id) l -> (length l <= 1)%nat ->
  same_delivery y y' -> dl_attempts y' = current + 1 -> 0 <= current < MAX_ATTEMPTS -> accepted l = 0%nat -> dr_success r = false ->
  runs (seen (with_row d id y') q J (L ++ l)) (_ ← add env id error; mret (Return r false)) (turn_left d y current q J L).
Proof.
  intros Hl Hlen Hy Ha Hc Hacc Hr. unfold MAX_ATTEMPTS in Hc. eapply runs_bind; [apply runs_add; unfold attempts_check; lia|].
  intros []. cbn beta. apply runs_exists. intros now. apply runs_ret. intros s Hs. exists (poisoned now error y'), l.
  split; [done|]. split; [done|]. split; [done|]. split; [done|]. split; [done|by right].
Qed.

Lemma retry_turn d y y' current q J L l delay r : Forall (fun p => m_delivery_id p.1 = id) l -> (length l <= 1)%nat ->
  same_delivery y y' -> dl_attempts y' = current + 1 -> dl_status y' = PENDING -> current + 1 < MAX_ATTEMPTS -> accepted l = 0%nat ->
  dr_success r = false ->
  runs (seen (with_row d id y') q J (L ++ l)) (_ ← schedule_retry env x delay (current + 1); mret (Return r true))
    (turn_left d y current q J L).
Proof.
  intros Hl Hlen Hy Ha Hst Hc Hacc Hr. eapply runs_bind; [apply runs_redis|]. intros []. apply runs_ret.
  intros s [_ Hs]. exists y', l.
  split; [done|]. split; [done|]. split; [done|]. split; [done|]. simpl. rewrite Ha. split_and!; try done. by exists delay.
Qed.

Lemma throttled_runs d y current waits q J L r : dl_attempts y = current -> 0 <= current < MAX_ATTEMPTS -> dr_success r = false ->
  runs (seen (with_row d id y) q J L) (throttled env ex id current waits r) (turn_left d y current q J L).
Proof.
  intros Ha Hc Hr. unfold MAX_ATTEMPTS in *. unfold throttled. simpl. rewrite <- (app_nil_r L) at 1.
  destruct (Z.leb_spec MAX_ATTEMPTS (current + 1)) as [H|H]; unfold MAX_ATTEMPTS in H.
  - eapply runs_bind; [apply runs_failure; lia|]. intros []. cbn beta. apply runs_exists. intros now.
    apply poison_turn; try done. simpl; lia.
  - eapply runs_bind; [apply runs_failure; lia|]. intros []. cbn beta. apply runs_exists. intros now. apply runs_try.
    apply retry_turn; try done. simpl; lia.
Qed.

Lemma attempted_runs d y current waits q J L p r : m_delivery_id p.1 = id -> dl_attempts y = current -> 0 <= current < MAX_ATTEMPTS ->
  accepted [p] = (if dr_success r then 1 else 0)%nat ->
  runs (seen (with_row d id y) q J (L ++ [p])) (attempted env ex id current waits r) (turn_left d y current q J L).
Proof.
  intros Hp Ha Hc Hacc. assert (Hl : Forall (fun p => m_delivery_id p.1 = id) [p]) by (by repeat constructor).
  assert (Hlen : (length [p] <= 1)%nat) by (simpl; lia). unfold MAX_ATTEMPTS in *. unfold attempted.
  destruct (dr_success r) eqn:Er; cbn [negb andb].
  - eapply runs_bind; [apply runs_record; lia|]. intros []. cbn beta. apply runs_exists. intros now. apply runs_exists. intros t.
    apply runs_ret. intros s Hs. exists (with_attempt y DELIVERED (current + 1) now t None), [p].
    split; [done|]. split; [done|]. split; [done|]. split; [done|]. split; [done|by left].
  - destruct (Z.leb_spec MAX_ATTEMPTS (current + 1)) as [H|H]; unfold MAX_ATTEMPTS in H; cbn [orb negb].
    { eapply runs_bind; [apply runs_record; lia|]. intros []. cbn beta. apply runs_exists. intros now. apply runs_exists. intros t.
      by apply poison_turn. }
    destruct (is_transient_error r); cbn [negb].
    2: { eapply runs_bind; [apply runs_record; lia|]. intros []. cbn beta. apply runs_exists. intros now. apply runs_exists. intros t.
      by apply poison_turn. }
    destruct (_should_reenqueue r) as [[] delay]; cbn [andb].
    + eapply runs_bind; [apply runs_record; lia|]. intros []. cbn beta. apply runs_exists. intros now. apply runs_exists. intros t.
      simpl. by apply retry_turn.
    + eapply runs_bind; [apply runs_record; lia|]. intros []. cbn beta. apply runs_exists. intros now. apply runs_exists. intros t.
      apply runs_ret. intros s Hs. eexists _, [p]. split_and!; try exact Hs; done.
Qed.

Lemma step_runs attempt delivery d y current waits q J L : dl_attempts y = current -> 0 <= current < MAX_ATTEMPTS ->
  runs (seen (with_row d id y) q J L) (attempt_step env ex id m attempt delivery current waits) (turn_left d y current q J L).
Proof.
  intros Ha Hc. unfold attempt_step.
  apply (runs_bind _ _ _ (fun _ => seen (with_row d id y) q J L)).
  { repeat case_match; first [apply runs_sleep|by apply runs_ret]. }
  intros _. eapply runs_bind; [apply runs_try, runs_limits|]. intros [r|].
  - intros s [Hs Hr]. revert s Hs. change (runs (seen (with_row d id y) q J L) (throttled env ex id current waits r) (turn_left d y current q J L)).
    apply throttled_runs; [done..|by apply Hr].
  - simpl. intros s [Hs _]. revert s Hs. destruct (handlers (m_channel m)) as [h|].
    + intros [d0 q0 a j l o z n] (H1 & H2 & H3 & H4). simpl in *. subst. unfold mbind, M_bind, send.
      apply (attempted_runs d y (dl_attempts y) waits q J L (m, h n m)); try done.
      by apply accepted_one.
    + change (runs (seen (with_row d id y) q J L)
        (_ ← _record_attempt env id (current + 1) FAILED (dr_error (failure "Unknown channel type" false)) false;
         _ ← add env id (error_or_failed (failure "Unknown channel type" false));
         mret (Return (failure "Unknown channel type" false) false)) (turn_left d y current q J L)).
      unfold MAX_ATTEMPTS in *. rewrite <- (app_nil_r L) at 1.
      eapply runs_bind; [apply runs_record; lia|]. intros []. cbn beta. apply runs_exists. intros now. apply runs_exists. intros t.
      apply poison_turn; try done. simpl; lia.
Qed.

(** How a run ends. *)
Definition run_left (d : tables) (y : AlertDelivery) (q : option Z) (J : list job) (L : list (message * result DeliveryResult))
    (out : DeliveryResult * bool) (s : world) : Prop :=
  exists y' l, Forall (fun p => m_delivery_id p.1 = id) l /\ Z.of_nat (length l) <= dl_attempts y' - dl_attempts y /\
    dl_attempts y' <= MAX_ATTEMPTS /\ same_delivery y y' /\ settled d y' q J L l out.1 out.2 s.

Lemma settled_app d y q J L l0 l r h s : accepted l0 = 0%nat -> settled d y q J (L ++ l0) l r h s -> settled d y q J L (l0 ++ l) r h s.
Proof.
  intros H0. assert (E : accepted (l0 ++ l) = accepted l) by (unfold accepted in *; rewrite filter_app, length_app; lia).
  unfold settled. by rewrite E, <- app_assoc.
Qed.

Lemma loop_runs exhausted attempt delivery fuel : forall current waits last d y q J L, dl_attempts y = current ->
  0 <= current < MAX_ATTEMPTS -> (Z.to_nat (MAX_ATTEMPTS - current) <= fuel)%nat ->
  runs (seen (with_row d id y) q J L) (attempt_loop env ex exhausted fuel id m attempt delivery current waits last) (run_left d y q J L).
Proof.
  induction fuel as [|fuel IH]; intros current waits last d y q J L Ha Hc Hf; simpl;
    (destruct (Z.leb_spec MAX_ATTEMPTS current) as [H|H]; [lia|]); [lia|].
  intros s Hs. destruct (step_runs attempt delivery d y current waits q J L Ha Hc s Hs) as (t & s1 & E & y1 & l1 & Hl & Hlen & Hy & Ha1 & Ht).
  rewrite M_bind_run, E. destruct t as [c w r|r h].
  - destruct Ht as (-> & Hc1 & Hacc & Hst & H1).
    destruct (IH (current + 1) w (Some r) d y1 q J (L ++ l1) Ha1 ltac:(lia) ltac:(lia) s1 H1) as (out & s2 & E2 & y2 & l2 & Hl2 & Hlen2 & Hmax & Hy2 & Hset).
    exists out, s2. split; [exact E2|]. exists y2, (l1 ++ l2). split; [by apply Forall_app|]. split; [rewrite length_app; lia|].
    split; [done|]. split; [|by apply settled_app]. destruct Hy, Hy2. split; congruence.
  - exists (r, h), s1. split; [done|]. exists y1, l1. split; [done|]. split; [lia|]. split; [unfold MAX_ATTEMPTS in *; lia|]. by split.
Qed.

(** A job whose delivery is pending, with the attempts it was enqueued with, and a place in the queue. *)
Lemma execute_runs c d y n J L : t_deliveries d !! id = Some y -> dl_status y = PENDING -> dl_attempts y = j_attempt x ->
  0 <= j_attempt x < MAX_ATTEMPTS -> m = {| m_channel := c; m_recipient := j_recipient x; m_subject := j_subject x; m_body := j_body x; m_delivery_id := id |} ->
  runs (seen d (Some (n + 1)) J L) (execute env ex id c (j_recipient x) (j_subject x) (j_body x) (j_attempt x))
    (fun r s => exists h : bool, run_left d y (Some (if h then n + 1 else Z.max 0 n)) J L (r, h) s).
Proof.
  intros Hy Hst Ha Hc Em. unfold execute. rewrite <- Em.
  apply (runs_bind _ _ _ (fun o s => exists t, o = Some (with_attempt y IN_PROGRESS (j_attempt x) t (dl_delivered_at y) (dl_error_message y)) /\
    seen (with_row d id (with_attempt y IN_PROGRESS (j_attempt x) t (dl_delivered_at y) (dl_error_message y))) (Some (n + 1)) J L s)).
  { apply runs_try. unfold _claim_delivery.
    apply (runs_bind _ _ _ (fun o s => exists t, o = Some (with_attempt y IN_PROGRESS (j_attempt x) t (dl_delivered_at y) (dl_error_message y)) /\
      seen (with_row d id (with_attempt y IN_PROGRESS (j_attempt x) t (dl_delivered_at y) (dl_error_message y))) (Some (n + 1)) J L s)).
    - apply runs_database. intros t. unfold claim. rewrite Hy. unfold claimable. rewrite Hst, bool_decide_true by done. simpl. rewrite Ha.
      eexists _, _. split; [done|]. intros s Hs. by exists t.
    - intros [o|]; [|intros s (t & [=] & _)]. apply runs_ret. done. }
  intros [y1|]; [|intros s (t & [=] & _)]. apply runs_exists. intros t s [[= ->] Hs].
  assert (Hmax : Z.max (j_attempt x) (dl_attempts (with_attempt y IN_PROGRESS (j_attempt x) t (dl_delivered_at y) (dl_error_message y))) = j_attempt x)
    by (simpl; lia).
  rewrite Hmax. set (y1 := with_attempt y _ _ _ _ _) in *.
  destruct (loop_runs (raise (InternalError "fuel")) (j_attempt x) y1 FUEL (j_attempt x) 0 None d y1 (Some (n + 1)) J L eq_refl Hc
    ltac:(unfold FUEL, MAX_ATTEMPTS in *; lia) s Hs) as ([r h] & s1 & E & y2 & l & Hl & Hlen & Hatt & Hsame & Hset).
  assert (Hleft : forall (s2 : world) (q : option Z), settled d y2 q J L l r h s2 -> run_left d y q J L (r, h) s2).
  { intros s2 q H2. exists y2, l. rewrite Ha. by split_and!. }
  unfold release. rewrite E. destruct h; simpl in Hset.
  - exists r, s1. split; [done|]. exists true. apply Hleft, Hset.
  - destruct Hset as [H1 H2]. rewrite M_bind_run.
    destruct (runs_decrement (n + 1) (with_row d id y2) J (L ++ l) s1 H1) as (k & s2 & E2 & Hs2). rewrite E2. exists r, s2. split; [done|]. exists false.
    apply Hleft. simpl in *. split; [|done]. by replace (Z.max 0 n) with (Z.max 0 (n + 1 - 1)) by lia.
Qed.
End worker.
End healthy.

(** ** No delivery is lost *)

Definition sends (id : string) (o : list (message * result DeliveryResult)) : nat := length (filter (fun p => m_delivery_id p.1 = id) o).
Definition successes (id : string) (o : list (message * result DeliveryResult)) : nat :=
  length (filter (fun p => m_delivery_id p.1 = id /\ succeeded p) o).

(** The UNIQUE constraint of [dedup_key]. *)
Definition unique_keys (rows : gmap string AlertDelivery) : Prop := forall id id' y y',
  rows !! id = Some y -> rows !! id' = Some y' -> dl_dedup_key y = dl_dedup_key y' -> id = id'.

Lemma unique_keys_insert rows id y : unique_keys rows ->
  (forall id' y', rows !! id' = Some y' -> dl_dedup_key y' = dl_dedup_key y -> id' = id) -> unique_keys (<[id := y]> rows).
Proof.
  intros H Hy k k' y1 y2. destruct (decide (k = id)) as [->|Hk], (decide (k' = id)) as [->|Hk']; try done.
  - rewrite lookup_insert_eq, lookup_insert_ne by done. intros [= <-] H2 E. by rewrite (Hy k' y2).
  - rewrite lookup_insert_eq, lookup_insert_ne by done. intros H1 [= <-] E. by apply (Hy k y1).
  - rewrite !lookup_insert_ne by done. apply H.
Qed.

Record sound (env : environ) (d : tables) (q : option Z) (J : list job) (o : list (message * result DeliveryResult)) : Prop := {
  s_depth : default 0 q = Z.of_nat (length J);
  s_nodup : NoDup (j_delivery_id <$> J);
  s_job x : x ∈ J -> exists y, t_deliveries d !! j_delivery_id x = Some y /\ dl_status y = PENDING /\ dl_attempts y = j_attempt x /\
    0 <= j_attempt x < MAX_ATTEMPTS /\ j_channel x = channel_value (dl_channel y);
  s_row id y : t_deliveries d !! id = Some y -> dl_status y <> IN_PROGRESS /\ (dl_status y = PENDING -> id ∈ j_delivery_id <$> J) /\
    Z.of_nat (sends id o) <= dl_attempts y <= MAX_ATTEMPTS /\
    successes id o = (if bool_decide (dl_status y = DELIVERED) then 1 else 0)%nat;
  s_unsent id : t_deliveries d !! id = None -> sends id o = 0%nat;
  s_ids id : is_Some (t_deliveries d !! id) \/ is_Some (t_events d !! id) -> exists k, (k < t_serial d)%nat /\ id = new_id env k;
  s_keys : unique_keys (t_deliveries d)
}.

Lemma sends_app id o l : sends id (o ++ l) = (sends id o + sends id l)%nat.
Proof. unfold sends. by rewrite filter_app, length_app. Qed.

Lemma successes_app id o l : successes id (o ++ l) = (successes id o + successes id l)%nat.
Proof. unfold successes. by rewrite filter_app, length_app. Qed.

Lemma sends_own id l : Forall (fun p : message * result DeliveryResult => m_delivery_id p.1 = id) l ->
  sends id l = length l /\ successes id l = accepted l.
Proof.
  unfold sends, successes, accepted. induction 1 as [|p l Hp _ [IH1 IH2]]; [done|]. rewrite !filter_cons, decide_True by done. simpl.
  destruct (decide (succeeded p)) as [H|H]; [rewrite decide_True by done|rewrite decide_False by tauto]; simpl; lia.
Qed.

Lemma sends_other id id' l : Forall (fun p : message * result DeliveryResult => m_delivery_id p.1 = id) l -> id' <> id ->
  sends id' l = 0%nat /\ successes id' l = 0%nat.
Proof.
  unfold sends, successes. induction 1 as [|p l Hp _ IH]; intros Hne; [done|]. rewrite !filter_cons, !decide_False by naive_solver. by apply IH.
Qed.

Lemma successes_sends id l : (successes id l <= sends id l)%nat.
Proof. apply RateLimiter.length_filter_impl. naive_solver. Qed.

Section invariant.
Context (env : environ).

(** A job has run: its row is settled. *)
Lemma sound_run x d y q J J' o y' l h q' : t_deliveries d !! j_delivery_id x = Some y -> j_delivery_id x ∉ j_delivery_id <$> J ->
  sound env d q (x :: J) o -> Forall (fun p => m_delivery_id p.1 = j_delivery_id x) l ->
  Z.of_nat (length l) <= dl_attempts y' - dl_attempts y -> dl_attempts y' <= MAX_ATTEMPTS -> same_delivery y y' ->
  default 0 q' = Z.of_nat (length J') ->
  (if (h : bool) then dl_status y' = PENDING /\ dl_attempts y' < MAX_ATTEMPTS /\ accepted l = 0%nat /\
     exists delay, J' = J ++ [retry_of x delay (dl_attempts y')]
   else J' = J /\ (dl_status y' = DELIVERED /\ accepted l = 1%nat \/ dl_status y' = POISON /\ accepted l = 0%nat)) ->
  sound env (with_row d (j_delivery_id x) y') q' J' (o ++ l).
Proof.
  intros Hy Hx S Hl Hlen Hmax [Hch Hkey] Hq' Hend. set (id := j_delivery_id x) in *.
  destruct (s_job _ _ _ _ _ S x (list_elem_of_here _ _)) as (y0 & Hy0 & Hpend & Hatt & Hrange & Hchan).
  fold id in Hy0. assert (y0 = y) as -> by congruence. destruct (s_row _ _ _ _ _ S id y Hy) as (_ & _ & Hs & Hok).
  rewrite Hpend in Hok. destruct (sends_own id l Hl) as [Hown Hacc].
  assert (Hids : j_delivery_id <$> J' = if h then (j_delivery_id <$> J) ++ [id] else j_delivery_id <$> J).
  { destruct h; [destruct Hend as (_ & _ & _ & delay & ->); by rewrite fmap_app|by destruct Hend as [-> _]]. }
  pose proof (s_nodup _ _ _ _ _ S) as Hnd. simpl in Hnd. apply NoDup_cons in Hnd as [_ Hnd].
  split; unfold with_row; simpl.
  - exact Hq'.
  - rewrite Hids. destruct h; [|done]. apply NoDup_app. split_and!; [done| |apply NoDup_singleton].
    intros k Hk ->%list_elem_of_singleton. done.
  - intros z Hz. assert (Hold : z ∈ J -> exists y1, <[id:=y']> (t_deliveries d) !! j_delivery_id z = Some y1 /\ dl_status y1 = PENDING /\
      dl_attempts y1 = j_attempt z /\ 0 <= j_attempt z < MAX_ATTEMPTS /\ j_channel z = channel_value (dl_channel y1)).
    { intros Hz1. rewrite lookup_insert_ne; [apply (s_job _ _ _ _ _ S); by apply list_elem_of_further|].
      intros E. apply Hx. rewrite E. by apply list_elem_of_fmap_2. }
    destruct h; [destruct Hend as (H1 & H2 & H3 & delay & ->)|destruct Hend as [-> _]; by apply Hold].
    apply elem_of_app in Hz as [Hz| ->%list_elem_of_singleton]; [by apply Hold|]. exists y'. simpl. rewrite lookup_insert_eq.
    split_and!; try done; [lia|by rewrite Hch].
  - intros k y1. rewrite sends_app, successes_app. destruct (decide (k = id)) as [->|Hk].
    + rewrite lookup_insert_eq. intros [= <-]. rewrite Hids. destruct h.
      * destruct Hend as (H1 & H2 & H3 & _). rewrite H1. split_and!; [done|set_solver|lia|lia|]. rewrite bool_decide_false in Hok by done. rewrite bool_decide_false by done. lia.
      * rewrite bool_decide_false in Hok by done. destruct Hend as [_ [[H1 H2]|[H1 H2]]]; rewrite H1; split_and!; try done; try lia.
        -- rewrite bool_decide_true by done. lia.
        -- rewrite bool_decide_false by done. lia.
    + rewrite lookup_insert_ne by done. intros Hk1. destruct (sends_other id k l Hl Hk) as [E1 E2]. rewrite E1, E2, !Nat.add_0_r.
      destruct (s_row _ _ _ _ _ S k y1 Hk1) as (H1 & H2 & H3 & H4). split_and!; try done; try lia. intros Hp. specialize (H2 Hp).
      simpl in H2. rewrite Hids. destruct h; set_solver.
  - intros k. destruct (decide (k = id)) as [->|Hk]; [by rewrite lookup_insert_eq|]. rewrite lookup_insert_ne by done. intros Hn.
    rewrite sends_app. destruct (sends_other id k l Hl Hk) as [-> _]. rewrite (s_unsent _ _ _ _ _ S) by done. done.
  - intros k Hk. apply (s_ids _ _ _ _ _ S). destruct Hk as [Hk|Hk]; [|by right]. left.
    destruct (decide (k = id)) as [->|Hne]; [by rewrite Hy|]. by rewrite lookup_insert_ne in Hk.
  - apply unique_keys_insert; [apply (s_keys _ _ _ _ _ S)|]. intros k yk Hk E. apply (s_keys _ _ _ _ _ S _ _ yk y); [done..|congruence].
Qed.

Lemma sound_equiv d q q' J J' o : default 0 q = default 0 q' -> J ≡ₚ J' -> sound env d q J o -> sound env d q' J' o.
Proof.
  intros Hq HJ S. split.
  - rewrite <- Hq, (s_depth _ _ _ _ _ S). by rewrite HJ.
  - rewrite <- HJ. apply (s_nodup _ _ _ _ _ S).
  - intros x Hx. rewrite <- HJ in Hx. by apply (s_job _ _ _ _ _ S).
  - intros id y Hy. destruct (s_row _ _ _ _ _ S id y Hy) as (H1 & H2 & H3). split; [done|]. split; [|done]. intros Hp. rewrite <- HJ. by apply H2.
  - apply (s_unsent _ _ _ _ _ S).
  - apply (s_ids _ _ _ _ _ S).
  - apply (s_keys _ _ _ _ _ S).
Qed.

Definition system_sound (s : world) : Prop := sound env (w_tables s) (w_depth s) (w_jobs s) (w_sent s).

Lemma seen_sound d q J o s : seen d q J o s -> sound env d q J o -> system_sound s.
Proof. intros (<- & <- & <- & <-). done. Qed.

Lemma channel_of_value c : channel_of (channel_value c) = Some c.
Proof. by destruct c. Qed.

(** The worker takes a job. *)
Lemma sound_work lim handlers s l x l' : healthy env -> w_jobs s = l ++ x :: l' -> system_sound s ->
  system_sound (snd (execute_delivery_job env lim handlers x (take_job (l ++ l') s))).
Proof.
  intros Henv HJ S. unfold system_sound in S. rewrite HJ in S.
  apply (sound_equiv _ _ _ _ (x :: l ++ l') _ eq_refl (symmetry (Permutation_middle l l' x))) in S.
  assert (Hs : seen (w_tables s) (w_depth s) (l ++ l') (w_sent s) (take_job (l ++ l') s)) by (by destruct s).
  set (d := w_tables s) in *. set (o := w_sent s) in *. pose proof (s_depth _ _ _ _ _ S) as Hq.
  assert (Hq' : w_depth s = Some (Z.of_nat (length (l ++ l')) + 1)) by (rewrite length_cons, Nat2Z.inj_succ in Hq; destruct (w_depth s) as [k|]; cbv [from_option id] in Hq; [f_equal|exfalso]; lia).
  rewrite Hq' in *. destruct (s_job _ _ _ _ _ S x (list_elem_of_here _ _)) as (y & Hy & Hpend & Hatt & Hrange & Hchan).
  pose proof (s_nodup _ _ _ _ _ S) as Hnd. simpl in Hnd. apply NoDup_cons in Hnd as [Hx _].
  unfold execute_delivery_job. rewrite Hchan, channel_of_value.
  destruct (execute_runs env Henv lim handlers x {| m_channel := dl_channel y; m_recipient := j_recipient x; m_subject := j_subject x;
    m_body := j_body x; m_delivery_id := j_delivery_id x |} eq_refl (dl_channel y) d y _ (l ++ l') o Hy Hpend Hatt Hrange eq_refl _ Hs)
    as (r & s1 & E & h & y' & w & Hw & Hlen & Hmax & Hsame & Hset).
  rewrite E. cbn [snd fst] in *. destruct h; simpl in Hset.
  - destruct Hset as (_ & H1 & H2 & H3 & delay & H4). apply (seen_sound _ _ _ _ _ H4).
    apply (sound_run x d y _ (l ++ l') _ o y' w true _ Hy Hx S Hw Hlen Hmax Hsame); [rewrite (length_app (l ++ l')); cbn; lia|]. split_and!; try done. by exists delay.
  - destruct Hset as [H4 H5]. apply (seen_sound _ _ _ _ _ H4).
    apply (sound_run x d y _ (l ++ l') _ o y' w false _ Hy Hx S Hw Hlen Hmax Hsame); [cbn; lia|]. split; [done|].
    destruct H5 as [(_ & H5 & H6)|(_ & H5 & H6)]; [by left|by right].
Qed.

(** A call of the database leaves the rest as it was, and the tables too when it raises. *)
Lemma database_sound {A} (m : Z -> M tables A) (Q : result A -> world -> Prop) s : healthy env ->
  (forall t e, fst (m t (w_tables s)) = Raise e -> forall s', seen (w_tables s) (w_depth s) (w_jobs s) (w_sent s) s' -> Q (Raise e) s') ->
  (forall t a d', m t (w_tables s) = (Ok a, d') -> forall s', seen d' (w_depth s) (w_jobs s) (w_sent s) s' -> Q (Ok a) s') ->
  Q (fst (database env m s)) (snd (database env m s)).
Proof.
  destruct s as [d q a j l o z n]. intros (Hdb & _) He Hok. simpl in *. unfold database. rewrite Hdb.
  destruct (m (clock env n) d) as [[x|e] d'] eqn:E.
  - by apply (Hok (clock env n) x d' E).
  - apply (He (clock env n) e); [by rewrite E|done].
Qed.

Lemma read_sound {A} (f : tables -> A) : healthy env -> preserves system_sound (database env (fun _ => reads f)).
Proof.
  intros Henv s S. apply (database_sound _ (fun _ => system_sound)); [done|done|]. intros t a d' [= <- <-] s' Hs'.
  by apply (seen_sound _ _ _ _ _ Hs').
Qed.

Lemma redis_sound {A} (f : option Z * list job -> A * (option Z * list job)) :
  healthy env -> (forall q J, let '(_, (q', J')) := f (q, J) in J' = J /\ default 0 q' = default 0 q) ->
  preserves system_sound (redis_call env f).
Proof.
  intros Henv Hf s S. destruct (runs_redis env Henv f (w_tables s) (w_depth s) (w_jobs s) (w_sent s) s) as (a & s1 & E & _ & H); [by split_and!|].
  rewrite E. specialize (Hf (w_depth s) (w_jobs s)). destruct (f _) as [x [q' J']]. destruct Hf as [-> Hq]. simpl in *.
  apply (seen_sound _ _ _ _ _ H). by apply (sound_equiv _ (w_depth s) _ (w_jobs s)).
Qed.

(** A new row takes a job with it. *)
Lemma sound_insert d q J o row id k x : sound env d q J o -> id = new_id env k -> (forall k, new_id env k = id -> (t_serial d <= k)%nat) ->
  (k < S (t_serial d))%nat -> dl_status row = PENDING -> dl_attempts row = 0 -> (forall id' y, t_deliveries d !! id' = Some y -> dl_dedup_key y <> dl_dedup_key row) ->
  j_delivery_id x = id -> j_attempt x = 0 -> j_channel x = channel_value (dl_channel row) ->
  sound env {| t_rules := t_rules d; t_events := t_events d; t_deliveries := <[id := row]> (t_deliveries d); t_serial := S (t_serial d) |}
    (Some (default 0 q + 1)) (J ++ [x]) o.
Proof.
  intros S Hid Hfresh Hk Hst Hatt Hkey Hx Hx0 Hxc.
  assert (Hnone : t_deliveries d !! id = None).
  { destruct (t_deliveries d !! id) as [y|] eqn:E; [|done]. destruct (s_ids _ _ _ _ _ S id) as (k' & Hk' & Ek'); [left; by rewrite E|].
    specialize (Hfresh k' (eq_sym Ek')). lia. }
  assert (Hids : id ∉ j_delivery_id <$> J).
  { intros (z & Hz & HzJ)%list_elem_of_fmap. destruct (s_job _ _ _ _ _ S z HzJ) as (y & Hy & _). congruence. }
  split; simpl.
  - rewrite length_app, (s_depth _ _ _ _ _ S). simpl. lia.
  - rewrite fmap_app. apply NoDup_app. split_and!; [apply (s_nodup _ _ _ _ _ S)| |apply NoDup_singleton].
    intros i Hi Hi'. simpl in Hi'. apply list_elem_of_singleton in Hi'. congruence.
  - intros z [Hz|Hz]%elem_of_app.
    + rewrite lookup_insert_ne; [by apply (s_job _ _ _ _ _ S)|]. intros E. apply Hids. rewrite E. by apply list_elem_of_fmap_2.
    + apply list_elem_of_singleton in Hz as ->. exists row. rewrite Hx, lookup_insert_eq. unfold MAX_ATTEMPTS. split_and!; try done; lia.
  - intros i y. rewrite fmap_app. simpl. rewrite Hx. destruct (decide (i = id)) as [->|Hi].
    + rewrite lookup_insert_eq. intros [= <-]. pose proof (s_unsent _ _ _ _ _ S id Hnone). pose proof (successes_sends id o).
      rewrite Hst, Hatt. unfold MAX_ATTEMPTS. rewrite bool_decide_false by done. split_and!; [done|set_solver|lia..].
    + rewrite lookup_insert_ne by done. intros Hy. destruct (s_row _ _ _ _ _ S i y Hy) as (H1 & H2 & H3). split; [done|]. split; [|done].
      intros Hp. specialize (H2 Hp). set_solver.
  - intros i. destruct (decide (i = id)) as [->|Hi]; [by rewrite lookup_insert_eq|]. rewrite lookup_insert_ne by done. apply (s_unsent _ _ _ _ _ S).
  - intros i Hi. destruct (decide (i = id)) as [->|Hne]; [by exists k|]. rewrite lookup_insert_ne in Hi by done.
    destruct (s_ids _ _ _ _ _ S i Hi) as (k' & Hk' & E). exists k'. split; [lia|done].
  - apply unique_keys_insert; [apply (s_keys _ _ _ _ _ S)|]. intros i y Hy E. by destruct (Hkey i y Hy).
Qed.

Lemma key_taken_false key rows : key_taken key rows = false -> forall id y, rows !! id = Some y -> dl_dedup_key y <> key.
Proof.
  intros H id y Hy E. apply not_true_iff_false in H. apply H. unfold key_taken. apply existsb_exists. exists (id, y). split.
  - by apply list_elem_of_In, elem_of_map_to_list.
  - by apply bool_decide_eq_true.
Qed.

(** The job of a delivery, as [enqueue_one] makes it. *)
Definition first_job (subject body : string) (p : string * ChannelConfig) : job :=
  {| j_delivery_id := p.1; j_channel := channel_value (cc_type p.2); j_recipient := cc_recipient p.2;
     j_subject := subject; j_body := body; j_attempt := 0; j_delay := 0 |}.

(** The tables are sound with these jobs, when the counter agrees. *)
Definition sound_with (d : tables) (J : list job) (o : list (message * result DeliveryResult)) : Prop :=
  sound env d (Some (Z.of_nat (length J))) J o.

Lemma sound_with_intro d q J o : sound env d q J o -> sound_with d J o.
Proof. intros S. apply (sound_equiv d q _ J J o); [apply (s_depth _ _ _ _ _ S)|done|done]. Qed.

(** Events, and identifiers given out, matter to nothing else. *)
Lemma sound_events d events J o : sound_with d J o ->
  (forall id, is_Some (events !! id) -> is_Some (t_events d !! id) \/ id = new_id env (t_serial d)) ->
  sound_with {| t_rules := t_rules d; t_events := events; t_deliveries := t_deliveries d; t_serial := S (t_serial d) |} J o.
Proof.
  intros S He. split; try apply S. intros id [H|H]; simpl in H.
  - destruct (s_ids _ _ _ _ _ S id) as (k & Hk & E); [by left|]. exists k. simpl. split; [lia|done].
  - destruct (He id H) as [H'| ->]; [|exists (t_serial d); simpl; split; [lia|done]].
    destruct (s_ids _ _ _ _ _ S id) as (k & Hk & E); [by right|]. exists k. simpl. split; [lia|done].
Qed.

Section trigger.
Hypothesis Henv : healthy env.

Lemma insert_event_sound now rule_id value t chs d J o e d' : sound_with d J o ->
  insert_event env now rule_id value t chs d = (Ok e, d') -> sound_with d' J o.
Proof.
  intros S. unfold insert_event, fresh_id, mbind, M_bind, get_state. simpl. destruct (t_rules d !! rule_id) as [r|]; [|done].
  case_bool_decide; [done|]. intros [= <- <-]. apply sound_events; [done|]. intros id.
  destruct (decide (id = new_id env (t_serial d))) as [->|Hne]; [by right|]. rewrite lookup_insert_ne by done. by left.
Qed.

Lemma insert_delivery_sound now alert_id c masked key d J o : sound_with d J o -> exists r d',
  insert_delivery env now alert_id c masked key d = (Ok r, d') /\
  match r with
  | None => sound_with d' J o
  | Some id => forall x, j_delivery_id x = id -> j_attempt x = 0 -> j_channel x = channel_value c -> sound_with d' (J ++ [x]) o
  end.
Proof.
  intros S. unfold insert_delivery, fresh_id, mbind, M_bind, get_state. simpl. destruct (key_taken key (t_deliveries d)) eqn:Ek.
  - eexists None, _. split; [done|]. apply sound_events; [done|]. by left.
  - destruct Henv as (_ & _ & Hinj). case_bool_decide as Hid.
    { destruct (s_ids _ _ _ _ _ S (new_id env (t_serial d))) as (k & Hk & E); [by left|]. apply Hinj in E. lia. }
    eexists (Some _), _. split; [done|]. intros x Hx H0 Hc. eapply sound_with_intro. apply (sound_insert _ _ _ _ _ _ (t_serial d) x S); try done.
    + intros k Hk. apply Hinj in Hk. lia.
    + lia.
    + simpl. by apply key_taken_false.
Qed.

Lemma create_sound secret now alert_id rule_id subject body chs t : forall acc d J o,
  sound_with d (J ++ (first_job subject body <$> acc)) o -> exists ds d',
  for_each (fun deliveries channel =>
    let dedup_key := compute_dedup_key rule_id (channel_value (cc_type channel)) (cc_recipient channel) t secret in
    let masked := mask_recipient (cc_recipient channel) (channel_value (cc_type channel)) in
    row ← insert_delivery env now alert_id (cc_type channel) masked dedup_key;
    mret (match row with Some id => deliveries ++ [(id, channel)] | None => deliveries end)) acc chs d = (Ok ds, d') /\
  sound_with d' (J ++ (first_job subject body <$> ds)) o.
Proof.
  induction chs as [|c chs IH]; intros acc d J o S; [by exists acc, d|]. cbn [for_each].
  edestruct (insert_delivery_sound now alert_id (cc_type c) (mask_recipient (cc_recipient c) (channel_value (cc_type c)))
    (compute_dedup_key rule_id (channel_value (cc_type c)) (cc_recipient c) t secret) d _ o S) as (r & d1 & E & Hr).
  rewrite M_bind_run, M_bind_run, E. cbn [mret M_ret]. destruct r as [id|]; [|by apply IH]. apply IH.
  rewrite fmap_app, app_assoc. by apply Hr.
Qed.

Lemma increments_run {A} (ds : list A) d J o : forall k,
  runs (fun s => exists q, default 0 q = k /\ seen d q J o s) (for_each (fun _ _ => _ ← increment env; mret tt) tt ds)
    (fun _ s => exists q, default 0 q = k + Z.of_nat (length ds) /\ seen d q J o s).
Proof.
  induction ds as [|p ds IH]; intros k; cbn [for_each].
  { apply runs_ret. intros s (q & Hq & Hs). exists q. simpl. split; [lia|done]. }
  intros s (q & Hq & Hs). destruct (runs_increment env Henv q d J o s Hs) as (n & s1 & E & H1).
  destruct (IH (k + 1) s1) as (u & s2 & E2 & q2 & Hq2 & H2); [exists (Some (default 0 q + 1)); simpl; split; [lia|done]|].
  exists u, s2. rewrite !M_bind_run, E. simpl. split; [exact E2|]. exists q2. simpl in *. split; [lia|done].
Qed.

Lemma enqueues_run subject body d q o ds : forall J acc,
  runs (seen d q J o) (for_each (fun rs p => r ← enqueue_one env subject body p; mret (rs ++ [r])) acc ds)
    (fun rs s => rs = acc ++ ((fun p : string * ChannelConfig => (p.1, None)) <$> ds) /\ seen d q (J ++ (first_job subject body <$> ds)) o s).
Proof.
  induction ds as [|p ds IH]; intros J acc; cbn [for_each].
  { apply runs_ret. intros s Hs. by rewrite !app_nil_r. }
  intros s Hs. destruct (runs_redis env Henv (fun p' : option Z * list job => (tt, (p'.1, p'.2 ++ [first_job subject body p]))) d q J o s Hs)
    as (n & s1 & E & _ & H1).
  destruct (IH _ (acc ++ [(p.1, None)]) s1 H1) as (rs & s2 & E2 & Hrs & H2). exists rs, s2. split.
  - rewrite M_bind_run, M_bind_run. unfold enqueue_one, try_except, enqueue. rewrite M_bind_run. unfold first_job in E. rewrite E. exact E2.
  - rewrite Hrs, <- !app_assoc. split; [done|]. cbn [snd] in H2. by rewrite <- !app_assoc in H2.
Qed.

Lemma no_failures_run P (ds : list (string * ChannelConfig)) (f : string * option exn -> exn -> M world unit) :
  runs P (for_each (fun _ (r : string * option exn) => match r.2 with None => mret tt | Some e => f r e end) tt
    ((fun p => (p.1, None)) <$> ds)) (fun _ => P).
Proof. induction ds as [|p ds IH]; simpl; [by apply runs_ret|]. intros s Hs. by apply IH. Qed.

Lemma enqueue_runs ds name value t d q J o : default 0 q = Z.of_nat (length J) ->
  runs (seen d q J o) (_enqueue_deliveries env ds name value t)
    (fun _ s => exists q', default 0 q' = Z.of_nat (length J + length ds) /\
      seen d q' (J ++ (first_job ("[Alert] " +:+ name +:+ " triggered") (alert_body name value t) <$> ds)) o s).
Proof.
  intros Hq s Hs. unfold _enqueue_deliveries. rewrite M_bind_run.
  destruct (increments_run ds d J o (Z.of_nat (length J)) s) as (u & s1 & -> & q1 & Hq1 & H1); [by exists q|]. rewrite M_bind_run.
  destruct (enqueues_run ("[Alert] " +:+ name +:+ " triggered") (alert_body name value t) d q1 o ds J [] s1 H1) as (rs & s2 & -> & -> & H2).
  rewrite app_nil_l. destruct (no_failures_run (seen d q1 (J ++ (first_job ("[Alert] " +:+ name +:+ " triggered") (alert_body name value t) <$> ds)) o)
    ds (fun r error => _ ← decrement env; _mark_delivery_failed env r.1 ("Enqueue failed: " +:+ Gateway.str_exn error)) s2 H2) as ([] & s3 & E & H3).
  exists tt, s3. split; [exact E|]. exists q1. split; [lia|done].
Qed.

Lemma sound_accepting : preserves system_sound (is_accepting env).
Proof.
  apply preserves_bind; [by apply redis_sound|]. intros depth. apply preserves_bind; [apply preserves_reads|]. intros a.
  repeat case_match; try apply preserves_ret; (apply preserves_bind; [by intros [d q b J l o z n]|intros ?; apply preserves_ret]).
Qed.

Lemma sound_fetch rule_id : preserves system_sound (_fetch_rule env rule_id).
Proof.
  unfold _fetch_rule. apply preserves_bind; [by apply read_sound|]. intros [r|]; [|apply preserves_raise].
  apply preserves_bind; [apply preserves_lift|intros ?; apply preserves_ret].
Qed.

(** What is to be enqueued would make the system sound. *)
Definition to_enqueue (name : string) (value : option decimal) (ts : datetime) (out : (string * AlertEvent) * list (string * ChannelConfig))
    (s : world) : Prop :=
  exists q J, default 0 q = Z.of_nat (length J) /\ seen (w_tables s) q J (w_sent s) s /\
    sound_with (w_tables s) (J ++ (first_job ("[Alert] " +:+ name +:+ " triggered") (alert_body name value ts) <$> out.2)) (w_sent s).

Lemma sound_trigger secret rule_id value t : preserves system_sound (trigger_alert env secret rule_id value t).
Proof.
  unfold trigger_alert. apply preserves_bind; [apply sound_accepting|]. intros []; cbn [negb]; [|apply preserves_raise].
  apply preserves_bind; [apply sound_fetch|]. intros [name chs]. case_bool_decide; [apply preserves_raise|]. cbn [fst snd].
  set (ts := aware t).
  apply (ensures_bind system_sound (to_enqueue name value ts) _ _ (fun _ => system_sound)).
  - intros s S. apply (database_sound _ (fun r s => match r with Ok a => to_enqueue name value ts a s | Raise _ => system_sound s end)); [done| |].
    { intros _ e _ s' Hs'. by apply (seen_sound _ _ _ _ _ Hs'). }
    intros now out d' E s' (<- & Hq & HJ & Ho). exists (w_depth s), (w_jobs s).
    split; [apply (s_depth _ _ _ _ _ S)|]. split; [by split_and!|]. rewrite Ho. apply sound_with_intro in S.
    apply M_bind_inv in E as [(e & d1 & E1 & E2)|(e & _ & [=])]. pose proof (insert_event_sound _ _ _ _ _ _ _ _ _ _ S E1) as S1.
    destruct (create_sound secret now e.1 rule_id ("[Alert] " +:+ name +:+ " triggered") (alert_body name value ts) chs ts [] d1 (w_jobs s) (w_sent s))
      as (ds & d2 & E3 & S2); [by rewrite app_nil_r|].
    assert (E4 : _create_deliveries env secret now e.1 rule_id chs ts d1 = (Ok ds, d2)) by exact E3.
    rewrite M_bind_run in E2. rewrite E4 in E2. by injection E2 as <- <-.
  - intros [e ds] s (q & J & Hq & Hs & S). cbn [fst snd] in *. rewrite M_bind_run.
    destruct (enqueue_runs ds name value ts _ q J _ Hq s Hs) as (u & s' & -> & q' & Hq' & H').
    apply (seen_sound _ _ _ _ _ H'). apply (sound_equiv _ _ q' _ _ _ ) with (3 := S); [|done].
    rewrite Hq', length_app, length_fmap. done.
Qed.
End trigger.

Lemma sound_resolve id y text : healthy env -> forall s, t_deliveries (w_tables s) !! id = Some y -> dl_status y = POISON ->
  system_sound s -> system_sound (snd (resolve env id text s)).
Proof.
  intros Henv s Hy Hst S. unfold resolve.
  refine (ensures_bind (fun s1 => s1 = s) (fun _ => system_sound) _ _ (fun _ => system_sound) _ _ s eq_refl).
  2: { intros []. apply preserves_bind; [by apply read_sound|intros ?; apply preserves_ret]. }
  intros s1 ->. refine (database_sound _ (fun r s' => match r with Ok _ => system_sound s' | Raise _ => system_sound s' end) s Henv _ _).
  { intros _ e _ s' Hs'. by apply (seen_sound _ _ _ _ _ Hs'). }
  intros _ [] d'. unfold update_delivery. rewrite Hy. destruct (attempts_check _); [|done]. intros [= <-] s' Hs'.
  apply (seen_sound _ _ _ _ _ Hs'). clear s' Hs'. change (sound env (with_row (w_tables s) id (mark_failed text y)) (w_depth s) (w_jobs s) (w_sent s)).
  destruct (s_row _ _ _ _ _ S id y Hy) as (_ & _ & Hs & Hok). rewrite Hst, bool_decide_false in Hok by done.
  split; unfold with_row; simpl; try apply S.
  - intros z Hz. destruct (s_job _ _ _ _ _ S z Hz) as (y1 & H1 & H2 & H3). rewrite lookup_insert_ne; [by exists y1|]. congruence.
  - intros k y1. destruct (decide (k = id)) as [->|Hk]; [|rewrite lookup_insert_ne by done; apply S].
    rewrite lookup_insert_eq. intros [= <-]. split; [done|]. split; [done|]. by split.
  - intros k. destruct (decide (k = id)) as [->|Hk]; [by rewrite lookup_insert_eq|rewrite lookup_insert_ne by done; apply S].
  - intros k [Hk|Hk]; apply (s_ids _ _ _ _ _ S); [|by right]. left. destruct (decide (k = id)) as [->|Hne]; [by rewrite Hy|].
    by rewrite lookup_insert_ne in Hk.
  - apply unique_keys_insert; [apply S|]. intros k yk Hk E. by apply (s_keys _ _ _ _ _ S _ _ yk y).
Qed.

Lemma sound_acknowledge id user note : healthy env -> preserves system_sound (acknowledge_alert env id user note).
Proof.
  intros Henv s S. refine (database_sound _ (fun _ => system_sound) s Henv _ _); [done|].
  intros now [] d' [= <-] s' Hs'. apply (seen_sound _ _ _ _ _ Hs'). split; try apply S. intros k [Hk|Hk]; simpl in Hk; apply (s_ids _ _ _ _ _ S).
  - by left.
  - right. rewrite lookup_alter in Hk. destruct (decide (id = k)) as [->|]; [by apply fmap_is_Some in Hk|done].
Qed.

(** The unfinished deliveries are those of the jobs. *)
Lemma unfinished_size d q J o : sound env d q J o -> size (with_status [PENDING; IN_PROGRESS] d) = length J.
Proof.
  intros S. rewrite <- size_dom, <- (length_fmap j_delivery_id J).
  replace (dom (with_status [PENDING; IN_PROGRESS] d)) with (list_to_set (j_delivery_id <$> J) : gset string).
  { apply size_list_to_set, (s_nodup _ _ _ _ _ S). }
  apply set_eq. intros id. rewrite elem_of_list_to_set, elem_of_dom. unfold with_status. split.
  - intros (x & -> & Hx)%list_elem_of_fmap. destruct (s_job _ _ _ _ _ S x Hx) as (y & Hy & Hp & _). exists y.
    apply map_lookup_filter_Some. split; [done|]. simpl. rewrite Hp. set_solver.
  - intros (y & (Hy & Hst)%map_lookup_filter_Some). simpl in Hst. destruct (s_row _ _ _ _ _ S id y Hy) as (H1 & H2 & _). set_solver.
Qed.

Lemma sound_start : healthy env -> preserves system_sound (_sync_startup_metrics env).
Proof.
  intros Henv. unfold _sync_startup_metrics. apply preserves_bind; [by apply read_sound|]. intros n.
  apply preserves_bind; [|intros ?; apply preserves_ret]. unfold sync_depth_from_db.
  apply (ensures_bind system_sound (fun k s => system_sound s /\ k = Z.of_nat (length (w_jobs s))) _ _ (fun _ => system_sound)).
  - intros s S. apply (database_sound _ (fun r s' => match r with Ok k => system_sound s' /\ k = Z.of_nat (length (w_jobs s')) | Raise _ => system_sound s' end)); [done|done|].
    intros _ k d' [= <- <-] s' Hs'. split; [by apply (seen_sound _ _ _ _ _ Hs')|]. destruct Hs' as (_ & _ & -> & _).
    by rewrite (unfinished_size _ _ _ _ S).
  - intros k s [S ->]. rewrite M_bind_run. unfold depth_call.
    destruct (runs_redis env Henv (fun p : option Z * list job => (tt, (Some (Z.of_nat (length (w_jobs s))), p.2)))
      (w_tables s) (w_depth s) (w_jobs s) (w_sent s) s) as (u & s' & E & _ & H); [by split_and!|].
    rewrite E. apply (seen_sound _ _ _ _ _ H). by apply sound_with_intro in S.
Qed.

Lemma sound_steps secret lim handlers s s' : healthy env -> alert_step env secret lim handlers s s' -> system_sound s -> system_sound s'.
Proof.
  intros Henv [] S; [by apply sound_trigger|by apply sound_work|by apply sound_acknowledge|by apply (sound_resolve _ x)|by apply sound_start].
Qed.

Lemma sound_runs secret lim handlers s s' : healthy env -> alert_run env secret lim handlers s s' -> system_sound s -> system_sound s'.
Proof. intros Henv. induction 1 as [|s1 s2 _ IH H]; intros S; [done|]. apply (sound_steps _ _ _ _ _ Henv H). by apply IH. Qed.
End invariant.

(** No alert yet: rules and events, but no delivery, job or message. *)
Definition fresh_system (env : environ) (s : world) : Prop :=
  t_deliveries (w_tables s) = ∅ /\ t_events (w_tables s) = ∅ /\ default 0 (w_depth s) = 0 /\ w_jobs s = [] /\ w_sent s = [].

Lemma fresh_sound env s : fresh_system env s -> system_sound env s.
Proof.
  intros (Hd & He & Hq & HJ & Ho). unfold system_sound. rewrite HJ, Ho. split; rewrite ?Hd, ?He.
  - by rewrite Hq.
  - constructor.
  - by intros x Hx%elem_of_nil.
  - by intros id y Hy.
  - done.
  - intros id [H|H]; by rewrite lookup_empty in H; apply is_Some_None in H.
  - by intros id id' y y' Hy.
Qed.

(** The jobs of a delivery. *)
Definition jobs_of (id : string) (s : world) : nat := length (filter (fun x => j_delivery_id x = id) (w_jobs s)).

Lemma nodup_count {A} (f : A -> string) (l : list A) id : NoDup (f <$> l) ->
  length (filter (fun x => f x = id) l) = (if bool_decide (id ∈ f <$> l) then 1 else 0)%nat.
Proof.
  induction l as [|x l IH]; intros Hnd; [done|]. simpl in Hnd. apply NoDup_cons in Hnd as [Hx Hnd]. specialize (IH Hnd). rewrite filter_cons.
  destruct (decide (f x = id)) as [<-|Hne]; simpl.
  - rewrite IH, bool_decide_false by done. rewrite bool_decide_true; [done|set_solver].
  - rewrite IH. repeat case_bool_decide; set_solver.
Qed.

(** C18. No delivery is lost, while the database and Redis answer: whatever alerts trigger, in whatever order the worker takes the
    jobs, and whatever the channels answer, an unfinished delivery is pending with exactly one job and a finished one has none,
    the depth of the queue is its number of jobs, a delivery is sent at most three times, and a channel has accepted it exactly
    once when it is delivered and never otherwise. *)
Theorem no_delivery_lost env secret lim handlers s0 s : healthy env -> fresh_system env s0 -> alert_run env secret lim handlers s0 s ->
  default 0 (w_depth s) = Z.of_nat (length (w_jobs s)) /\
  forall id y, t_deliveries (w_tables s) !! id = Some y ->
    dl_status y <> IN_PROGRESS /\
    jobs_of id s = (if bool_decide (dl_status y = PENDING) then 1 else 0)%nat /\
    (sends id (w_sent s) <= 3)%nat /\
    successes id (w_sent s) = (if bool_decide (dl_status y = DELIVERED) then 1 else 0)%nat.
Proof.
  intros Henv H0 Hrun. pose proof (sound_runs env secret lim handlers s0 s Henv Hrun (fresh_sound env s0 H0)) as S.
  split; [apply S|]. intros id y Hy. destruct (s_row _ _ _ _ _ S id y Hy) as (H1 & H2 & H3 & H4). unfold MAX_ATTEMPTS in H3.
  split; [done|]. split; [|split; [lia|done]]. unfold jobs_of. rewrite (nodup_count _ _ _ (s_nodup _ _ _ _ _ S)).
  destruct (decide (dl_status y = PENDING)) as [Hp|Hp]; [rewrite !bool_decide_true; [done|done|by apply H2]|].
  rewrite !bool_decide_false; [done|done|]. intros (x & -> & Hx)%list_elem_of_fmap.
  destruct (s_job _ _ _ _ _ S x Hx) as (y' & Hy' & Hp' & _). congruence.
Qed.

(** ** Examples *)

Definition sample_env (redis_fate : nat -> attempt) : environ := {|
  clock := fun n => Z.of_nat n * second_us; db := fun _ => Gateway.Up; redis := redis_fate; new_id := fun n => str_int (Z.of_nat n) |}.

Lemma sample_healthy : healthy (sample_env (fun _ => Served)).
Proof. split; [done|]. split; [done|]. intros k k' H. apply (inj str_int) in H. lia. Qed.

Definition sample_limiter : RateLimiter.RateLimiter := {|
  RateLimiter.fallback_mode := "deny"; RateLimiter.default_max_requests := None;
  RateLimiter.default_window_seconds := None; RateLimiter.key_prefix := "rate_limit:" |}.

Definition sample_rule : rule_row := {|
  rr_name := "drawdown"; rr_enabled := true;
  rr_channels := Some [ {| cj_type := Some "slack"; cj_recipient := Some "https://hooks.slack.com/services/T0"; cj_enabled := None |};
                        {| cj_type := Some "sms"; cj_recipient := Some "+15550100"; cj_enabled := Some false |} ] |}.

Definition sample_world : world :=
  World {| t_rules := {["r1" := sample_rule]}; t_events := ∅; t_deliveries := ∅; t_serial := 0 |} None true []
    {| RateLimiter.l_sets := ∅; RateLimiter.l_counters := ∅ |} [] [] 0.

Definition at_ten (minute : Z) : datetime := DateTime (Date 2024 12 31) 10 minute 0 0 None.

Definition delivered_result : DeliveryResult :=
  {| dr_success := true; dr_message_id := None; dr_error := None; dr_retryable := true; dr_metadata := ∅ |}.

(** Slack fails once, then accepts. *)
Definition sample_handlers (c : ChannelType) : option handler :=
  match c with SLACK => Some (fun n _ => if (n <? 12)%nat then Ok (failure "HTTP 500" true) else Ok delivered_result) | _ => None end.

Definition triggered : world := snd (trigger_alert (sample_env (fun _ => Served)) "secret" "r1" (Some (Dec 105 (-2))) (at_ten 5) sample_world).

Definition worked : world :=
  match w_jobs triggered with
  | x :: l => snd (execute_delivery_job (sample_env (fun _ => Served)) sample_limiter sample_handlers x (take_job l triggered))
  | [] => triggered
  end.

Example one_delivery_run :
  length (w_jobs triggered) = 1%nat /\ w_depth triggered = Some 1 /\ w_depth worked = Some 0 /\ w_slept worked = [5] /\
  (snd <$> w_sent worked) = [Ok (failure "HTTP 500" true); Ok delivered_result] /\
  (dl_status <$> t_deliveries (w_tables worked) !! "1") = Some DELIVERED /\
  (dl_recipient <$> t_deliveries (w_tables worked) !! "1") = Some "***s/T0".
Proof. vm_compute. split_and!; reflexivity. Qed.

(** When Redis refuses the slot of a delivery, [trigger_alert] raises after its transaction: the delivery stays pending without a
    job, and as long as the hour lasts a new trigger makes no delivery and no job, for its key is taken. *)
Definition refused_slot : result (string * AlertEvent) * world :=
  trigger_alert (sample_env (fun n => if bool_decide (n = 3%nat) then Refused else Served)) "secret" "r1" None (at_ten 5) sample_world.

Example refused_slot_strands_delivery :
  fst refused_slot = Raise RedisError /\ (dl_status <$> t_deliveries (w_tables (snd refused_slot)) !! "1") = Some PENDING /\
  w_jobs (snd refused_slot) = [] /\
  let '(r, s) := trigger_alert (sample_env (fun _ => Served)) "secret" "r1" None (at_ten 55) (snd refused_slot) in
  (exists e, r = Ok e) /\ w_jobs s = [] /\ t_deliveries (w_tables s) = t_deliveries (w_tables (snd refused_slot)).
Proof. vm_compute. split_and!; try reflexivity. by eexists. Qed.

(** When Redis refuses the new job of a delivery that a channel asked to send later, the delivery stays pending without one. *)
Definition asks_later (c : ChannelType) : option handler :=
  Some (fun _ _ => Ok (failure_with "HTTP 429" true {["retry_after" := "60"]})).

Definition retry_refused : result DeliveryResult * world :=
  match w_jobs triggered with
  | x :: l => execute_delivery_job (sample_env (fun n => if bool_decide (n = 11%nat) then Refused else Served)) sample_limiter asks_later x
                (take_job l triggered)
  | [] => (Raise RetryError, triggered)
  end.

Example refused_retry_strands_delivery :
  fst retry_refused = Raise RedisError /\ (dl_status <$> t_deliveries (w_tables (snd retry_refused)) !! "1") = Some PENDING /\
  w_jobs (snd retry_refused) = [] /\ w_depth (snd retry_refused) = Some 0.
Proof. vm_compute. split_and!; reflexivity. Qed.

(** The same instant in two time zones has two keys. *)
Example hours_are_local :
  let utc := DateTime (Date 2024 12 31) 10 45 0 0 (Some 0) in
  let india := DateTime (Date 2024 12 31) 16 15 0 0 (Some 330) in
  datetime_isoformat (hour_of utc) = "2024-12-31T10:00:00+00:00" /\ datetime_isoformat (hour_of india) = "2024-12-31T16:00:00+05:30".
Proof. vm_compute. split; reflexivity. Qed.

Lemma no_delivery_lost_witness :
  w_depth worked = Some 0 /\
  (exists y, t_deliveries (w_tables worked) !! "1" = Some y /\ dl_status y = DELIVERED /\ successes "1" (w_sent worked) = 1%nat).
Proof.
  assert (Hrun : alert_run (sample_env (fun _ => Served)) "secret" sample_limiter sample_handlers sample_world worked).
  { apply (run_step _ _ _ _ _ triggered).
    - apply (run_step _ _ _ _ _ sample_world); [apply run_start|]. apply trigger.
    - unfold worked. destruct (w_jobs triggered) as [|x l] eqn:E; [vm_compute in E; discriminate|].
      apply (work _ _ _ _ triggered [] x l E). }
  assert (Hrow : exists y, t_deliveries (w_tables worked) !! "1" = Some y /\ dl_status y = DELIVERED)
    by (eexists; split; vm_compute; reflexivity).
  destruct Hrow as (y & Hy & Hst).
  destruct (no_delivery_lost (sample_env (fun _ => Served)) "secret" sample_limiter sample_handlers sample_world worked sample_healthy
    ltac:(vm_compute; split_and!; reflexivity) Hrun) as [_ H].
  destruct (H "1" y Hy) as (_ & _ & _ & Hs). rewrite Hst, bool_decide_true in Hs by reflexivity.
  split; [vm_compute; reflexivity|]. exists y. split; [exact Hy|]. split; [exact Hst|exact Hs].
Defined.
